(* ===== verification/_CoqProject ===== *)
-Q . S2P
Prelude.v
Bits.v
Atomic.v
Bitmap.v
MrHeap.v
KList.v
DentryHash.v
Fs.v
BlockBuf.v
FileCtrl.v
FsInit.v
Mount.v
FileOps.v
FileRw.v
FilePersist.v
FileCreate.v
FileDir.v
FileClient.v
FileSys.v
Format.v
FileMount.v
FileLife.v
LockfreeQueue.v
FileCopy.v
SlabPool.v
IpcShm.v
MemPool.v
HashList.v
Rpc.v
RpcRegistry.v
Sdcs.v
SdcsStart.v
Endpoint.v
LibBitmap.v
VdsoSym.v
DsdbNode.v
UnixSocket.v
DsdbMain.v
DsdbMap.v
Bpf.v
