(* ===== verification/Prelude.v ===== *)
(** * A verification of Cinos

    Cinos is a collection of systems components in C, with one each in C++ and Go.  This
    library translates the following parts of it into functions and step relations and
    proves what they do.

    ** The program and its models

    - userfs (src/userfs/), a file system in user space on one disk file.  Formatting
      writes a super block, block group descriptors and a directory table; mounting
      reads them back and builds an index of the groups (a heap ordered by free
      blocks) and a hash table of names; the file operations take blocks from the
      lightest group, keep block buffers in memory while a file is open and write
      them back on close.
      Bits: include/bits.h.  Atomic: include/atomic.h, with the threads that race in
      its loops (Module [Cas]).  Bitmap: bitmap.c.  MrHeap: userfs_heap.c.  KList:
      include/list.h.  DentryHash: userfs_dentry_hash.c and its header.  Fs: the
      state all of userfs shares (block buffers, pages, disk, heap, name table) and
      the layouts of include/inode.h and include/vnode.h.  BlockBuf: disk_ops.c and
      userfs_block_rw.c.  FileCtrl: userfs_file_ctrl.c.  FsInit: userfs_init.c; Mount
      holds the theorem about mounting.  Format: the part of test_init.c that formats and
      mounts a disk, and the theorems about formatting, mounting and writing back.  FileOps:
      userfs_file_ops.c; FileRw, FilePersist and FileCreate hold the theorems about single
      operations.  FileDir: the directory in its two forms, as one map.  FileClient:
      programs that call the file operations, and their specification; FileSys: the
      invariant of the mounted file system and the refinement of every operation;
      FileMount: mounting a disk with files and writing them back; FileLife: the
      refinement of programs from an empty disk on, one after the other.
    - The lock-free queue (src/lockfree_que/): LockfreeQueue.  Every access to the
      shared buffer is a step, and each read and compare-and-swap of the loop that
      updates the count.  FileCopy: the program of test.c, which copies a file with
      a producer and consumers on the queue; its threads take the steps of LockfreeQueue
      and the system calls of BlockBuf.
    - The slab pool (src/mempool/): SlabPool, over a range of memory whose bounds every
      access is checked against.
    - The block pool (src/lib/mem_pool/) and the hash table (src/lib/hashlist/), over
      the lists of KList and the counters of lib/include/atomic.h (Module [Split] of
      Atomic): MemPool and HashList.  src/rpc_test/ has copies of both.
    - Messages in shared memory (src/ipc_test/ipc_test.h): IpcShm.  The sections under
      the lock and the copying outside it are separate steps.
    - The remote procedure calls (src/rpc_test/): Rpc has the clients and the server
      as interleaved steps; [by_the_rules] says what clients have to keep to, which the
      code does not enforce.  The server uses a block pool and a table through the
      classes [BlockPool] and [KeyTable]; MemPool and HashList are the instances.
      RpcRegistry is the registry of services of the daemon, the start of a server and
      the way of a request from a registered id to its service.
    - The distributed cache (src/sdcs/, in Go): Sdcs.  The HTTP handlers of three nodes
      are programs of gRPC calls, and the methods of the servers programs of accesses to
      the map of a node, run alone or interleaved, over calls that may fail.
      SdcsStart: the command line and the goroutines that start the servers and make the
      clients of the three nodes, interleaved with requests; a call goes to the process
      that listens on the address of the client.
    - Domains and endpoints (src/vdso_test/vdso_domain.c): Endpoint.  Clients and a
      server exchange words through lists of KList and semaphores, interleaved access by
      access.
    - The lookup of symbols in an ELF image (src/vdso_test/vdso_init/): VdsoSym, over the
      bytes of the image.
    - Registration of nodes (src/dsdb/dump/): DsdbNode has the monitor, the nodes and the
      loops around read and write, over connections that split the data and may fail;
      UnixSocket the sockets (src/unix_domain/); DsdbMain the two programs that use them
      (dsdbs.c and dsdbc.c); DsdbMap the key-value map of the C++ part.
    - The bitmap of src/lib/bitmap/, an earlier version of that of userfs: LibBitmap.
    - Tracing programs (src/eBPF/): Bpf.  The handlers of the events work on maps of the
      kernel through the class [BpfMap]; a map with a bound on its size is the instance.

    ** How the code is translated

    An integer of w bits is a [Z], and what can leave its range is followed by the
    wrap-around of the type ([u8] ... [i32]).  A structure that goes to the disk is
    bytes in a [page], read and written at the offsets of its fields ([le_read],
    [le_write]); other structures are records.  A pointer is an address, 0 is NULL;
    objects are in maps by address, and [malloc] hands out increasing addresses or
    fails, as the stream [a_oom] says.  Programs of userfs are functions of the state
    ([fsM]).  [None] is what has no defined result: an access outside an object or to
    an address without one, and a loop that uses up its fuel.  Errors that the code
    reports are values.  The time, the disk's short transfers and errors, and the
    memory contents that malloc leaves are arguments, and in userfs also how many bytes
    malloc lets a program write behind those it asked for ([usable]).  A section under a
    spin lock is one step of its thread; memory is sequentially consistent.  Where the
    code shares a map or a list without a lock, an access has a beginning and an end,
    and an execution goes up to the first race: two accesses that overlap, one of them
    a write ([races] of Sdcs, [race_free] of Endpoint).

    ** What is shown

    - The whole of userfs: from a formatted disk on, every sequence of file operations
      behaves as a map from names to contents ([userfs_refinement]), as long as no name
      in use is created again ([create_again_loses_file]), a block of each group stays
      free (formatting does not clear the byte behind the last bitmap of a group, which
      decides what the search for a free block does with the last one) and the table of
      block pointers fits the memory that malloc gives for it; the map goes on from one
      program that mounts the disk to the next ([userfs_durability]), where one
      descriptor block is enough, because of several only the first one is written back.
    - Files: what is written is read back, also through holes, and after closing and
      opening ([file_write_read_open], [file_write_read_hole],
      [file_close_open_persists]); a created file is open, empty and in the directory
      and the name table ([file_create_spec]); a new block was free and belongs to no
      other file ([get_new_dblock_fresh]); outside the first shard of a block the
      range test goes wrong ([file_shards_alias], [file_cross_shard_overrun]).
    - Formatting and mounting: the descriptors and directory entries fit their blocks
      and do not overlap ([bgd_block_layout], [dentry_block_fits]); mounting
      establishes the invariant that the block allocator needs, or stores a pointer
      behind its table, which is allocated too small ([mount_index_ok]); a
      disk that has been formatted can be mounted, as an empty file system with all
      that creating files needs ([format_mount_ok]); of the mounted descriptor blocks
      only the first one is written back ([mount_sync_blocks]);
      flushing and reading a list of buffers is the identity
      ([block_list_roundtrip]); what I/O errors lead to ([block_io_errors]).
    - Data structures: the heap, the bitmap, the lists, the directory entries and the
      name table implement their abstract counterparts; the name table up to its
      comparison of prefixes ([dentry_hash_refinement],
      [dentry_hash_prefix_confusion]).
    - Concurrency: the compare-and-swap operations are linearizable; the queue with
      one producer and one consumer refines a bounded FIFO and is lock-free
      ([spsc_fifo_refinement], [spsc_lock_free]), and with two consumers it is not a FIFO.  The copy program with one consumer leaves the
      input in the output and can always come to its end ([file_copy_correct]); not so
      with two consumers, short reads or failing ones ([file_copy_two_consumers],
      [file_copy_short_read], [file_copy_read_error]).
    - Pools and tables: no two blocks that clients hold overlap, with a pool of memory
      per slab in use, and returned blocks are used again ([slab_pool_safe],
      [slab_free_alloc]); the block pool is a stack
      of free blocks ([mempool_refinement]); the hash table is a stack of values per
      key ([linkhash_refinement]).
    - Messages in shared memory arrive unchanged and no buffer is lost
      ([ipc_shm_safe]), but for empty messages and areas that are too large
      ([ipc_shm_limits]).
    - Remote procedure calls: every request is answered, by a response to its own
      client, and no wakeup is lost, when clients ask for a service with response
      after they got their block and do not start a request of another type while the
      server has to read the last one ([rpc_service_safe], [rpc_no_lost_wakeup]); each of the two
      conditions is needed ([rpc_unregistered_misdirects], [rpc_early_wake_race]).
    - The distributed cache: requests one after the other see one map
      ([sdcs_refinement]); with overlapping handlers and lost calls a GET still answers
      only with what was posted, or with nothing, up to the first race for a map, which
      is possible ([sdcs_answers_posted]); a POST of a key that URLs do not escape that
      succeeds can be read everywhere ([sdcs_post_get_roundtrip]); what can be lost
      ([sdcs_overlap_limits]).  A cluster that is still starting does nothing that one
      which is ready could not do, nodes that end and calls that are lost included
      ([sdcs_boot_refinement]); it becomes ready, and then no call panics and every
      call reaches the node it is for ([sdcs_cluster_ready]); before, a request can end a node or its own handler
      ([sdcs_crash_window], [sdcs_post_crashes_node], [sdcs_early_request_panics]).
    - Endpoints: every call returns the answer to its own parameter, and no call hangs
      ([endpoint_call_correct], [endpoint_no_lost_wakeup]), up to the first race for the
      list and when no answer is 0; races and what else is not guarded against
      ([endpoint_domain_limits]).
    - Symbols: on an image that a linker wrote every read is inside the image, and the
      address of the exported function of a name is found, or NULL ([vdso_sym_correct]);
      the hash is that of the ELF specification up to a carry ([elf_hash_equiv]).
    - Nodes: the monitor and the nodes agree on the list ([dsdb_register_all]), also as
      whole programs from the sockets to what is printed ([dsdb_programs]); failing calls
      leave the list of the monitor well formed ([dsdb_list_type]) and no trace in a node
      ([dsdb_client_errors]); what is not guarded against ([dsdb_register_limits]); which
      descriptors and blocks the socket calls hold ([unix_socket_resources]), and which
      paths they store ([unix_socket_path]); the map refines one cell per key
      ([dsdb_map_refinement]).
    - The bitmap of lib hands out the positions of that of userfs, and like it reads
      behind its memory when the last one is taken ([lib_bitmap_equiv]).
    - Tracing: the histograms count the waits that were measured if a value of their map
      has room for one ([runqlat_histogram]), but the map is declared with smaller values
      ([runqlat_refused]); the exit from a system call is reported with its own entry ([sigsnoop_reports]);
      the time off the processor is added up, without an end to the record
      ([offcpu_total]); exits are reported with status and duration
      ([exitsnoop_reports]).

    Theorems that end in an observation such as [bitmap_clear_keeps_bit] or
    [mempool_destroy_never] state what the code does where it does not do what it is
    meant to.

    ** Bounds and fuel

    A loop that the source bounds by a counter recurses on that counter.  A walk over
    a chain has the number of objects in the store (plus one) as its fuel, which
    bounds every chain without a cycle: [chain_fuel], [get_loop], [remove_loop],
    [linkhash_destroy_loop]; the refinement theorems show that a result is always
    found.  [scan_free] has the number of bytes of the page times eight.  The loops
    over lists on the disk ([mount_list], [bgi_list_loop]) and over the buffers of a
    block ([free_buf_list], [query_loop]) take their fuel as an argument or from the
    number of buffers; the theorems about them give results for every fuel that
    covers the list.  So do those about the walks of [vdso_sym] (the dynamic section and
    the longest chain) and about [xread] and [xwrite] (one round per byte, and one more).
    [mempool_destroy] takes it as an argument because it does not
    end, and [domain_refer] because its walk may not.  The steps of the queue, of the
    remote procedure calls and of the endpoints need no fuel; termination is a bound
    on the number of steps.

    ** Not modelled

    Printing, and the destructors that only call free or close (bitmap_destroy,
    userfs_mrheap_destroy, user_disk_close): memory is not reused in the models.  Of an
    rpc server the handlers of the caller are not modelled, their calls are recorded.
    net/http, gRPC and the network of src/sdcs/ are libraries: what they can do is an
    argument of the steps.  The test programs of src/rpc_test/, src/ipc_test/ and
    src/vdso_test/ call modelled operations with fixed arguments and print the results;
    src/unix_domain/userver.c and uclient.c call the socket functions with too few
    arguments and do not compile.  src/lib/include/lockfree_queue.h is an unfinished
    C++ template that does not compile; kernel_list.h has the operations of list.h,
    and most of src/include/ repeats headers of the other directories.  Of the eBPF
    programs those of fentry, kprobe, uprobe, trace_open and hello_world only print; what
    the others read of kernel structures (the state and the namespace of a task, in
    runqlat) are arguments, because the structures are not in the sources.

    This file holds the vocabulary that the others share: machine integers and the
    tactics and hints for them, bytes and pages, and the allocator. *)
From stdpp Require Export base tactics numbers option list gmap relations.
From Stdlib Require Export ZArith Lia.
Local Open Scope Z_scope.

(** ** Machine integers

    A w-bit integer is a [Z]; every C operation that can leave the range of
    its type is followed by the wrap-around of that type. *)

Definition u8 (x : Z) : Z := x mod 256.
Definition u16 (x : Z) : Z := x mod 65536.
Definition u32 (x : Z) : Z := x mod 4294967296.
Definition u64 (x : Z) : Z := x mod 18446744073709551616.
Definition i32 (x : Z) : Z := (x + 2147483648) mod 4294967296 - 2147483648.

Definition UINT32_MAX : Z := 4294967295.

Create HintDb cint.
Create Rewrite HintDb cint.

Lemma u32_range x : 0 <= u32 x < 4294967296.
Proof. unfold u32. apply Z.mod_pos_bound. lia. Qed.

Lemma u16_range x : 0 <= u16 x < 65536.
Proof. unfold u16. apply Z.mod_pos_bound. lia. Qed.

Lemma u8_range x : 0 <= u8 x < 256.
Proof. unfold u8. apply Z.mod_pos_bound. lia. Qed.

Lemma u64_range x : 0 <= u64 x < 18446744073709551616.
Proof. unfold u64. apply Z.mod_pos_bound. lia. Qed.

Lemma i32_range x : -2147483648 <= i32 x < 2147483648.
Proof. unfold i32. pose proof (Z.mod_pos_bound (x + 2147483648) 4294967296). lia. Qed.

Lemma u8_small x : 0 <= x < 256 -> u8 x = x.
Proof. intros. apply Z.mod_small. lia. Qed.

Lemma u16_small x : 0 <= x < 65536 -> u16 x = x.
Proof. intros. apply Z.mod_small. lia. Qed.

Lemma u32_small x : 0 <= x < 4294967296 -> u32 x = x.
Proof. intros. apply Z.mod_small. lia. Qed.

Lemma u64_small x : 0 <= x < 18446744073709551616 -> u64 x = x.
Proof. intros. apply Z.mod_small. lia. Qed.

Lemma i32_small x : -2147483648 <= x < 2147483648 -> i32 x = x.
Proof. intros. unfold i32. rewrite Z.mod_small; lia. Qed.

Lemma i32_u32 x : i32 (u32 x) = i32 x.
Proof. unfold i32, u32. rewrite Zplus_mod_idemp_l. done. Qed.

Lemma u32_i32 x : u32 (i32 x) = u32 x.
Proof.
  unfold i32, u32. rewrite Zminus_mod_idemp_l. f_equal. lia.
Qed.

Lemma i32_add_l x y : i32 (i32 x + y) = i32 (x + y).
Proof.
  unfold i32 at 1 3. f_equal. unfold i32.
  replace ((x + 2147483648) mod 4294967296 - 2147483648 + y + 2147483648)
    with ((x + 2147483648) mod 4294967296 + y) by lia.
  rewrite Zplus_mod_idemp_l. f_equal. lia.
Qed.

Lemma i32_idem x : i32 (i32 x) = i32 x.
Proof. apply i32_small, i32_range. Qed.

Lemma u32_idem x : u32 (u32 x) = u32 x.
Proof. apply u32_small, u32_range. Qed.

#[global] Arguments u8 : simpl never.
#[global] Arguments u16 : simpl never.
#[global] Arguments u32 : simpl never.
#[global] Arguments u64 : simpl never.
#[global] Arguments i32 : simpl never.

#[export] Hint Resolve u8_range u16_range u32_range u64_range i32_range : cint.
#[export] Hint Rewrite u8_small u16_small u32_small u64_small i32_small using lia : cint.

(** Discharge the wrap-arounds whose operand is in range. *)
Ltac cint := autorewrite with cint.
Tactic Notation "cint" "in" hyp(H) := autorewrite with cint in H.

(** Decide the integer comparisons [lia] can settle. *)
Ltac zdec1 :=
  match goal with
  | |- context [?a <? ?b] =>
      first [ rewrite (proj2 (Z.ltb_lt a b)) by lia
            | rewrite (proj2 (Z.ltb_ge a b)) by lia ]
  | |- context [?a <=? ?b] =>
      first [ rewrite (proj2 (Z.leb_le a b)) by lia
            | rewrite (proj2 (Z.leb_gt a b)) by lia ]
  | |- context [?a =? ?b] =>
      first [ rewrite (proj2 (Z.eqb_eq a b)) by lia
            | rewrite (proj2 (Z.eqb_neq a b)) by lia ]
  end.
Ltac zdec := repeat (zdec1; cbn [negb andb orb]).

(** Case analysis on the integer comparisons of the goal. *)
Ltac zcase :=
  match goal with
  | |- context [?a <? ?b] => destruct (Z.ltb_spec a b)
  | |- context [?a <=? ?b] => destruct (Z.leb_spec a b)
  | |- context [?a =? ?b] => destruct (Z.eqb_spec a b)
  end.
Ltac zcase_in H :=
  match type of H with
  | context [?a <? ?b] => destruct (Z.ltb_spec a b)
  | context [?a <=? ?b] => destruct (Z.leb_spec a b)
  | context [?a =? ?b] => destruct (Z.eqb_spec a b)
  end.

Lemma land_bounds x y : 0 <= x -> 0 <= y -> 0 <= Z.land x y <= y.
Proof.
  intros Hx Hy. rewrite <- (Z2N.id x), <- (Z2N.id y), <- N2Z.inj_land by done.
  pose proof (N.land_le_r (Z.to_N x) (Z.to_N y)). lia.
Qed.

Lemma last_cons {A} (x d : A) l : List.last (x :: l) d = List.last l x.
Proof.
  revert x d. induction l as [|y l IH]; intros x d; [done|].
  change (List.last (x :: y :: l) d) with (List.last (y :: l) d). by rewrite !IH.
Qed.

(** Linear arithmetic with divisions and remainders by constants. *)
Ltac div_lia := Z.to_euclidean_division_equations; lia.

(** Split a successful option computation into its successful steps. *)
Ltac inv_bind H :=
  repeat (apply bind_Some in H; let x := fresh "x" in let E := fresh "E" in
          destruct H as (x & E & H)).

(** An invariant of a step relation holds in every reachable state. *)
Lemma rtc_invariant {A} (R : relation A) (I : A -> Prop) :
  (forall x y, I x -> R x y -> I y) -> forall x y, rtc R x y -> I x -> I y.
Proof. intros Hs x y H. induction H; eauto. Qed.

(** ** Byte memory

    The bytes of an allocated object are a total function from offsets to
    bytes; reads normalise to [0, 256) so that any function is a possible
    content (malloc leaves the content unspecified).  A store or a copy is one
    closure, whatever its length. *)

Definition content : Type := Z -> Z.

Fixpoint le_read (n : nat) (f : content) (o : Z) : Z :=
  match n with
  | O => 0
  | S n' => f o mod 256 + 256 * le_read n' f (o + 1)
  end.

Definition le_write (n : nat) (f : content) (o v : Z) : content :=
  fun x => if (o <=? x) && (x <? o + Z.of_nat n)
           then (v / 256 ^ (x - o)) mod 256 else f x.

(** [memset(f + o, v, n)] and [memcpy(f + o, g + so, n)]. *)
Definition fill (f : content) (o n v : Z) : content :=
  fun x => if (o <=? x) && (x <? o + n) then v mod 256 else f x.

Definition copy (f : content) (o n : Z) (g : content) (so : Z) : content :=
  fun x => if (o <=? x) && (x <? o + n) then g (x - o + so) mod 256 else f x.

(** Two contents agree on a range of offsets. *)
Definition agree (f g : content) (o n : Z) : Prop :=
  forall x, o <= x < o + n -> f x mod 256 = g x mod 256.

Lemma le_read_agree n f g o o' :
  (forall i, 0 <= i < Z.of_nat n -> f (o + i) mod 256 = g (o' + i) mod 256) ->
  le_read n f o = le_read n g o'.
Proof.
  revert o o'. induction n as [|n IH]; intros o o' H; simpl; [done|].
  f_equal.
  - specialize (H 0). rewrite !Z.add_0_r in H. apply H. lia.
  - f_equal. apply IH. intros i Hi.
    replace (o + 1 + i) with (o + (i + 1)) by lia.
    replace (o' + 1 + i) with (o' + (i + 1)) by lia. apply H. lia.
Qed.

Lemma le_read_ext n f g o : agree f g o (Z.of_nat n) -> le_read n f o = le_read n g o.
Proof. intros H. apply le_read_agree. intros i Hi. apply H. lia. Qed.

Lemma le_read_range n f o : 0 <= le_read n f o < 256 ^ Z.of_nat n.
Proof.
  revert o. induction n as [|n IH]; intros o; [simpl; lia|].
  cbn [le_read]. rewrite Nat2Z.inj_succ, Z.pow_succ_r by lia.
  pose proof (IH (o + 1)). pose proof (Z.mod_pos_bound (f o) 256). lia.
Qed.

Lemma le_read_write_shift n f o v k :
  0 <= k -> (forall i, k <= i < k + Z.of_nat n -> f (o + i) = (v / 256 ^ i) mod 256) ->
  le_read n f (o + k) = (v / 256 ^ k) mod 256 ^ Z.of_nat n.
Proof.
  revert k. induction n as [|n IH]; intros k Hk H; cbn [le_read].
  - by rewrite Z.pow_0_r, Z.mod_1_r.
  - rewrite H by lia. rewrite Z.mod_mod by lia.
    replace (o + k + 1) with (o + (k + 1)) by lia.
    rewrite IH by (try lia; intros; apply H; lia).
    rewrite Nat2Z.inj_succ, (Z.pow_succ_r 256 (Z.of_nat n)) by lia.
    replace (256 ^ (k + 1)) with (256 ^ k * 256) by (rewrite Z.pow_add_r by lia; lia).
    pose proof (Z.pow_pos_nonneg 256 k). pose proof (Z.pow_pos_nonneg 256 (Z.of_nat n)).
    rewrite <- Z.div_div by lia. rewrite Z.rem_mul_r by lia. lia.
Qed.

Lemma le_read_write_same n f o v :
  le_read n (le_write n f o v) o = v mod 256 ^ Z.of_nat n.
Proof.
  pose proof (le_read_write_shift n (le_write n f o v) o v 0) as H.
  rewrite Z.add_0_r, Z.pow_0_r, Z.div_1_r in H. apply H; [lia|].
  intros i Hi. unfold le_write. zdec. f_equal. f_equal. f_equal. lia.
Qed.

Lemma le_write_outside n f o v x :
  x < o \/ o + Z.of_nat n <= x -> le_write n f o v x = f x.
Proof. intros [?|?]; unfold le_write; by zdec. Qed.

Lemma le_read_write_disjoint n m f o v o' :
  o' + Z.of_nat m <= o \/ o + Z.of_nat n <= o' ->
  le_read m (le_write n f o v) o' = le_read m f o'.
Proof.
  intros H. apply le_read_ext. intros x Hx. rewrite le_write_outside; [done|lia].
Qed.

Lemma fill_inside f o n v x : o <= x < o + n -> fill f o n v x = v mod 256.
Proof. intros. unfold fill. by zdec. Qed.

Lemma fill_outside f o n v x : x < o \/ o + n <= x -> fill f o n v x = f x.
Proof. intros H. unfold fill. repeat zcase; simpl; (done || lia). Qed.

Lemma copy_inside f o n g so x :
  o <= x < o + n -> copy f o n g so x = g (x - o + so) mod 256.
Proof. intros. unfold copy. by zdec. Qed.

Lemma copy_outside f o n g so x : x < o \/ o + n <= x -> copy f o n g so x = f x.
Proof. intros H. unfold copy. repeat zcase; simpl; (done || lia). Qed.

(** ** Pages: byte objects of a known size

    An access outside the object is undefined behaviour: it has no result. *)

Record page := Page { p_size : Z; p_get : content }.

Definition in_page (p : page) (o n : Z) : bool := (0 <=? o) && (o + n <=? p_size p).

Definition load (n : nat) (p : page) (o : Z) : option Z :=
  if in_page p o (Z.of_nat n) then Some (le_read n (p_get p) o) else None.

Definition store (n : nat) (p : page) (o v : Z) : option page :=
  if in_page p o (Z.of_nat n) then Some (Page (p_size p) (le_write n (p_get p) o v)) else None.

Definition memset (p : page) (o v n : Z) : option page :=
  if in_page p o n && (0 <=? n) then Some (Page (p_size p) (fill (p_get p) o n v)) else None.

Abbreviation load8 := (load 1).
Abbreviation load16 := (load 2).
Abbreviation load32 := (load 4).
Abbreviation load64 := (load 8).
Abbreviation store8 := (store 1).
Abbreviation store16 := (store 2).
Abbreviation store32 := (store 4).
Abbreviation store64 := (store 8).

Create HintDb mem.
Create Rewrite HintDb mem.

Lemma in_page_true p o n : 0 <= o -> o + n <= p_size p -> in_page p o n = true.
Proof. intros. unfold in_page. by zdec. Qed.

Lemma load_in n p o :
  0 <= o -> o + Z.of_nat n <= p_size p -> load n p o = Some (le_read n (p_get p) o).
Proof. intros. unfold load. by rewrite in_page_true. Qed.

Lemma store_in n p o v :
  0 <= o -> o + Z.of_nat n <= p_size p ->
  store n p o v = Some (Page (p_size p) (le_write n (p_get p) o v)).
Proof. intros. unfold store. by rewrite in_page_true. Qed.

Lemma memset_in p o v n :
  0 <= o -> 0 <= n -> o + n <= p_size p ->
  memset p o v n = Some (Page (p_size p) (fill (p_get p) o n v)).
Proof. intros. unfold memset. rewrite in_page_true by lia. by zdec. Qed.

Lemma store_size n p o v p' : store n p o v = Some p' -> p_size p' = p_size p.
Proof. unfold store. intros H. case_match; by simplify_eq. Qed.

Lemma load_store_same n p o v p' :
  store n p o v = Some p' -> load n p' o = Some (v mod 256 ^ Z.of_nat n).
Proof.
  unfold store, load. intros H. case_match eqn:E; simplify_eq.
  unfold in_page in *. simpl. rewrite E. by rewrite le_read_write_same.
Qed.

Lemma load_store_disjoint n m p o v p' o' :
  store n p o v = Some p' -> o' + Z.of_nat m <= o \/ o + Z.of_nat n <= o' ->
  load m p' o' = load m p o'.
Proof.
  unfold store, load. intros H D. case_match eqn:E; simplify_eq.
  unfold in_page. simpl. by rewrite le_read_write_disjoint.
Qed.

Lemma load_range n p o v : load n p o = Some v -> 0 <= v < 256 ^ Z.of_nat n.
Proof. unfold load. intros H. case_match; simplify_eq. apply le_read_range. Qed.

#[export] Hint Rewrite load_in store_in memset_in using (cbn [p_size]; lia) : mem.
#[export] Hint Rewrite le_read_write_same le_read_write_disjoint using lia : mem.

(** A C [int] in memory. *)
Definition load_int (p : page) (o : Z) : option Z := v ← load32 p o; Some (i32 v).

Lemma load_int_in p o :
  0 <= o -> o + 4 <= p_size p -> load_int p o = Some (i32 (le_read 4 (p_get p) o)).
Proof. intros. unfold load_int. by rewrite load_in by lia. Qed.

#[export] Hint Rewrite load_int_in using (cbn [p_size]; lia) : mem.

(** Positions of a ring. *)
Lemma mod_shift n f i j : 0 < n -> 0 <= i < n -> 0 <= j < n -> (f + i) mod n = (f + j) mod n -> i = j.
Proof.
  intros Hn Hi Hj E. rewrite <- (Z.mod_small i n), <- (Z.mod_small j n) by lia.
  replace i with ((f + i) - f) by lia. replace j with ((f + j) - f) by lia.
  rewrite Zminus_mod, E, <- Zminus_mod. done.
Qed.

(** ** malloc

    Addresses are handed out in increasing order and never reused; a request fails
    when the stream of outcomes says so or when the user address space (below
    2^47) is exhausted.  [NULL] is 0. *)

Definition NULL : Z := 0.
Definition ADDR_TOP : Z := 140737488355328.

Record alloc := Alloc { a_next : Z; a_oom : list bool }.

Definition malloc (a : alloc) (n : Z) : Z * alloc :=
  let next := a_next a + 16 * (n / 16 + 1) in
  if bool_decide (head (a_oom a) = Some true) || (ADDR_TOP <? next)
  then (NULL, Alloc (a_next a) (tail (a_oom a)))
  else (a_next a, Alloc next (tail (a_oom a))).

(** The allocator state: the next address is a valid non-null one. *)
Definition alloc_ok (a : alloc) : Prop := 0 < a_next a <= ADDR_TOP.

Lemma malloc_cases a n :
  alloc_ok a -> 0 <= n ->
  let '(r, a') := malloc a n in
  alloc_ok a' /\ a_next a <= a_next a' /\
  (r = NULL \/ r = a_next a /\ 0 < r < ADDR_TOP /\ r + n < a_next a').
Proof.
  unfold alloc_ok, malloc. intros Ha Hn. pose proof (Z.div_pos n 16).
  pose proof (Z.mul_succ_div_gt n 16).
  destruct (_ || _) eqn:E; simpl; [split; [lia|split; [lia|by left]]|].
  apply orb_false_iff in E as [_ E]. apply Z.ltb_ge in E. unfold ADDR_TOP in *.
  split; [lia|]. split; [lia|]. right. lia.
Qed.

Lemma malloc_ok_result a n :
  a_oom a = [] -> a_next a + 16 * (n / 16 + 1) <= ADDR_TOP ->
  malloc a n = (a_next a, Alloc (a_next a + 16 * (n / 16 + 1)) []).
Proof. intros E H. unfold malloc. rewrite E. simpl. by zdec. Qed.

(** Memory for [n] more bytes. *)
Definition room (a : alloc) (n : Z) : Prop := a_oom a = [] /\ 0 < a_next a /\ a_next a + n <= ADDR_TOP.

Lemma room_malloc a n k :
  room a (16 + n + k) -> 0 <= n -> 0 <= k ->
  exists a', malloc a n = (a_next a, a') /\ room a' k /\ a_next a < a_next a' /\ 0 < a_next a.
Proof.
  intros (R1 & R2 & R3) Hn Hk. pose proof (Z.div_mod n 16 ltac:(lia)). pose proof (Z.mod_pos_bound n 16 ltac:(lia)).
  rewrite malloc_ok_result by (done || lia). eexists. split; [done|]. unfold room. cbn. repeat split; lia.
Qed.

(** [a'] is [a] after requests that take at most [k] bytes of its memory. *)
Definition spends (a a' : alloc) (k : Z) : Prop :=
  a_next a <= a_next a' /\ forall n, 0 <= n -> room a (k + n) -> room a' n.

Lemma spends_trans a b c k l : spends a b k -> spends b c l -> 0 <= l -> spends a c (k + l).
Proof.
  intros [H1 H2] [H3 H4] Hl. split; [lia|]. intros n Hn R. apply H4; [done|]. apply H2; [lia|].
  by replace (k + (l + n)) with (k + l + n) by lia.
Qed.

Lemma spends_malloc a n : 0 <= n -> spends a (snd (malloc a n)) (16 + n).
Proof.
  intros Hn. unfold malloc. pose proof (Z.div_mod n 16 ltac:(lia)). pose proof (Z.mod_pos_bound n 16 ltac:(lia)).
  split; [destruct (_ || _); cbn; lia|]. intros k Hk (R1 & R2 & R3). rewrite R1. cbn [head tail]. zdec. rewrite bool_decide_false by done.
  unfold room. cbn [orb snd a_oom a_next]. split_and!; (done || lia).
Qed.

Lemma room_not_null a n : room a (16 + n) -> 0 <= n -> fst (malloc a n) <> NULL.
Proof.
  intros R Hn. destruct (room_malloc a n 0) as (a' & -> & _ & _ & Ha); [by rewrite Z.add_0_r|lia..|]. cbn. unfold NULL. lia.
Qed.

Lemma room_weaken a k n : room a k -> n <= k -> room a n.
Proof. intros (R1 & R2 & R3) Hn. split_and!; (done || lia). Qed.

Lemma spends_weaken a b k l : spends a b k -> k <= l -> spends a b l.
Proof. intros [H1 H2] Hl. split; [done|]. intros n Hn R. apply H2; [done|]. eapply room_weaken; [done|lia]. Qed.
