(* ===== verification/Bits.v ===== *)
(** * Bits: integer logarithms and power-of-two sizes

    Models userfs/include/bits.h ([ulog2], [ulog2l]), [get_real_block_size] of
    userfs/userfs_init.c and [get_real_size_bits] of mempool/mempool.c, and
    shows that they compute floor and ceiling logarithms. *)
From S2P Require Import Prelude.
Local Open Scope Z_scope.

(** A C comparison as the integer it yields. *)
Definition c_bool (b : bool) : Z := if b then 1 else 0.

(** [ulog2]: the branch-free logarithm, one step per halving of the width. *)
Definition ulog2 (v0 : Z) : Z :=
  let r := Z.shiftl (c_bool (65535 <? v0)) 4 in
  let v := Z.shiftr v0 r in
  let shift := Z.shiftl (c_bool (255 <? v)) 3 in
  let v := Z.shiftr v shift in
  let r := Z.lor r shift in
  let shift := Z.shiftl (c_bool (15 <? v)) 2 in
  let v := Z.shiftr v shift in
  let r := Z.lor r shift in
  let shift := Z.shiftl (c_bool (3 <? v)) 1 in
  let v := Z.shiftr v shift in
  let r := Z.lor r shift in
  Z.lor r (Z.shiftr v 1).

(** [ulog2l]: 64-bit argument; both results are u32. *)
Definition ulog2l (v : Z) : Z :=
  let hi := u32 (Z.shiftr v 32) in
  if negb (hi =? 0) then u32 (ulog2 hi + 32) else ulog2 (u32 v).

Definition USERFS_MAX_BLOCK_SIZE : Z := 67108864.
Definition USERFS_MIN_BLOCK_SIZE : Z := 1048576.

Definition get_real_block_size (expect_block_size : Z) : Z :=
  if USERFS_MAX_BLOCK_SIZE <? expect_block_size then USERFS_MAX_BLOCK_SIZE
  else if expect_block_size <? USERFS_MIN_BLOCK_SIZE then USERFS_MIN_BLOCK_SIZE
  else u32 (Z.shiftl 1 (ulog2 expect_block_size)).

Definition MEMPOOL_MIN_SLAB_BITS : Z := 3.

(** [get_real_size_bits]: the exponent of the slab a request is served from. *)
Definition get_real_size_bits (size : Z) : Z :=
  let slot := ulog2l size in
  let rest := u64 (size - u64 (Z.shiftl 1 slot)) in
  let slot := if negb (rest =? 0) then u32 (slot + 1) else slot in
  if MEMPOOL_MIN_SLAB_BITS <? slot then slot else MEMPOOL_MIN_SLAB_BITS.

(** ** Correctness *)

(** One narrowing step keeps [r + log2 v], with [r] a multiple of [2k] below it. *)
Lemma log2_shiftr v k : 0 <= k -> 2 ^ k <= v -> Z.log2 (Z.shiftr v k) = Z.log2 v - k.
Proof.
  intros Hk Hv. rewrite Z.log2_shiftr; [|pose proof (Z.pow_pos_nonneg 2 k); lia].
  apply Z.log2_le_pow2 in Hv; [|pose proof (Z.pow_pos_nonneg 2 k); lia]. lia.
Qed.

Lemma narrow_step v k B :
  0 < k -> B = 2 ^ k - 1 -> 0 < v < 2 ^ (2 * k) ->
  let shift := k * c_bool (B <? v) in
  0 < Z.shiftr v shift < 2 ^ k /\ Z.log2 v = shift + Z.log2 (Z.shiftr v shift).
Proof.
  intros Hk -> [Hv Hv2] shift. subst shift. unfold c_bool.
  pose proof (Z.pow_pos_nonneg 2 k).
  destruct (Z.ltb_spec (2 ^ k - 1) v).
  - rewrite Z.mul_1_r. rewrite log2_shiftr by lia. split; [|lia].
    rewrite Z.shiftr_div_pow2 by lia. split.
    + apply Z.div_str_pos. lia.
    + apply Z.div_lt_upper_bound; [lia|]. rewrite <- Z.pow_add_r by lia.
      by replace (k + k) with (2 * k) by lia.
  - rewrite Z.mul_0_r, Z.shiftr_0_r. lia.
Qed.

Lemma shiftl_c_bool b k : 0 <= k -> Z.shiftl (c_bool b) k = 2 ^ k * c_bool b.
Proof. intros. rewrite Z.shiftl_mul_pow2 by lia. lia. Qed.

(** on every non-zero 32-bit value [ulog2] is the floor of the base-2
    logarithm. *)
Theorem ulog2_log2 v : 0 < v < 4294967296 -> ulog2 v = Z.log2 v.
Proof.
  intros Hv. unfold ulog2. rewrite !shiftl_c_bool by lia. cbn zeta.
  change (2 ^ 4) with 16. change (2 ^ 3) with 8. change (2 ^ 2) with 4. change (2 ^ 1) with 2.
  destruct (narrow_step v 16 65535) as [H1 E1]; [lia|done|done|].
  set (v1 := Z.shiftr v (16 * c_bool (65535 <? v))) in *.
  destruct (narrow_step v1 8 255) as [H2 E2]; [lia|done|done|].
  set (v2 := Z.shiftr v1 (8 * c_bool (255 <? v1))) in *.
  destruct (narrow_step v2 4 15) as [H3 E3]; [lia|done|done|].
  set (v3 := Z.shiftr v2 (4 * c_bool (15 <? v2))) in *.
  destruct (narrow_step v3 2 3) as [H4 E4]; [lia|done|done|].
  set (v4 := Z.shiftr v3 (2 * c_bool (3 <? v3))) in *.
  rewrite E1, E2, E3, E4.
  assert (v4 = 1 \/ v4 = 2 \/ v4 = 3) as Hv4 by lia.
  clearbody v4. clear -Hv4. unfold c_bool.
  destruct (65535 <? v), (255 <? v1), (15 <? v2), (3 <? v3), Hv4 as [->|[->| ->]]; reflexivity.
Qed.

Lemma ulog2_log2_witness : ulog2 67108864 = 26.
Proof. rewrite (ulog2_log2 67108864) by lia. reflexivity. Defined.

Lemma ulog2l_log2 v : 0 < v < 18446744073709551616 -> ulog2l v = Z.log2 v.
Proof.
  intros Hv. unfold ulog2l. rewrite Z.shiftr_div_pow2 by lia.
  change (2 ^ 32) with 4294967296.
  assert (0 <= v / 4294967296 < 4294967296) as Hd
    by (split; [apply Z.div_pos | apply Z.div_lt_upper_bound]; lia).
  rewrite (u32_small (v / _)) by done.
  destruct (Z.eqb_spec (v / 4294967296) 0) as [E|E]; cbn [negb].
  - assert (v < 4294967296) by (apply Z.div_small_iff in E; lia).
    cint. apply ulog2_log2. lia.
  - rewrite ulog2_log2 by lia.
    assert (4294967296 <= v).
    { destruct (Z.lt_ge_cases v 4294967296); [|done].
      rewrite Z.div_small in E by lia. lia. }
    pose proof (log2_shiftr v 32) as L. rewrite Z.shiftr_div_pow2 in L by lia.
    change (2 ^ 32) with 4294967296 in L. rewrite L by lia.
    pose proof (Z.log2_nonneg v).
    assert (Z.log2 v < 64) by (apply Z.log2_lt_pow2; [lia|]; change (2^64) with 18446744073709551616; lia).
    rewrite u32_small; lia.
Qed.

(** the data block size chosen for any 32-bit request is a power of two
    between the minimum and the maximum block size; inside these bounds it is the
    largest power of two not above the request, outside them the nearer bound. *)
Theorem get_real_block_size_spec e :
  0 <= e < 4294967296 ->
  let r := get_real_block_size e in
  (exists k, 20 <= k <= 26 /\ r = 2 ^ k) /\
  (USERFS_MIN_BLOCK_SIZE <= e <= USERFS_MAX_BLOCK_SIZE -> r <= e < 2 * r) /\
  (e < USERFS_MIN_BLOCK_SIZE -> r = USERFS_MIN_BLOCK_SIZE) /\
  (USERFS_MAX_BLOCK_SIZE < e -> r = USERFS_MAX_BLOCK_SIZE).
Proof.
  intros He r. subst r.
  unfold get_real_block_size, USERFS_MAX_BLOCK_SIZE, USERFS_MIN_BLOCK_SIZE.
  destruct (Z.ltb_spec 67108864 e); [split; [by exists 26|lia]|].
  destruct (Z.ltb_spec e 1048576); [split; [by exists 20|lia]|].
  rewrite ulog2_log2 by lia. rewrite Z.shiftl_1_l.
  pose proof (Z.log2_spec e) as L. rewrite Z.pow_succ_r in L by apply Z.log2_nonneg.
  assert (20 <= Z.log2 e) by (apply Z.log2_le_pow2; lia).
  assert (Z.log2 e <= 26) by (change 26 with (Z.log2 67108864); apply Z.log2_le_mono; lia).
  rewrite u32_small by lia. split; [by exists (Z.log2 e)|lia].
Qed.

Lemma get_real_block_size_witness :
  get_real_block_size 5000000 <= 5000000 < 2 * get_real_block_size 5000000.
Proof.
  apply (get_real_block_size_spec 5000000); unfold USERFS_MIN_BLOCK_SIZE, USERFS_MAX_BLOCK_SIZE; lia.
Defined.

(** [get_real_size_bits] is the ceiling logarithm, at least 3: the slab of
    [2^k] bytes holds the request, and the next smaller slab would not. *)
Theorem get_real_size_bits_spec size :
  0 < size <= 9223372036854775808 ->
  let k := get_real_size_bits size in
  3 <= k <= 63 /\ size <= 2 ^ k /\ (k = 3 \/ 2 ^ (k - 1) < size).
Proof.
  intros Hs k. subst k. unfold get_real_size_bits, MEMPOOL_MIN_SLAB_BITS.
  rewrite ulog2l_log2 by lia. rewrite Z.shiftl_1_l.
  pose proof (Z.log2_spec size) as L. pose proof (Z.log2_nonneg size).
  rewrite Z.pow_succ_r in L by lia.
  assert (Z.log2 size <= 63) by (change 63 with (Z.log2 9223372036854775808); apply Z.log2_le_mono; lia).
  rewrite (u64_small (2 ^ _)) by lia. rewrite u64_small by lia.
  set (l := Z.log2 size) in *. clearbody l.
  destruct (Z.eqb_spec (size - 2 ^ l) 0) as [E|E]; cbn [negb].
  - assert (size = 2 ^ l) as -> by lia. destruct (Z.ltb_spec 3 l).
    + split; [lia|]. split; [lia|]. right. apply Z.pow_lt_mono_r; lia.
    + split; [lia|]. split; [|by left]. apply Z.pow_le_mono_r; lia.
  - assert (l <> 63) by (intros ->; lia). rewrite u32_small by lia.
    destruct (Z.ltb_spec 3 (l + 1)).
    + rewrite Z.pow_add_r by lia. replace (l + 1 - 1) with l by lia. lia.
    + split; [lia|]. split; [|by left].
      assert (2 ^ (l + 1) <= 2 ^ 3) by (apply Z.pow_le_mono_r; lia).
      rewrite Z.pow_add_r in * by lia. lia.
Qed.

Lemma get_real_size_bits_witness : 4097 <= 2 ^ get_real_size_bits 4097.
Proof. apply (get_real_size_bits_spec 4097). lia. Defined.
