(* ===== verification/Atomic.v ===== *)
(** * Atomic: the compare-and-swap loops of the two [atomic.h]

    [Cas] models userfs/include/atomic.h (the same text as include/atomic.h and
    lockfree_que/include/atomic.h): every update is a read followed by a
    compare-and-swap, retried until it succeeds.  Threads interleave at the
    granularity of these two accesses.  [Split] models lib/include/atomic.h
    (the same text as rpc_test/include/atomic.h), where [atomic_add] and
    [atomic_sub] read the variable once and hand the sum to [atomic_set]. *)
From S2P Require Import Prelude.
Local Open Scope Z_scope.

(** ** The sequential effect of each operation

    An [atomic_t] is its [int] value; each update returns the value it stores. *)

Definition atomic_set (var val : Z) : Z := val.
Definition atomic_store (var val : Z) : Z := i32 (var + val).
Definition atomic_get (var : Z) : Z := var.
Definition atomic_add (var val : Z) : Z := i32 (var + val).
Definition atomic_sub (var val : Z) : Z := i32 (var - val).
Definition atomic_init (var : Z) : Z := atomic_set var 0.
Definition atomic_is_null (var : Z) : Z := if var =? 0 then 1 else 0.

Module Cas.

Inductive op := Set_ (v : Z) | Store (v : Z) | Add (v : Z) | Sub (v : Z).

#[export] Instance op_eq_dec : EqDecision op.
Proof. solve_decision. Defined.

(** The value the loop body computes from the value it has read. *)
Definition op_new (o : op) (old : Z) : Z :=
  match o with
  | Set_ v => atomic_set old v
  | Store v => atomic_store old v
  | Add v => atomic_add old v
  | Sub v => atomic_sub old v
  end.

(** A thread at the top of its loop, after [old = var->value], or returned. *)
Inductive thread := Top (o : op) | Read (o : op) (old : Z) | Done (o : op) (ret : Z).

Definition conf : Type := Z * list thread.

(** One access to the shared variable by thread [i]. *)
Inductive step : conf -> conf -> Prop :=
| step_read v ts i o :
    ts !! i = Some (Top o) -> step (v, ts) (v, <[i := Read o v]> ts)
| step_cas v ts i o :
    ts !! i = Some (Read o v) ->
    step (v, ts) (op_new o v, <[i := Done o (op_new o v)]> ts)
| step_retry v ts i o old :
    ts !! i = Some (Read o old) -> old <> v ->
    step (v, ts) (v, <[i := Top o]> ts).

Definition start (v : Z) (os : list op) : conf := (v, Top <$> os).

Definition returned (t : thread) : option (op * Z) :=
  match t with Done o r => Some (o, r) | _ => None end.

Definition finished (t : thread) : bool :=
  match t with Done _ _ => true | _ => false end.

(** A sequential history from [v] to [v']: each operation runs alone on the
    value its predecessor left, and returns what it stores. *)
Fixpoint legal (v : Z) (h : list (op * Z)) (v' : Z) : Prop :=
  match h with
  | [] => v' = v
  | (o, r) :: h => r = op_new o v /\ legal r h v'
  end.

Lemma legal_snoc v h v' o :
  legal v h v' -> legal v (h ++ [(o, op_new o v')]) (op_new o v').
Proof.
  revert v. induction h as [|[o1 r1] h IH]; simpl; intros v.
  - by intros ->.
  - intros [-> H]. split; [done|by apply IH].
Qed.

Lemma returned_insert_pending (ts : list thread) i t t' :
  ts !! i = Some t -> returned t = None -> returned t' = None ->
  omap returned (<[i := t']> ts) = omap returned ts.
Proof.
  revert i. induction ts as [|a ts IH]; intros [|i]; simpl; intros; simplify_eq; try done.
  - by repeat case_match; simplify_eq.
  - by rewrite IH.
Qed.

Lemma returned_insert_done (ts : list thread) i t o r :
  ts !! i = Some t -> returned t = None ->
  omap returned (<[i := Done o r]> ts) ≡ₚ omap returned ts ++ [(o, r)].
Proof.
  revert i. induction ts as [|a ts IH]; intros [|i]; simpl; intros; simplify_eq.
  - case_match; simplify_eq. by rewrite Permutation_cons_append.
  - case_match; rewrite IH by done; done.
Qed.

(** The returned operations have a sequential explanation. *)
Definition explained (v0 : Z) (c : conf) : Prop :=
  exists h, h ≡ₚ omap returned c.2 /\ legal v0 h c.1.

Lemma explained_start v0 os : explained v0 (start v0 os).
Proof. exists []. split; [|done]. induction os; simpl; [done|]. by rewrite <- IHos. Qed.

Lemma explained_step v0 c c' : explained v0 c -> step c c' -> explained v0 c'.
Proof.
  intros (h & P & G) H.
  inversion H as [v ts i o L|v ts i o L|v ts i o old L N]; subst; simpl in *.
  - exists h. split; [|done]. simpl. by erewrite returned_insert_pending.
  - exists (h ++ [(o, op_new o v)]). split; [|by apply legal_snoc].
    simpl. rewrite P. symmetry. by eapply returned_insert_done.
  - exists h. split; [|done]. simpl. by erewrite returned_insert_pending.
Qed.

(** C38: the updates are linearizable. Whatever the number of threads and their
    interleaving, the operations that have returned can be ordered into a
    sequential history that explains every returned value and the value of the
    variable. *)
Theorem cas_linearizable v0 os v ts :
  rtc step (start v0 os) (v, ts) ->
  exists h, h ≡ₚ omap returned ts /\ legal v0 h v.
Proof.
  intros H.
  exact (rtc_invariant step (explained v0) (explained_step v0) _ _ H (explained_start v0 os)).
Qed.

(** Two threads adding 1 and 2 that interleave at the read. *)
Definition race : list thread :=
  [Done (Add 1) 11; Done (Add 2) 13].

Lemma race_reachable : rtc step (start 10 [Add 1; Add 2]) (13, race).
Proof.
  eapply rtc_l; [by apply (step_read 10 _ 0 (Add 1))|]. cbn.
  eapply rtc_l; [by apply (step_read 10 _ 1 (Add 2))|]. cbn.
  eapply rtc_l; [by apply (step_cas 10 _ 0 (Add 1))|]. cbn.
  eapply rtc_l; [by apply (step_retry 11 _ 1 (Add 2) 10)|]. cbn.
  eapply rtc_l; [by apply (step_read 11 _ 1 (Add 2))|]. cbn.
  eapply rtc_l; [by apply (step_cas 11 _ 1 (Add 2))|]. cbn.
  apply rtc_refl.
Defined.

Lemma cas_linearizable_witness :
  exists h, h ≡ₚ [(Add 1, 11); (Add 2, 13)] /\ legal 10 h 13.
Proof. apply (cas_linearizable 10 [Add 1; Add 2] 13 race race_reachable). Defined.

(** ** No update is lost *)

Definition delta (o : op) : option Z :=
  match o with Add v => Some v | Sub v => Some (- v) | Store v => Some v | Set_ _ => None end.

Definition sum_deltas (os : list op) : Z := foldr Z.add 0 (omap delta os).

Lemma op_new_delta o d v : delta o = Some d -> op_new o v = i32 (v + d).
Proof. destruct o; simpl; intros; simplify_eq; done. Qed.

Lemma sum_deltas_cons o d os :
  delta o = Some d -> sum_deltas (o :: os) = d + sum_deltas os.
Proof. intros E. unfold sum_deltas. cbn. by rewrite E. Qed.

Lemma legal_sum v h v' :
  i32 v = v -> Forall (fun x => is_Some (delta x.1)) h -> legal v h v' ->
  v' = i32 (v + sum_deltas (fst <$> h)).
Proof.
  intros Hv Hd. revert v Hv. induction Hd as [|[o r] h [d Ed] Hd IH]; intros v Hv L.
  - simpl in L. subst. cbn. by rewrite Z.add_0_r.
  - rewrite fmap_cons. cbn [fst] in *. destruct L as [-> L]. pose proof (op_new_delta o d v Ed) as E.
    rewrite (IH (op_new o v)); [|by rewrite E, i32_idem|done].
    rewrite E, i32_add_l, (sum_deltas_cons o d) by done. f_equal. lia.
Qed.

(** Thread [i] always carries the operation it was started with. *)
Definition thread_op (t : thread) : op :=
  match t with Top o | Read o _ | Done o _ => o end.

Lemma step_ops c c' : step c c' -> thread_op <$> c'.2 = thread_op <$> c.2.
Proof.
  inversion 1 as [v ts i o L|v ts i o L|v ts i o old L N]; subst; simpl.
  all: rewrite list_fmap_insert; simpl; apply list_insert_id; by rewrite list_lookup_fmap, L.
Qed.

Lemma finished_ops ts :
  forallb finished ts = true -> fst <$> omap returned ts = thread_op <$> ts.
Proof.
  induction ts as [|[| |o r] ts IH]; intros F; try done.
  change (o :: (omap returned ts).*1 = o :: (thread_op <$> ts)). by rewrite IH.
Qed.

(** no update is lost. When every thread has returned, the variable holds the
    initial value plus the sum of all the additions and minus all the
    subtractions, in [int] arithmetic, in every interleaving. *)
Theorem cas_no_lost_update v0 os v ts :
  i32 v0 = v0 -> Forall (fun o => is_Some (delta o)) os ->
  rtc step (start v0 os) (v, ts) -> forallb finished ts = true ->
  v = i32 (v0 + sum_deltas os).
Proof.
  intros Hv Hd H F.
  assert (thread_op <$> ts = os) as Ho.
  { refine (rtc_invariant step (fun c => thread_op <$> c.2 = os) _ _ _ H _).
    - intros x y <- S. by apply step_ops.
    - simpl. clear. induction os; simpl; f_equal; done. }
  pose proof (rtc_invariant step (explained v0) (explained_step v0) _ _ H (explained_start v0 os)) as (h & P & G).
  simpl in *. apply finished_ops in F. rewrite Ho in F.
  assert (fst <$> h ≡ₚ os) as Ph by (rewrite P; by rewrite F).
  rewrite (legal_sum _ _ _ Hv) with (2 := G).
  - f_equal. f_equal. unfold sum_deltas.
    apply foldr_permutation_proper; try typeclasses eauto; [intros; lia|].
    by rewrite Ph.
  - apply (Forall_fmap fst (fun o => is_Some (delta o))). by rewrite Ph.
Qed.

Lemma cas_no_lost_update_witness : 13 = i32 (10 + sum_deltas [Add 1; Add 2]).
Proof.
  apply (cas_no_lost_update 10 [Add 1; Add 2] 13 race); [done| |apply race_reachable|done].
  repeat constructor; eauto.
Defined.

End Cas.

Module Split.

(** lib/include/atomic.h: [atomic_set] is the same loop; [atomic_store] is
    [atomic_set]; an addition is one plain read and one [atomic_set]. *)
Definition lib_atomic_store (var val : Z) : Z := atomic_set var val.
Definition lib_atomic_add_arg (seen val : Z) : Z := i32 (seen + val).
Definition lib_atomic_sub_arg (seen val : Z) : Z := i32 (seen - val).

(** A thread adding [d]: about to read the argument of [atomic_set]; in the loop
    of [atomic_set(var, new)]; after the loop's read; returned. *)
Inductive split_thread :=
| Arg (d : Z)
| Top (new : Z)
| Read (new old : Z)
| Ret.

Definition split_conf : Type := Z * list split_thread.

Inductive split_step : split_conf -> split_conf -> Prop :=
| step_arg v ts i d :
    ts !! i = Some (Arg d) -> split_step (v, ts) (v, <[i := Top (lib_atomic_add_arg v d)]> ts)
| step_read v ts i new :
    ts !! i = Some (Top new) -> split_step (v, ts) (v, <[i := Read new v]> ts)
| step_cas v ts i new :
    ts !! i = Some (Read new v) -> split_step (v, ts) (atomic_set v new, <[i := Ret]> ts)
| step_retry v ts i new old :
    ts !! i = Some (Read new old) -> old <> v -> split_step (v, ts) (v, <[i := Top new]> ts).

Definition split_start (v : Z) (ds : list Z) : split_conf := (v, Arg <$> ds).

(** the [atomic_add] of lib/include/atomic.h loses updates: from any value two
    threads adding [a] and [b] can both return with only [b] added. *)
Theorem split_lost_update v a b :
  rtc split_step (split_start v [a; b]) (i32 (v + b), [Ret; Ret]).
Proof.
  eapply rtc_l; [by apply (step_arg v _ 0 a)|]. cbn.
  eapply rtc_l; [by apply (step_arg v _ 1 b)|]. cbn.
  eapply rtc_l; [by apply (step_read v _ 0 (i32 (v + a)))|]. cbn.
  eapply rtc_l; [by apply (step_cas v _ 0 (i32 (v + a)))|]. cbn.
  eapply rtc_l; [by apply (step_read _ _ 1 (i32 (v + b)))|]. cbn.
  eapply rtc_l; [by apply (step_cas _ _ 1 (i32 (v + b)))|]. cbn.
  apply rtc_refl.
Qed.

End Split.
