(* ===== verification/Bitmap.v ===== *)
(** * Bitmap: the block bitmap of userfs/bitmap.c

    A [bitmap_t] lives inside a larger object (the super block, a block group
    descriptor), so every operation works on the page that holds it and on its
    offset in that page.  The struct is [bytes] (u32, offset 0),
    [used_bits_count] (int, 4), [first_free_pos] (int, 8) and the flexible array
    [bitmap] (offset 12).  A [bitmap_t *] is [Some offset], [NULL] is [None]; the
    outer option is undefined behaviour (an access outside the page). *)
From S2P Require Import Prelude Atomic.
Local Open Scope Z_scope.

Definition bm_bytes (b : Z) : Z := b.
Definition bm_used_bits_count (b : Z) : Z := b + 4.
Definition bm_first_free_pos (b : Z) : Z := b + 8.
Definition bm_bitmap (b : Z) : Z := b + 12.
Definition sizeof_bitmap : Z := 12.
Definition BITMAP_MAX_BYTES : Z := 256.

Definition bitmap_init (p : page) (b bytes : Z) : option page :=
  p ← store32 p (bm_bytes b) bytes;
  p ← memset p (bm_bitmap b) 0 bytes;
  used ← load_int p (bm_used_bits_count b);
  p ← store32 p (bm_used_bits_count b) (atomic_set used 0);
  first ← load_int p (bm_first_free_pos b);
  store32 p (bm_first_free_pos b) (atomic_set first 0).

(** [malloced]: the content malloc returns, or no memory. *)
Definition bitmap_create (bytes : Z) (malloced : option content) : option (option page) :=
  if BITMAP_MAX_BYTES <? bytes then Some None
  else match malloced with
       | None => Some None
       | Some g => p ← bitmap_init (Page (bytes + sizeof_bitmap) g) 0 bytes; Some (Some p)
       end.

(** [bitmap[pos >> 3] |= v]: the assigned byte is the value of the expression. *)
Definition or_byte (p : page) (b pos v : Z) : option (page * Z) :=
  let a := bm_bitmap b + Z.shiftr pos 3 in
  x ← load8 p a;
  let x' := u8 (Z.lor x v) in
  p ← store8 p a x'; Some (p, x').

Definition bitmap_set_val (p : page) (bitmap : option Z) (pos val : Z) : option (page * Z) :=
  match bitmap with
  | None => Some (p, -1)
  | Some b =>
      bytes ← load32 p (bm_bytes b);
      if u32 (Z.shiftl bytes 3) <? pos then Some (p, -1)
      else
        '(p, _) ← or_byte p b pos (Z.shiftl val (Z.land pos 7));
        Some (p, 0)
  end.

Definition bitmap_clear (p : page) (b pos : Z) : option (page * Z) :=
  '(p, x) ← or_byte p b pos (Z.shiftl 0 (Z.land pos 7));
  if x =? 0 then Some (p, -1)
  else
    used ← load_int p (bm_used_bits_count b);
    p ← store32 p (bm_used_bits_count b) (atomic_sub used 1);
    first ← load_int p (bm_first_free_pos b);
    p ← (if pos <? u32 (atomic_get first)
         then store32 p (bm_first_free_pos b) (atomic_set first pos) else Some p);
    bitmap_set_val p (Some b) pos 0.

Definition bitmap_set (p : page) (b pos : Z) : option (page * Z) :=
  '(p, x) ← or_byte p b pos (Z.shiftl 1 (Z.land pos 7));
  if x =? 0 then Some (p, -1)
  else
    used ← load_int p (bm_used_bits_count b);
    p ← store32 p (bm_used_bits_count b) (atomic_add used 1);
    bitmap_set_val p (Some b) pos 1.

(** The scan loop: the bound of its condition is the left operand of a comma, so
    only the bit decides. It stops at the first clear bit. *)
Fixpoint scan_free (fuel : nat) (p : page) (b pos : Z) : option Z :=
  match fuel with
  | O => None
  | S fuel =>
      x ← load8 p (bm_bitmap b + Z.shiftr pos 3);
      if Z.land x (Z.shiftl 1 (Z.land pos 7)) =? 0 then Some pos
      else scan_free fuel p b (pos + 1)
  end.

Definition bitmap_get_first_free (p : page) (bitmap : option Z) : option (page * Z) :=
  match bitmap with
  | None => Some (p, -1)
  | Some b =>
      first ← load_int p (bm_first_free_pos b);
      let first_pos := atomic_get first in
      bytes ← load32 p (bm_bytes b);
      let bits := u32 (Z.shiftl bytes 3) in
      if u32 first_pos =? bits then Some (p, -1)
      else
        '(p, _) ← bitmap_set p b (u32 first_pos);
        if bits =? 0 then None
        else
          let pos := i32 (u32 (first_pos + 1) mod bits) in
          pos ← scan_free (Z.to_nat (8 * p_size p)) p b pos;
          p ← store32 p (bm_first_free_pos b) (atomic_set first pos);
          Some (p, first_pos)
  end.

(** ** The abstract view: one bit per block *)

Definition bit (p : page) (b i : Z) : bool :=
  Z.testbit (p_get p (bm_bitmap b + i / 8) mod 256) (i mod 8).

Fixpoint set_bits (n : nat) (p : page) (b : Z) : Z :=
  match n with
  | O => 0
  | S n => set_bits n p b + (if bit p b (Z.of_nat n) then 1 else 0)
  end.

(** The bits of the first [n] blocks after [bitmap_set]: only [pos] changed. *)
Lemma testbit_single k i : 0 <= k -> Z.testbit (Z.shiftl 1 k) i = (i =? k).
Proof. intros. rewrite Z.shiftl_1_l. rewrite Z.pow2_bits_eqb by done. apply Z.eqb_sym. Qed.

Lemma land7 x : Z.land x 7 = x mod 8.
Proof. change 7 with (Z.ones 3). by rewrite Z.land_ones. Qed.

Lemma shiftr3 x : Z.shiftr x 3 = x / 8.
Proof. by rewrite Z.shiftr_div_pow2. Qed.

Lemma le_read_1 f o : le_read 1 f o = f o mod 256.
Proof. cbn [le_read]. lia. Qed.

Lemma div_mod_8_eq i pos : i / 8 = pos / 8 -> i mod 8 = pos mod 8 -> i = pos.
Proof. intros. rewrite (Z.div_mod i 8), (Z.div_mod pos 8) by lia. lia. Qed.

Lemma testbit_mask x k : 0 <= k < 8 -> (Z.land x (Z.shiftl 1 k) =? 0) = negb (Z.testbit x k).
Proof.
  intros Hk. destruct (Z.testbit x k) eqn:E; simpl.
  - apply Z.eqb_neq. intros H. apply (f_equal (fun z => Z.testbit z k)) in H.
    rewrite Z.land_spec, E, testbit_single, Z.eqb_refl, Z.bits_0 in H by lia. done.
  - apply Z.eqb_eq. apply Z.bits_inj'. intros i Hi.
    rewrite Z.land_spec, testbit_single, Z.bits_0 by lia.
    destruct (Z.eqb_spec i k); [subst; by rewrite E|by rewrite andb_false_r].
Qed.

Lemma log2_byte x : 0 <= x < 256 -> Z.log2 x < 8.
Proof.
  intros Hx. destruct (Z.eq_dec x 0) as [->|]; [done|].
  apply Z.log2_lt_pow2; [lia|]. change (2 ^ 8) with 256. lia.
Qed.

Lemma lor_byte x y : 0 <= x < 256 -> 0 <= y < 256 -> 0 <= Z.lor x y < 256.
Proof.
  intros Hx Hy. assert (0 <= Z.lor x y) by (apply Z.lor_nonneg; lia).
  split; [done|]. destruct (Z.eq_dec (Z.lor x y) 0) as [->|]; [done|].
  change 256 with (2 ^ 8). apply Z.log2_lt_pow2; [lia|].
  rewrite Z.log2_lor by lia. apply Z.max_lub_lt; by apply log2_byte.
Qed.

(** [or_byte] with a one-bit mask sets that bit and nothing else. *)
Lemma or_byte_spec p b pos v :
  0 <= b -> 0 <= pos -> bm_bitmap b + pos / 8 < p_size p -> 0 <= v < 256 ->
  exists p', or_byte p b pos v = Some (p', Z.lor (p_get p (bm_bitmap b + pos / 8) mod 256) v) /\
    p_size p' = p_size p /\
    p_get p' (bm_bitmap b + pos / 8) = Z.lor (p_get p (bm_bitmap b + pos / 8) mod 256) v /\
    forall x, x <> bm_bitmap b + pos / 8 -> p_get p' x = p_get p x.
Proof.
  intros Hb Hp Hs Hv. unfold or_byte. rewrite shiftr3.
  set (a := bm_bitmap b + pos / 8) in *.
  assert (0 <= a) by (unfold a, bm_bitmap; pose proof (Z.div_pos pos 8); lia).
  rewrite load_in by lia. cbn [mbind option_bind]. rewrite le_read_1.
  pose proof (Z.mod_pos_bound (p_get p a) 256) as Hx.
  assert (0 <= Z.lor (p_get p a mod 256) v < 256) as Hl by (apply lor_byte; [apply Hx|]; lia).
  rewrite u8_small by done. rewrite store_in by lia. eexists. split; [done|].
  cbn [p_size p_get]. split; [done|]. unfold le_write. split.
  - zdec. rewrite Z.sub_diag, Z.pow_0_r, Z.div_1_r. by apply Z.mod_small.
  - intros x Hne. destruct (Z.leb_spec a x), (Z.ltb_spec x (a + Z.of_nat 1)); simpl; (done || lia).
Qed.

Lemma testbit_byte x k : 0 <= k < 8 -> Z.testbit (x mod 256) k = Z.testbit x k.
Proof. intros. change 256 with (2 ^ 8). apply Z.mod_pow2_bits_low. lia. Qed.

(** The view of [p'] differs from the view of [p] by the bit [pos] being set. *)
Definition bit_added (p p' : page) (b pos : Z) : Prop :=
  forall i, 0 <= i -> bit p' b i = bit p b i || (i =? pos).

Lemma bit_added_lor p p' b pos :
  0 <= pos ->
  p_get p' (bm_bitmap b + pos / 8) =
    Z.lor (p_get p (bm_bitmap b + pos / 8) mod 256) (Z.shiftl 1 (pos mod 8)) ->
  (forall x, x <> bm_bitmap b + pos / 8 -> p_get p' x = p_get p x) ->
  bit_added p p' b pos.
Proof.
  intros Hpos Hat Hne i Hi. unfold bit.
  pose proof (Z.mod_pos_bound i 8). pose proof (Z.mod_pos_bound pos 8).
  destruct (Z.eq_dec (i / 8) (pos / 8)) as [E|E].
  - rewrite E, Hat, !testbit_byte, Z.lor_spec, testbit_single, testbit_byte by lia. f_equal.
    destruct (Z.eqb_spec i pos) as [->|N]; [by rewrite Z.eqb_refl|].
    apply Z.eqb_neq. intros M. apply N. by apply div_mod_8_eq.
  - rewrite Hne by lia. destruct (Z.eqb_spec i pos) as [->|]; [done|]. by rewrite orb_false_r.
Qed.

Lemma mask_range pos : 0 <= Z.shiftl 1 (pos mod 8) < 256.
Proof.
  pose proof (Z.mod_pos_bound pos 8). rewrite Z.shiftl_1_l.
  split; [apply Z.pow_nonneg; lia|]. change 256 with (2 ^ 8). apply Z.pow_lt_mono_r; lia.
Qed.

Lemma mask_nonzero x pos : 0 <= x -> (Z.lor x (Z.shiftl 1 (pos mod 8)) =? 0) = false.
Proof.
  intros. apply Z.eqb_neq. intros E. apply Z.lor_eq_0_iff in E as [_ E].
  rewrite Z.shiftl_1_l in E. pose proof (Z.pow_pos_nonneg 2 (pos mod 8)).
  pose proof (Z.mod_pos_bound pos 8). lia.
Qed.

(** A bitmap of [nb] bytes at offset [b], all of it inside the page. *)
Record layout (p : page) (b nb : Z) : Prop := {
  lay_b : 0 <= b;
  lay_nb : 0 < nb < 268435456;
  lay_room : bm_bitmap b + nb <= p_size p;
  lay_bytes : le_read 4 (p_get p) (bm_bytes b) = nb
}.

Definition used (p : page) (b : Z) : Z := i32 (le_read 4 (p_get p) (bm_used_bits_count b)).
Definition first (p : page) (b : Z) : Z := i32 (le_read 4 (p_get p) (bm_first_free_pos b)).

(** The bytes an operation on the bitmap may write. *)
Definition frame (p p' : page) (b nb : Z) : Prop :=
  p_size p' = p_size p /\
  forall x, x < bm_used_bits_count b \/ bm_bitmap b + nb <= x -> p_get p' x = p_get p x.

Lemma layout_frame p p' b nb : layout p b nb -> frame p p' b nb -> layout p' b nb.
Proof.
  intros [? ? ? E] [S F]. split; try done; [by rewrite S|].
  rewrite <- E. apply le_read_ext. intros x Hx. rewrite F; [done|].
  unfold bm_bytes, bm_used_bits_count in *. lia.
Qed.

Lemma frame_trans p p' p'' b nb : frame p p' b nb -> frame p' p'' b nb -> frame p p'' b nb.
Proof. intros [S F] [S' F']. split; [congruence|]. intros. by rewrite F', F. Qed.

Lemma bits_lt nb : 0 < nb < 268435456 -> u32 (Z.shiftl nb 3) = 8 * nb.
Proof. intros. rewrite Z.shiftl_mul_pow2 by lia. cint. lia. Qed.

Ltac bm_unfold := unfold bm_bytes, bm_used_bits_count, bm_first_free_pos, bm_bitmap in *.

Lemma or_byte_set p b nb pos :
  layout p b nb -> 0 <= pos < 8 * nb ->
  exists p', or_byte p b pos (Z.shiftl 1 (pos mod 8)) =
      Some (p', Z.lor (p_get p (bm_bitmap b + pos / 8) mod 256) (Z.shiftl 1 (pos mod 8))) /\
    frame p p' b nb /\ bit_added p p' b pos /\ used p' b = used p b /\ first p' b = first p b.
Proof.
  intros [? ? ? ?] Hpos.
  assert (0 <= pos / 8 < nb) as Hq by (split; [apply Z.div_pos|apply Z.div_lt_upper_bound]; lia).
  destruct (or_byte_spec p b pos (Z.shiftl 1 (pos mod 8))) as (p' & E & S & At & Ne);
    [lia|lia|lia|apply mask_range|].
  exists p'. split; [done|]. split; [split; [done|]|split; [apply bit_added_lor; [lia|done|done]|split]].
  - intros x Hx. apply Ne. bm_unfold. lia.
  - unfold used. f_equal. apply le_read_ext. intros x Hx. rewrite Ne; [done|]. bm_unfold. lia.
  - unfold first. f_equal. apply le_read_ext. intros x Hx. rewrite Ne; [done|]. bm_unfold. lia.
Qed.

Lemma bit_header p p' b :
  (forall x, bm_bitmap b <= x -> p_get p' x = p_get p x) -> forall i, 0 <= i -> bit p' b i = bit p b i.
Proof.
  intros H i Hi. unfold bit. rewrite H; [done|]. pose proof (Z.div_pos i 8). lia.
Qed.

(** A store to one of the two counters of the header. *)
Lemma header_store p b nb o v :
  layout p b nb -> o = bm_used_bits_count b \/ o = bm_first_free_pos b ->
  exists p', store32 p o v = Some p' /\ frame p p' b nb /\
    (forall i, 0 <= i -> bit p' b i = bit p b i) /\
    used p' b = (if o =? bm_used_bits_count b then i32 v else used p b) /\
    first p' b = (if o =? bm_first_free_pos b then i32 v else first p b).
Proof.
  intros [? ? ? ?] Ho. eexists. split; [apply store_in; bm_unfold; lia|].
  split; [|split; [|split]].
  - split; [done|]. intros x Hx. apply le_write_outside. bm_unfold. lia.
  - apply bit_header. intros x Hx. apply le_write_outside. bm_unfold. lia.
  - destruct Ho as [-> | ->]; unfold used; cbn [p_get]; bm_unfold; zdec.
    + rewrite le_read_write_same. change (i32 (u32 v) = i32 v). apply i32_u32.
    + by rewrite le_read_write_disjoint by lia.
  - destruct Ho as [-> | ->]; unfold first; cbn [p_get]; bm_unfold; zdec.
    + by rewrite le_read_write_disjoint by lia.
    + rewrite le_read_write_same. change (i32 (u32 v) = i32 v). apply i32_u32.
Qed.

(** [bitmap_set] on a position of the bitmap: the bit becomes set, the counter goes
    up by one (even when the bit was set before), nothing else changes. *)
Lemma bitmap_set_spec p b nb pos :
  layout p b nb -> 0 <= pos < 8 * nb ->
  exists p', bitmap_set p b pos = Some (p', 0) /\ frame p p' b nb /\ bit_added p p' b pos /\
    used p' b = i32 (used p b + 1) /\ first p' b = first p b.
Proof.
  intros L Hpos. pose proof L as [? ? ? ?]. unfold bitmap_set. rewrite land7.
  destruct (or_byte_set p b nb pos) as (p1 & E1 & F1 & B1 & U1 & R1); [done|done|].
  rewrite E1. cbn [mbind option_bind].
  rewrite mask_nonzero by (apply Z.mod_pos_bound; lia).
  pose proof (layout_frame _ _ _ _ L F1) as L1. pose proof L1 as [? ? ? ?].
  unfold load_int. rewrite load_in by (bm_unfold; lia). cbn [mbind option_bind].
  destruct (header_store p1 b nb (bm_used_bits_count b) (atomic_add (used p1 b) 1))
    as (p2 & E2 & F2 & H2 & U2 & R2); [done|by left|].
  fold (used p1 b). rewrite E2. cbn [mbind option_bind].
  pose proof (layout_frame _ _ _ _ L1 F2) as L2. pose proof L2 as [? ? ? E2'].
  unfold bitmap_set_val. rewrite load_in by (bm_unfold; lia). cbn [mbind option_bind].
  rewrite E2', bits_lt by done. zdec. rewrite land7.
  destruct (or_byte_set p2 b nb pos) as (p3 & E3 & F3 & B3 & U3 & R3); [done|done|].
  rewrite E3. cbn [mbind option_bind]. exists p3. split; [done|].
  split; [eauto using frame_trans|].
  rewrite Z.eqb_refl in U2. replace (bm_used_bits_count b =? bm_first_free_pos b) with false in R2
    by (symmetry; bm_unfold; apply Z.eqb_neq; lia).
  split; [|split; [|congruence]].
  - intros i Hi. rewrite B3, H2, B1 by done. rewrite <- orb_assoc. by rewrite orb_diag.
  - rewrite U3, U2, U1. unfold atomic_add. apply i32_idem.
Qed.

(** ** The allocator invariant *)

(** Well-formed for allocation: the cached position is the lowest clear bit, the
    counter counts the set bits, and the bit just behind the bitmap is readable and
    clear (the scan relies on it to stop). *)
Record wf (p : page) (b nb : Z) : Prop := {
  wf_layout : layout p b nb;
  wf_slack_room : bm_bitmap b + nb < p_size p;
  wf_slack : bit p b (8 * nb) = false;
  wf_first : 0 <= first p b <= 8 * nb;
  wf_below : forall i, 0 <= i < first p b -> bit p b i = true;
  wf_at : bit p b (first p b) = false;
  wf_used : used p b = set_bits (Z.to_nat (8 * nb)) p b
}.

Lemma scan_free_found fuel p b pos q :
  0 <= b -> 0 <= pos <= q -> bm_bitmap b + q / 8 < p_size p ->
  (forall i, pos <= i < q -> bit p b i = true) -> bit p b q = false ->
  q - pos < Z.of_nat fuel -> scan_free fuel p b pos = Some q.
Proof.
  intros Hb Hpos Hq. revert pos Hpos. induction fuel as [|fuel IH]; intros pos Hpos Hset Hclr Hf; [lia|].
  cbn [scan_free]. rewrite shiftr3, land7.
  assert (0 <= pos / 8 <= q / 8) by (split; [apply Z.div_pos|apply Z.div_le_mono]; lia).
  rewrite load_in by (bm_unfold; lia). cbn [mbind option_bind].
  rewrite le_read_1, testbit_mask by (apply Z.mod_pos_bound; lia). fold (bit p b pos).
  destruct (Z.eq_dec pos q) as [->|N].
  - by rewrite Hclr.
  - rewrite Hset by lia. cbn [negb]. apply IH; [lia| |done|lia]. intros; apply Hset; lia.
Qed.

Lemma lowest_clear p b n pos :
  0 <= pos <= n -> bit p b n = false ->
  exists q, pos <= q <= n /\ (forall i, pos <= i < q -> bit p b i = true) /\ bit p b q = false.
Proof.
  intros Hpos Hn. remember (Z.to_nat (n - pos)) as k eqn:Hk.
  revert pos Hpos Hk. induction k as [|k IH]; intros pos Hpos Hk.
  - exists n. split; [lia|]. split; [intros; lia|done].
  - destruct (bit p b pos) eqn:E; [|exists pos; split; [lia|split; [intros; lia|done]]].
    destruct (IH (pos + 1)) as (q & Hq & Hs & Hc); [lia|lia|].
    exists q. split; [lia|]. split; [|done]. intros i Hi.
    destruct (Z.eq_dec i pos) as [->|]; [done|]. apply Hs. lia.
Qed.

Lemma set_bits_ext n p p' b :
  (forall i, 0 <= i < Z.of_nat n -> bit p' b i = bit p b i) -> set_bits n p' b = set_bits n p b.
Proof.
  induction n as [|n IH]; intros H; cbn [set_bits]; [done|].
  rewrite IH by (intros; apply H; lia). by rewrite H by lia.
Qed.

Lemma set_bits_added n p p' b pos :
  bit_added p p' b pos -> 0 <= pos < Z.of_nat n -> bit p b pos = false ->
  set_bits n p' b = set_bits n p b + 1.
Proof.
  intros A. induction n as [|n IH]; intros Hpos Hc; cbn [set_bits]; [lia|].
  rewrite A by lia. destruct (Z.eqb_spec (Z.of_nat n) pos) as [E|E].
  - rewrite orb_true_r, E, Hc, (set_bits_ext n p p'); [lia|].
    intros i Hi. rewrite A by lia. zdec. by rewrite orb_false_r.
  - rewrite orb_false_r, IH; [lia|lia|done].
Qed.

Lemma set_bits_range n p b : 0 <= set_bits n p b <= Z.of_nat n.
Proof. induction n; cbn [set_bits]; [lia|]. case_match; lia. Qed.

Lemma set_bits_clear n p b pos :
  0 <= pos < Z.of_nat n -> bit p b pos = false -> set_bits n p b < Z.of_nat n.
Proof.
  induction n as [|n IH]; intros Hpos Hc; [lia|]. cbn [set_bits].
  destruct (Z.eq_dec pos (Z.of_nat n)) as [->|].
  - rewrite Hc. pose proof (set_bits_range n p b). lia.
  - assert (set_bits n p b < Z.of_nat n) by (apply IH; [lia|done]). case_match; lia.
Qed.

(** The same with the stop of the scan at [lim], a clear bit at or behind the cached
    position.  Only the last position of a bitmap needs the bit behind it. *)
Record wf_upto (lim : Z) (p : page) (b nb : Z) : Prop := {
  wu_layout : layout p b nb;
  wu_room : bm_bitmap b + lim / 8 < p_size p;
  wu_lim : lim <= 8 * nb;
  wu_stop : bit p b lim = false;
  wu_first : 0 <= first p b <= lim;
  wu_below : forall i, 0 <= i < first p b -> bit p b i = true;
  wu_at : bit p b (first p b) = false;
  wu_used : used p b = set_bits (Z.to_nat (8 * nb)) p b
}.

Lemma wf_upto_all p b nb : wf_upto (8 * nb) p b nb <-> wf p b nb.
Proof.
  assert (8 * nb / 8 = nb) as E by (rewrite Z.mul_comm; apply Z.div_mul; lia).
  split; intros []; split; rewrite ?E in *; done.
Qed.

(** Allocation from a bitmap with a free block below the stop. *)
Lemma get_first_free_upto lim p b nb :
  wf_upto lim p b nb -> first p b < lim ->
  exists p', bitmap_get_first_free p (Some b) = Some (p', first p b) /\
    wf_upto lim p' b nb /\ frame p p' b nb /\ bit p b (first p b) = false /\
    (forall i, 0 <= i <= 8 * nb -> bit p' b i = bit p b i || (i =? first p b)).
Proof.
  intros [L SR HL SL FR BL AT US] Hlt. pose proof L as [? ? ? EB].
  unfold bitmap_get_first_free, load_int. rewrite !load_in by (bm_unfold; lia).
  cbn [mbind option_bind]. fold (first p b). unfold atomic_get.
  rewrite EB, bits_lt, (u32_small (first p b)) by lia. zdec.
  destruct (bitmap_set_spec p b nb (first p b)) as (p1 & E1 & F1 & B1 & U1 & R1); [done|lia|].
  rewrite E1. cbn [mbind option_bind]. zdec.
  pose proof F1 as [S1 _].
  set (pos0 := i32 _).
  assert (Hpos0 : 0 <= pos0 /\ pos0 <= lim /\
                  (pos0 = first p b + 1 \/ first p b + 1 = 8 * nb /\ pos0 = 0)).
  { unfold pos0. rewrite u32_small by lia.
    destruct (Z.eq_dec (first p b + 1) (8 * nb)) as [->|].
    - rewrite Z.mod_same by lia. cint. lia.
    - rewrite Z.mod_small by lia. cint. lia. }
  clearbody pos0. destruct Hpos0 as (Hp0 & Hp0' & Hcase).
  assert (SL1 : bit p1 b lim = false) by (rewrite B1, SL by lia; zdec; done).
  destruct (lowest_clear p1 b lim pos0) as (q & Hq & Qs & Qc); [lia|done|].
  assert (Hb1 : forall i, 0 <= i < q -> bit p1 b i = true).
  { intros i Hi. destruct (Z.lt_ge_cases i pos0); [|apply Qs; lia].
    rewrite B1 by lia. destruct (Z.eqb_spec i (first p b)); [by rewrite orb_true_r|].
    rewrite BL by lia. done. }
  assert (q / 8 <= lim / 8 <= nb) by (split; [apply Z.div_le_mono; lia|apply Z.div_le_upper_bound; lia]).
  rewrite (scan_free_found _ p1 b pos0 q); [|done|lia|lia|done|done|bm_unfold; lia].
  cbn [mbind option_bind]. pose proof (layout_frame _ _ _ _ L F1) as L1.
  destruct (header_store p1 b nb (bm_first_free_pos b) (atomic_set (first p b) q))
    as (p2 & E2 & F2 & Hbit & U2 & R2); [done|by right|].
  rewrite E2. cbn [mbind option_bind]. rewrite Z.eqb_refl in R2.
  unfold atomic_set in R2. rewrite i32_small in R2 by lia.
  replace (bm_first_free_pos b =? bm_used_bits_count b) with false in U2
    by (symmetry; bm_unfold; apply Z.eqb_neq; lia).
  exists p2. split; [done|]. split; [|split; [by eapply frame_trans|split; [done|]]].
  - split; [by eapply layout_frame|destruct F2 as [-> _]; lia|done|by rewrite Hbit by lia|rewrite R2; lia|..].
    + rewrite R2. intros i Hi. by rewrite Hbit, Hb1 by lia.
    + by rewrite R2, Hbit by lia.
    + rewrite U2, U1, US. erewrite (set_bits_ext _ p1 p2) by (intros; apply Hbit; lia).
      rewrite (set_bits_added _ p p1 b (first p b)); [|done|lia|done].
      pose proof (set_bits_range (Z.to_nat (8 * nb)) p b). cint. done.
  - intros i Hi. by rewrite Hbit, B1 by lia.
Qed.

Lemma get_first_free_step p b nb :
  wf p b nb -> first p b < 8 * nb ->
  exists p', bitmap_get_first_free p (Some b) = Some (p', first p b) /\
    wf p' b nb /\ frame p p' b nb /\ bit p b (first p b) = false /\
    (forall i, 0 <= i <= 8 * nb -> bit p' b i = bit p b i || (i =? first p b)).
Proof.
  intros W Hlt. apply wf_upto_all in W. destruct (get_first_free_upto (8 * nb) p b nb W Hlt) as (p' & E & W' & H).
  apply wf_upto_all in W'. by exists p'.
Qed.

(** A full bitmap refuses and is left as it is. *)
Lemma bitmap_get_first_free_full p b nb :
  wf p b nb -> first p b = 8 * nb -> bitmap_get_first_free p (Some b) = Some (p, -1).
Proof.
  intros [L SR SL FR BL AT US] E. pose proof L as [? ? ? EB].
  unfold bitmap_get_first_free, load_int. rewrite !load_in by (bm_unfold; lia).
  cbn [mbind option_bind]. fold (first p b). unfold atomic_get.
  rewrite EB, bits_lt, u32_small, E by lia. by rewrite Z.eqb_refl.
Qed.

(** C36: on a bitmap with a free block the call returns the lowest free position,
    marks exactly that block used, keeps the allocator invariant and writes nothing
    outside the bitmap's counter, cache and bits; on a full bitmap it returns -1 and
    changes nothing. *)
Theorem bitmap_get_first_free_spec p b nb :
  wf p b nb ->
  (first p b < 8 * nb -> exists p', bitmap_get_first_free p (Some b) = Some (p', first p b) /\
     wf p' b nb /\ frame p p' b nb /\ bit p b (first p b) = false /\
     (forall i, 0 <= i < first p b -> bit p b i = true) /\
     (forall i, 0 <= i <= 8 * nb -> bit p' b i = bit p b i || (i =? first p b))) /\
  (first p b = 8 * nb -> bitmap_get_first_free p (Some b) = Some (p, -1)).
Proof.
  intros W. split; [|by apply bitmap_get_first_free_full].
  intros Hlt. destruct (get_first_free_step p b nb W Hlt) as (p' & E & W' & F & B & B').
  exists p'. split; [done|]. split; [done|]. split; [done|]. split; [done|]. split; [apply W|done].
Qed.

(** ** Allocation from a fresh bitmap *)

(** The cached position is also the end of the used part: the bits from it up to
    [lim] are clear. *)
Definition packed (lim : Z) (p : page) (b nb : Z) : Prop :=
  wf_upto lim p b nb /\ forall i, first p b <= i <= lim -> bit p b i = false.

(** Only the struct and the byte behind the bits matter. *)
Lemma bit_ext p p' b i : p_get p' (bm_bitmap b + i / 8) = p_get p (bm_bitmap b + i / 8) -> bit p' b i = bit p b i.
Proof. intros E. unfold bit. by rewrite E. Qed.

Lemma packed_agree lim p p' b nb :
  p_size p' = p_size p -> (forall x, b <= x <= bm_bitmap b + nb -> x < p_size p -> p_get p' x mod 256 = p_get p x mod 256) ->
  packed lim p b nb -> packed lim p' b nb /\ first p' b = first p b.
Proof.
  intros S H [[[L1 L2 L3 L4] W2 W3 W4 W5 W6 W7 W8] K].
  assert (R : forall o, b <= o -> o + 4 <= bm_bitmap b -> le_read 4 (p_get p') o = le_read 4 (p_get p) o).
  { intros o Ho Ho'. apply le_read_ext. intros x Hx. apply H; lia. }
  assert (F : first p' b = first p b) by (unfold first; rewrite R; bm_unfold; (done || lia)).
  assert (B : forall i, 0 <= i -> i <= lim \/ i < 8 * nb -> bit p' b i = bit p b i).
  { intros i Hi Hi'. unfold bit. assert (0 <= i / 8) by (apply Z.div_pos; lia).
    assert (i / 8 <= lim / 8 \/ i / 8 < nb).
    { destruct Hi'; [left; apply Z.div_le_mono; lia|right; apply Z.div_lt_upper_bound; lia]. }
    assert (lim / 8 <= nb) by (apply Z.div_le_upper_bound; lia). rewrite H; [done|..]; bm_unfold; lia. }
  split; [|done]. split; [split; [split|..]|]; rewrite ?F; try done; try lia.
  - by rewrite R by (bm_unfold; lia).
  - by rewrite B by lia.
  - intros i Hi. rewrite B by lia. auto.
  - by rewrite B by lia.
  - unfold used. rewrite R by (bm_unfold; lia). fold (used p b). rewrite W8. symmetry.
    apply set_bits_ext. intros i Hi. apply B; lia.
  - intros i Hi. rewrite B by lia. auto.
Qed.

Lemma packed_ext lim p p' b nb :
  p_size p' = p_size p -> (forall x, b <= x <= bm_bitmap b + nb -> p_get p' x = p_get p x) ->
  packed lim p b nb -> packed lim p' b nb /\ first p' b = first p b.
Proof. intros S H. apply packed_agree; [done|]. intros x Hx _. by rewrite H. Qed.

Lemma packed_step lim p b nb :
  packed lim p b nb -> first p b < lim ->
  exists p', bitmap_get_first_free p (Some b) = Some (p', first p b) /\
    packed lim p' b nb /\ first p' b = first p b + 1 /\ frame p p' b nb.
Proof.
  intros [W A] Hlt. destruct (get_first_free_upto lim p b nb W Hlt) as (p' & E & W' & F & _ & B).
  pose proof (wu_first _ _ _ _ W). pose proof (wu_first _ _ _ _ W'). pose proof (wu_lim _ _ _ _ W).
  assert (first p' b = first p b + 1) as E1.
  { destruct (Z.lt_trichotomy (first p' b) (first p b + 1)) as [H2|[H2|H2]]; [|done|].
    - pose proof (wu_at _ _ _ _ W') as C. rewrite B in C by lia.
      destruct (Z.eqb_spec (first p' b) (first p b)); [by rewrite orb_true_r in C|].
      rewrite (wu_below _ _ _ _ W) in C by lia. done.
    - pose proof (wu_below _ _ _ _ W' (first p b + 1)) as C. rewrite B, A in C by lia.
      destruct (Z.eqb_spec (first p b + 1) (first p b)); [lia|]. simpl in C. specialize (C ltac:(lia)). done. }
  exists p'. split; [done|]. split; [|done]. split; [done|]. rewrite E1. intros i Hi.
  rewrite B, A by lia. zdec. done.
Qed.

(** Byte offsets of the bits. *)
Lemma bit_offset i nb : 0 <= i < 8 * nb -> 0 <= i / 8 < nb.
Proof. intros. split; [apply Z.div_pos|apply Z.div_lt_upper_bound]; lia. Qed.

(** [bitmap_init] writes the header and clears the bits of the bitmap. *)
Lemma bitmap_init_run p b nb :
  0 <= b -> 0 < nb < 268435456 -> bm_bitmap b + nb <= p_size p ->
  exists p', bitmap_init p b nb = Some p' /\ layout p' b nb /\ p_size p' = p_size p /\
    first p' b = 0 /\ used p' b = 0 /\ (forall i, 0 <= i < 8 * nb -> bit p' b i = false) /\
    (forall x, x < b \/ bm_bitmap b + nb <= x -> p_get p' x = p_get p x).
Proof.
  intros Hb Hnb Hr. unfold bitmap_init, load_int, atomic_set.
  repeat first [ rewrite store_in by (cbn [p_size]; bm_unfold; lia)
               | rewrite load_in by (cbn [p_size]; bm_unfold; lia)
               | rewrite memset_in by (cbn [p_size]; bm_unfold; lia)
               | progress cbn [mbind option_bind] ].
  eexists. split; [done|]. cbn [p_size p_get]. split; [|split; [done|split; [|split; [|split]]]].
  - split; [done|done|done|]. cbn [p_get].
    rewrite !le_read_write_disjoint by (bm_unfold; lia).
    rewrite (le_read_ext _ _ (le_write 4 (p_get p) (bm_bytes b) nb)).
    + rewrite le_read_write_same. apply u32_small. lia.
    + intros x Hx. rewrite fill_outside by (bm_unfold; lia). done.
  - unfold first. cbn [p_get]. by rewrite le_read_write_same.
  - unfold used. cbn [p_get]. rewrite le_read_write_disjoint by (bm_unfold; lia). by rewrite le_read_write_same.
  - intros i Hi. pose proof (bit_offset i nb Hi). unfold bit. cbn [p_get].
    rewrite !le_write_outside by (bm_unfold; lia). rewrite fill_inside by (bm_unfold; lia).
    apply Z.bits_0.
  - intros x Hx. rewrite !le_write_outside by (bm_unfold; lia).
    rewrite fill_outside, le_write_outside by (bm_unfold; lia). done.
Qed.

Lemma set_bits_zero n p b : (forall i, 0 <= i < Z.of_nat n -> bit p b i = false) -> set_bits n p b = 0.
Proof.
  induction n as [|n IH]; intros H; cbn [set_bits]; [done|].
  rewrite H, IH by lia || (intros; apply H; lia). done.
Qed.

(** A fresh bitmap: all but the last position can be taken whatever lies behind the
    bits, the last one too when a clear bit follows. *)
Lemma bitmap_init_upto lim p b nb p' :
  0 <= b -> 0 < nb < 268435456 -> bm_bitmap b + nb <= p_size p ->
  0 <= lim < 8 * nb \/ lim = 8 * nb /\ bm_bitmap b + nb < p_size p /\ bit p b (8 * nb) = false ->
  bitmap_init p b nb = Some p' -> packed lim p' b nb /\ first p' b = 0 /\ p_size p' = p_size p.
Proof.
  intros Hb Hnb Hr Hs E.
  destruct (bitmap_init_run p b nb) as (p1 & E1 & L & S & R & U & B & O); [done|done|lia|].
  rewrite E1 in E. simplify_eq.
  assert (E8 : 8 * nb / 8 = nb) by (rewrite Z.mul_comm; apply Z.div_mul; lia).
  assert (BA : forall i, 0 <= i <= lim -> bit p' b i = false).
  { intros i Hi. destruct (Z.eq_dec i (8 * nb)) as [->|]; [|apply B; lia]. destruct Hs as [|(-> & _ & Hs)]; [lia|].
    unfold bit in *. rewrite E8 in *. rewrite O by lia. done. }
  split; [|done]. split; [split|]; rewrite ?R; try done; try lia.
  - rewrite S. destruct Hs as [Hs|(-> & Hs & _)]; [|by rewrite E8].
    assert (lim / 8 < nb) by (apply Z.div_lt_upper_bound; lia). lia.
  - apply BA. lia.
  - apply BA. lia.
  - rewrite U, set_bits_zero; [done|]. intros i Hi. apply B. lia.
Qed.

Lemma bitmap_init_packed lim p b nb p' :
  0 <= b -> 0 < nb < 268435456 -> bm_bitmap b + nb < p_size p -> 0 <= lim < 8 * nb \/ lim = 8 * nb /\ bit p b (8 * nb) = false ->
  bitmap_init p b nb = Some p' -> packed lim p' b nb.
Proof.
  intros Hb Hnb Hr Hs E. apply (bitmap_init_upto lim p b nb p'); try done; [lia|].
  destruct Hs as [?|[? ?]]; [by left|by right].
Qed.

(** [k] allocations in a row. *)
Fixpoint alloc_many (k : nat) (p : page) (b : Z) : option (page * list Z) :=
  match k with
  | O => Some (p, [])
  | S k =>
      '(p, r) ← bitmap_get_first_free p (Some b);
      '(p, rs) ← alloc_many k p b;
      Some (p, r :: rs)
  end.

Lemma alloc_many_packed k lim p b nb :
  packed lim p b nb -> first p b + Z.of_nat k <= lim ->
  exists p', alloc_many k p b = Some (p', seqZ (first p b) (Z.of_nat k)) /\
    packed lim p' b nb /\ first p' b = first p b + Z.of_nat k.
Proof.
  revert p. induction k as [|k IH]; intros p P Hk.
  - exists p. split; [done|]. split; [done|lia].
  - destruct (packed_step lim p b nb P) as (p1 & E1 & P1 & F1 & _); [lia|].
    destruct (IH p1) as (p2 & E2 & P2 & F2); [done|lia|].
    exists p2. cbn [alloc_many]. rewrite E1. cbn [mbind option_bind]. rewrite E2.
    cbn [mbind option_bind]. split; [|split; [done|lia]].
    rewrite (seqZ_cons (first p b)) by lia. rewrite F1.
    by replace (Z.pred (Z.of_nat (S k))) with (Z.of_nat k) by lia.
Qed.

(** a bitmap initialised over [nb] bytes, followed by a clear bit, hands out the
    blocks 0, 1, ..., 8 nb - 1 in this order, each exactly once, and then reports
    exhaustion. *)
Theorem bitmap_alloc_sequence p b nb p0 k :
  0 <= b -> 0 < nb < 268435456 -> bm_bitmap b + nb < p_size p ->
  bit p b (8 * nb) = false -> bitmap_init p b nb = Some p0 -> Z.of_nat k <= 8 * nb ->
  exists p', alloc_many k p0 b = Some (p', seqZ 0 (Z.of_nat k)) /\
    (Z.of_nat k = 8 * nb -> bitmap_get_first_free p' (Some b) = Some (p', -1)).
Proof.
  intros Hb Hnb Hr Hs E Hk. pose proof (bitmap_init_packed (8 * nb) _ _ _ _ Hb Hnb Hr (or_intror (conj eq_refl Hs)) E) as P.
  destruct (bitmap_init_run p b nb) as (p1 & E1 & _ & _ & R & _); [done|done|lia|].
  rewrite E1 in E. simplify_eq.
  destruct (alloc_many_packed k _ p0 b nb P) as (p' & Ea & P' & Rk); [lia|].
  exists p'. rewrite Ea, R. split; [done|]. intros. eapply bitmap_get_first_free_full; [apply wf_upto_all, P'|lia].
Qed.

Definition zero_page (n : Z) : page := Page n (fun _ => 0).

Lemma bitmap_alloc_sequence_witness :
  exists p0 p', bitmap_init (zero_page 16) 0 2 = Some p0 /\ alloc_many 16 p0 0 = Some (p', seqZ 0 16) /\
    bitmap_get_first_free p' (Some 0) = Some (p', -1).
Proof.
  assert (H : exists p0, bitmap_init (zero_page 16) 0 2 = Some p0) by (eexists; reflexivity).
  destruct H as [p0 H0].
  destruct (bitmap_alloc_sequence (zero_page 16) 0 2 p0 16) as (p' & E & F);
    [lia|lia|reflexivity|reflexivity|exact H0|lia|].
  exists p0, p'. split; [exact H0|]. split; [exact E|]. apply F. reflexivity.
Defined.

Lemma bitmap_get_first_free_witness :
  exists p0 p', bitmap_init (zero_page 16) 0 2 = Some p0 /\
    bitmap_get_first_free p0 (Some 0) = Some (p', 0).
Proof.
  assert (H : exists p0, bitmap_init (zero_page 16) 0 2 = Some p0) by (eexists; reflexivity).
  destruct H as [p0 H0]. exists p0.
  assert (P : packed 16 p0 0 2).
  { apply (bitmap_init_packed _ (zero_page 16)); [lia|lia|reflexivity|right; split; reflexivity|exact H0]. }
  assert (R : first p0 0 = 0) by (injection H0 as <-; reflexivity).
  destruct (bitmap_get_first_free_spec p0 0 2 (proj1 (wf_upto_all p0 0 2) (proj1 P))) as [(p' & E & _) _]; [rewrite R; lia|].
  exists p'. split; [exact H0|]. rewrite E, R. reflexivity.
Defined.

(** ** Releasing a block *)

Lemma or_byte_zero p b nb pos :
  layout p b nb -> 0 <= pos < 8 * nb ->
  exists p', or_byte p b pos 0 = Some (p', p_get p (bm_bitmap b + pos / 8) mod 256) /\
    frame p p' b nb /\ (forall i, 0 <= i -> bit p' b i = bit p b i) /\
    used p' b = used p b /\ first p' b = first p b.
Proof.
  intros [? ? ? ?] Hpos. pose proof (bit_offset pos nb Hpos) as Hq.
  destruct (or_byte_spec p b pos 0) as (p' & E & S & At & Ne); [lia|lia|lia|lia|].
  rewrite Z.lor_0_r in *. exists p'.
  assert (G : forall x, p_get p' x mod 256 = p_get p x mod 256).
  { intros x. destruct (Z.eq_dec x (bm_bitmap b + pos / 8)) as [->|]; [|by rewrite Ne].
    rewrite At. apply Z.mod_mod. lia. }
  split; [done|]. split; [split; [done|]|split; [|split]].
  - intros x Hx. apply Ne. bm_unfold. lia.
  - intros i Hi. unfold bit. by rewrite G.
  - unfold used. f_equal. apply le_read_ext. intros x _. apply G.
  - unfold first. f_equal. apply le_read_ext. intros x _. apply G.
Qed.

Lemma bit_byte_nonzero p b pos :
  bit p b pos = true -> (p_get p (bm_bitmap b + pos / 8) mod 256 =? 0) = false.
Proof. unfold bit. intros H. apply Z.eqb_neq. intros E. by rewrite E, Z.bits_0 in H. Qed.

(** The cached position moves down to a released block. *)
Lemma lower_cache p b nb pos :
  layout p b nb -> 0 <= pos < 8 * nb -> 0 <= first p b ->
  exists p', (if pos <? u32 (atomic_get (first p b))
              then store32 p (bm_first_free_pos b) (atomic_set (first p b) pos)
              else Some p) = Some p' /\
    frame p p' b nb /\ (forall i, 0 <= i -> bit p' b i = bit p b i) /\
    used p' b = used p b /\ first p' b = Z.min (first p b) pos.
Proof.
  intros L Hpos Hf. pose proof L as [? ? ? ?].
  pose proof (i32_range (le_read 4 (p_get p) (bm_first_free_pos b))) as Rg. fold (first p b) in Rg.
  unfold atomic_get. rewrite (u32_small (first p b)) by lia.
  destruct (Z.ltb_spec pos (first p b)).
  - destruct (header_store p b nb (bm_first_free_pos b) (atomic_set (first p b) pos))
      as (p3 & E3 & F3 & B3 & U3 & R3); [done|by right|].
    exists p3. rewrite Z.eqb_refl in R3. unfold atomic_set in R3. rewrite i32_small in R3 by lia.
    replace (bm_first_free_pos b =? bm_used_bits_count b) with false in U3
      by (symmetry; bm_unfold; apply Z.eqb_neq; lia).
    split; [done|]. split; [done|]. split; [done|]. split; [done|]. lia.
  - exists p. split; [done|]. split; [by split|]. split; [done|]. split; [done|]. lia.
Qed.

(** [bitmap_clear] does not clear. On a block that is in use it reports success,
    decrements the counter and moves the cached free position down to that block,
    but every bit keeps its value, so the block stays marked as used. *)
Theorem bitmap_clear_keeps_bit p b nb pos :
  layout p b nb -> 0 <= pos < 8 * nb -> 0 <= first p b -> bit p b pos = true ->
  exists p', bitmap_clear p b pos = Some (p', 0) /\
    (forall i, 0 <= i -> bit p' b i = bit p b i) /\
    used p' b = i32 (used p b - 1) /\ first p' b = Z.min (first p b) pos.
Proof.
  intros L Hpos Hf Hset. pose proof L as [? ? ? ?]. unfold bitmap_clear.
  rewrite Z.shiftl_0_l. destruct (or_byte_zero p b nb pos L Hpos) as (p1 & E1 & F1 & B1 & U1 & R1).
  rewrite E1. cbn [mbind option_bind]. rewrite bit_byte_nonzero by done.
  pose proof (layout_frame _ _ _ _ L F1) as L1. pose proof L1 as [? ? ? ?].
  rewrite load_int_in by (bm_unfold; lia). cbn [mbind option_bind]. fold (used p1 b).
  destruct (header_store p1 b nb (bm_used_bits_count b) (atomic_sub (used p1 b) 1))
    as (p2 & E2 & F2 & B2 & U2 & R2); [done|by left|].
  rewrite E2. cbn [mbind option_bind].
  pose proof (layout_frame _ _ _ _ L1 F2) as L2. pose proof L2 as [? ? ? ?].
  rewrite load_int_in by (bm_unfold; lia). cbn [mbind option_bind]. fold (first p2 b).
  rewrite Z.eqb_refl in U2. replace (bm_used_bits_count b =? bm_first_free_pos b) with false in R2
    by (symmetry; bm_unfold; apply Z.eqb_neq; lia).
  destruct (lower_cache p2 b nb pos) as (p3 & E3 & F3 & B3 & U3 & R3); [done|done|lia|].
  rewrite E3. cbn [mbind option_bind].
  pose proof (layout_frame _ _ _ _ L2 F3) as L3. pose proof L3 as [? ? ? EB3].
  unfold bitmap_set_val. rewrite load_in by (bm_unfold; lia). cbn [mbind option_bind].
  rewrite EB3, bits_lt by done. zdec. rewrite Z.shiftl_0_l.
  destruct (or_byte_zero p3 b nb pos L3 Hpos) as (p4 & E4 & F4 & B4 & U4 & R4).
  rewrite E4. cbn [mbind option_bind]. exists p4. split; [done|]. split; [|split].
  - intros i Hi. by rewrite B4, B3, B2, B1.
  - rewrite U4, U3, U2, U1. unfold atomic_sub. apply i32_idem.
  - by rewrite R4, R3, R2, R1.
Qed.

Lemma bitmap_clear_keeps_bit_witness :
  exists p p', bitmap_set (Page 16 (le_write 4 (fun _ => 0) 0 2)) 0 5 = Some (p, 0) /\
    bitmap_clear p 0 5 = Some (p', 0) /\ bit p' 0 5 = true.
Proof.
  assert (L0 : layout (Page 16 (le_write 4 (fun _ => 0) 0 2)) 0 2)
    by (split; [lia|lia|done|reflexivity]).
  destruct (bitmap_set_spec _ 0 2 5 L0) as (p & E & F & B & _ & R); [lia|].
  pose proof (layout_frame _ _ _ _ L0 F) as L.
  assert (B5 : bit p 0 5 = true) by (rewrite B by lia; reflexivity).
  destruct (bitmap_clear_keeps_bit p 0 2 5 L) as (p' & E' & B' & _); [lia|by rewrite R|done|].
  exists p, p'. split; [exact E|]. split; [exact E'|]. rewrite B'; [exact B5|lia].
Defined.

(** the scan relies on the bit behind the bitmap. When [bitmap_init] runs over
    memory whose next bit is set, the full bitmap is not recognised: with one byte of
    bitmap over memory filled with ones the ninth allocation does not report
    exhaustion but returns 9, a position behind the bitmap. *)
Theorem bitmap_overrun :
  exists p0, bitmap_init (Page 14 (fun _ => 1)) 0 1 = Some p0 /\
    snd <$> alloc_many 9 p0 0 = Some [0; 1; 2; 3; 4; 5; 6; 7; 9].
Proof. eexists. split; [reflexivity|]. vm_compute. reflexivity. Qed.
