(* ===== verification/MrHeap.v ===== *)
(** * MrHeap: the block group heap of userfs/userfs_heap.c

    An array of pointers to elements, ordered by the number of free blocks with
    the largest at the root.  Elements live in the C heap ([elems], by address) and
    are shared with the caller, so the heap stores addresses and compares through
    them.  An index outside the array or a pointer to no element is undefined
    behaviour: the operation has no result. *)
From Stdlib Require Import Sorting.Sorted.
From S2P Require Import Prelude.
Local Open Scope Z_scope.

Record mrheap_elem := Elem { bgi_free_blocks_count : Z; bgi_bgroup_nr : Z }.

#[export] Instance mrheap_elem_eq_dec : EqDecision mrheap_elem.
Proof. solve_decision. Defined.

Abbreviation elems := (gmap Z mrheap_elem).

(** [heap] has [capacity] cells; only the first [size] are in use. *)
Record mrheap := Mrheap { heap : list Z; capacity : Z; size : Z }.

Definition sizeof_mrheap : Z := 16.
Definition sizeof_mrheap_elem : Z := 8.
Definition sizeof_ptr : Z := 8.

(** [garbage]: what the array holds when malloc returns it. *)
Definition userfs_mrheap_create (a : alloc) (cap : Z) (garbage : list Z) : option mrheap * alloc :=
  let '(minHeap, a) := malloc a sizeof_mrheap in
  if minHeap =? NULL then (None, a)
  else
    let '(arr, a) := malloc a (cap * sizeof_ptr) in
    if arr =? NULL then (None, a)
    else (Some (Mrheap garbage cap 0), a).

(** Array cells. *)
Definition cell (arr : list Z) (i : Z) : option Z := arr !! Z.to_nat i.
Definition set_cell (arr : list Z) (i v : Z) : option (list Z) :=
  if (0 <=? i) && (i <? Z.of_nat (length arr)) then Some (<[Z.to_nat i := v]> arr) else None.

Definition swap (arr : list Z) (a b : Z) : option (list Z) :=
  tmp ← cell arr a;
  y ← cell arr b;
  arr ← set_cell arr a y;
  set_cell arr b tmp.

Definition element_compare (es : elems) (first second : Z) : option bool :=
  x ← es !! first;
  y ← es !! second;
  Some (bgi_free_blocks_count x <? bgi_free_blocks_count y).

(** The loop of [heap_up]; [index + 1] rounds are enough. *)
Fixpoint heap_up (fuel : nat) (es : elems) (arr : list Z) (index : Z) : option (list Z) :=
  match fuel with
  | O => None
  | S fuel =>
      let parent := u32 (index - 1) / 2 in
      if 0 <? index then
        x ← cell arr parent;
        y ← cell arr index;
        lt ← element_compare es x y;
        if (lt : bool) then
          arr ← swap arr parent index;
          heap_up fuel es arr parent
        else Some arr
      else Some arr
  end.

(** One of the two child tests of [heap_down]: the index of the larger of the
    current candidate and the child, if there is such a child. *)
Definition pick_child (es : elems) (arr : list Z) (sz smallest child : Z) : option Z :=
  if child <? sz then
    x ← cell arr smallest;
    y ← cell arr child;
    lt ← element_compare es x y;
    Some (if (lt : bool) then child else smallest)
  else Some smallest.

(** The recursion of [heap_down]; [size] rounds are enough. *)
Fixpoint heap_down (fuel : nat) (es : elems) (arr : list Z) (sz index : Z) : option (list Z) :=
  match fuel with
  | O => None
  | S fuel =>
      let left_child := u32 (2 * index + 1) in
      let right_child := u32 (2 * index + 2) in
      smallest ← pick_child es arr sz index left_child;
      smallest ← pick_child es arr sz smallest right_child;
      if negb (smallest =? index) then
        arr ← swap arr smallest index;
        heap_down fuel es arr sz smallest
      else Some arr
  end.

(** [elem_ptr = NULL] asks for a new element. The result is the element, [NULL]
    when the heap is full or there is no memory. *)
Definition userfs_mrheap_insert (a : alloc) (es : elems) (h : mrheap)
    (nr free elem_ptr : Z) : option (Z * alloc * elems * mrheap) :=
  if size h =? capacity h then Some (NULL, a, es, h)
  else
    let '(value, a) := if elem_ptr =? NULL then malloc a sizeof_mrheap_elem else (elem_ptr, a) in
    if value =? NULL then Some (NULL, a, es, h)
    else
      let es := <[value := Elem free nr]> es in
      arr ← set_cell (heap h) (size h) value;
      arr ← heap_up (S (Z.to_nat (size h))) es arr (size h);
      Some (value, a, es, Mrheap arr (capacity h) (u32 (size h + 1))).

Definition userfs_mrheap_get_heaptop (h : mrheap) : option Z :=
  if size h =? 0 then Some NULL else cell (heap h) 0.

Definition userfs_mrheap_extract_heaptop (es : elems) (h : mrheap) : option (Z * mrheap) :=
  min ← userfs_mrheap_get_heaptop h;
  if min =? NULL then Some (min, h)
  else
    last ← cell (heap h) (u32 (size h - 1));
    arr ← set_cell (heap h) 0 last;
    let sz := u32 (size h - 1) in
    arr ← heap_down (S (Z.to_nat sz)) es arr sz 0;
    Some (min, Mrheap arr (capacity h) sz).

(** Evaluate a small run: four groups inserted, then extracted. *)
Example heap_run :
  match userfs_mrheap_create (Alloc 4096 []) 4 [7; 7; 7; 7] with
  | (Some h, a) =>
      ('(_, a, es, h) ← userfs_mrheap_insert a ∅ h 0 5 NULL;
       '(_, a, es, h) ← userfs_mrheap_insert a es h 1 9 NULL;
       '(_, a, es, h) ← userfs_mrheap_insert a es h 2 7 NULL;
       '(_, a, es, h) ← userfs_mrheap_insert a es h 3 8 NULL;
       '(p, h) ← userfs_mrheap_extract_heaptop es h;
       '(q, h) ← userfs_mrheap_extract_heaptop es h;
       '(r, h) ← userfs_mrheap_extract_heaptop es h;
       Some (bgi_bgroup_nr <$> es !! p, bgi_bgroup_nr <$> es !! q, bgi_bgroup_nr <$> es !! r))
  | _ => None
  end = Some (Some 1, Some 3, Some 2).
Proof. reflexivity. Qed.

(** ** Heap order *)

Definition key (es : elems) (arr : list Z) (i : Z) : Z :=
  default 0 (p ← cell arr i; bgi_free_blocks_count <$> es !! p).

Definition parent_of (i : Z) : Z := (i - 1) / 2.

(** The first [sz] cells point to elements. *)
Definition pointers (es : elems) (arr : list Z) (sz : Z) : Prop :=
  forall i, 0 <= i < sz -> exists p e, cell arr i = Some p /\ es !! p = Some e.

Definition heap_ordered (es : elems) (arr : list Z) (sz : Z) : Prop :=
  forall i, 0 < i < sz -> key es arr i <= key es arr (parent_of i).

(** Ordered except between [k] and its parent; the children of [k] are below the
    parent of [k] already. *)
Definition ordered_up (es : elems) (arr : list Z) (sz k : Z) : Prop :=
  (forall i, 0 < i < sz -> i <> k -> key es arr i <= key es arr (parent_of i)) /\
  (forall i, 0 < i < sz -> 0 < k -> parent_of i = k -> key es arr i <= key es arr (parent_of k)).

(** Ordered except between [k] and its children. *)
Definition ordered_down (es : elems) (arr : list Z) (sz k : Z) : Prop :=
  (forall i, 0 < i < sz -> parent_of i <> k -> key es arr i <= key es arr (parent_of i)) /\
  (forall i, 0 < i < sz -> 0 < k -> parent_of i = k -> key es arr i <= key es arr (parent_of k)).

(** The cells in use, as a list of pointers. *)
Definition used_cells (arr : list Z) (sz : Z) : list Z := take (Z.to_nat sz) arr.

Lemma parent_bounds i : 0 < i -> 0 <= parent_of i < i.
Proof. unfold parent_of. intros. div_lia. Qed.

Lemma compare_key es arr sz i j :
  pointers es arr sz -> 0 <= i < sz -> 0 <= j < sz ->
  exists x y, cell arr i = Some x /\ cell arr j = Some y /\
    element_compare es x y = Some (key es arr i <? key es arr j).
Proof.
  intros P Hi Hj. destruct (P i Hi) as (x & ex & Hx & Ex), (P j Hj) as (y & ey & Hy & Ey).
  exists x, y. split; [done|]. split; [done|].
  unfold element_compare, key. rewrite Hx, Hy. simpl. by rewrite Ex, Ey.
Qed.

Lemma set_cell_in arr i v :
  0 <= i < Z.of_nat (length arr) -> set_cell arr i v = Some (<[Z.to_nat i := v]> arr).
Proof. intros. unfold set_cell. by zdec. Qed.

Lemma cell_insert arr i j v :
  0 <= i < Z.of_nat (length arr) -> 0 <= j ->
  cell (<[Z.to_nat i := v]> arr) j = if j =? i then Some v else cell arr j.
Proof.
  intros Hi Hj. unfold cell. destruct (Z.eqb_spec j i) as [->|N].
  - apply list_lookup_insert_eq. lia.
  - apply list_lookup_insert_ne. lia.
Qed.

Lemma cell_Some_length arr i p : 0 <= i -> cell arr i = Some p -> i < Z.of_nat (length arr).
Proof. unfold cell. intros Hi H. apply lookup_lt_Some in H. lia. Qed.

Lemma swap_spec es arr sz a b :
  pointers es arr sz -> 0 <= a < sz -> 0 <= b < sz ->
  exists arr', swap arr a b = Some arr' /\ length arr' = length arr /\
    pointers es arr' sz /\ used_cells arr' sz ≡ₚ used_cells arr sz /\
    (forall i, 0 <= i -> key es arr' i =
       if i =? b then key es arr a else if i =? a then key es arr b else key es arr i).
Proof.
  intros P Ha Hb. destruct (P a Ha) as (x & ex & Hx & Ex), (P b Hb) as (y & ey & Hy & Ey).
  pose proof (cell_Some_length arr a x ltac:(lia) Hx).
  pose proof (cell_Some_length arr b y ltac:(lia) Hy).
  unfold swap. rewrite Hx, Hy. cbn [mbind option_bind]. rewrite set_cell_in by lia.
  cbn [mbind option_bind]. rewrite set_cell_in by (rewrite length_insert; lia).
  set (arr' := <[Z.to_nat b := x]> _).
  assert (C : forall i, 0 <= i -> cell arr' i = if i =? b then Some x else if i =? a then Some y else cell arr i).
  { intros i Hi. unfold arr'. rewrite cell_insert by (rewrite ?length_insert; lia).
    case_match; [done|]. by rewrite cell_insert by lia. }
  exists arr'. split; [done|]. split; [by unfold arr'; rewrite !length_insert|]. split; [|split].
  - intros i Hi. rewrite C by lia. repeat case_match; eauto.
  - unfold used_cells, arr'. rewrite !take_insert_lt by lia.
    apply Permutation_insert_swap; rewrite lookup_take_lt by lia; done.
  - intros i Hi. unfold key at 1. rewrite C by lia. unfold key.
    repeat case_match; simpl; rewrite ?Hx, ?Hy; done.
Qed.

Lemma heap_up_spec fuel es arr sz k :
  pointers es arr sz -> sz <= 4294967296 -> 0 <= k < sz -> k < Z.of_nat fuel ->
  ordered_up es arr sz k ->
  exists arr', heap_up fuel es arr k = Some arr' /\ length arr' = length arr /\
    pointers es arr' sz /\ used_cells arr' sz ≡ₚ used_cells arr sz /\ heap_ordered es arr' sz.
Proof.
  revert arr k. induction fuel as [|fuel IH]; intros arr k P Hsz Hk Hf [O1 O2]; [lia|].
  cbn [heap_up]. destruct (Z.ltb_spec 0 k) as [Hk0|].
  2:{ exists arr. repeat split; try done. intros i Hi. apply O1; lia. }
  rewrite u32_small by lia. fold (parent_of k). pose proof (parent_bounds k Hk0).
  destruct (compare_key es arr sz (parent_of k) k) as (x & y & Hx & Hy & E); [done|lia|lia|].
  rewrite Hx, Hy. cbn [mbind option_bind]. rewrite E. cbn [mbind option_bind].
  destruct (Z.ltb_spec (key es arr (parent_of k)) (key es arr k)) as [L|L].
  - destruct (swap_spec es arr sz (parent_of k) k) as (arr1 & E1 & Len & P1 & Q1 & K1); [done|lia|lia|].
    rewrite E1. cbn [mbind option_bind].
    destruct (IH arr1 (parent_of k)) as (arr2 & E2 & Len2 & P2 & Q2 & Ord); [done|done|lia|lia| |].
    + split.
      * intros i Hi Hne. pose proof (parent_bounds i ltac:(lia)).
        destruct (Z.eq_dec i k) as [->|N]; [rewrite !K1 by lia; zdec; lia|].
        rewrite (K1 i), (K1 (parent_of i)) by lia. zdec.
        destruct (Z.eqb_spec (parent_of i) k) as [E3|E3]; [apply O2; lia|].
        destruct (Z.eqb_spec (parent_of i) (parent_of k)) as [E4|E4]; [|apply O1; lia].
        specialize (O1 i ltac:(lia) N). rewrite E4 in O1. lia.
      * intros i Hi Hp E'. pose proof (parent_bounds (parent_of k) Hp).
        pose proof (parent_bounds i ltac:(lia)).
        pose proof (O1 (parent_of k) ltac:(lia) ltac:(lia)).
        rewrite (K1 (parent_of (parent_of k))), (K1 i) by lia. zdec.
        destruct (Z.eqb_spec i k) as [->|N]; [lia|]. zdec.
        specialize (O1 i ltac:(lia) N). rewrite E' in O1. lia.
    + exists arr2. split; [done|]. split; [congruence|]. split; [done|]. split; [by rewrite Q2|done].
  - exists arr. repeat split; try done. intros i Hi.
    destruct (Z.eq_dec i k) as [->|]; [lia|]. apply O1; lia.
Qed.

Lemma pick_child_spec es arr sz best c :
  pointers es arr sz -> 0 <= best -> 0 <= c -> (c < sz -> best < sz) ->
  pick_child es arr sz best c =
    Some (if (c <? sz) && (key es arr best <? key es arr c) then c else best).
Proof.
  intros P Hb Hc Hlt. unfold pick_child. destruct (Z.ltb_spec c sz); [|done].
  destruct (compare_key es arr sz best c) as (x & y & Hx & Hy & E); [done|lia|lia|].
  rewrite Hx, Hy. cbn [mbind option_bind]. by rewrite E.
Qed.

(** The two tests choose a largest among [k] and its children. *)
Lemma pick_children_spec es arr sz k :
  pointers es arr sz -> sz <= 2147483647 -> 0 <= k -> (0 < sz -> k < sz) ->
  exists s, (t ← pick_child es arr sz k (u32 (2 * k + 1)); pick_child es arr sz t (u32 (2 * k + 2))) = Some s /\
    (s = k \/ k < s < sz /\ parent_of s = k /\ key es arr k < key es arr s) /\
    key es arr k <= key es arr s /\
    (forall i, 0 < i < sz -> parent_of i = k -> key es arr i <= key es arr s).
Proof.
  intros P Hsz Hk Hlt. destruct (Z.le_gt_cases sz 0) as [Hz|Hz].
  - exists k. pose proof (u32_range (2 * k + 1)). pose proof (u32_range (2 * k + 2)).
    unfold pick_child at 1. zdec. cbn [mbind option_bind]. unfold pick_child. zdec.
    split; [done|]. split; [by left|]. split; [lia|]. intros; lia.
  - specialize (Hlt Hz). rewrite !u32_small by lia.
    rewrite pick_child_spec by (done || lia). cbn [mbind option_bind].
    set (t := if (2 * k + 1 <? sz) && _ then 2 * k + 1 else k).
    assert (Ht : (t = k \/ t = 2 * k + 1 /\ t < sz /\ key es arr k < key es arr t) /\
      key es arr k <= key es arr t /\ (2 * k + 1 < sz -> key es arr (2 * k + 1) <= key es arr t)).
    { subst t. repeat zcase; simpl; lia. }
    clearbody t. rewrite pick_child_spec by (done || lia).
    eexists. split; [done|].
    assert (Hc : forall i, 0 < i -> parent_of i = k -> i = 2 * k + 1 \/ i = 2 * k + 2)
      by (unfold parent_of; intros; div_lia).
    assert (parent_of (2 * k + 1) = k /\ parent_of (2 * k + 2) = k) as [P1 P2]
      by (unfold parent_of; div_lia).
    destruct ((2 * k + 2 <? sz) && (key es arr t <? key es arr (2 * k + 2))) eqn:E.
    + apply andb_true_iff in E as [E1 E2]. apply Z.ltb_lt in E1, E2.
      split; [right; lia|]. split; [lia|].
      intros i Hi Hp. destruct (Hc i ltac:(lia) Hp) as [-> | ->]; lia.
    + split; [destruct Ht as [[->|(-> & ? & ?)] _]; [by left|right; lia]|]. split; [lia|].
      intros i Hi Hp. destruct (Hc i ltac:(lia) Hp) as [-> | ->]; [lia|].
      apply andb_false_iff in E as [E|E]; apply Z.ltb_ge in E; lia.
Qed.

Lemma heap_down_spec fuel es arr sz k :
  pointers es arr sz -> 0 <= sz <= 2147483647 -> 0 <= k -> (k = 0 \/ k < sz) ->
  sz - k < Z.of_nat fuel -> ordered_down es arr sz k ->
  exists arr', heap_down fuel es arr sz k = Some arr' /\ length arr' = length arr /\
    pointers es arr' sz /\ used_cells arr' sz ≡ₚ used_cells arr sz /\ heap_ordered es arr' sz.
Proof.
  revert arr k. induction fuel as [|fuel IH]; intros arr k P Hsz Hk Hlt Hf [O1 O2].
  { lia. }
  cbn [heap_down]. destruct (pick_children_spec es arr sz k P ltac:(lia) Hk ltac:(lia)) as (s & E & Hs & Ks & Kc).
  destruct (pick_child es arr sz k (u32 (2 * k + 1))) as [t|]; [|done]. simpl in E.
  cbn [mbind option_bind]. rewrite E. cbn [mbind option_bind].
  destruct (Z.eqb_spec s k) as [->|N]; cbn [negb].
  - exists arr. repeat split; try done. intros i Hi.
    destruct (Z.eq_dec (parent_of i) k) as [Ek|]; [rewrite Ek; by apply Kc|by apply O1].
  - destruct Hs as [->|(Hs & Ps & Lt)]; [done|].
    destruct (swap_spec es arr sz s k) as (arr1 & E1 & Len & P1 & Q1 & K1); [done|lia|lia|].
    rewrite E1. cbn [mbind option_bind].
    destruct (IH arr1 s) as (arr2 & E2 & Len2 & P2 & Q2 & Ord); [done|done|lia|lia|lia| |].
    + split.
      * intros i Hi Hne. pose proof (parent_bounds i ltac:(lia)).
        destruct (Z.eq_dec (parent_of i) k) as [Ek|Nk].
        -- rewrite (K1 (parent_of i)), Ek, Z.eqb_refl by lia. rewrite K1 by lia. zdec.
           destruct (Z.eqb_spec i s); [lia|]. apply Kc; lia.
        -- rewrite (K1 (parent_of i)) by lia. zdec. rewrite (K1 i) by lia.
           destruct (Z.eqb_spec i k) as [->|]; [|destruct (Z.eqb_spec i s) as [->|]; [lia|apply O1; lia]].
           apply O2; lia.
      * intros i Hi H0 Ep. rewrite Ps, (K1 k), Z.eqb_refl by lia.
        pose proof (parent_bounds i ltac:(lia)). rewrite K1 by lia. zdec.
        specialize (O1 i ltac:(lia) ltac:(lia)). rewrite Ep in O1. lia.
    + exists arr2. split; [done|]. split; [congruence|]. split; [done|]. split; [by rewrite Q2|done].
Qed.

(** ** The heap invariant and the operations *)

Definition used (h : mrheap) : list Z := used_cells (heap h) (size h).

Definition free_of (es : elems) (p : Z) : Z := default 0 (bgi_free_blocks_count <$> es !! p).

Record heap_wf (es : elems) (h : mrheap) : Prop := {
  hw_size : 0 <= size h <= capacity h;
  hw_capacity : capacity h <= 2147483647;
  hw_length : Z.of_nat (length (heap h)) = capacity h;
  hw_pointers : pointers es (heap h) (size h);
  hw_ordered : heap_ordered es (heap h) (size h);
  hw_not_null : NULL ∉ used h }.

Lemma elem_used arr sz p :
  sz <= Z.of_nat (length arr) ->
  p ∈ used_cells arr sz <-> exists i, 0 <= i < sz /\ cell arr i = Some p.
Proof.
  intros Hl. unfold used_cells, cell. rewrite list_elem_of_lookup. split.
  - intros [i Hi]. pose proof (lookup_lt_Some _ _ _ Hi) as L. rewrite length_take in L.
    rewrite lookup_take_lt in Hi by lia. exists (Z.of_nat i). rewrite Nat2Z.id. split; [lia|done].
  - intros (i & Hi & E). exists (Z.to_nat i). by rewrite lookup_take_lt by lia.
Qed.

Lemma key_cell es arr i p : cell arr i = Some p -> key es arr i = free_of es p.
Proof. intros E. unfold key. by rewrite E. Qed.

(** The root is a largest element. *)
Lemma heap_top_max es arr sz i :
  heap_ordered es arr sz -> 0 <= i < sz -> key es arr i <= key es arr 0.
Proof.
  intros O. induction i as [i IH] using (well_founded_induction (Z.lt_wf 0)).
  intros Hi. destruct (Z.eq_dec i 0) as [->|]; [lia|].
  pose proof (parent_bounds i ltac:(lia)). specialize (O i ltac:(lia)).
  specialize (IH (parent_of i) ltac:(lia) ltac:(lia)). lia.
Qed.

(** Changing an element that no used cell points to changes no key. *)
Lemma key_insert_fresh es arr sz p e i :
  sz <= Z.of_nat (length arr) -> p ∉ used_cells arr sz -> 0 <= i < sz ->
  key (<[p := e]> es) arr i = key es arr i.
Proof.
  intros Hl Hp Hi. unfold key. destruct (cell arr i) as [q|] eqn:E; [|done]. simpl.
  rewrite lookup_insert_ne; [done|]. intros ->. apply Hp, elem_used; eauto.
Qed.

Lemma used_cells_snoc arr sz v :
  0 <= sz < Z.of_nat (length arr) ->
  used_cells (<[Z.to_nat sz := v]> arr) (sz + 1) = used_cells arr sz ++ [v].
Proof.
  intros H. unfold used_cells. rewrite Z2Nat.inj_add by lia.
  change (Z.to_nat 1) with 1%nat. rewrite Nat.add_1_r.
  rewrite (take_S_r _ _ v) by (apply list_lookup_insert_eq; lia).
  by rewrite take_insert_ge by lia.
Qed.

Lemma used_cells_pop arr sz v :
  0 < sz <= Z.of_nat (length arr) -> cell arr (sz - 1) = Some v ->
  exists top, cell arr 0 = Some top /\
    used_cells arr sz ≡ₚ top :: used_cells (<[0%nat := v]> arr) (sz - 1).
Proof.
  intros H E. unfold used_cells, cell in *. destruct arr as [|x arr]; [simpl in *; lia|].
  exists x. split; [done|]. simpl. replace (Z.to_nat sz) with (S (Z.to_nat (sz - 1))) by lia.
  rewrite (take_S_r _ _ v) by done.
  destruct (Z.to_nat (sz - 1)) as [|n]; simpl in *; [by simplify_eq|].
  by rewrite Permutation_app_comm.
Qed.

Lemma insert_own es h a nr free p :
  heap_wf es h -> size h < capacity h -> p <> NULL -> p ∉ used h ->
  exists h', userfs_mrheap_insert a es h nr free p = Some (p, a, <[p := Elem free nr]> es, h') /\
    heap_wf (<[p := Elem free nr]> es) h' /\ capacity h' = capacity h /\
    used h' ≡ₚ p :: used h.
Proof.
  intros W Hs Hp Hf. destruct W as [W1 W2 W3 W4 W5 W6]. unfold userfs_mrheap_insert, NULL in *. zdec.
  unfold set_cell. zdec. cbn [mbind option_bind].
  set (es' := <[p := Elem free nr]> es). set (arr := <[Z.to_nat (size h) := p]> (heap h)).
  assert (Hlen : length arr = length (heap h)) by apply length_insert.
  assert (C : forall i, 0 <= i < size h -> cell arr i = cell (heap h) i).
  { intros i Hi. unfold cell, arr. by rewrite list_lookup_insert_ne by lia. }
  assert (C0 : cell arr (size h) = Some p).
  { unfold cell, arr. by rewrite list_lookup_insert_eq by lia. }
  assert (K : forall i, 0 <= i < size h -> key es' arr i = key es (heap h) i).
  { intros i Hi. transitivity (key es' (heap h) i); [unfold key; by rewrite C|].
    apply key_insert_fresh with (sz := size h); (done || lia). }
  destruct (heap_up_spec (S (Z.to_nat (size h))) es' arr (size h + 1) (size h))
    as (arr' & E & L & P & Q & O); [|lia|lia|lia| |].
  - intros i Hi. destruct (Z.eq_dec i (size h)) as [->|].
    + exists p, (Elem free nr). split; [done|]. apply lookup_insert_eq.
    + destruct (W4 i ltac:(lia)) as (q & e & Hq & He). exists q, e. rewrite C by lia.
      split; [done|]. unfold es'. rewrite lookup_insert_ne; [done|].
      intros ->. apply Hf, elem_used; [lia|]. exists i. split; [lia|done].
  - split.
    + intros i Hi Hne. pose proof (parent_bounds i ltac:(lia)). rewrite !K by lia. apply W5. lia.
    + intros i Hi Hk Hpar. pose proof (parent_bounds i ltac:(lia)). lia.
  - rewrite E. cbn [mbind option_bind]. eexists. split; [done|]. unfold used. cbn [heap size capacity].
    rewrite u32_small by lia.
    assert (Hu : used_cells arr' (size h + 1) ≡ₚ p :: used_cells (heap h) (size h)).
    { rewrite Q. unfold arr. rewrite used_cells_snoc by lia. by rewrite Permutation_app_comm. }
    split; [|done]. split; cbn [heap size capacity]; try done; try lia.
    unfold used. cbn [heap size]. rewrite Hu. rewrite not_elem_of_cons. by split.
Qed.

Lemma extract_top es h :
  heap_wf es h -> 0 < size h ->
  exists top h', userfs_mrheap_get_heaptop h = Some top /\
    userfs_mrheap_extract_heaptop es h = Some (top, h') /\
    heap_wf es h' /\ capacity h' = capacity h /\ used h ≡ₚ top :: used h' /\
    (forall p, p ∈ used h -> free_of es p <= free_of es top).
Proof.
  intros W Hs. destruct W as [W1 W2 W3 W4 W5 W6].
  destruct (W4 (size h - 1) ltac:(lia)) as (last & e & El & Ee).
  destruct (used_cells_pop (heap h) (size h) last) as (top & Et & Hperm); [lia|done|].
  assert (Hmax : forall p, p ∈ used h -> free_of es p <= free_of es top).
  { intros p Hp. apply elem_used in Hp as (i & Hi & Ei); [|lia].
    rewrite <- (key_cell es (heap h) i), <- (key_cell es (heap h) 0) by done.
    by apply heap_top_max with (sz := size h). }
  assert (Hnn : top <> NULL).
  { intros ->. apply W6. unfold used. rewrite Hperm. by left. }
  exists top. unfold userfs_mrheap_extract_heaptop, userfs_mrheap_get_heaptop. zdec.
  rewrite Et. cbn [mbind option_bind]. destruct (Z.eqb_spec top NULL); [done|].
  rewrite u32_small by lia. rewrite El. cbn [mbind option_bind]. unfold set_cell. zdec.
  cbn [mbind option_bind]. change (Z.to_nat 0) with 0%nat.
  set (arr := <[0%nat := last]> (heap h)) in *.
  assert (C : forall i, 0 < i -> cell arr i = cell (heap h) i).
  { intros i Hi. unfold cell, arr. by rewrite list_lookup_insert_ne by lia. }
  destruct (heap_down_spec (S (Z.to_nat (size h - 1))) es arr (size h - 1) 0)
    as (arr' & E & L & P & Q & O); [|lia|lia|lia|lia| |].
  - intros i Hi. destruct (Z.eq_dec i 0) as [->|].
    + exists last, e. split; [|done].
      unfold cell, arr. apply list_lookup_insert_eq. lia.
    + rewrite C by lia. apply W4. lia.
  - split; [|intros; lia]. intros i Hi Hne. pose proof (parent_bounds i ltac:(lia)).
    unfold key. rewrite !C by lia. apply W5. lia.
  - assert (Hu : used h ≡ₚ top :: used_cells arr' (size h - 1)) by (unfold used; by rewrite Q).
    rewrite E. cbn [mbind option_bind]. eexists. split; [done|]. split; [done|].
    split; [|by split; [done|split]]. split; cbn [heap size capacity]; try done; try lia.
    + rewrite L. unfold arr. by rewrite length_insert.
    + intros Hin. apply W6. rewrite Hu. by right.
Qed.

Lemma length_used es h : heap_wf es h -> Z.of_nat (length (used h)) = size h.
Proof.
  intros W. pose proof (hw_length _ _ W). destruct (hw_size _ _ W). unfold used, used_cells.
  rewrite length_take. lia.
Qed.

(** Taking the top out and putting it back with a new number of free blocks: the
    same entries remain. *)
Lemma extract_reinsert a es h nr free :
  heap_wf es h -> 0 < size h -> NoDup (used h) ->
  exists top h1 h2, userfs_mrheap_get_heaptop h = Some top /\ top <> NULL /\ top ∈ used h /\
    userfs_mrheap_extract_heaptop es h = Some (top, h1) /\
    userfs_mrheap_insert a es h1 nr free top = Some (top, a, <[top := Elem free nr]> es, h2) /\
    heap_wf (<[top := Elem free nr]> es) h2 /\ used h2 ≡ₚ used h /\
    (forall p, p ∈ used h -> free_of es p <= free_of es top).
Proof.
  intros W Hs N. destruct (extract_top es h W Hs) as (top & h1 & G & E & W1 & C1 & U1 & M).
  assert (Hin : top ∈ used h) by (rewrite U1; by left).
  assert (Hn : top <> NULL) by (intros ->; by apply (hw_not_null _ _ W)).
  rewrite U1 in N. apply NoDup_cons in N as [N _].
  assert (size h1 < capacity h1).
  { pose proof (length_used _ _ W) as L. pose proof (length_used _ _ W1) as L1. rewrite U1 in L. simpl in L.
    pose proof (hw_size _ _ W). lia. }
  destruct (insert_own es h1 a nr free top) as (h2 & E2 & W2 & _ & U2); [done..|].
  exists top, h1, h2. repeat (split; [done|]). split; [by rewrite U2, U1|done].
Qed.

Lemma extract_empty es h :
  size h = 0 -> userfs_mrheap_get_heaptop h = Some NULL /\
    userfs_mrheap_extract_heaptop es h = Some (NULL, h).
Proof. intros E. unfold userfs_mrheap_extract_heaptop, userfs_mrheap_get_heaptop. by rewrite E. Qed.

(** Inserting with [elem_ptr = NULL] is inserting an element of its own that
    malloc provides. *)
Lemma insert_new es h a nr free :
  size h < capacity h ->
  let '(p, a') := malloc a sizeof_mrheap_elem in
  userfs_mrheap_insert a es h nr free NULL =
    if p =? NULL then Some (NULL, a', es, h) else userfs_mrheap_insert a' es h nr free p.
Proof.
  intros Hs. unfold userfs_mrheap_insert. zdec. change (NULL =? NULL) with true. cbn [negb].
  destruct (malloc a sizeof_mrheap_elem) as [p a'].
  destruct (Z.eqb_spec p NULL) as [->|N]; [done|]. by rewrite (proj2 (Z.eqb_neq _ _) N).
Qed.

(** userfs_mrheap_insert of a caller's element adds exactly that entry and
    keeps the heap order; with [elem_ptr = NULL] it does so for a new element, or
    returns NULL with the heap unchanged when there is no memory; on a full heap it
    returns NULL and changes nothing. *)
Theorem userfs_mrheap_insert_spec a es h nr free :
  heap_wf es h -> alloc_ok a -> (forall p, p ∈ used h -> p < a_next a) ->
  (size h = capacity h -> forall p,
     userfs_mrheap_insert a es h nr free p = Some (NULL, a, es, h)) /\
  (size h < capacity h ->
     (forall p, p <> NULL -> p ∉ used h -> exists h',
        userfs_mrheap_insert a es h nr free p = Some (p, a, <[p := Elem free nr]> es, h') /\
        heap_wf (<[p := Elem free nr]> es) h' /\ used h' ≡ₚ p :: used h) /\
     (exists p a' es' h',
        userfs_mrheap_insert a es h nr free NULL = Some (p, a', es', h') /\ heap_wf es' h' /\
        (p = NULL /\ es' = es /\ h' = h \/
         p <> NULL /\ es' = <[p := Elem free nr]> es /\ used h' ≡ₚ p :: used h))).
Proof.
  intros W Ha Hb. split.
  { intros E p. unfold userfs_mrheap_insert. by rewrite E, Z.eqb_refl. }
  intros Hs. split.
  { intros p Hp Hf. destruct (insert_own es h a nr free p) as (h' & E & W' & _ & U); eauto. }
  pose proof (insert_new es h a nr free Hs) as E.
  pose proof (malloc_cases a sizeof_mrheap_elem Ha ltac:(done)) as M.
  destruct (malloc a sizeof_mrheap_elem) as [p a']. destruct (Z.eqb_spec p NULL) as [->|Hp].
  { do 4 eexists. split; [exact E|]. split; [done|]. by left. }
  destruct M as (_ & _ & [->|(-> & _)]); [done|].
  destruct (insert_own es h a' nr free (a_next a)) as (h' & E' & W' & _ & U); [done..| |].
  { intros Hin. specialize (Hb _ Hin). lia. }
  do 4 eexists. rewrite E. split; [exact E'|]. split; [done|]. by right.
Qed.

(** C37: userfs_mrheap_extract_heaptop removes exactly one entry, the one
    userfs_mrheap_get_heaptop shows, no entry of the heap has more free blocks, and
    the heap order is kept; both return NULL on an empty heap. *)
Theorem userfs_mrheap_extract_spec es h :
  heap_wf es h ->
  (size h = 0 -> userfs_mrheap_get_heaptop h = Some NULL /\
     userfs_mrheap_extract_heaptop es h = Some (NULL, h)) /\
  (0 < size h -> exists top h', userfs_mrheap_get_heaptop h = Some top /\
     userfs_mrheap_extract_heaptop es h = Some (top, h') /\ heap_wf es h' /\
     used h ≡ₚ top :: used h' /\
     (forall p, p ∈ used h -> free_of es p <= free_of es top)).
Proof.
  intros W. split; [apply extract_empty|].
  intros Hs. destruct (extract_top es h W Hs) as (top & h' & ? & ? & ? & ? & ? & ?). eauto 10.
Qed.

(** Extracting until the heap is empty. *)
Fixpoint drain (n : nat) (es : elems) (h : mrheap) : option (list Z) :=
  match n with
  | O => Some []
  | S n =>
      '(top, h) ← userfs_mrheap_extract_heaptop es h;
      if top =? NULL then Some [] else rest ← drain n es h; Some (top :: rest)
  end.

(** Extracting until the heap is empty lists its entries, each once, in
    the order of falling numbers of free blocks. *)
Theorem mrheap_drain_sorted es h :
  heap_wf es h ->
  exists l, drain (S (Z.to_nat (size h))) es h = Some l /\ l ≡ₚ used h /\
    StronglySorted (fun p q => free_of es q <= free_of es p) l.
Proof.
  remember (Z.to_nat (size h)) as n eqn:Hn. revert h Hn. induction n as [|n IH]; intros h Hn W.
  - pose proof (extract_empty es h ltac:(destruct W; lia)) as [_ E].
    exists []. unfold drain. rewrite E. split; [done|]. split; [|constructor].
    unfold used, used_cells. by rewrite <- Hn, take_0.
  - destruct (extract_top es h W) as (top & h' & G & E & W' & C & U & M); [lia|].
    assert (Hl : length (used h) = S (length (used h'))) by (by rewrite U).
    assert (size h' = size h - 1).
    { pose proof (length_used _ _ W). pose proof (length_used _ _ W'). lia. }
    destruct (IH h') as (l & D & P & St); [lia|done|]. exists (top :: l).
    cbn [drain] in D |- *. rewrite E. cbn [mbind option_bind].
    destruct (Z.eqb_spec top NULL) as [->|].
    { exfalso. apply (hw_not_null _ _ W). rewrite U. by left. }
    rewrite D. split; [done|]. split; [by rewrite P|].
    constructor; [done|]. apply Forall_forall. intros q Hq. apply M. rewrite U, <- P. by right.
Qed.

(** ** The debug routine *)

(** [USERFS_HEAP_MEM_FREE]: nothing for a null pointer. *)
Definition free_elem (es : elems) (p : Z) : elems := if p =? NULL then es else delete p es.

Fixpoint debug_insert (n : nat) (heap_size i : Z) (a : alloc) (es : elems) (h : mrheap) : option (alloc * elems * mrheap) :=
  match n with
  | O => Some (a, es, h)
  | S n =>
      '(_, a, es, h) ← userfs_mrheap_insert a es h i (u32 (heap_size - i)) NULL;
      debug_insert n heap_size (i + 1) a es h
  end.

(** The elements, in the order in which they are taken out and freed. *)
Fixpoint debug_extract (n : nat) (es : elems) (h : mrheap) : option (list (option mrheap_elem) * elems * mrheap) :=
  match n with
  | O => Some ([], es, h)
  | S n =>
      '(elem, h) ← userfs_mrheap_extract_heaptop es h;
      '(l, es', h) ← debug_extract n (free_elem es elem) h;
      Some (es !! elem :: l, es', h)
  end.

(** A failed [userfs_mrheap_create] is not noticed. *)
Definition userfs_mrheap_debug_function (a : alloc) (es : elems) (garbage : list Z)
    : option (list (option mrheap_elem) * alloc * elems) :=
  let heap_size := 16 in
  let '(minHeap, a) := userfs_mrheap_create a heap_size garbage in
  h ← minHeap;
  '(a, es, h) ← debug_insert (Z.to_nat heap_size) heap_size 0 a es h;
  '(l, es, _) ← debug_extract (Z.to_nat heap_size) es h;
  Some (l, a, es).

(** The groups come out with falling numbers of free blocks, and no element is left. *)
Lemma debug_function_run :
  exists a, userfs_mrheap_debug_function (Alloc 4096 []) ∅ (replicate 16 7) =
    Some ((fun i => Some (Elem (16 - i) i)) <$> seqZ 0 16, a, ∅).
Proof. eexists. vm_compute. reflexivity. Qed.

(** When the memory for the last elements is missing the heap is shorter, and taking
    out more elements than it has is answered with a null pointer. *)
Lemma debug_function_oom :
  exists a, userfs_mrheap_debug_function (Alloc 4096 (replicate 16 false ++ [true; true])) ∅ (replicate 16 7) =
    Some (((fun i => Some (Elem (16 - i) i)) <$> seqZ 0 14) ++ [None; None], a, ∅).
Proof. eexists. vm_compute. reflexivity. Qed.

(** ** Witnesses: a heap of three groups with room for a fourth *)

Definition demo_elems : elems := {[ 16 := Elem 5 0; 32 := Elem 9 1; 48 := Elem 7 2 ]}.
Definition demo_heap : mrheap := Mrheap [32; 16; 48; 0] 4 3.

Lemma demo_wf : heap_wf demo_elems demo_heap.
Proof.
  split; try (vm_compute; intuition congruence).
  - intros i Hi. simpl in Hi. assert (i = 0 \/ i = 1 \/ i = 2) as [->|[->| ->]] by lia; by repeat eexists.
  - intros i Hi. simpl in Hi. assert (i = 1 \/ i = 2) as [->| ->] by lia; by vm_compute.
  - apply (bool_decide_unpack _). by vm_compute.
Qed.

Lemma userfs_mrheap_insert_spec_witness :
  exists h', userfs_mrheap_insert (Alloc 4096 []) demo_elems demo_heap 3 8 64 =
    Some (64, Alloc 4096 [], <[64 := Elem 8 3]> demo_elems, h') /\ used h' ≡ₚ 64 :: used demo_heap.
Proof.
  destruct (userfs_mrheap_insert_spec (Alloc 4096 []) demo_elems demo_heap 3 8) as [_ H].
  - apply demo_wf.
  - by vm_compute.
  - intros p Hp. change (p ∈ [32; 16; 48]) in Hp. simpl. set_unfold in Hp. lia.
  - destruct H as [H _]; [simpl; lia|]. destruct (H 64) as (h' & E & _ & U); [done| |eauto].
    apply (bool_decide_unpack _). by vm_compute.
Defined.

Lemma userfs_mrheap_extract_spec_witness :
  exists h', userfs_mrheap_extract_heaptop demo_elems demo_heap = Some (32, h') /\
    used demo_heap ≡ₚ 32 :: used h'.
Proof.
  destruct (userfs_mrheap_extract_spec demo_elems demo_heap demo_wf) as [_ H].
  destruct H as (top & h' & G & E & _ & U & _); [simpl; lia|].
  vm_compute in G. injection G as <-. eauto.
Defined.

Lemma mrheap_drain_sorted_witness :
  exists l, drain 4 demo_elems demo_heap = Some l /\ l ≡ₚ [32; 16; 48] /\
    StronglySorted (fun p q => free_of demo_elems q <= free_of demo_elems p) l.
Proof. exact (mrheap_drain_sorted demo_elems demo_heap demo_wf). Defined.
