(* ===== verification/KList.v ===== *)
(** * KList: the circular doubly linked lists of userfs/include/list.h

    A list node is a cell with the addresses of its neighbours; the store maps
    addresses to cells.  An access to an address that holds no cell has no result.
    The file is the same text as rpc_test/include/list.h, and as lib/include/list.h up
    to the name of one parameter and parentheses in [container_of]; kernel_list.h has
    some of these operations. *)
From S2P Require Import Prelude.
Local Open Scope Z_scope.

Record list_head := LCell { next : Z; prev : Z }.

#[export] Instance list_head_eq_dec : EqDecision list_head.
Proof. solve_decision. Defined.

Abbreviation cells := (gmap Z list_head).

Definition get_next (m : cells) (p : Z) : option Z := next <$> m !! p.
Definition get_prev (m : cells) (p : Z) : option Z := prev <$> m !! p.

(** [p->next = v], [p->prev = v]. *)
Definition set_next (m : cells) (p v : Z) : option cells :=
  c ← m !! p; Some (<[p := LCell v (prev c)]> m).
Definition set_prev (m : cells) (p v : Z) : option cells :=
  c ← m !! p; Some (<[p := LCell (next c) v]> m).

(** Both fields are assigned, so that the cell may be fresh. *)
Definition INIT_LIST_HEAD (m : cells) (p : Z) : cells := <[p := LCell p p]> m.
Definition list_init (m : cells) (p : Z) : cells := <[p := LCell p p]> m.

Definition __list_add (m : cells) (new prv nxt : Z) : option cells :=
  m ← set_prev m nxt new;
  m ← set_next m new nxt;
  m ← set_prev m new prv;
  set_next m prv new.

Definition list_add (m : cells) (new head : Z) : option cells :=
  n ← get_next m head; __list_add m new head n.

Definition list_add_tail (m : cells) (new head : Z) : option cells :=
  p ← get_prev m head; __list_add m new p head.

Definition __list_del (m : cells) (prv nxt : Z) : option cells :=
  m ← set_prev m nxt prv; set_next m prv nxt.

Definition __list_del_entry (m : cells) (entry : Z) : option cells :=
  p ← get_prev m entry; n ← get_next m entry; __list_del m p n.

Definition list_del_init (m : cells) (entry : Z) : option cells :=
  m ← __list_del_entry m entry; Some (INIT_LIST_HEAD m entry).

Definition list_insert_after (m : cells) (prv node : Z) : option cells :=
  m ← set_prev m node prv;
  n ← get_next m prv;
  m ← set_next m node n;
  n ← get_next m prv;
  m ← set_prev m n node;
  set_next m prv node.

Definition list_remove (m : cells) (pos : Z) : option cells :=
  p ← get_prev m pos; n ← get_next m pos;
  m ← set_next m p n;
  p ← get_prev m pos; n ← get_next m pos;
  set_prev m n p.

(** The walk of [list_for_each_entry] from [pos] until it is back at [head];
    [fuel] bounds the number of nodes visited. *)
Fixpoint list_walk (fuel : nat) (m : cells) (head pos : Z) : option (list Z) :=
  match fuel with
  | O => None
  | S fuel =>
      if pos =? head then Some []
      else n ← get_next m pos; l ← list_walk fuel m head n; Some (pos :: l)
  end.

Definition list_for_each (fuel : nat) (m : cells) (head : Z) : option (list Z) :=
  n ← get_next m head; list_walk fuel m head n.

(** ** Rings *)

(** [p->next = q] and [q->prev = p]. *)
Definition link (m : cells) (p q : Z) : Prop := get_next m p = Some q /\ get_prev m q = Some p.

(** From [p] through the nodes [l] to [q]. *)
Fixpoint seg (m : cells) (p : Z) (l : list Z) (q : Z) : Prop :=
  match l with
  | [] => link m p q
  | x :: l => link m p x /\ seg m x l q
  end.

(** The circular list with head [h] and the nodes [l]. *)
Definition ring (m : cells) (h : Z) (l : list Z) : Prop := NoDup (h :: l) /\ seg m h l h.

Definition is_cell (m : cells) (p : Z) : Prop := is_Some (m !! p).

Lemma is_cell_get_next m p n : get_next m p = Some n -> is_cell m p.
Proof. unfold get_next, is_cell. destruct (m !! p); simpl; [eauto|done]. Qed.
Lemma is_cell_get_prev m p n : get_prev m p = Some n -> is_cell m p.
Proof. unfold get_prev, is_cell. destruct (m !! p); simpl; [eauto|done]. Qed.

(** What each store changes. *)
Record upd_next (m m' : cells) (p v : Z) : Prop := {
  un_next : forall x, get_next m' x = if x =? p then Some v else get_next m x;
  un_prev : forall x, get_prev m' x = get_prev m x;
  un_frame : forall x, x <> p -> m' !! x = m !! x }.
Record upd_prev (m m' : cells) (p v : Z) : Prop := {
  up_prev : forall x, get_prev m' x = if x =? p then Some v else get_prev m x;
  up_next : forall x, get_next m' x = get_next m x;
  up_frame : forall x, x <> p -> m' !! x = m !! x }.

Lemma set_next_spec m p v : is_cell m p -> exists m', set_next m p v = Some m' /\ upd_next m m' p v.
Proof.
  intros [c E]. unfold set_next. rewrite E. eexists. split; [done|].
  split; intros x; unfold get_next, get_prev; destruct (Z.eq_dec x p) as [->|].
  all: try (rewrite Z.eqb_refl); rewrite ?lookup_insert_eq, ?lookup_insert_ne, ?E by done; try done.
  by destruct (Z.eqb_spec x p).
Qed.

Lemma set_prev_spec m p v : is_cell m p -> exists m', set_prev m p v = Some m' /\ upd_prev m m' p v.
Proof.
  intros [c E]. unfold set_prev. rewrite E. eexists. split; [done|].
  split; intros x; unfold get_next, get_prev; destruct (Z.eq_dec x p) as [->|].
  all: try (rewrite Z.eqb_refl); rewrite ?lookup_insert_eq, ?lookup_insert_ne, ?E by done; try done.
  by destruct (Z.eqb_spec x p).
Qed.

Lemma upd_next_cell m m' p v x : upd_next m m' p v -> is_cell m x -> is_cell m' x.
Proof.
  intros [_ H _] [c E]. specialize (H x). unfold is_cell, get_prev in *. rewrite E in H.
  destruct (m' !! x); [eauto|done].
Qed.
Lemma upd_prev_cell m m' p v x : upd_prev m m' p v -> is_cell m x -> is_cell m' x.
Proof.
  intros [_ H _] [c E]. specialize (H x). unfold is_cell, get_next in *. rewrite E in H.
  destruct (m' !! x); [eauto|done].
Qed.

(** ** Inserting and removing after a node *)

(** [m'] is [m] with [new] linked between [p] and [n]. *)
Record inserted (m m' : cells) (new p n : Z) : Prop := {
  in_next : forall x, get_next m' x =
    if x =? p then Some new else if x =? new then Some n else get_next m x;
  in_prev : forall x, get_prev m' x =
    if x =? new then Some p else if x =? n then Some new else get_prev m x;
  in_frame : forall x, x <> new -> x <> p -> x <> n -> m' !! x = m !! x }.

(** [m'] is [m] with [p] and [n] linked to each other. *)
Record joined (m m' : cells) (p n : Z) : Prop := {
  jo_next : forall x, get_next m' x = if x =? p then Some n else get_next m x;
  jo_prev : forall x, get_prev m' x = if x =? n then Some p else get_prev m x;
  jo_frame : forall x, x <> p -> x <> n -> m' !! x = m !! x }.

#[local] Hint Resolve upd_next_cell upd_prev_cell : core.

(** One store on the way: name the result, keep its effect. *)
Ltac store_step :=
  match goal with
  | |- context [set_next ?m ?p ?v] =>
      let m' := fresh "m" in let E := fresh "E" in let U := fresh "U" in
      destruct (set_next_spec m p v) as (m' & E & U); [by eauto 6|rewrite E; cbn [mbind option_bind]]
  | |- context [set_prev ?m ?p ?v] =>
      let m' := fresh "m" in let E := fresh "E" in let U := fresh "U" in
      destruct (set_prev_spec m p v) as (m' & E & U); [by eauto 6|rewrite E; cbn [mbind option_bind]]
  end.

(** Follow the fields back through the stores. *)
Ltac trace_stores :=
  repeat match goal with
  | U : upd_next _ ?m _ _ |- context [get_next ?m _] => rewrite (un_next _ _ _ _ U)
  | U : upd_next _ ?m _ _ |- context [get_prev ?m _] => rewrite (un_prev _ _ _ _ U)
  | U : upd_prev _ ?m _ _ |- context [get_next ?m _] => rewrite (up_next _ _ _ _ U)
  | U : upd_prev _ ?m _ _ |- context [get_prev ?m _] => rewrite (up_prev _ _ _ _ U)
  | U : upd_next _ ?m _ _ |- context [?m !! _] => rewrite (un_frame _ _ _ _ U) by done
  | U : upd_prev _ ?m _ _ |- context [?m !! _] => rewrite (up_frame _ _ _ _ U) by done
  end.

Lemma __list_add_run m new p n :
  is_cell m new -> is_cell m p -> is_cell m n ->
  exists m', __list_add m new p n = Some m' /\ inserted m m' new p n.
Proof.
  intros Hx Hp Hn. unfold __list_add. repeat store_step. eexists. split; [done|].
  split; intros; trace_stores; done.
Qed.

Lemma list_insert_after_run m node p n :
  is_cell m node -> is_cell m n -> get_next m p = Some n -> node <> p -> node <> n ->
  exists m', list_insert_after m p node = Some m' /\ inserted m m' node p n.
Proof.
  intros Hx Hn Hp N1 N2. pose proof (is_cell_get_next _ _ _ Hp). unfold list_insert_after.
  store_step. trace_stores. rewrite Hp. cbn [mbind option_bind]. store_step. trace_stores. zdec.
  rewrite Hp. cbn [mbind option_bind]. repeat store_step. eexists. split; [done|].
  split; intros; trace_stores; repeat zcase; (done || congruence).
Qed.

Lemma __list_del_entry_run m e p n :
  get_prev m e = Some p -> get_next m e = Some n -> is_cell m p -> is_cell m n ->
  exists m', __list_del_entry m e = Some m' /\ joined m m' p n.
Proof.
  intros Hp Hn Cp Cn. unfold __list_del_entry, __list_del. rewrite Hp, Hn. cbn [mbind option_bind].
  repeat store_step. eexists. split; [done|]. split; intros; trace_stores; done.
Qed.

Lemma list_remove_run m e p n :
  get_prev m e = Some p -> get_next m e = Some n -> is_cell m p -> is_cell m n -> e <> p ->
  exists m', list_remove m e = Some m' /\ joined m m' p n.
Proof.
  intros Hp Hn Cp Cn N. unfold list_remove. rewrite Hp, Hn. cbn [mbind option_bind].
  store_step. trace_stores. rewrite Hp. zdec. rewrite Hn. cbn [mbind option_bind].
  store_step. eexists. split; [done|]. split; intros; trace_stores; done.
Qed.

Lemma seg_app m p l1 x l2 q : seg m p (l1 ++ x :: l2) q <-> seg m p l1 x /\ seg m x l2 q.
Proof. revert p. induction l1 as [|y l1 IH]; intros p; simpl; [done|]. rewrite IH. tauto. Qed.

Lemma seg_frame m m' p l q :
  (forall x, x ∈ p :: l -> get_next m' x = get_next m x) ->
  (forall x, x ∈ l ++ [q] -> get_prev m' x = get_prev m x) ->
  seg m p l q -> seg m' p l q.
Proof.
  revert p. induction l as [|y l IH]; intros p Hn Hp; simpl in *; unfold link.
  - rewrite Hn, Hp by set_solver. done.
  - rewrite Hn, Hp by set_solver. intros [L S]. split; [done|].
    apply IH; intros; [apply Hn|apply Hp|done]; set_solver.
Qed.

Lemma seg_cells m p l q x : seg m p l q -> x ∈ p :: l ++ [q] -> is_cell m x.
Proof.
  revert p. induction l as [|y l IH]; intros p; simpl.
  - intros [H1 H2] Hx. set_unfold in Hx. destruct Hx as [->|[->|?]]; [| |done].
    + by eapply is_cell_get_next.
    + by eapply is_cell_get_prev.
  - intros [[H1 H2] S] Hx. apply elem_of_cons in Hx as [->|Hx]; [by eapply is_cell_get_next|]. eauto.
Qed.

(** A ring may be entered at any of its nodes. *)
Lemma ring_rotate m h l1 x l2 : ring m h (l1 ++ x :: l2) <-> ring m x (l2 ++ h :: l1).
Proof.
  unfold ring. rewrite !seg_app.
  replace (NoDup (h :: l1 ++ x :: l2)) with (NoDup ((h :: l1) ++ x :: l2)) by done.
  assert ((h :: l1) ++ x :: l2 ≡ₚ x :: l2 ++ h :: l1) as ->; [|tauto].
  rewrite <- Permutation_middle. by rewrite Permutation_app_comm.
Qed.

Lemma ring_insert m m' h l new :
  ring m h l -> new ∉ h :: l -> inserted m m' new h (hd h l) -> ring m' h (new :: l).
Proof.
  intros [N S] Hnew [In Ip _]. split.
  { apply NoDup_cons in N as [? ?]. rewrite !NoDup_cons. set_solver. }
  destruct l as [|b l]; simpl in *; unfold link in *.
  - rewrite !In, !Ip, !Z.eqb_refl. assert (new <> h) by set_solver. by zdec.
  - destruct S as [[L1 L2] S]. apply NoDup_cons in N as [N1 N]. apply NoDup_cons in N as [N2 N].
    assert (new <> h /\ new <> b /\ h <> b) as (? & ? & ?) by set_solver.
    split; [rewrite In, Ip, !Z.eqb_refl; done|]. split; [rewrite In, Ip, !Z.eqb_refl; by zdec|].
    apply (seg_frame m); [intros x Hx|intros x Hx|done].
    + rewrite In. assert (x <> h /\ x <> new) by set_solver. by zdec.
    + rewrite Ip. assert (x <> new /\ x <> b) by set_solver. by zdec.
Qed.

Lemma ring_remove m m' h x l :
  ring m h (x :: l) -> joined m m' h (hd h l) -> ring m' h l.
Proof.
  intros [N S] [Jn Jp _]. apply NoDup_cons in N as [N1 N]. apply NoDup_cons in N as [N2 N].
  split; [apply NoDup_cons; set_solver|].
  destruct l as [|b l]; simpl in *; unfold link in *; [by rewrite Jn, Jp, !Z.eqb_refl|].
  destruct S as (_ & _ & S). split; [by rewrite Jn, Jp, !Z.eqb_refl|].
  apply NoDup_cons in N as [N3 N].
  apply (seg_frame m); [intros y Hy|intros y Hy|done].
  - rewrite Jn. assert (y <> h) by set_solver. by zdec.
  - rewrite Jp. assert (y <> b) by set_solver. by zdec.
Qed.

(** The fields of the head of a ring. *)
Lemma ring_head m h l :
  ring m h l -> get_next m h = Some (hd h l) /\ get_prev m h = Some (List.last l h).
Proof.
  intros [_ S]. split.
  - destruct l; simpl in S; apply S.
  - destruct l as [|y l _] using rev_ind; [apply S|]. rewrite last_last.
    rewrite seg_app in S. apply S.
Qed.

Lemma ring_cell m h l x : ring m h l -> x ∈ h :: l -> is_cell m x.
Proof. intros [_ S] Hx. eapply seg_cells; [done|]. set_solver. Qed.

Lemma hd_in (h : Z) l : hd h l ∈ h :: l.
Proof. destruct l; simpl; set_solver. Qed.

Lemma last_in (h : Z) l : List.last l h ∈ h :: l.
Proof. destruct l as [|y l _] using rev_ind; [set_solver|]. rewrite last_last. set_solver. Qed.

Lemma list_add_ring m h l new :
  ring m h l -> is_cell m new -> new ∉ h :: l ->
  exists m', list_add m new h = Some m' /\ ring m' h (new :: l) /\
    (forall y, y ∉ new :: h :: l -> m' !! y = m !! y).
Proof.
  intros R C N. destruct (ring_head _ _ _ R) as [E _]. pose proof (hd_in h l).
  destruct (__list_add_run m new h (hd h l)) as (m' & E' & I); [done|eapply ring_cell; set_solver..|].
  exists m'. unfold list_add. rewrite E. split; [done|]. split; [by eapply ring_insert|].
  intros y Hy. apply (in_frame _ _ _ _ _ I); set_solver.
Qed.

Lemma list_add_tail_ring m h l new :
  ring m h l -> is_cell m new -> new ∉ h :: l ->
  exists m', list_add_tail m new h = Some m' /\ ring m' h (l ++ [new]) /\
    (forall y, y ∉ new :: h :: l -> m' !! y = m !! y).
Proof.
  intros R C N. destruct (ring_head _ _ _ R) as [_ E]. pose proof (last_in h l).
  destruct (__list_add_run m new (List.last l h) h) as (m' & E' & I); [done|eapply ring_cell; set_solver..|].
  exists m'. unfold list_add_tail. rewrite E. split; [done|].
  split; [|intros y Hy; apply (in_frame _ _ _ _ _ I); set_solver].
  destruct l as [|p l _] using rev_ind; [by apply (ring_insert m)|].
  rewrite last_last in I. apply ring_rotate in R.
  rewrite <- (app_assoc l [p] [new]). apply ring_rotate. by apply (ring_insert m); [|set_solver|].
Qed.

(** Removing the node after the entry point. *)
Lemma ring_del_next m h x l :
  ring m h (x :: l) -> exists m', __list_del_entry m x = Some m' /\ ring m' h l /\
    (forall y, y ∉ h :: l -> m' !! y = m !! y).
Proof.
  intros R. pose proof (hd_in h l).
  pose proof (proj1 (ring_rotate m h [] x l) R) as R'.
  destruct (ring_head _ _ _ R') as [En Ep]. rewrite last_last in Ep.
  replace (hd x (l ++ [h])) with (hd h l) in En by (by destruct l).
  destruct (__list_del_entry_run m x h (hd h l)) as (m' & E & J); [done|done|eapply ring_cell; set_solver..|].
  exists m'. split; [done|]. split; [by eapply ring_remove|].
  intros y Hy. apply (jo_frame _ _ _ _ J); set_solver.
Qed.

Lemma list_del_init_ring m h l1 x l2 :
  ring m h (l1 ++ x :: l2) ->
  exists m', list_del_init m x = Some m' /\ ring m' h (l1 ++ l2) /\ ring m' x [] /\
    (forall y, y ∉ h :: l1 ++ x :: l2 -> m' !! y = m !! y).
Proof.
  intros R. unfold list_del_init.
  assert (exists m', __list_del_entry m x = Some m' /\ ring m' h (l1 ++ l2) /\
    (forall y, y ∉ h :: l1 ++ l2 -> m' !! y = m !! y)) as (m' & E & R' & F).
  { destruct l1 as [|p l1 _] using rev_ind; [by apply ring_del_next|].
    rewrite <- app_assoc in R |- *. cbn [app] in *. apply ring_rotate in R. cbn [app] in R.
    destruct (ring_del_next _ _ _ _ R) as (m' & E & R' & F). exists m'. split; [done|].
    split; [by apply ring_rotate|]. intros y Hy. apply F. set_solver. }
  rewrite E. eexists. split; [done|]. destruct R as [N _].
  assert (x ∉ h :: l1 ++ l2).
  { apply NoDup_cons in N as [N1 N]. apply NoDup_app in N as (N2 & N3 & N4).
    apply NoDup_cons in N4 as [N4 _]. set_solver. }
  assert (G : forall y, y <> x -> INIT_LIST_HEAD m' x !! y = m' !! y).
  { intros y Hy. unfold INIT_LIST_HEAD. by rewrite lookup_insert_ne. }
  destruct R' as [N' S']. split; [|split].
  - split; [done|]. apply (seg_frame m'); [| |done]; intros y Hy; unfold get_next, get_prev;
      rewrite G by set_solver; done.
  - split; [apply NoDup_singleton|]. unfold seg, link, get_next, get_prev, INIT_LIST_HEAD.
    by rewrite lookup_insert_eq.
  - intros y Hy. rewrite G by set_solver. apply F. set_solver.
Qed.

Lemma list_remove_ring m h l1 x l2 :
  ring m h (l1 ++ x :: l2) ->
  exists m', list_remove m x = Some m' /\ ring m' h (l1 ++ l2) /\ (forall y, y ∉ h :: l1 ++ l2 -> m' !! y = m !! y).
Proof.
  assert (K : forall h l, ring m h (x :: l) ->
    exists m', list_remove m x = Some m' /\ ring m' h l /\ (forall y, y ∉ h :: l -> m' !! y = m !! y)).
  { intros g l R. pose proof (hd_in g l). pose proof (proj1 (ring_rotate m g [] x l) R) as R'.
    destruct (ring_head _ _ _ R') as [En Ep]. rewrite last_last in Ep.
    replace (hd x (l ++ [g])) with (hd g l) in En by (by destruct l).
    assert (x <> g) by (destruct R as [N _]; apply NoDup_cons in N as [N _]; set_solver).
    destruct (list_remove_run m x g (hd g l)) as (m' & E & J); [done|done|eapply ring_cell; set_solver..|done|].
    exists m'. split; [done|]. split; [by eapply ring_remove|]. intros y Hy. apply (jo_frame _ _ _ _ J); set_solver. }
  intros R. destruct l1 as [|p l1 _] using rev_ind; [by apply K|].
  rewrite <- app_assoc in R |- *. cbn [app] in *. apply ring_rotate in R. cbn [app] in R.
  destruct (K _ _ R) as (m' & E & R' & F). exists m'. split; [done|]. split; [by apply ring_rotate|].
  intros y Hy. apply F. set_solver.
Qed.

Lemma list_insert_after_ring m p l node :
  ring m p l -> is_cell m node -> node ∉ p :: l ->
  exists m', list_insert_after m p node = Some m' /\ ring m' p (node :: l) /\
    (forall y, y ∉ node :: p :: l -> m' !! y = m !! y).
Proof.
  intros R C N. destruct (ring_head _ _ _ R) as [E _]. pose proof (hd_in p l).
  destruct (list_insert_after_run m node p (hd p l)) as (m' & E' & I);
    [done|eapply ring_cell; set_solver|done|set_solver|set_solver|].
  exists m'. split; [done|]. split; [by eapply ring_insert|]. intros y Hy. apply (in_frame _ _ _ _ _ I); set_solver.
Qed.

(** A list does not see changes of other cells. *)
Lemma ring_frame m m' h l : (forall y, y ∈ h :: l -> m' !! y = m !! y) -> ring m h l -> ring m' h l.
Proof.
  intros F [N S]. split; [done|]. eapply seg_frame; [| |done]; intros y Hy; unfold get_next, get_prev;
    rewrite F; [done|set_solver|done|set_solver].
Qed.

(** The operations make no cells and lose none. *)
Lemma set_next_cells m p v m' x : set_next m p v = Some m' -> is_cell m' x <-> is_cell m x.
Proof.
  unfold set_next, is_cell. intros E. inv_bind E. simplify_eq. destruct (decide (x = p)) as [->|N].
  - rewrite lookup_insert_eq. split; eauto.
  - by rewrite lookup_insert_ne.
Qed.
Lemma set_prev_cells m p v m' x : set_prev m p v = Some m' -> is_cell m' x <-> is_cell m x.
Proof.
  unfold set_prev, is_cell. intros E. inv_bind E. simplify_eq. destruct (decide (x = p)) as [->|N].
  - rewrite lookup_insert_eq. split; eauto.
  - by rewrite lookup_insert_ne.
Qed.


Lemma list_add_cells m new h m' x : list_add m new h = Some m' -> is_cell m' x <-> is_cell m x.
Proof.
  unfold list_add, __list_add. destruct (get_next m h) as [n|]; [|done]. cbn [mbind option_bind].
  destruct (set_prev m n new) as [m1|] eqn:E1; [|done]. cbn [mbind option_bind].
  destruct (set_next m1 new n) as [m2|] eqn:E2; [|done]. cbn [mbind option_bind].
  destruct (set_prev m2 new h) as [m3|] eqn:E3; [|done]. cbn [mbind option_bind]. intros E4.
  by rewrite (set_next_cells _ _ _ _ _ E4), (set_prev_cells _ _ _ _ _ E3), (set_next_cells _ _ _ _ _ E2), (set_prev_cells _ _ _ _ _ E1).
Qed.

Lemma list_add_tail_cells m new h m' x : list_add_tail m new h = Some m' -> is_cell m' x <-> is_cell m x.
Proof.
  unfold list_add_tail, __list_add. destruct (get_prev m h) as [p|]; [|done]. cbn [mbind option_bind].
  destruct (set_prev m h new) as [m1|] eqn:E1; [|done]. cbn [mbind option_bind].
  destruct (set_next m1 new h) as [m2|] eqn:E2; [|done]. cbn [mbind option_bind].
  destruct (set_prev m2 new p) as [m3|] eqn:E3; [|done]. cbn [mbind option_bind]. intros E4.
  by rewrite (set_next_cells _ _ _ _ _ E4), (set_prev_cells _ _ _ _ _ E3), (set_next_cells _ _ _ _ _ E2), (set_prev_cells _ _ _ _ _ E1).
Qed.

Lemma list_del_init_cells m e m' x : list_del_init m e = Some m' -> is_cell m' x <-> is_cell m x.
Proof.
  unfold list_del_init, __list_del_entry, __list_del. destruct (get_prev m e) as [p|] eqn:Ep; [|done]. cbn [mbind option_bind].
  destruct (get_next m e) as [n|]; [|done]. cbn [mbind option_bind]. destruct (set_prev m n p) as [m1|] eqn:E1; [|done]. cbn [mbind option_bind].
  destruct (set_next m1 p n) as [m2|] eqn:E2; [|done]. cbn [mbind option_bind]. intros E. injection E as <-.
  unfold INIT_LIST_HEAD. destruct (decide (x = e)) as [->|N].
  - apply is_cell_get_prev in Ep. split; [done|]. unfold is_cell. rewrite lookup_insert_eq. eauto.
  - unfold is_cell at 1. rewrite lookup_insert_ne by done. fold (is_cell m2 x).
    by rewrite (set_next_cells _ _ _ _ _ E2), (set_prev_cells _ _ _ _ _ E1).
Qed.

(** ** Several lists in one store *)

(** All cells of the lists [rs], each with its head. *)
Definition ring_nodes (rs : list (Z * list Z)) : list Z := r ← rs; fst r :: snd r.

Definition rings (m : cells) (rs : list (Z * list Z)) : Prop :=
  Forall (fun r => ring m (fst r) (snd r)) rs /\ NoDup (ring_nodes rs).

Lemma ring_nodes_app r1 r2 : ring_nodes (r1 ++ r2) = ring_nodes r1 ++ ring_nodes r2.
Proof. apply bind_app. Qed.

Lemma ring_nodes_cons h l rs : ring_nodes ((h, l) :: rs) = (h :: l) ++ ring_nodes rs.
Proof. done. Qed.

Lemma rings_split m r1 h l r2 : rings m (r1 ++ (h, l) :: r2) ->
  ring m h l /\ NoDup (h :: l) /\ (forall y, y ∈ h :: l -> y ∉ ring_nodes r1 ++ ring_nodes r2).
Proof.
  intros [F N]. apply Forall_app in F as [F1 F2]. apply Forall_cons in F2 as [F2 _]. split; [done|].
  rewrite ring_nodes_app, ring_nodes_cons in N. apply NoDup_app in N as (N1 & N2 & N3). apply NoDup_app in N3 as (N3 & N4 & _).
  split; [done|]. intros y Hy H. apply elem_of_app in H as [H|H]; [|by eapply N4].
  apply (N2 y H). apply elem_of_app. by left.
Qed.

(** Changing one list: nodes may leave it, and nodes that are on no list may join. *)
Lemma rings_change m m' r1 h l l' r2 :
  rings m (r1 ++ (h, l) :: r2) -> ring m' h l' ->
  (forall y, y ∈ l' -> y ∈ l \/ y ∉ ring_nodes (r1 ++ (h, l) :: r2)) ->
  (forall y, y ∉ h :: l -> y ∉ l' -> m' !! y = m !! y) ->
  rings m' (r1 ++ (h, l') :: r2).
Proof.
  intros RS R L F. destruct (rings_split _ _ _ _ _ RS) as (_ & N & S). destruct RS as [FA ND].
  assert (D : forall y, y ∈ h :: l' -> y ∉ ring_nodes r1 ++ ring_nodes r2).
  { intros y Hy. apply elem_of_cons in Hy as [->|Hy]; [apply S; by left|].
    destruct (L y Hy) as [Hl|Hn]; [apply S; by right|]. intros Hr. apply Hn. rewrite ring_nodes_app, ring_nodes_cons. set_solver. }
  split.
  - apply Forall_app in FA as [F1 F2]. apply Forall_cons in F2 as [_ F2]. apply Forall_app. split; [|apply Forall_cons; split; [done|]].
    all: rewrite Forall_forall in *; intros [g q] Hq; eapply ring_frame; [|by eauto]; intros y Hy; cbn in Hy.
    all: assert (y ∈ ring_nodes r1 ++ ring_nodes r2) as Hr by
      (apply elem_of_app; first [left; apply list_elem_of_bind; by exists (g, q)|right; apply list_elem_of_bind; by exists (g, q)]).
    all: apply F; intros Hc; [by apply (S y)|by apply (D y); [right|]].
  - rewrite ring_nodes_app, ring_nodes_cons in *. apply NoDup_app in ND as (N1 & N2 & N3). apply NoDup_app in N3 as (N3 & N4 & N5).
    apply NoDup_app. split; [done|]. split.
    + intros y Hy Hc. apply elem_of_app in Hc as [Hc|Hc]; [apply (D y Hc); set_solver|]. apply (N2 y Hy). set_solver.
    + apply NoDup_app. split; [apply R|]. split; [|done].
      intros y Hy Hc. apply (D y Hy). set_solver.
Qed.

(** A node that leaves a list is on no list any more. *)
Lemma left_list m r1 h l1 x l2 r2 : rings m (r1 ++ (h, l1 ++ x :: l2) :: r2) -> x ∉ ring_nodes (r1 ++ (h, l1 ++ l2) :: r2).
Proof.
  intros RS. destruct (rings_split _ _ _ _ _ RS) as (_ & N & S). specialize (S x ltac:(set_solver)).
  apply NoDup_cons in N as [N1 N]. apply NoDup_app in N as (N2 & N3 & N4). apply NoDup_cons in N4 as [N4 _].
  rewrite ring_nodes_app, ring_nodes_cons. set_solver.
Qed.

Lemma rings_cells m rs x : rings m rs -> x ∈ ring_nodes rs -> is_cell m x.
Proof.
  intros [F _] H. apply list_elem_of_bind in H as ([h l] & Hx & Hr). rewrite Forall_forall in F.
  eapply ring_cell; [by apply (F _ Hr)|done].
Qed.

Lemma rings_remove m r1 h l1 x l2 r2 :
  rings m (r1 ++ (h, l1 ++ x :: l2) :: r2) ->
  exists m', list_remove m x = Some m' /\ rings m' (r1 ++ (h, l1 ++ l2) :: r2) /\ m' !! x = m !! x.
Proof.
  intros RS. destruct (rings_split _ _ _ _ _ RS) as (R & N & _). destruct (list_remove_ring _ _ _ _ _ R) as (m' & E & R' & F).
  exists m'. split; [done|]. split.
  - eapply rings_change; [done|done|intros; left; set_solver|]. intros y Hy _. apply F. set_solver.
  - apply F. apply NoDup_cons in N as [N1 N]. apply NoDup_app in N as (N2 & N3 & N4). apply NoDup_cons in N4 as [N4 _]. set_solver.
Qed.

Lemma rings_del_init m r1 h l1 x l2 r2 :
  rings m (r1 ++ (h, l1 ++ x :: l2) :: r2) ->
  exists m', list_del_init m x = Some m' /\ rings m' (r1 ++ (h, l1 ++ l2) :: r2) /\ m' !! x = Some (LCell x x) /\
    (forall y, y ∉ h :: l1 ++ x :: l2 -> m' !! y = m !! y).
Proof.
  intros RS. destruct (rings_split _ _ _ _ _ RS) as (R & N & _). destruct (list_del_init_ring _ _ _ _ _ R) as (m' & E & R' & Rx & F).
  exists m'. split; [done|]. split; [|split; [|done]].
  - eapply rings_change; [done|done|intros; left; set_solver|]. intros y Hy _. by apply F.
  - destruct Rx as [_ [A B]]. unfold get_next, get_prev in *. destruct (m' !! x) as [[n p]|]; [|done]. cbn in *. congruence.
Qed.

Lemma rings_insert_after m r1 h l x r2 :
  rings m (r1 ++ (h, l) :: r2) -> is_cell m x -> x ∉ ring_nodes (r1 ++ (h, l) :: r2) ->
  exists m', list_insert_after m h x = Some m' /\ rings m' (r1 ++ (h, x :: l) :: r2) /\
    (forall y, y ∉ x :: h :: l -> m' !! y = m !! y).
Proof.
  intros RS C N. destruct (rings_split _ _ _ _ _ RS) as (R & _ & _).
  destruct (list_insert_after_ring m h l x R C) as (m' & E & R' & F); [rewrite ring_nodes_app, ring_nodes_cons in N; set_solver|].
  exists m'. split; [done|]. split; [|done]. eapply rings_change; [done|done|set_solver|]. intros y Hy Hl. apply F. set_solver.
Qed.

Lemma rings_add m r1 h l x r2 :
  rings m (r1 ++ (h, l) :: r2) -> is_cell m x -> x ∉ ring_nodes (r1 ++ (h, l) :: r2) ->
  exists m', list_add m x h = Some m' /\ rings m' (r1 ++ (h, x :: l) :: r2) /\
    (forall y, y ∉ x :: h :: l -> m' !! y = m !! y).
Proof.
  intros RS C N. destruct (rings_split _ _ _ _ _ RS) as (R & _ & _).
  destruct (list_add_ring m h l x R C) as (m' & E & R' & F); [rewrite ring_nodes_app, ring_nodes_cons in N; set_solver|].
  exists m'. split; [done|]. split; [|done]. eapply rings_change; [done|done|set_solver|]. intros y Hy Hl. apply F. set_solver.
Qed.

Lemma rings_add_tail m r1 h l x r2 :
  rings m (r1 ++ (h, l) :: r2) -> is_cell m x -> x ∉ ring_nodes (r1 ++ (h, l) :: r2) ->
  exists m', list_add_tail m x h = Some m' /\ rings m' (r1 ++ (h, l ++ [x]) :: r2) /\
    (forall y, y ∉ x :: h :: l -> m' !! y = m !! y).
Proof.
  intros RS C N. destruct (rings_split _ _ _ _ _ RS) as (R & _ & _).
  destruct (list_add_tail_ring m h l x R C) as (m' & E & R' & F); [rewrite ring_nodes_app, ring_nodes_cons in N; set_solver|].
  exists m'. split; [done|]. split; [|done]. eapply rings_change; [done|done| |].
  - intros y Hy. apply elem_of_app in Hy as [Hy|Hy]; [by left|]. apply list_elem_of_singleton in Hy as ->. by right.
  - intros y Hy Hl. apply F. set_solver.
Qed.

Lemma rings_frame m m' rs : (forall y, y ∈ ring_nodes rs -> m' !! y = m !! y) -> rings m rs -> rings m' rs.
Proof.
  intros F [FA N]. split; [|done]. rewrite Forall_forall in *. intros [h l] Hr. eapply ring_frame; [|by eauto].
  intros y Hy. apply F. apply list_elem_of_bind. by exists (h, l).
Qed.

Lemma list_walk_seg m h p l :
  seg m p l h -> h ∉ p :: l -> list_walk (S (S (length l))) m h p = Some (p :: l).
Proof.
  revert p. induction l as [|x l IH]; intros p S Hn; cbn [list_walk length].
  - destruct S as [E _]. assert (p <> h) by set_solver. zdec. rewrite E. simpl. by rewrite Z.eqb_refl.
  - destruct S as [[E _] S]. assert (p <> h) by set_solver. zdec. rewrite E. cbn [mbind option_bind].
    pose proof (IH x S ltac:(set_solver)) as W. cbn [list_walk length] in W. by rewrite W.
Qed.

Lemma list_for_each_ring m h l : ring m h l -> list_for_each (S (length l)) m h = Some l.
Proof.
  intros R. unfold list_for_each. destruct (ring_head _ _ _ R) as [-> _]. cbn [mbind option_bind].
  destruct R as [N S]. destruct l as [|x l]; simpl hd; [simpl; by rewrite Z.eqb_refl|].
  apply NoDup_cons in N as [N _]. destruct S as [_ S]. by apply list_walk_seg.
Qed.

(** list_add and list_insert_after put a node at the front of a circular list,
    list_add_tail at the end; list_for_each_entry then visits exactly the nodes of the new list, in
    order, and no cell outside the list changes. *)
Theorem list_add_spec m h l new :
  ring m h l -> is_cell m new -> new ∉ h :: l ->
  (exists m', list_add m new h = Some m' /\ ring m' h (new :: l) /\
     list_for_each (S (S (length l))) m' h = Some (new :: l) /\
     (forall y, y ∉ new :: h :: l -> m' !! y = m !! y)) /\
  (exists m', list_add_tail m new h = Some m' /\ ring m' h (l ++ [new]) /\
     list_for_each (S (S (length l))) m' h = Some (l ++ [new]) /\
     (forall y, y ∉ new :: h :: l -> m' !! y = m !! y)) /\
  (exists m', list_insert_after m h new = Some m' /\ ring m' h (new :: l) /\
     (forall y, y ∉ new :: h :: l -> m' !! y = m !! y)).
Proof.
  intros R C N. split; [|split; [|by apply list_insert_after_ring]].
  - destruct (list_add_ring m h l new R C N) as (m' & E & R' & F). exists m'.
    split; [done|]. split; [done|]. split; [|done]. by apply (list_for_each_ring m' h (new :: l)).
  - destruct (list_add_tail_ring m h l new R C N) as (m' & E & R' & F). exists m'.
    split; [done|]. split; [done|]. split; [|done].
    replace (S (length l)) with (length (l ++ [new])) by (rewrite length_app; simpl; lia).
    by apply list_for_each_ring.
Qed.

(** list_del_init takes a node out of its list, wherever it is, keeps the
    others in order and leaves the node as an empty list of its own; list_remove
    takes it out and changes nothing outside the rest of the list. *)
Theorem list_del_spec m h l1 x l2 :
  ring m h (l1 ++ x :: l2) ->
  (exists m', list_del_init m x = Some m' /\ ring m' h (l1 ++ l2) /\ ring m' x [] /\
     list_for_each (S (length (l1 ++ l2))) m' h = Some (l1 ++ l2)) /\
  (exists m', list_remove m x = Some m' /\ ring m' h (l1 ++ l2) /\ (forall y, y ∉ h :: l1 ++ l2 -> m' !! y = m !! y)).
Proof.
  intros R. split; [|by apply list_remove_ring].
  destruct (list_del_init_ring m h l1 x l2 R) as (m' & E & R1 & R2 & _).
  exists m'. repeat (split; [done|]). by apply list_for_each_ring.
Qed.

Definition demo_cells : cells := {[ 1 := LCell 2 3; 2 := LCell 3 1; 3 := LCell 1 2; 9 := LCell 0 0 ]}.

Lemma demo_ring : ring demo_cells 1 [2; 3].
Proof. split; [apply (bool_decide_unpack _); by vm_compute|]. by vm_compute. Qed.

Lemma list_add_spec_witness :
  exists m', list_add_tail demo_cells 9 1 = Some m' /\ list_for_each 4 m' 1 = Some [2; 3; 9].
Proof.
  destruct (list_add_spec demo_cells 1 [2; 3] 9) as (_ & (m' & E & _ & W & _) & _); [apply demo_ring| | |eauto].
  - by eexists.
  - apply (bool_decide_unpack _). by vm_compute.
Defined.

Lemma list_del_spec_witness :
  exists m', list_del_init demo_cells 2 = Some m' /\ ring m' 1 [3] /\ ring m' 2 [].
Proof.
  destruct (list_del_spec demo_cells 1 [] 2 [3] demo_ring) as [(m' & E & R1 & R2 & _) _]. eauto.
Defined.
