(* ===== verification/DentryHash.v ===== *)
(** * DentryHash: the name table of userfs/userfs_dentry_hash.c

    A table of buckets; a bucket is a chain of nodes linked by [hlist], and every
    node is also on one circular list of the whole table (KList).  Nodes live in a
    store by address.  A name is a byte buffer; an access outside it, or to an
    address with no node, has no result. *)
From S2P Require Import Prelude Atomic KList.
Local Open Scope Z_scope.

Definition LINKHASH_MAX_BUCKET_COUNT : Z := 128.

(** The tag of an inode address is its top bit (of 64). *)
Definition USERFS_NAME2INODE : Z := 0.
Definition USERFS_NAME2INODEBUF : Z := 1.
Definition USERFS_INODEADDRINFO_CAL (type addr : Z) : Z :=
  Z.lor (u64 (Z.shiftl type 63)) (u64 addr).
Definition USERFS_INODETYPE_GET (val : Z) : Z := Z.shiftr val 63.
Definition USERFS_INODEADDR_GET (val : Z) : Z := Z.land val (Z.shiftr 0xffffffffffffffff 1).

Definition hash_32bkey (key : Z) : Z :=
  let h := key in
  let h := u32 (u32 (Z.lnot h) + u32 (Z.shiftl h 18)) in
  let h := Z.lxor h (Z.shiftr h 31) in
  let h := u32 (h * 21) in
  let h := Z.lxor h (Z.shiftr h 11) in
  let h := u32 (h + u32 (Z.shiftl h 6)) in
  Z.lxor h (Z.shiftr h 22).

Lemma inodeaddr_value type addr :
  0 <= addr < 2 ^ 63 -> type = 0 \/ type = 1 ->
  USERFS_INODEADDRINFO_CAL type addr = type * 2 ^ 63 + addr.
Proof.
  intros Ha Ht. unfold USERFS_INODEADDRINFO_CAL.
  assert (u64 (Z.shiftl type 63) = Z.shiftl type 63) as -> by (destruct Ht as [-> | ->]; reflexivity).
  rewrite u64_small by lia. rewrite <- Z.add_nocarry_lor; [by rewrite Z.shiftl_mul_pow2|].
  apply Z.bits_inj'. intros n Hn. rewrite Z.land_spec, Z.bits_0.
  destruct (Z.lt_ge_cases n 63); [by rewrite Z.shiftl_spec_low|].
  rewrite <- (Z.mod_small addr (2 ^ 63)), Z.mod_pow2_bits_high by lia. apply andb_false_r.
Qed.

Lemma inodeaddr_tag type addr :
  0 <= addr < 2 ^ 63 -> type = 0 \/ type = 1 ->
  USERFS_INODETYPE_GET (USERFS_INODEADDRINFO_CAL type addr) = type /\
  USERFS_INODEADDR_GET (USERFS_INODEADDRINFO_CAL type addr) = addr.
Proof.
  intros Ha Ht. rewrite inodeaddr_value by done. unfold USERFS_INODETYPE_GET, USERFS_INODEADDR_GET.
  change (Z.shiftr 0xffffffffffffffff 1) with (Z.ones 63).
  rewrite Z.shiftr_div_pow2, Z.land_ones by lia. split.
  - rewrite Z.div_add_l, Z.div_small; lia.
  - rewrite Z.add_comm, Z.mod_add, Z.mod_small; lia.
Qed.

(** One round of [str2hash_u32]: the new [(hash0, hash1)]. *)
Definition str2hash_step (hash0 hash1 c : Z) : Z * Z :=
  let hash := u32 (hash1 + Z.lxor hash0 (c * 7152373)) in
  let hash := if Z.land hash 0x80000000 =? 0 then hash else u32 (hash - 0x7fffffff) in
  (hash, hash0).

Fixpoint str2hash_loop (name : list Z) (len : nat) (hash0 hash1 : Z) {struct len} : option Z :=
  match len with
  | O => Some hash0
  | S len =>
      match name with
      | [] => None
      | c :: name => let '(hash0, hash1) := str2hash_step hash0 hash1 c in
          str2hash_loop name len hash0 hash1
      end
  end.

Definition str2hash_u32 (name : list Z) (len : Z) : option Z :=
  hash0 ← str2hash_loop name (Z.to_nat len) 0x12a3fe2d 0x37abe8f9;
  Some (u32 (Z.shiftl hash0 1)).

(** [!strncmp(a, b, n)]. *)
Fixpoint strncmp_eq (a b : list Z) (n : nat) {struct n} : option bool :=
  match n with
  | O => Some true
  | S n =>
      match a, b with
      | x :: a, y :: b =>
          if negb (x =? y) then Some false
          else if x =? 0 then Some true else strncmp_eq a b n
      | _, _ => None
      end
  end.

(** [hlist_t]: the [name] field is the 28 bytes of [userfs_dentry_name]; the list
    cell [obj.chain] is kept in the store of list cells, 8 bytes into the node. *)
Record hlist_t := Hlist { hlist : Z; name : list Z; dentry_pos : Z; val : Z }.

Definition sizeof_hlist : Z := 64.
Definition chain (node : Z) : Z := node + 8.
(** [container_of] twice: from the list cell to the node. *)
Definition node_of_chain (p : Z) : Z := p - 8.

Record hlist_bucket := Bucket { refcount : Z; bucket_start : Z }.

Record linkhash := Linkhash {
  bucket_count : Z;
  obj_count : Z;
  hlist_head : Z;             (* the address of the list head *)
  bucket : list hlist_bucket }.

(** The nodes and list cells in the C heap. *)
Record dstore := Dstore { nodes : gmap Z hlist_t; chains : cells }.

Definition sizeof_linkhash : Z := 32.
Definition sizeof_bucket : Z := 16.

Definition linkhash_bucket_init (b : hlist_bucket) : hlist_bucket :=
  Bucket (atomic_set (refcount b) 0) NULL.

(** [garbage_count]: what [obj_count] holds before; [at_] is the table. *)
Definition linkhash_init (d : dstore) (bucket_cnt at_ garbage_count : Z) : linkhash * dstore :=
  (Linkhash bucket_cnt (atomic_store garbage_count 0) (at_ + 16)
     (linkhash_bucket_init <$> replicate (Z.to_nat bucket_cnt) (Bucket 0 0)),
   Dstore (nodes d) (INIT_LIST_HEAD (chains d) (at_ + 16))).

Definition userfs_dentry_hash_create (a : alloc) (d : dstore) (bucket_cnt garbage_count : Z)
    : option linkhash * alloc * dstore :=
  if (bucket_cnt =? 0) || (LINKHASH_MAX_BUCKET_COUNT <? bucket_cnt) then (None, a, d)
  else
    let '(hashtable, a) := malloc a (sizeof_linkhash + sizeof_bucket * bucket_cnt) in
    if hashtable =? NULL then (None, a, d)
    else let '(t, d) := linkhash_init d bucket_cnt hashtable garbage_count in (Some t, a, d).

(** [free] of a node. *)
Definition free_node (d : dstore) (p : Z) : dstore :=
  Dstore (delete p (nodes d)) (delete (chain p) (chains d)).

(** The loop of [userfs_dentry_hash_destroy]: as many rounds as there are nodes. *)
Fixpoint hash_destroy_loop (fuel : nat) (d : dstore) (head : Z) : option dstore :=
  match fuel with
  | O => None
  | S fuel =>
      n ← get_next (chains d) head;
      if n =? head then Some d
      else
        let p := node_of_chain n in
        _ ← nodes d !! p;
        cs ← list_del_init (chains d) n;
        hash_destroy_loop fuel (free_node (Dstore (nodes d) cs) p) head
  end.

(** The table itself is freed too: its list head goes. *)
Definition userfs_dentry_hash_destroy (d : dstore) (t : option linkhash) : option dstore :=
  match t with
  | None => Some d
  | Some t =>
      d ← hash_destroy_loop (S (size (nodes d))) d (hlist_head t);
      Some (Dstore (nodes d) (delete (hlist_head t) (chains d)))
  end.

(** [while (conflict_list != NULL)]: the address of the node found, or [NULL]. *)
Fixpoint check_if_exists (fuel : nat) (d : dstore) (conflict_list : Z) (nm : list Z) (name_len : Z)
    : option Z :=
  match fuel with
  | O => None
  | S fuel =>
      if conflict_list =? NULL then Some NULL
      else
        n ← nodes d !! conflict_list;
        eq ← strncmp_eq (name n) nm (Z.to_nat name_len);
        if (eq : bool) then Some conflict_list
        else check_if_exists fuel d (hlist n) nm name_len
  end.

(** The chains are no longer than the number of nodes. *)
Definition chain_fuel (d : dstore) : nat := S (size (nodes d)).

(** [hash & (bucket_count - 1)]: the bucket of a name. *)
Definition bucket_of (t : linkhash) (nm : list Z) (name_len : Z) : option Z :=
  hash ← str2hash_u32 nm name_len;
  Some (u32 (Z.land hash (u64 (bucket_count t - 1)))).

(** The node of [userfs_dentry_hash_insert] before it is linked: cleared, then
    its fields set.  [name\[name_len + 1\] = 0] writes a zero over a zero, or, for
    the longest name, the first byte of [dentry_pos], which is assigned next. *)
Definition new_node (nm : list Z) (name_len type addr pos : Z) : option hlist_t :=
  if (0 <=? name_len) && (name_len <=? 27) && (name_len <=? Z.of_nat (length nm)) then
    Some (Hlist NULL (take (Z.to_nat name_len) nm ++ replicate (Z.to_nat (28 - name_len)) 0)
            pos (USERFS_INODEADDRINFO_CAL type addr))
  else None.

(** The result is the node, [NULL] on failure. *)
Definition userfs_dentry_hash_insert (a : alloc) (d : dstore) (t : linkhash)
    (nm : list Z) (name_len type addr pos : Z) : option (Z * alloc * dstore * linkhash) :=
  bucket_id ← bucket_of t nm name_len;
  b ← bucket t !! Z.to_nat bucket_id;
  let '(new, a) := malloc a sizeof_hlist in
  if new =? NULL then Some (NULL, a, d, t)
  else
    node ← new_node nm name_len type addr pos;
    conflict ← check_if_exists (chain_fuel d) d (bucket_start b) nm name_len;
    if negb (conflict =? NULL) then Some (NULL, a, d, t)
    else
      let node := Hlist (bucket_start b) (name node) (dentry_pos node) (val node) in
      let b' := Bucket (atomic_add (refcount b) 1) new in
      cs ← list_add (<[chain new := LCell 0 0]> (chains d)) (chain new) (hlist_head t);
      Some (new, a, Dstore (<[new := node]> (nodes d)) cs,
            Linkhash (bucket_count t) (atomic_add (obj_count t) 1) (hlist_head t)
              (<[Z.to_nat bucket_id := b']> (bucket t))).

(** The common part of the two updates: the node to change, or [NULL]. *)
Definition hash_find (d : dstore) (t : linkhash) (nm : list Z) (name_len : Z) : option Z :=
  bucket_id ← bucket_of t nm name_len;
  b ← bucket t !! Z.to_nat bucket_id;
  if negb (bucket_start b =? NULL) then
    check_if_exists (chain_fuel d) d (bucket_start b) nm name_len
  else Some NULL.

Definition userfs_dentry_hash_update (d : dstore) (t : linkhash) (nm : list Z)
    (name_len type addr : Z) : option (Z * dstore) :=
  p ← hash_find d t nm name_len;
  if p =? NULL then Some (NULL, d)
  else
    n ← nodes d !! p;
    Some (p, Dstore (<[p := Hlist (hlist n) (name n) (dentry_pos n)
                              (USERFS_INODEADDRINFO_CAL type addr)]> (nodes d)) (chains d)).

Definition userfs_dentry_hash_update_dentrypos (d : dstore) (t : linkhash) (nm : list Z)
    (name_len pos : Z) : option (Z * dstore) :=
  p ← hash_find d t nm name_len;
  if p =? NULL then Some (NULL, d)
  else
    n ← nodes d !! p;
    Some (p, Dstore (<[p := Hlist (hlist n) (name n) pos (val n)]> (nodes d)) (chains d)).

(** The walk of [userfs_dentry_hash_get]: [inodeaddr] and [*dentry_pos]. *)
Fixpoint hash_get_loop (fuel : nat) (d : dstore) (conflict_list : Z) (nm : list Z) (name_len pos : Z)
    : option (Z * Z) :=
  match fuel with
  | O => None
  | S fuel =>
      if conflict_list =? NULL then Some (UINT32_MAX, pos)
      else
        n ← nodes d !! conflict_list;
        eq ← strncmp_eq (name n) nm (Z.to_nat name_len);
        if (eq : bool) then Some (val n, dentry_pos n)
        else hash_get_loop fuel d (hlist n) nm name_len pos
  end.

Definition userfs_dentry_hash_get (d : dstore) (t : option linkhash) (nm : list Z)
    (name_len pos : Z) : option (Z * Z) :=
  match t with
  | None => Some (UINT32_MAX, pos)
  | Some t =>
      bucket_id ← bucket_of t nm name_len;
      b ← bucket t !! Z.to_nat bucket_id;
      hash_get_loop (chain_fuel d) d (bucket_start b) nm name_len pos
  end.

(** The body of the walk of [userfs_dentry_hash_remove] at the node found. *)
Definition hash_unlink (d : dstore) (t : linkhash) (bucket_id : Z) (b : hlist_bucket)
    (prv cur : Z) (n : hlist_t) : option (dstore * linkhash) :=
  let rc := atomic_sub (refcount b) 1 in
  let oc := atomic_sub (obj_count t) 1 in
  cs ← list_del_init (chains d) (chain cur);
  '(ns, start) ←
    (if prv =? NULL then Some (nodes d, hlist n)
     else p ← nodes d !! prv;
          Some (<[prv := Hlist (hlist n) (name p) (dentry_pos p) (val p)]> (nodes d), bucket_start b));
  Some (free_node (Dstore ns cs) cur,
        Linkhash (bucket_count t) oc (hlist_head t)
          (<[Z.to_nat bucket_id := Bucket rc start]> (bucket t))).

Fixpoint hash_remove_loop (fuel : nat) (d : dstore) (t : linkhash) (bucket_id : Z)
    (b : hlist_bucket) (prv cur : Z) (nm : list Z) (name_len pos : Z)
    : option (Z * Z * dstore * linkhash) :=
  match fuel with
  | O => None
  | S fuel =>
      if cur =? NULL then Some (UINT32_MAX, pos, d, t)
      else
        n ← nodes d !! cur;
        eq ← strncmp_eq (name n) nm (Z.to_nat name_len);
        if (eq : bool) then
          '(d, t) ← hash_unlink d t bucket_id b prv cur n;
          Some (val n, dentry_pos n, d, t)
        else hash_remove_loop fuel d t bucket_id b cur (hlist n) nm name_len pos
  end.

(** [(inodeaddr, *dentry_pos)] and the new state. *)
Definition userfs_dentry_hash_remove (d : dstore) (t : linkhash) (nm : list Z)
    (name_len pos : Z) : option (Z * Z * dstore * linkhash) :=
  bucket_id ← bucket_of t nm name_len;
  b ← bucket t !! Z.to_nat bucket_id;
  hash_remove_loop (chain_fuel d) d t bucket_id b NULL (bucket_start b) nm name_len pos.

(** ** What the table promises

    A bucket is a list of entries, the newest first.  A name finds the first entry
    of its bucket of which it is a prefix. *)

Record entry := Entry { e_name : list Z; e_pos : Z; e_val : Z }.

#[export] Instance entry_eq_dec : EqDecision entry.
Proof. solve_decision. Defined.

Definition valid_name (s : list Z) : Prop :=
  Z.of_nat (length s) <= 27 /\ Forall (fun c => 0 < c < 256) s.

#[export] Instance valid_name_dec s : Decision (valid_name s).
Proof. unfold valid_name. apply _. Defined.

Definition matches (s : list Z) (e : entry) : bool := bool_decide (s `prefix_of` e_name e).

(** The bucket number of a name in a table of [n] buckets. *)
Definition slot (n : Z) (s : list Z) : nat :=
  match str2hash_loop s (length s) 0x12a3fe2d 0x37abe8f9 with
  | Some h => Z.to_nat (Z.land (u32 (Z.shiftl h 1)) (n - 1))
  | None => 0%nat
  end.

Abbreviation buckets := (list (list entry)).

Definition find_entry (s : list Z) (l : list entry) : option entry := snd <$> list_find (matches s) l.

Definition spec_lookup (bs : buckets) (s : list Z) : option entry :=
  l ← bs !! slot (Z.of_nat (length bs)) s; find_entry s l.

(** The first match is replaced, or dropped. *)
Fixpoint change_first (s : list Z) (f : entry -> option entry) (l : list entry) : list entry :=
  match l with
  | [] => []
  | e :: l => if matches s e then match f e with Some e => e :: l | None => l end
              else e :: change_first s f l
  end.

Definition spec_insert (bs : buckets) (e : entry) : buckets :=
  alter (cons e) (slot (Z.of_nat (length bs)) (e_name e)) bs.
Definition spec_change (bs : buckets) (s : list Z) (f : entry -> option entry) : buckets :=
  alter (change_first s f) (slot (Z.of_nat (length bs)) s) bs.

(** ** Names, hashes and comparison *)

(** The 28 bytes that hold a name. *)
Definition pad (s : list Z) : list Z := s ++ replicate (28 - length s) 0.

(** The arguments [(nm, name_len)] of the operations denote the string [s]. *)
Definition denotes (nm : list Z) (name_len : Z) (s : list Z) : Prop :=
  valid_name s /\ s `prefix_of` nm /\ name_len = Z.of_nat (length s).

Lemma strncmp_prefix en s r k :
  Forall (fun c => 0 < c < 256) en -> Forall (fun c => 0 < c < 256) s -> (0 < k)%nat ->
  strncmp_eq (en ++ replicate k 0) (s ++ r) (length s) = Some (bool_decide (s `prefix_of` en)).
Proof.
  intros He Hs Hk. revert en He. induction s as [|c s IH]; intros en He; cbn [length strncmp_eq app].
  { by rewrite bool_decide_true by apply prefix_nil. }
  apply Forall_cons in Hs as [Hc Hs]. destruct en as [|x en]; cbn [app].
  - destruct k as [|k]; [lia|]. cbn [replicate]. zdec. cbn [negb].
    by rewrite bool_decide_false by apply prefix_nil_not.
  - apply Forall_cons in He as [Hx He]. destruct (Z.eqb_spec x c) as [->|N]; cbn [negb].
    + zdec. rewrite IH by done. f_equal. apply bool_decide_ext. split.
      * apply prefix_cons.
      * apply prefix_cons_inv_2.
    + rewrite bool_decide_false; [done|]. intros P. apply prefix_cons_inv_1 in P. congruence.
Qed.

Lemma strncmp_matches nm len s e :
  denotes nm len s -> valid_name (e_name e) ->
  strncmp_eq (pad (e_name e)) nm (Z.to_nat len) = Some (matches s e).
Proof.
  intros ((L & V) & [r ->] & ->) (Le & Ve). rewrite Nat2Z.id. apply strncmp_prefix; [done..|lia].
Qed.

Lemma str2hash_loop_prefix s r h0 h1 :
  str2hash_loop (s ++ r) (length s) h0 h1 = str2hash_loop s (length s) h0 h1 /\
  is_Some (str2hash_loop s (length s) h0 h1).
Proof.
  revert h0 h1. induction s as [|c s IH]; intros h0 h1; cbn [length str2hash_loop app]; [eauto|].
  destruct (str2hash_step h0 h1 c). apply IH.
Qed.

Lemma slot_lt n s : 0 < n -> (slot n s < Z.to_nat n)%nat.
Proof.
  intros Hn. unfold slot. destruct (str2hash_loop _ _ _ _) as [h|]; [|lia].
  pose proof (u32_range (Z.shiftl h 1)).
  pose proof (land_bounds (u32 (Z.shiftl h 1)) (n - 1)). lia.
Qed.

Lemma bucket_of_slot t nm len s :
  denotes nm len s -> 0 < bucket_count t <= LINKHASH_MAX_BUCKET_COUNT ->
  exists i, bucket_of t nm len = Some i /\ Z.to_nat i = slot (bucket_count t) s.
Proof.
  intros (_ & [r ->] & ->) Hn. unfold LINKHASH_MAX_BUCKET_COUNT in Hn.
  unfold bucket_of, str2hash_u32. rewrite Nat2Z.id.
  pose proof (slot_lt (bucket_count t) s ltac:(lia)) as L. unfold slot in *.
  destruct (str2hash_loop_prefix s r 0x12a3fe2d 0x37abe8f9) as [E1 [h E2]].
  rewrite E1, E2 in *. cbn [mbind option_bind]. eexists. split; [done|].
  rewrite (u64_small (bucket_count t - 1)) by lia.
  pose proof (u32_range (Z.shiftl h 1)).
  pose proof (land_bounds (u32 (Z.shiftl h 1)) (bucket_count t - 1)). by rewrite u32_small by lia.
Qed.

(** ** Chains *)

Fixpoint hchain (ns : gmap Z hlist_t) (p : Z) (l : list (Z * entry)) : Prop :=
  match l with
  | [] => p = NULL
  | (q, e) :: l =>
      p = q /\ q <> NULL /\ valid_name (e_name e) /\
      exists nx, ns !! q = Some (Hlist nx (pad (e_name e)) (e_pos e) (e_val e)) /\ hchain ns nx l
  end.

Lemma hchain_frame ns ns' p l :
  (forall q, q ∈ l.*1 -> ns' !! q = ns !! q) -> hchain ns p l -> hchain ns' p l.
Proof.
  revert p. induction l as [|[q e] l IH]; intros p F; [done|].
  intros (-> & N & V & nx & E & C). split; [done|]. split; [done|]. split; [done|].
  exists nx. rewrite F by set_solver. split; [done|]. apply IH; [|done]. intros x Hx. apply F. set_solver.
Qed.

(** The address of the first entry that [s] matches. *)
Definition find_addr (s : list Z) (l : list (Z * entry)) : Z :=
  match list_find (fun qe => matches s qe.2) l with Some (_, (q, _)) => q | None => NULL end.

Lemma list_find_cons_dec {A} (P : A -> bool) x l :
  list_find P (x :: l) = if P x then Some (0%nat, x) else prod_map S id <$> list_find P l.
Proof. cbn. by destruct (P x). Qed.

Lemma find_entry_cons s e l :
  find_entry s (e :: l) = if matches s e then Some e else find_entry s l.
Proof.
  unfold find_entry. rewrite list_find_cons_dec. destruct (matches s e); [done|].
  by destruct (list_find (matches s) l) as [[]|].
Qed.

Lemma find_addr_cons s q e l :
  find_addr s ((q, e) :: l) = if matches s e then q else find_addr s l.
Proof.
  unfold find_addr. rewrite list_find_cons_dec. cbn [snd]. destruct (matches s e); [done|].
  by destruct (list_find _ l) as [[? []]|].
Qed.

Lemma check_if_exists_chain fuel d p nm len s l :
  denotes nm len s -> hchain (nodes d) p l -> (length l < fuel)%nat ->
  check_if_exists fuel d p nm len = Some (find_addr s l).
Proof.
  intros D. revert fuel p. induction l as [|[q e] l IH]; intros [|fuel] p C Hf; simpl in Hf; try lia;
    cbn [check_if_exists].
  - simpl in C. rewrite C. done.
  - destruct C as (-> & N & V & nx & E & C). zdec. rewrite E. cbn [mbind option_bind name hlist].
    rewrite (strncmp_matches nm len s e) by done. cbn [mbind option_bind]. rewrite find_addr_cons.
    destruct (matches s e); [done|]. apply IH; [done|lia].
Qed.

Lemma hash_get_loop_chain fuel d p nm len s l pos :
  denotes nm len s -> hchain (nodes d) p l -> (length l < fuel)%nat ->
  hash_get_loop fuel d p nm len pos =
    Some (match find_entry s l.*2 with Some e => (e_val e, e_pos e) | None => (UINT32_MAX, pos) end).
Proof.
  intros D. revert fuel p. induction l as [|[q e] l IH]; intros [|fuel] p C Hf; simpl in Hf; try lia;
    cbn [hash_get_loop].
  - simpl in C. rewrite C. done.
  - destruct C as (-> & N & V & nx & E & C). zdec. rewrite E. cbn [mbind option_bind name hlist].
    rewrite (strncmp_matches nm len s e) by done. cbn [mbind option_bind].
    rewrite fmap_cons, find_entry_cons. cbn [snd].
    destruct (matches s e); [done|]. apply IH; [done|lia].
Qed.

(** The first match splits the chain. *)
Lemma find_split s (l : list (Z * entry)) :
  match find_entry s l.*2 with
  | None => find_addr s l = NULL
  | Some e => exists l1 q l2, l = l1 ++ (q, e) :: l2 /\ find_addr s l = q /\
      Forall (fun qe => matches s qe.2 = false) l1 /\ matches s e = true /\
      (forall f, change_first s f l.*2 = l1.*2 ++ option_list (f e) ++ l2.*2)
  end.
Proof.
  induction l as [|[q e] l IH]; [done|]. rewrite fmap_cons, find_entry_cons, find_addr_cons. cbn [snd].
  destruct (matches s e) eqn:M.
  - exists [], q, l. repeat split; try done. intros f. cbn. rewrite M. by destruct (f e).
  - destruct (find_entry s l.*2) as [e'|]; [|done].
    destruct IH as (l1 & q' & l2 & -> & F & N & M' & C). exists ((q, e) :: l1), q', l2.
    repeat split; try done; [by constructor|]. intros f. cbn. rewrite M. f_equal. apply C.
Qed.

Lemma hchain_split ns p l1 q e l2 :
  hchain ns p (l1 ++ (q, e) :: l2) ->
  q <> NULL /\ valid_name (e_name e) /\
  exists nx, ns !! q = Some (Hlist nx (pad (e_name e)) (e_pos e) (e_val e)) /\ hchain ns nx l2.
Proof.
  revert p. induction l1 as [|[r e0] l1 IH]; intros p; cbn [app hchain].
  - intros (_ & N & V & H). eauto.
  - intros (_ & _ & _ & nx & _ & C). by apply (IH nx).
Qed.

(** Changing the tail of a chain at one of its nodes. *)
Lemma hchain_retail ns p l1 q e e' l2 l2' nx :
  hchain ns p (l1 ++ (q, e) :: l2) -> q ∉ l1.*1 -> q ∉ l2'.*1 -> valid_name (e_name e') ->
  hchain ns nx l2' ->
  hchain (<[q := Hlist nx (pad (e_name e')) (e_pos e') (e_val e')]> ns) p (l1 ++ (q, e') :: l2').
Proof.
  revert p. induction l1 as [|[r e0] l1 IH]; intros p; cbn [app hchain].
  - intros (-> & N & V & H) _ Hq V' C. split; [done|]. split; [done|]. split; [done|].
    exists nx. rewrite lookup_insert_eq. split; [done|]. apply (hchain_frame ns); [|done].
    intros x Hx. rewrite lookup_insert_ne; [done|]. set_solver.
  - intros (-> & N & V & nx' & E & C) Hq1 Hq2 V' C'. split; [done|]. split; [done|]. split; [done|].
    exists nx'. rewrite lookup_insert_ne by set_solver. split; [done|]. apply IH; set_solver.
Qed.

Lemma hash_remove_loop_chain fuel d t bid b prv p nm len s l pos :
  denotes nm len s -> hchain (nodes d) p l -> (length l < fuel)%nat ->
  match find_entry s l.*2 with
  | None => hash_remove_loop fuel d t bid b prv p nm len pos = Some (UINT32_MAX, pos, d, t)
  | Some e => exists l1 q l2 n, l = l1 ++ (q, e) :: l2 /\ nodes d !! q = Some n /\
      (forall f, change_first s f l.*2 = l1.*2 ++ option_list (f e) ++ l2.*2) /\
      hash_remove_loop fuel d t bid b prv p nm len pos =
        ('(d', t') ← hash_unlink d t bid b (List.last l1.*1 prv) q n; Some (e_val e, e_pos e, d', t'))
  end.
Proof.
  intros D. revert fuel prv p. induction l as [|[q e] l IH]; intros [|fuel] prv p C Hf; simpl in Hf; try lia.
  { simpl in C. cbn. by rewrite C. }
  destruct C as (-> & N & V & nx & E & C). rewrite fmap_cons, find_entry_cons. cbn [snd hash_remove_loop].
  zdec. rewrite E. cbn [mbind option_bind name hlist val dentry_pos].
  rewrite (strncmp_matches nm len s e) by done. cbn [mbind option_bind].
  destruct (matches s e) eqn:M.
  - exists [], q, l. eexists. split; [done|]. split; [done|]. split; [|done].
    intros f. cbn. rewrite M. by destruct (f e).
  - specialize (IH fuel q nx C ltac:(lia)). destruct (find_entry s l.*2) as [e'|]; [|done].
    destruct IH as (l1 & q' & l2 & n & -> & E' & CF & R). exists ((q, e) :: l1), q', l2, n.
    split; [done|]. split; [done|]. split; [intros f; cbn; rewrite M; f_equal; apply CF|].
    by rewrite R, fmap_cons, last_cons.
Qed.

(** ** The table represents its buckets *)

Abbreviation abuckets := (list (list (Z * entry))).
Definition addrs (ab : abuckets) : list Z := l ← ab; l.*1.

Definition bucket_rep (ns : gmap Z hlist_t) (b : hlist_bucket) (l : list (Z * entry)) : Prop :=
  hchain ns (bucket_start b) l /\ refcount b = i32 (Z.of_nat (length l)).

Record table_rep (a : alloc) (d : dstore) (t : linkhash) (ab : abuckets) : Prop := {
  tr_count : bucket_count t = Z.of_nat (length ab);
  tr_bound : 0 < bucket_count t <= LINKHASH_MAX_BUCKET_COUNT;
  tr_chains : Forall2 (bucket_rep (nodes d)) (bucket t) ab;
  tr_nodup : NoDup (addrs ab);
  tr_dom : dom (nodes d) = list_to_set (addrs ab);
  tr_ring : exists cl, ring (chains d) (hlist_head t) cl /\ cl ≡ₚ chain <$> addrs ab;
  tr_alloc : alloc_ok a;
  tr_fresh : forall q, q ∈ addrs ab -> q < a_next a;
  tr_head : hlist_head t < a_next a }.

Definition entries (ab : abuckets) : buckets := (fun l : list (Z * entry) => l.*2) <$> ab.

(** [t] in the store [d] holds the entries [bs]. *)
Definition rep (a : alloc) (d : dstore) (t : linkhash) (bs : buckets) : Prop :=
  exists ab, table_rep a d t ab /\ bs = entries ab.

Lemma addrs_insert (ab : abuckets) i l :
  ab !! i = Some l ->
  exists R, addrs ab ≡ₚ l.*1 ++ R /\ (forall l', addrs (<[i := l']> ab) ≡ₚ l'.*1 ++ R) /\
    (forall j k, j <> i -> ab !! j = Some k -> k.*1 ⊆ R).
Proof.
  revert i. induction ab as [|k ab IH]; intros i Hi; [done|]. destruct i as [|i]; simpl in Hi.
  - simplify_eq. exists (addrs ab). split; [done|]. split; [done|].
    intros [|j] k Hj E; [done|]. simpl in E. intros x Hx. apply list_elem_of_bind. exists k.
    split; [done|]. by eapply list_elem_of_lookup_2.
  - destruct (IH i Hi) as (R & E1 & E2 & E3). exists (k.*1 ++ R). split.
    + change (addrs (k :: ab)) with (k.*1 ++ addrs ab). rewrite E1. solve_Permutation.
    + split.
      * intros l'. cbn [insert list_insert]. change (addrs (k :: <[i := l']> ab)) with (k.*1 ++ addrs (<[i := l']> ab)).
        rewrite E2. solve_Permutation.
      * intros [|j] k' Hj E; simpl in E; [simplify_eq; set_solver|].
        specialize (E3 j k' ltac:(congruence) E). set_solver.
Qed.

Lemma alter_insert_lookup {A} (f : A -> A) (l : list A) i x :
  l !! i = Some x -> alter f i l = <[i := f x]> l.
Proof.
  revert i. induction l as [|y l IH]; intros [|i] E; simpl in E; simplify_eq; [done|].
  cbn. f_equal. by apply IH.
Qed.

Lemma alter_lookup_None {A} (f : A -> A) (l : list A) i : l !! i = None -> alter f i l = l.
Proof.
  revert i. induction l as [|y l IH]; intros [|i] E; simpl in E; [done..|]. cbn. f_equal. by apply IH.
Qed.

Lemma entries_lookup (ab : abuckets) i l : ab !! i = Some l -> entries ab !! i = Some l.*2.
Proof. intros E. unfold entries. by rewrite list_lookup_fmap, E. Qed.

Lemma length_entries (ab : abuckets) : length (entries ab) = length ab.
Proof. apply length_fmap. Qed.

(** Where a name is looked up. *)
Lemma table_bucket a d t ab nm len s :
  table_rep a d t ab -> denotes nm len s ->
  exists i b l, bucket_of t nm len = Some i /\ Z.to_nat i = slot (Z.of_nat (length ab)) s /\
    bucket t !! Z.to_nat i = Some b /\ ab !! Z.to_nat i = Some l /\
    bucket_rep (nodes d) b l /\ (length l < chain_fuel d)%nat.
Proof.
  intros T D. destruct (bucket_of_slot t nm len s D (tr_bound _ _ _ _ T)) as (i & E & S).
  pose proof (slot_lt (bucket_count t) s (proj1 (tr_bound _ _ _ _ T))) as L. rewrite <- S in L.
  rewrite (tr_count _ _ _ _ T) in S, L. rewrite Nat2Z.id in L.
  destruct (lookup_lt_is_Some_2 ab (Z.to_nat i) L) as [l El].
  destruct (Forall2_lookup_r _ _ _ _ _ (tr_chains _ _ _ _ T) El) as (b & Eb & R).
  exists i, b, l. repeat split; try done; try apply R.
  destruct (addrs_insert ab _ l El) as (rest & P & _).
  unfold chain_fuel. rewrite <- (size_dom (D := gset Z)), (tr_dom _ _ _ _ T).
  rewrite size_list_to_set by apply (tr_nodup _ _ _ _ T).
  rewrite P, length_app, length_fmap. lia.
Qed.

Lemma spec_lookup_entries (ab : abuckets) s l :
  ab !! slot (Z.of_nat (length ab)) s = Some l -> spec_lookup (entries ab) s = find_entry s l.*2.
Proof.
  intros E. unfold spec_lookup. by rewrite length_entries, (entries_lookup _ _ _ E).
Qed.

(** Replacing one bucket of the table. *)
Lemma table_rebucket a a' d d' t ab i b' l l' R oc :
  table_rep a d t ab -> ab !! i = Some l ->
  addrs ab ≡ₚ l.*1 ++ R -> (forall l', addrs (<[i := l']> ab) ≡ₚ l'.*1 ++ R) ->
  (forall j k, j <> i -> ab !! j = Some k -> k.*1 ⊆ R) ->
  bucket_rep (nodes d') b' l' -> (forall q, q ∈ R -> nodes d' !! q = nodes d !! q) ->
  NoDup (l'.*1 ++ R) -> dom (nodes d') = list_to_set (l'.*1 ++ R) ->
  (exists cl, ring (chains d') (hlist_head t) cl /\ cl ≡ₚ chain <$> (l'.*1 ++ R)) ->
  alloc_ok a' -> a_next a <= a_next a' -> (forall q, q ∈ l'.*1 -> q < a_next a') ->
  table_rep a' d' (Linkhash (bucket_count t) oc (hlist_head t) (<[i := b']> (bucket t))) (<[i := l']> ab).
Proof.
  intros T El P P' Other B F N D (cl & Rg & Rp) Ha Hle Hl'. destruct T as [T1 T2 T3 T4 T5 T6 T7 T8 T9].
  split; cbn [bucket_count hlist_head bucket]; rewrite ?length_insert; try done; try lia.
  - apply Forall2_same_length_lookup_2; [by rewrite !length_insert; eapply Forall2_length|].
    intros j b k Ej Ek. destruct (decide (j = i)) as [->|Nj].
    + pose proof (lookup_lt_Some _ _ _ El). pose proof (Forall2_length _ _ _ T3).
      rewrite list_lookup_insert_eq in Ej by lia. rewrite list_lookup_insert_eq in Ek by lia.
      by simplify_eq.
    + rewrite list_lookup_insert_ne in Ej by done. rewrite list_lookup_insert_ne in Ek by done.
      destruct (Forall2_lookup_lr _ _ _ _ _ _ T3 Ej Ek) as [C Cr]. split; [|done].
      apply (hchain_frame (nodes d)); [|done]. intros q Hq. apply F. by apply (Other j k).
  - by rewrite P'.
  - rewrite D. apply set_eq. intros x. rewrite !elem_of_list_to_set. by rewrite P'.
  - exists cl. split; [done|]. by rewrite Rp, P'.
  - intros q. rewrite P'. intros [Hq|Hq]%elem_of_app; [by apply Hl'|].
    assert (q < a_next a); [|lia]. apply T8. rewrite P. set_solver.
Qed.

(** ** Each operation implements its specification *)

Lemma hash_get_rep a d t bs nm len s pos :
  rep a d t bs -> denotes nm len s ->
  userfs_dentry_hash_get d (Some t) nm len pos =
    Some (match spec_lookup bs s with Some e => (e_val e, e_pos e) | None => (UINT32_MAX, pos) end).
Proof.
  intros (ab & T & ->) D. destruct (table_bucket _ _ _ _ _ _ _ T D) as (i & b & l & E & S & Eb & El & [C _] & L).
  unfold userfs_dentry_hash_get. rewrite E. cbn [mbind option_bind]. rewrite Eb. cbn [mbind option_bind].
  rewrite (hash_get_loop_chain _ _ _ _ _ s l) by done. rewrite S in El.
  by rewrite (spec_lookup_entries _ _ _ El).
Qed.

Lemma hash_find_rep a d t ab nm len s :
  table_rep a d t ab -> denotes nm len s ->
  exists i b l, Z.to_nat i = slot (Z.of_nat (length ab)) s /\
    bucket t !! Z.to_nat i = Some b /\ ab !! Z.to_nat i = Some l /\ bucket_rep (nodes d) b l /\
    hash_find d t nm len = Some (find_addr s l).
Proof.
  intros T D. destruct (table_bucket _ _ _ _ _ _ _ T D) as (i & b & l & E & S & Eb & El & R & L).
  exists i, b, l. repeat split; try done; try apply R. destruct R as [C _].
  unfold hash_find. rewrite E. cbn [mbind option_bind]. rewrite Eb. cbn [mbind option_bind].
  destruct (Z.eqb_spec (bucket_start b) NULL) as [N|]; cbn [negb].
  - destruct l as [|[q e] l]; [done|]. destruct C as (C & ? & _). congruence.
  - by apply check_if_exists_chain.
Qed.

Lemma NoDup_addrs_bucket (l1 : list (Z * entry)) q e l2 R :
  NoDup ((l1 ++ (q, e) :: l2).*1 ++ R) ->
  (q ∉ l1.*1) /\ (q ∉ l2.*1) /\ (q ∉ R) /\ NoDup ((l1 ++ l2).*1 ++ R).
Proof.
  rewrite !fmap_app, fmap_cons. cbn [fst]. rewrite <- app_assoc. cbn [app]. intros N.
  assert (P : l1.*1 ++ q :: l2.*1 ++ R ≡ₚ q :: (l1.*1 ++ l2.*1) ++ R) by solve_Permutation.
  rewrite P in N. apply NoDup_cons in N as [N1 N2]. set_solver.
Qed.

Lemma table_eta t i b :
  bucket t !! i = Some b ->
  t = Linkhash (bucket_count t) (obj_count t) (hlist_head t) (<[i := b]> (bucket t)).
Proof. intros E. rewrite list_insert_id by done. by destruct t. Qed.

(** Changing the value or the position of the entry found. *)
Lemma node_change_rep a d t ab nm len s (f : entry -> entry) :
  table_rep a d t ab -> denotes nm len s -> (forall e, e_name (f e) = e_name e) ->
  match spec_lookup (entries ab) s with
  | None => hash_find d t nm len = Some NULL
  | Some e => exists p n, hash_find d t nm len = Some p /\ p <> NULL /\ nodes d !! p = Some n /\
      name n = pad (e_name e) /\ dentry_pos n = e_pos e /\ val n = e_val e /\
      rep a (Dstore (<[p := Hlist (hlist n) (name n) (e_pos (f e)) (e_val (f e))]> (nodes d)) (chains d)) t
        (spec_change (entries ab) s (Some ∘ f))
  end.
Proof.
  intros T D Hf. destruct (hash_find_rep _ _ _ _ _ _ _ T D) as (i & b & l & S & Eb & El & [C Cr] & E).
  pose proof El as El'. rewrite S in El'. rewrite (spec_lookup_entries _ _ _ El'), E.
  pose proof (find_split s l) as Sp. destruct (find_entry s l.*2) as [e|]; [|by rewrite Sp].
  destruct Sp as (l1 & q & l2 & -> & -> & _ & _ & CF).
  destruct (hchain_split _ _ _ _ _ _ C) as (N & V & nx & En & C2).
  eexists q, _. split; [done|]. split; [done|]. split; [done|]. cbn [name dentry_pos val hlist].
  repeat (split; [done|]). exists (<[Z.to_nat i := l1 ++ (q, f e) :: l2]> ab). split.
  - destruct (addrs_insert ab _ _ El) as (R & P & P' & Other).
    pose proof (tr_nodup _ _ _ _ T) as ND. rewrite P in ND.
    destruct (NoDup_addrs_bucket _ _ _ _ _ ND) as (N1 & N2 & N3 & _).
    assert (Ef : (l1 ++ (q, f e) :: l2).*1 = (l1 ++ (q, e) :: l2).*1) by (by rewrite !fmap_app).
    rewrite (table_eta t _ b Eb).
    apply (table_rebucket a a d _ t ab _ b (l1 ++ (q, e) :: l2) _ R (obj_count t)); rewrite ?Ef;
      [done|done|done|done|done| | |done| | |apply (tr_alloc _ _ _ _ T)|done|].
    + split; [|by rewrite Cr, !length_app]. cbn [nodes].
      pose proof (hchain_retail (nodes d) _ l1 q e (f e) l2 l2 nx C N1 N2) as X. rewrite (Hf e) in X. by apply X.
    + intros x Hx. cbn [nodes]. rewrite lookup_insert_ne; [done|]. by intros ->.
    + cbn [nodes]. rewrite dom_insert_lookup_L, (tr_dom _ _ _ _ T) by eauto. by apply list_to_set_perm_L.
    + destruct (tr_ring _ _ _ _ T) as (cl & Rg & Rp). exists cl. split; [done|]. by rewrite Rp, P.
    + intros x Hx. apply (tr_fresh _ _ _ _ T). rewrite P. apply elem_of_app. by left.
  - unfold spec_change. rewrite length_entries, <- S.
    rewrite (alter_insert_lookup _ _ _ _ (entries_lookup _ _ _ El)), CF. unfold entries.
    rewrite list_fmap_insert. by rewrite !fmap_app.
Qed.

Lemma new_node_spec nm len s type addr pos :
  denotes nm len s -> new_node nm len type addr pos =
    Some (Hlist NULL (pad s) pos (USERFS_INODEADDRINFO_CAL type addr)).
Proof.
  intros ((L & V) & [r ->] & ->). unfold new_node. rewrite length_app. zdec.
  rewrite Nat2Z.id, take_app_length. unfold pad. do 4 f_equal. lia.
Qed.

Lemma insert_table_rep a a' d t ab i b l s pos v new :
  table_rep a d t ab -> bucket t !! i = Some b -> ab !! i = Some l ->
  bucket_rep (nodes d) b l -> valid_name s -> alloc_ok a' ->
  0 < new -> a_next a <= new -> new + sizeof_hlist < a_next a' ->
  exists cs, list_add (<[chain new := LCell 0 0]> (chains d)) (chain new) (hlist_head t) = Some cs /\
    table_rep a' (Dstore (<[new := Hlist (bucket_start b) (pad s) pos v]> (nodes d)) cs)
      (Linkhash (bucket_count t) (atomic_add (obj_count t) 1) (hlist_head t)
         (<[i := Bucket (atomic_add (refcount b) 1) new]> (bucket t)))
      (<[i := (new, Entry s pos v) :: l]> ab).
Proof.
  intros T Eb El [C Cr] V Ha' H0 Ha Hs. unfold sizeof_hlist in Hs.
  destruct (tr_ring _ _ _ _ T) as (cl & Rg & Rp).
  destruct (addrs_insert ab _ _ El) as (R & P & P' & Other).
  pose proof (tr_nodup _ _ _ _ T) as ND. rewrite P in ND.
  assert (Fr : forall q, q ∈ l.*1 ++ R -> q < new).
  { intros q Hq. rewrite <- P in Hq. apply (tr_fresh _ _ _ _ T) in Hq. lia. }
  assert (Hnew : chain new ∉ hlist_head t :: cl).
  { rewrite not_elem_of_cons, Rp, P. pose proof (tr_head _ _ _ _ T). unfold chain. split; [lia|].
    intros (q & E & Hq)%list_elem_of_fmap. apply Fr in Hq. unfold chain in E. lia. }
  destruct (list_add_ring (<[chain new := LCell 0 0]> (chains d)) (hlist_head t) cl (chain new))
    as (cs & E & Rg' & _).
  { destruct Rg as [N S]. split; [done|]. apply (seg_frame (chains d)); [| |done]; intros y Hy;
      unfold get_next, get_prev; rewrite lookup_insert_ne; try done; intros <-; apply Hnew; [done|].
    apply elem_of_app in Hy as [Hy|Hy]; [by right|]. apply list_elem_of_singleton in Hy. rewrite Hy. by left. }
  { exists (LCell 0 0). apply lookup_insert_eq. }
  { done. }
  exists cs. split; [done|].
  assert (Nn : new ∉ l.*1 ++ R) by (intros Hq; apply Fr in Hq; lia).
  apply (table_rebucket a a' d _ t ab i _ l _ R); [done|done|done|done|done| | | | | |done|lia|];
    cbn [nodes chains]; rewrite ?fmap_cons; cbn [fst app].
  - split; cbn [bucket_start refcount hchain].
    + split; [done|]. split; [unfold NULL; lia|]. split; [done|]. eexists. rewrite lookup_insert_eq.
      split; [done|]. apply (hchain_frame (nodes d)); [|done]. intros q Hq. rewrite lookup_insert_ne; [done|].
      intros <-. apply Nn, elem_of_app. by left.
    + unfold atomic_add. rewrite Cr, i32_add_l. f_equal. simpl length. lia.
  - intros q Hq. rewrite lookup_insert_ne; [done|]. intros <-. apply Nn, elem_of_app. by right.
  - by apply NoDup_cons.
  - rewrite dom_insert_L, (tr_dom _ _ _ _ T), list_to_set_cons. f_equal. by apply list_to_set_perm_L.
  - exists (chain new :: cl). split; [done|]. rewrite fmap_cons. by rewrite Rp, P.
  - intros q [->|Hq]%elem_of_cons; [lia|].
    assert (q < new); [apply Fr, elem_of_app; by left|lia].
Qed.

(** An insertion asks for the memory of one node, also when it is refused. *)
Lemma hash_insert_alloc a d t nm len type addr pos p a' d' t' :
  userfs_dentry_hash_insert a d t nm len type addr pos = Some (p, a', d', t') -> a' = snd (malloc a sizeof_hlist).
Proof.
  unfold userfs_dentry_hash_insert. intros E. apply bind_Some in E as (i & _ & E). apply bind_Some in E as (b & _ & E).
  destruct (malloc a sizeof_hlist) as [new a1]. destruct (new =? NULL); [by injection E|].
  apply bind_Some in E as (nd & _ & E). apply bind_Some in E as (c & _ & E). destruct (negb (c =? NULL)); [by injection E|].
  apply bind_Some in E as (cs & _ & E). by injection E.
Qed.

Lemma hash_insert_rep a d t bs nm len s type addr pos :
  rep a d t bs -> denotes nm len s ->
  let v := USERFS_INODEADDRINFO_CAL type addr in
  exists p a' d' t', userfs_dentry_hash_insert a d t nm len type addr pos = Some (p, a', d', t') /\
    alloc_ok a' /\ a_next a <= a_next a' /\
    (p = NULL /\ d' = d /\ t' = t /\
       (fst (malloc a sizeof_hlist) = NULL \/ spec_lookup bs s <> None) \/
     p = a_next a /\ p <> NULL /\ spec_lookup bs s = None /\ rep a' d' t' (spec_insert bs (Entry s pos v))).
Proof.
  intros (ab & T & ->) D v. destruct (table_bucket _ _ _ _ _ _ _ T D) as (i & b & l & E & S & Eb & El & R & L).
  unfold userfs_dentry_hash_insert. rewrite E. cbn [mbind option_bind]. rewrite Eb. cbn [mbind option_bind].
  pose proof (malloc_cases a sizeof_hlist (tr_alloc _ _ _ _ T) ltac:(done)) as M.
  destruct (malloc a sizeof_hlist) as [p a']. destruct M as (Ha' & Hle & M). cbn [fst].
  destruct (Z.eqb_spec p NULL) as [->|Np].
  { do 4 eexists. split; [done|]. repeat (split; [done|]). left. auto. }
  destruct M as [->|(-> & Hp & Hs)]; [done|].
  rewrite (new_node_spec _ _ s) by done. cbn [mbind option_bind].
  rewrite (check_if_exists_chain _ _ _ _ _ s l) by (apply R || done). cbn [mbind option_bind].
  pose proof El as El'. rewrite S in El'. rewrite (spec_lookup_entries _ _ _ El').
  pose proof (find_split s l) as Sp. destruct (find_entry s l.*2) as [e|] eqn:F.
  - destruct Sp as (l1 & q & l2 & -> & -> & _ & _ & _).
    destruct (hchain_split _ _ _ _ _ _ (proj1 R)) as (Nq & _). zdec.
    do 4 eexists. split; [done|]. repeat (split; [done|]). left. auto.
  - rewrite Sp. cbn [Z.eqb NULL negb name dentry_pos val].
    destruct (insert_table_rep a a' d t ab (Z.to_nat i) b l s pos v (a_next a)) as (cs & Ec & T'); try done; try lia.
    { apply D. }
    rewrite Ec. cbn [mbind option_bind]. do 4 eexists. split; [done|]. split; [done|]. split; [done|].
    right. split; [done|]. split; [done|]. split; [done|]. eexists. split; [exact T'|].
    unfold spec_insert. cbn [e_name]. rewrite length_entries, <- S.
    rewrite (alter_insert_lookup _ _ _ _ (entries_lookup _ _ _ El)). unfold entries.
    by rewrite list_fmap_insert.
Qed.

(** Taking a node out of its chain. *)
Lemma chain_unlink ns b l1 q e l2 n :
  hchain ns (bucket_start b) (l1 ++ (q, e) :: l2) -> NoDup (l1 ++ (q, e) :: l2).*1 -> ns !! q = Some n ->
  exists ns' start,
    (if List.last l1.*1 NULL =? NULL then Some (ns, hlist n)
     else p ← ns !! List.last l1.*1 NULL;
          Some (<[List.last l1.*1 NULL := Hlist (hlist n) (name p) (dentry_pos p) (val p)]> ns, bucket_start b))
      = Some (ns', start) /\
    dom ns' = dom ns /\ (forall x, x ∉ (l1 ++ (q, e) :: l2).*1 -> ns' !! x = ns !! x) /\
    hchain (delete q ns') start (l1 ++ l2).
Proof.
  intros C N En. destruct (hchain_split _ _ _ _ _ _ C) as (Nq & V & nx & E & C2). simplify_eq. cbn [hlist].
  rewrite <- (app_nil_r (_.*1)) in N. destruct (NoDup_addrs_bucket _ _ _ _ _ N) as (N1 & N2 & _ & N3).
  assert (D : forall ns' st, hchain ns' st (l1 ++ l2) -> hchain (delete q ns') st (l1 ++ l2)).
  { intros ns' st H. apply (hchain_frame ns'); [|done]. intros x Hx. rewrite lookup_delete_ne; [done|].
    intros <-. rewrite fmap_app in Hx. apply elem_of_app in Hx as [?|?]; done. }
  destruct l1 as [|[r e0] l1 _] using rev_ind.
  - cbn. eexists _, _. split; [done|]. split; [done|]. split; [done|]. by apply D.
  - rewrite fmap_app. cbn [fmap list_fmap fst]. rewrite last_last.
    rewrite <- app_assoc in C, N3 |- *. cbn [app] in C, N3 |- *. rewrite <- app_assoc. cbn [app].
    destruct (hchain_split _ _ _ _ _ _ C) as (Nr & Vr & nxr & Er & _). zdec. rewrite Er.
    cbn [mbind option_bind name dentry_pos val].
    destruct (NoDup_addrs_bucket _ _ _ _ _ N3) as (M1 & M2 & _ & _).
    eexists _, _. split; [done|]. split; [apply dom_insert_lookup_L; eauto|]. split.
    + intros x Hx. rewrite lookup_insert_ne; [done|]. intros <-. apply Hx. rewrite fmap_app, fmap_cons.
      apply elem_of_app. right. by left.
    + specialize (D (<[r := Hlist nx (pad (e_name e0)) (e_pos e0) (e_val e0)]> ns) (bucket_start b)).
      rewrite <- app_assoc in D. cbn [app] in D. apply D. by eapply hchain_retail.
Qed.

(** Taking a list cell out of the table's list and freeing it. *)
Lemma ring_free cs h cl x l :
  ring cs h cl -> cl ≡ₚ x :: l ->
  exists cs', list_del_init cs x = Some cs' /\ exists cl', ring (delete x cs') h cl' /\ cl' ≡ₚ l.
Proof.
  intros R P. assert (x ∈ cl) as (c1 & c2 & ->)%list_elem_of_split by (rewrite P; by left).
  destruct (list_del_init_ring cs h c1 x c2 R) as (cs' & E & R' & _ & _).
  exists cs'. split; [done|]. exists (c1 ++ c2). split.
  - assert (Nx : x ∉ h :: c1 ++ c2).
    { destruct R as [N _]. assert (Q : h :: c1 ++ x :: c2 ≡ₚ x :: h :: c1 ++ c2) by solve_Permutation.
      rewrite Q in N. by apply NoDup_cons in N as [? _]. }
    destruct R' as [N' S']. split; [done|]. apply (seg_frame cs'); [| |done]; intros y Hy;
      unfold get_next, get_prev; rewrite lookup_delete_ne; try done; intros <-; apply Nx; [done|].
    apply elem_of_app in Hy as [Hy|Hy]; [by right|]. apply list_elem_of_singleton in Hy. rewrite Hy. by left.
  - apply (Permutation_cons_inv (a := x)). rewrite <- P. solve_Permutation.
Qed.

Lemma unlink_table_rep a d t ab bid b l1 q e l2 n :
  table_rep a d t ab -> bucket t !! Z.to_nat bid = Some b ->
  ab !! Z.to_nat bid = Some (l1 ++ (q, e) :: l2) -> nodes d !! q = Some n ->
  exists d' t', hash_unlink d t bid b (List.last l1.*1 NULL) q n = Some (d', t') /\
    table_rep a d' t' (<[Z.to_nat bid := l1 ++ l2]> ab).
Proof.
  intros T Eb El En.
  destruct (Forall2_lookup_lr _ _ _ _ _ _ (tr_chains _ _ _ _ T) Eb El) as [C Cr].
  destruct (addrs_insert ab _ _ El) as (R & P & P' & Other).
  pose proof (tr_nodup _ _ _ _ T) as ND. rewrite P in ND.
  pose proof (proj1 (proj1 (NoDup_app _ _) ND)) as ND1.
  destruct (NoDup_addrs_bucket _ _ _ _ _ ND) as (N1 & N2 & N3 & N4).
  assert (Q : (l1 ++ (q, e) :: l2).*1 ++ R ≡ₚ q :: (l1 ++ l2).*1 ++ R)
    by (rewrite !fmap_app, fmap_cons; cbn [fst]; solve_Permutation).
  destruct (tr_ring _ _ _ _ T) as (cl & Rg & Rp). rewrite P, Q, fmap_cons in Rp.
  destruct (ring_free _ _ _ _ _ Rg Rp) as (cs & Ec & cl' & Rg' & Rp').
  destruct (chain_unlink (nodes d) b l1 q e l2 n C ND1 En) as (ns' & start & E & Dm & F & C').
  unfold hash_unlink. rewrite Ec. cbn [mbind option_bind]. rewrite E. cbn [mbind option_bind].
  do 2 eexists. split; [done|]. unfold free_node. cbn [nodes chains].
  apply (table_rebucket a a d _ t ab _ _ (l1 ++ (q, e) :: l2) _ R);
    [done|done|done|done|done| | |done| | |apply (tr_alloc _ _ _ _ T)|done|]; cbn [nodes chains].
  - split; [done|]. cbn [refcount]. unfold atomic_sub. rewrite Cr, !length_app.
    replace (i32 _ - 1) with (i32 (Z.of_nat (length l1 + length ((q, e) :: l2))) + -1) by lia.
    rewrite i32_add_l. f_equal. simpl length. lia.
  - intros x Hx. rewrite lookup_delete_ne by (by intros <-). apply F. intros Hx'.
    apply NoDup_app in ND as (_ & ND & _). by apply (ND x).
  - rewrite dom_delete_L, Dm, (tr_dom _ _ _ _ T). rewrite (list_to_set_perm_L _ _ (P)), (list_to_set_perm_L _ _ Q).
    rewrite list_to_set_cons.
    assert (q ∉ (l1 ++ l2).*1 ++ R) by (rewrite fmap_app; set_solver).
    apply set_eq. intros x. rewrite elem_of_difference, elem_of_union, elem_of_singleton, !elem_of_list_to_set.
    split; [tauto|]. intros Hx. split; [by right|]. by intros ->.
  - eauto.
  - intros x Hx. apply (tr_fresh _ _ _ _ T). rewrite P, Q. right. apply elem_of_app. by left.
Qed.

Lemma hash_remove_rep a d t bs nm len s pos :
  rep a d t bs -> denotes nm len s ->
  match spec_lookup bs s with
  | None => userfs_dentry_hash_remove d t nm len pos = Some (UINT32_MAX, pos, d, t)
  | Some e => exists d' t', userfs_dentry_hash_remove d t nm len pos = Some (e_val e, e_pos e, d', t') /\
      rep a d' t' (spec_change bs s (fun _ => None))
  end.
Proof.
  intros (ab & T & ->) D. destruct (table_bucket _ _ _ _ _ _ _ T D) as (i & b & l & E & S & Eb & El & R & L).
  unfold userfs_dentry_hash_remove. rewrite E. cbn [mbind option_bind]. rewrite Eb. cbn [mbind option_bind].
  pose proof (hash_remove_loop_chain _ _ t i b NULL _ _ _ s l pos D (proj1 R) L) as H.
  pose proof El as El'. rewrite S in El'. rewrite (spec_lookup_entries _ _ _ El').
  destruct (find_entry s l.*2) as [e|]; [|done].
  destruct H as (l1 & q & l2 & n & -> & En & CF & ->).
  destruct (unlink_table_rep a d t ab i b l1 q e l2 n T Eb El En) as (d' & t' & -> & T').
  cbn [mbind option_bind]. do 2 eexists. split; [done|]. eexists. split; [exact T'|].
  unfold spec_change. rewrite length_entries, <- S.
  rewrite (alter_insert_lookup _ _ _ _ (entries_lookup _ _ _ El)), CF. unfold entries.
  rewrite list_fmap_insert. by rewrite !fmap_app.
Qed.

(** ** Creation and destruction *)

Lemma hash_create_rep a cs n g :
  alloc_ok a -> 0 <= n ->
  let '(r, a', d') := userfs_dentry_hash_create a (Dstore ∅ cs) n g in
  match r with
  | None => d' = Dstore ∅ cs /\
      (n = 0 \/ LINKHASH_MAX_BUCKET_COUNT < n \/ fst (malloc a (sizeof_linkhash + sizeof_bucket * n)) = NULL)
  | Some t => 0 < n <= LINKHASH_MAX_BUCKET_COUNT /\ obj_count t = i32 g /\
      rep a' d' t (replicate (Z.to_nat n) [])
  end.
Proof.
  intros Ha Hn. unfold userfs_dentry_hash_create. destruct (Z.eqb_spec n 0); cbn [orb]; [auto|].
  destruct (Z.ltb_spec LINKHASH_MAX_BUCKET_COUNT n); [auto|].
  assert (0 <= sizeof_linkhash + sizeof_bucket * n) as Hz by (unfold sizeof_linkhash, sizeof_bucket; lia).
  pose proof (malloc_cases a _ Ha Hz) as M.
  destruct (malloc a (sizeof_linkhash + sizeof_bucket * n)) as [p a']. cbn [fst].
  destruct M as (Ha' & Hle & M). destruct (Z.eqb_spec p NULL) as [->|Np]; [auto|].
  destruct M as [?|(-> & Hp & Hs)]; [done|].
  cbn [linkhash_init]. split; [lia|]. split; [unfold atomic_store; simpl; f_equal; lia|].
  exists (replicate (Z.to_nat n) []). split; [|by unfold entries; rewrite fmap_replicate].
  assert (addrs (replicate (Z.to_nat n) []) = []) as E0.
  { unfold addrs. induction (Z.to_nat n) as [|k IH]; [done|]. cbn. apply IH. }
  split; cbn [bucket_count bucket hlist_head nodes chains]; rewrite ?E0, ?length_replicate; try done; try lia.
  - rewrite fmap_replicate. apply Forall2_replicate. by split.
  - apply NoDup_nil_2.
  - exists []. split; [|done]. split; [apply NoDup_singleton|]. unfold seg, link, get_next, get_prev, INIT_LIST_HEAD.
    by rewrite lookup_insert_eq.
  - intros q Hq. by apply elem_of_nil in Hq.
  - unfold sizeof_linkhash, sizeof_bucket in Hs. lia.
Qed.

Lemma hash_destroy_loop_empty fuel d h cl L :
  ring (chains d) h cl -> cl ≡ₚ chain <$> L -> NoDup L -> dom (nodes d) = list_to_set L ->
  (length L < fuel)%nat ->
  exists d', hash_destroy_loop fuel d h = Some d' /\ nodes d' = ∅ /\ ring (chains d') h [].
Proof.
  revert d cl L. induction fuel as [|fuel IH]; intros d cl L R P N D Hf; [lia|].
  cbn [hash_destroy_loop]. destruct (ring_head _ _ _ R) as [-> _]. cbn [mbind option_bind].
  destruct cl as [|c cl]; cbn [hd].
  - rewrite Z.eqb_refl. exists d. split; [done|]. split; [|done].
    apply Permutation_nil_l in P. destruct L; [|done]. apply dom_empty_inv_L. by rewrite D.
  - assert (c <> h).
    { destruct R as [NR _]. apply NoDup_cons in NR as [NR _]. intros ->. apply NR. by left. }
    zdec. assert (c ∈ chain <$> L) as (p & -> & Hp)%list_elem_of_fmap by (rewrite <- P; by left).
    replace (node_of_chain (chain p)) with p by (unfold node_of_chain, chain; lia).
    assert (p ∈ dom (nodes d)) as [n ->]%elem_of_dom by (rewrite D; by apply elem_of_list_to_set).
    cbn [mbind option_bind]. apply list_elem_of_split in Hp as (L1 & L2 & ->).
    assert (Q : L1 ++ p :: L2 ≡ₚ p :: L1 ++ L2) by solve_Permutation. rewrite Q, fmap_cons in P.
    destruct (ring_free _ _ _ _ _ R P) as (cs & -> & cl' & R' & P'). cbn [mbind option_bind].
    rewrite Q in N. apply NoDup_cons in N as [Np N].
    apply (IH _ cl' (L1 ++ L2)); unfold free_node; cbn [nodes chains]; try done.
    + rewrite dom_delete_L, D, (list_to_set_perm_L _ _ Q), list_to_set_cons.
      apply set_eq. intros x. rewrite elem_of_difference, elem_of_union, elem_of_singleton, !elem_of_list_to_set.
      split; [tauto|]. intros Hx. split; [by right|]. by intros ->.
    + rewrite length_app in *. simpl in Hf. lia.
Qed.

Lemma hash_destroy_rep a d t bs :
  rep a d t bs -> exists d', userfs_dentry_hash_destroy d (Some t) = Some d' /\ nodes d' = ∅ /\
    chains d' !! hlist_head t = None.
Proof.
  intros (ab & T & ->). destruct (tr_ring _ _ _ _ T) as (cl & R & P). unfold userfs_dentry_hash_destroy.
  destruct (hash_destroy_loop_empty (S (size (nodes d))) d (hlist_head t) cl (addrs ab)) as (d' & -> & E & _);
    try done; try apply T.
  - rewrite <- (size_dom (D := gset Z)), (tr_dom _ _ _ _ T), size_list_to_set by apply T. lia.
  - cbn. eexists. split; [done|]. split; [done|]. cbn. apply lookup_delete_eq.
Qed.

Lemma spec_change_none bs s f : spec_lookup bs s = None -> spec_change bs s f = bs.
Proof.
  unfold spec_lookup, spec_change. destruct (bs !! slot _ s) as [l|] eqn:E; cbn [mbind option_bind].
  - intros F. rewrite (alter_insert_lookup _ _ _ _ E). apply list_insert_id. rewrite E. f_equal. clear E.
    induction l as [|e l IH]; [done|]. rewrite find_entry_cons in F. cbn.
    destruct (matches s e); [done|]. f_equal. by apply IH.
  - intros _. by apply alter_lookup_None.
Qed.

Lemma hash_update_rep a d t bs nm len s type addr :
  rep a d t bs -> denotes nm len s ->
  exists p d', userfs_dentry_hash_update d t nm len type addr = Some (p, d') /\
    (p = NULL <-> spec_lookup bs s = None) /\
    rep a d' t (spec_change bs s (fun e => Some (Entry (e_name e) (e_pos e) (USERFS_INODEADDRINFO_CAL type addr)))).
Proof.
  intros (ab & T & ->) D. unfold userfs_dentry_hash_update.
  pose proof (node_change_rep a d t ab nm len s
    (fun e => Entry (e_name e) (e_pos e) (USERFS_INODEADDRINFO_CAL type addr)) T D ltac:(done)) as H.
  destruct (spec_lookup (entries ab) s) as [e|] eqn:L.
  - destruct H as (p & n & -> & Np & En & Hn & Hp & Hv & R). cbn [mbind option_bind]. zdec. rewrite En.
    cbn [mbind option_bind]. rewrite Hp. do 2 eexists. split; [done|]. by split.
  - rewrite H. cbn. do 2 eexists. split; [done|]. split; [done|]. rewrite spec_change_none by done. by exists ab.
Qed.

Lemma hash_update_pos_rep a d t bs nm len s pos :
  rep a d t bs -> denotes nm len s ->
  exists p d', userfs_dentry_hash_update_dentrypos d t nm len pos = Some (p, d') /\
    (p = NULL <-> spec_lookup bs s = None) /\
    rep a d' t (spec_change bs s (fun e => Some (Entry (e_name e) pos (e_val e)))).
Proof.
  intros (ab & T & ->) D. unfold userfs_dentry_hash_update_dentrypos.
  pose proof (node_change_rep a d t ab nm len s (fun e => Entry (e_name e) pos (e_val e)) T D ltac:(done)) as H.
  destruct (spec_lookup (entries ab) s) as [e|] eqn:L.
  - destruct H as (p & n & -> & Np & En & Hn & Hp & Hv & R). cbn [mbind option_bind]. zdec. rewrite En.
    cbn [mbind option_bind]. rewrite Hv. do 2 eexists. split; [done|]. by split.
  - rewrite H. cbn. do 2 eexists. split; [done|]. split; [done|]. rewrite spec_change_none by done. by exists ab.
Qed.

(** ** Theorems *)

(** C8: On a table that holds the entries [bs] every operation does what its
    specification says: get and the two updates act on the first entry of the
    bucket that the name is a prefix of; remove drops it; insert adds an entry in
    front unless such an entry exists or there is no memory; no operation fails to
    return, and the new state holds the new entries. *)
Theorem dentry_hash_refinement a d t bs nm len s :
  rep a d t bs -> denotes nm len s ->
  (forall pos, userfs_dentry_hash_get d (Some t) nm len pos =
     Some (match spec_lookup bs s with Some e => (e_val e, e_pos e) | None => (UINT32_MAX, pos) end)) /\
  (forall type addr pos, exists p a' d' t',
     userfs_dentry_hash_insert a d t nm len type addr pos = Some (p, a', d', t') /\
     (p = NULL /\ d' = d /\ t' = t /\
        (fst (malloc a sizeof_hlist) = NULL \/ spec_lookup bs s <> None) \/
      p <> NULL /\ spec_lookup bs s = None /\
        rep a' d' t' (spec_insert bs (Entry s pos (USERFS_INODEADDRINFO_CAL type addr))))) /\
  (forall type addr, exists p d', userfs_dentry_hash_update d t nm len type addr = Some (p, d') /\
     (p = NULL <-> spec_lookup bs s = None) /\
     rep a d' t (spec_change bs s (fun e => Some (Entry (e_name e) (e_pos e) (USERFS_INODEADDRINFO_CAL type addr))))) /\
  (forall pos, exists p d', userfs_dentry_hash_update_dentrypos d t nm len pos = Some (p, d') /\
     (p = NULL <-> spec_lookup bs s = None) /\
     rep a d' t (spec_change bs s (fun e => Some (Entry (e_name e) pos (e_val e))))) /\
  (forall pos, exists d' t', userfs_dentry_hash_remove d t nm len pos =
       Some (match spec_lookup bs s with Some e => (e_val e, e_pos e) | None => (UINT32_MAX, pos) end, d', t') /\
     rep a d' t' (spec_change bs s (fun _ => None))).
Proof.
  intros R D. split; [by intros; eapply hash_get_rep|]. split; [|split; [|split]].
  - intros type addr pos. destruct (hash_insert_rep a d t bs nm len s type addr pos R D)
      as (p & a' & d' & t' & E & _ & _ & H). exists p, a', d', t'. tauto.
  - intros type addr. by apply hash_update_rep.
  - intros pos. by apply hash_update_pos_rep.
  - intros pos. pose proof (hash_remove_rep a d t bs nm len s pos R D) as H.
    destruct (spec_lookup bs s) as [e|] eqn:L; [done|].
    exists d, t. split; [done|]. by rewrite spec_change_none.
Qed.

Lemma spec_lookup_insert bs e s :
  (0 < length bs)%nat ->
  spec_lookup (spec_insert bs e) s =
    if bool_decide (slot (Z.of_nat (length bs)) s = slot (Z.of_nat (length bs)) (e_name e)) && matches s e
    then Some e else spec_lookup bs s.
Proof.
  intros Hl. unfold spec_lookup, spec_insert. rewrite length_alter.
  destruct (decide (slot (Z.of_nat (length bs)) s = slot (Z.of_nat (length bs)) (e_name e))) as [Es|Es].
  - rewrite bool_decide_true by done. cbn [andb]. rewrite Es, list_lookup_alter_eq.
    pose proof (slot_lt (Z.of_nat (length bs)) (e_name e) ltac:(lia)) as L. rewrite Nat2Z.id in L.
    destruct (lookup_lt_is_Some_2 bs _ L) as [l ->]. cbn [fmap option_fmap option_map mbind option_bind].
    rewrite find_entry_cons. by destruct (matches s e).
  - rewrite bool_decide_false by done. by rewrite list_lookup_alter_ne by congruence.
Qed.

(** After a successful insert a lookup of the same name finds the new entry;
    a lookup of any other name gives what it gave before, unless that name is a
    prefix of the new one and falls into the same bucket. *)
Theorem dentry_hash_insert_get a d t bs nm len s type addr pos p a' d' t' nm' len' s' pos' :
  rep a d t bs -> denotes nm len s -> denotes nm' len' s' ->
  userfs_dentry_hash_insert a d t nm len type addr pos = Some (p, a', d', t') -> p <> NULL ->
  userfs_dentry_hash_get d' (Some t') nm len pos' =
    Some (USERFS_INODEADDRINFO_CAL type addr, pos) /\
  (slot (bucket_count t) s' <> slot (bucket_count t) s \/ ~ s' `prefix_of` s ->
   userfs_dentry_hash_get d' (Some t') nm' len' pos' = userfs_dentry_hash_get d (Some t) nm' len' pos').
Proof.
  intros R D D' E Np.
  destruct (hash_insert_rep a d t bs nm len s type addr pos R D) as (p1 & a1 & d1 & t1 & E1 & _ & _ & H).
  rewrite E in E1. simplify_eq. destruct H as [(-> & _)|(_ & _ & L & R')]; [done|].
  pose proof R as (ab & T & Ebs).
  assert (Hn : bucket_count t = Z.of_nat (length bs)).
  { rewrite (tr_count _ _ _ _ T), Ebs. by rewrite length_entries. }
  assert (Hl : (0 < length bs)%nat) by (pose proof (tr_bound _ _ _ _ T); lia).
  rewrite (hash_get_rep _ _ _ _ _ _ _ _ R' D), (hash_get_rep _ _ _ _ _ _ _ _ R' D'),
    (hash_get_rep _ _ _ _ _ _ _ _ R D'), !spec_lookup_insert by done. cbn [e_name].
  rewrite Hn. split.
  - rewrite bool_decide_true by done. unfold matches. cbn [e_name andb]. by rewrite bool_decide_true.
  - intros Hne. rewrite (proj2 (andb_false_iff _ _)); [done|]. cbn [e_name].
    destruct Hne as [Hne|Hne]; [left|right]; unfold matches; cbn [e_name]; by rewrite bool_decide_false.
Qed.

(** The names [log] and [logbm]. *)
Definition name_log : list Z := [108; 111; 103; 0].
Definition name_logbm : list Z := [108; 111; 103; 98; 109; 0].

(** A table of 128 buckets in which [log] (position 0, block 7) was inserted
    first and [logbm] (position 1, block 9) second. *)
Definition two_names : option (dstore * linkhash) :=
  let '(t, a, d) := userfs_dentry_hash_create (Alloc 4096 []) (Dstore ∅ ∅) 128 0 in
  t ← t;
  '(p, a, d, t) ← userfs_dentry_hash_insert a d t name_log 3 USERFS_NAME2INODE 7 0;
  '(q, a, d, t) ← userfs_dentry_hash_insert a d t name_logbm 5 USERFS_NAME2INODE 9 1;
  if (p =? NULL) || (q =? NULL) then None else Some (d, t).

(** The comparison by prefix confuses names: with the files [log] and [logbm]
    in the table, looking up [log] finds the block and the position of [logbm], and
    removing [log] removes [logbm]. *)
Theorem dentry_hash_prefix_confusion :
  exists d t, two_names = Some (d, t) /\
    userfs_dentry_hash_get d (Some t) name_log 3 99 = Some (9, 1) /\
    (exists d' t', userfs_dentry_hash_remove d t name_log 3 99 = Some (9, 1, d', t') /\
       userfs_dentry_hash_get d' (Some t') name_logbm 5 99 = Some (UINT32_MAX, 99)).
Proof.
  destruct two_names as [[d t]|] eqn:E; [|by vm_compute in E].
  vm_compute in E. injection E as <- <-. eexists _, _. split; [done|]. split; [by vm_compute|].
  eexists _, _. split; [by vm_compute|]. by vm_compute.
Qed.

(** The hash of every name is even, so that the buckets with an odd number
    are never used. *)
Theorem dentry_hash_even_slots n s : 0 < n -> Z.even (Z.of_nat (slot n s)) = true.
Proof.
  intros Hn. unfold slot. destruct (str2hash_loop _ _ _ _) as [h|]; [|done].
  pose proof (u32_range (Z.shiftl h 1)) as Hr.
  rewrite Z2Nat.id by (apply land_bounds; lia).
  rewrite <- Z.negb_odd, <- Z.bit0_odd, Z.land_spec. unfold u32. change 4294967296 with (2 ^ 32).
  by rewrite Z.mod_pow2_bits_low, Z.shiftl_spec_low by lia.
Qed.

(** userfs_dentry_hash_create rejects no buckets and more than 128; otherwise,
    if there is memory, the table is empty and lookups find nothing, but its counter
    keeps whatever the memory held; userfs_dentry_hash_destroy frees every node of
    any table and the table. *)
Theorem dentry_hash_create_destroy a n g :
  alloc_ok a -> 0 <= n ->
  (let '(r, a', d) := userfs_dentry_hash_create a (Dstore ∅ ∅) n g in
   match r with
   | None => n = 0 \/ 128 < n \/ fst (malloc a (sizeof_linkhash + sizeof_bucket * n)) = NULL
   | Some t => 0 < n <= 128 /\ obj_count t = i32 g /\ rep a' d t (replicate (Z.to_nat n) []) /\
       (forall nm len s pos, denotes nm len s ->
          userfs_dentry_hash_get d (Some t) nm len pos = Some (UINT32_MAX, pos))
   end) /\
  (forall d t bs, rep a d t bs -> exists d', userfs_dentry_hash_destroy d (Some t) = Some d' /\
     nodes d' = ∅ /\ chains d' !! hlist_head t = None).
Proof.
  intros Ha Hn. split; [|by apply hash_destroy_rep].
  pose proof (hash_create_rep a ∅ n g Ha Hn) as H.
  destruct (userfs_dentry_hash_create a (Dstore ∅ ∅) n g) as [[[t|] a'] d]; [|tauto].
  destruct H as (Hb & Hc & R). split; [done|]. split; [done|]. split; [done|].
  intros nm len s pos D. rewrite (hash_get_rep _ _ _ _ _ _ _ _ R D). unfold spec_lookup.
  by destruct (replicate (Z.to_nat n) [] !! _) as [l|] eqn:E; [apply lookup_replicate in E as [-> _]|].
Qed.

(** The tag and the address of a tagged inode address are what was put in,
    for an address below 2^63 and a one-bit tag. *)
Theorem inodeaddr_roundtrip type addr :
  0 <= addr < 2 ^ 63 -> type = USERFS_NAME2INODE \/ type = USERFS_NAME2INODEBUF ->
  USERFS_INODETYPE_GET (USERFS_INODEADDRINFO_CAL type addr) = type /\
  USERFS_INODEADDR_GET (USERFS_INODEADDRINFO_CAL type addr) = addr.
Proof. intros. by apply inodeaddr_tag. Qed.

(** Witnesses. *)

Lemma denotes_log : denotes name_log 3 [108; 111; 103].
Proof. split; [by apply (bool_decide_unpack _); vm_compute|]. split; [by exists [0]|done]. Qed.
Lemma denotes_logbm : denotes name_logbm 5 [108; 111; 103; 98; 109].
Proof. split; [by apply (bool_decide_unpack _); vm_compute|]. split; [by exists [0]|done]. Qed.

(** ** The debug interface *)

(** What [snprintf] writes for [testfile.<1234 %d>.txt], [i] below 100. *)
Definition debug_filename (i : Z) : list Z :=
  [116; 101; 115; 116; 102; 105; 108; 101; 46; 60; 49; 50; 51; 52; 32] ++
  (if i <? 10 then [48 + i] else [48 + i / 10; 48 + i mod 10]) ++ [62; 46; 116; 120; 116; 0].
Definition debug_strlen (nm : list Z) : Z := Z.of_nat (length nm) - 1.

(** Each name is inserted twice. *)
Fixpoint debug_insert_loop (n : nat) (i : Z) (a : alloc) (d : dstore) (t : linkhash)
    : option (list (bool * bool) * alloc * dstore * linkhash) :=
  match n with
  | O => Some ([], a, d, t)
  | S n =>
      let filename := debug_filename i in
      '(p, a, d, t) ← userfs_dentry_hash_insert a d t filename (debug_strlen filename) 1 i i;
      '(q, a, d, t) ← userfs_dentry_hash_insert a d t filename (debug_strlen filename) 1 i i;
      '(l, a, d, t) ← debug_insert_loop n (i + 1) a d t;
      Some ((negb (p =? NULL), negb (q =? NULL)) :: l, a, d, t)
  end.

Fixpoint debug_get_loop (n : nat) (i : Z) (d : dstore) (t : option linkhash) : option (list (Z * Z)) :=
  match n with
  | O => Some []
  | S n =>
      let filename := debug_filename i in
      r ← userfs_dentry_hash_get d t filename (debug_strlen filename) 0;
      l ← debug_get_loop n (i + 1) d t;
      Some (r :: l)
  end.

Fixpoint debug_update_loop (n : nat) (i : Z) (d : dstore) (t : linkhash) : option dstore :=
  match n with
  | O => Some d
  | S n =>
      let filename := debug_filename i in
      '(_, d) ← userfs_dentry_hash_update d t filename (debug_strlen filename) 0 (i + 32);
      debug_update_loop n (i + 1) d t
  end.

(** What the insertions and the lookups return, and the store at the end.  A table that
    cannot be created is not noticed. *)
Definition userfs_dentry_hash_debug_intf (a : alloc) (d : dstore) (garbage_count : Z)
    : option (list (bool * bool) * list (Z * Z) * dstore) :=
  let filecount := 32%nat in
  let '(table, a, d) := userfs_dentry_hash_create a d LINKHASH_MAX_BUCKET_COUNT garbage_count in
  t ← table;
  '(ins, a, d, t) ← debug_insert_loop filecount 0 a d t;
  gets ← debug_get_loop filecount 0 d (Some t);
  d ← debug_update_loop filecount 0 d t;
  d ← userfs_dentry_hash_destroy d (Some t);
  Some (ins, gets, d).

(** The second insertion of a name is refused, every name is found with the address and
    the position it was inserted with, and nothing is left after the destruction. *)
Lemma debug_intf_run :
  userfs_dentry_hash_debug_intf (Alloc 4096 []) (Dstore ∅ ∅) 0 =
    Some (replicate 32 (true, false), (fun i => (USERFS_INODEADDRINFO_CAL 1 i, i)) <$> seqZ 0 32, Dstore ∅ ∅).
Proof. vm_compute. reflexivity. Qed.

(** The empty table of 128 buckets at address 4096. *)
Definition demo_table : linkhash := Linkhash 128 0 4112 (replicate 128 (Bucket 0 0)).
Definition demo_store : dstore := Dstore ∅ {[ 4112 := LCell 4112 4112 ]}.
Definition demo_alloc : alloc := Alloc (4096 + 2096) [].

Lemma demo_rep : rep demo_alloc demo_store demo_table (replicate 128 []).
Proof.
  pose proof (hash_create_rep (Alloc 4096 []) ∅ 128 0 ltac:(done) ltac:(done)) as H.
  vm_compute in H. exact (proj2 (proj2 H)).
Qed.

Lemma dentry_hash_refinement_witness :
  userfs_dentry_hash_get demo_store (Some demo_table) name_log 3 99 = Some (UINT32_MAX, 99) /\
  exists p a' d' t',
    userfs_dentry_hash_insert demo_alloc demo_store demo_table name_log 3 0 7 0 = Some (p, a', d', t').
Proof.
  destruct (dentry_hash_refinement _ _ _ _ _ _ _ demo_rep denotes_log) as (G & I & _). split.
  - rewrite G. by vm_compute.
  - destruct (I 0 7 0) as (p & a' & d' & t' & E & _). eauto.
Defined.

Lemma dentry_hash_insert_get_witness :
  exists p a' d' t',
    userfs_dentry_hash_insert demo_alloc demo_store demo_table name_logbm 5 0 7 3 = Some (p, a', d', t') /\
    userfs_dentry_hash_get d' (Some t') name_logbm 5 99 = Some (7, 3).
Proof.
  destruct (userfs_dentry_hash_insert demo_alloc demo_store demo_table name_logbm 5 0 7 3)
    as [[[[p a'] d'] t']|] eqn:E; [|by vm_compute in E].
  exists p, a', d', t'. split; [done|].
  apply (dentry_hash_insert_get _ _ _ _ _ _ _ _ _ _ _ _ _ _ name_log 3 [108; 111; 103] 99
    demo_rep denotes_logbm denotes_log E).
  vm_compute in E. by injection E as <- _ _ _.
Defined.

Lemma dentry_hash_even_slots_witness : Z.even (Z.of_nat (slot 128 [108; 111; 103])) = true.
Proof. apply dentry_hash_even_slots. lia. Defined.

Lemma dentry_hash_create_destroy_witness :
  exists d', userfs_dentry_hash_destroy demo_store (Some demo_table) = Some d' /\ nodes d' = ∅.
Proof.
  destruct (dentry_hash_create_destroy demo_alloc 128 0) as [_ H]; [done|done|].
  destruct (H _ _ _ demo_rep) as (d' & E & N & _). eauto.
Defined.

Lemma inodeaddr_roundtrip_witness :
  USERFS_INODETYPE_GET (USERFS_INODEADDRINFO_CAL 1 4096) = 1 /\
  USERFS_INODEADDR_GET (USERFS_INODEADDRINFO_CAL 1 4096) = 4096.
Proof. apply inodeaddr_roundtrip; [lia|by right]. Defined.
