(* ===== verification/Fs.v ===== *)
(** * Fs: the state of the userfs programs and the layout of its structures

    The block buffers ([struct block_buffer] of userfs/include/vnode.h), the pages
    they point to, the heap elements and hash nodes live in one address space; the
    disk is the file behind [g_disk_fd].  The structures of userfs/include/inode.h
    are kept as bytes in pages, so that what is flushed is what is in memory.  A
    program is a function of the state; it has no result when it does something
    undefined (a bad pointer, an access outside an object). *)
From S2P Require Import Prelude Atomic KList MrHeap DentryHash.
Local Open Scope Z_scope.

(** ** Layout (userfs/include/inode.h) *)

Definition USERFS_PAGE_SIZE : Z := 4096.
Definition USERFS_INODE_SIZE : Z := 1024.
Definition USERFS_DENTRY_SIZE : Z := 32.
Definition USERFS_MAX_FILE_NAME_LEN : Z := 27.

Definition USERFS_BTYPE_FREE : Z := 0x12345678.
Definition USERFS_BTYPE_SUPER : Z := 83.
Definition USERFS_BTYPE_DENTRY : Z := 69.
Definition USERFS_BTYPE_BGROUP_DESC : Z := 71.
Definition USERFS_BTYPE_DATA : Z := 68.

(** [userfs_metadata_block]: the header, the type, then the union. *)
Definition h_prev : Z := 0.
Definition h_next : Z := 4.
Definition mb_block_type : Z := 8.
Definition sizeof_mblock : Z := 12.
Definition mb_union : Z := 12.

(** [userfs_super_block], as offsets in the page of the super block. *)
Definition s_wtime : Z := mb_union + 0.
Definition s_first_datablock : Z := mb_union + 4.
Definition s_data_block_size : Z := mb_union + 8.
Definition s_data_block_count : Z := mb_union + 12.
Definition s_free_data_block_count : Z := mb_union + 16.
Definition s_data_block_per_group : Z := mb_union + 20.
Definition s_data_block_group_count : Z := mb_union + 24.
Definition s_free_data_block_group_count : Z := mb_union + 28.
Definition s_first_dentry_mblock : Z := mb_union + 32.
Definition s_free_dentry_count : Z := mb_union + 36.
Definition s_first_bgroup_desc_mblock : Z := mb_union + 40.
Definition s_bgroup_desc_size : Z := mb_union + 44.
Definition s_bgroup_desc_per_mb_count : Z := mb_union + 48.
Definition s_first_metablock : Z := mb_union + 52.
Definition s_metablock_count : Z := mb_union + 56.
Definition s_free_metablock_count : Z := mb_union + 60.
Definition s_metablock_size : Z := mb_union + 64.
Definition s_metadata_block_bitmap : Z := mb_union + 68.

(** [userfs_inode], at the start of its page. *)
Definition i_atime : Z := 0.
Definition i_ctime : Z := 8.
Definition i_mtime : Z := 16.
Definition i_dtime : Z := 24.
Definition i_size : Z := 32.
Definition i_blocks : Z := 36.
Definition i_lastest_bgroup : Z := 40.
Definition i_ref_count : Z := 44.
Definition i_v2pnode_table (i : Z) : Z := 48 + 8 * i.

(** [userfs_block_group_descriptor], from its start. *)
Definition bg_block_count : Z := 0.
Definition bg_free_block_count : Z := 2.
Definition bg_block_bm : Z := 4.
Definition sizeof_bgroup_desc : Z := 16.

(** [userfs_dentry_table], as offsets in the page of the dentry block. *)
Definition dfd_dentry_count : Z := mb_union + 0.
Definition dfd_used_dentry_count : Z := mb_union + 4.
Definition dfd_first_dentry : Z := mb_union + 8.
Definition dfd_first_free_dentry : Z := mb_union + 12.
Definition dentry_at (i : Z) : Z := mb_union + 32 + 32 * i.
Definition d_first_dblock (i : Z) : Z := dentry_at i.
Definition d_name (i : Z) : Z := dentry_at i + 4.

(** ** The state *)

(** [struct block_buffer]. *)
Record bbuf := Bbuf {
  b_this_page : Z;
  b_list_len : Z;
  b_type : Z;
  b_blocknr : Z;
  b_block_s_off : Z;
  b_size : Z;
  b_data : Z }.

Definition sizeof_bbuf : Z := 40.

(** The file behind [g_disk_fd].  [d_io] says how the kernel treats the next
    transfers: an error, or at most that many bytes; a transfer it says nothing
    about is complete. *)
Record disk := Disk { d_len : Z; d_bytes : content; d_io : list (option Z) }.

(** A free list of buffers: [free_dbbuf_list] and [free_dbbuf_list_len]. *)
Record freelist := Freelist { fl_head : Z; fl_len : Z }.

(** [struct block_group_descriptors_index_list]. *)
Record bgd_index_list := Bgi {
  bgi_bgd_mb_count : Z;
  bgi_blocknr2bbuf : list Z;
  bgi_maxroot_heap : mrheap }.

(** The pointers to the index list and to the hash table that the operations take
    are the ones of the mounted file system; they are part of the state.  What
    malloc returns holds [f_garbage] at each address. *)
Record fs := Fs {
  f_alloc : alloc;
  f_garbage : Z -> content;
  f_bbufs : gmap Z bbuf;
  f_pages : gmap Z page;
  f_disk : disk;
  f_dfree : freelist;
  f_mfree : freelist;
  f_elems : elems;
  f_bgi : bgd_index_list;
  f_dstore : dstore;
  f_table : linkhash }.

Definition with_alloc (s : fs) a := Fs a (f_garbage s) (f_bbufs s) (f_pages s) (f_disk s) (f_dfree s) (f_mfree s) (f_elems s) (f_bgi s) (f_dstore s) (f_table s).
Definition with_bbufs (s : fs) b := Fs (f_alloc s) (f_garbage s) b (f_pages s) (f_disk s) (f_dfree s) (f_mfree s) (f_elems s) (f_bgi s) (f_dstore s) (f_table s).
Definition with_pages (s : fs) p := Fs (f_alloc s) (f_garbage s) (f_bbufs s) p (f_disk s) (f_dfree s) (f_mfree s) (f_elems s) (f_bgi s) (f_dstore s) (f_table s).
Definition with_disk (s : fs) d := Fs (f_alloc s) (f_garbage s) (f_bbufs s) (f_pages s) d (f_dfree s) (f_mfree s) (f_elems s) (f_bgi s) (f_dstore s) (f_table s).
Definition with_dfree (s : fs) x := Fs (f_alloc s) (f_garbage s) (f_bbufs s) (f_pages s) (f_disk s) x (f_mfree s) (f_elems s) (f_bgi s) (f_dstore s) (f_table s).
Definition with_mfree (s : fs) x := Fs (f_alloc s) (f_garbage s) (f_bbufs s) (f_pages s) (f_disk s) (f_dfree s) x (f_elems s) (f_bgi s) (f_dstore s) (f_table s).
Definition with_heap (s : fs) a e b := Fs a (f_garbage s) (f_bbufs s) (f_pages s) (f_disk s) (f_dfree s) (f_mfree s) e b (f_dstore s) (f_table s).
Definition with_dir (s : fs) a d t := Fs a (f_garbage s) (f_bbufs s) (f_pages s) (f_disk s) (f_dfree s) (f_mfree s) (f_elems s) (f_bgi s) d t.

(** ** Programs *)

Definition fsM (A : Type) : Type := fs -> option (A * fs).

#[export] Instance fsM_ret : MRet fsM := fun A a s => Some (a, s).
#[export] Instance fsM_bind : MBind fsM := fun A B f m s =>
  match m s with Some (a, s) => f a s | None => None end.

(** A primitive step. *)
Definition act {A} (f : fs -> option (A * fs)) : fsM A := f.
Definition lift {A} (o : option A) : fsM A := fun s => match o with Some a => Some (a, s) | None => None end.

Notation "m1 ;;; m2" := (mbind (fun _ => m2) m1) (at level 100, right associativity).

(** A block buffer, and an assignment to one of its fields. *)
Definition bb (p : Z) : fsM bbuf := fun s =>
  match f_bbufs s !! p with Some b => Some (b, s) | None => None end.
Definition bb_set (p : Z) (f : bbuf -> bbuf) : fsM unit := fun s =>
  match f_bbufs s !! p with
  | Some b => Some (tt, with_bbufs s (<[p := f b]> (f_bbufs s)))
  | None => None
  end.

Definition set_this_page v b := Bbuf v (b_list_len b) (b_type b) (b_blocknr b) (b_block_s_off b) (b_size b) (b_data b).
Definition set_list_len v b := Bbuf (b_this_page b) v (b_type b) (b_blocknr b) (b_block_s_off b) (b_size b) (b_data b).
Definition set_type v b := Bbuf (b_this_page b) (b_list_len b) v (b_blocknr b) (b_block_s_off b) (b_size b) (b_data b).
Definition set_blocknr v b := Bbuf (b_this_page b) (b_list_len b) (b_type b) v (b_block_s_off b) (b_size b) (b_data b).
Definition set_s_off v b := Bbuf (b_this_page b) (b_list_len b) (b_type b) (b_blocknr b) v (b_size b) (b_data b).
Definition set_size v b := Bbuf (b_this_page b) (b_list_len b) (b_type b) (b_blocknr b) (b_block_s_off b) v (b_data b).
Definition set_data v b := Bbuf (b_this_page b) (b_list_len b) (b_type b) (b_blocknr b) (b_block_s_off b) (b_size b) v.
Definition bbuf_zero : bbuf := Bbuf 0 0 0 0 0 0 0.

(** The page at an address, and an update of it. *)
Definition pg (a : Z) : fsM page := fun s =>
  match f_pages s !! a with Some p => Some (p, s) | None => None end.
Definition pg_set (a : Z) (p : page) : fsM unit := fun s => Some (tt, with_pages s (<[a := p]> (f_pages s))).
Definition pg_upd (a : Z) (f : page -> option page) : fsM unit := p ← pg a; p ← lift (f p); pg_set a p.

(** A field of [n] bytes in a page. *)
Definition ld (n : nat) (a o : Z) : fsM Z := p ← pg a; lift (load n p o).
Definition st (n : nat) (a o v : Z) : fsM unit := pg_upd a (fun p => store n p o v).
Definition ld_int (a o : Z) : fsM Z := p ← pg a; lift (load_int p o).

(** [USERFS_MEM_ALLOC] and [USERFS_MEM_FREE] of a buffer or of a page. *)
Definition mem_alloc (n : Z) : fsM Z := fun s =>
  let '(r, a) := malloc (f_alloc s) n in Some (r, with_alloc s a).
Definition bb_new (p : Z) : fsM unit := fun s => Some (tt, with_bbufs s (<[p := bbuf_zero]> (f_bbufs s))).
Definition pg_new (a n : Z) : fsM unit := fun s =>
  Some (tt, with_pages s (<[a := Page n (f_garbage s a)]> (f_pages s))).
Definition bb_free (p : Z) : fsM unit := fun s => Some (tt, with_bbufs s (delete p (f_bbufs s))).
Definition pg_free (a : Z) : fsM unit := fun s => Some (tt, with_pages s (delete a (f_pages s))).

(** Running a program step by step. *)
Lemma bind_run {A B} (m : fsM A) (f : A -> fsM B) s a s' :
  m s = Some (a, s') -> (mbind f m) s = f a s'.
Proof. intros E. unfold mbind, fsM_bind. by rewrite E. Qed.

Lemma bind_None {A B} (m : fsM A) (f : A -> fsM B) s : m s = None -> (mbind f m) s = None.
Proof. intros E. unfold mbind, fsM_bind. by rewrite E. Qed.

Lemma bind_inv {A B} (m : fsM A) (f : A -> fsM B) s b s'' :
  (mbind f m) s = Some (b, s'') -> exists a s', m s = Some (a, s') /\ f a s' = Some (b, s'').
Proof. unfold mbind, fsM_bind. destruct (m s) as [[a s']|]; [eauto|done]. Qed.

Lemma bind_assoc {A B C} (m : fsM A) (f : A -> fsM B) (g : B -> fsM C) s :
  (mbind g (mbind f m)) s = (mbind (fun a => mbind g (f a)) m) s.
Proof. unfold mbind, fsM_bind. by destruct (m s) as [[a s']|]. Qed.

Lemma ret_run {A} (a : A) s : (mret a : fsM A) s = Some (a, s).
Proof. done. Qed.

Lemma lift_run {A} (a : A) s : lift (Some a) s = Some (a, s).
Proof. done. Qed.

Lemma bb_run p s b : f_bbufs s !! p = Some b -> bb p s = Some (b, s).
Proof. intros E. unfold bb. by rewrite E. Qed.

Lemma bb_set_run p f s b :
  f_bbufs s !! p = Some b -> bb_set p f s = Some (tt, with_bbufs s (<[p := f b]> (f_bbufs s))).
Proof. intros E. unfold bb_set. by rewrite E. Qed.

Lemma pg_run a s p : f_pages s !! a = Some p -> pg a s = Some (p, s).
Proof. intros E. unfold pg. by rewrite E. Qed.

Lemma pg_upd_run a f s p p' :
  f_pages s !! a = Some p -> f p = Some p' ->
  pg_upd a f s = Some (tt, with_pages s (<[a := p']> (f_pages s))).
Proof. intros E F. unfold pg_upd. rewrite (bind_run _ _ _ _ _ (pg_run _ _ _ E)). by rewrite F. Qed.

Lemma ld_run n a o s p v : f_pages s !! a = Some p -> load n p o = Some v -> ld n a o s = Some (v, s).
Proof. intros E L. unfold ld. rewrite (bind_run _ _ _ _ _ (pg_run _ _ _ E)). by rewrite L. Qed.

Lemma st_run n a o v s p p' :
  f_pages s !! a = Some p -> store n p o v = Some p' ->
  st n a o v s = Some (tt, with_pages s (<[a := p']> (f_pages s))).
Proof. intros E L. unfold st. by eapply pg_upd_run. Qed.

(** Take the first step of the program in the goal with a known outcome. *)
Ltac step_with E := first [rewrite (bind_run _ _ _ _ _ E) | rewrite E]; cbn beta iota.

(** Runs of accesses to one page: the state is kept in the form
    [with_pages s (<[a := p]> m)]. *)
Lemma with_page_id s a p : f_pages s !! a = Some p -> s = with_pages s (<[a := p]> (f_pages s)).
Proof. intros E. rewrite insert_id by done. by destruct s. Qed.

Lemma run_at {A} (m : fsM A) s a p :
  f_pages s !! a = Some p -> m s = m (with_pages s (<[a := p]> (f_pages s))).
Proof. intros E. by rewrite <- with_page_id. Qed.

Lemma pg_at a s m p : pg a (with_pages s (<[a := p]> m)) = Some (p, with_pages s (<[a := p]> m)).
Proof. apply pg_run. cbn [f_pages with_pages]. apply lookup_insert_eq. Qed.

Lemma ld_at n a o s m p :
  0 <= o -> o + Z.of_nat n <= p_size p ->
  ld n a o (with_pages s (<[a := p]> m)) = Some (le_read n (p_get p) o, with_pages s (<[a := p]> m)).
Proof.
  intros H1 H2. eapply ld_run; [cbn [f_pages with_pages]; apply lookup_insert_eq|]. by apply load_in.
Qed.

Lemma st_at n a o v s m p :
  0 <= o -> o + Z.of_nat n <= p_size p ->
  st n a o v (with_pages s (<[a := p]> m)) =
    Some (tt, with_pages s (<[a := Page (p_size p) (le_write n (p_get p) o v)]> m)).
Proof.
  intros H1 H2. erewrite st_run; [|cbn [f_pages with_pages]; apply lookup_insert_eq|by apply store_in].
  cbn [f_pages with_pages]. by rewrite insert_insert_eq.
Qed.

Lemma pg_upd_at a f s m p p' :
  f p = Some p' -> pg_upd a f (with_pages s (<[a := p]> m)) = Some (tt, with_pages s (<[a := p']> m)).
Proof.
  intros E. erewrite pg_upd_run; [|cbn [f_pages with_pages]; apply lookup_insert_eq|exact E].
  cbn [f_pages with_pages]. by rewrite insert_insert_eq.
Qed.

Lemma bb_at r s m b : bb r (with_bbufs s (<[r := b]> m)) = Some (b, with_bbufs s (<[r := b]> m)).
Proof. apply bb_run. cbn [f_bbufs with_bbufs]. apply lookup_insert_eq. Qed.

Lemma bb_set_at r f s m b :
  bb_set r f (with_bbufs s (<[r := b]> m)) = Some (tt, with_bbufs s (<[r := f b]> m)).
Proof.
  erewrite bb_set_run; [|cbn [f_bbufs with_bbufs]; apply lookup_insert_eq].
  cbn [f_bbufs with_bbufs]. by rewrite insert_insert_eq.
Qed.
