(* ===== verification/BlockBuf.v ===== *)
(** * BlockBuf: disk access (userfs/disk_ops.c) and block transfer
    (userfs/userfs_block_rw.c)

    [pread] and [pwrite] are the system calls on the disk file: an error, a short
    transfer, the end of the file.  The transfer functions walk a list of block
    buffers and move the page of each. *)
From S2P Require Import Prelude MrHeap DentryHash Fs.
Local Open Scope Z_scope.

(** How many of [n] bytes the next transfer moves; [None] is an error. *)
Definition io_limit (d : disk) (n : Z) : option Z :=
  match d_io d with
  | [] => Some n
  | None :: _ => None
  | Some k :: _ => Some (Z.max 0 (Z.min n k))
  end.

(** An offset is an [off_t]: negative from 2^63 on. *)
Definition pwrite (d : disk) (src : content) (n off : Z) : Z * disk :=
  match io_limit d n with
  | Some k =>
      if off <? 2 ^ 63 then
        (k, Disk (if k =? 0 then d_len d else Z.max (d_len d) (off + k))
              (copy (d_bytes d) off k src 0) (tail (d_io d)))
      else (-1, Disk (d_len d) (d_bytes d) (tail (d_io d)))
  | None => (-1, Disk (d_len d) (d_bytes d) (tail (d_io d)))
  end.

Definition pread (d : disk) (n off : Z) : Z * disk :=
  (match io_limit d n with
   | Some k => if off <? 2 ^ 63 then Z.max 0 (Z.min k (d_len d - off)) else -1
   | None => -1
   end, Disk (d_len d) (d_bytes d) (tail (d_io d))).

(** The result is an [uint64_t]: an error is the largest value. *)
Definition user_disk_write (buf size off : Z) : fsM Z :=
  p ← pg buf;
  if in_page p 0 size then
    act (fun s => let '(r, d) := pwrite (f_disk s) (p_get p) size off in Some (u64 r, with_disk s d))
  else lift None.

Definition user_disk_read (buf size off : Z) : fsM Z :=
  p ← pg buf;
  act (fun s =>
    let '(r, d) := pread (f_disk s) size off in
    if in_page p 0 r then
      Some (u64 r, with_disk (with_pages s
        (<[buf := Page (p_size p) (copy (p_get p) 0 r (d_bytes d) off)]> (f_pages s))) d)
    else None).

(** [open] gives a descriptor or -1. *)
Definition userfs_disk_open (fd : Z) : Z := if fd <? 0 then fd else -1.

(** Where the block of a buffer starts on the disk; a metadata offset is computed
    in 32 bits. *)
Definition mb_off (first_mblock metablock_size : Z) (b : bbuf) : Z :=
  u32 (metablock_size * u32 (b_blocknr b + first_mblock)).
Definition db_off (first_dblock dblock_size : Z) (b : bbuf) : Z :=
  u64 (b_block_s_off b + u64 (u32 (b_blocknr b + first_dblock) * dblock_size)).

(** The loops: [len] more buffers from [buf_list]. *)
Fixpoint list_flush (off : bbuf -> Z) (buf_list : Z) (len : nat) : fsM Z :=
  match len with
  | O => mret 0
  | S len =>
      b ← bb buf_list;
      let expect_wb := b_size b in
      r ← user_disk_write (b_data b) expect_wb (off b);
      let real_wb := u32 r in
      if negb (real_wb =? expect_wb) then mret (-1)
      else b ← bb buf_list; list_flush off (b_this_page b) len
  end.

Fixpoint list_read (off : bbuf -> Z) (buf_list : Z) (len : nat) : fsM Z :=
  match len with
  | O => mret 0
  | S len =>
      b ← bb buf_list;
      let expect_rb := b_size b in
      r ← user_disk_read (b_data b) expect_rb (off b);
      let real_rb := u32 r in
      if negb (real_rb =? expect_rb) then mret (-1)
      else b ← bb buf_list; list_read off (b_this_page b) len
  end.

Definition userfs_mbbuf_list_flush (first_mblock metablock_size buf_list len : Z) : fsM Z :=
  list_flush (mb_off first_mblock metablock_size) buf_list (Z.to_nat len).

Definition userfs_mbbuf_list_read (first_mblock metablock_size buf_list len : Z) : fsM Z :=
  list_read (mb_off first_mblock metablock_size) buf_list (Z.to_nat len).

Definition userfs_dbbuf_list_flush (first_dblock dblock_size buf_list len : Z) : fsM Z :=
  list_flush (db_off first_dblock dblock_size) buf_list (Z.to_nat len).

Definition userfs_dbbuf_list_read (first_dblock dblock_size buf_list len : Z) : fsM Z :=
  list_read (db_off first_dblock dblock_size) buf_list (Z.to_nat len).

(** The result of the read is kept in an [uint32_t]. *)
Definition userfs_read_metadata_block (mb_buf first_mblock metablock_size target_mb_id : Z) : fsM Z :=
  bb_set mb_buf (set_blocknr target_mb_id);;;
  bb_set mb_buf (set_size metablock_size);;;
  r ← userfs_mbbuf_list_read first_mblock metablock_size mb_buf 1;
  let res := u32 r in
  if res <? 0 then mret (-1)
  else
    b ← bb mb_buf;
    t ← ld 4 (b_data b) mb_block_type;
    bb_set mb_buf (set_type t);;;
    mret 0.

Definition userfs_read_data_block (db_buf first_dblock dblock_size : Z) : fsM Z :=
  b ← bb db_buf;
  r ← userfs_dbbuf_list_read first_dblock dblock_size db_buf (b_list_len b);
  let res := u32 r in
  if res <? 0 then mret (-1)
  else
    b ← bb db_buf;
    t ← ld 4 (b_data b) mb_block_type;
    bb_set db_buf (set_type t);;;
    mret 0.

(** ** Lists of buffers *)

(** The buffers [l] and their pages, linked by [b_this_page] from [p]. *)
Fixpoint blist (s : fs) (p : Z) (l : list (bbuf * page)) : Prop :=
  match l with
  | [] => True
  | (b, q) :: l =>
      f_bbufs s !! p = Some b /\ f_pages s !! b_data b = Some q /\ blist s (b_this_page b) l
  end.

(** A buffer that can be transferred: its page holds [b_size] bytes and its place
    is in the range of [off_t]. *)
Definition bb_ok (off : bbuf -> Z) (bq : bbuf * page) : Prop :=
  0 <= b_size (fst bq) < 4294967296 /\ b_size (fst bq) <= p_size (snd bq) /\
  0 <= off (fst bq) /\ off (fst bq) + b_size (fst bq) < 2 ^ 63.

(** The disk after [l] has been written. *)
Fixpoint write_all (off : bbuf -> Z) (l : list (bbuf * page)) (d : disk) : disk :=
  match l with
  | [] => d
  | (b, q) :: l => write_all off l (snd (pwrite d (p_get q) (b_size b) (off b)))
  end.

Lemma blist_frame s s' p l :
  f_bbufs s' = f_bbufs s -> f_pages s' = f_pages s -> blist s p l -> blist s' p l.
Proof.
  intros E1 E2. revert p. induction l as [|[b q] l IH]; intros p; [done|].
  cbn [blist]. rewrite E1, E2. intros (? & ? & ?). auto.
Qed.

Lemma user_disk_write_run s a q n off :
  f_pages s !! a = Some q -> 0 <= n -> n <= p_size q ->
  user_disk_write a n off s =
    Some (u64 (fst (pwrite (f_disk s) (p_get q) n off)),
          with_disk s (snd (pwrite (f_disk s) (p_get q) n off))).
Proof.
  intros E Hn Hq. unfold user_disk_write. step_with (pg_run _ _ _ E).
  rewrite in_page_true by lia. unfold act. by destruct (pwrite _ _ _ _).
Qed.

Lemma pwrite_full d src n off :
  d_io d = [] -> off < 2 ^ 63 -> fst (pwrite d src n off) = n /\ d_io (snd (pwrite d src n off)) = [].
Proof. intros E H. unfold pwrite, io_limit. rewrite E. by zdec. Qed.

(** Without I/O problems a flush writes the whole list and changes nothing else. *)
Lemma list_flush_run off s p l :
  d_io (f_disk s) = [] -> blist s p l -> Forall (bb_ok off) l ->
  list_flush off p (length l) s = Some (0, with_disk s (write_all off l (f_disk s))).
Proof.
  revert s p. induction l as [|[b q] l IH]; intros s p Hio B V; cbn [length list_flush].
  { by destruct s. }
  destruct B as (Eb & Eq & B). apply Forall_cons in V as [(V1 & V2 & V3 & V4) V]. cbn [fst snd] in *.
  step_with (bb_run _ _ _ Eb).
  step_with (user_disk_write_run s _ q _ (off b) Eq (proj1 V1) V2).
  destruct (pwrite_full (f_disk s) (p_get q) (b_size b) (off b) Hio ltac:(lia)) as [-> Hio'].
  rewrite u64_small, u32_small by lia. zdec.
  step_with (bb_run p (with_disk s (snd (pwrite (f_disk s) (p_get q) (b_size b) (off b)))) b Eb).
  rewrite IH; [done|done| |done]. by apply (blist_frame s).
Qed.

(** What the disk holds afterwards, for pairwise disjoint ranges. *)
Definition disjoint_ranges (off : bbuf -> Z) (l : list (bbuf * page)) : Prop :=
  forall i j b q b' q', i <> j -> l !! i = Some (b, q) -> l !! j = Some (b', q') ->
    off b + b_size b <= off b' \/ off b' + b_size b' <= off b.

Lemma disjoint_ranges_cons off bq l : disjoint_ranges off (bq :: l) -> disjoint_ranges off l.
Proof. intros D i j b q b' q' N E E'. by apply (D (S i) (S j) b q b' q'); [congruence|..]. Qed.

Lemma pwrite_bytes d src n off x :
  d_io d = [] -> off < 2 ^ 63 ->
  d_bytes (snd (pwrite d src n off)) x = copy (d_bytes d) off n src 0 x.
Proof. intros E H. unfold pwrite, io_limit. rewrite E. by zdec. Qed.

Lemma write_all_outside off l d x :
  d_io d = [] -> Forall (bb_ok off) l ->
  (forall b q, (b, q) ∈ l -> x < off b \/ off b + b_size b <= x) ->
  d_bytes (write_all off l d) x = d_bytes d x.
Proof.
  revert d. induction l as [|[b q] l IH]; intros d Hio V H; [done|]. cbn [write_all].
  apply Forall_cons in V as [(V1 & V2 & V3 & V4) V]. cbn [fst snd] in *.
  rewrite IH; [|by apply pwrite_full; [done|lia]|done|intros b' q' Hb; apply (H b' q'); by right].
  rewrite pwrite_bytes by (done || lia). apply copy_outside. apply (H b q). by left.
Qed.

Lemma write_all_inside off l d b q i :
  d_io d = [] -> Forall (bb_ok off) l -> disjoint_ranges off l -> (b, q) ∈ l -> 0 <= i < b_size b ->
  d_bytes (write_all off l d) (off b + i) = p_get q i mod 256.
Proof.
  revert d. induction l as [|[b0 q0] l IH]; intros d Hio V D Hin Hi; [by apply elem_of_nil in Hin|].
  cbn [write_all]. apply Forall_cons in V as [(V1 & V2 & V3 & V4) V]. cbn [fst snd] in *.
  pose proof (proj2 (pwrite_full d (p_get q0) (b_size b0) (off b0) Hio ltac:(lia))) as Hio'.
  apply elem_of_cons in Hin as [E|Hin]; [|apply IH; eauto using disjoint_ranges_cons].
  injection E as <- <-. rewrite write_all_outside; [|done|done|].
  - rewrite pwrite_bytes by (done || lia). rewrite copy_inside by lia. do 2 f_equal. lia.
  - intros b' q' Hin. apply list_elem_of_lookup in Hin as [j Hj].
    destruct (D 0%nat (S j) b q b' q') as [?|?]; [done|done|done|lia|lia].
Qed.

Lemma write_all_len off l d :
  d_io d = [] -> Forall (bb_ok off) l -> d_len d <= d_len (write_all off l d) /\
  forall b q, (b, q) ∈ l -> 0 < b_size b -> off b + b_size b <= d_len (write_all off l d).
Proof.
  revert d. induction l as [|[b0 q0] l IH]; intros d Hio V.
  { split; [done|]. intros b q H. by apply elem_of_nil in H. }
  cbn [write_all]. apply Forall_cons in V as [(V1 & V2 & V3 & V4) V]. cbn [fst snd] in *.
  pose proof (proj2 (pwrite_full d (p_get q0) (b_size b0) (off b0) Hio ltac:(lia))) as Hio'.
  destruct (IH _ Hio' V) as [L1 L2].
  assert (L3 : d_len d <= d_len (snd (pwrite d (p_get q0) (b_size b0) (off b0))) /\
    (0 < b_size b0 -> off b0 + b_size b0 <= d_len (snd (pwrite d (p_get q0) (b_size b0) (off b0))))).
  { unfold pwrite, io_limit. rewrite Hio. zdec. cbn [snd d_len]. destruct (Z.eqb_spec (b_size b0) 0); lia. }
  split; [lia|]. intros b q Hin Hb. apply elem_of_cons in Hin as [E|Hin]; [simplify_eq; lia|eauto].
Qed.

Lemma write_all_io off l d : d_io d = [] -> Forall (bb_ok off) l -> d_io (write_all off l d) = [].
Proof.
  revert d. induction l as [|[b q] l IH]; intros d Hio V; [done|]. cbn [write_all].
  apply Forall_cons in V as [(V1 & V2 & V3 & V4) V]. cbn [fst snd] in *.
  apply IH; [|done]. apply pwrite_full; [done|lia].
Qed.

(** ** Reading *)

Definition buf_addrs (l : list (bbuf * page)) : list Z := b_data ∘ fst <$> l.

Lemma pread_full d n off :
  d_io d = [] -> 0 <= n -> off < 2 ^ 63 -> off + n <= d_len d -> pread d n off = (n, d).
Proof.
  intros E Hn H L. unfold pread, io_limit. rewrite E. zdec. destruct d; simpl in *. subst. f_equal. lia.
Qed.

Lemma user_disk_read_run s a q n off :
  f_pages s !! a = Some q -> d_io (f_disk s) = [] -> 0 <= n -> n <= p_size q ->
  off < 2 ^ 63 -> off + n <= d_len (f_disk s) ->
  user_disk_read a n off s =
    Some (u64 n, with_pages s (<[a := Page (p_size q) (copy (p_get q) 0 n (d_bytes (f_disk s)) off)]> (f_pages s))).
Proof.
  intros E Hio Hn Hq Ho Hl. unfold user_disk_read. step_with (pg_run _ _ _ E). unfold act.
  rewrite pread_full by (done || lia). rewrite in_page_true by lia. by destruct s.
Qed.

(** The pages after the disk has been read into the buffers [l]. *)
Fixpoint read_all (off : bbuf -> Z) (l : list (bbuf * page)) (d : disk) (ps : gmap Z page) : gmap Z page :=
  match l with
  | [] => ps
  | (b, q) :: l =>
      read_all off l d (<[b_data b := Page (p_size q) (copy (p_get q) 0 (b_size b) (d_bytes d) (off b))]> ps)
  end.

Lemma blist_pages s ps p l :
  (forall a, a ∈ buf_addrs l -> ps !! a = f_pages s !! a) -> blist s p l -> blist (with_pages s ps) p l.
Proof.
  revert p. induction l as [|[b q] l IH]; intros p F; [done|]. cbn [blist]. intros (Eb & Eq & B).
  split; [done|]. split; [cbn; rewrite F; [done|by left]|]. apply IH; [|done].
  intros a Ha. apply F. by right.
Qed.

Lemma list_read_run off s p l :
  d_io (f_disk s) = [] -> blist s p l -> Forall (bb_ok off) l -> NoDup (buf_addrs l) ->
  Forall (fun bq => off (fst bq) + b_size (fst bq) <= d_len (f_disk s)) l ->
  list_read off p (length l) s = Some (0, with_pages s (read_all off l (f_disk s) (f_pages s))).
Proof.
  revert s p. induction l as [|[b q] l IH]; intros s p Hio B V N L; cbn [length list_read].
  { by destruct s. }
  destruct B as (Eb & Eq & B). apply Forall_cons in V as [(V1 & V2 & V3 & V4) V].
  apply Forall_cons in L as [L1 L]. cbn [fst snd] in *. apply NoDup_cons in N as [N1 N].
  step_with (bb_run _ _ _ Eb).
  step_with (user_disk_read_run s _ q _ (off b) Eq Hio (proj1 V1) V2 ltac:(lia) L1).
  rewrite u64_small, u32_small by lia. zdec.
  set (s1 := with_pages s _). step_with (bb_run p s1 b Eb).
  rewrite (IH s1); [done|done| |done|done|done].
  apply blist_pages; [|done]. intros a Ha. rewrite lookup_insert_ne; [done|]. by intros <-.
Qed.

Lemma read_all_outside off l d ps a : a ∉ buf_addrs l -> read_all off l d ps !! a = ps !! a.
Proof.
  revert ps. induction l as [|[b q] l IH]; intros ps Ha; [done|]. cbn [read_all].
  rewrite IH by set_solver. apply lookup_insert_ne. set_solver.
Qed.

Lemma read_all_inside off l d ps b q :
  NoDup (buf_addrs l) -> (b, q) ∈ l ->
  read_all off l d ps !! b_data b = Some (Page (p_size q) (copy (p_get q) 0 (b_size b) (d_bytes d) (off b))).
Proof.
  revert ps. induction l as [|[b0 q0] l IH]; intros ps N Hin; [by apply elem_of_nil in Hin|].
  cbn [read_all]. apply NoDup_cons in N as [N1 N]. apply elem_of_cons in Hin as [E|Hin]; [|by apply IH].
  injection E as <- <-. by rewrite read_all_outside, lookup_insert_eq.
Qed.

(** The buffers [l] with the pages that [ps] has at their addresses. *)
Definition repage (ps : gmap Z page) (l : list (bbuf * page)) : list (bbuf * page) :=
  (fun bq => (fst bq, default (snd bq) (ps !! b_data (fst bq)))) <$> l.

Lemma blist_repage s ps p l :
  (forall b q, (b, q) ∈ l -> is_Some (ps !! b_data b)) -> blist s p l -> blist (with_pages s ps) p (repage ps l).
Proof.
  revert p. induction l as [|[b q] l IH]; intros p F; [done|]. cbn. intros (Eb & Eq & B).
  destruct (F b q) as [q' E]; [by left|]. split; [done|]. split; [by rewrite E|].
  apply IH; [|done]. intros b' q'' H. apply (F b' q''). by right.
Qed.

Lemma flush_read_roundtrip off s p l ps :
  d_io (f_disk s) = [] -> blist s p l -> Forall (bb_ok off) l -> disjoint_ranges off l ->
  NoDup (buf_addrs l) -> Forall (fun bq => 0 < b_size (fst bq)) l ->
  (forall b q, (b, q) ∈ l -> exists q', ps !! b_data b = Some q' /\ p_size q' = p_size q) ->
  exists s1 s2,
    list_flush off p (length l) s = Some (0, s1) /\
    list_read off p (length l) (with_pages s1 ps) = Some (0, s2) /\
    (forall b q, (b, q) ∈ l -> exists q2, f_pages s2 !! b_data b = Some q2 /\ p_size q2 = p_size q /\
       forall i, 0 <= i < b_size b -> p_get q2 i mod 256 = p_get q i mod 256) /\
    (forall x, (forall b q, (b, q) ∈ l -> x < off b \/ off b + b_size b <= x) ->
       d_bytes (f_disk s2) x = d_bytes (f_disk s) x).
Proof.
  intros Hio B V D N Pos HP. eexists _, _. split; [by apply list_flush_run|].
  set (d1 := write_all off l (f_disk s)).
  pose proof (write_all_io off l (f_disk s) Hio V) as Hio1. fold d1 in Hio1.
  destruct (write_all_len off l (f_disk s) Hio V) as [_ Hlen]. fold d1 in Hlen.
  assert (Hlr : length (repage ps l) = length l) by apply length_fmap.
  assert (Hbr : buf_addrs (repage ps l) = buf_addrs l).
  { unfold buf_addrs, repage. rewrite <- list_fmap_compose. by apply list_fmap_ext. }
  assert (Hel : forall b q, (b, q) ∈ repage ps l ->
    exists q0, (b, q0) ∈ l /\ ps !! b_data b = Some q /\ p_size q = p_size q0).
  { intros b q Hin. apply list_elem_of_fmap in Hin as ([b0 q0] & E & Hin). injection E as -> ->.
    destruct (HP b0 q0 Hin) as (q' & E' & Es). cbn [fst snd]. rewrite E'. eauto. }
  split; [rewrite <- Hlr; apply list_read_run; rewrite ?Hbr; cbn [f_disk with_pages with_disk]; try done|split].
  - apply (blist_repage (with_disk s d1)); [|by apply (blist_frame s)].
    intros b q Hin. destruct (HP b q Hin) as (q' & -> & _). eauto.
  - apply Forall_forall. intros [b q] Hin. destruct (Hel b q Hin) as (q0 & Hin0 & _ & Es).
    rewrite Forall_forall in V. destruct (V _ Hin0) as (V1 & V2 & V3 & V4). unfold bb_ok. cbn [fst snd] in *. lia.
  - apply Forall_forall. intros [b q] Hin. destruct (Hel b q Hin) as (q0 & Hin0 & _ & _).
    rewrite Forall_forall in Pos. apply (Hlen b q0 Hin0 (Pos _ Hin0)).
  - cbn [f_pages f_disk with_pages with_disk]. intros b q Hin. destruct (HP b q Hin) as (q' & E' & Es).
    assert (Hin' : (b, q') ∈ repage ps l).
    { apply list_elem_of_fmap. exists (b, q). cbn [fst snd]. by rewrite E'. }
    rewrite (read_all_inside off _ _ _ b q') by (rewrite ?Hbr; done).
    eexists. split; [done|]. split; [done|]. intros i Hi. cbn [p_get]. rewrite copy_inside by lia.
    replace (i - 0 + off b) with (off b + i) by lia. unfold d1.
    rewrite (write_all_inside off l (f_disk s) b q i) by done. by rewrite !Z.mod_mod by lia.
  - intros x Hx. cbn [f_disk with_pages with_disk]. unfold d1. by apply write_all_outside.
Qed.

(** C11: What userfs_dbbuf_list_flush or userfs_mbbuf_list_flush writes from a list
    of buffers, the matching read brings back byte for byte, whatever the pages of
    the buffers hold in between; bytes of the disk outside the blocks are not
    touched. *)
Theorem block_list_roundtrip first bsize s p l ps :
  let check flush read off :=
    blist s p l -> Forall (bb_ok off) l -> disjoint_ranges off l ->
    exists s1 s2,
      flush first bsize p (Z.of_nat (length l)) s = Some (0, s1) /\
      read first bsize p (Z.of_nat (length l)) (with_pages s1 ps) = Some (0, s2) /\
      (forall b q, (b, q) ∈ l -> exists q2, f_pages s2 !! b_data b = Some q2 /\ p_size q2 = p_size q /\
         forall i, 0 <= i < b_size b -> p_get q2 i mod 256 = p_get q i mod 256) /\
      (forall x, (forall b q, (b, q) ∈ l -> x < off b \/ off b + b_size b <= x) ->
         d_bytes (f_disk s2) x = d_bytes (f_disk s) x) in
  d_io (f_disk s) = [] -> NoDup (buf_addrs l) -> Forall (fun bq => 0 < b_size (fst bq)) l ->
  (forall b q, (b, q) ∈ l -> exists q', ps !! b_data b = Some q' /\ p_size q' = p_size q) ->
  check userfs_dbbuf_list_flush userfs_dbbuf_list_read (db_off first bsize) /\
  check userfs_mbbuf_list_flush userfs_mbbuf_list_read (mb_off first bsize).
Proof.
  intros check Hio N Pos HP.
  split; intros B V D; unfold userfs_dbbuf_list_flush, userfs_dbbuf_list_read,
    userfs_mbbuf_list_flush, userfs_mbbuf_list_read; rewrite !Nat2Z.id; by apply flush_read_roundtrip.
Qed.

(** ** Transfers that fail *)

(** The kernel makes the transfer of a buffer complete; [io_part io] bytes are
    transferred when it does not. *)
Definition io_full (io : option Z) (bq : bbuf * page) : Prop := exists k, io = Some k /\ b_size (fst bq) <= k.
Definition io_part (io : option Z) : Z := match io with Some k => Z.max 0 k | None => 0 end.

(** The disk without a word on the next transfers. *)
Definition plain_disk (d : disk) : disk := Disk (d_len d) (d_bytes d) [].

Lemma pwrite_io d src n off io k :
  d_io d = io :: k -> off < 2 ^ 63 -> 0 <= n ->
  d_io (snd (pwrite d src n off)) = k /\
  (io_part io < n -> fst (pwrite d src n off) <> n /\ -1 <= fst (pwrite d src n off) < Z.max 1 n /\
     forall x, d_bytes (snd (pwrite d src n off)) x = copy (d_bytes d) off (io_part io) src 0 x) /\
  ((exists m, io = Some m /\ n <= m) -> fst (pwrite d src n off) = n /\
     plain_disk (snd (pwrite d src n off)) = snd (pwrite (plain_disk d) src n off)).
Proof.
  intros E Ho Hn. unfold pwrite, io_limit, io_part, plain_disk. rewrite E. zdec. destruct io as [m|].
  - cbn [fst snd d_io tail d_bytes d_len]. split; [done|]. split.
    + intros Hlt. rewrite (Z.min_r n m), (Z.max_comm 0 m) by lia. split; [lia|]. split; [lia|done].
    + intros (? & [= <-] & H). rewrite (Z.min_l n m), Z.max_r by lia. done.
  - cbn [fst snd d_io tail d_bytes d_len]. split; [done|]. split; [|by intros (? & ? & _)].
    intros Hlt. split; [lia|]. split; [lia|]. intros x. by rewrite copy_outside by lia.
Qed.

(** The transfers of [l1] are complete, that of [b] is not. *)
Definition fails_at (d : disk) (l1 : list (bbuf * page)) (b : bbuf) (io : option Z) : Prop :=
  exists ios k, d_io d = ios ++ io :: k /\ Forall2 io_full ios l1 /\ io_part io < b_size b < 4294967295.

Lemma list_flush_error off l1 : forall s p b q l2 io,
  blist s p (l1 ++ (b, q) :: l2) -> Forall (bb_ok off) (l1 ++ [(b, q)]) -> fails_at (f_disk s) l1 b io ->
  exists d, list_flush off p (length (l1 ++ (b, q) :: l2)) s = Some (-1, with_disk s d) /\
    forall x, d_bytes d x = copy (d_bytes (write_all off l1 (plain_disk (f_disk s)))) (off b) (io_part io) (p_get q) 0 x.
Proof.
  induction l1 as [|[b1 q1] l1 IH]; intros s p b q l2 io B V (ios & k & Hio & F & Hs);
    cbn [app length list_flush] in *; destruct B as (Eb & Eq & B); apply Forall_cons in V as [(V1 & V2 & V3 & V4) V]; cbn [fst snd] in *.
  - apply Forall2_nil_inv_r in F as ->. destruct (pwrite_io (f_disk s) (p_get q) (b_size b) (off b) io k Hio ltac:(lia) ltac:(lia))
      as (_ & H & _). destruct H as (H1 & H2 & H3); [lia|].
    step_with (bb_run _ _ _ Eb). step_with (user_disk_write_run s _ q (b_size b) (off b) Eq ltac:(lia) V2).
    eexists. split; [|exact H3]. rewrite (proj2 (Z.eqb_neq _ _)); [done|].
    destruct (Z.eq_dec (fst (pwrite (f_disk s) (p_get q) (b_size b) (off b))) (-1)) as [->|N].
    + change (u32 (u64 (-1))) with 4294967295. lia.
    + rewrite u64_small, u32_small by lia. done.
  - apply Forall2_cons_inv_r in F as (io1 & ios' & Hf & F & ->). cbn [app] in Hio.
    destruct (pwrite_io (f_disk s) (p_get q1) (b_size b1) (off b1) io1 (ios' ++ io :: k) Hio ltac:(lia) ltac:(lia)) as (Hk & _ & H).
    destruct H as [H1 H2]; [destruct Hf as (m & -> & ?); by exists m|].
    step_with (bb_run _ _ _ Eb). step_with (user_disk_write_run s _ q1 (b_size b1) (off b1) Eq ltac:(lia) V2).
    rewrite H1, u64_small, u32_small by lia. zdec.
    set (d1 := snd (pwrite (f_disk s) (p_get q1) (b_size b1) (off b1))) in *. step_with (bb_run p (with_disk s d1) b1 Eb).
    destruct (IH (with_disk s d1) (b_this_page b1) b q l2 io) as (d & E & Hd); [by apply (blist_frame s)|done|by exists ios', k|].
    exists d. split; [exact E|]. intros x. rewrite Hd. cbn [f_disk with_disk write_all]. by rewrite H2.
Qed.

Lemma pread_io d n off io k :
  d_io d = io :: k -> off < 2 ^ 63 -> 0 <= n ->
  snd (pread d n off) = Disk (d_len d) (d_bytes d) k /\
  (io_part io < n -> fst (pread d n off) <> n /\ -1 <= fst (pread d n off) <= io_part io) /\
  (off + n <= d_len d -> (exists m, io = Some m /\ n <= m) -> fst (pread d n off) = n).
Proof.
  intros E Ho Hn. unfold pread, io_limit, io_part. rewrite E. zdec. cbn [fst snd d_io tail]. split; [done|].
  destruct io as [m|]; (split; [lia|]).
  - intros Hl (? & [= <-] & H). lia.
  - by intros _ (? & ? & _).
Qed.

Lemma user_disk_read_io s a q n off io k :
  f_pages s !! a = Some q -> d_io (f_disk s) = io :: k -> off < 2 ^ 63 -> 0 <= n <= p_size q ->
  fst (pread (f_disk s) n off) <= n ->
  user_disk_read a n off s = Some (u64 (fst (pread (f_disk s) n off)),
    with_disk (with_pages s (<[a := Page (p_size q)
      (copy (p_get q) 0 (fst (pread (f_disk s) n off)) (d_bytes (f_disk s)) off)]> (f_pages s)))
      (Disk (d_len (f_disk s)) (d_bytes (f_disk s)) k)).
Proof.
  intros Eq Hio Ho Hn Hr. destruct (pread_io (f_disk s) n off io k Hio Ho ltac:(lia)) as (H0 & _).
  unfold user_disk_read. step_with (pg_run _ _ _ Eq). unfold act.
  destruct (pread (f_disk s) n off) as [r d]. cbn [fst snd] in *. subst d. by rewrite in_page_true by lia.
Qed.

Lemma buf_addrs_prefix l1 b q l2 a : a ∈ buf_addrs (l1 ++ [(b, q)]) -> a ∈ buf_addrs (l1 ++ (b, q) :: l2).
Proof. unfold buf_addrs. rewrite !fmap_app, !elem_of_app. cbn. set_solver. Qed.

(** A list read that fails: the pages of [l1] are read, that of [b] up to the bytes that
    arrived, no other page changes. *)
Definition read_upto (off : bbuf -> Z) (s s' : fs) (l1 : list (bbuf * page)) (b : bbuf) (q : page) (io : option Z) : Prop :=
  f_bbufs s' = f_bbufs s /\ d_bytes (f_disk s') = d_bytes (f_disk s) /\
  (forall b1 q1, (b1, q1) ∈ l1 -> f_pages s' !! b_data b1 =
     Some (Page (p_size q1) (copy (p_get q1) 0 (b_size b1) (d_bytes (f_disk s)) (off b1)))) /\
  (exists q', f_pages s' !! b_data b = Some q' /\ p_size q' = p_size q /\ forall i, io_part io <= i -> p_get q' i = p_get q i) /\
  (forall a, a ∉ buf_addrs (l1 ++ [(b, q)]) -> f_pages s' !! a = f_pages s !! a).

Lemma list_read_error off l1 : forall s p b q l2 io,
  blist s p (l1 ++ (b, q) :: l2) -> Forall (bb_ok off) (l1 ++ [(b, q)]) -> NoDup (buf_addrs (l1 ++ (b, q) :: l2)) ->
  Forall (fun bq => off (fst bq) + b_size (fst bq) <= d_len (f_disk s)) l1 -> fails_at (f_disk s) l1 b io ->
  exists s', list_read off p (length (l1 ++ (b, q) :: l2)) s = Some (-1, s') /\ read_upto off s s' l1 b q io.
Proof.
  induction l1 as [|[b1 q1] l1 IH]; intros s p b q l2 io B V ND L (ios & k & Hio & F & Hs);
    cbn [app length list_read] in *; destruct B as (Eb & Eq & B); apply Forall_cons in V as [(V1 & V2 & V3 & V4) V]; cbn [fst snd] in *.
  - apply Forall2_nil_inv_r in F as ->. destruct (pread_io (f_disk s) (b_size b) (off b) io k Hio ltac:(lia) ltac:(lia)) as (H0 & H & _).
    destruct H as (H1 & H2); [lia|]. assert (0 <= io_part io) by (unfold io_part; destruct io; lia).
    step_with (bb_run _ _ _ Eb). step_with (user_disk_read_io s _ q (b_size b) (off b) io k Eq Hio ltac:(lia) ltac:(lia) ltac:(lia)).
    set (r := fst (pread _ _ _)) in *. rewrite (proj2 (Z.eqb_neq _ _)); cycle 1.
    { destruct (Z.eq_dec r (-1)) as [->|N]; [change (u32 (u64 (-1))) with 4294967295; lia|]. by rewrite u64_small, u32_small by lia. }
    eexists. split; [done|]. split; [done|]. split; [done|]. split; [intros ? ? Hx; by apply elem_of_nil in Hx|]. split.
    + eexists. split; [apply lookup_insert_eq|]. split; [done|]. intros i Hi. cbn [p_get]. apply copy_outside. lia.
    + intros a Ha. cbn [f_pages with_disk with_pages]. rewrite lookup_insert_ne; [done|]. intros <-. apply Ha. by left.
  - apply Forall2_cons_inv_r in F as (io1 & ios' & Hf & F & ->). cbn [app] in Hio. apply Forall_cons in L as [L1 L]. cbn [fst] in L1.
    apply NoDup_cons in ND as [N1 ND].
    destruct (pread_io (f_disk s) (b_size b1) (off b1) io1 (ios' ++ io :: k) Hio ltac:(lia) ltac:(lia)) as (H0 & _ & H).
    specialize (H L1 ltac:(destruct Hf as (m & -> & ?); by exists m)).
    step_with (bb_run _ _ _ Eb). step_with (user_disk_read_io s _ q1 (b_size b1) (off b1) _ _ Eq Hio ltac:(lia) ltac:(lia) ltac:(lia)).
    rewrite H, u64_small, u32_small by lia. zdec. set (s1 := with_disk _ _). step_with (bb_run p s1 b1 Eb).
    assert (Out : forall a, a <> b_data b1 -> f_pages s1 !! a = f_pages s !! a) by (intros a Ha; cbn; by rewrite lookup_insert_ne).
    destruct (IH s1 (b_this_page b1) b q l2 io) as (s' & E & R1 & R2 & R3 & R4 & R5); try done.
    { apply (blist_frame (with_pages s (f_pages s1))); [done|done|]. apply blist_pages; [|done].
      intros a Ha. apply Out. by intros ->. }
    { by exists ios', k. }
    assert (N2 : b_data b1 ∉ buf_addrs (l1 ++ [(b, q)])).
    { intros Hx. by apply N1, (buf_addrs_prefix l1 b q l2). }
    exists s'. split; [exact E|]. split; [done|]. split; [done|]. split; [|split; [done|]].
    + intros b2 q2 [[= -> ->]|Hin]%elem_of_cons; [|by apply R3]. rewrite R5 by done. apply lookup_insert_eq.
    + intros a Ha. apply not_elem_of_cons in Ha as [Ha1 Ha2]. rewrite R5 by done. by apply Out.
Qed.

(** The head of a list of buffers after such a read. *)
Lemma read_upto_head off s s' p l1 b q l2 io :
  blist s p (l1 ++ (b, q) :: l2) -> Forall (fun bq => 12 <= p_size (snd bq)) (l1 ++ [(b, q)]) -> read_upto off s s' l1 b q io ->
  exists h q', f_bbufs s' !! p = Some h /\ f_bbufs s !! p = Some h /\ f_pages s' !! b_data h = Some q' /\ 12 <= p_size q'.
Proof.
  intros B H (R1 & _ & R3 & (q' & R4 & R4' & _) & _). rewrite R1. destruct l1 as [|[b1 q1] l1]; destruct B as (Eb & _);
    apply Forall_cons in H as [H _]; cbn [snd] in H.
  - exists b, q'. rewrite R4'. done.
  - eexists b1, _. split; [done|]. split; [done|]. split; [apply R3; by left|]. done.
Qed.

(** C39: I/O errors, on a list of buffers of any length in which the transfers of the
    first ones ([l1]) are complete and the next one ([b]) is refused or cut short.  The
    flushes return -1: the blocks of [l1] and the bytes of [b] that went through are on
    the disk, the rest of the disk is as it was.  The error of a read is lost:
    userfs_read_data_block (of a list) and userfs_read_metadata_block (of one buffer)
    return 0, although the page of [b] keeps what it held behind the bytes that arrived
    and the pages of the buffers after it are not read at all. *)
Theorem block_io_errors s p l1 b q l2 io first bsize nr :
  let l := l1 ++ (b, q) :: l2 in
  let flush_fails flush off := Forall (bb_ok off) (l1 ++ [(b, q)]) ->
    exists s', flush first bsize p (Z.of_nat (length l)) s = Some (-1, s') /\
      forall x, d_bytes (f_disk s') x =
        copy (d_bytes (write_all off l1 (plain_disk (f_disk s)))) (off b) (io_part io) (p_get q) 0 x in
  blist s p l -> NoDup (buf_addrs l) -> fails_at (f_disk s) l1 b io ->
  flush_fails userfs_dbbuf_list_flush (db_off first bsize) /\
  flush_fails userfs_mbbuf_list_flush (mb_off first bsize) /\
  (Forall (bb_ok (db_off first bsize)) (l1 ++ [(b, q)]) -> Forall (fun bq => 12 <= p_size (snd bq)) (l1 ++ [(b, q)]) ->
   Forall (fun bq => db_off first bsize (fst bq) + b_size (fst bq) <= d_len (f_disk s)) l1 ->
   (forall h, f_bbufs s !! p = Some h -> b_list_len h = Z.of_nat (length l)) ->
   exists s', userfs_read_data_block p first bsize s = Some (0, s') /\
     (exists q', f_pages s' !! b_data b = Some q' /\ forall i, io_part io <= i -> p_get q' i = p_get q i) /\
     forall b2 q2, (b2, q2) ∈ l2 -> f_pages s' !! b_data b2 = f_pages s !! b_data b2) /\
  (l1 = [] -> io_part io < bsize < 4294967295 -> bsize <= p_size q -> 12 <= p_size q ->
   exists s', userfs_read_metadata_block p first bsize nr s = Some (0, s') /\
     exists q', f_pages s' !! b_data b = Some q' /\ forall i, io_part io <= i -> p_get q' i = p_get q i).
Proof.
  intros l flush_fails B ND Fa. split; [|split; [|split]].
  1-2: intros V; unfold userfs_dbbuf_list_flush, userfs_mbbuf_list_flush; rewrite Nat2Z.id;
    destruct (list_flush_error _ l1 s p b q l2 io B V Fa) as (d & E & Hd); by exists (with_disk s d).
  - intros V Hq L Hh. destruct (list_read_error _ l1 s p b q l2 io B V ND L Fa) as (s1 & E & R).
    destruct (read_upto_head _ s s1 p l1 b q l2 io B Hq R) as (h & qh & E1 & E2 & Ep & Hs).
    unfold userfs_read_data_block, userfs_dbbuf_list_read. step_with (bb_run _ _ _ E2). rewrite (Hh h E2), Nat2Z.id.
    step_with E. change (u32 (-1) <? 0) with false. cbn iota. step_with (bb_run p s1 h E1).
    rewrite (bind_run _ _ _ _ _ (ld_run 4 _ mb_block_type s1 qh _ Ep (load_in 4 qh mb_block_type ltac:(done) ltac:(unfold mb_block_type; lia)))).
    rewrite (bind_run _ _ _ _ _ (bb_set_run p _ s1 h E1)). destruct R as (_ & _ & _ & (q' & R4 & _ & R4') & R5).
    eexists. split; [done|]. split; [by exists q'|]. intros b2 q2 Hin. cbn [f_pages with_bbufs]. apply R5.
    unfold l, buf_addrs in ND |- *. rewrite (cons_middle (b, q)), app_assoc, fmap_app in ND. apply NoDup_app in ND as (_ & ND & _).
    intros Hx. apply (ND _ Hx). apply list_elem_of_fmap. by exists (b2, q2).
  - intros -> Hb Hs Hq. destruct B as (Eb & Eq & _). destruct Fa as (ios & k & Hio & F & _). apply Forall2_nil_inv_r in F as ->.
    unfold userfs_read_metadata_block. rewrite (bind_run _ _ _ _ _ (bb_set_run p _ s b Eb)). set (s0 := with_bbufs s _).
    pose proof (lookup_insert_eq (f_bbufs s) p (set_blocknr nr b)) as Eb0. rewrite (bind_run _ _ _ _ _ (bb_set_run p _ s0 _ Eb0)).
    set (s1 := with_bbufs s0 _). set (b1 := set_size bsize (set_blocknr nr b)) in *.
    pose proof (lookup_insert_eq (f_bbufs s0) p b1) as Eb1. unfold userfs_mbbuf_list_read. change (Z.to_nat 1) with (length ([] ++ [(b1, q)])).
    assert (0 <= mb_off first bsize b1 < 4294967296) by (apply u32_range).
    assert (0 <= io_part io) by (unfold io_part; destruct io; lia).
    destruct (list_read_error (mb_off first bsize) [] s1 p b1 q [] io) as (s2 & E & R).
    { by split. } { repeat constructor; cbn; lia. } { apply NoDup_singleton. } { done. } { exists [], k. split; [done|]. by split. }
    destruct (read_upto_head (mb_off first bsize) s1 s2 p [] b1 q [] io) as (h & qh & E1 & E2 & Ep & Hs2); [by split|by repeat constructor|done|].
    step_with E. change (u32 (-1) <? 0) with false. cbn iota. step_with (bb_run p s2 _ E1).
    rewrite (bind_run _ _ _ _ _ (ld_run 4 _ mb_block_type s2 qh _ Ep (load_in 4 qh mb_block_type ltac:(done) ltac:(unfold mb_block_type; lia)))).
    rewrite (bind_run _ _ _ _ _ (bb_set_run p _ s2 _ E1)). destruct R as (_ & _ & _ & (q' & R4 & _ & R4') & R5).
    eexists. split; [done|]. by exists q'.
Qed.

(** A buffer of a data block of [bsize] bytes. *)
Definition in_dblock (bsize : Z) (b : bbuf) : Prop :=
  0 <= b_blocknr b < 4294967295 /\ 0 <= b_block_s_off b /\ 0 < b_size b /\
  b_block_s_off b + b_size b <= bsize.

Lemma db_off_exact bsize b :
  0 < bsize <= 67108864 -> in_dblock bsize b ->
  db_off 1 bsize b = b_block_s_off b + (b_blocknr b + 1) * bsize.
Proof.
  intros Hb (H1 & H2 & H3 & H4). unfold db_off. rewrite (u32_small (b_blocknr b + 1)) by lia.
  assert (0 <= (b_blocknr b + 1) * bsize <= 4294967296 * 67108864) by nia.
  rewrite (u64_small ((b_blocknr b + 1) * bsize)), u64_small by lia. done.
Qed.

(** The metadata blocks lie in the first [bsize] bytes of the disk, where
    their 32-bit offsets are exact; data block [nr] lies at [(nr + 1) * bsize], so
    that no transfer of a data block touches metadata or another data block. *)
Theorem block_regions_disjoint bsize msize b b' :
  0 < msize -> 0 < bsize <= 67108864 ->
  (0 <= b_blocknr b < bsize / msize ->
     mb_off 0 msize b = msize * b_blocknr b /\ mb_off 0 msize b + msize <= bsize) /\
  (in_dblock bsize b -> db_off 1 bsize b = b_block_s_off b + (b_blocknr b + 1) * bsize /\
     bsize <= db_off 1 bsize b /\
     (in_dblock bsize b' -> b_blocknr b <> b_blocknr b' ->
        db_off 1 bsize b + b_size b <= db_off 1 bsize b' \/
        db_off 1 bsize b' + b_size b' <= db_off 1 bsize b)).
Proof.
  intros Hm Hb. split.
  - intros Hn. unfold mb_off. rewrite Z.add_0_r. pose proof (Z.mul_div_le bsize msize Hm).
    assert (bsize / msize <= bsize) by (apply Z.div_le_upper_bound; nia).
    rewrite (u32_small (b_blocknr b)) by lia.
    assert (0 <= msize * b_blocknr b /\ msize * b_blocknr b + msize <= bsize) by nia.
    rewrite u32_small by lia. lia.
  - intros D. pose proof (db_off_exact bsize b Hb D) as E. rewrite E. destruct D as (H1 & H2 & H3 & H4).
    split; [done|]. split; [nia|]. intros D' N. rewrite (db_off_exact bsize b' Hb D').
    destruct D' as (H1' & H2' & H3' & H4').
    destruct (Z.lt_ge_cases (b_blocknr b) (b_blocknr b')); [left|right]; nia.
Qed.

(** Witnesses: one buffer of 16 bytes for data block 2. *)
Definition demo_bb : bbuf := Bbuf 0 1 0 2 0 16 512.
Definition demo_page : page := Page 16 (fun i => i + 1).
Definition demo_fs (io : list (option Z)) : fs :=
  Fs (Alloc 4096 []) (fun _ _ => 0) {[ 256 := demo_bb ]} {[ 512 := demo_page ]}
     (Disk 0 (fun _ => 0) io) (Freelist 0 0) (Freelist 0 0) ∅ (Bgi 0 [] (Mrheap [] 0 0))
     (Dstore ∅ ∅) (Linkhash 0 0 0 []).

Lemma block_list_roundtrip_witness :
  exists s1 s2, userfs_dbbuf_list_flush 1 4096 256 1 (demo_fs []) = Some (0, s1) /\
    userfs_dbbuf_list_read 1 4096 256 1 (with_pages s1 {[ 512 := Page 16 (fun _ => 0) ]}) = Some (0, s2) /\
    exists q2, f_pages s2 !! 512 = Some q2 /\ p_get q2 3 mod 256 = 4.
Proof.
  destruct (block_list_roundtrip 1 4096 (demo_fs []) 256 [(demo_bb, demo_page)] {[ 512 := Page 16 (fun _ => 0) ]})
    as [H _].
  - done.
  - apply NoDup_singleton.
  - by repeat constructor.
  - intros b q Hin. apply list_elem_of_singleton in Hin. simplify_eq. by exists (Page 16 (fun _ => 0)).
  - destruct H as (s1 & s2 & E1 & E2 & G & _).
    + by split.
    + repeat constructor; vm_compute; congruence.
    + intros i j b q b' q' N Ei Ej. apply lookup_lt_Some in Ei, Ej. simpl in *. lia.
    + exists s1, s2. split; [exact E1|]. split; [exact E2|].
      destruct (G demo_bb demo_page) as (q2 & Eq & _ & B); [by left|].
      exists q2. split; [exact Eq|]. rewrite B by (simpl; lia). done.
Defined.

(** Two buffers; the first transfer is complete, of the second 5 bytes go through. *)
Definition demo_pair (io : list (option Z)) : fs :=
  Fs (Alloc 4096 []) (fun _ _ => 0) {[ 256 := Bbuf 320 2 0 2 0 16 512; 320 := Bbuf 0 1 0 3 0 16 768 ]}
     {[ 512 := demo_page; 768 := demo_page ]}
     (Disk 65536 (fun _ => 0) io) (Freelist 0 0) (Freelist 0 0) ∅ (Bgi 0 [] (Mrheap [] 0 0))
     (Dstore ∅ ∅) (Linkhash 0 0 0 []).

Lemma block_io_errors_witness :
  (exists s', userfs_dbbuf_list_flush 1 4096 256 2 (demo_pair [Some 16; Some 5]) = Some (-1, s') /\
     d_bytes (f_disk s') 16386 = 3 /\ d_bytes (f_disk s') 16390 = 0) /\
  exists s', userfs_read_data_block 256 1 4096 (demo_pair [Some 16; Some 5]) = Some (0, s') /\
    exists q', f_pages s' !! 768 = Some q' /\ forall i, 5 <= i -> p_get q' i = i + 1.
Proof.
  destruct (block_io_errors (demo_pair [Some 16; Some 5]) 256 [(Bbuf 320 2 0 2 0 16 512, demo_page)]
    (Bbuf 0 1 0 3 0 16 768) demo_page [] (Some 5) 1 4096 0) as (F & _ & R & _).
  - by split_and!.
  - apply (bool_decide_unpack _). by vm_compute.
  - exists [Some 16], []. split; [reflexivity|]. split; [repeat constructor; by exists 16|]. cbn. lia.
  - split.
    + destruct F as (s' & E & D); [repeat constructor; vm_compute; congruence|]. exists s'. split; [exact E|]. rewrite !D. by vm_compute.
    + destruct R as (s' & E & H & _); try (repeat constructor; vm_compute; congruence).
      { intros h Eh. by injection Eh as <-. }
      exists s'. split; [exact E|]. exact H.
Defined.

Lemma block_regions_disjoint_witness :
  mb_off 0 16384 demo_bb = 32768 /\ db_off 1 67108864 demo_bb = 3 * 67108864.
Proof.
  destruct (block_regions_disjoint 67108864 16384 demo_bb demo_bb) as [H1 H2]; [lia|lia|].
  split; [apply H1; vm_compute; intuition congruence|].
  destruct H2 as [-> _]; [repeat split; vm_compute; congruence|done].
Defined.
