(* ===== verification/FileCtrl.v ===== *)
(** * FileCtrl: data blocks, inodes and directory entries
    (userfs/userfs_file_ctrl.c)

    A pointer to the super block or to the dentry table is the address of the page
    that holds it; a pointer to a block group descriptor is a page and an offset.
    The index list and its heap are in the state.  The spin lock around the free
    list is taken and released by the one thread of the model. *)
From S2P Require Import Prelude Atomic Bitmap MrHeap DentryHash Fs BlockBuf.
Local Open Scope Z_scope.

Definition USERFS_DEFAULT_MAX_DBBUF_FREE_LIST_LEN : Z := 256.

Definition dfree : fsM freelist := act (fun s => Some (f_dfree s, s)).
Definition set_dfree (x : freelist) : fsM unit := act (fun s => Some (tt, with_dfree s x)).

(** A buffer from the free list, or a new one with a page of its own. *)
Definition userfs_alloc_dbbuf (dblock_shardsize : Z) : fsM Z :=
  l ← dfree;
  if negb (fl_head l =? NULL) then
    let db_buf := fl_head l in
    b ← bb db_buf;
    set_dfree (Freelist (b_this_page b) (atomic_sub (fl_len l) 1));;;
    bb_set db_buf (fun _ => bbuf_zero);;;
    bb_set db_buf (set_size dblock_shardsize);;;
    mret db_buf
  else
    db_buf ← mem_alloc sizeof_bbuf;
    if db_buf =? NULL then mret NULL
    else
      bb_new db_buf;;;
      data ← mem_alloc dblock_shardsize;
      bb_set db_buf (set_data data);;;
      if data =? NULL then bb_free db_buf;;; mret NULL
      else
        pg_new data dblock_shardsize;;;
        bb_set db_buf (set_size dblock_shardsize);;;
        mret db_buf.

Definition userfs_free_dbbuf (db_buf : Z) : fsM unit :=
  l ← dfree;
  let free_dbbuf_count := atomic_get (fl_len l) in
  if USERFS_DEFAULT_MAX_DBBUF_FREE_LIST_LEN <? free_dbbuf_count then
    b ← bb db_buf;
    pg_free (b_data b);;;
    bb_free db_buf
  else
    bb_set db_buf (set_this_page (fl_head l));;;
    b ← bb db_buf;
    set_dfree (Freelist (b_this_page b) (atomic_add (fl_len l) 1)).

(** The page and the offset of a block group descriptor. *)
Definition userfs_bgdidx2bgd (bgd_per_mb_count bgd_nr bgd_size : Z) : fsM (Z * Z) :=
  if bgd_per_mb_count =? 0 then lift None
  else
    let bgd_mb_nr := bgd_nr / bgd_per_mb_count in
    let bgd_off := bgd_nr mod bgd_per_mb_count in
    bgd_mb ← act (fun s => match bgi_blocknr2bbuf (f_bgi s) !! Z.to_nat bgd_mb_nr with
                           | Some p => Some (p, s) | None => None end);
    b ← bb bgd_mb;
    mret (b_data b, mb_union + u32 (bgd_size * bgd_off)).

(** The heap operations on the heap of the index list. *)
Definition heaptop : fsM Z := act (fun s =>
  match userfs_mrheap_get_heaptop (bgi_maxroot_heap (f_bgi s)) with
  | Some p => Some (p, s) | None => None end).
Definition set_heap (i : bgd_index_list) (h : mrheap) : bgd_index_list :=
  Bgi (bgi_bgd_mb_count i) (bgi_blocknr2bbuf i) h.
Definition extract_heaptop : fsM Z := act (fun s =>
  match userfs_mrheap_extract_heaptop (f_elems s) (bgi_maxroot_heap (f_bgi s)) with
  | Some (p, h) => Some (p, with_heap s (f_alloc s) (f_elems s) (set_heap (f_bgi s) h))
  | None => None end).
Definition heap_insert (nr free elem_ptr : Z) : fsM Z := act (fun s =>
  match userfs_mrheap_insert (f_alloc s) (f_elems s) (bgi_maxroot_heap (f_bgi s)) nr free elem_ptr with
  | Some (p, a, es, h) => Some (p, with_heap s a es (set_heap (f_bgi s) h))
  | None => None end).
Definition heap_elem (p : Z) : fsM mrheap_elem := act (fun s =>
  match f_elems s !! p with Some e => Some (e, s) | None => None end).

(** [bitmap_get_first_free] of the bitmap at an offset of a page. *)
Definition bm_get_first_free (a o : Z) : fsM Z :=
  p ← pg a;
  '(p, r) ← lift (bitmap_get_first_free p (Some o));
  pg_set a p;;;
  mret r.

(** The block is found: the counters and the heap go down by one and the buffer
    gets the number. *)
Definition dblock_assign (sb db_buf : Z) (bgd : Z * Z) (bg_dblock_nr : Z) : fsM Z :=
  top ← extract_heaptop;
  n ← ld 4 sb s_free_data_block_count;
  st 4 sb s_free_data_block_count (u32 (n - 1));;;
  n ← ld 2 (fst bgd) (snd bgd + bg_free_block_count);
  st 2 (fst bgd) (snd bgd + bg_free_block_count) (u16 (n - 1));;;
  e ← heap_elem top;
  _ ← heap_insert (bgi_bgroup_nr e) (u32 (bgi_free_blocks_count e - 1)) top;
  e ← heap_elem top;
  per_group ← ld 4 sb s_data_block_per_group;
  let dblock_nr := u32 (bgi_bgroup_nr e * per_group) in
  bb_set db_buf (set_s_off 0);;;
  bb_set db_buf (set_list_len 1);;;
  bb_set db_buf (set_blocknr (u32 (dblock_nr + bg_dblock_nr)));;;
  bb_set db_buf (set_type USERFS_BTYPE_DATA);;;
  mret db_buf.

(** The message of the error branch reads the group number through the pointer. *)
Definition userfs_get_new_dblock (sb dblock_shard_size : Z) : fsM Z :=
  db_buf ← userfs_alloc_dbbuf dblock_shard_size;
  if db_buf =? NULL then mret NULL
  else
    top ← heaptop;
    e ← heap_elem top;
    if bgi_free_blocks_count e =? 0 then userfs_free_dbbuf db_buf;;; mret NULL
    else
      per_mb ← ld 4 sb s_bgroup_desc_per_mb_count;
      bgd_size ← ld 4 sb s_bgroup_desc_size;
      bgd ← userfs_bgdidx2bgd per_mb (bgi_bgroup_nr e) bgd_size;
      r ← bm_get_first_free (fst bgd) (snd bgd + bg_block_bm);
      let bg_dblock_nr := u32 r in
      if bg_dblock_nr =? u32 (-1) then userfs_free_dbbuf db_buf;;; mret NULL
      else
        dblock_assign sb db_buf bgd bg_dblock_nr.

Definition userfs_get_used_dblock (sb target_dblock_id dblock_off dblock_shard_size : Z) : fsM Z :=
  db_buf ← userfs_alloc_dbbuf dblock_shard_size;
  if db_buf =? NULL then mret NULL
  else
    bb_set db_buf (set_list_len 1);;;
    bb_set db_buf (set_blocknr target_dblock_id);;;
    bb_set db_buf (set_s_off dblock_off);;;
    bb_set db_buf (set_size dblock_shard_size);;;
    first ← ld 4 sb s_first_datablock;
    bsize ← ld 4 sb s_data_block_size;
    r ← userfs_read_data_block db_buf first bsize;
    if negb (r =? 0) then mret NULL else mret db_buf.

(** The bodies are empty. *)
Definition userfs_free_used_dblock : fsM unit := mret tt.
Definition userfs_free_used_inode : fsM unit := mret tt.

(** Three [memcpy]s through a temporary. *)
Definition userfs_dentry_exchange (p : page) (first second : Z) : option page :=
  if in_page p first USERFS_DENTRY_SIZE && in_page p second USERFS_DENTRY_SIZE then
    let tmp := copy (fun _ => 0) 0 USERFS_DENTRY_SIZE (p_get p) first in
    let f := copy (p_get p) first USERFS_DENTRY_SIZE (p_get p) second in
    Some (Page (p_size p) (copy f second USERFS_DENTRY_SIZE tmp 0))
  else None.

(** [tv_sec]: the time of the call. *)
Definition userfs_get_new_inode (sb dblock_shard_size tv_sec : Z) : fsM Z :=
  inode_bbuf ← userfs_get_new_dblock sb dblock_shard_size;
  if inode_bbuf =? NULL then mret NULL
  else
    b ← bb inode_bbuf;
    let inode := b_data b in
    pg_upd inode (fun p => memset p 0 0 USERFS_INODE_SIZE);;;
    st 8 inode i_ctime tv_sec;;;
    st 8 inode i_atime tv_sec;;;
    st 8 inode i_mtime tv_sec;;;
    st 8 inode i_dtime 0;;;
    st 4 inode i_size 0;;;
    st 8 inode (i_v2pnode_table 0) (b_blocknr b);;;
    mret inode_bbuf.

Definition userfs_get_used_inode (sb inode_dblock_nr dblock_shard_size : Z) : fsM Z :=
  userfs_get_used_dblock sb inode_dblock_nr 0 dblock_shard_size.

(** On the page of the dentry table: the position, or [UINT32_MAX]. *)
Definition userfs_alloc_dentry (p : page) : option (Z * page) :=
  used ← load32 p dfd_used_dentry_count;
  count ← load32 p dfd_dentry_count;
  if used =? count then Some (UINT32_MAX, p)
  else
    p ← store32 p dfd_used_dentry_count (u32 (used + 1));
    new_dentry_pos ← load32 p dfd_first_free_dentry;
    if count =? 0 then None
    else
      p ← store32 p dfd_first_free_dentry (u32 (new_dentry_pos + 1) mod count);
      Some (new_dentry_pos, p).

(** The result is -1 unless an entry was moved into the freed place. *)
Definition userfs_free_dentry (p : page) (dentry_pos : Z) : option (Z * page) :=
  first ← load32 p dfd_first_dentry;
  first_free ← load32 p dfd_first_free_dentry;
  if (dentry_pos <? first) && (first_free <=? dentry_pos) then Some (-1, p)
  else
    '(res, p) ←
      (if negb (dentry_pos =? first) then
         p ← userfs_dentry_exchange p (dentry_at dentry_pos) (dentry_at first); Some (0, p)
       else Some (-1, p));
    count ← load32 p dfd_dentry_count;
    if count =? 0 then None
    else
      p ← store32 p dfd_first_dentry (u32 (first + 1) mod count);
      used ← load32 p dfd_used_dentry_count;
      p ← store32 p dfd_used_dentry_count (u32 (used - 1));
      Some (res, p).

Definition userfs_name2inode (nm : list Z) (pos name_len : Z) : fsM (Z * Z) := act (fun s =>
  match userfs_dentry_hash_get (f_dstore s) (Some (f_table s)) nm name_len pos with
  | Some r => Some (r, s) | None => None end).

(** ** Buffers *)

(** Nothing lives at an address that malloc has not handed out yet. *)
Record mem_ok (s : fs) : Prop := {
  mo_alloc : alloc_ok (f_alloc s);
  mo_bbufs : forall x, a_next (f_alloc s) <= x -> f_bbufs s !! x = None;
  mo_pages : forall x, a_next (f_alloc s) <= x -> f_pages s !! x = None;
  mo_elems : forall x, a_next (f_alloc s) <= x -> f_elems s !! x = None;
  mo_null : f_elems s !! NULL = None }.

(** [s] with a new buffer [r] of [n] bytes whose page is at [data]. *)
Definition new_buf (s : fs) (a : alloc) (r data n : Z) : fs :=
  with_pages (with_bbufs (with_alloc s a) (<[r := Bbuf 0 0 0 0 0 n data]> (f_bbufs s)))
    (<[data := Page n (f_garbage s data)]> (f_pages s)).

Lemma mem_ok_alloc s a :
  mem_ok s -> alloc_ok a -> a_next (f_alloc s) <= a_next a -> mem_ok (with_alloc s a).
Proof.
  intros [M1 M2 M3 M4 M5] Ha Hle. split; cbn; try done; intros x Hx.
  - apply M2; lia.
  - apply M3; lia.
  - apply M4; lia.
Qed.

(** The memory of a buffer with [n] bytes. *)
Definition dbbuf_memory (n : Z) : Z := 32 + sizeof_bbuf + n.

Lemma alloc_dbbuf_run s n :
  mem_ok s -> fl_head (f_dfree s) = NULL -> 0 <= n ->
  exists r s', userfs_alloc_dbbuf n s = Some (r, s') /\ mem_ok s' /\
    spends (f_alloc s) (f_alloc s') (dbbuf_memory n) /\
    (r = NULL /\ s' = with_alloc s (f_alloc s') /\
       (fst (malloc (f_alloc s) sizeof_bbuf) = NULL \/
        fst (malloc (snd (malloc (f_alloc s) sizeof_bbuf)) n) = NULL) \/
     r <> NULL /\ exists data, data <> NULL /\ s' = new_buf s (f_alloc s') r data n /\
       a_next (f_alloc s) <= r /\ a_next (f_alloc s) <= data).
Proof.
  intros M Hl Hn. unfold userfs_alloc_dbbuf. rewrite (bind_run _ _ s (f_dfree s) s eq_refl).
  rewrite Hl. change (negb (NULL =? NULL)) with false. cbn iota.
  pose proof (malloc_cases (f_alloc s) sizeof_bbuf (mo_alloc _ M) ltac:(done)) as C.
  pose proof (spends_malloc (f_alloc s) sizeof_bbuf ltac:(done)) as S1.
  destruct (malloc (f_alloc s) sizeof_bbuf) as [r a] eqn:E1. destruct C as (Ha & Hle & C). cbn [fst snd] in *.
  rewrite (bind_run _ _ s r (with_alloc s a)) by (unfold mem_alloc; by rewrite E1).
  destruct (Z.eqb_spec r NULL) as [->|Nr].
  { eexists _, _. split; [done|]. split; [by apply mem_ok_alloc|].
    split; [eapply spends_weaken; [exact S1|unfold dbbuf_memory; lia]|]. left. auto. }
  destruct C as [?|(-> & Hr & Hs)]; [done|]. set (r := a_next (f_alloc s)) in *.
  unfold sizeof_bbuf in Hs.
  rewrite (bind_run (bb_new r) _ _ tt (with_bbufs (with_alloc s a) (<[r := bbuf_zero]> (f_bbufs s))) eq_refl).
  pose proof (malloc_cases a n Ha Hn) as C. pose proof (spends_malloc a n Hn) as S2.
  destruct (malloc a n) as [data a2] eqn:E2. destruct C as (Ha2 & Hle2 & C). cbn [snd] in S2.
  assert (S3 : spends (f_alloc s) a2 (dbbuf_memory n)).
  { eapply spends_weaken; [apply (spends_trans _ _ _ _ _ S1 S2); lia|unfold dbbuf_memory; lia]. }
  set (s1 := with_alloc (with_bbufs (with_alloc s a) (<[r := bbuf_zero]> (f_bbufs s))) a2).
  rewrite (bind_run (mem_alloc n) _ _ data s1) by (unfold mem_alloc; cbn [f_alloc with_bbufs with_alloc]; by rewrite E2).
  assert (Eb : f_bbufs s1 !! r = Some bbuf_zero) by apply lookup_insert_eq.
  rewrite (bind_run _ _ _ _ _ (bb_set_run r (set_data data) s1 _ Eb)).
  cbn [f_bbufs s1 with_alloc with_bbufs]. rewrite insert_insert_eq.
  destruct (Z.eqb_spec data NULL) as [->|Nd].
  { eexists _, _. split; [done|]. split; [|split; [done|left; split; [done|]]].
    - destruct M as [M1 M2 M3 M4 M5]. split; cbn; try done; intros x Hx.
      + rewrite lookup_delete_ne, lookup_insert_ne by lia. apply M2. lia.
      + apply M3. lia.
      + apply M4. lia.
    - split; [|by right]. cbn [f_bbufs with_bbufs].
      rewrite delete_insert_eq, delete_id by (by apply (mo_bbufs _ M)). reflexivity. }
  destruct C as [?|(-> & Hd & Hs2)]; [done|]. set (data := a_next a) in *.
  assert (r < data) by lia.
  eexists r, _. split; [|split; [|split; [|right; split; [done|exists data; split; [done|split]]]]].
  - set (s2 := with_bbufs _ _).
    rewrite (bind_run (pg_new data n) _ s2 tt (with_pages s2 (<[data := Page n (f_garbage s data)]> (f_pages s))) eq_refl).
    set (s3 := with_pages _ _). assert (Eb3 : f_bbufs s3 !! r = Some (set_data data bbuf_zero)) by apply lookup_insert_eq.
    rewrite (bind_run _ _ _ _ _ (bb_set_run r (set_size n) s3 _ Eb3)).
    cbn [f_bbufs s3 s2 with_pages with_bbufs]. rewrite insert_insert_eq. reflexivity.
  - destruct M as [M1 M2 M3 M4 M5]. split; cbn; try done; intros x Hx.
    + rewrite lookup_insert_ne by lia. apply M2. lia.
    + rewrite lookup_insert_ne by lia. apply M3. lia.
    + apply M4. lia.
  - done.
  - reflexivity.
  - lia.
Qed.

(** ** Block groups

    The descriptors of [g_count] groups lie [g_per_mb] to a metadata block, each
    with a bitmap of [g_bytes] bytes for the [g_blocks] blocks of the group.  The scan
    for a free bit reads the bit behind the bitmap when the last block of a group is
    taken; [g_clean] says that this bit is known to be clear.  malloc does not promise
    it, so without [g_clean] all but the last block of a group can be taken. *)

Record geometry := Geometry { g_per_mb : Z; g_bgd_size : Z; g_blocks : Z; g_bytes : Z; g_count : Z; g_clean : bool }.

Definition g_limit (G : geometry) : Z := if g_clean G then g_blocks G else g_blocks G - 1.

Record geometry_ok (G : geometry) : Prop := {
  ge_per_mb : 0 < g_per_mb G;
  ge_bytes : 0 < g_bytes G < 268435456;
  ge_blocks : g_blocks G = 8 * g_bytes G;
  ge_room : sizeof_bgroup_desc + g_bytes G < g_bgd_size G;
  ge_size : g_bgd_size G * g_per_mb G < 4294967296;
  ge_count : 0 <= g_count G /\ g_count G * g_blocks G <= 4294967295 }.

Definition bgd_off (G : geometry) (g : Z) : Z := mb_union + g_bgd_size G * (g mod g_per_mb G).
Definition bgd_mb (G : geometry) (g : Z) : nat := Z.to_nat (g / g_per_mb G).

Lemma g_limit_le G : g_limit G <= g_blocks G.
Proof. unfold g_limit. destruct (g_clean G); lia. Qed.

(** [taken g] blocks of group [g] are in use, the first ones; the heap has one
    element per group, with the number of its free blocks.  [pas] are the pages of
    the descriptor blocks. *)
Record groups_ok (s : fs) (sb : Z) (G : geometry) (pas : list Z) (taken : Z -> Z) : Prop := {
  go_geom : geometry_ok G;
  go_sb : exists q, f_pages s !! sb = Some q /\ 92 <= p_size q /\
    le_read 4 (p_get q) s_bgroup_desc_per_mb_count = g_per_mb G /\
    le_read 4 (p_get q) s_bgroup_desc_size = g_bgd_size G /\
    le_read 4 (p_get q) s_data_block_per_group = g_blocks G;
  go_tab : Forall2 (fun buf pa => exists b, f_bbufs s !! buf = Some b /\ b_data b = pa)
    (bgi_blocknr2bbuf (f_bgi s)) pas;
  go_nodup : NoDup (sb :: pas);
  go_pages : forall pa, pa ∈ pas -> is_Some (f_pages s !! pa);
  go_group : forall g, 0 <= g < g_count G -> exists pa q,
    pas !! bgd_mb G g = Some pa /\ f_pages s !! pa = Some q /\
    bgd_off G g + g_bgd_size G <= p_size q /\
    packed (g_limit G) q (bgd_off G g + bg_block_bm) (g_bytes G) /\
    first q (bgd_off G g + bg_block_bm) = taken g /\
    le_read 2 (p_get q) (bgd_off G g + bg_free_block_count) = g_blocks G - taken g;
  go_heap : heap_wf (f_elems s) (bgi_maxroot_heap (f_bgi s));
  go_heap_nodup : NoDup (used (bgi_maxroot_heap (f_bgi s)));
  go_elems : forall p, p ∈ used (bgi_maxroot_heap (f_bgi s)) -> exists e, f_elems s !! p = Some e /\
    0 <= bgi_bgroup_nr e < g_count G /\ bgi_free_blocks_count e = g_blocks G - taken (bgi_bgroup_nr e);
  go_inj : forall p p' e e', p ∈ used (bgi_maxroot_heap (f_bgi s)) -> p' ∈ used (bgi_maxroot_heap (f_bgi s)) ->
    f_elems s !! p = Some e -> f_elems s !! p' = Some e' -> bgi_bgroup_nr e = bgi_bgroup_nr e' -> p = p';
  go_all : forall g, 0 <= g < g_count G -> exists p e, p ∈ used (bgi_maxroot_heap (f_bgi s)) /\
    f_elems s !! p = Some e /\ bgi_bgroup_nr e = g }.

(** Two descriptors in one block do not overlap. *)
Lemma bgd_disjoint G g g' :
  geometry_ok G -> 0 <= g -> 0 <= g' -> g <> g' -> bgd_mb G g = bgd_mb G g' ->
  bgd_off G g + g_bgd_size G <= bgd_off G g' \/ bgd_off G g' + g_bgd_size G <= bgd_off G g.
Proof.
  intros [G1 G2 G3 G4 G5 G6] Hg Hg' N E. unfold bgd_mb, bgd_off in *.
  pose proof (Z.div_pos g (g_per_mb G) Hg G1). pose proof (Z.div_pos g' (g_per_mb G) Hg' G1).
  assert (E' : g / g_per_mb G = g' / g_per_mb G) by lia.
  pose proof (Z.div_mod g (g_per_mb G) ltac:(lia)). pose proof (Z.div_mod g' (g_per_mb G) ltac:(lia)).
  assert (g mod g_per_mb G <> g' mod g_per_mb G) by congruence.
  unfold sizeof_bgroup_desc in G4.
  destruct (Z.lt_ge_cases (g mod g_per_mb G) (g' mod g_per_mb G)); [left|right]; nia.
Qed.

Lemma bgd_off_bounds G g :
  geometry_ok G -> 0 <= g -> 0 <= bgd_off G g - mb_union /\
  u32 (g_bgd_size G * (g mod g_per_mb G)) = bgd_off G g - mb_union.
Proof.
  intros [G1 G2 G3 G4 G5 G6] Hg. unfold bgd_off, sizeof_bgroup_desc in *.
  pose proof (Z.mod_pos_bound g (g_per_mb G) G1).
  assert (0 <= g_bgd_size G * (g mod g_per_mb G) < 4294967296) by nia.
  split; [lia|]. rewrite u32_small by lia. lia.
Qed.

(** Taking a block of a group in its descriptor page. *)
Lemma bgd_take G q g :
  geometry_ok G -> 0 <= g ->
  let o := bgd_off G g in
  o + g_bgd_size G <= p_size q -> packed (g_limit G) q (o + bg_block_bm) (g_bytes G) ->
  first q (o + bg_block_bm) < g_limit G ->
  exists q1, bitmap_get_first_free q (Some (o + bg_block_bm)) = Some (q1, first q (o + bg_block_bm)) /\
    p_size q1 = p_size q /\
    le_read 2 (p_get q1) (o + bg_free_block_count) = le_read 2 (p_get q) (o + bg_free_block_count) /\
    forall v q2, store 2 q1 (o + bg_free_block_count) v = Some q2 ->
      p_size q2 = p_size q /\ packed (g_limit G) q2 (o + bg_block_bm) (g_bytes G) /\
      first q2 (o + bg_block_bm) = first q (o + bg_block_bm) + 1 /\
      le_read 2 (p_get q2) (o + bg_free_block_count) = u16 v /\
      (forall x, x < o \/ o + g_bgd_size G <= x -> p_get q2 x = p_get q x).
Proof.
  intros GO Hg o Ho P Hf. destruct (bgd_off_bounds G g GO Hg) as [Hb _]. fold o in Hb.
  destruct GO as [G1 G2 G3 G4 G5 G6]. unfold mb_union, sizeof_bgroup_desc in *.
  destruct (packed_step _ q (o + bg_block_bm) (g_bytes G) P) as (q1 & E & P1 & F1 & S1 & Fr); [lia|].
  exists q1. split; [done|]. split; [done|].
  split; [apply le_read_ext; intros x Hx; rewrite Fr; [done|]; unfold bg_free_block_count, bg_block_bm in *; bm_unfold; lia|].
  intros v q2 E2. unfold store in E2. case_match; [|done].
  injection E2 as <-. cbn [p_size]. unfold bg_block_bm, bg_free_block_count in *.
  destruct (packed_ext (g_limit G) q1 (Page (p_size q1) (le_write 2 (p_get q1) (o + 2) v)) (o + 4) (g_bytes G)) as [P2 F2];
    [done| |done|].
  { intros x Hx. cbn [p_get]. apply le_write_outside. lia. }
  split; [done|]. split; [done|]. split; [lia|]. split; [cbn [p_get]; by rewrite le_read_write_same|]. intros x Hx. cbn [p_get].
  rewrite le_write_outside by lia. apply Fr. bm_unfold. lia.
Qed.

Definition bbufs_kept (s s' : fs) : Prop :=
  forall buf b, f_bbufs s !! buf = Some b -> exists b', f_bbufs s' !! buf = Some b' /\ b_data b' = b_data b.

(** The buffers of the pages [pas] are kept. *)
Definition pages_kept (s s' : fs) (pas : list Z) : Prop :=
  forall buf b, f_bbufs s !! buf = Some b -> b_data b ∈ pas -> exists b', f_bbufs s' !! buf = Some b' /\ b_data b' = b_data b.

Lemma go_tab_frame s s' (t : list Z) pas :
  pages_kept s s' pas ->
  Forall2 (fun buf pa => exists b, f_bbufs s !! buf = Some b /\ b_data b = pa) t pas ->
  Forall2 (fun buf pa => exists b, f_bbufs s' !! buf = Some b /\ b_data b = pa) t pas.
Proof.
  rewrite !Forall2_same_length_lookup. intros K [L F]. split; [done|]. intros i buf pa Hb Hp.
  destruct (F i buf pa Hb Hp) as (b & E & D).
  destruct (K buf b E) as (b' & E' & D'); [rewrite D; by eapply list_elem_of_lookup_2|]. exists b'. by rewrite D'.
Qed.

Lemma groups_ok_keep s s' sb G pas taken :
  groups_ok s sb G pas taken -> f_elems s' = f_elems s -> f_bgi s' = f_bgi s -> pages_kept s s' pas ->
  (forall a, a ∈ sb :: pas -> f_pages s' !! a = f_pages s !! a) -> groups_ok s' sb G pas taken.
Proof.
  intros [O1 O2 O3 O4 OP O5 O6 O7 O8 O9 O10] Ee Eb K P.
  split; rewrite ?Ee, ?Eb; try done.
  - rewrite P by (by left). done.
  - by apply (go_tab_frame s).
  - intros pa Hpa. rewrite P by (by right). auto.
  - intros g Hg. destruct (O5 g Hg) as (pa & q & E1 & E2 & H). exists pa, q. split; [done|].
    rewrite P; [done|]. right. by eapply list_elem_of_lookup_2.
Qed.

Lemma groups_ok_frame s s' sb G pas taken :
  groups_ok s sb G pas taken -> f_elems s' = f_elems s -> f_bgi s' = f_bgi s -> bbufs_kept s s' ->
  (forall a, a ∈ sb :: pas -> f_pages s' !! a = f_pages s !! a) -> groups_ok s' sb G pas taken.
Proof. intros GO Ee Eb K. apply groups_ok_keep; try done. intros buf b E _. by apply K. Qed.

(** The group of the largest heap element loses a block. *)
Lemma groups_ok_take s s' sb G pas taken top e g pa q q2 h2 sq sq' :
  groups_ok s sb G pas taken ->
  top ∈ used (bgi_maxroot_heap (f_bgi s)) -> f_elems s !! top = Some e -> bgi_bgroup_nr e = g ->
  pas !! bgd_mb G g = Some pa -> f_pages s !! pa = Some q -> f_pages s !! sb = Some sq ->
  f_elems s' = <[top := Elem (bgi_free_blocks_count e - 1) g]> (f_elems s) ->
  f_bgi s' = set_heap (f_bgi s) h2 -> heap_wf (f_elems s') h2 ->
  used h2 ≡ₚ used (bgi_maxroot_heap (f_bgi s)) ->
  bbufs_kept s s' ->
  f_pages s' !! pa = Some q2 -> f_pages s' !! sb = Some sq' ->
  (forall a, a ∈ pas -> a <> pa -> f_pages s' !! a = f_pages s !! a) ->
  p_size q2 = p_size q -> packed (g_limit G) q2 (bgd_off G g + bg_block_bm) (g_bytes G) ->
  first q2 (bgd_off G g + bg_block_bm) = taken g + 1 ->
  le_read 2 (p_get q2) (bgd_off G g + bg_free_block_count) = g_blocks G - (taken g + 1) ->
  (forall x, x < bgd_off G g \/ bgd_off G g + g_bgd_size G <= x -> p_get q2 x = p_get q x) ->
  p_size sq' = p_size sq ->
  (forall o, 0 <= o -> o + 4 <= s_free_data_block_count \/ s_free_data_block_count + 4 <= o ->
     le_read 4 (p_get sq') o = le_read 4 (p_get sq) o) ->
  groups_ok s' sb G pas (fun x => if x =? g then taken g + 1 else taken x).
Proof.
  intros O Ht Ee Eg Epa Eq Esq Ee' Eb' W U K Eq2 Esq' Pf S2 P2 F2 C2 Out S' R'.
  pose proof O as [O1 O2 O3 O4 OP O5 O6 O7 O8 O9 O10].
  split; rewrite ?Eb'; cbn [bgi_maxroot_heap bgi_blocknr2bbuf set_heap]; try done.
  - destruct O2 as (sq0 & E0 & H1 & H2 & H3 & H4). rewrite Esq in E0. injection E0 as <-.
    exists sq'. split; [done|]. rewrite S'.
    rewrite !R' by (unfold s_bgroup_desc_per_mb_count, s_bgroup_desc_size, s_data_block_per_group,
      s_free_data_block_count, mb_union; lia). done.
  - apply (go_tab_frame s); [|done]. intros buf b E _. by apply K.
  - intros a Ha. destruct (decide (a = pa)) as [->|]; [by rewrite Eq2|]. rewrite Pf by done. auto.
  - intros g' Hg'. destruct (O5 g' Hg') as (pa' & q' & E1 & E2 & H1 & H2 & H3 & H4).
    destruct (Z.eqb_spec g' g) as [->|Ng].
    { rewrite Epa in E1. injection E1 as <-. rewrite Eq in E2. injection E2 as <-.
      exists pa, q2. rewrite S2. done. }
    destruct (decide (pa' = pa)) as [->|Np].
    + rewrite Eq in E2. injection E2 as <-. exists pa, q2. split; [done|]. split; [done|].
      split; [by rewrite S2|].
      assert (Em : bgd_mb G g = bgd_mb G g').
      { apply (NoDup_lookup pas _ _ pa); [by apply NoDup_cons in O4 as [_ ?]|done|done]. }
      destruct (O8 top Ht) as (e0 & E0 & Hr & _). rewrite Ee in E0. injection E0 as <-. rewrite Eg in Hr.
      pose proof (bgd_disjoint G g g' O1 ltac:(lia) ltac:(lia) (not_eq_sym Ng) Em) as D.
      pose proof (bgd_off_bounds G g' O1 ltac:(lia)) as [B _].
      destruct O1 as [_ G2 _ G4 _ _]. unfold sizeof_bgroup_desc in G4.
      destruct (packed_ext (g_limit G) q q2 (bgd_off G g' + bg_block_bm) (g_bytes G)) as [Hp Hf]; [done| |done|].
      * intros x Hx. apply Out. unfold bg_block_bm, bm_bitmap in *. lia.
      * split; [done|]. rewrite Hf. split; [done|]. rewrite <- H4. apply le_read_ext. intros x Hx. rewrite Out; [done|].
        unfold bg_free_block_count in Hx. lia.
    + exists pa', q'. split; [done|]. rewrite Pf; [done| |done]. by eapply list_elem_of_lookup_2.
  - by rewrite U.
  - intros p. rewrite U, Ee'. intros Hp. destruct (decide (p = top)) as [->|Np].
    + rewrite lookup_insert_eq. eexists. split; [done|]. cbn. rewrite Z.eqb_refl.
      destruct (O8 top Ht) as (e0 & E0 & Hr & Hf). rewrite Ee in E0. injection E0 as <-.
      rewrite Eg in *. lia.
    + rewrite lookup_insert_ne by done. destruct (O8 p Hp) as (e0 & E0 & Hr & Hf). exists e0.
      split; [done|]. split; [done|]. destruct (Z.eqb_spec (bgi_bgroup_nr e0) g) as [Eg0|]; [|done].
      destruct Np. apply (O9 p top e0 e); try done. congruence.
  - assert (Nr : forall p x, (<[top := Elem (bgi_free_blocks_count e - 1) g]> (f_elems s)) !! p = Some x ->
      exists y, f_elems s !! p = Some y /\ bgi_bgroup_nr y = bgi_bgroup_nr x).
    { intros p x Hx. destruct (decide (p = top)) as [->|].
      - rewrite lookup_insert_eq in Hx. injection Hx as <-. by exists e.
      - rewrite lookup_insert_ne in Hx by done. eauto. }
    intros p p' x x'. rewrite U, Ee'. intros Hp Hp' Hx Hx' En.
    destruct (Nr _ _ Hx) as (y & Hy & Ey), (Nr _ _ Hx') as (y' & Hy' & Ey').
    apply (O9 p p' y y'); try done. congruence.
  - intros g' Hg'. destruct (O10 g' Hg') as (p & e0 & Hp & E0 & En). rewrite Ee'.
    destruct (decide (p = top)) as [->|]; [exists top|exists p].
    + eexists. rewrite U, lookup_insert_eq. split; [done|]. split; [done|]. cbn. congruence.
    + exists e0. rewrite U, lookup_insert_ne by done. auto.
Qed.

(** What an attempt to take a block leaves alone. *)
Record other_state (s s' : fs) : Prop := {
  os_garbage : f_garbage s' = f_garbage s;
  os_disk : f_disk s' = f_disk s;
  os_mfree : f_mfree s' = f_mfree s;
  os_dstore : f_dstore s' = f_dstore s;
  os_table : f_table s' = f_table s }.

Lemma other_state_trans s s' s'' : other_state s s' -> other_state s' s'' -> other_state s s''.
Proof. intros [] []. split; congruence. Qed.

(** What reading a block into a new buffer leaves alone. *)
Record kept_state (s s' : fs) : Prop := {
  ks_other : other_state s s';
  ks_dfree : f_dfree s' = f_dfree s;
  ks_elems : f_elems s' = f_elems s;
  ks_bgi : f_bgi s' = f_bgi s }.

(** [userfs_free_dbbuf] with an empty free list: the list stays empty. *)
Lemma free_dbbuf_run s r b :
  mem_ok s -> fl_head (f_dfree s) = NULL -> f_bbufs s !! r = Some b ->
  exists s', userfs_free_dbbuf r s = Some (tt, s') /\ mem_ok s' /\ fl_head (f_dfree s') = NULL /\
    f_alloc s' = f_alloc s /\ f_elems s' = f_elems s /\ f_bgi s' = f_bgi s /\
    other_state s s' /\
    (forall a, a <> b_data b -> f_pages s' !! a = f_pages s !! a) /\
    (forall x, x <> r -> f_bbufs s' !! x = f_bbufs s !! x) /\
    (fl_len (f_dfree s) <= USERFS_DEFAULT_MAX_DBBUF_FREE_LIST_LEN ->
       f_pages s' = f_pages s /\ is_Some (f_bbufs s' !! r) /\
       fl_len (f_dfree s') = i32 (fl_len (f_dfree s) + 1)).
Proof.
  intros M Hl E. unfold userfs_free_dbbuf. rewrite (bind_run _ _ s (f_dfree s) s eq_refl). unfold atomic_get.
  assert (X : forall x, a_next (f_alloc s) <= x -> x <> r).
  { intros x Hx ->. by rewrite (mo_bbufs _ M) in E. }
  destruct (Z.ltb_spec USERFS_DEFAULT_MAX_DBBUF_FREE_LIST_LEN (fl_len (f_dfree s))).
  - rewrite (bind_run _ _ _ _ _ (bb_run r s b E)).
    rewrite (bind_run _ _ _ tt (with_pages s (delete (b_data b) (f_pages s))) eq_refl).
    eexists. split; [reflexivity|]. destruct M as [M1 M2 M3 M4 M5]. cbn.
    split; [split; cbn; try done; intros x Hx; specialize (X x Hx)|].
    + rewrite lookup_delete_ne by done. auto.
    + destruct (decide (x = b_data b)) as [->|]; [apply lookup_delete_eq|]. rewrite lookup_delete_ne by done. auto.
    + repeat (split; [done|]). split; [intros; by apply lookup_delete_ne|].
      split; [intros; by apply lookup_delete_ne|]. intros; lia.
  - rewrite (bind_run _ _ _ _ _ (bb_set_run r _ s b E)).
    set (s1 := with_bbufs s _).
    assert (E1 : f_bbufs s1 !! r = Some (set_this_page (fl_head (f_dfree s)) b)) by apply lookup_insert_eq.
    rewrite (bind_run _ _ _ _ _ (bb_run r s1 _ E1)). cbn [b_this_page set_this_page].
    eexists. split; [reflexivity|]. destruct M as [M1 M2 M3 M4 M5]. cbn.
    split; [split; cbn; try done; intros x Hx; specialize (X x Hx)|].
    + rewrite lookup_insert_ne by done. auto.
    + repeat (split; [done|]). split; [intros; by apply lookup_insert_ne|].
      intros _. split; [done|]. split; [|done]. eexists. apply lookup_insert_eq.
Qed.

(** The bitmap of a descriptor, as a program. *)
Lemma bm_get_first_free_run s a o p p' r :
  f_pages s !! a = Some p -> bitmap_get_first_free p (Some o) = Some (p', r) ->
  bm_get_first_free a o s = Some (r, with_pages s (<[a := p']> (f_pages s))).
Proof.
  intros E B. unfold bm_get_first_free. rewrite (bind_run _ _ _ _ _ (pg_run _ _ _ E)).
  rewrite (bind_run _ _ _ _ _ (eq_trans (f_equal (fun o => lift o s) B) eq_refl)). reflexivity.
Qed.

(** A field of the super block. *)
Lemma sb_ld s sb q o :
  f_pages s !! sb = Some q -> 0 <= o -> o + 4 <= p_size q -> ld 4 sb o s = Some (le_read 4 (p_get q) o, s).
Proof. intros E H1 H2. apply (ld_run 4 sb o s q); [done|]. by apply load_in. Qed.

Lemma bgdidx2bgd_run s sb G pas taken g pa :
  groups_ok s sb G pas taken -> 0 <= g -> pas !! bgd_mb G g = Some pa ->
  userfs_bgdidx2bgd (g_per_mb G) g (g_bgd_size G) s = Some ((pa, bgd_off G g), s).
Proof.
  intros O Hg E. pose proof (go_geom _ _ _ _ _ O) as GO. pose proof (ge_per_mb _ GO).
  unfold userfs_bgdidx2bgd. zdec.
  destruct (Forall2_lookup_r _ _ _ _ _ (go_tab _ _ _ _ _ O) E) as (buf & Eb & b & Ebb & Ed).
  unfold bgd_mb in Eb. rewrite (bind_run _ _ s buf s) by (unfold act; by rewrite Eb).
  rewrite (bind_run _ _ _ _ _ (bb_run buf s b Ebb)). rewrite Ed.
  destruct (bgd_off_bounds G g GO Hg) as [_ ->]. rewrite ret_run. do 3 f_equal. lia.
Qed.

(** [dblock_assign], step by step: [q1] is the descriptor page with the bit already
    set, [sq] the page of the super block. *)
Lemma dblock_assign_run s sb r pa o bl top e h1 h2 sq q1 b :
  let es2 := <[top := Elem (bgi_free_blocks_count e - 1) (bgi_bgroup_nr e)]> (f_elems s) in
  userfs_mrheap_extract_heaptop (f_elems s) (bgi_maxroot_heap (f_bgi s)) = Some (top, h1) ->
  userfs_mrheap_insert (f_alloc s) (f_elems s) h1 (bgi_bgroup_nr e) (bgi_free_blocks_count e - 1) top =
    Some (top, f_alloc s, es2, h2) ->
  f_elems s !! top = Some e -> 0 < bgi_free_blocks_count e <= 4294967296 ->
  f_pages s !! sb = Some sq -> 92 <= p_size sq -> sb <> pa -> f_pages s !! pa = Some q1 ->
  0 <= o -> o + 4 <= p_size q1 -> f_bbufs s !! r = Some b ->
  exists v q2, let sq' := Page (p_size sq) (le_write 4 (p_get sq) s_free_data_block_count v) in
    store 2 q1 (o + bg_free_block_count) (u16 (le_read 2 (p_get q1) (o + bg_free_block_count) - 1)) = Some q2 /\
    dblock_assign sb r (pa, o) bl s = Some (r,
      with_bbufs (with_heap (with_pages s (<[pa := q2]> (<[sb := sq']> (f_pages s)))) (f_alloc s) es2
                    (set_heap (f_bgi s) h2))
        (<[r := Bbuf (b_this_page b) 1 USERFS_BTYPE_DATA
                  (u32 (u32 (bgi_bgroup_nr e * le_read 4 (p_get sq) s_data_block_per_group) + bl)) 0
                  (b_size b) (b_data b)]> (f_bbufs s))).
Proof.
  intros es2 Ex Ins Ee Hf Esq Hsq Nsb Eq1 Ho Hq1 Eb. unfold dblock_assign. cbn [fst snd].
  set (s2 := with_heap s (f_alloc s) (f_elems s) (set_heap (f_bgi s) h1)).
  rewrite (bind_run extract_heaptop _ s top s2) by (unfold extract_heaptop, act; by rewrite Ex).
  assert (Hfs : s_free_data_block_count + 4 <= p_size sq)
    by (unfold s_free_data_block_count, mb_union in *; lia).
  rewrite (bind_run _ _ _ _ _ (sb_ld s2 sb sq s_free_data_block_count Esq ltac:(done) Hfs)).
  set (v := u32 (_ - 1)). pose proof (store_in 4 sq s_free_data_block_count v ltac:(done) Hfs) as Est.
  set (sq' := Page _ _) in Est.
  rewrite (bind_run _ _ _ _ _ (st_run 4 sb _ v s2 sq sq' Esq Est)).
  set (s3 := with_pages s2 _).
  assert (Eq3 : f_pages s3 !! pa = Some q1) by (cbn; by rewrite lookup_insert_ne).
  assert (Hl2 : 0 <= o + bg_free_block_count /\ o + bg_free_block_count + Z.of_nat 2 <= p_size q1)
    by (unfold bg_free_block_count; lia).
  rewrite (bind_run _ _ _ _ _ (ld_run 2 pa _ s3 q1 _ Eq3 (load_in 2 q1 _ (proj1 Hl2) (proj2 Hl2)))).
  set (w := u16 (_ - 1)). pose proof (store_in 2 q1 _ w (proj1 Hl2) (proj2 Hl2)) as Est2.
  set (q2 := Page _ _) in Est2.
  rewrite (bind_run _ _ _ _ _ (st_run 2 pa _ w s3 q1 q2 Eq3 Est2)).
  set (s4 := with_pages s3 _).
  rewrite (bind_run _ _ s4 e s4) by (unfold heap_elem, act; cbn; by rewrite Ee).
  rewrite (u32_small (bgi_free_blocks_count e - 1)) by lia.
  set (s5 := with_heap s4 (f_alloc s) es2 (set_heap (f_bgi s) h2)).
  rewrite (bind_run _ _ s4 top s5) by (unfold heap_insert, act; cbn; by rewrite Ins).
  rewrite (bind_run _ _ s5 (Elem (bgi_free_blocks_count e - 1) (bgi_bgroup_nr e)) s5)
    by (unfold heap_elem, act; cbn; unfold es2; by rewrite lookup_insert_eq).
  assert (Esq5 : f_pages s5 !! sb = Some sq').
  { cbn. rewrite lookup_insert_ne by done. apply lookup_insert_eq. }
  rewrite (bind_run _ _ _ _ _ (sb_ld s5 sb sq' s_data_block_per_group Esq5 ltac:(done)
    ltac:(cbn [p_size sq']; unfold s_data_block_per_group, mb_union in *; lia))).
  cbn [bgi_bgroup_nr p_get sq']. rewrite le_read_write_disjoint
    by (unfold s_data_block_per_group, s_free_data_block_count, mb_union; lia). cbn zeta.
  rewrite (bind_run _ _ _ _ _ (bb_set_run r _ s5 b Eb)).
  do 3 rewrite (bind_run _ _ _ _ _ (bb_set_run r _ _ _ (lookup_insert_eq _ _ _))).
  exists v, q2. split; [done|]. rewrite ret_run. cbn. by rewrite !insert_insert_eq.
Qed.

(** The super block is the same but for the number of free blocks. *)
Definition same_super (q q' : page) : Prop :=
  p_size q' = p_size q /\
  forall x, x < s_free_data_block_count \/ s_free_data_block_count + 4 <= x -> p_get q' x = p_get q x.

Lemma same_super_read q q' o :
  same_super q q' -> o + 4 <= s_free_data_block_count \/ s_free_data_block_count + 4 <= o ->
  le_read 4 (p_get q') o = le_read 4 (p_get q) o.
Proof. intros [_ H] Ho. apply le_read_ext. intros x Hx. rewrite H; [done|lia]. Qed.

(** The header of a metablock is the same. *)
Definition same_head (p p' : page) : Prop := p_size p' = p_size p /\ forall x, x < mb_union -> p_get p' x = p_get p x.

Lemma same_head_trans p q r : same_head p q -> same_head q r -> same_head p r.
Proof. intros [H1 H2] [H3 H4]. split; [congruence|]. intros x Hx. rewrite H4 by done. by apply H2. Qed.

(** Of the super block only the number of free blocks changes, of the descriptor blocks
    only the descriptors. *)
Record meta_kept (s s' : fs) (sb : Z) (pas : list Z) : Prop := {
  mk_super : forall q, f_pages s !! sb = Some q -> exists q', f_pages s' !! sb = Some q' /\ same_super q q';
  mk_heads : forall pa q, pa ∈ pas -> f_pages s !! pa = Some q -> exists q', f_pages s' !! pa = Some q' /\ same_head q q' }.

Lemma meta_kept_ext t t' s s' sb pas :
  meta_kept t t' sb pas -> (forall x q, x ∈ sb :: pas -> f_pages s !! x = Some q -> f_pages t !! x = Some q) ->
  (forall x, x ∈ sb :: pas -> f_pages s' !! x = f_pages t' !! x) -> meta_kept s s' sb pas.
Proof.
  intros [K1 K2] H H'. split.
  - intros q Eq. rewrite H' by (by left). apply K1, H; [by left|done].
  - intros pa q Hp Eq. rewrite H' by (by right). apply K2; [done|]. apply H; [by right|done].
Qed.

(** A block of the group [g] at the top of the heap goes to the buffer [r]. *)
Lemma take_block_run s sb G pas taken top e g r b :
  groups_ok s sb G pas taken -> mem_ok s ->
  userfs_mrheap_get_heaptop (bgi_maxroot_heap (f_bgi s)) = Some top ->
  0 < size (bgi_maxroot_heap (f_bgi s)) ->
  f_elems s !! top = Some e -> bgi_bgroup_nr e = g -> 0 <= g < g_count G -> taken g < g_limit G ->
  bgi_free_blocks_count e = g_blocks G - taken g ->
  f_bbufs s !! r = Some b -> (forall p, p ∈ pas -> b_data b <> p) ->
  exists pa s1 s', userfs_bgdidx2bgd (g_per_mb G) g (g_bgd_size G) s = Some ((pa, bgd_off G g), s) /\
    bm_get_first_free pa (bgd_off G g + bg_block_bm) s = Some (taken g, s1) /\
    0 <= taken g < 4294967295 /\
    dblock_assign sb r (pa, bgd_off G g) (taken g) s1 = Some (r, s') /\
    mem_ok s' /\ other_state s s' /\ f_dfree s' = f_dfree s /\ f_alloc s' = f_alloc s /\
    groups_ok s' sb G pas (fun x => if x =? g then taken g + 1 else taken x) /\
    f_bbufs s' = <[r := Bbuf (b_this_page b) 1 USERFS_BTYPE_DATA (g * g_blocks G + taken g) 0 (b_size b) (b_data b)]> (f_bbufs s) /\
    (forall a, a ∉ sb :: pas -> f_pages s' !! a = f_pages s !! a) /\ meta_kept s s' sb pas.
Proof.
  intros O M Htop Hsz Ee Eg Hg Ht Hf Eb Hd.
  pose proof (go_geom _ _ _ _ _ O) as GO. pose proof GO as [G1 G2 G3 G4 G5 G6]. unfold sizeof_bgroup_desc in G4.
  destruct (go_group _ _ _ _ _ O g Hg) as (pa & q & Epa & Eq & Hq & Pk & Ft & Ct).
  destruct (go_sb _ _ _ _ _ O) as (sq & Esq & Hsq & R1 & R2 & R3).
  destruct (bgd_take G q g GO ltac:(lia) Hq Pk ltac:(lia)) as (q1 & Eq1 & S1 & Cq1 & Take). rewrite Ft in Eq1.
  pose proof (wu_first _ _ _ _ (proj1 Pk)) as Hf0. rewrite Ft in Hf0.
  pose proof (wu_lim _ _ _ _ (proj1 Pk)) as Hl0.
  destruct (bgd_off_bounds G g GO ltac:(lia)) as [Ho _]. unfold mb_union in Ho.
  destruct (extract_reinsert (f_alloc s) (f_elems s) (bgi_maxroot_heap (f_bgi s)) g (bgi_free_blocks_count e - 1)
    (go_heap _ _ _ _ _ O) Hsz (go_heap_nodup _ _ _ _ _ O)) as (top' & h1 & h2 & T & Nt & Hin & Ex & Ins & W2 & U2 & _).
  rewrite Htop in T. injection T as <-. rewrite <- Eg in Ins.
  assert (Hpa : pa ∈ pas) by (by eapply list_elem_of_lookup_2).
  pose proof (go_nodup _ _ _ _ _ O) as N. apply NoDup_cons in N as [N _].
  assert (Nsb : sb <> pa) by (by intros ->).
  destruct (dblock_assign_run (with_pages s (<[pa := q1]> (f_pages s))) sb r pa (bgd_off G g) (taken g) top e h1 h2 sq q1 b)
    as (v & q2 & Est2 & Run); try done; try (cbn; lia); cbn.
  { by rewrite lookup_insert_ne. }
  { apply lookup_insert_eq. }
  rewrite R3, Eg in Run. assert (0 <= g * g_blocks G /\ g * g_blocks G + g_blocks G <= 4294967295) by nia.
  rewrite (u32_small (g * g_blocks G)), (u32_small (g * g_blocks G + taken g)) in Run by lia.
  exists pa, (with_pages s (<[pa := q1]> (f_pages s))). eexists. split; [eapply bgdidx2bgd_run; [done|lia|done]|].
  split; [by eapply bm_get_first_free_run|]. split; [lia|]. split; [exact Run|].
  destruct (Take _ q2 Est2) as (T1 & T2 & T3 & Tc & T4).
  pose proof (le_read_range 2 (p_get q) (bgd_off G g + bg_free_block_count)) as Rc. rewrite Ct in Rc. cbn in Rc.
  rewrite Cq1, Ct, !u16_small in Tc by (rewrite ?u16_small; lia).
  set (s6 := with_bbufs _ _).
  assert (Pg : forall a, a <> sb -> a <> pa -> f_pages s6 !! a = f_pages s !! a).
  { intros a Na Nb. cbn. by rewrite !lookup_insert_ne. }
  split; [|split; [by split|split; [done|split; [done|split; [|split; [done|]]]]]].
  - destruct M as [M1 M2 M3 M4 M5]. split; try done; cbn; intros.
    + rewrite lookup_insert_ne; [auto|]. intros ->. by rewrite M2 in Eb.
    + rewrite !lookup_insert_ne; [auto|..]; intros ->;
        first [by rewrite M3 in Eq | by rewrite M3 in Esq].
    + rewrite lookup_insert_ne; [auto|]. intros ->. by rewrite M4 in Ee.
    + by rewrite lookup_insert_ne.
  - apply (groups_ok_take s s6 sb G pas taken top e g pa q q2 h2 sq
      (Page (p_size sq) (le_write 4 (p_get sq) s_free_data_block_count v))); try done; rewrite <- ?Eg in *; try done.
    + intros buf b0 E0. cbn. destruct (decide (buf = r)) as [->|].
      * rewrite lookup_insert_eq. eexists. split; [done|]. cbn. congruence.
      * rewrite lookup_insert_ne by done. eauto.
    + cbn. by rewrite lookup_insert_eq.
    + cbn. by rewrite lookup_insert_ne, lookup_insert_eq.
    + intros a Ha Na. apply Pg; [|done]. by intros ->.
    + by rewrite T3, Ft.
    + rewrite Tc. lia.
    + intros o Ho1 Ho2. cbn [p_get]. by rewrite le_read_write_disjoint by lia.
  - split.
    + intros a Ha. apply not_elem_of_cons in Ha as [Ha1 Ha2]. apply Pg; [done|]. by intros ->.
    + split.
      * intros sq1 E1. rewrite Esq in E1. injection E1 as <-.
        exists (Page (p_size sq) (le_write 4 (p_get sq) s_free_data_block_count v)).
        split; [cbn; by rewrite lookup_insert_ne, lookup_insert_eq|]. split; [done|]. intros x Hx. cbn [p_get].
        apply le_write_outside. lia.
      * intros pa' q' Hpa' E'. assert (Nx : sb <> pa') by (by intros ->). destruct (decide (pa' = pa)) as [->|Np].
        -- rewrite Eq in E'. injection E' as <-. exists q2. split; [cbn; by rewrite lookup_insert_eq|]. split; [done|].
           intros x Hx. apply T4. unfold mb_union in *. lia.
        -- exists q'. by rewrite Pg.
Qed.

(** The heap has an element for every group; its top is the group with the fewest
    blocks taken. *)
Lemma top_group s sb G pas taken :
  groups_ok s sb G pas taken -> 0 < g_count G ->
  0 < size (bgi_maxroot_heap (f_bgi s)) /\
  exists top e, userfs_mrheap_get_heaptop (bgi_maxroot_heap (f_bgi s)) = Some top /\
    f_elems s !! top = Some e /\ 0 <= bgi_bgroup_nr e < g_count G /\
    bgi_free_blocks_count e = g_blocks G - taken (bgi_bgroup_nr e) /\
    (forall g, 0 <= g < g_count G -> taken (bgi_bgroup_nr e) <= taken g <= g_limit G) /\ g_limit G <= g_blocks G.
Proof.
  intros O Hc. pose proof (length_used _ _ (go_heap _ _ _ _ _ O)) as L.
  destruct (go_all _ _ _ _ _ O 0 ltac:(lia)) as (p0 & e0 & Hp0 & _).
  assert (Hs : 0 < size (bgi_maxroot_heap (f_bgi s))).
  { destruct (used (bgi_maxroot_heap (f_bgi s))); [by apply elem_of_nil in Hp0|]. simpl in L. lia. }
  split; [done|]. destruct (extract_top _ _ (go_heap _ _ _ _ _ O) Hs) as (top & h1 & T & _ & _ & _ & U & Mx).
  assert (Hin : top ∈ used (bgi_maxroot_heap (f_bgi s))) by (rewrite U; by left).
  destruct (go_elems _ _ _ _ _ O top Hin) as (e & Ee & Hr & Hf). exists top, e.
  split; [done|]. split; [done|]. split; [done|]. split; [done|]. split; [|apply g_limit_le]. intros g Hg.
  destruct (go_group _ _ _ _ _ O g Hg) as (pa & q & _ & _ & _ & Pk & Ft & _).
  pose proof (wu_first _ _ _ _ (proj1 Pk)) as W. rewrite Ft in W.
  split; [|lia].
  destruct (go_all _ _ _ _ _ O g Hg) as (p & e' & Hp & Ee' & En).
  destruct (go_elems _ _ _ _ _ O p Hp) as (e1 & Ee1 & _ & Hf1). rewrite Ee' in Ee1. injection Ee1 as <-.
  specialize (Mx p Hp). unfold free_of in Mx. rewrite Ee, Ee' in Mx. cbn in Mx. rewrite En in Hf1. lia.
Qed.

Lemma bbufs_kept_new s a r data n :
  mem_ok s -> a_next (f_alloc s) <= r -> a_next (f_alloc s) <= data ->
  bbufs_kept s (new_buf s a r data n) /\
  (forall x, is_Some (f_bbufs s !! x) -> f_bbufs (new_buf s a r data n) !! x = f_bbufs s !! x) /\
  (forall x, is_Some (f_pages s !! x) -> f_pages (new_buf s a r data n) !! x = f_pages s !! x).
Proof.
  intros M Hr Hd. assert (K : forall x, is_Some (f_bbufs s !! x) -> f_bbufs (new_buf s a r data n) !! x = f_bbufs s !! x).
  { intros x [b Hx]. cbn. rewrite lookup_insert_ne; [done|]. intros ->. by rewrite (mo_bbufs _ M) in Hx. }
  split; [|split; [done|]].
  - intros x b Hx. exists b. rewrite K by eauto. done.
  - intros x [q Hx]. cbn. rewrite lookup_insert_ne; [done|]. intros ->. by rewrite (mo_pages _ M) in Hx.
Qed.

(** A new buffer or a dropped one does not matter to the groups. *)
Lemma groups_ok_new s a r data n sb G pas taken :
  groups_ok s sb G pas taken -> mem_ok s -> a_next (f_alloc s) <= r -> a_next (f_alloc s) <= data ->
  groups_ok (new_buf s a r data n) sb G pas taken.
Proof.
  intros O M Hr Hd. destruct (bbufs_kept_new s a r data n M Hr Hd) as (K1 & K2 & K3).
  apply (groups_ok_frame s); try done. intros x Hx. apply K3.
  apply elem_of_cons in Hx as [->|Hx]; [|by apply (go_pages _ _ _ _ _ O)].
  destruct (go_sb _ _ _ _ _ O) as (q & -> & _). eauto.
Qed.

Lemma groups_pages s sb G pas taken a : groups_ok s sb G pas taken -> a ∈ sb :: pas -> is_Some (f_pages s !! a).
Proof.
  intros O Hx. apply elem_of_cons in Hx as [->|Hx]; [|by apply (go_pages _ _ _ _ _ O)].
  destruct (go_sb _ _ _ _ _ O) as (q & -> & _). eauto.
Qed.

(** A block can be taken or every group is full: the heap offers the emptiest group,
    so that the last block of a group is asked for only when every group has just
    one left. *)
Definition may_take (G : geometry) (taken : Z -> Z) : Prop :=
  g_clean G = true \/ exists g, 0 <= g < g_count G /\ taken g + 1 < g_blocks G.

(** The outcome of [userfs_get_new_dblock]: a new block of the emptiest group in a
    new buffer [r] with page [data], or nothing. *)
Definition took_block (s s' : fs) (sb : Z) (G : geometry) (pas : list Z) (taken : Z -> Z) (n r : Z) : Prop :=
  exists g data, 0 <= g < g_count G /\ 0 <= taken g < g_blocks G /\
    (forall g', 0 <= g' < g_count G -> taken g <= taken g') /\
    f_bbufs s' = <[r := Bbuf 0 1 USERFS_BTYPE_DATA (g * g_blocks G + taken g) 0 n data]> (f_bbufs s) /\
    f_pages s' !! data = Some (Page n (f_garbage s data)) /\
    (forall a, a ∉ sb :: pas -> a <> data -> f_pages s' !! a = f_pages s !! a) /\
    a_next (f_alloc s) <= r /\ a_next (f_alloc s) <= data /\ meta_kept s s' sb pas /\
    groups_ok s' sb G pas (fun x => if x =? g then taken g + 1 else taken x).

Lemma get_new_dblock_run s sb G pas taken n :
  groups_ok s sb G pas taken -> mem_ok s -> fl_head (f_dfree s) = NULL -> 0 < g_count G -> 0 <= n -> may_take G taken ->
  exists r s', userfs_get_new_dblock sb n s = Some (r, s') /\ mem_ok s' /\ other_state s s' /\
    fl_head (f_dfree s') = NULL /\ spends (f_alloc s) (f_alloc s') (dbbuf_memory n) /\
    (r <> NULL /\ took_block s s' sb G pas taken n r \/
     r = NULL /\ groups_ok s' sb G pas taken /\
       (forall x, is_Some (f_bbufs s !! x) -> f_bbufs s' !! x = f_bbufs s !! x) /\
       (forall x, is_Some (f_pages s !! x) -> f_pages s' !! x = f_pages s !! x) /\
       (fst (malloc (f_alloc s) sizeof_bbuf) = NULL \/
        fst (malloc (snd (malloc (f_alloc s) sizeof_bbuf)) n) = NULL \/
        forall g, 0 <= g < g_count G -> taken g = g_blocks G)).
Proof.
  intros O M Hl Hc Hn MT. unfold userfs_get_new_dblock.
  destruct (alloc_dbbuf_run s n M Hl Hn) as (r & s1 & E1 & M1 & Hle & C). rewrite (bind_run _ _ _ _ _ E1).
  destruct (Z.eqb_spec r NULL) as [->|Nr].
  { destruct C as [(_ & Es & Hm)|[? _]]; [|done]. eexists _, _. split; [reflexivity|].
    rewrite Es in M1 |- *. split; [done|]. split; [done|]. split; [done|]. split; [rewrite Es in Hle; done|].
    right. split; [done|]. split; [by apply (groups_ok_frame s); try done; intros x b Hx; exists b|].
    split; [done|]. split; [done|]. tauto. }
  destruct C as [[? _]|(_ & data & Nd & Es & Hr & Hd)]; [done|].
  assert (O1 : groups_ok s1 sb G pas taken) by (rewrite Es; by apply groups_ok_new).
  destruct (bbufs_kept_new s (f_alloc s1) r data n M Hr Hd) as (_ & K2 & K3). rewrite <- Es in K2, K3.
  assert (Eb : f_bbufs s1 !! r = Some (Bbuf 0 0 0 0 0 n data)) by (rewrite Es; apply lookup_insert_eq).
  destruct (top_group s1 sb G pas taken O1 Hc) as (Hsz & top & e & T & Ee & Hg & Hf & Mx & HL).
  rewrite (bind_run heaptop _ s1 top s1) by (unfold heaptop, act; by rewrite T).
  rewrite (bind_run _ _ s1 e s1) by (unfold heap_elem, act; by rewrite Ee).
  assert (Fr : forall x, is_Some (f_pages s !! x) -> x <> data).
  { intros x [q Hx] ->. by rewrite (mo_pages _ M) in Hx. }
  assert (OS : other_state s s1) by (by rewrite Es).
  assert (Dr : fl_head (f_dfree s1) = NULL) by (by rewrite Es).
  destruct (Z.eqb_spec (bgi_free_blocks_count e) 0) as [Hz|Hz].
  - destruct (free_dbbuf_run s1 r _ M1 Dr Eb) as (s2 & E2 & M2 & D2 & A2 & Ee2 & Eb2 & OS2 & P2 & B2 & _).
    rewrite (bind_run _ _ _ _ _ E2), ret_run. eexists _, _. split; [done|]. split; [done|].
    split; [by eapply other_state_trans|]. split; [done|]. split; [by rewrite A2|]. right. split; [done|].
    assert (KB : forall x, is_Some (f_bbufs s !! x) -> f_bbufs s2 !! x = f_bbufs s !! x).
    { intros x Hx. rewrite <- K2 by done. apply B2. intros ->. destruct Hx as [b Hx]. by rewrite (mo_bbufs _ M) in Hx. }
    assert (KP : forall x, is_Some (f_pages s !! x) -> f_pages s2 !! x = f_pages s !! x).
    { intros x Hx. rewrite <- K3 by done. apply P2. cbn. auto. }
    split; [|split; [done|split; [done|]]].
    + apply (groups_ok_frame s); try done; [by rewrite Ee2, Es|by rewrite Eb2, Es|..].
      * intros x b Hx. exists b. rewrite KB by eauto. done.
      * intros x Hx. apply KP. by eapply groups_pages.
    + right. right. intros g Hgg. specialize (Mx g Hgg). lia.
  - destruct (go_sb _ _ _ _ _ O1) as (sq & Esq & Hsq & R1 & R2 & R3).
    rewrite (bind_run _ _ _ _ _ (sb_ld s1 sb sq s_bgroup_desc_per_mb_count Esq ltac:(done)
      ltac:(unfold s_bgroup_desc_per_mb_count, mb_union; lia))).
    rewrite (bind_run _ _ _ _ _ (sb_ld s1 sb sq s_bgroup_desc_size Esq ltac:(done)
      ltac:(unfold s_bgroup_desc_size, mb_union; lia))). rewrite R1, R2.
    pose proof (Mx _ Hg) as Hm.
    assert (Hlt : taken (bgi_bgroup_nr e) < g_limit G).
    { destruct MT as [Cl|(g & Hgg & Ht)]; unfold g_limit in *; [rewrite Cl in *; lia|].
      specialize (Mx g Hgg). destruct (g_clean G); lia. }
    destruct (take_block_run s1 sb G pas taken top e (bgi_bgroup_nr e) r _ O1 M1 T Hsz Ee eq_refl Hg Hlt Hf Eb)
      as (pa & s2 & s3 & X1 & X2 & X3 & X4 & M3 & OS3 & D3 & A3 & O3 & B3 & P3 & SK3).
    { intros p Hp. cbn. apply not_eq_sym, Fr. by apply (go_pages _ _ _ _ _ O). }
    rewrite (bind_run _ _ _ _ _ X1). cbn [fst snd]. rewrite (bind_run _ _ _ _ _ X2). cbn zeta.
    rewrite u32_small by lia. change (u32 (-1)) with 4294967295. zdec.
    exists r, s3. split; [done|]. split; [done|]. split; [by eapply other_state_trans|].
    split; [by rewrite D3|]. split; [by rewrite A3|]. left. split; [done|].
    exists (bgi_bgroup_nr e), data. split; [done|]. split; [lia|]. split; [intros g' Hg'; by apply Mx|].
    split; [rewrite B3, Es; cbn; by rewrite insert_insert_eq|]. split; [|split; [|split; [done|split; [done|split; [|done]]]]].
    + rewrite P3; [rewrite Es; cbn; apply lookup_insert_eq|]. intros Hx.
      apply (Fr data); [|done]. by eapply groups_pages.
    + intros a Ha Na. rewrite P3 by done. rewrite Es. cbn. by rewrite lookup_insert_ne.
    + apply (meta_kept_ext s1 s3); [done|intros x q _ E'; by rewrite K3 by eauto|done].
Qed.

(** ** Theorems on data blocks *)

(** The blocks handed out so far. *)
Definition allocated (G : geometry) (taken : Z -> Z) (blk : Z) : Prop :=
  exists g i, 0 <= g < g_count G /\ 0 <= i < taken g /\ blk = g * g_blocks G + i.

Lemma allocated_take s sb G pas taken g :
  groups_ok s sb G pas taken -> 0 <= g < g_count G -> 0 <= taken g < g_blocks G ->
  (forall g', 0 <= g' < g_count G -> taken g' <= g_blocks G) ->
  ~ allocated G taken (g * g_blocks G + taken g) /\
  (forall x, allocated G (fun g' => if g' =? g then taken g + 1 else taken g') x <->
     allocated G taken x \/ x = g * g_blocks G + taken g).
Proof.
  intros O Hg Ht Mx. assert (U : forall g1 i g2 j, 0 <= i < g_blocks G -> 0 <= j < g_blocks G ->
    g1 * g_blocks G + i = g2 * g_blocks G + j -> g1 = g2 /\ i = j).
  { intros g1 i g2 j Hi Hj E. assert (g1 = g2) by nia. subst. lia. }
  split.
  - intros (g' & i & Hg' & Hi & E). specialize (Mx g' Hg').
    destruct (U g (taken g) g' i ltac:(lia) ltac:(lia) E) as [E1 E2]. subst g'. lia.
  - intros x. split.
    + intros (g' & i & Hg' & Hi & ->). destruct (Z.eqb_spec g' g) as [->|N].
      * destruct (Z.eq_dec i (taken g)) as [->|]; [by right|]. left. exists g, i. split; [done|]. split; [lia|done].
      * left. by exists g', i.
    + intros [(g' & i & Hg' & Hi & ->)| ->].
      * exists g', i. split; [done|]. split; [|done]. destruct (Z.eqb_spec g' g) as [->|]; lia.
      * exists g, (taken g). split; [done|]. rewrite Z.eqb_refl. split; [lia|done].
Qed.

(** C7: userfs_get_new_dblock never hands out a block twice: it always returns;
    either the buffer it returns has a block number that was not in use and from
    then on exactly this block is in use too, or it returns NULL, no block changes
    hands, and memory or every group was exhausted.  The invariant of the groups,
    bitmaps and heap is kept.  The condition is that the bit behind the bitmaps is
    clear ([g_clean]) or some group has two blocks left: taking the last block of a
    group reads the bit behind its bitmap, which the code never clears. *)
Theorem get_new_dblock_fresh s sb G pas taken n :
  groups_ok s sb G pas taken -> mem_ok s -> fl_head (f_dfree s) = NULL -> 0 < g_count G -> 0 <= n -> may_take G taken ->
  exists r s' taken', userfs_get_new_dblock sb n s = Some (r, s') /\
    groups_ok s' sb G pas taken' /\ mem_ok s' /\ fl_head (f_dfree s') = NULL /\
    (r = NULL -> (forall x, taken' x = taken x) /\
       (fst (malloc (f_alloc s) sizeof_bbuf) = NULL \/
        fst (malloc (snd (malloc (f_alloc s) sizeof_bbuf)) n) = NULL \/
        forall g, 0 <= g < g_count G -> taken g = g_blocks G)) /\
    (r <> NULL -> exists b, f_bbufs s' !! r = Some b /\ b_size b = n /\
       ~ allocated G taken (b_blocknr b) /\
       (forall x, allocated G taken' x <-> allocated G taken x \/ x = b_blocknr b)).
Proof.
  intros O M Hl Hc Hn MT.
  destruct (get_new_dblock_run s sb G pas taken n O M Hl Hc Hn MT) as (r & s' & E & M' & _ & D & _ & C).
  destruct C as [(Nr & g & data & Hg & Ht & Mx & B & _ & _ & _ & _ & _ & O')|(-> & O' & _ & _ & W)].
  - exists r, s'. eexists. split; [done|]. split; [exact O'|]. split; [done|]. split; [done|]. split; [done|].
    intros _. eexists. split; [rewrite B; apply lookup_insert_eq|]. split; [done|].
    apply (allocated_take s sb G pas); try done.
    destruct (top_group s sb G pas taken O Hc) as (_ & top & e & _ & _ & _ & _ & H & HL). intros g' Hg'. specialize (H g' Hg'). lia.
  - exists NULL, s', taken. split; [done|]. split; [done|]. split; [done|]. split; [done|]. by split.
Qed.

(** userfs_free_dbbuf does not make a buffer available again: with an empty
    free list it stays empty, the buffer and its page stay allocated, and only the
    counter goes up; the next userfs_alloc_dbbuf asks malloc again. *)
Theorem free_dbbuf_leaks s r b n :
  mem_ok s -> fl_head (f_dfree s) = NULL -> f_bbufs s !! r = Some b -> r <> NULL ->
  fl_len (f_dfree s) <= USERFS_DEFAULT_MAX_DBBUF_FREE_LIST_LEN -> 0 <= n ->
  exists s', userfs_free_dbbuf r s = Some (tt, s') /\ fl_head (f_dfree s') = NULL /\
    is_Some (f_bbufs s' !! r) /\ f_pages s' = f_pages s /\
    fl_len (f_dfree s') = i32 (fl_len (f_dfree s) + 1) /\
    (forall r' s2, userfs_alloc_dbbuf n s' = Some (r', s2) -> r' <> r).
Proof.
  intros M Hl E Nr Hlen Hn.
  destruct (free_dbbuf_run s r b M Hl E) as (s' & E' & M' & D' & A' & _ & _ & _ & _ & _ & H).
  destruct (H Hlen) as (P & [b' B'] & L). exists s'. split; [done|]. split; [done|]. split; [eauto|].
  split; [done|]. split; [done|]. intros r' s2 E2 ->.
  destruct (alloc_dbbuf_run s' n M' D' Hn) as (r2 & s3 & E3 & _ & _ & C). rewrite E2 in E3. simplify_eq.
  destruct C as [(-> & _)|(_ & data & _ & _ & Hr & _)]; [done|].
  by rewrite (mo_bbufs _ M') in B'.
Qed.

(** ** The dentry table

    A ring of [n] places: [u] of them are in use, from [f] on. *)

Record dtable (p : page) (n f u : Z) : Prop := {
  dt_count : le_read 4 (p_get p) dfd_dentry_count = n;
  dt_first : le_read 4 (p_get p) dfd_first_dentry = f;
  dt_used : le_read 4 (p_get p) dfd_used_dentry_count = u;
  dt_first_free : le_read 4 (p_get p) dfd_first_free_dentry = (f + u) mod n;
  dt_range : 0 < n < 2147483648 /\ 0 <= f < n /\ 0 <= u <= n;
  dt_room : dentry_at n <= p_size p }.

Definition in_use (n f u pos : Z) : Prop := exists i, 0 <= i < u /\ pos = (f + i) mod n.

(** The bytes of entry [i] are the same in both pages. *)
Definition same_dentry (p : page) (i : Z) (p' : page) (i' : Z) : Prop :=
  forall k, 0 <= k < USERFS_DENTRY_SIZE -> p_get p (dentry_at i + k) mod 256 = p_get p' (dentry_at i' + k) mod 256.

Ltac dt_unfold := unfold dfd_dentry_count, dfd_used_dentry_count, dfd_first_dentry, dfd_first_free_dentry,
  dentry_at, USERFS_DENTRY_SIZE, mb_union in *.

Lemma dtable_load p n f u : dtable p n f u ->
  load32 p dfd_dentry_count = Some n /\ load32 p dfd_first_dentry = Some f /\
  load32 p dfd_used_dentry_count = Some u /\ load32 p dfd_first_free_dentry = Some ((f + u) mod n).
Proof.
  intros [D1 D2 D3 D4 D5 D6]. rewrite !load_in by (dt_unfold; lia). by rewrite D1, D2, D3, D4.
Qed.

Lemma alloc_dentry_run p n f u :
  dtable p n f u -> u < n ->
  exists p', userfs_alloc_dentry p = Some ((f + u) mod n, p') /\ dtable p' n f (u + 1) /\
    p_size p' = p_size p /\ (forall x, dentry_at 0 <= x \/ x < mb_union -> p_get p' x = p_get p x).
Proof.
  intros D Hu. destruct (dtable_load p n f u D) as (L1 & L2 & L3 & L4).
  destruct D as [D1 D2 D3 D4 D5 D6]. pose proof (Z.mod_pos_bound (f + u) n ltac:(lia)) as Hm.
  unfold userfs_alloc_dentry. rewrite L3, L1. cbn [mbind option_bind]. zdec.
  rewrite store_in by (dt_unfold; lia). cbn [mbind option_bind].
  rewrite load_in by (cbn [p_size]; dt_unfold; lia). cbn [mbind option_bind p_get].
  rewrite le_read_write_disjoint, D4 by (dt_unfold; lia). zdec.
  rewrite store_in by (cbn [p_size]; dt_unfold; lia). cbn [mbind option_bind p_get p_size].
  rewrite !u32_small by lia.
  assert (Ea : ((f + u) mod n + 1) mod n = (f + (u + 1)) mod n)
    by (rewrite Zplus_mod_idemp_l; f_equal; lia).
  eexists. split; [done|]. split; [|split; [done|]].
  - split; cbn [p_get p_size]; rewrite ?le_read_write_same, ?le_read_write_disjoint by (dt_unfold; lia); try done; try lia.
    + rewrite le_read_write_same. apply Z.mod_small. lia.
    + rewrite Z.mod_small, Ea; [done|]. pose proof (Z.mod_pos_bound ((f + u) mod n + 1) n). lia.
  - intros x Hx. cbn [p_get]. rewrite !le_write_outside by (dt_unfold; lia). done.
Qed.

Lemma exchange_run p n i j :
  0 <= i < n -> 0 <= j < n -> i <> j -> dentry_at n <= p_size p ->
  exists p', userfs_dentry_exchange p (dentry_at i) (dentry_at j) = Some p' /\ p_size p' = p_size p /\
    (forall x, x < dentry_at 0 -> p_get p' x = p_get p x) /\
    same_dentry p' i p j /\ same_dentry p' j p i /\
    (forall k, k <> i -> k <> j -> same_dentry p' k p k).
Proof.
  intros Hi Hj N Hs. unfold userfs_dentry_exchange. unfold USERFS_DENTRY_SIZE.
  rewrite !in_page_true by (dt_unfold; lia). cbn [andb]. eexists. split; [done|]. split; [done|]. cbn [p_get].
  split; [|split; [|split]].
  - intros x Hx. rewrite !copy_outside; dt_unfold; (done || lia).
  - intros k Hk. cbn [p_get]. rewrite copy_outside, copy_inside by (dt_unfold; lia).
    rewrite Z.mod_mod by lia. do 2 f_equal. dt_unfold. lia.
  - intros k Hk. cbn [p_get]. rewrite copy_inside, copy_inside by (dt_unfold; lia).
    rewrite !Z.mod_mod by lia. do 2 f_equal. dt_unfold. lia.
  - intros k Hki Hkj o Ho. cbn [p_get]. rewrite !copy_outside; dt_unfold; (done || lia).
Qed.

(** Dropping the first place of the ring. *)
Lemma advance_first p n f u (res : Z) :
  dtable p n f u -> 0 < u ->
  exists p', (count ← load32 p dfd_dentry_count;
      if count =? 0 then None
      else
        p ← store32 p dfd_first_dentry (u32 (f + 1) mod count);
        used ← load32 p dfd_used_dentry_count;
        p ← store32 p dfd_used_dentry_count (u32 (used - 1));
        Some (res, p)) = Some (res, p') /\
    dtable p' n ((f + 1) mod n) (u - 1) /\ p_size p' = p_size p /\
    (forall x, dentry_at 0 <= x \/ x < mb_union -> p_get p' x = p_get p x).
Proof.
  intros D Hu. destruct (dtable_load p n f u D) as (L1 & L2 & L3 & L4).
  destruct D as [D1 D2 D3 D4 D5 D6]. pose proof (Z.mod_pos_bound (f + 1) n ltac:(lia)) as Hm.
  rewrite L1. cbn [mbind option_bind]. zdec. rewrite store_in by (dt_unfold; lia). cbn [mbind option_bind].
  rewrite load_in by (cbn [p_size]; dt_unfold; lia). cbn [mbind option_bind p_get].
  rewrite le_read_write_disjoint, D3 by (dt_unfold; lia).
  rewrite store_in by (cbn [p_size]; dt_unfold; lia). cbn [mbind option_bind p_get p_size]. rewrite !u32_small by lia.
  eexists. split; [done|]. split; [|split; [done|]].
  - split; cbn [p_get p_size]; rewrite ?le_read_write_same, ?le_read_write_disjoint by (dt_unfold; lia); try done; try lia.
    + rewrite le_read_write_same. apply Z.mod_small. lia.
    + rewrite Z.mod_small by lia. done.
    + rewrite D4, Zplus_mod_idemp_l. f_equal. lia.
  - intros x Hx. cbn [p_get]. rewrite !le_write_outside by (dt_unfold; lia). done.
Qed.

Lemma free_dentry_run p n f u pos :
  dtable p n f u -> in_use n f u pos ->
  exists p', userfs_free_dentry p pos = Some (if pos =? f then -1 else 0, p') /\
    dtable p' n ((f + 1) mod n) (u - 1) /\ same_head p p' /\
    (pos <> f -> same_dentry p' pos p f) /\
    (forall k, k <> f -> k <> pos -> 0 <= k -> same_dentry p' k p k).
Proof.
  intros D (i & Hi & Ep). destruct (dtable_load p n f u D) as (L1 & L2 & L3 & L4).
  pose proof (dt_range _ _ _ _ D) as (Hn & Hf & Hu). pose proof (dt_room _ _ _ _ D) as Hr.
  pose proof (Z.mod_pos_bound (f + i) n ltac:(lia)) as Hp. rewrite <- Ep in Hp.
  assert (Hg : (pos <? f) && ((f + u) mod n <=? pos) = false).
  { destruct (Z.ltb_spec pos f) as [Hlt|]; [|done]. cbn [andb]. apply Z.leb_gt.
    assert (f + i >= n) by (destruct (Z.lt_ge_cases (f + i) n); [rewrite Z.mod_small in Ep by lia; lia|lia]).
    assert (pos = f + i - n) by (rewrite Ep; symmetry; apply (Z.mod_unique _ _ 1); lia).
    assert ((f + u) mod n = f + u - n) as ->; [|lia]. symmetry. apply (Z.mod_unique _ _ 1); lia. }
  unfold userfs_free_dentry. rewrite L2, L4. cbn [mbind option_bind]. rewrite Hg.
  destruct (Z.eqb_spec pos f) as [->|N]; cbn [negb mbind option_bind].
  - destruct (advance_first p n f u (-1) D ltac:(lia)) as (p' & E & D' & S' & O'). exists p'.
    split; [done|]. split; [done|]. split; [split; [done|]; intros x Hx; apply O'; by right|]. split; [done|].
    intros k Nk _ Hk o Ho. rewrite O'; [done|]. dt_unfold. lia.
  - destruct (exchange_run p n pos f ltac:(lia) ltac:(lia) N Hr) as (p1 & -> & S1 & O1 & X1 & X2 & X3).
    cbn [mbind option_bind].
    assert (D1 : dtable p1 n f u).
    { destruct D as [D1 D2 D3 D4 D5 D6]. split; try done; [..|by rewrite S1];
        erewrite le_read_ext; try done; intros x Hx; (rewrite O1; [done|dt_unfold; lia]). }
    destruct (advance_first p1 n f u 0 D1 ltac:(lia)) as (p' & E & D' & S' & O'). exists p'.
    split; [done|]. split; [done|]. split; [split; [congruence|]; intros x Hx; rewrite O' by (by right); apply O1; dt_unfold; lia|].
    split.
    + intros _ o Ho. rewrite O' by (dt_unfold; lia). by apply X1.
    + intros k Nf Np Hk o Ho. rewrite O' by (dt_unfold; lia). by apply X3.
Qed.

(** The places in use without the first one. *)
Lemma in_use_advance n f u k : 0 < n -> 0 <= f < n -> u <= n ->
  in_use n ((f + 1) mod n) (u - 1) k <-> in_use n f u k /\ k <> f.
Proof.
  intros Hn Hf Hu. split.
  - intros (i & Hi & ->). split.
    + exists (i + 1). split; [lia|]. rewrite Zplus_mod_idemp_l. f_equal. lia.
    + rewrite Zplus_mod_idemp_l. intros Ef. rewrite <- (Z.mod_small f n) in Ef at 2 by lia.
      rewrite <- Z.add_assoc in Ef. replace f with (f + 0) in Ef at 2 by lia. apply mod_shift in Ef; lia.
  - intros [(i & Hi & ->) Nf]. exists (i - 1).
    assert (i <> 0). { intros ->. apply Nf. rewrite Z.add_0_r. apply Z.mod_small. lia. }
    split; [lia|]. rewrite Zplus_mod_idemp_l. f_equal. lia.
Qed.

(** The dentry table is a ring of its used entries.  userfs_alloc_dentry gives
    the place behind them, which is not in use, or UINT32_MAX when the table is full;
    userfs_free_dentry of a place in use drops exactly that entry: the first entry
    moves into the place (and the result is 0), or the place was the first one (and
    the result is -1); no other entry changes. *)
Theorem dentry_table_spec p n f u :
  dtable p n f u ->
  (u = n -> userfs_alloc_dentry p = Some (UINT32_MAX, p)) /\
  (u < n -> exists pos p', userfs_alloc_dentry p = Some (pos, p') /\ dtable p' n f (u + 1) /\
     0 <= pos < n /\ ~ in_use n f u pos /\ in_use n f (u + 1) pos /\
     (forall k, 0 <= k -> same_dentry p' k p k)) /\
  (forall pos, in_use n f u pos -> exists p',
     userfs_free_dentry p pos = Some (if pos =? f then -1 else 0, p') /\
     dtable p' n ((f + 1) mod n) (u - 1) /\ (pos <> f -> same_dentry p' pos p f) /\
     (forall k, k <> f -> k <> pos -> 0 <= k -> same_dentry p' k p k) /\
     (forall k, 0 <= k -> in_use n ((f + 1) mod n) (u - 1) k <-> in_use n f u k /\ k <> f)).
Proof.
  intros D. pose proof (dt_range _ _ _ _ D) as (Hn & Hf & Hu). split; [|split].
  - intros ->. destruct (dtable_load p n f n D) as (L1 & L2 & L3 & L4). unfold userfs_alloc_dentry.
    rewrite L3, L1. cbn [mbind option_bind]. by rewrite Z.eqb_refl.
  - intros Hlt. destruct (alloc_dentry_run p n f u D Hlt) as (p' & E & D' & S' & O').
    exists ((f + u) mod n), p'. split; [done|]. split; [done|]. split; [apply Z.mod_pos_bound; lia|]. split.
    { intros (i & Hi & Ei). apply mod_shift in Ei; lia. }
    split; [exists u; split; [lia|done]|]. intros k Hk o Ho. rewrite O'; [done|]. dt_unfold. lia.
  - intros pos Hin. destruct (free_dentry_run p n f u pos D Hin) as (p' & E & D' & S' & X1 & X2).
    exists p'. split; [done|]. split; [done|]. split; [done|]. split; [done|]. intros k Hk. apply in_use_advance; lia.
Qed.

(** ** Witnesses: one group of eight blocks *)

Definition one_group : geometry := Geometry 1 18 8 1 1 true.
Definition group_page : page := default (zero_page 0) (bitmap_init (Page 64 (le_write 2 (fun _ => 0) 14 8)) 16 1).
Definition super_page : page :=
  Page 96 (le_write 4 (le_write 4 (le_write 4 (le_write 4 (le_write 4 (fun _ => 0) s_data_block_size 4096)
    s_first_datablock 1) s_bgroup_desc_per_mb_count 1) s_bgroup_desc_size 18) s_data_block_per_group 8).
Definition group_fs : fs :=
  Fs (Alloc 4096 []) (fun _ _ => 7) {[ 48 := Bbuf 0 1 0 1 0 64 512 ]} {[ 256 := super_page; 512 := group_page ]}
     (Disk 0 (fun _ => 0) []) (Freelist 0 0) (Freelist 0 0) {[ 16 := Elem 8 0 ]} (Bgi 1 [48] (Mrheap [16] 1 1))
     (Dstore ∅ ∅) (Linkhash 0 0 0 []).

Lemma group_fs_mem : mem_ok group_fs.
Proof.
  split; try done; intros x Hx; cbn in *; by rewrite ?lookup_insert_ne, ?lookup_singleton_ne by lia.
Qed.

Lemma group_fs_ok : groups_ok group_fs 256 one_group [512] (fun _ => 0).
Proof.
  assert (P : packed 8 group_page 16 1).
  { apply (bitmap_init_packed _ (Page 64 (le_write 2 (fun _ => 0) 14 8))); [lia|lia|reflexivity|right; split; reflexivity|reflexivity]. }
  split; try done.
  - by exists super_page.
  - constructor; [|constructor]. by eexists.
  - apply (bool_decide_unpack _). by vm_compute.
  - intros pa Hpa. apply list_elem_of_singleton in Hpa as ->. by eexists.
  - intros g Hg. cbn in Hg. assert (g = 0) as -> by lia. exists 512, group_page. by repeat split; try apply P.
  - split; try done.
    + intros i Hi. cbn in Hi. assert (i = 0) as -> by lia. by eexists _, _.
    + intros i Hi. cbn in Hi. lia.
    + apply (bool_decide_unpack _). by vm_compute.
  - apply NoDup_singleton.
  - intros p Hp. apply list_elem_of_singleton in Hp as ->. by eexists.
  - intros p p' e e' Hp Hp' _ _ _. apply list_elem_of_singleton in Hp as ->, Hp' as ->. done.
  - intros g Hg. cbn in Hg. exists 16, (Elem 8 0). split; [by left|]. split; [done|]. cbn. lia.
Qed.

Lemma get_new_dblock_fresh_witness :
  exists r s' taken', userfs_get_new_dblock 256 16 group_fs = Some (r, s') /\
    groups_ok s' 256 one_group [512] taken'.
Proof.
  destruct (get_new_dblock_fresh group_fs 256 one_group [512] (fun _ => 0) 16 group_fs_ok group_fs_mem)
    as (r & s' & t & E & O & _); [done|done|done|by left|]. eauto.
Defined.

Lemma free_dbbuf_leaks_witness :
  exists s', userfs_free_dbbuf 48 group_fs = Some (tt, s') /\ fl_head (f_dfree s') = NULL /\
    is_Some (f_bbufs s' !! 48).
Proof.
  destruct (free_dbbuf_leaks group_fs 48 (Bbuf 0 1 0 1 0 64 512) 16 group_fs_mem) as (s' & E & H & B & _);
    [done..|]. eauto.
Defined.

(** A dentry table of four places, three of them in use from place 3 on. *)
Definition demo_dtable : page :=
  Page 4096 (le_write 4 (le_write 4 (le_write 4 (le_write 4 (fun i => i)
    dfd_dentry_count 4) dfd_first_dentry 3) dfd_used_dentry_count 3) dfd_first_free_dentry 2).

Lemma dentry_table_spec_witness :
  exists p', userfs_free_dentry demo_dtable 1 = Some (0, p') /\ dtable p' 4 0 2 /\
    same_dentry p' 1 demo_dtable 3.
Proof.
  destruct (dentry_table_spec demo_dtable 4 3 3) as (_ & _ & H); [by split|].
  destruct (H 1) as (p' & E & D & M & _); [exists 2; split; [lia|done]|].
  exists p'. split; [exact E|]. split; [exact D|]. by apply M.
Defined.
