(* ===== verification/FsInit.v ===== *)
(** * FsInit: formatting and mounting (userfs/userfs_init.c)

    Formatting fills the super block, the block group descriptors and the dentry
    table in memory; mounting reads them back and builds the index of the groups
    and the name table.  Loops of the source that walk lists on the disk have
    [fuel]; running out of it is no result. *)
From S2P Require Import Prelude Bits Atomic KList Bitmap MrHeap DentryHash Fs BlockBuf FileCtrl.
Local Open Scope Z_scope.

Definition USERFS_DEFAULT_MAX_MBBUF_FREE_LIST_LEN : Z := 256.

Definition mfree : fsM freelist := act (fun s => Some (f_mfree s, s)).
Definition set_mfree (x : freelist) : fsM unit := act (fun s => Some (tt, with_mfree s x)).

Definition userfs_alloc_mbbuf (metablock_size : Z) : fsM Z :=
  l ← mfree;
  if negb (fl_head l =? NULL) then
    let mb_buf := fl_head l in
    b ← bb mb_buf;
    set_mfree (Freelist (b_this_page b) (atomic_sub (fl_len l) 1));;;
    bb_set mb_buf (fun _ => bbuf_zero);;;
    bb_set mb_buf (set_size metablock_size);;;
    bb_set mb_buf (set_list_len 1);;;
    mret mb_buf
  else
    mb_buf ← mem_alloc sizeof_bbuf;
    if mb_buf =? NULL then mret NULL
    else
      bb_new mb_buf;;;
      data ← mem_alloc metablock_size;
      bb_set mb_buf (set_data data);;;
      if data =? NULL then bb_free mb_buf;;; mret NULL
      else
        pg_new data metablock_size;;;
        bb_set mb_buf (set_size metablock_size);;;
        bb_set mb_buf (set_list_len 1);;;
        mret mb_buf.

Definition userfs_free_mbbuf (mb_buf : Z) : fsM unit :=
  l ← mfree;
  let free_mbbuf_count := atomic_get (fl_len l) in
  if USERFS_DEFAULT_MAX_MBBUF_FREE_LIST_LEN <? free_mbbuf_count then
    b ← bb mb_buf;
    pg_free (b_data b);;;
    bb_free mb_buf
  else
    bb_set mb_buf (set_this_page (fl_head l));;;
    b ← bb mb_buf;
    set_mfree (Freelist (b_this_page b) (atomic_add (fl_len l) 1)).

(** [sb] is the page of the super block. *)
Definition userfs_get_new_metadata_block (sb mb_type : Z) : fsM Z :=
  msize ← ld 4 sb s_metablock_size;
  mb_buf ← userfs_alloc_mbbuf msize;
  if mb_buf =? NULL then mret NULL
  else
    r ← bm_get_first_free sb s_metadata_block_bitmap;
    let target_mb_id := u32 r in
    if target_mb_id =? u32 (-1) then userfs_free_mbbuf mb_buf;;; mret NULL
    else
      n ← ld 4 sb s_free_metablock_count;
      st 4 sb s_free_metablock_count (u32 (n - 1));;;
      bb_set mb_buf (set_s_off 0);;;
      bb_set mb_buf (set_blocknr target_mb_id);;;
      bb_set mb_buf (set_type mb_type);;;
      mret mb_buf.

Definition userfs_get_used_metadata_block (metablock_size first_mb_id mb_id : Z) : fsM Z :=
  mb_buf ← userfs_alloc_mbbuf metablock_size;
  if mb_buf =? NULL then mret NULL
  else
    r ← userfs_read_metadata_block mb_buf first_mb_id metablock_size mb_id;
    if r <? 0 then userfs_free_mbbuf mb_buf;;; mret NULL
    else mret mb_buf.

(** The list under construction behind the local [dummy]: what [dummy.b_this_page]
    holds (nothing yet, at first) and the last buffer. *)
Definition blist_add (d : option Z * option Z) (buf : Z) : fsM (option Z * option Z) :=
  match snd d with
  | None => mret (Some buf, Some buf)
  | Some last => bb_set last (set_this_page buf);;; mret (fst d, Some buf)
  end.

Fixpoint used_blocklist_loop (sb : Z) (ids : list Z) (d : option Z * option Z) (got : Z)
    : fsM (option Z * Z) :=
  match ids with
  | [] => mret (fst d, got)
  | target_mb_id :: ids =>
      msize ← ld 4 sb s_metablock_size;
      mb_buf ← userfs_alloc_mbbuf msize;
      if mb_buf =? NULL then mret (fst d, got)
      else
        bb_set mb_buf (set_s_off 0);;;
        first ← ld 4 sb s_first_metablock;
        r ← userfs_read_metadata_block mb_buf first msize target_mb_id;
        if r <? 0 then userfs_free_mbbuf mb_buf;;; used_blocklist_loop sb ids d got
        else
          bb_set mb_buf (set_list_len (u16 got));;;
          d ← blist_add d mb_buf;
          used_blocklist_loop sb ids d (got + 1)
  end.

(** The number of blocks read and the list; with none the code follows an
    uninitialised pointer. *)
Definition userfs_get_used_metadata_blocklist (sb : Z) (ids : list Z) : fsM (Z * Z) :=
  r ← used_blocklist_loop sb ids (None, None) 0;
  head ← lift (fst r);
  bb_set head (set_list_len (u16 (snd r)));;;
  mret (snd r, head).

(** The page of the super block, its buffer and [*r_block_size]; [NULL] without
    memory. *)
Definition userfs_suber_block_alloc (block_size metadata_block_size disk_size : Z) : fsM (Z * Z * Z) :=
  let real_block_size := get_real_block_size block_size in
  let total_block_count := disk_size / real_block_size in
  if metadata_block_size =? 0 then lift None
  else
    let metadata_block_count := real_block_size / metadata_block_size in
    sb_block_buf ← userfs_alloc_mbbuf metadata_block_size;
    if sb_block_buf =? NULL then mret (NULL, NULL, 0)
    else
      b ← bb sb_block_buf;
      let sb := b_data b in
      st 4 sb s_first_datablock 1;;;
      st 4 sb s_data_block_count (u32 (total_block_count - 1));;;
      n ← ld 4 sb s_data_block_count;
      st 4 sb s_free_data_block_count (u32 (n - 1));;;
      st 4 sb s_data_block_size real_block_size;;;
      pg_upd sb (fun p => bitmap_init p s_metadata_block_bitmap (Z.shiftr metadata_block_count 3));;;
      st 4 sb s_metablock_count metadata_block_count;;;
      st 4 sb s_metablock_size metadata_block_size;;;
      n ← ld 4 sb s_metablock_count;
      st 4 sb s_free_metablock_count n;;;
      st 4 sb s_first_metablock 0;;;
      st 4 sb s_first_dentry_mblock 0;;;
      st 4 sb mb_block_type USERFS_BTYPE_SUPER;;;
      f ← ld 4 sb s_first_metablock;
      st 4 sb h_next f;;;
      f ← ld 4 sb s_first_metablock;
      st 4 sb h_prev f;;;
      bb_set sb_block_buf (set_type USERFS_BTYPE_SUPER);;;
      r ← bm_get_first_free sb s_metadata_block_bitmap;
      bb_set sb_block_buf (set_blocknr (u32 r));;;
      mret (sb, sb_block_buf, real_block_size).

(** The descriptors from offset [o] on, [n] of them. *)
Fixpoint bgd_init_loop (n : nat) (p : page) (o blocks_per_group bgroup_desc_size : Z) : option page :=
  match n with
  | O => Some p
  | S n =>
      p ← store16 p (o + bg_block_count) (u16 blocks_per_group);
      c ← load16 p (o + bg_block_count);
      p ← store16 p (o + bg_free_block_count) c;
      p ← bitmap_init p (o + bg_block_bm) (Z.shiftr blocks_per_group 3);
      bgd_init_loop n p (o + bgroup_desc_size) blocks_per_group bgroup_desc_size
  end.

Definition userfs_bgroup_desc_block_init (bgroup_desc_bbuf blocks_per_group bgroup_desc_per_mb_count
    bgroup_desc_size prev_block next_block : Z) : fsM unit :=
  b ← bb bgroup_desc_bbuf;
  st 4 (b_data b) h_next next_block;;;
  st 4 (b_data b) h_prev prev_block;;;
  st 4 (b_data b) mb_block_type USERFS_BTYPE_BGROUP_DESC;;;
  pg_upd (b_data b) (fun p =>
    bgd_init_loop (Z.to_nat bgroup_desc_per_mb_count) p mb_union blocks_per_group bgroup_desc_size).

(** The sizes that [userfs_bgroup_desc_table_init] computes from the super block:
    [bgroup_desc_size], [bgroup_desc_per_mb_count], [bgroup_desc_count] and
    [bgroup_desc_mb_count]; a division by zero has no result. *)
Definition bgroup_sizes (metablock_size data_block_count blocks_per_group : Z) : option (Z * Z * Z * Z) :=
  let bitmap_len := Z.shiftr (u32 (blocks_per_group + 8)) 3 in
  let bgroup_desc_size := u32 (sizeof_bgroup_desc + bitmap_len) in
  if bgroup_desc_size =? 0 then None
  else
    let bgroup_desc_per_mb_count := u32 (u64 (metablock_size - sizeof_mblock) / bgroup_desc_size) in
    if (blocks_per_group =? 0) || (bgroup_desc_per_mb_count =? 0) then None
    else
      let bgroup_desc_count := u32 (u32 (data_block_count + blocks_per_group) - 1) / blocks_per_group in
      let bgroup_desc_mb_count :=
        u32 (u32 (bgroup_desc_count + bgroup_desc_per_mb_count) - 1) / bgroup_desc_per_mb_count in
      Some (bgroup_desc_size, bgroup_desc_per_mb_count, bgroup_desc_count, bgroup_desc_mb_count).

(** The blocks after the first: [lh] is the first buffer, [last] the last one. *)
Fixpoint bgd_table_loop (n : nat) (sb lh last blocks_per_group per_mb size prev_block next_block : Z) : fsM unit :=
  match n with
  | O => mret tt
  | S n =>
      new_bbuf ← userfs_get_new_metadata_block sb USERFS_BTYPE_BGROUP_DESC;
      if new_bbuf =? NULL then mret tt
      else
        userfs_bgroup_desc_block_init new_bbuf blocks_per_group per_mb size prev_block next_block;;;
        b ← bb new_bbuf;
        l ← bb last;
        st 4 (b_data l) h_next (b_blocknr b);;;
        bb_set last (set_this_page new_bbuf);;;
        bb_set lh (fun x => set_list_len (u16 (b_list_len x + 1)) x);;;
        bgd_table_loop n sb lh new_bbuf blocks_per_group per_mb size (b_blocknr b) next_block
  end.

Definition userfs_bgroup_desc_table_init (sb blocks_per_group : Z) : fsM Z :=
  msize ← ld 4 sb s_metablock_size;
  dcount ← ld 4 sb s_data_block_count;
  z ← lift (bgroup_sizes msize dcount blocks_per_group);
  let '(size, per_mb, count, mb_count) := z in
  prev_block ← ld 4 sb s_first_metablock;
  next_block ← ld 4 sb s_first_metablock;
  first ← userfs_get_new_metadata_block sb USERFS_BTYPE_BGROUP_DESC;
  if first =? NULL then mret NULL
  else
    bb_set first (set_list_len 1);;;
    userfs_bgroup_desc_block_init first blocks_per_group per_mb size prev_block next_block;;;
    b ← bb first;
    st 4 sb s_first_bgroup_desc_mblock (b_blocknr b);;;
    bgd_table_loop (Z.to_nat (mb_count - 1)) sb first first blocks_per_group per_mb size (b_blocknr b) next_block;;;
    st 4 sb s_data_block_group_count count;;;
    st 4 sb s_data_block_per_group blocks_per_group;;;
    n ← ld 4 sb s_data_block_group_count;
    st 4 sb s_free_data_block_group_count n;;;
    st 4 sb s_bgroup_desc_per_mb_count per_mb;;;
    st 4 sb s_bgroup_desc_size size;;;
    mret first.

Definition dentry_block_init (p : page) (dentry_per_mb_count prev_block next_block : Z) : option page :=
  p ← store32 p h_next next_block;
  p ← store32 p h_prev prev_block;
  p ← store32 p mb_block_type USERFS_BTYPE_DENTRY;
  p ← store32 p dfd_dentry_count dentry_per_mb_count;
  p ← store32 p dfd_first_dentry 0;
  p ← store32 p dfd_first_free_dentry 0;
  store32 p dfd_used_dentry_count 0.

Definition userfs_dentry_table_block_init (dentry_table_bbuf dentry_per_mb_count prev_block next_block : Z)
    : fsM unit :=
  b ← bb dentry_table_bbuf;
  pg_upd (b_data b) (fun p => dentry_block_init p dentry_per_mb_count prev_block next_block).

(** The number of entries of a dentry block. *)
Definition dentry_per_mb (metablock_size : Z) : Z := u32 (u64 (metablock_size / USERFS_DENTRY_SIZE - 2)).

Definition userfs_root_dentry_table_init (sb : Z) : fsM Z :=
  msize ← ld 4 sb s_metablock_size;
  let dentry_per_mb_count := dentry_per_mb msize in
  prev_block ← ld 4 sb s_first_metablock;
  next_block ← ld 4 sb s_first_metablock;
  buf ← userfs_get_new_metadata_block sb USERFS_BTYPE_DENTRY;
  if buf =? NULL then mret NULL
  else
    bb_set buf (set_list_len 1);;;
    userfs_dentry_table_block_init buf dentry_per_mb_count prev_block next_block;;;
    b ← bb buf;
    st 4 sb s_first_dentry_mblock (b_blocknr b);;;
    n ← ld 4 sb s_free_dentry_count;
    st 4 sb s_free_dentry_count (u32 (n + dentry_per_mb_count));;;
    mret buf.

(** One of the two loops of [userfs_mount_init] over a list of blocks on disk. *)
Fixpoint mount_list (fuel : nat) (metablock_size first_metablock_id sb next_mblock : Z)
    (d : option Z * option Z) (len : Z) : fsM (option Z) :=
  match fuel with
  | O => lift None
  | S fuel =>
      first ← ld 4 sb s_first_metablock;
      if next_mblock =? first then mret (fst d)
      else
        cur_mb_buf ← userfs_get_used_metadata_block metablock_size first_metablock_id next_mblock;
        if cur_mb_buf =? NULL then mret (fst d)
        else
          bb_set cur_mb_buf (set_list_len (u16 len));;;
          d ← blist_add d cur_mb_buf;
          b ← bb cur_mb_buf;
          next_mblock ← ld 4 (b_data b) h_next;
          mount_list fuel metablock_size first_metablock_id sb next_mblock d (u32 (len + 1))
  end.

(** The buffer of the super block and the two lists; the second loop starts with
    the [dummy] of the first. *)
Definition userfs_mount_init (fuel : nat) (metablock_size first_metablock_id : Z)
    : fsM (Z * option Z * option Z) :=
  sb_buf ← userfs_get_used_metadata_block metablock_size first_metablock_id 0;
  t ← (if sb_buf =? NULL then mret 0 else b ← bb sb_buf; mret (b_type b));
  if (sb_buf =? NULL) || negb (t =? USERFS_BTYPE_SUPER) then
    userfs_free_mbbuf sb_buf;;; mret (NULL, None, None)
  else
    b ← bb sb_buf;
    let sb := b_data b in
    next_mblock ← ld 4 sb s_first_bgroup_desc_mblock;
    bgs ← mount_list fuel metablock_size first_metablock_id sb next_mblock (None, None) 1;
    next_mblock ← ld 4 sb s_first_dentry_mblock;
    dts ← mount_list fuel metablock_size first_metablock_id sb next_mblock (bgs, None) 1;
    mret (sb_buf, bgs, dts).

Definition sizeof_bgd_index_list : Z := 32.

Definition set_bgi (i : bgd_index_list) : fsM unit := act (fun s => Some (tt, with_heap s (f_alloc s) (f_elems s) i)).
Definition get_bgi : fsM bgd_index_list := act (fun s => Some (f_bgi s, s)).

(** [userfs_mrheap_create]: the heap, if there is memory; the array holds what was
    in the memory before. *)
Definition heap_create (cap : Z) : fsM (option mrheap) := act (fun s =>
  let garbage := f_garbage s (a_next (f_alloc s)) <$> seqZ 0 cap in
  let '(h, a) := userfs_mrheap_create (f_alloc s) cap garbage in
  Some (h, with_alloc s a)).

(** The descriptors of one block: [n] of them from offset [o], the first with number
    [bgroup_id]; [false] when an insert fails. *)
Fixpoint bgi_block_loop (n : nat) (pa o bgroup_desc_size bgroup_id : Z) : fsM bool :=
  match n with
  | O => mret true
  | S n =>
      free ← ld 2 pa (o + bg_free_block_count);
      p ← heap_insert bgroup_id free NULL;
      if p =? NULL then mret false
      else bgi_block_loop n pa (o + bgroup_desc_size) bgroup_desc_size (u32 (bgroup_id + 1))
  end.

(** [bgi_blocknr2bbuf\[bgroup_mb++\] = cur], and the block's descriptors; [count]
    descriptors are left.  The result is [bgroup_mb].  [avail] bytes can be written at
    [bgi_blocknr2bbuf]; a store behind them is undefined. *)
Fixpoint bgi_list_loop (avail : Z) (fuel : nat) (cur sb bgroup_desc_size count bgroup_id bgroup_mb : Z) : fsM (option Z) :=
  match fuel with
  | O => lift None
  | S fuel =>
      if cur =? NULL then mret (Some bgroup_mb)
      else if avail <? sizeof_ptr * (bgroup_mb + 1) then lift None
      else
        i ← get_bgi;
        set_bgi (Bgi (bgi_bgd_mb_count i) (bgi_blocknr2bbuf i ++ [cur]) (bgi_maxroot_heap i));;;
        per_mb ← ld 4 sb s_bgroup_desc_per_mb_count;
        let cur_mb_bgd_count := if per_mb <? count then per_mb else count in
        b ← bb cur;
        ok ← bgi_block_loop (Z.to_nat cur_mb_bgd_count) (b_data b) mb_union bgroup_desc_size bgroup_id;
        if (ok : bool) then
          b ← bb cur;
          bgi_list_loop avail fuel (b_this_page b) sb bgroup_desc_size (u32 (count - cur_mb_bgd_count))
            (u32 (bgroup_id + cur_mb_bgd_count)) (bgroup_mb + 1)
        else mret None
  end.

(** [true]: the index of the state is the one returned; [false]: NULL.  The array is
    a list that grows with the stores the code makes into it.  It is allocated with
    [count / per_mb] bytes, not pointers: [usable n] says how many bytes of a block of
    [n] bytes malloc lets the caller write (malloc_usable_size; the C standard promises
    just [n]). *)
Definition userfs_mount_bgdindex_list_init (usable : Z -> Z) (fuel : nat) (bgroup_desc_bbuf_list sb : Z) : fsM bool :=
  b ← bb bgroup_desc_bbuf_list;
  if negb (b_type b =? USERFS_BTYPE_BGROUP_DESC) then mret false
  else
    p ← mem_alloc sizeof_bgd_index_list;
    if p =? NULL then mret false
    else
      count ← ld 4 sb s_data_block_group_count;
      per_mb ← ld 4 sb s_bgroup_desc_per_mb_count;
      if per_mb =? 0 then lift None
      else
        arr ← mem_alloc (count / per_mb);
        h ← heap_create (u32 (sizeof_ptr * count));
        h ← lift h;
        if arr =? NULL then lift None
        else
          set_bgi (Bgi 0 [] h);;;
          size ← ld 4 sb s_bgroup_desc_size;
          r ← bgi_list_loop (usable (count / per_mb)) fuel bgroup_desc_bbuf_list sb size count 0 0;
          match r with
          | None => set_bgi (Bgi 0 [] (Mrheap [] 0 0));;; mret false
          | Some mb => i ← get_bgi; set_bgi (Bgi mb (bgi_blocknr2bbuf i) (bgi_maxroot_heap i));;; mret true
          end.

(** [strlen] of the bytes at [o]. *)
Fixpoint strlen_loop (fuel : nat) (p : page) (o : Z) : option Z :=
  match fuel with
  | O => None
  | S fuel =>
      c ← load8 p o;
      if c =? 0 then Some 0 else n ← strlen_loop fuel p (o + 1); Some (n + 1)
  end.
Definition strlen (p : page) (o : Z) : option Z := strlen_loop (S (Z.to_nat (p_size p))) p o.

(** The [n] bytes at [o]. *)
Definition page_bytes (p : page) (o n : Z) : option (list Z) :=
  if in_page p o n then Some ((fun i => p_get p (o + i) mod 256) <$> seqZ 0 n) else None.

(** A name in a page, as the pointer and its [strlen] give it. *)
Definition page_name (a o : Z) : fsM (list Z * Z) :=
  p ← pg a;
  len ← lift (strlen p o);
  nm ← lift (page_bytes p o (len + 1));
  mret (nm, len).

(** The name table operations on the table of the state. *)
Definition hash_insert (nm : list Z) (name_len type addr pos : Z) : fsM Z := act (fun s =>
  match userfs_dentry_hash_insert (f_alloc s) (f_dstore s) (f_table s) nm name_len type addr pos with
  | Some (p, a, d, t) => Some (p, with_dir s a d t) | None => None end).

Fixpoint dentry_hash_loop (n : nat) (i dentry_table : Z) : fsM bool :=
  match n with
  | O => mret true
  | S n =>
      first ← ld 4 dentry_table dfd_first_dentry;
      count ← ld 4 dentry_table dfd_dentry_count;
      if count =? 0 then lift None
      else
        let cur_dentry_pos := u32 (i + first) mod count in
        nl ← page_name dentry_table (d_name cur_dentry_pos);
        blk ← ld 4 dentry_table (d_first_dblock cur_dentry_pos);
        p ← hash_insert (fst nl) (snd nl) USERFS_NAME2INODE blk cur_dentry_pos;
        if p =? NULL then
          act (fun s => match userfs_dentry_hash_destroy (f_dstore s) (Some (f_table s)) with
                        | Some d => Some (false, with_dir s (f_alloc s) d (f_table s)) | None => None end)
        else dentry_hash_loop n (i + 1) dentry_table
  end.

(** [true]: the table of the state is the one returned; [garbage_count] is what its
    counter holds before. *)
Definition userfs_mount_dentry_hashtable_init (hash_bucket_count dentry_table_bbuf garbage_count : Z) : fsM bool :=
  ok ← act (fun s =>
    let '(t, a, d) := userfs_dentry_hash_create (f_alloc s) (f_dstore s) hash_bucket_count garbage_count in
    match t with
    | None => Some (false, with_dir s a d (f_table s))
    | Some t => Some (true, with_dir s a d t)
    end);
  if negb (ok : bool) then mret false
  else
    b ← bb dentry_table_bbuf;
    used ← ld 4 (b_data b) dfd_used_dentry_count;
    dentry_hash_loop (Z.to_nat used) 0 (b_data b).

(** ** The dentry block *)

Lemma dentry_block_init_run p n prv nxt :
  0 < n < 2147483648 -> dentry_at n <= p_size p ->
  exists p', dentry_block_init p n prv nxt = Some p' /\ dtable p' n 0 0 /\
    le_read 4 (p_get p') h_next = u32 nxt /\ le_read 4 (p_get p') mb_block_type = USERFS_BTYPE_DENTRY /\
    p_size p' = p_size p.
Proof.
  intros Hn Hs. unfold dentry_block_init.
  unfold h_next, h_prev, mb_block_type. dt_unfold.
  repeat (rewrite store_in by (cbn [p_size]; lia); cbn [mbind option_bind p_size p_get]).
  eexists. split; [done|]. split; [split|split; [|split; [|done]]]; cbn [p_get p_size]; dt_unfold;
    rewrite ?le_read_write_same, ?le_read_write_disjoint by lia; try done; try lia;
    rewrite ?le_read_write_same, ?le_read_write_disjoint by lia; try done.
  apply Z.mod_small. lia.
Qed.

(** The dentry block: with [metablock_size / 32 - 2] entries the table is empty,
    well-formed and lies inside the block; one entry more would end behind the block
    when the size is a multiple of 32, by the 12 bytes of the block header (what the
    comment in userfs_root_dentry_table_init calls an unknown reason). *)
Theorem dentry_block_fits p msize prv nxt :
  p_size p = msize -> 96 <= msize < 4294967296 ->
  0 < dentry_per_mb msize /\
  (exists p', dentry_block_init p (dentry_per_mb msize) prv nxt = Some p' /\
     dtable p' (dentry_per_mb msize) 0 0) /\
  (msize mod 32 = 0 -> dentry_at (dentry_per_mb msize + 1) = msize + 12).
Proof.
  intros Hs Hm. unfold dentry_per_mb, USERFS_DENTRY_SIZE.
  pose proof (Z.div_mod msize 32 ltac:(lia)). pose proof (Z.mod_pos_bound msize 32 ltac:(lia)).
  rewrite u64_small, u32_small by lia. split; [lia|]. split.
  - destruct (dentry_block_init_run p (msize / 32 - 2) prv nxt) as (p' & E & D & _); [lia|dt_unfold; lia|]. eauto.
  - intros E. dt_unfold. lia.
Qed.

Lemma dentry_block_fits_witness :
  exists p', dentry_block_init (zero_page 16384) 510 0 0 = Some p' /\ dtable p' 510 0 0.
Proof. destruct (dentry_block_fits (zero_page 16384) 16384 0 0) as (_ & H & _); [done|lia|exact H]. Defined.

(** ** The block group descriptors *)

(** A fresh descriptor at [o]: no block taken. *)
Lemma bgd_init_step p o bpg nb size :
  bpg = 8 * nb -> 0 < nb -> bpg < 65536 -> 0 <= o -> sizeof_bgroup_desc + nb < size -> o + size <= p_size p ->
  exists p1 p2 p3, store16 p (o + bg_block_count) (u16 bpg) = Some p1 /\
    load16 p1 (o + bg_block_count) = Some bpg /\ store16 p1 (o + bg_free_block_count) bpg = Some p2 /\
    bitmap_init p2 (o + bg_block_bm) (Z.shiftr bpg 3) = Some p3 /\ p_size p3 = p_size p /\
    packed (bpg - 1) p3 (o + bg_block_bm) nb /\ first p3 (o + bg_block_bm) = 0 /\
    le_read 2 (p_get p3) (o + bg_free_block_count) = bpg /\
    (forall x, x < o \/ o + sizeof_bgroup_desc + nb <= x -> p_get p3 x = p_get p x).
Proof.
  intros Eb Hnb Hb Ho Hs Hp. unfold bg_block_count, bg_free_block_count, bg_block_bm, sizeof_bgroup_desc in *.
  assert (Z.shiftr bpg 3 = nb) as ->.
  { rewrite Z.shiftr_div_pow2, Eb by lia. change (2 ^ 3) with 8. rewrite Z.mul_comm. apply Z.div_mul. lia. }
  assert (u16 bpg = bpg) as -> by (apply u16_small; lia).
  rewrite store_in by lia. eexists _, _.
  set (p1 := Page _ _). set (p2 := Page (p_size p) (le_write 2 (p_get p1) (o + 2) bpg)).
  destruct (bitmap_init_run p2 (o + 4) nb) as (p3 & E3 & L3 & S3 & F3 & U3 & B3 & O3);
    [lia|lia|cbn [p_size p2]; bm_unfold; lia|].
  exists p3. split; [done|]. split.
  { rewrite load_in by (cbn [p_size]; lia). cbn [p_get p1]. rewrite le_read_write_same.
    f_equal. apply Z.mod_small. lia. }
  split; [by rewrite store_in by (cbn [p_size p1]; lia)|]. split; [done|]. split; [done|].
  split; [apply (bitmap_init_packed _ p2); [lia|lia|cbn [p_size p2]; bm_unfold; lia|lia|done]|].
  split; [done|]. split.
  - rewrite (le_read_ext 2 (p_get p3) (p_get p2)).
    + cbn [p_get p2]. rewrite le_read_write_same. apply Z.mod_small. lia.
    + intros x Hx. rewrite O3 by lia. done.
  - intros x Hx. rewrite O3 by (bm_unfold; lia). cbn [p_get p2 p1]. rewrite !le_write_outside by lia. done.
Qed.

(** The descriptors of a block: all of them fresh.  Nothing is known of the bit behind
    their bitmaps, so all but the last block of each can be taken. *)
Definition fresh_groups (p : page) (o bpg nb size n : Z) : Prop :=
  forall i, 0 <= i < n ->
    packed (bpg - 1) p (o + i * size + bg_block_bm) nb /\ first p (o + i * size + bg_block_bm) = 0 /\
    le_read 2 (p_get p) (o + i * size + bg_free_block_count) = bpg.

Lemma bgd_init_loop_run n : forall p o bpg nb size,
  bpg = 8 * nb -> 0 < nb -> bpg < 65536 -> 0 <= o -> sizeof_bgroup_desc + nb < size ->
  o + Z.of_nat n * size <= p_size p ->
  exists p', bgd_init_loop n p o bpg size = Some p' /\ p_size p' = p_size p /\
    fresh_groups p' o bpg nb size (Z.of_nat n) /\
    (forall x, x < o \/ o + Z.of_nat n * size <= x -> p_get p' x = p_get p x).
Proof.
  induction n as [|n IH]; intros p o bpg nb size Eb Hnb Hb Ho Hs Hp.
  { exists p. split; [done|]. split; [done|]. split; [intros i Hi; lia|done]. }
  assert (Z.of_nat (S n) * size = size + Z.of_nat n * size) as En by lia. rewrite En in *.
  assert (0 <= Z.of_nat n * size) by (unfold sizeof_bgroup_desc in Hs; nia).
  destruct (bgd_init_step p o bpg nb size) as (p1 & p2 & p3 & E1 & E2 & E3 & E4 & S3 & P3 & F3 & R3 & O3);
    try done; [lia|].
  cbn [bgd_init_loop]. rewrite E1. cbn [mbind option_bind]. rewrite E2. cbn [mbind option_bind].
  rewrite E3. cbn [mbind option_bind]. rewrite E4. cbn [mbind option_bind].
  destruct (IH p3 (o + size) bpg nb size) as (p' & E' & S' & P' & O'); try done; try (unfold sizeof_bgroup_desc in *; lia).
  exists p'. split; [done|]. split; [by rewrite S', S3|]. split.
  - intros i Hi. destruct (Z.eq_dec i 0) as [->|].
    + replace (o + 0 * size) with o by lia.
      assert (A : forall x, x < o + size -> p_get p' x = p_get p3 x) by (intros x Hx; apply O'; lia).
      destruct (packed_ext (bpg - 1) p3 p' (o + bg_block_bm) nb) as [Hp' Hf]; [done| |done|].
      { intros x Hx. apply A. unfold bg_block_bm, bm_bitmap, sizeof_bgroup_desc in *. lia. }
      split; [done|]. split; [by rewrite Hf|]. rewrite <- R3. apply le_read_ext. intros x Hx.
      rewrite A; [done|]. unfold bg_free_block_count, sizeof_bgroup_desc in *. lia.
    + replace (o + i * size) with (o + size + (i - 1) * size) by lia. apply P'. lia.
  - intros x Hx. unfold sizeof_bgroup_desc in *. rewrite O' by lia. apply O3. lia.
Qed.

Lemma ceil_div_bounds c d : 0 < d -> 0 <= c -> c <= (c + d - 1) / d * d < c + d.
Proof.
  intros Hd Hc. pose proof (Z.div_mod (c + d - 1) d ltac:(lia)). pose proof (Z.mod_pos_bound (c + d - 1) d Hd). nia.
Qed.

Lemma bgroup_sizes_spec msize dcount bpg nb :
  bpg = 8 * nb -> 0 < nb -> bpg < 65536 -> sizeof_mblock <= msize < 2147483648 -> 0 <= dcount < 2147483648 ->
  sizeof_mblock + sizeof_bgroup_desc + nb + 1 <= msize ->
  exists per_mb count mb_count,
    bgroup_sizes msize dcount bpg = Some (sizeof_bgroup_desc + nb + 1, per_mb, count, mb_count) /\
    0 < per_mb /\ sizeof_mblock + per_mb * (sizeof_bgroup_desc + nb + 1) <= msize /\
    dcount <= count * bpg < dcount + bpg /\ count <= mb_count * per_mb < count + per_mb.
Proof.
  intros Eb Hnb Hb Hm Hd Hr. unfold bgroup_sizes, sizeof_mblock, sizeof_bgroup_desc in *.
  assert (Z.shiftr (u32 (bpg + 8)) 3 = nb + 1) as ->.
  { rewrite u32_small, Z.shiftr_div_pow2 by lia. change (2 ^ 3) with 8. rewrite Eb.
    replace (8 * nb + 8) with ((nb + 1) * 8) by lia. apply Z.div_mul. lia. }
  rewrite (u32_small (_ + (nb + 1))) by lia.
  match goal with |- context [u64 (msize - ?c) / ?d] =>
    rewrite (u64_small (msize - c)) by lia; set (sz := d);
    assert (1 <= (msize - c) / sz) by (apply Z.div_le_lower_bound; lia);
    pose proof (Z.div_mod (msize - c) sz ltac:(lia)); pose proof (Z.mod_pos_bound (msize - c) sz ltac:(lia));
    assert ((msize - c) / sz * 16 <= msize) by nia; set (pm := (msize - c) / sz) in *
  end.
  rewrite (u32_small pm) by lia. zdec. cbn [orb].
  rewrite (u32_small (dcount + bpg)), (u32_small (dcount + bpg - 1)) by lia.
  pose proof (ceil_div_bounds dcount bpg ltac:(lia) ltac:(lia)) as C1.
  set (cnt := (dcount + bpg - 1) / bpg) in *.
  assert (0 <= cnt < 2147483648 + 65536) by nia.
  rewrite (u32_small (cnt + pm)), (u32_small (cnt + pm - 1)) by lia.
  pose proof (ceil_div_bounds cnt pm ltac:(lia) ltac:(lia)) as C2.
  eexists _, _, _. split; [do 4 f_equal; subst sz; lia|].
  split; [lia|]. split; [subst sz; nia|]. split; [done|done].
Qed.

(** [userfs_bgroup_desc_block_init] of a block of [msize] bytes: [pm] fresh descriptors
    of [sizeof_bgroup_desc + nb + 1] bytes. *)
Lemma bgd_block_run msize bpg nb pm s buf b p prv nxt :
  bpg = 8 * nb -> 0 < nb -> bpg < 65536 -> 0 < pm ->
  sizeof_mblock + pm * (sizeof_bgroup_desc + nb + 1) <= msize ->
  f_bbufs s !! buf = Some b -> f_pages s !! b_data b = Some p -> p_size p = msize ->
  exists p', userfs_bgroup_desc_block_init buf bpg pm (sizeof_bgroup_desc + nb + 1) prv nxt s =
      Some (tt, with_pages s (<[b_data b := p']> (f_pages s))) /\
    p_size p' = msize /\ le_read 4 (p_get p') h_next = u32 nxt /\
    le_read 4 (p_get p') mb_block_type = USERFS_BTYPE_BGROUP_DESC /\
    fresh_groups p' mb_union bpg nb (sizeof_bgroup_desc + nb + 1) pm.
Proof.
  intros Eb Hnb Hb Hpm Hr Eb' Ep Sp. unfold userfs_bgroup_desc_block_init.
  rewrite (bind_run _ _ _ _ _ (bb_run buf s b Eb')).
  rewrite (run_at _ s _ _ Ep). unfold h_next, h_prev, mb_block_type, sizeof_mblock, sizeof_bgroup_desc in *.
  do 3 (erewrite bind_run; [|apply st_at; cbn [p_size]; lia]). cbn [p_size].
  match goal with |- context [<[b_data b := ?q]> _] => set (p1 := q) end.
  destruct (bgd_init_loop_run (Z.to_nat pm) p1 mb_union bpg nb (16 + nb + 1))
    as (p' & E' & S' & P' & O'); try done; try (unfold mb_union, sizeof_bgroup_desc; cbn [p_size p1]; lia).
  rewrite Z2Nat.id in P', O' by lia.
  assert (H : forall o, o + 4 <= mb_union -> le_read 4 (p_get p') o = le_read 4 (p_get p1) o).
  { intros o Ho. apply le_read_ext. intros x Hx. rewrite O'; [done|]. lia. }
  exists p'. split; [by apply pg_upd_at|]. split; [by rewrite S'|].
  split; [|split; [|done]]; (rewrite H by (unfold mb_union; lia)); cbn [p_get p1].
  - rewrite !le_read_write_disjoint by lia. by rewrite le_read_write_same.
  - by rewrite le_read_write_same.
Qed.

(** The block group descriptors: with the sizes that
    userfs_bgroup_desc_table_init computes, a descriptor block gets [per_mb] fresh
    descriptors that lie inside the block and do not overlap; the blocks hold all descriptors, and the groups all
    data blocks, fewer than one group too many (they describe exactly the data
    blocks only when [bpg] divides their number). *)
Theorem bgd_block_layout msize dcount bpg nb :
  bpg = 8 * nb -> 0 < nb -> bpg < 65536 -> 0 <= dcount < 2147483648 ->
  sizeof_mblock + sizeof_bgroup_desc + nb + 1 <= msize < 2147483648 ->
  exists size per_mb count mb_count,
    bgroup_sizes msize dcount bpg = Some (size, per_mb, count, mb_count) /\
    (forall s buf b p prv nxt, f_bbufs s !! buf = Some b -> f_pages s !! b_data b = Some p -> p_size p = msize ->
       exists s' p', userfs_bgroup_desc_block_init buf bpg per_mb size prv nxt s = Some (tt, s') /\
         f_pages s' = <[b_data b := p']> (f_pages s) /\ f_bbufs s' = f_bbufs s /\
         p_size p' = msize /\ le_read 4 (p_get p') h_next = u32 nxt /\
         fresh_groups p' mb_union bpg nb size per_mb) /\
    dcount <= count * bpg < dcount + bpg /\ count <= mb_count * per_mb.
Proof.
  intros Eb Hnb Hb Hd Hm.
  destruct (bgroup_sizes_spec msize dcount bpg nb) as (pm & cnt & mbc & E & Hpm & Hr & C1 & C2); try done; try (unfold sizeof_mblock in *; lia).
  { unfold sizeof_mblock, sizeof_bgroup_desc in *; lia. }
  eexists _, pm, cnt, mbc. split; [exact E|]. split; [|split; [done|lia]].
  intros s buf b p prv nxt Eb' Ep Sp.
  destruct (bgd_block_run msize bpg nb pm s buf b p prv nxt) as (p' & E' & S' & N' & _ & F'); try done.
  eexists _, p'. split; [exact E'|]. done.
Qed.

Lemma bgd_block_layout_witness :
  exists size per_mb count mb_count, bgroup_sizes 16384 16383 256 = Some (size, per_mb, count, mb_count) /\
    16383 <= count * 256 < 16639 /\
    exists s' p', userfs_bgroup_desc_block_init 256 256 per_mb size 0 0
        (with_pages (demo_fs []) {[ 512 := zero_page 16384 ]}) = Some (tt, s') /\
      f_pages s' !! 512 = Some p' /\ fresh_groups p' mb_union 256 32 size per_mb.
Proof.
  destruct (bgd_block_layout 16384 16383 256 32) as (size & pm & c & mb & E & H & C & _);
    [done|lia|lia|lia|unfold sizeof_mblock, sizeof_bgroup_desc; lia|].
  exists size, pm, c, mb. split; [exact E|]. split; [exact C|].
  destruct (H (with_pages (demo_fs []) {[ 512 := zero_page 16384 ]}) 256 demo_bb (zero_page 16384) 0 0)
    as (s' & p' & E' & P' & _ & _ & _ & F); [reflexivity|reflexivity|reflexivity|].
  exists s', p'. split; [exact E'|]. split; [|exact F]. rewrite P'. apply lookup_insert_eq.
Defined.
