(* ===== verification/Mount.v ===== *)
(** * Mount: the index of the block groups that mounting builds

    [userfs_mount_bgdindex_list_init] (modelled in FsInit) walks the descriptor
    blocks and enters every group into the heap; the theorem of this file is that
    the invariant of the block allocator (FileCtrl's [groups_ok]) holds afterwards. *)
From S2P Require Import Prelude Bits Atomic KList Bitmap MrHeap DentryHash Fs BlockBuf FileCtrl FsInit.
Local Open Scope Z_scope.

(** What the descriptor blocks say: the part of [groups_ok] that is on the disk. *)
Record descs_ok (s : fs) (sb : Z) (G : geometry) (pas : list Z) (taken : Z -> Z) : Prop := {
  de_geom : geometry_ok G;
  de_sb : exists q, f_pages s !! sb = Some q /\ 92 <= p_size q /\
    le_read 4 (p_get q) s_bgroup_desc_per_mb_count = g_per_mb G /\
    le_read 4 (p_get q) s_bgroup_desc_size = g_bgd_size G /\
    le_read 4 (p_get q) s_data_block_per_group = g_blocks G /\
    le_read 4 (p_get q) s_data_block_group_count = g_count G;
  de_nodup : NoDup (sb :: pas);
  de_pages : forall pa, pa ∈ pas -> is_Some (f_pages s !! pa);
  de_group : forall g, 0 <= g < g_count G -> exists pa q,
    pas !! bgd_mb G g = Some pa /\ f_pages s !! pa = Some q /\
    bgd_off G g + g_bgd_size G <= p_size q /\
    packed (g_limit G) q (bgd_off G g + bg_block_bm) (g_bytes G) /\
    first q (bgd_off G g + bg_block_bm) = taken g /\
    le_read 2 (p_get q) (bgd_off G g + bg_free_block_count) = g_blocks G - taken g }.

(** The heap holds the groups below [id]. *)
Record indexed (es : elems) (h : mrheap) (G : geometry) (taken : Z -> Z) (id : Z) : Prop := {
  ix_heap : heap_wf es h;
  ix_size : size h = id;
  ix_nodup : NoDup (used h);
  ix_elems : forall p, p ∈ used h -> exists e, es !! p = Some e /\
    0 <= bgi_bgroup_nr e < id /\ bgi_free_blocks_count e = g_blocks G - taken (bgi_bgroup_nr e);
  ix_inj : forall p p' e e', p ∈ used h -> p' ∈ used h ->
    es !! p = Some e -> es !! p' = Some e' -> bgi_bgroup_nr e = bgi_bgroup_nr e' -> p = p';
  ix_all : forall g, 0 <= g < id -> exists p e, p ∈ used h /\ es !! p = Some e /\ bgi_bgroup_nr e = g }.

Lemma indexed_insert es h G taken id a p :
  indexed es h G taken id -> id < capacity h -> 0 <= id -> es !! p = None -> p <> NULL ->
  exists h', userfs_mrheap_insert a es h id (g_blocks G - taken id) p =
      Some (p, a, <[p := Elem (g_blocks G - taken id) id]> es, h') /\
    indexed (<[p := Elem (g_blocks G - taken id) id]> es) h' G taken (id + 1) /\ capacity h' = capacity h.
Proof.
  intros [I1 I2 I3 I4 I5 I6] Hc H0 Hp Np. assert (Nu : p ∉ used h).
  { intros Hin. destruct (I4 p Hin) as (e & Ee & _). congruence. }
  destruct (insert_own es h a id (g_blocks G - taken id) p I1 ltac:(lia) Np Nu) as (h' & E & W & C & U).
  exists h'. split; [done|]. split; [|done].
  set (es' := <[p := _]> es) in *.
  assert (L : forall x, x ∈ used h' -> x = p \/ (x <> p /\ x ∈ used h /\ es' !! x = es !! x)).
  { intros x. rewrite U, elem_of_cons. intros [->|Hx]; [by left|]. right.
    assert (x <> p) by congruence. split; [done|]. split; [done|]. unfold es'. by rewrite lookup_insert_ne by done. }
  assert (Lp : es' !! p = Some (Elem (g_blocks G - taken id) id)) by apply lookup_insert_eq.
  split; [done| | | | |].
  - pose proof (length_used _ _ W) as L1. pose proof (length_used _ _ I1) as L2.
    rewrite U in L1. cbn [length] in L1. lia.
  - rewrite U. by apply NoDup_cons.
  - intros x Hx. destruct (L x Hx) as [->|(Nx & Hx' & Ex)].
    + eexists. split; [done|]. cbn. lia.
    + rewrite Ex. destruct (I4 x Hx') as (e & Ee & R & F). exists e. split; [done|]. split; [lia|done].
  - intros x y e e' Hx Hy Ee Ee' En.
    destruct (L x Hx) as [->|(Nx & Hx' & Ex)], (L y Hy) as [->|(Ny & Hy' & Ey)]; [done| | |].
    + rewrite Lp in Ee. injection Ee as <-. rewrite Ey in Ee'. destruct (I4 y Hy') as (e1 & E1 & R & _).
      rewrite E1 in Ee'. injection Ee' as <-. cbn in En. lia.
    + rewrite Lp in Ee'. injection Ee' as <-. rewrite Ex in Ee. destruct (I4 x Hx') as (e1 & E1 & R & _).
      rewrite E1 in Ee. injection Ee as <-. cbn in En. lia.
    + rewrite Ex in Ee. rewrite Ey in Ee'. eauto.
  - intros g Hg. destruct (Z.eq_dec g id) as [->|].
    + exists p, (Elem (g_blocks G - taken id) id). split; [rewrite U; by left|]. done.
    + destruct (I6 g ltac:(lia)) as (x & e & Hx & Ee & En). exists x, e. split; [rewrite U; by right|].
      split; [|done]. unfold es'. rewrite lookup_insert_ne; [done|]. congruence.
Qed.

Definition unused (a : alloc) (es : elems) : Prop := forall x, a_next a <= x -> es !! x = None.

Lemma heap_insert_new s a es i G taken id k :
  indexed es (bgi_maxroot_heap i) G taken id -> 0 <= id < capacity (bgi_maxroot_heap i) ->
  room a (24 + k) -> 0 <= k -> unused a es ->
  exists p a' es' h', heap_insert id (g_blocks G - taken id) NULL (with_heap s a es i) =
      Some (p, with_heap s a' es' (set_heap i h')) /\ p <> NULL /\
    indexed es' h' G taken (id + 1) /\ capacity h' = capacity (bgi_maxroot_heap i) /\
    room a' k /\ unused a' es' /\ a_next a <= a_next a' /\ (es !! NULL = None -> es' !! NULL = None).
Proof.
  intros I Hid Hr Hk U.
  destruct (room_malloc a sizeof_mrheap_elem k) as (a' & Em & R & Lt & P); [done|done|done|].
  destruct (indexed_insert es _ G taken id a' (a_next a) I) as (h' & E & I' & C'); try lia.
  { apply U. lia. }
  { unfold NULL. lia. }
  pose proof (insert_new es (bgi_maxroot_heap i) a id (g_blocks G - taken id)) as N.
  rewrite (ix_size _ _ _ _ _ I) in N. specialize (N ltac:(lia)). rewrite Em in N.
  assert ((a_next a =? NULL) = false) as Z by (unfold NULL; lia). rewrite Z in N. rewrite E in N.
  exists (a_next a), a', (<[a_next a := Elem (g_blocks G - taken id) id]> es), h'.
  split; [unfold heap_insert, act; cbn [f_alloc f_elems f_bgi with_heap]; by rewrite N|].
  split; [unfold NULL; lia|]. split; [done|]. split; [done|]. split; [done|]. split.
  - intros x Hx. rewrite lookup_insert_ne by lia. apply U. lia.
  - split; [lia|]. intros Hn. rewrite lookup_insert_ne by (unfold NULL; lia). done.
Qed.

Lemma bgi_block_loop_run n : forall s a es i G taken id k pa q o size,
  indexed es (bgi_maxroot_heap i) G taken id -> 0 <= id ->
  id + Z.of_nat n <= capacity (bgi_maxroot_heap i) -> id + Z.of_nat n < 4294967296 ->
  room a (24 * Z.of_nat n + k) -> 0 <= k -> unused a es -> es !! NULL = None ->
  f_pages s !! pa = Some q ->
  (forall j, 0 <= j < Z.of_nat n -> 0 <= o + j * size /\ o + j * size + 4 <= p_size q /\
    le_read 2 (p_get q) (o + j * size + bg_free_block_count) = g_blocks G - taken (id + j)) ->
  exists a' es' h', bgi_block_loop n pa o size id (with_heap s a es i) =
      Some (true, with_heap s a' es' (set_heap i h')) /\
    indexed es' h' G taken (id + Z.of_nat n) /\ capacity h' = capacity (bgi_maxroot_heap i) /\
    room a' k /\ unused a' es' /\ es' !! NULL = None /\ a_next a <= a_next a'.
Proof.
  induction n as [|n IH]; intros s a es i G taken id k pa q o size I H0 Hc Hw Hr Hk U Un Eq D.
  { exists a, es, (bgi_maxroot_heap i). cbn [bgi_block_loop]. rewrite Z.add_0_r. destruct i.
    repeat (split; [done|]). done. }
  cbn [bgi_block_loop]. destruct (D 0 ltac:(lia)) as (D1 & D2 & D3).
  rewrite Z.mul_0_l, (Z.add_0_r o) in D1, D2, D3. rewrite Z.add_0_r in D3.
  erewrite bind_run; [|eapply ld_run; [exact Eq|apply load_in; unfold bg_free_block_count; lia]].
  rewrite D3.
  destruct (heap_insert_new s a es i G taken id (24 * Z.of_nat n + k))
    as (p & a1 & es1 & h1 & E & Np & I1 & C1 & R1 & U1 & L1 & N1); try done; try lia.
  { replace (24 + (24 * Z.of_nat n + k)) with (24 * Z.of_nat (S n) + k) by lia. done. }
  erewrite bind_run; [|exact E]. rewrite (proj2 (Z.eqb_neq p NULL) Np).
  rewrite u32_small by lia.
  destruct (IH s a1 es1 (set_heap i h1) G taken (id + 1) k pa q (o + size) size)
    as (a2 & es2 & h2 & E2 & I2 & C2 & R2 & U2 & N2 & L2); try done; cbn [bgi_maxroot_heap set_heap]; try lia.
  { auto. }
  { intros j Hj. destruct (D (j + 1) ltac:(lia)) as (B1 & B2 & B3).
    replace (o + size + j * size) with (o + (j + 1) * size) by lia.
    replace (id + 1 + j) with (id + (j + 1)) by lia. done. }
  exists a2, es2, h2. rewrite E2. split; [done|].
  replace (id + Z.of_nat (S n)) with (id + 1 + Z.of_nat n) by lia. split; [done|].
  cbn [bgi_maxroot_heap set_heap] in C2. split; [congruence|]. repeat (split; [done|]). lia.
Qed.

(** The buffers of a list, linked by [b_this_page] up to NULL, and their pages. *)
Fixpoint bchain (s : fs) (cur : Z) (bufs pas : list Z) : Prop :=
  match bufs, pas with
  | [], [] => cur = NULL
  | buf :: bufs, pa :: pas => cur = buf /\ buf <> NULL /\
      exists b, f_bbufs s !! buf = Some b /\ b_data b = pa /\ bchain s (b_this_page b) bufs pas
  | _, _ => False
  end.

Lemma bchain_tab s cur bufs pas :
  bchain s cur bufs pas -> Forall2 (fun buf pa => exists b, f_bbufs s !! buf = Some b /\ b_data b = pa) bufs pas.
Proof.
  revert cur pas. induction bufs as [|buf bufs IH]; intros cur [|pa pas] H; cbn in H; try done.
  destruct H as (-> & _ & b & Eb & Ed & H). constructor; eauto.
Qed.

(** The groups of the block with index [k], the first of which is [id]. *)
Lemma block_groups G k id j n :
  0 < g_per_mb G -> 0 <= k -> id = Z.min (k * g_per_mb G) (g_count G) ->
  n = Z.min (g_per_mb G) (g_count G - id) -> 0 <= j < n ->
  bgd_mb G (id + j) = Z.to_nat k /\ bgd_off G (id + j) = mb_union + j * g_bgd_size G /\ 0 <= id + j < g_count G.
Proof.
  intros Hp Hk Hid Hn Hj. assert (id = k * g_per_mb G) as Eid by lia.
  assert (0 <= k * g_per_mb G) by (apply Z.mul_nonneg_nonneg; lia).
  unfold bgd_mb, bgd_off. rewrite Eid. rewrite Z.add_comm, Z.div_add, Z.div_small, Z_mod_plus_full, Z.mod_small by lia.
  repeat split; lia.
Qed.

(** One descriptor block, the one with index [k]. *)
Lemma bgi_block_run s sb G all taken k pa a es i id c K :
  descs_ok s sb G all taken -> all !! k = Some pa ->
  id = Z.min (Z.of_nat k * g_per_mb G) (g_count G) -> c = g_count G - id ->
  indexed es (bgi_maxroot_heap i) G taken id -> g_count G <= capacity (bgi_maxroot_heap i) ->
  room a (24 * c + K) -> 0 <= K -> unused a es -> es !! NULL = None ->
  let n := Z.min (g_per_mb G) c in
  exists a' es' h', bgi_block_loop (Z.to_nat n) pa mb_union (g_bgd_size G) id (with_heap s a es i) =
      Some (true, with_heap s a' es' (set_heap i h')) /\
    indexed es' h' G taken (id + n) /\ capacity h' = capacity (bgi_maxroot_heap i) /\
    room a' (24 * (c - n) + K) /\ unused a' es' /\ es' !! NULL = None /\ a_next a <= a_next a'.
Proof.
  intros DO Epa Hid Hc I Hcap Hr HK U Un n.
  pose proof (de_geom _ _ _ _ _ DO) as [Gp Gb Gbl Grm Gsz Gc].
  pose proof (ix_size _ _ _ _ _ I). pose proof (hw_size _ _ (ix_heap _ _ _ _ _ I)).
  assert (g_count G < 4294967296) by nia.
  destruct (de_pages _ _ _ _ _ DO pa) as [q Eq]; [by eapply list_elem_of_lookup_2|].
  pose proof (bgi_block_loop_run (Z.to_nat n) s a es i G taken id (24 * (c - n) + K) pa q mb_union (g_bgd_size G)) as L.
  rewrite Z2Nat.id in L by lia. apply L; try done; try lia.
  { by replace (24 * n + (24 * (c - n) + K)) with (24 * c + K) by lia. }
  intros j Hj. destruct (block_groups G (Z.of_nat k) id j n) as (M & O & Hg); [done|lia|done|lia|lia|].
  rewrite Nat2Z.id in M. destruct (de_group _ _ _ _ _ DO _ Hg) as (pa' & q' & E1 & E2 & R & P & F & Fr).
  rewrite M, Epa in E1. injection E1 as <-. rewrite Eq in E2. injection E2 as <-. rewrite O in *.
  assert (0 <= j * g_bgd_size G) by (unfold sizeof_bgroup_desc in Grm; apply Z.mul_nonneg_nonneg; lia).
  unfold sizeof_bgroup_desc, mb_union in *. split; [lia|]. split; [lia|done].
Qed.

(** One round of the loop, with room for the pointer. *)
Lemma bgi_list_step avail fuel s sb G all taken k pa pas buf bufs a es i id c mb K :
  descs_ok s sb G all taken -> bchain s buf (buf :: bufs) (pa :: pas) -> all !! k = Some pa ->
  id = Z.min (Z.of_nat k * g_per_mb G) (g_count G) -> c = g_count G - id -> 8 * (mb + 1) <= avail ->
  indexed es (bgi_maxroot_heap i) G taken id -> g_count G <= capacity (bgi_maxroot_heap i) ->
  room a (24 * c + K) -> 0 <= K -> unused a es -> es !! NULL = None ->
  let n := Z.min (g_per_mb G) c in
  exists b a' es' h', f_bbufs s !! buf = Some b /\ bchain s (b_this_page b) bufs pas /\
    bgi_list_loop avail (S fuel) buf sb (g_bgd_size G) c id mb (with_heap s a es i) =
      bgi_list_loop avail fuel (b_this_page b) sb (g_bgd_size G) (c - n) (id + n) (mb + 1)
        (with_heap s a' es' (Bgi (bgi_bgd_mb_count i) (bgi_blocknr2bbuf i ++ [buf]) h')) /\
    indexed es' h' G taken (id + n) /\ capacity h' = capacity (bgi_maxroot_heap i) /\
    id + n = Z.min (Z.of_nat (S k) * g_per_mb G) (g_count G) /\
    room a' (24 * (c - n) + K) /\ unused a' es' /\ es' !! NULL = None /\ a_next a <= a_next a'.
Proof.
  intros DO (_ & Nb & b & Eb & Ed & B) Epa Hid Hc Hav I Hcap Hr HK U Un n.
  pose proof (de_geom _ _ _ _ _ DO) as [Gp Gb Gbl Grm Gsz Gc].
  destruct (de_sb _ _ _ _ _ DO) as (sq & Es & Ss & S1 & S2 & _).
  pose proof (ix_size _ _ _ _ _ I). pose proof (hw_size _ _ (ix_heap _ _ _ _ _ I)).
  assert (g_count G < 4294967296) by nia.
  cbn [bgi_list_loop]. rewrite (proj2 (Z.eqb_neq buf NULL) Nb). unfold sizeof_ptr. zdec.
  erewrite bind_run; [|done]. erewrite bind_run; [|done]. cbn [f_bgi with_heap].
  erewrite bind_run; [|eapply sb_ld; [exact Es|done|unfold s_bgroup_desc_per_mb_count, mb_union; lia]].
  rewrite S1. erewrite bind_run; [|apply bb_run; exact Eb]. rewrite Ed.
  set (i1 := Bgi _ _ _).
  assert ((if g_per_mb G <? c then g_per_mb G else c) = n) as -> by (unfold n; zcase; lia).
  destruct (bgi_block_run s sb G all taken k pa a es i1 id c K) as (a1 & es1 & h1 & E1 & I1 & C1 & R1 & U1 & N1 & L1);
    try done.
  rewrite (bind_run _ _ _ _ _ E1).
  erewrite bind_run; [|apply bb_run; exact Eb].
  rewrite (u32_small (c - n)), (u32_small (id + n)) by lia.
  exists b, a1, es1, h1. repeat (split; [done|]). split; [lia|]. done.
Qed.

Lemma bgi_list_loop_run avail bufs : forall fuel s sb G all taken k pas cur a es i id c mb K,
  descs_ok s sb G all taken -> bchain s cur bufs pas -> (length bufs < fuel)%nat ->
  (forall j, pas !! j = all !! (k + j)%nat) -> 8 * (mb + Z.of_nat (length bufs)) <= avail ->
  id = Z.min (Z.of_nat k * g_per_mb G) (g_count G) -> c = g_count G - id ->
  indexed es (bgi_maxroot_heap i) G taken id -> g_count G <= capacity (bgi_maxroot_heap i) ->
  room a (24 * c + K) -> 0 <= K -> unused a es -> es !! NULL = None ->
  exists a' es' h', bgi_list_loop avail fuel cur sb (g_bgd_size G) c id mb (with_heap s a es i) =
      Some (Some (mb + Z.of_nat (length bufs)),
            with_heap s a' es' (Bgi (bgi_bgd_mb_count i) (bgi_blocknr2bbuf i ++ bufs) h')) /\
    indexed es' h' G taken (Z.min (Z.of_nat (k + length bufs) * g_per_mb G) (g_count G)) /\
    room a' K /\ unused a' es' /\ es' !! NULL = None /\ a_next a <= a_next a'.
Proof.
  induction bufs as [|buf bufs IH]; intros [|fuel] s sb G all taken k pas cur a es i id c mb K
    DO B Hf Hall Hav Hid Hc I Hcap Hr HK U Un; try (cbn in Hf; lia); destruct pas as [|pa pas]; try done; cbn [length] in *.
  - cbn in B. subst cur. cbn [bgi_list_loop length]. change (NULL =? NULL) with true. cbn iota.
    exists a, es, (bgi_maxroot_heap i). rewrite app_nil_r, Nat.add_0_r, Z.add_0_r, <- Hid. rewrite ret_run.
    pose proof (ix_size _ _ _ _ _ I). pose proof (hw_size _ _ (ix_heap _ _ _ _ _ I)).
    split; [by destruct i|]. split; [done|]. split; [|done]. destruct Hr as (? & ? & ?). repeat split; try done. lia.
  - destruct (proj1 B). destruct (bgi_list_step avail fuel s sb G all taken k pa pas cur bufs a es i id c mb K)
      as (b & a1 & es1 & h1 & Eb & B1 & -> & I1 & C1 & Hid1 & R1 & U1 & N1 & L1); try done; [|lia|].
    { by rewrite <- (Nat.add_0_r k), <- Hall. }
    destruct (IH fuel s sb G all taken (S k) pas (b_this_page b) a1 es1
      (Bgi (bgi_bgd_mb_count i) (bgi_blocknr2bbuf i ++ [cur]) h1) (id + Z.min (g_per_mb G) c) (c - Z.min (g_per_mb G) c) (mb + 1) K)
      as (a2 & es2 & h2 & E2 & I2 & R2 & U2 & N2 & L2); try done; try lia.
    { intros j. specialize (Hall (S j)). rewrite lookup_cons_ne_0 in Hall by lia. cbn [Nat.pred] in Hall. rewrite Hall. f_equal. lia. }
    { cbn [bgi_maxroot_heap]. rewrite C1. done. }
    exists a2, es2, h2. rewrite E2. cbn [bgi_bgd_mb_count bgi_blocknr2bbuf].
    rewrite <- app_assoc. cbn [app]. split; [do 3 f_equal; lia|].
    replace (k + S (length bufs))%nat with (S k + length bufs)%nat by lia.
    repeat (split; [done|]). lia.
Qed.

(** Without room for all pointers one of the stores is out of bounds. *)
Lemma bgi_list_loop_overrun avail bufs : forall fuel s sb G all taken k pas cur a es i id c mb K,
  descs_ok s sb G all taken -> bchain s cur bufs pas ->
  (forall j, pas !! j = all !! (k + j)%nat) -> avail < 8 * (mb + Z.of_nat (length bufs)) -> 8 * mb <= avail ->
  id = Z.min (Z.of_nat k * g_per_mb G) (g_count G) -> c = g_count G - id ->
  indexed es (bgi_maxroot_heap i) G taken id -> g_count G <= capacity (bgi_maxroot_heap i) ->
  room a (24 * c + K) -> 0 <= K -> unused a es -> es !! NULL = None ->
  bgi_list_loop avail fuel cur sb (g_bgd_size G) c id mb (with_heap s a es i) = None.
Proof.
  induction bufs as [|buf bufs IH]; intros [|fuel] s sb G all taken k pas cur a es i id c mb K
    DO B Hall Hav Hmb Hid Hc I Hcap Hr HK U Un; try done; destruct pas as [|pa pas]; try done; cbn [length] in *; [lia|].
  destruct (proj1 B). destruct (Z.lt_ge_cases avail (8 * (mb + 1))).
  { cbn [bgi_list_loop]. destruct B as (_ & Nb & _). rewrite (proj2 (Z.eqb_neq cur NULL) Nb). unfold sizeof_ptr. by zdec. }
  destruct (bgi_list_step avail fuel s sb G all taken k pa pas cur bufs a es i id c mb K)
    as (b & a1 & es1 & h1 & Eb & B1 & -> & I1 & C1 & Hid1 & R1 & U1 & N1 & L1); try done.
  { by rewrite <- (Nat.add_0_r k), <- Hall. }
  eapply (IH fuel s sb G all taken (S k) pas); try done; try lia; [|cbn [bgi_maxroot_heap]; by rewrite C1].
  intros j. specialize (Hall (S j)). rewrite lookup_cons_ne_0 in Hall by lia. cbn [Nat.pred] in Hall. rewrite Hall. f_equal. lia.
Qed.

Lemma indexed_empty es cap G taken garbage :
  0 <= cap <= 2147483647 -> Z.of_nat (length garbage) = cap -> indexed es (Mrheap garbage cap 0) G taken 0.
Proof.
  intros Hc Hl. assert (U : used (Mrheap garbage cap 0) = []) by done.
  split; rewrite ?U; try done.
  - split; cbn; try done; try lia; unfold pointers, heap_ordered; try (intros; lia). apply not_elem_of_nil.
  - constructor.
  - intros p Hp. by apply not_elem_of_nil in Hp.
  - intros p p' e e' Hp. by apply not_elem_of_nil in Hp.
  - intros g Hg. lia.
Qed.

Lemma mem_alloc_run s n k :
  room (f_alloc s) (16 + n + k) -> 0 <= n -> 0 <= k ->
  exists a', mem_alloc n s = Some (a_next (f_alloc s), with_alloc s a') /\ room a' k /\
    a_next (f_alloc s) < a_next a' /\ (a_next (f_alloc s) =? NULL) = false.
Proof.
  intros R Hn Hk. destruct (room_malloc _ _ _ R Hn Hk) as (a' & E & R' & L & P).
  exists a'. unfold mem_alloc. rewrite E. repeat (split; [done|]). unfold NULL. lia.
Qed.

Lemma heap_create_run s cap k :
  room (f_alloc s) (48 + 8 * cap + k) -> 0 <= cap -> 0 <= k ->
  exists a' garbage, heap_create cap s = Some (Some (Mrheap garbage cap 0), with_alloc s a') /\
    Z.of_nat (length garbage) = cap /\ room a' k /\ a_next (f_alloc s) <= a_next a'.
Proof.
  intros R Hc Hk. unfold heap_create, act, userfs_mrheap_create, sizeof_mrheap, sizeof_ptr.
  destruct (room_malloc (f_alloc s) 16 (16 + cap * 8 + k)) as (a1 & -> & R1 & L1 & P1); [|lia|lia|].
  { by replace (16 + 16 + (16 + cap * 8 + k)) with (48 + 8 * cap + k) by lia. }
  rewrite (proj2 (Z.eqb_neq (a_next (f_alloc s)) NULL)) by (unfold NULL; lia).
  destruct (room_malloc a1 (cap * 8) k) as (a2 & -> & R2 & L2 & P2); [done|lia|lia|].
  rewrite (proj2 (Z.eqb_neq (a_next a1) NULL)) by (unfold NULL; lia).
  eexists _, _. split; [done|]. rewrite length_fmap, length_seqZ. split; [lia|]. split; [done|lia].
Qed.

(** Everything indexed: the invariant of the block allocator. *)
Lemma indexed_groups_ok s sb G pas taken bufs cur a es n h :
  descs_ok s sb G pas taken -> bchain s cur bufs pas -> indexed es h G taken (g_count G) ->
  groups_ok (with_heap s a es (Bgi n bufs h)) sb G pas taken.
Proof.
  intros DO B [I1 I2 I3 I4 I5 I6].
  split; cbn [f_pages f_bbufs f_bgi f_elems with_heap bgi_blocknr2bbuf bgi_maxroot_heap]; try done.
  - apply (de_geom _ _ _ _ _ DO).
  - destruct (de_sb _ _ _ _ _ DO) as (q & E & H & H1 & H2 & H3 & _). by exists q.
  - by apply (bchain_tab s cur).
  - apply (de_nodup _ _ _ _ _ DO).
  - apply (de_pages _ _ _ _ _ DO).
  - intros g Hg. destruct (de_group _ _ _ _ _ DO g Hg) as (pa & q & E1 & E2 & R & P & F & C). by exists pa, q.
Qed.

(** The blocks hold all groups. *)
Lemma descs_cover s sb G pas taken :
  descs_ok s sb G pas taken -> Z.min (Z.of_nat (length pas) * g_per_mb G) (g_count G) = g_count G.
Proof.
  intros DO. pose proof (de_geom _ _ _ _ _ DO) as [Gp _ _ _ _ [Gc _]].
  destruct (Z.eq_dec (g_count G) 0) as [->|]; [nia|].
  destruct (de_group _ _ _ _ _ DO (g_count G - 1) ltac:(lia)) as (pa & _ & E & _).
  apply lookup_lt_Some in E. unfold bgd_mb in E.
  pose proof (Z.div_mod (g_count G - 1) (g_per_mb G) ltac:(lia)).
  pose proof (Z.mod_pos_bound (g_count G - 1) (g_per_mb G) Gp).
  pose proof (Z.div_pos (g_count G - 1) (g_per_mb G) ltac:(lia) Gp). nia.
Qed.

Lemma bchain_length s cur bufs pas : bchain s cur bufs pas -> length bufs = length pas.
Proof. intros B. by eapply Forall2_length, bchain_tab. Qed.

(** [userfs_mount_bgdindex_list_init] up to its loop. *)
Lemma mount_index_start usable fuel s sb G pas taken cur b K :
  descs_ok s sb G pas taken -> mem_ok s ->
  f_bbufs s !! cur = Some b -> b_type b = USERFS_BTYPE_BGROUP_DESC ->
  g_count G < 268435456 -> room (f_alloc s) (160 + 89 * g_count G + K) -> 0 <= K ->
  exists a gb, let h := Mrheap gb (8 * g_count G) 0 in
    userfs_mount_bgdindex_list_init usable fuel cur sb s =
      (r ← bgi_list_loop (usable (g_count G / g_per_mb G)) fuel cur sb (g_bgd_size G) (g_count G) 0 0;
       match r with
       | None => set_bgi (Bgi 0 [] (Mrheap [] 0 0));;; mret false
       | Some mb => i ← get_bgi; set_bgi (Bgi mb (bgi_blocknr2bbuf i) (bgi_maxroot_heap i));;; mret true
       end) (with_heap s a (f_elems s) (Bgi 0 [] h)) /\
    indexed (f_elems s) h G taken 0 /\ room a (24 * g_count G + K) /\ unused a (f_elems s) /\
    a_next (f_alloc s) <= a_next a.
Proof.
  intros DO MO Eb Et Hcnt Hr HK.
  pose proof (de_geom _ _ _ _ _ DO) as [Gp Gb Gbl Grm Gsz Gc].
  destruct (de_sb _ _ _ _ _ DO) as (sq & Es & Ss & S1 & S2 & S3 & S4).
  assert (0 <= g_count G / g_per_mb G <= g_count G) by (split; [apply Z.div_pos; lia|apply Z.div_le_upper_bound; nia]).
  unfold userfs_mount_bgdindex_list_init.
  rewrite (bind_run _ _ _ _ _ (bb_run cur s b Eb)). rewrite Et. cbn [negb]. change (USERFS_BTYPE_BGROUP_DESC =? _) with true.
  cbn [negb].
  destruct (mem_alloc_run s sizeof_bgd_index_list (112 + 89 * g_count G + K)) as (a1 & E1 & R1 & L1 & N1);
    [unfold sizeof_bgd_index_list; by replace (16 + 32 + _) with (160 + 89 * g_count G + K) by lia|done|lia|].
  rewrite (bind_run _ _ _ _ _ E1). rewrite N1.
  erewrite bind_run; [|eapply sb_ld; [exact Es|done|unfold s_data_block_group_count, mb_union; lia]].
  erewrite bind_run; [|eapply sb_ld; [exact Es|done|unfold s_bgroup_desc_per_mb_count, mb_union; lia]].
  rewrite S1, S4. zdec. set (c := g_count G) in *.
  destruct (mem_alloc_run (with_alloc s a1) (c / g_per_mb G) (96 + 89 * c - c / g_per_mb G + K))
    as (a2 & E2 & R2 & L2 & N2); [cbn [f_alloc with_alloc]; by replace (16 + _ + _) with (112 + 89 * c + K) by lia|lia|lia|].
  rewrite (bind_run _ _ _ _ _ E2). unfold sizeof_ptr. rewrite (u32_small (8 * c)) by lia.
  destruct (heap_create_run (with_alloc (with_alloc s a1) a2) (8 * c) (24 * c + K)) as (a3 & gb & E3 & Hgb & R3 & L3);
    [destruct R2 as (? & ? & ?); split; [done|cbn [f_alloc with_alloc] in *; lia]|lia|lia|].
  rewrite (bind_run _ _ _ _ _ E3). rewrite (bind_run _ _ _ _ _ (lift_run _ _)).
  rewrite N2. erewrite bind_run; [|done].
  erewrite bind_run; [|eapply sb_ld; [exact Es|done|unfold s_bgroup_desc_size, mb_union; lia]]. rewrite S2.
  cbn [f_alloc with_alloc] in *. exists a3, gb. split; [done|]. split; [apply indexed_empty; [lia|done]|].
  split; [done|]. split; [|lia]. intros x Hx. apply (mo_elems _ MO). lia.
Qed.

(** [userfs_mount_bgdindex_list_init] from descriptor blocks in memory. *)
Lemma mount_index_run usable fuel s sb G pas taken cur bufs b K :
  descs_ok s sb G pas taken -> mem_ok s -> bchain s cur bufs pas -> (length bufs < fuel)%nat ->
  f_bbufs s !! cur = Some b -> b_type b = USERFS_BTYPE_BGROUP_DESC ->
  g_count G < 268435456 -> room (f_alloc s) (160 + 89 * g_count G + K) -> 0 <= K ->
  8 * Z.of_nat (length pas) <= usable (g_count G / g_per_mb G) ->
  exists s', userfs_mount_bgdindex_list_init usable fuel cur sb s = Some (true, s') /\
    groups_ok s' sb G pas taken /\ mem_ok s' /\ f_pages s' = f_pages s /\ f_bbufs s' = f_bbufs s /\
    room (f_alloc s') K /\ f_dstore s' = f_dstore s /\ f_dfree s' = f_dfree s /\ f_disk s' = f_disk s.
Proof.
  intros DO MO B Hf Eb Et Hcnt Hr HK Hus. pose proof (de_geom _ _ _ _ _ DO) as [Gp Gb Gbl Grm Gsz Gc].
  pose proof (bchain_length _ _ _ _ B) as HL.
  destruct (mount_index_start usable fuel s sb G pas taken cur b K DO MO Eb Et Hcnt Hr HK) as (a3 & gb & E & I & R3 & U & L3).
  rewrite E.
  destruct (bgi_list_loop_run (usable (g_count G / g_per_mb G)) bufs fuel s sb G pas taken 0 pas cur a3 (f_elems s)
    (Bgi 0 [] (Mrheap gb (8 * g_count G) 0)) 0 (g_count G) 0 K) as (a4 & es4 & h4 & E4 & I4 & R4 & U4 & Nn & L4);
    try done; cbn [bgi_maxroot_heap capacity]; try lia.
  { apply (mo_null _ MO). }
  rewrite (bind_run _ _ _ _ _ E4). erewrite bind_run; [|done].
  eexists. split; [done|]. cbn [Nat.add] in I4. pose proof R4 as R5.
  rewrite HL, (descs_cover s sb G pas taken DO) in I4.
  split; [by apply (indexed_groups_ok s sb G pas taken bufs cur)|]. split; [|done].
  destruct MO as [M1 M2 M3 M4 M5]. destruct R4 as (_ & ? & ?). split; cbn [f_alloc f_bbufs f_pages f_elems with_heap]; try done.
  - split; lia.
  - intros x Hx. apply M2. lia.
  - intros x Hx. apply M3. lia.
Qed.

(** The table of block pointers is too small in every case: it gets fewer bytes than
    the pointers take. *)
Lemma index_table_small s sb G pas taken :
  descs_ok s sb G pas taken -> 0 < g_count G -> g_count G / g_per_mb G < 8 * Z.of_nat (length pas).
Proof.
  intros DO Hc. pose proof (descs_cover s sb G pas taken DO) as Hcov.
  pose proof (de_geom _ _ _ _ _ DO) as [Gp _ _ _ _ _].
  assert (0 < Z.of_nat (length pas)) by nia.
  apply Z.div_lt_upper_bound; [done|]. nia.
Qed.

(** C10: userfs_mount_bgdindex_list_init, on descriptor blocks that say how many
    blocks of each group are taken and with memory enough for the index.  The code
    allocates the table of block pointers with one byte where a pointer needs eight,
    so what it does depends on how many bytes malloc really lets it write, [usable].
    When the pointers fit into those, mounting succeeds and establishes the invariant
    of the block allocator: a heap with exactly one entry per group that holds its
    free count, and a table that finds every descriptor's block; nothing on the pages
    or buffers changes.  When they do not fit, the code stores a pointer out of bounds;
    that is the case for every disk with a block group if malloc gives no more than
    it is asked for. *)
Theorem mount_index_ok usable fuel s sb G pas taken cur bufs b :
  descs_ok s sb G pas taken -> mem_ok s -> bchain s cur bufs pas -> (length bufs < fuel)%nat ->
  f_bbufs s !! cur = Some b -> b_type b = USERFS_BTYPE_BGROUP_DESC ->
  0 < g_count G < 268435456 -> room (f_alloc s) (160 + 89 * g_count G) ->
  let asked := g_count G / g_per_mb G in
  let needed := 8 * Z.of_nat (length bufs) in
  asked < needed /\
  (needed <= usable asked ->
   exists s', userfs_mount_bgdindex_list_init usable fuel cur sb s = Some (true, s') /\
     groups_ok s' sb G pas taken /\ mem_ok s' /\ f_pages s' = f_pages s /\ f_bbufs s' = f_bbufs s) /\
  (0 <= usable asked < needed -> userfs_mount_bgdindex_list_init usable fuel cur sb s = None).
Proof.
  intros DO MO B Hf Eb Et Hcnt Hr asked needed. rewrite <- (Z.add_0_r (160 + _)) in Hr.
  pose proof (bchain_length _ _ _ _ B) as HL. unfold asked, needed.
  split; [rewrite HL; apply (index_table_small s sb G pas taken DO); lia|]. split.
  - intros Hus. rewrite HL in Hus.
    destruct (mount_index_run usable fuel s sb G pas taken cur bufs b 0 DO MO B Hf Eb Et ltac:(lia) Hr) as (s' & E & H1 & H2 & H3 & H4 & _); [done|done|].
    by exists s'.
  - intros Hus.
    destruct (mount_index_start usable fuel s sb G pas taken cur b 0 DO MO Eb Et ltac:(lia) Hr) as (a3 & gb & E & I & R3 & U & L3); [done|].
    rewrite E. unfold mbind at 1, fsM_bind. rewrite (bgi_list_loop_overrun _ bufs fuel s sb G pas taken 0 pas) with (K := 0); try done; try lia.
    + cbn [bgi_maxroot_heap capacity]. lia.
    + apply (mo_null _ MO).
Qed.

(** ** Witness: a descriptor block with two fresh groups *)

Definition two_groups : geometry := Geometry 2 18 8 1 2 false.
Definition mount_page : page := default (zero_page 0) (bgd_init_loop 2 (zero_page 64) mb_union 8 18).
Definition mount_super : page :=
  Page 96 (le_write 4 (le_write 4 (le_write 4 (le_write 4 (fun _ => 0)
    s_bgroup_desc_per_mb_count 2) s_bgroup_desc_size 18) s_data_block_per_group 8) s_data_block_group_count 2).
Definition mount_fs : fs :=
  Fs (Alloc 4096 []) (fun _ _ => 7) {[ 48 := Bbuf 0 1 USERFS_BTYPE_BGROUP_DESC 1 0 64 512 ]}
     {[ 256 := mount_super; 512 := mount_page ]}
     (Disk 0 (fun _ => 0) []) (Freelist 0 0) (Freelist 0 0) ∅ (Bgi 0 [] (Mrheap [] 0 0))
     (Dstore ∅ ∅) (Linkhash 0 0 0 []).

Lemma mount_page_fresh : p_size mount_page = 64 /\ fresh_groups mount_page mb_union 8 1 18 2.
Proof.
  destruct (bgd_init_loop_run 2 (zero_page 64) mb_union 8 1 18) as (p' & E & S & F & _);
    try (unfold mb_union, sizeof_bgroup_desc; cbn; lia).
  unfold mount_page. by rewrite E.
Qed.

Lemma mount_fs_descs : descs_ok mount_fs 256 two_groups [512] (fun _ => 0).
Proof.
  destruct mount_page_fresh as [S F]. split; try done.
  - by exists mount_super.
  - apply (bool_decide_unpack _). by vm_compute.
  - intros pa Hpa. apply list_elem_of_singleton in Hpa as ->. by eexists.
  - intros g Hg. cbn in Hg. destruct (F g Hg) as (P & Z & R). exists 512, mount_page.
    assert (bgd_mb two_groups g = 0%nat) as -> by (unfold bgd_mb; cbn; rewrite Z.div_small by lia; done).
    assert (bgd_off two_groups g = mb_union + g * 18) as -> by (unfold bgd_off; cbn; rewrite Z.mod_small by lia; lia).
    rewrite S. split; [done|]. split; [done|]. split; [unfold mb_union; cbn; lia|]. done.
Qed.

Lemma mount_fs_mem : mem_ok mount_fs.
Proof.
  split; try done; intros x Hx; cbn in *; by rewrite ?lookup_insert_ne, ?lookup_singleton_ne by lia.
Qed.

(** The bytes of a block up to the next one in the allocator of the model. *)
Definition block_bytes (n : Z) : Z := 16 * (n / 16 + 1).

Lemma mount_index_ok_witness :
  (exists s', userfs_mount_bgdindex_list_init block_bytes 2 48 256 mount_fs = Some (true, s') /\
    groups_ok s' 256 two_groups [512] (fun _ => 0)) /\
  userfs_mount_bgdindex_list_init id 2 48 256 mount_fs = None.
Proof.
  assert (B : bchain mount_fs 48 [48] [512]).
  { cbn. split; [reflexivity|]. split; [discriminate|]. eexists. split; [reflexivity|]. done. }
  assert (R : room (f_alloc mount_fs) (160 + 89 * g_count two_groups)).
  { split; [reflexivity|]. cbn. unfold ADDR_TOP. lia. }
  assert (C : 0 < g_count two_groups < 268435456) by (cbn; lia).
  split.
  - destruct (mount_index_ok block_bytes 2 mount_fs 256 two_groups [512] (fun _ => 0) 48 [48]
      (Bbuf 0 1 USERFS_BTYPE_BGROUP_DESC 1 0 64 512) mount_fs_descs mount_fs_mem B ltac:(cbn; lia) eq_refl eq_refl C R)
      as (_ & H & _). destruct H as (s' & E & O & _); [vm_compute; discriminate|]. exists s'. split; [exact E|exact O].
  - destruct (mount_index_ok id 2 mount_fs 256 two_groups [512] (fun _ => 0) 48 [48]
      (Bbuf 0 1 USERFS_BTYPE_BGROUP_DESC 1 0 64 512) mount_fs_descs mount_fs_mem B ltac:(cbn; lia) eq_refl eq_refl C R)
      as (_ & _ & H). apply H. vm_compute. split; [discriminate|reflexivity].
Defined.
