(* ===== verification/FileOps.v ===== *)
(** * FileOps: creating, opening, closing, deleting, reading and writing files
    (userfs/userfs_file_ops.c)

    A name argument is a byte buffer and a length.  [now] is the outcome of the one
    gettimeofday of an operation: the seconds, or a failure.  A pointer to an inode
    is the address of the page that starts with it. *)
From S2P Require Import Prelude Atomic KList Bitmap MrHeap DentryHash Fs BlockBuf FileCtrl FsInit.
Local Open Scope Z_scope.

Definition USERFS_FILE_HOLE_DATA : Z := 0.

(** ** Strings and buffers *)

(** [strncpy]: up to [n] bytes, zeros after the end of the string. *)
Fixpoint strncpy_bytes (src : list Z) (n : nat) {struct n} : option (list Z) :=
  match n with
  | O => Some []
  | S n =>
      match src with
      | [] => None
      | c :: src => if c =? 0 then Some (replicate (S n) 0) else l ← strncpy_bytes src n; Some (c :: l)
      end
  end.

Definition bytes_of (l : list Z) : content := fun i => nth (Z.to_nat i) l 0.

(** [memcpy] of the first [n] bytes of a buffer into a page. *)
Definition page_write (p : page) (o : Z) (l : list Z) (n : Z) : option page :=
  if in_page p o n && (0 <=? n) && (n <=? Z.of_nat (length l))
  then Some (Page (p_size p) (copy (p_get p) o n (bytes_of l) 0)) else None.

(** ** The table of the mounted file system *)

Definition hash_get (nm : list Z) (name_len pos : Z) : fsM (Z * Z) := act (fun s =>
  match userfs_dentry_hash_get (f_dstore s) (Some (f_table s)) nm name_len pos with
  | Some r => Some (r, s) | None => None end).
Definition hash_update (nm : list Z) (name_len type addr : Z) : fsM Z := act (fun s =>
  match userfs_dentry_hash_update (f_dstore s) (f_table s) nm name_len type addr with
  | Some (p, d) => Some (p, with_dir s (f_alloc s) d (f_table s)) | None => None end).
Definition hash_update_dentrypos (nm : list Z) (name_len pos : Z) : fsM Z := act (fun s =>
  match userfs_dentry_hash_update_dentrypos (f_dstore s) (f_table s) nm name_len pos with
  | Some (p, d) => Some (p, with_dir s (f_alloc s) d (f_table s)) | None => None end).
Definition hash_remove (nm : list Z) (name_len pos : Z) : fsM (Z * Z) := act (fun s =>
  match userfs_dentry_hash_remove (f_dstore s) (f_table s) nm name_len pos with
  | Some (v, p, d, t) => Some ((v, p), with_dir s (f_alloc s) d t) | None => None end).

Definition alloc_dentry (dentry_table : Z) : fsM Z :=
  p ← pg dentry_table;
  r ← lift (userfs_alloc_dentry p);
  pg_set dentry_table (snd r);;;
  mret (fst r).
Definition free_dentry (dentry_table pos : Z) : fsM Z :=
  p ← pg dentry_table;
  r ← lift (userfs_free_dentry p pos);
  pg_set dentry_table (snd r);;;
  mret (fst r).

(** [atomic_add(&(inode->ref_count), d)]. *)
Definition ref_count_add (inode d : Z) : fsM Z :=
  r ← ld_int inode i_ref_count;
  st 4 inode i_ref_count (atomic_add r d);;;
  mret (atomic_add r d).

(** ** Create *)

(** The end of [userfs_file_create], once there is a place in the directory and an
    inode. *)
Definition file_create_entry (nm : list Z) (name_len dentry_table dentry_pos new_inode_bbuf tv_sec : Z) : fsM Z :=
  l ← lift (strncpy_bytes nm (Z.to_nat (u32 (name_len + 1))));
  pg_upd dentry_table (fun p => page_write p (d_name dentry_pos) l (Z.of_nat (length l)));;;
  ib ← bb new_inode_bbuf;
  st 4 dentry_table (d_first_dblock dentry_pos) (b_blocknr ib);;;
  new_hash_dentry ← hash_insert nm name_len USERFS_NAME2INODEBUF new_inode_bbuf dentry_pos;
  if new_hash_dentry =? NULL then
    _ ← free_dentry dentry_table dentry_pos;
    userfs_free_used_inode;;;
    mret NULL
  else
    st 8 (b_data ib) i_ctime tv_sec;;;
    st 8 (b_data ib) (i_v2pnode_table 0) (USERFS_INODEADDRINFO_CAL USERFS_NAME2INODEBUF new_inode_bbuf);;;
    _ ← ref_count_add (b_data ib) 1;
    mret new_inode_bbuf.

Definition userfs_file_create (nm : list Z) (name_len dblock_shard_size sb dentry_table_bbuf : Z)
    (now : option Z) : fsM Z :=
  if USERFS_MAX_FILE_NAME_LEN <? name_len then mret NULL
  else match now with
  | None => mret NULL
  | Some tv_sec =>
      b ← bb dentry_table_bbuf;
      let dentry_table := b_data b in
      dentry_pos ← alloc_dentry dentry_table;
      if dentry_pos =? UINT32_MAX then mret NULL
      else
        new_inode_bbuf ← userfs_get_new_inode sb dblock_shard_size tv_sec;
        if new_inode_bbuf =? NULL then
          _ ← free_dentry dentry_table dentry_pos; mret NULL
        else
          file_create_entry nm name_len dentry_table dentry_pos new_inode_bbuf tv_sec
  end.

(** ** Open *)

Definition userfs_file_open (nm : list Z) (name_len dblock_shard_size sb : Z) (now : option Z) : fsM Z :=
  if USERFS_MAX_FILE_NAME_LEN <? name_len then mret NULL
  else match now with
  | None => mret NULL
  | Some tv_sec =>
      r ← hash_get nm name_len 0;
      let inodeaddr := fst r in
      if inodeaddr =? UINT32_MAX then mret NULL
      else if USERFS_INODETYPE_GET inodeaddr =? USERFS_NAME2INODE then
        let ff_block := u32 (USERFS_INODEADDR_GET inodeaddr) in
        ff_bbuf ← userfs_get_used_inode sb ff_block dblock_shard_size;
        if ff_bbuf =? NULL then mret NULL
        else
          new_hash_dentry ← hash_update nm name_len USERFS_NAME2INODEBUF ff_bbuf;
          if new_hash_dentry =? NULL then userfs_free_dbbuf ff_bbuf;;; mret NULL
          else
            b ← bb ff_bbuf;
            _ ← ref_count_add (b_data b) 1;
            st 8 (b_data b) (i_v2pnode_table 0) (USERFS_INODEADDRINFO_CAL USERFS_NAME2INODEBUF ff_bbuf);;;
            st 8 (b_data b) i_atime tv_sec;;;
            mret ff_bbuf
      else
        let ff_bbuf := USERFS_INODEADDR_GET inodeaddr in
        b ← bb ff_bbuf;
        _ ← ref_count_add (b_data b) 1;
        st 8 (b_data b) i_atime tv_sec;;;
        mret ff_bbuf
  end.

(** ** Close *)

(** The loop over the data blocks behind the first: an open block gets its number
    back in the table and its buffers are flushed. *)
Fixpoint close_loop (fuel : nat) (i inode first bsize : Z) : fsM unit :=
  match fuel with
  | O => mret tt
  | S fuel =>
      cur_db_addr ← ld 8 inode (i_v2pnode_table i);
      if USERFS_INODETYPE_GET cur_db_addr =? USERFS_NAME2INODE then close_loop fuel (i + 1) inode first bsize
      else
        let cur_dbbuf_head := USERFS_INODEADDR_GET cur_db_addr in
        b ← bb cur_dbbuf_head;
        st 8 inode (i_v2pnode_table i) (USERFS_INODEADDRINFO_CAL USERFS_NAME2INODE (b_blocknr b));;;
        _ ← userfs_dbbuf_list_flush first bsize cur_dbbuf_head (b_list_len b);
        close_loop fuel (i + 1) inode first bsize
  end.

Definition userfs_file_close (nm : list Z) (name_len sb : Z) (now : option Z) : fsM Z :=
  if USERFS_MAX_FILE_NAME_LEN <? name_len then mret (-1)
  else
    r ← hash_get nm name_len 0;
    let inodeaddr := fst r in
    if inodeaddr =? UINT32_MAX then mret (-1)
    else if USERFS_INODETYPE_GET inodeaddr =? USERFS_NAME2INODE then mret (-1)
    else match now with
    | None => mret (-1)
    | Some tv_sec =>
        let ff_bbuf := USERFS_INODEADDR_GET inodeaddr in
        b ← bb ff_bbuf;
        let ff_block := b_blocknr b in
        let close_inode := b_data b in
        res ← ref_count_add close_inode (-1);
        if 0 <? res then mret 0
        else
          u ← hash_update nm name_len USERFS_NAME2INODE ff_block;
          let res := if u =? NULL then -1 else res in
          size ← ld 4 close_inode i_size;
          bsize ← ld 4 sb s_data_block_size;
          if bsize =? 0 then lift None
          else
            st 4 close_inode i_blocks (u32 (u32 (size + bsize) - 1) / bsize);;;
            blocks ← ld 4 close_inode i_blocks;
            first ← ld 4 sb s_first_datablock;
            close_loop (Z.to_nat (blocks - 1)) 1 close_inode first bsize;;;
            st 8 close_inode (i_v2pnode_table 0) (USERFS_INODEADDRINFO_CAL USERFS_NAME2INODE ff_block);;;
            b ← bb ff_bbuf;
            _ ← userfs_dbbuf_list_flush first bsize ff_bbuf (b_list_len b);
            mret res
    end.

(** ** Delete *)

(** The buffers from [next] on go to [userfs_free_dbbuf]; [fuel] bounds the list. *)
Fixpoint free_buf_list (fuel : nat) (next : Z) : fsM unit :=
  match fuel with
  | O => lift None
  | S fuel =>
      if next =? NULL then mret tt
      else
        b ← bb next;
        userfs_free_dbbuf next;;;
        free_buf_list fuel (b_this_page b)
  end.

Definition userfs_file_delete (fuel : nat) (nm : list Z) (name_len sb dentry_table : Z) (now : option Z) : fsM Z :=
  if USERFS_MAX_FILE_NAME_LEN <? name_len then mret (-1)
  else
    r ← hash_remove nm name_len 0;
    let inodeaddr := fst r in
    let dentry_pos := snd r in
    if inodeaddr =? UINT32_MAX then mret (-1)
    else
      res ← free_dentry dentry_table dentry_pos;
      moved ← (if res =? 0 then
                 nl ← page_name dentry_table (d_name dentry_pos);
                 hash_update_dentrypos (fst nl) (snd nl) dentry_pos
               else mret 1);
      if moved =? NULL then mret (-1)
      else
        inodebbuf ← (if USERFS_INODETYPE_GET inodeaddr =? USERFS_NAME2INODEBUF
                     then mret (USERFS_INODEADDR_GET inodeaddr)
                     else userfs_get_used_inode sb (u32 (USERFS_INODEADDR_GET inodeaddr)) USERFS_PAGE_SIZE);
        if inodebbuf =? NULL then mret (-1)
        else match now with
        | None => mret (-1)
        | Some _ =>
            b ← bb inodebbuf;
            blocks ← ld 4 (b_data b) i_blocks;
            userfs_free_used_dblock;;;
            free_buf_list fuel inodebbuf;;;
            mret 0
        end.

(** ** Read and write *)

Definition is_fileops_in_range (in_db_off dbbuf_size dbbuf_s_off : Z) : bool :=
  (dbbuf_s_off <=? in_db_off) && (in_db_off <? u32 (dbbuf_s_off + dbbuf_size)).

(** The search through the open buffers of a block; the arguments of
    [is_fileops_in_range] are in the order of the call. *)
Fixpoint query_loop (fuel : nat) (target_dbbuf in_db_shard_off : Z) : fsM Z :=
  match fuel with
  | O => mret target_dbbuf
  | S fuel =>
      b ← bb target_dbbuf;
      if negb (is_fileops_in_range in_db_shard_off (b_block_s_off b) (b_size b)) then mret target_dbbuf
      else query_loop fuel (b_this_page b) in_db_shard_off
  end.

(** The common end of the two functions: a buffer of the open block, read from disk
    if the search ended at no buffer ([p_db_nr] is still 0 then). *)
Definition open_block_get (p_db_addr in_db_shard_off dblock_shard_size sb : Z) : fsM Z :=
  let head := USERFS_INODEADDR_GET p_db_addr in
  h ← bb head;
  target_dbbuf ← query_loop (Z.to_nat (b_list_len h)) head in_db_shard_off;
  if target_dbbuf =? NULL then
    target_dbbuf ← userfs_get_used_dblock sb 0 in_db_shard_off dblock_shard_size;
    if target_dbbuf =? NULL then mret NULL
    else
      bb_set head (fun x => set_list_len (u16 (b_list_len x + 1)) x);;;
      h ← bb head;
      bb_set target_dbbuf (set_this_page (b_this_page h));;;
      bb_set head (set_this_page target_dbbuf);;;
      mret target_dbbuf
  else mret target_dbbuf.

(** A block that is on the disk but not in memory. *)
Definition closed_block_get (v_db_nr p_db_addr in_db_shard_off dblock_shard_size inode sb : Z) : fsM Z :=
  let p_db_nr := u32 (USERFS_INODEADDR_GET p_db_addr) in
  target_dbbuf ← userfs_get_used_dblock sb p_db_nr in_db_shard_off dblock_shard_size;
  if target_dbbuf =? NULL then mret NULL
  else
    st 8 inode (i_v2pnode_table v_db_nr) (USERFS_INODEADDRINFO_CAL USERFS_NAME2INODEBUF target_dbbuf);;;
    mret target_dbbuf.

Definition userfs_file_write_off_get (v_db_nr p_db_addr in_db_shard_off dblock_shard_size inode sb : Z) : fsM Z :=
  if USERFS_INODEADDR_GET p_db_addr =? 0 then
    target_dbbuf ← userfs_get_new_dblock sb dblock_shard_size;
    if target_dbbuf =? NULL then mret NULL
    else
      bb_set target_dbbuf (set_s_off in_db_shard_off);;;
      mret target_dbbuf
  else if USERFS_INODETYPE_GET p_db_addr =? USERFS_NAME2INODE then
    closed_block_get v_db_nr p_db_addr in_db_shard_off dblock_shard_size inode sb
  else open_block_get p_db_addr in_db_shard_off dblock_shard_size sb.

Definition userfs_file_read_off_get (v_db_nr p_db_addr in_db_shard_off dblock_shard_size inode sb : Z) : fsM Z :=
  if USERFS_INODETYPE_GET p_db_addr =? USERFS_NAME2INODE then
    closed_block_get v_db_nr p_db_addr in_db_shard_off dblock_shard_size inode sb
  else open_block_get p_db_addr in_db_shard_off dblock_shard_size sb.

(** Where an offset of a file lies: the number of the data block, the offset in it,
    the offset in its shard, the start of the shard; and the bytes transferred. *)
Definition file_place (off size dblock_shard_size bsize : Z) : option (Z * Z * Z * Z) :=
  if (bsize =? 0) || (dblock_shard_size =? 0) then None
  else
    let real_off := off + USERFS_INODE_SIZE in
    let v_db_nr := real_off / bsize in
    let in_db_off := real_off mod bsize in
    let in_shard_off := real_off mod dblock_shard_size in
    let in_db_shard_off := u32 (in_db_off - in_shard_off) in
    let real_size := if dblock_shard_size <? u32 (in_shard_off + size)
                     then u32 (dblock_shard_size - in_db_off) else size in
    Some (v_db_nr, in_shard_off, in_db_shard_off, real_size).

(** The end of the file after the transfer. *)
Definition file_end (off real_size : Z) : Z :=
  u32 (u32 (off + USERFS_INODE_SIZE + real_size) - USERFS_INODE_SIZE).

(** The end of [userfs_file_write]: the bytes into the buffer, then the table entry of
    a block that was not open, the size and the time. *)
Definition file_store (target_dbbuf v_db_nr p_db_addr in_shard_off : Z) (buf : list Z)
    (real_size file_end write_inode tv_sec : Z) : fsM unit :=
  t ← bb target_dbbuf;
  pg_upd (b_data t) (fun p => page_write p in_shard_off buf real_size);;;
  (if USERFS_INODETYPE_GET p_db_addr =? USERFS_NAME2INODE
   then st 8 write_inode (i_v2pnode_table v_db_nr) (USERFS_INODEADDRINFO_CAL USERFS_NAME2INODEBUF target_dbbuf)
   else mret tt);;;
  fsize ← ld 4 write_inode i_size;
  st 4 write_inode i_size (if fsize <? file_end then file_end else fsize);;;
  st 8 write_inode i_mtime tv_sec.

(** The end of [userfs_file_read], with the bytes copied out. *)
Definition file_load (target_dbbuf v_db_nr p_db_addr in_shard_off real_size read_inode tv_sec : Z) : fsM (list Z) :=
  t ← bb target_dbbuf;
  p ← pg (b_data t);
  out ← lift (page_bytes p in_shard_off real_size);
  (if USERFS_INODETYPE_GET p_db_addr =? USERFS_NAME2INODE
   then st 8 read_inode (i_v2pnode_table v_db_nr) (USERFS_INODEADDRINFO_CAL USERFS_NAME2INODEBUF target_dbbuf)
   else mret tt);;;
  st 8 read_inode i_atime tv_sec;;;
  mret out.

Definition userfs_file_write (buf : list Z) (woff size dblock_shard_size inodebbuf sb : Z) (now : option Z) : fsM Z :=
  if UINT32_MAX - USERFS_INODE_SIZE <=? woff then mret 0
  else
    bsize ← ld 4 sb s_data_block_size;
    pl ← lift (file_place woff size dblock_shard_size bsize);
    let '(v_db_nr, in_shard_off, in_db_shard_off, real_size) := pl in
    match now with
    | None => mret 0
    | Some tv_sec =>
        ib ← bb inodebbuf;
        let write_inode := b_data ib in
        p_db_addr ← ld 8 write_inode (i_v2pnode_table v_db_nr);
        target_dbbuf ← userfs_file_write_off_get v_db_nr p_db_addr in_db_shard_off dblock_shard_size write_inode sb;
        if target_dbbuf =? NULL then mret 0
        else
          file_store target_dbbuf v_db_nr p_db_addr in_shard_off buf real_size (file_end woff real_size) write_inode tv_sec;;;
          mret real_size
    end.

(** The bytes read are the second component; nothing is stored in the caller's
    buffer when it is empty. *)
Definition userfs_file_read (roff size dblock_shard_size inodebbuf sb : Z) (now : option Z) : fsM (Z * list Z) :=
  if UINT32_MAX - USERFS_INODE_SIZE <=? roff then mret (0, [])
  else
    bsize ← ld 4 sb s_data_block_size;
    pl ← lift (file_place roff size dblock_shard_size bsize);
    let '(v_db_nr, in_shard_off, in_db_shard_off, real_size) := pl in
    ib ← bb inodebbuf;
    let read_inode := b_data ib in
    p_db_addr ← ld 8 read_inode (i_v2pnode_table v_db_nr);
    fsize ← ld 4 read_inode i_size;
    if fsize <? file_end roff real_size then mret (0, [])
    else if USERFS_INODEADDR_GET p_db_addr =? 0 then
      mret (real_size, replicate (Z.to_nat real_size) USERFS_FILE_HOLE_DATA)
    else match now with
    | None => mret (0, [])
    | Some tv_sec =>
        target_dbbuf ← userfs_file_read_off_get v_db_nr p_db_addr in_db_shard_off dblock_shard_size read_inode sb;
        if target_dbbuf =? NULL then mret (0, [])
        else
          out ← file_load target_dbbuf v_db_nr p_db_addr in_shard_off real_size read_inode tv_sec;
          mret (real_size, out)
    end.
