(* ===== verification/FileRw.v ===== *)
(** * FileRw: reading back what was written

    The theorems of this file are about [userfs_file_write] and [userfs_file_read]
    (FileOps): what a write puts into the buffers and the inode, and what a read
    behind it returns; and what goes wrong outside the first shard of a block. *)
From S2P Require Import Prelude Atomic KList Bitmap MrHeap DentryHash Fs BlockBuf FileCtrl FsInit FileOps.
Local Open Scope Z_scope.

(** An access of [n] bytes at [off] that stays in one shard. *)
Record in_shard (off n shard bsize : Z) : Prop := {
  is_shard : 0 < shard;
  is_div : (shard | bsize);
  is_bsize : 0 < bsize < 4294967296;
  is_off : 0 <= off;
  is_n : 0 < n;
  is_end : off + n < UINT32_MAX - USERFS_INODE_SIZE;
  is_fits : (off + USERFS_INODE_SIZE) mod shard + n <= shard }.

(** Where the shard of the access starts in its data block. *)
Definition shard_off (off shard bsize : Z) : Z :=
  (off + USERFS_INODE_SIZE) mod bsize - (off + USERFS_INODE_SIZE) mod shard.

Lemma in_shard_place off n shard bsize :
  in_shard off n shard bsize ->
  file_place off n shard bsize =
    Some ((off + USERFS_INODE_SIZE) / bsize, (off + USERFS_INODE_SIZE) mod shard, shard_off off shard bsize, n) /\
  file_end off n = off + n /\ 0 <= shard_off off shard bsize < bsize /\
  0 <= (off + USERFS_INODE_SIZE) mod shard < shard.
Proof.
  intros [H1 [k Hk] H2 H3 H4 H5 H6]. unfold file_place, file_end, shard_off, USERFS_INODE_SIZE, UINT32_MAX in *.
  set (x := off + 1024) in *.
  pose proof (Z.mod_pos_bound x bsize ltac:(lia)). pose proof (Z.mod_pos_bound x shard ltac:(lia)).
  assert (x mod shard = (x mod bsize) mod shard) as Em.
  { rewrite (Z.div_mod x bsize) at 1 by lia. rewrite Hk at 1.
    replace (k * shard * (x / bsize) + x mod bsize) with (x mod bsize + k * (x / bsize) * shard) by lia.
    apply Z.mod_add. lia. }
  assert (x mod shard <= x mod bsize) by (rewrite Em; apply Z.mod_le; lia).
  assert (shard <= bsize) by (apply Z.divide_pos_le; [lia|by exists k]).
  rewrite (u32_small (x mod shard + n)), (u32_small (x mod bsize - x mod shard)) by lia. zdec. cbn [orb].
  split; [done|]. subst x. split; [|lia].
  rewrite (u32_small (off + 1024 + n)) by lia. rewrite u32_small by lia. lia.
Qed.

(** ** The table of a file *)

Definition v2p (P : page) (v : Z) : Z := le_read 8 (p_get P) (i_v2pnode_table v).

(** Entry [v] of the table lies in the inode. *)
Definition in_table (v : Z) : Prop := 0 <= v /\ i_v2pnode_table v + 8 <= USERFS_INODE_SIZE.

Ltac inode_unfold := unfold v2p, in_table, i_v2pnode_table, i_size, i_mtime, i_atime, USERFS_INODE_SIZE in *.

(** The inode after a write. *)
Definition inode_written (P : page) (v addr target fend tv_sec : Z) : page :=
  let g1 := if USERFS_INODETYPE_GET addr =? USERFS_NAME2INODE
            then le_write 8 (p_get P) (i_v2pnode_table v) (USERFS_INODEADDRINFO_CAL USERFS_NAME2INODEBUF target)
            else p_get P in
  let fsize := le_read 4 g1 i_size in
  Page (p_size P) (le_write 8 (le_write 4 g1 i_size (if fsize <? fend then fend else fsize)) i_mtime tv_sec).

Lemma inode_written_spec P v addr t fend tv :
  in_table v -> 0 <= fend < 4294967296 -> 0 <= t < 2 ^ 63 ->
  let P' := inode_written P v addr t fend tv in
  v2p P' v = (if USERFS_INODETYPE_GET addr =? USERFS_NAME2INODE
              then USERFS_INODEADDRINFO_CAL USERFS_NAME2INODEBUF t else v2p P v) /\
  (forall w, in_table w -> w <> v -> v2p P' w = v2p P w) /\
  le_read 4 (p_get P') i_size = Z.max (le_read 4 (p_get P) i_size) fend /\
  (forall x, USERFS_INODE_SIZE <= x -> p_get P' x = p_get P x).
Proof.
  intros Hv Hf Ht. unfold inode_written. inode_unfold. cbn [p_get].
  assert (R : 0 <= le_read 4 (p_get P) 32 < 4294967296) by apply (le_read_range 4).
  assert (C : 0 <= USERFS_INODEADDRINFO_CAL USERFS_NAME2INODEBUF t < 256 ^ Z.of_nat 8).
  { rewrite inodeaddr_value by (try done; by right). change (256 ^ Z.of_nat 8) with (2 ^ 64).
    unfold USERFS_NAME2INODEBUF. lia. }
  destruct (_ =? USERFS_NAME2INODE).
  - rewrite (le_read_write_disjoint 8 4 (p_get P)) by lia. split.
    { rewrite !le_read_write_disjoint by lia. rewrite le_read_write_same. by apply Z.mod_small. }
    split. { intros w Hw Nw. rewrite !le_read_write_disjoint by lia. done. }
    split.
    { rewrite le_read_write_disjoint by lia. rewrite le_read_write_same. zcase; rewrite Z.mod_small by lia; lia. }
    intros x Hx. rewrite !le_write_outside by lia. done.
  - split. { by rewrite !le_read_write_disjoint by lia. }
    split. { intros w Hw Nw. by rewrite !le_read_write_disjoint by lia. }
    split.
    { rewrite le_read_write_disjoint by lia. rewrite le_read_write_same. zcase; rewrite Z.mod_small by lia; lia. }
    intros x Hx. rewrite !le_write_outside by lia. done.
Qed.

Lemma inode_written_refs P v addr t fend tv :
  in_table v -> le_read 4 (p_get (inode_written P v addr t fend tv)) i_ref_count = le_read 4 (p_get P) i_ref_count.
Proof.
  intros Hv. unfold inode_written, i_ref_count. inode_unfold. cbn [p_get].
  destruct (_ =? USERFS_NAME2INODE); by rewrite !le_read_write_disjoint by lia.
Qed.

(** ** Running the ends of the two operations *)

Definition buf_written (q : page) (io : Z) (buf : list Z) (n : Z) : page :=
  Page (p_size q) (copy (p_get q) io n (bytes_of buf) 0).

(** The page of the inode when the bytes are in place: the inode may share its page
    with the data. *)
Definition inode_page (P q : page) (same : bool) (io : Z) (buf : list Z) (n : Z) : page :=
  if same then buf_written q io buf n else P.

Lemma file_store_run s t tb q P v addr io buf n fend inode tv :
  f_bbufs s !! t = Some tb -> f_pages s !! b_data tb = Some q -> f_pages s !! inode = Some P ->
  USERFS_INODE_SIZE <= p_size P -> in_table v -> 0 <= io -> 0 <= n -> io + n <= p_size q -> n <= Z.of_nat (length buf) ->
  file_store t v addr io buf n fend inode tv s = Some (tt, with_pages s
    (<[inode := inode_written (inode_page P q (b_data tb =? inode) io buf n) v addr t fend tv]>
       (<[b_data tb := buf_written q io buf n]> (f_pages s)))).
Proof.
  intros Et Eq EP SP Hv Hio Hn Hr Hl. unfold file_store.
  rewrite (bind_run _ _ _ _ _ (bb_run t s tb Et)).
  erewrite bind_run; [|eapply pg_upd_run; [exact Eq|]]; [|unfold page_write, in_page; zdec; reflexivity].
  fold (buf_written q io buf n). set (s1 := with_pages s _).
  assert (E1 : f_pages s1 !! inode = Some (inode_page P q (b_data tb =? inode) io buf n)).
  { unfold inode_page, s1. cbn [f_pages with_pages]. destruct (Z.eqb_spec (b_data tb) inode) as [->|N].
    - apply lookup_insert_eq.
    - by rewrite lookup_insert_ne. }
  set (P0 := inode_page P q _ io buf n) in *.
  assert (S0 : p_size P0 = p_size P).
  { unfold P0, inode_page. destruct (Z.eqb_spec (b_data tb) inode) as [E|]; [|done]. cbn. rewrite E in Eq. congruence. }
  rewrite (run_at _ s1 inode P0 E1). inode_unfold. unfold inode_written. inode_unfold.
  destruct (_ =? USERFS_NAME2INODE).
  - erewrite bind_run; [|apply st_at; lia]. erewrite bind_run; [|apply ld_at; cbn [p_size]; lia].
    erewrite bind_run; [|apply st_at; cbn [p_size]; lia]. rewrite st_at by (cbn [p_size]; lia). done.
  - rewrite (bind_run _ _ _ _ _ (ret_run _ _)). erewrite bind_run; [|apply ld_at; cbn [p_size]; lia].
    erewrite bind_run; [|apply st_at; cbn [p_size]; lia]. rewrite st_at by (cbn [p_size]; lia). done.
Qed.

Lemma file_load_run s t tb q P v addr io n inode tv :
  f_bbufs s !! t = Some tb -> f_pages s !! b_data tb = Some q -> f_pages s !! inode = Some P ->
  USERFS_INODE_SIZE <= p_size P -> USERFS_INODETYPE_GET addr <> USERFS_NAME2INODE ->
  0 <= io -> 0 <= n -> io + n <= p_size q ->
  file_load t v addr io n inode tv s =
    Some ((fun i => p_get q (io + i) mod 256) <$> seqZ 0 n,
          with_pages s (<[inode := Page (p_size P) (le_write 8 (p_get P) i_atime tv)]> (f_pages s))).
Proof.
  intros Et Eq EP SP Ha Hio Hn Hr. unfold file_load.
  rewrite (bind_run _ _ _ _ _ (bb_run t s tb Et)). rewrite (bind_run _ _ _ _ _ (pg_run _ s q Eq)).
  erewrite bind_run; [|unfold page_bytes, in_page; zdec; apply lift_run].
  rewrite (proj2 (Z.eqb_neq _ _) Ha). rewrite (bind_run _ _ _ _ _ (ret_run _ _)).
  inode_unfold. erewrite bind_run; [|eapply st_run; [exact EP|apply store_in; lia]]. done.
Qed.

(** The search through an open block stops at its first buffer when that one starts
    the block, whatever the offset. *)
Lemma query_head fuel s t tb so :
  f_bbufs s !! t = Some tb -> b_block_s_off tb = 0 -> 0 < b_size tb < 4294967296 ->
  query_loop fuel t so s = Some (t, s).
Proof.
  intros E Hz H. destruct fuel; [done|]. cbn [query_loop]. rewrite (bind_run _ _ _ _ _ (bb_run t s tb E)).
  unfold is_fileops_in_range. rewrite Hz, Z.add_0_r, u32_small by lia. by repeat zcase; try lia.
Qed.

Lemma open_block_head s t tb so shard sb :
  f_bbufs s !! t = Some tb -> b_block_s_off tb = 0 -> 0 < b_size tb < 4294967296 -> 0 < t < 2 ^ 63 ->
  open_block_get (USERFS_INODEADDRINFO_CAL USERFS_NAME2INODEBUF t) so shard sb s = Some (t, s).
Proof.
  intros E Hz H Ht. unfold open_block_get.
  destruct (inodeaddr_tag USERFS_NAME2INODEBUF t) as [_ ->]; [lia|by right|].
  rewrite (bind_run _ _ _ _ _ (bb_run t s tb E)). rewrite (bind_run _ _ _ _ _ (query_head _ s t tb so E Hz H)).
  rewrite (proj2 (Z.eqb_neq t NULL)) by (unfold NULL; lia). done.
Qed.

(** ** Open files and open blocks *)

(** [ib] is the buffer of the open inode, at page [inode] with content [P]. *)
Record open_file (s : fs) (sb ib inode : Z) (P : page) (bsize : Z) : Prop := {
  op_sb : exists sq, f_pages s !! sb = Some sq /\ 92 <= p_size sq /\ le_read 4 (p_get sq) s_data_block_size = bsize;
  op_ib : exists b, f_bbufs s !! ib = Some b /\ b_data b = inode;
  op_inode : f_pages s !! inode = Some P;
  op_room : USERFS_INODE_SIZE <= p_size P;
  op_sep : sb <> inode }.

(** Block [v] of the file is open in buffer [t] = [tb], which starts the block and
    holds [q]. *)
Record open_block (s : fs) (sb : Z) (P : page) (v shard t : Z) (tb : bbuf) (q : page) : Prop := {
  ob_entry : v2p P v = USERFS_INODEADDRINFO_CAL USERFS_NAME2INODEBUF t;
  ob_addr : 0 < t < 2 ^ 63;
  ob_buf : f_bbufs s !! t = Some tb;
  ob_start : b_block_s_off tb = 0;
  ob_size : 0 < b_size tb < 4294967296;
  ob_page : f_pages s !! b_data tb = Some q;
  ob_sb : b_data tb <> sb;
  ob_room : shard <= p_size q }.

(** Offset [io] of the buffer is not in the inode. *)
Definition clear_of_inode (tb : bbuf) (inode io : Z) : Prop := b_data tb = inode -> USERFS_INODE_SIZE <= io.

Lemma open_file_ld s sb ib inode P bsize :
  open_file s sb ib inode P bsize -> ld 4 sb s_data_block_size s = Some (bsize, s).
Proof.
  intros O. destruct (op_sb _ _ _ _ _ _ O) as (sq & E & R & <-). apply (sb_ld s sb sq); [done|done|].
  unfold s_data_block_size, mb_union. lia.
Qed.

Lemma ld_entry s inode P v :
  f_pages s !! inode = Some P -> USERFS_INODE_SIZE <= p_size P -> in_table v ->
  ld 8 inode (i_v2pnode_table v) s = Some (v2p P v, s).
Proof. intros E R Hv. eapply ld_run; [exact E|]. inode_unfold. apply load_in; lia. Qed.

(** The write, once the buffer is found. *)
Lemma write_through s s1 sb ib inode P P1 bsize shard off n buf tv t tb q :
  let v := (off + USERFS_INODE_SIZE) / bsize in
  let io := (off + USERFS_INODE_SIZE) mod shard in
  open_file s sb ib inode P bsize -> in_shard off n shard bsize -> in_table v -> n <= Z.of_nat (length buf) ->
  userfs_file_write_off_get v (v2p P v) (shard_off off shard bsize) shard inode sb s = Some (t, s1) -> t <> NULL ->
  f_bbufs s1 !! t = Some tb -> f_pages s1 !! b_data tb = Some q -> shard <= p_size q ->
  f_pages s1 !! inode = Some P1 -> USERFS_INODE_SIZE <= p_size P1 ->
  userfs_file_write buf off n shard ib sb (Some tv) s = Some (n, with_pages s1
    (<[inode := inode_written (inode_page P1 q (b_data tb =? inode) io buf n) v (v2p P v) t (off + n) tv]>
       (<[b_data tb := buf_written q io buf n]> (f_pages s1)))).
Proof.
  intros v io O F Hv Hl Eg Nt Et Eq Rq EP1 R1.
  pose proof F as [F1 F2 F3 F4 F5 F6 F7].
  destruct (in_shard_place _ _ _ _ F) as (Ep & Ee & Hso & Hio). unfold userfs_file_write. zdec.
  rewrite (bind_run _ _ _ _ _ (open_file_ld _ _ _ _ _ _ O)). rewrite Ep. rewrite (bind_run _ _ _ _ _ (lift_run _ _)).
  destruct (op_ib _ _ _ _ _ _ O) as (b & Eb & Ed). rewrite (bind_run _ _ _ _ _ (bb_run ib s b Eb)). rewrite Ed.
  rewrite (bind_run _ _ _ _ _ (ld_entry s inode P v (op_inode _ _ _ _ _ _ O) (op_room _ _ _ _ _ _ O) Hv)).
  rewrite (bind_run _ _ _ _ _ Eg). rewrite (proj2 (Z.eqb_neq t NULL) Nt). rewrite Ee.
  erewrite bind_run; [|apply file_store_run; try done; fold io; lia]. done.
Qed.

Lemma write_fails s s1 sb ib inode P bsize shard off n buf tv :
  let v := (off + USERFS_INODE_SIZE) / bsize in
  open_file s sb ib inode P bsize -> in_shard off n shard bsize -> in_table v ->
  userfs_file_write_off_get v (v2p P v) (shard_off off shard bsize) shard inode sb s = Some (NULL, s1) ->
  userfs_file_write buf off n shard ib sb (Some tv) s = Some (0, s1).
Proof.
  intros v O F Hv Eg. pose proof F as [F1 F2 F3 F4 F5 F6 F7].
  destruct (in_shard_place _ _ _ _ F) as (Ep & Ee & Hso & Hio). unfold userfs_file_write. zdec.
  rewrite (bind_run _ _ _ _ _ (open_file_ld _ _ _ _ _ _ O)). rewrite Ep. rewrite (bind_run _ _ _ _ _ (lift_run _ _)).
  destruct (op_ib _ _ _ _ _ _ O) as (b & Eb & Ed). rewrite (bind_run _ _ _ _ _ (bb_run ib s b Eb)). rewrite Ed.
  rewrite (bind_run _ _ _ _ _ (ld_entry s inode P v (op_inode _ _ _ _ _ _ O) (op_room _ _ _ _ _ _ O) Hv)).
  by rewrite (bind_run _ _ _ _ _ Eg).
Qed.

(** A read of an open block returns the bytes of its buffer. *)
Lemma read_open s sb ib inode P bsize shard off n tv t tb q :
  let v := (off + USERFS_INODE_SIZE) / bsize in
  let io := (off + USERFS_INODE_SIZE) mod shard in
  open_file s sb ib inode P bsize -> in_shard off n shard bsize -> in_table v ->
  open_block s sb P v shard t tb q -> off + n <= le_read 4 (p_get P) i_size ->
  userfs_file_read off n shard ib sb (Some tv) s =
    Some ((n, (fun i => p_get q (io + i) mod 256) <$> seqZ 0 n),
          with_pages s (<[inode := Page (p_size P) (le_write 8 (p_get P) i_atime tv)]> (f_pages s))).
Proof.
  intros v io O F Hv [B1 B2 Et Hz Hs Eq _ B4] Hsz.
  pose proof F as [F1 F2 F3 F4 F5 F6 F7].
  pose proof (op_inode _ _ _ _ _ _ O) as EP. pose proof (op_room _ _ _ _ _ _ O) as RP.
  destruct (in_shard_place _ _ _ _ F) as (Ep & Ee & Hso & Hio). unfold userfs_file_read. zdec.
  rewrite (bind_run _ _ _ _ _ (open_file_ld _ _ _ _ _ _ O)). rewrite Ep. rewrite (bind_run _ _ _ _ _ (lift_run _ _)).
  destruct (op_ib _ _ _ _ _ _ O) as (b & Eb & Ed). rewrite (bind_run _ _ _ _ _ (bb_run ib s b Eb)). rewrite Ed.
  rewrite (bind_run _ _ _ _ _ (ld_entry s inode P v EP RP Hv)).
  erewrite bind_run; [|eapply ld_run; [exact EP|apply load_in; inode_unfold; lia]].
  rewrite Ee. zdec. rewrite B1.
  destruct (inodeaddr_tag USERFS_NAME2INODEBUF t) as [Ty Ad]; [lia|by right|]. rewrite Ad. zdec.
  erewrite bind_run; [|unfold userfs_file_read_off_get; rewrite Ty; change (USERFS_NAME2INODEBUF =? USERFS_NAME2INODE) with false;
    apply (open_block_head s t tb); done]. rewrite (proj2 (Z.eqb_neq t NULL)) by (unfold NULL; lia).
  erewrite bind_run; [|apply (file_load_run s t tb q P); try done; [by rewrite Ty|fold io; lia..]]. done.
Qed.

Lemma inode_page_low P q same io buf n x :
  (same = true -> P = q /\ USERFS_INODE_SIZE <= io) -> x < USERFS_INODE_SIZE ->
  p_get (inode_page P q same io buf n) x = p_get P x.
Proof.
  intros H Hx. unfold inode_page. destruct same; [|done]. destruct (H eq_refl) as [-> Hi].
  cbn. apply copy_outside. lia.
Qed.

(** The state behind a write. *)
Lemma write_post s sb ib inode P q bsize shard off n buf tv t tb addr :
  let v := (off + USERFS_INODE_SIZE) / bsize in
  let io := (off + USERFS_INODE_SIZE) mod shard in
  let P2 := inode_written (inode_page P q (b_data tb =? inode) io buf n) v addr t (off + n) tv in
  let s2 := with_pages s (<[inode := P2]> (<[b_data tb := buf_written q io buf n]> (f_pages s))) in
  open_file s sb ib inode P bsize -> in_shard off n shard bsize -> in_table v ->
  f_bbufs s !! t = Some tb -> b_block_s_off tb = 0 -> 0 < b_size tb < 4294967296 ->
  f_pages s !! b_data tb = Some q -> shard <= p_size q ->
  b_data tb <> sb -> clear_of_inode tb inode io -> 0 < t < 2 ^ 63 ->
  (USERFS_INODETYPE_GET addr = USERFS_NAME2INODE \/ v2p P v = USERFS_INODEADDRINFO_CAL USERFS_NAME2INODEBUF t) ->
  exists q2, open_file s2 sb ib inode P2 bsize /\ open_block s2 sb P2 v shard t tb q2 /\
    (forall k, 0 <= k < n -> p_get q2 (io + k) = bytes_of buf k mod 256) /\
    (forall x, x < io \/ io + n <= x -> clear_of_inode tb inode x -> p_get q2 x = p_get q x) /\
    le_read 4 (p_get P2) i_size = Z.max (le_read 4 (p_get P) i_size) (off + n) /\
    (forall w, in_table w -> w <> v -> v2p P2 w = v2p P w).
Proof.
  intros v io P2 s2 O F Hv Et Hz Hs Eq Rq Nsb Hc Ht Ha.
  pose proof F as [F1 F2 F3 F4 F5 F6 F7].
  set (P1 := inode_page P q (b_data tb =? inode) io buf n) in *.
  assert (Same : (b_data tb =? inode) = true -> P = q /\ USERFS_INODE_SIZE <= io).
  { intros E. apply Z.eqb_eq in E. split; [rewrite E, (op_inode _ _ _ _ _ _ O) in Eq; congruence|by apply Hc]. }
  assert (Low : forall x, x < USERFS_INODE_SIZE -> p_get P1 x = p_get P x).
  { intros x Hx. by apply inode_page_low. }
  assert (R8 : forall w, in_table w -> v2p P1 w = v2p P w).
  { intros w Hw. apply le_read_ext. intros x Hx. rewrite Low; [done|]. inode_unfold. lia. }
  assert (R4 : le_read 4 (p_get P1) i_size = le_read 4 (p_get P) i_size).
  { apply le_read_ext. intros x Hx. rewrite Low; [done|]. inode_unfold. lia. }
  assert (S1 : p_size P1 = p_size P).
  { unfold P1, inode_page. destruct (b_data tb =? inode); [|done]. by destruct (Same eq_refl) as [-> _]. }
  unfold UINT32_MAX, USERFS_INODE_SIZE in F6.
  destruct (inode_written_spec P1 v addr t (off + n) tv Hv ltac:(lia) ltac:(lia)) as (W1 & W2 & W3 & W4).
  fold P2 in W1, W2, W3, W4. rewrite R4 in W3.
  exists (if b_data tb =? inode then P2 else buf_written q io buf n).
  split; [|split; [|split; [|split; [|split; [done|intros w Hw Nw; by rewrite W2, R8]]]]].
  - destruct O as [(sq & Es & Rs & Bs) O2 O3 O4 O5]. split; cbn [f_pages f_bbufs with_pages s2]; try done.
    + exists sq. by rewrite !lookup_insert_ne by congruence.
    + apply lookup_insert_eq.
    + change (p_size P2) with (p_size P1). by rewrite S1.
  - split; try done.
    + rewrite W1, R8 by done. destruct Ha as [-> | ->]; [done|]. by destruct (USERFS_INODETYPE_GET addr =? USERFS_NAME2INODE).
    + cbn [f_pages with_pages s2]. destruct (Z.eqb_spec (b_data tb) inode) as [->|N]; [apply lookup_insert_eq|].
      rewrite lookup_insert_ne by congruence. apply lookup_insert_eq.
    + destruct (b_data tb =? inode) eqn:E; [|done]. change (p_size P2) with (p_size P1).
      destruct (Same eq_refl) as [-> _]. by rewrite S1.
  - intros k Hk. assert (C : p_get (buf_written q io buf n) (io + k) = bytes_of buf k mod 256).
    { cbn. rewrite copy_inside by lia. do 2 f_equal. lia. }
    destruct (b_data tb =? inode) eqn:E; [|done]. destruct (Same eq_refl) as [_ Hi]. by rewrite W4 by lia.
  - intros x Hx Hi. assert (C : p_get (buf_written q io buf n) x = p_get q x) by (by apply copy_outside).
    destruct (b_data tb =? inode) eqn:E; [|done]. rewrite W4 by (apply Hi; by apply Z.eqb_eq). done.
Qed.

(** ** Round trips *)

Lemma same_shard off off' shard bsize :
  0 < shard -> 0 < bsize -> (off' + USERFS_INODE_SIZE) / bsize = (off + USERFS_INODE_SIZE) / bsize ->
  shard_off off' shard bsize = shard_off off shard bsize ->
  (off' + USERFS_INODE_SIZE) mod shard - (off + USERFS_INODE_SIZE) mod shard = off' - off.
Proof.
  intros H1 H2 Ev Es. unfold shard_off in Es.
  pose proof (Z.div_mod (off + USERFS_INODE_SIZE) bsize ltac:(lia)).
  pose proof (Z.div_mod (off' + USERFS_INODE_SIZE) bsize ltac:(lia)). rewrite Ev in *. lia.
Qed.

Definition is_bytes (buf : list Z) : Prop := Forall (fun c => 0 <= c < 256) buf.

Lemma bytes_taken q io buf n :
  is_bytes buf -> 0 <= n <= Z.of_nat (length buf) ->
  (forall k, 0 <= k < n -> p_get q (io + k) = bytes_of buf k mod 256) ->
  (fun i => p_get q (io + i) mod 256) <$> seqZ 0 n = take (Z.to_nat n) buf.
Proof.
  intros B Hn H. apply list_eq. intros k. rewrite list_lookup_fmap.
  destruct (decide (Z.of_nat k < n)) as [Hk|Hk].
  - rewrite lookup_seqZ_lt by lia. rewrite lookup_take_lt by lia. cbn [fmap option_fmap option_map].
    destruct (lookup_lt_is_Some_2 buf k ltac:(lia)) as [c Ec]. rewrite Ec. f_equal.
    rewrite Z.add_0_l, H by lia. unfold bytes_of. rewrite Nat2Z.id.
    rewrite (nth_lookup_Some _ _ _ _ Ec). pose proof (Forall_lookup_1 _ _ _ _ B Ec) as R. cbn in R.
    by rewrite Z.mod_mod, Z.mod_small by lia.
  - rewrite lookup_seqZ_ge by lia. rewrite lookup_take_ge by lia. done.
Qed.

(** A write to an open block: the state behind it, and what reads of the block
    return there. *)
Lemma write_open s sb ib inode P bsize shard off n buf tv t tb q :
  let v := (off + USERFS_INODE_SIZE) / bsize in
  let io := (off + USERFS_INODE_SIZE) mod shard in
  open_file s sb ib inode P bsize -> in_shard off n shard bsize -> in_table v ->
  open_block s sb P v shard t tb q -> clear_of_inode tb inode io -> n <= Z.of_nat (length buf) ->
  exists s1 P1 q1, userfs_file_write buf off n shard ib sb (Some tv) s = Some (n, s1) /\
    open_file s1 sb ib inode P1 bsize /\ open_block s1 sb P1 v shard t tb q1 /\
    le_read 4 (p_get P1) i_size = Z.max (le_read 4 (p_get P) i_size) (off + n) /\
    (forall w, in_table w -> w <> v -> v2p P1 w = v2p P w) /\
    (forall k, 0 <= k < n -> p_get q1 (io + k) = bytes_of buf k mod 256) /\
    (forall x, x < io \/ io + n <= x -> clear_of_inode tb inode x -> p_get q1 x = p_get q x).
Proof.
  intros v io O F Hv [B1 B2 Et Hz Hs Eq Nsb B4] Hc Hl.
  destruct (inodeaddr_tag USERFS_NAME2INODEBUF t) as [Ty Ad]; [lia|by right|].
  assert (G : userfs_file_write_off_get v (v2p P v) (shard_off off shard bsize) shard inode sb s = Some (t, s)).
  { unfold userfs_file_write_off_get. rewrite B1, Ad, Ty. zdec.
    change (USERFS_NAME2INODEBUF =? USERFS_NAME2INODE) with false. by apply (open_block_head s t tb). }
  destruct (write_post s sb ib inode P q bsize shard off n buf tv t tb (v2p P v) O F Hv Et Hz Hs Eq B4 Nsb Hc B2 (or_intror B1))
    as (q2 & O2 & OB2 & In & Out & Sz & Oth).
  eexists _, _, q2. split.
  { apply (write_through s s sb ib inode P P bsize shard off n buf tv t tb q); try done.
    - unfold NULL. lia.
    - apply (op_inode _ _ _ _ _ _ O).
    - apply (op_room _ _ _ _ _ _ O). }
  done.
Qed.

(** C3: userfs_file_write and userfs_file_read of a range that lies in one shard
    ([in_shard]: it does not cross a multiple of the shard size, behind the inode), in
    a data block that is open in a buffer which starts the block ([open_block]: its
    b_block_s_off is 0, so the block was first opened at its first shard; nothing is
    said of a block first opened at another one) and outside the inode: the write
    returns the number of bytes and grows the file to their end if it was shorter; a read of the same range returns exactly these bytes; a read of
    another range of the same shard returns what it returned before.  Outside these
    conditions the code is wrong: a range that crosses the end of a shard can overrun
    the buffer ([file_cross_shard_overrun]), and all shards of a block share the one
    buffer ([file_shards_alias]). *)
Theorem file_write_read_open s sb ib inode P bsize shard off n buf tv t tb q :
  let v := (off + USERFS_INODE_SIZE) / bsize in
  open_file s sb ib inode P bsize -> in_shard off n shard bsize -> in_table v ->
  open_block s sb P v shard t tb q -> clear_of_inode tb inode ((off + USERFS_INODE_SIZE) mod shard) ->
  is_bytes buf -> n <= Z.of_nat (length buf) ->
  exists s1 P1, userfs_file_write buf off n shard ib sb (Some tv) s = Some (n, s1) /\
    open_file s1 sb ib inode P1 bsize /\
    le_read 4 (p_get P1) i_size = Z.max (le_read 4 (p_get P) i_size) (off + n) /\
    (forall tr, exists s2, userfs_file_read off n shard ib sb (Some tr) s1 = Some ((n, take (Z.to_nat n) buf), s2)) /\
    (forall off' n' tr, in_shard off' n' shard bsize -> (off' + USERFS_INODE_SIZE) / bsize = v ->
       shard_off off' shard bsize = shard_off off shard bsize ->
       clear_of_inode tb inode ((off' + USERFS_INODE_SIZE) mod shard) ->
       off' + n' <= off \/ off + n <= off' -> off' + n' <= le_read 4 (p_get P) i_size ->
       exists bs s2 s3, userfs_file_read off' n' shard ib sb (Some tr) s = Some ((n', bs), s2) /\
         userfs_file_read off' n' shard ib sb (Some tr) s1 = Some ((n', bs), s3)).
Proof.
  intros v O F Hv OB Hc B Hl. pose proof F as [F1 F2 F3 F4 F5 F6 F7].
  destruct (write_open s sb ib inode P bsize shard off n buf tv t tb q O F Hv OB Hc Hl)
    as (s1 & P1 & q1 & E & O1 & OB1 & Sz & _ & In & Out).
  exists s1, P1. split; [done|]. split; [done|]. split; [done|]. split.
  - intros tr. eexists. rewrite (read_open _ _ _ _ _ _ _ _ _ tr _ _ _ O1 F Hv OB1) by lia.
    rewrite (bytes_taken q1 _ buf n); try done. lia.
  - intros off' n' tr F' Ev Eso Hc' D Hsz. pose proof F' as [F1' F2' F3' F4' F5' F6' F7'].
    fold v in OB, OB1, Hv. rewrite <- Ev in OB, OB1, Hv.
    eexists _, _, _. split; [by apply (read_open _ _ _ _ _ _ _ _ _ tr _ _ _ O F' Hv OB)|].
    rewrite (read_open _ _ _ _ _ _ _ _ _ tr _ _ _ O1 F' Hv OB1) by lia. do 3 f_equal.
    apply list_fmap_ext. intros i x Hx. apply lookup_seqZ in Hx as [-> Hi].
    pose proof (same_shard off off' shard bsize F1 ltac:(lia) Ev Eso).
    rewrite Out; [done|lia|]. intros E0. specialize (Hc' E0). lia.
Qed.

(** A data block open in one buffer has only one shard: a write at [off] also
    changes what reads return at every other offset of the block that is a multiple
    of the shard size away. *)
Theorem file_shards_alias s sb ib inode P bsize shard off off' n buf tv tr t tb q :
  let v := (off + USERFS_INODE_SIZE) / bsize in
  open_file s sb ib inode P bsize -> in_shard off n shard bsize -> in_shard off' n shard bsize -> in_table v ->
  (off' + USERFS_INODE_SIZE) / bsize = v -> (off' - off) mod shard = 0 ->
  open_block s sb P v shard t tb q -> clear_of_inode tb inode ((off + USERFS_INODE_SIZE) mod shard) ->
  is_bytes buf -> n <= Z.of_nat (length buf) -> off' + n <= le_read 4 (p_get P) i_size ->
  exists s1 s2, userfs_file_write buf off n shard ib sb (Some tv) s = Some (n, s1) /\
    userfs_file_read off' n shard ib sb (Some tr) s1 = Some ((n, take (Z.to_nat n) buf), s2).
Proof.
  intros v O F F' Hv Ev Em OB Hc B Hl Hsz. pose proof F as [F1 F2 F3 F4 F5 F6 F7].
  destruct (write_open s sb ib inode P bsize shard off n buf tv t tb q O F Hv OB Hc Hl)
    as (s1 & P1 & q1 & E & O1 & OB1 & Sz & _ & In & _).
  exists s1. eexists. split; [done|]. fold v in OB1, Hv. rewrite <- Ev in OB1, Hv.
  rewrite (read_open _ _ _ _ _ _ _ _ _ tr _ _ _ O1 F' Hv OB1) by lia.
  assert ((off' + USERFS_INODE_SIZE) mod shard = (off + USERFS_INODE_SIZE) mod shard) as ->.
  { replace (off' + USERFS_INODE_SIZE) with (off + USERFS_INODE_SIZE + (off' - off)) by lia.
    rewrite (Z.div_mod (off' - off) shard), Em, Z.add_0_r, Z.mul_comm by lia. apply Z.mod_add. lia. }
  rewrite (bytes_taken q1 _ buf n); try done. lia.
Qed.

(** New contents for two pages. *)
Definition set_pages (s : fs) (a : Z) (p : page) (b : Z) (q : page) : fs :=
  with_pages s (<[a := p]> (<[b := q]> (f_pages s))).

Lemma mem_ok_set_pages s a p b q :
  mem_ok s -> is_Some (f_pages s !! a) -> is_Some (f_pages s !! b) -> mem_ok (set_pages s a p b q).
Proof.
  intros [M1 M2 M3 M4 M5] [pa Ea] [pb Eb]. split; try done. intros x Hx. unfold set_pages. cbn [f_pages with_pages].
  rewrite !lookup_insert_ne; [auto|..]; intros ->; [by rewrite M3 in Eb|by rewrite M3 in Ea].
Qed.

Lemma groups_ok_set_pages s sb G pas taken a p b q :
  groups_ok s sb G pas taken -> a ∉ sb :: pas -> b ∉ sb :: pas -> groups_ok (set_pages s a p b q) sb G pas taken.
Proof.
  intros O Na Nb. apply (groups_ok_frame s); try done.
  - intros x c Hx. by exists c.
  - intros x Hx. unfold set_pages. cbn [f_pages with_pages]. rewrite !lookup_insert_ne; [done|..]; by intros ->.
Qed.

Lemma bb_set_same s r b f :
  f_bbufs s !! r = Some b -> f b = b -> bb_set r f s = Some (tt, s).
Proof. intros E F. erewrite bb_set_run by done. rewrite F, insert_id by done. by destruct s. Qed.

(** A new block for the hole at [v]. *)
Lemma hole_block s s' sb ib inode P bsize G pas taken shard r :
  open_file s sb ib inode P bsize -> mem_ok s -> mem_ok s' -> groups_ok s sb G pas taken -> inode ∉ pas -> 0 < shard ->
  took_block s s' sb G pas taken shard r ->
  exists g data, 0 <= g < g_count G /\ 0 <= taken g < g_blocks G /\
    open_file s' sb ib inode P bsize /\ 0 < r < 2 ^ 63 /\
    f_bbufs s' !! r = Some (Bbuf 0 1 USERFS_BTYPE_DATA (g * g_blocks G + taken g) 0 shard data) /\
    f_pages s' !! data = Some (Page shard (f_garbage s data)) /\ data <> sb /\ data <> inode /\
    (data ∉ sb :: pas) /\ groups_ok s' sb G pas (fun x => if x =? g then taken g + 1 else taken x).
Proof.
  intros O M M' GO Ni Hs (g & data & Hg & Ht & _ & B & Pd & Pk & Lr & Ld & SK & GO').
  exists g, data. split; [done|]. split; [done|].
  assert (Er : f_bbufs s' !! r = Some (Bbuf 0 1 USERFS_BTYPE_DATA (g * g_blocks G + taken g) 0 shard data))
    by (rewrite B; apply lookup_insert_eq).
  assert (Old : forall a, is_Some (f_pages s !! a) -> a <> data).
  { intros a [p Ha] ->. by rewrite (mo_pages _ M) in Ha. }
  destruct O as [(sq & Es & Rs & Bs) (b & Eb & Ed) O3 O4 O5].
  assert (data ∉ sb :: pas) by (intros Hin; apply (Old data); [by eapply groups_pages|done]).
  split; [|split; [|split; [done|split; [done|split; [|split; [|done]]]]]].
  - split; try done.
    + destruct (mk_super _ _ _ _ SK sq Es) as (sq' & Es' & R). exists sq'. rewrite (proj1 R). split; [done|]. split; [done|].
      rewrite (same_super_read _ _ _ R) by (unfold s_data_block_size, s_free_data_block_count, mb_union; lia). done.
    + exists b. rewrite B, lookup_insert_ne; [done|]. intros ->. by rewrite (mo_bbufs _ M) in Eb.
    + rewrite Pk; [done| |by apply Old; eauto]. apply not_elem_of_cons. done.
  - destruct (mo_alloc _ M) as [A1 A2]. destruct (mo_alloc _ M') as [A3 A4].
    destruct (Z.lt_ge_cases r (a_next (f_alloc s'))) as [Hlt|Hge]; [unfold ADDR_TOP in *; lia|].
    by rewrite (mo_bbufs _ M') in Er.
  - apply not_eq_sym, Old. eauto.
  - apply not_eq_sym, Old. eauto.
Qed.

(** C9: userfs_file_write into a hole of a file, in the first shard of the block: it
    takes a data block that no file used before (and no other), and a read of the range returns the bytes written;
    or it returns 0 and takes nothing, because memory or every block group is
    exhausted.  The invariants of the allocator are kept.  As for a new block in
    general, the bit behind the bitmaps is clear or some group has two blocks left. *)
Theorem file_write_read_hole s sb ib inode P bsize shard off n buf tv G pas taken :
  let v := (off + USERFS_INODE_SIZE) / bsize in
  open_file s sb ib inode P bsize -> in_shard off n shard bsize -> in_table v -> v2p P v = 0 ->
  shard_off off shard bsize = 0 ->
  groups_ok s sb G pas taken -> mem_ok s -> fl_head (f_dfree s) = NULL -> 0 < g_count G -> may_take G taken -> inode ∉ pas ->
  is_bytes buf -> n <= Z.of_nat (length buf) ->
  exists r s1 taken', userfs_file_write buf off n shard ib sb (Some tv) s = Some (r, s1) /\
    groups_ok s1 sb G pas taken' /\ mem_ok s1 /\
    (r = n /\ (exists blk, ~ allocated G taken blk /\
                 forall x, allocated G taken' x <-> allocated G taken x \/ x = blk) /\
       (forall tr, exists s2, userfs_file_read off n shard ib sb (Some tr) s1 = Some ((n, take (Z.to_nat n) buf), s2)) \/
     r = 0 /\ taken' = taken /\
       (fst (malloc (f_alloc s) sizeof_bbuf) = NULL \/
        fst (malloc (snd (malloc (f_alloc s) sizeof_bbuf)) shard) = NULL \/
        forall g, 0 <= g < g_count G -> taken g = g_blocks G)).
Proof.
  intros v O F Hv E0 Hso GO M Hl Hc MT Ni B Hn. pose proof F as [F1 F2 F3 F4 F5 F6 F7].
  destruct (get_new_dblock_run s sb G pas taken shard GO M Hl Hc ltac:(lia) MT) as (r & s' & E & M' & _ & _ & _ & C).
  assert (Hsb : shard <= bsize) by (apply Z.divide_pos_le; [lia|done]).
  assert (Z0 : USERFS_INODEADDR_GET (v2p P v) = 0) by (by rewrite E0).
  destruct C as [(Nr & T)|(-> & GO' & _ & _ & W)].
  - destruct (hole_block s s' sb ib inode P bsize G pas taken shard r O M M' GO Ni F1 T)
      as (g & data & Hg & Ht & O' & Hr & Er & Ed & Ns & Nd & Npas & GO').
    set (tb := Bbuf 0 1 USERFS_BTYPE_DATA (g * g_blocks G + taken g) 0 shard data) in *.
    assert (Eo : userfs_file_write_off_get v (v2p P v) (shard_off off shard bsize) shard inode sb s = Some (r, s')).
    { unfold userfs_file_write_off_get. rewrite Z0, Hso. cbn [Z.eqb]. rewrite (bind_run _ _ _ _ _ E).
      rewrite (proj2 (Z.eqb_neq r NULL) Nr). by rewrite (bind_run _ _ _ _ _ (bb_set_same s' r tb _ Er eq_refl)). }
    eexists n, _, _. split.
    { apply (write_through s s' sb ib inode P P bsize shard off n buf tv r tb); try done;
        [apply (op_inode _ _ _ _ _ _ O')|apply (op_room _ _ _ _ _ _ O')]. }
    destruct (write_post s' sb ib inode P (Page shard (f_garbage s data)) bsize shard off n buf tv r tb (v2p P v))
      as (q2 & O2 & OB2 & In & _ & Sz & _); try done; try (cbn; lia).
    { intros E1. by destruct Nd. }
    { by left; rewrite E0. }
    assert (Mi : inode ∉ sb :: pas) by (apply not_elem_of_cons; split; [apply not_eq_sym, (op_sep _ _ _ _ _ _ O)|done]).
    split; [|split; [|left; split; [done|split]]].
    + by apply (groups_ok_set_pages s' sb G pas _ inode _ data _ GO').
    + apply (mem_ok_set_pages s' inode _ data); [done|rewrite (op_inode _ _ _ _ _ _ O'); eauto|eauto].
    + exists (g * g_blocks G + taken g). apply (allocated_take s sb G pas); try done.
      destruct (top_group s sb G pas taken GO Hc) as (_ & top & e & _ & _ & _ & _ & H & HL). intros g' Hg'. specialize (H g' Hg'). lia.
    + intros tr. eexists. etransitivity; [apply (read_open _ _ _ _ _ _ _ _ _ tr _ _ _ O2 F Hv OB2); lia|].
      rewrite (bytes_taken q2 _ buf n); try done. lia.
  - exists 0, s', taken. split.
    { apply (write_fails s s' sb ib inode P bsize shard off n buf tv O F Hv).
      unfold userfs_file_write_off_get. fold v. rewrite Z0. cbn [Z.eqb]. by rewrite (bind_run _ _ _ _ _ E). }
    split; [done|]. split; [done|]. right. done.
Qed.

(** A write that crosses the end of a shard other than the first one of its block:
    the length is computed from the offset in the block instead of the one in the
    shard, wraps around, and the copy leaves the buffer (the run has no result). *)
Theorem file_cross_shard_overrun s sb ib inode P bsize shard off n buf tv t tb q :
  let x := off + USERFS_INODE_SIZE in
  open_file s sb ib inode P bsize -> in_table (x / bsize) -> open_block s sb P (x / bsize) shard t tb q ->
  0 < bsize -> 0 < shard < 2147483648 -> shard < x mod bsize < 2147483648 -> 0 <= off < UINT32_MAX - USERFS_INODE_SIZE ->
  0 <= n < 2147483648 -> shard < x mod shard + n -> p_size q < 2147483648 ->
  userfs_file_write buf off n shard ib sb (Some tv) s = None.
Proof.
  intros x O Hv [B1 B2 Et Hz Hs Eq Nsb B4] Hbs Hsh Hx Ho Hn Hcr Hq.
  destruct (inodeaddr_tag USERFS_NAME2INODEBUF t) as [Ty Ad]; [lia|by right|].
  pose proof (Z.mod_pos_bound x shard ltac:(lia)).
  assert (Ep : exists so, file_place off n shard bsize = Some (x / bsize, x mod shard, so, shard - x mod bsize + 4294967296)).
  { eexists. unfold file_place. fold x. zdec. cbn [orb]. rewrite (u32_small (x mod shard + n)) by lia. zdec.
    repeat f_equal. unfold u32. symmetry. apply (Z.mod_unique_pos _ _ (-1)); lia. }
  destruct Ep as [so Ep]. unfold userfs_file_write. zdec.
  rewrite (bind_run _ _ _ _ _ (open_file_ld _ _ _ _ _ _ O)). rewrite Ep. rewrite (bind_run _ _ _ _ _ (lift_run _ _)).
  destruct (op_ib _ _ _ _ _ _ O) as (b & Eb & Ed). rewrite (bind_run _ _ _ _ _ (bb_run ib s b Eb)). rewrite Ed.
  rewrite (bind_run _ _ _ _ _ (ld_entry s inode P _ (op_inode _ _ _ _ _ _ O) (op_room _ _ _ _ _ _ O) Hv)).
  rewrite (bind_run _ _ s t s); [|unfold userfs_file_write_off_get; rewrite B1, Ad, Ty; zdec;
    change (USERFS_NAME2INODEBUF =? USERFS_NAME2INODE) with false; by apply (open_block_head s t tb)].
  rewrite (proj2 (Z.eqb_neq t NULL)) by (unfold NULL; lia).
  apply bind_None. unfold file_store. rewrite (bind_run _ _ _ _ _ (bb_run t s tb Et)). apply bind_None.
  unfold pg_upd. rewrite (bind_run _ _ _ _ _ (pg_run _ s q Eq)). apply bind_None.
  unfold page_write, in_page, lift. zdec. done.
Qed.

(** ** Witnesses: a file with one open block and a hole behind it *)

Definition rw_inode : page :=
  Page 2048 (le_write 4 (le_write 8 (fun _ => 0) (i_v2pnode_table 0)
    (USERFS_INODEADDRINFO_CAL USERFS_NAME2INODEBUF 64)) i_size 3000).
Definition rw_buf : bbuf := Bbuf 0 1 USERFS_BTYPE_DATA 5 0 2048 1024.
Definition rw_fs : fs :=
  with_bbufs (with_pages group_fs (<[1024 := rw_inode]> (f_pages group_fs))) (<[64 := rw_buf]> (f_bbufs group_fs)).

Lemma rw_mem : mem_ok rw_fs.
Proof.
  split; try done; intros x Hx; cbn in *; by rewrite ?lookup_insert_ne, ?lookup_singleton_ne by lia.
Qed.

Lemma rw_groups : groups_ok rw_fs 256 one_group [512] (fun _ => 0).
Proof.
  apply (groups_ok_frame group_fs); [apply group_fs_ok|done|done|..].
  - intros buf b E. exists b. split; [|done]. cbn. rewrite lookup_insert_ne; [done|].
    intros <-. by vm_compute in E.
  - intros a Ha. cbn. rewrite lookup_insert_ne; [done|]. intros <-.
    apply elem_of_cons in Ha as [?|Ha%list_elem_of_singleton]; done.
Qed.

Lemma rw_file : open_file rw_fs 256 64 1024 rw_inode 4096.
Proof. split; try done; [by exists super_page|by exists rw_buf]. Qed.

Lemma rw_block : open_block rw_fs 256 rw_inode 0 2048 64 rw_buf rw_inode.
Proof. by split. Qed.

Lemma rw_in_shard off n : 0 <= off -> 0 < n -> off + n < 4096 -> (off + 1024) mod 2048 + n <= 2048 -> in_shard off n 2048 4096.
Proof. split; try done; [by exists 2|unfold UINT32_MAX, USERFS_INODE_SIZE; lia]. Qed.

Lemma file_write_read_open_witness :
  exists s1, userfs_file_write [5; 6; 7] 0 2 2048 64 256 (Some 9) rw_fs = Some (2, s1) /\
    exists s2, userfs_file_read 0 2 2048 64 256 (Some 9) s1 = Some ((2, [5; 6]), s2).
Proof.
  destruct (file_write_read_open rw_fs 256 64 1024 rw_inode 4096 2048 0 2 [5; 6; 7] 9 64 rw_buf rw_inode)
    as (s1 & P1 & E & _ & _ & R & _).
  - exact rw_file.
  - apply rw_in_shard; done.
  - done.
  - exact rw_block.
  - intros _. done.
  - repeat constructor; lia.
  - done.
  - exists s1. split; [exact E|]. exact (R 9).
Defined.

Lemma file_shards_alias_witness :
  exists s1 s2, userfs_file_write [5; 6] 0 2 2048 64 256 (Some 9) rw_fs = Some (2, s1) /\
    userfs_file_read 2048 2 2048 64 256 (Some 9) s1 = Some ((2, [5; 6]), s2).
Proof.
  apply (file_shards_alias rw_fs 256 64 1024 rw_inode 4096 2048 0 2048 2 [5; 6] 9 9 64 rw_buf rw_inode).
  - exact rw_file.
  - apply rw_in_shard; done.
  - apply rw_in_shard; done.
  - done.
  - done.
  - done.
  - exact rw_block.
  - intros _. done.
  - repeat constructor; lia.
  - done.
  - done.
Defined.

Lemma file_write_read_hole_witness :
  exists r s1 taken', userfs_file_write [5; 6] 3072 2 2048 64 256 (Some 9) rw_fs = Some (r, s1) /\
    groups_ok s1 256 one_group [512] taken'.
Proof.
  destruct (file_write_read_hole rw_fs 256 64 1024 rw_inode 4096 2048 3072 2 [5; 6] 9 one_group [512] (fun _ => 0))
    as (r & s1 & tk & E & O & _).
  - exact rw_file.
  - apply rw_in_shard; done.
  - done.
  - vm_compute. reflexivity.
  - reflexivity.
  - exact rw_groups.
  - exact rw_mem.
  - reflexivity.
  - reflexivity.
  - by left.
  - apply (bool_decide_unpack _). vm_compute. exact I.
  - repeat constructor; lia.
  - done.
  - exists r, s1, tk. split; [exact E|exact O].
Defined.

Lemma file_cross_shard_overrun_witness :
  userfs_file_write (replicate 500 1) 2900 500 2048 64 256 (Some 9) rw_fs = None.
Proof.
  apply (file_cross_shard_overrun rw_fs 256 64 1024 rw_inode 4096 2048 2900 500 (replicate 500 1) 9 64 rw_buf rw_inode);
    try done. exact rw_file.
Defined.
