(* ===== verification/FilePersist.v ===== *)
(** * FilePersist: what is written survives closing and opening

    [userfs_file_close] writes the inode block to disk and leaves its number in the
    name table, [userfs_file_open] reads it back (FileOps).  The theorem of this file
    follows a file of one data block through both. *)
From S2P Require Import Prelude Atomic KList Bitmap MrHeap DentryHash Fs BlockBuf FileCtrl FsInit FileOps FileRw.
Local Open Scope Z_scope.

(** ** The name table *)

Lemma rep_grow a a' d t bs : rep a d t bs -> alloc_ok a' -> a_next a <= a_next a' -> rep a' d t bs.
Proof.
  intros (ab & [T1 T2 T3 T4 T5 T6 T7 T8 T9] & ->) Ha Hle. exists ab. split; [|done].
  split; try done; [|lia]. intros q Hq. specialize (T8 q Hq). lia.
Qed.

Lemma find_entry_change s f l e e' :
  find_entry s l = Some e -> f e = Some e' -> e_name e' = e_name e -> find_entry s (change_first s f l) = Some e'.
Proof.
  intros E Hf Hn. induction l as [|x l IH]; [done|]. rewrite find_entry_cons in E. cbn [change_first].
  destruct (matches s x) eqn:M.
  - injection E as ->. rewrite Hf, find_entry_cons. assert (matches s e' = true) as ->; [|done].
    unfold matches in *. by rewrite Hn.
  - rewrite find_entry_cons, M. auto.
Qed.

Lemma spec_lookup_change bs s f e e' :
  spec_lookup bs s = Some e -> f e = Some e' -> e_name e' = e_name e -> spec_lookup (spec_change bs s f) s = Some e'.
Proof.
  unfold spec_lookup, spec_change. rewrite length_alter. intros E Hf Hn.
  destruct (bs !! slot (Z.of_nat (length bs)) s) as [l|] eqn:El; [|done]. cbn [mbind option_bind] in E.
  rewrite list_lookup_alter_eq, El. cbn [fmap option_fmap option_map mbind option_bind]. by apply (find_entry_change s f l e).
Qed.

(** The table of the state holds [bs]. *)
Definition dir_rep (s : fs) (bs : buckets) : Prop := rep (f_alloc s) (f_dstore s) (f_table s) bs.

Lemma hash_get_run s bs nm len name pos :
  dir_rep s bs -> denotes nm len name ->
  hash_get nm len pos s =
    Some (match spec_lookup bs name with Some e => (e_val e, e_pos e) | None => (UINT32_MAX, pos) end, s).
Proof. intros R D. unfold hash_get, act. by rewrite (hash_get_rep _ _ _ _ _ _ _ pos R D). Qed.

Definition set_val (type addr : Z) (e : entry) : entry :=
  Entry (e_name e) (e_pos e) (USERFS_INODEADDRINFO_CAL type addr).

Lemma hash_update_run s bs nm len name e type addr :
  dir_rep s bs -> denotes nm len name -> spec_lookup bs name = Some e ->
  let bs' := spec_change bs name (fun e => Some (set_val type addr e)) in
  exists p d, hash_update nm len type addr s = Some (p, with_dir s (f_alloc s) d (f_table s)) /\ p <> NULL /\
    rep (f_alloc s) d (f_table s) bs' /\ spec_lookup bs' name = Some (set_val type addr e).
Proof.
  intros R D L bs'. destruct (hash_update_rep _ _ _ _ _ _ _ type addr R D) as (p & d & E & N & R').
  exists p, d. split; [unfold hash_update, act; by rewrite E|]. split; [|split; [exact R'|]].
  - intros Hp. apply N in Hp. congruence.
  - by eapply spec_lookup_change.
Qed.

(** ** Reading a data block into a new buffer *)

Lemma get_used_dblock_run s sb sq first bsize blk so shard :
  mem_ok s -> fl_head (f_dfree s) = NULL -> d_io (f_disk s) = [] ->
  f_pages s !! sb = Some sq -> 92 <= p_size sq ->
  le_read 4 (p_get sq) s_first_datablock = first -> le_read 4 (p_get sq) s_data_block_size = bsize ->
  12 <= shard < 4294967296 ->
  let b0 := Bbuf 0 1 0 blk so shard 0 in
  0 <= db_off first bsize b0 -> db_off first bsize b0 + shard < 2 ^ 63 -> db_off first bsize b0 + shard <= d_len (f_disk s) ->
  exists r s', userfs_get_used_dblock sb blk so shard s = Some (r, s') /\ mem_ok s' /\ kept_state s s' /\
    spends (f_alloc s) (f_alloc s') (dbbuf_memory shard) /\
    (r = NULL /\ s' = with_alloc s (f_alloc s') /\
       (fst (malloc (f_alloc s) sizeof_bbuf) = NULL \/
        fst (malloc (snd (malloc (f_alloc s) sizeof_bbuf)) shard) = NULL) \/
     r <> NULL /\ exists data ty, a_next (f_alloc s) <= r /\ a_next (f_alloc s) <= data /\
       f_bbufs s' = <[r := Bbuf 0 1 ty blk so shard data]> (f_bbufs s) /\
       f_pages s' = <[data := Page shard (copy (f_garbage s data) 0 shard (d_bytes (f_disk s)) (db_off first bsize b0))]> (f_pages s)).
Proof.
  intros M Hl Hio Es Rs Ef Eb Hsh b0 H0 Hmax Hlen. unfold userfs_get_used_dblock.
  destruct (alloc_dbbuf_run s shard M Hl ltac:(lia)) as (r & s1 & E1 & M1 & Hle & C). rewrite (bind_run _ _ _ _ _ E1).
  destruct (Z.eqb_spec r NULL) as [->|Nr].
  { destruct C as [(_ & Ea & Hm)|[? _]]; [|done]. eexists _, _. split; [done|]. split; [done|].
    split; [by rewrite Ea|]. split; [done|]. left. done. }
  destruct C as [[? _]|(_ & data & Nd & Ea & Hr & Hd)]; [done|].
  set (q0 := Page shard (f_garbage s data)). set (S0 := with_pages (with_alloc s (f_alloc s1)) (<[data := q0]> (f_pages s))).
  assert (Es1 : s1 = with_bbufs S0 (<[r := Bbuf 0 0 0 0 0 shard data]> (f_bbufs s))) by exact Ea.
  rewrite Es1. do 4 (erewrite bind_run; [|apply bb_set_at]). unfold set_list_len, set_blocknr, set_s_off, set_size.
  cbn [b_this_page b_list_len b_type b_blocknr b_block_s_off b_size b_data].
  set (b1 := Bbuf 0 1 0 blk so shard data). set (s2 := with_bbufs S0 _).
  assert (Esb : f_pages s2 !! sb = Some sq).
  { cbn [f_pages with_bbufs with_pages s2 S0]. rewrite lookup_insert_ne; [done|]. intros ->. by rewrite (mo_pages _ M) in Es. }
  erewrite bind_run; [|eapply sb_ld; [exact Esb|done|unfold s_first_datablock, mb_union; lia]].
  erewrite bind_run; [|eapply sb_ld; [exact Esb|done|unfold s_data_block_size, mb_union; lia]]. rewrite Ef, Eb.
  unfold userfs_read_data_block. rewrite bind_assoc. erewrite bind_run; [|apply bb_at]. rewrite bind_assoc.
  unfold userfs_dbbuf_list_read. cbn [b_list_len b1]. change (Z.to_nat 1) with (length [(b1, q0)]).
  assert (Q : f_pages s2 !! data = Some q0) by apply lookup_insert_eq.
  erewrite bind_run; [|apply list_read_run].
  2: done.
  2: { cbn [blist]. split; [apply lookup_insert_eq|]. done. }
  2: { constructor; [|done]. unfold bb_ok. cbn [fst snd b_size b1 p_size q0].
       change (db_off first bsize b1) with (db_off first bsize b0). lia. }
  2: { cbn. apply NoDup_singleton. }
  2: { constructor; [|done]. done. }
  cbn [read_all]. change (db_off first bsize b1) with (db_off first bsize b0).
  change (u32 0 <? 0) with false. cbn iota. cbn [b_size b1 b_data].
  set (q1 := Page (p_size q0) _). set (s3 := with_pages (with_bbufs S0 _) _).
  rewrite bind_assoc. erewrite bind_run; [|apply bb_run; apply lookup_insert_eq]. rewrite bind_assoc.
  erewrite bind_run; [|eapply ld_run; [apply lookup_insert_eq|apply load_in; cbn [p_size q1 q0]; unfold mb_block_type; lia]].
  rewrite bind_assoc. erewrite bind_run; [|eapply bb_set_run; apply lookup_insert_eq].
  rewrite (bind_run _ _ _ _ _ (ret_run _ _)). cbn [negb Z.eqb].
  eexists r, _. split; [done|].
  cbn [f_bbufs f_pages with_bbufs with_pages s3 S0]. rewrite !insert_insert_eq. cbn [p_size p_get q0 q1] in *.
  split; [|split; [by repeat split|split; [done|right; split; [done|]]]].
  - rewrite Es1 in M1. destruct M1 as [N1 N2 N3 N4 N5].
    split; try done; cbn [f_bbufs f_pages f_alloc f_elems with_bbufs with_pages s3 S0] in *; intros x Hx.
    + specialize (N2 x Hx). apply lookup_insert_None in N2 as [N2 N2']. by rewrite !lookup_insert_ne.
    + specialize (N3 x Hx). apply lookup_insert_None in N3 as [N3 N3']. by rewrite !lookup_insert_ne.
  - eexists data, _. split; [done|]. split; [done|]. split; [reflexivity|]. reflexivity.
Qed.

(** ** Closing a file of one block *)

Lemma ref_count_add_at inode d s m P :
  USERFS_INODE_SIZE <= p_size P ->
  ref_count_add inode d (with_pages s (<[inode := P]> m)) =
    let r := atomic_add (i32 (le_read 4 (p_get P) i_ref_count)) d in
    Some (r, with_pages s (<[inode := Page (p_size P) (le_write 4 (p_get P) i_ref_count r)]> m)).
Proof.
  intros R. unfold ref_count_add, ld_int, USERFS_INODE_SIZE, i_ref_count in *. rewrite bind_assoc.
  erewrite bind_run; [|apply pg_at]. rewrite load_int_in by lia. rewrite (bind_run _ _ _ _ _ (lift_run _ _)).
  erewrite bind_run; [|apply st_at; lia]. done.
Qed.

(** The inode that closing puts on the disk. *)
Definition closed_inode (P : page) (blocks blk : Z) : page :=
  Page (p_size P) (le_write 8 (le_write 4 (le_write 4 (p_get P) i_ref_count 0) i_blocks blocks)
    (i_v2pnode_table 0) (USERFS_INODEADDRINFO_CAL USERFS_NAME2INODE blk)).

Lemma closed_inode_spec P blocks blk :
  let P' := closed_inode P blocks blk in
  le_read 4 (p_get P') i_size = le_read 4 (p_get P) i_size /\ le_read 4 (p_get P') i_ref_count = 0 /\
  (forall x, USERFS_INODE_SIZE <= x -> p_get P' x = p_get P x).
Proof.
  unfold closed_inode. inode_unfold. unfold i_ref_count, i_blocks. cbn [p_get].
  rewrite !le_read_write_disjoint by lia. rewrite le_read_write_same. split; [done|]. split; [done|].
  intros x Hx. by rewrite !le_write_outside by lia.
Qed.

(** A file that is open once, all of it in block 0, in one buffer. *)
Record small_file (s : fs) (sb ib inode : Z) (P : page) (bsize shard blk : Z) : Prop := {
  sf_open : open_file s sb ib inode P bsize;
  sf_first : exists sq, f_pages s !! sb = Some sq /\ le_read 4 (p_get sq) s_first_datablock = 1;
  sf_buf : exists ty, f_bbufs s !! ib = Some (Bbuf 0 1 ty blk 0 shard inode);
  sf_addr : 0 < ib < 2 ^ 63;
  sf_entry : v2p P 0 = USERFS_INODEADDRINFO_CAL USERFS_NAME2INODEBUF ib;
  sf_page : p_size P = shard;
  sf_shard : USERFS_INODE_SIZE <= shard <= bsize;
  sf_bsize : bsize <= 67108864;
  sf_blk : 0 <= blk < 4294967295;
  sf_size : le_read 4 (p_get P) i_size <= bsize - USERFS_INODE_SIZE }.

Lemma close_run s sb ib inode P bsize shard blk bs nm len name e tc :
  small_file s sb ib inode P bsize shard blk -> i32 (le_read 4 (p_get P) i_ref_count) = 1 ->
  dir_rep s bs -> denotes nm len name -> spec_lookup bs name = Some e ->
  e_val e = USERFS_INODEADDRINFO_CAL USERFS_NAME2INODEBUF ib -> d_io (f_disk s) = [] ->
  let bs' := spec_change bs name (fun e => Some (set_val USERFS_NAME2INODE blk e)) in
  exists d blocks, userfs_file_close nm len sb (Some tc) s =
      Some (0, with_disk (with_pages (with_dir s (f_alloc s) d (f_table s)) (<[inode := closed_inode P blocks blk]> (f_pages s)))
                 (snd (pwrite (f_disk s) (p_get (closed_inode P blocks blk)) shard ((blk + 1) * bsize)))) /\
    rep (f_alloc s) d (f_table s) bs' /\ spec_lookup bs' name = Some (set_val USERFS_NAME2INODE blk e).
Proof.
  intros [SO (sq' & Es' & Hf) (ty & Eb) Ha En Sp Sh Sb Sk Sz] Hrc R D L Hv Hio bs'.
  pose proof SO as [(sq & Es & Rs & Bs) _ EP RP _]. rewrite Es in Es'. injection Es' as <-.
  assert (0 < bsize) by (unfold USERFS_INODE_SIZE in Sh; lia).
  destruct (inodeaddr_tag USERFS_NAME2INODEBUF ib) as [Ty Ad]; [lia|by right|].
  unfold userfs_file_close. assert ((USERFS_MAX_FILE_NAME_LEN <? len) = false) as ->.
  { destruct D as ((H1 & _) & _ & ->). by apply Z.ltb_ge. }
  rewrite (bind_run _ _ _ _ _ (hash_get_run s bs nm len name 0 R D)). rewrite L. cbn [fst]. rewrite Hv, Ty, Ad.
  rewrite inodeaddr_value by (try (by right); lia).
  unfold UINT32_MAX, USERFS_NAME2INODEBUF, USERFS_NAME2INODE in *. zdec.
  rewrite (bind_run _ _ _ _ _ (bb_run ib s _ Eb)). cbn [b_blocknr b_data].
  rewrite (run_at _ s inode P EP). erewrite bind_run; [|by apply ref_count_add_at]. cbn zeta.
  rewrite Hrc. change (atomic_add 1 (-1)) with 0. cbn [Z.ltb Z.compare].
  set (P1 := Page _ _). set (s1 := with_pages s _).
  destruct (hash_update_run s1 bs nm len name e 0 blk) as (p & d & E2 & Np & R' & L'); try done.
  rewrite (bind_run _ _ _ _ _ E2). cbn zeta. rewrite (proj2 (Z.eqb_neq p NULL) Np).
  set (S1 := with_dir s (f_alloc s) d (f_table s)).
  change (with_dir s1 _ _ _) with (with_pages S1 (<[inode := P1]> (f_pages s))).
  assert (Sep : forall p, f_pages (with_pages S1 (<[inode := p]> (f_pages s))) !! sb = Some sq).
  { intros q. cbn [f_pages with_pages]. rewrite lookup_insert_ne; [done|]. apply not_eq_sym, (op_sep _ _ _ _ _ _ SO). }
  unfold USERFS_INODE_SIZE, i_size, i_blocks, i_ref_count, i_v2pnode_table in *.
  erewrite bind_run; [|apply ld_at; cbn [p_size P1]; lia].
  erewrite bind_run; [|eapply sb_ld; [apply Sep|done|unfold s_data_block_size, mb_union; lia]]. rewrite Bs. zdec.
  erewrite bind_run; [|apply st_at; cbn [p_size P1]; lia].
  cbn [p_get P1]. rewrite le_read_write_disjoint by lia.
  pose proof (le_read_range 4 (p_get P) 32) as Rz. set (z := le_read 4 (p_get P) 32) in *.
  rewrite (u32_small (z + bsize)), (u32_small (z + bsize - 1)) by lia.
  set (blocks := (z + bsize - 1) / bsize).
  assert (Hb : 0 <= blocks <= 1) by (unfold blocks; split; [apply Z.div_pos; lia|apply Z.lt_succ_r, Z.div_lt_upper_bound; lia]).
  erewrite bind_run; [|apply ld_at; cbn [p_size P1]; lia]. cbn [p_get P1]. rewrite le_read_write_same, Z.mod_small by (cbn; lia).
  erewrite bind_run; [|eapply sb_ld; [apply Sep|done|unfold s_first_datablock, mb_union; lia]]. rewrite Hf.
  replace (Z.to_nat (blocks - 1)) with 0%nat by lia. cbn [close_loop]. rewrite (bind_run _ _ _ _ _ (ret_run _ _)).
  erewrite bind_run; [|apply st_at; cbn [p_size P1]; lia]. cbn [p_size p_get P1].
  set (P3 := closed_inode P blocks blk). set (b := Bbuf 0 1 ty blk 0 shard inode) in *.
  change (with_pages S1 _) with (with_pages S1 (<[inode := P3]> (f_pages s))). set (s3 := with_pages S1 _).
  rewrite (bind_run _ _ _ _ _ (bb_run ib s3 b Eb)).
  assert (Off : db_off 1 bsize b = (blk + 1) * bsize) by (rewrite db_off_exact; [done|lia|unfold in_dblock; cbn; lia]).
  assert (0 <= (blk + 1) * bsize <= 4294967296 * 67108864) by nia.
  exists d, blocks. split; [|done]. unfold userfs_dbbuf_list_flush.
  change (Z.to_nat (b_list_len b)) with (length [(b, P3)]).
  rewrite (bind_run _ _ _ _ _ (list_flush_run (db_off 1 bsize) s3 ib [(b, P3)] Hio
    (conj Eb (conj (lookup_insert_eq _ _ _) I)) ltac:(repeat constructor; cbn [fst snd b_size p_size b P3 closed_inode]; lia))).
  cbn [write_all]. rewrite Off. done.
Qed.

(** ** Opening a file that is closed *)

(** The inode block [q] read from the disk, after opening. *)
Definition opened_inode (q : page) (rc r tv : Z) : page :=
  Page (p_size q) (le_write 8 (le_write 8 (le_write 4 (p_get q) i_ref_count rc)
    (i_v2pnode_table 0) (USERFS_INODEADDRINFO_CAL USERFS_NAME2INODEBUF r)) i_atime tv).

Lemma opened_inode_spec q rc r tv :
  0 <= r < 2 ^ 63 ->
  let P := opened_inode q rc r tv in
  le_read 4 (p_get P) i_size = le_read 4 (p_get q) i_size /\
  v2p P 0 = USERFS_INODEADDRINFO_CAL USERFS_NAME2INODEBUF r /\
  le_read 4 (p_get P) i_ref_count = rc mod 4294967296 /\
  (forall x, USERFS_INODE_SIZE <= x -> p_get P x = p_get q x).
Proof.
  intros Hr. unfold opened_inode. inode_unfold. unfold i_ref_count. cbn [p_get].
  rewrite !le_read_write_disjoint by lia. rewrite !le_read_write_same. split; [done|]. split; [|split].
  - rewrite inodeaddr_value by (try (by right); lia). apply Z.mod_small. unfold USERFS_NAME2INODEBUF. cbn. lia.
  - rewrite !le_read_write_disjoint by lia. by rewrite le_read_write_same.
  - intros x Hx. by rewrite !le_write_outside by lia.
Qed.

(** The file [name], with its first block at [off] on the disk, has been read into the
    new buffer [r] with the page [data]. *)
Record file_opened (s s' : fs) (off shard blk : Z) (bs : buckets) (name : list Z) (r data : Z) (Q : page) : Prop := {
  od_bbufs : exists ty, f_bbufs s' = <[r := Bbuf 0 1 ty blk 0 shard data]> (f_bbufs s);
  od_pages : f_pages s' = <[data := Q]> (f_pages s);
  od_new : a_next (f_alloc s) <= r /\ a_next (f_alloc s) <= data;
  od_addr : 0 < r < 2 ^ 63;
  od_mem : mem_ok s';
  od_spends : spends (f_alloc s) (f_alloc s') (dbbuf_memory shard);
  od_disk : f_disk s' = f_disk s;
  od_dfree : f_dfree s' = f_dfree s;
  od_groups : f_elems s' = f_elems s /\ f_bgi s' = f_bgi s;
  od_names : dir_rep s' (spec_change bs name (fun e => Some (set_val USERFS_NAME2INODEBUF r e)));
  od_size : p_size Q = shard;
  od_entry : v2p Q 0 = USERFS_INODEADDRINFO_CAL USERFS_NAME2INODEBUF r;
  od_isize : le_read 4 (p_get Q) i_size = le_read 4 (d_bytes (f_disk s)) (off + i_size);
  od_refs : le_read 4 (p_get Q) i_ref_count = atomic_add (i32 (le_read 4 (d_bytes (f_disk s)) (off + i_ref_count))) 1 mod 4294967296;
  od_bytes : forall x, USERFS_INODE_SIZE <= x < shard -> p_get Q x = d_bytes (f_disk s) (off + x) mod 256 }.

(** A block of the disk in a page. *)
Lemma le_read_copied n g shard d off o :
  0 <= o -> o + Z.of_nat n <= shard -> le_read n (copy g 0 shard d off) o = le_read n d (off + o).
Proof.
  intros Ho Hs. apply le_read_agree. intros i Hi. rewrite copy_inside by lia. rewrite Z.mod_mod by lia. do 2 f_equal. lia.
Qed.

Lemma open_run s sb sq bsize shard blk bs nm len name e tv :
  mem_ok s -> fl_head (f_dfree s) = NULL -> d_io (f_disk s) = [] ->
  f_pages s !! sb = Some sq -> 92 <= p_size sq ->
  le_read 4 (p_get sq) s_first_datablock = 1 -> le_read 4 (p_get sq) s_data_block_size = bsize ->
  USERFS_INODE_SIZE <= shard <= bsize -> bsize <= 67108864 -> 0 <= blk < 4294967295 ->
  (blk + 1) * bsize + shard <= d_len (f_disk s) ->
  dir_rep s bs -> denotes nm len name -> spec_lookup bs name = Some e -> e_val e = USERFS_INODEADDRINFO_CAL USERFS_NAME2INODE blk ->
  exists r s', userfs_file_open nm len shard sb (Some tv) s = Some (r, s') /\
    (r = NULL /\ (fst (malloc (f_alloc s) sizeof_bbuf) = NULL \/
                  fst (malloc (snd (malloc (f_alloc s) sizeof_bbuf)) shard) = NULL) \/
     r <> NULL /\ exists data Q, file_opened s s' ((blk + 1) * bsize) shard blk bs name r data Q).
Proof.
  intros M Hl Hio Es Rs Hf Bs Sh Sb Sk Hlen R D L Hv.
  unfold USERFS_INODE_SIZE in Sh. assert (0 < bsize) by lia.
  destruct (inodeaddr_tag USERFS_NAME2INODE blk) as [Ty Ad]; [lia|by left|].
  unfold userfs_file_open. assert ((USERFS_MAX_FILE_NAME_LEN <? len) = false) as ->.
  { destruct D as ((H1 & _) & _ & ->). by apply Z.ltb_ge. }
  rewrite (bind_run _ _ _ _ _ (hash_get_run s bs nm len name 0 R D)). rewrite L. cbn [fst]. rewrite Hv, Ty, Ad.
  rewrite inodeaddr_value by (try (by left); lia). rewrite (u32_small blk) by lia.
  unfold UINT32_MAX, USERFS_NAME2INODE in *. zdec. unfold userfs_get_used_inode.
  assert (Off : db_off 1 bsize (Bbuf 0 1 0 blk 0 shard 0) = (blk + 1) * bsize)
    by (rewrite db_off_exact; [done|lia|unfold in_dblock; cbn; lia]).
  assert (0 <= (blk + 1) * bsize <= 4294967296 * 67108864) by nia.
  destruct (get_used_dblock_run s sb sq 1 bsize blk 0 shard M Hl Hio Es Rs Hf Bs ltac:(lia))
    as (r & s1 & E1 & M1 & [OS K1 K2 K3] & Hle & C); try (rewrite Off; lia).
  rewrite (bind_run _ _ _ _ _ E1). rewrite Off in C. set (off := (blk + 1) * bsize) in *.
  destruct (Z.eqb_spec r NULL) as [->|Nr].
  { destruct C as [(_ & _ & W)|[? _]]; [|done]. eexists _, _. split; [done|]. left. done. }
  destruct C as [[? _]|(_ & data & ty & Hr & Hd & Eb & Ep)]; [done|].
  set (q := Page shard _) in *. set (b := Bbuf 0 1 ty blk 0 shard data) in *.
  assert (R1 : dir_rep s1 bs).
  { unfold dir_rep. rewrite (os_dstore _ _ OS), (os_table _ _ OS). eapply rep_grow; [exact R|apply (mo_alloc _ M1)|apply Hle]. }
  destruct (hash_update_run s1 bs nm len name e 1 r R1 D L) as (p & d & E2 & Np & R' & L').
  rewrite (bind_run _ _ _ _ _ E2). rewrite (proj2 (Z.eqb_neq p NULL) Np). set (s2 := with_dir s1 _ _ _).
  assert (Eb2 : f_bbufs s2 !! r = Some b) by (cbn [f_bbufs with_dir s2]; rewrite Eb; apply lookup_insert_eq).
  assert (Eq2 : f_pages s2 !! data = Some q) by (cbn [f_pages with_dir s2]; rewrite Ep; apply lookup_insert_eq).
  rewrite (bind_run _ _ _ _ _ (bb_run r s2 b Eb2)). cbn [b_data b].
  rewrite (run_at _ s2 data q Eq2). erewrite bind_run; [|apply ref_count_add_at; done || (unfold USERFS_INODE_SIZE; cbn [p_size q]; lia)].
  cbn zeta. set (rc := atomic_add _ 1).
  erewrite bind_run; [|apply st_at; unfold i_v2pnode_table; cbn [p_size q]; lia].
  erewrite bind_run; [|apply st_at; unfold i_atime; cbn [p_size q]; lia].
  cbn [p_size p_get]. eexists r, _. split; [done|]. right. split; [done|].
  assert (Hr2 : 0 < r < 2 ^ 63).
  { destruct (mo_alloc _ M) as [A1 _]. destruct (mo_alloc _ M1) as [_ A4]. unfold ADDR_TOP in A4.
    destruct (Z.lt_ge_cases r (a_next (f_alloc s1))) as [Hlt|Hge]; [lia|].
    pose proof (mo_bbufs _ M1 r Hge) as N. by rewrite Eb, lookup_insert_eq in N. }
  exists data, (opened_inode q rc r tv).
  destruct (opened_inode_spec q rc r tv ltac:(lia)) as (W1 & W2 & W3 & W4).
  split; try done.
  - by exists ty.
  - cbn [f_pages with_pages s2 with_dir]. by rewrite Ep, insert_insert_eq.
  - destruct M1 as [N1 N2 N3 N4 N5]. split; try done. intros x Hx. cbn [f_pages with_pages s2 with_dir].
    specialize (N3 x Hx). rewrite lookup_insert_ne; [done|]. intros ->. by rewrite Ep, lookup_insert_eq in N3.
  - apply (os_disk _ _ OS).
  - rewrite W1. apply le_read_copied; unfold i_size; lia.
  - rewrite W3. unfold rc. cbn [p_get q]. by rewrite le_read_copied by (unfold i_ref_count; lia).
  - intros x Hx. rewrite W4 by lia. cbn [p_get q]. unfold USERFS_INODE_SIZE in Hx. rewrite copy_inside by lia. do 2 f_equal. lia.
Qed.

(** The opened file, open once in one buffer. *)
Lemma small_file_opened s s' sb sq bsize shard blk bs name r data Q :
  mem_ok s -> f_pages s !! sb = Some sq -> 92 <= p_size sq ->
  le_read 4 (p_get sq) s_first_datablock = 1 -> le_read 4 (p_get sq) s_data_block_size = bsize ->
  USERFS_INODE_SIZE <= shard <= bsize -> bsize <= 67108864 -> 0 <= blk < 4294967295 ->
  file_opened s s' ((blk + 1) * bsize) shard blk bs name r data Q ->
  le_read 4 (p_get Q) i_size <= bsize - USERFS_INODE_SIZE ->
  small_file s' sb r data Q bsize shard blk.
Proof.
  intros M Es Rs Hf Bs Sh Sb Sk O Hz. destruct (od_bbufs _ _ _ _ _ _ _ _ _ _ O) as [ty Eb].
  pose proof (od_pages _ _ _ _ _ _ _ _ _ _ O) as Ep. pose proof (od_size _ _ _ _ _ _ _ _ _ _ O) as Sz.
  assert (Nsb : data <> sb) by (intros ->; destruct (od_new _ _ _ _ _ _ _ _ _ _ O) as [_ Hd]; by rewrite (mo_pages _ M) in Es).
  assert (Es' : f_pages s' !! sb = Some sq) by (by rewrite Ep, lookup_insert_ne).
  split; try done; [split; try done| | |apply O|apply O].
  - by exists sq.
  - eexists. by rewrite Eb, lookup_insert_eq.
  - by rewrite Ep, lookup_insert_eq.
  - lia.
  - by exists sq.
  - exists ty. by rewrite Eb, lookup_insert_eq.
Qed.

(** ** Persistence *)

Lemma small_file_block s sb ib inode P bsize shard blk :
  small_file s sb ib inode P bsize shard blk ->
  exists tb, open_block s sb P 0 shard ib tb P /\ b_data tb = inode.
Proof.
  intros [SO _ (ty & Eb) Ha En Sp Sh Sb Sk Sz]. exists (Bbuf 0 1 ty blk 0 shard inode). split; [|done]. unfold USERFS_INODE_SIZE in Sh.
  split; try done; cbn [b_size b_data]; [lia|apply (op_inode _ _ _ _ _ _ SO)|apply not_eq_sym, (op_sep _ _ _ _ _ _ SO)|lia].
Qed.

(** Closing a small file and opening it again: the new buffer has the size of the file
    and its bytes behind the inode. *)
Lemma close_open_run s sb ib inode P bsize shard blk bs nm len name e tc to :
  small_file s sb ib inode P bsize shard blk -> i32 (le_read 4 (p_get P) i_ref_count) = 1 ->
  dir_rep s bs -> denotes nm len name -> spec_lookup bs name = Some e ->
  e_val e = USERFS_INODEADDRINFO_CAL USERFS_NAME2INODEBUF ib ->
  d_io (f_disk s) = [] -> mem_ok s -> fl_head (f_dfree s) = NULL ->
  exists s1 r s2, userfs_file_close nm len sb (Some tc) s = Some (0, s1) /\
    userfs_file_open nm len shard sb (Some to) s1 = Some (r, s2) /\
    (r = NULL /\ (fst (malloc (f_alloc s) sizeof_bbuf) = NULL \/
                  fst (malloc (snd (malloc (f_alloc s) sizeof_bbuf)) shard) = NULL) \/
     r <> NULL /\ exists data tb Q, open_file s2 sb r data Q bsize /\ open_block s2 sb Q 0 shard r tb Q /\
       le_read 4 (p_get Q) i_size = le_read 4 (p_get P) i_size /\
       forall x, USERFS_INODE_SIZE <= x < shard -> p_get Q x mod 256 = p_get P x mod 256).
Proof.
  intros SF Hrc R D L Hv Hio M Hl.
  destruct (close_run s sb ib inode P bsize shard blk bs nm len name e tc SF Hrc R D L Hv Hio)
    as (d & blocks & Ec & R' & L').
  set (P1 := closed_inode P blocks blk) in *. set (s1 := with_disk _ _) in Ec.
  destruct (closed_inode_spec P blocks blk) as (C1 & C2 & C3). fold P1 in C1, C2, C3.
  pose proof SF as [SO (sq & Es & Hf) _ Ha En Sp Sh Sb Sk Sz].
  pose proof SO as [(sq' & Es' & Rs & Bs) _ EP RP Nsb]. rewrite Es in Es'. injection Es' as <-.
  unfold USERFS_INODE_SIZE in Sh.
  assert (0 <= (blk + 1) * bsize <= 4294967296 * 67108864) by nia.
  assert (Dk : f_disk s1 = Disk (Z.max (d_len (f_disk s)) ((blk + 1) * bsize + shard))
                 (copy (d_bytes (f_disk s)) ((blk + 1) * bsize) shard (p_get P1) 0) []).
  { cbn [f_disk with_disk s1]. unfold pwrite, io_limit. rewrite Hio. zdec. done. }
  assert (M1 : mem_ok s1).
  { destruct M as [M1 M2 M3 M4 M5]. split; try done. intros x Hx. cbn [f_pages with_disk with_pages s1].
    rewrite lookup_insert_ne; [by apply M3|]. intros ->. by rewrite M3 in EP. }
  assert (Es1 : f_pages s1 !! sb = Some sq) by (cbn [f_pages with_disk with_pages s1]; by rewrite lookup_insert_ne by done).
  destruct (open_run s1 sb sq bsize shard blk _ nm len name _ to M1 Hl ltac:(by rewrite Dk) Es1 Rs Hf Bs Sh Sb Sk
    ltac:(rewrite Dk; cbn [d_len]; lia) R' D L' eq_refl) as (r & s2 & Eo & C).
  exists s1, r, s2. split; [done|]. split; [done|].
  destruct C as [C|(Nr & data & Q & O)]; [by left|]. right. split; [done|].
  assert (Ez : le_read 4 (p_get Q) i_size = le_read 4 (p_get P) i_size).
  { rewrite (od_isize _ _ _ _ _ _ _ _ _ _ O), Dk, <- C1. cbn [d_bytes]. apply le_read_agree. intros i Hi. unfold i_size.
    rewrite copy_inside by lia. rewrite Z.mod_mod by lia. do 2 f_equal. lia. }
  pose proof (small_file_opened s1 s2 sb sq bsize shard blk _ name r data Q M1 Es1 Rs Hf Bs Sh Sb Sk O ltac:(by rewrite Ez)) as SF2.
  destruct (small_file_block _ _ _ _ _ _ _ _ SF2) as (tb & OB & _).
  exists data, tb, Q. split; [apply SF2|]. split; [done|]. split; [done|].
  intros x Hx. rewrite (od_bytes _ _ _ _ _ _ _ _ _ _ O) by done. rewrite Dk. cbn [d_bytes].
  rewrite copy_inside by (unfold USERFS_INODE_SIZE in Hx; lia). rewrite !Z.mod_mod by lia.
  rewrite <- (C3 x) by lia. do 2 f_equal. lia.
Qed.

(** An access to the first shard of a file. *)
Lemma first_shard off n shard bsize :
  in_shard off n shard bsize -> off + USERFS_INODE_SIZE + n <= shard -> shard <= bsize ->
  (off + USERFS_INODE_SIZE) / bsize = 0 /\ (off + USERFS_INODE_SIZE) mod shard = off + USERFS_INODE_SIZE /\
  in_table ((off + USERFS_INODE_SIZE) / bsize).
Proof.
  intros [F1 F2 F3 F4 F5 F6 F7] Hfit Hs. assert (Ev : (off + USERFS_INODE_SIZE) / bsize = 0).
  { unfold USERFS_INODE_SIZE in *. apply Z.div_small. lia. }
  rewrite Ev. split; [done|]. split; [|done]. unfold USERFS_INODE_SIZE in *. apply Z.mod_small. lia.
Qed.

(** C4: What is written survives closing and opening: for a file that is open once
    and fits into its first block, [userfs_file_close] succeeds without I/O errors;
    opening it again succeeds unless memory is exhausted, and then every read of the
    first shard returns what it returned before the file was closed. *)
Theorem file_close_open_persists s sb ib inode P bsize shard blk bs nm len name e tc to off n tr :
  small_file s sb ib inode P bsize shard blk -> i32 (le_read 4 (p_get P) i_ref_count) = 1 ->
  dir_rep s bs -> denotes nm len name -> spec_lookup bs name = Some e ->
  e_val e = USERFS_INODEADDRINFO_CAL USERFS_NAME2INODEBUF ib ->
  d_io (f_disk s) = [] -> mem_ok s -> fl_head (f_dfree s) = NULL ->
  in_shard off n shard bsize -> off + USERFS_INODE_SIZE + n <= shard -> off + n <= le_read 4 (p_get P) i_size ->
  exists s1 r s2, userfs_file_close nm len sb (Some tc) s = Some (0, s1) /\
    userfs_file_open nm len shard sb (Some to) s1 = Some (r, s2) /\
    (r = NULL /\ (fst (malloc (f_alloc s) sizeof_bbuf) = NULL \/
                  fst (malloc (snd (malloc (f_alloc s) sizeof_bbuf)) shard) = NULL) \/
     r <> NULL /\ exists bytes t1 t2,
       userfs_file_read off n shard ib sb (Some tr) s = Some ((n, bytes), t1) /\
       userfs_file_read off n shard r sb (Some tr) s2 = Some ((n, bytes), t2)).
Proof.
  intros SF Hrc R D L Hv Hio M Hl F Hfit Hsz.
  destruct (close_open_run s sb ib inode P bsize shard blk bs nm len name e tc to) as (s1 & r & s2 & Ec & Eo & C); try done.
  exists s1, r, s2. split; [done|]. split; [done|]. destruct C as [C|(Nr & data & tb & Q & O2 & OB2 & Ez & Same)]; [by left|].
  right. split; [done|]. destruct (first_shard off n shard bsize F Hfit ltac:(apply SF)) as (Ev & Eio & T0).
  destruct (small_file_block _ _ _ _ _ _ _ _ SF) as (tb0 & OB & _). rewrite <- Ev in OB, OB2.
  eexists _, _, _. split; [by apply (read_open _ _ _ _ _ _ _ _ _ tr _ _ _ (sf_open _ _ _ _ _ _ _ _ SF) F T0 OB)|].
  rewrite (read_open _ _ _ _ _ _ _ _ _ tr _ _ _ O2 F T0 OB2) by (rewrite Ez; done). do 3 f_equal.
  apply list_fmap_ext. intros k x Hx. apply lookup_seqZ in Hx as [-> Hk]. rewrite Eio. pose proof (is_off _ _ _ _ F).
  apply Same. lia.
Qed.

(** ** Witness: the file "log" with a few bytes *)

Definition log_entry : entry := Entry [108; 111; 103] 0 (USERFS_INODEADDRINFO_CAL USERFS_NAME2INODEBUF 64).
Definition log_dir : alloc * dstore * linkhash :=
  match userfs_dentry_hash_insert demo_alloc demo_store demo_table name_log 3 USERFS_NAME2INODEBUF 64 0 with
  | Some (_, a, d, t) => (a, d, t) | None => (demo_alloc, demo_store, demo_table) end.
Definition log_super : page := Page 96 (le_write 4 (le_write 4 (fun _ => 0) s_data_block_size 4096) s_first_datablock 1).
Definition log_inode : page :=
  Page 2048 (le_write 4 (le_write 4 (le_write 8 (fun x => x) (i_v2pnode_table 0)
    (USERFS_INODEADDRINFO_CAL USERFS_NAME2INODEBUF 64)) i_size 100) i_ref_count 1).
Definition log_fs : fs :=
  Fs (fst (fst log_dir)) (fun _ _ => 7) {[ 64 := Bbuf 0 1 USERFS_BTYPE_DATA 5 0 2048 1024 ]}
     {[ 256 := log_super; 1024 := log_inode ]}
     (Disk 0 (fun _ => 0) []) (Freelist 0 0) (Freelist 0 0) ∅ (Bgi 0 [] (Mrheap [] 0 0))
     (snd (fst log_dir)) (snd log_dir).

Lemma log_dir_rep : dir_rep log_fs (spec_insert (replicate 128 []) log_entry).
Proof.
  destruct (hash_insert_rep demo_alloc demo_store demo_table (replicate 128 []) name_log 3 [108; 111; 103]
    USERFS_NAME2INODEBUF 64 0 demo_rep denotes_log) as (p & a & d & t & E & _ & _ & C).
  unfold dir_rep, log_fs, log_dir. rewrite E. cbn [f_alloc f_dstore f_table fst snd].
  destruct C as [(-> & _)|(_ & _ & _ & R)]; [by vm_compute in E|exact R].
Qed.

Lemma log_small : small_file log_fs 256 64 1024 log_inode 4096 2048 5.
Proof.
  split; try done; [|by exists log_super|by eexists].
  split; try done; [by exists log_super|by eexists].
Qed.

Lemma log_mem : mem_ok log_fs.
Proof.
  assert (A : a_next (f_alloc log_fs) = 6272) by (by vm_compute).
  split; try done; intros x Hx; rewrite A in Hx; cbn in *;
    by rewrite ?lookup_insert_ne, ?lookup_singleton_ne by lia.
Qed.

Lemma file_close_open_persists_witness :
  exists s1 r s2, userfs_file_close name_log 3 256 (Some 9) log_fs = Some (0, s1) /\
    userfs_file_open name_log 3 2048 256 (Some 9) s1 = Some (r, s2) /\
    exists bytes t1 t2, userfs_file_read 0 2 2048 64 256 (Some 9) log_fs = Some ((2, bytes), t1) /\
      userfs_file_read 0 2 2048 r 256 (Some 9) s2 = Some ((2, bytes), t2).
Proof.
  destruct (file_close_open_persists log_fs 256 64 1024 log_inode 4096 2048 5 (spec_insert (replicate 128 []) log_entry)
    name_log 3 [108; 111; 103] log_entry 9 9 0 2 9) as (s1 & r & s2 & E1 & E2 & C).
  - exact log_small.
  - vm_compute. reflexivity.
  - exact log_dir_rep.
  - exact denotes_log.
  - vm_compute. reflexivity.
  - reflexivity.
  - reflexivity.
  - exact log_mem.
  - reflexivity.
  - apply rw_in_shard; done.
  - vm_compute. discriminate.
  - vm_compute. discriminate.
  - exists s1, r, s2. split; [exact E1|]. split; [exact E2|].
    destruct C as [(_ & [N|N])|(_ & H)]; [by vm_compute in N|by vm_compute in N|exact H].
Defined.
