(* ===== verification/FileCreate.v ===== *)
(** * FileCreate: creating a file

    [userfs_file_create] (FileOps) takes a directory entry, a data block and an
    entry of the name table; the theorem of this file is that the three agree
    afterwards and that the new file is open, empty and ready to be written. *)
From S2P Require Import Prelude Atomic KList Bitmap MrHeap DentryHash Fs BlockBuf FileCtrl FsInit FileOps FileRw FilePersist.
Local Open Scope Z_scope.

(** ** The new inode *)

Definition fresh_inode (q : page) (blk tv : Z) : page :=
  Page (p_size q) (le_write 8 (le_write 4 (le_write 8 (le_write 8 (le_write 8 (le_write 8
    (fill (p_get q) 0 USERFS_INODE_SIZE 0) i_ctime tv) i_atime tv) i_mtime tv) i_dtime 0) i_size 0)
    (i_v2pnode_table 0) blk).

(** [userfs_file_create] adds the address of the buffer and a reference. *)
Definition created_inode (q : page) (blk r tv : Z) : page :=
  Page (p_size q) (le_write 4 (le_write 8 (le_write 8 (p_get (fresh_inode q blk tv)) i_ctime tv)
    (i_v2pnode_table 0) (USERFS_INODEADDRINFO_CAL USERFS_NAME2INODEBUF r)) i_ref_count 1).

Ltac inode_offsets := unfold i_ctime, i_atime, i_mtime, i_dtime, i_size, i_ref_count, i_v2pnode_table, USERFS_INODE_SIZE in *.

Lemma fresh_ref_count q blk tv : le_read 4 (p_get (fresh_inode q blk tv)) i_ref_count = 0.
Proof.
  unfold fresh_inode. inode_offsets. cbn [p_get]. rewrite !le_read_write_disjoint by lia. reflexivity.
Qed.

Lemma created_inode_spec q blk r tv :
  0 <= r < 2 ^ 63 ->
  let P := created_inode q blk r tv in
  v2p P 0 = USERFS_INODEADDRINFO_CAL USERFS_NAME2INODEBUF r /\ le_read 4 (p_get P) i_size = 0 /\
  le_read 4 (p_get P) i_ref_count = 1 /\ (forall v, in_table v -> v <> 0 -> v2p P v = 0).
Proof.
  intros Hr. unfold created_inode, fresh_inode, v2p, in_table. inode_offsets. cbn [p_get].
  split; [|split; [|split]].
  - rewrite le_read_write_disjoint, le_read_write_same by lia.
    rewrite inodeaddr_value by (try (by right); lia). apply Z.mod_small. unfold USERFS_NAME2INODEBUF. cbn. lia.
  - rewrite !le_read_write_disjoint by lia. by rewrite le_read_write_same.
  - by rewrite le_read_write_same.
  - intros v Hv Nv. rewrite !le_read_write_disjoint by lia.
    rewrite (le_read_ext 8 _ (fun _ => 0)); [done|]. intros x Hx. rewrite fill_inside by lia. done.
Qed.

Lemma get_new_inode_run s sb G pas taken shard tv :
  groups_ok s sb G pas taken -> mem_ok s -> fl_head (f_dfree s) = NULL -> 0 < g_count G -> USERFS_INODE_SIZE <= shard -> may_take G taken ->
  exists r s', userfs_get_new_inode sb shard tv s = Some (r, s') /\ mem_ok s' /\ other_state s s' /\
    fl_head (f_dfree s') = NULL /\ spends (f_alloc s) (f_alloc s') (dbbuf_memory shard) /\
    (r = NULL /\ (forall x, is_Some (f_pages s !! x) -> f_pages s' !! x = f_pages s !! x) /\
       (fst (malloc (f_alloc s) sizeof_bbuf) = NULL \/
        fst (malloc (snd (malloc (f_alloc s) sizeof_bbuf)) shard) = NULL \/
        forall g, 0 <= g < g_count G -> taken g = g_blocks G) \/
     r <> NULL /\ exists g data q, 0 <= g < g_count G /\ 0 <= taken g < g_blocks G /\ p_size q = shard /\
       a_next (f_alloc s) <= r /\ a_next (f_alloc s) <= data /\ meta_kept s s' sb pas /\
       f_bbufs s' = <[r := Bbuf 0 1 USERFS_BTYPE_DATA (g * g_blocks G + taken g) 0 shard data]> (f_bbufs s) /\
       f_pages s' !! data = Some (fresh_inode q (g * g_blocks G + taken g) tv) /\
       (forall a, a ∉ sb :: pas -> a <> data -> f_pages s' !! a = f_pages s !! a) /\
       groups_ok s' sb G pas (fun x => if x =? g then taken g + 1 else taken x)).
Proof.
  intros GO M Hl Hc Hs MT. unfold USERFS_INODE_SIZE in Hs. unfold userfs_get_new_inode.
  destruct (get_new_dblock_run s sb G pas taken shard GO M Hl Hc ltac:(lia) MT) as (r & s1 & E & M1 & OS & Hl1 & Hle & C).
  rewrite (bind_run _ _ _ _ _ E). destruct (Z.eqb_spec r NULL) as [->|Nr].
  { destruct C as [[? _]|(_ & _ & _ & P & W)]; [done|]. eexists _, _. split; [done|]. do 4 (split; [done|]). left. done. }
  destruct C as [(_ & g & data & Hg & Ht & _ & B & Pd & Pk & Lr & Ld & SK & GO1)|[? _]]; [|done].
  rewrite (bind_run _ _ _ _ _ (bb_run r s1 _ ltac:(rewrite B; apply lookup_insert_eq))). cbn [b_data b_blocknr].
  rewrite (run_at _ s1 data _ Pd). inode_offsets.
  erewrite bind_run; [|apply pg_upd_at, memset_in; cbn [p_size]; lia]. cbn [p_size p_get].
  do 6 (erewrite bind_run; [|apply st_at; cbn [p_size]; lia]; cbn [p_size p_get]).
  set (s2 := with_pages s1 _). exists r, s2. split; [done|].
  assert (Nd : data ∉ sb :: pas).
  { intros Hin. destruct (groups_pages _ _ _ _ _ _ GO Hin) as [p Hp]. by rewrite (mo_pages _ M) in Hp. }
  split; [|split; [by destruct OS; split|split; [done|split; [done|right; split; [done|]]]]].
  - destruct M1 as [N1 N2 N3 N4 N5]. split; try done. intros x Hx. cbn [f_pages with_pages s2].
    rewrite lookup_insert_ne; [by apply N3|]. intros ->. by rewrite N3 in Pd.
  - exists g, data, (Page shard (f_garbage s data)). do 5 (split; [done|]).
    split; [|split; [done|split; [apply lookup_insert_eq|split]]].
    + apply (meta_kept_ext s s1); [done..|]. intros x Hx. cbn [f_pages with_pages s2]. rewrite lookup_insert_ne; [done|]. by intros ->.
    + intros a Ha Na. cbn [f_pages with_pages s2]. rewrite lookup_insert_ne by done. by apply Pk.
    + apply (groups_ok_frame s1); try done.
      * intros x b Hx. by exists b.
      * intros a Ha. cbn [f_pages with_pages s2]. rewrite lookup_insert_ne; [done|]. by intros ->.
Qed.

(** ** The directory entry *)

Lemma strncpy_name name rest :
  Forall (fun c => 0 < c < 256) name -> strncpy_bytes (name ++ 0 :: rest) (S (length name)) = Some (name ++ [0]).
Proof.
  induction 1 as [|c name Hc Hn IH]; [done|]. change (length (c :: name)) with (S (length name)).
  cbn [app]. remember (S (length name)) as k. cbn [strncpy_bytes]. zdec. by rewrite IH.
Qed.

Definition dentry_written (dp : page) (pos : Z) (name : list Z) (blk : Z) : page :=
  Page (p_size dp) (le_write 4 (copy (p_get dp) (d_name pos) (Z.of_nat (length name) + 1) (bytes_of (name ++ [0])) 0)
    (d_first_dblock pos) blk).

(** Entry [pos] of the table holds the string [name] and the block [blk]. *)
Definition dentry_is (p : page) (pos : Z) (name : list Z) (blk : Z) : Prop :=
  le_read 4 (p_get p) (d_first_dblock pos) = blk /\
  forall k, 0 <= k <= Z.of_nat (length name) -> p_get p (d_name pos + k) mod 256 = bytes_of (name ++ [0]) k.

Lemma dtable_ext p p' n f u :
  dtable p n f u -> p_size p' = p_size p -> (forall x, x < dentry_at 0 -> p_get p' x = p_get p x) -> dtable p' n f u.
Proof.
  intros [D1 D2 D3 D4 D5 D6] S H.
  assert (R : forall o, o + 4 <= dentry_at 0 -> le_read 4 (p_get p') o = le_read 4 (p_get p) o).
  { intros o Ho. apply le_read_ext. intros x Hx. rewrite H; [done|lia]. }
  split; rewrite ?S; try done; rewrite R; try done; dt_unfold; lia.
Qed.

Lemma bytes_of_name name k :
  Forall (fun c => 0 < c < 256) name -> 0 <= bytes_of (name ++ [0]) k < 256.
Proof.
  intros H. unfold bytes_of. destruct (nth_in_or_default (Z.to_nat k) (name ++ [0]) 0) as [Hin|E]; [|rewrite E; lia].
  apply in_app_or in Hin as [Hin|Hin]; [|destruct Hin as [<-|Hin]; [lia|done]]. rewrite <- list_elem_of_In in Hin.
  rewrite Forall_forall in H. specialize (H _ Hin). lia.
Qed.

Lemma dentry_written_spec dp n f u pos name blk :
  dtable dp n f u -> 0 <= pos < n -> valid_name name -> 0 <= blk < 4294967296 ->
  let p := dentry_written dp pos name blk in
  dtable p n f u /\ dentry_is p pos name blk /\
  (forall k, 0 <= k -> k <> pos -> same_dentry p k dp k) /\ same_head dp p.
Proof.
  intros D Hp [Hl Hv] Hb p. unfold dentry_is, d_name, d_first_dblock.
  assert (0 <= dentry_at pos - 44) by (dt_unfold; lia).
  split; [|split; [split|split; [|split; [done|]]]].
  - apply (dtable_ext dp); [done|done|]. intros x Hx. unfold p, dentry_written, d_name, d_first_dblock. cbn [p_get].
    dt_unfold. rewrite le_write_outside by lia. apply copy_outside. lia.
  - unfold p, dentry_written. cbn [p_get]. unfold d_first_dblock. rewrite le_read_write_same. apply Z.mod_small. cbn; lia.
  - intros k Hk. unfold p, dentry_written, d_name, d_first_dblock. cbn [p_get]. rewrite le_write_outside by lia.
    rewrite copy_inside by lia. rewrite Z.mod_mod by lia. replace (dentry_at pos + 4 + k - (dentry_at pos + 4) + 0) with k by lia.
    apply Z.mod_small. by apply bytes_of_name.
  - intros k Hk Nk o Ho. unfold p, dentry_written, d_name, d_first_dblock. cbn [p_get]. dt_unfold.
    rewrite le_write_outside by lia. rewrite copy_outside by lia. done.
  - intros x Hx. unfold p, dentry_written, d_name, d_first_dblock. cbn [p_get]. dt_unfold.
    rewrite le_write_outside by lia. apply copy_outside. lia.
Qed.

(** ** The name table *)

Lemma hash_insert_run s bs nm len name type addr pos :
  dir_rep s bs -> denotes nm len name ->
  exists p a d t, hash_insert nm len type addr pos s = Some (p, with_dir s a d t) /\
    alloc_ok a /\ spends (f_alloc s) a (16 + sizeof_hlist) /\
    (p = NULL /\ (fst (malloc (f_alloc s) sizeof_hlist) = NULL \/ spec_lookup bs name <> None) \/
     p <> NULL /\ spec_lookup bs name = None /\
       let e := Entry name pos (USERFS_INODEADDRINFO_CAL type addr) in
       rep a d t (spec_insert bs e) /\ spec_lookup (spec_insert bs e) name = Some e).
Proof.
  intros R D. destruct (hash_insert_rep _ _ _ _ _ _ _ type addr pos R D) as (p & a & d & t & E & Ha & Hle & C).
  exists p, a, d, t. split; [unfold hash_insert, act; by rewrite E|]. split; [done|].
  split; [rewrite (hash_insert_alloc _ _ _ _ _ _ _ _ _ _ _ _ E); by apply spends_malloc|].
  destruct C as [(-> & _ & _ & W)|(_ & Np & L & R')]; [by left|]. right. split; [done|]. split; [done|].
  cbn zeta. split; [exact R'|]. destruct R as (ab & T & ->).
  rewrite spec_lookup_insert by (rewrite length_entries; pose proof (tr_bound _ _ _ _ T); pose proof (tr_count _ _ _ _ T); lia).
  cbn [e_name]. rewrite bool_decide_true by done. unfold matches. cbn [e_name andb]. by rewrite bool_decide_true.
Qed.

(** ** The end of the operation *)

Lemma free_dentry_fs_run s dt p n f u pos :
  f_pages s !! dt = Some p -> dtable p n f u -> in_use n f u pos -> exists r s', free_dentry dt pos s = Some (r, s').
Proof.
  intros E D I. destruct (free_dentry_run p n f u pos D I) as (p' & E' & _). unfold free_dentry.
  rewrite (bind_run _ _ _ _ _ (pg_run _ _ _ E)). rewrite E'. rewrite (bind_run _ _ _ _ _ (lift_run _ _)).
  eexists _, _. done.
Qed.

Lemma create_entry_run s dt dp n f u pos r blk ty shard data q nm name rest bs tv :
  f_pages s !! dt = Some dp -> dtable dp n f u -> in_use n f u pos -> 0 <= pos < n -> dt <> data ->
  f_bbufs s !! r = Some (Bbuf 0 1 ty blk 0 shard data) -> 0 <= blk < 4294967296 ->
  f_pages s !! data = Some (fresh_inode q blk tv) -> USERFS_INODE_SIZE <= p_size q ->
  dir_rep s bs -> nm = name ++ 0 :: rest -> valid_name name -> r <> NULL ->
  exists res s', file_create_entry nm (Z.of_nat (length name)) dt pos r tv s = Some (res, s') /\
    (res = NULL /\ (fst (malloc (f_alloc s) sizeof_hlist) = NULL \/ spec_lookup bs name <> None) \/
     res = r /\ spec_lookup bs name = None /\ exists a d t, let e := Entry name pos (USERFS_INODEADDRINFO_CAL USERFS_NAME2INODEBUF r) in
       s' = with_pages (with_dir s a d t)
              (<[data := created_inode q blk r tv]> (<[dt := dentry_written dp pos name blk]> (f_pages s))) /\
       alloc_ok a /\ spends (f_alloc s) a (16 + sizeof_hlist) /\ rep a d t (spec_insert bs e) /\
       spec_lookup (spec_insert bs e) name = Some e).
Proof.
  intros Edt D Iu Hp Nd Er Hb Ed Rq R -> V Nr. pose proof V as [Hl Hv].
  assert (Dn : denotes (name ++ 0 :: rest) (Z.of_nat (length name)) name) by (split; [done|split; [by eexists|done]]).
  unfold file_create_entry. rewrite u32_small by lia.
  replace (Z.to_nat (Z.of_nat (length name) + 1)) with (S (length name)) by lia.
  rewrite strncpy_name by done. rewrite (bind_run _ _ _ _ _ (lift_run _ _)).
  assert (Sz : dentry_at n <= p_size dp) by apply (dt_room _ _ _ _ D).
  assert (Ew : page_write dp (d_name pos) (name ++ [0]) (Z.of_nat (length (name ++ [0]))) =
    Some (Page (p_size dp) (copy (p_get dp) (d_name pos) (Z.of_nat (length name) + 1) (bytes_of (name ++ [0])) 0))).
  { assert (Z.of_nat (length (name ++ [0])) = Z.of_nat (length name) + 1) as E1 by (rewrite length_app; cbn; lia).
    unfold page_write, in_page. rewrite E1. unfold d_name. dt_unfold. by zdec. }
  rewrite (run_at _ s dt dp Edt). erewrite bind_run; [|apply pg_upd_at; exact Ew].
  rewrite (bind_run _ _ _ _ _ (bb_run r (with_pages s _) _ Er)). cbn [b_blocknr b_data].
  erewrite bind_run; [|apply st_at; cbn [p_size]; unfold d_first_dblock; dt_unfold; lia]. cbn [p_size p_get].
  fold (dentry_written dp pos name blk). set (dp1 := dentry_written dp pos name blk). set (s1 := with_pages s _).
  destruct (hash_insert_run s1 bs (name ++ 0 :: rest) (Z.of_nat (length name)) name USERFS_NAME2INODEBUF r pos R Dn)
    as (p & a & d & t & E & Ha & Hle & C).
  rewrite (bind_run _ _ _ _ _ E). destruct (Z.eqb_spec p NULL) as [->|Np].
  - destruct C as [(_ & W)|[? _]]; [|done].
    destruct (dentry_written_spec dp n f u pos name blk D Hp V Hb) as (D1 & _).
    destruct (free_dentry_fs_run (with_dir s1 a d t) dt dp1 n f u pos) as (x & s2 & E2); [apply lookup_insert_eq|done|done|].
    rewrite (bind_run _ _ _ _ _ E2). eexists _, _. split; [done|]. left. done.
  - destruct C as [[? _]|(_ & L & R' & L')]; [done|].
    set (s2 := with_dir s1 a d t).
    assert (E2 : f_pages s2 !! data = Some (fresh_inode q blk tv)) by (cbn [f_pages s2 s1 with_dir with_pages]; by rewrite lookup_insert_ne).
    rewrite (run_at _ s2 data _ E2). inode_offsets.
    do 2 (erewrite bind_run; [|apply st_at; cbn [p_size fresh_inode]; lia]).
    erewrite bind_run; [|apply ref_count_add_at; cbn [p_size fresh_inode]; done]. cbn zeta.
    eexists _, _. split; [done|]. right. split; [done|]. split; [done|]. exists a, d, t.
    split; [reflexivity|done].
Qed.

(** ** Theorem *)

(** A place in the directory, taken before anything else. *)
Lemma alloc_dentry_fs_run s dt dp n f u :
  f_pages s !! dt = Some dp -> dtable dp n f u -> u < n ->
  exists dp', alloc_dentry dt s = Some ((f + u) mod n, with_pages s (<[dt := dp']> (f_pages s))) /\
    dtable dp' n f (u + 1) /\ 0 <= (f + u) mod n < n /\ in_use n f (u + 1) ((f + u) mod n) /\
    (forall k, 0 <= k -> same_dentry dp' k dp k) /\ same_head dp dp'.
Proof.
  intros E D Hu. destruct (alloc_dentry_run dp n f u D Hu) as (dp' & E' & D' & S' & O').
  pose proof (dt_range _ _ _ _ D) as (Hn & Hf & Hu').
  exists dp'. unfold alloc_dentry. rewrite (bind_run _ _ _ _ _ (pg_run _ _ _ E)). rewrite E'.
  rewrite (bind_run _ _ _ _ _ (lift_run _ _)). split; [done|]. split; [done|].
  split; [apply Z.mod_pos_bound; lia|]. split; [exists u; split; [lia|done]|].
  split; [intros k Hk o Ho; rewrite O'; [done|]; dt_unfold; lia|]. split; [done|]. intros x Hx. apply O'. by right.
Qed.

Lemma small_file_created s sb sq bsize shard blk r data q dt dp a d t tv ty :
  f_pages s !! sb = Some sq -> 92 <= p_size sq -> le_read 4 (p_get sq) s_data_block_size = bsize ->
  le_read 4 (p_get sq) s_first_datablock = 1 -> sb <> data -> sb <> dt ->
  f_bbufs s !! r = Some (Bbuf 0 1 ty blk 0 shard data) -> p_size q = shard -> 0 < r < 2 ^ 63 ->
  USERFS_INODE_SIZE <= shard <= bsize -> bsize <= 67108864 -> 0 <= blk < 4294967295 ->
  let P := created_inode q blk r tv in
  small_file (with_pages (with_dir s a d t) (<[data := P]> (<[dt := dp]> (f_pages s)))) sb r data P bsize shard blk.
Proof.
  intros Es Rs Bs Hf Nd Nt Er Sq Hr Sh Sb Hb P. destruct (created_inode_spec q blk r tv ltac:(lia)) as (C1 & C2 & _).
  fold P in C1, C2. set (s' := with_pages _ _).
  assert (Es' : f_pages s' !! sb = Some sq) by (cbn [f_pages s' with_pages]; by rewrite !lookup_insert_ne by done).
  split; try done; [split; try done| | |].
  - by exists sq.
  - eexists. split; [exact Er|done].
  - apply lookup_insert_eq.
  - change (p_size P) with (p_size q). lia.
  - by exists sq.
  - by exists ty.
  - rewrite C2. unfold USERFS_INODE_SIZE in *. lia.
Qed.

(** What a successful creation leaves behind: the file has a block that was free, is
    open once and empty, with no other blocks; the name table has its buffer under
    its name, and a directory entry that was free has its name and block. *)
Definition file_created (s' : fs) (sb : Z) (G : geometry) (taken : Z -> Z) (bsize shard dt : Z) (dp : page) (n f u : Z) (bs : buckets) (name : list Z) (r inode blk : Z) : Prop :=
  exists P dp' pos, let e := Entry name pos (USERFS_INODEADDRINFO_CAL USERFS_NAME2INODEBUF r) in
    ~ allocated G taken blk /\ small_file s' sb r inode P bsize shard blk /\
    le_read 4 (p_get P) i_size = 0 /\ le_read 4 (p_get P) i_ref_count = 1 /\
    (forall v, in_table v -> v <> 0 -> v2p P v = 0) /\
    dir_rep s' (spec_insert bs e) /\ spec_lookup (spec_insert bs e) name = Some e /\
    f_pages s' !! dt = Some dp' /\ dtable dp' n f (u + 1) /\ ~ in_use n f u pos /\ in_use n f (u + 1) pos /\
    dentry_is dp' pos name blk /\ (forall k, 0 <= k -> k <> pos -> same_dentry dp' k dp k) /\ same_head dp dp'.

(** What a successful creation leaves alone: the buffers, and the pages but for the
    directory, the super block and the descriptors.  The block comes from group [g]. *)
Record created_from (s s' : fs) (sb : Z) (G : geometry) (pas : list Z) (taken : Z -> Z) (dt r inode g : Z) : Prop := {
  cf_group : 0 <= g < g_count G /\ 0 <= taken g < g_blocks G;
  cf_groups : groups_ok s' sb G pas (fun x => if x =? g then taken g + 1 else taken x);
  cf_new : a_next (f_alloc s) <= r /\ a_next (f_alloc s) <= inode;
  cf_bbufs : forall x, is_Some (f_bbufs s !! x) -> f_bbufs s' !! x = f_bbufs s !! x;
  cf_pages : forall x, x ∉ dt :: sb :: pas -> is_Some (f_pages s !! x) -> f_pages s' !! x = f_pages s !! x;
  cf_meta : meta_kept s s' sb pas;
  cf_disk : f_disk s' = f_disk s }.

(** The block of the inode was free, and its number fits the directory entry. *)
Lemma new_block s sb G pas taken g : groups_ok s sb G pas taken -> 0 < g_count G -> 0 <= g < g_count G -> 0 <= taken g < g_blocks G ->
  0 <= g * g_blocks G + taken g < 4294967295 /\ ~ allocated G taken (g * g_blocks G + taken g).
Proof.
  intros GO Hc Hg Ht. destruct (go_geom _ _ _ _ _ GO) as [_ _ _ _ _ [_ Gc]]. split; [nia|].
  destruct (allocated_take s sb G pas taken g GO Hg Ht) as [Al _]; [|done].
  destruct (top_group s sb G pas taken GO Hc) as (_ & top & e & _ & _ & _ & _ & H & HL). intros g' Hg'. specialize (H g' Hg'). lia.
Qed.

Section Create.
Context (s : fs) (sb : Z) (G : geometry) (pas : list Z) (taken : Z -> Z) (bsize shard dt : Z) (dp sq : page) (n f u : Z) (name : list Z) (tv : Z).
Context (GO : groups_ok s sb G pas taken) (M : mem_ok s) (Hc : 0 < g_count G).
Context (Esq : f_pages s !! sb = Some sq) (Bs : le_read 4 (p_get sq) s_data_block_size = bsize) (Hf : le_read 4 (p_get sq) s_first_datablock = 1).
Context (Sh : USERFS_INODE_SIZE <= shard <= bsize) (Sb : bsize <= 67108864).
Context (Nd : dt ∉ sb :: pas) (Edt : f_pages s !! dt = Some dp) (D : dtable dp n f u) (Nu : u <> n) (V : valid_name name).

(** The state behind [alloc_dentry]. *)
Context (dp1 : page) (D1 : dtable dp1 n f (u + 1)) (Sm : forall k, 0 <= k -> same_dentry dp1 k dp k) (Sh1 : same_head dp dp1).
Let pos := (f + u) mod n.
Let s1 := with_pages s (<[dt := dp1]> (f_pages s)).

Lemma dentry_groups : groups_ok s1 sb G pas taken.
Proof.
  apply (groups_ok_frame s); try done; [intros x c Hx; by exists c|].
  intros a Ha. cbn [f_pages with_pages s1]. rewrite lookup_insert_ne; [done|]. by intros <-.
Qed.

Lemma dentry_mem : mem_ok s1.
Proof.
  destruct M as [N1 N2 N3 N4 N5]. split; try done. intros x Hx. cbn [f_pages with_pages s1].
  rewrite lookup_insert_ne; [by apply N3|]. intros E. rewrite <- E in Hx. by rewrite N3 in Edt.
Qed.

Lemma dentry_old data a : a_next (f_alloc s) <= data -> is_Some (f_pages s1 !! a) -> a <> data.
Proof. intros Ld [p Ha] ->. by rewrite (mo_pages _ dentry_mem) in Ha. Qed.

(** The state behind [userfs_get_new_inode] and the entry. *)
Lemma created_done s2 r g data q a d t bs :
  let blk := g * g_blocks G + taken g in
  mem_ok s2 -> 0 <= g < g_count G -> 0 <= taken g < g_blocks G -> p_size q = shard -> a_next (f_alloc s) <= r -> a_next (f_alloc s) <= data -> meta_kept s1 s2 sb pas ->
  f_bbufs s2 !! r = Some (Bbuf 0 1 USERFS_BTYPE_DATA blk 0 shard data) ->
  let e := Entry name pos (USERFS_INODEADDRINFO_CAL USERFS_NAME2INODEBUF r) in
  rep a d t (spec_insert bs e) -> spec_lookup (spec_insert bs e) name = Some e ->
  file_created (with_pages (with_dir s2 a d t) (<[data := created_inode q blk r tv]> (<[dt := dentry_written dp1 pos name blk]> (f_pages s2))))
    sb G taken bsize shard dt dp n f u bs name r data blk.
Proof.
  intros blk M2 Hg Ht Sq Lr Ld SK Er e R' L'. destruct (new_block s sb G pas taken g GO Hc Hg Ht) as [Hb Al]. fold blk in Hb, Al.
  pose proof (dt_range _ _ _ _ D) as (Hn & Hff & Hu). assert (Hpos : 0 <= pos < n) by (apply Z.mod_pos_bound; lia).
  assert (Nsb : sb <> dt) by (intros E; apply Nd; rewrite E; by left).
  assert (Esq1 : f_pages s1 !! sb = Some sq) by (cbn [f_pages with_pages s1]; by rewrite lookup_insert_ne).
  assert (Edt1 : f_pages s1 !! dt = Some dp1) by apply lookup_insert_eq.
  destruct (mk_super _ _ _ _ SK sq Esq1) as (sq2 & Esq2 & Rsq). pose proof (proj1 Rsq) as Ssq.
  assert (Rs : 92 <= p_size sq) by (destruct (go_sb _ _ _ _ _ GO) as (y & Ey & Ry & _); congruence).
  assert (Hr : 0 < r < 2 ^ 63).
  { destruct (mo_alloc _ M) as [A1 _]. destruct (mo_alloc _ M2) as [_ A4]. unfold ADDR_TOP in A4.
    destruct (Z.lt_ge_cases r (a_next (f_alloc s2))) as [Hlt|Hge]; [lia|]. by rewrite (mo_bbufs _ M2) in Er. }
  destruct (created_inode_spec q blk r tv ltac:(lia)) as (C1 & C2 & C3 & C4).
  destruct (dentry_written_spec dp1 n f (u + 1) pos name blk D1 Hpos V ltac:(lia)) as (W1 & W2 & W3 & W4).
  exists (created_inode q blk r tv), (dentry_written dp1 pos name blk), pos. split; [done|]. split.
  { apply (small_file_created s2 sb sq2 bsize shard blk r data q dt _ a d t tv USERFS_BTYPE_DATA); try done.
    - lia.
    - rewrite (same_super_read _ _ _ Rsq) by (unfold s_data_block_size, s_free_data_block_count, mb_union; lia). done.
    - rewrite (same_super_read _ _ _ Rsq) by (unfold s_first_datablock, s_free_data_block_count, mb_union; lia). done.
    - apply dentry_old; eauto. }
  do 5 (split; [done|]). split.
  { cbn [f_pages with_pages]. rewrite lookup_insert_ne by (apply not_eq_sym, dentry_old; eauto). apply lookup_insert_eq. }
  split; [done|]. split; [intros (i & Hi & Ei); apply mod_shift in Ei; lia|]. split; [exists u; split; [lia|done]|]. split; [done|].
  split; [|by apply (same_head_trans dp dp1)]. intros k Hk Nk o Ho. rewrite W3 by done. by apply Sm.
Qed.

Lemma created_kept s2 r b g data P q a d t :
  0 <= g < g_count G -> 0 <= taken g < g_blocks G -> a_next (f_alloc s) <= r -> a_next (f_alloc s) <= data -> meta_kept s1 s2 sb pas ->
  f_bbufs s2 = <[r := b]> (f_bbufs s) -> (forall x, x ∉ sb :: pas -> x <> data -> f_pages s2 !! x = f_pages s1 !! x) ->
  groups_ok s2 sb G pas (fun x => if x =? g then taken g + 1 else taken x) -> f_disk s2 = f_disk s ->
  created_from s (with_pages (with_dir s2 a d t) (<[data := P]> (<[dt := q]> (f_pages s2)))) sb G pas taken dt r data g.
Proof.
  intros Hg Ht Lr Ld SK B Pk GO2 Dk.
  assert (Nda : data ∉ sb :: pas).
  { intros Hin. destruct (groups_pages _ _ _ _ _ _ GO Hin) as [p Hp]. by rewrite (mo_pages _ M) in Hp. }
  split; [done| |done|..|done].
  - apply (groups_ok_frame s2); try done; [intros x c Hx; by exists c|].
    intros x Hx. cbn [f_pages with_pages]. rewrite !lookup_insert_ne; [done|..]; by intros <-.
  - intros x [c Hx]. cbn [f_bbufs with_pages with_dir]. rewrite B, lookup_insert_ne; [done|]. intros <-.
    by rewrite (mo_bbufs _ M) in Hx.
  - intros x Nx [c Hx]. apply not_elem_of_cons in Nx as [Nx1 Nx2]. assert (x <> data) by (intros ->; by rewrite (mo_pages _ M) in Hx).
    cbn [f_pages with_pages]. rewrite !lookup_insert_ne by done. rewrite Pk by done. cbn [f_pages with_pages s1]. by rewrite lookup_insert_ne.
  - apply (meta_kept_ext s1 s2); [done|..].
    + intros x y Hx Ey. cbn [f_pages with_pages s1]. rewrite lookup_insert_ne; [done|]. by intros <-.
    + intros x Hx. cbn [f_pages with_pages]. rewrite !lookup_insert_ne; [done|..]; by intros <-.
Qed.
End Create.

(** A full directory. *)
Lemma create_full nm len shard sb db b dt dp n f tv s :
  (USERFS_MAX_FILE_NAME_LEN <? len) = false -> f_bbufs s !! db = Some b -> b_data b = dt -> f_pages s !! dt = Some dp -> dtable dp n f n ->
  exists s', userfs_file_create nm len shard sb db (Some tv) s = Some (NULL, s').
Proof.
  intros El Edb Eb Edt D. unfold userfs_file_create. rewrite El. rewrite (bind_run _ _ _ _ _ (bb_run db s b Edb)), Eb.
  destruct (dtable_load dp n f n D) as (L1 & L2 & L3 & L4). unfold alloc_dentry. rewrite bind_assoc.
  rewrite (bind_run _ _ _ _ _ (pg_run _ _ _ Edt)). unfold userfs_alloc_dentry. rewrite L3, L1.
  cbn [mbind option_bind]. rewrite Z.eqb_refl. by eexists.
Qed.

(** What a creation asks of the memory: the buffer of the inode and a node of the name
    table. *)
Definition create_memory (shard : Z) : Z := dbbuf_memory shard + (16 + sizeof_hlist).

(** The memory of the state behind the entry. *)
Lemma created_mem s2 a d t data dt P q :
  mem_ok s2 -> alloc_ok a -> a_next (f_alloc s2) <= a_next a -> is_Some (f_pages s2 !! data) -> is_Some (f_pages s2 !! dt) ->
  mem_ok (with_pages (with_dir s2 a d t) (<[data := P]> (<[dt := q]> (f_pages s2)))).
Proof.
  intros [M1 M2 M3 M4 M5] Ha Hle [x Ex] [y Ey]. split; cbn; try done; intros z Hz; [apply M2; lia| |apply M4; lia].
  rewrite !lookup_insert_ne; [apply M3; lia| |]; intros ->; [rewrite M3 in Ey|rewrite M3 in Ex]; (done || lia).
Qed.

Lemma file_create_run s sb G pas taken bsize shard db b dt dp n f u nm name rest bs tv :
  groups_ok s sb G pas taken -> mem_ok s -> fl_head (f_dfree s) = NULL -> 0 < g_count G -> may_take G taken ->
  (exists sq, f_pages s !! sb = Some sq /\ le_read 4 (p_get sq) s_data_block_size = bsize /\
     le_read 4 (p_get sq) s_first_datablock = 1) ->
  USERFS_INODE_SIZE <= shard <= bsize -> bsize <= 67108864 ->
  f_bbufs s !! db = Some b -> b_data b = dt -> dt ∉ sb :: pas -> f_pages s !! dt = Some dp -> dtable dp n f u ->
  dir_rep s bs -> nm = name ++ 0 :: rest -> valid_name name ->
  exists r s', userfs_file_create nm (Z.of_nat (length name)) shard sb db (Some tv) s = Some (r, s') /\
    (r <> NULL /\ (exists inode g, file_created s' sb G taken bsize shard dt dp n f u bs name r inode (g * g_blocks G + taken g) /\
       created_from s s' sb G pas taken dt r inode g) /\ mem_ok s' /\
       fl_head (f_dfree s') = NULL /\ spends (f_alloc s) (f_alloc s') (create_memory shard) \/
     r = NULL /\ (u = n \/ spec_lookup bs name <> None \/ (forall g, 0 <= g < g_count G -> taken g = g_blocks G) \/
       ~ room (f_alloc s) (create_memory shard))).
Proof.
  intros GO M Hl Hc MT (sq & Esq & Bs & Hf) Sh Sb Edb Eb Nd Edt D R -> V. pose proof V as [Hlen Hv].
  pose proof (dt_range _ _ _ _ D) as (Hn & Hff & Hu). assert (El : (USERFS_MAX_FILE_NAME_LEN <? Z.of_nat (length name)) = false) by (by apply Z.ltb_ge).
  destruct (Z.eq_dec u n) as [->|Nu].
  { destruct (create_full (name ++ 0 :: rest) _ shard sb db b dt dp n f tv s El Edb Eb Edt D) as [s' E]. exists NULL, s'. split; [done|]. right. split; [done|]. by left. }
  unfold userfs_file_create. rewrite El. rewrite (bind_run _ _ _ _ _ (bb_run db s b Edb)), Eb.
  destruct (alloc_dentry_fs_run s dt dp n f u Edt D ltac:(lia)) as (dp1 & E1 & D1 & Hpos & Iu & Sm & Sh1).
  rewrite (bind_run _ _ _ _ _ E1). unfold UINT32_MAX. zdec.
  pose proof (dentry_groups s sb G pas taken dt GO Nd dp1) as GO1. pose proof (dentry_mem s dt dp M Edt dp1) as M1. set (s1 := with_pages s _) in *.
  destruct (get_new_inode_run s1 sb G pas taken shard tv GO1 M1 Hl Hc ltac:(lia) MT) as (r & s2 & E2 & M2 & OS & Hl2 & Hle & C).
  rewrite (bind_run _ _ _ _ _ E2). destruct (Z.eqb_spec r NULL) as [->|Nr].
  - destruct C as [(_ & Pk & W)|[? _]]; [|done].
    destruct (free_dentry_fs_run s2 dt dp1 n f (u + 1) ((f + u) mod n)) as (x & s3 & E3); try done.
    { rewrite Pk; [apply lookup_insert_eq|]. cbn [f_pages with_pages s1]. rewrite lookup_insert_eq. eauto. }
    rewrite (bind_run _ _ _ _ _ E3). eexists _, _. split; [done|]. right. split; [done|].
    assert (0 <= shard) by (unfold USERFS_INODE_SIZE in Sh; lia).
    cbn [f_alloc with_pages s1] in W. destruct W as [W|[W|W]]; [| |auto]; do 3 right; intros Rm; revert W;
      (apply room_not_null; [|unfold sizeof_bbuf; lia]).
    + eapply room_weaken; [exact Rm|unfold create_memory, dbbuf_memory, sizeof_hlist; lia].
    + apply (spends_malloc (f_alloc s) sizeof_bbuf ltac:(done)); [lia|].
      eapply room_weaken; [exact Rm|unfold create_memory, dbbuf_memory, sizeof_hlist; lia].
  - destruct C as [[? _]|(_ & g & data & q & Hg & Ht & Sq & Lr & Ld & SK & B & Pd & Pk & GO2)]; [done|].
    destruct (new_block s sb G pas taken g GO Hc Hg Ht) as [Hb _].
    assert (Edt1 : f_pages s1 !! dt = Some dp1) by apply lookup_insert_eq.
    assert (Nda : dt <> data) by (apply (dentry_old s dt dp M Edt dp1); [done|]; fold s1; rewrite Edt1; eauto).
    assert (Er : f_bbufs s2 !! r = Some (Bbuf 0 1 USERFS_BTYPE_DATA (g * g_blocks G + taken g) 0 shard data)) by (rewrite B; apply lookup_insert_eq).
    assert (R2 : dir_rep s2 bs).
    { unfold dir_rep. rewrite (os_dstore _ _ OS), (os_table _ _ OS). eapply rep_grow; [exact R|apply (mo_alloc _ M2)|apply Hle]. }
    destruct (create_entry_run s2 dt dp1 n f (u + 1) ((f + u) mod n) r (g * g_blocks G + taken g) USERFS_BTYPE_DATA shard data q (name ++ 0 :: rest) name rest bs tv)
      as (res & s' & E3 & C); try done; [by rewrite Pk|lia|lia|].
    exists res, s'. split; [done|]. destruct C as [(-> & W)|(-> & L & a & d & t & -> & Ha & Hle' & R' & L')].
    { right. split; [done|]. destruct W as [W|W]; [|auto]. do 3 right. intros Rm. revert W. apply room_not_null; [|done].
      apply (proj2 Hle); [done|]. exact Rm. }
    left. split; [done|]. split; [exists data, g; split|split; [|split; [done|]]]; cycle 2.
    { apply created_mem; [done|done|apply Hle'|rewrite Pd; eauto|rewrite Pk by done; rewrite Edt1; eauto]. }
    { by apply (spends_trans _ _ _ _ _ Hle Hle'). }
    { by eapply (created_done s sb G pas taken bsize shard dt dp sq n f u name tv GO M Hc Esq Bs Hf Sh Sb Nd Edt D Nu V dp1 D1 Sm Sh1). }
    eapply created_kept; try done. apply (os_disk _ _ OS).
Qed.

(** The two refusals before anything is touched. *)
Lemma file_create_refused nm len shard sb db tv s :
  USERFS_MAX_FILE_NAME_LEN < len \/ tv = None -> userfs_file_create nm len shard sb db tv s = Some (NULL, s).
Proof.
  intros H. unfold userfs_file_create. zcase; [done|]. destruct H as [H| ->]; [lia|done].
Qed.

(** C5: userfs_file_create always returns, for every name, whether or not the clock can
    be read.  It returns NULL and changes nothing when the name has more than
    USERFS_MAX_FILE_NAME_LEN bytes or gettimeofday fails.  Otherwise it returns the
    buffer of a new inode in a data block that was not in use; the file is empty, open
    once and has no other block; the name is in the name table with its place in the
    directory, and the directory entry there holds the name and the block number; the
    invariant of the block groups holds, and buffers and pages of other files stay; or
    it returns NULL because the directory is full, the name is taken (or a prefix of a
    taken one), or memory or data blocks are exhausted.  The name is a C string of the
    length given, the disk's blocks have at most 64 MiB, a shard holds an inode, the
    first data block is block 1, the free list of buffers is empty, and the bit behind
    the group bitmaps is clear or some group has two blocks left. *)
Theorem file_create_spec s sb G pas taken bsize shard db b dt dp n f u nm name rest bs tv :
  groups_ok s sb G pas taken -> mem_ok s -> fl_head (f_dfree s) = NULL -> 0 < g_count G -> may_take G taken ->
  (exists sq, f_pages s !! sb = Some sq /\ le_read 4 (p_get sq) s_data_block_size = bsize /\
     le_read 4 (p_get sq) s_first_datablock = 1) ->
  USERFS_INODE_SIZE <= shard <= bsize -> bsize <= 67108864 ->
  f_bbufs s !! db = Some b -> b_data b = dt -> dt ∉ sb :: pas -> f_pages s !! dt = Some dp -> dtable dp n f u ->
  dir_rep s bs -> nm = name ++ 0 :: rest -> Forall (fun c => 0 < c < 256) name ->
  exists r s', userfs_file_create nm (Z.of_nat (length name)) shard sb db tv s = Some (r, s') /\
    (USERFS_MAX_FILE_NAME_LEN < Z.of_nat (length name) \/ tv = None -> r = NULL /\ s' = s) /\
    (Z.of_nat (length name) <= USERFS_MAX_FILE_NAME_LEN -> tv <> None ->
     r <> NULL /\ (exists inode g, file_created s' sb G taken bsize shard dt dp n f u bs name r inode (g * g_blocks G + taken g) /\
       created_from s s' sb G pas taken dt r inode g) /\ mem_ok s' \/
     r = NULL /\ (u = n \/ spec_lookup bs name <> None \/ (forall g, 0 <= g < g_count G -> taken g = g_blocks G) \/
       ~ room (f_alloc s) (create_memory shard))).
Proof.
  intros GO M Hl Hc MT Hs Sh Sb Edb Eb Nd Edt D R Hn V.
  destruct (Z.lt_ge_cases USERFS_MAX_FILE_NAME_LEN (Z.of_nat (length name))) as [Hlen|Hlen].
  { exists NULL, s. split; [apply file_create_refused; by left|]. split; [done|lia]. }
  destruct tv as [tv|]; [|exists NULL, s; split; [apply file_create_refused; by right|done]].
  destruct (file_create_run s sb G pas taken bsize shard db b dt dp n f u nm name rest bs tv) as (r & s' & E & C); try done.
  exists r, s'. split; [done|]. split; [intros [?|?]; [lia|done]|]. intros _ _.
  destruct C as [(Nr & C & M' & _)|C]; [by left|by right].
Qed.

(** ** Witness: a first file, "log" *)

Definition create_fs : fs :=
  with_bbufs (with_pages (with_dir group_fs demo_alloc demo_store demo_table)
    (<[2048 := demo_dtable]> (f_pages group_fs))) (<[80 := Bbuf 0 1 0 2 0 4096 2048]> (f_bbufs group_fs)).

Lemma create_fs_mem : mem_ok create_fs.
Proof.
  split; try done; intros x Hx; cbn in *; by rewrite ?lookup_insert_ne, ?lookup_singleton_ne by lia.
Qed.

Lemma create_fs_groups : groups_ok create_fs 256 one_group [512] (fun _ => 0).
Proof.
  apply (groups_ok_frame group_fs); [apply group_fs_ok|done|done|..].
  - intros buf b E. exists b. split; [|done]. cbn. rewrite lookup_insert_ne; [done|]. intros <-. by vm_compute in E.
  - intros a Ha. cbn. rewrite lookup_insert_ne; [done|]. intros <-.
    apply elem_of_cons in Ha as [?|Ha%list_elem_of_singleton]; done.
Qed.

Lemma file_create_spec_witness :
  exists r s', userfs_file_create name_log 3 2048 256 80 (Some 9) create_fs = Some (r, s') /\ r <> NULL /\
    exists blk inode P, small_file s' 256 r inode P 4096 2048 blk.
Proof.
  destruct (file_create_spec create_fs 256 one_group [512] (fun _ => 0) 4096 2048 80 (Bbuf 0 1 0 2 0 4096 2048) 2048
    demo_dtable 4 3 3 name_log [108; 111; 103] [] (replicate 128 []) (Some 9)) as (r & s' & E & _ & C).
  - exact create_fs_groups.
  - exact create_fs_mem.
  - reflexivity.
  - reflexivity.
  - by left.
  - exists super_page. split; [reflexivity|]. split; reflexivity.
  - vm_compute. split; discriminate.
  - vm_compute. discriminate.
  - reflexivity.
  - reflexivity.
  - apply (bool_decide_unpack _). vm_compute. exact I.
  - reflexivity.
  - by split.
  - exact demo_rep.
  - reflexivity.
  - apply denotes_log.
  - change (Z.of_nat (length [108; 111; 103])) with 3 in E. exists r, s'. split; [exact E|].
    assert (N : option_map fst (userfs_file_create name_log 3 2048 256 80 (Some 9) create_fs) = Some 6192) by (by vm_compute).
    rewrite E in N. cbn in N. injection N as ->. split; [discriminate|].
    destruct (C ltac:(vm_compute; discriminate) ltac:(discriminate)) as [(_ & (inode & g & (P & dp & pos & _ & S & _) & _) & _)|[Hn _]]; [|discriminate Hn].
    eexists _, inode, P. exact S.
Defined.
