(* ===== verification/FileDir.v ===== *)
(** * FileDir: the directory of userfs as one map

    The directory is in memory twice: a ring of entries in the page of the dentry
    table (FileCtrl), which goes to the disk, and the name table (DentryHash), which
    has the place of every entry.  The names of the files are taken from a set in which
    the comparison by prefix of the name table cannot confuse two names. *)
From S2P Require Import Prelude Atomic KList Bitmap MrHeap DentryHash Fs BlockBuf FileCtrl FsInit FileOps FileRw FilePersist FileCreate.
Local Open Scope Z_scope.

(** ** The name table as a map *)

(** A set of names for a table of [nb] buckets: no name is a proper prefix of another
    name of its bucket. *)
Record names_ok (names : list Z -> Prop) (nb : Z) : Prop := {
  no_valid : forall a, names a -> valid_name a;
  no_apart : forall a b, names a -> names b -> slot nb a = slot nb b -> a `prefix_of` b -> a = b }.

(** For example, names of the same length. *)
Lemma same_length_ok k nb : names_ok (fun a => valid_name a /\ length a = k) nb.
Proof.
  split; [by intros a [? _]|]. intros a b [_ Ha] [_ Hb] _ [c ->]. rewrite length_app in Hb.
  destruct c; [by rewrite app_nil_r|cbn in Hb; lia].
Qed.

Section Names.
Context (names : list Z -> Prop) (nb : Z) (NO : names_ok names nb).

Definition in_table_of (bs : buckets) (e : entry) : Prop := exists l, bs !! slot nb (e_name e) = Some l /\ e ∈ l.

(** The buckets [bs] hold the map [m] from names to places and addresses. *)
Record names_map (bs : buckets) (m : gmap (list Z) (Z * Z)) : Prop := {
  nm_len : Z.of_nat (length bs) = nb;
  nm_pos : 0 < nb;
  nm_bucket : forall i l e, bs !! i = Some l -> e ∈ l -> names (e_name e) /\ i = slot nb (e_name e);
  nm_nodup : forall i l, bs !! i = Some l -> NoDup (e_name <$> l);
  nm_map : forall e, in_table_of bs e <-> m !! e_name e = Some (e_pos e, e_val e) }.

(** In a bucket the comparison by prefix is equality. *)
Definition exact (s : list Z) (l : list entry) : Prop := forall e, e ∈ l -> matches s e = bool_decide (e_name e = s).

Lemma bucket_exact bs m s l : names_map bs m -> names s -> bs !! slot nb s = Some l -> exact s l.
Proof.
  intros NM Hs El e He. destruct (nm_bucket _ _ NM _ _ _ El He) as [Hn Es]. unfold matches. apply bool_decide_ext. split.
  - intros P. symmetry. by apply (no_apart _ _ NO).
  - by intros ->.
Qed.

Lemma find_entry_exact s l : exact s l ->
  match find_entry s l with Some e => e ∈ l /\ e_name e = s | None => forall e, e ∈ l -> e_name e <> s end.
Proof.
  induction l as [|e l IH]; intros X; [by intros e He%elem_of_nil|]. rewrite find_entry_cons.
  rewrite X by (by left). case_bool_decide as E; [by split; [left|]|].
  specialize (IH (fun x Hx => X x (list_elem_of_further _ _ _ Hx))).
  destruct (find_entry s l) as [x|]; [destruct IH; split; [by right|done]|].
  intros x [->|Hx]%elem_of_cons; [done|by apply IH].
Qed.

Lemma names_bucket bs m s : names_map bs m -> exists l, bs !! slot nb s = Some l.
Proof.
  intros NM. apply lookup_lt_is_Some_2. pose proof (slot_lt nb s (nm_pos _ _ NM)) as L.
  rewrite <- (nm_len _ _ NM) in L at 2. by rewrite Nat2Z.id in L.
Qed.

Lemma names_lookup bs m s : names_map bs m -> names s ->
  spec_lookup bs s = (fun pv => Entry s pv.1 pv.2) <$> m !! s.
Proof.
  intros NM Hs. destruct (names_bucket bs m s NM) as [l El]. unfold spec_lookup. rewrite (nm_len _ _ NM), El. cbn [mbind option_bind].
  pose proof (find_entry_exact s l (bucket_exact _ _ _ _ NM Hs El)) as F. destruct (find_entry s l) as [[a p v]|].
  - destruct F as [Hin E]. cbn [e_name] in E. subst a.
    pose proof (proj1 (nm_map _ _ NM (Entry s p v))) as H. cbn [e_name e_pos e_val] in H.
    rewrite H; [done|]. by exists l.
  - destruct (m !! s) as [[p v]|] eqn:Em; [|done]. exfalso.
    destruct (proj2 (nm_map _ _ NM (Entry s p v)) Em) as (l' & El' & Hin). cbn [e_name] in El'. rewrite El in El'.
    injection El' as <-. by apply (F _ Hin).
Qed.

Lemma names_insert bs m s p v : names_map bs m -> names s -> m !! s = None ->
  names_map (spec_insert bs (Entry s p v)) (<[s := (p, v)]> m).
Proof.
  intros NM Hs Em. pose proof NM as [N1 N2 N3 N4 N5]. destruct (names_bucket bs m s NM) as [l El].
  assert (Fresh : forall e, e ∈ l -> e_name e <> s).
  { intros [a q w] He E. cbn in E. subst a. assert (in_table_of bs (Entry s q w)) as T by (by exists l).
    apply N5 in T. cbn [e_name] in T. congruence. }
  assert (L : forall i l', spec_insert bs (Entry s p v) !! i = Some l' ->
    exists l0, bs !! i = Some l0 /\ (i = slot nb s /\ l' = Entry s p v :: l0 \/ i <> slot nb s /\ l' = l0)).
  { intros i l'. unfold spec_insert. cbn [e_name]. rewrite N1. destruct (decide (i = slot nb s)) as [->|Ne].
    - rewrite list_lookup_alter_eq, El. intros [= <-]. eauto.
    - rewrite list_lookup_alter_ne by done. eauto. }
  split.
  - unfold spec_insert. by rewrite length_alter.
  - done.
  - intros i l' e E' He. destruct (L i l' E') as (l0 & E0 & [[-> ->]|[Ne ->]]); [|by apply (N3 i l0)].
    apply elem_of_cons in He as [->|He]; [done|by apply (N3 _ l0)].
  - intros i l' E'. destruct (L i l' E') as (l0 & E0 & [[-> ->]|[Ne ->]]); [|by apply (N4 i)].
    rewrite El in E0. injection E0 as <-. cbn [fmap list_fmap]. apply NoDup_cons. split; [|by apply (N4 _ l El)].
    intros (e & E & He)%list_elem_of_fmap. by apply (Fresh e).
  - intros [a q w]. unfold in_table_of, spec_insert. cbn [e_name e_pos e_val]. rewrite N1.
    specialize (N5 (Entry a q w)). unfold in_table_of in N5. cbn [e_name e_pos e_val] in N5.
    destruct (decide (a = s)) as [->|Na]; [rewrite lookup_insert_eq|rewrite lookup_insert_ne by done].
    + rewrite list_lookup_alter_eq, El. split.
      * intros (l' & [= <-] & [[= -> ->]|He]%elem_of_cons); [done|]. by destruct (Fresh _ He).
      * intros [= -> ->]. eexists. split; [done|]. by left.
    + rewrite <- N5. destruct (decide (slot nb a = slot nb s)) as [Es|Es].
      * rewrite Es, list_lookup_alter_eq, El. cbn [fmap option_fmap option_map]. split.
        -- intros (l' & [= <-] & [[= -> _ _]|He]%elem_of_cons); [done|]. by exists l.
        -- intros (l' & [= <-] & He). eexists. split; [done|]. by right.
      * by rewrite list_lookup_alter_ne by done.
Qed.

(** Changing the first match of a bucket. *)
Lemma change_first_elem s h l x : exact s l -> NoDup (e_name <$> l) ->
  x ∈ change_first s h l <-> (x ∈ l /\ e_name x <> s) \/ exists e, e ∈ l /\ e_name e = s /\ h e = Some x.
Proof.
  induction l as [|e l IH]; intros X ND.
  { cbn. split; [by intros ?%elem_of_nil|]. intros [[?%elem_of_nil _]|(e & ?%elem_of_nil & _)]; done. }
  cbn [fmap list_fmap] in ND. apply NoDup_cons in ND as [Ni ND].
  specialize (IH (fun y Hy => X y (list_elem_of_further _ _ _ Hy)) ND). cbn [change_first]. rewrite X by (by left).
  case_bool_decide as E.
  - assert (Ns : forall y, y ∈ l -> e_name y <> s).
    { intros y Hy Ey. apply Ni. rewrite E, <- Ey. by apply list_elem_of_fmap_2. }
    destruct (h e) as [z|] eqn:Eh; rewrite ?elem_of_cons; split.
    + intros [->|Hx]; [right; exists e; rewrite elem_of_cons; auto|left; auto].
    + intros [[[->|Hx] Nx]|(y & [->|Hy]%elem_of_cons & Ey & Hz)]; [done|by right|left; congruence|by destruct (Ns y)].
    + intros Hx. left. auto.
    + intros [[[->|Hx] Nx]|(y & [->|Hy]%elem_of_cons & Ey & Hz)]; [done|done|congruence|by destruct (Ns y)].
  - rewrite elem_of_cons, IH. split.
    + intros [->|[[Hx Nx]|(y & Hy & H)]]; [left|left|right; exists y]; rewrite elem_of_cons; auto.
    + intros [[[->|Hx]%elem_of_cons Nx]|(y & [->|Hy]%elem_of_cons & Ey & Hz)]; [by left|right; left; auto|done|right; right; eauto].
Qed.

Lemma change_first_names s h l : (forall e x, h e = Some x -> e_name x = e_name e) ->
  (e_name <$> change_first s h l) `sublist_of` (e_name <$> l).
Proof.
  intros Hh. induction l as [|e l IH]; [done|]. cbn [change_first]. destruct (matches s e); [|by apply sublist_skip].
  destruct (h e) as [x|] eqn:E; cbn [fmap list_fmap]; [rewrite (Hh _ _ E)|by apply sublist_cons]. done.
Qed.

Lemma names_change bs m s p v h : names_map bs m -> names s -> m !! s = Some (p, v) ->
  (forall e x, h e = Some x -> e_name x = e_name e) ->
  names_map (spec_change bs s h) (partial_alter (fun _ => (fun x => (e_pos x, e_val x)) <$> h (Entry s p v)) s m).
Proof.
  intros NM Hs Em Hh. pose proof NM as [N1 N2 N3 N4 N5]. destruct (names_bucket bs m s NM) as [l El].
  pose proof (bucket_exact _ _ _ _ NM Hs El) as X. pose proof (N4 _ _ El) as ND.
  assert (L : forall i l', spec_change bs s h !! i = Some l' ->
    exists l0, bs !! i = Some l0 /\ (i = slot nb s /\ l0 = l /\ l' = change_first s h l \/ i <> slot nb s /\ l' = l0)).
  { intros i l'. unfold spec_change. rewrite N1. destruct (decide (i = slot nb s)) as [->|Ne].
    - rewrite list_lookup_alter_eq, El. intros [= <-]. exists l. auto.
    - rewrite list_lookup_alter_ne by done. eauto. }
  assert (Un : forall e, e ∈ l -> e_name e = s -> e = Entry s p v).
  { intros [a q w] He E. cbn in E. subst a. assert (in_table_of bs (Entry s q w)) as T by (by exists l).
    apply N5 in T. cbn [e_name e_pos e_val] in T. congruence. }
  split.
  - unfold spec_change. by rewrite length_alter.
  - done.
  - intros i l' e E' He. destruct (L i l' E') as (l0 & E0 & [(-> & -> & ->)|[Ne ->]]); [|by apply (N3 i l0)].
    apply change_first_elem in He as [[He _]|(y & Hy & Ey & Hz)]; [by apply (N3 _ l)| |done|done].
    by rewrite (Hh _ _ Hz), Ey.
  - intros i l' E'. destruct (L i l' E') as (l0 & E0 & [(-> & -> & ->)|[Ne ->]]); [|by apply (N4 i)].
    eapply sublist_NoDup; [exact ND|by apply change_first_names].
  - intros [a q w]. unfold in_table_of, spec_change. cbn [e_name e_pos e_val]. rewrite N1.
    specialize (N5 (Entry a q w)). unfold in_table_of in N5. cbn [e_name e_pos e_val] in N5.
    destruct (decide (a = s)) as [->|Na]; [rewrite lookup_partial_alter_eq|rewrite lookup_partial_alter_ne by done].
    + rewrite list_lookup_alter_eq, El. cbn [fmap option_fmap option_map]. split.
      * intros (l' & [= <-] & He). apply change_first_elem in He as [[_ He]|(y & Hy & Ey & Hz)]; [done| |done|done].
        rewrite (Un y Hy Ey) in Hz. by rewrite Hz.
      * destruct (h (Entry s p v)) as [x|] eqn:Ex; [|done]. intros [= E1 E2]. eexists. split; [done|].
        assert (In : Entry s p v ∈ l).
        { destruct (proj2 (nm_map _ _ NM (Entry s p v)) Em) as (l' & El' & Hin). cbn [e_name] in El'. congruence. }
        apply change_first_elem; [done|done|]. right. exists (Entry s p v). split; [done|]. split; [done|].
        rewrite Ex. pose proof (Hh _ _ Ex) as En. destruct x. cbn in *. congruence.
    + rewrite <- N5. destruct (decide (slot nb a = slot nb s)) as [Es|Es].
      * rewrite Es, list_lookup_alter_eq, El. cbn [fmap option_fmap option_map]. split.
        -- intros (l' & [= <-] & He). exists l. split; [done|].
           apply change_first_elem in He as [[He _]|(y & Hy & Ey & Hz)]; [done| |done|done].
           pose proof (Hh _ _ Hz) as En. cbn in En. congruence.
        -- intros (l' & [= <-] & He). eexists. split; [done|]. apply change_first_elem; [done|done|]. by left.
      * by rewrite list_lookup_alter_ne by done.
Qed.
End Names.

(** ** The ring of entries *)

(** A file in the directory: its place, its address in the name table and its first
    block. *)
Record dfile := Dfile { d_pos : Z; d_val : Z; d_blk : Z }.

(** The ring in [dp] has an entry for every file of [M], and no other. *)
Record ring_ok (dp : page) (n f : Z) (M : gmap (list Z) dfile) : Prop := {
  ro_table : dtable dp n f (Z.of_nat (base.size M));
  ro_entry : forall a d, M !! a = Some d ->
    valid_name a /\ in_use n f (Z.of_nat (base.size M)) (d_pos d) /\ dentry_is dp (d_pos d) a (d_blk d);
  ro_inj : forall a b d e, M !! a = Some d -> M !! b = Some e -> d_pos d = d_pos e -> a = b;
  ro_onto : forall k, in_use n f (Z.of_nat (base.size M)) k -> exists a d, M !! a = Some d /\ d_pos d = k }.

Lemma dentry_is_same p' k' p k a blk :
  valid_name a -> same_dentry p' k' p k -> dentry_is p k a blk -> dentry_is p' k' a blk.
Proof.
  intros [Hl _] S [D1 D2]. unfold d_first_dblock, d_name in *. split.
  - rewrite <- D1. apply le_read_agree. intros i Hi. apply S. unfold USERFS_DENTRY_SIZE. lia.
  - intros i Hi. rewrite <- D2 by done. unfold d_name. rewrite <- !Z.add_assoc. apply S. unfold USERFS_DENTRY_SIZE. lia.
Qed.

Lemma in_use_nonneg n f u k : 0 < n -> in_use n f u k -> 0 <= k.
Proof. intros Hn (i & _ & ->). apply Z.mod_pos_bound. lia. Qed.

(** One more entry, at a place that was not in use. *)
Lemma table_insert dp dp' n f M a pos v blk :
  ring_ok dp n f M -> M !! a = None -> valid_name a -> dtable dp' n f (Z.of_nat (base.size M) + 1) ->
  ~ in_use n f (Z.of_nat (base.size M)) pos -> in_use n f (Z.of_nat (base.size M) + 1) pos -> dentry_is dp' pos a blk ->
  (forall k, 0 <= k -> k <> pos -> same_dentry dp' k dp k) ->
  ring_ok dp' n f (<[a := Dfile pos v blk]> M).
Proof.
  intros [R1 R2 R3 R4] Ea Va D' Ni Iu De Sm. pose proof (dt_range _ _ _ _ R1) as (Hn & Hf & Hu).
  assert (Es : Z.of_nat (base.size (<[a := Dfile pos v blk]> M)) = Z.of_nat (base.size M) + 1) by (rewrite map_size_insert_None by done; lia).
  assert (Up : forall k, in_use n f (Z.of_nat (base.size M) + 1) k <-> in_use n f (Z.of_nat (base.size M)) k \/ k = pos).
  { destruct Iu as (j & Hj & Ej). assert (j = Z.of_nat (base.size M)) as -> by (destruct (Z.eq_dec j (Z.of_nat (base.size M))); [done|];
      destruct Ni; exists j; split; [lia|done]).
    intros k. split; [|intros [(i & Hi & ->)| ->]; [exists i|exists (Z.of_nat (base.size M))]; (split; [lia|done])].
    intros (i & Hi & ->). destruct (Z.eq_dec i (Z.of_nat (base.size M))) as [->|]; [by right|]. left. exists i. split; [lia|done]. }
  split; rewrite ?Es; [done|..].
  - intros b d Hb. rewrite Up. destruct (decide (b = a)) as [->|Nb].
    + rewrite lookup_insert_eq in Hb. injection Hb as <-. auto.
    + rewrite lookup_insert_ne in Hb by done. destruct (R2 b d Hb) as (Vb & Ib & Db). split; [done|]. split; [by left|].
      eapply dentry_is_same; [done| |done]. apply Sm; [by eapply in_use_nonneg; [|done]; lia|]. by intros E; rewrite E in Ib.
  - assert (Np : forall b d, M !! b = Some d -> d_pos d <> pos) by (intros b d Hb E; destruct (R2 b d Hb) as (_ & Ib & _); by rewrite E in Ib).
    intros b c d e Hb Hc E. apply lookup_insert_Some in Hb as [[<- <-]|[Nb Hb]]; apply lookup_insert_Some in Hc as [[<- <-]|[Nc Hc]]; cbn in E; [done|..].
    + by destruct (Np c e Hc).
    + by destruct (Np b d Hb).
    + by apply (R3 b c d e).
  - intros k [Hk| ->]%Up.
    + destruct (R4 k Hk) as (b & d & Hb & Ed). exists b, d. rewrite lookup_insert_ne; [done|]. intros ->. congruence.
    + exists a. eexists. rewrite lookup_insert_eq. done.
Qed.

(** The entry of [a] goes; the first entry of the ring moves into its place. *)
Lemma table_remove dp n f M a d :
  ring_ok dp n f M -> M !! a = Some d ->
  exists dp', userfs_free_dentry dp (d_pos d) = Some (if d_pos d =? f then -1 else 0, dp') /\ same_head dp dp' /\
    (d_pos d = f /\ ring_ok dp' n ((f + 1) mod n) (delete a M) \/
     d_pos d <> f /\ exists b e, b <> a /\ M !! b = Some e /\ dentry_is dp' (d_pos d) b (d_blk e) /\
       ring_ok dp' n ((f + 1) mod n) (<[b := Dfile (d_pos d) (d_val e) (d_blk e)]> (delete a M))).
Proof.
  intros [R1 R2 R3 R4] Ea. pose proof (dt_range _ _ _ _ R1) as (Hn & Hf & Hu).
  destruct (R2 a d Ea) as (Va & Ia & Da).
  destruct (free_dentry_run dp n f _ (d_pos d) R1 Ia) as (dp' & E & D' & S' & X1 & X2). exists dp'. split; [done|]. split; [done|].
  pose proof (map_size_delete_Some a M ltac:(eauto)) as Es. assert (Hs : (0 < base.size M)%nat).
  { destruct (base.size M) eqn:E0; [|lia]. apply map_size_empty_inv in E0. subst. by rewrite lookup_empty in Ea. }
  assert (Ed : Z.of_nat (base.size (delete a M)) = Z.of_nat (base.size M) - 1) by (rewrite Es, Nat2Z.inj_pred by done; lia).
  assert (Adv : forall k, in_use n ((f + 1) mod n) (Z.of_nat (base.size M) - 1) k <-> in_use n f (Z.of_nat (base.size M)) k /\ k <> f)
    by (intros k; apply in_use_advance; lia).
  assert (Keep : forall c e, M !! c = Some e -> c <> a -> d_pos e <> f ->
    in_use n ((f + 1) mod n) (Z.of_nat (base.size M) - 1) (d_pos e) /\ dentry_is dp' (d_pos e) c (d_blk e)).
  { intros c e Ec Nc Nf. destruct (R2 c e Ec) as (Vc & Ic & Dc). split; [by apply Adv|].
    eapply dentry_is_same; [done| |done]. apply X2; [done| |by eapply in_use_nonneg; [|done]; lia].
    intros Ep. apply Nc. by apply (R3 c a e d). }
  destruct (Z.eq_dec (d_pos d) f) as [Ef|Nf]; [left|right]; (split; [done|]).
  - split; rewrite ?Ed.
    + done.
    + intros c e [Nc Ec]%lookup_delete_Some. split; [by apply (R2 c e)|]. apply Keep; [done..|].
      intros Ee. apply Nc. apply (R3 a c d e); [done..|congruence].
    + intros b c e e' [_ Hb]%lookup_delete_Some [_ Hc]%lookup_delete_Some. by apply R3.
    + intros k [Hk Nk]%Adv. destruct (R4 k Hk) as (c & e & Hc & Ee). exists c, e. split; [|done].
      apply lookup_delete_Some. split; [|done]. intros <-. congruence.
  - destruct (R4 f) as (b & e & Eb & Ep). { exists 0. split; [lia|]. rewrite Z.add_0_r, Z.mod_small by lia. done. }
    assert (Nb : b <> a) by congruence. destruct (R2 b e Eb) as (Vb & Ib & Db). rewrite Ep in Db.
    assert (De : dentry_is dp' (d_pos d) b (d_blk e)) by (eapply dentry_is_same; [done|by apply X1|done]).
    exists b, e. do 3 (split; [done|]).
    assert (Ei : Z.of_nat (base.size (<[b := Dfile (d_pos d) (d_val e) (d_blk e)]> (delete a M))) = Z.of_nat (base.size M) - 1).
    { rewrite map_size_insert_Some; [done|]. rewrite lookup_delete_ne by done. eauto. }
    split; rewrite ?Ei.
    + done.
    + intros c x [[<- <-]|[Nc [Na Hc]%lookup_delete_Some]]%lookup_insert_Some; cbn [d_pos d_blk].
      * split; [done|]. split; [|done]. by apply Adv.
      * split; [by apply (R2 c x)|]. apply Keep; [done..|]. intros Ex. apply Nc. apply (R3 b c e x); [done..|congruence].
    + assert (Np : forall c x, M !! c = Some x -> a <> c -> d_pos x <> d_pos d).
      { intros c x Hc Na Ex. apply Na. by apply (R3 a c d x). }
      intros c c' x x' [[<- <-]|[Nc [Na Hc]%lookup_delete_Some]]%lookup_insert_Some
        [[<- <-]|[Nc' [Na' Hc']%lookup_delete_Some]]%lookup_insert_Some; cbn [d_pos]; intros Ex; [done|..].
      * by destruct (Np c' x').
      * by destruct (Np c x).
      * by apply (R3 c c' x x').
    + intros k [Hk Nk]%Adv. destruct (R4 k Hk) as (c & x & Hc & Ex). destruct (decide (c = a)) as [->|Nc].
      * exists b. eexists. rewrite lookup_insert_eq. split; [done|]. cbn. congruence.
      * exists c, x. split; [|done]. rewrite lookup_insert_ne, lookup_delete_ne; congruence.
Qed.

(** ** The directory *)

Section Directory.
Context (names : list Z -> Prop) (nb : Z) (NO : names_ok names nb) (dt n : Z).

(** The name table and the ring of the state hold the map [V] from the name of a file
    to its address and its first block. *)
Definition dir_ok (s : fs) (V : gmap (list Z) (Z * Z)) : Prop :=
  exists M dp f bs, V = (fun d => (d_val d, d_blk d)) <$> M /\ f_pages s !! dt = Some dp /\ dir_rep s bs /\
    names_map names nb bs ((fun d => (d_pos d, d_val d)) <$> M) /\ ring_ok dp n f M.

Lemma dir_ok_frame s s' V :
  dir_ok s V -> f_pages s' !! dt = f_pages s !! dt -> f_dstore s' = f_dstore s -> f_table s' = f_table s ->
  alloc_ok (f_alloc s') -> a_next (f_alloc s) <= a_next (f_alloc s') -> dir_ok s' V.
Proof.
  intros (M & dp & f & bs & -> & E & R & NM & RO) Ep Ed Et Ha Hle. exists M, dp, f, bs. rewrite Ep. split; [done|].
  split; [done|]. split; [|done]. unfold dir_rep. rewrite Ed, Et. by eapply rep_grow.
Qed.

Definition set_value (v : Z) (e : entry) : option entry := Some (Entry (e_name e) (e_pos e) v).

(** What the name table says of a name, and a change of the address of a file. *)
Lemma dir_access s V a : dir_ok s V -> names a -> exists bs, dir_rep s bs /\
  match V !! a with
  | None => spec_lookup bs a = None
  | Some (v, blk) => exists p, spec_lookup bs a = Some (Entry a p v) /\
      forall s' v', f_pages s' !! dt = f_pages s !! dt -> dir_rep s' (spec_change bs a (set_value v')) ->
        dir_ok s' (<[a := (v', blk)]> V)
  end.
Proof.
  intros (M & dp & f & bs & -> & E & R & NM & RO) Ha. exists bs. split; [done|].
  pose proof (names_lookup names nb NO bs _ a NM Ha) as L. rewrite lookup_fmap in L |- *.
  destruct (M !! a) as [[p v blk]|] eqn:Em; [|done]. exists p. split; [done|]. intros s' v' Ep R'.
  exists (<[a := Dfile p v' blk]> M), dp, f, (spec_change bs a (set_value v')). rewrite Ep, !fmap_insert. do 3 (split; [done|]).
  split.
  - pose proof (names_change names nb NO bs _ a p v (set_value v') NM Ha) as C. rewrite lookup_fmap, Em in C. apply C; [done|].
    by intros e x [= <-].
  - destruct RO as [R1 R2 R3 R4].
    assert (Es : base.size (<[a := Dfile p v' blk]> M) = base.size M) by (apply map_size_insert_Some; eauto).
    assert (Lk : forall b x, <[a := Dfile p v' blk]> M !! b = Some x -> exists y, M !! b = Some y /\ d_pos y = d_pos x /\ d_blk y = d_blk x).
    { intros b x [[<- <-]|[Nb Hb]]%lookup_insert_Some; [by eexists|by exists x]. }
    split; rewrite ?Es; [done|..].
    + intros b x Hx. destruct (Lk b x Hx) as (y & Hy & <- & <-). by apply R2.
    + intros b c x y Hx Hy Exy. destruct (Lk b x Hx) as (x0 & Hx0 & Ex & _), (Lk c y Hy) as (y0 & Hy0 & Ey & _).
      apply (R3 b c x0 y0); [done..|congruence].
    + intros k Hk. destruct (R4 k Hk) as (b & y & Hb & Ey). destruct (decide (b = a)) as [->|Nb].
      * exists a. eexists. rewrite lookup_insert_eq. split; [done|]. rewrite Em in Hb. injection Hb as <-. done.
      * exists b, y. by rewrite lookup_insert_ne.
Qed.

(** The parts that creating a file needs, and the directory with the new file. *)
Lemma dir_extend s V a : dir_ok s V -> names a -> V !! a = None -> exists dp f bs,
  f_pages s !! dt = Some dp /\ dtable dp n f (Z.of_nat (base.size V)) /\ dir_rep s bs /\ spec_lookup bs a = None /\
  forall s' dp' pos v blk, f_pages s' !! dt = Some dp' -> dir_rep s' (spec_insert bs (Entry a pos v)) ->
    dtable dp' n f (Z.of_nat (base.size V) + 1) -> ~ in_use n f (Z.of_nat (base.size V)) pos ->
    in_use n f (Z.of_nat (base.size V) + 1) pos -> dentry_is dp' pos a blk ->
    (forall k, 0 <= k -> k <> pos -> same_dentry dp' k dp k) -> dir_ok s' (<[a := (v, blk)]> V).
Proof.
  intros (M & dp & f & bs & -> & E & R & NM & RO) Ha Ea. exists dp, f, bs. rewrite map_size_fmap.
  rewrite lookup_fmap in Ea. destruct (M !! a) as [|] eqn:Em; [done|].
  split; [done|]. split; [apply RO|]. split; [done|].
  split; [rewrite (names_lookup names nb NO bs _ a NM Ha), lookup_fmap; by rewrite Em|].
  intros s' dp' pos v blk E' R' D' Ni Iu De Sm.
  exists (<[a := Dfile pos v blk]> M), dp', f, (spec_insert bs (Entry a pos v)). rewrite !fmap_insert. do 3 (split; [done|]).
  split; [|by eapply table_insert; try done; apply (no_valid _ _ NO)].
  apply names_insert; [done..|]. by rewrite lookup_fmap, Em.
Qed.
End Directory.

(** ** Removing a file *)

Lemma bytes_of_cons c l k : 0 <= k -> bytes_of (c :: l) (k + 1) = bytes_of l k.
Proof. intros Hk. unfold bytes_of. replace (Z.to_nat (k + 1)) with (S (Z.to_nat k)) by lia. done. Qed.

Lemma strlen_name p b : forall fuel o,
  (forall k, 0 <= k <= Z.of_nat (length b) -> p_get p (o + k) mod 256 = bytes_of (b ++ [0]) k) ->
  Forall (fun c => 0 < c < 256) b -> 0 <= o -> o + Z.of_nat (length b) < p_size p -> (length b < fuel)%nat ->
  strlen_loop fuel p o = Some (Z.of_nat (length b)).
Proof.
  induction b as [|c b IH]; intros [|fuel] o H F Ho Hs Hf; cbn [length] in *; try lia; cbn [strlen_loop].
  - pose proof (H 0 ltac:(lia)) as H0. rewrite Z.add_0_r in H0. rewrite load_in by lia. cbn [mbind option_bind le_read].
    rewrite H0. done.
  - apply Forall_cons in F as [Hc F]. pose proof (H 0 ltac:(lia)) as H0. rewrite Z.add_0_r in H0.
    rewrite load_in by lia. cbn [mbind option_bind le_read]. rewrite H0.
    change (bytes_of ((c :: b) ++ [0]) 0) with c. rewrite (proj2 (Z.eqb_neq (c + 256 * 0) 0)) by lia. rewrite IH; [cbn [mbind option_bind]; f_equal; lia| |done|lia|lia|lia].
    intros k Hk. rewrite <- (bytes_of_cons c) by lia. rewrite <- H by lia. do 2 f_equal. lia.
Qed.

Lemma page_name_run s dt dp pos n b blk :
  f_pages s !! dt = Some dp -> dentry_at n <= p_size dp -> 0 <= pos < n -> valid_name b -> dentry_is dp pos b blk ->
  page_name dt (d_name pos) s = Some ((b ++ [0], Z.of_nat (length b)), s).
Proof.
  intros E Hs Hp [Hl Hv] [_ D]. unfold page_name. rewrite (bind_run _ _ _ _ _ (pg_run _ _ _ E)).
  assert (Hn : 0 <= d_name pos /\ d_name pos + 28 <= p_size dp) by (unfold d_name; dt_unfold; lia).
  unfold strlen. rewrite (strlen_name dp b) by (done || lia). rewrite (bind_run _ _ _ _ _ (lift_run _ _)).
  unfold page_bytes. rewrite in_page_true by lia. rewrite (bind_run _ _ _ _ _ (lift_run _ _)), ret_run. do 3 f_equal.
  apply list_eq. intros k. rewrite list_lookup_fmap. destruct (decide (k < S (length b))%nat) as [Hk|Hk].
  - rewrite lookup_seqZ_lt by lia. cbn [fmap option_fmap option_map].
    rewrite Z.add_0_l, D by lia. unfold bytes_of. rewrite Nat2Z.id.
    destruct (lookup_lt_is_Some_2 (b ++ [0]) k) as [c Ec]; [rewrite length_app; cbn; lia|]. by rewrite (nth_lookup_Some _ _ _ _ Ec), Ec.
  - rewrite lookup_seqZ_ge by lia. by rewrite lookup_ge_None_2 by (rewrite length_app; cbn; lia).
Qed.

(** The name, its entry and the place of the entry that moved. *)
Lemma dir_remove_run names nb dt n s V a nm len v blk :
  names_ok names nb -> dir_ok names nb dt n s V -> names a -> denotes nm len a -> V !! a = Some (v, blk) ->
  exists pos s1 res s2 moved dp' d t, hash_remove nm len 0 s = Some ((v, pos), s1) /\
    free_dentry dt pos s1 = Some (res, s2) /\
    (if res =? 0 then
       nl ← page_name dt (d_name pos); hash_update_dentrypos (fst nl) (snd nl) pos
     else mret 1) s2 = Some (moved, with_dir (with_pages s (<[dt := dp']> (f_pages s))) (f_alloc s) d t) /\ moved <> NULL /\
    (forall dp, f_pages s !! dt = Some dp -> same_head dp dp') /\
    dir_ok names nb dt n (with_dir (with_pages s (<[dt := dp']> (f_pages s))) (f_alloc s) d t) (delete a V).
Proof.
  intros NO (M & dp & f & bs & -> & E & R & NM & RO) Ha Dn Ev. rewrite lookup_fmap in Ev.
  destruct (M !! a) as [[p v0 blk0]|] eqn:Em; [|done]. injection Ev as -> ->.
  pose proof (hash_remove_rep _ _ _ _ nm len a 0 R Dn) as HR.
  rewrite (names_lookup names nb NO bs _ a NM Ha), lookup_fmap, Em in HR. cbn [fmap option_fmap option_map e_val e_pos fst snd] in HR.
  destruct HR as (d1 & t1 & E1 & R1).
  destruct (table_remove dp n f M a _ RO Em) as (dp' & E2 & Sm & C). cbn [d_pos] in E2, C.
  pose proof (names_change names nb NO bs _ a p v (fun _ => None) NM Ha ltac:(by rewrite lookup_fmap, Em) ltac:(done)) as NM1.
  change (partial_alter _ a _) with (delete a ((fun d => (d_pos d, d_val d)) <$> M)) in NM1. rewrite <- fmap_delete in NM1.
  set (s1 := with_dir s (f_alloc s) d1 t1). set (s2 := with_pages s1 (<[dt := dp']> (f_pages s1))).
  exists p, s1, (if p =? f then -1 else 0), s2.
  assert (F1 : free_dentry dt p s1 = Some (if p =? f then -1 else 0, s2)).
  { unfold free_dentry. rewrite (bind_run _ _ _ _ _ (pg_run dt s1 dp E)), E2. rewrite (bind_run _ _ _ _ _ (lift_run _ _)). done. }
  assert (Sh : forall x, f_pages s !! dt = Some x -> same_head x dp') by congruence.
  assert (F0 : hash_remove nm len 0 s = Some ((v, p), s1)) by (unfold hash_remove, act; by rewrite E1).
  destruct C as [(-> & RO')|(Nf & b & e & Nb & Eb & De & RO')].
  - rewrite Z.eqb_refl in *. exists 1, dp', d1, t1. do 5 (split; [done|]).
    exists (delete a M), dp', ((f + 1) mod n), (spec_change bs a (fun _ => None)). rewrite fmap_delete.
    split; [done|]. split; [apply lookup_insert_eq|]. done.
  - rewrite (proj2 (Z.eqb_neq p f) Nf) in *. destruct (ro_entry _ _ _ _ RO b e Eb) as (Vb & Ib & _).
    pose proof (dt_range _ _ _ _ (ro_table _ _ _ _ RO)) as (Hn & Hf & Hu).
    destruct (ro_entry _ _ _ _ RO a _ Em) as (_ & (i & Hi & Ei) & _). cbn [d_pos] in Ei.
    assert (Hp : 0 <= p < n) by (rewrite Ei; apply Z.mod_pos_bound; lia).
    assert (Db : denotes (b ++ [0]) (Z.of_nat (length b)) b) by (split; [done|]; split; [by exists [0]|done]).
    assert (Hb : names b).
    { destruct (proj2 (nm_map _ _ _ _ NM (Entry b (d_pos e) (d_val e)))) as (l & El & Hin); [cbn; by rewrite lookup_fmap, Eb|].
      by destruct (nm_bucket _ _ _ _ NM _ _ _ El Hin). }
    destruct (hash_update_pos_rep _ _ _ _ (b ++ [0]) _ b p R1 Db) as (q & d2 & E3 & Nq & R2).
    pose proof (names_lookup names nb NO _ _ b NM1 Hb) as Lb. rewrite lookup_fmap, lookup_delete_ne, Eb in Lb by done.
    pose proof (names_change names nb NO _ _ b (d_pos e) (d_val e) (fun x => Some (Entry (e_name x) p (e_val x))) NM1 Hb) as NM2.
    rewrite lookup_fmap, lookup_delete_ne, Eb in NM2 by done. specialize (NM2 eq_refl ltac:(by intros ? ? [= <-])).
    exists q, dp', d2, t1. do 2 (split; [done|]). split; [|split; [intros Eq; apply Nq in Eq; by rewrite Lb in Eq|split; [done|]]].
    + change (0 =? 0) with true. cbn iota. erewrite bind_run; [|eapply page_name_run; [apply lookup_insert_eq|..]; try done].
      2: apply (dt_room _ _ _ _ (ro_table _ _ _ _ RO')).
      cbn [fst snd]. unfold hash_update_dentrypos, act. cbn [f_dstore f_table s2 s1 with_pages with_dir]. by rewrite E3.
    + exists (<[b := Dfile p (d_val e) (d_blk e)]> (delete a M)), dp', ((f + 1) mod n).
      eexists. split; [|split; [apply lookup_insert_eq|split; [exact R2|split; [|exact RO']]]].
      * rewrite fmap_insert, fmap_delete. cbn [d_val d_blk]. rewrite insert_id; [done|].
        rewrite lookup_delete_ne by done. by rewrite lookup_fmap, Eb.
      * rewrite fmap_insert. exact NM2.
Qed.
