(* ===== verification/FileClient.v ===== *)
(** * FileClient: programs that use files (userfs)

    A client of userfs calls the operations of userfs_file_ops.c one after the other, as
    main of userfs/test_init.c does, and keeps the buffers that creating and opening
    return.  The specification of the calls is a map from names to contents; FileSys
    shows that they behave as this map says. *)
From S2P Require Import Prelude Atomic KList Bitmap MrHeap DentryHash Fs BlockBuf FileCtrl FsInit FileOps FileRw FilePersist FileCreate.
Local Open Scope Z_scope.

(** ** Files *)

(** What a client sees of a file: how often it is open, its size, its bytes. *)
Record afile := Afile { a_refs : Z; a_size : Z; a_bytes : Z -> Z }.

(** A name as a C string. *)
Definition cname (a : list Z) : list Z := a ++ [0].

(** ** Clients *)

Inductive op :=
  | OCreate (a : list Z)
  | OOpen (a : list Z)
  | OClose (a : list Z)
  | ODelete (a : list Z)
  | OWrite (a : list Z) (off : Z) (buf : list Z)
  | ORead (a : list Z) (off k : Z).

Inductive res :=
  | RBuffer (null : bool)
  | RStatus (z : Z)
  | RData (k : Z) (bytes : list Z).

(** The buffers of the files that the client has created or opened, and the file system. *)
Record client := Client { c_bufs : gmap (list Z) Z; c_fs : fs }.

(** One call, at time [tv]; the client has mounted the super block [sb] and the
    directory buffer [db], and uses shards of [shard] bytes. *)
Definition exec (sb db shard : Z) (fuel : nat) (tv : Z) (o : op) (c : client) : option (res * client) :=
  let s := c_fs c in
  let len (a : list Z) := Z.of_nat (length a) in
  let keep (a : list Z) (r : Z * fs) :=
    Some (RBuffer (fst r =? NULL), Client (if fst r =? NULL then c_bufs c else <[a := fst r]> (c_bufs c)) (snd r)) in
  match o with
  | OCreate a => r ← userfs_file_create (cname a) (len a) shard sb db (Some tv) s; keep a r
  | OOpen a => r ← userfs_file_open (cname a) (len a) shard sb (Some tv) s; keep a r
  | OClose a => r ← userfs_file_close (cname a) (len a) sb (Some tv) s; Some (RStatus (fst r), Client (c_bufs c) (snd r))
  | ODelete a =>
      b ← f_bbufs s !! db;
      r ← userfs_file_delete fuel (cname a) (len a) sb (b_data b) (Some tv) s;
      Some (RStatus (fst r), Client (c_bufs c) (snd r))
  | OWrite a off buf =>
      ib ← c_bufs c !! a;
      r ← userfs_file_write buf off (len buf) shard ib sb (Some tv) s;
      Some (RStatus (fst r), Client (c_bufs c) (snd r))
  | ORead a off k =>
      ib ← c_bufs c !! a;
      r ← userfs_file_read off k shard ib sb (Some tv) s;
      Some (RData (fst (fst r)) (snd (fst r)), Client (c_bufs c) (snd r))
  end.

Fixpoint exec_all (sb db shard : Z) (fuel : nat) (os : list (Z * op)) (c : client) : option (list res * client) :=
  match os with
  | [] => Some ([], c)
  | (tv, o) :: os =>
      r ← exec sb db shard fuel tv o c;
      rs ← exec_all sb db shard fuel os (snd r);
      Some (fst r :: fst rs, snd rs)
  end.

(** ** The specification *)

(** The bytes of a buffer from [off] on. *)
Definition write_data (off : Z) (buf : list Z) (d : afile) : afile :=
  let k := Z.of_nat (length buf) in
  Afile (a_refs d) (Z.max (a_size d) (off + k)) (fun x => if (off <=? x) && (x <? off + k) then bytes_of buf (x - off) else a_bytes d x).

Definition read_data (off k : Z) (d : afile) : list Z := (fun i => a_bytes d (off + i)) <$> seqZ 0 k.

Abbreviation afs := (gmap (list Z) afile).

Definition set_refs (r : Z) (f : afile) : afile := Afile r (a_size f) (a_bytes f).

(** What a call does to the files. *)
Definition post (A : afs) (o : op) (r : res) (A' : afs) : Prop :=
  match o with
  | OCreate a => r = RBuffer false /\ exists c, A' = <[a := Afile 1 0 c]> A
  | OOpen a =>
      match A !! a with
      | None => r = RBuffer true /\ A' = A
      | Some f => r = RBuffer false /\ A' = <[a := set_refs (a_refs f + 1) f]> A
      end
  | OClose a =>
      match A !! a with
      | None => r = RStatus (-1) /\ A' = A
      | Some f => if a_refs f =? 0 then r = RStatus (-1) /\ A' = A
                  else r = RStatus 0 /\ A' = <[a := set_refs (a_refs f - 1) f]> A
      end
  | ODelete a =>
      match A !! a with
      | None => r = RStatus (-1) /\ A' = A
      | Some _ => r = RStatus 0 /\ A' = delete a A
      end
  | OWrite a off buf => exists f, A !! a = Some f /\ r = RStatus (Z.of_nat (length buf)) /\ A' = <[a := write_data off buf f]> A
  | ORead a off k => exists f, A !! a = Some f /\ r = RData k (read_data off k f) /\ A' = A
  end.

Inductive behaves : afs -> list (Z * op) -> list res -> afs -> Prop :=
  | behaves_nil A : behaves A [] [] A
  | behaves_cons A tv o os r rs A1 A2 : post A o r A1 -> behaves A1 os rs A2 -> behaves A ((tv, o) :: os) (r :: rs) A2.

(** When a call is covered: names come from [names], a name is created once, [n] is the
    size of the directory, writes stay in the shard and reads in the file. *)
Definition pre (names : list Z -> Prop) (n shard : Z) (A : afs) (o : op) : Prop :=
  match o with
  | OCreate a => names a /\ A !! a = None /\ Z.of_nat (base.size A) < n
  | OOpen a => names a /\ forall f, A !! a = Some f -> a_refs f < 2147483647
  | OClose a | ODelete a => names a
  | OWrite a off buf => (exists f, A !! a = Some f /\ 0 < a_refs f) /\ 0 <= off /\ 0 < Z.of_nat (length buf) /\
      off + USERFS_INODE_SIZE + Z.of_nat (length buf) <= shard /\ is_bytes buf
  | ORead a off k => exists f, A !! a = Some f /\ 0 < a_refs f /\ 0 <= off /\ 0 < k /\ off + k <= a_size f
  end.

Fixpoint safe (names : list Z -> Prop) (n shard : Z) (A : afs) (os : list (Z * op)) : Prop :=
  match os with
  | [] => True
  | (_, o) :: os => pre names n shard A o /\ forall r A', post A o r A' -> safe names n shard A' os
  end.

(** The memory and the blocks of a call. *)
Definition op_memory (shard : Z) (o : op) : Z :=
  match o with
  | OCreate _ => create_memory shard
  | OOpen _ => dbbuf_memory shard
  | ODelete _ => dbbuf_memory USERFS_PAGE_SIZE
  | _ => 0
  end.
Definition op_blocks (o : op) : Z := match o with OCreate _ => 1 | _ => 0 end.

Fixpoint script_memory (shard : Z) (os : list (Z * op)) : Z :=
  match os with [] => 0 | (_, o) :: os => op_memory shard o + script_memory shard os end.
Fixpoint script_blocks (os : list (Z * op)) : Z :=
  match os with [] => 0 | (_, o) :: os => op_blocks o + script_blocks os end.

Lemma script_memory_nonneg shard os : 0 <= shard -> 0 <= script_memory shard os.
Proof.
  intros Hs. induction os as [|[tv o] os IH]; cbn [script_memory]; [lia|].
  assert (0 <= op_memory shard o); [|lia].
  destruct o; cbn [op_memory]; unfold create_memory, dbbuf_memory, sizeof_bbuf, sizeof_hlist, USERFS_PAGE_SIZE; lia.
Qed.

Lemma script_blocks_nonneg os : 0 <= script_blocks os.
Proof. induction os as [|[tv o] os IH]; cbn [script_blocks]; [lia|]. destruct o; cbn [op_blocks]; lia. Qed.

(** ** What is not covered: creating a name again *)

(** A directory of four places, none of them in use. *)
Definition four_places : page := Page 4096 (le_write 4 (fun _ => 0) dfd_dentry_count 4).
Definition small_fs : fs := with_pages create_fs (<[2048 := four_places]> (f_pages create_fs)).

(** The first entry and the number of entries in use, the name at a place, and the place
    that the name table has for a name. *)
Definition dir_view (s : fs) (pos : Z) (a : list Z) : option (Z * Z * list Z * Z) :=
  p ← f_pages s !! 2048;
  nm ← page_bytes p (d_name pos) 3;
  '(_, place) ← userfs_dentry_hash_get (f_dstore s) (Some (f_table s)) (cname a) (Z.of_nat (length a)) 99;
  Some (le_read 4 (p_get p) dfd_first_dentry, le_read 4 (p_get p) dfd_used_dentry_count, nm, place).

(** userfs_file_create frees the entry it took when the name exists; userfs_free_dentry
    then moves the first entry of the directory, and its new place is not stored in the
    name table.  With the files a1 and b2, creating a1 again and deleting it leaves one
    entry in the directory, at place 2: that of a1.  The entry of b2, at place 0, is not
    in use any more; b2 is lost when the directory is read again. *)
Theorem create_again_loses_file :
  option_map (fun rc => (fst rc, dir_view (c_fs (snd rc)) 2 [98; 50]))
    (exec_all 256 80 2048 2 [(1, OCreate [97; 49]); (2, OCreate [98; 50]); (3, OCreate [97; 49]); (4, ODelete [97; 49])] (Client ∅ small_fs)) =
  Some ([RBuffer false; RBuffer false; RBuffer true; RStatus 0], Some (2, 1, [97; 49; 0], 0)).
Proof. by vm_compute. Qed.
