(* ===== verification/FileSys.v ===== *)
(** * FileSys: the files of userfs as a map from names to contents

    The state of a mounted file system as a map of files: every file is closed, with
    its inode and its bytes in its block on the disk, or open, with them in a buffer.
    Every operation of userfs_file_ops.c changes the state as its specification changes
    the map; files are at most one shard long, the part in which userfs_file_write and
    userfs_file_read address a block correctly. *)
From S2P Require Import Prelude Atomic KList Bitmap MrHeap DentryHash Fs BlockBuf FileCtrl FsInit FileOps FileRw FilePersist FileCreate FileDir FileClient.
Local Open Scope Z_scope.

(** ** Writing to a small file *)

(** A write to the first shard of a small file leaves a small file. *)
Lemma write_small s sb ib inode P bsize shard blk off n buf tv :
  small_file s sb ib inode P bsize shard blk -> in_shard off n shard bsize -> off + USERFS_INODE_SIZE + n <= shard ->
  n <= Z.of_nat (length buf) ->
  exists P1 m, userfs_file_write buf off n shard ib sb (Some tv) s = Some (n, with_pages s m) /\
    small_file (with_pages s m) sb ib inode P1 bsize shard blk /\
    le_read 4 (p_get P1) i_ref_count = le_read 4 (p_get P) i_ref_count /\
    le_read 4 (p_get P1) i_size = Z.max (le_read 4 (p_get P) i_size) (off + n) /\
    (forall k, 0 <= k < n -> p_get P1 (off + USERFS_INODE_SIZE + k) = bytes_of buf k mod 256) /\
    (forall x, USERFS_INODE_SIZE <= x -> x < off + USERFS_INODE_SIZE \/ off + USERFS_INODE_SIZE + n <= x -> p_get P1 x = p_get P x) /\
    (forall x, x <> inode -> m !! x = f_pages s !! x).
Proof.
  intros SF F Hfit Hl. pose proof SF as [SO Sf (ty & Eb) Ha En Sp Sh Sb Sk Sz].
  destruct (first_shard off n shard bsize F Hfit ltac:(apply Sh)) as (Ev & Eio & T0).
  destruct (small_file_block _ _ _ _ _ _ _ _ SF) as (tb & OB & Ed). pose proof OB as [B1 B2 B3 B4 B5 B6 B7 B8].
  rewrite <- Ev in B1, OB. set (v := (off + USERFS_INODE_SIZE) / bsize) in *.
  assert (G : userfs_file_write_off_get v (v2p P v) (shard_off off shard bsize) shard inode sb s = Some (ib, s)).
  { destruct (inodeaddr_tag USERFS_NAME2INODEBUF ib) as [Ty Ad]; [lia|by right|].
    unfold userfs_file_write_off_get. rewrite B1, Ad, Ty. zdec.
    change (USERFS_NAME2INODEBUF =? USERFS_NAME2INODE) with false. by apply (open_block_head s ib tb). }
  assert (Hc : clear_of_inode tb inode ((off + USERFS_INODE_SIZE) mod shard)).
  { intros _. rewrite Eio. pose proof (is_off _ _ _ _ F). lia. }
  pose proof (write_through s s sb ib inode P P bsize shard off n buf tv ib tb P SO F T0 Hl G ltac:(unfold NULL; lia)
    B3 B6 B8 (op_inode _ _ _ _ _ _ SO) (op_room _ _ _ _ _ _ SO)) as W.
  pose proof (write_post s sb ib inode P P bsize shard off n buf tv ib tb (v2p P v) SO F T0 B3 B4 B5 B6 B8 B7 Hc B2 (or_intror B1)) as WP.
  cbn zeta in W, WP. rewrite Ed, Z.eqb_refl, Eio in W, WP. cbn [inode_page] in W, WP.
  set (P2 := inode_written _ _ _ _ _ _) in *. set (m := <[inode := P2]> _) in *.
  destruct WP as (q & O2 & OB2 & In & Out & Sz2 & _). pose proof (ob_page _ _ _ _ _ _ _ _ OB2) as Eq.
  rewrite Ed, (op_inode _ _ _ _ _ _ O2) in Eq. injection Eq as <-.
  exists P2, m. split; [done|]. pose proof F as [F1 _ F3 F4 F5 F6 F7]. pose proof (ob_entry _ _ _ _ _ _ _ _ OB2) as En2. fold v in En2. rewrite Ev in En2.
  split; [split; try done|split; [|split; [done|split; [done|split]]]].
  - destruct Sf as (sq & Es & Hf). exists sq. split; [|done]. cbn [f_pages with_pages]. unfold m.
    by rewrite !lookup_insert_ne by (intros E; by apply (op_sep _ _ _ _ _ _ SO)).
  - by exists ty.
  - rewrite Sz2. unfold USERFS_INODE_SIZE in *. lia.
  - unfold P2. rewrite inode_written_refs by done. apply le_read_ext. intros x Hx. cbn [p_get buf_written].
    rewrite copy_outside; [done|]. unfold i_ref_count, USERFS_INODE_SIZE in *. lia.
  - intros x Hx Ho. apply Out; [done|]. by intros _.
  - intros x Hx. unfold m. by rewrite !lookup_insert_ne by done.
Qed.


(** ** The files *)

(** A file of the file system: its first block, and the buffer and the page of its inode
    when it is open. *)
Record ufile := Ufile { uf_blk : Z; uf_buf : option (Z * Z); uf_data : afile }.

(** The address of a file in the name table. *)
Definition uf_val (f : ufile) : Z :=
  match uf_buf f with
  | Some (ib, _) => USERFS_INODEADDRINFO_CAL USERFS_NAME2INODEBUF ib
  | None => USERFS_INODEADDRINFO_CAL USERFS_NAME2INODE (uf_blk f)
  end.

(** The sum of [f] over [l]. *)
Fixpoint zsum (f : Z -> Z) (l : list Z) : Z := match l with [] => 0 | x :: l => f x + zsum f l end.

Lemma zsum_bump f l g : NoDup l -> g ∈ l -> zsum (fun x => if x =? g then f g + 1 else f x) l = zsum f l + 1.
Proof.
  assert (Out : forall l, g ∉ l -> zsum (fun x => if x =? g then f g + 1 else f x) l = zsum f l).
  { clear l. induction l as [|x l IH]; intros H; [done|]. apply not_elem_of_cons in H as [Nx Hl]. cbn [zsum].
    rewrite (proj2 (Z.eqb_neq x g)) by congruence. by rewrite IH. }
  induction l as [|x l IH]; intros ND Hin; [by apply elem_of_nil in Hin|]. apply NoDup_cons in ND as [Nx ND]. cbn [zsum].
  apply elem_of_cons in Hin as [->|Hin]; [rewrite Z.eqb_refl, Out by done; lia|].
  destruct (Z.eqb_spec x g) as [->|]; [done|]. rewrite IH by done. lia.
Qed.

Lemma zsum_free f l k : zsum f l < k * Z.of_nat (length l) -> exists x, x ∈ l /\ f x < k.
Proof.
  induction l as [|x l IH]; cbn [zsum length]; intros H; [lia|].
  destruct (Z.lt_ge_cases (f x) k); [exists x; split; [by left|done]|].
  destruct IH as (y & Hy & Hl); [lia|]. exists y. split; [by right|done].
Qed.

Lemma zsum_const f l k : (forall x, x ∈ l -> f x = k) -> zsum f l = k * Z.of_nat (length l).
Proof.
  induction l as [|x l IH]; intros H; [cbn; lia|]. cbn [zsum length]. rewrite (H x) by (by left).
  rewrite IH by (intros y Hy; apply H; by right). lia.
Qed.

Section System.
Context (names : list Z -> Prop) (nb : Z) (G : geometry) (pas : list Z) (sb db dt n bsize shard : Z) (s0 : fs).

Definition groups : list Z := seqZ 0 (g_count G).
Definition block_at (blk : Z) : Z := (blk + 1) * bsize.

(** The size and the bytes of a file whose inode is at [off]. *)
Definition holds_file (g : content) (off : Z) (f : afile) : Prop :=
  le_read 4 g (off + i_size) = a_size f /\
  forall x, 0 <= x < shard - USERFS_INODE_SIZE -> g (off + USERFS_INODE_SIZE + x) mod 256 = a_bytes f x.

(** A closed file is on the disk, an open one in its buffer. *)
Definition file_ok (s : fs) (f : ufile) : Prop :=
  0 <= uf_blk f < 4294967295 /\ 0 <= a_size (uf_data f) <= shard - USERFS_INODE_SIZE /\
  match uf_buf f with
  | None => a_refs (uf_data f) = 0 /\ block_at (uf_blk f) + shard <= d_len (f_disk s) /\
      holds_file (d_bytes (f_disk s)) (block_at (uf_blk f)) (uf_data f) /\
      le_read 4 (d_bytes (f_disk s)) (block_at (uf_blk f) + i_ref_count) = 0
  | Some (ib, inode) => 0 < a_refs (uf_data f) < 2147483648 /\ (inode ∉ dt :: sb :: pas) /\
      exists P, small_file s sb ib inode P bsize shard (uf_blk f) /\
        le_read 4 (p_get P) i_ref_count = a_refs (uf_data f) /\ holds_file (p_get P) 0 (uf_data f)
  end.

(** The super block has what the file operations read. *)
Definition super_ok (s : fs) : Prop := exists sq, f_pages s !! sb = Some sq /\ 92 <= p_size sq /\
  le_read 4 (p_get sq) s_first_datablock = 1 /\ le_read 4 (p_get sq) s_data_block_size = bsize.

(** The metablocks stay in their buffers, with their headers. *)
Record sys_kept (s s' : fs) : Prop := {
  sk_meta : meta_kept s s' sb pas;
  sk_dentry : forall q, f_pages s !! dt = Some q -> exists q', f_pages s' !! dt = Some q' /\ same_head q q';
  sk_bufs : forall x b, f_bbufs s !! x = Some b -> b_data b ∈ dt :: sb :: pas -> f_bbufs s' !! x = Some b }.

Lemma sys_kept_trans s s' s'' : sys_kept s s' -> sys_kept s' s'' -> sys_kept s s''.
Proof.
  intros [[K1 K2] K3 K4] [[L1 L2] L3 L4]. split; [split|..].
  - intros q E. destruct (K1 q E) as (q1 & E1 & Z1 & H1). destruct (L1 q1 E1) as (q2 & E2 & Z2 & H2). exists q2.
    split; [done|]. split; [congruence|]. intros x Hx. rewrite H2 by done. by apply H1.
  - intros pa q Hp E. destruct (K2 pa q Hp E) as (q1 & E1 & H1). destruct (L2 pa q1 Hp E1) as (q2 & E2 & H2). exists q2.
    split; [done|]. by apply (same_head_trans q q1).
  - intros q E. destruct (K3 q E) as (q1 & E1 & H1). destruct (L3 q1 E1) as (q2 & E2 & H2). exists q2.
    split; [done|]. by apply (same_head_trans q q1).
  - auto.
Qed.

(** The pages of the metablocks are the same. *)
Lemma sys_kept_pages s s' :
  (forall x, x ∈ dt :: sb :: pas -> f_pages s' !! x = f_pages s !! x) ->
  (forall x b, f_bbufs s !! x = Some b -> b_data b ∈ dt :: sb :: pas -> f_bbufs s' !! x = Some b) -> sys_kept s s'.
Proof.
  intros P B. split; [split|..]; [..|done].
  - intros q E. exists q. rewrite P; [done|]. right. by left.
  - intros pa q Hp E. exists q. rewrite P; [done|]. right. by right.
  - intros q E. exists q. rewrite P; [done|]. by left.
Qed.

(** The state [s] holds the files [F], with [used] blocks of the disk in use and memory
    for [K] more bytes; [s0] is the state behind the mount. *)
Record sys_ok (s : fs) (F : gmap (list Z) ufile) (used K : Z) : Prop := {
  so_mem : mem_ok s;
  so_dfree : fl_head (f_dfree s) = NULL;
  so_io : d_io (f_disk s) = [];
  so_room : room (f_alloc s) K;
  so_super : super_ok s;
  so_dentry : exists b, f_bbufs s !! db = Some b /\ b_data b = dt;
  so_apart : dt ∉ sb :: pas;
  so_groups : exists taken, groups_ok s sb G pas taken /\ used = zsum taken groups /\
    (forall a f, F !! a = Some f -> allocated G taken (uf_blk f));
  so_dir : dir_ok names nb dt n s ((fun f => (uf_val f, uf_blk f)) <$> F);
  so_file : forall a f, F !! a = Some f -> file_ok s f;
  so_blk : forall a b f g, F !! a = Some f -> F !! b = Some g -> uf_blk f = uf_blk g -> a = b;
  so_buf : forall a b f g i j p, F !! a = Some f -> F !! b = Some g ->
    uf_buf f = Some (i, p) -> uf_buf g = Some (j, p) -> a = b;
  so_kept : sys_kept s0 s }.

Lemma small_file_frame s s' ib inode P blk :
  small_file s sb ib inode P bsize shard blk -> super_ok s' ->
  f_bbufs s' !! ib = f_bbufs s !! ib -> f_pages s' !! inode = f_pages s !! inode ->
  small_file s' sb ib inode P bsize shard blk.
Proof.
  intros [[_ O2 O3 O4 O5] S2 (ty & Eb) S4 S5 S6 S7 S8 S9 S10] (sq & Es & Rs & Hf & Hb) Ei Ep.
  split; try done; [split; try done| |].
  - by exists sq.
  - by rewrite Ei.
  - by rewrite Ep.
  - by exists sq.
  - exists ty. by rewrite Ei.
Qed.

(** A file whose buffer, page and block are kept. *)
Lemma file_ok_frame s s' f :
  file_ok s f -> super_ok s' ->
  (forall ib inode, uf_buf f = Some (ib, inode) -> f_bbufs s' !! ib = f_bbufs s !! ib /\ f_pages s' !! inode = f_pages s !! inode) ->
  (uf_buf f = None -> d_len (f_disk s) <= d_len (f_disk s') /\ agree (d_bytes (f_disk s')) (d_bytes (f_disk s)) (block_at (uf_blk f)) shard) ->
  file_ok s' f.
Proof.
  intros (Hb & Hz & H) Su Kb Kd. split; [done|]. split; [done|]. destruct (uf_buf f) as [[ib inode]|].
  - destruct (Kb _ _ eq_refl) as [E1 E2]. destruct H as (H1 & H2 & P & SF & H3). split; [done|]. split; [done|]. exists P.
    split; [|done]. by apply (small_file_frame s).
  - destruct (Kd eq_refl) as [Hl Ag]. destruct H as (H1 & H2 & (H3 & H4) & H5). unfold USERFS_INODE_SIZE, i_size, i_ref_count in *.
    split; [done|]. split; [lia|]. split; [split|].
    + rewrite <- H3. apply le_read_ext. intros x Hx. apply Ag. lia.
    + intros x Hx. rewrite <- H4 by done. unfold USERFS_INODE_SIZE in Hx |- *. apply Ag. lia.
    + rewrite <- H5. apply le_read_ext. intros x Hx. apply Ag. lia.
Qed.

Context (NO : names_ok names nb) (Sh : USERFS_PAGE_SIZE <= shard <= bsize) (Sb : bsize <= 67108864) (Sd : (shard | bsize)).

Lemma file_page s f ib inode : file_ok s f -> uf_buf f = Some (ib, inode) ->
  (inode ∉ dt :: sb :: pas) /\ exists P ty, small_file s sb ib inode P bsize shard (uf_blk f) /\
    f_pages s !! inode = Some P /\ f_bbufs s !! ib = Some (Bbuf 0 1 ty (uf_blk f) 0 shard inode).
Proof.
  intros (_ & _ & H) E. rewrite E in H. destruct H as (_ & H & P & SF & _). split; [done|].
  destruct (sf_buf _ _ _ _ _ _ _ _ SF) as [ty Eb]. exists P, ty. split; [done|]. split; [|done]. apply SF.
Qed.

Lemma system_page s F used K x : sys_ok s F used K -> x ∈ dt :: sb :: pas -> is_Some (f_pages s !! x).
Proof.
  intros SO [->|Hx]%elem_of_cons.
  - destruct (so_dir _ _ _ _ SO) as (M & dp & f & bs & _ & E & _). by rewrite E.
  - destruct (so_groups _ _ _ _ SO) as (taken & GO & _). by eapply groups_pages.
Qed.

(** The other blocks of the disk are kept. *)
Definition disk_kept (d d' : disk) (blk : Z) : Prop :=
  d_io d' = [] /\ d_len d <= d_len d' /\
  forall x, x < block_at blk \/ block_at blk + shard <= x -> d_bytes d' x = d_bytes d x.

Lemma disk_kept_refl d blk : d_io d = [] -> disk_kept d d blk.
Proof. by split. Qed.

Lemma blocks_apart blk blk' x : blk <> blk' -> block_at blk <= x < block_at blk + shard ->
  x < block_at blk' \/ block_at blk' + shard <= x.
Proof. unfold block_at, USERFS_PAGE_SIZE in *. intros N Hx. destruct (Z.lt_ge_cases blk blk'); [left|right]; nia. Qed.

(** The file [a] changes from [f] to [f']; buffers are only added, and of the pages only
    that of the inode changes. *)
Lemma sys_change s s' F used K K' a f f' :
  sys_ok s F used K -> F !! a = Some f -> uf_blk f' = uf_blk f ->
  mem_ok s' -> fl_head (f_dfree s') = NULL -> room (f_alloc s') K' -> f_elems s' = f_elems s -> f_bgi s' = f_bgi s ->
  (forall x b, f_bbufs s !! x = Some b -> f_bbufs s' !! x = Some b) ->
  (forall x, is_Some (f_pages s !! x) -> (forall i, uf_buf f <> Some (i, x)) -> f_pages s' !! x = f_pages s !! x) ->
  disk_kept (f_disk s) (f_disk s') (uf_blk f) ->
  dir_ok names nb dt n s' (<[a := (uf_val f', uf_blk f)]> ((fun f => (uf_val f, uf_blk f)) <$> F)) ->
  (super_ok s' -> file_ok s' f') ->
  (forall i p, uf_buf f' = Some (i, p) -> uf_buf f = Some (i, p) \/ f_pages s !! p = None) ->
  sys_ok s' (<[a := f']> F) used K'.
Proof.
  intros SO Ea Eb M D R Ee Ei Kb Kp (Io & Dl & Dk) Dir Fo Nb.
  assert (Sys : forall x, x ∈ dt :: sb :: pas -> f_pages s' !! x = f_pages s !! x).
  { intros x Hx. apply Kp; [by eapply system_page|]. intros i E. by destruct (file_page s f i x (so_file _ _ _ _ SO a f Ea) E). }
  assert (Su : super_ok s').
  { destruct (so_super _ _ _ _ SO) as (sq & E & H). exists sq. rewrite Sys; [done|right; by left]. }
  assert (Other : forall b g, F !! b = Some g -> a <> b -> file_ok s' g).
  { intros b g Hb Nab. apply (file_ok_frame s); [by apply (so_file _ _ _ _ SO b)|done|..].
    - intros i p Eg. destruct (file_page s g i p (so_file _ _ _ _ SO b g Hb) Eg) as (_ & P & ty & _ & Ep & Ebb).
      split; [rewrite Ebb; by apply Kb|]. apply Kp; [eauto|]. intros j Ef. apply Nab. by apply (so_buf _ _ _ _ SO a b f g j i p).
    - intros _. split; [done|]. intros x Hx. rewrite Dk; [done|]. apply (blocks_apart (uf_blk g)); [|done].
      intros E. apply Nab. by apply (so_blk _ _ _ _ SO a b f g). }
  destruct SO as [S1 S2 S3 S4 S5 S6 S7 S8 S9 S10 S11 S12 S13]. split; try done.
  - destruct S6 as (b & Hb & Hd). exists b. split; [by apply Kb|done].
  - destruct S8 as (taken & GO & U & Al). exists taken. split; [|split; [done|]].
    + apply (groups_ok_frame s); [done..| |intros x Hx; apply Sys; by right]. intros x b Hx. exists b. split; [by apply Kb|done].
    + intros b g [[<- <-]|[Nb' Hb]]%lookup_insert_Some; [rewrite Eb|]; by eapply Al.
  - rewrite fmap_insert. by rewrite Eb.
  - intros b g [[<- <-]|[Nb' Hb]]%lookup_insert_Some; [by apply Fo|by eapply Other].
  - intros b c g h [[<- <-]|[Nb' Hb]]%lookup_insert_Some [[<- <-]|[Nc Hc]]%lookup_insert_Some; rewrite ?Eb; [done|..];
      [by apply (S11 a c f h)|by apply (S11 b a g f)|by apply S11].
  - assert (Fresh : forall b g i j p, F !! b = Some g -> a <> b -> uf_buf f' = Some (i, p) -> uf_buf g = Some (j, p) -> False).
    { intros b g i j p Hb Nab E1 E2. destruct (Nb i p E1) as [E|E]; [apply Nab; by apply (S12 a b f g i j p)|].
      destruct (file_page s g j p (S10 b g Hb) E2) as (_ & P & ty & _ & Ep & _). congruence. }
    intros b c g h i j p [[<- <-]|[Nb' Hb]]%lookup_insert_Some [[<- <-]|[Nc Hc]]%lookup_insert_Some E1 E2; [done|..].
    + by destruct (Fresh c h i j p).
    + by destruct (Fresh b g j i p).
    + by apply (S12 b c g h i j p).
  - apply (sys_kept_trans s0 s); [done|]. apply sys_kept_pages; [done|]. intros x b Hx _. by apply Kb.
Qed.

(** ** Writing and reading *)

(** Only the page of the inode of an open file changes. *)
Lemma sys_touch s F used K a f ib inode P data m :
  sys_ok s F used K -> F !! a = Some f -> uf_buf f = Some (ib, inode) ->
  (forall x, x <> inode -> m !! x = f_pages s !! x) ->
  0 <= a_size data <= shard - USERFS_INODE_SIZE -> 0 < a_refs data < 2147483648 ->
  small_file (with_pages s m) sb ib inode P bsize shard (uf_blk f) ->
  le_read 4 (p_get P) i_ref_count = a_refs data -> holds_file (p_get P) 0 data ->
  sys_ok (with_pages s m) (<[a := Ufile (uf_blk f) (uf_buf f) data]> F) used K.
Proof.
  intros SO Ea Ef Km Hz Hr SF Rc Hh. pose proof (so_file _ _ _ _ SO a f Ea) as FO.
  destruct (file_page s f ib inode FO Ef) as (Ni & Q & ty & _ & EQ & _). destruct FO as (Hb & _).
  assert (Hd : dt <> inode) by (intros ->; apply Ni; by left).
  apply (sys_change s _ F used K K a f); try done; try apply SO.
  - destruct (so_mem _ _ _ _ SO) as [N1 N2 N3 N4 N5]. split; try done. intros x Hx. cbn [f_pages with_pages].
    rewrite Km; [by apply N3|]. intros ->. by rewrite N3 in EQ.
  - intros x _ Hx. apply Km. intros ->. by apply (Hx ib).
  - apply disk_kept_refl, SO.
  - rewrite insert_id; [|by rewrite lookup_fmap, Ea].
    eapply dir_ok_frame; [apply SO|..]; try done; [by apply Km|apply (so_mem _ _ _ _ SO)].
  - intros _. split; [done|]. split; [done|]. cbn [uf_buf uf_data uf_blk]. rewrite Ef. split; [done|]. split; [done|]. by exists P.
  - intros i p E. by left.
Qed.

Lemma sys_in_shard off k : 0 <= off -> 0 < k -> off + USERFS_INODE_SIZE + k <= shard -> in_shard off k shard bsize.
Proof.
  unfold USERFS_PAGE_SIZE, USERFS_INODE_SIZE in *. intros Ho Hk Hf.
  split; try done; unfold UINT32_MAX, USERFS_INODE_SIZE; try lia. rewrite Z.mod_small by lia. lia.
Qed.


Lemma sys_write s F used K a f ib inode off buf tv :
  let k := Z.of_nat (length buf) in
  sys_ok s F used K -> F !! a = Some f -> uf_buf f = Some (ib, inode) ->
  0 <= off -> 0 < k -> off + USERFS_INODE_SIZE + k <= shard -> is_bytes buf ->
  exists s', userfs_file_write buf off k shard ib sb (Some tv) s = Some (k, s') /\
    sys_ok s' (<[a := Ufile (uf_blk f) (uf_buf f) (write_data off buf (uf_data f))]> F) used K.
Proof.
  intros k SO Ea Ef Ho Hk Hfit Hb. destruct (so_file _ _ _ _ SO a f Ea) as (_ & Hz & FO). rewrite Ef in FO.
  destruct FO as (Hr & Ni & P & SF & Rc & Hs & Hc).
  destruct (write_small s sb ib inode P bsize shard (uf_blk f) off k buf tv SF (sys_in_shard off k Ho Hk Hfit) Hfit ltac:(lia))
    as (P1 & m & E & SF1 & Rc1 & Sz1 & In & Out & Km).
  eexists. split; [exact E|]. eapply sys_touch; try done; cbn [write_data a_size a_refs]; fold k; [lia|congruence|].
  unfold write_data. fold k. split; cbn [a_size a_bytes]; [rewrite Z.add_0_l, Sz1; rewrite Z.add_0_l in Hs; by rewrite Hs|].
  intros x Hx. rewrite Z.add_0_l. destruct (Z.leb_spec off x), (Z.ltb_spec x (off + k)); cbn [andb].
  2-4: rewrite <- Hc, Z.add_0_l by done; rewrite Out by lia; done.
  replace (USERFS_INODE_SIZE + x) with (off + USERFS_INODE_SIZE + (x - off)) by lia. rewrite In by lia.
  rewrite Z.mod_mod by lia. apply Z.mod_small. unfold bytes_of.
  destruct (lookup_lt_is_Some_2 buf (Z.to_nat (x - off))) as [c Ec]; [lia|]. rewrite (nth_lookup_Some _ _ _ _ Ec).
  exact (Forall_lookup_1 _ _ _ _ Hb Ec).
Qed.

(** A change of an open file's inode that keeps what the operations rely on. *)
Lemma small_file_page s ib inode P P' blk :
  small_file s sb ib inode P bsize shard blk -> p_size P' = p_size P -> v2p P' 0 = v2p P 0 ->
  le_read 4 (p_get P') i_size = le_read 4 (p_get P) i_size ->
  small_file (with_pages s (<[inode := P']> (f_pages s))) sb ib inode P' bsize shard blk.
Proof.
  intros [[O1 O2 O3 O4 O5] S2 S3 S4 S5 S6 S7 S8 S9 S10] Hs Hv Hz.
  assert (Keep : forall x, f_pages s !! sb = Some x -> f_pages (with_pages s (<[inode := P']> (f_pages s))) !! sb = Some x).
  { intros x Hx. cbn [f_pages with_pages]. by rewrite lookup_insert_ne. }
  split; [split| |done|done|congruence|congruence|done|done|done|by rewrite Hz].
  - destruct O1 as (sq & Es & H). exists sq. split; [by apply Keep|done].
  - done.
  - apply lookup_insert_eq.
  - by rewrite Hs.
  - done.
  - destruct S2 as (sq & Es & H). exists sq. split; [by apply Keep|done].
Qed.

Lemma holds_file_ext g g' off d : holds_file g off d -> le_read 4 g' (off + i_size) = le_read 4 g (off + i_size) ->
  (forall x, USERFS_INODE_SIZE <= x < shard -> g' (off + x) mod 256 = g (off + x) mod 256) -> holds_file g' off d.
Proof.
  intros [H1 H2] E X. split; [congruence|]. intros x Hx. rewrite <- H2 by done. rewrite <- !Z.add_assoc. apply X. lia.
Qed.

Lemma sys_read s F used K a f ib inode off k tv :
  sys_ok s F used K -> F !! a = Some f -> uf_buf f = Some (ib, inode) ->
  0 <= off -> 0 < k -> off + k <= a_size (uf_data f) ->
  exists s', userfs_file_read off k shard ib sb (Some tv) s = Some ((k, read_data off k (uf_data f)), s') /\ sys_ok s' F used K.
Proof.
  intros SO Ea Ef Ho Hk Hfit. destruct (so_file _ _ _ _ SO a f Ea) as (_ & Hz & FO). rewrite Ef in FO.
  destruct FO as (Hr & Ni & P & SF & Rc & Hh). pose proof Hh as [Hs Hc]. rewrite Z.add_0_l in Hs.
  pose proof (sys_in_shard off k Ho Hk ltac:(lia)) as F1.
  destruct (first_shard off k shard bsize F1 ltac:(lia) ltac:(apply Sh)) as (E0 & Eio & T0).
  destruct (small_file_block _ _ _ _ _ _ _ _ SF) as (tb & OB & _). rewrite <- E0 in OB.
  eexists. split.
  - rewrite (read_open _ _ _ _ _ _ _ _ _ tv _ _ _ (sf_open _ _ _ _ _ _ _ _ SF) F1 T0 OB) by lia. rewrite Eio.
    do 3 f_equal. apply list_fmap_ext. intros j x Hx. apply lookup_seqZ in Hx as [-> Hj]. rewrite <- Hc by lia. do 2 f_equal. lia.
  - rewrite <- (insert_id F a (Ufile (uf_blk f) (uf_buf f) (uf_data f))) by (by destruct f).
    set (P' := Page _ _). assert (R : forall j o, 8 <= o -> le_read j (p_get P') o = le_read j (p_get P) o).
    { intros j o Hj. unfold P', i_atime. cbn [p_get]. apply le_read_write_disjoint. lia. }
    apply (sys_touch s F used K a f ib inode P'); try done.
    + intros x Hx. by rewrite lookup_insert_ne by done.
    + apply (small_file_page s ib inode P); try done; apply R; done.
    + apply (holds_file_ext (p_get P)); [done|by apply R|]. intros x Hx. unfold P', i_atime. cbn [p_get].
      rewrite le_write_outside; [done|]. unfold USERFS_INODE_SIZE in Hx. lia.
Qed.

(** ** Opening *)

Lemma denotes_cname a : names a -> denotes (cname a) (Z.of_nat (length a)) a.
Proof. intros Ha. split; [by apply (no_valid _ _ NO)|]. split; [by exists [0]|done]. Qed.

Lemma name_short a : names a -> (USERFS_MAX_FILE_NAME_LEN <? Z.of_nat (length a)) = false.
Proof. intros Ha. apply Z.ltb_ge. by destruct (no_valid _ _ NO a Ha). Qed.

(** What the name table says of a file. *)
Lemma sys_lookup s F used K a : sys_ok s F used K -> names a -> exists bs, dir_rep s bs /\
  match F !! a with
  | None => spec_lookup bs a = None
  | Some f => exists p, spec_lookup bs a = Some (Entry a p (uf_val f)) /\
      forall s' v', f_pages s' !! dt = f_pages s !! dt -> dir_rep s' (spec_change bs a (set_value v')) ->
        dir_ok names nb dt n s' (<[a := (v', uf_blk f)]> ((fun f => (uf_val f, uf_blk f)) <$> F))
  end.
Proof.
  intros SO Ha. destruct (dir_access names nb NO dt n s _ a (so_dir _ _ _ _ SO) Ha) as (bs & R & H). exists bs. split; [done|].
  rewrite lookup_fmap in H. by destruct (F !! a).
Qed.

(** Memory for a buffer is enough for the two calls of malloc. *)
Lemma room_dbbuf a k : 0 <= k -> room a (dbbuf_memory k) ->
  ~ (fst (malloc a sizeof_bbuf) = NULL \/ fst (malloc (snd (malloc a sizeof_bbuf)) k) = NULL).
Proof.
  intros Hk R [C|C]; revert C; unfold dbbuf_memory in R.
  - apply room_not_null; [|done]. eapply room_weaken; [done|lia].
  - apply room_not_null; [|lia]. apply (spends_malloc a sizeof_bbuf ltac:(done)); [lia|]. eapply room_weaken; [done|lia].
Qed.

Lemma sys_open_closed s F used K a f tv :
  sys_ok s F used (dbbuf_memory shard + K) -> 0 <= K -> names a -> F !! a = Some f -> uf_buf f = None ->
  exists r s' inode, userfs_file_open (cname a) (Z.of_nat (length a)) shard sb (Some tv) s = Some (r, s') /\ r <> NULL /\
    sys_ok s' (<[a := Ufile (uf_blk f) (Some (r, inode)) (Afile 1 (a_size (uf_data f)) (a_bytes (uf_data f)))]> F) used K.
Proof.
  intros SO HK Ha Ea Ef. destruct (sys_lookup _ _ _ _ a SO Ha) as (bs & R & L). rewrite Ea in L.
  destruct L as (p & L & Dir). destruct (so_file _ _ _ _ SO a f Ea) as (Hb & Hz & FO). rewrite Ef in FO.
  destruct FO as (_ & Hl & Hh & Rc). destruct (so_super _ _ _ _ SO) as (sq & Es & Rs & Hf & Bs).
  pose proof (so_mem _ _ _ _ SO) as M. unfold USERFS_PAGE_SIZE in Sh. assert (Sh' : USERFS_INODE_SIZE <= shard <= bsize) by (unfold USERFS_INODE_SIZE; lia).
  assert (Ev : e_val (Entry a p (uf_val f)) = USERFS_INODEADDRINFO_CAL USERFS_NAME2INODE (uf_blk f)) by (unfold uf_val; cbn; by rewrite Ef).
  destruct (open_run s sb sq bsize shard (uf_blk f) bs (cname a) _ a _ tv M (so_dfree _ _ _ _ SO) (so_io _ _ _ _ SO) Es Rs Hf Bs Sh' Sb Hb Hl R
    (denotes_cname a Ha) L Ev) as (r & s' & E & [(_ & C)|(Nr & inode & Q & O)]).
  { exfalso. revert C. apply room_dbbuf; [lia|]. eapply room_weaken; [apply SO|lia]. }
  exists r, s', inode. split; [done|]. split; [done|].
  destruct (od_bbufs _ _ _ _ _ _ _ _ _ _ O) as [ty Eb]. pose proof (od_pages _ _ _ _ _ _ _ _ _ _ O) as Ep.
  destruct (od_new _ _ _ _ _ _ _ _ _ _ O) as [Nb' Np']. destruct Hh as [Hs Hc].
  assert (Kp : forall x, is_Some (f_pages s !! x) -> x <> inode) by (intros x [y Hx] ->; by rewrite (mo_pages _ M) in Hx).
  assert (Rm : room (f_alloc s') K) by (apply (proj2 (od_spends _ _ _ _ _ _ _ _ _ _ O)); [done|apply SO]).
  apply (sys_change s s' F used (dbbuf_memory shard + K) K a f); try done; try apply O.
  - rewrite (od_dfree _ _ _ _ _ _ _ _ _ _ O). apply SO.
  - intros x b Hx. rewrite Eb, lookup_insert_ne; [done|]. intros <-. by rewrite (mo_bbufs _ M) in Hx.
  - intros x Hx _. rewrite Ep, lookup_insert_ne; [done|]. by apply not_eq_sym, Kp.
  - rewrite (od_disk _ _ _ _ _ _ _ _ _ _ O). apply disk_kept_refl, SO.
  - apply Dir; [|apply O]. rewrite Ep, lookup_insert_ne; [done|]. apply not_eq_sym, Kp. eapply system_page; [done|by left].
  - intros _. split; [done|]. split; [done|]. cbn [uf_buf uf_data uf_blk a_refs a_size a_bytes]. split; [lia|].
    split; [intros Hin; by apply (Kp inode); [eapply system_page|]|]. exists Q.
    pose proof (od_isize _ _ _ _ _ _ _ _ _ _ O) as Ez. fold (block_at (uf_blk f)) in Ez. rewrite Hs in Ez.
    split; [|split; [|split]].
    + eapply small_file_opened; try done. rewrite Ez. unfold USERFS_INODE_SIZE in *. lia.
    + rewrite (od_refs _ _ _ _ _ _ _ _ _ _ O). fold (block_at (uf_blk f)). by rewrite Rc.
    + done.
    + intros x Hx. cbn [a_bytes]. rewrite <- Hc by done. rewrite (od_bytes _ _ _ _ _ _ _ _ _ _ O) by lia.
      rewrite Z.mod_mod by lia. do 2 f_equal. unfold block_at. lia.
  - intros i x [= <- <-]. right. apply (mo_pages _ M). done.
Qed.

(** The inode of an open file with another number of references. *)
Lemma sys_count s F used K a f ib inode P m P' rc :
  sys_ok s F used K -> F !! a = Some f -> uf_buf f = Some (ib, inode) -> 0 < rc < 2147483648 ->
  small_file s sb ib inode P bsize shard (uf_blk f) -> holds_file (p_get P) 0 (uf_data f) ->
  m = <[inode := P']> (f_pages s) -> p_size P' = p_size P -> le_read 4 (p_get P') i_ref_count = rc ->
  (forall j o, 8 <= o -> o + Z.of_nat j <= i_ref_count \/ i_ref_count + 4 <= o -> le_read j (p_get P') o = le_read j (p_get P) o) ->
  (forall x, USERFS_INODE_SIZE <= x -> p_get P' x = p_get P x) ->
  sys_ok (with_pages s m) (<[a := Ufile (uf_blk f) (uf_buf f) (Afile rc (a_size (uf_data f)) (a_bytes (uf_data f)))]> F) used K.
Proof.
  intros SO Ea Ef Hr SF Hh -> Hs Rc R Hx. destruct (so_file _ _ _ _ SO a f Ea) as (_ & Hz & _).
  assert (Ez : le_read 4 (p_get P') i_size = le_read 4 (p_get P) i_size) by (apply R; unfold i_size, i_ref_count; lia).
  apply (sys_touch s F used K a f ib inode P'); try done.
  - intros x Nx. by rewrite lookup_insert_ne by done.
  - apply (small_file_page s ib inode P); try done. unfold v2p. apply R; unfold i_v2pnode_table, i_ref_count; lia.
  - apply (holds_file_ext (p_get P)); [exact Hh|exact Ez|]. intros x H. rewrite Z.add_0_l. by rewrite Hx by lia.
Qed.

(** The tag of the address of an open file. *)
Lemma open_val s f ib inode : file_ok s f -> uf_buf f = Some (ib, inode) ->
  USERFS_INODETYPE_GET (uf_val f) = USERFS_NAME2INODEBUF /\ USERFS_INODEADDR_GET (uf_val f) = ib /\ uf_val f <> UINT32_MAX.
Proof.
  intros FO Ef. destruct (file_page s f ib inode FO Ef) as (_ & P & ty & SF & _). pose proof (sf_addr _ _ _ _ _ _ _ _ SF) as Ha.
  unfold uf_val. rewrite Ef. destruct (inodeaddr_tag USERFS_NAME2INODEBUF ib) as [Ty Ad]; [lia|by right|]. split; [done|]. split; [done|].
  rewrite inodeaddr_value by (try (by right); lia). unfold USERFS_NAME2INODEBUF, UINT32_MAX. lia.
Qed.

Lemma closed_val s f : file_ok s f -> uf_buf f = None ->
  USERFS_INODETYPE_GET (uf_val f) = USERFS_NAME2INODE /\ USERFS_INODEADDR_GET (uf_val f) = uf_blk f /\ uf_val f <> UINT32_MAX.
Proof.
  intros (Hb & _) Ef. unfold uf_val. rewrite Ef.
  destruct (inodeaddr_tag USERFS_NAME2INODE (uf_blk f)) as [Ty Ad]; [lia|by left|]. split; [done|]. split; [done|].
  rewrite inodeaddr_value by (try (by left); lia). unfold USERFS_NAME2INODE, UINT32_MAX. lia.
Qed.

(** Opening a file that is open counts one reference more. *)
Lemma sys_open_more s F used K a f ib inode tv :
  sys_ok s F used K -> names a -> F !! a = Some f -> uf_buf f = Some (ib, inode) -> a_refs (uf_data f) < 2147483647 ->
  exists s', userfs_file_open (cname a) (Z.of_nat (length a)) shard sb (Some tv) s = Some (ib, s') /\
    sys_ok s' (<[a := Ufile (uf_blk f) (uf_buf f) (Afile (a_refs (uf_data f) + 1) (a_size (uf_data f)) (a_bytes (uf_data f)))]> F) used K.
Proof.
  intros SO Ha Ea Ef Hr. destruct (sys_lookup _ _ _ _ a SO Ha) as (bs & R & L). rewrite Ea in L. destruct L as (p & L & _).
  pose proof (so_file _ _ _ _ SO a f Ea) as FO. destruct (open_val s f ib inode FO Ef) as (Ty & Ad & Nu).
  destruct (file_page s f ib inode FO Ef) as (_ & _ & ty & _ & _ & Eb). destruct FO as (_ & Hz & FO). rewrite Ef in FO.
  destruct FO as (Hrf & Ni & P & SF & Rc & Hh). pose proof (op_inode _ _ _ _ _ _ (sf_open _ _ _ _ _ _ _ _ SF)) as EP.
  pose proof (op_room _ _ _ _ _ _ (sf_open _ _ _ _ _ _ _ _ SF)) as RP.
  unfold userfs_file_open. rewrite (name_short a Ha).
  rewrite (bind_run _ _ _ _ _ (hash_get_run s bs _ _ a 0 R (denotes_cname a Ha))). rewrite L. cbn [fst e_val].
  rewrite (proj2 (Z.eqb_neq _ _) Nu), Ty, Ad. change (USERFS_NAME2INODEBUF =? USERFS_NAME2INODE) with false. cbn iota.
  rewrite (bind_run _ _ _ _ _ (bb_run ib s _ Eb)). cbn [b_data].
  rewrite (run_at _ s inode P EP). erewrite bind_run; [|by apply ref_count_add_at]. cbn zeta. rewrite Rc, i32_small by lia.
  unfold atomic_add. rewrite i32_small by lia.
  erewrite bind_run; [|apply st_at; unfold i_atime, USERFS_INODE_SIZE in *; cbn [p_size]; lia]. rewrite ret_run.
  eexists. split; [done|]. eapply (sys_count s F used K a f ib inode P); try done; try lia; cbn [p_get p_size].
  - unfold i_ref_count, i_atime. rewrite le_read_write_disjoint, le_read_write_same by lia. apply Z.mod_small. cbn. lia.
  - intros j o Ho Hd. unfold i_ref_count, i_atime in *. by rewrite !le_read_write_disjoint by lia.
  - intros x Hx. unfold i_ref_count, i_atime, USERFS_INODE_SIZE in *. by rewrite !le_write_outside by lia.
Qed.

(** A name that is not in the directory. *)
Lemma sys_open_missing s F used K a tv : sys_ok s F used K -> names a -> F !! a = None ->
  userfs_file_open (cname a) (Z.of_nat (length a)) shard sb (Some tv) s = Some (NULL, s).
Proof.
  intros SO Ha Ea. destruct (sys_lookup _ _ _ _ a SO Ha) as (bs & R & L). rewrite Ea in L.
  unfold userfs_file_open. rewrite (name_short a Ha).
  rewrite (bind_run _ _ _ _ _ (hash_get_run s bs _ _ a 0 R (denotes_cname a Ha))). rewrite L. done.
Qed.

(** ** Closing *)

(** Closing one of several references. *)
Lemma sys_close_more s F used K a f ib inode tv :
  sys_ok s F used K -> names a -> F !! a = Some f -> uf_buf f = Some (ib, inode) -> 1 < a_refs (uf_data f) ->
  exists s', userfs_file_close (cname a) (Z.of_nat (length a)) sb (Some tv) s = Some (0, s') /\
    sys_ok s' (<[a := Ufile (uf_blk f) (uf_buf f) (Afile (a_refs (uf_data f) - 1) (a_size (uf_data f)) (a_bytes (uf_data f)))]> F) used K.
Proof.
  intros SO Ha Ea Ef Hr. destruct (sys_lookup _ _ _ _ a SO Ha) as (bs & R & L). rewrite Ea in L. destruct L as (p & L & _).
  pose proof (so_file _ _ _ _ SO a f Ea) as FO. destruct (open_val s f ib inode FO Ef) as (Ty & Ad & Nu).
  destruct (file_page s f ib inode FO Ef) as (_ & _ & ty & _ & _ & Eb). destruct FO as (_ & Hz & FO). rewrite Ef in FO.
  destruct FO as (Hrf & Ni & P & SF & Rc & Hh). pose proof (op_inode _ _ _ _ _ _ (sf_open _ _ _ _ _ _ _ _ SF)) as EP.
  pose proof (op_room _ _ _ _ _ _ (sf_open _ _ _ _ _ _ _ _ SF)) as RP.
  unfold userfs_file_close. rewrite (name_short a Ha).
  rewrite (bind_run _ _ _ _ _ (hash_get_run s bs _ _ a 0 R (denotes_cname a Ha))). rewrite L. cbn [fst e_val].
  rewrite (proj2 (Z.eqb_neq _ _) Nu), Ty, Ad. change (USERFS_NAME2INODEBUF =? USERFS_NAME2INODE) with false. cbn iota.
  rewrite (bind_run _ _ _ _ _ (bb_run ib s _ Eb)). cbn [b_data].
  rewrite (run_at _ s inode P EP). erewrite bind_run; [|by apply ref_count_add_at]. cbn zeta. rewrite Rc, i32_small by lia.
  unfold atomic_add. rewrite i32_small by lia. rewrite (proj2 (Z.ltb_lt 0 _)) by lia. rewrite ret_run.
  eexists. split; [done|]. eapply (sys_count s F used K a f ib inode P); try done; try lia; cbn [p_get p_size].
  - rewrite le_read_write_same. apply Z.mod_small. cbn. lia.
  - intros j o Ho Hd. unfold i_ref_count in *. by rewrite !le_read_write_disjoint by lia.
  - intros x Hx. unfold i_ref_count, USERFS_INODE_SIZE in *. by rewrite !le_write_outside by lia.
Qed.

(** The disk after [userfs_file_close] has written the first shard of a block. *)
Lemma close_disk d blk P : d_io d = [] -> 0 <= blk < 4294967295 -> p_size P = shard ->
  let d' := snd (pwrite d (p_get P) shard (block_at blk)) in
  disk_kept d d' blk /\ block_at blk + shard <= d_len d' /\
  forall x, 0 <= x < shard -> d_bytes d' (block_at blk + x) mod 256 = p_get P x mod 256.
Proof.
  intros Hio Hb Hs. unfold USERFS_PAGE_SIZE in Sh. assert (0 <= block_at blk <= 4294967296 * 67108864) by (unfold block_at; nia).
  unfold pwrite, io_limit. rewrite Hio. zdec. cbn [snd d_io d_len d_bytes]. split; [split; [done|]; split; cbn [d_len d_bytes]; [lia|]|split; [lia|]].
  - intros x Hx. by apply copy_outside.
  - intros x Hx. rewrite copy_inside by lia. rewrite Z.mod_mod by lia. do 2 f_equal. lia.
Qed.

(** Closing the last reference puts the file on the disk. *)
Lemma sys_close_last s F used K a f ib inode tv :
  sys_ok s F used K -> names a -> F !! a = Some f -> uf_buf f = Some (ib, inode) -> a_refs (uf_data f) = 1 ->
  exists s', userfs_file_close (cname a) (Z.of_nat (length a)) sb (Some tv) s = Some (0, s') /\
    sys_ok s' (<[a := Ufile (uf_blk f) None (Afile 0 (a_size (uf_data f)) (a_bytes (uf_data f)))]> F) used K.
Proof.
  intros SO Ha Ea Ef Hr. destruct (sys_lookup _ _ _ _ a SO Ha) as (bs & R & L). rewrite Ea in L. destruct L as (p & L & Dir).
  pose proof (so_file _ _ _ _ SO a f Ea) as (Hb & Hz & FO). rewrite Ef in FO.
  destruct FO as (_ & Ni & P & SF & Rc & [Hs Hc]). pose proof (op_inode _ _ _ _ _ _ (sf_open _ _ _ _ _ _ _ _ SF)) as EP.
  destruct (close_run s sb ib inode P bsize shard (uf_blk f) bs (cname a) _ a _ tv SF ltac:(by rewrite Rc, Hr) R (denotes_cname a Ha) L)
    as (d & blocks & E & R' & _); [by unfold uf_val; cbn; rewrite Ef|apply SO|]. fold (block_at (uf_blk f)) in E.
  destruct (closed_inode_spec P blocks (uf_blk f)) as (C1 & C2 & C3). set (P1 := closed_inode P blocks (uf_blk f)) in *.
  destruct (close_disk (f_disk s) (uf_blk f) P1 (so_io _ _ _ _ SO) Hb (sf_page _ _ _ _ _ _ _ _ SF)) as (Dk & Dl & Db).
  set (d' := snd (pwrite _ _ _ _)) in *. eexists. split; [exact E|].
  assert (Ndt : dt <> inode) by (intros ->; apply Ni; by left).
  assert (Rd : forall j o, 0 <= o -> o + Z.of_nat j <= shard -> le_read j (d_bytes d') (block_at (uf_blk f) + o) = le_read j (p_get P1) o).
  { intros j o Ho Hj. apply le_read_agree. intros i Hi. rewrite <- Z.add_assoc. apply Db. lia. }
  unfold USERFS_PAGE_SIZE in Sh. eapply (sys_change s _ F used K K a f); try done; try apply SO.
  - destruct (so_mem _ _ _ _ SO) as [N1 N2 N3 N4 N5]. split; try done. intros x Hx. cbn [f_pages with_disk with_pages].
    rewrite lookup_insert_ne; [by apply N3|]. intros <-. by rewrite N3 in EP.
  - intros x _ Hx. cbn [f_pages with_disk with_pages]. rewrite lookup_insert_ne; [done|]. intros <-. by apply (Hx ib).
  - apply Dir; [|exact R']. cbn [f_pages with_disk with_pages]. by rewrite lookup_insert_ne by done.
  - intros _. split; [done|]. split; [done|]. cbn [uf_buf uf_data uf_blk a_refs a_size a_bytes f_disk with_disk]. split; [done|].
    split; [done|]. split; [split|].
    + rewrite Rd by (unfold i_size; lia). by rewrite C1.
    + intros x Hx. cbn [a_bytes]. rewrite <- Hc by done. rewrite <- Z.add_assoc. unfold USERFS_INODE_SIZE in Hx |- *. rewrite Db by lia.
      rewrite C3 by (unfold USERFS_INODE_SIZE; lia). done.
    + rewrite Rd by (unfold i_ref_count; lia). done.
Qed.

(** A file that is not open. *)
Lemma sys_close_closed s F used K a tv : sys_ok s F used K -> names a ->
  (forall f, F !! a = Some f -> uf_buf f = None) ->
  userfs_file_close (cname a) (Z.of_nat (length a)) sb (Some tv) s = Some (-1, s).
Proof.
  intros SO Ha Hn. destruct (sys_lookup _ _ _ _ a SO Ha) as (bs & R & L). unfold userfs_file_close. rewrite (name_short a Ha).
  rewrite (bind_run _ _ _ _ _ (hash_get_run s bs _ _ a 0 R (denotes_cname a Ha))). destruct (F !! a) as [f|] eqn:Ea; [|by rewrite L].
  destruct L as (p & L & _). rewrite L. cbn [fst e_val].
  destruct (closed_val s f (so_file _ _ _ _ SO a f Ea) (Hn f eq_refl)) as (Ty & _ & Nu).
  rewrite (proj2 (Z.eqb_neq _ _) Nu), Ty. done.
Qed.

(** ** Creating *)

Context (Hc : 0 < g_count G).

(** With fewer blocks in use than can be taken some group has a free one. *)
Lemma groups_free taken : zsum taken groups < g_count G * g_limit G -> exists g, 0 <= g < g_count G /\ taken g < g_limit G.
Proof.
  intros H. destruct (zsum_free taken groups (g_limit G)) as (g & Hg & Ht).
  - unfold groups in *. rewrite length_seqZ, Z2Nat.id by lia. lia.
  - apply elem_of_seqZ in Hg. exists g. split; [lia|done].
Qed.

Lemma groups_may_take taken : zsum taken groups < g_count G * g_limit G -> may_take G taken.
Proof.
  intros H. destruct (groups_free taken H) as (g & Hg & Ht). unfold may_take, g_limit in *.
  destruct (g_clean G); [by left|]. right. exists g. split; [done|lia].
Qed.

(** A new file with a new block, buffer and page. *)
Lemma sys_add s s' F used K a f taken g :
  sys_ok s F used K -> F !! a = None -> groups_ok s sb G pas taken -> used = zsum taken groups ->
  (forall b h, F !! b = Some h -> allocated G taken (uf_blk h)) ->
  created_from s s' sb G pas taken dt (match uf_buf f with Some (r, _) => r | None => 0 end)
    (match uf_buf f with Some (_, p) => p | None => 0 end) g ->
  uf_buf f <> None -> uf_blk f = g * g_blocks G + taken g -> mem_ok s' -> fl_head (f_dfree s') = NULL ->
  dir_ok names nb dt n s' (<[a := (uf_val f, uf_blk f)]> ((fun f => (uf_val f, uf_blk f)) <$> F)) ->
  file_ok s' f -> (forall q, f_pages s !! dt = Some q -> exists q', f_pages s' !! dt = Some q' /\ same_head q q') ->
  forall K', room (f_alloc s') K' -> sys_ok s' (<[a := f]> F) (used + 1) K'.
Proof.
  intros SO Ea GO Us Al [[Hg Ht] GO' [Nr Np] Kb Kp Ksb Kd] Nf Eb M' D' Dir FO Dh K' Rm.
  destruct (uf_buf f) as [[r inode]|] eqn:Ef; [clear Nf|done]. pose proof (so_mem _ _ _ _ SO) as M.
  assert (Mx : forall g', 0 <= g' < g_count G -> taken g' <= g_blocks G).
  { destruct (top_group s sb G pas taken GO Hc) as (_ & top & e & _ & _ & _ & _ & H & HL). intros g' Hg'. specialize (H g' Hg'). lia. }
  destruct (allocated_take s sb G pas taken g GO Hg Ht Mx) as [Na Al'].
  assert (Su : super_ok s').
  { destruct (so_super _ _ _ _ SO) as (sq & Es & Rs & Hf & Hb). destruct (mk_super _ _ _ _ Ksb sq Es) as (sq' & Es' & H).
    exists sq'. rewrite (proj1 H). rewrite !(same_super_read _ _ _ H) by (unfold s_first_datablock, s_data_block_size, s_free_data_block_count, mb_union; lia). done. }
  assert (Fresh : forall b h i p, F !! b = Some h -> uf_buf h = Some (i, p) -> p <> inode).
  { intros b h i p Hb Eh ->. destruct (file_page s h i inode (so_file _ _ _ _ SO b h Hb) Eh) as (_ & P & ty & _ & Ep & _).
    by rewrite (mo_pages _ M) in Ep. }
  split; try done.
  - rewrite Kd. apply SO.
  - destruct (so_dentry _ _ _ _ SO) as (b & Hb & Hd). exists b. rewrite Kb by eauto. done.
  - apply (so_apart _ _ _ _ SO).
  - eexists. split; [exact GO'|]. split.
    + rewrite Us. symmetry. apply zsum_bump; [apply NoDup_seqZ|]. apply elem_of_seqZ. lia.
    + intros b h [[<- <-]|[Nb Hb]]%lookup_insert_Some; apply Al'; [by right|left; by eapply Al].
  - rewrite fmap_insert. exact Dir.
  - intros b h [[<- <-]|[Nb Hb]]%lookup_insert_Some; [done|]. apply (file_ok_frame s); [by apply (so_file _ _ _ _ SO b)|done|..].
    + intros i p Eh. destruct (file_page s h i p (so_file _ _ _ _ SO b h Hb) Eh) as (Ni & P & ty & _ & Ep & Ebb).
      split; [apply Kb; eauto|apply Kp; eauto].
    + intros _. by rewrite Kd.
  - intros b c h h' [[<- <-]|[Nb Hb]]%lookup_insert_Some [[<- <-]|[Nc Hc']]%lookup_insert_Some E; [done|..].
    + destruct Na. rewrite <- Eb, E. by eapply Al.
    + destruct Na. rewrite <- Eb, <- E. by eapply Al.
    + by apply (so_blk _ _ _ _ SO b c h h').
  - intros b c h h' i j p [[<- <-]|[Nb Hb]]%lookup_insert_Some [[<- <-]|[Nc Hc']]%lookup_insert_Some E1 E2; [done|..].
    + rewrite Ef in E1. injection E1 as <- <-. by destruct (Fresh c h' j inode).
    + rewrite Ef in E2. injection E2 as <- <-. by destruct (Fresh b h i inode).
    + by apply (so_buf _ _ _ _ SO b c h h' i j p).
  - apply (sys_kept_trans s0 s); [apply SO|]. split; [done|done|]. intros x b Hx _. rewrite Kb by eauto. done.
Qed.

Lemma sys_create s F used K a tv :
  sys_ok s F used (create_memory shard + K) -> 0 <= K -> names a -> F !! a = None ->
  Z.of_nat (base.size F) < n -> used < g_count G * g_limit G ->
  exists r s' inode blk c, userfs_file_create (cname a) (Z.of_nat (length a)) shard sb db (Some tv) s = Some (r, s') /\ r <> NULL /\
    sys_ok s' (<[a := Ufile blk (Some (r, inode)) (Afile 1 0 c)]> F) (used + 1) K.
Proof.
  intros SO HK Ha Ea Hn Hu. destruct (so_groups _ _ _ _ SO) as (taken & GO & Us & Al).
  destruct (so_super _ _ _ _ SO) as (sq & Es & Rs & Hf & Bs). destruct (so_dentry _ _ _ _ SO) as (b & Eb & Ed).
  destruct (dir_extend names nb NO dt n s _ a (so_dir _ _ _ _ SO) Ha ltac:(by rewrite lookup_fmap, Ea)) as (dp & fi & bs & Edp & D & R & L & Dir).
  rewrite map_size_fmap in D, Dir. unfold USERFS_PAGE_SIZE in Sh.
  assert (Sh' : USERFS_INODE_SIZE <= shard <= bsize) by (unfold USERFS_INODE_SIZE; lia).
  destruct (file_create_run s sb G pas taken bsize shard db b dt dp n fi _ (cname a) a [] bs tv GO (so_mem _ _ _ _ SO) (so_dfree _ _ _ _ SO) Hc
    ltac:(apply groups_may_take; lia) ltac:(by exists sq) Sh' Sb Eb Ed (so_apart _ _ _ _ SO) Edp D R eq_refl (no_valid _ _ NO a Ha)) as (r & s' & E & C).
  destruct C as [(Nr & (inode & g & FC & CF) & M' & D' & Sp)|(_ & C)]; cycle 1.
  { exfalso. destruct C as [C|[C|[C|C]]]; [lia|done| |].
    - destruct (groups_free taken ltac:(lia)) as (g & Hg & Ht). pose proof (g_limit_le G). specialize (C g Hg). lia.
    - apply C. eapply room_weaken; [apply SO|lia]. }
  destruct FC as (P & dp' & pos & _ & SF & Sz & Rc & _ & R' & _ & Edp' & D1 & Ni & Iu & De & Sm & Dh).
  exists r, s', inode, (g * g_blocks G + taken g), (fun x => p_get P (USERFS_INODE_SIZE + x) mod 256). split; [done|]. split; [done|].
  eapply (sys_add s s' F used _ a _ taken g SO Ea GO Us Al); try done.
  - apply (Dir s' dp' pos); try done.
  - split; [apply (sf_blk _ _ _ _ _ _ _ _ SF)|]. cbn [uf_buf uf_data uf_blk a_refs a_size]. split; [unfold USERFS_INODE_SIZE; lia|].
    split; [lia|]. split; [|exists P; split; [done|]; split; [done|]; split; [done|]; intros x Hx; by rewrite Z.add_0_l].
    intros Hin. destruct (system_page _ _ _ _ inode SO Hin) as [y Hy]. destruct (cf_new _ _ _ _ _ _ _ _ _ _ CF) as [_ Np].
    by rewrite (mo_pages _ (so_mem _ _ _ _ SO)) in Hy.
  - intros q Eq. exists dp'. split; [done|]. congruence.
  - apply (proj2 Sp); [done|apply SO].
Qed.

(** ** Deleting *)

(** The pages of the file system and of the open files. *)
Definition owned (F : gmap (list Z) ufile) (x : Z) : Prop :=
  x ∈ dt :: sb :: pas \/ exists a f i, F !! a = Some f /\ uf_buf f = Some (i, x).

(** Buffers and pages that no file has come and go. *)
Lemma sys_frame s s' F F' used K K' :
  sys_ok s F used K -> F' ⊆ F -> mem_ok s' -> fl_head (f_dfree s') = NULL -> f_disk s' = f_disk s -> room (f_alloc s') K' ->
  f_elems s' = f_elems s -> f_bgi s' = f_bgi s ->
  (forall x b, f_bbufs s !! x = Some b -> owned F' (b_data b) -> f_bbufs s' !! x = Some b) ->
  (forall x, x <> dt -> owned F' x -> f_pages s' !! x = f_pages s !! x) ->
  (forall q, f_pages s !! dt = Some q -> exists q', f_pages s' !! dt = Some q' /\ same_head q q') ->
  dir_ok names nb dt n s' ((fun f => (uf_val f, uf_blk f)) <$> F') ->
  sys_ok s' F' used K'.
Proof.
  intros SO Sub M' D' Kd Rm Ee Ei Kb Kp Dh Dir. destruct SO as [S1 S2 S3 S4 S5 S6 S7 S8 S9 S10 S11 S12 S13].
  assert (Sys : forall x, x ∈ sb :: pas -> f_pages s' !! x = f_pages s !! x).
  { intros x Hx. apply Kp; [intros ->; done|]. left. by right. }
  assert (Su : super_ok s') by (destruct S5 as (sq & E & H); exists sq; rewrite Sys by (by left); done).
  split; try done.
  - by rewrite Kd.
  - destruct S6 as (b & Hb & Hd). exists b. split; [|done]. apply Kb; [done|]. rewrite Hd. left. by left.
  - destruct S8 as (taken & GO & U & Al). exists taken. split; [|split; [done|]].
    + apply (groups_ok_keep s); try done. intros x b Hx Hp. exists b. split; [|done]. apply Kb; [done|]. left. right. by right.
    + intros a f Ha. by eapply Al, lookup_weaken.
  - intros a f Ha. pose proof (lookup_weaken _ _ _ _ Ha Sub) as Hf. apply (file_ok_frame s); [by apply (S10 a)|done|..].
    + intros i p Ef. destruct (file_page s f i p (S10 a f Hf) Ef) as (Ni & P & ty & _ & Ep & Eb).
      assert (Ow : owned F' p) by (right; by exists a, f, i).
      split; [rewrite Eb; by apply Kb|]. apply Kp; [intros ->; apply Ni; by left|done].
    + intros _. by rewrite Kd.
  - intros a b f g Ha Hb. apply (S11 a b f g); by eapply lookup_weaken.
  - intros a b f g i j p Ha Hb. apply (S12 a b f g i j p); by eapply lookup_weaken.
  - apply (sys_kept_trans s0 s); [done|]. split; [split|done|].
    + intros q E. exists q. rewrite Sys; [done|]. by left.
    + intros pa q Hp E. exists q. rewrite Sys; [done|]. by right.
    + intros x b Hx Hin. apply Kb; [done|]. by left.
Qed.

(** A buffer of no file goes to [userfs_free_dbbuf]. *)
Lemma sys_free s F used K r b fuel :
  sys_ok s F used K -> f_bbufs s !! r = Some b -> b_this_page b = NULL -> r <> NULL -> ~ owned F (b_data b) -> (2 <= fuel)%nat ->
  exists s', free_buf_list fuel r s = Some (tt, s') /\ sys_ok s' F used K.
Proof.
  intros SO Eb Hp Nr No Hf. destruct fuel as [|[|fuel]]; [lia|lia|]. cbn [free_buf_list]. rewrite (proj2 (Z.eqb_neq r NULL) Nr).
  rewrite (bind_run _ _ _ _ _ (bb_run r s b Eb)).
  destruct (free_dbbuf_run s r b (so_mem _ _ _ _ SO) (so_dfree _ _ _ _ SO) Eb) as (s' & E & M' & D' & A' & Ee & Ei & OS & P' & B' & _).
  rewrite (bind_run _ _ _ _ _ E), Hp. change (NULL =? NULL) with true. cbn iota. rewrite ret_run. exists s'. split; [done|].
  assert (Ndt : dt <> b_data b) by (intros E0; apply No; rewrite <- E0; left; by left).
  apply (sys_frame s s' F F used K K); try done.
  - apply (os_disk _ _ OS).
  - rewrite A'. apply SO.
  - intros x c Hx Ow. rewrite B'; [done|]. intros ->. by simplify_eq.
  - intros x _ Ow. apply P'. by intros ->.
  - intros q Eq. exists q. by rewrite P'.
  - eapply dir_ok_frame; [apply SO|by apply P'|apply OS|apply OS|apply M'|by rewrite A'].
Qed.

(** The name and the entry of a file are gone. *)
Lemma sys_forget s F used K a f d t dp' :
  let s' := with_dir (with_pages s (<[dt := dp']> (f_pages s))) (f_alloc s) d t in
  sys_ok s F used K -> F !! a = Some f -> (forall q, f_pages s !! dt = Some q -> same_head q dp') ->
  dir_ok names nb dt n s' (delete a ((fun f => (uf_val f, uf_blk f)) <$> F)) ->
  sys_ok s' (delete a F) used K.
Proof.
  intros s' SO Ea Dh Dir. apply (sys_frame s s' F (delete a F) used K K); try done; try apply SO.
  - apply delete_subseteq.
  - pose proof (so_mem _ _ _ _ SO) as [N1 N2 N3 N4 N5]. split; try done. intros x Hx. cbn [f_pages with_pages with_dir s'].
    rewrite lookup_insert_ne; [by apply N3|]. intros <-. destruct (system_page _ _ _ _ dt SO ltac:(by left)) as [y Hy].
    by rewrite N3 in Hy.
  - intros x Nx _. cbn [f_pages with_pages with_dir s']. by rewrite lookup_insert_ne.
  - intros q Eq. exists dp'. split; [apply lookup_insert_eq|by apply Dh].
  - by rewrite fmap_delete.
Qed.

Lemma sys_less s F used K K' : sys_ok s F used K -> K' <= K -> sys_ok s F used K'.
Proof. intros SO HK. destruct SO. split; try done. by eapply room_weaken. Qed.

(** Reading the inode of a closed file into a new buffer. *)
Lemma sys_load s F used K blk :
  sys_ok s F used (dbbuf_memory USERFS_PAGE_SIZE + K) -> 0 <= K -> 0 <= blk < 4294967295 -> block_at blk + shard <= d_len (f_disk s) ->
  exists r s' b q, userfs_get_used_inode sb blk USERFS_PAGE_SIZE s = Some (r, s') /\ r <> NULL /\ sys_ok s' F used K /\
    f_bbufs s' !! r = Some b /\ b_this_page b = NULL /\ ~ owned F (b_data b) /\ f_pages s' !! b_data b = Some q /\ p_size q = USERFS_PAGE_SIZE.
Proof.
  intros SO HK Hb Hl. destruct (so_super _ _ _ _ SO) as (sq & Es & Rs & Hf & Bs). pose proof (so_mem _ _ _ _ SO) as M.
  unfold userfs_get_used_inode, USERFS_PAGE_SIZE in *.
  assert (Off : db_off 1 bsize (Bbuf 0 1 0 blk 0 4096 0) = block_at blk)
    by (rewrite db_off_exact; [unfold block_at; cbn; lia|lia|unfold in_dblock; cbn; lia]).
  assert (0 <= block_at blk <= 4294967296 * 67108864) by (unfold block_at; nia).
  destruct (get_used_dblock_run s sb sq 1 bsize blk 0 4096 M (so_dfree _ _ _ _ SO) (so_io _ _ _ _ SO) Es Rs Hf Bs ltac:(lia))
    as (r & s' & E & M' & [OS K1 K2 K3] & Sp & C); try (rewrite Off; lia).
  destruct C as [(_ & _ & C)|(Nr & data & ty & Nb & Np & Eb & Ep)].
  { exfalso. revert C. apply room_dbbuf; [lia|]. eapply room_weaken; [apply SO|lia]. }
  assert (No : forall x, owned F x -> is_Some (f_pages s !! x)).
  { intros x [Hx|(a & f & i & Ha & Ef)]; [by eapply system_page|].
    destruct (file_page s f i x (so_file _ _ _ _ SO a f Ha) Ef) as (_ & P & t & _ & Hx & _). eauto. }
  assert (Nd : ~ owned F data) by (intros Ow; destruct (No data Ow) as [y Hy]; by rewrite (mo_pages _ M) in Hy).
  exists r, s'. do 2 eexists. split; [exact E|]. split; [done|]. split; [|rewrite Eb, Ep; split; [apply lookup_insert_eq|];
    cbn [b_this_page b_data]; split; [done|]; split; [done|]; split; [apply lookup_insert_eq|done]].
  assert (Kp : forall x, owned F x -> f_pages s' !! x = f_pages s !! x).
  { intros x Ow. rewrite Ep, lookup_insert_ne; [done|]. by intros <-. }
  apply (sys_frame s s' F F used (dbbuf_memory 4096 + K) K); try done.
  - rewrite K1. apply SO.
  - apply (os_disk _ _ OS).
  - apply (proj2 Sp); [done|apply SO].
  - intros x b Hx _. rewrite Eb, lookup_insert_ne; [done|]. intros <-. by rewrite (mo_bbufs _ M) in Hx.
  - intros x _ Ow. by apply Kp.
  - intros q Eq. exists q. rewrite Kp; [done|]. left. by left.
  - eapply dir_ok_frame; [apply SO|apply Kp; left; by left|apply OS|apply OS|apply M'|apply Sp].
Qed.

Lemma sys_delete s F used K a f fuel tv :
  sys_ok s F used (dbbuf_memory USERFS_PAGE_SIZE + K) -> 0 <= K -> names a -> F !! a = Some f -> (2 <= fuel)%nat ->
  exists s', userfs_file_delete fuel (cname a) (Z.of_nat (length a)) sb dt (Some tv) s = Some (0, s') /\ sys_ok s' (delete a F) used K.
Proof.
  intros SO HK Ha Ea Hf. pose proof (so_file _ _ _ _ SO a f Ea) as FO.
  destruct (dir_remove_run names nb dt n s _ a (cname a) _ (uf_val f) (uf_blk f) NO (so_dir _ _ _ _ SO) Ha (denotes_cname a Ha)
    ltac:(by rewrite lookup_fmap, Ea)) as (pos & s1 & res & s2 & moved & dp' & d & t & E1 & E2 & E3 & Nm & Dh & Dir).
  pose proof (sys_forget s F used _ a f d t dp' SO Ea Dh Dir) as SO1. cbn zeta in SO1. set (S := with_dir _ _ _ _) in *.
  assert (Nown : forall i p, uf_buf f = Some (i, p) -> ~ owned (delete a F) p).
  { intros i p Ef [Hin|(b & g & j & [Nb Hb]%lookup_delete_Some & Eg)]; [by destruct (file_page s f i p FO Ef)|].
    apply Nb. by apply (so_buf _ _ _ _ SO a b f g i j p). }
  unfold userfs_file_delete. rewrite (name_short a Ha). rewrite (bind_run _ _ _ _ _ E1). cbn [fst snd].
  assert (Nu : uf_val f <> UINT32_MAX) by (destruct (uf_buf f) as [[i p]|] eqn:Ef; [by apply (open_val s f i p)|by apply (closed_val s f)]).
  rewrite (proj2 (Z.eqb_neq _ _) Nu), (bind_run _ _ _ _ _ E2). rewrite (bind_run _ _ _ _ _ E3). rewrite (proj2 (Z.eqb_neq _ _) Nm).
  destruct (uf_buf f) as [[ib inode]|] eqn:Ef.
  - destruct (open_val s f ib inode FO Ef) as (-> & -> & _). rewrite Z.eqb_refl. rewrite (bind_run _ _ _ _ _ (ret_run _ _)).
    destruct (file_page s f ib inode FO Ef) as (Ni & P & ty & SF & Ep & Eb).
    assert (Hi : ib <> NULL) by (pose proof (sf_addr _ _ _ _ _ _ _ _ SF); unfold NULL; lia). rewrite (proj2 (Z.eqb_neq _ _) Hi).
    rewrite (bind_run _ _ _ _ _ (bb_run ib S _ Eb)). cbn [b_data].
    assert (EpS : f_pages S !! inode = Some P).
    { cbn [f_pages with_dir with_pages S]. rewrite lookup_insert_ne; [done|]. intros ->. apply Ni. by left. }
    pose proof (op_room _ _ _ _ _ _ (sf_open _ _ _ _ _ _ _ _ SF)) as RP. unfold USERFS_INODE_SIZE in RP.
    erewrite bind_run; [|eapply ld_run; [exact EpS|apply load_in; unfold i_blocks; lia]].
    unfold userfs_free_used_dblock. rewrite (bind_run _ _ _ _ _ (ret_run _ _)).
    destruct (sys_free S (delete a F) used _ ib _ fuel SO1 Eb eq_refl Hi (Nown ib inode eq_refl) Hf) as (s' & E4 & SO').
    rewrite (bind_run _ _ _ _ _ E4), ret_run. exists s'. split; [done|]. eapply sys_less; [exact SO'|]. unfold dbbuf_memory, sizeof_bbuf, USERFS_PAGE_SIZE. lia.
  - destruct (closed_val s f FO Ef) as (-> & -> & _). change (USERFS_NAME2INODE =? USERFS_NAME2INODEBUF) with false. cbn iota.
    destruct FO as (Hb & _ & FO). rewrite Ef in FO. destruct FO as (_ & Hl & _). rewrite u32_small by lia.
    destruct (sys_load S (delete a F) used K (uf_blk f) SO1 HK Hb Hl) as (r & s3 & b & q & E4 & Nr & SO3 & Eb & Hp & No & Eq & Hq).
    rewrite (bind_run _ _ _ _ _ E4), (proj2 (Z.eqb_neq _ _) Nr), (bind_run _ _ _ _ _ (bb_run r s3 b Eb)).
    erewrite bind_run; [|eapply ld_run; [exact Eq|apply load_in; unfold i_blocks; rewrite ?Hq; unfold USERFS_PAGE_SIZE; lia]].
    unfold userfs_free_used_dblock. rewrite (bind_run _ _ _ _ _ (ret_run _ _)).
    destruct (sys_free s3 (delete a F) used K r b fuel SO3 Eb Hp Nr No Hf) as (s' & E5 & SO').
    rewrite (bind_run _ _ _ _ _ E5), ret_run. by exists s'.
Qed.

Lemma sys_delete_missing s F used K a fuel tv : sys_ok s F used K -> names a -> F !! a = None ->
  exists s', userfs_file_delete fuel (cname a) (Z.of_nat (length a)) sb dt (Some tv) s = Some (-1, s') /\ sys_ok s' F used K.
Proof.
  intros SO Ha Ea. destruct (sys_lookup _ _ _ _ a SO Ha) as (bs & R & L). rewrite Ea in L.
  pose proof (hash_remove_rep _ _ _ _ (cname a) _ a 0 R (denotes_cname a Ha)) as H. rewrite L in H.
  unfold userfs_file_delete. rewrite (name_short a Ha).
  rewrite (bind_run _ _ s (UINT32_MAX, 0) (with_dir s (f_alloc s) (f_dstore s) (f_table s)))
    by (unfold hash_remove, act; by rewrite H). cbn [fst snd]. change (UINT32_MAX =? UINT32_MAX) with true. cbn iota.
  exists s. split; [by destruct s|done].
Qed.

(** ** Clients *)

Context (fuel : nat) (Hfuel : (2 <= fuel)%nat).
Local Abbreviation run := (exec sb db shard fuel).

Definition bufs_ok (h : gmap (list Z) Z) (F : gmap (list Z) ufile) : Prop :=
  forall a f i p, F !! a = Some f -> uf_buf f = Some (i, p) -> h !! a = Some i.

(** The file system of the client holds the files [A], and the client has the buffers of
    those that are open. *)
Definition client_ok (c : client) (A : afs) (used K : Z) : Prop :=
  exists F, sys_ok (c_fs c) F used K /\ A = uf_data <$> F /\ bufs_ok (c_bufs c) F.

(** One file has changed; the client knows its buffer. *)
Lemma client_change h h' F a f s used K :
  bufs_ok h F -> (forall i p, uf_buf f = Some (i, p) -> h' !! a = Some i) -> (forall b, b <> a -> h' !! b = h !! b) ->
  sys_ok s (<[a := f]> F) used K -> client_ok (Client h' s) (<[a := uf_data f]> (uf_data <$> F)) used K.
Proof.
  intros H Ha Hb SO. exists (<[a := f]> F). split; [done|]. split; [by rewrite fmap_insert|].
  intros b g i p [[<- <-]|[Nb Hg]]%lookup_insert_Some E; [by apply (Ha i p)|]. cbn [c_bufs].
  rewrite Hb by congruence. by apply (H b g i p).
Qed.

Lemma refs_open s F used K a f : sys_ok s F used K -> F !! a = Some f ->
  match uf_buf f with Some (ib, _) => 0 < a_refs (uf_data f) /\ ib <> NULL | None => a_refs (uf_data f) = 0 end.
Proof.
  intros SO Ea. pose proof (so_file _ _ _ _ SO a f Ea) as FO. destruct (uf_buf f) as [[ib inode]|] eqn:Ef.
  - destruct (file_page s f ib inode FO Ef) as (_ & P & ty & SF & _). destruct FO as (_ & _ & FO). rewrite Ef in FO.
    pose proof (sf_addr _ _ _ _ _ _ _ _ SF). unfold NULL. destruct FO as (Hr & _). split; lia.
  - destruct FO as (_ & _ & FO). rewrite Ef in FO. apply FO.
Qed.

Lemma create_refines c A used K a tv :
  client_ok c A used (create_memory shard + K) -> 0 <= K -> pre names n shard A (OCreate a) -> used + 1 <= g_count G * g_limit G ->
  exists r c' A', run tv (OCreate a) c = Some (r, c') /\ post A (OCreate a) r A' /\ client_ok c' A' (used + 1) K.
Proof.
  intros (F & SO & -> & H) HK (Ha & Ea & Hn) Hu. rewrite lookup_fmap in Ea. rewrite map_size_fmap in Hn.
  destruct (F !! a) as [|] eqn:Ea'; [done|].
  destruct (sys_create (c_fs c) F used K a tv SO HK Ha Ea' Hn ltac:(lia)) as (r & s' & inode & blk & d & E & Nr & SO').
  cbn [exec post]. rewrite E. cbn [mbind option_bind fst snd]. rewrite (proj2 (Z.eqb_neq r NULL) Nr).
  eexists _, _, _. split; [done|]. split; [split; [done|]; by exists d|].
  apply (client_change (c_bufs c) _ F a (Ufile blk (Some (r, inode)) (Afile 1 0 d))); try done.
  - intros i p [= <- <-]. apply lookup_insert_eq.
  - intros b Nb. by rewrite lookup_insert_ne.
Qed.

Lemma open_refines c A used K a tv :
  client_ok c A used (dbbuf_memory shard + K) -> 0 <= K -> pre names n shard A (OOpen a) ->
  exists r c' A', run tv (OOpen a) c = Some (r, c') /\ post A (OOpen a) r A' /\ client_ok c' A' used K.
Proof.
  intros (F & SO & -> & H) HK [Ha Hr]. assert (0 <= dbbuf_memory shard) by (unfold dbbuf_memory, sizeof_bbuf, USERFS_PAGE_SIZE in *; lia).
  cbn [exec post]. rewrite lookup_fmap in *. destruct (F !! a) as [f|] eqn:Ea; cbn [fmap option_fmap option_map] in *.
  - pose proof (refs_open _ _ _ _ a f SO Ea) as Ro. destruct (uf_buf f) as [[ib inode]|] eqn:Ef.
    + destruct (sys_open_more (c_fs c) F used _ a f ib inode tv SO Ha Ea Ef ltac:(by apply Hr)) as (s' & -> & SO').
      destruct Ro as [Ro Ni]. cbn [mbind option_bind fst snd]. rewrite (proj2 (Z.eqb_neq ib NULL) Ni).
      eexists _, _, _. split; [done|]. split; [done|].
      apply (client_change (c_bufs c) _ F a (Ufile (uf_blk f) (uf_buf f) (set_refs (a_refs (uf_data f) + 1) (uf_data f)))); try done.
      * cbn [uf_buf]. intros i p E. rewrite Ef in E. injection E as <- <-. apply lookup_insert_eq.
      * intros b Nb. by rewrite lookup_insert_ne.
      * eapply sys_less; [exact SO'|lia].
    + destruct (sys_open_closed (c_fs c) F used K a f tv SO HK Ha Ea Ef) as (r & s' & inode & -> & Nr & SO').
      cbn [mbind option_bind fst snd]. rewrite (proj2 (Z.eqb_neq r NULL) Nr). eexists _, _, _. split; [done|]. split; [done|].
      rewrite Ro. apply (client_change (c_bufs c) _ F a (Ufile (uf_blk f) (Some (r, inode)) (set_refs 1 (uf_data f)))); try done.
      * intros i p [= <- <-]. apply lookup_insert_eq.
      * intros b Nb. by rewrite lookup_insert_ne.
  - rewrite (sys_open_missing _ _ _ _ a tv SO Ha Ea). eexists _, _, _. split; [done|]. split; [done|]. exists F.
    split; [|done]. eapply sys_less; [exact SO|lia].
Qed.

Lemma close_refines c A used K a tv :
  client_ok c A used K -> pre names n shard A (OClose a) ->
  exists r c' A', run tv (OClose a) c = Some (r, c') /\ post A (OClose a) r A' /\ client_ok c' A' used K.
Proof.
  intros (F & SO & -> & H) Ha. cbn [pre] in Ha. cbn [exec post]. rewrite lookup_fmap.
  assert (Closed : (forall f, F !! a = Some f -> uf_buf f = None) -> run tv (OClose a) c = Some (RStatus (-1), c)).
  { intros Hn. cbn [exec]. rewrite (sys_close_closed _ _ _ _ a tv SO Ha Hn). by destruct c. }
  destruct (F !! a) as [f|] eqn:Ea; cbn [fmap option_fmap option_map].
  - pose proof (refs_open _ _ _ _ a f SO Ea) as Ro. destruct (uf_buf f) as [[ib inode]|] eqn:Ef.
    + destruct Ro as [Ro _]. rewrite (proj2 (Z.eqb_neq (a_refs (uf_data f)) 0)) by lia.
      destruct (Z.eq_dec (a_refs (uf_data f)) 1) as [E1|N1].
      * destruct (sys_close_last (c_fs c) F used K a f ib inode tv SO Ha Ea Ef E1) as (s' & -> & SO').
        cbn [mbind option_bind fst snd]. eexists _, _, _. split; [done|]. split; [done|]. rewrite E1.
        by apply (client_change (c_bufs c) _ F a (Ufile (uf_blk f) None (set_refs 0 (uf_data f)))).
      * destruct (sys_close_more (c_fs c) F used K a f ib inode tv SO Ha Ea Ef ltac:(lia)) as (s' & -> & SO').
        cbn [mbind option_bind fst snd]. eexists _, _, _. split; [done|]. split; [done|].
        apply (client_change (c_bufs c) _ F a (Ufile (uf_blk f) (uf_buf f) (set_refs (a_refs (uf_data f) - 1) (uf_data f)))); try done.
        cbn [uf_buf]. intros i p E. by apply (H a f i p).
    + rewrite Ro. cbn [Z.eqb]. eexists _, _, _. split; [apply Closed; by intros g [= <-]|]. split; [done|]. by exists F.
  - eexists _, _, _. split; [by apply Closed|]. split; [done|]. by exists F.
Qed.

Lemma delete_refines c A used K a tv :
  client_ok c A used (dbbuf_memory USERFS_PAGE_SIZE + K) -> 0 <= K -> pre names n shard A (ODelete a) ->
  exists r c' A', run tv (ODelete a) c = Some (r, c') /\ post A (ODelete a) r A' /\ client_ok c' A' used K.
Proof.
  intros (F & SO & -> & H) HK Ha. cbn [pre] in Ha. cbn [exec post]. rewrite lookup_fmap.
  destruct (so_dentry _ _ _ _ SO) as (b & -> & Ed). cbn [mbind option_bind]. rewrite Ed.
  destruct (F !! a) as [f|] eqn:Ea; cbn [fmap option_fmap option_map].
  - destruct (sys_delete (c_fs c) F used K a f fuel tv SO HK Ha Ea Hfuel) as (s' & -> & SO').
    cbn [mbind option_bind fst snd]. eexists _, _, _. split; [done|]. split; [done|]. exists (delete a F). split; [done|].
    split; [by rewrite fmap_delete|]. intros x g i p [_ Hx]%lookup_delete_Some. by apply H.
  - destruct (sys_delete_missing (c_fs c) F used _ a fuel tv SO Ha Ea) as (s' & -> & SO').
    cbn [mbind option_bind fst snd]. eexists _, _, _. split; [done|]. split; [done|]. exists F. split; [|done].
    eapply sys_less; [exact SO'|]. unfold dbbuf_memory, sizeof_bbuf, USERFS_PAGE_SIZE. lia.
Qed.

Lemma write_refines c A used K a off buf tv :
  client_ok c A used K -> pre names n shard A (OWrite a off buf) ->
  exists r c' A', run tv (OWrite a off buf) c = Some (r, c') /\ post A (OWrite a off buf) r A' /\ client_ok c' A' used K.
Proof.
  intros (F & SO & -> & H) ((d & Ed & Hr) & Ho & Hk & Hfit & Hb). rewrite lookup_fmap in Ed.
  destruct (F !! a) as [f|] eqn:Ea; [|done]. injection Ed as <-. pose proof (refs_open _ _ _ _ a f SO Ea) as Ro.
  destruct (uf_buf f) as [[ib inode]|] eqn:Ef; [|lia]. cbn [exec post]. rewrite (H a f ib inode Ea Ef). cbn [mbind option_bind].
  destruct (sys_write (c_fs c) F used K a f ib inode off buf tv SO Ea Ef Ho Hk Hfit Hb) as (s' & -> & SO').
  cbn [mbind option_bind fst snd]. eexists _, _, _. split; [done|]. split; [exists (uf_data f); by rewrite lookup_fmap, Ea|].
  apply (client_change (c_bufs c) _ F a (Ufile (uf_blk f) (uf_buf f) (write_data off buf (uf_data f)))); try done.
  cbn [uf_buf]. intros i p E. by apply (H a f i p).
Qed.

Lemma read_refines c A used K a off k tv :
  client_ok c A used K -> pre names n shard A (ORead a off k) ->
  exists r c' A', run tv (ORead a off k) c = Some (r, c') /\ post A (ORead a off k) r A' /\ client_ok c' A' used K.
Proof.
  intros (F & SO & -> & H) (d & Ed & Hr & Ho & Hk & Hfit). rewrite lookup_fmap in Ed.
  destruct (F !! a) as [f|] eqn:Ea; [|done]. injection Ed as <-. pose proof (refs_open _ _ _ _ a f SO Ea) as Ro.
  destruct (uf_buf f) as [[ib inode]|] eqn:Ef; [|lia]. cbn [exec post]. rewrite (H a f ib inode Ea Ef). cbn [mbind option_bind].
  destruct (sys_read (c_fs c) F used K a f ib inode off k tv SO Ea Ef Ho Hk Hfit) as (s' & -> & SO').
  cbn [mbind option_bind fst snd]. eexists _, _, _. split; [done|]. split; [exists (uf_data f); by rewrite lookup_fmap, Ea|]. by exists F.
Qed.

(** Every covered call does what the specification says. *)
Lemma op_refines c A used K o tv :
  client_ok c A used (op_memory shard o + K) -> 0 <= K -> pre names n shard A o -> used + op_blocks o <= g_count G * g_limit G ->
  exists r c' A', run tv o c = Some (r, c') /\ post A o r A' /\ client_ok c' A' (used + op_blocks o) K.
Proof.
  destruct o; cbn [op_memory op_blocks]; rewrite ?Z.add_0_l, ?Z.add_0_r; intros CO HK HP Hu.
  - by apply create_refines.
  - by apply open_refines.
  - by apply close_refines.
  - by apply delete_refines.
  - by apply write_refines.
  - by apply read_refines.
Qed.

Lemma script_refines os : forall c A used K,
  client_ok c A used (script_memory shard os + K) -> 0 <= K -> safe names n shard A os ->
  used + script_blocks os <= g_count G * g_limit G ->
  exists rs c' A', exec_all sb db shard fuel os c = Some (rs, c') /\ behaves A os rs A' /\ client_ok c' A' (used + script_blocks os) K.
Proof.
  induction os as [|[tv o] os IH]; intros c A used K CO HK HS Hu; cbn [script_memory script_blocks exec_all] in *.
  - rewrite Z.add_0_l in CO. rewrite Z.add_0_r. eexists _, _, _. split; [done|]. split; [constructor|done].
  - destruct HS as [HP HS]. pose proof (script_memory_nonneg shard os ltac:(unfold USERFS_PAGE_SIZE in Sh; lia)).
    pose proof (script_blocks_nonneg os). rewrite <- Z.add_assoc in CO.
    destruct (op_refines c A used _ o tv CO ltac:(lia) HP ltac:(lia)) as (r & c1 & A1 & E1 & P1 & CO1).
    destruct (IH c1 A1 _ K CO1 HK (HS r A1 P1) ltac:(lia)) as (rs & c2 & A2 & E2 & B2 & CO2).
    rewrite E1. cbn [mbind option_bind fst snd]. rewrite E2. cbn [mbind option_bind fst snd].
    eexists _, _, _. split; [done|]. split; [by econstructor|]. by rewrite Z.add_assoc.
Qed.
End System.
