(* ===== verification/Format.v ===== *)
(** * Format: from formatting a disk to a mounted file system

    The sequence of userfs/test_init.c: the super block, the block group descriptors
    and the dentry table are set up in memory (FsInit), their buffers are flushed
    (BlockBuf), and the disk is mounted again.  The theorem of this file is that
    the invariants of the block allocator (Mount, FileCtrl) and of the dentry table
    hold after the round trip. *)
From S2P Require Import Prelude Bits Atomic KList Bitmap MrHeap DentryHash Fs BlockBuf FileCtrl FsInit Mount FilePersist.
Local Open Scope Z_scope.

(** The loop of [main] over the descriptor blocks, which logs the header of each and
    fills [md_id\[128\]]; [n] more from index [i]. *)
Fixpoint md_id_loop (n : nat) (i check_bg_mb : Z) : fsM (list Z) :=
  match n with
  | O => mret []
  | S n =>
      b ← bb check_bg_mb;
      ld 4 (b_data b) mb_block_type;;;
      ld 4 (b_data b) h_prev;;;
      ld 4 (b_data b) h_next;;;
      if 128 <=? i then lift None
      else
        ids ← md_id_loop n (i + 1) (b_this_page b);
        mret (b_blocknr b :: ids)
  end.

(** [userfs_mbbuf_list_flush] of a list, as [main] calls it. *)
Definition flush_list (g_sb buf : Z) : fsM Z :=
  first ← ld 4 g_sb s_first_metablock;
  msize ← ld 4 g_sb s_metablock_size;
  b ← bb buf;
  userfs_mbbuf_list_flush first msize buf (b_list_len b).

(** [main] of userfs/test_init.c with [USERFS_CREATE]: the results of the three
    flushes are not looked at; [None] is [exit(1)]. *)
Definition userfs_format (block_size metablock_size disk_size blocks_per_group : Z) : fsM (option unit) :=
  r ← userfs_suber_block_alloc block_size metablock_size disk_size;
  let '(g_sb, sb_bbuf, _) := r in
  bgdesc_table_list ← userfs_bgroup_desc_table_init g_sb blocks_per_group;
  if bgdesc_table_list =? NULL then mret None
  else
    dentry_table_bbuf ← userfs_root_dentry_table_init g_sb;
    if dentry_table_bbuf =? NULL then mret None
    else
      l ← bb bgdesc_table_list;
      md_id_loop (Z.to_nat (b_list_len l)) 0 bgdesc_table_list;;;
      flush_list g_sb bgdesc_table_list;;;
      flush_list g_sb sb_bbuf;;;
      flush_list g_sb dentry_table_bbuf;;;
      mret (Some tt).

(** What [main] keeps of a mounted file system: the buffer of the super block, the super
    block, the first descriptor buffer and the buffer of the directory. *)
Record mount := Mnt { m_sb_buf : Z; m_sb : Z; m_bg_desc_table : Z; m_dentry_table : Z }.

(** The mount of [main]: the buffers and the index are used without a test; [None] is
    [exit(1)].  [garbage] is the memory of the counter of the name table, [usable] is
    what malloc lets the program write (userfs_mount_bgdindex_list_init). *)
Definition userfs_mount (usable : Z -> Z) (fuel : nat) (metablock_size hash_bucket_count garbage : Z) : fsM (option mount) :=
  r ← userfs_mount_init fuel metablock_size 0;
  let '(mount_sb_buf, mount_bg_desc_table, mount_dentry_table) := r in
  b ← bb mount_sb_buf;
  match mount_bg_desc_table, mount_dentry_table with
  | Some bg, Some dt =>
      bb dt;;;
      mount_bgd_idx_list ← userfs_mount_bgdindex_list_init usable fuel bg (b_data b);
      if negb mount_bgd_idx_list then lift None
      else
        dentry_hashtable ← userfs_mount_dentry_hashtable_init hash_bucket_count dt garbage;
        if negb dentry_hashtable then mret None
        else mret (Some (Mnt mount_sb_buf (b_data b) bg dt))
  | _, _ => lift None
  end.

(** The end of [main]: the flushes of the mounted lists. *)
Definition userfs_sync (mount_sb mount_sb_buf mount_bg_desc_table mount_dentry_table : Z) : fsM unit :=
  flush_list mount_sb mount_sb_buf;;;
  flush_list mount_sb mount_bg_desc_table;;;
  flush_list mount_sb mount_dentry_table;;;
  mret tt.

(** ** Metadata buffers *)

(** What setting up blocks in memory leaves alone. *)
Record grown (s s' : fs) : Prop := {
  gr_mem : mem_ok s';
  gr_next : a_next (f_alloc s) <= a_next (f_alloc s');
  gr_garbage : f_garbage s' = f_garbage s;
  gr_mfree : f_mfree s' = f_mfree s;
  gr_disk : f_disk s' = f_disk s;
  gr_dfree : f_dfree s' = f_dfree s;
  gr_dstore : f_dstore s' = f_dstore s }.

Lemma grown_refl s : mem_ok s -> grown s s.
Proof. by split. Qed.

Lemma grown_trans s s' s'' : grown s s' -> grown s' s'' -> grown s s''.
Proof. intros [A1 A2 A3 A4 A5 A6 A7] [B1 B2 B3 B4 B5 B6 B7]. split; [done|lia|congruence..]. Qed.

(** Changing buffers and pages that exist. *)
Lemma grown_update s s' :
  mem_ok s -> f_alloc s' = f_alloc s -> f_garbage s' = f_garbage s -> f_mfree s' = f_mfree s ->
  f_disk s' = f_disk s -> f_dfree s' = f_dfree s -> f_dstore s' = f_dstore s -> f_elems s' = f_elems s ->
  (forall x, is_Some (f_bbufs s' !! x) -> is_Some (f_bbufs s !! x)) ->
  (forall x, is_Some (f_pages s' !! x) -> is_Some (f_pages s !! x)) -> grown s s'.
Proof.
  intros [M1 M2 M3 M4 M5] E1 E2 E3 E4 E6 E7 E5 HB HP. split; rewrite ?E1; try done.
  split; rewrite ?E1, ?E5; try done; intros x Hx; apply eq_None_not_Some; intros H.
  - apply HB in H. rewrite M2 in H by done. by destruct H.
  - apply HP in H. rewrite M3 in H by done. by destruct H.
Qed.

Lemma insert_known {A} (m : gmap Z A) k v v' x : m !! k = Some v -> is_Some (<[k := v']> m !! x) -> is_Some (m !! x).
Proof. intros E. destruct (decide (x = k)) as [->|]; [by rewrite E|by rewrite lookup_insert_ne by done]. Qed.

Lemma insert_other {A} (m : gmap Z A) k v v' x : is_Some (<[k := v']> m !! x) -> is_Some (<[k := v]> m !! x).
Proof. destruct (decide (x = k)) as [->|]; [by rewrite !lookup_insert_eq|by rewrite !lookup_insert_ne by done]. Qed.

(** [s] with the new buffer [b] at [r] and its page [p]. *)
Definition with_block (s : fs) (a : alloc) (r : Z) (b : bbuf) (p : page) : fs :=
  with_pages (with_bbufs (with_alloc s a) (<[r := b]> (f_bbufs s))) (<[b_data b := p]> (f_pages s)).

Lemma grown_block s a r b p :
  mem_ok s -> alloc_ok a -> a_next (f_alloc s) <= a_next a -> r < a_next a -> b_data b < a_next a ->
  grown s (with_block s a r b p).
Proof.
  intros [M1 M2 M3 M4 M5] Ha Hn Hr Hd. split; try done. split; try done; cbn; intros x Hx.
  - rewrite lookup_insert_ne by lia. apply M2. lia.
  - rewrite lookup_insert_ne by lia. apply M3. lia.
  - apply M4. lia.
Qed.

Lemma room_ok a k : room a k -> 0 <= k -> alloc_ok a.
Proof. intros (_ & ? & ?) Hk. split; lia. Qed.

(** The buffer that [userfs_alloc_mbbuf] makes without a free list. *)
Lemma alloc_mbbuf_run s n k :
  mem_ok s -> fl_head (f_mfree s) = NULL -> 0 <= n -> 0 <= k -> room (f_alloc s) (72 + n + k) ->
  exists r data a, userfs_alloc_mbbuf n s =
      Some (r, with_block s a r (Bbuf 0 1 0 0 0 n data) (Page n (f_garbage s data))) /\
    (r =? NULL) = false /\ a_next (f_alloc s) <= r /\ r < data /\ data < a_next a /\ room a k.
Proof.
  intros M Hl Hn Hk R. unfold userfs_alloc_mbbuf. rewrite (bind_run _ _ s (f_mfree s) s eq_refl).
  rewrite Hl. change (negb (NULL =? NULL)) with false. cbn iota.
  destruct (mem_alloc_run s sizeof_bbuf (16 + n + k)) as (a1 & E1 & R1 & L1 & N1);
    [unfold sizeof_bbuf; by replace (16 + 40 + (16 + n + k)) with (72 + n + k) by lia|done|lia|].
  rewrite (bind_run _ _ _ _ _ E1). rewrite N1. set (r := a_next (f_alloc s)) in *.
  rewrite (bind_run (bb_new r) _ _ tt (with_bbufs (with_alloc s a1) (<[r := bbuf_zero]> (f_bbufs s))) eq_refl).
  destruct (mem_alloc_run (with_bbufs (with_alloc s a1) (<[r := bbuf_zero]> (f_bbufs s))) n k)
    as (a2 & E2 & R2 & L2 & N2); [done|done|done|].
  rewrite (bind_run _ _ _ _ _ E2). cbn [f_alloc with_bbufs with_alloc] in *. set (data := a_next a1) in *.
  erewrite bind_run; [|apply bb_set_run; apply lookup_insert_eq]. rewrite N2.
  erewrite bind_run; [|done]. erewrite bind_run; [|apply bb_set_run; apply lookup_insert_eq].
  erewrite bind_run; [|apply bb_set_run; apply lookup_insert_eq].
  exists r, data, a2. split; [|repeat (split; [lia|]); done]. rewrite ret_run.
  unfold with_block. cbn [b_data f_bbufs f_pages with_bbufs with_pages with_alloc f_garbage].
  by rewrite !insert_insert_eq.
Qed.

(** ** The super block page

    [m] metadata blocks are in use, the first ones.  The last one of the bitmap may be
    out of reach, as the bit behind it is whatever malloc left there. *)
Record sup_ok (msize nb : Z) (q : page) (m : Z) : Prop := {
  su_size : p_size q = msize;
  su_bitmap : exists lim, 8 * nb - 1 <= lim /\ packed lim q s_metadata_block_bitmap nb;
  su_used : first q s_metadata_block_bitmap = m;
  su_msize : le_read 4 (p_get q) s_metablock_size = msize }.

(** The fields that taking a metadata block leaves alone. *)
Definition sup_kept (q q' : page) : Prop :=
  forall x, x < s_free_metablock_count \/ s_free_metablock_count + 4 <= x < s_metadata_block_bitmap ->
    p_get q' x = p_get q x.

(** The fields that [userfs_suber_block_alloc] sets and nothing changes later. *)
Definition base_fields : list Z := [s_first_metablock; mb_block_type; s_first_datablock; s_data_block_size].

Ltac sup_unfold := unfold s_wtime, s_first_datablock, s_data_block_size, s_data_block_count, s_free_data_block_count,
  s_data_block_per_group, s_data_block_group_count, s_free_data_block_group_count, s_first_dentry_mblock,
  s_free_dentry_count, s_first_bgroup_desc_mblock, s_bgroup_desc_size, s_bgroup_desc_per_mb_count,
  s_first_metablock, s_metablock_count, s_free_metablock_count, s_metablock_size, s_metadata_block_bitmap,
  h_prev, h_next, mb_block_type, mb_union in *.

(** Case analysis on a member of a list of fields. *)
Ltac field_cases H :=
  unfold base_fields in H; repeat (apply elem_of_cons in H as [->|H]; [sup_unfold; lia|]); by apply elem_of_nil in H.

Ltac in_fields := apply (bool_decide_unpack _); by vm_compute.

(** Read a field of a page behind a sequence of stores to fields. *)
Ltac read_fields := repeat first [rewrite le_read_write_same | rewrite le_read_write_disjoint by (sup_unfold; lia)].

Lemma sup_kept_trans q q' q'' : sup_kept q q' -> sup_kept q' q'' -> sup_kept q q''.
Proof. intros H H' x Hx. by rewrite H', H. Qed.

Lemma sup_kept_read q q' o :
  sup_kept q q' -> o + 4 <= s_free_metablock_count \/ o = s_metablock_size -> le_read 4 (p_get q') o = le_read 4 (p_get q) o.
Proof. intros H Ho. apply le_read_ext. intros x Hx. rewrite H; [done|]. sup_unfold. lia. Qed.

Lemma sup_room msize nb q m : sup_ok msize nb q m -> 92 < msize.
Proof. intros [S (lim & _ & [[L1 L2 L3 L4] ? ? ? ? ? ? ?] & _) _ _]. bm_unfold. sup_unfold. lia. Qed.

Lemma sup_used msize nb q m : sup_ok msize nb q m -> 0 <= m <= 8 * nb.
Proof. intros [S (lim & _ & [? ? ? ? ? ? ? ?] & _) U _]. rewrite U in *. lia. Qed.

(** A store in the fixed fields, not to the metadata block size. *)
Lemma sup_store msize nb q m o v :
  sup_ok msize nb q m -> 0 <= o -> o + 4 <= s_metablock_size ->
  sup_ok msize nb (Page (p_size q) (le_write 4 (p_get q) o v)) m.
Proof.
  intros [S (lim & HL & B) U Z] H1 H2. destruct (packed_ext lim q (Page (p_size q) (le_write 4 (p_get q) o v)) s_metadata_block_bitmap nb)
    as [B' U']; [done| |done|].
  { intros x Hx. cbn [p_get]. apply le_write_outside. sup_unfold. lia. }
  split; [done|by exists lim|by rewrite U'|]. cbn [p_get]. rewrite le_read_write_disjoint; [done|]. sup_unfold. lia.
Qed.

(** Taking the first free metadata block. *)
Lemma sup_take msize nb q m :
  sup_ok msize nb q m -> m + 1 < 8 * nb ->
  exists q1, bitmap_get_first_free q (Some s_metadata_block_bitmap) = Some (q1, m) /\ sup_ok msize nb q1 (m + 1) /\
    (forall x, x < s_metadata_block_bitmap -> p_get q1 x = p_get q x).
Proof.
  intros [S (lim & HL & B) U Z] Hm. destruct (packed_step lim q s_metadata_block_bitmap nb B) as (q1 & E & B1 & U1 & S1 & F1); [lia|].
  rewrite U in *. assert (F : forall x, x < s_metadata_block_bitmap -> p_get q1 x = p_get q x).
  { intros x Hx. apply F1. bm_unfold. lia. }
  exists q1. split; [done|]. split; [|done]. split; [congruence|by exists lim|done|].
  rewrite <- Z. apply le_read_ext. intros x Hx. rewrite F; [done|]. sup_unfold. lia.
Qed.

Lemma page_below s a p : mem_ok s -> f_pages s !! a = Some p -> a < a_next (f_alloc s).
Proof.
  intros M E. destruct (Z.lt_ge_cases a (a_next (f_alloc s))); [done|]. rewrite (mo_pages _ M) in E by lia. done.
Qed.

Lemma bbuf_below s r b : mem_ok s -> f_bbufs s !! r = Some b -> r < a_next (f_alloc s).
Proof.
  intros M E. destruct (Z.lt_ge_cases r (a_next (f_alloc s))); [done|]. rewrite (mo_bbufs _ M) in E by lia. done.
Qed.

(** ** Chains of buffers *)

Section Chain.
Context (Q : bbuf -> page -> Z -> Z -> Prop).

(** The buffers of consecutive blocks from [m] on, linked in memory and on the disk;
    [Q b p m nxt] holds of every buffer [b] and page [p] of a block [m] with the next
    block [nxt], which is the given one for the last block. *)
Fixpoint block_chain (s : fs) (cur : Z) (l : list (Z * bbuf * page)) (m nxt : Z) : Prop :=
  match l with
  | [] => cur = NULL
  | (r, b, p) :: l =>
      cur = r /\ r <> NULL /\ f_bbufs s !! r = Some b /\ f_pages s !! b_data b = Some p /\
      Q b p m (match l with [] => nxt | _ => m + 1 end) /\ block_chain s (b_this_page b) l (m + 1) nxt
  end.

Definition chain_data (l : list (Z * bbuf * page)) : list Z := (fun x => b_data (snd (fst x))) <$> l.

Lemma chain_data_cons lo lo' r b p l :
  lo <= b_data b < lo' -> Forall (fun x => lo' <= x) (chain_data l) -> NoDup (chain_data l) ->
  Forall (fun x => lo <= x) (chain_data ((r, b, p) :: l)) /\ NoDup (chain_data ((r, b, p) :: l)).
Proof.
  intros H F N. clear -H F N. unfold chain_data in *. rewrite fmap_cons. cbn [fst snd]. split.
  - apply Forall_cons. split; [lia|]. eapply Forall_impl; [exact F|]. cbn. lia.
  - apply NoDup_cons. split; [|done]. intros Hin. rewrite Forall_forall in F. apply F in Hin. lia.
Qed.

Lemma block_chain_frame s s' l : forall cur m nxt,
  block_chain s cur l m nxt -> (forall x, is_Some (f_bbufs s !! x) -> f_bbufs s' !! x = f_bbufs s !! x) ->
  (forall x, x ∈ chain_data l -> f_pages s' !! x = f_pages s !! x) -> block_chain s' cur l m nxt.
Proof.
  induction l as [|[[r b] p] l IH]; intros cur m nxt C HB HP; [done|].
  destruct C as (-> & Nr & Eb & Ep & Bk & C). cbn [block_chain]. rewrite HB, HP, Eb by (by left || eauto).
  do 5 (split; [done|]). apply IH; [done|done|]. intros x Hx. apply HP. by right.
Qed.

Lemma block_chain_page s l : forall cur m nxt x,
  block_chain s cur l m nxt -> x ∈ chain_data l -> is_Some (f_pages s !! x).
Proof.
  induction l as [|[[r b] p] l IH]; intros cur m nxt x C Hx; [by apply elem_of_nil in Hx|].
  destruct C as (-> & _ & Eb & Ep & _ & C). apply elem_of_cons in Hx as [->|Hx]; [eauto|by eapply IH].
Qed.

(** The buffers and pages of a chain. *)
Definition chain_blocks (l : list (Z * bbuf * page)) : list (bbuf * page) := (fun x => (snd (fst x), snd x)) <$> l.

Lemma block_chain_blist s l : forall cur m nxt, block_chain s cur l m nxt -> blist s cur (chain_blocks l).
Proof.
  induction l as [|[[r b] p] l IH]; intros cur m nxt C; [done|].
  destruct C as (-> & _ & Eb & Ep & _ & C). cbn. split; [done|]. split; [done|]. by eapply IH.
Qed.

Lemma block_chain_bchain s l : forall cur m nxt,
  block_chain s cur l m nxt -> bchain s cur ((fun x => fst (fst x)) <$> l) (chain_data l).
Proof.
  induction l as [|[[r b] p] l IH]; intros cur m nxt C; [done|].
  destruct C as (-> & Nr & Eb & _ & _ & C). cbn. split; [done|]. split; [done|]. exists b.
  split; [done|]. split; [done|]. by eapply IH.
Qed.

Lemma block_chain_lookup s l : forall cur m nxt i r b p,
  block_chain s cur l m nxt -> l !! i = Some (r, b, p) ->
  f_pages s !! b_data b = Some p /\ Q b p (m + Z.of_nat i) (if decide (S i < length l)%nat then m + Z.of_nat i + 1 else nxt).
Proof.
  induction l as [|[[r0 b0] p0] l IH]; intros cur m nxt i r b p C Hi; [done|].
  destruct C as (-> & _ & Eb & Ep & Bk & C). destruct i as [|i]; cbn in Hi.
  - simplify_eq. rewrite Z.add_0_r. destruct l; cbn [length]; [rewrite decide_False by lia|rewrite decide_True by lia]; done.
  - specialize (IH _ _ _ i r b p C Hi). replace (m + Z.of_nat (S i)) with (m + 1 + Z.of_nat i) by lia.
    cbn [length]. destruct (decide (S i < length l)%nat); [rewrite decide_True by lia|rewrite decide_False by lia]; done.
Qed.

Lemma block_chain_nrs s l : (forall b p m nxt, Q b p m nxt -> b_blocknr b = m) -> forall cur m nxt,
  block_chain s cur l m nxt -> b_blocknr ∘ fst <$> chain_blocks l = seqZ m (Z.of_nat (length l)).
Proof.
  intros HQ. induction l as [|[[r b] p] l IH]; intros cur m nxt C; [done|].
  destruct C as (-> & _ & Eb & Ep & Bk & C). cbn [length chain_blocks fmap list_fmap]. rewrite seqZ_cons by lia.
  f_equal; [by eapply HQ|]. replace (Z.succ m) with (m + 1) by lia. replace (Z.pred _) with (Z.of_nat (length l)) by lia. by eapply IH.
Qed.
End Chain.

Section Metablocks.
Context (msize nbm sb : Z).
Context (Hmsize : msize < 4294967296) (Hnbm : 8 * nbm < 4294967296).

(** [userfs_get_new_metadata_block] gives block [m], the next one. *)
Lemma new_mb_run s ty q m k :
  mem_ok s -> fl_head (f_mfree s) = NULL -> 0 <= k -> room (f_alloc s) (72 + msize + k) ->
  f_pages s !! sb = Some q -> sup_ok msize nbm q m -> m + 1 < 8 * nbm ->
  exists r data q' s', userfs_get_new_metadata_block sb ty s = Some (r, s') /\ (r =? NULL) = false /\
    grown s s' /\ room (f_alloc s') k /\
    a_next (f_alloc s) <= r < a_next (f_alloc s') /\ a_next (f_alloc s) <= data < a_next (f_alloc s') /\
    f_bbufs s' = <[r := Bbuf 0 1 ty m 0 msize data]> (f_bbufs s) /\
    f_pages s' = <[sb := q']> (<[data := Page msize (f_garbage s data)]> (f_pages s)) /\
    sup_ok msize nbm q' (m + 1) /\ sup_kept q q'.
Proof.
  intros M Hl Hk R Eq Sq Hm. pose proof (sup_room _ _ _ _ Sq) as Hr. pose proof (page_below s sb q M Eq) as Hsb.
  pose proof (sup_used _ _ _ _ Sq) as H0.
  unfold userfs_get_new_metadata_block.
  erewrite bind_run; [|eapply sb_ld; [exact Eq|done|rewrite (su_size _ _ _ _ Sq); sup_unfold; lia]].
  rewrite (su_msize _ _ _ _ Sq).
  destruct (alloc_mbbuf_run s msize k M Hl ltac:(lia) Hk R) as (r & data & a & E & Nr & H1 & H2 & H3 & R').
  rewrite (bind_run _ _ _ _ _ E). rewrite Nr. set (s1 := with_block _ _ _ _ _).
  assert (Eq1 : f_pages s1 !! sb = Some q) by (cbn; by rewrite lookup_insert_ne by lia).
  destruct (sup_take _ _ _ _ Sq Hm) as (q1 & B1 & S1 & F1).
  rewrite (bind_run _ _ _ _ _ (bm_get_first_free_run s1 sb _ q q1 m Eq1 B1)).
  rewrite (u32_small m) by lia. change (u32 (-1)) with 4294967295. zdec.
  assert (Ho : 0 <= s_free_metablock_count /\ s_free_metablock_count + Z.of_nat 4 <= p_size q1).
  { rewrite (su_size _ _ _ _ S1). sup_unfold. lia. }
  rewrite (bind_run _ _ _ _ _ (ld_at 4 sb s_free_metablock_count s1 _ q1 (proj1 Ho) (proj2 Ho))).
  rewrite (bind_run _ _ _ _ _ (st_at 4 sb s_free_metablock_count _ s1 _ q1 (proj1 Ho) (proj2 Ho))).
  set (q2 := Page _ _). do 3 (erewrite bind_run; [|apply bb_set_run; apply lookup_insert_eq]).
  eexists r, data, q2, _. split; [done|]. split; [done|].
  cbn [f_bbufs f_pages f_alloc with_pages with_bbufs s1 with_block with_alloc b_data]. rewrite !insert_insert_eq.
  split; [|split; [done|split; [lia|split; [lia|split; [done|split; [done|split]]]]]].
  - apply (grown_trans s s1).
    { apply grown_block; [done|by apply (room_ok a k)|lia|lia|cbn; lia]. }
    assert (M1 : mem_ok s1) by (apply grown_block; [done|by apply (room_ok a k)|lia|lia|cbn; lia]).
    apply (grown_update s1); try done; intros x.
    + apply insert_other.
    + by apply (insert_known (f_pages s1) sb q).
  - apply sup_store; [done|lia|]. sup_unfold. lia.
  - intros x Hx. cbn [p_get q2]. rewrite le_write_outside by (sup_unfold; lia). apply F1. sup_unfold. lia.
Qed.

(** ** The descriptor blocks *)

Context (bpg nbg pm : Z).
Context (Hbpg : bpg = 8 * nbg) (Hnbg : 0 < nbg) (Hbpg16 : bpg < 65536) (Hpm : 0 < pm).
Context (Hfit : sizeof_mblock + pm * (sizeof_bgroup_desc + nbg + 1) <= msize).

(** A descriptor block with [lim] groups; [tk i] blocks of its group [i] are taken, and
    the block after it is [nxt]. *)
Record bgd_page (tk : Z -> Z) (lim : Z) (p : page) (nxt : Z) : Prop := {
  bp_size : p_size p = msize;
  bp_next : le_read 4 (p_get p) h_next = nxt;
  bp_type : le_read 4 (p_get p) mb_block_type = USERFS_BTYPE_BGROUP_DESC;
  bp_groups : forall i, 0 <= i < pm -> i < lim -> let o := mb_union + i * (sizeof_bgroup_desc + nbg + 1) in
    packed (bpg - 1) p (o + bg_block_bm) nbg /\ first p (o + bg_block_bm) = tk i /\
    le_read 2 (p_get p) (o + bg_free_block_count) = bpg - tk i }.

(** Fresh groups. *)
Definition none_taken (_ : Z) : Z := 0.

(** The same bytes are the same block. *)
Lemma bgd_page_agree tk lim p p' nxt nxt' :
  bgd_page tk lim p nxt -> p_size p' = msize -> le_read 4 (p_get p') h_next = nxt' ->
  (forall x, mb_block_type <= x < msize -> p_get p' x mod 256 = p_get p x mod 256) -> bgd_page tk lim p' nxt'.
Proof.
  clear Hmsize Hnbm Hbpg Hbpg16. intros [S N T F] S' N' A. unfold sizeof_mblock, sizeof_bgroup_desc in *.
  split; [done|done| |].
  - rewrite <- T. apply le_read_ext. intros x Hx. apply A. sup_unfold. nia.
  - intros i Hi Hlim. destruct (F i Hi Hlim) as (P & Z & R). assert (0 <= i * (16 + nbg + 1)) by nia.
    assert (i * (16 + nbg + 1) + (16 + nbg + 1) <= pm * (16 + nbg + 1)) by nia.
    unfold mb_union, bg_block_bm, bg_free_block_count, mb_block_type, sizeof_bgroup_desc in *.
    destruct (packed_agree (bpg - 1) p p' (12 + i * (16 + nbg + 1) + 4) nbg) as [P' Z']; [congruence| |done|].
    { intros x Hx _. apply A. bm_unfold. lia. }
    split; [done|]. split; [congruence|]. rewrite <- R. apply le_read_ext. intros x Hx. apply A. lia.
Qed.

Lemma bgd_page_link tk lim p nxt v :
  bgd_page tk lim p nxt -> bgd_page tk lim (Page (p_size p) (le_write 4 (p_get p) h_next v)) (u32 v).
Proof.
  intros P. apply (bgd_page_agree tk lim p _ nxt); [done|apply P| |].
  - cbn [p_get]. by rewrite le_read_write_same.
  - intros x Hx. cbn [p_get]. rewrite le_write_outside; [done|]. sup_unfold. lia.
Qed.

(** Block [m] in the buffer [b] with the page [p]. *)
Definition bgd_block (b : bbuf) (p : page) (m nxt : Z) : Prop :=
  b_blocknr b = m /\ b_size b = msize /\ b_type b = USERFS_BTYPE_BGROUP_DESC /\ bgd_page none_taken pm p nxt.

(** The descriptor blocks in memory, all of them fresh. *)
Definition bgd_chain : fs -> Z -> list (Z * bbuf * page) -> Z -> Z -> Prop := block_chain bgd_block.

(** A new metadata block filled with fresh groups. *)
Lemma bgd_fill s r b data prv nxt :
  f_bbufs s !! r = Some b -> b_data b = data -> f_pages s !! data = Some (Page msize (f_garbage s data)) ->
  exists p, userfs_bgroup_desc_block_init r bpg pm (sizeof_bgroup_desc + nbg + 1) prv nxt s =
      Some (tt, with_pages s (<[data := p]> (f_pages s))) /\ bgd_page none_taken pm p (u32 nxt).
Proof.
  intros Eb <- Ep.
  destruct (bgd_block_run msize bpg nbg pm s r b _ prv nxt Hbpg Hnbg Hbpg16 Hpm Hfit Eb Ep eq_refl) as (p & E & S & N & T & F).
  exists p. split; [done|]. split; try done. intros i Hi _. unfold none_taken. rewrite Z.sub_0_r. by apply F.
Qed.

(** The list head [lh] counts [c] buffers. *)
Definition counted (lh c x : Z) (o : option bbuf) : option bbuf :=
  if decide (x = lh) then set_list_len c <$> o else o.

Lemma counted_twice lh c c' x o : counted lh c' x (counted lh c x o) = counted lh c' x o.
Proof. unfold counted. destruct (decide (x = lh)); [|done]. by destruct o. Qed.

(** A new descriptor block, number [m]. *)
Lemma bgd_new_run s q m k prv nxt :
  mem_ok s -> fl_head (f_mfree s) = NULL -> 0 <= k -> room (f_alloc s) (72 + msize + k) ->
  f_pages s !! sb = Some q -> sup_ok msize nbm q m -> m + 1 < 8 * nbm ->
  exists r data p q' s1 s2,
    let b := Bbuf 0 1 USERFS_BTYPE_BGROUP_DESC m 0 msize data in
    userfs_get_new_metadata_block sb USERFS_BTYPE_BGROUP_DESC s = Some (r, s1) /\ (r =? NULL) = false /\
    f_bbufs s1 !! r = Some b /\
    userfs_bgroup_desc_block_init r bpg pm (sizeof_bgroup_desc + nbg + 1) prv nxt s1 = Some (tt, s2) /\
    grown s s2 /\ room (f_alloc s2) k /\ a_next (f_alloc s) <= r /\ a_next (f_alloc s) <= data /\
    f_bbufs s2 = <[r := b]> (f_bbufs s) /\
    f_pages s2 !! data = Some p /\ bgd_page none_taken pm p (u32 nxt) /\
    (forall x, x < a_next (f_alloc s) -> x <> sb -> f_pages s2 !! x = f_pages s !! x) /\
    f_pages s2 !! sb = Some q' /\ sup_ok msize nbm q' (m + 1) /\ sup_kept q q'.
Proof.
  intros M Hl Hk R Eq Sq Hm. pose proof (page_below s sb q M Eq) as Hsb.
  destruct (new_mb_run s USERFS_BTYPE_BGROUP_DESC q m k M Hl Hk R Eq Sq Hm)
    as (r & data & q' & s1 & E1 & Nr & G1 & R1 & Hr & Hdt & B1 & P1 & Sq' & K').
  set (b := Bbuf _ _ _ _ _ _ _) in *.
  assert (Eb1 : f_bbufs s1 !! r = Some b) by (rewrite B1; apply lookup_insert_eq).
  assert (Ep1 : f_pages s1 !! data = Some (Page msize (f_garbage s1 data))).
  { rewrite P1, lookup_insert_ne, lookup_insert_eq, (gr_garbage _ _ G1) by lia. done. }
  destruct (bgd_fill s1 r b data prv nxt) as (p & E2 & Pp); try done.
  exists r, data, p, q', s1, (with_pages s1 (<[data := p]> (f_pages s1))). intros b'.
  split; [done|]. split; [done|]. split; [done|]. split; [done|].
  split; [apply (grown_trans s s1); [done|]; apply grown_update; try done; [apply G1|]|].
  { intros x. by apply (insert_known (f_pages s1) data (Page msize (f_garbage s1 data))). }
  split; [done|]. split; [lia|]. split; [lia|]. split; [done|]. cbn [f_pages with_pages].
  split; [apply lookup_insert_eq|]. split; [done|]. split.
  - intros x Hx Nx. by rewrite P1, !lookup_insert_ne by lia.
  - by rewrite P1, lookup_insert_ne, lookup_insert_eq by lia.
Qed.

(** Linking the block behind [last]. *)
Lemma bgd_link_run s lh last bl pl hl r m nxt :
  mem_ok s -> f_bbufs s !! last = Some bl -> f_pages s !! b_data bl = Some pl -> bgd_page none_taken pm pl (u32 nxt) ->
  f_bbufs s !! lh = Some hl -> 0 <= b_list_len hl < 65535 ->
  exists s', (forall A (f : fsM A),
      (l ← bb last; st 4 (b_data l) h_next m;;; bb_set last (set_this_page r);;;
       bb_set lh (fun x => set_list_len (u16 (b_list_len x + 1)) x);;; f) s = f s') /\
    grown s s' /\ f_alloc s' = f_alloc s /\
    (forall x, f_bbufs s' !! x = counted lh (b_list_len hl + 1) x
       (if decide (x = last) then Some (set_this_page r bl) else f_bbufs s !! x)) /\
    f_pages s' = <[b_data bl := Page (p_size pl) (le_write 4 (p_get pl) h_next m)]> (f_pages s).
Proof.
  intros M El Ep Pl Eh Hc.
  set (s1 := with_pages s (<[b_data bl := Page (p_size pl) (le_write 4 (p_get pl) h_next m)]> (f_pages s))).
  set (s2 := with_bbufs s1 (<[last := set_this_page r bl]> (f_bbufs s))).
  assert (Eh2 : exists h, f_bbufs s2 !! lh = Some h /\ b_list_len h = b_list_len hl).
  { cbn. destruct (decide (lh = last)) as [->|]; [rewrite lookup_insert_eq|rewrite lookup_insert_ne by done; eauto].
    eexists. split; [done|]. rewrite El in Eh. by injection Eh as <-. }
  destruct Eh2 as (h & Eh2 & Ec).
  exists (with_bbufs s2 (<[lh := set_list_len (b_list_len hl + 1) h]> (f_bbufs s2))). split; [|split; [|split; [done|split; [|done]]]].
  - intros A f. rewrite (bind_run _ _ _ _ _ (bb_run last s bl El)).
    erewrite bind_run; [|eapply st_run; [exact Ep|apply store_in; rewrite ?(bp_size _ _ _ _ Pl); unfold sizeof_mblock, sizeof_bgroup_desc in *; sup_unfold; nia]].
    rewrite (bind_run _ _ _ _ _ (bb_set_run last (set_this_page r) s1 bl El)).
    rewrite (bind_run _ _ _ _ _ (bb_set_run lh _ s2 h Eh2)). by rewrite Ec, u16_small by lia.
  - apply grown_update; try done; intros x.
    + intros Hx. apply (insert_known _ _ _ _ _ Eh2) in Hx. by apply (insert_known (f_bbufs s) last bl) in Hx.
    + by apply (insert_known (f_pages s) _ pl).
  - intros x. unfold counted. cbn in Eh2 |- *. destruct (decide (x = lh)) as [->|].
    + rewrite lookup_insert_eq. destruct (decide (lh = last)) as [->|].
      * rewrite lookup_insert_eq in Eh2. by injection Eh2 as <-.
      * rewrite lookup_insert_ne in Eh2 by done. by rewrite Eh2.
    + rewrite lookup_insert_ne by done. destruct (decide (x = last)) as [->|]; [by rewrite lookup_insert_eq|by rewrite lookup_insert_ne].
Qed.

Lemma counted_self lh hl x o : (x = lh -> o = Some hl) -> counted lh (b_list_len hl) x o = o.
Proof. intros H. unfold counted. destruct (decide (x = lh)) as [E|]; [|done]. rewrite (H E). by destruct hl. Qed.

Lemma counted_block lh c x b p m nxt b' :
  bgd_block b p m nxt -> counted lh c x (Some b) = Some b' ->
  bgd_block b' p m nxt /\ b_this_page b' = b_this_page b /\ b_data b' = b_data b /\ (x = lh -> b_list_len b' = c).
Proof.
  unfold counted, bgd_block. intros H E. destruct (decide (x = lh)); cbn in E; injection E as <-; by destruct b.
Qed.

Lemma bgd_block_linked b p m nxt r v :
  bgd_block b p m nxt -> bgd_block (set_this_page r b) (Page (p_size p) (le_write 4 (p_get p) h_next v)) m (u32 v).
Proof. intros (? & ? & ? & ?). repeat (split; [done|]). by eapply bgd_page_link. Qed.

(** One turn of the loop: block [m] behind [last]. *)
Lemma bgd_step_run n s lh last bl pl hl q m k prv nxt :
  mem_ok s -> fl_head (f_mfree s) = NULL -> 0 <= k -> room (f_alloc s) (72 + msize + k) ->
  f_pages s !! sb = Some q -> sup_ok msize nbm q m -> m + 1 < 8 * nbm ->
  f_bbufs s !! last = Some bl -> f_pages s !! b_data bl = Some pl -> b_data bl <> sb ->
  bgd_block bl pl (m - 1) (u32 nxt) ->
  f_bbufs s !! lh = Some hl -> 0 <= b_list_len hl < 65535 ->
  exists r data p hl' q' s',
    bgd_table_loop (S n) sb lh last bpg pm (sizeof_bgroup_desc + nbg + 1) prv nxt s =
      bgd_table_loop n sb lh r bpg pm (sizeof_bgroup_desc + nbg + 1) m nxt s' /\
    r <> NULL /\ grown s s' /\ room (f_alloc s') k /\ a_next (f_alloc s) <= r /\ a_next (f_alloc s) <= data /\
    f_bbufs s' !! r = Some (Bbuf 0 1 USERFS_BTYPE_BGROUP_DESC m 0 msize data) /\
    (forall x, x < a_next (f_alloc s) -> f_bbufs s' !! x = counted lh (b_list_len hl + 1) x
       (if decide (x = last) then Some (set_this_page r bl) else f_bbufs s !! x)) /\
    f_bbufs s' !! lh = Some hl' /\ b_list_len hl' = b_list_len hl + 1 /\
    f_pages s' !! data = Some p /\ bgd_page none_taken pm p (u32 nxt) /\
    f_pages s' !! b_data bl = Some (Page (p_size pl) (le_write 4 (p_get pl) h_next m)) /\
    (forall x, x < a_next (f_alloc s) -> x <> sb -> x <> b_data bl -> f_pages s' !! x = f_pages s !! x) /\
    f_pages s' !! sb = Some q' /\ sup_ok msize nbm q' (m + 1) /\ sup_kept q q'.
Proof.
  intros M Hl Hk R Eq Sq Hm El Ep Nd Bl Eh Hc.
  pose proof (page_below s sb q M Eq) as Hsb. pose proof (page_below s _ pl M Ep) as Hd.
  pose proof (bbuf_below s last bl M El) as Hlast. pose proof (bbuf_below s lh hl M Eh) as Hlh.
  destruct (bgd_new_run s q m k prv nxt)
    as (r & data & p & q1 & s1 & s2 & E1 & Nr & Eb1 & E2 & G2 & R2 & Hr & Hdt & B2 & Pd & Pp & F2 & Eq2 & Sq2 & K2); try done.
  set (b := Bbuf _ _ _ _ _ _ _) in *. cbn [bgd_table_loop].
  rewrite (bind_run _ _ _ _ _ E1). rewrite Nr. rewrite (bind_run _ _ _ _ _ E2).
  assert (Eb2 : f_bbufs s2 !! r = Some b) by (rewrite B2; apply lookup_insert_eq).
  rewrite (bind_run _ _ _ _ _ (bb_run r s2 b Eb2)).
  assert (L2 : forall x, x < a_next (f_alloc s) -> f_bbufs s2 !! x = f_bbufs s !! x)
    by (intros x Hx; by rewrite B2, lookup_insert_ne by lia).
  destruct (bgd_link_run s2 lh last bl pl hl r m nxt) as (s3 & E3 & G3 & A3 & L3 & P3);
    rewrite ?L2, ?F2 by done; try done; [apply G2|apply Bl|].
  assert (L4 : forall x, x < a_next (f_alloc s) -> f_bbufs s3 !! x = counted lh (b_list_len hl + 1) x
       (if decide (x = last) then Some (set_this_page r bl) else f_bbufs s !! x)).
  { intros x Hx. rewrite L3. by rewrite L2. }
  assert (Eh3 : exists h, f_bbufs s3 !! lh = Some h /\ b_list_len h = b_list_len hl + 1).
  { rewrite (L4 lh Hlh), Eh. unfold counted. rewrite decide_True by done. destruct (decide (lh = last)); by eexists. }
  destruct Eh3 as (h & Eh3 & Ec). exists r, data, p, h, q1, s3. split; [apply E3|]. split; [by apply Z.eqb_neq in Nr|].
  split; [by apply (grown_trans s s2)|]. split; [by rewrite A3|]. split; [done|]. split; [done|].
  split; [rewrite L3; unfold counted; rewrite !decide_False by lia; exact Eb2|]. split; [exact L4|].
  split; [done|]. split; [done|].
  rewrite !P3. split; [by rewrite lookup_insert_ne by lia|]. split; [done|]. split; [by rewrite lookup_insert_eq|].
  split; [intros x Hx N1 N2; rewrite lookup_insert_ne by done; by apply F2|]. by rewrite lookup_insert_ne by done.
Qed.

(** The whole loop: [n] more blocks behind [last]. *)
Lemma bgd_table_loop_run n : forall s lh last bl pl hl q m k prv nxt,
  mem_ok s -> fl_head (f_mfree s) = NULL -> 0 <= k ->
  room (f_alloc s) (Z.of_nat n * (72 + msize) + k) ->
  f_pages s !! sb = Some q -> sup_ok msize nbm q m -> m + Z.of_nat n < 8 * nbm ->
  f_bbufs s !! last = Some bl -> f_pages s !! b_data bl = Some pl -> b_data bl <> sb -> last <> NULL ->
  bgd_block bl pl (m - 1) (u32 nxt) -> b_this_page bl = NULL ->
  f_bbufs s !! lh = Some hl -> 0 <= b_list_len hl -> b_list_len hl + Z.of_nat n < 65536 ->
  exists b p l q' s', bgd_table_loop n sb lh last bpg pm (sizeof_bgroup_desc + nbg + 1) prv nxt s = Some (tt, s') /\
    grown s s' /\ room (f_alloc s') k /\
    bgd_chain s' last ((last, b, p) :: l) (m - 1) (u32 nxt) /\ b_data b = b_data bl /\ length l = n /\
    Forall (fun x => a_next (f_alloc s) <= x) (chain_data l) /\ NoDup (chain_data l) /\
    (last = lh -> b_list_len b = b_list_len hl + Z.of_nat n) /\
    (forall x, x < a_next (f_alloc s) -> x <> last ->
       f_bbufs s' !! x = counted lh (b_list_len hl + Z.of_nat n) x (f_bbufs s !! x)) /\
    (forall x, x < a_next (f_alloc s) -> x <> sb -> x <> b_data bl -> f_pages s' !! x = f_pages s !! x) /\
    f_pages s' !! sb = Some q' /\ sup_ok msize nbm q' (m + Z.of_nat n) /\ sup_kept q q'.
Proof.
  induction n as [|n IH]; intros s lh last bl pl hl q m k prv nxt M Hl Hk R Eq Sq Hm El Ep Nd Nl Bl Tl Eh Hc0 Hc.
  { exists bl, pl, [], q, s. rewrite Z.add_0_r, Z.add_0_r. cbn [block_chain chain_data fmap list_fmap length].
    split; [done|]. split; [by apply grown_refl|]. split; [done|]. split; [done|]. split; [done|]. split; [done|].
    split; [by constructor|]. split; [by constructor|]. split; [intros <-; congruence|].
    split; [|done]. intros x Hx _. symmetry. apply counted_self. by intros ->. }
  pose proof (page_below s sb q M Eq) as Hsb. pose proof (page_below s _ pl M Ep) as Hd.
  pose proof (bbuf_below s last bl M El) as Hlast. pose proof (bbuf_below s lh hl M Eh) as Hlh.
  assert (0 <= Z.of_nat n * (72 + msize)) by (pose proof (sup_room _ _ _ _ Sq); nia).
  destruct (bgd_step_run n s lh last bl pl hl q m (Z.of_nat n * (72 + msize) + k) prv nxt)
    as (r & data & p & hl' & q1 & s1 & E1 & Nr & G1 & R1 & Hr & Hdt & Er & L1 & Eh1 & Ec1 & Pd & Pp & Pl & F1 & Eq1 & Sq1 & K1);
    try done; try lia.
  { replace (72 + msize + _) with (Z.of_nat (S n) * (72 + msize) + k) by lia. done. }
  rewrite E1. set (b := Bbuf _ _ _ _ _ _ _) in *.
  assert (Bb : bgd_block b p (m + 1 - 1) (u32 nxt)) by (split; [cbn; lia|done]).
  destruct (IH s1 lh r b p hl' q1 (m + 1) k m nxt)
    as (b' & p' & l & q' & s' & E & G & R' & C & Ed & Ln & Hda & ND & _ & LB & LP & Eq' & Sq' & K'); try done; try lia.
  { apply G1. } { by rewrite (gr_mfree _ _ G1). } { cbn. lia. }
  pose proof (gr_next _ _ G1) as Hn1. rewrite E, Ec1 in *.
  assert (HB : forall x, x < a_next (f_alloc s) -> f_bbufs s' !! x = counted lh (b_list_len hl + Z.of_nat (S n)) x
       (if decide (x = last) then Some (set_this_page r bl) else f_bbufs s !! x)).
  { intros x Hx. rewrite LB by lia. rewrite L1 by done. rewrite counted_twice. f_equal. lia. }
  assert (HP : f_pages s' !! b_data bl = Some (Page (p_size pl) (le_write 4 (p_get pl) h_next m))).
  { rewrite LP; [done|lia|done|cbn; lia]. }
  pose proof (HB last Hlast) as Elast. rewrite decide_True in Elast by done.
  destruct (counted lh _ last _) as [bl'|] eqn:Cl; [|by unfold counted in Cl; destruct (decide (last = lh))].
  pose proof (sup_used _ _ _ _ Sq) as H0.
  pose proof (bgd_block_linked bl pl (m - 1) (u32 nxt) r m Bl) as Bk. rewrite u32_small in Bk by lia.
  destruct (counted_block _ _ _ _ _ _ _ _ Bk Cl) as (Bk' & T' & D' & C').
  cbn [b_data set_this_page b_this_page] in D', T'. replace (m + 1 - 1) with m in C by lia.
  exists bl', (Page (p_size pl) (le_write 4 (p_get pl) h_next m)), ((r, b', p') :: l), q', s'.
  split; [done|]. split; [by apply (grown_trans s s1)|]. split; [done|]. split.
  { unfold bgd_chain; cbn [block_chain]. rewrite D', T'. replace (m - 1 + 1) with m by lia. do 5 (split; [done|]). exact C. }
  pose proof (page_below _ _ _ (gr_mem _ _ G1) Pd).
  destruct (chain_data_cons (a_next (f_alloc s)) (a_next (f_alloc s1)) r b' p' l) as [D1 D2]; [rewrite Ed; cbn; lia|done|done|].
  split; [done|]. split; [cbn; lia|]. split; [done|]. split; [done|].
  split; [done|]. split; [intros x Hx Nx; rewrite HB, decide_False by done; done|].
  split; [|split; [done|split; [|by eapply sup_kept_trans]]].
  - intros x Hx N1 N2. rewrite LP; [by apply F1|lia|done|cbn; lia].
  - by replace (m + Z.of_nat (S n)) with (m + 1 + Z.of_nat n) by lia.
Qed.

(** The super block page after the descriptors have been set up. *)
Record bgd_super (q : page) (m cnt : Z) : Prop := {
  bs_first : le_read 4 (p_get q) s_first_bgroup_desc_mblock = m;
  bs_count : le_read 4 (p_get q) s_data_block_group_count = cnt;
  bs_blocks : le_read 4 (p_get q) s_data_block_per_group = bpg;
  bs_per_mb : le_read 4 (p_get q) s_bgroup_desc_per_mb_count = pm;
  bs_size : le_read 4 (p_get q) s_bgroup_desc_size = sizeof_bgroup_desc + nbg + 1 }.

(** The stores at the end of [userfs_bgroup_desc_table_init]. *)
Lemma bgd_super_run s q m m' cnt (r : Z) :
  f_pages s !! sb = Some q -> sup_ok msize nbm q m' ->
  le_read 4 (p_get q) s_first_bgroup_desc_mblock = m -> 0 <= cnt < 4294967296 -> msize < 4294967296 ->
  exists q', (st 4 sb s_data_block_group_count cnt;;; st 4 sb s_data_block_per_group bpg;;;
      n ← ld 4 sb s_data_block_group_count;
      st 4 sb s_free_data_block_group_count n;;;
      st 4 sb s_bgroup_desc_per_mb_count pm;;;
      st 4 sb s_bgroup_desc_size (sizeof_bgroup_desc + nbg + 1);;; mret r) s =
      Some (r, with_pages s (<[sb := q']> (f_pages s))) /\
    sup_ok msize nbm q' m' /\ bgd_super q' m cnt /\
    (forall o, o ∈ base_fields -> le_read 4 (p_get q') o = le_read 4 (p_get q) o).
Proof.
  intros Eq Sq E0 Hc Hms. pose proof (sup_room _ _ _ _ Sq) as Hr. pose proof (su_size _ _ _ _ Sq) as Hs.
  rewrite (run_at _ s sb q Eq). unfold sizeof_mblock, sizeof_bgroup_desc in *.
  do 2 (erewrite bind_run; [|apply st_at; cbn [p_size]; sup_unfold; lia]).
  erewrite bind_run; [|apply ld_at; cbn [p_size]; sup_unfold; lia].
  do 3 (erewrite bind_run; [|apply st_at; cbn [p_size]; sup_unfold; lia]).
  eexists. split; [done|]. split; [repeat (apply sup_store; [|sup_unfold; lia..]); done|].
  assert (0 < pm * (16 + nbg + 1) <= msize) by nia. assert (pm <= pm * (16 + nbg + 1)) by nia.
  assert (16 + nbg + 1 <= pm * (16 + nbg + 1)) by nia.
  split; [split|]; cbn [p_get].
  1-5: read_fields; try done; apply Z.mod_small; unfold sizeof_bgroup_desc; lia.
  intros o Ho. rewrite !le_read_write_disjoint by (field_cases Ho). done.
Qed.

(** [userfs_bgroup_desc_table_init] up to its loop: the first block. *)
Lemma bgd_first_run s q m dcount cnt mbc k :
  mem_ok s -> fl_head (f_mfree s) = NULL -> 0 <= k -> room (f_alloc s) (72 + msize + k) ->
  f_pages s !! sb = Some q -> sup_ok msize nbm q m -> m + 1 < 8 * nbm ->
  le_read 4 (p_get q) s_data_block_count = dcount -> le_read 4 (p_get q) s_first_metablock = 0 ->
  bgroup_sizes msize dcount bpg = Some (sizeof_bgroup_desc + nbg + 1, pm, cnt, mbc) ->
  exists r data p q' s',
    userfs_bgroup_desc_table_init sb bpg s =
      (bgd_table_loop (Z.to_nat (mbc - 1)) sb r r bpg pm (sizeof_bgroup_desc + nbg + 1) m 0;;;
       st 4 sb s_data_block_group_count cnt;;; st 4 sb s_data_block_per_group bpg;;;
       n ← ld 4 sb s_data_block_group_count;
       st 4 sb s_free_data_block_group_count n;;;
       st 4 sb s_bgroup_desc_per_mb_count pm;;;
       st 4 sb s_bgroup_desc_size (sizeof_bgroup_desc + nbg + 1);;; mret r) s' /\
    r <> NULL /\ grown s s' /\ room (f_alloc s') k /\ a_next (f_alloc s) <= r /\ a_next (f_alloc s) <= data /\
    f_bbufs s' = <[r := Bbuf 0 1 USERFS_BTYPE_BGROUP_DESC m 0 msize data]> (f_bbufs s) /\
    f_pages s' !! data = Some p /\ bgd_page none_taken pm p 0 /\
    (forall x, x < a_next (f_alloc s) -> x <> sb -> f_pages s' !! x = f_pages s !! x) /\
    f_pages s' !! sb = Some q' /\ sup_ok msize nbm q' (m + 1) /\ le_read 4 (p_get q') s_first_bgroup_desc_mblock = m /\
    (forall o, o ∈ base_fields -> le_read 4 (p_get q') o = le_read 4 (p_get q) o).
Proof.
  intros M Hl Hk R Eq Sq Hm Ed E0 Esz. pose proof (page_below s sb q M Eq) as Hsb.
  pose proof (sup_room _ _ _ _ Sq) as Hr. pose proof (su_size _ _ _ _ Sq) as Hs.
  pose proof (sup_used _ _ _ _ Sq) as H0.
  unfold userfs_bgroup_desc_table_init.
  do 2 (erewrite bind_run; [|eapply sb_ld; [exact Eq|done|sup_unfold; lia]]).
  rewrite (su_msize _ _ _ _ Sq), Ed, Esz. rewrite (bind_run _ _ _ _ _ (lift_run _ _)).
  do 2 (erewrite bind_run; [|eapply sb_ld; [exact Eq|done|sup_unfold; lia]]). rewrite E0.
  destruct (bgd_new_run s q m k 0 0)
    as (r & data & p & q1 & s1 & s2 & E1 & Nr & Eb1 & E2 & G2 & R2 & Hr1 & Hdt & B2 & Pd & Pp & F2 & Eq2 & Sq2 & K2);
    try done.
  rewrite (bind_run _ _ _ _ _ E1). rewrite Nr. apply Z.eqb_neq in Nr. set (b0 := Bbuf _ _ _ _ _ _ _) in *.
  rewrite (bind_run _ _ _ _ _ (bb_set_run r (set_list_len 1) s1 b0 Eb1)).
  change (set_list_len 1 b0) with b0. rewrite insert_id by done.
  assert (with_bbufs s1 (f_bbufs s1) = s1) as -> by by destruct s1.
  rewrite (bind_run _ _ _ _ _ E2). assert (Eb2 : f_bbufs s2 !! r = Some b0) by (rewrite B2; apply lookup_insert_eq).
  rewrite (bind_run _ _ _ _ _ (bb_run r s2 b0 Eb2)). cbn [b_blocknr b0].
  pose proof (su_size _ _ _ _ Sq2) as Hs2.
  erewrite bind_run; [|eapply st_run; [exact Eq2|apply store_in; sup_unfold; lia]].
  exists r, data, p. eexists _, _. split; [done|]. split; [done|]. split.
  { apply (grown_trans s s2); [done|]. apply grown_update; try done; [apply G2|]. intros x. by apply (insert_known (f_pages s2) sb q1). }
  split; [done|]. split; [done|]. split; [done|]. split; [done|]. cbn [f_pages with_pages].
  split; [by rewrite lookup_insert_ne by lia|]. split; [done|].
  split; [intros x Hx Nx; rewrite lookup_insert_ne by done; by apply F2|]. split; [apply lookup_insert_eq|].
  split; [apply sup_store; [done|sup_unfold; lia..]|]. cbn [p_get]. split; [rewrite le_read_write_same; apply Z.mod_small; lia|].
  intros o Ho. rewrite le_read_write_disjoint by (field_cases Ho).
  apply sup_kept_read; [done|]. field_cases Ho.
Qed.

(** [userfs_bgroup_desc_table_init]: [mbc] descriptor blocks from block [m] on. *)
Lemma bgd_table_run s q m dcount cnt mbc k :
  mem_ok s -> fl_head (f_mfree s) = NULL -> 0 <= k -> room (f_alloc s) (mbc * (72 + msize) + k) ->
  f_pages s !! sb = Some q -> sup_ok msize nbm q m -> m + mbc < 8 * nbm -> 0 < mbc < 65536 -> 0 <= cnt < 4294967296 ->
  le_read 4 (p_get q) s_data_block_count = dcount -> le_read 4 (p_get q) s_first_metablock = 0 ->
  bgroup_sizes msize dcount bpg = Some (sizeof_bgroup_desc + nbg + 1, pm, cnt, mbc) ->
  exists r b p l q' s', userfs_bgroup_desc_table_init sb bpg s = Some (r, s') /\
    grown s s' /\ room (f_alloc s') k /\
    bgd_chain s' r ((r, b, p) :: l) m 0 /\ Z.of_nat (length l) = mbc - 1 /\ b_list_len b = mbc /\
    Forall (fun x => a_next (f_alloc s) <= x) (chain_data ((r, b, p) :: l)) /\ NoDup (chain_data ((r, b, p) :: l)) /\
    (forall x, x < a_next (f_alloc s) -> f_bbufs s' !! x = f_bbufs s !! x) /\
    (forall x, x < a_next (f_alloc s) -> x <> sb -> f_pages s' !! x = f_pages s !! x) /\
    f_pages s' !! sb = Some q' /\ sup_ok msize nbm q' (m + mbc) /\ bgd_super q' m cnt /\
    (forall o, o ∈ base_fields -> le_read 4 (p_get q') o = le_read 4 (p_get q) o).
Proof.
  intros M Hl Hk R Eq Sq Hm Hmbc Hcnt Ed E0 Esz. pose proof (page_below s sb q M Eq) as Hsb.
  pose proof (sup_room _ _ _ _ Sq) as Hr. pose proof (su_size _ _ _ _ Sq) as Hs.
  pose proof (sup_used _ _ _ _ Sq) as H0.
  destruct (bgd_first_run s q m dcount cnt mbc ((mbc - 1) * (72 + msize) + k))
    as (r & data & p & q1 & s1 & E1 & Nr & G1 & R1 & Hr1 & Hdt & B1 & Pd & Pp & F1 & Eq1 & Sq1 & Ef & K1);
    try done; [nia| |lia|].
  { by replace (72 + msize + _) with (mbc * (72 + msize) + k) by lia. }
  set (b0 := Bbuf _ _ _ _ _ _ _) in *. assert (Eb : f_bbufs s1 !! r = Some b0) by (rewrite B1; apply lookup_insert_eq).
  destruct (bgd_table_loop_run (Z.to_nat (mbc - 1)) s1 r r b0 p b0 q1 (m + 1) k m 0)
    as (b & p' & l & q2 & s2 & E2 & G2 & R2 & C & Ed' & Ln & Hda & ND & Hc & LB & LP & Eq2 & Sq2 & K2);
    rewrite ?Z2Nat.id by lia; try done; cbn [b_list_len b_data b0]; try lia; [apply G1|by rewrite (gr_mfree _ _ G1)|split; [cbn; lia|done]|].
 
  rewrite Z2Nat.id in * by lia. replace (m + 1 + (mbc - 1)) with (m + mbc) in Sq2 by lia.
  destruct (bgd_super_run s2 q2 m (m + mbc) cnt r) as (q3 & E3 & Sq3 & Bs & K3); try done.
  { rewrite <- Ef. apply sup_kept_read; [done|]. sup_unfold. lia. }
  rewrite E1, (bind_run _ _ _ _ _ E2), E3. cbn [b_data b0] in Ed'. replace (m + 1 - 1) with m in C by lia.
  pose proof (page_below _ _ _ (gr_mem _ _ G1) Pd).
  destruct (chain_data_cons (a_next (f_alloc s)) (a_next (f_alloc s1)) r b p' l) as [D D2]; [lia|done|done|].
  eexists r, b, p', l, q3, _. split; [done|]. split.
  { apply (grown_trans s s1), (grown_trans s1 s2); [done..|]. apply grown_update; try done; [apply G2|].
    intros x. by apply (insert_known (f_pages s2) sb q2). }
  split; [done|]. split.
  { apply (block_chain_frame _ s2); [done|done|]. intros x Hx. cbn [f_pages with_pages]. rewrite lookup_insert_ne; [done|].
    rewrite Forall_forall in D. apply D in Hx. lia. }
  split; [lia|]. split; [rewrite Hc by done; cbn; lia|]. split; [done|]. split; [done|].
  pose proof (gr_next _ _ G1). cbn [f_bbufs f_pages with_pages]. split.
  { intros x Hx. rewrite LB by lia. unfold counted. rewrite decide_False by lia. by rewrite B1, lookup_insert_ne by lia. }
  split; [|split; [apply lookup_insert_eq|split; [done|split; [done|]]]].
  - intros x Hx Nx. rewrite lookup_insert_ne by done. rewrite LP; [by apply F1|lia|done|cbn; lia].
  - intros o Ho. rewrite K3, <- K1 by done. apply sup_kept_read; [done|]. field_cases Ho.
Qed.

(** ** The dentry block *)

(** An empty dentry block. *)
Record dentry_page (D : page -> Prop) (p : page) : Prop := {
  dp_size : p_size p = msize;
  dp_next : le_read 4 (p_get p) h_next = 0;
  dp_type : le_read 4 (p_get p) mb_block_type = USERFS_BTYPE_DENTRY;
  dp_table : D p }.

Definition empty_dir (p : page) : Prop := dtable p (dentry_per_mb msize) 0 0.

Lemma dentry_fill s r b p :
  96 <= msize -> f_bbufs s !! r = Some b -> f_pages s !! b_data b = Some p -> p_size p = msize ->
  exists p', userfs_dentry_table_block_init r (dentry_per_mb msize) 0 0 s =
      Some (tt, with_pages s (<[b_data b := p']> (f_pages s))) /\ dentry_page empty_dir p'.
Proof.
  clear Hfit Hpm Hbpg16 Hnbg Hbpg. intros Hm Eb Ep Hs. unfold userfs_dentry_table_block_init, dentry_per_mb, USERFS_DENTRY_SIZE in *.
  pose proof (Z.div_mod msize 32 ltac:(lia)). pose proof (Z.mod_pos_bound msize 32 ltac:(lia)).
  assert (E : u32 (u64 (msize / 32 - 2)) = msize / 32 - 2) by (rewrite u64_small, u32_small by lia; done).
  destruct (dentry_block_init_run p (msize / 32 - 2) 0 0) as (p' & E' & D & N & T & S); [lia|dt_unfold; lia|].
  exists p'. rewrite E. split.
  - rewrite (bind_run _ _ _ _ _ (bb_run r s b Eb)). by apply (pg_upd_run _ _ s p).
  - split; [congruence|done|done|]. unfold empty_dir, dentry_per_mb, USERFS_DENTRY_SIZE. by rewrite E.
Qed.

Definition sup_fields : list Z :=
  [s_first_bgroup_desc_mblock; s_data_block_group_count; s_data_block_per_group; s_bgroup_desc_per_mb_count;
   s_bgroup_desc_size] ++ base_fields.

Lemma dentry_table_run s q m k :
  96 <= msize -> mem_ok s -> fl_head (f_mfree s) = NULL -> 0 <= k -> room (f_alloc s) (72 + msize + k) ->
  f_pages s !! sb = Some q -> sup_ok msize nbm q m -> m + 1 < 8 * nbm -> le_read 4 (p_get q) s_first_metablock = 0 ->
  exists r data p q' s', userfs_root_dentry_table_init sb s = Some (r, s') /\
    (r =? NULL) = false /\ grown s s' /\ room (f_alloc s') k /\ a_next (f_alloc s) <= r /\ a_next (f_alloc s) <= data /\
    f_bbufs s' = <[r := Bbuf 0 1 USERFS_BTYPE_DENTRY m 0 msize data]> (f_bbufs s) /\
    f_pages s' !! data = Some p /\ dentry_page empty_dir p /\
    (forall x, x < a_next (f_alloc s) -> x <> sb -> f_pages s' !! x = f_pages s !! x) /\
    f_pages s' !! sb = Some q' /\ sup_ok msize nbm q' (m + 1) /\ le_read 4 (p_get q') s_first_dentry_mblock = m /\
    (forall o, o ∈ sup_fields -> le_read 4 (p_get q') o = le_read 4 (p_get q) o).
Proof.
  clear Hfit Hpm Hbpg16 Hnbg Hbpg. intros Hms M Hl Hk R Eq Sq Hm E0. pose proof (page_below s sb q M Eq) as Hsb.
  pose proof (su_size _ _ _ _ Sq) as Hs.
  pose proof (sup_used _ _ _ _ Sq) as H0.
  unfold userfs_root_dentry_table_init.
  do 3 (erewrite bind_run; [|eapply sb_ld; [exact Eq|done|sup_unfold; lia]]).
  rewrite (su_msize _ _ _ _ Sq), E0.
  destruct (new_mb_run s USERFS_BTYPE_DENTRY q m k M Hl Hk R Eq Sq Hm)
    as (r & data & q1 & s1 & E1 & Nr & G1 & R1 & Hr & Hdt & B1 & P1 & Sq1 & K1).
  rewrite (bind_run _ _ _ _ _ E1). rewrite Nr. set (b0 := Bbuf _ _ _ _ _ _ _) in *.
  assert (Eb1 : f_bbufs s1 !! r = Some b0) by (rewrite B1; apply lookup_insert_eq).
  rewrite (bind_run _ _ _ _ _ (bb_set_run r (set_list_len 1) s1 b0 Eb1)).
  change (set_list_len 1 b0) with b0. rewrite insert_id by done.
  assert (with_bbufs s1 (f_bbufs s1) = s1) as -> by by destruct s1.
  assert (Ep1 : f_pages s1 !! data = Some (Page msize (f_garbage s data))) by (by rewrite P1, lookup_insert_ne, lookup_insert_eq by lia).
  destruct (dentry_fill s1 r b0 _ Hms Eb1 Ep1 eq_refl) as (p & E2 & Dp). cbn [b_data b0] in E2.
  rewrite (bind_run _ _ _ _ _ E2). set (s2 := with_pages _ _).
  rewrite (bind_run _ _ _ _ _ (bb_run r s2 b0 Eb1)). cbn [b_blocknr b0].
  assert (Eq2 : f_pages s2 !! sb = Some q1) by (cbn; by rewrite lookup_insert_ne, P1, lookup_insert_eq by lia).
  pose proof (su_size _ _ _ _ Sq1) as Hs1. rewrite (run_at _ s2 sb q1 Eq2).
  erewrite bind_run; [|apply st_at; sup_unfold; lia].
  erewrite bind_run; [|apply ld_at; cbn [p_size]; sup_unfold; lia].
  erewrite bind_run; [|apply st_at; cbn [p_size]; sup_unfold; lia].
  exists r, data, p. eexists _, _. split; [done|]. split; [done|]. split.
  { apply (grown_trans s s1); [done|]. apply grown_update; try done; [apply G1|]. intros x Hx.
    apply (insert_known (f_pages s2) sb q1) in Hx; [|done]. by apply (insert_known (f_pages s1) data _ _ _ Ep1) in Hx. }
  split; [done|]. split; [lia|]. split; [lia|]. split; [done|]. cbn [f_pages with_pages].
  split; [cbn; by rewrite lookup_insert_ne, lookup_insert_eq by lia|]. split; [done|]. split.
  { intros x Hx Nx. cbn. by rewrite lookup_insert_ne, lookup_insert_ne, P1, !lookup_insert_ne by lia. }
  split; [apply lookup_insert_eq|]. split; [repeat (apply sup_store; [|sup_unfold; lia..]); done|].
  cbn [p_get]. split; [read_fields; apply Z.mod_small; lia|].
  intros o Ho. unfold sup_fields in Ho. cbn [app] in Ho.
  rewrite !le_read_write_disjoint by (field_cases Ho). apply sup_kept_read; [done|]. field_cases Ho.
Qed.
End Metablocks.

(** ** The super block *)

(** The first stores and [bitmap_init]. *)
Lemma sup_init_run s data rbs total msize nbm :
  f_pages s !! data = Some (Page msize (f_garbage s data)) ->
  0 < nbm < 268435456 -> 92 + nbm < msize < 4294967296 ->
  exists q s', (forall A (f : fsM A),
      (st 4 data s_first_datablock 1;;;
       st 4 data s_data_block_count (u32 (total - 1));;;
       n ← ld 4 data s_data_block_count;
       st 4 data s_free_data_block_count (u32 (n - 1));;;
       st 4 data s_data_block_size rbs;;;
       pg_upd data (fun p => bitmap_init p s_metadata_block_bitmap nbm);;; f) s = f s') /\
    s' = with_pages s (<[data := q]> (f_pages s)) /\ p_size q = msize /\
    packed (8 * nbm - 1) q s_metadata_block_bitmap nbm /\ first q s_metadata_block_bitmap = 0 /\
    le_read 4 (p_get q) s_data_block_count = u32 (total - 1) /\
    le_read 4 (p_get q) s_first_datablock = 1 /\ le_read 4 (p_get q) s_data_block_size = u32 rbs.
Proof.
  intros Ep Hn Hm. set (q0 := Page msize (f_garbage s data)).
  set (q1 := Page msize (le_write 4 (p_get q0) s_first_datablock 1)).
  set (q2 := Page msize (le_write 4 (p_get q1) s_data_block_count (u32 (total - 1)))).
  set (q3 := Page msize (le_write 4 (p_get q2) s_free_data_block_count (u32 (le_read 4 (p_get q2) s_data_block_count - 1)))).
  set (q4 := Page msize (le_write 4 (p_get q3) s_data_block_size rbs)).
  destruct (bitmap_init_run q4 s_metadata_block_bitmap nbm) as (q & E & L & S & F & U & B & O);
    [done|done|cbn [p_size q4]; bm_unfold; sup_unfold; lia|].
  exists q. eexists. split.
  { intros A f. rewrite (run_at _ s data q0 Ep).
    do 2 (erewrite bind_run; [|apply st_at; cbn [p_size q0]; sup_unfold; lia]).
    erewrite bind_run; [|apply ld_at; cbn [p_size q0]; sup_unfold; lia].
    do 2 (erewrite bind_run; [|apply st_at; cbn [p_size q0]; sup_unfold; lia]).
    rewrite (bind_run _ _ _ _ _ (pg_upd_at data _ s (f_pages s) q4 q E)). reflexivity. }
  split; [done|]. split; [done|]. split.
  - apply (bitmap_init_packed _ q4); try done; [cbn [p_size q4]; bm_unfold; sup_unfold; lia|lia].
  - assert (K : forall o, o + 4 <= s_metadata_block_bitmap -> le_read 4 (p_get q) o = le_read 4 (p_get q4) o).
    { intros o Ho. apply le_read_ext. intros x Hx. rewrite O by lia. done. }
    split; [done|]. rewrite !K by (sup_unfold; lia). cbn [p_get q4 q3 q2 q1]. read_fields.
    split; [by apply Z.mod_mod|]. done.
Qed.

(** The fields of the metadata blocks and the header. *)
Lemma sup_meta_run s data q mcount msize nbm :
  f_pages s !! data = Some q -> p_size q = msize -> 92 < msize < 4294967296 ->
  packed (8 * nbm - 1) q s_metadata_block_bitmap nbm -> first q s_metadata_block_bitmap = 0 ->
  exists q' s', (forall A (f : fsM A),
      (st 4 data s_metablock_count mcount;;;
       st 4 data s_metablock_size msize;;;
       n ← ld 4 data s_metablock_count;
       st 4 data s_free_metablock_count n;;;
       st 4 data s_first_metablock 0;;;
       st 4 data s_first_dentry_mblock 0;;;
       st 4 data mb_block_type USERFS_BTYPE_SUPER;;;
       n ← ld 4 data s_first_metablock;
       st 4 data h_next n;;;
       n ← ld 4 data s_first_metablock;
       st 4 data h_prev n;;; f) s = f s') /\
    s' = with_pages s (<[data := q']> (f_pages s)) /\ sup_ok msize nbm q' 0 /\
    le_read 4 (p_get q') s_first_metablock = 0 /\ le_read 4 (p_get q') mb_block_type = USERFS_BTYPE_SUPER /\
    (forall o, o ∈ [s_data_block_count; s_first_datablock; s_data_block_size] ->
       le_read 4 (p_get q') o = le_read 4 (p_get q) o).
Proof.
  intros Ep Hs Hm P F. eexists _, _. split.
  { intros A f. rewrite (run_at _ s data q Ep).
    do 2 (erewrite bind_run; [|apply st_at; cbn [p_size]; sup_unfold; lia]).
    erewrite bind_run; [|apply ld_at; cbn [p_size]; sup_unfold; lia].
    do 4 (erewrite bind_run; [|apply st_at; cbn [p_size]; sup_unfold; lia]).
    do 2 (erewrite bind_run; [|apply ld_at; cbn [p_size]; sup_unfold; lia];
          erewrite bind_run; [|apply st_at; cbn [p_size]; sup_unfold; lia]).
    reflexivity. }
  split; [done|]. cbn [p_size]. split; [|split; [|split]]; [|cbn [p_get]; read_fields; done..|].
  2: { intros o Ho. cbn [p_get]. rewrite !le_read_write_disjoint by (field_cases Ho). done. }
  set (q2 := Page (p_size q) (le_write 4 (le_write 4 (p_get q) s_metablock_count mcount) s_metablock_size msize)).
  assert (Sq : sup_ok msize nbm q2 0).
  { destruct (packed_ext (8 * nbm - 1) q q2 s_metadata_block_bitmap nbm) as [P2 F2]; [done| |done|].
    { intros x Hx. cbn [p_get q2]. rewrite !le_write_outside by (sup_unfold; lia). done. }
    split; [done|by exists (8 * nbm - 1)|by rewrite F2|]. cbn [p_get q2]. rewrite le_read_write_same. apply Z.mod_small. lia. }
  do 5 (eapply (sup_store msize nbm (Page (p_size q) _)); [|sup_unfold; lia..]).
  apply (sup_store msize nbm q2); [done|sup_unfold; lia..].
Qed.

(** [userfs_suber_block_alloc]: block 0 is taken. *)
Lemma suber_block_run s bsize msize dsize nbm k :
  mem_ok s -> fl_head (f_mfree s) = NULL -> 0 <= k -> room (f_alloc s) (72 + msize + k) ->
  nbm = Z.shiftr (get_real_block_size bsize / msize) 3 -> 0 < nbm < 268435456 -> 92 + nbm < msize < 4294967296 ->
  exists r data q s', userfs_suber_block_alloc bsize msize dsize s = Some ((data, r, get_real_block_size bsize), s') /\
    r <> NULL /\ grown s s' /\ room (f_alloc s') k /\ r < a_next (f_alloc s') /\
    f_bbufs s' = <[r := Bbuf 0 1 USERFS_BTYPE_SUPER 0 0 msize data]> (f_bbufs s) /\
    f_pages s' = <[data := q]> (f_pages s) /\ sup_ok msize nbm q 1 /\
    le_read 4 (p_get q) s_first_metablock = 0 /\ le_read 4 (p_get q) mb_block_type = USERFS_BTYPE_SUPER /\
    le_read 4 (p_get q) s_data_block_count = u32 (dsize / get_real_block_size bsize - 1) /\
    le_read 4 (p_get q) s_first_datablock = 1 /\
    le_read 4 (p_get q) s_data_block_size = u32 (get_real_block_size bsize).
Proof.
  intros M Hl Hk R En Hn Hm. unfold userfs_suber_block_alloc.
  rewrite (proj2 (Z.eqb_neq msize 0)) by lia. rewrite <- En.
  destruct (alloc_mbbuf_run s msize k M Hl ltac:(lia) Hk R) as (r & data & a & E & Nr & H1 & H2 & H3 & R').
  rewrite (bind_run _ _ _ _ _ E). rewrite Nr. set (b0 := Bbuf _ _ _ _ _ _ _). set (s1 := with_block _ _ _ _ _).
  assert (Eb1 : f_bbufs s1 !! r = Some b0) by apply lookup_insert_eq.
  rewrite (bind_run _ _ _ _ _ (bb_run r s1 b0 Eb1)). cbn [b_data b0].
  assert (Ep1 : f_pages s1 !! data = Some (Page msize (f_garbage s1 data))) by apply lookup_insert_eq.
  destruct (sup_init_run s1 data (get_real_block_size bsize) (dsize / get_real_block_size bsize) msize nbm)
    as (q2 & s2 & E2 & -> & S2 & P2 & F2 & D2 & D2' & D2''); try done.
  rewrite E2. set (s2 := with_pages _ _). assert (Ep2 : f_pages s2 !! data = Some q2) by apply lookup_insert_eq.
  destruct (sup_meta_run s2 data q2 (get_real_block_size bsize / msize) msize nbm)
    as (q3 & s3 & E3 & -> & Sq3 & M3 & T3 & D3); try done; [lia|].
  rewrite E3. set (s3 := with_pages s2 _). assert (Ep3 : f_pages s3 !! data = Some q3) by apply lookup_insert_eq.
  rewrite (bind_run _ _ _ _ _ (bb_set_run r _ s3 b0 Eb1)). set (s4 := with_bbufs s3 _).
  destruct (sup_take msize nbm q3 0 Sq3 ltac:(lia)) as (q4 & E4 & Sq4 & F4).
  rewrite (bind_run _ _ _ _ _ (bm_get_first_free_run s4 data _ q3 q4 0 Ep3 E4)).
  erewrite bind_run; [|apply bb_set_run; apply lookup_insert_eq].
  assert (K : forall o, o + 4 <= s_metadata_block_bitmap -> le_read 4 (p_get q4) o = le_read 4 (p_get q3) o).
  { intros o Ho. apply le_read_ext. intros x Hx. rewrite F4 by lia. done. }
  exists r, data, q4. eexists. split; [done|]. split; [by apply Z.eqb_neq in Nr|].
  cbn [f_bbufs f_pages f_alloc with_pages with_bbufs s1 s2 s3 s4 with_block with_alloc b_data b0].
  rewrite !insert_insert_eq. assert (M1 : grown s s1).
  { apply grown_block; [done|by apply (room_ok a k)|lia|lia|cbn; lia]. }
  split; [|split; [done|split; [lia|split; [done|split; [done|split; [done|]]]]]].
  - apply (grown_trans s s1); [done|]. apply (grown_update s1); try done; [apply M1|intros x; apply insert_other..].
  - rewrite !K by (sup_unfold; lia). rewrite (D3 s_data_block_count), (D3 s_first_datablock), (D3 s_data_block_size) by in_fields.
    done.
Qed.

(** ** What is on the disk *)

(** The block [nr] as a page. *)
Definition disk_page (d : disk) (msize nr : Z) : page := Page msize (fun x => d_bytes d (msize * nr + x)).

Definition same_bytes (p p' : page) : Prop :=
  p_size p' = p_size p /\ agree (p_get p') (p_get p) 0 (p_size p).

(** A property of the bytes of a page. *)
Class Bytewise (Q : page -> Prop) : Prop := bytewise : forall p p', same_bytes p p' -> Q p -> Q p'.

Lemma same_bytes_read p p' n o :
  same_bytes p p' -> 0 <= o -> o + Z.of_nat n <= p_size p -> le_read n (p_get p') o = le_read n (p_get p) o.
Proof. intros [_ A] H1 H2. apply le_read_ext. intros x Hx. apply A. lia. Qed.

(** The super block of a formatted disk: [mbc] descriptor blocks from block 1 on, then
    the dentry block. *)
Record super_page (msize nbm bpg nbg pm cnt mbc rbs : Z) (q : page) : Prop := {
  sp_sup : sup_ok msize nbm q (mbc + 2);
  sp_bgd : bgd_super bpg nbg pm q 1 cnt;
  sp_dentry : le_read 4 (p_get q) s_first_dentry_mblock = 1 + mbc;
  sp_first : le_read 4 (p_get q) s_first_metablock = 0;
  sp_type : le_read 4 (p_get q) mb_block_type = USERFS_BTYPE_SUPER;
  sp_datablock : le_read 4 (p_get q) s_first_datablock = 1;
  sp_datasize : le_read 4 (p_get q) s_data_block_size = rbs }.

#[export] Instance super_page_bytes msize nbm bpg nbg pm cnt mbc rbs : Bytewise (super_page msize nbm bpg nbg pm cnt mbc rbs).
Proof.
  intros p p' B [S [G1 G2 G3 G4 G5] D F T D1 D2]. pose proof (sup_room _ _ _ _ S) as Hr.
  destruct S as [Z (lim & HL & P) U M]. destruct (proj1 P) as [[L1 L2 L3 L4] SR _ _ _ _ _ _].
  destruct (packed_agree lim p p' s_metadata_block_bitmap nbm) as [P' U']; [apply B| |done|].
  { intros x Hx Hs. destruct B as [_ A]. apply A. bm_unfold. sup_unfold. lia. }
  split; [split|split|..]; try done; rewrite ?U'; try done.
  1: by rewrite (proj1 B).
  1: by exists lim.
  all: rewrite (same_bytes_read p p') by (done || (sup_unfold; lia)); done.
Qed.

#[export] Instance bgd_page_bytes msize bpg nbg pm tk lim nxt :
  0 < nbg -> 0 < pm -> sizeof_mblock + pm * (sizeof_bgroup_desc + nbg + 1) <= msize -> Bytewise (fun p => bgd_page msize bpg nbg pm tk lim p nxt).
Proof.
  intros H1 H2 H3 p p' B Q. pose proof (bp_size _ _ _ _ _ _ _ _ Q) as S. unfold sizeof_mblock, sizeof_bgroup_desc in *.
  apply (bgd_page_agree msize bpg nbg pm) with (p := p) (nxt := nxt); try done.
  - by rewrite (proj1 B).
  - rewrite (same_bytes_read p p'); [apply Q|done|done|]. sup_unfold. nia.
  - intros x Hx. apply B. sup_unfold. lia.
Qed.

#[export] Instance dtable_bytes n f u : Bytewise (fun p => dtable p n f u).
Proof.
  intros p p' B [D1 D2 D3 D4 D5 D6].
  split; rewrite ?(proj1 B); try done; rewrite (same_bytes_read p p') by (done || (dt_unfold; lia)); done.
Qed.

#[export] Instance dentry_page_bytes msize D : 96 <= msize -> Bytewise D -> Bytewise (dentry_page msize D).
Proof.
  intros Hm HD p p' B [S N T DT]. split; [by rewrite (proj1 B)|..|by apply (bytewise _ _ B)];
    rewrite (same_bytes_read p p') by (done || (rewrite ?S; sup_unfold; lia)); done.
Qed.

(** ** Flushing *)

Lemma write_all_app off l l' d : write_all off (l ++ l') d = write_all off l' (write_all off l d).
Proof. revert d. induction l as [|[b q] l IH]; intros d; [done|]. cbn [app write_all]. apply IH. Qed.

(** Buffers of metadata blocks, all of them in the first data block. *)
Definition metablocks (msize n : Z) (l : list (bbuf * page)) : Prop :=
  Forall (fun bq => b_size (fst bq) = msize /\ p_size (snd bq) = msize /\ 0 <= b_blocknr (fst bq) < n) l.

Lemma mb_off_exact msize n b :
  0 < msize -> msize * n <= 67108864 -> 0 <= b_blocknr b < n ->
  mb_off 0 msize b = msize * b_blocknr b /\ 0 <= msize * b_blocknr b /\ msize * b_blocknr b + msize <= 67108864.
Proof.
  intros Hm Hn Hb. assert (0 <= msize * b_blocknr b /\ msize * b_blocknr b + msize <= msize * n) by nia.
  unfold mb_off. rewrite Z.add_0_r, (u32_small (b_blocknr b)), u32_small by nia. lia.
Qed.

Lemma metablocks_ok msize n l :
  0 < msize -> msize * n <= 67108864 -> metablocks msize n l -> Forall (bb_ok (mb_off 0 msize)) l.
Proof.
  intros Hm Hn V. eapply Forall_impl; [exact V|]. intros [b q] (S & P & H). cbn [fst snd] in *.
  destruct (mb_off_exact msize n b Hm Hn H) as (E & H1 & H2). unfold bb_ok. cbn [fst snd]. rewrite E, S, P. lia.
Qed.

Lemma metablocks_disjoint msize n l :
  0 < msize -> msize * n <= 67108864 -> metablocks msize n l -> NoDup (b_blocknr ∘ fst <$> l) ->
  disjoint_ranges (mb_off 0 msize) l.
Proof.
  intros Hm Hn V ND i j b q b' q' N E E'. unfold metablocks in V. rewrite Forall_lookup in V.
  destruct (V _ _ E) as (S & _ & H), (V _ _ E') as (S' & _ & H'). cbn [fst] in *.
  destruct (mb_off_exact msize n b Hm Hn H) as (-> & _), (mb_off_exact msize n b' Hm Hn H') as (-> & _). rewrite S, S'.
  assert (b_blocknr b <> b_blocknr b').
  { intros Eb. apply N. apply (NoDup_lookup (b_blocknr ∘ fst <$> l) i j (b_blocknr b) ND);
      rewrite list_lookup_fmap, ?E, ?E'; cbn; congruence. }
  destruct (Z.lt_ge_cases (b_blocknr b) (b_blocknr b')); [left|right]; nia.
Qed.

(** A flushed block is on the disk. *)
Lemma flushed_page msize n l d b q :
  0 < msize -> msize * n <= 67108864 -> metablocks msize n l -> NoDup (b_blocknr ∘ fst <$> l) -> d_io d = [] ->
  (b, q) ∈ l ->
  same_bytes q (disk_page (write_all (mb_off 0 msize) l d) msize (b_blocknr b)) /\
  msize * b_blocknr b + msize <= d_len (write_all (mb_off 0 msize) l d).
Proof.
  intros Hm Hn V ND Hio Hin. pose proof (metablocks_ok _ _ _ Hm Hn V) as Ok.
  pose proof (metablocks_disjoint _ _ _ Hm Hn V ND) as Dj. pose proof V as V'. unfold metablocks in V'. rewrite Forall_forall in V'.
  destruct (V' _ Hin) as (S & P & H). cbn [fst snd] in *. destruct (mb_off_exact msize n b Hm Hn H) as (E & _).
  split.
  - split; [done|]. rewrite P. intros x Hx. cbn [p_get disk_page]. rewrite <- E.
    rewrite (write_all_inside _ l d b q x) by (done || lia). apply Z.mod_mod. done.
  - pose proof (proj2 (write_all_len (mb_off 0 msize) l d Hio Ok) b q Hin) as L. rewrite E, S in L. lia.
Qed.

Section Layout.
Context (bsize msize dsize bpg nbg nbm pm cnt mbc : Z).

(** The parameters of a disk that can be formatted. *)
Record format_params : Prop := {
  fp_nbm : nbm = Z.shiftr (get_real_block_size bsize / msize) 3;
  fp_bitmap : 0 < nbm /\ 92 + nbm < msize /\ 96 <= msize;
  fp_area : msize * (8 * nbm) <= 67108864;
  fp_groups : bpg = 8 * nbg /\ 0 < nbg /\ bpg < 65536;
  fp_desc : 0 < pm /\ sizeof_mblock + pm * (sizeof_bgroup_desc + nbg + 1) <= msize;
  fp_sizes : bgroup_sizes msize (u32 (dsize / get_real_block_size bsize - 1)) bpg =
    Some (sizeof_bgroup_desc + nbg + 1, pm, cnt, mbc);
  fp_count : 0 < cnt /\ cnt * bpg <= 4294967295 /\ cnt <= mbc * pm;
  fp_blocks : 0 < mbc <= 128 /\ mbc + 2 <= 8 * nbm }.

Context (FP : format_params).

Lemma fp_msize : 96 <= msize < 4294967296 /\ 0 < nbm < 268435456.
Proof.
  pose proof FP as [_ (H1 & H2 & H3) H4 _ _ _ _ _]. assert (msize * 8 <= 67108864) by nia. lia.
Qed.

(** The three structures in memory. *)
Lemma format_memory s :
  mem_ok s -> fl_head (f_mfree s) = NULL -> mbc + 2 < 8 * nbm -> room (f_alloc s) ((mbc + 2) * (72 + msize)) ->
  exists sb sbuf r b p l dr data dp q s1 s2 s3,
    userfs_suber_block_alloc bsize msize dsize s = Some ((sb, sbuf, get_real_block_size bsize), s1) /\
    userfs_bgroup_desc_table_init sb bpg s1 = Some (r, s2) /\
    userfs_root_dentry_table_init sb s2 = Some (dr, s3) /\ (dr =? NULL) = false /\ f_disk s3 = f_disk s /\
    f_bbufs s3 !! sbuf = Some (Bbuf 0 1 USERFS_BTYPE_SUPER 0 0 msize sb) /\ f_pages s3 !! sb = Some q /\
    super_page msize nbm bpg nbg pm cnt mbc (u32 (get_real_block_size bsize)) q /\
    bgd_chain msize bpg nbg pm s3 r ((r, b, p) :: l) 1 0 /\ Z.of_nat (length l) = mbc - 1 /\ b_list_len b = mbc /\
    f_bbufs s3 !! dr = Some (Bbuf 0 1 USERFS_BTYPE_DENTRY (1 + mbc) 0 msize data) /\ f_pages s3 !! data = Some dp /\
    dentry_page msize (empty_dir msize) dp.
Proof.
  intros M Hl Hlast R. destruct fp_msize as [Hm Hn]. pose proof FP as [E1 (E2 & E3 & _) E4 (E5 & E5' & E5'') [E6 E6'] E7 (E8 & E8' & _) [E9 E10]].
  assert (cnt < 4294967296) by nia.
  destruct (suber_block_run s bsize msize dsize nbm ((mbc + 1) * (72 + msize)))
    as (sbuf & sb & q1 & s1 & R1 & Nr & G1 & Rm1 & Hr & B1 & P1 & S1 & F1 & T1 & D1 & D1' & D1''); try done; [nia| |lia|].
  { by replace (72 + msize + _) with ((mbc + 2) * (72 + msize)) by lia. }
  assert (Eq1 : f_pages s1 !! sb = Some q1) by (rewrite P1; apply lookup_insert_eq).
  assert (L1 : fl_head (f_mfree s1) = NULL) by by rewrite (gr_mfree _ _ G1).
  destruct (bgd_table_run msize nbm sb ltac:(lia) ltac:(lia) bpg nbg pm E5 E5' E5'' E6 E6' s1 q1 1
    (u32 (dsize / get_real_block_size bsize - 1)) cnt mbc (72 + msize))
    as (r & b & p & l & q2 & s2 & R2 & G2 & Rm2 & C & Ln & Lc & Hda & _ & LB & LP & Eq2 & S2 & Bs & K2); try done; try lia.
  { apply G1. } { by replace (mbc * (72 + msize) + (72 + msize)) with ((mbc + 1) * (72 + msize)) by lia. }
  destruct (dentry_table_run msize nbm sb ltac:(lia) ltac:(lia) s2 q2 (1 + mbc) 0)
    as (dr & data & dp & q3 & s3 & R3 & Nd & G3 & _ & Hdr & Hdt & B3 & Pd & Dp & F3 & Eq3 & S3 & Ef & K3); try done; try lia.
  { apply G2. } { by rewrite (gr_mfree _ _ G2). } { by replace (72 + msize + 0) with (72 + msize) by lia. }
  { rewrite K2 by in_fields. done. }
  pose proof (page_below _ _ _ (gr_mem _ _ G1) Eq1). pose proof (gr_next _ _ G2).
  exists sb, sbuf, r, b, p, l, dr, data, dp, q3, s1, s2, s3. split; [done|]. split; [done|]. split; [done|]. split; [done|].
  split; [by rewrite (gr_disk _ _ G3), (gr_disk _ _ G2), (gr_disk _ _ G1)|].
  split; [by rewrite B3, lookup_insert_ne, LB, B1, lookup_insert_eq by lia|]. split; [done|]. split.
  { destruct Bs as [? ? ? ? ?]. unfold sup_fields in K3. unfold base_fields in K2, K3. split; [by replace (mbc + 2) with (1 + mbc + 1) by lia| |done|..];
      [split|..]; rewrite K3 by in_fields; try done; by rewrite K2 by in_fields. }
  split; [|split; [done|split; [done|split; [rewrite B3; apply lookup_insert_eq|done]]]].
  apply (block_chain_frame _ s2); [done|..].
  - intros x [b' Hx]. rewrite B3, lookup_insert_ne; [done|]. pose proof (bbuf_below _ _ _ (gr_mem _ _ G2) Hx). lia.
  - intros x Hx. assert (a_next (f_alloc s1) <= x) by (rewrite Forall_forall in Hda; by apply Hda).
    apply F3; [|lia]. destruct (block_chain_page _ s2 _ r 1 0 x C Hx) as [px Ex].
    by apply (page_below _ _ px (gr_mem _ _ G2)).
Qed.

(** The block behind descriptor block [m]. *)
Definition bgd_next (m : Z) : Z := if m <? mbc then m + 1 else 0.

(** A disk with the three structures; [taken g] blocks of group [g] are taken, and the
    directory is such that [D]. *)
Record on_disk (taken : Z -> Z) (D : page -> Prop) (d : disk) : Prop := {
  on_io : d_io d = [];
  on_len : msize * (mbc + 2) <= d_len d;
  on_super : super_page msize nbm bpg nbg pm cnt mbc (u32 (get_real_block_size bsize)) (disk_page d msize 0);
  on_bgd : forall m, 1 <= m <= mbc ->
    bgd_page msize bpg nbg pm (fun i => taken ((m - 1) * pm + i)) (cnt - (m - 1) * pm) (disk_page d msize m) (bgd_next m);
  on_dentry : dentry_page msize D (disk_page d msize (1 + mbc)) }.

(** A formatted disk. *)
Definition formatted : disk -> Prop := on_disk none_taken (empty_dir msize).

Lemma md_id_loop_run s l : forall cur m nxt i,
  bgd_chain msize bpg nbg pm s cur l m nxt -> 0 <= i -> i + Z.of_nat (length l) <= 128 ->
  md_id_loop (length l) i cur s = Some (seqZ m (Z.of_nat (length l)), s).
Proof.
  destruct fp_msize as [Hm _].
  induction l as [|[[r b] p] l IH]; intros cur m nxt i C Hi Hl; [done|].
  destruct C as (-> & _ & Eb & Ep & (Bn & _ & _ & Bp) & C). cbn [length] in *. cbn [md_id_loop].
  pose proof (bp_size _ _ _ _ _ _ _ _ Bp) as Hs. rewrite (bind_run _ _ _ _ _ (bb_run r s b Eb)).
  do 3 (erewrite bind_run; [|eapply sb_ld; [exact Ep|done|sup_unfold; lia]]). zdec.
  rewrite (bind_run _ _ _ _ _ (IH _ _ _ (i + 1) C ltac:(lia) ltac:(lia))). rewrite ret_run, Bn.
  rewrite (seqZ_cons m) by lia. do 4 f_equal; lia.
Qed.

Lemma flush_run s sb q buf b l :
  f_pages s !! sb = Some q -> p_size q = msize -> le_read 4 (p_get q) s_first_metablock = 0 ->
  le_read 4 (p_get q) s_metablock_size = msize -> f_bbufs s !! buf = Some b -> b_list_len b = Z.of_nat (length l) ->
  blist s buf l -> Forall (bb_ok (mb_off 0 msize)) l -> d_io (f_disk s) = [] ->
  flush_list sb buf s = Some (0, with_disk s (write_all (mb_off 0 msize) l (f_disk s))).
Proof.
  intros Eq Hs Ef Em Eb Hl B V Hio. destruct fp_msize as [Hm _]. unfold flush_list.
  do 2 (erewrite bind_run; [|eapply sb_ld; [exact Eq|done|sup_unfold; lia]]).
  rewrite (bind_run _ _ _ _ _ (bb_run buf s b Eb)). rewrite Ef, Em, Hl. unfold userfs_mbbuf_list_flush.
  rewrite Nat2Z.id. by apply list_flush_run.
Qed.

(** The blocks in the order of the flushes. *)
Lemma format_blocks s r b p l sb q data dp (C : bgd_chain msize bpg nbg pm s r ((r, b, p) :: l) 1 0) :
  Z.of_nat (length l) = mbc - 1 -> p_size q = msize -> p_size dp = msize ->
  let L := chain_blocks ((r, b, p) :: l) ++ [(Bbuf 0 1 USERFS_BTYPE_SUPER 0 0 msize sb, q);
    (Bbuf 0 1 USERFS_BTYPE_DENTRY (1 + mbc) 0 msize data, dp)] in
  metablocks msize (8 * nbm) L /\ NoDup (b_blocknr ∘ fst <$> L).
Proof.
  intros Ln Hq Hd L. pose proof FP as [_ _ _ _ _ _ _ [H1 H2]]. split.
  - apply Forall_app. split; [|repeat constructor; cbn; lia].
    apply Forall_fmap, Forall_lookup. intros i [[r' b'] p'] Hi. pose proof (lookup_lt_Some _ _ _ Hi) as Hlt.
    destruct (block_chain_lookup _ _ _ _ _ _ _ _ _ _ C Hi) as (_ & Bn & Bs & _ & Bp). cbn in Hlt |- *.
    rewrite Bn, (bp_size _ _ _ _ _ _ _ _ Bp). lia.
  - unfold L. rewrite fmap_app, (block_chain_nrs _ _ _ (fun _ _ _ _ H => proj1 H) _ _ _ C). cbn [length fmap list_fmap compose fst b_blocknr].
    apply NoDup_app. split; [apply NoDup_seqZ|]. split.
    + intros x Hx Hx'. apply elem_of_seqZ in Hx. rewrite !elem_of_cons in Hx'. destruct Hx' as [->|[->|Hx']]; [lia|lia|].
      by apply elem_of_nil in Hx'.
    + repeat constructor; set_solver by lia.
Qed.

(** What the flushes leave on the disk. *)
Lemma format_disk s r b p l sb q data dp d :
  bgd_chain msize bpg nbg pm s r ((r, b, p) :: l) 1 0 -> Z.of_nat (length l) = mbc - 1 ->
  super_page msize nbm bpg nbg pm cnt mbc (u32 (get_real_block_size bsize)) q -> dentry_page msize (empty_dir msize) dp -> d_io d = [] ->
  formatted (write_all (mb_off 0 msize) (chain_blocks ((r, b, p) :: l) ++
    [(Bbuf 0 1 USERFS_BTYPE_SUPER 0 0 msize sb, q); (Bbuf 0 1 USERFS_BTYPE_DENTRY (1 + mbc) 0 msize data, dp)]) d).
Proof.
  intros C Ln Sp Dp Hio. destruct fp_msize as [Hm _]. pose proof FP as [_ _ E4 (_ & E5 & _) [E6 E6'] _ _ [H1 H2]].
  destruct (format_blocks s r b p l sb q data dp C Ln) as [V ND];
    [apply Sp|apply Dp|]. set (L := _ ++ _) in *.
  assert (A : forall b' q', (b', q') ∈ L -> same_bytes q' (disk_page (write_all (mb_off 0 msize) L d) msize (b_blocknr b')) /\
     msize * b_blocknr b' + msize <= d_len (write_all (mb_off 0 msize) L d)).
  { intros b' q' Hin. apply (flushed_page msize (8 * nbm)); done || lia. }
  destruct (A _ q ltac:(apply elem_of_app; right; by left)) as [A1 _].
  destruct (A _ dp ltac:(apply elem_of_app; right; right; by left)) as [A2 L2]. cbn [b_blocknr] in *.
  split.
  - apply write_all_io; [done|]. apply (metablocks_ok msize (8 * nbm)); done || lia.
  - lia.
  - by apply (bytewise _ _ A1).
  - intros m Hi. destruct (lookup_lt_is_Some_2 ((r, b, p) :: l) (Z.to_nat (m - 1))) as [[[r' b'] p'] Hl]; [cbn; lia|].
    pose proof (block_chain_lookup _ _ _ _ _ _ _ _ _ _ C Hl) as (_ & Bn & _ & _ & Bp).
    destruct (A b' p') as [A3 _].
    { apply elem_of_app. left. apply list_elem_of_fmap. exists (r', b', p'). split; [done|]. by eapply list_elem_of_lookup_2. }
    rewrite Bn, Z2Nat.id in A3 by lia. rewrite Z2Nat.id in Bp by lia. replace (1 + (m - 1)) with m in A3, Bp by lia.
    replace (bgd_next m) with (if decide (S (Z.to_nat (m - 1)) < length ((r, b, p) :: l))%nat then m + 1 else 0).
    + apply (bgd_page_bytes msize bpg nbg pm _ _ _ E5 E6 E6' p'); [done|]. destruct Bp as [B1 B2 B3 B4]. split; try done.
      intros j Hj _. exact (B4 j Hj ltac:(lia)).
    + unfold bgd_next. destruct (decide _) as [D|D]; cbn [length] in D; zcase; lia.
  - by apply (dentry_page_bytes msize _ ltac:(lia) (dtable_bytes _ _ _) dp).
Qed.

(** The format program succeeds and leaves a formatted disk. *)
Lemma format_run s :
  mem_ok s -> fl_head (f_mfree s) = NULL -> mbc + 2 < 8 * nbm -> room (f_alloc s) ((mbc + 2) * (72 + msize)) ->
  d_io (f_disk s) = [] ->
  exists s', userfs_format bsize msize dsize bpg s = Some (Some tt, s') /\ formatted (f_disk s').
Proof.
  intros M Hl Hlast R Hio. destruct fp_msize as [Hm _]. pose proof FP as [_ _ E4 _ _ _ _ [H1 H2]].
  destruct (format_memory s M Hl Hlast R) as (sb & sbuf & r & b & p & l & dr & data & dp & q & s1 & s2 & s3 &
    R1 & R2 & R3 & Nd & Ed & Esb & Eq & Sp & C & Ln & Lc & Edr & Edp & Dp).
  destruct (format_blocks s3 r b p l sb q data dp C Ln) as [V _]; [apply Sp|apply Dp|].
  apply (metablocks_ok msize (8 * nbm)) in V; [|lia|done]. apply Forall_app in V as [V1 V2].
  apply Forall_cons in V2 as [V2 V3]. rewrite <- Ed in Hio.
  pose proof C as (_ & Nr & Eb & _). pose proof (block_chain_blist _ _ _ _ _ _ C) as BL.
  unfold userfs_format. rewrite (bind_run _ _ _ _ _ R1), (bind_run _ _ _ _ _ R2).
  rewrite (proj2 (Z.eqb_neq r NULL) Nr). rewrite (bind_run _ _ _ _ _ R3). rewrite Nd.
  rewrite (bind_run _ _ _ _ _ (bb_run r s3 b Eb)). rewrite Lc.
  assert (Hn : Z.to_nat mbc = length ((r, b, p) :: l)) by (cbn; lia). rewrite Hn.
  rewrite (bind_run _ _ _ _ _ (md_id_loop_run s3 _ r 1 0 0 C ltac:(done) ltac:(cbn; lia))).
  pose proof (sp_sup _ _ _ _ _ _ _ _ _ Sp) as [Hs _ _ Hms]. pose proof (sp_first _ _ _ _ _ _ _ _ _ Sp) as Hf.
  assert (Hc : b_list_len b = Z.of_nat (length (chain_blocks ((r, b, p) :: l)))) by (unfold chain_blocks; rewrite length_fmap; lia).
  rewrite (bind_run _ _ _ _ _ (flush_run s3 sb q r b _ Eq Hs Hf Hms Eb Hc BL V1 Hio)). set (d1 := write_all _ _ _).
  assert (Hio1 : d_io d1 = []) by by apply write_all_io.
  rewrite (bind_run _ _ _ _ _ (flush_run (with_disk s3 d1) sb q sbuf _ [(_, q)] Eq Hs Hf Hms Esb eq_refl
    (conj Esb (conj Eq I)) ltac:(by constructor) Hio1)). cbn [f_disk with_disk]. set (d2 := write_all _ _ d1).
  assert (Hio2 : d_io d2 = []) by (apply write_all_io; [done|by constructor]).
  rewrite (bind_run _ _ _ _ _ (flush_run (with_disk (with_disk s3 d1) d2) sb q dr _ [(_, dp)] Eq Hs Hf Hms Edr eq_refl
    (conj Edr (conj Edp I)) V3 Hio2)).
  eexists. split; [done|]. cbn [f_disk with_disk].
  change (write_all _ _ d2) with (write_all (mb_off 0 msize) [(Bbuf 0 1 USERFS_BTYPE_SUPER 0 0 msize sb, q);
    (Bbuf 0 1 USERFS_BTYPE_DENTRY (1 + mbc) 0 msize data, dp)] d1).
  unfold d1. rewrite <- write_all_app. by apply (format_disk s3).
Qed.

(** ** Mounting *)

(** [userfs_read_metadata_block] into a buffer. *)
Lemma read_mb_run t r b q nr :
  f_bbufs t !! r = Some b -> f_pages t !! b_data b = Some q -> p_size q = msize ->
  d_io (f_disk t) = [] -> 0 <= nr < 8 * nbm -> msize * nr + msize <= d_len (f_disk t) ->
  exists p, userfs_read_metadata_block r 0 msize nr t =
      Some (0, with_pages (with_bbufs t
        (<[r := set_type (le_read 4 (p_get p) mb_block_type) (set_size msize (set_blocknr nr b))]> (f_bbufs t)))
        (<[b_data b := p]> (f_pages t))) /\
    same_bytes (disk_page (f_disk t) msize nr) p.
Proof.
  intros Eb Eq Hs Hio Hnr Hd. destruct fp_msize as [Hm _]. pose proof FP as [_ _ E4 _ _ _ _ _].
  unfold userfs_read_metadata_block. rewrite (bind_run _ _ _ _ _ (bb_set_run r _ t b Eb)).
  erewrite bind_run; [|apply bb_set_run; apply lookup_insert_eq].
  cbn [f_bbufs with_bbufs]. rewrite insert_insert_eq. set (b1 := set_size _ _). set (t1 := with_bbufs _ _).
  assert (Eb1 : f_bbufs t1 !! r = Some b1) by apply lookup_insert_eq.
  destruct (mb_off_exact msize (8 * nbm) b1 ltac:(lia) E4 Hnr) as (Eo & H1 & H2). cbn [b_blocknr set_size set_blocknr b1] in *.
  unfold userfs_mbbuf_list_read. change (Z.to_nat 1) with (length [(b1, q)]).
  erewrite bind_run; [|apply list_read_run; [exact Hio|split; [exact Eb1|by split]|repeat constructor|apply NoDup_singleton|repeat constructor];
    cbn [fst snd b_size set_size b1]; rewrite ?Eo; cbn; lia].
  change (u32 0 <? 0) with false. cbn iota. cbn [read_all b_data set_size set_blocknr b1]. set (p := Page _ _).
  erewrite bind_run; [|apply bb_run; exact Eb1]. cbn [b_data set_size set_blocknr b1]. set (t2 := with_pages _ _).
  erewrite bind_run; [|apply (ld_run 4 _ _ t2 p); [apply lookup_insert_eq|apply load_in; cbn [p_size p]; sup_unfold; lia]].
  erewrite bind_run; [|apply bb_set_run; exact Eb1]. exists p. rewrite ret_run.
  cbn [f_bbufs f_pages t2 t1 with_pages with_bbufs]. rewrite insert_insert_eq. split; [done|].
  split; [done|]. cbn [p_size disk_page]. intros x Hx. cbn [p_get p disk_page]. rewrite copy_inside by (cbn; lia).
  rewrite Eo, Z.mod_mod by done. do 2 f_equal. lia.
Qed.

(** [userfs_get_used_metadata_block] of a block on the disk. *)
Lemma used_mb_run t nr k :
  mem_ok t -> fl_head (f_mfree t) = NULL -> 0 <= k -> room (f_alloc t) (72 + msize + k) ->
  d_io (f_disk t) = [] -> 0 <= nr < 8 * nbm -> msize * nr + msize <= d_len (f_disk t) ->
  exists r data a p, userfs_get_used_metadata_block msize 0 nr t =
      Some (r, with_block t a r (Bbuf 0 1 (le_read 4 (p_get p) mb_block_type) nr 0 msize data) p) /\
    (r =? NULL) = false /\ a_next (f_alloc t) <= r /\ r < data /\ data < a_next a /\ room a k /\
    same_bytes (disk_page (f_disk t) msize nr) p.
Proof.
  intros M Hl Hk R Hio Hnr Hd. destruct fp_msize as [Hm _]. pose proof FP as [_ _ E4 _ _ _ _ _].
  unfold userfs_get_used_metadata_block.
  destruct (alloc_mbbuf_run t msize k M Hl ltac:(lia) Hk R) as (r & data & a & E & Nr & H1 & H2 & H3 & R').
  rewrite (bind_run _ _ _ _ _ E). rewrite Nr. set (b0 := Bbuf _ _ _ _ _ _ _). set (t1 := with_block _ _ _ _ _).
  destruct (read_mb_run t1 r b0 (Page msize (f_garbage t data)) nr) as (p & E2 & Sb); try done; [apply lookup_insert_eq..|].
  rewrite (bind_run _ _ _ _ _ E2). change (0 <? 0) with false. exists r, data, a, p. rewrite ret_run.
  unfold with_block. cbn [f_bbufs f_pages t1 with_block with_pages with_bbufs b_data b0]. rewrite !insert_insert_eq.
  repeat (split; [done|]). done.
Qed.

(** The list of buffers with the new buffer [r]. *)
Lemma blist_add_run t r b d :
  mem_ok t -> f_bbufs t !! r = Some b -> (forall last, snd d = Some last -> last <> r /\ is_Some (f_bbufs t !! last)) ->
  exists t', blist_add d r t = Some ((match snd d with None => Some r | Some _ => fst d end, Some r), t') /\
    grown t t' /\ f_alloc t' = f_alloc t /\ f_pages t' = f_pages t /\ f_bbufs t' !! r = Some b /\
    (forall x, x <> r ->
       f_bbufs t' !! x = if decide (snd d = Some x) then set_this_page r <$> f_bbufs t !! x else f_bbufs t !! x).
Proof.
  intros M Eb Hd. destruct d as [hd [last|]]; unfold blist_add; cbn [fst snd].
  - destruct (Hd last eq_refl) as [Nl [bl El]]. rewrite (bind_run _ _ _ _ _ (bb_set_run last _ t bl El)).
    eexists. split; [done|]. split; [|split; [done|split; [done|split; [cbn; by rewrite lookup_insert_ne|]]]].
    + apply grown_update; try done. intros x. by apply (insert_known (f_bbufs t) last bl).
    + intros x Nx. cbn. destruct (decide (Some last = Some x)) as [E|N].
      * simplify_eq. by rewrite lookup_insert_eq, El.
      * rewrite lookup_insert_ne by congruence. done.
  - exists t. split; [done|]. split; [by apply grown_refl|]. repeat (split; [done|]). intros x Nx.
    by rewrite decide_False by done.
Qed.

(** One block of [mount_list]. *)
Section Mounting.
Context (taken : Z -> Z) (D : page -> Prop) (HD : Bytewise D).

(** A descriptor block in memory. *)
Definition desc_block (b : bbuf) (p : page) (m nxt : Z) : Prop :=
  b_blocknr b = m /\ b_size b = msize /\ b_type b = USERFS_BTYPE_BGROUP_DESC /\
  bgd_page msize bpg nbg pm (fun i => taken ((m - 1) * pm + i)) (cnt - (m - 1) * pm) p nxt.

Definition desc_chain : fs -> Z -> list (Z * bbuf * page) -> Z -> Z -> Prop := block_chain desc_block.

Lemma mount_step_run fuel t sb sq nr d len k :
  mem_ok t -> fl_head (f_mfree t) = NULL -> 0 <= k -> room (f_alloc t) (72 + msize + k) -> on_disk taken D (f_disk t) ->
  f_pages t !! sb = Some sq -> super_page msize nbm bpg nbg pm cnt mbc (u32 (get_real_block_size bsize)) sq -> 0 < nr < mbc + 2 ->
  (forall last, snd d = Some last -> is_Some (f_bbufs t !! last)) ->
  exists r data p t', mount_list (S fuel) msize 0 sb nr d len t =
      mount_list fuel msize 0 sb (le_read 4 (p_get p) h_next)
        (match snd d with None => Some r | Some _ => fst d end, Some r) (u32 (len + 1)) t' /\
    r <> NULL /\ grown t t' /\ room (f_alloc t') k /\ a_next (f_alloc t) <= r /\ a_next (f_alloc t) <= data /\
    f_bbufs t' !! r = Some (Bbuf 0 (u16 len) (le_read 4 (p_get p) mb_block_type) nr 0 msize data) /\
    (forall x, x < a_next (f_alloc t) ->
       f_bbufs t' !! x = if decide (snd d = Some x) then set_this_page r <$> f_bbufs t !! x else f_bbufs t !! x) /\
    f_pages t' = <[data := p]> (f_pages t) /\ same_bytes (disk_page (f_disk t) msize nr) p.
Proof.
  intros M Hl Hk R Fo Eq Sp Hnr Hlast. destruct fp_msize as [Hm _]. pose proof FP as [_ _ E4 _ _ _ _ [H1 H2]].
  destruct Fo as [Hio Hlen _ _ _]. pose proof (sp_sup _ _ _ _ _ _ _ _ _ Sp) as [Hs _ _ _].
  destruct (used_mb_run t nr k M Hl Hk R Hio ltac:(lia) ltac:(nia)) as (r & data & a & p & E & Nr & A1 & A2 & A3 & R' & Sb).
  cbn [mount_list]. erewrite bind_run; [|eapply sb_ld; [exact Eq|done|sup_unfold; lia]].
  rewrite (sp_first _ _ _ _ _ _ _ _ _ Sp). zdec. rewrite (bind_run _ _ _ _ _ E). rewrite Nr.
  set (b0 := Bbuf _ _ _ _ _ _ _). set (t1 := with_block _ _ _ _ _).
  assert (G1 : grown t t1) by (apply grown_block; [done|by apply (room_ok a k)|lia|lia|cbn; lia]).
  rewrite (bind_run _ _ _ _ _ (bb_set_run r _ t1 b0 (lookup_insert_eq _ _ _))).
  cbn [f_bbufs with_bbufs with_block t1 with_pages]. rewrite insert_insert_eq. set (b1 := set_list_len _ _). set (t2 := with_bbufs _ _).
  assert (Eb2 : f_bbufs t2 !! r = Some b1) by apply lookup_insert_eq.
  assert (G2 : grown t t2) by (apply (grown_trans t t1), grown_update; try done; [apply G1|intros x; apply insert_other]).
  destruct (blist_add_run t2 r b1 d) as (t3 & E3 & G3 & Ea & Ep & Eb3 & L3); [apply G2|done| |].
  { intros last El. destruct (Hlast last El) as [bl Ebl]. pose proof (bbuf_below _ _ _ M Ebl). split; [lia|].
    cbn. rewrite lookup_insert_ne by lia. eauto. }
  rewrite (bind_run _ _ _ _ _ E3). rewrite (bind_run _ _ _ _ _ (bb_run r t3 b1 Eb3)).
  erewrite bind_run; [|eapply (sb_ld t3 data p); [rewrite Ep; apply lookup_insert_eq|done|rewrite (proj1 Sb); cbn [p_size disk_page]; sup_unfold; lia]].
  exists r, data, p, t3. split; [done|]. split; [by apply Z.eqb_neq in Nr|]. split; [by apply (grown_trans t t2)|].
  split; [by rewrite Ea|]. split; [lia|]. split; [lia|]. split; [done|]. split; [|by rewrite Ep].
  intros x Hx. rewrite L3 by lia. cbn. by rewrite lookup_insert_ne by lia.
Qed.

Lemma read_bgd d m p :
  on_disk taken D d -> 1 <= m <= mbc -> same_bytes (disk_page d msize m) p ->
  bgd_page msize bpg nbg pm (fun i => taken ((m - 1) * pm + i)) (cnt - (m - 1) * pm) p (bgd_next m).
Proof.
  intros Fo Hm Sb. pose proof FP as [_ _ _ (_ & E5 & _) [E6 E6'] _ _ _].
  apply (bgd_page_bytes msize bpg nbg pm _ _ _ E5 E6 E6' _ _ Sb). by apply (on_bgd _ _ _ Fo).
Qed.

Lemma mount_bgds_run n : forall fuel t sb sq last bl pl m len hd k,
  (n < fuel)%nat -> m + Z.of_nat n = mbc + 1 -> 1 < m -> mem_ok t -> fl_head (f_mfree t) = NULL -> 0 <= k ->
  room (f_alloc t) (Z.of_nat n * (72 + msize) + k) -> on_disk taken D (f_disk t) ->
  f_pages t !! sb = Some sq -> super_page msize nbm bpg nbg pm cnt mbc (u32 (get_real_block_size bsize)) sq ->
  f_bbufs t !! last = Some bl -> f_pages t !! b_data bl = Some pl -> last <> NULL -> b_this_page bl = NULL ->
  desc_block bl pl (m - 1) (bgd_next (m - 1)) ->
  exists b l t', mount_list fuel msize 0 sb (bgd_next (m - 1)) (Some hd, Some last) len t = Some (Some hd, t') /\
    grown t t' /\ room (f_alloc t') k /\
    desc_chain t' last ((last, b, pl) :: l) (m - 1) 0 /\ b_data b = b_data bl /\
    b_list_len b = b_list_len bl /\ length l = n /\
    Forall (fun x => a_next (f_alloc t) <= x) (chain_data l) /\ NoDup (chain_data l) /\
    (forall x, x < a_next (f_alloc t) -> x <> last -> f_bbufs t' !! x = f_bbufs t !! x) /\
    (forall x, x < a_next (f_alloc t) -> f_pages t' !! x = f_pages t !! x).
Proof.
  destruct fp_msize as [Hms _].
  induction n as [|n IH]; intros fuel t sb sq last bl pl m len hd k Hf Hmn Hm M Hl Hk R Fo Eq Sp El Ep Nl Tl Bk;
    (destruct fuel as [|fuel]; [lia|]).
  { assert (bgd_next (m - 1) = 0) as E0 by (unfold bgd_next; zcase; lia). rewrite E0 in *. exists bl, [], t. split.
    - cbn [mount_list]. erewrite bind_run; [|eapply sb_ld; [exact Eq|done|rewrite (su_size _ _ _ _ (sp_sup _ _ _ _ _ _ _ _ _ Sp)); sup_unfold; lia]].
      by rewrite (sp_first _ _ _ _ _ _ _ _ _ Sp).
    - split; [by apply grown_refl|]. split; [done|]. cbn. repeat (split; [done|]). split; [constructor|]. split; [constructor|done]. }
  assert (bgd_next (m - 1) = m) as E0 by (unfold bgd_next; zcase; lia). rewrite E0 in *.
  assert (0 <= Z.of_nat n * (72 + msize)) by nia.
  destruct (mount_step_run fuel t sb sq m (Some hd, Some last) len (Z.of_nat n * (72 + msize) + k))
    as (r & data & p & t1 & E1 & Nr & G1 & R1 & Hr & Hdt & Er & L1 & P1 & Sb); try done; try lia.
  { by replace (72 + msize + _) with (Z.of_nat (S n) * (72 + msize) + k) by lia. }
  { intros x Ex. cbn in Ex. simplify_eq. eauto. }
  rewrite E1. cbn [fst snd] in *. pose proof (read_bgd _ m p Fo ltac:(lia) Sb) as Bp.
  rewrite (bp_next _ _ _ _ _ _ _ _ Bp), (bp_type _ _ _ _ _ _ _ _ Bp) in *. set (b1 := Bbuf _ _ _ _ _ _ _) in *.
  pose proof (page_below _ _ _ M Eq). pose proof (page_below _ _ _ M Ep). pose proof (bbuf_below _ _ _ M El) as Hlast.
  pose proof (gr_next _ _ G1) as Hn1.
  destruct (IH fuel t1 sb sq r b1 p (m + 1) (u32 (len + 1)) hd k)
    as (b' & l & t' & E & G & R' & C & Ed & _ & Ln & Hda & ND & LB & LP); try lia; try done.
  { apply G1. } { by rewrite (gr_mfree _ _ G1). } { by rewrite (gr_disk _ _ G1). }
  { by rewrite P1, lookup_insert_ne by lia. } { rewrite P1; apply lookup_insert_eq. }
  { replace (m + 1 - 1) with m by lia. by repeat (split; [done|]). }
  replace (m + 1 - 1) with m in * by lia. rewrite E.
  exists (set_this_page r bl), ((r, b', p) :: l), t'. split; [done|]. split; [by apply (grown_trans t t1)|]. split; [done|].
  split.
  { unfold desc_chain; cbn [block_chain]. split; [done|]. split; [done|]. split; [|split; [|split; [|cbn [b_this_page set_this_page]; replace (m - 1 + 1) with m by lia; exact C]]].
    - rewrite LB by lia. rewrite L1, decide_True by done. by rewrite El.
    - cbn [b_data set_this_page]. rewrite LP by lia. by rewrite P1, lookup_insert_ne by lia.
    - replace (m - 1 + 1) with m by lia. exact Bk. }
  assert (data < a_next (f_alloc t1)) by (apply (page_below t1 data p); [apply G1|rewrite P1; apply lookup_insert_eq]).
  destruct (chain_data_cons (a_next (f_alloc t)) (a_next (f_alloc t1)) r b' p l) as [D1 D2]; [rewrite Ed; cbn; lia|done|done|].
  split; [done|]. split; [done|]. split; [cbn; lia|]. split; [done|]. split; [done|]. split.
  - intros x Hx Nx. rewrite LB by lia. rewrite L1, decide_False by (done || congruence). done.
  - intros x Hx. rewrite LP by lia. by rewrite P1, lookup_insert_ne by lia.
Qed.

(** The first loop of [userfs_mount_init]: all descriptor blocks. *)
Lemma mount_table_run fuel t sb sq k :
  mbc < Z.of_nat fuel -> mem_ok t -> fl_head (f_mfree t) = NULL -> 0 <= k ->
  room (f_alloc t) (mbc * (72 + msize) + k) -> on_disk taken D (f_disk t) ->
  f_pages t !! sb = Some sq -> super_page msize nbm bpg nbg pm cnt mbc (u32 (get_real_block_size bsize)) sq ->
  exists r b p l t', mount_list fuel msize 0 sb 1 (None, None) 1 t = Some (Some r, t') /\
    grown t t' /\ room (f_alloc t') k /\
    desc_chain t' r ((r, b, p) :: l) 1 0 /\ Z.of_nat (length l) = mbc - 1 /\ b_list_len b = 1 /\
    Forall (fun x => a_next (f_alloc t) <= x) (chain_data ((r, b, p) :: l)) /\ NoDup (chain_data ((r, b, p) :: l)) /\
    (forall x, x < a_next (f_alloc t) -> f_bbufs t' !! x = f_bbufs t !! x) /\
    (forall x, x < a_next (f_alloc t) -> f_pages t' !! x = f_pages t !! x).
Proof.
  intros Hf M Hl Hk R Fo Eq Sp. destruct fp_msize as [Hms _]. pose proof FP as [_ _ _ _ _ _ _ [H1 H2]].
  destruct fuel as [|fuel]; [lia|]. assert (0 <= (mbc - 1) * (72 + msize)) by nia.
  destruct (mount_step_run fuel t sb sq 1 (None, None) 1 ((mbc - 1) * (72 + msize) + k))
    as (r & data & p & t1 & E1 & Nr & G1 & R1 & Hr & Hdt & Er & L1 & P1 & Sb); try done; try lia.
  { by replace (72 + msize + _) with (mbc * (72 + msize) + k) by lia. }
  cbn [fst snd] in *. pose proof (read_bgd _ 1 p Fo ltac:(lia) Sb) as Bp.
  rewrite (bp_next _ _ _ _ _ _ _ _ Bp), (bp_type _ _ _ _ _ _ _ _ Bp) in *. set (b1 := Bbuf _ _ _ _ _ _ _) in *.
  pose proof (page_below _ _ _ M Eq). pose proof (gr_next _ _ G1) as Hn1.
  assert (Pd : f_pages t1 !! data = Some p) by (rewrite P1; apply lookup_insert_eq).
  destruct (mount_bgds_run (Z.to_nat (mbc - 1)) fuel t1 sb sq r b1 p 2 (u32 (1 + 1)) r k)
    as (b & l & t' & E & G & R' & C & Ed & El & Ln & Hda & ND & LB & LP); rewrite ?Z2Nat.id by lia; try lia; try done.
  { apply G1. } { by rewrite (gr_mfree _ _ G1). } { by rewrite (gr_disk _ _ G1). } { by rewrite P1, lookup_insert_ne by lia. }
  exists r, b, p, l, t'. rewrite E1. split; [exact E|]. split; [by apply (grown_trans t t1)|]. split; [done|]. split; [done|].
  split; [lia|]. split; [done|]. pose proof (page_below _ _ _ (gr_mem _ _ G1) Pd).
  destruct (chain_data_cons (a_next (f_alloc t)) (a_next (f_alloc t1)) r b p l) as [D1 D2]; [rewrite Ed; cbn; lia|done|done|].
  split; [done|]. split; [done|]. split; intros x Hx.
  - rewrite LB by lia. by rewrite L1, decide_False by done.
  - rewrite LP by lia. by rewrite P1, lookup_insert_ne by lia.
Qed.

(** A buffer of block [nr] that counts itself only. *)
Definition metabuf (b : bbuf) (nr : Z) : Prop := b_list_len b = 1 /\ b_blocknr b = nr /\ b_size b = msize.

(** The second loop: the dentry block, in a list of its own. *)
Lemma mount_dentry_run fuel t sb sq hd k :
  1 < Z.of_nat fuel -> mem_ok t -> fl_head (f_mfree t) = NULL -> 0 <= k -> room (f_alloc t) (72 + msize + k) ->
  on_disk taken D (f_disk t) -> f_pages t !! sb = Some sq -> super_page msize nbm bpg nbg pm cnt mbc (u32 (get_real_block_size bsize)) sq ->
  exists r b p t', mount_list fuel msize 0 sb (1 + mbc) (Some hd, None) 1 t = Some (Some r, t') /\
    grown t t' /\ room (f_alloc t') k /\ a_next (f_alloc t) <= r /\
    f_bbufs t' !! r = Some b /\ metabuf b (1 + mbc) /\ a_next (f_alloc t) <= b_data b /\
    f_pages t' !! b_data b = Some p /\ dentry_page msize D p /\
    (forall x, x < a_next (f_alloc t) -> f_bbufs t' !! x = f_bbufs t !! x) /\
    (forall x, x < a_next (f_alloc t) -> f_pages t' !! x = f_pages t !! x).
Proof.
  intros Hf M Hl Hk R Fo Eq Sp. destruct fp_msize as [Hms _]. pose proof FP as [_ _ _ _ _ _ _ [H1 H2]].
  destruct fuel as [|[|fuel]]; [lia|lia|].
  destruct (mount_step_run (S fuel) t sb sq (1 + mbc) (Some hd, None) 1 k)
    as (r & data & p & t1 & E1 & Nr & G1 & R1 & Hr & Hdt & Er & L1 & P1 & Sb); try done; try lia.
  assert (Dp : dentry_page msize D p) by (apply (dentry_page_bytes msize D ltac:(lia) HD _ _ Sb), Fo).
  pose proof (page_below _ _ _ M Eq).
  exists r. eexists _, p, t1. rewrite E1. split; [|split; [done|split; [done|split; [done|split; [exact Er|split; [done|split; [done|]]]]]]].
  - cbn [fst snd mount_list]. rewrite (dp_next _ _ _ Dp).
    erewrite bind_run; [|eapply (sb_ld t1 sb sq); [by rewrite P1, lookup_insert_ne by lia|done|
      rewrite (su_size _ _ _ _ (sp_sup _ _ _ _ _ _ _ _ _ Sp)); sup_unfold; lia]].
    by rewrite (sp_first _ _ _ _ _ _ _ _ _ Sp).
  - cbn [b_data]. rewrite P1, lookup_insert_eq. split; [done|]. split; [done|]. split; intros x Hx.
    + by rewrite L1, decide_False by done.
    + by rewrite lookup_insert_ne by lia.
Qed.

Lemma mount_init_eq fuel t t1 t2 t3 sbuf sbb r dr q :
  userfs_get_used_metadata_block msize 0 0 t = Some (sbuf, t1) -> (sbuf =? NULL) = false ->
  f_bbufs t1 !! sbuf = Some sbb -> b_type sbb = USERFS_BTYPE_SUPER -> f_pages t1 !! b_data sbb = Some q ->
  super_page msize nbm bpg nbg pm cnt mbc (u32 (get_real_block_size bsize)) q ->
  mount_list fuel msize 0 (b_data sbb) 1 (None, None) 1 t1 = Some (Some r, t2) ->
  f_pages t2 !! b_data sbb = Some q ->
  mount_list fuel msize 0 (b_data sbb) (1 + mbc) (Some r, None) 1 t2 = Some (Some dr, t3) ->
  userfs_mount_init fuel msize 0 t = Some ((sbuf, Some r, Some dr), t3).
Proof.
  intros E1 Nr Es Et Eq Sp E2 Eq2 E3. destruct fp_msize as [Hms _].
  pose proof (su_size _ _ _ _ (sp_sup _ _ _ _ _ _ _ _ _ Sp)) as Hs.
  unfold userfs_mount_init. rewrite (bind_run _ _ _ _ _ E1). rewrite Nr.
  erewrite bind_run; [|rewrite (bind_run _ _ _ _ _ (bb_run sbuf t1 sbb Es)); apply ret_run].
  rewrite Et. change (negb (USERFS_BTYPE_SUPER =? USERFS_BTYPE_SUPER)) with false. cbn [orb].
  rewrite (bind_run _ _ _ _ _ (bb_run sbuf t1 sbb Es)).
  erewrite bind_run; [|eapply sb_ld; [exact Eq|done|sup_unfold; lia]].
  rewrite (bs_first _ _ _ _ _ _ (sp_bgd _ _ _ _ _ _ _ _ _ Sp)). rewrite (bind_run _ _ _ _ _ E2).
  erewrite bind_run; [|eapply sb_ld; [exact Eq2|done|sup_unfold; lia]].
  rewrite (sp_dentry _ _ _ _ _ _ _ _ _ Sp). by rewrite (bind_run _ _ _ _ _ E3).
Qed.

(** The three structures after [userfs_mount_init]. *)
Lemma mount_init_run fuel t k :
  mbc < Z.of_nat fuel -> mem_ok t -> fl_head (f_mfree t) = NULL -> 0 <= k ->
  room (f_alloc t) ((mbc + 2) * (72 + msize) + k) -> on_disk taken D (f_disk t) ->
  exists sbuf sbb r b p l dr db dp q t', userfs_mount_init fuel msize 0 t = Some ((sbuf, Some r, Some dr), t') /\
    grown t t' /\ room (f_alloc t') k /\
    f_bbufs t' !! sbuf = Some sbb /\ metabuf sbb 0 /\ f_pages t' !! b_data sbb = Some q /\ super_page msize nbm bpg nbg pm cnt mbc (u32 (get_real_block_size bsize)) q /\
    desc_chain t' r ((r, b, p) :: l) 1 0 /\ Z.of_nat (length l) = mbc - 1 /\ metabuf b 1 /\
    NoDup (b_data sbb :: chain_data ((r, b, p) :: l)) /\
    f_bbufs t' !! dr = Some db /\ metabuf db (1 + mbc) /\ f_pages t' !! b_data db = Some dp /\ dentry_page msize D dp /\
    (b_data db ∉ b_data sbb :: chain_data ((r, b, p) :: l)).
Proof.
  intros Hf M Hl Hk R Fo. destruct fp_msize as [Hms _]. pose proof FP as [_ _ E4 _ _ _ _ [H1 H2]].
  assert (0 <= mbc * (72 + msize)) by nia. pose proof Fo as [Hio Hlen _ _ _].
  destruct (used_mb_run t 0 ((mbc + 1) * (72 + msize) + k)) as (sbuf & sb & a & q & E1 & Nr & A1 & A2 & A3 & R1 & Sb); try done; try lia.
  { by replace (72 + msize + _) with ((mbc + 2) * (72 + msize) + k) by lia. }
  assert (Sp : super_page msize nbm bpg nbg pm cnt mbc (u32 (get_real_block_size bsize)) q) by apply (bytewise _ _ Sb), Fo.
  rewrite (sp_type _ _ _ _ _ _ _ _ _ Sp) in E1. set (sbb := Bbuf _ _ _ _ _ _ _) in *. set (t1 := with_block _ _ _ _ _) in *.
  assert (G1 : grown t t1) by (apply grown_block; [done|apply (room_ok a _ R1); lia|lia|lia|cbn; lia]).
  assert (Es : f_bbufs t1 !! sbuf = Some sbb) by apply lookup_insert_eq.
  assert (Eq : f_pages t1 !! sb = Some q) by apply lookup_insert_eq. pose proof (page_below _ _ _ (gr_mem _ _ G1) Eq) as Hsb.
  pose proof (bbuf_below _ _ _ (gr_mem _ _ G1) Es) as Hsbuf.
  destruct (mount_table_run fuel t1 sb q (72 + msize + k))
    as (r & b & p & l & t2 & E2 & G2 & R2 & C & Ln & Lb & Hda & ND & LB2 & LP2); try done; try lia.
  { apply G1. } { by replace (mbc * (72 + msize) + (72 + msize + k)) with ((mbc + 1) * (72 + msize) + k) by lia. }
  pose proof (gr_next _ _ G2) as Hn2.
  destruct (mount_dentry_run fuel t2 sb q r k) as (dr & db & dp & t3 & E3 & G3 & R3 & Hdr & Edb & Mdb & Hdb & Edp & Dp & LB3 & LP3); try done; try lia.
  { apply G2. } { by rewrite (gr_mfree _ _ G2). } { by rewrite (gr_disk _ _ G2). } { by rewrite LP2 by done. }
  assert (LC : forall x, x ∈ chain_data ((r, b, p) :: l) -> a_next (f_alloc t1) <= x < a_next (f_alloc t2)).
  { intros x Hx. split; [rewrite Forall_forall in Hda; by apply Hda|].
    destruct (block_chain_page _ _ _ _ _ _ _ C Hx) as [px Ex]. by apply (page_below _ _ px (gr_mem _ _ G2)). }
  exists sbuf, sbb, r, b, p, l, dr, db, dp, q, t3.
  split; [apply (mount_init_eq fuel t t1 t2 t3 sbuf sbb r dr q); try done; cbn; by rewrite LP2 by lia|].
  split; [apply (grown_trans t t2); [by apply (grown_trans t t1)|done]|]. split; [done|].
  split; [by rewrite LB3, LB2 by lia|]. split; [done|]. split; [cbn; by rewrite LP3, LP2 by lia|]. split; [done|]. split.
  { apply (block_chain_frame _ t2); [done| |].
    - intros x [bx Hx]. apply LB3. by apply (bbuf_below _ _ bx (gr_mem _ _ G2)).
    - intros x Hx. apply LP3. by apply LC. }
  pose proof C as (_ & _ & _ & _ & (Bn & Bs & _) & _).
  split; [done|]. split; [done|]. split; [apply NoDup_cons; split; [|done]; intros Hx; apply LC in Hx; cbn in Hx; lia|].
  split; [done|]. split; [done|]. split; [done|]. split; [done|]. intros Hx. apply elem_of_cons in Hx as [Hx|Hx]; [cbn in Hx; lia|].
  apply LC in Hx. lia.
Qed.

(** The geometry of the block groups. *)
Definition format_geometry : geometry := Geometry pm (sizeof_bgroup_desc + nbg + 1) bpg nbg cnt false.

Lemma format_geometry_ok : geometry_ok format_geometry.
Proof.
  pose proof FP as [_ _ _ (E5 & E5' & E5'') [E6 E6'] _ (E8 & E8' & _) _]. destruct fp_msize as [Hm _].
  unfold sizeof_mblock in *. split; cbn [g_per_mb g_bgd_size g_blocks g_bytes g_count format_geometry]; lia.
Qed.

(** The descriptors in memory are those of [format_geometry]. *)
Lemma mounted_descs t sb q r l :
  f_pages t !! sb = Some q -> super_page msize nbm bpg nbg pm cnt mbc (u32 (get_real_block_size bsize)) q ->
  desc_chain t r l 1 0 -> Z.of_nat (length l) = mbc -> NoDup (sb :: chain_data l) ->
  descs_ok t sb format_geometry (chain_data l) taken.
Proof.
  intros Eq Sp C Ln ND. pose proof FP as [_ _ _ (E5 & E5' & E5'') [E6 E6'] _ (E8 & E8' & E8'') _]. destruct fp_msize as [Hm _].
  pose proof (sp_bgd _ _ _ _ _ _ _ _ _ Sp) as [G1 G2 G3 G4 G5].
  split; [apply format_geometry_ok| |done| |].
  - exists q. rewrite (su_size _ _ _ _ (sp_sup _ _ _ _ _ _ _ _ _ Sp)). split; [done|]. split; [lia|done].
  - intros pa Hpa. by eapply block_chain_page.
  - intros g Hg. cbn [g_count format_geometry] in Hg.
    assert (0 <= g / pm < mbc) by (split; [apply Z.div_pos; lia|apply Z.div_lt_upper_bound; lia]).
    assert (Hmod : 0 <= g mod pm < pm) by (apply Z.mod_pos_bound; lia).
    destruct (lookup_lt_is_Some_2 l (Z.to_nat (g / pm))) as [[[r' b'] p'] Hl]; [lia|].
    destruct (block_chain_lookup _ _ _ _ _ _ _ _ _ _ C Hl) as (Ep & _ & _ & _ & Bp).
    exists (b_data b'), p'. unfold bgd_mb, bgd_off, chain_data.
    cbn [g_per_mb g_bgd_size g_blocks g_bytes format_geometry]. split; [by rewrite list_lookup_fmap, Hl|].
    split; [done|]. rewrite (bp_size _ _ _ _ _ _ _ _ Bp).
    assert (Eg : (1 + Z.of_nat (Z.to_nat (g / pm)) - 1) * pm + g mod pm = g) by (pose proof (Z.div_mod g pm); lia).
    destruct (bp_groups _ _ _ _ _ _ _ _ Bp (g mod pm) Hmod) as (P & F & Fr); [lia|]. rewrite Eg in F, Fr.
    rewrite (Z.mul_comm _ (g mod pm)). split; [|by split].
    unfold sizeof_mblock, sizeof_bgroup_desc, mb_union in *. nia.
Qed.

(** The structures in memory after the index has been built: the buffers of the super
    block, of the first descriptor block and of the directory. *)
Record tables (t : fs) (sbuf r dr sb dt : Z) (pas : list Z) : Prop := {
  tb_mem : mem_ok t;
  tb_groups : groups_ok t sb format_geometry pas taken;
  tb_super : exists b q, f_bbufs t !! sbuf = Some b /\ metabuf b 0 /\ b_data b = sb /\
    f_pages t !! sb = Some q /\ super_page msize nbm bpg nbg pm cnt mbc (u32 (get_real_block_size bsize)) q;
  tb_first : exists b pa p, f_bbufs t !! r = Some b /\ metabuf b 1 /\ b_data b = pa /\ pas !! 0%nat = Some pa /\
    f_pages t !! pa = Some p /\ p_size p = msize /\ le_read 4 (p_get p) h_next = bgd_next 1 /\
    le_read 4 (p_get p) mb_block_type = USERFS_BTYPE_BGROUP_DESC;
  tb_dentry : exists b p, f_bbufs t !! dr = Some b /\ metabuf b (1 + mbc) /\ b_data b = dt /\
    f_pages t !! dt = Some p /\ dentry_page msize D p;
  tb_apart : dt ∉ sb :: pas }.

(** The name table is apart from the other structures. *)
Lemma tables_dir t a d tb sbuf r dr sb dt pas :
  tables t sbuf r dr sb dt pas -> alloc_ok a -> a_next (f_alloc t) <= a_next a -> tables (with_dir t a d tb) sbuf r dr sb dt pas.
Proof.
  intros [M GO S F T N] Ha Hle. split; try done; [|destruct GO; by split].
  destruct M as [M1 M2 M3 M4 M5]. split; cbn; try done; intros x Hx; [apply M2|apply M3|apply M4]; lia.
Qed.

(** [userfs_mount_init] and the index of the block groups. *)
Lemma mount_tables_run usable fuel t k :
  cnt < 268435456 -> 8 * mbc <= usable (cnt / pm) -> mbc < Z.of_nat fuel -> mem_ok t -> fl_head (f_mfree t) = NULL ->
  room (f_alloc t) ((mbc + 2) * (72 + msize) + (160 + 89 * cnt + k)) -> 0 <= k -> on_disk taken D (f_disk t) ->
  exists sbuf sbb r dr dt pas t1 t2, userfs_mount_init fuel msize 0 t = Some ((sbuf, Some r, Some dr), t1) /\
    f_bbufs t1 !! sbuf = Some sbb /\
    userfs_mount_bgdindex_list_init usable fuel r (b_data sbb) t1 = Some (true, t2) /\
    tables t2 sbuf r dr (b_data sbb) dt pas /\ Z.of_nat (length pas) = mbc /\ f_bbufs t2 = f_bbufs t1 /\
    f_dfree t2 = f_dfree t /\ f_disk t2 = f_disk t /\ f_dstore t2 = f_dstore t /\ room (f_alloc t2) k.
Proof.
  intros Hc Hus Hf M Hl R Hk Fo. pose proof FP as [_ _ _ _ _ _ (E8 & _) [H1 H2]].
  destruct (mount_init_run fuel t (160 + 89 * cnt + k))
    as (sbuf & sbb & r & b & p & l & dr & db & dp & q & t1 & E1 & G1 & R1 & Es & Ms & Eq & Sp & C & Ln & Mb & ND & Edb & Md & Edp & Dp & Nd);
    try done; [lia|].
  assert (DO : descs_ok t1 (b_data sbb) format_geometry (chain_data ((r, b, p) :: l)) taken).
  { apply (mounted_descs t1 _ q r); try done. cbn [length]. lia. }
  pose proof C as (_ & _ & Eb & Ep & (_ & _ & Tb & Bp) & _).
  destruct (mount_index_run usable fuel t1 (b_data sbb) format_geometry _ _ r _ b k DO (gr_mem _ _ G1)
    (block_chain_bchain _ _ _ _ _ _ C)) as (t2 & E2 & GO & M2 & P2 & B2 & R2 & D2 & F2 & K2); try done; try lia.
  { rewrite length_fmap. cbn [length]. lia. }
  { unfold chain_data. rewrite length_fmap. cbn [length]. cbn [g_count g_per_mb format_geometry]. lia. }
  exists sbuf, sbb, r, dr, (b_data db), (chain_data ((r, b, p) :: l)), t1, t2. do 3 (split; [done|]).
  split; [|split; [unfold chain_data; rewrite length_fmap; cbn [length]; lia|split; [done|by rewrite F2, (gr_dfree _ _ G1), K2, (gr_disk _ _ G1), D2, (gr_dstore _ _ G1)]]].
  split; try done; rewrite B2, P2.
  - by exists sbb, q.
  - exists b, (b_data b), p. split; [done|]. split; [done|]. split; [done|]. split; [done|]. split; [done|].
    split; [apply Bp|]. split; [|apply Bp]. rewrite (bp_next _ _ _ _ _ _ _ _ Bp). unfold bgd_next. destruct l; cbn [length] in Ln; zcase; lia.
  - by exists db, dp.
Qed.
End Mounting.

(** A new name table, before the entries of the directory go into it. *)
Lemma hashtable_start t dr db dp cs n gc N f u K :
  mem_ok t -> f_dstore t = Dstore ∅ cs -> 0 < n <= LINKHASH_MAX_BUCKET_COUNT -> room (f_alloc t) (48 + 16 * n + K) -> 0 <= K ->
  f_bbufs t !! dr = Some db -> f_pages t !! b_data db = Some dp -> dtable dp N f u ->
  exists a d tb, userfs_mount_dentry_hashtable_init n dr gc t = dentry_hash_loop (Z.to_nat u) 0 (b_data db) (with_dir t a d tb) /\
    dir_rep (with_dir t a d tb) (replicate (Z.to_nat n) []) /\ mem_ok (with_dir t a d tb) /\ room a K /\
    a_next (f_alloc t) <= a_next a.
Proof.
  intros M Ed Hn R HK Eb Ep D. unfold userfs_mount_dentry_hashtable_init.
  pose proof (hash_create_rep (f_alloc t) cs n gc (mo_alloc _ M) ltac:(lia)) as H.
  destruct (room_malloc (f_alloc t) (sizeof_linkhash + sizeof_bucket * n) K) as (a & Em & Ra & L & P).
  { unfold sizeof_linkhash, sizeof_bucket. by replace (16 + _ + K) with (48 + 16 * n + K) by lia. }
  { unfold sizeof_linkhash, sizeof_bucket. lia. } { done. }
  unfold userfs_dentry_hash_create in H |- *. rewrite (proj2 (Z.eqb_neq n 0)), (proj2 (Z.ltb_ge _ n)) in H by lia.
  cbn [orb] in H. rewrite Em in H. rewrite (proj2 (Z.eqb_neq (a_next _) NULL)) in H by (unfold NULL; lia).
  destruct (linkhash_init _ _ _ _) as [tb d] eqn:Ei. destruct H as (_ & _ & H). exists a, d, tb. split; [|split; [done|split; [|split; [done|lia]]]].
  - erewrite bind_run; [|unfold act; rewrite (proj2 (Z.eqb_neq n 0)), (proj2 (Z.ltb_ge _ n)) by lia; cbn [orb];
      rewrite Em, (proj2 (Z.eqb_neq (a_next _) NULL)), Ed, Ei by (unfold NULL; lia); reflexivity].
    cbn [negb]. rewrite (bind_run _ _ _ _ _ (bb_run dr (with_dir t a d tb) db Eb)).
    erewrite bind_run; [|eapply ld_run; [exact Ep|apply load_in; [done|]; pose proof (dt_room _ _ _ _ D); pose proof (dt_range _ _ _ _ D); dt_unfold; lia]].
    by rewrite (dt_used _ _ _ _ D).
  - destruct M as [M1 M2 M3 M4 M5]. pose proof (room_ok a K Ra HK). split; cbn; try done; intros x Hx;
      [apply M2|apply M3|apply M4]; lia.
Qed.

(** The name table of an empty directory. *)
Lemma hashtable_run t dr db dp cs n gc N K :
  mem_ok t -> f_dstore t = Dstore ∅ cs -> 0 < n <= LINKHASH_MAX_BUCKET_COUNT -> room (f_alloc t) (48 + 16 * n + K) -> 0 <= K ->
  f_bbufs t !! dr = Some db -> f_pages t !! b_data db = Some dp -> dtable dp N 0 0 ->
  exists a d tb, userfs_mount_dentry_hashtable_init n dr gc t = Some (true, with_dir t a d tb) /\
    dir_rep (with_dir t a d tb) (replicate (Z.to_nat n) []) /\ mem_ok (with_dir t a d tb) /\ room a K.
Proof.
  intros M Ed Hn R HK Eb Ep D. destruct (hashtable_start t dr db dp cs n gc N 0 0 K M Ed Hn R HK Eb Ep D) as (a & d & tb & E & H1 & H2 & H3 & _).
  by exists a, d, tb.
Qed.

(** A mounted file system without files, as userfs_file_create needs it. *)
Record mounted (t : fs) (sb dr : Z) (n : Z) : Prop := {
  mt_mem : mem_ok t;
  mt_groups : exists pas dt dp, groups_ok t sb format_geometry pas (fun _ => 0) /\
    (exists db, f_bbufs t !! dr = Some db /\ b_data db = dt) /\ (dt ∉ sb :: pas) /\
    f_pages t !! dt = Some dp /\ dtable dp (dentry_per_mb msize) 0 0;
  mt_super : exists q, f_pages t !! sb = Some q /\ le_read 4 (p_get q) s_first_datablock = 1 /\
    le_read 4 (p_get q) s_data_block_size = get_real_block_size bsize;
  mt_names : dir_rep t (replicate (Z.to_nat n) []) }.

Lemma mount_run usable fuel t cs n gc K :
  0 <= bsize < 4294967296 -> cnt < 268435456 -> 8 * mbc <= usable (cnt / pm) -> mbc < Z.of_nat fuel -> mem_ok t -> fl_head (f_mfree t) = NULL ->
  f_dstore t = Dstore ∅ cs -> 0 < n <= LINKHASH_MAX_BUCKET_COUNT ->
  room (f_alloc t) ((mbc + 2) * (72 + msize) + (160 + 89 * cnt + (48 + 16 * n + K))) -> 0 <= K -> formatted (f_disk t) ->
  exists sbuf sbb r dr t1 t2 t3, userfs_mount_init fuel msize 0 t = Some ((sbuf, Some r, Some dr), t1) /\
    f_bbufs t1 !! sbuf = Some sbb /\
    userfs_mount_bgdindex_list_init usable fuel r (b_data sbb) t1 = Some (true, t2) /\
    userfs_mount_dentry_hashtable_init n dr gc t2 = Some (true, t3) /\
    mounted t3 (b_data sbb) dr n /\ f_dfree t3 = f_dfree t /\ f_disk t3 = f_disk t /\ room (f_alloc t3) K.
Proof.
  intros Hb Hc Hus Hf M Hl Hds Hn R HK Fo.
  destruct (mount_tables_run none_taken (empty_dir msize) (dtable_bytes _ _ _) usable fuel t (48 + 16 * n + K))
    as (sbuf & sbb & r & dr & dt & pas & t1 & t2 & E1 & Es & E2 & TB & _ & _ & F2 & K2 & D2 & R2); try done; [lia|].
  pose proof TB as [M2 GO (b & q & _ & _ & _ & Eq & Sp) _ (db & dp & Edb & _ & Ed & Edp & Dp) Nd].
  destruct (hashtable_run t2 dr db dp cs n gc (dentry_per_mb msize) K) as (a & d & tb & E3 & DR & M3 & R3); try done.
  { by rewrite D2. } { by rewrite Ed. } { apply Dp. }
  exists sbuf, sbb, r, dr, t1, t2, (with_dir t2 a d tb). do 4 (split; [done|]).
  split; [|done]. split; [done| | |done].
  - exists pas, dt, dp. cbn [f_bbufs f_pages with_dir].
    split; [destruct GO; by split|]. split; [by exists db|]. split; [done|]. split; [done|]. apply Dp.
  - exists q. cbn [f_pages with_dir]. split; [done|]. split; [apply Sp|].
    rewrite (sp_datasize _ _ _ _ _ _ _ _ _ Sp). destruct (get_real_block_size_spec bsize Hb) as ((k & Hk & ->) & _).
    apply u32_small. assert (2 ^ k <= 2 ^ 26) by (apply Z.pow_le_mono_r; lia). lia.
Qed.

(** ** Writing the mounted structures back *)

(** The flushes at the end of [main], from lists whose heads count themselves only. *)
Lemma sync_run t sbuf sbb r b dr db q p dp :
  f_bbufs t !! sbuf = Some sbb -> f_bbufs t !! r = Some b -> f_bbufs t !! dr = Some db ->
  metabuf sbb 0 -> metabuf b 1 -> metabuf db (1 + mbc) ->
  f_pages t !! b_data sbb = Some q -> f_pages t !! b_data b = Some p -> f_pages t !! b_data db = Some dp ->
  p_size q = msize -> p_size p = msize -> p_size dp = msize ->
  le_read 4 (p_get q) s_first_metablock = 0 -> le_read 4 (p_get q) s_metablock_size = msize -> d_io (f_disk t) = [] ->
  let L := [(sbb, q); (b, p); (db, dp)] in
  userfs_sync (b_data sbb) sbuf r dr t = Some (tt, with_disk t (write_all (mb_off 0 msize) L (f_disk t))) /\
  metablocks msize (8 * nbm) L /\ NoDup (b_blocknr ∘ fst <$> L).
Proof.
  intros E1 E2 E3 (L1 & N1 & S1) (L2 & N2 & S2) (L3 & N3 & S3) P1 P2 P3 H1 H2 H3 Hf Hm Hio L.
  destruct fp_msize as [Hms _]. pose proof FP as [_ _ E4 _ _ _ _ [Hb Hb']].
  assert (V : metablocks msize (8 * nbm) L) by (repeat constructor; cbn; lia).
  pose proof (metablocks_ok msize (8 * nbm) L ltac:(lia) E4 V) as Ok. apply Forall_cons in Ok as [O1 Ok]. apply Forall_cons in Ok as [O2 O3].
  split; [|split; [done|]].
  - unfold userfs_sync.
    rewrite (bind_run _ _ _ _ _ (flush_run t _ q sbuf sbb [(sbb, q)] P1 H1 Hf Hm E1 L1 (conj E1 (conj P1 I)) ltac:(by constructor) Hio)).
    set (d1 := write_all _ _ _). assert (Hio1 : d_io d1 = []) by (apply write_all_io; [done|by constructor]).
    rewrite (bind_run _ _ _ _ _ (flush_run (with_disk t d1) _ q r b [(b, p)] P1 H1 Hf Hm E2 L2 (conj E2 (conj P2 I)) ltac:(by constructor) Hio1)).
    cbn [f_disk with_disk]. set (d2 := write_all _ _ d1). assert (Hio2 : d_io d2 = []) by (apply write_all_io; [done|by constructor]).
    rewrite (bind_run _ _ _ _ _ (flush_run (with_disk (with_disk t d1) d2) _ q dr db [(db, dp)] P1 H1 Hf Hm E3 L3 (conj E3 (conj P3 I)) O3 Hio2)).
    reflexivity.
  - cbn. rewrite N1, N2, N3.
    repeat (apply NoDup_cons; split; [rewrite ?elem_of_cons, elem_of_nil; lia|]). by constructor.
Qed.
End Layout.

(** A program that starts with [k] bytes of memory. *)
Record fresh_start (s : fs) (k : Z) : Prop := {
  fs_mem : mem_ok s;
  fs_mfree : fl_head (f_mfree s) = NULL;
  fs_dfree : fl_head (f_dfree s) = NULL;
  fs_names : nodes (f_dstore s) = ∅;
  fs_room : room (f_alloc s) k }.

(** The largest block size. *)
Lemma real_block_max bsize : 0 <= bsize < 4294967296 -> get_real_block_size bsize <= 67108864.
Proof.
  intros Hb. destruct (get_real_block_size_spec bsize Hb) as ((k & Hk & ->) & _).
  change 67108864 with (2 ^ 26). apply Z.pow_le_mono_r; lia.
Qed.

(** The sizes of a disk of [dsize] bytes that can be formatted. *)
Lemma format_params_ok bsize msize dsize nbg size pm cnt mbc :
  let rbs := get_real_block_size bsize in
  let nbm := rbs / msize / 8 in
  0 <= bsize < 4294967296 -> 96 <= msize <= rbs -> 92 + nbm < msize ->
  0 < nbg < 8192 -> sizeof_mblock + sizeof_bgroup_desc + nbg + 1 <= msize ->
  2 <= dsize / rbs <= 1073741824 ->
  bgroup_sizes msize (dsize / rbs - 1) (8 * nbg) = Some (size, pm, cnt, mbc) -> mbc <= 128 -> mbc + 2 <= 8 * nbm ->
  format_params bsize msize dsize (8 * nbg) nbg nbm pm cnt mbc /\ cnt < 268435456.
Proof.
  intros rbs nbm Hb Hm Hn Hg Hd Hs E Hmb Hmb'.
  destruct (get_real_block_size_spec bsize Hb) as ((k & Hk & Er) & _). fold rbs in Er.
  assert (rbs <= 2 ^ 26) by (rewrite Er; apply Z.pow_le_mono_r; lia). assert (0 < rbs) by (rewrite Er; apply Z.pow_pos_nonneg; lia).
  pose proof (Z.mul_div_le rbs msize ltac:(lia)). pose proof (Z.mul_div_le (rbs / msize) 8 ltac:(lia)) as Hn8.
  change (8 * nbm <= rbs / msize) in Hn8. change (2 ^ 26) with 67108864 in *.
  destruct (bgroup_sizes_spec msize (dsize / rbs - 1) (8 * nbg) nbg) as (pm' & c' & m' & E' & P1 & P2 & P3 & P4); try lia.
  { unfold sizeof_mblock in *. lia. }
  rewrite E in E'. injection E' as -> <- <- <-. split; [split|nia]; try done; try lia.
  - rewrite Z.shiftr_div_pow2 by lia. reflexivity.
  - nia.
  - clearbody nbm. nia.
  - fold rbs. rewrite u32_small by lia. exact E.
  - nia.
Qed.


(** C12: What the end of main in userfs/test_init.c writes back.  userfs_mount_init counts
    the buffers of a list in each buffer, so that the head of the list says 1 whatever
    its length.  From any later state that still has the three buffers, the final
    flushes succeed and store the super block, the first descriptor block and the
    dentry block; the other descriptor blocks stay on the disk as they were, whatever
    has been allocated from their groups. *)
Theorem mount_sync_blocks bsize msize dsize bpg nbg nbm pm cnt mbc fuel t :
  format_params bsize msize dsize bpg nbg nbm pm cnt mbc -> mbc < Z.of_nat fuel ->
  fresh_start t ((mbc + 2) * (72 + msize)) -> formatted bsize msize bpg nbg nbm pm cnt mbc (f_disk t) ->
  exists sbuf sbb r b dr db t1, userfs_mount_init fuel msize 0 t = Some ((sbuf, Some r, Some dr), t1) /\
    f_bbufs t1 !! sbuf = Some sbb /\ f_bbufs t1 !! r = Some b /\ f_bbufs t1 !! dr = Some db /\
    forall t2 q p dp,
      f_bbufs t2 !! sbuf = Some sbb -> f_bbufs t2 !! r = Some b -> f_bbufs t2 !! dr = Some db ->
      f_pages t2 !! b_data sbb = Some q -> f_pages t2 !! b_data b = Some p -> f_pages t2 !! b_data db = Some dp ->
      p_size q = msize -> p_size p = msize -> p_size dp = msize ->
      le_read 4 (p_get q) s_first_metablock = 0 -> le_read 4 (p_get q) s_metablock_size = msize ->
      d_io (f_disk t2) = [] ->
      exists t3, userfs_sync (b_data sbb) sbuf r dr t2 = Some (tt, t3) /\
        same_bytes q (disk_page (f_disk t3) msize 0) /\ same_bytes p (disk_page (f_disk t3) msize 1) /\
        same_bytes dp (disk_page (f_disk t3) msize (1 + mbc)) /\
        forall nr x, 1 < nr <= mbc -> 0 <= x < msize ->
          d_bytes (f_disk t3) (msize * nr + x) = d_bytes (f_disk t2) (msize * nr + x).
Proof.
  intros FP Hf [M Hl _ _ R] Fo. rewrite <- (Z.add_0_r ((mbc + 2) * _)) in R.
  destruct (mount_init_run _ _ _ _ _ _ _ _ _ FP _ _ (dtable_bytes _ _ _) fuel t 0 Hf M Hl ltac:(done) R Fo)
    as (sbuf & sbb & r & b & p0 & l & dr & db & dp0 & q0 & t1 & E & _ & _ & Es & Ms & _ & _ & C & _ & Mb & _ & Ed & Md & _).
  pose proof C as (_ & _ & Eb & _). exists sbuf, sbb, r, b, dr, db, t1. do 4 (split; [done|]).
  intros t2 q p dp E1 E2 E3 P1 P2 P3 H1 H2 H3 Hfm Hms Hio.
  destruct (sync_run _ _ _ _ _ _ _ _ _ FP t2 sbuf sbb r b dr db q p dp) as (S & V & ND); try done.
  destruct (fp_msize _ _ _ _ _ _ _ _ _ FP) as [Hm _]. pose proof FP as [_ _ E4 _ _ _ _ _].
  eexists. split; [exact S|]. cbn [f_disk with_disk]. set (L := [_; _; _]) in *.
  assert (A : forall b' q', (b', q') ∈ L ->
    same_bytes q' (disk_page (write_all (mb_off 0 msize) L (f_disk t2)) msize (b_blocknr b'))).
  { intros b' q' Hin. apply (flushed_page msize (8 * nbm) L (f_disk t2) b' q'); done || lia. }
  destruct Ms as (_ & N1 & S1), Mb as (_ & N2 & S2), Md as (_ & N3 & S3).
  pose proof (A sbb q ltac:(by left)) as A1. pose proof (A b p ltac:(right; by left)) as A2.
  pose proof (A db dp ltac:(right; right; by left)) as A3. rewrite N1 in A1. rewrite N2 in A2. rewrite N3 in A3.
  split; [done|]. split; [done|]. split; [done|]. intros nr x Hnr Hx.
  apply write_all_outside; [done|by apply (metablocks_ok msize (8 * nbm)); [lia|..]|]. intros b' q' Hin.
  pose proof V as V'. unfold metablocks in V'. rewrite Forall_forall in V'. destruct (V' _ Hin) as (Sz & _ & Hb'). cbn [fst] in *.
  destruct (mb_off_exact msize (8 * nbm) b' ltac:(lia) E4 Hb') as (-> & _). rewrite Sz.
  assert (b_blocknr b' = 0 \/ b_blocknr b' = 1 \/ b_blocknr b' = 1 + mbc) as Hc.
  { unfold L in Hin. rewrite !elem_of_cons in Hin. destruct Hin as [?|[?|[?|Hin]]]; [simplify_eq; lia..|by apply elem_of_nil in Hin]. }
  nia.
Qed.

(** Witness: the sizes of userfs/test_init.c, a disk of 1 TiB. *)
Definition empty_fs (d : disk) : fs :=
  Fs (Alloc 4096 []) (fun a x => 37 * a + x) ∅ ∅ d (Freelist 0 0) (Freelist 0 0) ∅ (Bgi 0 [] (Mrheap [] 0 0))
     (Dstore ∅ ∅) (Linkhash 0 0 0 []).

Lemma empty_fs_start d k : 0 <= k <= 1000000000 -> fresh_start (empty_fs d) k.
Proof. intros Hk. split; try done. split; [done|]. cbn. unfold ADDR_TOP. lia. Qed.


(** Witness: a disk of 4 TiB has two descriptor blocks; group 700 is in the second. *)
Lemma mount_sync_blocks_witness :
  exists t sbuf sbb r dr t1, userfs_mount_init 3 16384 0 t = Some ((sbuf, Some r, Some dr), t1) /\
    f_bbufs t1 !! sbuf = Some sbb /\
    exists t3, userfs_sync (b_data sbb) sbuf r dr t1 = Some (tt, t3) /\
      d_bytes (f_disk t3) (16384 * 2 + 100) = d_bytes (f_disk t1) (16384 * 2 + 100).
Proof.
  destruct (format_params_ok 67108864 16384 4398046511104 8 25 654 1024 2) as [FP _].
  1-9: vm_compute; intuition congruence.
  pose proof (empty_fs_start (Disk 0 (fun _ => 0) []) 65824 ltac:(lia)) as [M Hl _ _ R].
  destruct (format_run _ _ _ _ _ _ _ _ _ FP (empty_fs (Disk 0 (fun _ => 0) [])) M Hl ltac:(vm_compute; reflexivity) R eq_refl) as (s1 & _ & Fo).
  destruct (mount_init_run _ _ _ _ _ _ _ _ _ FP none_taken (empty_dir 16384) (dtable_bytes _ _ _) 3 (empty_fs (f_disk s1)) 0)
    as (sbuf' & sbb' & r' & b' & p & l & dr' & db' & dp & q & t1' & E' & G & _ & Es & _ & Eq & Sp & C & _ & _ & _ & Ed & _ & Edp & Dp & _);
    [lia|apply (empty_fs_start _ 0); lia|reflexivity|lia|apply empty_fs_start; lia|exact Fo|].
  destruct (mount_sync_blocks _ _ _ _ _ _ _ _ _ 3 (empty_fs (f_disk s1)) FP) as (sbuf & sbb & r & b & dr & db & t1 & E & H1 & H2 & H3 & H);
    [lia|apply empty_fs_start; lia|exact Fo|].
  rewrite E' in E. injection E as <- <- <- <-. pose proof C as (_ & _ & Eb & Ep & (_ & _ & _ & Bp) & _).
  rewrite Es in H1. rewrite Eb in H2. rewrite Ed in H3. injection H1 as <-. injection H2 as <-. injection H3 as <-.
  destruct (H t1' q p dp) as (t3 & S & _ & _ & _ & K); try assumption;
    [apply Sp|apply Bp|apply Dp|apply Sp|apply Sp|rewrite (gr_disk _ _ G); apply Fo|].
  exists (empty_fs (f_disk s1)), sbuf', sbb', r', dr', t1'. split; [exact E'|]. split; [exact Es|].
  exists t3. split; [exact S|]. apply K; lia.
Defined.
