(* ===== verification/FileMount.v ===== *)
(** * FileMount: mounting a disk with files (userfs)

    userfs_mount_dentry_hashtable_init puts every entry of the directory on the disk into
    a new name table; with the block groups of Format the state behind the mount is a
    file system (FileSys) whose files are closed.  The flushes at the end of main put
    the state of such a file system back on the disk. *)
From S2P Require Import Prelude Bits Atomic KList Bitmap MrHeap DentryHash Fs BlockBuf FileCtrl FsInit Mount FileOps FileRw FilePersist FileCreate FileDir FileClient FileSys Format.
Local Open Scope Z_scope.

(** ** Filling the name table *)

Lemma mem_ok_dir t a d tb : mem_ok t -> alloc_ok a -> a_next (f_alloc t) <= a_next a -> mem_ok (with_dir t a d tb).
Proof.
  intros [M1 M2 M3 M4 M5] Ha Hle. split; cbn; try done; intros x Hx; [apply M2|apply M3|apply M4]; lia.
Qed.

(** The distance of a place of the ring from its first place. *)
Lemma ring_index n f i : 0 <= i < n -> ((f + i) mod n - f) mod n = i.
Proof. intros Hi. rewrite Zminus_mod_idemp_l. replace (f + i - f) with i by lia. by apply Z.mod_small. Qed.

Section Load.
Context (names : list Z -> Prop) (nb : Z) (NO : names_ok names nb) (dt : Z) (dp : page) (n f : Z) (M : gmap (list Z) dfile).
Context (RO : ring_ok dp n f M).
Context (HM : forall a d, M !! a = Some d -> names a /\ d_val d = USERFS_INODEADDRINFO_CAL USERFS_NAME2INODE (d_blk d)).

(** The names of the first [i] places. *)
Definition loaded (i : Z) : gmap (list Z) (Z * Z) :=
  (fun d => (d_pos d, d_val d)) <$> filter (fun ad => (d_pos ad.2 - f) mod n < i) M.

Lemma entry_index a d : M !! a = Some d -> exists i, 0 <= i < Z.of_nat (base.size M) /\ d_pos d = (f + i) mod n /\ (d_pos d - f) mod n = i.
Proof.
  intros Ea. destruct (ro_entry _ _ _ _ RO a d Ea) as (_ & (i & Hi & Ei) & _). exists i. split; [done|]. split; [done|].
  pose proof (dt_range _ _ _ _ (ro_table _ _ _ _ RO)). rewrite Ei. apply ring_index. lia.
Qed.

Lemma loaded_none : loaded 0 = ∅.
Proof.
  apply map_empty. intros a. unfold loaded. rewrite lookup_fmap, map_lookup_filter_None_2; [done|]. right. intros d Ea. cbn.
  destruct (entry_index a d Ea) as (i & Hi & _ & ->). lia.
Qed.

Lemma loaded_all : loaded (Z.of_nat (base.size M)) = (fun d => (d_pos d, d_val d)) <$> M.
Proof.
  unfold loaded. f_equal. apply map_filter_id. intros a d Ea. cbn. destruct (entry_index a d Ea) as (i & Hi & _ & ->). lia.
Qed.

Lemma loaded_step i : 0 <= i < Z.of_nat (base.size M) ->
  exists a d, M !! a = Some d /\ d_pos d = (f + i) mod n /\ loaded i !! a = None /\
    loaded (i + 1) = <[a := (d_pos d, d_val d)]> (loaded i).
Proof.
  intros Hi. destruct (ro_onto _ _ _ _ RO ((f + i) mod n)) as (a & d & Ea & Ed); [by exists i|].
  assert (Ix : (d_pos d - f) mod n = i).
  { pose proof (dt_range _ _ _ _ (ro_table _ _ _ _ RO)). rewrite Ed. apply ring_index. lia. }
  exists a, d. split; [done|]. split; [done|]. unfold loaded. split.
  - rewrite lookup_fmap, map_lookup_filter_None_2; [done|]. right. intros e Ee. rewrite Ea in Ee. injection Ee as <-. cbn. lia.
  - rewrite <- (fmap_insert (fun d => (d_pos d, d_val d)) _ a d). f_equal. apply map_eq. intros b. apply option_eq. intros e.
    rewrite map_lookup_filter_Some, lookup_insert_Some, map_lookup_filter_Some. cbn. split.
    + intros [Eb Hb]. destruct (entry_index b e Eb) as (j & Hj & Ep & Ej). destruct (Z.eq_dec j i) as [->|Nj].
      * left. assert (a = b) as -> by (apply (ro_inj _ _ _ _ RO a b d e); congruence). split; congruence.
      * right. split; [intros ->; congruence|]. split; [done|lia].
    + intros [[<- <-]|(Nb & Eb & Hb)]; (split; [done|lia]).
Qed.

Lemma load_run k : forall i t bs K,
  Z.of_nat k + i = Z.of_nat (base.size M) -> 0 <= i -> f_pages t !! dt = Some dp -> dir_rep t bs ->
  names_map names nb bs (loaded i) -> mem_ok t -> 0 <= K -> room (f_alloc t) (Z.of_nat k * 80 + K) ->
  exists a d tb bs', dentry_hash_loop k i dt t = Some (true, with_dir t a d tb) /\ dir_rep (with_dir t a d tb) bs' /\
    names_map names nb bs' (loaded (Z.of_nat (base.size M))) /\ mem_ok (with_dir t a d tb) /\ room a K /\ a_next (f_alloc t) <= a_next a.
Proof.
  pose proof (ro_table _ _ _ _ RO) as D. pose proof (dt_range _ _ _ _ D) as (Hn & Hf & Hu). pose proof (dt_room _ _ _ _ D) as Sz.
  induction k as [|k IH]; intros i t bs K Hk Hi Ep R NM Mm HK Rm; cbn [dentry_hash_loop].
  { rewrite ret_run. exists (f_alloc t), (f_dstore t), (f_table t), bs. replace i with (Z.of_nat (base.size M)) in NM by lia.
    assert (with_dir t (f_alloc t) (f_dstore t) (f_table t) = t) as -> by (by destruct t). by split_and!. }
  destruct (loaded_step i ltac:(lia)) as (a & d & Ea & Ed & Ni & Es). destruct (HM a d Ea) as [Ha Hv].
  destruct (ro_entry _ _ _ _ RO a d Ea) as (Va & _ & De). assert (Hp : 0 <= d_pos d < n) by (rewrite Ed; apply Z.mod_pos_bound; lia).
  do 2 (erewrite bind_run; [|eapply ld_run; [exact Ep|apply load_in; [done|dt_unfold; lia]]]).
  rewrite (dt_first _ _ _ _ D), (dt_count _ _ _ _ D). zdec. rewrite u32_small by lia. rewrite (Z.add_comm i f), <- Ed.
  erewrite bind_run; [|eapply page_name_run; done]. cbn [fst snd].
  erewrite bind_run; [|eapply ld_run; [exact Ep|apply load_in; unfold d_first_dblock; dt_unfold; lia]]. rewrite (proj1 De).
  assert (Dn : denotes (a ++ [0]) (Z.of_nat (length a)) a) by (split; [done|]; split; [by exists [0]|done]).
  destruct (hash_insert_run t bs (a ++ [0]) _ a USERFS_NAME2INODE (d_blk d) (d_pos d) R Dn) as (p & al & ds & tb & E & Hal & Sp & C).
  rewrite (bind_run _ _ _ _ _ E). change (16 + sizeof_hlist) with 80 in Sp.
  assert (L : spec_lookup bs a = None) by (rewrite (names_lookup names nb NO bs _ a NM Ha), Ni; done).
  assert (Rk : room al (Z.of_nat k * 80 + K)) by (apply (proj2 Sp); [lia|]; by replace (80 + _) with (Z.of_nat (S k) * 80 + K) by lia).
  destruct C as [(_ & C)|(Np & _ & R' & _)].
  { exfalso. destruct C as [C|C]; [|done]. revert C. apply room_not_null; [|done]. eapply room_weaken; [exact Rm|]. unfold sizeof_hlist. lia. }
  rewrite (proj2 (Z.eqb_neq p NULL) Np).
  destruct (IH (i + 1) (with_dir t al ds tb) (spec_insert bs (Entry a (d_pos d) (USERFS_INODEADDRINFO_CAL USERFS_NAME2INODE (d_blk d)))) K)
    as (al' & ds' & tb' & bs' & E' & R2 & NM2 & M2 & Rm2 & L2); try done; try lia.
  - rewrite Es, Hv. by apply names_insert.
  - apply mem_ok_dir; [done|done|apply Sp].
  - exists al', ds', tb', bs'. do 5 (split; [done|]). pose proof (proj1 Sp). cbn in L2. lia.
Qed.
End Load.

(** ** The directory on the disk *)

(** The ring of a page holds the files of [M]. *)
Definition dir_page (n : Z) (M : gmap (list Z) dfile) (p : page) : Prop := exists f, ring_ok p n f M.

#[export] Instance dir_page_bytes n M : Bytewise (dir_page n M).
Proof.
  intros p p' B (f & [R1 R2 R3 R4]). exists f. pose proof (dt_range _ _ _ _ R1) as (Hn & Hf & Hu). pose proof (dt_room _ _ _ _ R1) as Sz.
  split; [by apply (dtable_bytes n f _ p)| |done|done]. intros a d Ea. destruct (R2 a d Ea) as (V & I & D). split; [done|]. split; [done|].
  eapply dentry_is_same; [done| |exact D]. intros k Hk. destruct I as (i & Hi & Ei).
  assert (0 <= d_pos d < n) by (rewrite Ei; apply Z.mod_pos_bound; lia). destruct B as [_ A]. apply A. dt_unfold. lia.
Qed.

Lemma empty_dir_page n p : dtable p n 0 0 -> dir_page n ∅ p.
Proof.
  intros D. exists 0. split; [done|by intros a d; rewrite lookup_empty|by intros a b d e; rewrite lookup_empty|].
  intros k (i & Hi & _). rewrite map_size_empty in Hi. lia.
Qed.

(** Empty buckets hold no names. *)
Lemma empty_names names n : 0 < n -> names_map names n (replicate (Z.to_nat n) []) ∅.
Proof.
  intros Hn. assert (E : forall i l, replicate (Z.to_nat n) (A := list entry) [] !! i = Some l -> l = []).
  { intros i l H. by apply lookup_replicate in H as [-> _]. }
  split; [rewrite length_replicate; lia|done|..].
  - intros i l e H He. rewrite (E i l H) in He. by apply elem_of_nil in He.
  - intros i l H. rewrite (E i l H). constructor.
  - intros e. split; [|by rewrite lookup_empty]. intros (l & H & He). rewrite (E _ l H) in He. by apply elem_of_nil in He.
Qed.

(** The name table of a directory. *)
Lemma hashtable_load names nb dt dp dr db n f M t cs gc K :
  names_ok names nb -> ring_ok dp n f M ->
  (forall a d, M !! a = Some d -> names a /\ d_val d = USERFS_INODEADDRINFO_CAL USERFS_NAME2INODE (d_blk d)) ->
  mem_ok t -> f_dstore t = Dstore ∅ cs -> 0 < nb <= LINKHASH_MAX_BUCKET_COUNT -> 0 <= K ->
  room (f_alloc t) (48 + 16 * nb + (Z.of_nat (base.size M) * 80 + K)) ->
  f_bbufs t !! dr = Some db -> b_data db = dt -> f_pages t !! dt = Some dp ->
  exists a d tb bs, userfs_mount_dentry_hashtable_init nb dr gc t = Some (true, with_dir t a d tb) /\
    dir_rep (with_dir t a d tb) bs /\ names_map names nb bs ((fun d => (d_pos d, d_val d)) <$> M) /\
    alloc_ok a /\ a_next (f_alloc t) <= a_next a /\ room a K.
Proof.
  intros NO RO HM Mm Ed Hn HK R Eb <- Ep.
  destruct (hashtable_start t dr db dp cs nb gc n f (Z.of_nat (base.size M)) (Z.of_nat (base.size M) * 80 + K) Mm Ed Hn R ltac:(lia) Eb Ep
    (ro_table _ _ _ _ RO)) as (a & d & tb & E & R1 & M1 & Rm1 & L1).
  destruct (load_run names nb NO (b_data db) dp n f M RO HM (base.size M) 0 (with_dir t a d tb) (replicate (Z.to_nat nb) []) K)
    as (a2 & d2 & tb2 & bs & E2 & R2 & NM2 & M2 & Rm2 & L2); try done; try lia.
  { rewrite (loaded_none dp n f M RO). apply empty_names. lia. }
  exists a2, d2, tb2, bs. rewrite E, Nat2Z.id. split; [done|]. split; [done|]. split; [by rewrite <- (loaded_all dp n f M RO)|].
  split; [apply M2|]. split; [|done]. cbn in L2. lia.
Qed.

(** ** Files on the disk *)

Section Files.
Context (bsize msize dsize bpg nbg nbm pm cnt mbc : Z) (FP : format_params bsize msize dsize bpg nbg nbm pm cnt mbc).
Context (Hb : 0 <= bsize < 4294967296) (Hcnt : cnt < 268435456) (names : list Z -> Prop) (shard : Z).
Local Abbreviation rbs := (get_real_block_size bsize).
Local Abbreviation geom := (format_geometry bpg nbg pm cnt).
Local Abbreviation places := (dentry_per_mb msize).
Local Abbreviation tables' := (tables bsize msize bpg nbg nbm pm cnt mbc).
Context (Sh : USERFS_PAGE_SIZE <= shard <= rbs).

(** A closed file on the disk. *)
Definition stored (d : disk) (f : ufile) : Prop :=
  uf_buf f = None /\ 0 <= uf_blk f < 4294967295 /\ 0 <= a_size (uf_data f) <= shard - USERFS_INODE_SIZE /\
  a_refs (uf_data f) = 0 /\ block_at rbs (uf_blk f) + shard <= d_len d /\
  holds_file shard (d_bytes d) (block_at rbs (uf_blk f)) (uf_data f) /\
  le_read 4 (d_bytes d) (block_at rbs (uf_blk f) + i_ref_count) = 0.

Lemma stored_file pas sb dt s f : stored (f_disk s) f -> file_ok pas sb dt rbs shard s f.
Proof. intros (E & H1 & H2 & H3). split; [done|]. split; [done|]. by rewrite E. Qed.

Lemma file_stored pas sb dt s f : file_ok pas sb dt rbs shard s f -> a_refs (uf_data f) = 0 -> stored (f_disk s) f.
Proof.
  intros (H1 & H2 & H3) Hr. unfold stored. destruct (uf_buf f) as [[i p]|]; [lia|]. done.
Qed.

(** The disk [d] holds the closed files [F], with [used] blocks in use. *)
Record disk_holds (d : disk) (F : gmap (list Z) ufile) (used : Z) : Prop := {
  dh_meta : exists taken M, on_disk bsize msize bpg nbg nbm pm cnt mbc taken (dir_page places M) d /\
    used = zsum taken (groups geom) /\ (forall a f, F !! a = Some f -> allocated geom taken (uf_blk f)) /\
    (fun d => (d_val d, d_blk d)) <$> M = (fun f => (uf_val f, uf_blk f)) <$> F;
  dh_names : forall a f, F !! a = Some f -> names a;
  dh_file : forall a f, F !! a = Some f -> stored d f;
  dh_blk : forall a b f g, F !! a = Some f -> F !! b = Some g -> uf_blk f = uf_blk g -> a = b }.

(** A formatted disk holds no files. *)
Lemma formatted_holds d : formatted bsize msize bpg nbg nbm pm cnt mbc d -> disk_holds d ∅ 0.
Proof.
  intros [H1 H2 H3 H4 [D1 D2 D3 D4]]. split; try (by intros a f; rewrite lookup_empty).
  exists none_taken, ∅. split; [split; try done; split; try done; by apply empty_dir_page|]. split; [|split; [by intros a f; rewrite lookup_empty|by rewrite !fmap_empty]].
  unfold none_taken. rewrite (zsum_const _ _ 0) by done. lia.
Qed.

(** The memory of a mount of [k] files. *)
Definition mount_memory (buckets k : Z) : Z := (mbc + 2) * (72 + msize) + (160 + 89 * cnt + (48 + 16 * buckets + k * 80)).

Lemma block_size_exact : u32 rbs = rbs.
Proof.
  destruct (get_real_block_size_spec bsize Hb) as ((k & Hk & ->) & _).
  apply u32_small. assert (2 ^ k <= 2 ^ 26) by (apply Z.pow_le_mono_r; lia). lia.
Qed.

(** Mounting a disk with files. *)
Lemma mount_files usable fuel t F used buckets garbage K :
  8 * mbc <= usable (cnt / pm) ->
  mbc < Z.of_nat fuel -> names_ok names buckets -> 0 < buckets <= LINKHASH_MAX_BUCKET_COUNT -> 0 <= K ->
  fresh_start t (mount_memory buckets (Z.of_nat (base.size F)) + K) -> disk_holds (f_disk t) F used ->
  exists m dt pas taken D t3, userfs_mount usable fuel msize buckets garbage t = Some (Some m, t3) /\
    tables' taken D t3 (m_sb_buf m) (m_bg_desc_table m) (m_dentry_table m) (m_sb m) dt pas /\ Z.of_nat (length pas) = mbc /\
    sys_ok names buckets geom pas (m_sb m) (m_dentry_table m) dt places rbs shard t3 t3 F used K.
Proof.
  intros Hus Hf NO Hbk HK [Mt Lt Dt Nt Rt] [(taken & M & On & Us & Al & EM) Nm Fs Bl].
  assert (Es : base.size M = base.size F) by (rewrite <- (map_size_fmap (fun d => (d_val d, d_blk d)) M), EM; apply map_size_fmap).
  destruct (mount_tables_run _ _ _ _ _ _ _ _ _ FP taken (dir_page places M) (dir_page_bytes _ _) usable fuel t (48 + 16 * buckets + (Z.of_nat (base.size F) * 80 + K)))
    as (sbuf & sbb & r & dr & dt & pas & t1 & t2 & E1 & Esb & E2 & TB & Ln & B2 & F2 & K2 & D2 & R2); try done; try lia.
  { by replace (_ + _) with (mount_memory buckets (Z.of_nat (base.size F)) + K) by (unfold mount_memory; lia). }
  pose proof TB as [M2 GO (b & q & _ & _ & _ & Eq & Sp) _ (db & dp & Edb & _ & Ed & Edp & [_ _ _ (f & RO)]) Nd].
  assert (HM : forall a d, M !! a = Some d -> exists g, F !! a = Some g /\ d_val d = uf_val g /\ d_blk d = uf_blk g).
  { intros a d Ea. assert (H : ((fun f => (uf_val f, uf_blk f)) <$> F) !! a = Some (d_val d, d_blk d)) by (by rewrite <- EM, lookup_fmap, Ea).
    rewrite lookup_fmap in H. destruct (F !! a) as [g|]; [|done]. injection H as H1 H2. by exists g. }
  destruct (hashtable_load names buckets dt dp dr db places f M t2 (chains (f_dstore t)) garbage K) as (a & d & tb & bs & E3 & DR & NM & Ha & L3 & R3); try done.
  { intros x dx Ex. destruct (HM x dx Ex) as (g & Eg & -> & ->). split; [by eapply Nm|]. unfold uf_val. by rewrite (proj1 (Fs x g Eg)). }
  { rewrite D2, <- Nt. by destruct (f_dstore t). } { by rewrite Es. }
  pose proof (tables_dir _ _ _ _ _ _ _ _ _ _ t2 a d tb _ _ _ _ _ _ TB Ha L3) as TB3.
  exists (Mnt sbuf (b_data sbb) r dr), dt, pas, taken, (dir_page places M), (with_dir t2 a d tb).
  split; [|split; [done|split; [done|]]].
  - unfold userfs_mount. rewrite (bind_run _ _ _ _ _ E1). cbn iota. rewrite (bind_run _ _ _ _ _ (bb_run sbuf t1 sbb Esb)).
    rewrite B2 in Edb. rewrite (bind_run _ _ _ _ _ (bb_run dr t1 db Edb)), (bind_run _ _ _ _ _ E2). cbn [negb].
    rewrite (bind_run _ _ _ _ _ E3). cbn [negb]. apply ret_run.
  - pose proof TB3 as [M3 GO3 _ _ _ _]. split; try done; cbn [m_sb m_dentry_table f_dfree f_disk f_alloc f_pages f_bbufs with_dir].
    + by rewrite F2.
    + rewrite K2. apply On.
    + exists q. split; [done|]. rewrite (su_size _ _ _ _ (sp_sup _ _ _ _ _ _ _ _ _ Sp)).
      destruct (fp_msize _ _ _ _ _ _ _ _ _ FP) as [Hm _]. split; [lia|]. split; [apply Sp|].
      rewrite (sp_datasize _ _ _ _ _ _ _ _ _ Sp). apply block_size_exact.
    + by exists db.
    + by exists taken.
    + exists M, dp, f, bs. by rewrite EM.
    + intros x g Eg. apply stored_file. cbn [f_disk with_dir]. rewrite K2. by apply (Fs x).
    + intros x y g h i j p Hx Hy Ei. destruct (Fs x g Hx) as [Ec _]. congruence.
    + by apply sys_kept_pages.
Qed.

(** ** Writing the files back *)

Lemma super_page_same q q' :
  super_page msize nbm bpg nbg pm cnt mbc (u32 rbs) q -> same_super q q' -> super_page msize nbm bpg nbg pm cnt mbc (u32 rbs) q'.
Proof.
  intros [S [G1 G2 G3 G4 G5] D F T D1 D2] SS. pose proof SS as [Sz A]. destruct S as [Z (lim & HL & P) U M].
  destruct (packed_agree lim q q' s_metadata_block_bitmap nbm) as [P' U']; [done| |done|].
  { intros x Hx _. rewrite A; [done|]. bm_unfold. sup_unfold. lia. }
  assert (R : forall o, o + 4 <= s_free_data_block_count \/ s_free_data_block_count + 4 <= o -> le_read 4 (p_get q') o = le_read 4 (p_get q) o)
    by (intros; by apply same_super_read).
  split; [split|split|..]; try done; rewrite ?U', ?Sz; try done; try (by exists lim); rewrite R by (sup_unfold; lia); done.
Qed.

(** A page with the header of a page of the disk. *)
Lemma same_head_read p p' o : same_head p p' -> o + 4 <= mb_union -> le_read 4 (p_get p') o = le_read 4 (p_get p) o.
Proof. intros [_ H] Ho. apply le_read_ext. intros x Hx. rewrite H; [done|lia]. Qed.

(** The descriptors of the first block, when there are no others. *)
Lemma first_bgd_page s sb pas taken pa p nxt :
  cnt <= pm -> groups_ok s sb geom pas taken -> pas !! 0%nat = Some pa -> f_pages s !! pa = Some p -> p_size p = msize ->
  le_read 4 (p_get p) h_next = nxt -> le_read 4 (p_get p) mb_block_type = USERFS_BTYPE_BGROUP_DESC ->
  bgd_page msize bpg nbg pm (fun i => taken ((1 - 1) * pm + i)) (cnt - (1 - 1) * pm) p nxt.
Proof.
  intros Hc GO Ea Ep Hs Hn Ht. split; try done. intros i Hi Hl. replace ((1 - 1) * pm + i) with i by lia.
  destruct (go_group _ _ _ _ _ GO i) as (pa' & p' & E1 & E2 & _ & P & F & C); [cbn; lia|].
  unfold bgd_mb, bgd_off in *. cbn [g_per_mb g_bgd_size g_blocks g_bytes format_geometry] in *.
  rewrite Z.div_small in E1 by lia. rewrite Z.mod_small in P, F, C by lia. rewrite (Z.mul_comm _ i) in P, F, C.
  change (Z.to_nat 0) with 0%nat in E1. rewrite Ea in E1. injection E1 as <-. rewrite Ep in E2. by injection E2 as <-.
Qed.

(** The metablocks end where the data blocks begin. *)
Lemma metadata_area : msize * (8 * nbm) <= rbs.
Proof.
  pose proof FP as [-> (H1 & H2 & H3) _ _ _ _ _ _]. rewrite Z.shiftr_div_pow2 by lia. change (2 ^ 3) with 8.
  pose proof (Z.mul_div_le (rbs / msize) 8 ltac:(lia)). pose proof (Z.mul_div_le rbs msize ltac:(lia)). nia.
Qed.

(** The files stay where they are when metablocks are written. *)
Lemma stored_write d L f :
  d_io d = [] -> metablocks msize (8 * nbm) L -> stored d f -> stored (write_all (mb_off 0 msize) L d) f.
Proof.
  intros Hio V (E & Hb' & Hz & Hr & Hl & [Hs Hc] & Rc). destruct (fp_msize _ _ _ _ _ _ _ _ _ FP) as [Hm _]. pose proof FP as [_ _ E4 _ _ _ _ _].
  pose proof metadata_area as MA. pose proof (metablocks_ok msize (8 * nbm) L ltac:(lia) E4 V) as Ok.
  assert (rbs <= block_at rbs (uf_blk f)) by (unfold block_at, USERFS_PAGE_SIZE in *; nia).
  assert (A : forall x, block_at rbs (uf_blk f) <= x -> d_bytes (write_all (mb_off 0 msize) L d) x = d_bytes d x).
  { intros x Hx. apply write_all_outside; [done..|]. intros b q Hin. right. unfold metablocks in V. rewrite Forall_forall in V.
    destruct (V _ Hin) as (Sz & _ & Hn). cbn [fst] in *. destruct (mb_off_exact msize (8 * nbm) b ltac:(lia) E4 Hn) as (-> & _). rewrite Sz. nia. }
  unfold USERFS_PAGE_SIZE in Sh. do 4 (split; [done|]). split; [|split; [split|]].
  - pose proof (proj1 (write_all_len _ L d Hio Ok)). lia.
  - rewrite <- Hs. apply le_read_ext. intros x Hx. unfold i_size in Hx. rewrite A by lia. done.
  - intros x Hx. rewrite <- Hc by done. unfold USERFS_INODE_SIZE in *. rewrite A by lia. done.
  - etransitivity; [|exact Rc]. apply le_read_ext. intros x Hx. unfold i_ref_count in Hx. rewrite A by lia. done.
Qed.

(** The names of the files of a directory. *)
Lemma dir_names nb dt n s V a v : dir_ok names nb dt n s V -> V !! a = Some v -> names a.
Proof.
  intros (M & dp & f & bs & -> & _ & _ & NM & _) Ea. rewrite lookup_fmap in Ea. destruct (M !! a) as [d|] eqn:Em; [|done].
  destruct (proj2 (nm_map _ _ _ _ NM (Entry a (d_pos d) (d_val d)))) as (l & El & Hin); [cbn; by rewrite lookup_fmap, Em|].
  by destruct (nm_bucket _ _ _ _ NM _ _ _ El Hin).
Qed.

(** What the flushes leave on a disk with one descriptor block. *)
Lemma sync_disk d sbb b db q p dp taken D (HD : Bytewise D) :
  let L := [(sbb, q); (b, p); (db, dp)] in
  mbc = 1 -> metablocks msize (8 * nbm) L -> NoDup (b_blocknr ∘ fst <$> L) -> d_io d = [] ->
  b_blocknr sbb = 0 -> b_blocknr b = 1 -> b_blocknr db = 1 + mbc ->
  super_page msize nbm bpg nbg pm cnt mbc (u32 rbs) q ->
  bgd_page msize bpg nbg pm (fun i => taken ((1 - 1) * pm + i)) (cnt - (1 - 1) * pm) p (bgd_next mbc 1) ->
  dentry_page msize D dp ->
  on_disk bsize msize bpg nbg nbm pm cnt mbc taken D (write_all (mb_off 0 msize) L d).
Proof.
  intros L H1 V ND Hio N1 N2 N3 Sp Bp Dp. destruct (fp_msize _ _ _ _ _ _ _ _ _ FP) as [Hm _]. pose proof FP as [_ _ E4 (_ & E5 & _) [E6 E6'] _ _ _].
  assert (A : forall b' q', (b', q') ∈ L -> same_bytes q' (disk_page (write_all (mb_off 0 msize) L d) msize (b_blocknr b')) /\
     msize * b_blocknr b' + msize <= d_len (write_all (mb_off 0 msize) L d)).
  { intros b' q' Hin. apply (flushed_page msize (8 * nbm)); done || lia. }
  destruct (A sbb q ltac:(by left)) as [A1 _]. destruct (A b p ltac:(right; by left)) as [A2 _].
  destruct (A db dp ltac:(right; right; by left)) as [A3 L3]. rewrite N1 in A1. rewrite N2 in A2. rewrite N3 in A3, L3. split.
  - apply write_all_io; [done|]. apply (metablocks_ok msize (8 * nbm)); done || lia.
  - lia.
  - by apply (bytewise _ _ A1).
  - intros m Hmm. assert (m = 1) as -> by lia. by apply (bgd_page_bytes msize bpg nbg pm _ _ _ E5 E6 E6' p).
  - by apply (dentry_page_bytes msize D ltac:(lia) HD dp).
Qed.

(** The flushes at the end of main put the files on the disk. *)
Lemma sync_files buckets m dt pas taken0 D s0 s F used K :
  mbc = 1 -> tables' taken0 D s0 (m_sb_buf m) (m_bg_desc_table m) (m_dentry_table m) (m_sb m) dt pas ->
  sys_ok names buckets geom pas (m_sb m) (m_dentry_table m) dt places rbs shard s0 s F used K ->
  (forall a f, F !! a = Some f -> a_refs (uf_data f) = 0) ->
  exists s', userfs_sync (m_sb m) (m_sb_buf m) (m_bg_desc_table m) (m_dentry_table m) s = Some (tt, s') /\ disk_holds (f_disk s') F used.
Proof.
  intros H1 [M0 GO0 (sbb & q0 & Es & Ms & Eds & Eq0 & Sp0) (b & pa & p0 & Eb & Mb & Edb & Epa & Ep0 & Sz0 & Nx0 & Ty0)
    (db & dp0 & Ed & Md & Edd & Edp0 & [Dz Dn Dt _]) Nd] SO Cl.
  destruct (so_kept _ _ _ _ _ _ _ _ _ _ _ _ _ _ _ SO) as [[Ks Kh] Kd Kb].
  assert (Hpa : pa ∈ pas) by (by eapply list_elem_of_lookup_2).
  destruct (Ks q0 Eq0) as (q & Eq & Sq). destruct (Kh pa p0 Hpa Ep0) as (p & Ep & Hp). destruct (Kd dp0 Edp0) as (dp & Edp & Hd).
  pose proof (super_page_same q0 q Sp0 Sq) as Sp. rewrite <- Eds in *. rewrite <- Edb in *. rewrite <- Edd in *.
  assert (Sz : p_size p = msize) by (rewrite <- Sz0; apply Hp). assert (Sz' : p_size dp = msize) by (rewrite <- Dz; apply Hd).
  pose proof (so_io _ _ _ _ _ _ _ _ _ _ _ _ _ _ _ SO) as Hio.
  destruct (sync_run _ _ _ _ _ _ _ _ _ FP s (m_sb_buf m) sbb (m_bg_desc_table m) b (m_dentry_table m) db q p dp) as (E & V & ND); try done; try apply Sp.
  { apply Kb; [done|]. right. by left. } { apply Kb; [done|]. right. by right. } { apply Kb; [done|]. by left. }
  eexists. split; [exact E|]. cbn [f_disk with_disk]. destruct (so_groups _ _ _ _ _ _ _ _ _ _ _ _ _ _ _ SO) as (taken & GO & Us & Al).
  pose proof (so_dir _ _ _ _ _ _ _ _ _ _ _ _ _ _ _ SO) as Dir. split.
  - destruct Dir as (M & dp' & f & bs & EM & Edp' & _ & _ & RO). rewrite Edp in Edp'. injection Edp' as <-.
    exists taken, M. split; [|done]. pose proof FP as [_ _ _ _ _ _ (_ & _ & Hc) _].
    apply sync_disk; try done; [apply dir_page_bytes|apply Ms|apply Mb|apply Md|..].
    + apply (first_bgd_page s (b_data sbb) pas taken (b_data b)); try done; [lia|..];
        rewrite (same_head_read p0 p) by (done || (sup_unfold; lia)); done.
    + split; [done|..|by exists f]; rewrite (same_head_read dp0 dp) by (done || (sup_unfold; lia)); done.
  - intros a f Ef. eapply (dir_names buckets); [exact Dir|]. by rewrite lookup_fmap, Ef.
  - intros a f Ef. apply stored_write; [done|done|]. eapply file_stored; [|by apply (Cl a)]. by apply (so_file _ _ _ _ _ _ _ _ _ _ _ _ _ _ _ SO a).
  - apply (so_blk _ _ _ _ _ _ _ _ _ _ _ _ _ _ _ SO).
Qed.
End Files.
