(* ===== verification/FileLife.v ===== *)
(** * FileLife: files from an empty disk on (userfs)

    The composition of userfs: a disk is formatted, another program mounts it and runs
    any sequence of calls of the file operations (FileClient); the results are those of
    the specification.  With the flushes at the end of main this goes on from one program
    to the next: the files are those that the programs before have left. *)
From S2P Require Import Prelude Bits Atomic KList Bitmap MrHeap DentryHash Fs BlockBuf FileCtrl FsInit Mount FileOps FileRw FilePersist FileCreate FileDir FileClient FileSys Format FileMount.
Local Open Scope Z_scope.

(** ** One mount *)

(** A mount and a sequence of calls. *)
Definition mount_exec (usable : Z -> Z) (fuel : nat) (msize buckets garbage shard : Z) (script : list (Z * op)) (t : fs) : option (mount * list res * client) :=
  r ← userfs_mount usable fuel msize buckets garbage t;
  m ← fst r;
  x ← exec_all (m_sb m) (m_dentry_table m) shard fuel script (Client ∅ (snd r));
  Some (m, fst x, snd x).

Section Mounts.
Context (bsize msize dsize bpg nbg nbm pm cnt mbc : Z) (FP : format_params bsize msize dsize bpg nbg nbm pm cnt mbc).
Context (Hb : 0 <= bsize < 4294967296) (Hcnt : cnt < 268435456) (names : list Z -> Prop) (shard : Z).
Local Abbreviation rbs := (get_real_block_size bsize).
Local Abbreviation holds := (disk_holds bsize msize bpg nbg nbm pm cnt mbc names shard).
Context (Sh : USERFS_PAGE_SIZE <= shard <= rbs) (Sd : (shard | rbs)).

(** The files of a disk are those of the map [A]. *)
Definition disk_files (d : disk) (A : afs) (used : Z) : Prop := exists F, holds d F used /\ A = uf_data <$> F.

(** The calls behave as the map says; with one descriptor block and all files closed the
    flushes leave the files on the disk. *)
Lemma mount_exec_run usable fuel t A used buckets garbage script :
  8 * mbc <= usable (cnt / pm) ->
  (2 <= fuel)%nat -> mbc < Z.of_nat fuel -> names_ok names buckets -> 0 < buckets <= LINKHASH_MAX_BUCKET_COUNT ->
  fresh_start t (mount_memory msize cnt mbc buckets (Z.of_nat (base.size A)) + script_memory shard script) -> disk_files (f_disk t) A used ->
  safe names (dentry_per_mb msize) shard A script -> used + script_blocks script <= cnt * (bpg - 1) ->
  exists m rs c A', mount_exec usable fuel msize buckets garbage shard script t = Some (m, rs, c) /\ behaves A script rs A' /\
    (mbc = 1 -> (forall a f, A' !! a = Some f -> a_refs f = 0) ->
     exists s, userfs_sync (m_sb m) (m_sb_buf m) (m_bg_desc_table m) (m_dentry_table m) (c_fs c) = Some (tt, s) /\
       disk_files (f_disk s) A' (used + script_blocks script)).
Proof.
  intros Hus H2 Hf NO Hbk Fr (F & DH & ->) Sf Sbk. pose proof FP as [_ _ _ _ _ _ [Hc0 _] _]. rewrite map_size_fmap in Fr.
  assert (HK : 0 <= script_memory shard script) by (apply script_memory_nonneg; unfold USERFS_PAGE_SIZE in Sh; lia).
  destruct (mount_files _ _ _ _ _ _ _ _ _ FP Hb Hcnt names shard usable fuel t F used buckets garbage (script_memory shard script) Hus Hf NO Hbk HK Fr DH)
    as (m & dt & pas & taken & D & t3 & E & TB & Ln & SO).
  destruct (script_refines names buckets (format_geometry bpg nbg pm cnt) pas (m_sb m) (m_dentry_table m) dt (dentry_per_mb msize) rbs shard t3 NO Sh (real_block_max bsize Hb) Sd Hc0 fuel H2
    script (Client ∅ t3) (uf_data <$> F) used 0) as (rs & c & A' & E2 & B & F' & SO' & -> & _); try done.
  { rewrite Z.add_0_r. exists F. split; [done|]. split; [done|]. intros a f i p Ef Ei.
    destruct (dh_file _ _ _ _ _ _ _ _ _ _ _ _ _ DH a f Ef) as [Ec _]. congruence. }
  exists m, rs, c, (uf_data <$> F'). split; [|split; [done|]].
  - unfold mount_exec. rewrite E. cbn [mbind option_bind fst snd]. by rewrite E2.
  - intros H1 Cl. destruct (sync_files _ _ _ _ _ _ _ _ _ FP Hb names shard Sh buckets m dt pas taken D t3 (c_fs c) F' _ 0 H1 TB SO') as (s & E3 & DH').
    { intros a f Ef. apply (Cl a). by rewrite lookup_fmap, Ef. }
    exists s. split; [done|]. by exists F'.
Qed.
End Mounts.

(** C1: userfs is a file system.  For every disk that can be formatted: formatting it
    succeeds, whatever memory malloc gives; any program with enough memory can mount it;
    and every sequence of calls that create, open, close, delete, write and read files
    runs to its end without undefined behaviour and returns what a map from names to
    contents returns: a read gives the bytes last written at its place, through any
    number of closings and openings, a name that is not there is not found, and what is
    deleted is gone.  The conditions: the memory lasts, the directory has room, the
    calls take at most all but one block of each group (the last one depends on a bit
    that nothing sets), the clock can be read, the names of the program are at most 27
    bytes long and none is a prefix of another one of its bucket, a name in use is not
    created again, and accesses are in the first shard of an open file ([safe],
    [names_ok]); disk I/O does not fail; a block of the metadata area is to spare; and
    malloc lets the program write eight bytes per descriptor block into the [cnt / pm]
    bytes that it asks for as the table of block pointers ([usable]). *)
Theorem userfs_refinement bsize msize dsize nbg size pm cnt mbc s :
  let rbs := get_real_block_size bsize in
  let nbm := rbs / msize / 8 in
  let blocks := (mbc + 2) * (72 + msize) in
  0 <= bsize < 4294967296 -> 96 <= msize <= rbs -> 92 + nbm < msize ->
  0 < nbg < 8192 -> sizeof_mblock + sizeof_bgroup_desc + nbg + 1 <= msize ->
  2 <= dsize / rbs <= 1073741824 ->
  bgroup_sizes msize (dsize / rbs - 1) (8 * nbg) = Some (size, pm, cnt, mbc) -> mbc <= 128 -> mbc + 2 < 8 * nbm ->
  fresh_start s blocks -> d_io (f_disk s) = [] ->
  exists s1, userfs_format bsize msize dsize (8 * nbg) s = Some (Some tt, s1) /\
    forall usable fuel t buckets garbage names shard script,
      8 * mbc <= usable (cnt / pm) ->
      fresh_start t (mount_memory msize cnt mbc buckets 0 + script_memory shard script) -> f_disk t = f_disk s1 ->
      mbc < Z.of_nat fuel -> 0 < buckets <= LINKHASH_MAX_BUCKET_COUNT ->
      names_ok names buckets -> USERFS_PAGE_SIZE <= shard <= rbs -> (shard | rbs) ->
      safe names (dentry_per_mb msize) shard ∅ script -> script_blocks script <= cnt * (8 * nbg - 1) ->
      exists m rs c A, mount_exec usable fuel msize buckets garbage shard script t = Some (m, rs, c) /\ behaves ∅ script rs A.
Proof.
  intros rbs nbm blocks Hb Hm Hn Hg Hd Hs E Hmb Hmb' [M Hl _ _ R] Hio.
  destruct (format_params_ok bsize msize dsize nbg size pm cnt mbc) as [FP Hc]; try done; [by apply Z.lt_le_incl|].
  destruct (format_run _ _ _ _ _ _ _ _ _ FP s M Hl Hmb' R Hio) as (s1 & E1 & Fo). exists s1. split; [done|].
  intros usable fuel t buckets garbage names shard script Hus Fr Ed Hf Hbk NO Sh Sd Sf Sbk. rewrite <- Ed in Fo.
  pose proof FP as [_ _ _ _ _ _ _ [Hmbc _]].
  destruct (mount_exec_run _ _ _ _ _ _ _ _ _ FP Hb Hc names shard Sh Sd usable fuel t ∅ 0 buckets garbage script)
    as (m & rs & c & A & E2 & B & _); try done; try lia.
  - exists ∅. split; [by apply formatted_holds|by rewrite fmap_empty].
  - by exists m, rs, c, A.
Qed.

(** Witness: two files on a disk of 1 TiB.  The first one is written, closed, opened again
    and read; then the second one is created and the first one deleted. *)
Definition life_script : list (Z * op) :=
  [(1, OCreate [97; 49]); (2, OWrite [97; 49] 10 [1; 2; 3; 4]); (3, OClose [97; 49]); (4, OCreate [98; 50]);
   (5, OOpen [97; 49]); (6, ORead [97; 49] 11 2); (7, OClose [97; 49]); (8, ODelete [97; 49]); (9, OOpen [97; 49])].

Lemma life_script_safe : safe (fun a => valid_name a /\ length a = 2%nat) 510 4096 ∅ life_script.
Proof.
  assert (Na : valid_name [97; 49]) by (apply (bool_decide_unpack _); by vm_compute).
  assert (Nb : valid_name [98; 50]) by (apply (bool_decide_unpack _); by vm_compute).
  split; [done|]. intros ? ? (-> & c & ->).
  split; [split; [eexists; by rewrite lookup_insert_eq|]; split_and!; try done; repeat constructor; lia|].
  intros ? ? (f & Hf & -> & ->). rewrite lookup_insert_eq in Hf. injection Hf as <-. rewrite insert_insert_eq.
  split; [done|]. intros ? ?. cbn [post]. rewrite lookup_insert_eq. cbn [a_refs write_data Z.eqb]. intros [-> ->]. rewrite insert_insert_eq.
  split; [split; [done|]; split; [by rewrite lookup_insert_ne, lookup_empty|]; by rewrite map_size_insert_None, map_size_empty by apply lookup_empty|].
  intros ? ? (-> & c2 & ->).
  split; [split; [done|]; intros g; rewrite lookup_insert_ne, lookup_insert_eq by done; by intros [= <-]|].
  intros ? ?. cbn [post]. rewrite lookup_insert_ne, lookup_insert_eq by done. intros [-> ->].
  split; [eexists; rewrite lookup_insert_eq; split; [done|]; cbn; lia|]. intros ? ? (g & _ & -> & ->).
  split; [done|]. intros ? ?. cbn [post]. rewrite lookup_insert_eq. cbn [a_refs set_refs Z.eqb Z.add Pos.add]. intros [-> ->].
  split; [done|]. intros ? ?. cbn [post]. rewrite lookup_insert_eq. intros [-> ->].
  split; [|done]. split; [done|]. intros h. by rewrite lookup_delete_eq.
Qed.

(** What the script reads: two of the bytes written before the file was closed; and the
    deleted file cannot be opened. *)
Ltac next_call H := inversion H as [|? ? ? ? ? ? ? ? P H']; subst; clear H; rename H' into H; cbn [post] in P.

Lemma life_script_reads rs A : behaves ∅ life_script rs A -> rs !! 5%nat = Some (RData 2 [2; 3]) /\ rs !! 8%nat = Some (RBuffer true).
Proof.
  intros H. unfold life_script in H.
  next_call H. destruct P as (-> & c & ->). next_call H. destruct P as (f & Ef & -> & ->).
  rewrite lookup_insert_eq in Ef. injection Ef as <-. rewrite insert_insert_eq in H.
  next_call H. rewrite lookup_insert_eq in P. cbn [a_refs write_data Z.eqb] in P. destruct P as [-> ->]. rewrite insert_insert_eq in H.
  next_call H. destruct P as (-> & c2 & ->). next_call H. rewrite lookup_insert_ne, lookup_insert_eq in P by done. destruct P as [-> ->].
  next_call H. destruct P as (f & Ef & -> & ->). rewrite lookup_insert_eq in Ef. injection Ef as <-.
  next_call H. rewrite lookup_insert_eq in P. cbn [a_refs set_refs Z.eqb Z.add Pos.add] in P. destruct P as [-> ->].
  next_call H. rewrite lookup_insert_eq in P. destruct P as [-> ->]. next_call H. rewrite lookup_delete_eq in P. destruct P as [-> ->].
  done.
Qed.

Lemma userfs_refinement_witness :
  exists s1, userfs_format 67108864 16384 1099511627776 64 (empty_fs (Disk 0 (fun _ => 0) [])) = Some (Some tt, s1) /\
    exists m rs c, mount_exec block_bytes 2 16384 128 0 4096 life_script (empty_fs (f_disk s1)) = Some (m, rs, c) /\
      rs !! 5%nat = Some (RData 2 [2; 3]) /\ rs !! 8%nat = Some (RBuffer true).
Proof.
  destruct (userfs_refinement 67108864 16384 1099511627776 8 25 654 256 1 (empty_fs (Disk 0 (fun _ => 0) [])))
    as (s1 & E1 & H).
  1-9: vm_compute; intuition congruence.
  - apply empty_fs_start. lia.
  - reflexivity.
  - destruct (H block_bytes 2%nat (empty_fs (f_disk s1)) 128 0 (fun a => valid_name a /\ length a = 2%nat) 4096 life_script)
      as (m & rs & c & A & H5 & B).
    + clear. vm_compute. discriminate.
    + apply empty_fs_start. clear. vm_compute. split; discriminate.
    + reflexivity.
    + lia.
    + unfold LINKHASH_MAX_BUCKET_COUNT. lia.
    + apply same_length_ok.
    + clear. vm_compute. split; discriminate.
    + clear. exists 16384. reflexivity.
    + exact life_script_safe.
    + clear. vm_compute. discriminate.
    + exists s1. split; [exact E1|]. exists m, rs, c. split; [exact H5|]. exact (life_script_reads rs A B).
Defined.

(** ** One program after the other *)

(** A program that mounts the disk, calls the file operations and flushes the metablocks:
    the state it starts from, the size of its name table and its calls. *)
Record session := Session { se_fuel : nat; se_start : fs; se_buckets : Z; se_garbage : Z; se_script : list (Z * op) }.

Fixpoint run_sessions (usable : Z -> Z) (msize shard : Z) (l : list session) (d : disk) : option (list (list res) * disk) :=
  match l with
  | [] => Some ([], d)
  | p :: l =>
      x ← mount_exec usable (se_fuel p) msize (se_buckets p) (se_garbage p) shard (se_script p) (with_disk (se_start p) d);
      let '(m, rs, c) := x in
      y ← userfs_sync (m_sb m) (m_sb_buf m) (m_bg_desc_table m) (m_dentry_table m) (c_fs c);
      z ← run_sessions usable msize shard l (f_disk (snd y));
      Some (rs :: fst z, snd z)
  end.

(** The results of all programs, from the files [A] on. *)
Inductive sessions_behave : afs -> list session -> list (list res) -> afs -> Prop :=
  | sessions_nil A : sessions_behave A [] [] A
  | sessions_cons A p l rs rss A1 A2 :
      behaves A (se_script p) rs A1 -> sessions_behave A1 l rss A2 -> sessions_behave A (p :: l) (rs :: rss) A2.

Definition all_closed (A : afs) : Prop := forall a f, A !! a = Some f -> a_refs f = 0.

(** Every program has the memory it needs, makes calls that are covered, and closes its
    files. *)
Fixpoint sessions_ok (names : list Z -> Prop) (msize cnt shard : Z) (A : afs) (l : list session) : Prop :=
  match l with
  | [] => True
  | p :: l =>
      (2 <= se_fuel p)%nat /\ names_ok names (se_buckets p) /\ 0 < se_buckets p <= LINKHASH_MAX_BUCKET_COUNT /\
      fresh_start (se_start p) (mount_memory msize cnt 1 (se_buckets p) (Z.of_nat (base.size A)) + script_memory shard (se_script p)) /\
      safe names (dentry_per_mb msize) shard A (se_script p) /\
      forall rs A', behaves A (se_script p) rs A' -> all_closed A' /\ sessions_ok names msize cnt shard A' l
  end.

Fixpoint sessions_blocks (l : list session) : Z :=
  match l with [] => 0 | p :: l => script_blocks (se_script p) + sessions_blocks l end.

Lemma sessions_blocks_nonneg l : 0 <= sessions_blocks l.
Proof.
  induction l as [|p l IH]; cbn; [lia|]. assert (0 <= script_blocks (se_script p)); [|lia].
  induction (se_script p) as [|[tv o] os IHo]; cbn; [lia|]. destruct o; cbn; lia.
Qed.

Lemma run_sessions_ok usable bsize msize dsize bpg nbg nbm pm cnt names shard l :
  8 <= usable (cnt / pm) ->
  format_params bsize msize dsize bpg nbg nbm pm cnt 1 -> 0 <= bsize < 4294967296 -> cnt < 268435456 ->
  USERFS_PAGE_SIZE <= shard <= get_real_block_size bsize -> (shard | get_real_block_size bsize) ->
  forall d A used, disk_files bsize msize bpg nbg nbm pm cnt 1 names shard d A used ->
  sessions_ok names msize cnt shard A l -> used + sessions_blocks l <= cnt * (bpg - 1) ->
  exists rss d' A', run_sessions usable msize shard l d = Some (rss, d') /\ sessions_behave A l rss A'.
Proof.
  intros Hus FP Hb Hc Sh Sd. induction l as [|p l IH]; intros d A used DF Ok Hu.
  { exists [], d, A. split; [done|constructor]. }
  cbn [sessions_ok sessions_blocks] in *. destruct Ok as (Hf & NO & Hbk & [M L1 L2 Nd R] & Sf & Next). pose proof (sessions_blocks_nonneg l).
  destruct (mount_exec_run _ _ _ _ _ _ _ _ _ FP Hb Hc names shard Sh Sd usable (se_fuel p) (with_disk (se_start p) d) A used (se_buckets p) (se_garbage p) (se_script p))
    as (m & rs & c & A1 & E & B & Sync); try done; try lia.
  { split; try done. destruct M; by split. }
  destruct (Next rs A1 B) as [Cl Ok1]. destruct (Sync eq_refl Cl) as (s & Es & DF1).
  destruct (IH (f_disk s) A1 _ DF1 Ok1 ltac:(lia)) as (rss & d' & A2 & E2 & B2).
  exists (rs :: rss), d', A2. split; [|by econstructor].
  cbn [run_sessions]. rewrite E. cbn [mbind option_bind]. rewrite Es. cbn [mbind option_bind snd]. by rewrite E2.
Qed.

(** C2: Files are durable.  On a formatted disk whose descriptors fit one block, as those
    of userfs/test_init.c, programs run one after the other: each mounts the disk, makes
    any covered sequence of calls ([safe], as for one program), closes its files and
    flushes the metablocks.  Every mount and every flush succeeds, no call is undefined,
    and the results of all programs are those of one map from names to contents: a
    program reads what the programs before it have written, and finds the names that
    they have left.  The programs together take at most all but one block of each group,
    disk I/O does not fail, a block of the metadata area is to spare, and malloc lets a
    program write the eight bytes of a pointer into the [cnt / pm] bytes (one, or none)
    that it asks for as the table of block pointers ([usable]). *)
Theorem userfs_durability bsize msize dsize nbg size pm cnt s :
  let rbs := get_real_block_size bsize in
  let nbm := rbs / msize / 8 in
  0 <= bsize < 4294967296 -> 96 <= msize <= rbs -> 92 + nbm < msize ->
  0 < nbg < 8192 -> sizeof_mblock + sizeof_bgroup_desc + nbg + 1 <= msize ->
  2 <= dsize / rbs <= 1073741824 ->
  bgroup_sizes msize (dsize / rbs - 1) (8 * nbg) = Some (size, pm, cnt, 1) -> 3 < 8 * nbm ->
  fresh_start s (3 * (72 + msize)) -> d_io (f_disk s) = [] ->
  exists s1, userfs_format bsize msize dsize (8 * nbg) s = Some (Some tt, s1) /\
    forall usable names shard l,
      8 <= usable (cnt / pm) ->
      USERFS_PAGE_SIZE <= shard <= rbs -> (shard | rbs) ->
      sessions_ok names msize cnt shard ∅ l -> sessions_blocks l <= cnt * (8 * nbg - 1) ->
      exists rss d A, run_sessions usable msize shard l (f_disk s1) = Some (rss, d) /\ sessions_behave ∅ l rss A.
Proof.
  intros rbs nbm Hb Hm Hn Hg Hd Hs E Hmb' [M Hl _ _ R] Hio.
  destruct (format_params_ok bsize msize dsize nbg size pm cnt 1) as [FP Hc]; try done; [by apply Z.lt_le_incl|].
  destruct (format_run _ _ _ _ _ _ _ _ _ FP s M Hl Hmb' R Hio) as (s1 & E1 & Fo). exists s1. split; [done|].
  intros usable names shard l Hus Sh Sd Ok Hbk. apply (run_sessions_ok _ _ _ _ _ _ _ _ _ names _ _ Hus FP Hb Hc Sh Sd _ _ 0); [|done|lia].
  exists ∅. split; [by apply formatted_holds|by rewrite fmap_empty].
Qed.

(** Witness: one program writes a file, the next one reads and deletes it, the third one
    does not find it. *)
Definition script_write : list (Z * op) := [(1, OCreate [97; 49]); (2, OWrite [97; 49] 10 [1; 2; 3; 4]); (3, OClose [97; 49])].
Definition script_read : list (Z * op) := [(4, OOpen [97; 49]); (5, ORead [97; 49] 11 2); (6, OClose [97; 49]); (7, ODelete [97; 49])].
Definition script_look : list (Z * op) := [(8, OOpen [97; 49])].

Definition life_sessions : list session :=
  let start := empty_fs (Disk 0 (fun _ => 0) []) in
  [Session 2 start 128 0 script_write; Session 2 start 64 5 script_read; Session 2 start 128 0 script_look].

(** The file that the first program leaves; [c] is the memory of its block. *)
Definition left_file (c : Z -> Z) : afile := set_refs 0 (write_data 10 [1; 2; 3; 4] (Afile 1 0 c)).

Lemma script_write_post rs A : behaves ∅ script_write rs A -> exists c, A = {[ [97; 49] := left_file c ]}.
Proof.
  intros H. unfold script_write in H. next_call H. destruct P as (-> & c & ->). next_call H. destruct P as (f & Ef & -> & ->).
  rewrite lookup_insert_eq in Ef. injection Ef as <-. rewrite insert_insert_eq in H.
  next_call H. rewrite lookup_insert_eq in P. cbn [a_refs write_data Z.eqb] in P. destruct P as [-> ->].
  rewrite insert_insert_eq in H. inversion H. exists c. done.
Qed.

Lemma script_read_post c rs A : behaves {[ [97; 49] := left_file c ]} script_read rs A ->
  A = ∅ /\ rs !! 1%nat = Some (RData 2 [2; 3]).
Proof.
  intros H. unfold script_read in H. next_call H. rewrite lookup_singleton_eq in P. destruct P as [-> ->].
  next_call H. destruct P as (f & Ef & -> & ->). rewrite lookup_insert_eq in Ef. injection Ef as <-.
  next_call H. rewrite lookup_insert_eq in P. cbn [a_refs set_refs left_file write_data Z.eqb Z.add] in P. destruct P as [-> ->].
  next_call H. rewrite lookup_insert_eq in P. destruct P as [-> ->]. inversion H.
  split; [|done]. by rewrite insert_insert_eq, insert_singleton_eq, delete_singleton_eq.
Qed.

Lemma life_sessions_reads rss A : sessions_behave ∅ life_sessions rss A ->
  exists r1 r2, rss = [r1; r2; [RBuffer true]] /\ r2 !! 1%nat = Some (RData 2 [2; 3]).
Proof.
  intros H. inversion H as [|? ? ? r1 ? ? ? B1 H2]; subst. inversion H2 as [|? ? ? r2 ? ? ? B2 H3]; subst.
  inversion H3 as [|? ? ? r3 ? ? ? B3 H4]; subst. inversion H4; subst. cbn [se_script] in *.
  destruct (script_write_post _ _ B1) as (c & ->). destruct (script_read_post c _ _ B2) as [-> E].
  exists r1, r2. split; [|done]. unfold script_look in B3. next_call B3. destruct P as [-> ->]. inversion B3. done.
Qed.

Lemma life_sessions_ok : sessions_ok (fun a => valid_name a /\ length a = 2%nat) 16384 256 4096 ∅ life_sessions.
Proof.
  assert (Na : valid_name [97; 49]) by (apply (bool_decide_unpack _); by vm_compute).
  unfold life_sessions. cbn [sessions_ok se_fuel se_buckets se_start se_script].
  split; [lia|]. split; [apply same_length_ok|]. split; [unfold LINKHASH_MAX_BUCKET_COUNT; lia|].
  split; [apply empty_fs_start; rewrite map_size_empty; clear; vm_compute; split; discriminate|]. split.
  { split; [done|]. intros ? ? (-> & c & ->).
    split; [split; [eexists; by rewrite lookup_insert_eq|]; split_and!; try done; repeat constructor; lia|].
    intros ? ? (f & Hf & -> & ->). by split. }
  intros rs A B. destruct (script_write_post _ _ B) as (c & ->).
  split; [by intros a f [<- <-]%lookup_singleton_Some|].
  split; [lia|]. split; [apply same_length_ok|]. split; [unfold LINKHASH_MAX_BUCKET_COUNT; lia|].
  split; [apply empty_fs_start; rewrite map_size_singleton; clear; vm_compute; split; discriminate|]. split.
  { split; [split; [done|]; intros f [_ <-]%lookup_singleton_Some; cbn; lia|]. intros ? ?. cbn [post]. rewrite lookup_singleton_eq. intros [-> ->].
    split; [eexists; rewrite lookup_insert_eq; split; [done|]; cbn; lia|]. intros ? ? (g & _ & -> & ->).
    split; [done|]. intros ? ? _. by split. }
  intros rs2 A2 B2. destruct (script_read_post c _ _ B2) as [-> _]. split; [by intros a f; rewrite lookup_empty|].
  split; [lia|]. split; [apply same_length_ok|]. split; [unfold LINKHASH_MAX_BUCKET_COUNT; lia|].
  split; [apply empty_fs_start; rewrite map_size_empty; clear; vm_compute; split; discriminate|].
  split; [split; [split; [done|]; intros f; by rewrite lookup_empty|done]|].
  intros rs3 A3 B3. unfold script_look in B3. next_call B3. destruct P as [-> ->]. inversion B3. split; [|done].
  by intros a f; rewrite lookup_empty.
Qed.

Lemma userfs_durability_witness :
  exists s1, userfs_format 67108864 16384 1099511627776 64 (empty_fs (Disk 0 (fun _ => 0) [])) = Some (Some tt, s1) /\
    exists r1 r2 d, run_sessions block_bytes 16384 4096 life_sessions (f_disk s1) = Some ([r1; r2; [RBuffer true]], d) /\
      r2 !! 1%nat = Some (RData 2 [2; 3]).
Proof.
  destruct (userfs_durability 67108864 16384 1099511627776 8 25 654 256 (empty_fs (Disk 0 (fun _ => 0) [])))
    as (s1 & E1 & H).
  1-8: vm_compute; intuition congruence.
  - apply empty_fs_start. lia.
  - reflexivity.
  - destruct (H block_bytes (fun a => valid_name a /\ length a = 2%nat) 4096 life_sessions) as (rss & d & A & E & B).
    + clear. vm_compute. discriminate.
    + clear. vm_compute. split; discriminate.
    + clear. exists 16384. reflexivity.
    + exact life_sessions_ok.
    + clear. vm_compute. discriminate.
    + destruct (life_sessions_reads rss A B) as (r1 & r2 & -> & Er). exists s1. split; [exact E1|]. exists r1, r2, d.
      split; [exact E|exact Er].
Defined.
