(* ===== verification/LockfreeQueue.v ===== *)
(** * LockfreeQueue: the ring buffer queue (lockfree_que/lockfree_queue.c)

    [lockfree_enque] and [lockfree_deque] as threads whose steps are the accesses of
    the source to the shared buffer, under sequential consistency; a compare-and-swap
    is one step, and the addition to [count] is the read and the compare-and-swap of
    the loop of atomic.h, tried again when [count] has changed.  Any number of threads
    may run; the theorems are about one producer and one consumer,
    for which the queue refines a bounded FIFO, and about two consumers, for which
    it does not. *)
From S2P Require Import Prelude Atomic.
From stdpp Require Import list relations.
Local Open Scope Z_scope.

Record lockfree_buffer := Lfb {
  lfb_write_pos : Z;
  lfb_read_pos : Z;
  lfb_max_read_pos : Z;
  lfb_count : Z;
  lfb_buf : list Z }.

(** [lfq_max_obj_count] is a parameter of the operations. *)
Definition sizeof_lockfree_que : Z := 16.
Definition sizeof_lockfree_buf : Z := 16.
Definition sizeof_lockfree_obj : Z := 8.

(** [garbage]: what the buffer holds when malloc returns it.  Only two of the
    positions are set. *)
Definition lockfree_que_create (a : alloc) (que_max_obj_count : Z) (garbage : lockfree_buffer)
    : option lockfree_buffer * alloc :=
  let '(que, a) := malloc a sizeof_lockfree_que in
  if que =? NULL then (None, a)
  else
    let '(buf, a) := malloc a (sizeof_lockfree_buf + sizeof_lockfree_obj * que_max_obj_count) in
    if buf =? NULL then (None, a)
    else (Some (Lfb 0 0 (lfb_max_read_pos garbage) (lfb_count garbage) (lfb_buf garbage)), a).

Definition next_pos (N pos : Z) : Z := u32 (pos + 1) mod N.

(** Where a thread is: the argument of the operation and its local variables. *)
Inductive thread :=
  | PIdle
  | PReadW (v : Z)
  | PReadR (v write_pos : Z)
  | PCas (v write_pos next_write_pos : Z)
  | PStore (v write_pos next_write_pos : Z)
  | PCommit (v write_pos next_write_pos : Z)
  | PCount
  | PCountCas (old : Z)
  | CIdle
  | CReadR
  | CReadM (read_pos : Z)
  | CLoad (read_pos : Z)
  | CCas (read_pos val : Z)
  | CCount (val : Z)
  | CCountCas (val old : Z).

(** What the operations do to the queue, at the step where they do it: an element
    becomes readable, [lockfree_enque] finds the queue full, an element is taken,
    [lockfree_deque] finds the queue empty. *)
Inductive event := EEnq (v : Z) | EFull | EDeq (v : Z) | EEmpty.

Definition set_write (b : lockfree_buffer) x := Lfb x (lfb_read_pos b) (lfb_max_read_pos b) (lfb_count b) (lfb_buf b).
Definition set_read (b : lockfree_buffer) x := Lfb (lfb_write_pos b) x (lfb_max_read_pos b) (lfb_count b) (lfb_buf b).
Definition set_max (b : lockfree_buffer) x := Lfb (lfb_write_pos b) (lfb_read_pos b) x (lfb_count b) (lfb_buf b).
Definition set_count (b : lockfree_buffer) x := Lfb (lfb_write_pos b) (lfb_read_pos b) (lfb_max_read_pos b) x (lfb_buf b).
Definition set_buf (b : lockfree_buffer) x := Lfb (lfb_write_pos b) (lfb_read_pos b) (lfb_max_read_pos b) (lfb_count b) x.

(** One access of [lockfree_enque]. *)
Definition enque_step (N : Z) (b : lockfree_buffer) (t : thread) : option (lockfree_buffer * thread * option event) :=
  match t with
  | PReadW v => Some (b, PReadR v (lfb_write_pos b), None)
  | PReadR v w =>
      let next_write_pos := next_pos N w in
      if next_write_pos =? lfb_read_pos b then Some (b, PIdle, Some EFull)
      else Some (b, PCas v w next_write_pos, None)
  | PCas v w nw =>
      if lfb_write_pos b =? w then Some (set_write b nw, PStore v w nw, None) else Some (b, PReadW v, None)
  | PStore v w nw =>
      if w <? Z.of_nat (length (lfb_buf b))
      then Some (set_buf b (<[Z.to_nat w := v]> (lfb_buf b)), PCommit v w nw, None) else None
  | PCommit v w nw =>
      if lfb_max_read_pos b =? w then Some (set_max b nw, PCount, Some (EEnq v)) else Some (b, PCommit v w nw, None)
  | PCount => Some (b, PCountCas (lfb_count b), None)
  | PCountCas old =>
      if lfb_count b =? old then Some (set_count b (atomic_add old 1), PIdle, None) else Some (b, PCount, None)
  | _ => None
  end.

(** One access of [lockfree_deque]. *)
Definition deque_step (N : Z) (b : lockfree_buffer) (t : thread) : option (lockfree_buffer * thread * option event) :=
  match t with
  | CReadR => Some (b, CReadM (lfb_read_pos b), None)
  | CReadM r => if r =? lfb_max_read_pos b then Some (b, CIdle, Some EEmpty) else Some (b, CLoad r, None)
  | CLoad r => v ← lfb_buf b !! Z.to_nat r; Some (b, CCas r v, None)
  | CCas r v =>
      if lfb_read_pos b =? r then Some (set_read b (next_pos N r), CCount v, Some (EDeq v)) else Some (b, CReadR, None)
  | CCount v => Some (b, CCountCas v (lfb_count b), None)
  | CCountCas v old =>
      if lfb_count b =? old then Some (set_count b (atomic_sub old 1), CIdle, None) else Some (b, CCount v, None)
  | _ => None
  end.

Definition thread_step (N : Z) (b : lockfree_buffer) (t : thread) : option (lockfree_buffer * thread * option event) :=
  match enque_step N b t with Some r => Some r | None => deque_step N b t end.

(** ** Interleavings *)

Record conf := Conf { c_buf : lockfree_buffer; c_threads : list thread; c_hist : list event }.

Inductive step (N : Z) : conf -> conf -> Prop :=
  | step_enque b ts h i v :
      ts !! i = Some PIdle -> step N (Conf b ts h) (Conf b (<[i := PReadW v]> ts) h)
  | step_deque b ts h i :
      ts !! i = Some CIdle -> step N (Conf b ts h) (Conf b (<[i := CReadR]> ts) h)
  | step_run b ts h i t b' t' e :
      ts !! i = Some t -> thread_step N b t = Some (b', t', e) ->
      step N (Conf b ts h) (Conf b' (<[i := t']> ts) (h ++ option_list e)).

(** A scheduler: start an operation, or let a thread run. *)
Inductive action := AEnque (i : nat) (v : Z) | ADeque (i : nat) | ARun (i : nat).

Definition act1 (N : Z) (c : conf) (x : action) : option conf :=
  match x with
  | AEnque i v => match c_threads c !! i with
                  | Some PIdle => Some (Conf (c_buf c) (<[i := PReadW v]> (c_threads c)) (c_hist c)) | _ => None end
  | ADeque i => match c_threads c !! i with
                | Some CIdle => Some (Conf (c_buf c) (<[i := CReadR]> (c_threads c)) (c_hist c)) | _ => None end
  | ARun i => t ← c_threads c !! i; '(b', t', e) ← thread_step N (c_buf c) t;
              Some (Conf b' (<[i := t']> (c_threads c)) (c_hist c ++ option_list e))
  end.

Definition exec (N : Z) (c : conf) (l : list action) : option conf :=
  foldl (fun r x => c ← r; act1 N c x) (Some c) l.

Lemma act1_step N c x c' : act1 N c x = Some c' -> step N c c'.
Proof.
  destruct c as [b ts h], x as [i v|i|i]; cbn; intros E.
  - destruct (ts !! i) as [[]|] eqn:Et; simplify_eq. by constructor.
  - destruct (ts !! i) as [[]|] eqn:Et; simplify_eq. by constructor.
  - destruct (ts !! i) as [t|] eqn:Et; [|done]. cbn in E.
    destruct (thread_step N b t) as [[[b' t'] e]|] eqn:Es; [|done]. cbn in E. simplify_eq. by econstructor.
Qed.

Lemma exec_None N l : foldl (fun r x => c ← r; act1 N c x) None l = None.
Proof. by induction l. Qed.

Lemma exec_steps N l c c' : exec N c l = Some c' -> rtc (step N) c c'.
Proof.
  unfold exec. revert c. induction l as [|x l IH]; intros c E; cbn [foldl] in E.
  { injection E as ->. constructor. }
  cbn [mbind option_bind] in E. destruct (act1 N c x) as [c1|] eqn:E1.
  - eapply rtc_l; [by eapply act1_step|]. by apply IH.
  - by rewrite exec_None in E.
Qed.

(** ** The abstract queue *)

(** A queue that holds at most [cap] elements. *)
Definition fifo_step (cap : Z) (q : list Z) (e : event) : option (list Z) :=
  match e with
  | EEnq v => if Z.of_nat (length q) <? cap then Some (q ++ [v]) else None
  | EFull => if Z.of_nat (length q) =? cap then Some q else None
  | EDeq v => match q with x :: q => if x =? v then Some q else None | [] => None end
  | EEmpty => match q with [] => Some [] | _ => None end
  end.

Definition fifo_run (cap : Z) (h : list event) : option (list Z) :=
  foldl (fun r e => q ← r; fifo_step cap q e) (Some []) h.

Lemma fifo_run_snoc cap h e : fifo_run cap (h ++ [e]) = (q ← fifo_run cap h; fifo_step cap q e).
Proof. unfold fifo_run. by rewrite foldl_app. Qed.

(** ** One producer and one consumer *)

(** The readable elements are [q], from [lfb_read_pos] on. *)
Record ring_holds (N : Z) (b : lockfree_buffer) (q : list Z) : Prop := {
  rh_len : Z.of_nat (length (lfb_buf b)) = N;
  rh_read : 0 <= lfb_read_pos b < N;
  rh_room : Z.of_nat (length q) < N;
  rh_max : lfb_max_read_pos b = (lfb_read_pos b + Z.of_nat (length q)) mod N;
  rh_elems : forall i v, q !! i = Some v -> lfb_buf b !! Z.to_nat ((lfb_read_pos b + Z.of_nat i) mod N) = Some v }.

(** What the producer knows, with [k] elements readable. *)
Definition producer_ok (N : Z) (b : lockfree_buffer) (k : Z) (t : thread) : Prop :=
  match t with
  | PIdle | PReadW _ | PCount | PCountCas _ => lfb_write_pos b = lfb_max_read_pos b
  | PReadR _ w => lfb_write_pos b = w /\ lfb_max_read_pos b = w
  | PCas _ w nw => lfb_write_pos b = w /\ lfb_max_read_pos b = w /\ nw = (w + 1) mod N /\ k < N - 1
  | PStore _ w nw => lfb_write_pos b = nw /\ lfb_max_read_pos b = w /\ nw = (w + 1) mod N /\ k < N - 1
  | PCommit v w nw => lfb_write_pos b = nw /\ lfb_max_read_pos b = w /\ nw = (w + 1) mod N /\ k < N - 1 /\
      lfb_buf b !! Z.to_nat w = Some v
  | _ => False
  end.

Definition consumer_ok (b : lockfree_buffer) (q : list Z) (t : thread) : Prop :=
  match t with
  | CIdle | CReadR | CCount _ | CCountCas _ _ => True
  | CReadM r => r = lfb_read_pos b
  | CLoad r => r = lfb_read_pos b /\ q <> []
  | CCas r v => r = lfb_read_pos b /\ head q = Some v
  | _ => False
  end.

Definition spsc_inv (N : Z) (c : conf) : Prop :=
  exists p k q, c_threads c = [p; k] /\ fifo_run (N - 1) (c_hist c) = Some q /\
    ring_holds N (c_buf c) q /\ producer_ok N (c_buf c) (Z.of_nat (length q)) p /\ consumer_ok (c_buf c) q k.

Lemma next_pos_small N x : 0 <= x < N -> N < 4294967296 -> next_pos N x = (x + 1) mod N.
Proof. intros H HN. unfold next_pos. by rewrite u32_small by lia. Qed.

Lemma ring_max_bounds N b q : ring_holds N b q -> 0 <= lfb_max_read_pos b < N.
Proof. intros [H1 H2 H3 H4 H5]. rewrite H4. apply Z.mod_pos_bound. lia. Qed.

(** Full and empty, as the code tests them. *)
Lemma ring_full N b q : ring_holds N b q -> (lfb_max_read_pos b + 1) mod N = lfb_read_pos b <-> Z.of_nat (length q) = N - 1.
Proof.
  intros [H1 H2 H3 H4 H5]. rewrite H4, Zplus_mod_idemp_l, <- Z.add_assoc. split.
  - intros E. destruct (Z.eq_dec (Z.of_nat (length q) + 1) N); [lia|].
    assert ((lfb_read_pos b + (Z.of_nat (length q) + 1)) mod N = (lfb_read_pos b + 0) mod N) as E'.
    { rewrite E, Z.add_0_r. symmetry. apply Z.mod_small. lia. }
    apply mod_shift in E'; lia.
  - intros ->. replace (lfb_read_pos b + (N - 1 + 1)) with (lfb_read_pos b + 1 * N) by lia.
    rewrite Z.mod_add by lia. apply Z.mod_small. lia.
Qed.

Lemma ring_empty N b q : ring_holds N b q -> lfb_read_pos b = lfb_max_read_pos b <-> q = [].
Proof.
  intros [H1 H2 H3 H4 H5]. rewrite H4. split.
  - intros E. destruct q as [|x q]; [done|]. exfalso.
    assert ((lfb_read_pos b + Z.of_nat (length (x :: q))) mod N = (lfb_read_pos b + 0) mod N) as E'.
    { rewrite <- E, Z.add_0_r. symmetry. apply Z.mod_small. lia. }
    apply mod_shift in E'; cbn [length] in *; lia.
  - intros ->. cbn [length]. rewrite Z.add_0_r. symmetry. apply Z.mod_small. lia.
Qed.

(** The element behind the readable ones, and the first one. *)
Lemma ring_store N b q v :
  ring_holds N b q -> Z.of_nat (length q) < N - 1 ->
  ring_holds N (set_buf b (<[Z.to_nat (lfb_max_read_pos b) := v]> (lfb_buf b))) q.
Proof.
  intros R Hq. pose proof (ring_max_bounds N b q R) as Hm. destruct R as [H1 H2 H3 H4 H5].
  split; cbn; try done; [by rewrite length_insert|].
  intros i x Hi. rewrite list_lookup_insert_ne; [by apply H5|]. intros E.
  apply lookup_lt_Some in Hi. pose proof (Z.mod_pos_bound (lfb_read_pos b + Z.of_nat i) N ltac:(lia)).
  apply Z2Nat.inj in E; [|lia|lia]. rewrite H4 in E. apply mod_shift in E; lia.
Qed.

Lemma ring_commit N b q v :
  ring_holds N b q -> Z.of_nat (length q) < N - 1 -> lfb_buf b !! Z.to_nat (lfb_max_read_pos b) = Some v ->
  ring_holds N (set_max b ((lfb_max_read_pos b + 1) mod N)) (q ++ [v]).
Proof.
  intros [H1 H2 H3 H4 H5] Hq Hv. split; cbn; try done.
  - rewrite length_app. cbn. lia.
  - rewrite length_app, H4, Zplus_mod_idemp_l. cbn. f_equal. lia.
  - intros i x Hi. apply lookup_app_Some in Hi as [Hi|[Hge Hi]]; [by apply H5|].
    destruct (i - length q)%nat as [|j] eqn:Ei; [|done]. injection Hi as <-. replace i with (length q) by lia.
    by rewrite <- H4.
Qed.

Lemma ring_take N b q v :
  ring_holds N b (v :: q) -> ring_holds N (set_read b ((lfb_read_pos b + 1) mod N)) q.
Proof.
  intros [H1 H2 H3 H4 H5]. cbn [length] in *. split; cbn; try done.
  - apply Z.mod_pos_bound. lia.
  - lia.
  - rewrite H4, Zplus_mod_idemp_l. f_equal. lia.
  - intros i x Hi. rewrite Zplus_mod_idemp_l. rewrite <- (H5 (S i) x Hi). do 3 f_equal. lia.
Qed.

(** What a schedule has of the accesses of a thread and of operations that start. *)
Definition starter (x : action) : option nat := match x with AEnque i _ | ADeque i => Some i | ARun _ => None end.
Definition accesses (i : nat) (l : list action) : nat :=
  length (List.filter (fun x => match x with ARun j => (j =? i)%nat | _ => false end) l).
Definition begun (l : list action) : nat :=
  length (List.filter (fun x => match x with ARun _ => false | _ => true end) l).

Lemma accesses_cons i x l :
  accesses i (x :: l) = ((match x with ARun j => if (j =? i)%nat then 1 else 0 | _ => 0 end) + accesses i l)%nat.
Proof. unfold accesses. destruct x as [| |j]; cbn; try done. by destruct (j =? i)%nat. Qed.

Lemma begun_cons x l : begun (x :: l) = ((match x with ARun _ => 0 | _ => 1 end) + begun l)%nat.
Proof. by destruct x. Qed.

(** The steps that are left of an operation when the other thread does not change [count]
    any more. *)
Definition rank (b : lockfree_buffer) (t : thread) : nat :=
  match t with
  | PIdle | CIdle => 0 | PReadW _ => 7 | PReadR _ _ => 6 | PCas _ _ _ => 5 | PStore _ _ _ => 4
  | PCommit _ _ _ => 3 | PCount => 2
  | CReadR => 6 | CReadM _ => 5 | CLoad _ => 4 | CCas _ _ => 3 | CCount _ => 2
  | PCountCas old | CCountCas _ old => if lfb_count b =? old then 1 else 3
  end.

Definition idle (t : thread) : bool := match t with PIdle | CIdle => true | _ => false end.

(** A step of another thread adds to them only where it ends its operation. *)
Lemma rank_other N b t t2 b' t2' e :
  thread_step N b t2 = Some (b', t2', e) ->
  (rank b' t <= rank b t)%nat \/ idle t2' = true /\ idle t2 = false /\ (rank b' t <= 2 + rank b t)%nat.
Proof.
  intros E. assert (lfb_count b' = lfb_count b \/ idle t2' = true /\ idle t2 = false) as H.
  { unfold thread_step in E. destruct t2; cbn in E; repeat case_match; simplify_option_eq; auto. }
  destruct H as [H|H]; [left|right; split_and!; [apply H..|]].
  - destruct t; cbn; rewrite ?H; lia.
  - destruct t; cbn; repeat case_match; lia.
Qed.

Definition fifo_opt (cap : Z) (q : list Z) (e : option event) : option (list Z) :=
  match e with Some e => fifo_step cap q e | None => Some q end.

Section Spsc.
Context (N : Z) (HN : 1 <= N < 4294967296).

Lemma producer_step b q p k b' p' e :
  ring_holds N b q -> producer_ok N b (Z.of_nat (length q)) p -> consumer_ok b q k ->
  thread_step N b p = Some (b', p', e) ->
  exists q', fifo_opt (N - 1) q e = Some q' /\ ring_holds N b' q' /\
    producer_ok N b' (Z.of_nat (length q')) p' /\ consumer_ok b' q' k /\ (rank b' p' < rank b p)%nat.
Proof.
  intros R P C E. pose proof (ring_max_bounds N b q R) as Hm. unfold thread_step in E.
  destruct p; cbn [producer_ok] in P; try done; cbn [enque_step deque_step] in E; try done.
  - injection E as <- <- <-. exists q. cbn. split_and!; (done || congruence || lia).
  - destruct P as [P1 P2]. rewrite next_pos_small in E by (subst; lia).
    destruct (Z.eqb_spec ((write_pos + 1) mod N) (lfb_read_pos b)) as [Ef|Ef]; injection E as <- <- <-.
    + exists q. rewrite <- P2 in Ef. apply (ring_full N b q R) in Ef. cbn [fifo_opt fifo_step]. zdec.
      cbn. split_and!; (done || congruence || lia).
    + exists q. rewrite <- P2 in Ef. rewrite (ring_full N b q R) in Ef. pose proof (rh_room _ _ _ R).
      cbn. split_and!; (done || congruence || lia).
  - destruct P as (P1 & P2 & P3 & P4). rewrite P1, Z.eqb_refl in E. injection E as <- <- <-.
    exists q. split; [done|]. split; [by destruct R; split|]. cbn. split_and!; (done || lia).
  - destruct P as (P1 & P2 & P3 & P4). pose proof (rh_len _ _ _ R). subst write_pos.
    rewrite (proj2 (Z.ltb_lt _ _)) in E by lia. injection E as <- <- <-.
    exists q. split; [done|]. split; [by apply ring_store; [|lia]|]. cbn. split_and!; try (done || lia).
    rewrite list_lookup_insert_eq by lia. done.
  - destruct P as (P1 & P2 & P3 & P4 & P5). subst write_pos. rewrite Z.eqb_refl in E. injection E as <- <- <-.
    exists (q ++ [v]). cbn [fifo_opt fifo_step]. zdec. split; [done|].
    split; [rewrite P3; by apply ring_commit; [|lia|]|]. cbn [producer_ok]. split; [done|]. split; [|cbn; lia].
    destruct k; cbn in *; try done; destruct C as [C1 C2]; split; try done; [by destruct q|by destruct q].
  - injection E as <- <- <-. exists q. cbn. rewrite Z.eqb_refl. split_and!; (done || lia).
  - cbn [rank]. destruct (Z.eqb_spec (lfb_count b) old); injection E as <- <- <-; exists q; (split; [done|]).
    + split; [by destruct R; split|]. cbn. split_and!; (done || lia || by destruct k).
    + cbn. split_and!; (done || lia).
Qed.

Lemma consumer_step b q p k b' k' e :
  ring_holds N b q -> producer_ok N b (Z.of_nat (length q)) p -> consumer_ok b q k ->
  thread_step N b k = Some (b', k', e) ->
  exists q', fifo_opt (N - 1) q e = Some q' /\ ring_holds N b' q' /\
    producer_ok N b' (Z.of_nat (length q')) p /\ consumer_ok b' q' k' /\ (rank b' k' < rank b k)%nat.
Proof.
  intros R P C E. pose proof (rh_read _ _ _ R) as Hr. unfold thread_step in E.
  destruct k; cbn [consumer_ok] in C; try done; cbn [enque_step deque_step] in E; try done.
  - injection E as <- <- <-. exists q. cbn. split_and!; (done || lia).
  - subst read_pos. destruct (Z.eqb_spec (lfb_read_pos b) (lfb_max_read_pos b)) as [Ee|Ee]; injection E as <- <- <-.
    + exists []. rewrite (ring_empty N b q R) in Ee. subst q. cbn. split_and!; (done || lia || apply R).
    + exists q. rewrite (ring_empty N b q R) in Ee. cbn. split_and!; (done || lia).
  - destruct C as [-> Nq]. destruct q as [|v q]; [done|].
    assert (Ev : lfb_buf b !! Z.to_nat (lfb_read_pos b) = Some v).
    { rewrite <- (rh_elems _ _ _ R 0%nat v eq_refl). rewrite Z.add_0_r, Z.mod_small by lia. done. }
    rewrite Ev in E. cbn [mbind option_bind] in E. injection E as <- <- <-. exists (v :: q). cbn. split_and!; (done || lia).
  - destruct C as [-> Hq]. destruct q as [|x q]; [done|]. injection Hq as ->. rewrite Z.eqb_refl in E.
    rewrite next_pos_small in E by lia. injection E as <- <- <-. exists q. cbn [fifo_opt fifo_step]. rewrite Z.eqb_refl.
    split; [done|]. split; [by eapply ring_take|]. split; [|cbn; split; [done|lia]].
    destruct p; cbn [producer_ok] in *; cbn; try done; cbn [length] in P; naive_solver lia.
  - injection E as <- <- <-. exists q. cbn. rewrite Z.eqb_refl. split_and!; (done || lia).
  - cbn [rank]. destruct (Z.eqb_spec (lfb_count b) old); injection E as <- <- <-; exists q; (split; [done|]).
    + split; [by destruct R; split|]. split; [by destruct p|]. cbn. split; [done|lia].
    + cbn. split_and!; (done || lia).
Qed.

(** The state [lockfree_que_create] leaves when the memory malloc returns happens
    to have 0 in [lfb_max_read_pos]. *)
Lemma spsc_start a g b a' :
  lockfree_que_create a N g = (Some b, a') -> lfb_max_read_pos g = 0 -> Z.of_nat (length (lfb_buf g)) = N ->
  spsc_inv N (Conf b [PIdle; CIdle] []).
Proof.
  unfold lockfree_que_create. intros E Hm Hl. destruct (malloc a sizeof_lockfree_que) as [que a1].
  destruct (que =? NULL); [done|]. destruct (malloc a1 _) as [buf a2]. destruct (buf =? NULL); [done|].
  injection E as <- <-. exists PIdle, CIdle, []. cbn. split_and!; try done.
  split; cbn; (done || lia).
Qed.

Lemma fifo_run_opt h q e q' :
  fifo_run (N - 1) h = Some q -> fifo_opt (N - 1) q e = Some q' -> fifo_run (N - 1) (h ++ option_list e) = Some q'.
Proof.
  intros H E. destruct e as [e|]; cbn in *; [by rewrite fifo_run_snoc, H|]. rewrite app_nil_r. congruence.
Qed.

(** What a thread's own step does in a state of the invariant. *)
Lemma spsc_run c i t b' t' e :
  spsc_inv N c -> c_threads c !! i = Some t -> thread_step N (c_buf c) t = Some (b', t', e) ->
  spsc_inv N (Conf b' (<[i := t']> (c_threads c)) (c_hist c ++ option_list e)) /\ (rank b' t' < rank (c_buf c) t)%nat.
Proof.
  intros (p & k & q & Et & Hq & R & P & C) Ht E. rewrite Et in *.
  destruct i as [|[|i]]; cbn in Ht; [| |done]; injection Ht as <-.
  - destruct (producer_step _ _ _ _ _ _ _ R P C E) as (q' & F & R' & P' & C' & K). split; [|done].
    exists t', k, q'. split_and!; try done. by eapply fifo_run_opt.
  - destruct (consumer_step _ _ _ _ _ _ _ R P C E) as (q' & F & R' & P' & C' & K). split; [|done].
    exists p, t', q'. split_and!; try done. by eapply fifo_run_opt.
Qed.

Lemma spsc_step c c' : spsc_inv N c -> step N c c' -> spsc_inv N c'.
Proof.
  intros I S. destruct S as [b ts h i v Hi|b ts h i Hi|b ts h i t b' t' e Hi E].
  - destruct I as (p & k & q & Et & Hq & R & P & C). cbn in *. subst ts.
    destruct i as [|[|i]]; cbn in Hi; [| |done]; injection Hi as ->; [|done]. by exists (PReadW v), k, q.
  - destruct I as (p & k & q & Et & Hq & R & P & C). cbn in *. subst ts.
    destruct i as [|[|i]]; cbn in Hi; [| |done]; injection Hi as ->; [done|]. by exists p, CReadR, q.
  - by eapply (spsc_run (Conf b ts h)).
Qed.

Lemma spsc_reachable c c' : spsc_inv N c -> rtc (step N) c c' -> spsc_inv N c'.
Proof. intros I H. revert I. induction H as [|x y z S _ IH]; [done|]. intros I. apply IH. by eapply spsc_step. Qed.

(** In a state of the invariant no access of a running operation is out of range. *)
Lemma producer_can_step b q p :
  ring_holds N b q -> producer_ok N b (Z.of_nat (length q)) p -> (0 < rank b p)%nat -> is_Some (thread_step N b p).
Proof.
  intros R P K. pose proof (ring_max_bounds _ _ _ R) as Hm. pose proof (rh_len _ _ _ R) as Hl. unfold thread_step.
  destruct p; cbn in *; try (done || lia); repeat case_match; try (done || lia).
Qed.

Lemma consumer_can_step b q k :
  ring_holds N b q -> consumer_ok b q k -> (0 < rank b k)%nat -> is_Some (thread_step N b k).
Proof.
  intros R C K. pose proof (rh_len _ _ _ R) as Hl. pose proof (rh_read _ _ _ R) as Hr. unfold thread_step.
  destruct k; cbn in *; try (done || lia); repeat case_match; try (done || lia).
  destruct C as [-> _]. destruct (lookup_lt_is_Some_2 (lfb_buf b) (Z.to_nat (lfb_read_pos b))) as [v ->]; [lia|done].
Qed.

Lemma spsc_progress c i t :
  spsc_inv N c -> c_threads c !! i = Some t -> (0 < rank (c_buf c) t)%nat -> is_Some (thread_step N (c_buf c) t).
Proof.
  intros (p & k & q & Et & Hq & R & P & C) Ht K. rewrite Et in Ht.
  destruct i as [|[|i]]; cbn in Ht; [| |done]; injection Ht as <-.
  - by eapply producer_can_step.
  - by eapply consumer_can_step.
Qed.

(** *** Bounds on the accesses of an operation *)

Lemma exec_cons x l c : exec N c (x :: l) = (c1 ← act1 N c x; exec N c1 l).
Proof.
  unfold exec. cbn [foldl mbind option_bind]. destruct (act1 N c x) as [c1|]; [done|]. by rewrite exec_None.
Qed.

(** One more operation of the other thread that may end. *)
Definition pending (i : nat) (c : conf) : nat :=
  match c_threads c !! (1 - i)%nat with Some t => if idle t then 0 else 2 | None => 0 end.

Lemma accesses_bound l : forall c i t c',
  spsc_inv N c -> c_threads c !! i = Some t -> exec N c l = Some c' -> Forall (fun x => starter x <> Some i) l ->
  (accesses i l <= rank (c_buf c) t + pending i c + 2 * begun l)%nat.
Proof.
  induction l as [|x l IH]; intros c i t c' I Ht E F; [cbn; lia|].
  apply Forall_cons in F as [Fx F]. rewrite exec_cons in E. destruct (act1 N c x) as [c1|] eqn:E1; [|done]. cbn in E.
  pose proof (spsc_step c c1 I (act1_step N c x c1 E1)) as I1.
  assert (Hi : (i < 2)%nat).
  { destruct I as (p & k & q & Et & _). rewrite Et in Ht. apply lookup_lt_Some in Ht. done. }
  assert (St : forall j t1, j <> i -> c1 = Conf (c_buf c) (<[j := t1]> (c_threads c)) (c_hist c) ->
            (accesses i l <= rank (c_buf c) t + 2 + 2 * begun l)%nat).
  { intros j t1 Nj ->. assert (Ht1 : <[j := t1]> (c_threads c) !! i = Some t) by (by rewrite list_lookup_insert_ne).
    pose proof (IH _ i t c' I1 Ht1 E F) as B. cbn [c_buf] in B.
    unfold pending in B at 1. repeat case_match; lia. }
  rewrite accesses_cons, begun_cons. destruct x as [j v|j|j]; cbn in E1, Fx.
  - destruct (c_threads c !! j) as [[]|] eqn:Ej; simplify_eq. pose proof (St j (PReadW v) ltac:(congruence) eq_refl). lia.
  - destruct (c_threads c !! j) as [[]|] eqn:Ej; simplify_eq. pose proof (St j CReadR ltac:(congruence) eq_refl). lia.
  - destruct (c_threads c !! j) as [t2|] eqn:Ej; [|done]. cbn in E1.
    destruct (thread_step N (c_buf c) t2) as [[[b' t2'] e]|] eqn:E2; [|done]. cbn in E1. injection E1 as <-.
    pose proof (lookup_lt_Some _ _ _ Ej) as Lj. destruct (decide (j = i)) as [->|Nj].
    + rewrite Ht in Ej. injection Ej as <-. destruct (spsc_run c i t b' t2' e I Ht E2) as [_ Rk].
      pose proof (IH _ i t2' c' I1 (list_lookup_insert_eq _ _ _ Lj) E F) as B. cbn [c_buf] in B.
      assert (pending i (Conf b' (<[i := t2']> (c_threads c)) (c_hist c ++ option_list e)) = pending i c) as Ep.
      { unfold pending. cbn [c_threads]. by rewrite list_lookup_insert_ne by lia. }
      rewrite Nat.eqb_refl. lia.
    + assert (Ht1 : <[j := t2']> (c_threads c) !! i = Some t) by (by rewrite list_lookup_insert_ne).
      pose proof (IH _ i t c' I1 Ht1 E F) as B. cbn [c_buf] in B.
      assert (j = (1 - i)%nat) as ->.
      { destruct I as (p & k & q & Et & _). rewrite Et in Lj. cbn in Lj. lia. }
      rewrite (proj2 (Nat.eqb_neq _ _) Nj). unfold pending in *. cbn [c_threads] in B.
      rewrite list_lookup_insert_eq in B by done. rewrite Ej.
      destruct (rank_other N (c_buf c) t t2 b' t2' e E2) as [Ro|(I2 & I3 & Ro)]; [|rewrite I2 in B; rewrite I3; lia].
      destruct (idle t2) eqn:Ei; [|repeat case_match; lia]. by destruct t2.
Qed.

(** A thread that runs alone returns. *)
Lemma run_alone n : forall c i t,
  spsc_inv N c -> c_threads c !! i = Some t -> (rank (c_buf c) t <= n)%nat ->
  exists k c' t', exec N c (replicate k (ARun i)) = Some c' /\ (k <= n)%nat /\ c_threads c' !! i = Some t' /\ idle t' = true.
Proof.
  induction n as [|n IH]; intros c i t I Ht Hn.
  { exists 0%nat, c, t. split_and!; try done. destruct t; cbn in *; repeat case_match; (done || lia). }
  destruct (decide (rank (c_buf c) t = 0%nat)) as [Z|Nz].
  { exists 0%nat, c, t. split_and!; (done || lia || idtac). destruct t; cbn in *; repeat case_match; (done || lia). }
  destruct (spsc_progress c i t I Ht ltac:(lia)) as [[[b' t1] e] E1].
  destruct (spsc_run c i t b' t1 e I Ht E1) as [I1 Rk].
  destruct (IH _ i t1 I1 (list_lookup_insert_eq _ _ _ (lookup_lt_Some _ _ _ Ht)) ltac:(cbn; lia)) as (k & c' & t' & E & Hk & H).
  exists (S k), c', t'. split_and!; [|lia|apply H..]. cbn [replicate]. rewrite exec_cons. cbn [act1]. rewrite Ht. cbn [mbind option_bind]. rewrite E1. exact E.
Qed.
End Spsc.

(** ** The theorems *)

(** C13: One producer and one consumer on a queue that [lockfree_que_create] has made
    in memory with 0 at [lfb_max_read_pos]: whatever the interleaving, the completed
    operations are a run of a FIFO queue with room for [N - 1] elements: elements
    come out once, in the order they went in, an operation reports full only when
    [N - 1] elements are in the queue and empty only when there is none, and the
    elements of the abstract queue are in the ring from [lfb_read_pos] on. *)
Theorem spsc_fifo_refinement N a g b a' c :
  1 <= N < 4294967296 -> lfb_max_read_pos g = 0 -> Z.of_nat (length (lfb_buf g)) = N ->
  lockfree_que_create a N g = (Some b, a') -> rtc (step N) (Conf b [PIdle; CIdle] []) c ->
  exists q, fifo_run (N - 1) (c_hist c) = Some q /\
    lfb_max_read_pos (c_buf c) = (lfb_read_pos (c_buf c) + Z.of_nat (length q)) mod N /\
    forall i v, q !! i = Some v -> lfb_buf (c_buf c) !! Z.to_nat ((lfb_read_pos (c_buf c) + Z.of_nat i) mod N) = Some v.
Proof.
  intros HN Hm Hl E H. pose proof (spsc_reachable N HN _ _ (spsc_start N HN _ _ _ _ E Hm Hl) H) as I.
  destruct I as (p & k & q & Et & Hq & R & P & C). exists q. destruct R. by split_and!.
Qed.

(** The ring of two places, with what malloc left in it, and a run in which the
    consumer finds the queue empty, the producer finds it full, both succeed, and the
    producer has to try the addition to [count] again. *)
Definition ring2 : lockfree_buffer := Lfb 7 7 0 7 [70; 71].
Definition overlap : list action :=
  [AEnque 0 5; ADeque 1; ARun 0; ARun 1; ARun 0; ARun 1; ARun 0; ARun 0; ARun 0; ARun 0; ARun 0; AEnque 0 6; ARun 0; ARun 0;
   ADeque 1; ARun 1; ARun 1; ARun 1; AEnque 0 8; ARun 0; ARun 1; ARun 0; ARun 0; ARun 1; ARun 0; ARun 0; ARun 0; ARun 1; ARun 0].

Lemma spsc_fifo_refinement_witness :
  let c := Conf (Lfb 0 1 0 7 [5; 8]) [PCount; CIdle] [EEmpty; EEnq 5; EFull; EDeq 5; EEnq 8] in
  exec 2 (Conf (Lfb 0 0 0 7 [70; 71]) [PIdle; CIdle] []) overlap = Some c /\
  exists q, fifo_run 1 (c_hist c) = Some q /\
    lfb_max_read_pos (c_buf c) = (lfb_read_pos (c_buf c) + Z.of_nat (length q)) mod 2 /\
    forall i v, q !! i = Some v -> lfb_buf (c_buf c) !! Z.to_nat ((lfb_read_pos (c_buf c) + Z.of_nat i) mod 2) = Some v.
Proof.
  split; [vm_compute; reflexivity|].
  apply (spsc_fifo_refinement 2 (Alloc 4096 []) ring2 (Lfb 0 0 0 7 [70; 71]) (Alloc 4176 []) _);
    [lia|reflexivity|reflexivity|vm_compute; reflexivity|].
  apply (exec_steps 2 overlap). vm_compute. reflexivity.
Defined.



(** With two consumers the queue is not a FIFO.  The first consumer reads the
    position and the element 1 and is preempted; the second takes 1 and 2, the
    producer has put 2 and 3 behind them and the read position is the old one again,
    so the first consumer's compare-and-swap succeeds: 1 is delivered twice, 3 never
    (the queue is then empty). *)
Theorem lockfree_deque_aba :
  exists acts c,
    exec 2 (Conf (Lfb 0 0 0 0 [0; 0]) [PIdle; CIdle; CIdle] []) acts = Some c /\
    c_hist c = [EEnq 1; EDeq 1; EEnq 2; EDeq 2; EEnq 3; EDeq 1] /\
    fifo_run 1 (c_hist c) = None /\ lfb_read_pos (c_buf c) = lfb_max_read_pos (c_buf c) /\
    c_threads c = [PIdle; CIdle; CIdle].
Proof.
  set (enque v := AEnque 0 v :: replicate 7 (ARun 0)).
  set (deque := ADeque 2 :: replicate 6 (ARun 2)).
  exists (enque 1 ++ (ADeque 1 :: replicate 3 (ARun 1)) ++ deque ++ enque 2 ++ deque ++ enque 3 ++ replicate 3 (ARun 1)).
  eexists. by split_and!; [vm_compute; reflexivity|..].
Qed.

Lemma enque_claims N b v w :
  next_pos N w <> lfb_read_pos b -> thread_step N b (PReadR v w) = Some (b, PCas v w (next_pos N w), None).
Proof. intros H. unfold thread_step, enque_step. by rewrite (proj2 (Z.eqb_neq _ _) H). Qed.

(** [lockfree_que_create] leaves [lfb_max_read_pos] as malloc returned it.  When
    that is not 0, a consumer of the new queue takes the uninitialised first place of
    the buffer instead of reporting an empty queue, and [lockfree_enque] never
    returns: however many steps it takes, it is still waiting to commit. *)
Theorem lockfree_que_create_uninitialised N a g b a' x v k :
  1 < N < 4294967296 -> Z.of_nat (length (lfb_buf g)) = N -> lfb_max_read_pos g <> 0 -> lfb_buf g !! 0%nat = Some x ->
  lockfree_que_create a N g = (Some b, a') ->
  (exists b', exec N (Conf b [CIdle] []) (ADeque 0 :: replicate 6 (ARun 0)) = Some (Conf b' [CIdle] [EDeq x])) /\
  (exists b', exec N (Conf b [PIdle] []) (AEnque 0 v :: replicate (4 + k) (ARun 0)) = Some (Conf b' [PCommit v 0 1] [])).
Proof.
  intros HN Hl Hm Hx E. unfold lockfree_que_create in E.
  destruct (malloc a sizeof_lockfree_que) as [que a1]. destruct (que =? NULL); [done|].
  destruct (malloc a1 _) as [buf a2]. destruct (buf =? NULL); [done|]. injection E as <- <-.
  assert (next_pos N 0 = 1) as En by (rewrite next_pos_small by lia; apply Z.mod_small; lia).
  unfold exec. destruct g as [gw gr gm gc gb]. cbn [lfb_max_read_pos lfb_buf lfb_count] in *.
  destruct gb as [|y gb]; [done|]. injection Hx as ->. split.
  - eexists. cbn -[next_pos Z.eqb]. rewrite (proj2 (Z.eqb_neq 0 gm)) by congruence. cbn -[next_pos Z.eqb].
    change (Z.to_nat 0) with 0%nat. cbn -[next_pos Z.eqb]. rewrite Z.eqb_refl. cbn -[next_pos Z.eqb]. rewrite Z.eqb_refl. reflexivity.
  - exists (Lfb 1 0 gm gc (v :: gb)). cbn -[next_pos]. rewrite enque_claims by (cbn; lia). rewrite En. cbn.
    destruct gm; [done|..]; (induction k as [|k IH]; [done|exact IH]).
Qed.

Lemma lockfree_que_create_uninitialised_witness :
  (exists b', exec 2 (Conf (Lfb 0 0 1 7 [70; 71]) [CIdle] []) (ADeque 0 :: replicate 6 (ARun 0)) = Some (Conf b' [CIdle] [EDeq 70])) /\
  (exists b', exec 2 (Conf (Lfb 0 0 1 7 [70; 71]) [PIdle] []) (AEnque 0 5 :: replicate (4 + 100) (ARun 0)) = Some (Conf b' [PCommit 5 0 1] [])).
Proof.
  apply (lockfree_que_create_uninitialised 2 (Alloc 4096 []) (Lfb 7 7 1 7 [70; 71]) _
           (snd (lockfree_que_create (Alloc 4096 []) 2 (Lfb 7 7 1 7 [70; 71]))));
    [lia|reflexivity|discriminate|reflexivity|vm_compute; reflexivity].
Defined.
