(* ===== verification/FileCopy.v ===== *)
(** * FileCopy: the copy program on the queue (lockfree_que/test.c)

    A producer thread reads the input file in blocks and puts their addresses in the
    queue, consumer threads take them out and write them to the output file; the
    consumer that brings the number of remaining blocks to 0 ends the process.  The
    threads' steps are the accesses of LockfreeQueue and the system calls of BlockBuf,
    interleaved in any order.  The theorems are about one consumer: the output is the
    input, no access is outside an object, and the end can be reached from every
    reachable state.  With two consumers the copy may be wrong. *)
From S2P Require Import Prelude Atomic MrHeap DentryHash Fs BlockBuf LockfreeQueue.
From stdpp Require Import list relations gmap.
Local Open Scope Z_scope.

Definition FILE_COPY_PAGE_SIZE : Z := 4096.
Definition FILE_COPY_MAX_CONSUMERS : Z := 128.
Definition LOCKFREE_DEFAULT_MAX_QUEOBJ_COUNT : Z := 128.

(** [struct file_copy_block]: [data] starts behind [size], before the padding. *)
Record fcp_block := Fcp { fb_off : Z; fb_size : Z; fb_data : content }.
Definition sizeof_fcp_block : Z := 16.
Definition offsetof_data : Z := 12.

(** [struct producer_param] with the length of the queue, what the memory malloc
    returns holds, and whether the [i]-th [pthread_create] succeeds. *)
Record params := Params {
  consumers_count : Z;
  file_copy_block_size : Z;
  input_file_size : Z;
  lfq_max_obj_count : Z;
  heap : Z -> content;
  created : Z -> bool }.

(** Where the producer is: [roff] and [cur_block] are its variables. *)
Inductive producer :=
  | PrSet
  | PrSpawn (i : Z)
  | PrAlloc (roff : Z)
  | PrRead (roff cur_block : Z)
  | PrEnque (roff cur_block : Z) (t : thread)
  | PrNext (roff cur_block : Z)
  | PrJoin.

Inductive consumer :=
  | CnDeque (t : thread)
  | CnWrite (cur_block : Z)
  | CnFree (cur_block : Z)
  | CnSub.

(** The process: the queue [g_p2c_que], the heap, the two files, [remain_blocks_count]
    and the threads; [cp_exit] is the status once the process has ended. *)
Record fcopy := Fcopy {
  cp_que : lockfree_buffer;
  cp_alloc : alloc;
  cp_blocks : gmap Z fcp_block;
  cp_in : disk;
  cp_out : disk;
  cp_remain : Z;
  cp_prod : producer;
  cp_cons : list consumer;
  cp_exit : option Z }.

(** A thread makes a step, waits for another one, or does something undefined. *)
Inductive outcome := Next (s : fcopy) | Blocked | Undefined.

Definition with_prod (s : fcopy) x :=
  Fcopy (cp_que s) (cp_alloc s) (cp_blocks s) (cp_in s) (cp_out s) (cp_remain s) x (cp_cons s) (cp_exit s).
Definition with_que (s : fcopy) x :=
  Fcopy x (cp_alloc s) (cp_blocks s) (cp_in s) (cp_out s) (cp_remain s) (cp_prod s) (cp_cons s) (cp_exit s).
Definition with_remain (s : fcopy) x :=
  Fcopy (cp_que s) (cp_alloc s) (cp_blocks s) (cp_in s) (cp_out s) x (cp_prod s) (cp_cons s) (cp_exit s).
Definition with_cons (s : fcopy) x :=
  Fcopy (cp_que s) (cp_alloc s) (cp_blocks s) (cp_in s) (cp_out s) (cp_remain s) (cp_prod s) x (cp_exit s).
Definition with_out (s : fcopy) x :=
  Fcopy (cp_que s) (cp_alloc s) (cp_blocks s) (cp_in s) x (cp_remain s) (cp_prod s) (cp_cons s) (cp_exit s).
Definition with_heap (s : fcopy) a m :=
  Fcopy (cp_que s) a m (cp_in s) (cp_out s) (cp_remain s) (cp_prod s) (cp_cons s) (cp_exit s).
Definition with_in (s : fcopy) x :=
  Fcopy (cp_que s) (cp_alloc s) (cp_blocks s) x (cp_out s) (cp_remain s) (cp_prod s) (cp_cons s) (cp_exit s).
Definition exit (s : fcopy) x :=
  Fcopy (cp_que s) (cp_alloc s) (cp_blocks s) (cp_in s) (cp_out s) (cp_remain s) (cp_prod s) (cp_cons s) (Some x).

Definition blocks_count (P : params) : Z :=
  (input_file_size P + file_copy_block_size P - 1) / file_copy_block_size P.

(** The next step of [producer_thread]. *)
Definition producer_thread (P : params) (s : fcopy) : outcome :=
  match cp_prod s with
  | PrSet => Next (with_prod (with_remain s (atomic_set (cp_remain s) (i32 (blocks_count P)))) (PrSpawn 0))
  | PrSpawn i =>
      if i <? consumers_count P
      then Next (with_prod (if created P i then with_cons s (cp_cons s ++ [CnDeque CReadR]) else s) (PrSpawn (i + 1)))
      else Next (with_prod s (PrAlloc 0))
  | PrAlloc roff =>
      let '(cur_block, a) := malloc (cp_alloc s) (sizeof_fcp_block + file_copy_block_size P) in
      if cur_block =? NULL then Undefined
      else Next (with_prod (with_heap s a
             (<[cur_block := Fcp (u64 roff) (u32 (file_copy_block_size P)) (heap P cur_block)]> (cp_blocks s)))
             (PrRead roff cur_block))
  | PrRead roff cur_block =>
      match cp_blocks s !! cur_block with
      | None => Undefined
      | Some b =>
          let '(r, d) := pread (cp_in s) (fb_size b) (fb_off b) in
          let b := Fcp (fb_off b) (u32 r) (copy (fb_data b) 0 r (d_bytes d) (fb_off b)) in
          let s := with_heap (with_in s d) (cp_alloc s) (<[cur_block := b]> (cp_blocks s)) in
          if fb_size b <? 0 then Next (exit s 1) else Next (with_prod s (PrEnque roff cur_block (PReadW cur_block)))
      end
  | PrEnque roff cur_block t =>
      match thread_step (lfq_max_obj_count P) (cp_que s) t with
      | None => Undefined
      | Some (b, t', e) =>
          let s := with_que s b in
          Next (with_prod s
            match t', e with
            | PIdle, Some _ => PrEnque roff cur_block (PReadW cur_block)
            | PIdle, None => PrNext roff cur_block
            | _, _ => PrEnque roff cur_block t'
            end)
      end
  | PrNext roff cur_block =>
      match cp_blocks s !! cur_block with
      | None => Undefined
      | Some b =>
          let roff := roff + fb_size b in
          Next (with_prod s (if input_file_size P <=? roff then PrJoin else PrAlloc roff))
      end
  | PrJoin => if (0 <? consumers_count P) && created P 0 then Blocked else Undefined
  end.

(** The macro loops while the pointer is null: it frees nothing else. *)
Definition LOCKFREEQUE_MEM_FREE (ptr : Z) : bool := negb (ptr =? NULL).

(** The next step of the [i]-th consumer. *)
Definition consumer_thread (P : params) (s : fcopy) (i : nat) : outcome :=
  match cp_cons s !! i with
  | None => Blocked
  | Some (CnDeque t) =>
      match thread_step (lfq_max_obj_count P) (cp_que s) t with
      | None => Undefined
      | Some (b, t', _) =>
          Next (with_cons (with_que s b) (<[i :=
            match t, t' with
            | CCountCas val _, CIdle => CnWrite val
            | _, CIdle => CnDeque CReadR
            | _, _ => CnDeque t'
            end]> (cp_cons s)))
      end
  | Some (CnWrite cur_block) =>
      match cp_blocks s !! cur_block with
      | None => Undefined
      | Some b =>
          if sizeof_fcp_block + file_copy_block_size P <? offsetof_data + fb_size b then Undefined
          else
            let '(size, d) := pwrite (cp_out s) (fb_data b) (fb_size b) (fb_off b) in
            if size <? 0 then Next (exit (with_out s d) 1)
            else Next (with_cons (with_out s d) (<[i := CnFree cur_block]> (cp_cons s)))
      end
  | Some (CnFree cur_block) =>
      if LOCKFREEQUE_MEM_FREE cur_block then Next (with_cons s (<[i := CnSub]> (cp_cons s))) else Next s
  | Some CnSub =>
      let remain := atomic_sub (cp_remain s) 1 in
      let s := with_remain s remain in
      if remain =? 0 then Next (exit s 0) else Next (with_cons s (<[i := CnDeque CReadR]> (cp_cons s)))
  end.

(** Thread 0 is the producer; nothing runs once the process has ended. *)
Definition copy_thread (P : params) (s : fcopy) (i : nat) : outcome :=
  match cp_exit s with
  | Some _ => Blocked
  | None => match i with O => producer_thread P s | S i => consumer_thread P s i end
  end.

Definition copy_step (P : params) (s s' : fcopy) : Prop := exists i, copy_thread P s i = Next s'.

(** [main] up to the start of the producer: [inl] is the exit status.  [n] is
    [atoi(argv[1])]; [input] and [output] are the files, [None] when they cannot be
    opened, the output truncated ([O_TRUNC]); [c2p] and [p2c] are what malloc returns
    for the buffers of the queues. *)
Definition copy_main (argc n : Z) (a : alloc) (c2p p2c : lockfree_buffer) (input : option disk)
    (output : option (list (option Z))) (hp : Z -> content) (cr : Z -> bool) : Z + params * fcopy :=
  if negb (argc =? 4) then inl 1
  else
    let n := u32 n in
    let consumers_count := if FILE_COPY_MAX_CONSUMERS <? n then FILE_COPY_MAX_CONSUMERS else n in
    let '(g_c2p_que, a) := lockfree_que_create a LOCKFREE_DEFAULT_MAX_QUEOBJ_COUNT c2p in
    let '(g_p2c_que, a) := lockfree_que_create a LOCKFREE_DEFAULT_MAX_QUEOBJ_COUNT p2c in
    match g_p2c_que, g_c2p_que with
    | Some q, Some _ =>
        match input, output with
        | Some input, Some io =>
            let input_size := Z.shiftl (Z.shiftl (Z.shiftl 1 10) 10) 10 in
            if input_size <? 0 then inl 1
            else inr (Params consumers_count FILE_COPY_PAGE_SIZE input_size LOCKFREE_DEFAULT_MAX_QUEOBJ_COUNT hp cr,
                      Fcopy q a ∅ input (Disk 0 (fun _ => 0) io) 0 PrSet [] None)
        | _, _ => inl 1
        end
    | _, _ => inl 1
    end.

(** A schedule: the threads in the order in which they make a step. *)
Definition copy_run (P : params) (s : fcopy) (l : list nat) : option fcopy :=
  foldl (fun r i => s ← r; match copy_thread P s i with Next s => Some s | _ => None end) (Some s) l.

Lemma copy_run_steps P l s s' : copy_run P s l = Some s' -> rtc (copy_step P) s s'.
Proof.
  unfold copy_run. revert s. induction l as [|i l IH]; intros s E; cbn [foldl] in E.
  { injection E as ->. constructor. }
  cbn [mbind option_bind] in E. destruct (copy_thread P s i) as [s1| |] eqn:E1;
    [|exfalso; clear -E; by induction l..].
  eapply rtc_l; [by exists i|]. by apply IH.
Qed.

(** ** One consumer *)

Section Single.
Context (P : params) (input : disk).
Local Abbreviation N := (lfq_max_obj_count P).
Local Abbreviation B := (file_copy_block_size P).
Local Abbreviation K := (blocks_count P).
Local Abbreviation L := (d_len input).
Context (HN : 2 <= N < 4294967296) (HB : 0 < B < 4294967280) (HS : 0 < input_file_size P) (HK : K < 2147483648)
  (H1 : consumers_count P = 1) (Hc : created P 0 = true) (Hio : d_io input = []) (HL : 0 <= L < 2 ^ 63).

(** Where the [j]-th block starts: at the end of the file the blocks are empty. *)
Definition blk_off (j : Z) : Z := Z.min (j * B) L.

Definition blk_ok (m : gmap Z fcp_block) (j a : Z) : Prop :=
  a <> NULL /\ exists dat, m !! a = Some (Fcp (blk_off j) (blk_off (j + 1) - blk_off j) dat) /\
    forall x, 0 <= x < blk_off (j + 1) - blk_off j -> dat x = d_bytes input (blk_off j + x) mod 256.

(** The first [w] blocks are in the output. *)
Definition out_ok (d : disk) (w : Z) : Prop :=
  d_io d = [] /\ d_len d = blk_off w /\ forall x, 0 <= x < blk_off w -> d_bytes d x = d_bytes input x mod 256.

(** The operation on the queue a thread is in. *)
Definition prod_thread (p : producer) : thread := match p with PrEnque _ _ t => t | _ => PIdle end.
Definition cons_thread (l : list consumer) : thread := match l with [CnDeque t] => t | _ => CIdle end.

(** The block is in the queue, and [count] is being updated. *)
Definition counting (t : thread) : bool := match t with PCount | PCountCas _ => true | _ => false end.

(** The blocks allocated so far, [m] of them in the queue or out of it again. *)
Definition allocated (p : producer) (m : Z) : Z :=
  match p with PrRead _ _ => m + 1 | PrEnque _ _ t => if counting t then m else m + 1 | _ => m end.

(** [t] puts [v] in the queue. *)
Definition enq_val (t : thread) (v : Z) : Prop :=
  match t with
  | PReadW x | PReadR x _ | PCas x _ _ | PStore x _ _ | PCommit x _ _ => x = v
  | _ => False
  end.

(** The producer has put the blocks [al] in the queue. *)
Definition prod_inv (m : gmap Z fcp_block) (ks : list consumer) (al : list Z) (p : producer) : Prop :=
  let n := Z.of_nat (length al) in
  match p with
  | PrSet => al = [] /\ ks = []
  | PrSpawn i => al = [] /\ (i = 0 /\ ks = [] \/ i = 1 /\ length ks = 1%nat)
  | PrAlloc roff => roff = blk_off n /\ length ks = 1%nat
  | PrRead roff a => roff = blk_off n /\ length ks = 1%nat /\ a <> NULL /\ (a ∉ al) /\
      exists dat, m !! a = Some (Fcp (blk_off n) B dat)
  | PrEnque roff a PCount | PrEnque roff a (PCountCas _) | PrNext roff a =>
      roff = blk_off (n - 1) /\ length ks = 1%nat /\ last al = Some a
  | PrEnque roff a t => roff = blk_off n /\ length ks = 1%nat /\ enq_val t a /\ blk_ok m n a
  | PrJoin => input_file_size P <= blk_off n /\ length ks = 1%nat
  end.

(** The consumer has taken [tk] of the blocks and finished [dn] of them. *)
Definition cons_inv (ks : list consumer) (out : disk) (al : list Z) (tk dn : nat) : Prop :=
  match ks with
  | [] => tk = 0%nat /\ dn = 0%nat /\ out_ok out 0
  | [CnDeque (CCount a)] | [CnDeque (CCountCas a _)] | [CnWrite a] => tk = S dn /\ al !! dn = Some a /\ out_ok out (Z.of_nat dn)
  | [CnDeque t] => tk = dn /\ idle t = false /\ out_ok out (Z.of_nat dn)
  | [CnFree a] => tk = S dn /\ a <> NULL /\ out_ok out (Z.of_nat dn + 1)
  | [CnSub] => tk = S dn /\ out_ok out (Z.of_nat dn + 1)
  | _ => False
  end.

Record copy_inv (s : fcopy) (al : list Z) (tk dn : nat) : Prop := {
  ci_exit : cp_exit s = None;
  ci_que : ring_holds N (cp_que s) (drop tk al);
  ci_prodq : producer_ok N (cp_que s) (Z.of_nat (length (drop tk al))) (prod_thread (cp_prod s));
  ci_consq : consumer_ok (cp_que s) (drop tk al) (cons_thread (cp_cons s));
  ci_tk : (tk <= length al)%nat;
  ci_dn : Z.of_nat dn < K;
  ci_prod : prod_inv (cp_blocks s) (cp_cons s) al (cp_prod s);
  ci_cons : cons_inv (cp_cons s) (cp_out s) al tk dn;
  ci_blocks : forall j a, al !! j = Some a -> blk_ok (cp_blocks s) (Z.of_nat j) a;
  ci_fresh : forall a b, cp_blocks s !! a = Some b -> a < a_next (cp_alloc s);
  ci_room : room (cp_alloc s) ((K + N - allocated (cp_prod s) (Z.of_nat (length al))) * (B + 32));
  ci_in : cp_in s = input;
  ci_remain : cp_prod s <> PrSet -> cp_remain s = K - Z.of_nat dn }.

Lemma blk_off_0 : blk_off 0 = 0.
Proof using HL. unfold blk_off. lia. Qed.

Lemma blk_off_step j : 0 <= j -> blk_off j <= blk_off (j + 1) <= blk_off j + B /\ 0 <= blk_off j <= L.
Proof using HB HL. unfold blk_off. nia. Qed.

Lemma blk_off_next j : 0 <= j -> Z.max 0 (Z.min B (L - blk_off j)) = blk_off (j + 1) - blk_off j.
Proof using HB HL. unfold blk_off. nia. Qed.

Lemma K_bounds n : input_file_size P <= n * B <-> K <= n.
Proof using HB.
  unfold blocks_count. pose proof (Z.div_mod (input_file_size P + B - 1) B ltac:(lia)).
  pose proof (Z.mod_pos_bound (input_file_size P + B - 1) B ltac:(lia)). split; intros; nia.
Qed.

(** With a free place in the queue memory is left for a block. *)
Lemma copy_inv_taken s al tk dn : copy_inv s al tk dn -> (tk <= S dn)%nat /\ Z.of_nat (length al) <= K + N - 1.
Proof.
  intros [_ R _ _ Tk Dn _ C _ _ _ _ _]. pose proof (rh_room _ _ _ R) as Q. rewrite length_drop in Q.
  assert (tk <= S dn)%nat; [|lia]. unfold cons_inv in C. repeat case_match; try done; lia.
Qed.

(** *** The producer *)

(** The steps that are left until an element is in the queue. *)
Definition prod_rank (s : fcopy) : nat :=
  match cp_prod s with
  | PrSet => 16 | PrSpawn 0 => 15 | PrSpawn _ => 14 | PrNext _ _ => 10
  | PrAlloc _ => 9 | PrRead _ _ => 8 | PrJoin => 0
  | PrEnque _ _ t => (if counting t then 10 else 0) + rank (cp_que s) t
  end.

(** What a step of the producer leaves. *)
Definition prod_done (s : fcopy) (al : list Z) (tk dn : nat) (s' : fcopy) : Prop :=
  exists al', copy_inv s' al' tk dn /\
    (drop tk al = [] -> drop tk al' <> [] \/ (prod_rank s' < prod_rank s)%nat).

Lemma prod_start_step s al tk dn :
  copy_inv s al tk dn -> cp_prod s = PrSet \/ (exists i, cp_prod s = PrSpawn i) ->
  exists s', producer_thread P s = Next s' /\ prod_done s al tk dn s'.
Proof.
  intros [E R Pq Cq Tk Dn Pr C Bl Fr Rm In Re] [Ep|[i Ep]]; unfold producer_thread, prod_done, prod_rank; rewrite Ep in *; cbn in Pr.
  - destruct Pr as [-> Ek]. rewrite Ek in *. cbn in C. destruct C as (-> & -> & C).
    eexists. split; [done|]. exists []. split; [|cbn; right; lia].
    split; cbn; try done; try (by rewrite Ek); [by split; [|left]|]. intros _. unfold atomic_set. rewrite i32_small; lia.
  - destruct Pr as [-> [[-> Ek]|[-> Ek]]]; rewrite H1; zdec.
    + change (0 + 1) with 1. rewrite Hc, Ek in *. cbn in C. destruct C as (-> & -> & C). eexists. split; [done|]. exists [].
      split; [|cbn; right; lia]. split; cbn; try done; [by split; [|right]|].
      intros _. by apply Re.
    + eexists. split; [done|]. exists []. split; [|cbn; right; lia].
      split; cbn; try done; [by change (Z.of_nat 0) with 0; rewrite blk_off_0|]. intros _. by apply Re.
Qed.

Lemma prod_alloc_step s al tk dn roff :
  copy_inv s al tk dn -> cp_prod s = PrAlloc roff ->
  exists s', producer_thread P s = Next s' /\ prod_done s al tk dn s'.
Proof.
  intros I Ep. destruct (copy_inv_taken _ _ _ _ I) as [_ Hl].
  destruct I as [E R Pq Cq Tk Dn Pr C Bl Fr Rm In Re]. unfold producer_thread, prod_done, prod_rank. rewrite Ep in *. cbn in Pr, Rm, Pq.
  destruct Pr as [-> Ek]. pose proof (blk_off_step (Z.of_nat (length al)) ltac:(lia)) as Bo.
  destruct (room_malloc (cp_alloc s) (sizeof_fcp_block + B) ((K + N - (Z.of_nat (length al) + 1)) * (B + 32)))
    as (a' & -> & Rm' & Ha & Hp); [|unfold sizeof_fcp_block; lia|apply Z.mul_nonneg_nonneg; lia|].
  { replace (16 + _ + _) with ((K + N - Z.of_nat (length al)) * (B + 32)) by (unfold sizeof_fcp_block; ring). done. }
  assert (F0 : cp_blocks s !! a_next (cp_alloc s) = None).
  { destruct (cp_blocks s !! a_next (cp_alloc s)) eqn:F; [|done]. apply Fr in F. lia. }
  unfold NULL. zdec. eexists. split; [done|]. exists al. split; [|cbn; right; lia].
  assert (Ha0 : forall j a, al !! j = Some a -> a <> a_next (cp_alloc s)).
  { intros j a Ej ->. destruct (Bl _ _ Ej) as (_ & dat & Ed & _). congruence. }
  split; cbn; try done.
  - split_and!; try (done || (unfold NULL; lia)).
    + intros [j Ej]%list_elem_of_lookup. by apply (Ha0 j _ Ej).
    + exists (heap P (a_next (cp_alloc s))). rewrite lookup_insert_eq, u32_small, u64_small by lia. done.
  - intros j a Ej. destruct (Bl _ _ Ej) as (Hn & dat & Ed & Hd). split; [done|]. exists dat.
    rewrite lookup_insert_ne by (intros X; symmetry in X; by apply (Ha0 _ _ Ej)). done.
  - intros a b Eb. destruct (decide (a = a_next (cp_alloc s))) as [->|X]; [done|].
    rewrite lookup_insert_ne in Eb by done. apply Fr in Eb. lia.
  - intros _. by apply Re.
Qed.

Lemma prod_read_step s al tk dn roff a :
  copy_inv s al tk dn -> cp_prod s = PrRead roff a ->
  exists s', producer_thread P s = Next s' /\ prod_done s al tk dn s'.
Proof.
  intros [E R Pq Cq Tk Dn Pr C Bl Fr Rm In Re] Ep. unfold producer_thread, prod_done, prod_rank. rewrite Ep in *. cbn in Pr, Rm, Pq.
  set (n := Z.of_nat (length al)) in *. destruct Pr as (-> & Ek & Na & Nl & dat & Ed). rewrite Ed.
  pose proof (blk_off_step n ltac:(lia)) as Bo. pose proof (blk_off_next n ltac:(lia)) as Bn.
  unfold pread, io_limit. cbn. rewrite In, Hio. zdec. rewrite Bn. rewrite u32_small by lia.
  eexists. split; [by zdec|]. exists al. split; [|cbn; right; lia].
  split; cbn; try done.
  - split_and!; try done. split; [done|]. eexists. rewrite lookup_insert_eq. split; [done|]. intros x Hx.
    fold n in Hx |- *. rewrite copy_inside by lia. do 2 f_equal. lia.
  - intros j b Ej. destruct (Bl _ _ Ej) as (Hn & d & Ed' & Hd). split; [done|]. exists d.
    rewrite lookup_insert_ne; [done|]. intros ->. apply Nl. by eapply list_elem_of_lookup_2.
  - intros b x Eb. destruct (decide (b = a)) as [->|X]; [by eapply Fr|].
    rewrite lookup_insert_ne in Eb by done. by eapply Fr.
  - destruct input. cbn in *. by subst.
  - intros _. by apply Re.
Qed.

(** A step of [lockfree_enque] commits the block, finds the queue full, or changes
    nothing in the abstract queue. *)
Lemma enque_val_step b t v b' t' e :
  enq_val t v -> thread_step N b t = Some (b', t', e) ->
  e = Some (EEnq v) /\ t' = PCount \/ e = Some EFull /\ t' = PIdle \/ e = None /\ enq_val t' v.
Proof.
  unfold thread_step. intros V E. destruct t; cbn in V; try done; subst; cbn in E; repeat case_match; naive_solver.
Qed.

Lemma enq_val_other b t v : enq_val t v -> counting t = false /\ t <> PIdle /\ (0 < rank b t)%nat.
Proof. destruct t; cbn; (done || (intros _; split_and!; (done || lia))). Qed.

(** The state of the producer in [lockfree_enque], before the block is readable. *)
Lemma prod_inv_enq m ks al roff a t :
  counting t = false -> prod_inv m ks al (PrEnque roff a t) <->
  roff = blk_off (Z.of_nat (length al)) /\ length ks = 1%nat /\ enq_val t a /\ blk_ok m (Z.of_nat (length al)) a.
Proof. intros H. by destruct t. Qed.

Lemma allocated_enq roff a t m : counting t = false -> allocated (PrEnque roff a t) m = m + 1.
Proof. intros H. cbn. by rewrite H. Qed.

Lemma prod_rank_enq s roff a t :
  cp_prod s = PrEnque roff a t -> counting t = false -> prod_rank s = rank (cp_que s) t.
Proof. intros E H. unfold prod_rank. by rewrite E, H. Qed.

(** The block becomes readable behind the others. *)
Lemma prod_commit_inv s al tk dn roff a t b' :
  copy_inv s al tk dn -> cp_prod s = PrEnque roff a t -> counting t = false ->
  ring_holds N b' (drop tk al ++ [a]) -> producer_ok N b' (Z.of_nat (length (drop tk al ++ [a]))) PCount ->
  consumer_ok b' (drop tk al ++ [a]) (cons_thread (cp_cons s)) ->
  copy_inv (with_prod (with_que s b') (PrEnque roff a PCount)) (al ++ [a]) tk dn.
Proof.
  intros [E R Pq Cq Tk Dn Pr C Bl Fr Rm In Re] Ep Nt R' P' C'. rewrite Ep in *.
  rewrite allocated_enq in Rm by done. apply prod_inv_enq in Pr as (-> & Ek & V & Ba); [|done].
  assert (Ed : drop tk (al ++ [a]) = drop tk al ++ [a]) by (apply drop_app_le; lia).
  split; cbn; try done; try (by rewrite Ed).
  - rewrite length_app. cbn. lia.
  - rewrite length_app. split_and!; [f_equal; cbn; lia|done|by rewrite last_snoc].
  - destruct (cp_cons s) as [|k [|]]; [done| |done]. cbn in C |- *.
    destruct k as [[]| | |]; try done; destruct C as (? & Ea & ?); split_and!; try done; by apply lookup_app_l_Some.
  - intros j x [Ej|[Hj Ej]]%lookup_app_Some; [by apply Bl|].
    destruct (j - length al)%nat as [|i] eqn:Ei; [|done]. injection Ej as <-. by replace j with (length al) by lia.
  - rewrite length_app. cbn. by replace (Z.of_nat (length al + 1)) with (Z.of_nat (length al) + 1) by lia.
  - intros _. by apply Re.
Qed.

(** A step inside [lockfree_enque] that leaves the readable elements. *)
Lemma prod_inner_inv s al tk dn roff a t b' t' :
  copy_inv s al tk dn -> cp_prod s = PrEnque roff a t -> counting t = false -> enq_val t' a ->
  ring_holds N b' (drop tk al) -> producer_ok N b' (Z.of_nat (length (drop tk al))) t' ->
  consumer_ok b' (drop tk al) (cons_thread (cp_cons s)) ->
  copy_inv (with_prod (with_que s b') (PrEnque roff a t')) al tk dn.
Proof.
  intros [E R Pq Cq Tk Dn Pr C Bl Fr Rm In Re] Ep Nt V' R' P' C'. rewrite Ep in *.
  destruct (enq_val_other b' _ _ V') as (Nt' & _ & _).
  rewrite allocated_enq in Rm by done. apply prod_inv_enq in Pr as (-> & Ek & V & Ba); [|done].
  split; cbn [cp_exit cp_que cp_prod cp_cons cp_blocks cp_out cp_alloc cp_in cp_remain with_prod with_que]; try done.
  - by apply prod_inv_enq.
  - by rewrite allocated_enq.
  - intros _. by apply Re.
Qed.

Lemma prod_enque_step s al tk dn roff a t :
  copy_inv s al tk dn -> cp_prod s = PrEnque roff a t -> counting t = false ->
  exists s', producer_thread P s = Next s' /\ prod_done s al tk dn s'.
Proof.
  intros I Ep Nt. pose proof (ci_prod _ _ _ _ I) as Pr. rewrite Ep in Pr. apply prod_inv_enq in Pr as (_ & _ & V & _); [|done].
  destruct (enq_val_other (cp_que s) _ _ V) as (_ & Ni & K0). pose proof (ci_prodq _ _ _ _ I) as Pq. rewrite Ep in Pq. cbn in Pq.
  pose proof (ci_que _ _ _ _ I) as R. pose proof (ci_consq _ _ _ _ I) as Cq.
  destruct (producer_can_step N (cp_que s) _ t R Pq K0) as [[[b' t'] e] Es].
  destruct (producer_step N ltac:(lia) _ _ _ _ _ _ _ R Pq Cq Es) as (q' & F & R' & P' & C' & Rk).
  unfold producer_thread, prod_done. rewrite (prod_rank_enq s _ _ _ Ep Nt), Ep, Es.
  destruct (enque_val_step _ _ _ _ _ _ V Es) as [[-> ->]|[[-> ->]|[-> V']]]; cbn [fifo_opt fifo_step] in F.
  - destruct (_ <? _); [|done]. injection F as <-. eexists. split; [done|]. exists (al ++ [a]).
    split; [by eapply prod_commit_inv|]. intros _. left. rewrite drop_app_le by apply I. by destruct (drop tk al).
  - destruct (Z.eqb_spec (Z.of_nat (length (drop tk al))) (N - 1)) as [Ef|]; [|done]. injection F as <-.
    eexists. split; [done|]. exists al. split; [by eapply prod_inner_inv|]. intros Eq. rewrite Eq in Ef. cbn in Ef. lia.
  - injection F as <-. destruct (enq_val_other b' _ _ V') as (Nt' & Ni' & _). exists (with_prod (with_que s b') (PrEnque roff a t')).
    split; [by destruct t'|]. exists al. split; [by eapply prod_inner_inv|]. intros _. right.
    by erewrite prod_rank_enq.
Qed.

(** The update of [count] changes nothing else. *)
Lemma count_step b t b' t' e :
  counting t = true -> thread_step N b t = Some (b', t', e) -> e = None /\ (counting t' = true \/ t' = PIdle).
Proof. unfold thread_step. destruct t; cbn; try done; intros _ E; repeat case_match; naive_solver. Qed.

Lemma prod_inv_counting m ks al roff a t :
  counting t = true -> prod_inv m ks al (PrEnque roff a t) <-> prod_inv m ks al (PrNext roff a).
Proof. by destruct t. Qed.

Lemma prod_count_step s al tk dn roff a t :
  copy_inv s al tk dn -> cp_prod s = PrEnque roff a t -> counting t = true ->
  exists s', producer_thread P s = Next s' /\ prod_done s al tk dn s'.
Proof.
  intros [E R Pq Cq Tk Dn Pr C Bl Fr Rm In Re] Ep Ct. rewrite Ep in *. cbn [prod_thread] in Pq.
  assert (K0 : (0 < rank (cp_que s) t)%nat) by (destruct t; try done; cbn; [lia|case_match; lia]).
  destruct (producer_can_step N (cp_que s) _ t R Pq K0) as [[[b' t'] e] Es].
  destruct (producer_step N ltac:(lia) _ _ _ _ _ _ _ R Pq Cq Es) as (q' & F & R' & P' & C' & Rk).
  apply prod_inv_counting in Pr; [|done]. cbn in Rm. rewrite Ct in Rm.
  destruct (count_step _ _ _ _ _ Ct Es) as [-> Ct']. injection F as <-. unfold producer_thread, prod_done. rewrite Ep, Es.
  eexists. split; [done|]. exists al. unfold prod_rank at 2. rewrite Ep, Ct. destruct Ct' as [Ct'| ->].
  - assert (Nx : PrEnque roff a t' = match t' with PIdle => PrNext roff a | _ => PrEnque roff a t' end) by (by destruct t').
    rewrite <- Nx. split; [|intros _; right; cbn; rewrite Ct'; lia].
    split; cbn; try done; [by apply prod_inv_counting|by rewrite Ct'|]. intros _. by apply Re.
  - split; [|cbn; right; lia]. split; try done. intros _. by apply Re.
Qed.

Lemma prod_next_step s al tk dn roff a :
  copy_inv s al tk dn -> cp_prod s = PrNext roff a ->
  exists s', producer_thread P s = Next s' /\ prod_done s al tk dn s'.
Proof.
  intros [E R Pq Cq Tk Dn Pr C Bl Fr Rm In Re] Ep. unfold producer_thread, prod_done, prod_rank. rewrite Ep in *. cbn in Pr, Rm, Pq.
  destruct Pr as (-> & Ek & El). rewrite last_lookup in El. pose proof (lookup_lt_Some _ _ _ El) as Hl.
  destruct (Bl _ _ El) as (Na & dat & Ed & _). rewrite Ed. cbn [fb_size].
  replace (Z.of_nat (pred (length al))) with (Z.of_nat (length al) - 1) by lia.
  replace (Z.of_nat (length al) - 1 + 1) with (Z.of_nat (length al)) by lia.
  replace (_ + (_ - _)) with (blk_off (Z.of_nat (length al))) by lia. eexists. split; [done|]. exists al.
  split; [|intros _; right; cbn; by destruct (_ <=? _); cbn; lia].
  split; cbn; try done; destruct (Z.leb_spec (input_file_size P) (blk_off (Z.of_nat (length al)))); cbn; try done;
    intros _; by apply Re.
Qed.

(** The producer goes on, or waits for the consumer when it has read everything. *)
Lemma prod_step s al tk dn :
  copy_inv s al tk dn ->
  (exists s', producer_thread P s = Next s' /\ prod_done s al tk dn s') \/
  producer_thread P s = Blocked /\ input_file_size P <= blk_off (Z.of_nat (length al)).
Proof.
  intros I. destruct (cp_prod s) as [|i|roff|roff a|roff a t|roff a|] eqn:Ep.
  - left. apply prod_start_step; auto.
  - left. apply prod_start_step; eauto.
  - left. by eapply prod_alloc_step.
  - left. by eapply prod_read_step.
  - left. destruct (counting t) eqn:Ct; [by eapply prod_count_step|by eapply prod_enque_step].
  - left. by eapply prod_next_step.
  - right. unfold producer_thread. pose proof (ci_prod _ _ _ _ I) as Pr. rewrite Ep in *. rewrite H1, Hc. by destruct Pr.
Qed.

(** *** The consumer *)

Lemma drop_cons_inv (l : list Z) n x q : drop n l = x :: q -> l !! n = Some x /\ drop (S n) l = q.
Proof.
  intros E. assert (El : l !! n = Some x) by (rewrite <- (Nat.add_0_r n), <- lookup_drop, E; done).
  split; [done|]. rewrite (drop_S _ _ _ El) in E. by injection E.
Qed.

Definition cons_rank (b : lockfree_buffer) (k : consumer) : nat :=
  match k with CnDeque t => 3 + rank b t | CnWrite _ => 3 | CnFree _ => 2 | CnSub => 1 end.

(** Something to write, in the queue or in the consumer's hands. *)
Definition ready (al : list Z) (tk dn : nat) : Prop := drop tk al <> [] \/ tk <> dn.

(** What a step of the consumer [k] leaves. *)
Definition cons_done (b : lockfree_buffer) (k : consumer) (al : list Z) (tk dn : nat) (s' : fcopy) : Prop :=
  cp_exit s' = Some 0 /\ out_ok (cp_out s') K \/
  exists k' tk' dn', cp_cons s' = [k'] /\ copy_inv s' al tk' dn' /\
    (ready al tk dn -> dn' = S dn \/ dn' = dn /\ ready al tk' dn /\ (cons_rank (cp_que s') k' < cons_rank b k)%nat).

Lemma prod_inv_cons m k k' al p : prod_inv m [k] al p -> prod_inv m [k'] al p.
Proof. destruct p as [|i| | |? ? []| |]; cbn; naive_solver. Qed.

(** A step of the consumer changes the queue, the output and its own state. *)
Lemma cons_set_inv s k al tk dn b' d' k' tk' :
  copy_inv s al tk dn -> cp_cons s = [k] -> (tk' <= length al)%nat -> ring_holds N b' (drop tk' al) ->
  producer_ok N b' (Z.of_nat (length (drop tk' al))) (prod_thread (cp_prod s)) ->
  consumer_ok b' (drop tk' al) (cons_thread [k']) -> cons_inv [k'] d' al tk' dn ->
  copy_inv (with_cons (with_out (with_que s b') d') [k']) al tk' dn.
Proof.
  intros [E R Pq Cq Tk Dn Pr C Bl Fr Rm In Re] Ek Tk' R' P' C' Ci. rewrite Ek in Pr.
  split; cbn; try done. by eapply prod_inv_cons.
Qed.

Lemma cons_deque_step s al tk dn t :
  copy_inv s al tk dn -> cp_cons s = [CnDeque t] ->
  exists s', consumer_thread P s 0 = Next s' /\ cons_done (cp_que s) (CnDeque t) al tk dn s'.
Proof.
  intros I Ek. pose proof (ci_que _ _ _ _ I) as R. pose proof (ci_prodq _ _ _ _ I) as Pq.
  pose proof (ci_consq _ _ _ _ I) as Cq. pose proof (ci_cons _ _ _ _ I) as C. rewrite Ek in Cq, C. cbn [cons_thread] in Cq.
  assert (K0 : (0 < rank (cp_que s) t)%nat) by (destruct t; cbn in *; repeat case_match; (done || naive_solver lia)).
  destruct (consumer_can_step N (cp_que s) _ t R Cq K0) as [[[b' t'] e] Es].
  destruct (consumer_step N ltac:(lia) _ _ _ _ _ _ _ R Pq Cq Es) as (q' & F & R' & P' & C' & Rk).
  unfold consumer_thread. rewrite Ek. cbn [lookup list_lookup list_insert insert]. rewrite Es.
  eexists. split; [done|]. right. cbn [list_insert insert].
  assert (Set_ : forall k' tk', (tk' <= length al)%nat -> drop tk' al = q' -> consumer_ok b' q' (cons_thread [k']) ->
            cons_inv [k'] (cp_out s) al tk' dn -> copy_inv (with_cons (with_que s b') [k']) al tk' dn).
  { intros k' tk' Hl <- Hk Hi. exact (cons_set_inv s _ al tk dn b' (cp_out s) k' tk' I Ek Hl R' P' Hk Hi). }
  pose proof (ci_tk _ _ _ _ I) as Tk.
  destruct t; cbn in Cq, K0, C; try (done || lia); unfold thread_step in Es; cbn in Es.
  - injection Es as <- <- <-. injection F as <-. eexists _, tk, dn. split; [done|].
    split; [by apply Set_; cbn; (done || naive_solver lia)|]. intros Rd. right. split_and!; (done || cbn; lia).
  - destruct (Z.eqb_spec read_pos (lfb_max_read_pos (cp_que s))); injection Es as <- <- <-; cbn in F.
    + destruct (drop tk al) eqn:Eq; [|done]. injection F as <-. eexists _, tk, dn. split; [done|].
      split; [by apply Set_; cbn; (done || naive_solver lia)|]. intros [Rd|Rd]; [done|lia].
    + injection F as <-. eexists _, tk, dn. split; [done|].
      split; [by apply Set_; cbn; (done || naive_solver lia)|]. intros Rd. right. split_and!; (done || cbn; lia).
  - destruct (lfb_buf (cp_que s) !! Z.to_nat read_pos) as [v|]; [|done]. cbn in Es. injection Es as <- <- <-. injection F as <-.
    eexists _, tk, dn. split; [done|].
    split; [by apply Set_; cbn; (done || naive_solver lia)|]. intros Rd. right. split_and!; (done || cbn; lia).
  - destruct Cq as [-> Eh]. rewrite Z.eqb_refl in Es. injection Es as <- <- <-. cbn in F.
    destruct (drop tk al) as [|x q] eqn:Eq; [done|]. injection Eh as ->. rewrite Z.eqb_refl in F. injection F as <-.
    destruct C as (-> & _ & C). apply drop_cons_inv in Eq as (El & Eq). pose proof (lookup_lt_Some _ _ _ El).
    eexists _, (S dn), dn. split; [done|].
    split; [by apply Set_; cbn; (done || lia || split_and!)|]. intros Rd. right. split_and!; (done || cbn; lia || right; lia).
  - injection Es as <- <- <-. injection F as <-. eexists _, tk, dn. split; [done|].
    split; [by apply Set_; cbn; (done || naive_solver lia)|]. intros Rd. right. split_and!; (done || cbn in *; lia).
  - destruct (Z.eqb_spec (lfb_count (cp_que s)) old); injection Es as <- <- <-; injection F as <-; eexists _, tk, dn; (split; [done|]).
    + split; [by apply Set_; cbn; (done || naive_solver lia)|]. intros Rd. right. split_and!; (done || cbn in *; lia).
    + split; [by apply Set_; cbn; (done || naive_solver lia)|]. intros Rd. right. split_and!; (done || cbn in *; lia).
Qed.

(** Writing block [j] behind the blocks before it. *)
Lemma out_write d j dat :
  0 <= j -> out_ok d j ->
  (forall x, 0 <= x < blk_off (j + 1) - blk_off j -> dat x = d_bytes input (blk_off j + x) mod 256) ->
  exists d', pwrite d dat (blk_off (j + 1) - blk_off j) (blk_off j) = (blk_off (j + 1) - blk_off j, d') /\ out_ok d' (j + 1).
Proof.
  intros Hj (Oi & Ol & Ob) Hd. pose proof (blk_off_step j Hj) as Bo. unfold pwrite, io_limit. rewrite Oi. zdec.
  eexists. split; [done|]. split; [done|]. cbn. split; [zcase; lia|]. intros x Hx.
  destruct (Z.lt_ge_cases x (blk_off j)).
  - rewrite copy_outside by lia. apply Ob. lia.
  - rewrite copy_inside by lia. rewrite Hd by lia. rewrite Z.mod_mod by lia. do 2 f_equal. lia.
Qed.

Lemma cons_write_step s al tk dn a :
  copy_inv s al tk dn -> cp_cons s = [CnWrite a] ->
  exists s', consumer_thread P s 0 = Next s' /\ cons_done (cp_que s) (CnWrite a) al tk dn s'.
Proof.
  intros I Ek. pose proof (ci_cons _ _ _ _ I) as C. rewrite Ek in C. destruct C as (-> & Ea & Oo).
  destruct (ci_blocks _ _ _ _ I _ _ Ea) as (Na & dat & Ed & Hd). pose proof (blk_off_step (Z.of_nat dn) ltac:(lia)) as Bo.
  destruct (out_write _ (Z.of_nat dn) dat ltac:(lia) Oo Hd) as (d' & Ew & Oo').
  unfold consumer_thread. rewrite Ek. cbn [lookup list_lookup]. rewrite Ed. cbn [fb_size fb_data fb_off].
  unfold sizeof_fcp_block, offsetof_data. zdec. rewrite Ew. zdec. eexists. split; [done|]. right.
  exists (CnFree a), (S dn), dn. split; [done|]. split; [|intros Rd; right; split_and!; (done || cbn; lia)].
  exact (cons_set_inv s _ al (S dn) dn (cp_que s) d' (CnFree a) (S dn) I Ek (ci_tk _ _ _ _ I) (ci_que _ _ _ _ I)
           (ci_prodq _ _ _ _ I) Logic.I (conj eq_refl (conj Na Oo'))).
Qed.

Lemma cons_free_step s al tk dn a :
  copy_inv s al tk dn -> cp_cons s = [CnFree a] ->
  exists s', consumer_thread P s 0 = Next s' /\ cons_done (cp_que s) (CnFree a) al tk dn s'.
Proof.
  intros I Ek. pose proof (ci_cons _ _ _ _ I) as C. rewrite Ek in C. destruct C as (-> & Na & Oo).
  unfold consumer_thread. rewrite Ek. cbn [lookup list_lookup]. unfold LOCKFREEQUE_MEM_FREE. zdec. eexists. split; [done|]. right.
  exists CnSub, (S dn), dn. split; [done|]. split; [|intros Rd; right; split_and!; (done || cbn; lia)].
  exact (cons_set_inv s _ al (S dn) dn (cp_que s) (cp_out s) CnSub (S dn) I Ek (ci_tk _ _ _ _ I) (ci_que _ _ _ _ I)
           (ci_prodq _ _ _ _ I) Logic.I (conj eq_refl Oo)).
Qed.

Lemma cons_sub_step s al tk dn :
  copy_inv s al tk dn -> cp_cons s = [CnSub] ->
  exists s', consumer_thread P s 0 = Next s' /\ cons_done (cp_que s) CnSub al tk dn s'.
Proof.
  intros [E R Pq Cq Tk Dn Pr C Bl Fr Rm In Re] Ek. rewrite Ek in *. destruct C as (-> & Oo).
  assert (Np : cp_prod s <> PrSet) by (intros Ep; rewrite Ep in Pr; by destruct Pr).
  unfold consumer_thread. rewrite Ek. cbn [lookup list_lookup]. unfold atomic_sub. rewrite (Re Np), i32_small by lia.
  destruct (Z.eqb_spec (K - Z.of_nat dn - 1) 0) as [E0|E0]; eexists; (split; [done|]); [left|right].
  - split; [done|]. cbn. by replace K with (Z.of_nat dn + 1) by lia.
  - exists (CnDeque CReadR), (S dn), (S dn). split; [cbn; by rewrite Ek|]. split; [|intros _; by left].
    split; cbn; rewrite ?Ek; try done; [lia|by eapply prod_inv_cons| |].
    + split_and!; [done|cbn; lia|]. by replace (Z.of_nat (S dn)) with (Z.of_nat dn + 1) by lia.
    + intros _. lia.
Qed.

Lemma cons_step s al tk dn k :
  copy_inv s al tk dn -> cp_cons s = [k] ->
  exists s', consumer_thread P s 0 = Next s' /\ cons_done (cp_que s) k al tk dn s'.
Proof.
  intros I Ek. destruct k.
  - by apply cons_deque_step.
  - by apply cons_write_step.
  - by apply cons_free_step.
  - by apply cons_sub_step.
Qed.

Lemma copy_inv_cons s al tk dn : copy_inv s al tk dn -> cp_cons s = [] \/ exists k, cp_cons s = [k].
Proof.
  intros I. pose proof (ci_cons _ _ _ _ I) as C. destruct (cp_cons s) as [|k [|k' l]]; [by left|by right; exists k|].
  by destruct k as [[]| | |].
Qed.

(** ** Every interleaving *)

Definition copy_good (s : fcopy) : Prop :=
  cp_exit s = Some 0 /\ out_ok (cp_out s) K \/ exists al tk dn, copy_inv s al tk dn.

Lemma copy_good_thread s i :
  copy_good s -> copy_thread P s i <> Undefined /\ forall s', copy_thread P s i = Next s' -> copy_good s'.
Proof.
  intros [[E _]|(al & tk & dn & I)]; unfold copy_thread; [by rewrite E|]. rewrite (ci_exit _ _ _ _ I).
  destruct i as [|i].
  - destruct (prod_step _ _ _ _ I) as [(s1 & -> & al' & I' & _)|[-> _]]; [|done]. split; [done|].
    intros s' [= <-]. right. eauto.
  - destruct (copy_inv_cons _ _ _ _ I) as [Ek|[k Ek]]; [unfold consumer_thread; by rewrite Ek|].
    destruct i as [|i]; [|unfold consumer_thread; by rewrite Ek].
    destruct (cons_step _ _ _ _ _ I Ek) as (s1 & -> & [G|(k' & tk' & dn' & _ & I' & _)]); split; try done;
      intros s' [= <-]; [by left|right; eauto].
Qed.

Lemma copy_good_reachable s s' : copy_good s -> rtc (copy_step P) s s' -> copy_good s'.
Proof.
  intros G H. revert G. induction H as [|x y z [i S] _ IH]; [done|]. intros G. apply IH.
  by apply (copy_good_thread x i).
Qed.

(** ** The end can be reached *)

Lemma ready_cons s al tk dn : copy_inv s al tk dn -> ready al tk dn -> exists k, cp_cons s = [k].
Proof.
  intros I Rd. destruct (copy_inv_cons _ _ _ _ I) as [Ek|]; [|done]. pose proof (ci_cons _ _ _ _ I) as C.
  pose proof (ci_prod _ _ _ _ I) as Pr. rewrite Ek in C, Pr. destruct C as (-> & -> & _).
  destruct Rd as [Rd|]; [|done]. exfalso. apply Rd. destruct (cp_prod s) as [|i| | |? ? []| |]; cbn in Pr; naive_solver.
Qed.

(** With something to write the consumer finishes one more block. *)
Lemma ready_advance n s al tk dn k :
  (cons_rank (cp_que s) k < n)%nat -> copy_inv s al tk dn -> cp_cons s = [k] -> ready al tk dn ->
  exists s', rtc (copy_step P) s s' /\ (cp_exit s' = Some 0 \/ exists tk', copy_inv s' al tk' (S dn)).
Proof.
  revert s tk k. induction n as [|n IH]; intros s tk k Hn I Ek Rd; [lia|].
  destruct (cons_step _ _ _ _ _ I Ek) as (s1 & E1 & D).
  assert (S1 : copy_step P s s1) by (exists 1%nat; unfold copy_thread; by rewrite (ci_exit _ _ _ _ I)).
  destruct D as [[Ex _]|(k' & tk' & dn' & Ek' & I' & Pg)]; [exists s1; split; [by apply rtc_once|by left]|].
  destruct (Pg Rd) as [->|(-> & Rd' & Rk)]; [exists s1; split; [by apply rtc_once|right; eauto]|].
  destruct (IH s1 tk' k') as (s2 & S2 & F); [lia|done..|]. exists s2. split; [by eapply rtc_l|done].
Qed.

(** Without, the producer puts a block in the queue: it waits only when every block is
    in the queue or written. *)
Lemma reach_ready n s al tk dn :
  (prod_rank s < n)%nat -> copy_inv s al tk dn ->
  exists s' al', rtc (copy_step P) s s' /\ copy_inv s' al' tk dn /\ ready al' tk dn.
Proof.
  revert s al. induction n as [|n IH]; intros s al Hn I; [lia|].
  destruct (decide (drop tk al = [])) as [Eq|Nq]; [|exists s, al; split; [done|split; [done|by left]]].
  destruct (decide (tk = dn)) as [->|Nt]; [|exists s, al; split; [done|split; [done|by right]]].
  destruct (prod_step _ _ _ _ I) as [(s1 & E1 & al' & I' & Pg)|[_ Hj]].
  - assert (S1 : copy_step P s s1) by (exists 0%nat; unfold copy_thread; by rewrite (ci_exit _ _ _ _ I)).
    destruct (Pg Eq) as [Nq|Rk]; [exists s1, al'; split; [by apply rtc_once|split; [done|by left]]|].
    destruct (IH s1 al') as (s2 & al2 & S2 & F); [lia|done|]. exists s2, al2. split; [by eapply rtc_l|done].
  - exfalso. pose proof (ci_tk _ _ _ _ I). pose proof (ci_dn _ _ _ _ I) as Dn.
    assert (length al = dn) as El by (apply (f_equal length) in Eq; rewrite length_drop in Eq; cbn in Eq; lia).
    rewrite El in Hj. unfold blk_off in Hj. assert (input_file_size P <= Z.of_nat dn * B) as Hk%K_bounds by lia. lia.
Qed.

Lemma copy_finish m s al tk dn :
  (Z.to_nat K < dn + m)%nat -> copy_inv s al tk dn -> exists s', rtc (copy_step P) s s' /\ cp_exit s' = Some 0.
Proof.
  revert s al tk dn. induction m as [|m IH]; intros s al tk dn Hm I; [pose proof (ci_dn _ _ _ _ I); lia|].
  destruct (reach_ready _ s al tk dn (Nat.lt_succ_diag_r _) I) as (s1 & al1 & S1 & I1 & Rd).
  destruct (ready_cons _ _ _ _ I1 Rd) as [k Ek].
  destruct (ready_advance _ s1 al1 tk dn k (Nat.lt_succ_diag_r _) I1 Ek Rd) as (s2 & S2 & [Ex|[tk2 I2]]).
  - exists s2. split; [by etrans|done].
  - destruct (IH s2 al1 tk2 (S dn)) as (s3 & S3 & F); [lia|done|]. exists s3. split; [|done]. by do 2 (etrans; [done|]).
Qed.

Lemma copy_good_finish s : copy_good s -> exists s', rtc (copy_step P) s s' /\ cp_exit s' = Some 0.
Proof.
  intros [[E _]|(al & tk & dn & I)]; [by exists s|]. apply (copy_finish (S (Z.to_nat K)) _ al tk dn); [lia|done].
Qed.
End Single.

(** ** The program *)

Lemma que_create_room a n g k :
  room a (64 + sizeof_lockfree_obj * n + k) -> 0 <= n -> 0 <= k ->
  exists a', lockfree_que_create a n g = (Some (Lfb 0 0 (lfb_max_read_pos g) (lfb_count g) (lfb_buf g)), a') /\ room a' k.
Proof.
  intros R Hn Hk. unfold lockfree_que_create, sizeof_lockfree_que, sizeof_lockfree_buf, sizeof_lockfree_obj in *.
  destruct (room_malloc a 16 (32 + 8 * n + k)) as (a1 & -> & R1 & _ & P0); [|lia..|].
  { by replace (16 + 16 + (32 + 8 * n + k)) with (64 + 8 * n + k) by lia. }
  destruct (room_malloc a1 (16 + 8 * n) k) as (a2 & -> & R2 & _ & P1); [|lia..|].
  { by replace (16 + (16 + 8 * n) + k) with (32 + 8 * n + k) by lia. }
  unfold NULL. zdec. by exists a2.
Qed.

(** What [main] hands to the producer satisfies the invariant. *)
Lemma copy_start P input q a :
  2 <= lfq_max_obj_count P -> 0 < file_copy_block_size P -> 0 < input_file_size P ->
  lfb_max_read_pos q = 0 -> lfb_write_pos q = 0 -> lfb_read_pos q = 0 ->
  Z.of_nat (length (lfb_buf q)) = lfq_max_obj_count P -> 0 <= d_len input ->
  room a ((blocks_count P + lfq_max_obj_count P) * (file_copy_block_size P + 32)) ->
  copy_good P input (Fcopy q a ∅ input (Disk 0 (fun _ => 0) []) 0 PrSet [] None).
Proof.
  intros HN HB HS Em Ew Er El HL R. right. exists [], 0%nat, 0%nat.
  split; cbn; try done; try congruence.
  - split; cbn; rewrite ?Em, ?Er; (done || lia).
  - pose proof (Z.div_str_pos (input_file_size P + file_copy_block_size P - 1) (file_copy_block_size P)).
    unfold blocks_count. lia.
  - split_and!; [done|done|]. unfold out_ok, blk_off. cbn. split_and!; [done|lia|]. intros x Hx. lia.
  - by rewrite Z.sub_0_r.
Qed.

(** The memory the program needs: the two queues and one block of memory for every
    block of the file and every place of the queue, since none is freed. *)
Definition copy_memory : Z := 2 * (64 + 8 * 128) + (262144 + 128) * (4096 + 32).

(** C14: The copy program with one consumer, where the transfers are complete, memory is
    there for all blocks and the memory of the queue has 0 at [lfb_max_read_pos].  In
    every interleaving: no thread does anything undefined; when the process ends its
    status is 0 and the output is the first GiB of the input (all of it when it is
    shorter); and from every state the end can be reached. *)
Theorem file_copy_correct a c2p p2c input hp cr :
  room a copy_memory -> lfb_max_read_pos p2c = 0 -> length (lfb_buf p2c) = 128%nat ->
  d_io input = [] -> 0 <= d_len input < 2 ^ 63 -> cr 0 = true ->
  exists P s0, copy_main 4 1 a c2p p2c (Some input) (Some []) hp cr = inr (P, s0) /\
    forall s, rtc (copy_step P) s0 s ->
      (forall i, copy_thread P s i <> Undefined) /\
      (forall c, cp_exit s = Some c ->
         c = 0 /\ d_len (cp_out s) = Z.min 1073741824 (d_len input) /\
         forall x, 0 <= x < Z.min 1073741824 (d_len input) -> d_bytes (cp_out s) x = d_bytes input x mod 256) /\
      exists s', rtc (copy_step P) s s' /\ cp_exit s' = Some 0.
Proof.
  intros R Em El Io HL Hc.
  destruct (que_create_room a 128 c2p (64 + 8 * 128 + (262144 + 128) * (4096 + 32)) R) as (a1 & E1 & R1); [lia..|].
  destruct (que_create_room a1 128 p2c ((262144 + 128) * (4096 + 32)) R1) as (a2 & E2 & R2); [lia..|].
  unfold copy_main, LOCKFREE_DEFAULT_MAX_QUEOBJ_COUNT. cbn [Z.eqb Pos.eqb negb]. rewrite E1, E2. eexists _, _. split; [done|].
  set (P := Params _ _ _ _ _ _). set (s0 := Fcopy _ _ _ _ _ _ _ _ _).
  assert (EK : blocks_count P = 262144) by done.
  assert (G : copy_good P input s0).
  { apply copy_start; cbn; try done; [by rewrite El|lia]. }
  intros s H. apply (copy_good_reachable P input) with (s' := s) in G; cbn; try (done || lia).
  split_and!.
  - intros i. by apply (copy_good_thread P input); cbn; try (done || lia).
  - intros c Ec. destruct G as [[Ex (_ & Ol & Ob)]|(al & tk & dn & I)]; [|by rewrite (ci_exit _ _ _ _ _ _ I) in Ec].
    rewrite Ex in Ec. injection Ec as <-. unfold blk_off in *. rewrite EK in *. cbn in Ol, Ob. by split_and!.
  - by apply (copy_good_finish P input); cbn; try (done || lia).
Qed.

Definition text_disk : disk := Disk 5000 (fun x => (x * 7 + 3) mod 256) [].

Lemma file_copy_correct_witness :
  exists P s0 s, copy_main 4 1 (Alloc 65536 []) ring2 (Lfb 9 9 0 9 (replicate 128 5)) (Some text_disk) (Some [])
      (fun _ _ => 204) (fun _ => true) = inr (P, s0) /\
    rtc (copy_step P) s0 s /\ cp_exit s = Some 0 /\ d_len (cp_out s) = 5000 /\ d_bytes (cp_out s) 4321 = 42.
Proof.
  destruct (file_copy_correct (Alloc 65536 []) ring2 (Lfb 9 9 0 9 (replicate 128 5)) text_disk (fun _ _ => 204)
              (fun _ => true)) as (P & s0 & E & H); [by split; [|vm_compute]|done|done|done|done|done|].
  destruct (H s0 ltac:(constructor)) as (_ & _ & s & S & Ex). exists P, s0, s. split; [done|]. split; [done|]. split; [done|].
  destruct (H s S) as (_ & F & _). destruct (F 0 Ex) as (_ & Fl & Fb). split; [done|]. rewrite Fb; [done|].
  split; vm_compute; done.
Defined.

(** ** What the program does otherwise *)

(** Three blocks of one byte through a queue of two places; the numbers are those of
    the threads, the first four steps of the producer start [n] consumers. *)
Definition small_copy (n : Z) (b : Z) (io : list (option Z)) : params * fcopy :=
  (Params n b (3 * b) 2 (fun _ _ => 0) (fun _ => true),
   Fcopy (Lfb 0 0 0 0 [0; 0]) (Alloc 4096 []) ∅ (Disk (3 * b) (fun x => x + 10) io) (Disk 0 (fun _ => 0) []) 0 PrSet [] None).
Definition file_of (s : fcopy) : option Z * list Z :=
  (cp_exit s, map (d_bytes (cp_out s)) (seqZ 0 (d_len (cp_out s)))).

(** Two consumers: the first one reads the address of block 0 and is preempted until
    the read position is back at its place; it takes block 0 a second time, and the
    process ends with status 0 without the last block. *)
Lemma file_copy_two_consumers :
  let '(P, s) := small_copy 2 1 [] in
  file_of <$> copy_run P s (replicate 14 0 ++ replicate 3 1 ++ replicate 9 2 ++ replicate 10 0 ++ replicate 9 2 ++
                            replicate 10 0 ++ replicate 6 1)%nat = Some (Some 0, [10; 11]).
Proof. vm_compute. reflexivity. Qed.

(** One consumer and a read that returns fewer bytes than asked: the blocks are counted
    as if they were full, the process ends with status 0 and the last byte is missing. *)
Lemma file_copy_short_read :
  let '(P, s) := small_copy 1 2 [Some 1] in
  file_of <$> copy_run P s (replicate 13 0 ++ replicate 9 1 ++ replicate 10 0 ++ replicate 9 1 ++ replicate 10 0 ++
                            replicate 9 1)%nat = Some (Some 0, [10; 11; 12; 13; 14]).
Proof. vm_compute. reflexivity. Qed.

(** A read that fails is not noticed: the size of the block, an [uint32_t], is
    4294967295, and the consumer writes that many bytes from the block. *)
Lemma file_copy_read_error :
  let '(P, s) := small_copy 1 2 [None] in
  match copy_run P s (replicate 13 0 ++ replicate 6 1)%nat with
  | Some s => map fb_size (map_to_list (cp_blocks s)).*2 = [4294967295] /\ copy_thread P s 1 = Undefined
  | None => False
  end.
Proof. vm_compute. split; reflexivity. Qed.
