(* ===== verification/SlabPool.v ===== *)
(** * SlabPool: the slab allocator of mempool/mempool.c

    The control block is a record and the memory of the pool a range of addresses with
    their bytes: a free block holds in its first eight bytes the address of the next
    free block of its size, which the client overwrites once it owns the block.  An
    access outside this memory or to [slabs] outside the [slab_count] places allocated
    for it, a shift by 64 and a null pointer dereference have no result. *)
From S2P Require Import Prelude Bits KList.
From stdpp Require Import list relations.
Local Open Scope Z_scope.

Definition MEMPOOL_CTRL_MAGIC : Z := 0x12345678.

(** The operations in [ops]: the defaults, or the ones of the caller. *)
Inductive mempool_ops := DefaultOps | CallerOps (palloc pfree : Z).

Record mempool_ctrl := Ctrl {
  ops : mempool_ops;
  magic : Z;
  svaddr : Z;
  totalsize : Z;
  rvaddr : Z;
  remainsize : Z;
  hook : list_head;
  slab_count : Z;
  slabs : list Z }.

Definition sizeof_mempool_ctrl : Z := 80.
Definition off_hook : Z := 56.

Definition set_remain (h : mempool_ctrl) x :=
  Ctrl (ops h) (magic h) (svaddr h) (totalsize h) (rvaddr h) x (hook h) (slab_count h) (slabs h).
Definition set_rvaddr (h : mempool_ctrl) x :=
  Ctrl (ops h) (magic h) (svaddr h) (totalsize h) x (remainsize h) (hook h) (slab_count h) (slabs h).
Definition set_slab (h : mempool_ctrl) (slot x : Z) :=
  Ctrl (ops h) (magic h) (svaddr h) (totalsize h) (rvaddr h) (remainsize h) (hook h) (slab_count h)
    (<[Z.to_nat slot := x]> (slabs h)).

(** [1ull << slot]. *)
Definition shift1 (slot : Z) : option Z := if slot <? 64 then Some (Z.shiftl 1 slot) else None.

(** The memory that can be accessed, and its bytes. *)
Record mem := Mem { m_lo : Z; m_hi : Z; m_get : content }.
Definition can_access (m : mem) (p : Z) : bool := (m_lo m <=? p) && (p + 8 <=? m_hi m).
Definition load (m : mem) (p : Z) : option Z := if can_access m p then Some (le_read 8 (m_get m) p) else None.
Definition store (m : mem) (p v : Z) : option mem :=
  if can_access m p then Some (Mem (m_lo m) (m_hi m) (le_write 8 (m_get m) p v)) else None.

Definition mempool_ctrl_alloc_default (ctrl : option mempool_ctrl) (m : mem) (size : Z)
    : option (Z * option mempool_ctrl) :=
  match ctrl with
  | None => Some (u64 (0 - 1), None)
  | Some handler =>
      if size =? 0 then Some (NULL, ctrl)
      else
        let slot := get_real_size_bits size in
        real_size ← shift1 slot;
        let slot := slot - MEMPOOL_MIN_SLAB_BITS in
        if (remainsize handler <? real_size) || (slab_count handler <? slot) then Some (NULL, ctrl)
        else
          let handler := set_remain handler (remainsize handler - real_size) in
          head ← slabs handler !! Z.to_nat slot;
          if negb (head =? NULL) then next ← load m head; Some (head, Some (set_slab handler slot next))
          else Some (rvaddr handler, Some (set_rvaddr handler (u64 (rvaddr handler + real_size))))
  end.

Definition mempool_ctrl_free_default (ctrl : option mempool_ctrl) (m : mem) (ptr size : Z)
    : option (mem * option mempool_ctrl) :=
  match ctrl with
  | None => Some (m, ctrl)
  | Some handler =>
      if size =? 0 then Some (m, ctrl)
      else if (ptr <? svaddr handler) || (u64 (rvaddr handler + totalsize handler) <? ptr) then Some (m, ctrl)
      else
        let slot := get_real_size_bits size in
        real_size ← shift1 slot;
        let slot := slot - MEMPOOL_MIN_SLAB_BITS in
        head ← slabs handler !! Z.to_nat slot;
        m ← store m ptr head;
        let handler := set_slab handler slot ptr in
        Some (m, Some (set_remain handler (u64 (remainsize handler + real_size))))
  end.

(** The memory is cleared before the result of malloc is tested. *)
Definition mempool_ctrl_init (a : alloc) (vaddr size slabs_count palloc pfree : Z) : option (Z * mempool_ctrl * alloc) :=
  let '(mpctrl, a) := malloc a (u64 (sizeof_mempool_ctrl + slabs_count * 8)) in
  if mpctrl =? NULL then None
  else
    let ops := if (pfree =? NULL) || (palloc =? NULL) then DefaultOps else CallerOps palloc pfree in
    let hook := LCell (mpctrl + off_hook) (mpctrl + off_hook) in
    Some (mpctrl, Ctrl ops MEMPOOL_CTRL_MAGIC vaddr size vaddr size hook slabs_count
                    (replicate (Z.to_nat slabs_count) NULL), a).

Definition mempool_ctrl_destroy (ctrl : option mempool_ctrl) : option mempool_ctrl := None.

(** ** Blocks *)

(** A block: its address and the index of its slab. *)
Abbreviation block := (Z * Z)%type.
Definition bsize (k : Z) : Z := 2 ^ (k + 3).
Definition class_of (size : Z) : Z := get_real_size_bits size - MEMPOOL_MIN_SLAB_BITS.

Fixpoint bytes (l : list block) : Z := match l with [] => 0 | b :: l => bsize (snd b) + bytes l end.

(** The free blocks of one size, in the order of the list. *)
Definition class_blocks (k : Z) (l : list block) : list block := filter (fun b => snd b = k) l.
Definition chain_of (k : Z) (l : list block) : list Z := (class_blocks k l).*1.

(** The list of free blocks from [p] on, through the first eight bytes of each. *)
Fixpoint fchain (m : content) (p : Z) (l : list Z) : Prop :=
  match l with
  | [] => p = NULL
  | a :: l => p = a /\ a <> NULL /\ fchain m (le_read 8 m a) l
  end.

(** The blocks [l] lie one behind the other from [s] to [e]. *)
Fixpoint tiles (s : Z) (l : list block) (e : Z) : Prop :=
  match l with
  | [] => s = e
  | b :: l => fst b = s /\ 0 <= snd b /\ tiles (s + bsize (snd b)) l e
  end.

Definition apart (b c : block) : Prop := fst b + bsize (snd b) <= fst c \/ fst c + bsize (snd c) <= fst b.

Lemma bsize_pos k : 0 <= k -> 8 <= bsize k.
Proof. intros H. unfold bsize. rewrite Z.pow_add_r by lia. change (2 ^ 3) with 8. pose proof (Z.pow_pos_nonneg 2 k). lia. Qed.

Lemma class_of_spec size :
  0 < size <= 9223372036854775808 ->
  0 <= class_of size <= 60 /\ size <= bsize (class_of size) /\
  shift1 (get_real_size_bits size) = Some (bsize (class_of size)).
Proof.
  intros H. destruct (get_real_size_bits_spec size H) as (H1 & H2 & _).
  unfold class_of, bsize, shift1, MEMPOOL_MIN_SLAB_BITS. replace (get_real_size_bits size - 3 + 3) with (get_real_size_bits size) by lia.
  rewrite (proj2 (Z.ltb_lt _ _)) by lia. rewrite Z.shiftl_1_l. split_and!; (done || lia).
Qed.

#[export] Instance bytes_perm : Proper ((≡ₚ) ==> eq) bytes.
Proof. intros l l'. induction 1; simpl; lia. Qed.

Lemma bytes_app l l' : bytes (l ++ l') = bytes l + bytes l'.
Proof. induction l as [|b l IH]; simpl; lia. Qed.

Lemma bytes_nonneg l : (forall b, b ∈ l -> 0 <= snd b) -> 0 <= bytes l.
Proof.
  induction l as [|b l IH]; simpl; [lia|]. intros H.
  pose proof (bsize_pos (snd b) (H b (list_elem_of_here _ _))).
  assert (0 <= bytes l) by (apply IH; intros; apply H; by right). lia.
Qed.

Lemma class_blocks_perm k l l' : l ≡ₚ l' -> class_blocks k l ≡ₚ class_blocks k l'.
Proof. intros E. unfold class_blocks. by rewrite E. Qed.

Lemma class_blocks_cons k b l :
  class_blocks k (b :: l) = if decide (snd b = k) then b :: class_blocks k l else class_blocks k l.
Proof. unfold class_blocks. by rewrite filter_cons. Qed.

(** All blocks together, when the blocks of each of the sizes [ks] fit into [T] bytes. *)
Lemma bytes_classes (ks : list Z) T l :
  (forall b, b ∈ l -> snd b ∈ ks /\ 0 <= snd b) -> (forall k, bytes (class_blocks k l) <= T) ->
  bytes l <= Z.of_nat (length ks) * T.
Proof.
  revert l. induction ks as [|n ks IH]; intros l Hl Hc.
  { destruct l as [|b l]; [simpl; lia|]. destruct (Hl b (list_elem_of_here _ _)) as [H _]. by apply not_elem_of_nil in H. }
  set (r := filter (fun b : block => snd b <> n) l).
  assert (E : l ≡ₚ class_blocks n l ++ r).
  { subst r. unfold class_blocks. clear. induction l as [|b l IH]; [done|]. rewrite !filter_cons.
    destruct (decide (snd b = n)), (decide (snd b <> n)); try done; simpl; [by rewrite <- IH|].
    rewrite <- Permutation_middle. by rewrite <- IH. }
  rewrite E, bytes_app. pose proof (Hc n).
  assert (bytes r <= Z.of_nat (length ks) * T); [|cbn [length]; lia]. apply IH.
  - intros b Hb. apply list_elem_of_filter in Hb as [Nb Hb]. destruct (Hl b Hb) as [Hk Hp].
    apply elem_of_cons in Hk as [Ek|Hk]; [by destruct Nb|by split].
  - intros k. specialize (Hc k). rewrite (class_blocks_perm k _ _ E) in Hc. unfold class_blocks in *.
    rewrite filter_app, bytes_app in Hc.
    assert (0 <= bytes (filter (fun b : block => snd b = k) (filter (fun b : block => snd b = n) l))); [|lia].
    apply bytes_nonneg. intros b Hb. apply list_elem_of_filter in Hb as [_ Hb].
    apply list_elem_of_filter in Hb as [_ Hb]. apply Hl in Hb. lia.
Qed.

Lemma tiles_bytes s l e : tiles s l e -> e = s + bytes l.
Proof.
  revert s. induction l as [|b l IH]; simpl; intros s H; [lia|]. destruct H as (E & K & H). apply IH in H. lia.
Qed.

Lemma tiles_snoc s l e k : tiles s l e -> 0 <= k -> tiles s (l ++ [(e, k)]) (e + bsize k).
Proof.
  revert s. induction l as [|b l IH]; simpl; intros s H K; [by subst|].
  destruct H as (E & Kb & H). split_and!; try done. by apply IH.
Qed.

Lemma tiles_classes s l e b : tiles s l e -> b ∈ l -> 0 <= snd b.
Proof.
  revert s. induction l as [|c l IH]; intros s H Hb; [by apply not_elem_of_nil in Hb|].
  destruct H as (E & K & H). apply elem_of_cons in Hb as [->|Hb]; [done|]. by eapply IH.
Qed.

Lemma tiles_le s l e : tiles s l e -> s <= e.
Proof. intros H. rewrite (tiles_bytes _ _ _ H). pose proof (bytes_nonneg l (fun b => tiles_classes _ _ _ b H)). lia. Qed.

Lemma tiles_bounds s l e b : tiles s l e -> b ∈ l -> s <= fst b /\ fst b + bsize (snd b) <= e.
Proof.
  revert s. induction l as [|c l IH]; intros s H Hb; [by apply not_elem_of_nil in Hb|].
  destruct H as (E & K & H). pose proof (bsize_pos _ K). pose proof (tiles_le _ _ _ H).
  apply elem_of_cons in Hb as [->|Hb]; [lia|]. destruct (IH _ H Hb). lia.
Qed.

(** Of the blocks that tile a range, one is apart from all others. *)
Lemma tiles_apart s L e b l c : tiles s L e -> L ≡ₚ b :: l -> c ∈ l -> apart b c.
Proof.
  intros H E Hc. assert (b ∈ L) as Hb by (rewrite E; by left). apply list_elem_of_split in Hb as (l1 & l2 & ->).
  apply Permutation_sym, Permutation_cons_app_inv in E. rewrite E in Hc. clear E l.
  revert s H. induction l1 as [|d l1 IH]; intros s H; simpl in H, Hc; destruct H as (E & K & H).
  - left. destruct (tiles_bounds _ _ _ _ H Hc). lia.
  - apply elem_of_cons in Hc as [->|Hc]; [|by eapply IH].
    right. destruct (tiles_bounds _ _ _ b H ltac:(set_solver)). lia.
Qed.

Lemma fchain_frame m m' p l :
  (forall a, a ∈ l -> le_read 8 m' a = le_read 8 m a) -> fchain m p l -> fchain m' p l.
Proof.
  revert p. induction l as [|a l IH]; intros p F; [done|]. intros (E & N & H). split_and!; try done.
  rewrite F by (by left). apply IH; [|done]. intros x Hx. apply F. by right.
Qed.

Lemma chain_of_elem k l a : a ∈ chain_of k l -> (a, k) ∈ l.
Proof.
  unfold chain_of, class_blocks. intros H. apply list_elem_of_fmap in H as ([x j] & -> & H).
  apply list_elem_of_filter in H as [<- H]. done.
Qed.

(** The first free block of a size. *)
Lemma chain_of_pop k l a r :
  chain_of k l = a :: r ->
  exists l', l ≡ₚ (a, k) :: l' /\ chain_of k l' = r /\ (forall j, j <> k -> chain_of j l' = chain_of j l).
Proof.
  unfold chain_of. induction l as [|[x j] l IH]; intros E; [done|]. rewrite class_blocks_cons in E. cbn [snd] in E.
  destruct (decide (j = k)) as [->|Nj].
  - injection E as -> E. exists l. split; [done|]. split; [done|]. intros i Ni. rewrite class_blocks_cons. cbn [snd].
    by rewrite decide_False by done.
  - destruct (IH E) as (l' & P & C & F). exists ((x, j) :: l'). split; [rewrite P; constructor|]. split.
    + rewrite class_blocks_cons. cbn [snd]. by rewrite decide_False.
    + intros i Ni. rewrite !class_blocks_cons. cbn [snd]. destruct (decide (j = i)); simpl; by rewrite F.
Qed.

Lemma chain_of_cons j k l a : chain_of j ((a, k) :: l) = if decide (k = j) then a :: chain_of j l else chain_of j l.
Proof. unfold chain_of. rewrite class_blocks_cons. cbn [snd]. by destruct (decide (k = j)). Qed.

(** ** The invariant *)

Section Pool.

(** The slabs that the client uses. *)
Context (ks : list Z).
Local Abbreviation c := (Z.of_nat (length ks)).

(** The client owns the blocks [live]; the blocks [free] are in the slabs.  The pool has
    memory for [c] times its size. *)
Record pool_inv (h : mempool_ctrl) (m : mem) (live free : list block) : Prop := {
  pi_len : Z.of_nat (length (slabs h)) = slab_count h;
  pi_range : 0 < svaddr h /\ svaddr h + (c + 1) * totalsize h < 18446744073709551616;
  pi_mem : m_lo m <= svaddr h /\ svaddr h + c * totalsize h <= m_hi m;
  pi_class : forall b, b ∈ live ++ free -> snd b < slab_count h /\ snd b ∈ ks;
  pi_chain : forall k p, 0 <= k -> slabs h !! Z.to_nat k = Some p -> fchain (m_get m) p (chain_of k free);
  pi_tiles : exists L, L ≡ₚ live ++ free /\ tiles (svaddr h) L (rvaddr h);
  pi_remain : 0 <= remainsize h /\ remainsize h + bytes live = totalsize h;
  pi_bytes : forall k, bytes (class_blocks k (live ++ free)) <= totalsize h }.

Section Invariant.
Context (h : mempool_ctrl) (m : mem) (live free : list block) (I : pool_inv h m live free).

Lemma inv_block b : b ∈ live ++ free ->
  svaddr h <= fst b /\ fst b + bsize (snd b) <= rvaddr h /\ 0 <= snd b < slab_count h.
Proof.
  intros Hb. destruct (pi_tiles _ _ _ _ I) as (L & E & H). pose proof (pi_class _ _ _ _ I b Hb). rewrite <- E in Hb.
  pose proof (tiles_bounds _ _ _ _ H Hb). pose proof (tiles_classes _ _ _ _ H Hb). lia.
Qed.

Lemma inv_apart b l c : live ++ free ≡ₚ b :: l -> c ∈ l -> apart b c.
Proof. destruct (pi_tiles _ _ _ _ I) as (L & E & H). rewrite <- E. by eapply tiles_apart. Qed.

(** How far the blocks reach: the blocks of one size never fill more than the pool. *)
Lemma inv_rvaddr : svaddr h <= rvaddr h <= svaddr h + c * totalsize h.
Proof.
  destruct (pi_tiles _ _ _ _ I) as (L & E & H). split; [by eapply tiles_le|]. rewrite (tiles_bytes _ _ _ H), E.
  apply Zplus_le_compat_l. apply bytes_classes; [|apply (pi_bytes _ _ _ _ I)].
  intros b Hb. split; [by apply (pi_class _ _ _ _ I b Hb)|]. apply inv_block in Hb. lia.
Qed.

Lemma inv_total : 0 <= totalsize h.
Proof.
  destruct (pi_remain _ _ _ _ I) as [R E]. rewrite <- E.
  assert (0 <= bytes live); [|lia]. apply bytes_nonneg. intros b Hb.
  destruct (inv_block b) as (_ & _ & ?); [|lia]. apply elem_of_app. by left.
Qed.

Lemma inv_slab k : 0 <= k < slab_count h -> is_Some (slabs h !! Z.to_nat k).
Proof. intros H. apply lookup_lt_is_Some_2. pose proof (pi_len _ _ _ _ I). lia. Qed.

Lemma inv_slab_range k p : 0 <= k -> slabs h !! Z.to_nat k = Some p -> 0 <= p < 18446744073709551616.
Proof.
  intros Hk Ep. pose proof (pi_chain _ _ _ _ I k p Hk Ep) as F. destruct (chain_of k free) as [|q r] eqn:E; cbn in F.
  { subst p. unfold NULL. lia. }
  destruct F as (-> & N & _). destruct (inv_block (q, k)) as (B1 & B2 & B3).
  { apply elem_of_app. right. apply chain_of_elem. rewrite E. by left. }
  pose proof inv_rvaddr. pose proof inv_total. pose proof (pi_range _ _ _ _ I). pose proof (bsize_pos k Hk). cbn in *. lia.
Qed.

(** A block is in the memory. *)
Lemma inv_access b : b ∈ live ++ free -> can_access m (fst b) = true.
Proof.
  intros Hb. destruct (inv_block b Hb) as (B1 & B2 & B3). pose proof inv_rvaddr. pose proof (pi_mem _ _ _ _ I).
  pose proof (bsize_pos (snd b) ltac:(lia)). unfold can_access. by zdec.
Qed.

(** What the client writes into its blocks does not matter. *)
Lemma inv_write m' b :
  b ∈ live -> m_lo m' = m_lo m -> m_hi m' = m_hi m ->
  (forall x, x < fst b \/ fst b + bsize (snd b) <= x -> m_get m' x = m_get m x) -> pool_inv h m' live free.
Proof.
  intros Hb El' Eh F. pose proof I as [I1 I2 I0 I3 I4 I5 I6 I7]. split; try done; [by rewrite El', Eh|].
  intros k p Hk E. eapply fchain_frame; [|by apply I4]. intros a Ha. apply chain_of_elem in Ha. apply le_read_ext.
  intros x Hx. apply list_elem_of_split in Hb as (l1 & l2 & El).
  destruct (inv_apart b (l1 ++ l2 ++ free) (a, k)) as [P|P]; [|set_solver| |].
  { rewrite El, <- app_assoc. cbn. symmetry. apply Permutation_middle. }
  all: destruct (inv_block (a, k)) as (_ & _ & K & _); [set_solver|]; pose proof (bsize_pos k K); cbn in *; f_equal; apply F; lia.
Qed.
End Invariant.

(** ** The operations keep it *)

Lemma slab_lookup_set h k j x : 0 <= k -> 0 <= j -> k < Z.of_nat (length (slabs h)) ->
  slabs (set_slab h k x) !! Z.to_nat j = if decide (j = k) then Some x else slabs h !! Z.to_nat j.
Proof.
  intros Hk Hj L. cbn. destruct (decide (j = k)) as [->|N].
  - apply list_lookup_insert_eq. lia.
  - apply list_lookup_insert_ne. lia.
Qed.

Lemma reuse_inv h m live free k p r :
  pool_inv h m live free -> 0 <= k < slab_count h -> bsize k <= remainsize h ->
  slabs h !! Z.to_nat k = Some p -> chain_of k free = p :: r ->
  exists free', pool_inv (set_slab (set_remain h (remainsize h - bsize k)) k (le_read 8 (m_get m) p)) m ((p, k) :: live) free'.
Proof.
  intros I Hk R Ep C. destruct (chain_of_pop _ _ _ _ C) as (free' & P & C' & F). exists free'.
  assert (E : ((p, k) :: live) ++ free' ≡ₚ live ++ free) by (rewrite P; cbn; apply Permutation_middle).
  pose proof (pi_chain _ _ _ _ I k p ltac:(lia) Ep) as Fc. rewrite C in Fc. destruct Fc as (_ & Np & Fc).
  destruct I as [I1 I2 I0 I3 I4 I5 I6 I7]. split; try done.
  - cbn. by rewrite length_insert.
  - intros b Hb. rewrite E in Hb. by apply I3.
  - intros j q Hj. rewrite slab_lookup_set by (cbn; lia). destruct (decide (j = k)) as [->|N].
    + intros Eq. injection Eq as <-. by rewrite C'.
    + rewrite F by done. by apply I4.
  - destruct I5 as (L & EL & T). exists L. by rewrite E.
  - cbn in *. lia.
  - intros j. rewrite (class_blocks_perm j _ _ E). apply I7.
Qed.

Lemma class_live h m live free k :
  pool_inv h m live free -> chain_of k free = [] -> bytes (class_blocks k (live ++ free)) <= bytes live.
Proof.
  intros I C. unfold class_blocks. rewrite filter_app, bytes_app.
  assert (filter (fun b : block => snd b = k) free = []) as ->.
  { unfold chain_of, class_blocks in C. by apply fmap_nil_inv in C. }
  assert (N : forall b, b ∈ live -> 0 <= snd b).
  { intros b Hb. destruct (inv_block _ _ _ _ I b) as (_ & _ & ?); [set_solver|lia]. }
  clear I C. cbn. induction live as [|b l IH]; [done|]. rewrite filter_cons.
  pose proof (bsize_pos _ (N b (list_elem_of_here _ _))).
  assert (forall c, c ∈ l -> 0 <= snd c) by (intros; apply N; by right).
  destruct (decide (snd b = k)); cbn [bytes]; specialize (IH H0); lia.
Qed.

Lemma bump_inv h m live free k :
  pool_inv h m live free -> 0 <= k < slab_count h -> k ∈ ks -> bsize k <= remainsize h -> chain_of k free = [] ->
  pool_inv (set_rvaddr (set_remain h (remainsize h - bsize k)) (rvaddr h + bsize k)) m ((rvaddr h, k) :: live) free.
Proof.
  intros I Hk Kk R C. pose proof (class_live _ _ _ _ _ I C) as B. destruct I as [I1 I2 I0 I3 I4 I5 I6 I7]. split; try done.
  - intros b Hb. cbn in Hb. apply elem_of_cons in Hb as [->|Hb]; [split; [cbn; lia|done]|by apply I3].
  - destruct I5 as (L & EL & T). exists (L ++ [(rvaddr h, k)]). split; [rewrite EL; cbn; by rewrite <- Permutation_cons_append|].
    cbn. apply tiles_snoc; [done|lia].
  - cbn in *. lia.
  - intros j. cbn [app]. rewrite class_blocks_cons. cbn [snd]. destruct (decide (k = j)) as [<-|N]; [|apply I7].
    cbn [bytes snd]. cbn in *. lia.
Qed.

Lemma alloc_inv h m live free size :
  pool_inv h m live free -> 0 < size <= 9223372036854775808 ->
  let k := class_of size in
  if (remainsize h <? bsize k) || (slab_count h <? k)
  then mempool_ctrl_alloc_default (Some h) m size = Some (NULL, Some h)
  else if k =? slab_count h then mempool_ctrl_alloc_default (Some h) m size = None
  else exists a h', mempool_ctrl_alloc_default (Some h) m size = Some (a, Some h') /\ a <> NULL /\
    (k ∈ ks -> exists free', pool_inv h' m ((a, k) :: live) free').
Proof.
  intros I Hs k. destruct (class_of_spec size Hs) as (Kr & Ks & Ke). fold k in Kr, Ks, Ke.
  unfold mempool_ctrl_alloc_default. rewrite (proj2 (Z.eqb_neq size 0)) by lia. rewrite Ke. cbn [mbind option_bind].
  change (get_real_size_bits size - MEMPOOL_MIN_SLAB_BITS) with k.
  destruct (Z.ltb_spec (remainsize h) (bsize k)) as [R|R]; cbn [orb]; [done|].
  destruct (Z.ltb_spec (slab_count h) k) as [C|C]; [done|]. cbn [set_remain slabs].
  destruct (Z.eqb_spec k (slab_count h)) as [Ek|Nk].
  { rewrite (proj2 (lookup_ge_None (slabs h) _)); [done|]. pose proof (pi_len _ _ _ _ I). lia. }
  destruct (inv_slab _ _ _ _ I k) as [p Ep]; [lia|]. rewrite Ep. cbn [mbind option_bind].
  pose proof (pi_chain _ _ _ _ I k p ltac:(lia) Ep) as F. destruct (chain_of k free) as [|q r] eqn:Ec; cbn in F.
  - subst p. cbn [negb Z.eqb NULL]. pose proof (inv_rvaddr _ _ _ _ I) as V. pose proof (pi_range _ _ _ _ I) as G.
    pose proof (bsize_pos k ltac:(lia)). pose proof (pi_remain _ _ _ _ I) as Rm.
    assert (0 <= bytes live).
    { apply bytes_nonneg. intros b Hb. apply (inv_block _ _ _ _ I). set_solver. }
    cbn [rvaddr]. rewrite Z.mul_add_distr_r, Z.mul_1_l in G. rewrite u64_small by (unfold set_remain; cbn; lia).
    eexists _, _. split; [done|]. split; [unfold NULL; cbn; lia|].
    intros Kk. exists free. exact (bump_inv h m live free k I ltac:(lia) Kk R Ec).
  - destruct F as (<- & Np & _). rewrite (proj2 (Z.eqb_neq p NULL)) by done. cbn [negb].
    assert ((p, k) ∈ live ++ free) as Hp by (apply elem_of_app; right; apply chain_of_elem; rewrite Ec; by left).
    unfold load. pose proof (inv_access _ _ _ _ I (p, k) Hp) as A. cbn [fst] in A. rewrite A. cbn [mbind option_bind].
    eexists _, _. split; [done|]. split; [done|]. intros _. eapply reuse_inv; [done|lia|done..].
Qed.

Lemma free_inv h m live live' free a size :
  pool_inv h m live free -> 0 < size <= 9223372036854775808 -> live ≡ₚ (a, class_of size) :: live' ->
  exists m' h', mempool_ctrl_free_default (Some h) m a size = Some (m', Some h') /\
    pool_inv h' m' live' ((a, class_of size) :: free).
Proof.
  intros I Hs El. destruct (class_of_spec size Hs) as (Kr & Ks & Ke). set (k := class_of size) in *.
  assert (E : live ++ free ≡ₚ (a, k) :: live' ++ free) by (by rewrite El).
  destruct (inv_block _ _ _ _ I (a, k)) as (B1 & B2 & B3); [rewrite E; by left|]. cbn [fst snd] in *.
  pose proof (inv_rvaddr _ _ _ _ I) as V. pose proof (inv_total _ _ _ _ I) as T. pose proof (pi_range _ _ _ _ I) as G.
  pose proof (bsize_pos k ltac:(lia)) as Kb. unfold mempool_ctrl_free_default.
  rewrite Z.mul_add_distr_r, Z.mul_1_l in G. rewrite (proj2 (Z.eqb_neq size 0)) by lia.
  rewrite (proj2 (Z.ltb_ge a (svaddr h))) by lia. rewrite u64_small by lia.
  rewrite (proj2 (Z.ltb_ge (rvaddr h + totalsize h) a)) by lia. cbn [orb].
  rewrite Ke. cbn [mbind option_bind]. change (get_real_size_bits size - MEMPOOL_MIN_SLAB_BITS) with k.
  destruct (inv_slab _ _ _ _ I k) as [p Ep]; [lia|]. rewrite Ep. cbn [mbind option_bind].
  assert ((a, k) ∈ live ++ free) as Ha by (rewrite E; by left).
  unfold store. pose proof (inv_access _ _ _ _ I (a, k) Ha) as Ac. cbn [fst] in Ac. rewrite Ac. cbn [mbind option_bind].
  pose proof (inv_slab_range _ _ _ _ I k p ltac:(lia) Ep) as Pr.
  pose proof (pi_remain _ _ _ _ I) as Rm. rewrite El in Rm. cbn [bytes snd] in Rm.
  assert (0 <= bytes live') by (apply bytes_nonneg; intros b Hb; apply (inv_block _ _ _ _ I); rewrite E; set_solver).
  cbn [set_slab remainsize]. rewrite u64_small by lia. eexists _, _. split; [done|].
  assert (A : forall c, c ∈ live' ++ free -> apart (a, k) c) by (intros c; by apply (inv_apart _ _ _ _ I)).
  assert (E' : live' ++ (a, k) :: free ≡ₚ live ++ free) by (rewrite E; symmetry; apply Permutation_middle).
  destruct I as [I1 I2 I0 I3 I4 I5 I6 I7]. split; try done.
  - cbn. by rewrite length_insert.
  - intros b Hb. rewrite E' in Hb. by apply I3.
  - intros j q Hj Eq. cbn [set_remain slabs] in Eq. rewrite slab_lookup_set in Eq by lia. rewrite chain_of_cons.
    assert (Fr : forall i p', 0 <= i -> slabs h !! Z.to_nat i = Some p' -> fchain (le_write 8 (m_get m) a p) p' (chain_of i free)).
    { intros i p' Hi Ei. eapply fchain_frame; [|by apply I4]. intros x Hx. apply chain_of_elem in Hx.
      destruct (A (x, i)) as [P|P]; [set_solver| |]; cbn in P; pose proof (bsize_pos i Hi); apply le_read_write_disjoint; lia. }
    destruct (decide (j = k)) as [->|N]; [|by rewrite decide_False by done; apply Fr].
    rewrite decide_True by done. injection Eq as <-. split_and!; [done|unfold NULL; lia|].
    cbn [m_get]. rewrite le_read_write_same, Z.mod_small by (cbn; lia). by apply Fr.
  - destruct I5 as (L & EL & Ti). exists L. by rewrite E'.
  - cbn. lia.
  - intros j. rewrite (class_blocks_perm j _ _ E'). apply I7.
Qed.

(** ** Clients *)

Record pstate := Pstate { ps_ctrl : mempool_ctrl; ps_mem : mem; ps_live : list block }.

(** A client asks for memory, of one of the sizes [ks] when the request is granted,
    returns a block it owns (with a size of the same slab), or writes into a block it
    owns. *)
Inductive pool_step : pstate -> pstate -> Prop :=
  | pool_alloc h m live size a h' :
      0 < size <= 9223372036854775808 -> class_of size ∈ ks ->
      mempool_ctrl_alloc_default (Some h) m size = Some (a, Some h') -> a <> NULL ->
      pool_step (Pstate h m live) (Pstate h' m ((a, class_of size) :: live))
  | pool_alloc_null h m live size h' :
      0 < size <= 9223372036854775808 ->
      mempool_ctrl_alloc_default (Some h) m size = Some (NULL, Some h') ->
      pool_step (Pstate h m live) (Pstate h' m live)
  | pool_free h m live live' a size m' h' :
      0 < size <= 9223372036854775808 -> live ≡ₚ (a, class_of size) :: live' ->
      mempool_ctrl_free_default (Some h) m a size = Some (m', Some h') ->
      pool_step (Pstate h m live) (Pstate h' m' live')
  | pool_write h m live b m' :
      b ∈ live -> m_lo m' = m_lo m -> m_hi m' = m_hi m ->
      (forall x, x < fst b \/ fst b + bsize (snd b) <= x -> m_get m' x = m_get m x) ->
      pool_step (Pstate h m live) (Pstate h m' live).

(** The geometry that no operation changes. *)
Definition geom (h : mempool_ctrl) : Z * Z * Z := (svaddr h, totalsize h, slab_count h).

Definition safe_from (g : Z * Z * Z) (s : pstate) : Prop :=
  geom (ps_ctrl s) = g /\ exists free, pool_inv (ps_ctrl s) (ps_mem s) (ps_live s) free.

Lemma alloc_geom h m size a h' :
  mempool_ctrl_alloc_default (Some h) m size = Some (a, Some h') -> geom h' = geom h.
Proof.
  unfold mempool_ctrl_alloc_default. intros E. repeat case_match; simplify_eq; try done.
  inv_bind E. destruct (_ || _); simplify_eq; [done|]. inv_bind E. destruct (negb _); [inv_bind E|]; by simplify_eq.
Qed.

Lemma free_geom h m a size m' h' :
  mempool_ctrl_free_default (Some h) m a size = Some (m', Some h') -> geom h' = geom h.
Proof.
  unfold mempool_ctrl_free_default. intros E. destruct (size =? 0); simplify_eq; [done|].
  destruct (_ || _); simplify_eq; [done|]. inv_bind E. inv_bind E. inv_bind E. by simplify_eq.
Qed.

Lemma pool_step_safe g s s' : safe_from g s -> pool_step s s' -> safe_from g s'.
Proof.
  intros (G & free & I) S. destruct S as [h m live size a h' Hs Kk E Na|h m live size h' Hs E|h m live live' a size m' h' Hs P E|h m live b m' Hb El Eh F]; cbn [ps_ctrl ps_mem ps_live] in *.
  - split; [cbn; by rewrite (alloc_geom _ _ _ _ _ E)|]. pose proof (alloc_inv _ _ _ _ _ I Hs) as R. cbv zeta in R.
    destruct (_ || _); [rewrite E in R; by injection R|]. destruct (_ =? _); [by rewrite E in R|].
    destruct R as (a1 & h1 & E1 & _ & R). rewrite E in E1. injection E1 as <- <-. by apply R.
  - split; [cbn; by rewrite (alloc_geom _ _ _ _ _ E)|]. pose proof (alloc_inv _ _ _ _ _ I Hs) as R. cbv zeta in R.
    destruct (_ || _); [rewrite E in R; injection R as ->; by exists free|]. destruct (_ =? _); [by rewrite E in R|].
    destruct R as (a1 & h1 & E1 & Na & _). rewrite E in E1. injection E1 as <- <-. done.
  - split; [cbn; by rewrite (free_geom _ _ _ _ _ _ E)|]. destruct (free_inv _ _ _ _ _ _ _ I Hs P) as (m1 & h1 & E1 & I1).
    rewrite E in E1. injection E1 as <- <-. by eexists.
  - split; [done|]. exists free. by eapply inv_write.
Qed.

Lemma init_safe a vaddr size n pa pf p h a' m :
  mempool_ctrl_init a vaddr size n pa pf = Some (p, h, a') ->
  0 < vaddr -> 0 <= size -> 0 <= n -> vaddr + (c + 1) * size < 18446744073709551616 ->
  m_lo m <= vaddr -> vaddr + c * size <= m_hi m ->
  safe_from (vaddr, size, n) (Pstate h m []).
Proof.
  unfold mempool_ctrl_init. intros E Hv Hs Hn Hr Hl Hh. destruct (malloc a _) as [mp a1]. destruct (mp =? NULL); [done|].
  injection E as <- <- <-. split; [done|]. exists []. split; cbn; try done.
  - rewrite length_replicate. lia.
  - intros b Hb. by apply not_elem_of_nil in Hb.
  - intros k q Hk Eq. by apply lookup_replicate_1 in Eq as [-> _].
  - by exists [].
  - lia.
Qed.
End Pool.

(** ** The theorems *)

(** C16: the slab allocator never gives the same memory out twice.  A client makes any
    sequence of requests, returns and writes into its own blocks, with blocks of the
    slabs [ks].  The blocks of one slab never take more than the size of the pool, but
    those of several slabs together do, so the theorem needs accessible memory from
    [vaddr] on for as many pools as the client uses slabs: the pool itself for one slab.
    Then no operation accesses memory outside of it; the blocks that the client owns do
    not overlap and lie inside of it, each at least as large as was asked for; the
    accounting is exact; every return is answered; and a request gets NULL exactly when
    its block would exceed the bytes the accounting leaves or its slab has a number above
    [n], and a block otherwise, but for the slab with the number [n]: the bound check
    lets it pass and [slabs] is read out of bounds. *)
Theorem slab_pool_safe ks a vaddr size n p h a' m h' m' live :
  let c := Z.of_nat (length ks) in
  mempool_ctrl_init a vaddr size n NULL NULL = Some (p, h, a') ->
  0 < vaddr -> 0 <= size -> 0 <= n -> vaddr + (c + 1) * size < 18446744073709551616 ->
  m_lo m <= vaddr -> vaddr + c * size <= m_hi m ->
  rtc (pool_step ks) (Pstate h m []) (Pstate h' m' live) ->
  (forall b l, live ≡ₚ b :: l -> vaddr <= fst b /\ fst b + bsize (snd b) <= vaddr + c * size /\ forall c, c ∈ l -> apart b c) /\
  remainsize h' + bytes live = size /\
  (forall r, 0 < r <= 9223372036854775808 ->
     let k := class_of r in
     let answer := mempool_ctrl_alloc_default (Some h') m' r in
     r <= bsize k /\
     (remainsize h' < bsize k \/ n < k -> answer = Some (NULL, Some h')) /\
     (bsize k <= remainsize h' -> k < n -> exists b h'', answer = Some (b, Some h'') /\ b <> NULL) /\
     (bsize k <= remainsize h' -> k = n -> answer = None)) /\
  (forall b r, b ∈ live -> 0 < r <= 9223372036854775808 -> class_of r = snd b ->
     exists m'' h'', mempool_ctrl_free_default (Some h') m' (fst b) r = Some (m'', Some h'') /\ remainsize h'' = remainsize h' + bsize (snd b)).
Proof.
  intros c E Hv Hs Hn Hr Hl Hh H.
  destruct (rtc_invariant (pool_step ks) (safe_from ks (vaddr, size, n)) (pool_step_safe ks _) _ _ H
              (init_safe ks _ _ _ _ _ _ _ _ _ m E Hv Hs Hn Hr Hl Hh)) as (G & free & I).
  cbn in G, I. injection G as G1 G2 G3. split_and!.
  - intros b l Eb. assert (b ∈ live ++ free) as Hb by (rewrite Eb; by left).
    destruct (inv_block _ _ _ _ _ I b Hb) as (B1 & B2 & B3). pose proof (inv_rvaddr _ _ _ _ _ I) as V. rewrite G1, G2, G3 in *.
    split; [lia|]. split; [unfold c; lia|]. intros d Hd. eapply (inv_apart _ _ _ _ _ I b (l ++ free)); [by rewrite Eb|set_solver].
  - rewrite <- G2. apply (pi_remain _ _ _ _ _ I).
  - intros r Hr' k answer. pose proof (alloc_inv _ _ _ _ _ _ I Hr') as R. cbv zeta in R. fold k in R. fold answer in R. rewrite G3 in R.
    split; [apply class_of_spec, Hr'|].
    destruct (Z.ltb_spec (remainsize h') (bsize k)), (Z.ltb_spec n k); cbn [orb] in R; try (split_and!; (done || intros; lia)).
    destruct (Z.eqb_spec k n); [split_and!; (done || intros; lia)|]. destruct R as (b & h'' & Ea & Nb & _).
    split_and!; intros; (lia || by exists b, h'').
  - intros b r Hb Hr' Eb. apply list_elem_of_split in Hb as (l1 & l2 & El). destruct b as [b k]. cbn [fst snd] in *.
    assert (live ≡ₚ (b, class_of r) :: l1 ++ l2) as P by (rewrite El, Eb; symmetry; apply Permutation_middle).
    destruct (free_inv _ _ _ _ _ _ _ _ I Hr' P) as (m'' & h'' & Ef & I'). exists m'', h''. split; [done|].
    pose proof (pi_remain _ _ _ _ _ I) as R1. pose proof (pi_remain _ _ _ _ _ I') as R2. rewrite P in R1. cbn [bytes snd] in R1.
    pose proof (free_geom _ _ _ _ _ _ Ef) as G'. injection G' as G1' G2' G3'. rewrite Eb in *. lia.
Qed.

(** A pool of 64 bytes with the slabs 8, 16, 32 and 64. *)
Definition demo_ctrl (rv remain : Z) (sl : list Z) : mempool_ctrl :=
  Ctrl DefaultOps MEMPOOL_CTRL_MAGIC 4096 64 rv remain (LCell 568 568) 4 sl.
Definition zeros (len : Z) : mem := Mem 4096 (4096 + len) (fun _ => 0).
Definition zeros_but (len p v : Z) : mem := Mem 4096 (4096 + len) (le_write 8 (fun _ => 0) p v).

Lemma slab_pool_safe_witness : apart (4096, 0) (4104, 2).
Proof.
  assert (H : rtc (pool_step [0; 2]) (Pstate (demo_ctrl 4096 64 [0; 0; 0; 0]) (zeros 128) [])
                (Pstate (demo_ctrl 4136 24 [0; 0; 0; 0]) (zeros_but 128 4096 0) [(4096, 0); (4104, 2)])).
  { eapply rtc_l; [apply (pool_alloc _ _ _ [] 5 4096 (demo_ctrl 4104 56 [0; 0; 0; 0])); (done || lia || by left)|].
    eapply rtc_l; [apply (pool_alloc _ _ _ [(4096, 0)] 20 4104 (demo_ctrl 4136 24 [0; 0; 0; 0])); (done || lia || (right; by left))|].
    eapply rtc_l; [apply (pool_free _ _ _ [(4104, 2); (4096, 0)] [(4104, 2)] 4096 7 (zeros_but 128 4096 0) (demo_ctrl 4136 32 [4096; 0; 0; 0]));
      [lia|apply Permutation_swap|reflexivity]|].
    eapply rtc_l; [apply (pool_alloc _ _ _ [(4104, 2)] 8 4096 (demo_ctrl 4136 24 [0; 0; 0; 0])); (done || lia || by left)|]. constructor. }
  destruct (slab_pool_safe [0; 2] (Alloc 512 []) 4096 64 4 512 (demo_ctrl 4096 64 [0; 0; 0; 0]) (Alloc 640 []) (zeros 128) _ _ _
              ltac:(reflexivity) ltac:(lia) ltac:(lia) ltac:(lia) ltac:(cbn; lia) ltac:(cbn; lia) ltac:(cbn; lia) H) as [S _].
  apply (S (4096, 0) [(4104, 2)]); [done|by left].
Defined.

(** [mempool_ctrl_free_default] and [mempool_ctrl_alloc_default] are inverse to
    each other: a block that was returned is the next one handed out for a request of
    its slab, and the control block is then what it was before the return. *)
Theorem slab_free_alloc h m ptr size size' p :
  0 < size <= 9223372036854775808 -> 0 < size' <= 9223372036854775808 -> class_of size' = class_of size ->
  svaddr h <= ptr <= u64 (rvaddr h + totalsize h) -> ptr <> NULL ->
  0 <= remainsize h -> remainsize h + bsize (class_of size) < 18446744073709551616 ->
  slabs h !! Z.to_nat (class_of size) = Some p -> 0 <= p < 18446744073709551616 -> class_of size <= slab_count h ->
  can_access m ptr = true ->
  exists m' h', mempool_ctrl_free_default (Some h) m ptr size = Some (m', Some h') /\
    mempool_ctrl_alloc_default (Some h') m' size' = Some (ptr, Some h) /\
    (forall x, x < ptr \/ ptr + 8 <= x -> m_get m' x = m_get m x).
Proof.
  intros Hs Hs' Ec Hp Np Hr Hr' Ep Rp Hk Ha. destruct (class_of_spec size Hs) as (K1 & _ & K2).
  destruct (class_of_spec size' Hs') as (_ & _ & K3). rewrite Ec in K3. pose proof (bsize_pos (class_of size) ltac:(lia)).
  pose proof (lookup_lt_Some _ _ _ Ep). unfold mempool_ctrl_free_default. rewrite (proj2 (Z.eqb_neq size 0)) by lia.
  rewrite (proj2 (Z.ltb_ge ptr _)), (proj2 (Z.ltb_ge _ ptr)) by lia. cbn [orb]. rewrite K2. cbn [mbind option_bind].
  change (get_real_size_bits size - MEMPOOL_MIN_SLAB_BITS) with (class_of size). rewrite Ep. cbn [mbind option_bind].
  unfold store. rewrite Ha. cbn [mbind option_bind].
  eexists _, _. split; [done|]. split; [|intros x Hx; by apply le_write_outside].
  unfold mempool_ctrl_alloc_default. rewrite (proj2 (Z.eqb_neq size' 0)) by lia. rewrite K3. cbn [mbind option_bind].
  change (get_real_size_bits size' - MEMPOOL_MIN_SLAB_BITS) with (class_of size'). rewrite Ec.
  cbn [set_remain set_slab remainsize slab_count slabs]. rewrite u64_small by lia.
  rewrite (proj2 (Z.ltb_ge _ (bsize (class_of size)))), (proj2 (Z.ltb_ge _ (class_of size))) by lia. cbn [orb].
  rewrite list_lookup_insert_eq by lia. cbn [mbind option_bind]. rewrite (proj2 (Z.eqb_neq ptr NULL)) by done. cbn [negb].
  unfold load. change (can_access _ ptr) with (can_access m ptr). rewrite Ha. cbn [mbind option_bind m_get].
  rewrite le_read_write_same, Z.mod_small by (cbn; lia). unfold set_slab, set_remain. cbn [ops magic svaddr totalsize rvaddr remainsize hook slab_count slabs].
  rewrite list_insert_insert_eq, (list_insert_id _ _ _ Ep). destruct h. cbn. do 4 f_equal. lia.
Qed.

Lemma slab_free_alloc_witness :
  exists m' h', mempool_ctrl_free_default (Some (demo_ctrl 4136 24 [0; 0; 0; 0])) (zeros 64) 4104 20 = Some (m', Some h') /\
    mempool_ctrl_alloc_default (Some h') m' 32 = Some (4104, Some (demo_ctrl 4136 24 [0; 0; 0; 0])) /\
    (forall x, x < 4104 \/ 4104 + 8 <= x -> m_get m' x = m_get (zeros 64) x).
Proof.
  apply (slab_free_alloc (demo_ctrl 4136 24 [0; 0; 0; 0]) (zeros 64) 4104 20 32 0);
    (done || (vm_compute; done) || (vm_compute; split; discriminate)).
Defined.

(** The client of the next theorem: [n] requests of [size] bytes, and the return of
    the blocks [l]. *)
Fixpoint allocs (n : nat) (size : Z) (h : mempool_ctrl) (m : mem) : option (list Z * mempool_ctrl) :=
  match n with
  | O => Some ([], h)
  | S n =>
      '(a, h) ← mempool_ctrl_alloc_default (Some h) m size;
      h ← h;
      '(l, h) ← allocs n size h m;
      Some (a :: l, h)
  end.
Fixpoint frees (l : list Z) (size : Z) (h : mempool_ctrl) (m : mem) : option (mem * mempool_ctrl) :=
  match l with
  | [] => Some (m, h)
  | a :: l => '(m, h) ← mempool_ctrl_free_default (Some h) m a size; h ← h; frees l size h m
  end.

(** the allocator can leave its pool: of a pool of 64 bytes at 4096, eight
    blocks of 8 bytes are taken and returned; the accounting is back at 64 bytes, but
    these are cut into blocks of 8, so the next request for 64 bytes is answered with
    the memory behind the pool, at 4160.  And the bound on the slab is off by one: in
    a pool of 1024 bytes with four slabs, a request for 128 bytes (the fifth slab)
    reads [slabs] out of bounds instead of returning NULL. *)
Theorem slab_alloc_limits :
  ('(_, h, _) ← mempool_ctrl_init (Alloc 512 []) 4096 64 4 NULL NULL;
   '(l, h1) ← allocs 8 8 h (zeros 64);
   '(m1, h2) ← frees l 8 h1 (zeros 64);
   '(b, _) ← mempool_ctrl_alloc_default (Some h2) m1 64;
   Some (l, remainsize h2, b))
  = Some ([4096; 4104; 4112; 4120; 4128; 4136; 4144; 4152], 64, 4160) /\
  ('(_, h, _) ← mempool_ctrl_init (Alloc 512 []) 4096 1024 4 NULL NULL; Some (mempool_ctrl_alloc_default (Some h) (zeros 1024) 128))
  = Some None.
Proof. by vm_compute. Qed.
