(* ===== verification/IpcShm.v ===== *)
(** * IpcShm: messages in shared memory (ipc_test/ipc_test.h, ipc_test/dep.h)

    A shared memory area holds a header and a queue of buffers of one size.  The free
    buffers are a list through their indices; a sender takes as many as its message
    needs, fills them and hands a tag over, the receiver copies them out and returns
    them.  Taking and returning are under the lock of the header; filling and copying
    touch only the buffers of the message.  An index outside the header's table or a
    copy outside the queue has no result. *)
From S2P Require Import Prelude.
From stdpp Require Import list relations.
Local Open Scope Z_scope.

Definition PAGE_SIZE_SHIFT : Z := 12.
Definition EIPCINVALIDARGS : Z := 1.
Definition EIPCMSGTOOLONG : Z := 1.
Definition EIPCOUTIPCBUF : Z := 1.
Definition IPC_MAX_MSGBYTES : Z := Z.shiftl 8 8 - 8.
Definition IPC_MAX_MSGCOUNT : Z := 252.
Definition IPC_SHM_HEADER_BYTES : Z := 512.
Definition FREE_IDX : Z := 0.

(** ** Tags *)

Definition msgtag_get_extra (tag : Z) : Z := u8 (Z.land (Z.shiftr tag 24) 255).
Definition msgtag_get_len (tag : Z) : Z := Z.land (Z.shiftr tag 16) 255.
(** The arguments are unsigned char, unsigned short and unsigned char; the value is
    computed as an int. *)
Definition msgtag_make (len id_op extra : Z) : Z :=
  u64 (i32 (Z.lor (Z.lor (Z.shiftl (u8 extra) 24) (Z.shiftl (u8 len) 16)) (u16 id_op))).

(** ** The shared memory *)

Record ep_ipc_bufinfo := Bufinfo { next_buf_idx : Z; msg_count : Z }.

(** The header, and the queue behind it. *)
Record ep_ipc_que := Que {
  slist : list Z;
  slist_len : list Z;
  userbufsize : Z;
  ipcinfo : list ep_ipc_bufinfo;
  que : page }.

Definition get_info (s : ep_ipc_que) (i : Z) : option ep_ipc_bufinfo := if i <? 0 then None else ipcinfo s !! Z.to_nat i.
Definition set_info (s : ep_ipc_que) (i : Z) (x : ep_ipc_bufinfo) : option ep_ipc_que :=
  _ ← get_info s i; Some (Que (slist s) (slist_len s) (userbufsize s) (<[Z.to_nat i := x]> (ipcinfo s)) (que s)).
Definition set_next_idx (s : ep_ipc_que) (i v : Z) : option ep_ipc_que := x ← get_info s i; set_info s i (Bufinfo (u8 v) (msg_count x)).
Definition set_msg_count (s : ep_ipc_que) (i v : Z) : option ep_ipc_que := x ← get_info s i; set_info s i (Bufinfo (next_buf_idx x) (u8 v)).
Definition set_list (s : ep_ipc_que) (type head len : Z) : option ep_ipc_que :=
  _ ← slist s !! Z.to_nat type; _ ← slist_len s !! Z.to_nat type;
  Some (Que (<[Z.to_nat type := u8 head]> (slist s)) (<[Z.to_nat type := u8 len]> (slist_len s)) (userbufsize s) (ipcinfo s) (que s)).

Definition seq_in_static_list (s : ep_ipc_que) (start end_ type bufcount : Z) : option ep_ipc_que :=
  if negb (bufcount =? 0) then
    head ← slist s !! Z.to_nat type;
    len ← slist_len s !! Z.to_nat type;
    s ← set_next_idx s end_ head;
    set_list s type start (len + bufcount)
  else Some s.

Fixpoint seq_walk (n : nat) (s : ep_ipc_que) (first : Z) : option Z :=
  match n with
  | O => Some first
  | S n => x ← get_info s first; seq_walk n s (next_buf_idx x)
  end.

Definition seq_out_static_list (s : ep_ipc_que) (type bufcount : Z) : option (Z * ep_ipc_que) :=
  next ← slist s !! Z.to_nat type;
  first ← seq_walk (Z.to_nat bufcount) s next;
  len ← slist_len s !! Z.to_nat type;
  s ← set_list s type first (len - bufcount);
  Some (next, s).

Definition calculate_ipcbuf_count (pages bufsize : Z) : option Z :=
  let bufcount := u64 (Z.shiftl pages PAGE_SIZE_SHIFT) in
  let bufcount := u64 (bufcount - IPC_SHM_HEADER_BYTES) in
  if bufsize =? 0 then None else Some (bufcount / bufsize).

(** [ipcinfo[i].next_buf_idx = i + 1] for the next [n] indices. *)
Fixpoint init_loop (n : nat) (i : Z) (s : ep_ipc_que) : option ep_ipc_que :=
  match n with
  | O => Some s
  | S n => s ← set_next_idx s i (i + 1); init_loop n (i + 1) s
  end.

Definition init_ep_ipc_que_header (s : ep_ipc_que) (pages bufsize : Z) : option (Z * ep_ipc_que) :=
  bufcount ← calculate_ipcbuf_count pages bufsize;
  s ← init_loop (Z.to_nat (u64 (bufcount - 1))) 0 s;
  s ← set_next_idx s (bufcount - 1) (-1);
  s ← set_list s FREE_IDX 0 bufcount;
  Some (bufcount, Que (slist s) (slist_len s) (u16 bufsize) (ipcinfo s) (que s)).

Definition init_ep_ipc_que (s : ep_ipc_que) (pages bufsize : Z) : option (Z * ep_ipc_que) := init_ep_ipc_que_header s pages bufsize.

(** ** Sending *)

(** [len] and [bufcount] of a message. *)
Definition msg_words (size : Z) : Z := i32 (u64 (size + 8 - 1) / 8).
Definition msg_bufs (s : ep_ipc_que) (size : Z) : option Z :=
  if userbufsize s =? 0 then None else Some (i32 (u64 (size + userbufsize s - 1) / userbufsize s)).

(** Under the lock: the first buffer, or [-EIPCOUTIPCBUF] when there are too few. *)
Definition send_take (s : ep_ipc_que) (size : Z) : option (Z * ep_ipc_que) :=
  bufcount ← msg_bufs s size;
  len ← slist_len s !! Z.to_nat FREE_IDX;
  if len <? bufcount then Some (- EIPCOUTIPCBUF, s) else seq_out_static_list s FREE_IDX bufcount.

(** [memcpy] of [n] bytes from [src + so] to the queue at [o]. *)
Definition copy_in (s : ep_ipc_que) (o : Z) (src : content) (so n : Z) : option ep_ipc_que :=
  if in_page (que s) o n
  then Some (Que (slist s) (slist_len s) (userbufsize s) (ipcinfo s) (Page (p_size (que s)) (copy (p_get (que s)) o n src so)))
  else None.

Fixpoint send_copy (n : nat) (s : ep_ipc_que) (start : Z) (buf : content) (off send_size : Z) : option ep_ipc_que :=
  match n with
  | O => Some s
  | S n =>
      let bufsize := userbufsize s in
      s ← copy_in s (bufsize * start) buf off (if bufsize <? send_size then bufsize else send_size);
      x ← get_info s start;
      send_copy n s (next_buf_idx x) buf (off + bufsize) (u64 (send_size - bufsize))
  end.

(** After the lock: the tag, as an int. *)
Definition send_fill (s : ep_ipc_que) (start : Z) (buf : content) (size : Z) : option (Z * ep_ipc_que) :=
  bufcount ← msg_bufs s size;
  let tag := i32 (msgtag_make (msg_words size) 0 start) in
  s ← set_msg_count s start bufcount;
  s ← send_copy (Z.to_nat bufcount) s start buf 0 size;
  Some (tag, s).

Definition _ipc_shm_send_data (s : ep_ipc_que) (buf : content) (size : Z) : option (Z * ep_ipc_que) :=
  '(start, s) ← send_take s size;
  if start =? - EIPCOUTIPCBUF then Some (start, s) else send_fill s start buf size.

(** ** Receiving *)

(** The receiver's buffer, the last buffer of the message. *)
Fixpoint recv_copy (n : nat) (s : ep_ipc_que) (next end_ : Z) (buf : content) (off tmpsize : Z) : option (content * Z) :=
  match n with
  | O => Some (buf, end_)
  | S n =>
      let bufsize := userbufsize s in
      let k := if bufsize <? tmpsize then bufsize else tmpsize in
      if in_page (que s) (bufsize * next) k then
        let buf := copy buf off k (p_get (que s)) (bufsize * next) in
        x ← get_info s next;
        recv_copy n s (next_buf_idx x) next buf (off + bufsize) (u64 (tmpsize - bufsize))
      else None
  end.

(** Before the lock: the received bytes, the first and the last buffer of the message
    and their number, and the size. *)
Definition recv_read (s : ep_ipc_que) (buf : content) (tag : Z) : option (content * Z * Z * Z * Z) :=
  let start := msgtag_get_extra tag in
  x ← get_info s start;
  let bufcount := msg_count x in
  let size := msgtag_get_len tag * 8 in
  '(buf, end_) ← recv_copy (Z.to_nat bufcount) s start start buf 0 size;
  Some (buf, start, end_, bufcount, size).

(** [maxsize] is not used. *)
Definition _ipc_shm_recv_data (s : ep_ipc_que) (buf : content) (tag maxsize : Z) : option (Z * content * ep_ipc_que) :=
  '(buf, start, end_, bufcount, size) ← recv_read s buf tag;
  s ← seq_in_static_list s start end_ FREE_IDX bufcount;
  Some (i32 size, buf, s).

(** ** The calls *)

(** [g_tag], through which the tags go. *)
Definition get_tag (g_tag : list Z) (idx : Z) : option Z := if idx <? 0 then None else g_tag !! Z.to_nat idx.
Definition set_tag (g_tag : list Z) (tag idx : Z) : option (Z * list Z) :=
  _ ← get_tag g_tag idx; Some (tag, <[Z.to_nat idx := tag]> g_tag).

(** A NULL pointer is [None]; the results are unsigned int. *)
Definition ipc_shm_send (g_tag : list Z) (shmaddr : option ep_ipc_que) (buf : option content) (size block : Z)
    : option (Z * list Z * option ep_ipc_que) :=
  match shmaddr, buf with
  | Some s, Some b =>
      if IPC_MAX_MSGBYTES <? size then Some (u32 (- EIPCMSGTOOLONG), g_tag, shmaddr)
      else
        '(tag, s) ← _ipc_shm_send_data s b size;
        if tag =? - EIPCOUTIPCBUF then Some (u32 tag, g_tag, Some s)
        else '(r, g_tag) ← set_tag g_tag (u32 tag) (u32 block); Some (r, g_tag, Some s)
  | _, _ => Some (u32 (- EIPCINVALIDARGS), g_tag, shmaddr)
  end.

Definition ipc_shm_recv (g_tag : list Z) (shmaddr : option ep_ipc_que) (buf : option content) (maxsize block : Z)
    : option (Z * option content * option ep_ipc_que) :=
  match shmaddr, buf with
  | Some s, Some b =>
      tag ← get_tag g_tag (u32 block);
      if tag =? u32 (-1) then Some (tag, buf, shmaddr)
      else '(r, b, s) ← _ipc_shm_recv_data s b tag maxsize; Some (u32 r, Some b, Some s)
  | _, _ => Some (u32 (- EIPCINVALIDARGS), buf, shmaddr)
  end.

(** ** Chains of buffers *)

(** The list [l] of buffers, linked by [next_buf_idx] and ending in [e]. *)
Fixpoint bufs_chain (s : ep_ipc_que) (l : list Z) (e : Z) : Prop :=
  match l with
  | [] => True
  | b :: l => (exists x, get_info s b = Some x /\ next_buf_idx x = match l with [] => e | c :: _ => c end) /\ bufs_chain s l e
  end.

(** The bytes of a message from [off] on, [size] of them, in the buffers [l]. *)
Fixpoint holds (q : content) (bs : Z) (l : list Z) (data : content) (off size : Z) : Prop :=
  match l with
  | [] => True
  | b :: l => (forall x, 0 <= x < Z.min bs size -> q (bs * b + x) = data (off + x) mod 256) /\ holds q bs l data (off + bs) (size - bs)
  end.

Lemma chain_ext s s' l e : (forall b, b ∈ l -> next_buf_idx <$> get_info s' b = next_buf_idx <$> get_info s b) -> bufs_chain s l e -> bufs_chain s' l e.
Proof.
  induction l as [|b l IH]; intros E C; [done|]. destruct C as [(x & Hx & Nx) C]. split; [|apply IH; [intros c Hc; apply E; by right|done]].
  specialize (E b ltac:(by left)). rewrite Hx in E. destruct (get_info s' b) as [y|]; [|done]. exists y. split; [done|]. injection E as E. congruence.
Qed.

Lemma chain_app s l1 l2 e : bufs_chain s (l1 ++ l2) e -> bufs_chain s l1 (hd e l2) /\ bufs_chain s l2 e.
Proof.
  induction l1 as [|b l1 IH]; intros C; [done|]. destruct C as [(x & Hx & Nx) C]. destruct (IH C) as [C1 C2]. split; [|done].
  split; [|done]. exists x. split; [done|]. rewrite Nx. destruct l1 as [|c l1]; [by destruct l2|done].
Qed.

Lemma chain_walk s l e : bufs_chain s l e -> seq_walk (length l) s (hd e l) = Some e.
Proof.
  induction l as [|b l IH]; intros C; [done|]. destruct C as [(x & Hx & Nx) C]. cbn [length seq_walk hd]. rewrite Hx. cbn [mbind option_bind].
  rewrite Nx. specialize (IH C). by destruct l.
Qed.

Lemma chain_set s l e i v s' : set_next_idx s i v = Some s' -> i ∉ l -> bufs_chain s l e -> bufs_chain s' l e.
Proof.
  intros E N. unfold set_next_idx, set_info in E. destruct (get_info s i) as [x|] eqn:Ei; [|done]. cbn [mbind option_bind] in E.
  injection E as <-. apply chain_ext. intros b Hb. unfold get_info in *. cbn [ipcinfo]. destruct (Z.ltb_spec b 0); [done|]. destruct (Z.ltb_spec i 0); [done|].
  rewrite list_lookup_insert_ne; [done|]. intros E. apply N. replace i with b by lia. done.
Qed.

(** Giving a bufs_chain back in front of another one. *)
Lemma chain_join s l e e' l2 s' : bufs_chain s (l ++ [e]) e' -> bufs_chain s l2 255 -> NoDup (l ++ e :: l2) ->
  (forall b, b ∈ l2 -> 0 <= b < 256) ->
  set_next_idx s e (hd 255 l2) = Some s' -> bufs_chain s' (l ++ e :: l2) 255.
Proof.
  intros C C2 N R E. assert (Hv : 0 <= hd 255 l2 < 256) by (destruct l2; cbn; [lia|apply R; by left]).
  apply NoDup_app in N as (N1 & N2 & N3). apply NoDup_cons in N3 as [N3 N4].
  pose proof (chain_set _ _ _ _ _ _ E N3 C2) as C2'. apply chain_app in C as [C1 _]. cbn [hd] in C1.
  assert (Nl : e ∉ l) by (intros Hl; apply (N2 e Hl); by left). pose proof (chain_set _ _ _ _ _ _ E Nl C1) as C1'.
  assert (He : exists x, get_info s' e = Some x /\ next_buf_idx x = hd 255 l2).
  { unfold set_next_idx, set_info in E. destruct (get_info s e) as [x|] eqn:Ei; [|done]. cbn [mbind option_bind] in E. injection E as <-.
    unfold get_info in *. cbn [ipcinfo]. destruct (Z.ltb_spec e 0); [done|]. rewrite list_lookup_insert_eq by (by eapply lookup_lt_Some).
    eexists. split; [done|]. cbn. by apply u8_small. }
  clear C1 E N1 N2 Nl. induction l as [|b l IH]; cbn [app].
  - split; [|done]. destruct He as (x & Hx & Nx). exists x. split; [done|]. by destruct l2.
  - destruct C1' as [(x & Hx & Nx) C1']. split; [|by apply IH]. exists x. split; [done|]. rewrite Nx. by destruct l.
Qed.

(** ** Tags carry the first buffer and the length *)

Lemma lor_shift a b k : 0 <= k -> 0 <= b < 2 ^ k -> Z.lor (Z.shiftl a k) b = a * 2 ^ k + b.
Proof.
  intros Hk Hb. assert (L : Z.land (Z.shiftl a k) b = 0).
  { apply Z.bits_inj'. intros n Hn. rewrite Z.land_spec, Z.bits_0. destruct (Z.lt_ge_cases n k) as [H|H]; [by rewrite Z.shiftl_spec_low|].
    rewrite <- (Z.mod_small b (2 ^ k)) by done. rewrite Z.mod_pow2_bits_high by lia. apply andb_false_r. }
  rewrite <- Z.lxor_lor by done. rewrite <- Z.add_nocarry_lxor by done. by rewrite Z.shiftl_mul_pow2.
Qed.

Lemma tag_value len start : 0 <= len < 256 -> 0 <= start < 256 ->
  u32 (i32 (msgtag_make len 0 start)) = start * 16777216 + len * 65536.
Proof.
  intros Hl Hs. unfold msgtag_make. rewrite (u8_small len), (u8_small start), (u16_small 0) by lia. rewrite Z.lor_0_r.
  rewrite lor_shift; [|lia|rewrite Z.shiftl_mul_pow2 by lia; cbn; lia]. rewrite Z.shiftl_mul_pow2 by lia.
  change (2 ^ 24) with 16777216. change (2 ^ 16) with 65536. set (v := _ + _). assert (Hv : 0 <= v < 4294967296) by (unfold v; lia).
  replace (i32 (u64 (i32 v))) with (i32 v); [rewrite u32_i32; by apply u32_small|].
  pose proof (i32_range v) as Hr. set (y := i32 v) in *. unfold i32, u64. div_lia.
Qed.

Lemma tag_no_error len start : 0 <= len < 256 -> 0 <= start < 256 -> i32 (msgtag_make len 0 start) <> - EIPCOUTIPCBUF.
Proof. intros Hl Hs E. pose proof (tag_value len start Hl Hs) as V. rewrite E in V. change (u32 (- EIPCOUTIPCBUF)) with 4294967295 in V. lia. Qed.

Lemma tag_parts len start : 0 <= len < 256 -> 0 <= start < 256 ->
  let tag := u32 (i32 (msgtag_make len 0 start)) in msgtag_get_extra tag = start /\ msgtag_get_len tag = len.
Proof.
  intros Hl Hs tag. subst tag. rewrite tag_value by done. unfold msgtag_get_extra, msgtag_get_len.
  change 255 with (Z.ones 8). rewrite !Z.land_ones, !Z.shiftr_div_pow2 by lia. change (2 ^ 8) with 256. change (2 ^ 24) with 16777216. change (2 ^ 16) with 65536.
  replace ((start * 16777216 + len * 65536) / 16777216) with start by div_lia.
  replace ((start * 16777216 + len * 65536) / 65536) with (256 * start + len) by div_lia. split; [|div_lia].
  rewrite Z.mod_small by lia. by apply u8_small.
Qed.

(** ** Copying *)

(** [y] is a byte of the buffer [b]. *)
Definition byte_of (bs b y : Z) : Prop := bs * b <= y < bs * b + bs.

Definition with_que (s : ep_ipc_que) (q : page) : ep_ipc_que := Que (slist s) (slist_len s) (userbufsize s) (ipcinfo s) q.

Lemma holds_ext q q' bs l data off size :
  (forall b y, b ∈ l -> byte_of bs b y -> q' y = q y) -> holds q bs l data off size -> holds q' bs l data off size.
Proof.
  revert off size. induction l as [|b l IH]; intros off size E H; [done|]. destruct H as [H1 H2]. split.
  - intros x Hx. rewrite (E b); [by apply H1|by left|unfold byte_of; lia].
  - apply IH; [|done]. intros c y Hc. apply E. by right.
Qed.

Lemma send_copy_run s l e buf off size :
  let bs := userbufsize s in
  0 < bs < 65536 -> bufs_chain s l e -> NoDup l -> (forall b, b ∈ l -> 0 <= b /\ bs * b + bs <= p_size (que s)) ->
  (Z.of_nat (length l) - 1) * bs < size <= 65536 ->
  exists q, send_copy (length l) s (hd e l) buf off size = Some (with_que s q) /\ p_size q = p_size (que s) /\
    holds (p_get q) bs l buf off size /\ (forall y, (forall b, b ∈ l -> ~ byte_of bs b y) -> p_get q y = p_get (que s) y).
Proof.
  revert s off size. induction l as [|b l IH]; intros s off size bs Hb C N R Hs.
  { exists (que s). by destruct s. }
  destruct C as [(x & Hx & Nx) C]. apply NoDup_cons in N as [Nb N]. destruct (R b) as [R1 R2]; [by left|]. pose proof (Z.mul_nonneg_nonneg bs b ltac:(lia) ltac:(lia)).
  cbn [length] in Hs. rewrite Nat2Z.inj_succ in Hs.
  cbn [length send_copy hd]. fold bs. unfold copy_in. set (k := if bs <? size then bs else size).
  assert (Ek : k = Z.min bs size) by (unfold k; destruct (Z.ltb_spec bs size); lia).
  assert (H0 : 0 < size) by (pose proof (Z.mul_nonneg_nonneg (Z.of_nat (length l)) bs ltac:(lia) ltac:(lia)); lia).
  rewrite in_page_true by lia. cbn [mbind option_bind].
  change (get_info _ b) with (get_info s b). rewrite Hx. cbn [mbind option_bind]. rewrite Nx.
  set (s1 := with_que s (Page (p_size (que s)) (copy (p_get (que s)) (bs * b) k buf off))).
  change (Que _ _ _ _ _) with s1.
  assert (K : exists q, send_copy (length l) s1 (match l with [] => e | c :: _ => c end) buf (off + bs) (u64 (size - bs)) = Some (with_que s1 q) /\
    p_size q = p_size (que s) /\ holds (p_get q) bs l buf (off + bs) (size - bs) /\
    (forall y, (forall c, c ∈ l -> ~ byte_of bs c y) -> p_get q y = p_get (que s1) y)).
  { destruct l as [|c l]; [by exists (que s1)|]. cbn [length] in Hs. rewrite Nat2Z.inj_succ in Hs.
    pose proof (Z.mul_nonneg_nonneg (Z.of_nat (length l)) bs ltac:(lia) ltac:(lia)). rewrite u64_small by lia.
    destruct (IH s1 (off + bs) (size - bs)) as (q & E & P1 & P2 & P3); try done.
    - by apply (chain_ext s).
    - intros d Hd. apply R. by right.
    - cbn [length]. rewrite Nat2Z.inj_succ. change (userbufsize s1) with bs. lia.
    - by exists q. }
  destruct K as (q & E & P1 & P2 & P3). exists q. split; [exact E|]. split; [done|]. split.
  - split; [|done]. intros y Hy. rewrite P3.
    + cbn [s1 with_que que p_get]. rewrite copy_inside by lia. f_equal. f_equal. lia.
    + intros c Hc Hby. unfold byte_of in Hby. assert (c <> b) by (intros ->; done). destruct (R c) as [Rc _]; [by right|]. assert (c < b \/ b < c) as [|] by lia; nia.
  - intros y Hy. rewrite P3 by (intros c Hc; apply Hy; by right). cbn [s1 with_que que p_get]. rewrite copy_outside; [done|].
    pose proof (Hy b ltac:(by left)) as Hyb. unfold byte_of in Hyb. lia.
Qed.

Lemma recv_copy_run s l e end0 buf off tsize data size :
  let bs := userbufsize s in
  0 < bs < 65536 -> bufs_chain s l e -> (forall b, b ∈ l -> 0 <= b /\ bs * b + bs <= p_size (que s)) ->
  (Z.of_nat (length l) - 1) * bs < tsize <= 65536 -> size <= tsize -> size <= Z.of_nat (length l) * bs ->
  holds (p_get (que s)) bs l data off size ->
  exists out, recv_copy (length l) s (hd e l) end0 buf off tsize = Some (out, List.last l end0) /\
    (forall x, 0 <= x < size -> out (off + x) = data (off + x) mod 256) /\ (forall y, y < off -> out y = buf y).
Proof.
  revert end0 buf off tsize size. induction l as [|b l IH]; intros end0 buf off tsize size bs Hb C R Ht Hts Hs Hd.
  { exists buf. split; [done|]. split; [cbn in Hs; intros; lia|done]. }
  destruct C as [(x & Hx & Nx) C]. destruct Hd as [Hd1 Hd2]. destruct (R b) as [R1 R2]; [by left|]. pose proof (Z.mul_nonneg_nonneg bs b ltac:(lia) ltac:(lia)).
  cbn [length] in Ht, Hs. rewrite Nat2Z.inj_succ in Ht, Hs. pose proof (Z.mul_nonneg_nonneg (Z.of_nat (length l)) bs ltac:(lia) ltac:(lia)).
  cbn [length recv_copy hd]. fold bs. set (k := if bs <? tsize then bs else tsize).
  assert (Ek : k = Z.min bs tsize) by (unfold k; destruct (Z.ltb_spec bs tsize); lia). rewrite in_page_true by lia. rewrite Hx. cbn [mbind option_bind]. rewrite Nx.
  set (out1 := copy buf off k (p_get (que s)) (bs * b)).
  assert (O1 : forall y, 0 <= y < Z.min bs size -> out1 (off + y) = data (off + y) mod 256).
  { intros y Hy. unfold out1. rewrite copy_inside by lia. replace (off + y - off + bs * b) with (bs * b + y) by lia. rewrite Hd1 by lia. apply Z.mod_mod. lia. }
  assert (O2 : forall y, y < off -> out1 y = buf y) by (intros y Hy; apply copy_outside; lia).
  rewrite Prelude.last_cons. destruct l as [|c l].
  - exists out1. split; [done|]. split; [|done]. intros y Hy. apply O1. cbn in Hs. lia.
  - cbn [length] in Ht, Hs. rewrite Nat2Z.inj_succ in Ht, Hs. rewrite u64_small by lia.
    destruct (IH b out1 (off + bs) (tsize - bs) (size - bs)) as (out & E & P1 & P2); try done; try lia.
    + intros d Hd. apply R. by right.
    + cbn [length]. lia.
    + cbn [length]. lia.
    + exists out. split; [exact E|]. split.
      * intros y Hy. destruct (Z.lt_ge_cases y bs); [rewrite P2 by lia; apply O1; lia|].
        replace (off + y) with (off + bs + (y - bs)) by lia. apply P1. lia.
      * intros y Hy. rewrite P2 by lia. by apply O2.
Qed.

(** ** Senders and receivers *)

(** A message on its way: taken by its sender, which has to fill it; sent, with the tag
    that the receiver gets; copied out, to be returned. *)
Inductive thread :=
| Sending (start : Z) (data : content) (size : Z)
| Sent (tag : Z) (data : content) (size : Z)
| Received (start end_ bufcount : Z).

Abbreviation conf := (ep_ipc_que * list thread)%type.

(** The calls in parallel.  Messages are not empty and not longer than
    [ipc_shm_send] allows; the receiver has any buffer. *)
Inductive ipc_step : conf -> conf -> Prop :=
| st_take s ths data size start s' : 0 < size <= IPC_MAX_MSGBYTES -> send_take s size = Some (start, s') -> start <> - EIPCOUTIPCBUF ->
    ipc_step (s, ths) (s', Sending start data size :: ths)
| st_fill s t1 t2 start data size tag s' : send_fill s start data size = Some (tag, s') ->
    ipc_step (s, t1 ++ Sending start data size :: t2) (s', t1 ++ Sent tag data size :: t2)
| st_read s t1 t2 tag data size buf out start end_ n r : recv_read s buf (u32 tag) = Some (out, start, end_, n, r) ->
    ipc_step (s, t1 ++ Sent tag data size :: t2) (s, t1 ++ Received start end_ n :: t2)
| st_return s t1 t2 start end_ n s' : seq_in_static_list s start end_ FREE_IDX n = Some s' ->
    ipc_step (s, t1 ++ Received start end_ n :: t2) (s', t1 ++ t2).

(** The number of buffers of a message. *)
Definition need (bs size : Z) : Z := (size + bs - 1) / bs.

Definition fits (bs : Z) (bufs : list Z) (size : Z) : Prop := 0 < size <= IPC_MAX_MSGBYTES /\ Z.of_nat (length bufs) = need bs size.

(** The buffers of a thread. *)
Definition thread_ok (s : ep_ipc_que) (t : thread) (bufs : list Z) : Prop :=
  (exists e, bufs_chain s bufs e) /\
  match t with
  | Sending start data size => hd_error bufs = Some start /\ fits (userbufsize s) bufs size
  | Sent tag data size => exists start, hd_error bufs = Some start /\ fits (userbufsize s) bufs size /\
      tag = i32 (msgtag_make (msg_words size) 0 start) /\ msg_count <$> get_info s start = Some (Z.of_nat (length bufs)) /\
      holds (p_get (que s)) (userbufsize s) bufs data 0 size
  | Received start end_ n => hd_error bufs = Some start /\ List.last bufs 0 = end_ /\ n = Z.of_nat (length bufs)
  end.

(** The [n] buffers are the free ones [fl] and those of the threads. *)
Record ipc_inv (n : Z) (s : ep_ipc_que) (ths : list thread) (fl : list Z) (bss : list (list Z)) : Prop := {
  ii_len : length (ipcinfo s) = 252%nat;
  ii_geo : 0 < userbufsize s < 65536 /\ 0 <= n <= 252 /\ n * userbufsize s <= p_size (que s);
  ii_list : slist s = [hd 255 fl] /\ slist_len s = [Z.of_nat (length fl)];
  ii_part : fl ++ mjoin bss ≡ₚ seqZ 0 n;
  ii_free : bufs_chain s fl 255;
  ii_ths : Forall2 (thread_ok s) ths bss }.

(** Two states that agree on the buffers of a thread. *)
Definition same_on (s s' : ep_ipc_que) (bufs : list Z) : Prop :=
  userbufsize s' = userbufsize s /\ (forall b, b ∈ bufs -> get_info s' b = get_info s b) /\
  (forall b y, b ∈ bufs -> byte_of (userbufsize s) b y -> p_get (que s') y = p_get (que s) y).

Lemma thread_same s s' t bufs : same_on s s' bufs -> thread_ok s t bufs -> thread_ok s' t bufs.
Proof.
  intros (E1 & E2 & E3) [(e & C) H]. split; [exists e; eapply chain_ext; [|done]; intros b Hb; by rewrite E2|].
  destruct t as [start data size|tag data size|start end_ k]; rewrite ?E1; [done| |done].
  destruct H as (start & Hs & F & Et & Em & Hd). exists start. split_and!; try done.
  - rewrite E2; [done|]. destruct bufs; [done|]. injection Hs as ->. by left.
  - eapply holds_ext; [|done]. done.
Qed.

Lemma max_msg : IPC_MAX_MSGBYTES = 2040.
Proof. done. Qed.

Lemma threads_same s s' ths bss : (forall bufs, bufs ∈ bss -> same_on s s' bufs) -> Forall2 (thread_ok s) ths bss -> Forall2 (thread_ok s') ths bss.
Proof.
  intros E F. induction F as [|t bufs ths bss H F IH]; constructor.
  - eapply thread_same; [apply E; by left|done].
  - apply IH. intros b Hb. apply E. by right.
Qed.

Lemma need_words size bs : 0 < bs < 65536 -> 0 < size <= IPC_MAX_MSGBYTES ->
  i32 (u64 (size + bs - 1) / bs) = need bs size /\ 0 < need bs size <= 2040 /\ (need bs size - 1) * bs < size <= need bs size * bs.
Proof.
  intros Hb Hs. rewrite max_msg in Hs. unfold need. rewrite u64_small by lia.
  pose proof (Z.div_mod (size + bs - 1) bs ltac:(lia)) as D. pose proof (Z.mod_pos_bound (size + bs - 1) bs ltac:(lia)) as M.
  set (q := (size + bs - 1) / bs) in *. assert (0 < q <= 2040) by nia. rewrite i32_small by lia. nia.
Qed.

Section Inv.
Context (n : Z) (s : ep_ipc_que) (ths : list thread) (fl : list Z) (bss : list (list Z)) (I : ipc_inv n s ths fl bss).

Lemma inv_range b : b ∈ fl ++ mjoin bss -> 0 <= b < n.
Proof. rewrite (ii_part _ _ _ _ _ I). rewrite elem_of_seqZ. lia. Qed.

Lemma inv_nodup : NoDup (fl ++ mjoin bss).
Proof. rewrite (ii_part _ _ _ _ _ I). apply NoDup_seqZ. Qed.

Lemma inv_info b : b ∈ fl ++ mjoin bss -> is_Some (get_info s b).
Proof.
  intros Hb. apply inv_range in Hb. destruct (ii_geo _ _ _ _ _ I) as (_ & Hn & _). unfold get_info. rewrite (proj2 (Z.ltb_ge b 0)) by lia.
  apply lookup_lt_is_Some. rewrite (ii_len _ _ _ _ _ I). lia.
Qed.

Lemma inv_place b : b ∈ fl ++ mjoin bss -> 0 <= b /\ userbufsize s * b + userbufsize s <= p_size (que s).
Proof. intros Hb. apply inv_range in Hb. destruct (ii_geo _ _ _ _ _ I) as (? & ? & ?). nia. Qed.

Lemma inv_count : Z.of_nat (length fl) + Z.of_nat (length (mjoin bss)) = n.
Proof.
  pose proof (Permutation_length (ii_part _ _ _ _ _ I)) as E. rewrite length_app, length_seqZ in E. destruct (ii_geo _ _ _ _ _ I) as (_ & ? & _). lia.
Qed.
End Inv.

Lemma msg_bufs_need n s ths fl bss size : ipc_inv n s ths fl bss -> 0 < size <= IPC_MAX_MSGBYTES -> msg_bufs s size = Some (need (userbufsize s) size).
Proof.
  intros I Hs. destruct (ii_geo _ _ _ _ _ I) as (Hb & _). unfold msg_bufs. rewrite (proj2 (Z.eqb_neq _ 0)) by lia.
  by destruct (need_words size (userbufsize s) Hb Hs) as [-> _].
Qed.

Lemma hd_range fl : (forall b, b ∈ fl -> 0 <= b < 252) -> u8 (hd 255 fl) = hd 255 fl.
Proof. intros R. apply u8_small. destruct fl as [|b fl]; [done|]. pose proof (R b ltac:(by left)). cbn. lia. Qed.

Lemma at_free (x : Z) : [x] !! Z.to_nat FREE_IDX = Some x.
Proof. done. Qed.

Lemma split_first (fl : list Z) k : 0 < k <= Z.of_nat (length fl) ->
  exists start bufs fl', fl = start :: bufs ++ fl' /\ Z.of_nat (S (length bufs)) = k.
Proof.
  intros Hk. destruct fl as [|start fl]; [cbn in Hk; lia|]. exists start, (take (Z.to_nat (k - 1)) fl), (drop (Z.to_nat (k - 1)) fl).
  rewrite take_drop. split; [done|]. rewrite length_take_le; cbn in Hk; lia.
Qed.

Lemma msg_take_inv n s ths fl bss size : ipc_inv n s ths fl bss -> 0 < size <= IPC_MAX_MSGBYTES ->
  (send_take s size = Some (- EIPCOUTIPCBUF, s) /\ Z.of_nat (length fl) < need (userbufsize s) size) \/
  (exists start s' bufs fl', fl = bufs ++ fl' /\ send_take s size = Some (start, s') /\ start <> - EIPCOUTIPCBUF /\
     forall data, ipc_inv n s' (Sending start data size :: ths) fl' (bufs :: bss)).
Proof.
  intros I Hs. destruct (ii_geo _ _ _ _ _ I) as (Hb & Hn & Hp). destruct (ii_list _ _ _ _ _ I) as [L1 L2].
  unfold send_take. rewrite (msg_bufs_need _ _ _ _ _ _ I Hs). cbn [mbind option_bind]. rewrite L2, at_free. cbn [mbind option_bind].
  destruct (need_words size (userbufsize s) Hb Hs) as (_ & Hk & _). set (k := need (userbufsize s) size) in *.
  destruct (Z.ltb_spec (Z.of_nat (length fl)) k) as [Hl|Hl]; [left; split; [reflexivity|exact Hl]|right].
  assert (R : forall b, b ∈ fl -> 0 <= b < 252) by (intros b Hb'; pose proof (inv_range _ _ _ _ _ I b ltac:(set_solver)); lia).
  destruct (split_first fl k ltac:(lia)) as (start & bufs & fl' & -> & Lb).
  pose proof (ii_free _ _ _ _ _ I) as C. change (start :: bufs ++ fl') with ((start :: bufs) ++ fl') in C. apply chain_app in C as [C1 C2].
  pose proof (R start ltac:(by left)) as Rs.
  unfold seq_out_static_list. rewrite L1, L2, !at_free. cbn [mbind option_bind hd].
  pose proof (chain_walk _ _ _ C1) as W. cbn [hd length] in W. replace (Z.to_nat k) with (S (length bufs)) by lia. rewrite W.
  cbn [mbind option_bind]. unfold set_list. rewrite L1, L2, !at_free. cbn [mbind option_bind].
  eexists start, _, (start :: bufs), fl'. split; [done|]. split; [done|]. split; [unfold EIPCOUTIPCBUF; lia|]. intros data.
  rewrite hd_range by (intros b Hb'; apply R; set_solver).
  assert (Len : Z.of_nat (length fl') = Z.of_nat (length (start :: bufs ++ fl')) - k) by (cbn; rewrite length_app; lia).
  pose proof (inv_count _ _ _ _ _ I). rewrite u8_small by lia. destruct I as [I1 I2 I3 I4 I5 I6]. split; cbn; try done.
  - by rewrite Len.
  - rewrite <- I4. cbn. rewrite <- Permutation_middle. constructor. by rewrite app_assoc, (Permutation_app_comm fl' bufs).
  - by apply (chain_ext s).
  - constructor; [|by apply (threads_same s)]. split; [exists (hd 255 fl'); by apply (chain_ext s)|]. split; [done|]. split; [done|]. exact Lb.
Qed.

Lemma byte_apart bs b c y : 0 < bs -> b <> c -> byte_of bs b y -> ~ byte_of bs c y.
Proof. unfold byte_of. intros Hb N H1 H2. assert (b < c \/ c < b) as [|] by lia; nia. Qed.

(** The other threads do not notice what is done to the buffers [bufs]. *)
Lemma others_same n s s' ths fl b1 bufs b2 :
  ipc_inv n s ths fl (b1 ++ bufs :: b2) -> userbufsize s' = userbufsize s ->
  (forall b, b ∉ bufs -> get_info s' b = get_info s b) ->
  (forall y, (forall b, b ∈ bufs -> ~ byte_of (userbufsize s) b y) -> p_get (que s') y = p_get (que s) y) ->
  forall c, c ∈ b1 ++ b2 \/ c = fl -> same_on s s' c.
Proof.
  intros I E1 E2 E3 c Hc. destruct (ii_geo _ _ _ _ _ I) as (Hb & _).
  assert (D : forall b, b ∈ c -> b ∉ bufs).
  { intros b Hbc Hbb. pose proof (inv_nodup _ _ _ _ _ I) as N. rewrite join_app in N. cbn in N.
    rewrite app_assoc, (Permutation_app_comm _ (bufs ++ _)), <- app_assoc in N. apply NoDup_app in N as (_ & N & _). apply (N b Hbb).
    rewrite !elem_of_app. destruct Hc as [Hc| ->]; [|tauto]. apply elem_of_app in Hc as [Hc|Hc]; [right; right|left]; apply list_elem_of_join; eauto. }
  split; [done|]. split; [intros b Hbc; apply E2; by apply D|]. intros b y Hbc Hy. apply E3. intros b' Hb'. apply (byte_apart _ b); [lia| |done].
  intros ->. by apply (D b').
Qed.

Lemma Forall2_middle {A B} (R : A -> B -> Prop) l1 x l2 k : Forall2 R (l1 ++ x :: l2) k ->
  exists k1 y k2, k = k1 ++ y :: k2 /\ Forall2 R l1 k1 /\ R x y /\ Forall2 R l2 k2.
Proof. intros F. apply Forall2_app_inv_l in F as (k1 & k' & F1 & F2 & ->). inversion F2; subst. eauto 10. Qed.

Lemma set_info_run s i x v : get_info s i = Some x ->
  exists s', set_info s i v = Some s' /\ get_info s' i = Some v /\ (forall b, b <> i -> get_info s' b = get_info s b) /\
    length (ipcinfo s') = length (ipcinfo s) /\ slist s' = slist s /\ slist_len s' = slist_len s /\ userbufsize s' = userbufsize s /\ que s' = que s.
Proof.
  intros Hx. unfold set_info. rewrite Hx. cbn [mbind option_bind]. eexists. split; [done|]. unfold get_info in *. cbn. destruct (Z.ltb_spec i 0); [done|].
  split; [apply list_lookup_insert_eq; by eapply lookup_lt_Some|]. split; [|by rewrite length_insert].
  intros b Nb. destruct (Z.ltb_spec b 0); [done|]. apply list_lookup_insert_ne. lia.
Qed.

Lemma fill_inv n s t1 t2 start data size fl bss : ipc_inv n s (t1 ++ Sending start data size :: t2) fl bss ->
  exists tag s', send_fill s start data size = Some (tag, s') /\ ipc_inv n s' (t1 ++ Sent tag data size :: t2) fl bss.
Proof.
  intros I. destruct (Forall2_middle _ _ _ _ _ (ii_ths _ _ _ _ _ I)) as (b1 & bufs & b2 & -> & F1 & [(e & C) (Hh & Fs)] & F2).
  destruct (ii_geo _ _ _ _ _ I) as (Hb & Hn & Hp). destruct Fs as [Hs Hk]. destruct (need_words size (userbufsize s) Hb Hs) as (_ & Hk2 & Hk3).
  assert (Hin : forall b, b ∈ bufs -> b ∈ fl ++ mjoin (b1 ++ bufs :: b2)).
  { intros b Hbb. rewrite join_app. cbn. rewrite !elem_of_app. tauto. }
  destruct bufs as [|start' bufs]; [done|]. injection Hh as ->. destruct (inv_info _ _ _ _ _ I start ltac:(apply Hin; by left)) as [x Hx].
  pose proof (inv_nodup _ _ _ _ _ I) as N. rewrite join_app in N. cbn in N. apply NoDup_app in N as (_ & _ & N). apply NoDup_app in N as (_ & _ & N).
  change (start :: bufs ++ mjoin b2) with ((start :: bufs) ++ mjoin b2) in N. apply NoDup_app in N as (N & _ & _).
  unfold send_fill. rewrite (msg_bufs_need _ _ _ _ _ _ I Hs). cbn [mbind option_bind]. unfold set_msg_count. rewrite Hx. cbn [mbind option_bind].
  destruct (set_info_run s start x (Bufinfo (next_buf_idx x) (u8 (need (userbufsize s) size))) Hx) as (s1 & -> & G1 & G2 & El & Es & Esl & Eb & Eq). cbn [mbind option_bind].
  assert (C1 : bufs_chain s1 (start :: bufs) e).
  { apply (chain_ext s); [|done]. intros b _. destruct (decide (b = start)) as [->|Nb]; [by rewrite G1, Hx|by rewrite G2]. }
  assert (Kl : Z.of_nat (length (start :: bufs)) <= 252).
  { pose proof (inv_count _ _ _ _ _ I) as Hc. rewrite join_app in Hc. cbn [mjoin list_join] in Hc. rewrite !length_app in Hc. lia. }
  pose proof (send_copy_run s1 (start :: bufs) e data 0 size) as Sc. cbn zeta in Sc. rewrite Eb, Eq in Sc.
  destruct Sc as (q & Ec & Pq & Hq & Oq); [done|done|done|intros b Hbb; by eapply inv_place, Hin|rewrite Hk; split; [apply Hk3|]; rewrite max_msg in Hs; lia|].
  rewrite <- Hk, Nat2Z.id. cbn [hd] in Ec. rewrite Ec. cbn [mbind option_bind]. eexists _, _. split; [done|].
  set (s2 := with_que s1 q).
  assert (Sm : forall c, c ∈ b1 ++ b2 \/ c = fl -> same_on s s2 c).
  { eapply others_same; [done|done| |done]. intros b Hbb. change (get_info s2 b) with (get_info s1 b). apply G2. intros ->. apply Hbb. by left. }
  split; cbn [s2 with_que ipcinfo userbufsize que slist slist_len].
  - rewrite El. apply I.
  - rewrite Eb, Pq. apply I.
  - rewrite Es, Esl. apply I.
  - apply I.
  - destruct (Sm fl) as (_ & E & _); [by right|]. apply (chain_ext s); [intros b Hbb; by rewrite E|apply I].
  - apply Forall2_app; [apply (threads_same s); [|done]; intros c Hc; apply Sm; left; set_solver|].
    constructor; [|apply (threads_same s); [|done]; intros c Hc; apply Sm; left; set_solver].
    split; [exists e; by apply (chain_ext s1)|]. exists start. split; [done|]. split; [split; [done|]; cbn [s2 with_que userbufsize]; by rewrite Eb|]. split; [done|].
    split; [|cbn [s2 with_que userbufsize que]; by rewrite Eb]. change (get_info s2 start) with (get_info s1 start). rewrite G1. cbn [fmap option_fmap option_map msg_count].
    rewrite u8_small by lia. by rewrite Hk.
Qed.

Lemma words_range size : 0 < size <= IPC_MAX_MSGBYTES -> 0 < msg_words size < 256 /\ size <= msg_words size * 8 < size + 8.
Proof. rewrite max_msg. intros Hs. unfold msg_words. rewrite u64_small by lia. rewrite i32_small by div_lia. div_lia. Qed.

Lemma msg_read_inv n s t1 t2 tag data size fl bss buf : ipc_inv n s (t1 ++ Sent tag data size :: t2) fl bss ->
  exists out start end_ k r, recv_read s buf (u32 tag) = Some (out, start, end_, k, r) /\ size <= r < size + 8 /\
    (forall x, 0 <= x < size -> out x = data x mod 256) /\ ipc_inv n s (t1 ++ Received start end_ k :: t2) fl bss.
Proof.
  intros I. destruct (Forall2_middle _ _ _ _ _ (ii_ths _ _ _ _ _ I)) as (b1 & bufs & b2 & -> & F1 & [(e & C) (start & Hh & [Hs Hk] & Et & Em & Hd)] & F2).
  destruct (ii_geo _ _ _ _ _ I) as (Hb & Hn & Hp). destruct (need_words size (userbufsize s) Hb Hs) as (_ & Hk2 & Hk3). pose proof (words_range size Hs) as [Hw1 Hw2].
  assert (Hin : forall b, b ∈ bufs -> b ∈ fl ++ mjoin (b1 ++ bufs :: b2)).
  { intros b Hbb. rewrite join_app. cbn. rewrite !elem_of_app. tauto. }
  destruct bufs as [|start' bufs]; [done|]. injection Hh as ->. pose proof (inv_range _ _ _ _ _ I start ltac:(apply Hin; by left)) as Rs.
  destruct (tag_parts (msg_words size) start) as [Tx Tl]; [lia|lia|]. rewrite <- Et in Tx, Tl.
  unfold recv_read. rewrite Tx, Tl. destruct (get_info s start) as [x|] eqn:Hx; [|done]. injection Em as Em. cbn [mbind option_bind]. cbn zeta. rewrite Em, Nat2Z.id.
  destruct (recv_copy_run s (start :: bufs) e start buf 0 (msg_words size * 8) data size) as (out & Er & O1 & _);
    [done|done|intros b Hbb; by eapply inv_place, Hin|rewrite Hk; rewrite max_msg in Hs; lia|lia|rewrite Hk; apply Hk3|done|].
  cbn [hd length] in Er. rewrite Er. cbn [mbind option_bind]. eexists _, _, _, _, _. split; [done|]. split; [lia|]. split; [intros y Hy; apply (O1 y Hy)|].
  destruct I as [I1 I2 I3 I4 I5 I6]. split; try done. apply Forall2_app; [done|]. constructor; [|done]. split; [by exists e|]. split; [done|]. split; [|done].
  by rewrite !Prelude.last_cons.
Qed.

Lemma last_snoc (b : Z) bufs : exists l, b :: bufs = l ++ [List.last (b :: bufs) 0].
Proof. exists (removelast (b :: bufs)). by apply app_removelast_last. Qed.

Lemma return_inv n s t1 t2 start end_ k fl bss : ipc_inv n s (t1 ++ Received start end_ k :: t2) fl bss ->
  exists s' bufs b1 b2, seq_in_static_list s start end_ FREE_IDX k = Some s' /\ bss = b1 ++ bufs :: b2 /\ ipc_inv n s' (t1 ++ t2) (bufs ++ fl) (b1 ++ b2).
Proof.
  intros I. destruct (Forall2_middle _ _ _ _ _ (ii_ths _ _ _ _ _ I)) as (b1 & bufs & b2 & -> & F1 & [(e & C) (Hh & He & Hk)] & F2).
  destruct (ii_geo _ _ _ _ _ I) as (Hb & Hn & Hp). destruct (ii_list _ _ _ _ _ I) as [L1 L2].
  assert (Pm : fl ++ mjoin (b1 ++ bufs :: b2) ≡ₚ bufs ++ fl ++ mjoin (b1 ++ b2)).
  { rewrite !join_app. cbn. rewrite (app_assoc (mjoin b1)), (Permutation_app_comm (mjoin b1) bufs), <- !app_assoc.
    by rewrite app_assoc, (Permutation_app_comm fl bufs), <- app_assoc. }
  assert (R : forall b, b ∈ bufs ++ fl -> 0 <= b < n).
  { intros b Hbb. apply (inv_range _ _ _ _ _ I). rewrite Pm, app_assoc, elem_of_app. by left. }
  assert (N : NoDup (bufs ++ fl)).
  { pose proof (inv_nodup _ _ _ _ _ I) as N. rewrite Pm, app_assoc in N. by apply NoDup_app in N as (N & _). }
  pose proof (inv_count _ _ _ _ _ I) as Cn. rewrite join_app in Cn. cbn [mjoin list_join] in Cn. rewrite !length_app in Cn.
  destruct bufs as [|start' bufs]; [done|]. injection Hh as ->. destruct (last_snoc start bufs) as [l El]. rewrite He in El.
  assert (Ei : end_ ∈ fl ++ mjoin (b1 ++ (start :: bufs) :: b2)) by (rewrite Pm, El; set_solver).
  destruct (inv_info _ _ _ _ _ I end_ Ei) as [x Hx].
  unfold seq_in_static_list. rewrite (proj2 (Z.eqb_neq k 0)) by (cbn in Hk; lia). cbn [negb]. rewrite L1, L2, !at_free. cbn [mbind option_bind].
  destruct (set_info_run s end_ x (Bufinfo (u8 (hd 255 fl)) (msg_count x)) Hx) as (s1 & E1 & G1 & G2 & Sl & S1 & S2 & S3 & S4).
  assert (En : set_next_idx s end_ (hd 255 fl) = Some s1) by (unfold set_next_idx; by rewrite Hx). rewrite En. cbn [mbind option_bind].
  unfold set_list. rewrite S1, S2, L1, L2, !at_free. cbn [mbind option_bind].
  eexists _, (start :: bufs), b1, b2. split; [done|]. split; [done|].
  assert (Sm : forall c, c ∈ b1 ++ b2 \/ c = fl -> same_on s s1 c).
  { eapply others_same; [done|done| |by rewrite S4]. intros b Hbb. apply G2. intros ->. apply Hbb. rewrite El. set_solver. }
  assert (Ch : bufs_chain s1 ((start :: bufs) ++ fl) 255).
  { rewrite El in C, N, R |- *. rewrite <- app_assoc in N |- *. cbn [app] in *. eapply chain_join; [done|apply I|done| |done].
    intros b Hbb. pose proof (R b ltac:(set_solver)). lia. }
  pose proof (R start ltac:(set_solver)). rewrite !u8_small by (cbn in *; lia).
  split; cbn [ipcinfo userbufsize que slist slist_len].
  - rewrite Sl. apply I.
  - rewrite S3, S4. apply I.
  - split; [done|]. rewrite length_app. transitivity [Z.of_nat (length fl) + k]; [done|]. f_equal. lia.
  - rewrite <- (ii_part _ _ _ _ _ I), Pm. by rewrite app_assoc.
  - by apply (chain_ext s1).
  - apply Forall2_app; (eapply threads_same; [|eapply threads_same; [|done]]; [|intros c Hc; apply Sm; left; set_solver]; intros; done).
Qed.

(** ** The area after its initialisation *)

(** An area of [pages] pages, with anything in it. *)
Record ipc_area (s : ep_ipc_que) (pages : Z) : Prop := {
  ia_info : length (ipcinfo s) = 252%nat;
  ia_slist : exists h, slist s = [h];
  ia_len : exists l, slist_len s = [l];
  ia_que : p_size (que s) = pages * 4096 - IPC_SHM_HEADER_BYTES }.

Lemma info_in s i : length (ipcinfo s) = 252%nat -> 0 <= i < 252 -> is_Some (get_info s i).
Proof. intros Hl Hi. unfold get_info. rewrite (proj2 (Z.ltb_ge i 0)) by lia. apply lookup_lt_is_Some. lia. Qed.

Lemma next_run s i v : length (ipcinfo s) = 252%nat -> 0 <= i < 252 ->
  exists s', set_next_idx s i v = Some s' /\ next_buf_idx <$> get_info s' i = Some (u8 v) /\ (forall b, b <> i -> get_info s' b = get_info s b) /\
    length (ipcinfo s') = 252%nat /\ slist s' = slist s /\ slist_len s' = slist_len s /\ que s' = que s.
Proof.
  intros Hl Hi. destruct (info_in s i Hl Hi) as [x Hx]. unfold set_next_idx. rewrite Hx. cbn [mbind option_bind].
  destruct (set_info_run s i x (Bufinfo (u8 v) (msg_count x)) Hx) as (s' & -> & G1 & G2 & Sl & S1 & S2 & _ & S4). exists s'. rewrite G1, Sl. done.
Qed.

Lemma init_loop_run m i s : length (ipcinfo s) = 252%nat -> 0 <= i -> i + Z.of_nat m <= 252 ->
  exists s', init_loop m i s = Some s' /\ (forall j, i <= j < i + Z.of_nat m -> next_buf_idx <$> get_info s' j = Some (u8 (j + 1))) /\
    (forall j, j < i -> get_info s' j = get_info s j) /\
    length (ipcinfo s') = 252%nat /\ slist s' = slist s /\ slist_len s' = slist_len s /\ que s' = que s.
Proof.
  revert i s. induction m as [|m IH]; intros i s Hl Hi Hm; [exists s; split_and!; try done; lia|]. cbn [init_loop].
  destruct (next_run s i (i + 1) Hl ltac:(lia)) as (s1 & -> & G1 & G2 & Sl & S1 & S2 & S3). cbn [mbind option_bind].
  destruct (IH (i + 1) s1 Sl ltac:(lia) ltac:(lia)) as (s' & -> & N1 & N2 & Sl' & S1' & S2' & S3'). exists s'. split; [done|]. split; [|split; [|by rewrite S1', S2', S3']].
  - intros j Hj. destruct (decide (j = i)) as [->|Nj]; [rewrite N2 by lia; done|]. apply N1. lia.
  - intros j Hj. rewrite N2 by lia. apply G2. lia.
Qed.

Lemma chain_seq s i m : (forall j, i <= j < i + Z.of_nat m -> next_buf_idx <$> get_info s j = Some (if j =? i + Z.of_nat m - 1 then 255 else j + 1)) ->
  bufs_chain s (seqZ i (Z.of_nat m)) 255.
Proof.
  revert i. induction m as [|m IH]; intros i E; [done|]. rewrite Nat2Z.inj_succ, seqZ_cons by lia. rewrite Z.pred_succ. split.
  - specialize (E i ltac:(lia)). destruct (get_info s i) as [x|]; [|done]. injection E as E. exists x. split; [done|]. rewrite E.
    destruct m as [|m]; [cbn; by rewrite (proj2 (Z.eqb_eq _ _)) by lia|]. rewrite (proj2 (Z.eqb_neq _ _)) by lia. rewrite Nat2Z.inj_succ, seqZ_cons by lia. lia.
  - apply IH. intros j Hj. rewrite E by lia. do 2 f_equal. destruct (Z.eqb_spec j (Z.succ i + Z.of_nat m - 1)); [by rewrite (proj2 (Z.eqb_eq _ _)) by lia|by rewrite (proj2 (Z.eqb_neq _ _)) by lia].
Qed.

Lemma init_inv s pages bufsize : ipc_area s pages -> 1 <= pages < 1048576 -> 0 < bufsize < 65536 ->
  let n := (pages * 4096 - IPC_SHM_HEADER_BYTES) / bufsize in 1 <= n <= IPC_MAX_MSGCOUNT ->
  exists s1, init_ep_ipc_que s pages bufsize = Some (n, s1) /\ ipc_inv n s1 [] (seqZ 0 n) [].
Proof.
  intros [A1 [h A2] [l A3] A4] Hp Hb n Hn. unfold IPC_SHM_HEADER_BYTES, IPC_MAX_MSGCOUNT in *. unfold init_ep_ipc_que, init_ep_ipc_que_header, calculate_ipcbuf_count.
  rewrite (proj2 (Z.eqb_neq bufsize 0)) by lia. rewrite Z.shiftl_mul_pow2 by done. change (2 ^ PAGE_SIZE_SHIFT) with 4096. unfold IPC_SHM_HEADER_BYTES.
  rewrite (u64_small (pages * 4096)) by lia. rewrite (u64_small (pages * 4096 - 512)) by lia. cbn [mbind option_bind]. fold n. rewrite u64_small by lia.
  destruct (init_loop_run (Z.to_nat (n - 1)) 0 s A1 ltac:(lia) ltac:(lia)) as (s1 & -> & N1 & _ & Sl & S1 & S2 & S3). cbn [mbind option_bind].
  destruct (next_run s1 (n - 1) (-1) Sl ltac:(lia)) as (s2 & -> & G1 & G2 & Sl' & S1' & S2' & S3'). cbn [mbind option_bind].
  unfold set_list. rewrite S1', S2', S1, S2, A2, A3, !at_free. cbn [mbind option_bind]. eexists. split; [done|].
  rewrite (u8_small n), (u16_small bufsize) by lia. split; cbn [ipcinfo userbufsize slist slist_len que].
  - done.
  - split; [done|]. split; [lia|]. rewrite S3', S3, A4. subst n. rewrite Z.mul_comm. apply Z.mul_div_le. lia.
  - split; [by rewrite seqZ_cons by lia|]. rewrite length_seqZ. transitivity [n]; [done|]. f_equal. lia.
  - by rewrite app_nil_r.
  - pose proof (chain_seq s2 0 (Z.to_nat n)) as C. rewrite Z2Nat.id in C by lia. apply (chain_ext s2); [done|]. apply C. intros j Hj.
    destruct (Z.eqb_spec j (0 + n - 1)) as [->|Nj]; [by replace (0 + n - 1) with (n - 1) by lia|]. rewrite G2, N1 by lia. by rewrite u8_small by lia.
  - done.
Qed.

Lemma ipc_step_inv n s ths s' ths' fl bss : ipc_inv n s ths fl bss -> ipc_step (s, ths) (s', ths') -> exists fl' bss', ipc_inv n s' ths' fl' bss'.
Proof.
  intros I St. inversion St; subst.
  - destruct (msg_take_inv _ _ _ _ _ size I) as [[E _]|(start' & s1 & bufs & fl' & _ & E & _ & I')]; [done|congruence|].
    assert (start' = start /\ s1 = s') as [-> ->] by (split; congruence). eauto.
  - destruct (fill_inv _ _ _ _ _ _ _ _ _ I) as (tag' & s1 & E & I'). assert (tag' = tag /\ s1 = s') as [-> ->] by (split; congruence). eauto.
  - destruct (msg_read_inv _ _ _ _ _ _ _ _ _ buf I) as (o & st & e & k & r' & E & _ & _ & I').
    assert (st = start /\ e = end_ /\ k = n0) as (-> & -> & ->) by (split_and!; congruence). eauto.
  - destruct (return_inv _ _ _ _ _ _ _ _ _ I) as (s1 & bufs & b1 & b2 & E & -> & I'). assert (s1 = s') as -> by congruence. eauto.
Qed.

Lemma reach_ipc n c c' : rtc ipc_step c c' -> (exists fl bss, ipc_inv n (fst c) (snd c) fl bss) -> exists fl bss, ipc_inv n (fst c') (snd c') fl bss.
Proof. intros R. induction R as [|[s1 t1] [s2 t2] c3 St _ IH]; [done|]. intros (fl & bss & I). apply IH. by eapply ipc_step_inv. Qed.

(** A call is its two steps. *)
Lemma send_call n s ths fl bss data size : ipc_inv n s ths fl bss -> 0 < size <= IPC_MAX_MSGBYTES ->
  exists r s', _ipc_shm_send_data s data size = Some (r, s') /\
    (r = - EIPCOUTIPCBUF /\ s' = s /\ Z.of_nat (length fl) < need (userbufsize s) size \/
     r <> - EIPCOUTIPCBUF /\ rtc ipc_step (s, ths) (s', Sent r data size :: ths)).
Proof.
  intros I Hs. unfold _ipc_shm_send_data. destruct (msg_take_inv _ _ _ _ _ size I Hs) as [[E Hl]|(start & s1 & bufs & fl' & _ & E & Nst & I')]; rewrite E; cbn [mbind option_bind].
  - rewrite Z.eqb_refl. eexists _, _. split; [done|]. by left.
  - rewrite (proj2 (Z.eqb_neq _ _) Nst). specialize (I' data). destruct (fill_inv _ _ [] _ _ _ _ _ _ I') as (tag & s2 & E2 & I2). exists tag, s2. split; [done|]. right.
    split; [|eapply rtc_l; [by eapply st_take|]; apply rtc_once; by apply (st_fill _ [])].
    pose proof (ii_ths _ _ _ _ _ I2) as F. cbn [app] in F. apply Forall2_cons_1 in F as [[_ (st & Hh & _ & Et & _)] _]. subst tag.
    pose proof (words_range size Hs) as [Hw _]. apply tag_no_error; [lia|]. destruct (ii_geo _ _ _ _ _ I2) as (_ & Hn & _).
    destruct bufs as [|st' bufs]; [done|]. injection Hh as ->. pose proof (inv_range _ _ _ _ _ I2 st ltac:(set_solver)). lia.
Qed.

Lemma recv_call n s t1 t2 tag data size fl bss buf maxsize : ipc_inv n s (t1 ++ Sent tag data size :: t2) fl bss ->
  exists r out s', _ipc_shm_recv_data s buf (u32 tag) maxsize = Some (r, out, s') /\ size <= r < size + 8 /\
    (forall x, 0 <= x < size -> out x = data x mod 256) /\ rtc ipc_step (s, t1 ++ Sent tag data size :: t2) (s', t1 ++ t2).
Proof.
  intros I. unfold _ipc_shm_recv_data. destruct (msg_read_inv _ _ _ _ _ _ _ _ _ buf I) as (out & start & end_ & k & r & E & Hr & Ho & I1). rewrite E. cbn [mbind option_bind].
  destruct (return_inv _ _ _ _ _ _ _ _ _ I1) as (s' & bufs & b1 & b2 & E' & _ & _). rewrite E'. cbn [mbind option_bind]. exists (i32 r), out, s'. split; [done|].
  assert (Hs : 0 < size <= 2040).
  { destruct (Forall2_middle _ _ _ _ _ (ii_ths _ _ _ _ _ I)) as (? & ? & ? & _ & _ & [_ (st & _ & [Hs _] & _)] & _). by rewrite max_msg in Hs. }
  rewrite i32_small by lia. split; [done|]. split; [done|]. eapply rtc_l; [by eapply st_read|]. apply rtc_once. by apply st_return.
Qed.

(** C17: messages in shared memory arrive unchanged.  In an area of at most 252 buffers,
    whatever the senders and receivers did so far with messages of 1 to 2040 bytes:
    [_ipc_shm_send_data] sends any such message or, when there are too few free
    buffers, returns -1 and changes nothing; [_ipc_shm_recv_data] on the tag of any
    message on its way copies out the bytes that were sent (the size it returns is
    rounded up to words) and returns its buffers; a thread between the two sections of
    a call can go on; and when no message is on its way all buffers are free. *)
Theorem ipc_shm_safe s0 pages bufsize :
  ipc_area s0 pages -> 1 <= pages < 1048576 -> 0 < bufsize < 65536 ->
  let n := (pages * 4096 - IPC_SHM_HEADER_BYTES) / bufsize in 1 <= n <= IPC_MAX_MSGCOUNT ->
  exists s1, init_ep_ipc_que s0 pages bufsize = Some (n, s1) /\
  forall s ths, rtc ipc_step (s1, []) (s, ths) ->
    (forall data size, 0 < size <= IPC_MAX_MSGBYTES -> exists r s', _ipc_shm_send_data s data size = Some (r, s') /\
       (r = - EIPCOUTIPCBUF /\ s' = s /\ (exists free, slist_len s = [free] /\ free < need (userbufsize s) size) \/
        r <> - EIPCOUTIPCBUF /\ rtc ipc_step (s, ths) (s', Sent r data size :: ths))) /\
    (forall t1 tag data size t2 buf maxsize, ths = t1 ++ Sent tag data size :: t2 ->
       exists r out s', _ipc_shm_recv_data s buf (u32 tag) maxsize = Some (r, out, s') /\ size <= r < size + 8 /\
         (forall x, 0 <= x < size -> out x = data x mod 256) /\ rtc ipc_step (s, ths) (s', t1 ++ t2)) /\
    (forall t, t ∈ ths -> match t with
       | Sending start data size => is_Some (send_fill s start data size)
       | Sent tag data size => forall buf, is_Some (recv_read s buf (u32 tag))
       | Received start end_ k => is_Some (seq_in_static_list s start end_ FREE_IDX k)
       end) /\
    (ths = [] -> slist_len s = [n]).
Proof.
  intros A Hp Hb n Hn. destruct (init_inv _ _ _ A Hp Hb Hn) as (s1 & E & I0). exists s1. split; [done|]. intros s ths R.
  destruct (reach_ipc n _ _ R) as (fl & bss & I); [by eexists _, _|]. cbn [fst snd] in I. destruct (ii_list _ _ _ _ _ I) as [_ L2]. split_and!.
  - intros data size Hs. destruct (send_call _ _ _ _ _ data size I Hs) as (r & s' & Es & [(-> & -> & Hl)|[Nr St]]); eexists _, _; (split; [done|]); [left|by right].
    split; [done|]. split; [done|]. by eexists.
  - intros t1 tag data size t2 buf maxsize ->. by eapply recv_call.
  - intros t Ht. apply list_elem_of_split in Ht as (t1 & t2 & ->). destruct t as [start data size|tag data size|start end_ k].
    + destruct (fill_inv _ _ _ _ _ _ _ _ _ I) as (? & ? & -> & _). eauto.
    + intros buf. destruct (msg_read_inv _ _ _ _ _ _ _ _ _ buf I) as (? & ? & ? & ? & ? & -> & _). eauto.
    + destruct (return_inv _ _ _ _ _ _ _ _ _ I) as (? & ? & ? & ? & -> & _). eauto.
  - intros ->. pose proof (ii_ths _ _ _ _ _ I) as F. inversion F; subst. pose proof (inv_count _ _ _ _ _ I) as Hc. cbn in Hc. rewrite L2. f_equal. lia.
Qed.

Definition demo_area (pages : Z) : ep_ipc_que :=
  Que [0] [0] 0 (replicate 252 (Bufinfo 0 0)) (Page (pages * 4096 - IPC_SHM_HEADER_BYTES) (fun _ => 0)).

Lemma ipc_shm_safe_witness :
  exists s1, init_ep_ipc_que (demo_area 1) 1 512 = Some (7, s1) /\
    exists r s', _ipc_shm_send_data s1 (fun x => x) 600 = Some (r, s').
Proof.
  destruct (ipc_shm_safe (demo_area 1) 1 512) as (s1 & E & K); [split; [done|by eexists|by eexists|done]|lia|lia|by vm_compute|].
  exists s1. split; [exact E|]. destruct (K s1 [] (rtc_refl _ _)) as (K1 & _). destruct (K1 (fun x => x) 600) as (r & s' & Es & _); [by vm_compute|]. by exists r, s'.
Defined.

(** what the calls do not check.  An empty message takes no buffer, and its tag names
    the first free one: when the next message has taken that, receiving the empty
    message returns the buffers of the other one, and a third message overwrites it
    before it is received.  And an area with more than 252 buffers has no room for
    their list in its header. *)
Theorem ipc_shm_limits :
  ('(_, s) ← init_ep_ipc_que (demo_area 1) 1 512;
   '(ta, s) ← _ipc_shm_send_data s (fun _ => 9) 0;
   '(tb, s) ← _ipc_shm_send_data s (fun _ => 1) 8;
   '(_, _, s) ← _ipc_shm_recv_data s (fun _ => 0) (u32 ta) 8;
   '(tc, s) ← _ipc_shm_send_data s (fun _ => 2) 8;
   '(r, out, s) ← _ipc_shm_recv_data s (fun _ => 0) (u32 tb) 8;
   Some (tb =? tc, r, out 0)) = Some (true, 8, 2) /\
  calculate_ipcbuf_count 3 32 = Some 368 /\ init_ep_ipc_que (demo_area 3) 3 32 = None.
Proof. by vm_compute. Qed.
