(* ===== verification/MemPool.v ===== *)
(** * MemPool: the block pool of lib/mem_pool/mem_pool.c

    A pool keeps its blocks on two circular lists (KList), the free and the used
    ones, and a counter for each.  rpc_test/mem_pool/mem_pool.c is the same file.
    The operations are run one after the other; [block_alloc] and [block_free] are
    parameters: what the client does for the memory of a block. *)
From S2P Require Import Prelude Atomic KList.
From stdpp Require Import list.
Local Open Scope Z_scope.

Definition FREE_MEMBLOCK_LH : Z := 0.
Definition USED_MEMBLOCK_LH : Z := 1.

(** [mempool_block_t]; its [hook] is the cell at the address of the block. *)
Record mempool_block := Mblock { mb_size : Z; mb_block_start : Z }.
Definition sizeof_mempool_block : Z := 32.

(** [mempool_t]: the list heads are cells, [block_lh] at the start of the pool and
    [pool_hook] behind it. *)
Record mempool := Mempool {
  list_len_free : Z;
  list_len_used : Z;
  pool_free_size : Z;
  pool_size : Z;
  pool_start : Z }.
Definition sizeof_mempool : Z := 80.
Definition block_lh (pool type : Z) : Z := pool + 16 * type.
Definition pool_hook (pool : Z) : Z := pool + 32.

(** The memory: the list cells and the rest of the blocks. *)
Record mstore := Mstore { mcells : cells; mblocks : gmap Z mempool_block }.

Definition with_cells (d : mstore) (c : cells) : mstore := Mstore c (mblocks d).

(** [atomic_add(&pool->list_len[...], d)]: the addition of lib/include/atomic.h. *)
Definition add_free (p : mempool) (x : Z) :=
  Mempool (Split.lib_atomic_add_arg (list_len_free p) x) (list_len_used p) (pool_free_size p) (pool_size p) (pool_start p).
Definition sub_free (p : mempool) (x : Z) :=
  Mempool (Split.lib_atomic_sub_arg (list_len_free p) x) (list_len_used p) (pool_free_size p) (pool_size p) (pool_start p).
Definition add_used (p : mempool) (x : Z) :=
  Mempool (list_len_free p) (Split.lib_atomic_add_arg (list_len_used p) x) (pool_free_size p) (pool_size p) (pool_start p).
Definition sub_used (p : mempool) (x : Z) :=
  Mempool (list_len_free p) (Split.lib_atomic_sub_arg (list_len_used p) x) (pool_free_size p) (pool_size p) (pool_start p).
Definition add_free_size (p : mempool) (x : Z) :=
  Mempool (list_len_free p) (list_len_used p) (u64 (pool_free_size p + x)) (pool_size p) (pool_start p).

(** A new block, or NULL.  Its [hook] is uninitialised; both fields are assigned
    before they are read. *)
Definition mempool_block_alloc (a : alloc) (d : mstore) (block_start size : Z) : Z * alloc * mstore :=
  let '(block, a) := malloc a sizeof_mempool_block in
  if negb (block =? NULL)
  then (block, a, Mstore (<[block := LCell 0 0]> (mcells d)) (<[block := Mblock size block_start]> (mblocks d)))
  else (block, a, d).

Definition mempool_block_insert_head (d : mstore) (pool block type : Z) : option mstore :=
  c ← list_insert_after (mcells d) (block_lh pool type) block; Some (with_cells d c).

Definition mempool_block_remove_head (d : mstore) (pool type : Z) : option (Z * mstore) :=
  let head := block_lh pool type in
  block ← get_next (mcells d) head;
  if negb (block =? head) then c ← list_remove (mcells d) block; Some (block, with_cells d c)
  else Some (NULL, d).

Definition mempool_init (d : mstore) (pool pool_size : Z) : mempool * mstore :=
  let c := INIT_LIST_HEAD (mcells d) (block_lh pool FREE_MEMBLOCK_LH) in
  let c := INIT_LIST_HEAD c (block_lh pool USED_MEMBLOCK_LH) in
  let c := INIT_LIST_HEAD c (pool_hook pool) in
  (Mempool (atomic_init 0) (atomic_init 0) 0 pool_size 0, with_cells d c).

Section Create.
(** [block_alloc(&size)]: the address and the new size. *)
Context (block_alloc : alloc -> Z -> Z * Z * alloc).

Fixpoint create_loop (n : nat) (a : alloc) (d : mstore) (pool : Z) (p : mempool) (real_block_size : Z)
    : option (alloc * mstore * mempool) :=
  match n with
  | O => Some (a, d, p)
  | S n =>
      let '(block_start, real_block_size, a) := block_alloc a real_block_size in
      let '(block, a, d) := mempool_block_alloc a d block_start real_block_size in
      d ← mempool_block_insert_head d pool block FREE_MEMBLOCK_LH;
      create_loop n a d pool (add_free_size (add_free p 1) real_block_size) real_block_size
  end.

(** The result is the address of the pool, or NULL. *)
Definition mempool_create (a : alloc) (d : mstore) (block_size block_count : Z)
    : option (Z * alloc * mstore * option mempool) :=
  if (block_size =? 0) || (block_count =? 0) then Some (NULL, a, d, None)
  else
    let '(pool, a) := malloc a sizeof_mempool in
    if pool =? NULL then Some (NULL, a, d, None)
    else
      let '(p, d) := mempool_init d pool (u64 (block_count * block_size)) in
      '(a, d, p) ← create_loop (Z.to_nat block_count) a d pool p block_size;
      Some (pool, a, d, Some (add_used p 1)).
End Create.

Definition EMEMPOOLUSING : Z := 1.
Definition EMEMPOOLINV : Z := 1.

(** One round of the loop of [mempool_destroy]; [freed] are the arguments [block_free]
    has been called with. *)
Definition destroy_body (pool : Z) (s : mstore * list Z) : option (mstore * list Z) :=
  let '(d, freed) := s in
  '(block, d) ← mempool_block_remove_head d pool FREE_MEMBLOCK_LH;
  if negb (block =? NULL) then
    b ← mblocks d !! block;
    Some (Mstore (delete block (mcells d)) (delete block (mblocks d)), freed ++ [mb_block_start b])
  else Some (d, freed).

Fixpoint destroy_loop (fuel : nat) (pool : Z) (p : mempool) (s : mstore * list Z) : option (mstore * list Z) :=
  match fuel with
  | O => None
  | S fuel =>
      if list_len_free p =? 0 then Some s
      else s ← destroy_body pool s; destroy_loop fuel pool p s
  end.

Definition mempool_destroy (fuel : nat) (d : mstore) (pool : Z) (p : option mempool)
    : option (Z * mstore * option mempool * list Z) :=
  match p with
  | None => Some (- EMEMPOOLINV, d, None, [])
  | Some p =>
      let p := sub_used p 1 in
      if negb (list_len_used p =? 0) then Some (- EMEMPOOLUSING, d, Some (add_used p 1), [])
      else '(d, freed) ← destroy_loop fuel pool p (d, []); Some (0, d, None, freed)
  end.

Definition mempool_alloc (d : mstore) (pool : Z) (p : option mempool) : option (Z * mstore * option mempool) :=
  match p with
  | None => Some (NULL, d, None)
  | Some p =>
      let p := sub_free (add_used p 1) 1 in
      '(block, d) ← mempool_block_remove_head d pool FREE_MEMBLOCK_LH;
      if negb (block =? NULL) then
        d ← mempool_block_insert_head d pool block USED_MEMBLOCK_LH; Some (block, d, Some p)
      else Some (block, d, Some p)
  end.

Definition mempool_free (d : mstore) (pool : Z) (p : option mempool) (block : Z) : option (mstore * option mempool) :=
  match p with
  | None => Some (d, None)
  | Some p =>
      if block =? NULL then Some (d, Some p)
      else
        let p := sub_used (add_free p 1) 1 in
        c ← list_del_init (mcells d) block;
        d ← mempool_block_insert_head (with_cells d c) pool block FREE_MEMBLOCK_LH;
        Some (d, Some p)
  end.

(** ** Refinement *)

Definition lists (pool : Z) (fl ul : list Z) : list (Z * list Z) :=
  [(block_lh pool FREE_MEMBLOCK_LH, fl); (block_lh pool USED_MEMBLOCK_LH, ul)].

(** The pool at [pool] has the free blocks [fl] and the used blocks [ul], both from
    the head of their lists on; [lost] requests found no free block. *)
Record pool_rep (d : mstore) (pool : Z) (p : mempool) (fl ul : list Z) (lost : Z) : Prop := {
  pr_lists : rings (mcells d) (lists pool fl ul);
  pr_blocks : forall x, x ∈ fl ++ ul -> x <> NULL /\ is_Some (mblocks d !! x);
  pr_len_free : list_len_free p = Z.of_nat (length fl) - lost;
  pr_len_used : list_len_used p = Z.of_nat (length ul) + 1 + lost;
  pr_bound : 0 <= lost /\ Z.of_nat (length fl) + Z.of_nat (length ul) + lost < 2147483646 }.

Lemma lists_nodup m pool fl ul : rings m (lists pool fl ul) -> NoDup (fl ++ ul).
Proof.
  intros [_ N]. unfold lists in N. rewrite !ring_nodes_cons in N. cbn [ring_nodes mbind list_bind app] in N. rewrite app_nil_r in N.
  apply NoDup_cons in N as [_ N]. apply NoDup_app in N as (N1 & N2 & N3). apply NoDup_cons in N3 as [_ N3].
  apply NoDup_app. split; [done|]. split; [|done]. intros x Hx Hu. apply (N2 x Hx). by right.
Qed.

(** The blocks of the pool, without the counters. *)
Definition blocks_rep (d : mstore) (pool : Z) (fl ul : list Z) : Prop :=
  rings (mcells d) (lists pool fl ul) /\ forall x, x ∈ fl ++ ul -> x <> NULL /\ is_Some (mblocks d !! x).

(** [mempool_alloc]: the first free block becomes the first used one. *)
Lemma alloc_blocks d pool p fl ul :
  blocks_rep d pool fl ul ->
  exists d', mempool_alloc d pool (Some p) = Some (hd NULL fl, d', Some (sub_free (add_used p 1) 1)) /\ mblocks d' = mblocks d /\
    blocks_rep d' pool (tail fl) (match fl with x :: _ => x :: ul | [] => ul end).
Proof.
  intros [RL RB]. unfold mempool_alloc, mempool_block_remove_head.
  destruct (ring_head _ _ _ (proj1 (rings_split _ [] _ _ _ RL))) as [-> _]. cbn [mbind option_bind].
  destruct fl as [|x fl]; cbn [hd tail] in *.
  - rewrite Z.eqb_refl. cbn [negb mbind option_bind NULL Z.eqb]. by exists d.
  - destruct (RB x ltac:(set_solver)) as [Nx _]. pose proof (rings_split _ [] _ _ _ RL) as (_ & N & _).
    assert (x <> block_lh pool FREE_MEMBLOCK_LH) by (apply NoDup_cons in N as [N _]; set_solver).
    rewrite (proj2 (Z.eqb_neq x _)) by done. cbn [negb].
    pose proof (left_list _ [] _ [] _ _ _ RL) as NL. pose proof (ring_cell _ _ _ x (proj1 (rings_split _ [] _ _ _ RL)) ltac:(set_solver)) as C.
    destruct (rings_remove _ [] _ [] _ _ _ RL) as (c1 & -> & RL1 & C1). cbn [mbind option_bind].
    rewrite (proj2 (Z.eqb_neq x _)) by done. cbn [negb]. unfold mempool_block_insert_head. cbn [mcells with_cells].
    destruct (rings_insert_after c1 [(block_lh pool FREE_MEMBLOCK_LH, fl)] (block_lh pool USED_MEMBLOCK_LH) ul x [])
      as (c2 & -> & RL2 & _); [done|by unfold is_cell; rewrite C1|done|].
    cbn [mbind option_bind]. eexists. split; [done|]. split; [done|]. split; [done|]. intros y Hy. apply RB. set_solver.
Qed.

(** [mempool_free]: a used block becomes the first free one. *)
Lemma free_blocks d pool p fl u1 x u2 :
  blocks_rep d pool fl (u1 ++ x :: u2) ->
  exists d', mempool_free d pool (Some p) x = Some (d', Some (sub_used (add_free p 1) 1)) /\ mblocks d' = mblocks d /\
    blocks_rep d' pool (x :: fl) (u1 ++ u2).
Proof.
  intros [RL RB]. destruct (RB x ltac:(set_solver)) as [Nx _]. unfold mempool_free.
  rewrite (proj2 (Z.eqb_neq x NULL)) by done.
  pose proof (left_list _ [(block_lh pool FREE_MEMBLOCK_LH, fl)] _ _ _ _ _ RL) as NL.
  destruct (rings_del_init _ [(block_lh pool FREE_MEMBLOCK_LH, fl)] _ _ _ _ _ RL) as (c1 & -> & RL1 & C1 & _). cbn [mbind option_bind].
  unfold mempool_block_insert_head. cbn [mcells with_cells].
  destruct (rings_insert_after c1 [] (block_lh pool FREE_MEMBLOCK_LH) fl x [(block_lh pool USED_MEMBLOCK_LH, u1 ++ u2)])
    as (c2 & -> & RL2 & _); [done|by unfold is_cell; rewrite C1|done|].
  cbn [mbind option_bind]. eexists. split; [done|]. split; [done|]. split; [done|]. intros y Hy. apply RB. set_solver.
Qed.

Ltac counters := unfold add_free, sub_free, add_used, sub_used, Split.lib_atomic_add_arg, Split.lib_atomic_sub_arg;
  cbn [list_len_free list_len_used]; cint.

Lemma alloc_rep d pool p fl ul lost :
  pool_rep d pool p fl ul lost -> Z.of_nat (length fl) + Z.of_nat (length ul) + lost < 2147483645 ->
  exists d' p', mempool_alloc d pool (Some p) = Some (hd NULL fl, d', Some p') /\
    match fl with
    | x :: fl => pool_rep d' pool p' fl (x :: ul) lost
    | [] => pool_rep d' pool p' [] ul (lost + 1)
    end.
Proof.
  intros [RL RB RF RU Rn] B. destruct (alloc_blocks d pool p fl ul (conj RL RB)) as (d' & E & _ & RL' & RB').
  exists d', (sub_free (add_used p 1) 1). split; [done|].
  destruct fl as [|x fl]; cbn [tail length] in *; (split; [done|done| | |]); try (counters; rewrite ?RF, ?RU; cbn; lia); cbn in *; lia.
Qed.

Lemma free_rep d pool p fl u1 x u2 lost :
  pool_rep d pool p fl (u1 ++ x :: u2) lost ->
  exists d' p', mempool_free d pool (Some p) x = Some (d', Some p') /\ pool_rep d' pool p' (x :: fl) (u1 ++ u2) lost.
Proof.
  intros [RL RB RF RU Rn]. destruct (free_blocks d pool p fl u1 x u2 (conj RL RB)) as (d' & E & _ & RL' & RB').
  exists d', (sub_used (add_free p 1) 1). split; [done|]. rewrite !length_app in *. cbn [length] in *.
  split; [done|done| | |]; try (counters; rewrite ?RF, ?RU, ?length_app; cbn; lia).
Qed.

(** ** Creation *)

(** Every cell of the store lies below the memory that is still free. *)
Definition fresh_above (a : alloc) (d : mstore) : Prop := forall x, is_cell (mcells d) x -> x < a_next a.

Lemma init_cell m p x : is_cell (INIT_LIST_HEAD m p) x -> x = p \/ is_cell m x.
Proof.
  unfold is_cell, INIT_LIST_HEAD. destruct (decide (x = p)) as [->|N]; [by left|]. rewrite lookup_insert_ne by done. by right.
Qed.

(** [block_alloc] asks for at most [B] bytes of address space and gets them. *)
Definition block_alloc_fits (block_alloc : alloc -> Z -> Z * Z * alloc) (B : Z) : Prop :=
  forall a sz, 0 <= sz -> a_oom a = [] -> 0 < a_next a -> a_next a + B <= ADDR_TOP ->
    let '(_, sz', a') := block_alloc a sz in 0 <= sz' /\ a_oom a' = [] /\ a_next a <= a_next a' <= a_next a + B.

Section CreateSpec.
Context (block_alloc : alloc -> Z -> Z * Z * alloc) (B : Z).
Hypothesis block_alloc_ok : block_alloc_fits block_alloc B.

(** One block: allocated, and put at the head of the free list. *)
Lemma create_step a d pool fl block_start sz :
  a_oom a = [] -> 0 < a_next a -> a_next a + 48 <= ADDR_TOP -> fresh_above a d -> rings (mcells d) (lists pool fl []) ->
  exists d', mempool_block_alloc a d block_start sz = (a_next a, Alloc (a_next a + 48) [], Mstore (<[a_next a := LCell 0 0]> (mcells d)) (<[a_next a := Mblock sz block_start]> (mblocks d))) /\
    mempool_block_insert_head (Mstore (<[a_next a := LCell 0 0]> (mcells d)) (<[a_next a := Mblock sz block_start]> (mblocks d))) pool (a_next a) FREE_MEMBLOCK_LH = Some d' /\
    mblocks d' = <[a_next a := Mblock sz block_start]> (mblocks d) /\
    rings (mcells d') (lists pool (a_next a :: fl) []) /\ fresh_above (Alloc (a_next a + 48) []) d'.
Proof.
  intros Ho Hp Ht Fr RL. unfold mempool_block_alloc. rewrite malloc_ok_result by (done || (unfold sizeof_mempool_block; cbn; lia)).
  rewrite (proj2 (Z.eqb_neq _ NULL)) by (unfold NULL; lia). cbn [negb].
  assert (Nn : a_next a ∉ ring_nodes (lists pool fl [])) by (intros H; pose proof (Fr _ (rings_cells _ _ _ RL H)); lia).
  unfold mempool_block_insert_head. cbn [mcells].
  destruct (rings_insert_after (<[a_next a := LCell 0 0]> (mcells d)) [] (block_lh pool FREE_MEMBLOCK_LH) fl (a_next a) [(block_lh pool USED_MEMBLOCK_LH, [])])
    as (c & -> & RL' & F).
  { eapply rings_frame; [|exact RL]. intros y Hy. apply lookup_insert_ne. by intros <-. }
  { unfold is_cell. rewrite lookup_insert_eq. eauto. }
  { done. }
  cbn [mbind option_bind]. eexists. split; [done|]. split; [done|]. split; [done|]. split; [done|].
  intros x Hx. cbn in *. destruct (decide (x ∈ a_next a :: block_lh pool FREE_MEMBLOCK_LH :: fl)) as [Hi|Hi].
  - apply elem_of_cons in Hi as [->|Hi]; [lia|]. assert (x < a_next a); [|lia]. apply Fr, (rings_cells _ _ _ RL).
    unfold lists. rewrite ring_nodes_cons. set_solver.
  - unfold is_cell in Hx. rewrite F in Hx by done. rewrite lookup_insert_ne in Hx by set_solver. pose proof (Fr x Hx). lia.
Qed.

Lemma create_loop_rep n a d pool p sz fl :
  0 <= sz -> a_oom a = [] -> 0 < a_next a -> 0 <= B -> a_next a + Z.of_nat n * (B + 48) <= ADDR_TOP -> fresh_above a d ->
  rings (mcells d) (lists pool fl []) -> (forall x, x ∈ fl -> x <> NULL /\ is_Some (mblocks d !! x)) ->
  list_len_free p = Z.of_nat (length fl) -> Z.of_nat (length fl + n) < 2147483646 ->
  exists a' d' p' bl, create_loop block_alloc n a d pool p sz = Some (a', d', p') /\ length bl = n /\
    rings (mcells d') (lists pool (bl ++ fl) []) /\ (forall x, x ∈ bl ++ fl -> x <> NULL /\ is_Some (mblocks d' !! x)) /\
    list_len_free p' = Z.of_nat (length (bl ++ fl)) /\ list_len_used p' = list_len_used p /\
    a_oom a' = [] /\ a_next a <= a_next a' <= a_next a + Z.of_nat n * (B + 48).
Proof.
  revert a d p sz fl. induction n as [|n IH]; intros a d p sz fl Hz Ho Hp HB Ht Fr RL Bl Lf Ln.
  { exists a, d, p, []. split_and!; done || lia. }
  pose proof (Z.mul_nonneg_nonneg (Z.of_nat n) (B + 48) ltac:(lia) ltac:(lia)) as NN. rewrite Nat2Z.inj_succ, Z.mul_succ_l in Ht.
  cbn [create_loop]. pose proof (block_alloc_ok a sz Hz Ho Hp ltac:(lia)) as BA.
  destruct (block_alloc a sz) as [[bs sz'] a1] eqn:Eb. destruct BA as (Hz1 & Ho1 & Hn1).
  destruct (create_step a1 d pool fl bs sz') as (d' & -> & -> & Eb' & RL' & Fr'); [done|lia|lia|intros x Hx; pose proof (Fr x Hx); lia|done|].
  cbn [mbind option_bind].
  destruct (IH (Alloc (a_next a1 + 48) []) d' (add_free_size (add_free p 1) sz') sz' (a_next a1 :: fl))
    as (a2 & d2 & p2 & bl & E & Lb & RL2 & Bl2 & Lf2 & Lu2 & Ho2 & Hn2); cbn [a_next a_oom]; try (done || lia).
  - intros x Hx. rewrite Eb'. apply elem_of_cons in Hx as [->|Hx]; [rewrite lookup_insert_eq; split; [unfold NULL; lia|eauto]|].
    destruct (Bl x Hx) as [Nx Sx]. split; [done|]. destruct (decide (x = a_next a1)) as [->|N]; [rewrite lookup_insert_eq; eauto|].
    by rewrite lookup_insert_ne.
  - cbn [add_free_size add_free list_len_free length]. unfold Split.lib_atomic_add_arg. rewrite Lf. cint. lia.
  - cbn [length]. lia.
  - rewrite E. exists a2, d2, p2, (bl ++ [a_next a1]). rewrite <- app_assoc. cbn [app a_next] in *. split_and!; try done; try lia.
    rewrite length_app. cbn. lia.
Qed.

(** With memory enough, [mempool_create] makes a pool of [n] free blocks. *)
Lemma mempool_create_rep a d block_size n :
  0 < block_size -> 0 < n < 2147483646 -> a_oom a = [] -> 0 < a_next a -> 0 <= B ->
  a_next a + 96 + n * (B + 48) <= ADDR_TOP -> fresh_above a d ->
  exists pool a' d' p fl, mempool_create block_alloc a d block_size n = Some (pool, a', d', Some p) /\
    pool <> NULL /\ Z.of_nat (length fl) = n /\ pool_rep d' pool p fl [] 0 /\
    a_oom a' = [] /\ a_next a <= a_next a' <= a_next a + 96 + n * (B + 48).
Proof.
  intros Hb Hn Ho Hp HB Ht Fr. pose proof (Z.mul_nonneg_nonneg n (B + 48) ltac:(lia) ltac:(lia)) as NN. unfold mempool_create. rewrite (proj2 (Z.eqb_neq block_size 0)), (proj2 (Z.eqb_neq n 0)) by lia. cbn [orb].
  rewrite malloc_ok_result by (done || (change (16 * (sizeof_mempool / 16 + 1)) with 96; lia)).
  rewrite (proj2 (Z.eqb_neq _ NULL)) by (unfold NULL; lia). cbn [mempool_init]. set (pool := a_next a) in *.
  set (c := INIT_LIST_HEAD (INIT_LIST_HEAD (INIT_LIST_HEAD (mcells d) _) _) _).
  assert (RL : rings c (lists pool [] [])).
  { unfold c, lists, rings, ring, ring_nodes, INIT_LIST_HEAD, block_lh, pool_hook, FREE_MEMBLOCK_LH, USED_MEMBLOCK_LH. cbn.
    split; [|apply NoDup_cons; split; [set_solver by lia|apply NoDup_singleton]].
    repeat constructor; try set_solver; unfold get_next, get_prev; simplify_map_eq by lia; done. }
  destruct (create_loop_rep (Z.to_nat n) (Alloc (pool + 96) []) (with_cells d c) pool (Mempool (atomic_init 0) (atomic_init 0) 0 (u64 (n * block_size)) 0) block_size [])
    as (a' & d' & p & fl & E & Lf & RL' & Bl & Lq & Lu & Ho' & Hn'); cbn [a_next a_oom length]; try (done || lia).
  - intros x Hx. cbn [mcells with_cells] in Hx. unfold c, block_lh, pool_hook, FREE_MEMBLOCK_LH, USED_MEMBLOCK_LH in Hx.
    apply init_cell in Hx as [->|Hx]; [cbn; lia|]. apply init_cell in Hx as [->|Hx]; [cbn; lia|].
    apply init_cell in Hx as [->|Hx]; [cbn; lia|]. pose proof (Fr x Hx). unfold pool. cbn. lia.
  - intros x Hx. by apply not_elem_of_nil in Hx.
  - rewrite app_nil_r in *. cbn [mbind option_bind]. change (96) with (16 * (sizeof_mempool / 16 + 1)) in E. fold pool. rewrite E.
    cbn [mbind option_bind]. exists pool, a', d', (add_used p 1), fl. split; [done|]. split; [unfold NULL; lia|]. split; [lia|].
    split; [|cbn [a_next] in Hn'; rewrite Z2Nat.id in Hn' by lia; unfold pool in *; split; [done|lia]].
    split; [done|by rewrite app_nil_r|cbn [add_used list_len_free]; lia| |cbn; lia].
    cbn [add_used list_len_used length]. unfold Split.lib_atomic_add_arg. rewrite Lu. reflexivity.
Qed.
End CreateSpec.

(** ** Clients *)

Inductive pool_op := PAlloc | PFree (block : Z).

Definition pool_run (pool : Z) (s : mstore * mempool) (o : pool_op) : option (Z * (mstore * mempool)) :=
  match o with
  | PAlloc => '(x, d, p) ← mempool_alloc (fst s) pool (Some (snd s)); p ← p; Some (x, (d, p))
  | PFree b => '(d, p) ← mempool_free (fst s) pool (Some (snd s)) b; p ← p; Some (0, (d, p))
  end.

(** What a client may rely on: the free blocks are a stack; it may return the blocks
    that it holds. *)
Definition spec_run (s : list Z * list Z * Z) (o : pool_op) : option (Z * (list Z * list Z * Z)) :=
  let '(fl, ul, lost) := s in
  match o with
  | PAlloc => match fl with x :: fl => Some (x, (fl, x :: ul, lost)) | [] => Some (NULL, ([], ul, lost + 1)) end
  | PFree b => if bool_decide (b ∈ ul) then Some (0, (b :: fl, filter (fun x => x <> b) ul, lost)) else None
  end.

Fixpoint run_all {S} (f : S -> pool_op -> option (Z * S)) (s : S) (os : list pool_op) : option (list Z * S) :=
  match os with
  | [] => Some ([], s)
  | o :: os => '(r, s) ← f s o; '(rs, s) ← run_all f s os; Some (r :: rs, s)
  end.

Definition simulates (pool : Z) (s : mstore * mempool) (t : list Z * list Z * Z) : Prop :=
  pool_rep (fst s) pool (snd s) t.1.1 t.1.2 t.2.

Definition used_up (t : list Z * list Z * Z) : Z := Z.of_nat (length t.1.1) + Z.of_nat (length t.1.2) + t.2.

Lemma filter_middle (u1 u2 : list Z) x : NoDup (u1 ++ x :: u2) -> filter (fun y => y <> x) (u1 ++ x :: u2) = u1 ++ u2.
Proof.
  intros N. apply NoDup_app in N as (_ & N1 & N). apply NoDup_cons in N as [N2 _].
  assert (K : forall l : list Z, x ∉ l -> filter (fun y => y <> x) l = l).
  { induction l as [|y l IH]; intros H; [done|]. rewrite filter_cons, decide_True by set_solver. by rewrite IH by set_solver. }
  rewrite filter_app, filter_cons, decide_False by naive_solver. rewrite (K u1), (K u2); [done|done|].
  intros H. apply (N1 x H). by left.
Qed.

Lemma simulates_step pool s t o r t' :
  simulates pool s t -> used_up t < 2147483645 -> spec_run t o = Some (r, t') ->
  exists s', pool_run pool s o = Some (r, s') /\ simulates pool s' t' /\ used_up t' <= used_up t + 1.
Proof.
  destruct s as [d p], t as [[fl ul] lost]. unfold simulates, used_up. cbn [fst snd]. intros R B E. destruct o as [|b]; cbn in E.
  - destruct (alloc_rep _ _ _ _ _ _ R B) as (d' & p' & Ea & R'). unfold pool_run. cbn [fst snd]. rewrite Ea. cbn [mbind option_bind].
    destruct fl as [|x fl]; injection E as <- <-; cbn [hd]; eexists; (split; [done|]; split; [exact R'|cbn; lia]).
  - destruct (bool_decide_reflect (b ∈ ul)) as [Hb|]; [|done]. injection E as <- <-.
    apply list_elem_of_split in Hb as (u1 & u2 & ->).
    destruct (rings_split _ [(_, fl)] _ _ _ (pr_lists _ _ _ _ _ _ R)) as (_ & N & _). apply NoDup_cons in N as [_ N].
    rewrite filter_middle by done. destruct (free_rep _ _ _ _ _ _ _ _ R) as (d' & p' & Ef & R').
    unfold pool_run. cbn [fst snd]. rewrite Ef. cbn [mbind option_bind]. eexists. split; [done|]. split; [exact R'|].
    cbn [fst snd length]. rewrite !length_app. cbn [length]. lia.
Qed.

Lemma simulates_run pool os s t rs t' :
  simulates pool s t -> used_up t + Z.of_nat (length os) < 2147483646 -> run_all spec_run t os = Some (rs, t') ->
  exists s', run_all (pool_run pool) s os = Some (rs, s') /\ simulates pool s' t'.
Proof.
  revert s t rs. induction os as [|o os IH]; intros s t rs R B E; cbn in E.
  { injection E as <- <-. by exists s. }
  destruct (spec_run t o) as [[r t1]|] eqn:Eo; [|done]. cbn in E.
  destruct (run_all spec_run t1 os) as [[rs1 t2]|] eqn:Es; [|done]. injection E as <- <-. cbn [length] in B.
  destruct (simulates_step _ _ _ _ _ _ R ltac:(lia) Eo) as (s1 & E1 & R1 & B1).
  destruct (IH s1 t1 rs1 R1 ltac:(lia) Es) as (s2 & E2 & R2). exists s2. split; [|done]. cbn [run_all]. rewrite E1. cbn [mbind option_bind].
  rewrite E2. done.
Qed.

(** ** The theorems *)

(** C31: [mempool_create] with memory enough makes a pool of [n] distinct blocks, and
    then any sequence of [mempool_alloc] and [mempool_free], where the client returns
    only blocks it holds, behaves like a stack of the free blocks: a request gets the
    block returned last, or NULL when all [n] are held; no block is held twice.  The
    counters are exact but for the requests that got NULL, each of which is counted
    as a used block and taken from the free ones. *)
Theorem mempool_refinement block_alloc B a d block_size n os rs t :
  block_alloc_fits block_alloc B ->
  0 < block_size -> 0 < n -> n + Z.of_nat (length os) < 2147483646 -> a_oom a = [] -> 0 < a_next a -> 0 <= B ->
  a_next a + 96 + n * (B + 48) <= ADDR_TOP -> fresh_above a d ->
  exists pool a' d' p fl, mempool_create block_alloc a d block_size n = Some (pool, a', d', Some p) /\
    Z.of_nat (length fl) = n /\ NoDup fl /\
    (run_all spec_run (fl, [], 0) os = Some (rs, t) ->
     exists d'' p'', run_all (pool_run pool) (d', p) os = Some (rs, (d'', p'')) /\ NoDup (t.1.1 ++ t.1.2) /\
       list_len_free p'' = Z.of_nat (length t.1.1) - t.2 /\ list_len_used p'' = Z.of_nat (length t.1.2) + 1 + t.2).
Proof.
  intros BA Hb Hn Hl Ho Hp HB Ht Fr.
  destruct (mempool_create_rep block_alloc B BA a d block_size n) as (pool & a' & d' & p & fl & E & Np & Lf & R & _); try (done || lia).
  exists pool, a', d', p, fl. split; [done|]. split; [done|].
  split; [rewrite <- (app_nil_r fl); by eapply lists_nodup, R|]. intros Es.
  destruct (simulates_run pool os (d', p) (fl, [], 0) rs t R) as ([d'' p''] & E'' & R''); [unfold used_up; cbn; lia|done|].
  exists d'', p''. split; [done|]. split; [by eapply lists_nodup, R''|]. split; apply R''.
Qed.

Lemma mempool_refinement_witness :
  exists pool a' d' p fl, mempool_create (fun a sz => (a_next a, sz, a)) (Alloc 4096 []) (Mstore ∅ ∅) 64 2 = Some (pool, a', d', Some p) /\
    Z.of_nat (length fl) = 2 /\ NoDup fl /\
    (run_all spec_run (fl, [], 0) [PAlloc; PAlloc; PAlloc] = Some ([4240; 4192; 0], ([], [4192; 4240], 1)) ->
     exists d'' p'', run_all (pool_run pool) (d', p) [PAlloc; PAlloc; PAlloc] = Some ([4240; 4192; 0], (d'', p'')) /\
       NoDup ([] ++ [4192; 4240]) /\ list_len_free p'' = 0 - 1 /\ list_len_used p'' = 2 + 1 + 1).
Proof.
  apply (mempool_refinement (fun a sz => (a_next a, sz, a)) 0 (Alloc 4096 []) (Mstore ∅ ∅) 64 2 [PAlloc; PAlloc; PAlloc] [4240; 4192; 0]
           ([], [4192; 4240], 1)); try (lia || done || (cbn; lia)).
  - intros a sz Hz Ho Hp Ht. cbn. split_and!; done || lia.
  - intros x [c Hx]. cbn [mcells] in Hx. by rewrite lookup_empty in Hx.
Defined.

(** The rounds of the loop of [mempool_destroy]. *)
Lemma destroy_rounds d pool p fl ul lost k :
  pool_rep d pool p fl ul lost ->
  exists s, Nat.iter k (fun s => s ≫= destroy_body pool) (Some (d, [])) = Some s.
Proof.
  intros R. assert (K : exists d' freed j, Nat.iter k (fun s => s ≫= destroy_body pool) (Some (d, [])) = Some (d', freed) /\
    rings (mcells d') (lists pool (drop j fl) ul) /\ (forall x, x ∈ drop j fl -> x <> NULL /\ is_Some (mblocks d' !! x))).
  { induction k as [|k (d' & freed & j & E & RL & RB)].
    { exists d, [], 0%nat. split; [done|]. split; [apply R|]. intros x Hx. apply (pr_blocks _ _ _ _ _ _ R). set_solver. }
    rewrite Nat.iter_succ, E. cbn [mbind option_bind destroy_body]. unfold mempool_block_remove_head.
    pose proof (rings_split _ [] _ _ _ RL) as (Rg & N & _). destruct (ring_head _ _ _ Rg) as [-> _]. cbn [mbind option_bind].
    destruct (drop j fl) as [|x fl'] eqn:Ed; cbn [hd].
    - rewrite Z.eqb_refl. cbn [negb mbind option_bind NULL Z.eqb]. exists d', freed, j. rewrite Ed. by split_and!.
    - destruct (RB x ltac:(by left)) as [Nx [b Eb]]. assert (x <> block_lh pool FREE_MEMBLOCK_LH) by (apply NoDup_cons in N as [N _]; set_solver).
      rewrite (proj2 (Z.eqb_neq x _)) by done. cbn [negb]. pose proof (left_list _ [] _ [] _ _ _ RL) as NL.
      destruct (rings_remove _ [] _ [] _ _ _ RL) as (c & -> & RL' & _). cbn [mbind option_bind].
      rewrite (proj2 (Z.eqb_neq x NULL)) by done. cbn [negb mblocks with_cells]. rewrite Eb. cbn [mbind option_bind mcells].
      assert (Ed' : drop (S j) fl = fl') by (replace (S j) with (j + 1)%nat by lia; by rewrite <- drop_drop, Ed).
      eexists _, _, (S j). split; [done|]. rewrite Ed'. cbn [mcells mblocks]. split.
      + eapply rings_frame; [|exact RL']. intros y Hy. apply lookup_delete_ne. by intros <-.
      + intros y Hy. destruct (RB y ltac:(by right)) as [Ny Sy]. split; [done|]. rewrite lookup_delete_ne; [done|].
        intros <-. apply NL. unfold lists. cbn [app]. rewrite ring_nodes_cons. set_solver. }
  destruct K as (d' & freed & j & E & _). by eexists.
Qed.

(** [mempool_destroy] never frees a pool that has blocks.  While a block is held,
    or after a request that got NULL, it returns -1 and changes nothing.  Otherwise
    its loop does not end: the counter of free blocks that it tests is not changed in
    the loop; every round is executed (once the free list is empty, it does nothing
    any more), so there is no number of rounds after which it returns. *)
Theorem mempool_destroy_never d pool p fl ul lost fuel :
  pool_rep d pool p fl ul lost -> fl ++ ul <> [] ->
  if bool_decide (ul = [] /\ lost = 0)
  then mempool_destroy fuel d pool (Some p) = None /\
       forall k, is_Some (Nat.iter k (fun s => s ≫= destroy_body pool) (Some (d, [])))
  else mempool_destroy fuel d pool (Some p) = Some (-1, d, Some p, []).
Proof.
  intros R Hn. pose proof (pr_bound _ _ _ _ _ _ R) as B. unfold mempool_destroy.
  assert (E : list_len_used (sub_used p 1) = Z.of_nat (length ul) + lost).
  { counters. rewrite (pr_len_used _ _ _ _ _ _ R). rewrite i32_small; lia. }
  destruct (bool_decide_reflect (ul = [] /\ lost = 0)) as [[-> ->]|N].
  - rewrite E. cbn [length Z.of_nat Z.add Z.eqb negb]. split; [|intros k; destruct (destroy_rounds _ _ _ _ _ _ k R) as [s ->]; eauto].
    assert (Lf : list_len_free (sub_used p 1) <> 0).
    { cbn [sub_used list_len_free]. rewrite (pr_len_free _ _ _ _ _ _ R). rewrite app_nil_r in Hn. destruct fl; cbn in *; [done|lia]. }
    generalize (d, @nil Z). induction fuel as [|fuel IH]; intros s; [done|]. cbn [destroy_loop]. rewrite (proj2 (Z.eqb_neq _ 0) Lf).
    destruct (destroy_body pool s) as [s'|]; [|done]. cbn [mbind option_bind] in *. apply IH.
  - rewrite E. assert (Nz : Z.of_nat (length ul) + lost <> 0) by (intros H; apply N; destruct ul; cbn [length] in *; [split; [done|lia]|exfalso; lia]).
    rewrite (proj2 (Z.eqb_neq _ 0) Nz). cbn [negb]. do 3 f_equal. destruct p as [pf pu ps pz pt]. unfold add_used, sub_used. cbn.
    pose proof (pr_len_used _ _ _ _ _ _ R) as U. cbn in U. unfold Split.lib_atomic_add_arg, Split.lib_atomic_sub_arg.
    rewrite (i32_small (pu - 1)), i32_small by lia. do 2 f_equal. lia.
Qed.

Definition demo_pool : mempool := Mempool 1 1 64 64 0.
Definition demo_mstore : mstore := Mstore {[ 4096 := LCell 4192 4192; 4112 := LCell 4112 4112; 4192 := LCell 4096 4096 ]} {[ 4192 := Mblock 64 8192 ]}.

Lemma demo_blocks : blocks_rep demo_mstore 4096 [4192] [].
Proof.
  split.
  - split; [repeat constructor; try set_solver; by vm_compute|]. apply (bool_decide_unpack _). by vm_compute.
  - intros x Hx. apply list_elem_of_singleton in Hx as ->. split; [done|]. by exists (Mblock 64 8192).
Qed.

Lemma mempool_destroy_never_witness :
  mempool_destroy 1000 demo_mstore 4096 (Some demo_pool) = None /\
  forall k, is_Some (Nat.iter k (fun s => s ≫= destroy_body 4096) (Some (demo_mstore, []))).
Proof.
  apply (mempool_destroy_never demo_mstore 4096 demo_pool [4192] [] 0 1000); [|done].
  destruct demo_blocks as [L B]. by split.
Defined.
