(* ===== verification/HashList.v ===== *)
(** * HashList: the hash table of lib/hashlist/hashlist.c

    A node is on two circular lists (KList): the list of its bucket, through
    [obj.chain], and the list of all nodes, through [hlist].
    rpc_test/hashlist/hashlist.c is the same file.  The bucket locks are compiled out
    ([ENABLE_LINKHASH_BUCKET_LOCK] is 0). *)
From S2P Require Import Prelude Atomic KList.
From stdpp Require Import list.
Local Open Scope Z_scope.

Definition LINKHASH_MAX_BUCKET_COUNT : Z := 128.

Definition hash_32bkey (key : Z) : Z :=
  let hash_key := key in
  let hash_key := u32 (u32 (Z.lnot hash_key) + u32 (Z.shiftl hash_key 18)) in
  let hash_key := Z.lxor hash_key (Z.shiftr hash_key 31) in
  let hash_key := u32 (hash_key * 21) in
  let hash_key := Z.lxor hash_key (Z.shiftr hash_key 11) in
  let hash_key := u32 (hash_key + u32 (Z.shiftl hash_key 6)) in
  Z.lxor hash_key (Z.shiftr hash_key 22).

(** The key and the value of a node; [hlist] is the cell at the address of the node
    and [obj.chain] the one 16 bytes behind. *)
Record hash_obj := Hobj { ho_key : Z; ho_val : Z }.
Definition sizeof_hlist : Z := 48.
Definition obj_chain (node : Z) : Z := node + 16.
Definition node_of_chain (p : Z) : Z := p - 16.

(** [linkhash_t] at the address [lh_at]; the counters of the buckets are
    [lh_refcounts]. *)
Record linkhash := Linkhash {
  lh_at : Z;
  bucket_count : Z;
  obj_count : Z;
  lh_refcounts : list Z }.
Definition sizeof_linkhash : Z := 40.
Definition sizeof_hlist_bucket : Z := 24.
Definition hlist_head (t : linkhash) : Z := lh_at t + 16.
Definition bucket_start (t : linkhash) (i : Z) : Z := lh_at t + sizeof_linkhash + sizeof_hlist_bucket * i + 8.

Record hstore := Hstore { hcells : cells; hobjs : gmap Z hash_obj }.

(** The heads of the buckets [i], [i + 1], ... *)
Fixpoint init_buckets (n : nat) (i : Z) (t : linkhash) (c : cells) : cells :=
  match n with
  | O => c
  | S n => init_buckets n (i + 1) t (INIT_LIST_HEAD c (bucket_start t i))
  end.

Definition linkhash_init (d : hstore) (n at_ garbage_count : Z) : linkhash * hstore :=
  let t := Linkhash at_ n (Split.lib_atomic_store garbage_count 0) (replicate (Z.to_nat n) 0) in
  let c := INIT_LIST_HEAD (hcells d) (hlist_head t) in
  (t, Hstore (init_buckets (Z.to_nat n) 0 t c) (hobjs d)).

Definition linkhash_create (a : alloc) (d : hstore) (n garbage_count : Z) : option linkhash * alloc * hstore :=
  if (n =? 0) || (LINKHASH_MAX_BUCKET_COUNT <? n) then (None, a, d)
  else
    let '(hashtable, a) := malloc a (sizeof_linkhash + sizeof_hlist_bucket * n) in
    if hashtable =? NULL then (None, a, d)
    else let '(t, d) := linkhash_init d n hashtable garbage_count in (Some t, a, d).

Definition bucket_id (t : linkhash) (key : Z) : Z := Z.land (hash_32bkey (u32 key)) (bucket_count t - 1).

Definition count_add (t : linkhash) (i : Z) : option linkhash :=
  r ← lh_refcounts t !! Z.to_nat i;
  Some (Linkhash (lh_at t) (bucket_count t) (Split.lib_atomic_add_arg (obj_count t) 1)
          (<[Z.to_nat i := Split.lib_atomic_add_arg r 1]> (lh_refcounts t))).

Definition linkhash_add (a : alloc) (d : hstore) (key val : Z) (table : option linkhash)
    : option (Z * alloc * hstore * option linkhash) :=
  match table with
  | None => Some (-1, a, d, None)
  | Some t =>
      if val =? NULL then Some (-1, a, d, Some t)
      else
        let i := bucket_id t key in
        let '(new, a) := malloc a sizeof_hlist in
        if new =? NULL then Some (-1, a, d, Some t)
        else
          let c := <[new := LCell 0 0]> (<[obj_chain new := LCell 0 0]> (hcells d)) in
          c ← list_add c (obj_chain new) (bucket_start t i);
          c ← list_add c new (hlist_head t);
          t ← count_add t i;
          Some (0, a, Hstore c (<[new := Hobj key val]> (hobjs d)), Some t)
  end.

(** [HASH_OBJ_FREE] of a node. *)
Definition free_obj (d : hstore) (node : Z) : hstore :=
  Hstore (delete node (delete (obj_chain node) (hcells d))) (delete node (hobjs d)).

Fixpoint linkhash_destroy_loop (fuel : nat) (d : hstore) (hashlist : Z) : option hstore :=
  match fuel with
  | O => None
  | S fuel =>
      tmp ← get_next (hcells d) hashlist;
      if tmp =? hashlist then Some d
      else
        c ← list_del_init (hcells d) tmp;
        linkhash_destroy_loop fuel (free_obj (Hstore c (hobjs d)) tmp) hashlist
  end.

Definition linkhash_destroy (d : hstore) (table : option linkhash) : option hstore :=
  match table with
  | None => Some d
  | Some t => linkhash_destroy_loop (S (size (hobjs d))) d (hlist_head t)
  end.

(** The walk over a bucket from the cell [pos]. *)
Fixpoint get_loop (fuel : nat) (d : hstore) (head pos key : Z) : option Z :=
  match fuel with
  | O => None
  | S fuel =>
      if pos =? head then Some 0
      else
        o ← hobjs d !! node_of_chain pos;
        if ho_key o =? key then Some (ho_val o)
        else next ← get_next (hcells d) pos; get_loop fuel d head next key
  end.

Definition linkhash_get (d : hstore) (key : Z) (table : option linkhash) : option Z :=
  match table with
  | None => Some 0
  | Some t =>
      let head := bucket_start t (bucket_id t key) in
      pos ← get_next (hcells d) head;
      get_loop (S (size (hobjs d))) d head pos key
  end.

Fixpoint remove_loop (fuel : nat) (d : hstore) (head pos key : Z) : option (Z * hstore) :=
  match fuel with
  | O => None
  | S fuel =>
      if pos =? head then Some (-1, d)
      else
        let node := node_of_chain pos in
        o ← hobjs d !! node;
        if ho_key o =? key then
          c ← list_del_init (hcells d) pos;
          c ← list_del_init c node;
          Some (ho_val o, free_obj (Hstore c (hobjs d)) node)
        else next ← get_next (hcells d) pos; remove_loop fuel d head next key
  end.

Definition linkhash_remove (d : hstore) (key : Z) (table : option linkhash) : option (Z * hstore) :=
  match table with
  | None => Some (-1, d)
  | Some t =>
      let head := bucket_start t (bucket_id t key) in
      pos ← get_next (hcells d) head;
      remove_loop (S (size (hobjs d))) d head pos key
  end.

(** ** The lists of a table *)

Abbreviation entry := (Z * hash_obj)%type.

(** The chain cells of the nodes of a bucket. *)
Definition chains (l : list entry) : list Z := obj_chain <$> l.*1.

Fixpoint bucket_rings (t : linkhash) (i : Z) (bs : list (list entry)) : list (Z * list Z) :=
  match bs with
  | [] => []
  | l :: bs => (bucket_start t i, chains l) :: bucket_rings t (i + 1) bs
  end.

Definition all_rings (t : linkhash) (bs : list (list entry)) (hl : list Z) : list (Z * list Z) :=
  (hlist_head t, hl) :: bucket_rings t 0 bs.

(** The table [t] has the entries [bs], by bucket and in the order of the chains, and
    [hl] are its nodes in the order of the list of all nodes. *)
Record table_rep (a : alloc) (d : hstore) (t : linkhash) (bs : list (list entry)) (hl : list Z) : Prop := {
  tr_alloc : alloc_ok a;
  tr_fresh : forall x, is_cell (hcells d) x -> x < a_next a;
  tr_count : 0 < bucket_count t;
  tr_len : Z.of_nat (length bs) = bucket_count t;
  tr_ref : length (lh_refcounts t) = length bs;
  tr_rings : rings (hcells d) (all_rings t bs hl);
  tr_perm : hl ≡ₚ (mjoin bs).*1;
  tr_dom : dom (hobjs d) = list_to_set hl;
  tr_objs : forall i l x o, bs !! i = Some l -> (x, o) ∈ l -> hobjs d !! x = Some o /\ bucket_id t (ho_key o) = Z.of_nat i }.

(** The values under a key, the last one added first. *)
Definition vals_in (key : Z) (l : list entry) : list Z := ho_val <$> filter (fun o => ho_key o = key) (l.*2).
Definition bucket_of (t : linkhash) (bs : list (list entry)) (key : Z) : list entry :=
  default [] (bs !! Z.to_nat (bucket_id t key)).
Definition vals (t : linkhash) (bs : list (list entry)) (key : Z) : list Z := vals_in key (bucket_of t bs key).

Lemma bucket_rings_app t i b1 b2 :
  bucket_rings t i (b1 ++ b2) = bucket_rings t i b1 ++ bucket_rings t (i + Z.of_nat (length b1)) b2.
Proof.
  revert i. induction b1 as [|l b1 IH]; intros i; cbn [bucket_rings app length]; [by rewrite Z.add_0_r|].
  rewrite IH. do 3 f_equal. lia.
Qed.

Lemma all_rings_at t bs hl i l : bs !! i = Some l ->
  all_rings t bs hl = ((hlist_head t, hl) :: bucket_rings t 0 (take i bs)) ++
    (bucket_start t (Z.of_nat i), chains l) :: bucket_rings t (Z.of_nat i + 1) (drop (S i) bs).
Proof.
  intros E. unfold all_rings. rewrite <- (take_drop_middle bs i l E) at 1. rewrite bucket_rings_app.
  rewrite length_take_le by (apply lookup_lt_Some in E; lia). done.
Qed.

Lemma all_rings_set t bs hl i l l' : bs !! i = Some l ->
  all_rings t (<[i := l']> bs) hl = ((hlist_head t, hl) :: bucket_rings t 0 (take i bs)) ++
    (bucket_start t (Z.of_nat i), chains l') :: bucket_rings t (Z.of_nat i + 1) (drop (S i) bs).
Proof.
  intros E. pose proof (lookup_lt_Some _ _ _ E). erewrite all_rings_at; [|by apply list_lookup_insert_eq].
  rewrite take_insert_ge, drop_insert_lt by lia. done.
Qed.

Lemma hash_nonneg k : 0 <= hash_32bkey (u32 k).
Proof.
  unfold hash_32bkey. cbn zeta. rewrite Z.lxor_nonneg. match goal with |- context [Z.shiftr (u32 ?x) 22] => pose proof (u32_range x) end.
  rewrite Z.shiftr_nonneg. tauto.
Qed.

Section Rep.
Context (a : alloc) (d : hstore) (t : linkhash) (bs : list (list entry)) (hl : list Z) (R : table_rep a d t bs hl).

Lemma bucket_id_range key : 0 <= bucket_id t key < bucket_count t.
Proof.
  pose proof (tr_count _ _ _ _ _ R). unfold bucket_id.
  pose proof (land_bounds (hash_32bkey (u32 key)) (bucket_count t - 1) (hash_nonneg key) ltac:(lia)). lia.
Qed.

Lemma bucket_lookup key : bs !! Z.to_nat (bucket_id t key) = Some (bucket_of t bs key).
Proof.
  pose proof (bucket_id_range key). pose proof (tr_len _ _ _ _ _ R). unfold bucket_of.
  destruct (lookup_lt_is_Some_2 bs (Z.to_nat (bucket_id t key))) as [l ->]; [lia|done].
Qed.

(** The lists of the table with the bucket of [key] changed. *)
Definition rings_but (key : Z) (hl' : list Z) (l : list entry) : list (Z * list Z) :=
  let i := bucket_id t key in
  ((hlist_head t, hl') :: bucket_rings t 0 (take (Z.to_nat i) bs)) ++
    (bucket_start t i, chains l) :: bucket_rings t (i + 1) (drop (S (Z.to_nat i)) bs).

Lemma bucket_rings_set key hl' l :
  all_rings t (<[Z.to_nat (bucket_id t key) := l]> bs) hl' = rings_but key hl' l.
Proof. rewrite (all_rings_set _ _ _ _ _ _ (bucket_lookup key)). by rewrite Z2Nat.id by apply bucket_id_range. Qed.

Lemma bucket_rings_split key : all_rings t bs hl = rings_but key hl (bucket_of t bs key).
Proof. rewrite <- bucket_rings_set. by rewrite list_insert_id by apply bucket_lookup. Qed.

Lemma bucket_ring key : ring (hcells d) (bucket_start t (bucket_id t key)) (chains (bucket_of t bs key)).
Proof. pose proof (tr_rings _ _ _ _ _ R) as RR. rewrite (bucket_rings_split key) in RR. apply (rings_split _ _ _ _ _ RR). Qed.

Lemma bucket_objs key x o : (x, o) ∈ bucket_of t bs key -> hobjs d !! x = Some o.
Proof. intros H. by apply (tr_objs _ _ _ _ _ R _ _ _ _ (bucket_lookup key)). Qed.

Lemma hl_nodup : NoDup hl.
Proof. destruct (rings_split _ [] _ _ _ (tr_rings _ _ _ _ _ R)) as (_ & N & _). by apply NoDup_cons in N as [_ N]. Qed.

Lemma bucket_sublist key : (bucket_of t bs key).*1 ⊆+ hl.
Proof.
  rewrite (tr_perm _ _ _ _ _ R). pose proof (take_drop_middle bs _ _ (bucket_lookup key)) as E.
  rewrite <- E at 2. rewrite join_app, fmap_app. cbn [mjoin list_join]. rewrite fmap_app.
  apply submseteq_inserts_l, submseteq_inserts_r. done.
Qed.

Lemma bucket_fuel key : (length (bucket_of t bs key) <= size (hobjs d))%nat.
Proof.
  rewrite <- (size_dom (D := gset Z)), (tr_dom _ _ _ _ _ R), size_list_to_set by apply hl_nodup.
  rewrite <- (length_fmap fst). apply submseteq_length, bucket_sublist.
Qed.
End Rep.

Lemma node_chain x : node_of_chain (obj_chain x) = x.
Proof. unfold node_of_chain, obj_chain. lia. Qed.

(** The walk over a bucket finds the first entry with the key. *)
Lemma get_loop_chain d h l p q key fuel :
  seg (hcells d) p (chains l) h -> h ∉ chains l -> (forall x o, (x, o) ∈ l -> hobjs d !! x = Some o) ->
  get_next (hcells d) p = Some q -> (length l < fuel)%nat -> get_loop fuel d h q key = Some (hd 0 (vals_in key l)).
Proof.
  revert p q fuel. induction l as [|[x o] l IH]; intros p q fuel S Nh O Eq L; (destruct fuel as [|fuel]; [cbn in L; lia|]); cbn [get_loop].
  - destruct S as [E _]. rewrite E in Eq. injection Eq as ->. by rewrite Z.eqb_refl.
  - destruct S as [[E _] S]. rewrite E in Eq. injection Eq as <-. cbn [chains fmap list_fmap fst] in *.
    rewrite (proj2 (Z.eqb_neq _ h)) by set_solver. rewrite node_chain, (O x o) by set_solver. cbn [mbind option_bind].
    unfold vals_in. cbn [fmap list_fmap snd]. rewrite filter_cons. destruct (Z.eqb_spec (ho_key o) key) as [Ek|Nk].
    + by rewrite decide_True.
    + rewrite decide_False by done.
      assert (exists q', get_next (hcells d) (obj_chain x) = Some q') as [q' Eq'].
      { destruct l as [|[y o'] l]; [destruct S as [S _]|destruct S as [[S _] _]]; eauto. }
      rewrite Eq'. cbn [mbind option_bind]. apply (IH (obj_chain x)); [done|set_solver|set_solver|done|cbn in L; lia].
Qed.

Lemma get_rep a d t bs hl key : table_rep a d t bs hl -> linkhash_get d key (Some t) = Some (hd 0 (vals t bs key)).
Proof.
  intros R. unfold linkhash_get. pose proof (bucket_ring _ _ _ _ _ R key) as Rg. destruct (ring_head _ _ _ Rg) as [E _].
  rewrite E. cbn [mbind option_bind]. destruct Rg as [N S]. apply NoDup_cons in N as [N _].
  eapply get_loop_chain; [done|done|intros; by eapply bucket_objs|done|]. pose proof (bucket_fuel _ _ _ _ _ R key). lia.
Qed.

(** Only the place of the table matters for its lists. *)
Lemma all_rings_same t t' bs hl : lh_at t' = lh_at t -> all_rings t' bs hl = all_rings t bs hl.
Proof.
  intros E. unfold all_rings, hlist_head. rewrite E. f_equal. generalize 0. induction bs as [|l b IH]; intros i; [done|].
  cbn [bucket_rings]. assert (bucket_start t' i = bucket_start t i) as -> by (unfold bucket_start; by rewrite E). by rewrite IH.
Qed.

(** ** Adding *)

Lemma join_insert_cons {A} (bs : list (list A)) i l e :
  bs !! i = Some l -> mjoin (<[i := e :: l]> bs) ≡ₚ e :: mjoin bs.
Proof.
  intros E. pose proof (lookup_lt_Some _ _ _ E). rewrite insert_take_drop by done.
  rewrite <- (take_drop_middle bs i l E) at 3. rewrite !join_app. cbn. symmetry. apply Permutation_middle.
Qed.

Lemma rep_cell a d t bs hl x : table_rep a d t bs hl -> x ∈ hl -> is_cell (hcells d) x /\ is_cell (hcells d) (obj_chain x).
Proof.
  intros R Hx. pose proof (tr_rings _ _ _ _ _ R) as RR. split.
  - eapply ring_cell; [apply (rings_split _ [] _ _ _ RR)|]. by right.
  - rewrite (tr_perm _ _ _ _ _ R) in Hx. apply list_elem_of_fmap in Hx as ([y o] & -> & Hy). apply list_elem_of_join in Hy as (l & Hy & Hl).
    apply list_elem_of_lookup in Hl as [i Hi]. rewrite (all_rings_at _ _ _ _ _ Hi) in RR.
    eapply ring_cell; [apply (rings_split _ _ _ _ _ RR)|]. right. unfold chains. rewrite <- list_fmap_compose.
    apply list_elem_of_fmap. by exists (y, o).
Qed.

(** The table after an entry was put in front of its bucket. *)
Lemma add_entry a d t bs hl a' c t' key val x :
  table_rep a d t bs hl -> a_next a = x -> alloc_ok a' -> x + 16 < a_next a' ->
  (forall y, is_cell c y <-> y = x \/ y = obj_chain x \/ is_cell (hcells d) y) ->
  lh_at t' = lh_at t -> bucket_count t' = bucket_count t -> length (lh_refcounts t') = length (lh_refcounts t) ->
  let bs' := <[Z.to_nat (bucket_id t key) := (x, Hobj key val) :: bucket_of t bs key]> bs in
  rings c (all_rings t bs' (x :: hl)) ->
  table_rep a' (Hstore c (<[x := Hobj key val]> (hobjs d))) t' bs' (x :: hl).
Proof.
  intros R Ex Ha Hx Hc E1 E2 E3 bs' RR. pose proof (bucket_lookup _ _ _ _ _ R key) as Bl.
  assert (BI : forall k, bucket_id t' k = bucket_id t k) by (intros k; unfold bucket_id; by rewrite E2).
  assert (Nx : x ∉ hl) by (intros H; destruct (rep_cell _ _ _ _ _ _ R H) as [C _]; pose proof (tr_fresh _ _ _ _ _ R _ C); lia).
  assert (Nd : hobjs d !! x = None) by (apply not_elem_of_dom; rewrite (tr_dom _ _ _ _ _ R); by rewrite elem_of_list_to_set).
  pose proof (bucket_id_range _ _ _ _ _ R key). split; cbn [hcells hobjs].
  - done.
  - intros y Hy. apply Hc in Hy as [->|[->|Hy]]; [lia|unfold obj_chain; lia|]. pose proof (tr_fresh _ _ _ _ _ R y Hy). lia.
  - rewrite E2. apply (tr_count _ _ _ _ _ R).
  - unfold bs'. rewrite length_insert, E2. apply (tr_len _ _ _ _ _ R).
  - unfold bs'. rewrite length_insert, E3. apply (tr_ref _ _ _ _ _ R).
  - assert (all_rings t' bs' (x :: hl) = all_rings t bs' (x :: hl)) as ->; [|done]. by apply all_rings_same.
  - unfold bs'. rewrite (join_insert_cons _ _ _ _ Bl). cbn [fmap list_fmap fst]. by rewrite (tr_perm _ _ _ _ _ R).
  - rewrite dom_insert_L, (tr_dom _ _ _ _ _ R). done.
  - intros i l y o Hi Hy. rewrite BI. unfold bs' in Hi. destruct (decide (i = Z.to_nat (bucket_id t key))) as [->|Ni].
    + rewrite list_lookup_insert_eq in Hi by (by apply lookup_lt_Some in Bl). injection Hi as <-.
      apply elem_of_cons in Hy as [E|Hy].
      * injection E as -> ->. rewrite lookup_insert_eq. split; [done|]. cbn. lia.
      * destruct (tr_objs _ _ _ _ _ R _ _ _ _ Bl Hy) as [Ho Hb]. split; [|done]. rewrite lookup_insert_ne; [done|]. congruence.
    + rewrite list_lookup_insert_ne in Hi by done. destruct (tr_objs _ _ _ _ _ R _ _ _ _ Hi Hy) as [Ho Hb]. split; [|done].
      rewrite lookup_insert_ne; [done|]. congruence.
Qed.

Lemma add_rep a d t bs hl key val :
  table_rep a d t bs hl -> val <> NULL ->
  (exists a', linkhash_add a d key val (Some t) = Some (-1, a', d, Some t) /\ fst (malloc a sizeof_hlist) = NULL /\ table_rep a' d t bs hl) \/
  (exists x a' d' t', linkhash_add a d key val (Some t) = Some (0, a', d', Some t') /\ bucket_count t' = bucket_count t /\
     table_rep a' d' t' (<[Z.to_nat (bucket_id t key) := (x, Hobj key val) :: bucket_of t bs key]> bs) (x :: hl)).
Proof.
  intros R Nv. unfold linkhash_add. rewrite (proj2 (Z.eqb_neq val NULL)) by done.
  pose proof (malloc_cases a sizeof_hlist (tr_alloc _ _ _ _ _ R) ltac:(done)) as M.
  destruct (malloc a sizeof_hlist) as [x a']. destruct M as (Ha & Hn & [->|(Ex & Hx & Hx')]).
  { left. exists a'. split; [done|]. split; [done|]. destruct R as [R1 R2 R3 R4 R5 R6 R7 R8 R9]. split; try done.
    intros y Hy. pose proof (R2 y Hy). lia. }
  right. rewrite (proj2 (Z.eqb_neq x NULL)) by (unfold NULL; lia). unfold sizeof_hlist in Hx'.
  assert (Fx : forall y, x <= y -> ~ is_cell (hcells d) y) by (intros y Hy C; pose proof (tr_fresh _ _ _ _ _ R y C); lia).
  set (c0 := <[x := LCell 0 0]> (<[obj_chain x := LCell 0 0]> (hcells d))).
  assert (Nx : x <> obj_chain x) by (unfold obj_chain; lia).
  assert (C0 : forall y, is_cell c0 y <-> y = x \/ y = obj_chain x \/ is_cell (hcells d) y).
  { intros y. unfold is_cell, c0. rewrite !lookup_insert. repeat case_decide; subst; naive_solver. }
  assert (NN : forall rs y, rings (hcells d) rs -> x <= y -> y ∉ ring_nodes rs).
  { intros rs y RS Hy H. apply (Fx y Hy). destruct RS as [F _]. apply list_elem_of_bind in H as ([h l] & Hl & Hr).
    rewrite Forall_forall in F. eapply ring_cell; [by apply (F _ Hr)|done]. }
  pose proof (tr_rings _ _ _ _ _ R) as RS.
  assert (RS0 : rings c0 (all_rings t bs hl)).
  { eapply rings_frame; [|apply R]. intros y Hy. unfold c0. rewrite !lookup_insert_ne; [done| |]; intros <-;
      eapply NN; [apply R| |apply Hy|apply R| |apply Hy]; unfold obj_chain; lia. }
  rewrite (bucket_rings_split _ _ _ _ _ R key) in RS, RS0.
  destruct (rings_add _ _ _ _ (obj_chain x) _ RS0) as (c1 & Ec1 & RS1 & F1); [apply C0; tauto|apply (NN _ _ RS); unfold obj_chain; lia|].
  rewrite Ec1. cbn [mbind option_bind].
  assert (RS1' : rings c1 ([] ++ (hlist_head t, hl) :: bucket_rings t 0 (<[Z.to_nat (bucket_id t key) := (x, Hobj key val) :: bucket_of t bs key]> bs))).
  { cbn [app]. change (rings c1 (all_rings t (<[Z.to_nat (bucket_id t key) := (x, Hobj key val) :: bucket_of t bs key]> bs) hl)).
    rewrite (bucket_rings_set _ _ _ _ _ R). exact RS1. }
  destruct (rings_add _ [] _ _ x _ RS1') as (c2 & Ec2 & RS2 & F2).
  { apply (list_add_cells _ _ _ _ _ Ec1). apply C0. tauto. }
  { cbn [app]. change (x ∉ ring_nodes (all_rings t (<[Z.to_nat (bucket_id t key) := (x, Hobj key val) :: bucket_of t bs key]> bs) hl)).
    rewrite (bucket_rings_set _ _ _ _ _ R). unfold rings_but. rewrite ring_nodes_app, !ring_nodes_cons.
    change (chains ((x, Hobj key val) :: bucket_of t bs key)) with (obj_chain x :: chains (bucket_of t bs key)).
    pose proof (NN _ x RS ltac:(lia)) as N. unfold rings_but in N. rewrite ring_nodes_app, !ring_nodes_cons in N.
    rewrite !elem_of_app, !elem_of_cons in *. tauto. }
  rewrite Ec2. cbn [mbind option_bind]. pose proof (bucket_id_range _ _ _ _ _ R key) as BR. unfold count_add.
  destruct (lookup_lt_is_Some_2 (lh_refcounts t) (Z.to_nat (bucket_id t key))) as [r ->].
  { rewrite (tr_ref _ _ _ _ _ R). pose proof (tr_len _ _ _ _ _ R). lia. }
  cbn [mbind option_bind]. eexists x, a', _, _. split; [done|]. split; [done|].
  eapply add_entry; [done|done|done|lia| |done|done|cbn; by rewrite length_insert|exact RS2].
  intros y. by rewrite (list_add_cells _ _ _ _ _ Ec2), (list_add_cells _ _ _ _ _ Ec1), C0.
Qed.

(** ** Values *)

Lemma vals_in_app key l1 l2 : vals_in key (l1 ++ l2) = vals_in key l1 ++ vals_in key l2.
Proof. unfold vals_in. by rewrite fmap_app, filter_app, fmap_app. Qed.

Lemma vals_in_cons key x o l : vals_in key ((x, o) :: l) = if decide (ho_key o = key) then ho_val o :: vals_in key l else vals_in key l.
Proof. unfold vals_in. cbn [fmap list_fmap snd]. rewrite filter_cons. by destruct (decide (ho_key o = key)). Qed.

(** The first entry with a key. *)
Lemma vals_in_first key l v vs : vals_in key l = v :: vs ->
  exists l1 x o l2, l = l1 ++ (x, o) :: l2 /\ vals_in key l1 = [] /\ ho_key o = key /\ ho_val o = v /\ vals_in key (l1 ++ l2) = vs.
Proof.
  induction l as [|[x o] l IH]; [done|]. rewrite vals_in_cons. destruct (decide (ho_key o = key)) as [Ek|Nk].
  - intros E. injection E as <- <-. exists [], x, o, l. done.
  - intros E. destruct (IH E) as (l1 & y & p & l2 & -> & E1 & E2 & E3 & E4). exists ((x, o) :: l1), y, p, l2.
    cbn [app]. rewrite !vals_in_cons, !decide_False by done. done.
Qed.

Lemma vals_in_drop k l1 x o l2 : ho_key o <> k -> vals_in k (l1 ++ (x, o) :: l2) = vals_in k (l1 ++ l2).
Proof. intros N. by rewrite !vals_in_app, vals_in_cons, decide_False. Qed.

(** The values in the table when the bucket of [key] becomes [l]. *)
Lemma vals_set a d t bs hl key l k : table_rep a d t bs hl ->
  vals t (<[Z.to_nat (bucket_id t key) := l]> bs) k =
    if decide (bucket_id t k = bucket_id t key) then vals_in k l else vals t bs k.
Proof.
  intros R. pose proof (bucket_lookup _ _ _ _ _ R key) as B. pose proof (bucket_id_range _ _ _ _ _ R key).
  pose proof (bucket_id_range _ _ _ _ _ R k). unfold vals, bucket_of. destruct (decide (bucket_id t k = bucket_id t key)) as [->|N].
  - rewrite list_lookup_insert_eq by (by apply lookup_lt_Some in B). done.
  - by rewrite list_lookup_insert_ne by lia.
Qed.

Lemma vals_set_other a d t bs hl key l k : table_rep a d t bs hl ->
  (bucket_id t k = bucket_id t key -> vals_in k l = vals_in k (bucket_of t bs key)) ->
  vals t (<[Z.to_nat (bucket_id t key) := l]> bs) k = vals t bs k.
Proof.
  intros R H. rewrite (vals_set _ _ _ _ _ _ _ _ R). destruct (decide (bucket_id t k = bucket_id t key)) as [E|N]; [|done].
  rewrite H by done. unfold vals, bucket_of. by rewrite E.
Qed.

(** ** Removing *)

Lemma join_insert_remove {A} (bs : list (list A)) i l1 e l2 :
  bs !! i = Some (l1 ++ e :: l2) -> mjoin bs ≡ₚ e :: mjoin (<[i := l1 ++ l2]> bs).
Proof.
  intros E. pose proof (lookup_lt_Some _ _ _ E). rewrite insert_take_drop by done.
  rewrite <- (take_drop_middle bs i _ E) at 1. rewrite !join_app. cbn. rewrite <- !app_assoc. cbn.
  rewrite !(app_assoc (mjoin (take i bs)) l1). symmetry. apply Permutation_middle.
Qed.

Lemma remove_loop_chain d h l p q key fuel :
  seg (hcells d) p (chains l) h -> h ∉ chains l -> (forall x o, (x, o) ∈ l -> hobjs d !! x = Some o) ->
  get_next (hcells d) p = Some q -> (length l < fuel)%nat -> vals_in key l = [] -> remove_loop fuel d h q key = Some (-1, d).
Proof.
  revert p q fuel. induction l as [|[x o] l IH]; intros p q fuel S Nh O Eq L V; (destruct fuel as [|fuel]; [cbn in L; lia|]); cbn [remove_loop].
  - destruct S as [E _]. rewrite E in Eq. injection Eq as ->. by rewrite Z.eqb_refl.
  - destruct S as [[E _] S]. rewrite E in Eq. injection Eq as <-. cbn [chains fmap list_fmap fst] in *.
    rewrite (proj2 (Z.eqb_neq _ h)) by set_solver. rewrite node_chain, (O x o) by set_solver. cbn [mbind option_bind].
    rewrite vals_in_cons in V. destruct (decide (ho_key o = key)) as [Ek|Nk]; [done|]. rewrite (proj2 (Z.eqb_neq _ key)) by done.
    assert (exists q', get_next (hcells d) (obj_chain x) = Some q') as [q' Eq'].
    { destruct l as [|[y o'] l]; [destruct S as [S _]|destruct S as [[S _] _]]; eauto. }
    rewrite Eq'. cbn [mbind option_bind]. apply (IH (obj_chain x)); [done|set_solver|set_solver|done|cbn in L; lia|done].
Qed.

Lemma remove_loop_found d h l1 x o l2 p q key fuel c1 c2 :
  seg (hcells d) p (chains (l1 ++ (x, o) :: l2)) h -> h ∉ chains (l1 ++ (x, o) :: l2) ->
  (forall y o', (y, o') ∈ l1 ++ (x, o) :: l2 -> hobjs d !! y = Some o') ->
  get_next (hcells d) p = Some q -> (length l1 < fuel)%nat -> vals_in key l1 = [] -> ho_key o = key ->
  list_del_init (hcells d) (obj_chain x) = Some c1 -> list_del_init c1 x = Some c2 ->
  remove_loop fuel d h q key = Some (ho_val o, free_obj (Hstore c2 (hobjs d)) x).
Proof.
  revert p q fuel. induction l1 as [|[y o'] l1 IH]; intros p q fuel S Nh O Eq L V Ek E1 E2; (destruct fuel as [|fuel]; [cbn in L; lia|]); cbn [remove_loop];
    cbn [app chains fmap list_fmap fst] in *; destruct S as [[E _] S]; rewrite E in Eq; injection Eq as <-;
    rewrite (proj2 (Z.eqb_neq _ h)) by set_solver; rewrite node_chain.
  - rewrite (O x o) by set_solver. cbn [mbind option_bind]. rewrite (proj2 (Z.eqb_eq _ key)) by done. rewrite E1. cbn [mbind option_bind]. by rewrite E2.
  - rewrite (O y o') by set_solver. cbn [mbind option_bind]. rewrite vals_in_cons in V.
    destruct (decide (ho_key o' = key)) as [Ek'|Nk]; [done|]. rewrite (proj2 (Z.eqb_neq _ key)) by done.
    assert (exists q', get_next (hcells d) (obj_chain y) = Some q') as [q' Eq'].
    { destruct l1 as [|[z o''] l1]; destruct S as [[S _] _]; eauto. }
    rewrite Eq'. cbn [mbind option_bind]. apply (IH (obj_chain y)); [done|set_solver|set_solver|done|cbn in L; lia|done..].
Qed.

(** The table after an entry was taken out of its bucket. *)
Lemma remove_entry a d t bs hl key l1 x o l2 h1 h2 c :
  table_rep a d t bs hl -> bucket_of t bs key = l1 ++ (x, o) :: l2 -> hl = h1 ++ x :: h2 ->
  (forall y, is_cell c y -> is_cell (hcells d) y) ->
  rings c (rings_but t bs key (h1 ++ h2) (l1 ++ l2)) ->
  table_rep a (Hstore c (delete x (hobjs d))) t (<[Z.to_nat (bucket_id t key) := l1 ++ l2]> bs) (h1 ++ h2).
Proof.
  intros R Eb Eh Hc RR. pose proof (bucket_lookup _ _ _ _ _ R key) as Bl. rewrite Eb in Bl.
  pose proof (hl_nodup _ _ _ _ _ R) as N. assert (Nx : x ∉ h1 ++ h2).
  { rewrite Eh in N. apply NoDup_app in N as (_ & N1 & N2). apply NoDup_cons in N2 as [N2 _].
    rewrite elem_of_app. intros [H|H]; [apply (N1 x H); by left|done]. }
  assert (P : h1 ++ h2 ≡ₚ (mjoin (<[Z.to_nat (bucket_id t key) := l1 ++ l2]> bs)).*1).
  { pose proof (tr_perm _ _ _ _ _ R) as P. rewrite Eh, (join_insert_remove _ _ _ _ _ Bl) in P. cbn [fmap list_fmap fst] in P.
    symmetry in P. by apply Permutation_cons_app_inv in P. }
  assert (In : forall i l y p, <[Z.to_nat (bucket_id t key) := l1 ++ l2]> bs !! i = Some l -> (y, p) ∈ l -> y ∈ h1 ++ h2).
  { intros i l y p Hi Hy. rewrite P. apply list_elem_of_fmap. exists (y, p). split; [done|]. apply list_elem_of_join.
    exists l. split; [done|]. by eapply list_elem_of_lookup_2. }
  split; cbn [hcells hobjs].
  - apply R.
  - intros y Hy. apply R. by apply Hc.
  - apply R.
  - rewrite length_insert. apply R.
  - rewrite length_insert. apply R.
  - by rewrite (bucket_rings_set _ _ _ _ _ R).
  - exact P.
  - rewrite dom_delete_L, (tr_dom _ _ _ _ _ R), Eh. clear -Nx. apply set_eq. intros y.
    rewrite elem_of_difference, elem_of_singleton, !elem_of_list_to_set, !elem_of_app, elem_of_cons. rewrite elem_of_app in Nx.
    split; [tauto|]. intros H. split; [tauto|]. intros ->. tauto.
  - intros i l y p Hi Hy. pose proof (In _ _ _ _ Hi Hy) as Hh. rewrite lookup_delete_ne by (intros <-; done).
    destruct (decide (i = Z.to_nat (bucket_id t key))) as [->|Ni].
    + rewrite list_lookup_insert_eq in Hi by (by apply lookup_lt_Some in Bl). injection Hi as <-.
      apply (tr_objs _ _ _ _ _ R _ _ _ _ Bl). rewrite elem_of_app, elem_of_cons. apply elem_of_app in Hy. tauto.
    + rewrite list_lookup_insert_ne in Hi by done. by apply (tr_objs _ _ _ _ _ R _ _ _ _ Hi).
Qed.

Lemma chains_app l1 x o l2 : chains (l1 ++ (x, o) :: l2) = chains l1 ++ obj_chain x :: chains l2.
Proof. unfold chains. by rewrite !fmap_app. Qed.

(** The two unlinkings. *)
Lemma unlink_run a d t bs hl key l1 x o l2 :
  table_rep a d t bs hl -> bucket_of t bs key = l1 ++ (x, o) :: l2 ->
  exists c1 c2 h1 h2, hl = h1 ++ x :: h2 /\ list_del_init (hcells d) (obj_chain x) = Some c1 /\ list_del_init c1 x = Some c2 /\
    (forall y, is_cell c2 y -> is_cell (hcells d) y) /\
    rings (delete x (delete (obj_chain x) c2)) (rings_but t bs key (h1 ++ h2) (l1 ++ l2)).
Proof.
  intros R Eb. assert (x ∈ hl) as Hx.
  { eapply elem_of_submseteq; [|apply (bucket_sublist _ _ _ _ _ R key)]. rewrite Eb, fmap_app. set_solver. }
  apply list_elem_of_split in Hx as (h1 & h2 & Eh). pose proof (tr_rings _ _ _ _ _ R) as RR.
  rewrite (bucket_rings_split _ _ _ _ _ R key), Eb in RR. unfold rings_but in RR. rewrite chains_app in RR.
  pose proof (left_list _ _ _ _ _ _ _ RR) as NC. destruct (rings_del_init _ _ _ _ _ _ _ RR) as (c1 & E1 & RR1 & _ & _).
  replace (chains l1 ++ chains l2) with (chains (l1 ++ l2)) in RR1, NC by (unfold chains; by rewrite !fmap_app).
  rewrite Eh in RR1, NC. pose proof (left_list _ [] _ _ _ _ _ RR1) as NX.
  destruct (rings_del_init _ [] _ _ _ _ _ RR1) as (c2 & E2 & RR2 & _ & _).
  exists c1, c2, h1, h2. split; [done|]. split; [done|]. split; [done|]. split.
  - intros y Hy. by rewrite (list_del_init_cells _ _ _ _ E2), (list_del_init_cells _ _ _ _ E1) in Hy.
  - eapply rings_frame; [|exact RR2]. intros y Hy. rewrite !lookup_delete_ne; [done| |]; intros <-; [|by apply NX].
    apply NC. clear -Hy. unfold rings_but in Hy. cbn [app] in Hy |- *. rewrite !ring_nodes_cons, !elem_of_app, !elem_of_cons in *.
    rewrite !ring_nodes_app, !ring_nodes_cons, !elem_of_app, !elem_of_cons in *. tauto.
Qed.

Lemma remove_rep a d t bs hl key : table_rep a d t bs hl ->
  match vals t bs key with
  | [] => linkhash_remove d key (Some t) = Some (-1, d)
  | v :: vs => exists d' bs' hl', linkhash_remove d key (Some t) = Some (v, d') /\ table_rep a d' t bs' hl' /\
      vals t bs' key = vs /\ (forall k, k <> key -> vals t bs' k = vals t bs k)
  end.
Proof.
  intros R. unfold linkhash_remove. pose proof (bucket_ring _ _ _ _ _ R key) as Rg. destruct (ring_head _ _ _ Rg) as [E _].
  rewrite E. cbn [mbind option_bind]. destruct Rg as [N S]. apply NoDup_cons in N as [N _]. pose proof (bucket_fuel _ _ _ _ _ R key) as Fu.
  destruct (vals t bs key) as [|v vs] eqn:Ev.
  - eapply remove_loop_chain; [done|done|intros; by eapply bucket_objs|done|lia|done].
  - destruct (vals_in_first _ _ _ _ Ev) as (l1 & x & o & l2 & Eb & V1 & Ek & <- & V2).
    destruct (unlink_run _ _ _ _ _ _ _ _ _ _ R Eb) as (c1 & c2 & h1 & h2 & Eh & E1 & E2 & Hc & RR).
    rewrite Eb in Fu. rewrite length_app in Fu.
    erewrite remove_loop_found; [|by rewrite <- Eb|by rewrite <- Eb|intros; eapply (bucket_objs _ _ _ _ _ R key); by rewrite Eb|done|lia|done..].
    eexists _, (<[Z.to_nat (bucket_id t key) := l1 ++ l2]> bs), (h1 ++ h2). split; [done|]. unfold free_obj. cbn [hcells hobjs]. split; [|split].
    + eapply remove_entry; [done|done|done| |exact RR]. intros y Hy. apply Hc. unfold is_cell in *.
      rewrite !lookup_delete_is_Some in Hy. tauto.
    + rewrite (vals_set _ _ _ _ _ _ _ _ R), decide_True by done. done.
    + intros k Nk. apply (vals_set_other _ _ _ _ _ _ _ _ R). intros _. rewrite Eb. symmetry. apply vals_in_drop. congruence.
Qed.

(** Adding, in terms of the values. *)
Lemma add_rep_vals a d t bs hl key val : table_rep a d t bs hl -> val <> NULL ->
  (exists a', linkhash_add a d key val (Some t) = Some (-1, a', d, Some t) /\ fst (malloc a sizeof_hlist) = NULL /\ table_rep a' d t bs hl) \/
  (exists a' d' t' bs' hl', linkhash_add a d key val (Some t) = Some (0, a', d', Some t') /\ table_rep a' d' t' bs' hl' /\
     vals t' bs' key = val :: vals t bs key /\ forall k, k <> key -> vals t' bs' k = vals t bs k).
Proof.
  intros R Nv. destruct (add_rep _ _ _ _ _ key val R Nv) as [H|(x & a' & d' & t' & E & Et & R')]; [by left|right].
  assert (V : forall b k, vals t' b k = vals t b k) by (intros b k; unfold vals, bucket_of, bucket_id; by rewrite Et).
  eexists a', d', t', _, _. split; [done|]. split; [exact R'|]. split; [|intros k Nk]; rewrite V.
  - rewrite (vals_set _ _ _ _ _ _ _ _ R), decide_True by done. rewrite vals_in_cons. by rewrite decide_True.
  - apply (vals_set_other _ _ _ _ _ _ _ _ R). intros _. rewrite vals_in_cons. by rewrite decide_False by (cbn; congruence).
Qed.

(** ** Creating and destroying *)

Lemma init_buckets_other n i t c x : (forall j, i <= j < i + Z.of_nat n -> x <> bucket_start t j) -> init_buckets n i t c !! x = c !! x.
Proof.
  revert i c. induction n as [|n IH]; intros i c H; [done|]. cbn [init_buckets]. rewrite IH by (intros j Hj; apply H; lia).
  unfold INIT_LIST_HEAD. rewrite lookup_insert_ne; [done|]. apply not_eq_sym, H. lia.
Qed.

Lemma init_buckets_at n i t c j : i <= j < i + Z.of_nat n ->
  init_buckets n i t c !! bucket_start t j = Some (LCell (bucket_start t j) (bucket_start t j)).
Proof.
  revert i c. induction n as [|n IH]; intros i c H; [lia|]. cbn [init_buckets]. destruct (decide (j = i)) as [->|N].
  - rewrite init_buckets_other by (intros k Hk; unfold bucket_start, sizeof_hlist_bucket; lia). apply lookup_insert_eq.
  - apply IH. lia.
Qed.

Lemma ring_single m h : m !! h = Some (LCell h h) -> ring m h [].
Proof. intros E. split; [apply NoDup_singleton|]. unfold seg, link, get_next, get_prev. by rewrite E. Qed.

Lemma bucket_rings_empty t n i : bucket_rings t i (replicate n []) = (fun j => (bucket_start t j, [])) <$> seqZ i (Z.of_nat n).
Proof.
  revert i. induction n as [|n IH]; intros i; [done|]. rewrite Nat2Z.inj_succ, seqZ_cons by lia. cbn [replicate bucket_rings fmap list_fmap].
  rewrite IH. repeat f_equal; lia.
Qed.

Lemma empty_rings t n c :
  c !! hlist_head t = Some (LCell (hlist_head t) (hlist_head t)) ->
  rings (init_buckets n 0 t c) (all_rings t (replicate n []) []).
Proof.
  intros E. assert (Hh : forall j, 0 <= j -> hlist_head t <> bucket_start t j)
    by (intros j Hj; unfold hlist_head, bucket_start, sizeof_linkhash, sizeof_hlist_bucket; lia).
  unfold all_rings. rewrite bucket_rings_empty. split.
  - constructor; [apply ring_single; cbn; rewrite init_buckets_other by (intros; apply Hh; lia); done|].
    apply Forall_fmap, Forall_forall. intros j Hj. apply elem_of_seqZ in Hj. apply ring_single. cbn. by apply init_buckets_at.
  - rewrite ring_nodes_cons. apply NoDup_app. split; [apply NoDup_singleton|].
    assert (En : ring_nodes ((fun j => (bucket_start t j, [])) <$> seqZ 0 (Z.of_nat n)) = bucket_start t <$> seqZ 0 (Z.of_nat n)).
    { generalize (seqZ 0 (Z.of_nat n)). induction l as [|j l IH]; [done|]. cbn [fmap list_fmap]. rewrite ring_nodes_cons. cbn [app]. by rewrite IH. }
    rewrite En. split.
    + intros x Hx. apply list_elem_of_singleton in Hx as ->. intros H. apply list_elem_of_fmap in H as (j & Ej & Hj).
      apply elem_of_seqZ in Hj. by apply (Hh j); [lia|].
    + apply NoDup_fmap_2; [|apply NoDup_seqZ]. intros j k Ejk. unfold bucket_start, sizeof_hlist_bucket in Ejk. lia.
Qed.

(** [linkhash_create] in memory enough: the empty table. *)
Lemma vals_empty t n k : vals t (replicate n []) k = [].
Proof. unfold vals, bucket_of. destruct (_ !! _) as [l|] eqn:El; [|done]. by apply lookup_replicate in El as [-> _]. Qed.

Lemma create_alloc_le a d n g : alloc_ok a -> 0 <= n ->
  let '(_, a', _) := linkhash_create a d n g in alloc_ok a' /\ a_next a <= a_next a'.
Proof.
  intros Ha Hn. unfold linkhash_create. destruct (_ || _); [split; [done|lia]|].
  pose proof (malloc_cases a (sizeof_linkhash + sizeof_hlist_bucket * n) Ha ltac:(unfold sizeof_linkhash, sizeof_hlist_bucket; lia)) as M.
  destruct (malloc a _) as [x a']. destruct M as (Ha' & Hle & _). destruct (x =? NULL); done.
Qed.

Lemma linkhash_create_rep a d n g :
  alloc_ok a -> 0 < n <= LINKHASH_MAX_BUCKET_COUNT -> hobjs d = ∅ -> (forall x, is_cell (hcells d) x -> x < a_next a) ->
  match linkhash_create a d n g with
  | (None, a', d') => d' = d /\ fst (malloc a (sizeof_linkhash + sizeof_hlist_bucket * n)) = NULL
  | (Some t, a', d') => table_rep a' d' t (replicate (Z.to_nat n) []) [] /\ bucket_count t = n /\ obj_count t = 0
  end.
Proof.
  intros Ha Hn Ho Hf. unfold linkhash_create. rewrite (proj2 (Z.eqb_neq n 0)), (proj2 (Z.ltb_ge _ n)) by lia. cbn [orb].
  pose proof (malloc_cases a (sizeof_linkhash + sizeof_hlist_bucket * n) Ha ltac:(unfold sizeof_linkhash, sizeof_hlist_bucket; lia)) as M.
  destruct (malloc a _) as [x a']. destruct M as (Ha' & Hn' & [->|(Ex & Hx & Hx')]); [done|].
  rewrite (proj2 (Z.eqb_neq x NULL)) by (unfold NULL; lia). cbn [linkhash_init]. unfold sizeof_linkhash, sizeof_hlist_bucket in Hx'.
  split; [|done]. split; cbn [hcells hobjs bucket_count lh_refcounts]; try done.
  - intros y [c Hy]. set (t := Linkhash _ _ _ _) in *.
    destruct (decide (y < a_next a')) as [|Ny]; [done|]. rewrite init_buckets_other in Hy.
    2: { intros j Hj ->. unfold bucket_start, sizeof_linkhash, sizeof_hlist_bucket in Ny. cbn in Ny. lia. }
    unfold INIT_LIST_HEAD in Hy. rewrite lookup_insert_ne in Hy by (unfold hlist_head; cbn; lia).
    assert (y < a_next a); [|lia]. apply Hf. by exists c.
  - lia.
  - rewrite length_replicate. lia.
  - by rewrite !length_replicate.
  - apply empty_rings. apply lookup_insert_eq.
  - clear. induction (Z.to_nat n) as [|k IH]; [done|]. cbn. exact IH.
  - by rewrite Ho, dom_empty_L.
  - intros i l y o Hi Hy. apply lookup_replicate_1 in Hi as [-> _]. by apply not_elem_of_nil in Hy.
Qed.

Lemma destroy_loop_rep fuel d h hl :
  ring (hcells d) h hl -> (forall x y, x ∈ hl -> y ∈ h :: hl -> obj_chain x <> y) -> (length hl < fuel)%nat ->
  exists d', linkhash_destroy_loop fuel d h = Some d' /\ (forall x, hobjs d' !! x = if decide (x ∈ hl) then None else hobjs d !! x).
Proof.
  revert d hl. induction fuel as [|fuel IH]; intros d hl Rg Nc L; [lia|]. cbn [linkhash_destroy_loop].
  destruct (ring_head _ _ _ Rg) as [-> _]. cbn [mbind option_bind]. destruct hl as [|x hl]; cbn [hd].
  - rewrite Z.eqb_refl. by exists d.
  - pose proof (proj1 Rg) as N. apply NoDup_cons in N as [N1 N]. apply NoDup_cons in N as [N2 N].
    assert (x <> h) by (intros ->; apply N1; by left). rewrite (proj2 (Z.eqb_neq x h)) by done.
    destruct (list_del_init_ring _ _ [] _ _ Rg) as (c & -> & R' & _ & _). cbn [mbind option_bind app] in *.
    destruct (IH (free_obj (Hstore c (hobjs d)) x) hl) as (d' & E & Ho).
    + cbn [free_obj hcells]. eapply ring_frame; [|exact R']. intros y Hy. rewrite !lookup_delete_ne; [done| |].
      * apply (Nc x); [by left|]. apply elem_of_cons in Hy as [->|Hy]; [by left|by do 2 right].
      * intros <-. apply elem_of_cons in Hy as [->|Hy]; done.
    + intros u v Hu Hv. apply Nc; [by right|]. apply elem_of_cons in Hv as [->|Hv]; [by left|by do 2 right].
    + cbn in L. lia.
    + exists d'. split; [done|]. intros y. rewrite Ho. cbn [free_obj hobjs]. destruct (decide (y ∈ hl)), (decide (y ∈ x :: hl)); try done.
      * exfalso. set_solver.
      * destruct (decide (y = x)) as [->|]; [apply lookup_delete_eq|]. set_solver.
      * rewrite lookup_delete_ne; [done|]. set_solver.
Qed.

Lemma destroy_rep a d t bs hl : table_rep a d t bs hl ->
  exists d', linkhash_destroy d (Some t) = Some d' /\ hobjs d' = ∅.
Proof.
  intros R. pose proof (rings_split _ [] _ _ _ (tr_rings _ _ _ _ _ R)) as (Rg & N & S). unfold linkhash_destroy.
  destruct (destroy_loop_rep (Datatypes.S (size (hobjs d))) d (hlist_head t) hl Rg) as (d' & E & Ho).
  - intros x y Hx Hy Exy. apply (S y Hy). cbn [ring_nodes mbind list_bind app]. rewrite (tr_perm _ _ _ _ _ R) in Hx.
    apply list_elem_of_fmap in Hx as ([z o] & -> & Hz). apply list_elem_of_join in Hz as (l & Hz & Hl).
    apply list_elem_of_lookup in Hl as [i Hi]. change (y ∈ ring_nodes (bucket_rings t 0 bs)).
    rewrite <- (take_drop_middle bs i l Hi), bucket_rings_app, ring_nodes_app. cbn [bucket_rings]. rewrite ring_nodes_cons.
    apply elem_of_app. right. apply elem_of_app. left. right. rewrite <- Exy. unfold chains. rewrite <- list_fmap_compose.
    apply list_elem_of_fmap. by exists (z, o).
  - rewrite <- (size_dom (D := gset Z)), (tr_dom _ _ _ _ _ R), size_list_to_set by apply (hl_nodup _ _ _ _ _ R). lia.
  - exists d'. split; [done|]. apply map_eq. intros x. rewrite Ho, lookup_empty. destruct (decide (x ∈ hl)) as [|Nx]; [done|].
    apply not_elem_of_dom. by rewrite (tr_dom _ _ _ _ _ R), elem_of_list_to_set.
Qed.

(** ** The theorem *)

(** C32: a table keeps a stack of values per key.  [linkhash_get] returns the value
    added last, or 0; [linkhash_add] puts a value on top (or returns -1 when there is
    no memory, and changes nothing); [linkhash_remove] takes the top off and returns
    it, or returns -1 and changes nothing, and in no case changes the counters;
    [linkhash_destroy] frees every node.  Other keys are not affected, in the same
    bucket or not, and every operation returns. *)
Theorem linkhash_refinement a d t bs hl key :
  table_rep a d t bs hl ->
  linkhash_get d key (Some t) = Some (hd 0 (vals t bs key)) /\
  (forall val, val <> NULL ->
     (exists a', linkhash_add a d key val (Some t) = Some (-1, a', d, Some t) /\ fst (malloc a sizeof_hlist) = NULL /\ table_rep a' d t bs hl) \/
     (exists a' d' t' bs' hl', linkhash_add a d key val (Some t) = Some (0, a', d', Some t') /\ table_rep a' d' t' bs' hl' /\
        vals t' bs' key = val :: vals t bs key /\ forall k, k <> key -> vals t' bs' k = vals t bs k)) /\
  match vals t bs key with
  | [] => linkhash_remove d key (Some t) = Some (-1, d)
  | v :: vs => exists d' bs' hl', linkhash_remove d key (Some t) = Some (v, d') /\ table_rep a d' t bs' hl' /\
      vals t bs' key = vs /\ (forall k, k <> key -> vals t bs' k = vals t bs k)
  end /\
  (exists d', linkhash_destroy d (Some t) = Some d' /\ hobjs d' = ∅).
Proof.
  intros R. split; [by eapply get_rep|]. split; [|split; [by eapply remove_rep|by eapply destroy_rep]].
  intros val Nv. by apply add_rep_vals.
Qed.

Lemma linkhash_refinement_witness :
  exists t a d, linkhash_create (Alloc 4096 []) (Hstore ∅ ∅) 4 77 = (Some t, a, d) /\ linkhash_get d 5 (Some t) = Some 0.
Proof.
  pose proof (linkhash_create_rep (Alloc 4096 []) (Hstore ∅ ∅) 4 77 ltac:(by unfold alloc_ok; cbn) ltac:(by unfold LINKHASH_MAX_BUCKET_COUNT) eq_refl) as C.
  destruct (linkhash_create (Alloc 4096 []) (Hstore ∅ ∅) 4 77) as [[[t|] a] d] eqn:E; [|by vm_compute in E].
  exists t, a, d. split; [done|]. destruct C as (R & Eb & _).
  { intros x [c Hx]. cbn [hcells] in Hx. by rewrite lookup_empty in Hx. }
  rewrite (proj1 (linkhash_refinement a d t _ _ 5 R)). unfold vals, bucket_of, bucket_id. by rewrite Eb.
Defined.
