(* ===== verification/Rpc.v ===== *)
(** * Rpc: the remote procedure call service (rpc_test/)

    The threads of rpc_client/rpc_client.c and rpc_server/rpc_sever.c.  The
    requests of the clients wait on the circular list [req_list] (its accesses are
    under the spin lock of the service, one step each); [rsp_list] and the tables of
    the server are used by the server alone.  A round of the server is two steps: it
    takes a request, which may wake the client that sent it, and then reads the
    parameters of the request and serves it.  In each step what the server touches
    besides [req_list] belongs to it or to a client that waits for it, except for the
    parameters, which are the first thing the second step reads.  The pool and the
    hash table that the server uses are interfaces, which MemPool and HashList
    implement. *)
From S2P Require Import Prelude Atomic KList MemPool HashList.
From stdpp Require Import list relations.
Local Open Scope Z_scope.

(** ** Interfaces *)

(** A pool of blocks: a stack of free blocks, and the ones handed out. *)
Class BlockPool (P : Type) := {
  bp_alloc : P -> option (Z * P);
  bp_free : P -> Z -> option P;
  bp_block : P -> Z -> option mempool_block;
  bp_rep : P -> list Z -> list Z -> Prop;
  bp_alloc_spec p fl ul : bp_rep p fl ul ->
    exists p', bp_alloc p = Some (hd NULL fl, p') /\ (forall x, bp_block p' x = bp_block p x) /\
      bp_rep p' (tail fl) (match fl with x :: _ => x :: ul | [] => ul end);
  bp_free_spec p fl u1 x u2 : bp_rep p fl (u1 ++ x :: u2) ->
    exists p', bp_free p x = Some p' /\ (forall y, bp_block p' y = bp_block p y) /\ bp_rep p' (x :: fl) (u1 ++ u2);
  bp_block_spec p fl ul x : bp_rep p fl ul -> x ∈ fl ++ ul -> x <> NULL /\ is_Some (bp_block p x);
  bp_nodup p fl ul : bp_rep p fl ul -> NoDup (fl ++ ul) }.

(** A table with a stack of values per key. *)
Class KeyTable (T : Type) := {
  kt_get : T -> Z -> option Z;
  kt_add : T -> Z -> Z -> option (Z * T);
  kt_rep : T -> (Z -> list Z) -> Prop;
  kt_get_spec t f k : kt_rep t f -> kt_get t k = Some (hd 0 (f k));
  kt_add_spec t f k v : kt_rep t f -> v <> NULL ->
    (exists t', kt_add t k v = Some (-1, t') /\ kt_rep t' f) \/
    (exists t' f', kt_add t k v = Some (0, t') /\ kt_rep t' f' /\ f' k = v :: f k /\ forall j, j <> k -> f' j = f j) }.

(** The pool of lib/mem_pool: the memory, the address of the pool and its record. *)
Record pool_obj := PoolObj { po_store : mstore; po_at : Z; po_pool : mempool }.

Definition pool_alloc (p : pool_obj) : option (Z * pool_obj) :=
  match mempool_alloc (po_store p) (po_at p) (Some (po_pool p)) with
  | Some (x, d, Some q) => Some (x, PoolObj d (po_at p) q)
  | _ => None
  end.
Definition pool_free (p : pool_obj) (x : Z) : option pool_obj :=
  match mempool_free (po_store p) (po_at p) (Some (po_pool p)) x with
  | Some (d, Some q) => Some (PoolObj d (po_at p) q)
  | _ => None
  end.

#[export] Instance mem_pool : BlockPool pool_obj.
Proof.
  refine {| bp_alloc := pool_alloc; bp_free := pool_free; bp_block p x := mblocks (po_store p) !! x;
            bp_rep p fl ul := blocks_rep (po_store p) (po_at p) fl ul |}.
  - intros [d pool p] fl ul R. unfold pool_alloc. cbn [po_store po_at po_pool] in *. destruct (alloc_blocks d pool p fl ul R) as (d' & -> & E & R').
    eexists. split; [done|]. cbn. split; [|done]. intros x. by rewrite E.
  - intros [d pool p] fl u1 x u2 R. unfold pool_free. cbn [po_store po_at po_pool] in *. destruct (free_blocks d pool p fl u1 x u2 R) as (d' & -> & E & R').
    eexists. split; [done|]. cbn. split; [|done]. intros y. by rewrite E.
  - intros [d pool p] fl ul x [_ R] Hx. cbn in *. by apply R.
  - intros [d pool p] fl ul R. by eapply lists_nodup, R.
Defined.

(** The table of lib/hashlist. *)
Record table_obj := TableObj { to_alloc : alloc; to_store : hstore; to_table : linkhash }.

Definition table_add (t : table_obj) (k v : Z) : option (Z * table_obj) :=
  match linkhash_add (to_alloc t) (to_store t) k v (Some (to_table t)) with
  | Some (r, a, d, Some q) => Some (r, TableObj a d q)
  | _ => None
  end.

#[export] Instance link_hash : KeyTable table_obj.
Proof.
  refine {| kt_get t k := linkhash_get (to_store t) k (Some (to_table t)); kt_add := table_add;
            kt_rep t f := exists bs hl, table_rep (to_alloc t) (to_store t) (to_table t) bs hl /\ forall k, vals (to_table t) bs k = f k |}.
  - intros [a d t] f k (bs & hl & R & V). cbn [to_alloc to_store to_table] in *. rewrite (get_rep _ _ _ _ _ k R). by rewrite V.
  - intros [a d t] f k v (bs & hl & R & V) Nv. unfold table_add. cbn [to_alloc to_store to_table] in *.
    destruct (add_rep_vals _ _ _ _ _ k v R Nv) as [(a' & -> & _ & R')|(a' & d' & t' & bs' & hl' & -> & R' & V1 & V2)].
    + left. eexists. split; [done|]. by exists bs, hl.
    + right. eexists _, (vals t' bs'). split; [done|]. split; [by exists bs', hl'|]. split; [by rewrite V1, V|]. intros j Nj. by rewrite V2, V.
Defined.

(** ** Clients and server *)

Definition MAX_RPC_SERVICE_BUCKET_COUNT : Z := 128.
Definition MAX_RPC_SHM_BLOCK_COUNT : Z := 256.
Definition PAGE_SIZE : Z := 4096.

Definition CLIENT_REQ_SERVICE_WITH_RSP : Z := 0.
Definition CLIENT_REQ_SERVICE_WITHOUT_RSP : Z := 1.
Definition RPC_CLIENT_REQ_TYPE_COUNT : Z := 2.
Definition CLIENT_GET_SERVICE : Z := 2.
Definition CLIENT_STOP_SERVICE : Z := 3.
Definition RPC_CLIENT_REQ_TOTAL_TYPE_COUNT : Z := 4.

(** [rpc_srv_params_t]. *)
Record rpc_srv_params := Params { client_id : Z; req_type : Z; rpc_shm_vaddr : Z; param : Z }.

(** Where a client is in [rpc_client_request_service]: not in it; the type of the request
    is stored; its request is on the list and the semaphore of the server not yet
    posted; waiting. *)
Inductive client_pc := Idle | Packaged | Posting | Waiting.

(** [rpc_client_t]; its [service_hook] is the cell at the address of the client. *)
Record rpc_client := Client { service_cap : Z; client_sem : Z; rpc_params : rpc_srv_params; c_pc : client_pc }.

Definition sizeof_rpc_client : Z := 88.

(** [rpc_service_t]: its lists are at [service]. *)
Definition sizeof_rpc_service : Z := 96.
Definition req_list (service : Z) : Z := service + 40.
Definition rsp_list (service : Z) : Z := service + 56.

Section Server.
Context {P T : Type} `{BlockPool P, KeyTable T}.

(** [srv_at]: the client whose request the server has taken and not read yet;
    [handled]: the calls of the handlers of the service, by client and request. *)
Record rpc_state := RState {
  server_sem : Z;
  srv_at : option Z;
  rcells : cells;
  clients : gmap Z rpc_client;
  shm_pool : P;
  shm_hash : T;
  handled : list (Z * Z) }.

Definition set_sem (s : rpc_state) x := RState x (srv_at s) (rcells s) (clients s) (shm_pool s) (shm_hash s) (handled s).
Definition set_at (s : rpc_state) x := RState (server_sem s) x (rcells s) (clients s) (shm_pool s) (shm_hash s) (handled s).
Definition set_cells (s : rpc_state) x := RState (server_sem s) (srv_at s) x (clients s) (shm_pool s) (shm_hash s) (handled s).
Definition set_clients (s : rpc_state) x := RState (server_sem s) (srv_at s) (rcells s) x (shm_pool s) (shm_hash s) (handled s).
Definition set_pool (s : rpc_state) x := RState (server_sem s) (srv_at s) (rcells s) (clients s) x (shm_hash s) (handled s).
Definition set_hash (s : rpc_state) x := RState (server_sem s) (srv_at s) (rcells s) (clients s) (shm_pool s) x (handled s).
Definition set_handled (s : rpc_state) x := RState (server_sem s) (srv_at s) (rcells s) (clients s) (shm_pool s) (shm_hash s) x.

Definition sem_post (c : rpc_client) : rpc_client := Client (service_cap c) (client_sem c + 1) (rpc_params c) (c_pc c).

(** The requests whose client waits for more than that the request is taken. *)
Definition wants_rsp (x : rpc_client) : bool :=
  (req_type (rpc_params x) =? CLIENT_GET_SERVICE) || (req_type (rpc_params x) =? CLIENT_REQ_SERVICE_WITH_RSP).

(** [rpc_service_get_request] from [sem_wait] on (which has to be possible) to the
    [return]; the hook is the first field of the client. *)
Definition take_request (service : Z) (s : rpc_state) : option rpc_state :=
  if server_sem s <=? 0 then None
  else
    let s := set_sem s (server_sem s - 1) in
    request ← get_next (rcells s) (req_list service);
    m ← list_del_init (rcells s) request;
    client ← clients s !! request;
    let s := set_at s (Some request) in
    if wants_rsp client
    then m ← list_add_tail m request (rsp_list service); Some (set_cells s m)
    else Some (set_clients (set_cells s m) (<[request := sem_post client]> (clients s))).

(** [return (client->rpc_params)]. *)
Definition read_request (s : rpc_state) : option (rpc_srv_params * rpc_state) :=
  request ← srv_at s;
  client ← clients s !! request;
  Some (rpc_params client, set_at s None).

Definition rpc_service_awake_waiter (service : Z) (s : rpc_state) : option rpc_state :=
  waiter ← get_next (rcells s) (rsp_list service);
  m ← list_del_init (rcells s) waiter;
  client ← clients s !! waiter;
  Some (set_clients (set_cells s m) (<[waiter := sem_post client]> (clients s))).

Definition rpc_service_send_response (service : Z) (s : rpc_state) (rsp_params : rpc_srv_params) : option rpc_state :=
  waiter ← get_next (rcells s) (rsp_list service);
  client ← clients s !! waiter;
  let q := rpc_params client in
  let q := Params (client_id q) (req_type q) (rpc_shm_vaddr rsp_params) (param rsp_params) in
  Some (set_clients s (<[waiter := Client (service_cap client) (client_sem client) q (c_pc client)]> (clients s))).

(** The [switch] of [rpc_service_handler]: the three cases that do something. *)
Definition serve_get (service : Z) (params : rpc_srv_params) (rpc_client_shm : Z) (s : rpc_state) : option rpc_state :=
  if negb (rpc_client_shm =? NULL) then rpc_service_awake_waiter service s
  else
    '(shm, pool) ← bp_alloc (shm_pool s);
    let s := set_pool s pool in
    if negb (shm =? NULL) then
      '(r, hash) ← kt_add (shm_hash s) (client_id params) shm;
      let s := set_hash s hash in
      if negb (r =? 0) then
        pool ← bp_free (shm_pool s) shm;
        rpc_service_awake_waiter service (set_pool s pool)
      else
        b ← bp_block (shm_pool s) shm;
        let params := Params (client_id params) (req_type params) (mb_block_start b) (mb_size b) in
        s ← rpc_service_send_response service s params;
        rpc_service_awake_waiter service s
    else rpc_service_awake_waiter service s.

Definition serve_req (service : Z) (params : rpc_srv_params) (rpc_client_shm : Z) (s : rpc_state) : option rpc_state :=
  if rpc_client_shm =? NULL then Some s
  else
    let s := set_handled s (handled s ++ [(client_id params, req_type params)]) in
    if req_type params =? CLIENT_REQ_SERVICE_WITH_RSP then rpc_service_awake_waiter service s else Some s.

(** The loop of [rpc_service_handler] after the request is taken. *)
Definition serve_request (service : Z) (s : rpc_state) : option rpc_state :=
  '(params, s) ← read_request s;
  rpc_client_shm ← kt_get (shm_hash s) (client_id params);
  let t := req_type params in
  if t =? CLIENT_GET_SERVICE then serve_get service params rpc_client_shm s
  else if (t =? CLIENT_REQ_SERVICE_WITH_RSP) || (t =? CLIENT_REQ_SERVICE_WITHOUT_RSP)
  then serve_req service params rpc_client_shm s
  else Some s.

(** [rpc_client_init] for the thread [tid]: the other parameters are what [malloc]
    leaves there. *)
Definition client_at (c service_cap tid : Z) (junk : rpc_srv_params) (s : rpc_state) : rpc_state :=
  set_clients (set_cells s (INIT_LIST_HEAD (rcells s) c))
    (<[c := Client service_cap 0 (Params tid (req_type junk) (rpc_shm_vaddr junk) (param junk)) Idle]> (clients s)).
Definition rpc_client_init (a : alloc) (service_cap tid : Z) (junk : rpc_srv_params) (s : rpc_state) : Z * alloc * rpc_state :=
  let '(c, a) := malloc a sizeof_rpc_client in
  if c =? NULL then (c, a, s) else (c, a, client_at c service_cap tid junk s).

Definition rpc_client_package_params (client : rpc_client) (service_type : Z) : rpc_client :=
  let q := rpc_params client in
  Client (service_cap client) (client_sem client) (Params (client_id q) service_type (rpc_shm_vaddr q) (param q)) Packaged.

(** [rpc_client_request_service], up to the call of [rpc_client_send_request]: NULL at
    once for a type that is not known; otherwise the type is stored. *)
Definition rpc_client_start (c : Z) (service_type : Z) (s : rpc_state) : option rpc_state :=
  client ← clients s !! c;
  if RPC_CLIENT_REQ_TOTAL_TYPE_COUNT <? service_type then Some s
  else Some (set_clients s (<[c := rpc_client_package_params client service_type]> (clients s))).

(** [rpc_client_send_request] up to the unlocking of the list. *)
Definition rpc_client_send_request (service : Z) (c : Z) (s : rpc_state) : option rpc_state :=
  client ← clients s !! c;
  m ← list_add_tail (rcells s) c (req_list service);
  Some (set_clients (set_cells s m) (<[c := Client (service_cap client) (client_sem client) (rpc_params client) Posting]> (clients s))).

(** [sem_post(&service->server_sem)]. *)
Definition rpc_client_post (c : Z) (s : rpc_state) : option rpc_state :=
  client ← clients s !! c;
  Some (set_clients (set_sem s (server_sem s + 1))
          (<[c := Client (service_cap client) (client_sem client) (rpc_params client) Waiting]> (clients s))).

(** [sem_wait(&client->client_sem)] and the result. *)
Definition rpc_client_wake (c : Z) (s : rpc_state) : option (Z * rpc_state) :=
  client ← clients s !! c;
  if client_sem client <=? 0 then None
  else
    let t := req_type (rpc_params client) in
    let res := if (t =? CLIENT_GET_SERVICE) || (t =? CLIENT_REQ_SERVICE_WITH_RSP) || (t =? CLIENT_REQ_SERVICE_WITHOUT_RSP) ||
                  (t =? CLIENT_STOP_SERVICE) then rpc_shm_vaddr (rpc_params client) else NULL in
    Some (res, set_clients s (<[c := Client (service_cap client) (client_sem client - 1) (rpc_params client) Idle]> (clients s))).

(** The steps of the clients and the server that go on with requests.  A client object
    is used by one thread. *)
Inductive quiet_step (service : Z) (s : rpc_state) : rpc_state -> Prop :=
| st_list c x s' : clients s !! c = Some x -> c_pc x = Packaged -> rpc_client_send_request service c s = Some s' -> quiet_step service s s'
| st_post c x s' : clients s !! c = Some x -> c_pc x = Posting -> rpc_client_post c s = Some s' -> quiet_step service s s'
| st_wake c x r s' : clients s !! c = Some x -> c_pc x = Waiting -> rpc_client_wake c s = Some (r, s') -> quiet_step service s s'
| st_take s' : srv_at s = None -> take_request service s = Some s' -> quiet_step service s s'
| st_serve c s' : srv_at s = Some c -> serve_request service s = Some s' -> quiet_step service s s'.

(** All steps; the label of a step that starts a request is the client and the type. *)
Inductive rpc_step (service : Z) (s : rpc_state) : option (Z * Z) -> rpc_state -> Prop :=
| st_quiet s' : quiet_step service s s' -> rpc_step service s None s'
| st_join c service_cap tid junk : rcells s !! c = None -> rpc_step service s None (client_at c service_cap tid junk s)
| st_start c x t s' : clients s !! c = Some x -> c_pc x = Idle ->
    rpc_client_start c t s = Some s' -> rpc_step service s (Some (c, t)) s'.

Definition at_pc (s : rpc_state) (c : Z) (pc : rpc_client -> bool) : bool := match clients s !! c with Some x => pc x | None => false end.

(** Rules for the clients, which the code does not enforce.  A service with response is
    asked for with a block only.  While the server still has to read the parameters of
    the last request of a client, which it does after it has woken the client when no
    response is wanted, the client starts requests of the same type only. *)
Definition by_the_rules (c t : Z) (s : rpc_state) : bool :=
  (negb (bool_decide (srv_at s = Some c)) || at_pc s c (fun x => t =? req_type (rpc_params x))) &&
  (negb (t =? CLIENT_REQ_SERVICE_WITH_RSP) ||
   at_pc s c (fun x => match kt_get (shm_hash s) (client_id (rpc_params x)) with Some v => negb (v =? NULL) | None => false end)).

(** A step in which clients keep to the rules. *)
Definition ruled_step (service : Z) (s s' : rpc_state) : Prop :=
  exists l, rpc_step service s l s' /\ match l with Some (c, t) => by_the_rules c t s = true | None => True end.

(** The service as [mk_rpc_service_cap] makes it, with the pool and the table the
    thread of the server creates. *)
Definition rpc_service_new (service : Z) (m : cells) (p : P) (h : T) : rpc_state :=
  RState 0 None (INIT_LIST_HEAD (INIT_LIST_HEAD m (req_list service)) (rsp_list service)) ∅ p h [].

(** ** The invariant *)

Definition both (service : Z) (rl wl : list Z) : list (Z * list Z) := [(req_list service, rl); (rsp_list service, wl)].

(** The steps of a round on the lists: the first request leaves [req_list]... *)
Lemma take_run service s c rl x :
  rings (rcells s) (both service (c :: rl) []) -> clients s !! c = Some x -> 0 < server_sem s ->
  exists m, (forall y, is_cell m y <-> is_cell (rcells s) y) /\
    rings m (both service rl (if wants_rsp x then [c] else [])) /\
    let s1 := set_cells (set_at (set_sem s (server_sem s - 1)) (Some c)) m in
    take_request service s =
      Some (if wants_rsp x then s1 else set_clients s1 (<[c := sem_post x]> (clients s))).
Proof.
  intros RS Hc Hs. unfold take_request. rewrite (proj2 (Z.leb_gt _ _)) by done. cbn [set_sem rcells clients].
  destruct (ring_head _ _ _ (proj1 (rings_split _ [] _ _ _ RS))) as [-> _]. cbn [hd mbind option_bind].
  pose proof (left_list _ [] _ [] _ _ _ RS) as NL. pose proof (ring_cell _ _ _ c (proj1 (rings_split _ [] _ _ _ RS)) ltac:(set_solver)) as C.
  destruct (rings_del_init _ [] _ [] _ _ _ RS) as (m & Em & RS1 & _ & _). rewrite Em. cbn [mbind option_bind]. rewrite Hc. cbn [mbind option_bind].
  cbn zeta. destruct (wants_rsp x) eqn:Et.
  - destruct (rings_add_tail m [(req_list service, rl)] (rsp_list service) [] c []) as (m' & Em' & RS2 & _); [done| |done|].
    { by apply (list_del_init_cells _ _ _ _ Em). }
    rewrite Em'. exists m'. split; [|done]. intros y. by rewrite (list_add_tail_cells _ _ _ _ _ Em'), (list_del_init_cells _ _ _ _ Em).
  - exists m. split; [|done]. intros y. by rewrite (list_del_init_cells _ _ _ _ Em).
Qed.

(** ... and the one that waits for the response leaves [rsp_list]. *)
Lemma awake_run service s c rl x :
  rings (rcells s) (both service rl [c]) -> clients s !! c = Some x ->
  exists m, (forall y, is_cell m y <-> is_cell (rcells s) y) /\ rings m (both service rl []) /\
    rpc_service_awake_waiter service s = Some (set_clients (set_cells s m) (<[c := sem_post x]> (clients s))).
Proof.
  intros RS Hc. unfold rpc_service_awake_waiter.
  destruct (ring_head _ _ _ (proj1 (rings_split _ [(req_list service, rl)] _ _ _ RS))) as [-> _]. cbn [hd mbind option_bind].
  destruct (rings_del_init _ [(req_list service, rl)] _ [] _ [] _ RS) as (m & Em & RS1 & _ & _). rewrite Em. cbn [mbind option_bind]. rewrite Hc.
  exists m. split; [|done]. intros y. by rewrite (list_del_init_cells _ _ _ _ Em).
Qed.

Lemma send_run service s c rl x q :
  rings (rcells s) (both service rl [c]) -> clients s !! c = Some x ->
  let p := rpc_params x in
  rpc_service_send_response service s q =
    Some (set_clients s (<[c := Client (service_cap x) (client_sem x) (Params (client_id p) (req_type p) (rpc_shm_vaddr q) (param q)) (c_pc x)]> (clients s))).
Proof.
  intros RS Hc p. unfold rpc_service_send_response.
  destruct (ring_head _ _ _ (proj1 (rings_split _ [(req_list service, rl)] _ _ _ RS))) as [-> _]. cbn [hd mbind option_bind]. by rewrite Hc.
Qed.

(** The number of clients at a point of [rpc_client_request_service]. *)
Definition posting (x : rpc_client) : bool := match c_pc x with Posting => true | _ => false end.
Definition waiting (x : rpc_client) : bool := match c_pc x with Waiting => true | _ => false end.
Definition packaged (x : rpc_client) : bool := match c_pc x with Packaged => true | _ => false end.
Definition count_clients (q : rpc_client -> bool) (m : gmap Z rpc_client) : Z := Z.of_nat (size (filter (fun kx => q (snd kx) = true) m)).

Lemma count_insert q m c x y : m !! c = Some x ->
  count_clients q (<[c := y]> m) + Z.b2z (q x) = count_clients q m + Z.b2z (q y).
Proof.
  assert (K : forall n z, n !! c = None -> count_clients q (<[c := z]> n) = count_clients q n + Z.b2z (q z)).
  { intros n z Hn. unfold count_clients. destruct (q z) eqn:Ez; cbn [Z.b2z].
    - rewrite map_filter_insert_True by (by cbn). rewrite map_size_insert_None; [lia|]. apply map_lookup_filter_None. by left.
    - rewrite map_filter_insert_False by (cbn; congruence). rewrite delete_id by done. lia. }
  intros Hx. rewrite <- (insert_delete_id m c x Hx) at 2. rewrite <- insert_delete_eq.
  rewrite !K by apply lookup_delete_eq. lia.
Qed.

Lemma count_witness q m : 0 < count_clients q m -> exists c x, m !! c = Some x /\ q x = true.
Proof.
  unfold count_clients. intros Hp. destruct (map_choose (filter (fun kx => q (snd kx) = true) m)) as (c & x & E).
  { intros E. rewrite E, map_size_empty in Hp. done. }
  apply map_lookup_filter_Some in E. eauto.
Qed.

(** What the server keeps about its clients: at most one block per client, each block
    with one client. *)
Definition tables_ok (p : P) (h : T) : Prop :=
  exists fl ul f, bp_rep p fl ul /\ kt_rep h f /\ (forall k, f k = [] \/ exists b, f k = [b] /\ b ∈ ul) /\
    (forall j k b, f j = [b] -> f k = [b] -> j = k).

Definition registered (h : T) (id : Z) : Prop := exists v, kt_get h id = Some v /\ v <> NULL.

(** The effect of answering the client [c]: it is off the lists, its semaphore is
    posted, nothing else about it changes but the response, and no other client
    changes. *)
Record answered (service : Z) (s s' : rpc_state) (rl : list Z) (c : Z) (x x' : rpc_client) : Prop := {
  an_rings : rings (rcells s') (both service rl []);
  an_cells : forall y, is_cell (rcells s') y <-> is_cell (rcells s) y;
  an_clients : clients s' = <[c := x']> (clients s);
  an_srv : srv_at s' = srv_at s /\ server_sem s' = server_sem s;
  an_sem : client_sem x' = client_sem x + 1;
  an_pc : c_pc x' = c_pc x;
  an_id : client_id (rpc_params x') = client_id (rpc_params x);
  an_tables : tables_ok (shm_pool s') (shm_hash s');
  an_reg : forall id, registered (shm_hash s) id -> registered (shm_hash s') id }.

(** The response to [CLIENT_GET_SERVICE]: the block of the client, if it did not have
    one and there is one. *)
Definition get_response (s s' : rpc_state) (x x' : rpc_client) : Prop :=
  let id := client_id (rpc_params x) in
  (registered (shm_hash s) id -> rpc_params x' = rpc_params x /\ shm_hash s' = shm_hash s) /\
  (kt_get (shm_hash s) id = Some NULL ->
    (rpc_params x' = rpc_params x /\ kt_get (shm_hash s') id = Some NULL) \/
    (exists b blk, kt_get (shm_hash s') id = Some b /\ b <> NULL /\ bp_block (shm_pool s') b = Some blk /\
       rpc_shm_vaddr (rpc_params x') = mb_block_start blk /\ param (rpc_params x') = mb_size blk /\
       forall j, j <> id -> kt_get (shm_hash s') j <> Some b)).

(** A state that differs from [s] in the tables only is answered like [s]. *)
Lemma awake_answers service s s1 c rl x x1 :
  rings (rcells s1) (both service rl [c]) -> (forall y, is_cell (rcells s1) y <-> is_cell (rcells s) y) ->
  clients s1 = <[c := x1]> (clients s) -> srv_at s1 = srv_at s -> server_sem s1 = server_sem s -> client_sem x1 = client_sem x -> c_pc x1 = c_pc x ->
  client_id (rpc_params x1) = client_id (rpc_params x) ->
  tables_ok (shm_pool s1) (shm_hash s1) -> (forall id, registered (shm_hash s) id -> registered (shm_hash s1) id) ->
  exists s', rpc_service_awake_waiter service s1 = Some s' /\ answered service s s' rl c x (sem_post x1) /\
    shm_pool s' = shm_pool s1 /\ shm_hash s' = shm_hash s1 /\ handled s' = handled s1.
Proof.
  intros RS Hc Ecl Ea Ess Es Ep Ei Tk Rg. destruct (awake_run service s1 c rl x1 RS) as (m & Hm & RS' & ->).
  { rewrite Ecl. apply lookup_insert_eq. }
  eexists. split; [done|]. split; [|done]. split; cbn; try done.
  - intros y. by rewrite Hm, Hc.
  - by rewrite Ecl, insert_insert_eq.
  - by rewrite Es.
Qed.

Lemma kt_same (t1 t2 : T) f : kt_rep t1 f -> kt_rep t2 f -> forall k, kt_get t1 k = kt_get t2 k.
Proof. intros R1 R2 k. by rewrite (kt_get_spec _ _ k R1), (kt_get_spec _ _ k R2). Qed.

(** One more client with a block that no client has. *)
Lemma one_more (f f' : Z -> list Z) (k b : Z) (ul : list Z) :
  f' k = [b] -> (forall j, j <> k -> f' j = f j) -> (forall j, f j <> [b]) ->
  (forall j, f j = [] \/ exists x, f j = [x] /\ x ∈ ul) -> (forall i j x, f i = [x] -> f j = [x] -> i = j) ->
  (forall j, f' j = [] \/ exists x, f' j = [x] /\ x ∈ b :: ul) /\ (forall i j x, f' i = [x] -> f' j = [x] -> i = j).
Proof.
  intros E1 E2 N F I. split.
  - intros j. destruct (decide (j = k)) as [->|Nj]; [right; exists b; set_solver|]. rewrite E2 by done.
    destruct (F j) as [?|(x & ? & ?)]; [by left|]. right. exists x. set_solver.
  - intros i j x. destruct (decide (i = k)) as [->|Ni], (decide (j = k)) as [->|Nj]; rewrite ?E1, ?E2 by done; try done.
    + intros [= <-] ?. by destruct (N j).
    + intros Hi [= <-]. by destruct (N i).
    + apply I.
Qed.

Lemma serve_get_run service s params c rl x v :
  rings (rcells s) (both service rl [c]) -> clients s !! c = Some x -> params = rpc_params x ->
  tables_ok (shm_pool s) (shm_hash s) -> kt_get (shm_hash s) (client_id params) = Some v ->
  exists s' x', serve_get service params v s = Some s' /\ answered service s s' rl c x x' /\ handled s' = handled s /\ get_response s s' x x'.
Proof.
  intros RS Hc -> Tk Ev. unfold serve_get. assert (Id : clients s = <[c := x]> (clients s)) by (by rewrite insert_id).
  destruct (Z.eqb_spec v NULL) as [->|Nv]; cbn [negb].
  2: { destruct (awake_answers service s s c rl x x) as (s' & E & A & E1 & E2 & E3); try done. exists s', (sem_post x).
       split; [done|]. split; [done|]. split; [done|]. split; [by rewrite E2|]. intros E4. rewrite Ev in E4. congruence. }
  destruct Tk as (fl & ul & f & BR & KR & F & I). destruct (bp_alloc_spec _ _ _ BR) as (p1 & -> & Eb1 & BR1). cbn [mbind option_bind].
  pose proof (kt_get_spec _ f (client_id (rpc_params x)) KR) as Eg. rewrite Ev in Eg. injection Eg as Eg.
  assert (Ef : f (client_id (rpc_params x)) = []).
  { destruct (F (client_id (rpc_params x))) as [Ef|(b & Ef & Hb)]; [done|]. rewrite Ef in Eg. cbn in Eg. subst b.
    destruct (bp_block_spec _ _ _ NULL BR) as [? _]; [set_solver|done]. }
  destruct fl as [|b fl]; cbn [hd tail] in *.
  { (* no block left *)
    destruct (awake_answers service s (set_pool s p1) c rl x x) as (s' & E & A & E1 & E2 & E3); try done.
    { by exists [], ul, f. }
    cbn [negb Z.eqb NULL]. exists s', (sem_post x). split; [done|]. split; [done|]. split; [done|].
    split; [by rewrite E2|]. intros _. left. by rewrite E2. }
  destruct (bp_block_spec _ _ _ b BR) as [Nb [blk Hblk]]; [set_solver|]. rewrite (proj2 (Z.eqb_neq b NULL)) by done. cbn [negb].
  cbn [set_pool shm_hash shm_pool].
  destruct (kt_add_spec _ _ (client_id (rpc_params x)) b KR Nb) as [(t' & -> & KR')|(t' & f' & -> & KR' & F1 & F2)]; cbn [mbind option_bind].
  - (* the table is out of memory *)
    rewrite (eq_refl : (-1 =? 0) = false). cbn [negb set_hash set_pool shm_pool].
    destruct (bp_free_spec p1 fl [] b ul BR1) as (p2 & E2 & _ & BR2). rewrite E2. cbn [mbind option_bind].
    pose proof (kt_same t' (shm_hash s) f KR' KR) as Sm.
    destruct (awake_answers service s (set_pool (set_hash (set_pool s p1) t') p2) c rl x x) as (s' & E & A & E4 & E5 & E6); try done.
    { by exists (b :: fl), ul, f. }
    { intros id (v & Hv & Nv). exists v. cbn. by rewrite Sm. }
    exists s', (sem_post x). split; [done|]. split; [done|]. split; [done|].
    split; [|intros _; left; rewrite E5; cbn; by rewrite Sm]. intros (v & Hv & Nv). rewrite Ev in Hv. congruence.
  - (* the client gets the block [b] *)
    rewrite (eq_refl : (0 =? 0) = true). cbn [negb set_hash set_pool shm_pool]. rewrite Eb1, Hblk. cbn [mbind option_bind].
    rewrite (send_run service (set_hash (set_pool s p1) t') c rl x _ RS Hc). cbn [mbind option_bind rpc_shm_vaddr param].
    assert (Nf : forall k, f k <> [b]).
    { intros k Ek. destruct (F k) as [Ek'|(b' & Ek' & Hb')]; rewrite Ek in Ek'; [done|]. injection Ek' as <-.
      apply bp_nodup in BR. cbn in BR. apply NoDup_cons in BR as [BR _]. set_solver. }
    match goal with |- context [rpc_service_awake_waiter service ?s1] => set (s2 := s1) end.
    assert (Tk' : tables_ok p1 t').
    { exists fl, (b :: ul), f'. split; [done|]. split; [done|]. rewrite Ef in F1. by apply (one_more f f' (client_id (rpc_params x)) b ul). }
    destruct (awake_answers service s s2 c rl x (Client (service_cap x) (client_sem x)
      (Params (client_id (rpc_params x)) (req_type (rpc_params x)) (mb_block_start blk) (mb_size blk)) (c_pc x))) as (s' & E & A & E4 & E5 & E6); try done.
    { intros id (v & Hv & Nv). exists v. split; [|done]. destruct (decide (id = client_id (rpc_params x))) as [->|Ni].
      - rewrite Ev in Hv. congruence.
      - cbn. rewrite (kt_get_spec _ _ _ KR'), F2 by done. by rewrite <- (kt_get_spec _ _ _ KR). }
    eexists s', _. split; [done|]. split; [done|]. split; [done|]. split; [intros (v & Hv & Nv); rewrite Ev in Hv; congruence|].
    intros _. right. exists b, blk. rewrite E4, E5. cbn. rewrite (kt_get_spec _ _ _ KR'), F1, Eb1. split_and!; try done.
    intros j Nj. rewrite (kt_get_spec _ _ _ KR'), F2 by done. intros [= Ej]. destruct (F j) as [Ek|(b' & Ek & Hb')]; rewrite Ek in Ej; cbn in Ej; [done|].
    subst b'. by apply (Nf j).
Qed.

(** A client that is not in a request is not on the lists; one that is, is either on a
    list or has been woken, once. *)
Definition status (pend : list Z) (c : Z) (x : rpc_client) : Prop :=
  match c_pc x with
  | Idle | Packaged => client_sem x = 0 /\ c ∉ pend
  | _ => (client_sem x = 0 /\ c ∈ pend) \/ (client_sem x = 1 /\ c ∉ pend)
  end.

Definition at_ok (a : option Z) (m : gmap Z rpc_client) (wl : list Z) : Prop :=
  match a with
  | None => wl = []
  | Some c => exists x, m !! c = Some x /\ wl = if wants_rsp x then [c] else []
  end.

(** [rl]: the requests waiting to be taken; [wl]: the client that waits for the
    request that the server has taken.  Each waiting request has its token in the
    semaphore of the server, or a client that is about to post one. *)
Record rpc_inv (service : Z) (s : rpc_state) (rl wl : list Z) : Prop := {
  ri_rings : rings (rcells s) (both service rl wl);
  ri_cells : forall c x, clients s !! c = Some x -> is_cell (rcells s) c /\ c <> req_list service /\ c <> rsp_list service;
  ri_pc : forall c x, clients s !! c = Some x -> status (rl ++ wl) c x;
  ri_req : forall c, c ∈ rl ++ wl -> exists x, clients s !! c = Some x /\
    (req_type (rpc_params x) = CLIENT_REQ_SERVICE_WITH_RSP -> registered (shm_hash s) (client_id (rpc_params x)));
  ri_pack : forall c x, clients s !! c = Some x -> c_pc x = Packaged ->
    req_type (rpc_params x) = CLIENT_REQ_SERVICE_WITH_RSP -> registered (shm_hash s) (client_id (rpc_params x));
  ri_at : at_ok (srv_at s) (clients s) wl;
  ri_sem : 0 <= server_sem s /\ Z.of_nat (length rl) = server_sem s + count_clients posting (clients s);
  ri_tables : tables_ok (shm_pool s) (shm_hash s) }.

(** A step that changes the client [c] only. *)
Lemma inv_update service s s' rl wl rl' wl' c x x' :
  rpc_inv service s rl wl -> clients s !! c = Some x -> clients s' = <[c := x']> (clients s) ->
  rings (rcells s') (both service rl' wl') -> (forall y, is_cell (rcells s') y <-> is_cell (rcells s) y) ->
  (forall y, y <> c -> y ∈ rl' ++ wl' <-> y ∈ rl ++ wl) -> status (rl' ++ wl') c x' ->
  (c ∈ rl' ++ wl' \/ c_pc x' = Packaged -> req_type (rpc_params x') = CLIENT_REQ_SERVICE_WITH_RSP -> registered (shm_hash s') (client_id (rpc_params x'))) ->
  (forall id, registered (shm_hash s) id -> registered (shm_hash s') id) ->
  at_ok (srv_at s') (clients s') wl' ->
  0 <= server_sem s' ->
  Z.of_nat (length rl') - server_sem s' - Z.b2z (posting x') = Z.of_nat (length rl) - server_sem s - Z.b2z (posting x) ->
  tables_ok (shm_pool s') (shm_hash s') -> rpc_inv service s' rl' wl'.
Proof.
  intros I Hc Ecl RS Hm Hy St Rq Rg At S0 S1 Tk. destruct I as [_ Ic Ip Ir Ik _ [_ Is] _].
  split; [done| | | | |done| |done].
  - intros d y. rewrite Ecl, Hm, lookup_insert_Some. intros [[-> <-]|[_ Hd]]; [by apply (Ic d x)|by apply (Ic d y)].
  - intros d y. rewrite Ecl, lookup_insert_Some. intros [[-> <-]|[Nd Hd]]; [done|]. specialize (Ip d y Hd).
    pose proof (Hy d ltac:(done)) as Hyd. unfold status in *. destruct (c_pc y); tauto.
  - intros d Hd. destruct (decide (d = c)) as [->|Nd].
    + exists x'. rewrite Ecl, lookup_insert_eq. split; [done|]. apply Rq. by left.
    + apply Hy in Hd; [|done]. destruct (Ir d Hd) as (y & Ey & Hy'). exists y. rewrite Ecl, lookup_insert_ne by done. split; [done|]. eauto.
  - intros d y. rewrite Ecl, lookup_insert_Some. intros [[-> <-]|[Nd Hd]] Pk Et; [apply Rq; auto|]. eauto.
  - split; [done|]. pose proof (count_insert posting (clients s) c x x' Hc). rewrite Ecl. lia.
Qed.

Lemma at_update a m wl c x x' : at_ok a m wl -> m !! c = Some x -> wants_rsp x' = wants_rsp x \/ a <> Some c ->
  at_ok a (<[c := x']> m) wl.
Proof.
  intros A Hc Hx. destruct a as [d|]; [|done]. destruct A as (y & Hy & ->).
  destruct (decide (d = c)) as [->|Nd]; [|exists y; by rewrite lookup_insert_ne].
  exists x'. rewrite lookup_insert_eq. split; [done|]. rewrite Hc in Hy. injection Hy as <-. by destruct Hx as [->|Hx].
Qed.

Lemma both_nodes service rl wl : ring_nodes (both service rl wl) = req_list service :: rl ++ rsp_list service :: wl.
Proof. unfold both. rewrite !ring_nodes_cons. cbn. by rewrite app_nil_r. Qed.

(** What the rules say of a client that starts a request. *)
Lemma rules_spec c x t s :
  clients s !! c = Some x -> by_the_rules c t s = true ->
  (srv_at s <> Some c \/ t = req_type (rpc_params x)) /\
  (t = CLIENT_REQ_SERVICE_WITH_RSP -> registered (shm_hash s) (client_id (rpc_params x))).
Proof.
  intros Hc. unfold by_the_rules, at_pc. rewrite Hc. intros [R1 R2]%andb_true_iff. split.
  - case_bool_decide; [right; by apply Z.eqb_eq|by left].
  - intros ->. cbn in R2. destruct (kt_get _ _) as [v|] eqn:Ev; [|done]. exists v. split; [done|]. by intros ->.
Qed.

Lemma start_inv service s rl wl c x t :
  rpc_inv service s rl wl -> clients s !! c = Some x -> c_pc x = Idle -> t <= RPC_CLIENT_REQ_TOTAL_TYPE_COUNT ->
  by_the_rules c t s = true -> exists s', rpc_client_start c t s = Some s' /\ rpc_inv service s' rl wl.
Proof.
  intros I Hc Pc Ht Hr. destruct (rules_spec c x t s Hc Hr) as [R1 R2]. unfold rpc_client_start, rpc_client_package_params.
  rewrite Hc. cbn [mbind option_bind]. rewrite (proj2 (Z.ltb_ge _ _)) by done. cbn zeta. eexists. split; [done|].
  pose proof (ri_pc _ _ _ _ I c x Hc) as St. unfold status in St. rewrite Pc in St. destruct St as [S0 Nc].
  eapply inv_update; [done|done|reflexivity|apply (ri_rings _ _ _ _ I)| | | | | | | | |]; cbn; try done.
  - apply (at_update _ _ _ c x); [apply (ri_at _ _ _ _ I)|done|].
    destruct R1 as [R1| ->]; [by right|left; unfold wants_rsp; done].
  - apply (ri_sem _ _ _ _ I).
  - unfold posting. cbn. rewrite Pc. cbn. lia.
  - apply (ri_tables _ _ _ _ I).
Qed.

Lemma list_inv service s rl wl c x :
  rpc_inv service s rl wl -> clients s !! c = Some x -> c_pc x = Packaged ->
  exists s', rpc_client_send_request service c s = Some s' /\ rpc_inv service s' (rl ++ [c]) wl /\ srv_at s' = srv_at s /\
    clients s' = <[c := Client (service_cap x) (client_sem x) (rpc_params x) Posting]> (clients s).
Proof.
  intros I Hc Pc. unfold rpc_client_send_request. rewrite Hc. cbn [mbind option_bind].
  pose proof (ri_pc _ _ _ _ I c x Hc) as St. unfold status in St. rewrite Pc in St. destruct St as [S0 Nc].
  destruct (ri_cells _ _ _ _ I c x Hc) as (Cc & N1 & N2).
  destruct (rings_add_tail (rcells s) [] (req_list service) rl c [(rsp_list service, wl)]) as (m & Em & RS & _); [apply (ri_rings _ _ _ _ I)|done| |].
  { change ([] ++ _) with (both service rl wl). rewrite both_nodes. set_solver. }
  rewrite Em. cbn [mbind option_bind]. eexists. split; [done|]. split; [|done].
  eapply inv_update; [done|done|reflexivity|apply RS| | | | | | | | |]; cbn.
  - intros y. by rewrite (list_add_tail_cells _ _ _ _ _ Em).
  - intros y Ny. rewrite !elem_of_app, list_elem_of_singleton. tauto.
  - left. split; [done|]. rewrite !elem_of_app, list_elem_of_singleton. tauto.
  - intros _. by apply (ri_pack _ _ _ _ I c x).
  - done.
  - apply (at_update _ _ _ c x); [apply (ri_at _ _ _ _ I)|done|by left].
  - apply (ri_sem _ _ _ _ I).
  - unfold posting. cbn. rewrite Pc, length_app. cbn. lia.
  - apply (ri_tables _ _ _ _ I).
Qed.

Lemma post_inv service s rl wl c x :
  rpc_inv service s rl wl -> clients s !! c = Some x -> c_pc x = Posting ->
  exists s', rpc_client_post c s = Some s' /\ rpc_inv service s' rl wl.
Proof.
  intros I Hc Pc. unfold rpc_client_post. rewrite Hc. cbn [mbind option_bind]. eexists. split; [done|].
  eapply inv_update; [done|done|reflexivity|apply (ri_rings _ _ _ _ I)| | | | | | | | |]; cbn; try done.
  - pose proof (ri_pc _ _ _ _ I c x Hc) as St. unfold status in *. by rewrite Pc in St.
  - intros [Hr|]; [|done]. destruct (ri_req _ _ _ _ I c Hr) as (y & Hy & K). rewrite Hc in Hy. by injection Hy as <-.
  - apply (at_update _ _ _ c x); [apply (ri_at _ _ _ _ I)|done|by left].
  - pose proof (ri_sem _ _ _ _ I). lia.
  - unfold posting. cbn. rewrite Pc. cbn. lia.
  - apply (ri_tables _ _ _ _ I).
Qed.

(** A client that has been woken returns; it is not the one whose response is due. *)
Lemma wake_inv service s rl wl c x :
  rpc_inv service s rl wl -> clients s !! c = Some x -> c_pc x = Waiting -> 0 < client_sem x ->
  exists r s', rpc_client_wake c s = Some (r, s') /\ rpc_inv service s' rl wl.
Proof.
  intros I Hc Pc S0. unfold rpc_client_wake. rewrite Hc. cbn [mbind option_bind]. rewrite (proj2 (Z.leb_gt _ _)) by done.
  eexists _, _. split; [done|]. pose proof (ri_pc _ _ _ _ I c x Hc) as St. unfold status in St. rewrite Pc in St.
  destruct St as [[? _]|[S1 Nc]]; [lia|].
  eapply inv_update; [done|done|reflexivity|apply (ri_rings _ _ _ _ I)| | | | | | | | |]; cbn; try done.
  - unfold status. cbn. split; [lia|done].
  - by intros [?|?].
  - apply (at_update _ _ _ c x); [apply (ri_at _ _ _ _ I)|done|by left].
  - apply (ri_sem _ _ _ _ I).
  - unfold posting. cbn. rewrite Pc. cbn. lia.
  - apply (ri_tables _ _ _ _ I).
Qed.

(** The request of a client that is on a list has been sent. *)
Definition sent (x : rpc_client) : Prop := match c_pc x with Idle | Packaged => False | _ => True end.

Lemma pend_busy service s rl wl c x : rpc_inv service s rl wl -> clients s !! c = Some x -> c ∈ rl ++ wl -> sent x /\ client_sem x = 0.
Proof. intros I Hc Hp. pose proof (ri_pc _ _ _ _ I c x Hc) as St. unfold status, sent in *. destruct (c_pc x); naive_solver. Qed.

Lemma pend_nodup service s rl wl : rpc_inv service s rl wl -> NoDup (rl ++ wl).
Proof.
  intros I. destruct (ri_rings _ _ _ _ I) as [_ N]. rewrite both_nodes in N. apply NoDup_cons in N as [_ N].
  apply NoDup_app in N as (N1 & N2 & N3). apply NoDup_cons in N3 as [_ N3]. apply NoDup_app. split_and!; [done| |done].
  intros y Hy Hw. apply (N2 y Hy). by right.
Qed.

Lemma woken pend c x : sent x -> client_sem x = 0 -> c ∉ pend -> status pend c (sem_post x).
Proof. intros Pc S0 N. unfold status, sent in *. cbn. rewrite S0. destruct (c_pc x); [done|done|by right|by right]. Qed.

Lemma take_inv service s rl : rpc_inv service s rl [] -> srv_at s = None -> 0 < server_sem s ->
  exists c rl' x s', rl = c :: rl' /\ clients s !! c = Some x /\ take_request service s = Some s' /\
    rpc_inv service s' rl' (if wants_rsp x then [c] else []) /\ srv_at s' = Some c /\ server_sem s' = server_sem s - 1 /\
    clients s' = <[c := if wants_rsp x then x else sem_post x]> (clients s).
Proof.
  intros I At S0. destruct (ri_sem _ _ _ _ I) as [_ Hl]. destruct rl as [|c rl]; [unfold count_clients in Hl; cbn in Hl; lia|].
  destruct (ri_req _ _ _ _ I c) as (x & Hc & Rg); [set_solver|]. destruct (pend_busy _ _ _ _ c x I Hc) as [Pc Cs]; [set_solver|].
  pose proof (pend_nodup _ _ _ _ I) as N. cbn [app] in N. rewrite app_nil_r in N. apply NoDup_cons in N as [N _].
  destruct (take_run service s c rl x) as (m & Hm & RS & E); [apply (ri_rings _ _ _ _ I)|done|done|].
  exists c, rl, x. eexists. split; [done|]. split; [done|]. split; [exact E|]. pose proof (ri_tables _ _ _ _ I) as Tk.
  assert (Ecl : clients s = <[c := x]> (clients s)) by (by rewrite insert_id).
  destruct (wants_rsp x) eqn:Ew.
  - split; [|done]. eapply (inv_update _ s _ _ _ _ _ c x x); [done|done|done|exact RS|done| | | | | | | |]; cbn; try done; try lia.
    + intros y Ny. rewrite ?app_nil_r, ?elem_of_app, !elem_of_cons, ?elem_of_nil. tauto.
    + unfold status, sent in *. destruct (c_pc x); [done|done| |]; left; set_solver.
    + exists x. by rewrite Ew.
  - split; [|done]. eapply (inv_update _ s _ _ _ _ _ c x (sem_post x)); [done|done|done|exact RS|done| | | | | | | |]; cbn; try done; try lia.
    + intros y Ny. rewrite ?app_nil_r, ?elem_of_app, !elem_of_cons, ?elem_of_nil. tauto.
    + apply woken; [done|done|]. by rewrite app_nil_r.
    + exists (sem_post x). rewrite lookup_insert_eq. split; [done|]. by replace (wants_rsp (sem_post x)) with (wants_rsp x); [rewrite Ew|].
    + unfold posting. cbn. fold (posting x). lia.
Qed.

(** What serving the request of the client [c] does: a client that waits for a response
    is woken once, with its response and no other; the handler of the service runs once
    for a request of a client that has a block; no other client changes. *)
Definition served (s s' : rpc_state) (c : Z) (x : rpc_client) : Prop :=
  let t := req_type (rpc_params x) in
  let call := [(client_id (rpc_params x), t)] in
  if wants_rsp x then
    exists x', clients s' = <[c := x']> (clients s) /\ client_sem x' = client_sem x + 1 /\ c_pc x' = c_pc x /\
      (t = CLIENT_GET_SERVICE -> get_response s s' x x' /\ handled s' = handled s) /\
      (t = CLIENT_REQ_SERVICE_WITH_RSP -> rpc_params x' = rpc_params x /\ handled s' = handled s ++ call)
  else
    clients s' = clients s /\
    (t = CLIENT_REQ_SERVICE_WITHOUT_RSP -> registered (shm_hash s) (client_id (rpc_params x)) -> handled s' = handled s ++ call) /\
    (kt_get (shm_hash s) (client_id (rpc_params x)) = Some NULL \/ t <> CLIENT_REQ_SERVICE_WITHOUT_RSP -> handled s' = handled s).

(** The state after the client that waits for a response is woken. *)
Lemma answered_inv service s s' rl c x x' :
  rpc_inv service s rl [c] -> clients s !! c = Some x -> answered service (set_at s None) s' rl c x x' -> rpc_inv service s' rl [].
Proof.
  intros I Hc A. destruct (pend_busy _ _ _ _ c x I Hc) as [Pc Cs]; [set_solver|].
  pose proof (pend_nodup _ _ _ _ I) as N. apply NoDup_app in N as (_ & N & _). assert (Nc : c ∉ rl) by (intros ?; apply (N c); set_solver).
  destruct A as [RS Hm Ecl [Ea Ess] Es Ep Ei Tk Rg]. cbn in *.
  eapply (inv_update _ s _ _ _ _ _ c x x'); [done|done|done|exact RS|done| | | |done| | | |done].
  - intros y Ny. rewrite !elem_of_app, elem_of_cons. tauto.
  - unfold status. rewrite Ep, Es, Cs, app_nil_r. unfold sent in Pc. destruct (c_pc x); [done|done|by right|by right].
  - rewrite app_nil_r, Ep. intros [|Pk]; [done|]. unfold sent in Pc. by rewrite Pk in Pc.
  - by rewrite Ea.
  - rewrite Ess. apply (ri_sem _ _ _ _ I).
  - rewrite Ess. unfold posting. rewrite Ep. lia.
Qed.

(** A client that does not wait for a response is not touched. *)
Lemma read_inv service s s' rl c : rpc_inv service s rl [] -> srv_at s = Some c ->
  rcells s' = rcells s -> clients s' = clients s -> server_sem s' = server_sem s -> shm_pool s' = shm_pool s -> shm_hash s' = shm_hash s ->
  srv_at s' = None -> rpc_inv service s' rl [].
Proof. intros [] E1 E2 E3 E4 E5 E6 E7. split; rewrite ?E2, ?E3, ?E4, ?E5, ?E6, ?E7; done. Qed.

Lemma kt_total s : tables_ok (shm_pool s) (shm_hash s) -> forall k, exists v, kt_get (shm_hash s) k = Some v.
Proof. intros (fl & ul & f & _ & K & _) k. eexists. by apply kt_get_spec. Qed.

Lemma serve_rsp_run service s c rl x v :
  rings (rcells s) (both service rl [c]) -> clients s !! c = Some x -> tables_ok (shm_pool s) (shm_hash s) -> v <> NULL ->
  req_type (rpc_params x) = CLIENT_REQ_SERVICE_WITH_RSP ->
  exists s', serve_req service (rpc_params x) v s = Some s' /\ answered service s s' rl c x (sem_post x) /\
    handled s' = handled s ++ [(client_id (rpc_params x), req_type (rpc_params x))].
Proof.
  intros RS Hc Tk Nv Et. unfold serve_req. rewrite (proj2 (Z.eqb_neq _ _) Nv), Et, Z.eqb_refl.
  destruct (awake_answers service s (set_handled s (handled s ++ [(client_id (rpc_params x), CLIENT_REQ_SERVICE_WITH_RSP)])) c rl x x)
    as (s' & E & A & _ & _ & Eh); try done; [cbn; by rewrite insert_id|]. eauto.
Qed.

Lemma serve_inv service s rl wl c x :
  rpc_inv service s rl wl -> srv_at s = Some c -> clients s !! c = Some x ->
  exists s', serve_request service s = Some s' /\ rpc_inv service s' rl [] /\ srv_at s' = None /\ server_sem s' = server_sem s /\ served s s' c x.
Proof.
  intros I At Hc. pose proof (ri_at _ _ _ _ I) as A. rewrite At in A. destruct A as (y & Hy & Ew). rewrite Hc in Hy. injection Hy as <-.
  unfold serve_request, read_request. rewrite At. cbn [mbind option_bind]. rewrite Hc. cbn [mbind option_bind].
  pose proof (ri_tables _ _ _ _ I) as Tk. destruct (kt_total s Tk (client_id (rpc_params x))) as [v Hv].
  cbn [set_at shm_hash]. rewrite Hv. cbn [mbind option_bind].
  unfold served. destruct (wants_rsp x) eqn:Wx; rewrite Ew in I; clear Ew.
  - unfold wants_rsp in Wx. destruct (Z.eqb_spec (req_type (rpc_params x)) CLIENT_GET_SERVICE) as [Et|Nt].
    + destruct (serve_get_run service (set_at s None) (rpc_params x) c rl x v (ri_rings _ _ _ _ I) Hc eq_refl Tk Hv) as (s' & x' & E & A & Eh & G).
      exists s'. split; [done|]. split; [by eapply answered_inv|]. destruct (an_srv _ _ _ _ _ _ _ A) as [Ea Es]. split; [done|]. split; [done|].
      exists x'. split_and!; [apply A|apply A|apply A|done|]. intros Er. by rewrite Et in Er.
    + cbn [orb] in *. apply Z.eqb_eq in Wx. rewrite Wx, Z.eqb_refl. cbn [orb].
      destruct (ri_req _ _ _ _ I c) as (y & Hy & Rg); [set_solver|]. rewrite Hc in Hy. injection Hy as <-.
      assert (Nv : v <> NULL) by (destruct (Rg Wx) as (w & Hw & ?); congruence).
      destruct (serve_rsp_run service (set_at s None) c rl x v (ri_rings _ _ _ _ I) Hc Tk Nv Wx) as (s' & E & A & Eh).
      exists s'. split; [done|]. split; [by eapply answered_inv|]. destruct (an_srv _ _ _ _ _ _ _ A) as [Ea Es]. split; [done|]. split; [done|].
      exists (sem_post x). split_and!; [apply A|done|done| |by rewrite <- Wx]. intros Er. congruence.
  - apply orb_false_iff in Wx as [W1 W2]. rewrite W1, W2. cbn [orb]. apply Z.eqb_neq in W2. unfold serve_req. rewrite (proj2 (Z.eqb_neq _ _) W2).
    destruct (Z.eqb_spec (req_type (rpc_params x)) CLIENT_REQ_SERVICE_WITHOUT_RSP) as [Et|Nt];
      [destruct (Z.eqb_spec v NULL) as [->|Nv]|]; (eexists; split; [done|]; split; [by eapply read_inv|]; split; [done|]; split; [done|];
      cbn; split; [done|]).
    + split; [|done]. intros _ (w & Hw & Nw). congruence.
    + split; [done|]. intros [E|E]; congruence.
    + done.
Qed.

Lemma new_inv service m p h fl : bp_rep p fl [] -> kt_rep h (fun _ => []) -> rpc_inv service (rpc_service_new service m p h) [] [].
Proof.
  intros B K. assert (N : req_list service <> rsp_list service) by (unfold req_list, rsp_list; lia).
  split; cbn; try done; try set_solver.
  - split; [|rewrite both_nodes; apply NoDup_cons; split; [set_solver|apply NoDup_singleton]].
    unfold both, INIT_LIST_HEAD. constructor; [|constructor; [|done]]; cbn; (split; [apply NoDup_singleton|]); unfold seg, link, get_next, get_prev.
    + rewrite lookup_insert_ne, lookup_insert_eq by done. done.
    + by rewrite lookup_insert_eq.
  - exists fl, [], (fun _ => []). split_and!; try done. by left.
Qed.

Lemma join_inv service s rl wl c cap tid junk : rpc_inv service s rl wl -> rcells s !! c = None -> rpc_inv service (client_at c cap tid junk s) rl wl.
Proof.
  intros I Hc. assert (Nn : c ∉ ring_nodes (both service rl wl)).
  { intros Hn. destruct (rings_cells _ _ c (ri_rings _ _ _ _ I) Hn) as [? ?]. congruence. }
  assert (Np : c ∉ rl ++ wl) by (intros ?; apply Nn; rewrite both_nodes; set_solver).
  assert (Nc : clients s !! c = None).
  { destruct (clients s !! c) as [x|] eqn:E; [|done]. destruct (ri_cells _ _ _ _ I c x E) as [[? ?] _]. congruence. }
  destruct I as [RS Ic Ip Ir Ik Ia [Is1 Is2] It]. unfold client_at. split; cbn; [| | | | | |split; [done|]|done].
  - eapply rings_frame; [|done]. intros y Hy. unfold INIT_LIST_HEAD. rewrite lookup_insert_ne; [done|]. by intros ->.
  - intros d y [[-> <-]|[Nd Hd]]%lookup_insert_Some.
    + unfold is_cell, INIT_LIST_HEAD. rewrite lookup_insert_eq. rewrite both_nodes in Nn. set_solver.
    + unfold is_cell, INIT_LIST_HEAD. rewrite lookup_insert_ne by done. by apply (Ic d y).
  - intros d y [[-> <-]|[Nd Hd]]%lookup_insert_Some; [done|]. by apply Ip.
  - intros d Hd. destruct (Ir d Hd) as (y & Hy & K). exists y. rewrite lookup_insert_ne; [done|]. by intros ->.
  - intros d y [[-> <-]|[Nd Hd]]%lookup_insert_Some; [done|]. by eapply Ik.
  - destruct (srv_at s) as [d|]; [|done]. destruct Ia as (y & Hy & ->). exists y. rewrite lookup_insert_ne; [done|]. intros ->. congruence.
  - rewrite Is2. unfold count_clients. rewrite map_filter_insert_False by done. rewrite delete_id by done. done.
Qed.

(** The steps keep the invariant; those that are not the start of a request use up the
    work that is left. *)
Definition pc_work (x : rpc_client) : Z := match c_pc x with Packaged => 5 | Posting => 2 | Waiting => 1 | Idle => 0 end.
Definition clients_work (m : gmap Z rpc_client) : Z :=
  5 * count_clients packaged m + 2 * count_clients posting m + count_clients waiting m.
Definition work (s : rpc_state) (rl : list Z) : Z :=
  clients_work (clients s) + 2 * Z.of_nat (length rl) + match srv_at s with Some _ => 1 | None => 0 end.

Lemma work_insert m c x y : m !! c = Some x -> clients_work (<[c := y]> m) + pc_work x = clients_work m + pc_work y.
Proof.
  intros Hx. pose proof (count_insert posting m c x y Hx) as E1. pose proof (count_insert waiting m c x y Hx) as E2.
  pose proof (count_insert packaged m c x y Hx) as E3. unfold clients_work, pc_work, posting, waiting, packaged in *. destruct (c_pc x), (c_pc y); cbn [Z.b2z] in *; lia.
Qed.

Lemma quiet_inv service s s' rl wl : rpc_inv service s rl wl -> quiet_step service s s' ->
  exists rl' wl', rpc_inv service s' rl' wl' /\ work s' rl' < work s rl.
Proof.
  intros I St. destruct St as [c x s' Hc Pc E|c x s' Hc Pc E|c x r s' Hc Pc E|s' At E|c s' At E].
  - destruct (list_inv _ _ _ _ _ _ I Hc Pc) as (s1 & E1 & I1 & At & Ecl). rewrite E in E1. injection E1 as <-. exists (rl ++ [c]), wl.
    split; [done|]. unfold work. rewrite At, Ecl, length_app. cbn [length].
    match goal with |- context [<[c := ?z]> _] => pose proof (work_insert _ c x z Hc) as W end.
    unfold pc_work in W. rewrite Pc in W. cbn in W. lia.
  - destruct (post_inv _ _ _ _ _ _ I Hc Pc) as (s1 & E1 & I1). rewrite E in E1. injection E1 as <-. exists rl, wl. split; [done|].
    unfold rpc_client_post in E. rewrite Hc in E. injection E as <-. unfold work. cbn.
    match goal with |- context [<[c := ?z]> _] => pose proof (work_insert _ c x z Hc) as W end.
    unfold pc_work in W. rewrite Pc in W. cbn in W. lia.
  - assert (0 < client_sem x) as S0.
    { unfold rpc_client_wake in E. rewrite Hc in E. cbn [mbind option_bind] in E. by destruct (Z.leb_spec (client_sem x) 0). }
    destruct (wake_inv _ _ _ _ _ _ I Hc Pc S0) as (r1 & s1 & E1 & I1). rewrite E in E1. injection E1 as <- <-. exists rl, wl. split; [done|].
    unfold rpc_client_wake in E. rewrite Hc in E. cbn [mbind option_bind] in E. rewrite (proj2 (Z.leb_gt _ _) S0) in E. injection E as _ <-.
    unfold work. cbn. match goal with |- context [<[c := ?z]> _] => pose proof (work_insert _ c x z Hc) as W end.
    unfold pc_work in W. rewrite Pc in W. cbn in W. lia.
  - assert (wl = []) as -> by (pose proof (ri_at _ _ _ _ I) as A; by rewrite At in A).
    destruct (decide (0 < server_sem s)) as [S0|S0].
    + destruct (take_inv _ _ _ I At S0) as (c & rl' & x & s1 & -> & Hc & E1 & I1 & At1 & _ & Ecl). rewrite E in E1. injection E1 as <-.
      exists rl'. eexists. split; [done|]. unfold work. rewrite At, At1, Ecl. cbn [length].
      match goal with |- context [<[c := ?z]> _] => pose proof (work_insert _ c x z Hc) as W end. unfold pc_work in W.
      destruct (wants_rsp x); cbn in W; lia.
    + unfold take_request in E. rewrite (proj2 (Z.leb_le _ _)) in E by lia. done.
  - pose proof (ri_at _ _ _ _ I) as A. rewrite At in A. destruct A as (x & Hc & _).
    destruct (serve_inv _ _ _ _ _ _ I At Hc) as (s1 & E1 & I1 & At1 & _ & Sv). rewrite E in E1. injection E1 as <-.
    exists rl, []. split; [done|]. unfold work. rewrite At, At1. unfold served in Sv. destruct (wants_rsp x).
    + destruct Sv as (x' & -> & _ & Ep & _). pose proof (work_insert _ c x x' Hc) as W. unfold pc_work in W. rewrite Ep in W. lia.
    + destruct Sv as (-> & _). lia.
Qed.

Lemma step_inv service s s' rl wl : rpc_inv service s rl wl -> ruled_step service s s' -> exists rl' wl', rpc_inv service s' rl' wl'.
Proof.
  intros I (l & St & Rl). destruct St as [s1 Q|c cap tid junk Hc|c x t s1 Hc Pc E].
  - destruct (quiet_inv _ _ _ _ _ I Q) as (rl' & wl' & I' & _). eauto.
  - exists rl, wl. by apply join_inv.
  - destruct (Z.le_gt_cases t RPC_CLIENT_REQ_TOTAL_TYPE_COUNT) as [Ht|Ht].
    + destruct (start_inv _ _ _ _ _ _ _ I Hc Pc Ht Rl) as (s2 & E2 & I2). rewrite E in E2. injection E2 as <-. eauto.
    + unfold rpc_client_start in E. rewrite Hc in E. cbn [mbind option_bind] in E. rewrite (proj2 (Z.ltb_lt _ _)) in E by lia. injection E as <-. eauto.
Qed.

Lemma reach_inv service s s' rl wl : rpc_inv service s rl wl -> rtc (ruled_step service) s s' -> exists rl' wl', rpc_inv service s' rl' wl'.
Proof.
  intros I R. revert rl wl I. induction R as [|s1 s2 s3 St _ IH]; intros rl wl I; [eauto|].
  destruct (step_inv _ _ _ _ _ I St) as (rl' & wl' & I'). eauto.
Qed.

(** As long as a client is in a request, the clients or the server can go on. *)
Lemma busy_goes_on service s rl wl c x : rpc_inv service s rl wl -> clients s !! c = Some x -> c_pc x <> Idle -> exists s', quiet_step service s s'.
Proof.
  intros I Hc Pc. destruct (srv_at s) as [d|] eqn:At.
  { pose proof (ri_at _ _ _ _ I) as A. rewrite At in A. destruct A as (y & Hd & _).
    destruct (serve_inv _ _ _ _ _ _ I At Hd) as (s' & E & _). exists s'. by eapply st_serve. }
  assert (wl = []) as -> by (pose proof (ri_at _ _ _ _ I) as A; by rewrite At in A).
  pose proof (ri_pc _ _ _ _ I c x Hc) as St. unfold status in St. destruct (c_pc x) eqn:Ex; [done| | |].
  { destruct (list_inv _ _ _ _ _ _ I Hc Ex) as (s' & E & _). exists s'. by eapply st_list. }
  { destruct (post_inv _ _ _ _ _ _ I Hc Ex) as (s' & E & _). exists s'. by eapply st_post. }
  destruct St as [[S0 Hp]|[S1 _]]; [|destruct (wake_inv _ _ _ _ _ _ I Hc Ex) as (r & s' & E & _); [lia|]; exists s'; by eapply st_wake].
  destruct (decide (0 < server_sem s)) as [Ss|Ss].
  { destruct (take_inv _ _ _ I At Ss) as (d & rl' & y & s' & _ & _ & E & _). exists s'. by apply st_take. }
  destruct (ri_sem _ _ _ _ I) as [Sp Hl]. rewrite app_nil_r in Hp. destruct rl; [set_solver|]. cbn in Hl.
  destruct (count_witness posting (clients s)) as (d & y & Hd & Py); [lia|]. unfold posting in Py. destruct (c_pc y) eqn:Ey; [done|done| |done].
  destruct (post_inv _ _ _ _ _ _ I Hd Ey) as (s' & E & _). exists s'. by eapply st_post.
Qed.

Lemma tables_exclusive p h j k v : tables_ok p h -> kt_get h j = Some v -> kt_get h k = Some v -> v <> NULL -> j = k.
Proof.
  intros (fl & ul & f & _ & K & F & I). rewrite !(kt_get_spec _ _ _ K). intros [= Ej] [= Ek] Nv.
  destruct (F j) as [Fj|(b & Fj & _)]; rewrite Fj in Ej; [by subst v|]. destruct (F k) as [Fk|(b' & Fk & _)]; rewrite Fk in Ek; [by subst v|].
  cbn in *. subst b b'. by apply (I j k v).
Qed.

(** C18: the service is safe for clients that keep to two rules that the code does not
    enforce ([by_the_rules]): a service with response is asked for by a client that has a
    block only, and while the server still has to read the parameters of a request that
    wants no response, its client, which is woken before that, starts requests of the
    same type only.  Clients that break them are shown in [rpc_unregistered_misdirects]
    and [rpc_early_wake_race].  Under these rules, whatever the interleaving of the
    clients and the server, the server can take a request when its
    semaphore allows it, and serves each request it took: the client that waits for a response is the one woken, once, with the response to its own
    request (a block that no other client has, or nothing new), the handler runs once
    for a request of a client that has a block, and no other client is touched; no two
    clients ever hold the same block. *)
Theorem rpc_service_safe service m p h fl s :
  bp_rep p fl [] -> kt_rep h (fun _ => []) -> rtc (ruled_step service) (rpc_service_new service m p h) s ->
  (srv_at s = None -> 0 < server_sem s -> exists s', take_request service s = Some s') /\
  (forall c, srv_at s = Some c -> exists x s', clients s !! c = Some x /\ serve_request service s = Some s' /\ served s s' c x) /\
  (forall j k v, kt_get (shm_hash s) j = Some v -> kt_get (shm_hash s) k = Some v -> v <> NULL -> j = k).
Proof.
  intros B K R. destruct (reach_inv _ _ _ _ _ (new_inv service m p h fl B K) R) as (rl & wl & I). split_and!.
  - intros At Ss. pose proof (ri_at _ _ _ _ I) as A. rewrite At in A. cbn in A. rewrite A in I.
    destruct (take_inv _ _ _ I At Ss) as (c & rl' & x & s' & _ & _ & E & _). eauto.
  - intros c At. pose proof (ri_at _ _ _ _ I) as A. rewrite At in A. destruct A as (x & Hc & _).
    destruct (serve_inv _ _ _ _ _ _ I At Hc) as (s' & E & _ & _ & _ & Sv). eauto.
  - intros j k v. eapply tables_exclusive, (ri_tables _ _ _ _ I).
Qed.

(** C19: no wakeup is lost, when the clients keep to the two rules of [by_the_rules], which
    the code does not enforce: from every reachable state, the clients and the server can
    make only a bounded number of steps without a new request, and when they cannot go
    on every client is out of its request. *)
Theorem rpc_no_lost_wakeup service m p h fl s :
  bp_rep p fl [] -> kt_rep h (fun _ => []) -> rtc (ruled_step service) (rpc_service_new service m p h) s ->
  exists bound, forall n s', nsteps (quiet_step service) n s s' -> (n <= bound)%nat /\
    ((forall s'', ~ quiet_step service s' s'') -> forall c x, clients s' !! c = Some x -> c_pc x = Idle).
Proof.
  intros B K R. destruct (reach_inv _ _ _ _ _ (new_inv service m p h fl B K) R) as (rl & wl & I). clear R.
  exists (Z.to_nat (work s rl)). intros n s' St. enough (exists rl' wl', rpc_inv service s' rl' wl' /\ 0 <= work s' rl' <= work s rl - Z.of_nat n) as (rl' & wl' & I' & W).
  { split; [lia|]. intros Stuck c x Hc. destruct (c_pc x) eqn:Pc; [done| | |]; (destruct (busy_goes_on _ _ _ _ _ _ I' Hc) as [s'' St']; [congruence|by destruct (Stuck s'')]). }
  revert rl wl I. induction St as [s|n s1 s2 s3 St _ IH]; intros rl wl I.
  - exists rl, wl. split; [done|]. unfold work, clients_work, count_clients. destruct (srv_at s); lia.
  - destruct (quiet_inv _ _ _ _ _ I St) as (rl1 & wl1 & I1 & W1). destruct (IH rl1 wl1 I1) as (rl' & wl' & I' & W). exists rl', wl'. split; [done|]. lia.
Qed.

(** ** Runs *)

Inductive action := AJoin (c tid : Z) | AStart (c t : Z) | AList (c : Z) | APost (c : Z) | AWake (c : Z) | ATake | AServe.

Definition idle (x : rpc_client) : bool := match c_pc x with Idle => true | _ => false end.

Definition act (service : Z) (rules : bool) (s : rpc_state) (a : action) : option rpc_state :=
  match a with
  | AJoin c tid => if bool_decide (rcells s !! c = None) then Some (client_at c service tid (Params 0 0 0 0) s) else None
  | AStart c t => if at_pc s c idle && (negb rules || by_the_rules c t s) then rpc_client_start c t s else None
  | AList c => if at_pc s c packaged then rpc_client_send_request service c s else None
  | APost c => if at_pc s c posting then rpc_client_post c s else None
  | AWake c => if at_pc s c waiting then snd <$> rpc_client_wake c s else None
  | ATake => match srv_at s with None => take_request service s | Some _ => None end
  | AServe => serve_request service s
  end.
Fixpoint acts (service : Z) (rules : bool) (l : list action) (s : rpc_state) : option rpc_state :=
  match l with [] => Some s | a :: l => s ← act service rules s a; acts service rules l s end.

Lemma at_pc_true s c q : at_pc s c q = true -> exists x, clients s !! c = Some x /\ q x = true.
Proof. unfold at_pc. destruct (clients s !! c) as [x|]; [|done]. eauto. Qed.

Lemma act_quiet service s a s' :
  act service true s a = Some s' -> match a with AJoin _ _ | AStart _ _ => True | _ => quiet_step service s s' end.
Proof.
  destruct a as [c tid|c t|c|c|c| |]; cbn [act]; [done|done|..].
  - destruct (at_pc _ _ _) eqn:E; [|done]. destruct (at_pc_true _ _ _ E) as (x & Hc & Hx). unfold packaged in Hx. destruct (c_pc x) eqn:Pc; try done.
    intros Es. by eapply st_list.
  - destruct (at_pc _ _ _) eqn:E; [|done]. destruct (at_pc_true _ _ _ E) as (x & Hc & Hx). unfold posting in Hx. destruct (c_pc x) eqn:Pc; try done.
    intros Es. by eapply st_post.
  - destruct (at_pc _ _ _) eqn:E; [|done]. destruct (at_pc_true _ _ _ E) as (x & Hc & Hx). unfold waiting in Hx. destruct (c_pc x) eqn:Pc; try done.
    destruct (rpc_client_wake c s) as [[r s1]|] eqn:Es; [|done]. intros [= <-]. by eapply st_wake.
  - destruct (srv_at s) eqn:At; [done|]. intros E. by apply st_take.
  - intros E. destruct (srv_at s) as [c|] eqn:At; [by eapply st_serve|].
    unfold serve_request, read_request in E. rewrite At in E. done.
Qed.

Lemma act_step service s a s' : act service true s a = Some s' -> ruled_step service s s'.
Proof.
  intros Ha. pose proof (act_quiet service s a s' Ha) as Q.
  destruct a as [c tid|c t|c|c|c| |]; try (exists None; split; [by apply st_quiet|done]); cbn [act] in Ha.
  - case_bool_decide as E; [|done]. injection Ha as <-. exists None. split; [by apply st_join|done].
  - destruct (_ && _) eqn:E; [|done]. apply andb_true_iff in E as [E1 E2]. cbn [negb orb] in E2.
    destruct (at_pc_true _ _ _ E1) as (x & Hc & Hx). unfold idle in Hx. destruct (c_pc x) eqn:Pc; try done.
    exists (Some (c, t)). split; [by eapply st_start|done].
Qed.

Lemma acts_steps service l s s' : acts service true l s = Some s' -> rtc (ruled_step service) s s'.
Proof.
  revert s. induction l as [|a l IH]; intros s; cbn [acts]; [intros [= <-]; apply rtc_refl|].
  destruct (act service true s a) as [s1|] eqn:E; [|done]. cbn [mbind option_bind]. intros E1. eapply rtc_l; [by eapply act_step|by apply IH].
Qed.

(** Whether anybody can go on without a new request. *)
Definition blocked (s : rpc_state) : bool :=
  (server_sem s <=? 0) && (match srv_at s with None => true | Some _ => false end) &&
  forallb (fun cx => negb (packaged (snd cx)) && negb (posting (snd cx)) && (negb (waiting (snd cx)) || (client_sem (snd cx) <=? 0))) (map_to_list (clients s)).

Lemma blocked_stuck service s : blocked s = true -> forall s', ~ quiet_step service s s'.
Proof.
  unfold blocked. rewrite !andb_true_iff, forallb_forall. intros [[Ss At] F] s' St. destruct (srv_at s) eqn:Ea; [done|].
  assert (K : forall c x, clients s !! c = Some x -> packaged x = false /\ posting x = false /\ (waiting x = true -> client_sem x <= 0)).
  { intros c x Hc. specialize (F (c, x)). cbn in F. rewrite <- list_elem_of_In, elem_of_map_to_list in F. specialize (F Hc).
    apply andb_true_iff in F as [F1 F2]. apply andb_true_iff in F1 as [F0 F1]. apply negb_true_iff in F0, F1. split; [done|]. split; [done|]. intros Hw. rewrite Hw in F2. cbn in F2. by apply Z.leb_le. }
  destruct St as [c x s' Hc Pc E|c x s' Hc Pc E|c x r s' Hc Pc E|s' At' E|c s' At' E].
  - destruct (K c x Hc) as [K1 _]. unfold packaged in K1. by rewrite Pc in K1.
  - destruct (K c x Hc) as (_ & K1 & _). unfold posting in K1. by rewrite Pc in K1.
  - destruct (K c x Hc) as (_ & _ & K1). unfold waiting in K1. rewrite Pc in K1. specialize (K1 eq_refl). unfold rpc_client_wake in E. rewrite Hc in E. cbn [mbind option_bind] in E.
    rewrite (proj2 (Z.leb_le _ _)) in E by done. done.
  - unfold take_request in E. rewrite Ss in E. done.
  - congruence.
Qed.
End Server.
Arguments rpc_state P T : clear implicits.

(** ** The start of the server *)

Definition rpc_shm_block_alloc (a : alloc) (size : Z) : Z * Z * alloc :=
  if PAGE_SIZE <? size then (NULL, size, a)
  else
    let real_size := Z.land (u64 (size + (PAGE_SIZE - 1))) (u64 (Z.lnot (PAGE_SIZE - 1))) in
    let '(r, a) := malloc a real_size in (r, real_size, a).

(** [rpc_service_handler] up to the loop: NULL or the pool and the table. *)
Definition handler_start (a : alloc) (d : mstore) (hs : hstore) (garbage : Z) : option (option (pool_obj * table_obj)) :=
  '(pool, a, d, p) ← mempool_create rpc_shm_block_alloc a d PAGE_SIZE MAX_RPC_SHM_BLOCK_COUNT;
  match p with
  | None => Some None
  | Some p =>
      match linkhash_create a hs MAX_RPC_SERVICE_BUCKET_COUNT garbage with
      | (None, _, _) => Some None
      | (Some t, a, hs) => Some (Some (PoolObj d pool p, TableObj a hs t))
      end
  end.

(** A page takes less than 8208 bytes of address space. *)
Lemma shm_block_fits : block_alloc_fits rpc_shm_block_alloc 8208.
Proof.
  intros a sz Hz Ho Hp Ht. unfold rpc_shm_block_alloc, PAGE_SIZE. destruct (Z.ltb_spec 4096 sz); [split_and!; done || lia|].
  set (n := Z.land _ _). assert (0 <= n <= 8191) as Hn.
  { unfold n. rewrite (u64_small (sz + (4096 - 1))) by lia. rewrite Z.land_comm.
    pose proof (land_bounds (u64 (Z.lnot (4096 - 1))) (sz + (4096 - 1)) ltac:(done) ltac:(lia)). lia. }
  pose proof (Z.div_le_mono n 8191 16 ltac:(lia) ltac:(lia)) as D. change (8191 / 16) with 511 in D. pose proof (Z.div_pos n 16 ltac:(lia) ltac:(lia)).
  rewrite malloc_ok_result by (done || lia). cbn [a_next a_oom]. split_and!; done || lia.
Qed.

(** With memory enough the server starts with 256 blocks and no client. *)
Lemma start_ok a d hs garbage :
  a_oom a = [] -> 0 < a_next a -> a_next a + 2200000 <= ADDR_TOP -> fresh_above a d -> hobjs hs = ∅ -> (forall x, is_cell (hcells hs) x -> x < a_next a) ->
  exists p h fl, handler_start a d hs garbage = Some (Some (p, h)) /\ Z.of_nat (length fl) = MAX_RPC_SHM_BLOCK_COUNT /\
    bp_rep p fl [] /\ kt_rep h (fun _ => []).
Proof.
  intros Ho Hp Ht Fr Ob Hc. unfold handler_start.
  destruct (mempool_create_rep _ _ shm_block_fits a d PAGE_SIZE MAX_RPC_SHM_BLOCK_COUNT) as (pool & a' & d' & p & fl & -> & _ & Lf & R & Ho' & Hn');
    unfold PAGE_SIZE, MAX_RPC_SHM_BLOCK_COUNT in *; try (done || lia).
  cbn [mbind option_bind].
  pose proof (linkhash_create_rep a' hs MAX_RPC_SERVICE_BUCKET_COUNT garbage ltac:(unfold alloc_ok; lia) ltac:(done) Ob) as C.
  destruct (linkhash_create a' hs MAX_RPC_SERVICE_BUCKET_COUNT garbage) as [[[t|] a1] hs1] eqn:E.
  - destruct C as (TR & Eb & _); [intros x Hx; pose proof (Hc x Hx); lia|]. eexists _, _, fl. split; [done|]. split; [done|]. cbn.
    split; [by destruct R|]. eexists _, _. split; [exact TR|]. intros k. apply vals_empty.
  - destruct C as [_ C]; [intros x Hx; pose proof (Hc x Hx); lia|]. rewrite malloc_ok_result in C by (done || (change (16 * (_ / 16 + 1)) with 3120; lia)).
    cbn in C. unfold NULL in C. lia.
Qed.

(** ** Examples: a service with one block *)

Definition demo_table : table_obj :=
  match linkhash_create (Alloc 65536 []) (Hstore ∅ ∅) 1 0 with
  | (Some t, a, d) => TableObj a d t
  | (None, a, d) => TableObj a d (Linkhash 0 0 0 [])
  end.
Definition demo_service : rpc_state pool_obj table_obj := rpc_service_new 16384 ∅ (PoolObj demo_mstore 4096 demo_pool) demo_table.

Lemma demo_pool_full : bp_rep (PoolObj demo_mstore 4096 demo_pool) [4192] [].
Proof. exact demo_blocks. Qed.
Lemma demo_table_empty : kt_rep demo_table (fun _ => []).
Proof.
  pose proof (linkhash_create_rep (Alloc 65536 []) (Hstore ∅ ∅) 1 0 ltac:(by unfold alloc_ok; cbn) ltac:(done) eq_refl) as C.
  unfold demo_table. destruct (linkhash_create _ _ _ _) as [[[t|] a] d] eqn:E; [|by vm_compute in E].
  destruct C as (R & _); [intros x [c Hx]; cbn [hcells] in Hx; by rewrite lookup_empty in Hx|]. cbn.
  eexists _, _. split; [exact R|]. intros k. apply vals_empty.
Qed.

(** A request for the service, from the call to the return. *)
Definition ask (c t : Z) : list action := [AStart c t; AList c; APost c; ATake; AServe; AWake c].
Definition view (c : Z) (s : rpc_state pool_obj table_obj) : option (client_pc * Z * Z) :=
  (fun x => (c_pc x, client_sem x, rpc_shm_vaddr (rpc_params x))) <$> clients s !! c.

Lemma rpc_service_safe_witness :
  exists s, acts 16384 true [AJoin 20480 7; AStart 20480 CLIENT_GET_SERVICE; AList 20480; APost 20480; ATake] demo_service = Some s /\ srv_at s = Some 20480 /\
    exists x s', clients s !! 20480 = Some x /\ serve_request 16384 s = Some s' /\ served s s' 20480 x.
Proof.
  destruct (acts 16384 true _ demo_service) as [s|] eqn:E; [|by vm_compute in E]. exists s. split; [done|].
  assert (At : srv_at s = Some 20480) by (pose proof (f_equal (fun o => o ≫= srv_at) E) as At; cbn [mbind option_bind] in At; rewrite <- At; by vm_compute).
  split; [done|]. pose proof (rpc_service_safe 16384 ∅ (PoolObj demo_mstore 4096 demo_pool) demo_table [4192] s demo_pool_full demo_table_empty (acts_steps _ _ _ _ E)) as (_ & K & _).
  by apply K.
Defined.

Lemma rpc_no_lost_wakeup_witness :
  exists s bound, acts 16384 true [AJoin 20480 7; AStart 20480 CLIENT_GET_SERVICE; AList 20480] demo_service = Some s /\
    forall n s', nsteps (quiet_step 16384) n s s' -> (n <= bound)%nat /\
      ((forall s'', ~ quiet_step 16384 s' s'') -> forall c x, clients s' !! c = Some x -> c_pc x = Idle).
Proof.
  destruct (acts 16384 true _ demo_service) as [s|] eqn:E; [|by vm_compute in E].
  destruct (rpc_no_lost_wakeup 16384 ∅ (PoolObj demo_mstore 4096 demo_pool) demo_table [4192] s demo_pool_full demo_table_empty (acts_steps _ _ _ _ E)) as [bound K].
  exists s, bound. split; [done|]. exact K.
Defined.

(** a request with response from a client that has no block is never answered, and
    the next response goes to it instead of its own client: here the client 20480 is
    woken with the block that the server gave to 24576, which waits for ever. *)
Theorem rpc_unregistered_misdirects :
  exists s, acts 16384 false ([AJoin 20480 7; AJoin 24576 8; AStart 20480 CLIENT_REQ_SERVICE_WITH_RSP; AList 20480; APost 20480; ATake; AServe;
                               AStart 24576 CLIENT_GET_SERVICE; AList 24576; APost 24576; ATake; AServe; AWake 20480]) demo_service = Some s /\
    kt_get (shm_hash s) 8 = Some 4192 /\ kt_get (shm_hash s) 7 = Some NULL /\
    view 20480 s = Some (Idle, 0, 8192) /\ view 24576 s = Some (Waiting, 0, 0) /\ forall s', ~ quiet_step 16384 s s'.
Proof.
  destruct (acts 16384 false _ demo_service) as [s|] eqn:E; [|by vm_compute in E]. exists s. split; [done|].
  assert (K : (s ← acts 16384 false ([AJoin 20480 7; AJoin 24576 8; AStart 20480 CLIENT_REQ_SERVICE_WITH_RSP; AList 20480; APost 20480; ATake; AServe;
                               AStart 24576 CLIENT_GET_SERVICE; AList 24576; APost 24576; ATake; AServe; AWake 20480]) demo_service;
               Some (kt_get (shm_hash s) 8, kt_get (shm_hash s) 7, view 20480 s, view 24576 s, blocked s)) =
              Some (Some 4192, Some NULL, Some (Idle, 0, 8192), Some (Waiting, 0, 0), true)) by (by vm_compute).
  rewrite E in K. cbn [mbind option_bind] in K. apply Some_inj in K. rewrite !pair_eq in K. destruct K as [[[[-> ->] ->] ->] B].
  split_and!; [reflexivity..|]. by apply blocked_stuck.
Qed.

(** the server wakes the client of a request without response before it reads the
    parameters of the request.  A client that is quick enough to send its next request
    makes the server read that one: it looks for a waiting client on the empty
    [rsp_list] and takes the list head itself for a client. *)
Theorem rpc_early_wake_race :
  exists s, acts 16384 false (AJoin 20480 7 :: ask 20480 CLIENT_GET_SERVICE ++
      [AStart 20480 CLIENT_REQ_SERVICE_WITHOUT_RSP; AList 20480; APost 20480; ATake; AWake 20480; AStart 20480 CLIENT_GET_SERVICE; AList 20480]) demo_service = Some s /\
    srv_at s = Some 20480 /\ get_next (rcells s) (rsp_list 16384) = Some (rsp_list 16384) /\ serve_request 16384 s = None.
Proof.
  destruct (acts 16384 false _ demo_service) as [s|] eqn:E; [|by vm_compute in E]. exists s. split; [done|].
  assert (K : (s ← acts 16384 false (AJoin 20480 7 :: ask 20480 CLIENT_GET_SERVICE ++
      [AStart 20480 CLIENT_REQ_SERVICE_WITHOUT_RSP; AList 20480; APost 20480; ATake; AWake 20480; AStart 20480 CLIENT_GET_SERVICE; AList 20480]) demo_service;
               Some (srv_at s, get_next (rcells s) (rsp_list 16384), bool_decide (is_Some (serve_request 16384 s)))) =
              Some (Some 20480, Some (rsp_list 16384), false)) by (by vm_compute).
  rewrite E in K. cbn [mbind option_bind] in K. apply Some_inj in K. rewrite !pair_eq in K. destruct K as [[-> ->] B]. split_and!; [reflexivity..|].
  apply bool_decide_eq_false in B. by apply eq_None_not_Some.
Qed.
