(* ===== verification/RpcRegistry.v ===== *)
(** * RpcRegistry: the table of services of rpc_test/rpc_daemon/rpc_service.c

    The services are kept in a hash table of HashList by their id; a capability is the
    address of the service object.  [caps] are the live objects, with the id of their
    server.  [rpc_client_get_service] of rpc_client/rpc_client.c looks a service up. *)
From S2P Require Import Prelude Atomic KList MemPool HashList Rpc.
From stdpp Require Import list.
Local Open Scope Z_scope.

Record registry := Registry {
  reg_alloc : alloc;
  reg_store : hstore;
  service_cap_hash : option linkhash;
  caps : gmap Z Z }.

Definition mk_rpc_service_cap (server_id : Z) (R : registry) : Z * registry :=
  let '(service_cap, a) := malloc (reg_alloc R) sizeof_rpc_service in
  if negb (service_cap =? NULL)
  then (service_cap, Registry a (reg_store R) (service_cap_hash R) (<[service_cap := server_id]> (caps R)))
  else (service_cap, Registry a (reg_store R) (service_cap_hash R) (caps R)).

(** [free]: of NULL or of a live object; anything else is undefined. *)
Definition del_rpc_service_cap (ptr : Z) (R : registry) : option registry :=
  if ptr =? NULL then Some R
  else _ ← caps R !! ptr; Some (Registry (reg_alloc R) (reg_store R) (service_cap_hash R) (delete ptr (caps R))).

Definition register_new (service_id server_id : Z) (R : registry) : option (Z * registry) :=
  service_check ← linkhash_get (reg_store R) service_id (service_cap_hash R);
  if negb (service_check =? 0) then Some (service_check, R)
  else
    let '(service_cap, R) := mk_rpc_service_cap server_id R in
    '(res, a, d, t) ← linkhash_add (reg_alloc R) (reg_store R) service_id service_cap (service_cap_hash R);
    let R := Registry a d t (caps R) in
    if res =? -1 then R ← del_rpc_service_cap service_cap R; Some (0, R)
    else Some (service_cap, R).

Definition rpc_service_register (garbage : Z) (service_id server_id : Z) (R : registry) : option (Z * registry) :=
  match service_cap_hash R with
  | Some _ => register_new service_id server_id R
  | None =>
      match linkhash_create (reg_alloc R) (reg_store R) MAX_RPC_SERVICE_BUCKET_COUNT garbage with
      | (None, a, d) => Some (0, Registry a d None (caps R))
      | (Some t, a, d) => register_new service_id server_id (Registry a d (Some t) (caps R))
      end
  end.

(** A table that is not there is only warned about. *)
Definition rpc_service_unregister (service_id : Z) (R : registry) : option registry :=
  '(service_cap, d) ← linkhash_remove (reg_store R) service_id (service_cap_hash R);
  let R := Registry (reg_alloc R) d (service_cap_hash R) (caps R) in
  if negb (service_cap =? 0) then del_rpc_service_cap (u64 service_cap) R else Some R.

Definition rpc_client_security_check (service_id : Z) (R : registry) : option Z :=
  linkhash_get (reg_store R) service_id (service_cap_hash R).

Definition rpc_get_capobj_bycptr (service_cap : Z) : Z := service_cap.

(** [rpc_client_get_service] by the thread [tid]: the client, or NULL. *)
Definition rpc_client_get_service {P T} (service_id tid : Z) (junk : rpc_srv_params) (R : registry) (s : rpc_state P T)
    : option (Z * registry * rpc_state P T) :=
  match service_cap_hash R with
  | None => Some (NULL, R, s)
  | Some _ =>
      service_cap ← rpc_client_security_check service_id R;
      if service_cap =? 0 then Some (NULL, R, s)
      else
        let '(c, a, s) := rpc_client_init (reg_alloc R) service_cap tid junk s in
        Some (c, Registry a (reg_store R) (service_cap_hash R) (caps R), s)
  end.

(** [rpc_client_request_service] up to the request: NULL ([inl]) for no client, a
    capability that is null or a type that is not known, otherwise the state with the
    request on the list of the service. *)
Definition rpc_client_request_service {P T} (c service_type : Z) (s : rpc_state P T) : option (Z + rpc_state P T) :=
  if c =? NULL then Some (inl NULL)
  else
    client ← clients s !! c;
    let service := rpc_get_capobj_bycptr (service_cap client) in
    if service =? NULL then Some (inl NULL)
    else if RPC_CLIENT_REQ_TOTAL_TYPE_COUNT <? service_type then Some (inl NULL)
    else s ← rpc_client_start c service_type s; s ← rpc_client_send_request service c s; Some (inr s).

(** ** Starting the server of a service *)

(** The default handlers only write to the log; [user_handler] is one of the caller. *)
Inductive srv_handler :=
  | rpc_default_req_with_rsp_handler
  | rpc_default_req_without_rsp_handler
  | user_handler (f : Z).

Definition rpc_default_handlers : list srv_handler :=
  [rpc_default_req_with_rsp_handler; rpc_default_req_without_rsp_handler].

(** [handlers] are the [srv_handlers] of the service objects by address; [thread] is the
    thread that is created, [None] when it cannot be.  The result is 0 for a capability
    that is null and when there is no thread; the handlers are set in either case.  An
    address that is no service is undefined, as is a table that is too short. *)
Definition rpc_service_start (service_cap : Z) (service_handlers : option (list srv_handler)) (thread : option Z)
    (handlers : gmap Z (list srv_handler)) : option (Z * gmap Z (list srv_handler)) :=
  let service := rpc_get_capobj_bycptr service_cap in
  if service =? NULL then Some (0, handlers)
  else
    let real_handlers := default rpc_default_handlers service_handlers in
    _ ← handlers !! service;
    if Z.of_nat (length real_handlers) <? RPC_CLIENT_REQ_TYPE_COUNT then None
    else Some (default 0 thread, <[service := take (Z.to_nat RPC_CLIENT_REQ_TYPE_COUNT) real_handlers]> handlers).

(** ** The services by id *)

Definition table_holds (R : registry) (f : Z -> option Z) : Prop :=
  match service_cap_hash R with
  | None => hobjs (reg_store R) = ∅ /\ (forall x, is_cell (hcells (reg_store R)) x -> x < a_next (reg_alloc R)) /\ forall k, f k = None
  | Some t => exists bs hl, table_rep (reg_alloc R) (reg_store R) t bs hl /\ forall k, vals t bs k = option_list (f k)
  end.

(** Each registered id has a live object of its own. *)
Record reg_rep (R : registry) (f : Z -> option Z) : Prop := {
  rg_alloc : alloc_ok (reg_alloc R);
  rg_table : table_holds R f;
  rg_live : forall k c, f k = Some c -> is_Some (caps R !! c);
  rg_inj : forall j k c, f j = Some c -> f k = Some c -> j = k;
  rg_caps : forall c, is_Some (caps R !! c) -> 0 < c < a_next (reg_alloc R) }.

Lemma table_rep_mono a a' d t bs hl : table_rep a d t bs hl -> alloc_ok a' -> a_next a <= a_next a' -> table_rep a' d t bs hl.
Proof. intros R Ha Hn. split; try apply R; [done|]. intros x Hx. pose proof (tr_fresh _ _ _ _ _ R x Hx). lia. Qed.

(** Adding to the table moves the allocator up. *)
Lemma add_alloc_le a d k v t r a' d' t' : alloc_ok a -> linkhash_add a d k v (Some t) = Some (r, a', d', t') -> a_next a <= a_next a'.
Proof.
  intros Ha. cbn [linkhash_add]. destruct (v =? NULL); [intros [= _ <- _ _]; lia|].
  pose proof (malloc_cases a sizeof_hlist Ha ltac:(done)) as M. destruct (malloc a _) as [x a1]. destruct M as (_ & Hle & _).
  destruct (x =? NULL); [intros [= _ <- _ _]; lia|]. cbn zeta. intros E.
  destruct (list_add _ (obj_chain x) _); [|done]. cbn [mbind option_bind] in E. destruct (list_add _ x _); [|done]. cbn [mbind option_bind] in E.
  destruct (count_add _ _); [|done]. cbn [mbind option_bind] in E. by injection E as _ <- _ _.
Qed.

Definition upd (f : Z -> option Z) (k : Z) (v : option Z) (j : Z) : option Z := if j =? k then v else f j.

Lemma upd_same f k v : upd f k v k = v.
Proof. unfold upd. by rewrite Z.eqb_refl. Qed.
Lemma upd_other f k v j : j <> k -> upd f k v j = f j.
Proof. intros N. unfold upd. by rewrite (proj2 (Z.eqb_neq j k) N). Qed.

Lemma check_rep R f k : reg_rep R f -> rpc_client_security_check k R = Some (default 0 (f k)).
Proof.
  intros G. pose proof (rg_table _ _ G) as Tb. unfold table_holds, rpc_client_security_check in *.
  destruct (service_cap_hash R) as [t|]; [|destruct Tb as (_ & _ & ->); done].
  destruct Tb as (bs & hl & TR & V). rewrite (get_rep _ _ _ _ _ k TR), V. by destruct (f k).
Qed.

Lemma live_cap R f k c : reg_rep R f -> f k = Some c -> 0 < c < ADDR_TOP.
Proof. intros G Hk. pose proof (rg_caps _ _ G c (rg_live _ _ G _ _ Hk)). pose proof (rg_alloc _ _ G) as A. unfold alloc_ok in A. lia. Qed.

(** [register_new] on an id that is not registered. *)
Lemma register_new_rep R f t k sid : reg_rep R f -> service_cap_hash R = Some t -> f k = None ->
  exists r R', register_new k sid R = Some (r, R') /\
    ((r = 0 /\ reg_rep R' f /\ caps R' = caps R) \/
     (r <> 0 /\ reg_rep R' (upd f k (Some r)) /\ caps R' = <[r := sid]> (caps R) /\ caps R !! r = None)).
Proof.
  intros G Et Hk. unfold register_new. pose proof (check_rep R f k G) as Ck. unfold rpc_client_security_check in Ck. rewrite Ck, Hk. cbn [default mbind option_bind].
  rewrite Z.eqb_refl. cbn [negb]. unfold mk_rpc_service_cap.
  pose proof (malloc_cases (reg_alloc R) sizeof_rpc_service (rg_alloc _ _ G) ltac:(done)) as M.
  destruct (malloc _ _) as [x a1]. destruct M as (A1 & N1 & M).
  pose proof (rg_table _ _ G) as Tb. unfold table_holds in Tb. rewrite Et in *. destruct Tb as (bs & hl & TR & V).
  pose proof (table_rep_mono _ _ _ _ _ _ TR A1 N1) as TR1.
  destruct (Z.eqb_spec x NULL) as [->|Nx]; cbn [negb].
  { cbn [reg_alloc reg_store service_cap_hash linkhash_add]. rewrite Z.eqb_refl. cbn. eexists _, _. split; [done|]. left.
    split; [done|]. split; [|done]. destruct G. split; try done; [|intros c Hc; cbn in *; pose proof (rg_caps0 c Hc); lia].
    exists bs, hl. done. }
  destruct M as [->|(Ex & Hx & Hx')]; [done|]. cbn [reg_alloc reg_store service_cap_hash caps].
  assert (Nc : caps R !! x = None).
  { destruct (caps R !! x) eqn:E; [|done]. pose proof (rg_caps _ _ G x ltac:(eauto)). lia. }
  assert (Nf : forall j, f j <> Some x).
  { intros j Hj. destruct (rg_live _ _ G j x Hj) as [? ?]. congruence. }
  unfold sizeof_rpc_service in Hx'.
  destruct (add_rep_vals _ _ _ _ _ k x TR1 Nx) as [(a2 & E & _ & TR2)|(a2 & d2 & t2 & bs2 & hl2 & E & TR2 & V1 & V2)];
    pose proof (add_alloc_le _ _ _ _ _ _ _ _ _ A1 E) as N2; rewrite E; cbn [mbind option_bind].
  - rewrite Z.eqb_refl. unfold del_rpc_service_cap. rewrite (proj2 (Z.eqb_neq x NULL)) by done. cbn [caps]. rewrite lookup_insert_eq.
    cbn [mbind option_bind reg_alloc reg_store service_cap_hash]. eexists _, _. split; [done|]. left. cbn [caps]. rewrite delete_insert_id by done.
    split; [done|]. split; [|done]. destruct G. split; cbn; try done; [apply TR2|by exists bs, hl|].
    intros c Hc. pose proof (rg_caps0 c Hc). lia.
  - rewrite (eq_refl : (0 =? -1) = false). eexists _, _. split; [done|]. right. split; [done|]. split; [|done].
    split; cbn [reg_alloc caps reg_store service_cap_hash]; [apply TR2| | | |].
    + exists bs2, hl2. split; [done|]. intros j. destruct (decide (j = k)) as [->|Nj].
      * rewrite V1, V, Hk, upd_same. done.
      * rewrite V2, V, upd_other by done. done.
    + intros j c. destruct (decide (j = k)) as [->|Nj]; [rewrite upd_same; intros [= <-]; rewrite lookup_insert_eq; eauto|].
      rewrite upd_other by done. intros Hj. rewrite lookup_insert_ne by (intros ->; by apply (Nf j)). by apply (rg_live _ _ G j).
    + intros i j c. destruct (decide (i = k)) as [->|Ni], (decide (j = k)) as [->|Nj]; rewrite ?upd_same, ?upd_other by done; try done.
      * intros [= <-] Hj. by destruct (Nf j).
      * intros Hi [= <-]. by destruct (Nf i).
      * apply (rg_inj _ _ G).
    + intros c. destruct (decide (c = x)) as [->|Ncx]; [intros _; lia|]. rewrite lookup_insert_ne by done. intros Hc. pose proof (rg_caps _ _ G c Hc). lia.
Qed.

(** A table made on first use holds nothing yet. *)
Lemma table_made R f garbage t a d : reg_rep R f -> service_cap_hash R = None ->
  linkhash_create (reg_alloc R) (reg_store R) MAX_RPC_SERVICE_BUCKET_COUNT garbage = (Some t, a, d) ->
  reg_rep (Registry a d (Some t) (caps R)) f.
Proof.
  intros G Et E. pose proof (rg_table _ _ G) as Tb. unfold table_holds in Tb. rewrite Et in Tb. destruct Tb as (Ho & Hc & Hf).
  pose proof (linkhash_create_rep (reg_alloc R) (reg_store R) MAX_RPC_SERVICE_BUCKET_COUNT garbage (rg_alloc _ _ G) ltac:(done) Ho Hc) as C.
  rewrite E in C. destruct C as (TR & _ & _).
  pose proof (create_alloc_le (reg_alloc R) (reg_store R) MAX_RPC_SERVICE_BUCKET_COUNT garbage (rg_alloc _ _ G) ltac:(done)) as Hle.
  rewrite E in Hle. destruct Hle as [_ Hle].
  destruct G. split; cbn; try done; [apply TR| |].
  - eexists _, _. split; [exact TR|]. intros k. rewrite Hf. apply vals_empty.
  - intros c Hx. pose proof (rg_caps0 c Hx). lia.
Qed.

(** ... and when it cannot be made nothing changes. *)
Lemma table_not_made R f garbage a d : reg_rep R f -> service_cap_hash R = None ->
  linkhash_create (reg_alloc R) (reg_store R) MAX_RPC_SERVICE_BUCKET_COUNT garbage = (None, a, d) ->
  reg_rep (Registry a d None (caps R)) f.
Proof.
  intros G Et E. pose proof (rg_table _ _ G) as Tb. unfold table_holds in Tb. rewrite Et in Tb. destruct Tb as (Ho & Hc & Hf).
  pose proof (linkhash_create_rep (reg_alloc R) (reg_store R) MAX_RPC_SERVICE_BUCKET_COUNT garbage (rg_alloc _ _ G) ltac:(done) Ho Hc) as C.
  pose proof (create_alloc_le (reg_alloc R) (reg_store R) MAX_RPC_SERVICE_BUCKET_COUNT garbage (rg_alloc _ _ G) ltac:(done)) as Hle.
  rewrite E in C, Hle. destruct C as [-> _]. destruct Hle as [Ha Hle]. destruct G. split; cbn; try done.
  - split; [done|]. split; [|done]. intros x Hx. pose proof (Hc x Hx). cbn. lia.
  - intros c Hx. pose proof (rg_caps0 c Hx). lia.
Qed.

(** The address -1 is no object. *)
Lemma del_bad R f a d t : reg_rep R f -> (if negb (-1 =? 0) then del_rpc_service_cap (u64 (-1)) (Registry a d t (caps R)) else Some R) = None.
Proof.
  intros G. change (u64 (-1)) with 18446744073709551615. cbn. destruct (caps R !! 18446744073709551615) eqn:E; [|done].
  pose proof (rg_caps _ _ G 18446744073709551615 ltac:(eauto)) as Hr. pose proof (rg_alloc _ _ G) as A. unfold alloc_ok, ADDR_TOP in A. lia.
Qed.

Lemma unregister_rep R f k : reg_rep R f ->
  match f k with
  | Some c => exists R', rpc_service_unregister k R = Some R' /\ reg_rep R' (upd f k None) /\ caps R' = delete c (caps R)
  | None => rpc_service_unregister k R = None
  end.
Proof.
  intros G. unfold rpc_service_unregister. pose proof (rg_table _ _ G) as Tb. unfold table_holds in Tb.
  destruct (service_cap_hash R) as [t|] eqn:Et.
  2: { destruct Tb as (_ & _ & ->). cbn [linkhash_remove mbind option_bind negb]. by apply (del_bad R f). }
  destruct Tb as (bs & hl & TR & V). pose proof (remove_rep _ _ _ _ _ k TR) as Rm. rewrite V in Rm.
  destruct (f k) as [c|] eqn:Hk; cbn [option_list] in Rm.
  - destruct Rm as (d' & bs' & hl' & -> & TR' & V1 & V2). cbn [mbind option_bind]. pose proof (live_cap _ _ _ _ G Hk) as Hc. unfold ADDR_TOP in Hc.
    rewrite (proj2 (Z.eqb_neq c 0)) by lia. cbn [negb]. rewrite u64_small by lia. unfold del_rpc_service_cap. rewrite (proj2 (Z.eqb_neq c NULL)) by (unfold NULL; lia).
    destruct (rg_live _ _ G _ _ Hk) as [sid Hs]. cbn [caps]. rewrite Hs. cbn [mbind option_bind]. eexists. split; [done|]. split; [|done].
    split; cbn; [apply G| | | |].
    + exists bs', hl'. split; [done|]. intros j. destruct (decide (j = k)) as [->|Nj]; [by rewrite V1, upd_same|]. by rewrite V2, V, upd_other.
    + intros j x. destruct (decide (j = k)) as [->|Nj]; [by rewrite upd_same|]. rewrite upd_other by done. intros Hj.
      rewrite lookup_delete_ne; [by apply (rg_live _ _ G j)|]. intros ->. by apply Nj, (rg_inj _ _ G j k x).
    + intros i j x. destruct (decide (i = k)) as [->|Ni], (decide (j = k)) as [->|Nj]; rewrite ?upd_same, ?upd_other by done; try done. apply (rg_inj _ _ G).
    + intros x [y Hx]. apply lookup_delete_Some in Hx as [_ Hx]. apply (rg_caps _ _ G). eauto.
  - rewrite Rm. cbn [mbind option_bind]. by apply (del_bad R f).
Qed.

(** C33: the registry keeps one live service object per id.  Registering an id that is
    there returns its capability and changes nothing; a new id gets a capability that
    no id has, or 0 when memory is short, and then nothing changes; unregistering an
    id that is there frees its object and no other; unregistering one that is not
    there frees the address -1, which is no object. *)
Theorem rpc_registry_spec R f garbage id sid :
  reg_rep R f ->
  rpc_client_security_check id R = Some (default 0 (f id)) /\
  (exists r R', rpc_service_register garbage id sid R = Some (r, R') /\
     match f id with
     | Some c => r = c /\ R' = R
     | None => (r = 0 /\ reg_rep R' f /\ caps R' = caps R) \/
               (r <> 0 /\ reg_rep R' (upd f id (Some r)) /\ caps R' = <[r := sid]> (caps R) /\ forall j, f j <> Some r)
     end) /\
  match f id with
  | Some c => exists R', rpc_service_unregister id R = Some R' /\ reg_rep R' (upd f id None) /\ caps R' = delete c (caps R)
  | None => rpc_service_unregister id R = None
  end.
Proof.
  intros G. split; [by apply check_rep|]. split; [|by apply unregister_rep].
  assert (K : forall R1 t, reg_rep R1 f -> service_cap_hash R1 = Some t -> caps R1 = caps R -> f id = None ->
    exists r R', register_new id sid R1 = Some (r, R') /\
      ((r = 0 /\ reg_rep R' f /\ caps R' = caps R) \/
       (r <> 0 /\ reg_rep R' (upd f id (Some r)) /\ caps R' = <[r := sid]> (caps R) /\ forall j, f j <> Some r))).
  { intros R1 t G1 Et Ec Hn. destruct (register_new_rep R1 f t id sid G1 Et Hn) as (r & R' & E & [(? & ? & Ec')|(? & ? & Ec' & Nr)]); exists r, R'; (split; [done|]).
    - left. by rewrite <- Ec.
    - right. rewrite <- Ec. split_and!; try done. intros j Hj. destruct (rg_live _ _ G1 j r Hj) as [? ?]. congruence. }
  unfold rpc_service_register. destruct (service_cap_hash R) as [t|] eqn:Et.
  - destruct (f id) as [c|] eqn:Hk; [|by apply (K R t)]. unfold register_new. pose proof (check_rep R f id G) as Ck. unfold rpc_client_security_check in Ck.
    rewrite Ck, Hk. change (default 0 (Some c)) with c. cbn [mbind option_bind]. pose proof (live_cap _ _ _ _ G Hk). rewrite (proj2 (Z.eqb_neq c 0)) by lia. eexists _, _. by split.
  - assert (Hk : f id = None) by (pose proof (rg_table _ _ G) as Tb; unfold table_holds in Tb; rewrite Et in Tb; apply Tb). rewrite Hk.
    destruct (linkhash_create _ _ _ _) as [[[t|] a] d] eqn:E; [|eexists _, _; split; [done|]; left; split; [done|]; split; [by eapply table_not_made|done]].
    apply (K _ t); [by eapply table_made|done|done|done].
Qed.

(** The capability of a registered id starts its server: the service has the handlers
    of the caller or the default ones, the other services keep theirs. *)
Lemma rpc_service_start_run R f handlers id c hs thread :
  reg_rep R f -> f id = Some c -> (forall x, is_Some (caps R !! x) -> is_Some (handlers !! x)) ->
  (forall l, hs = Some l -> Z.of_nat (length l) = RPC_CLIENT_REQ_TYPE_COUNT) ->
  exists handlers', rpc_service_start c hs thread handlers = Some (default 0 thread, handlers') /\
    handlers' !! c = Some (default rpc_default_handlers hs) /\ forall x, x <> c -> handlers' !! x = handlers !! x.
Proof.
  intros G Hc Hh Hl. pose proof (live_cap _ _ _ _ G Hc) as Hp. destruct (Hh c (rg_live _ _ G _ _ Hc)) as [old Eo].
  assert (L : Z.of_nat (length (default rpc_default_handlers hs)) = RPC_CLIENT_REQ_TYPE_COUNT).
  { destruct hs as [l|]; [by apply Hl|done]. }
  unfold rpc_service_start, rpc_get_capobj_bycptr, NULL. zdec. rewrite Eo. cbn [mbind option_bind]. zdec.
  eexists. split; [done|]. rewrite lookup_insert_eq. split; [|intros x Hx; by rewrite lookup_insert_ne].
  rewrite take_ge; [done|]. lia.
Qed.

(** The thread of the server, with memory for its pool and its table, is in a state of
    the invariant of Rpc whatever its clients do that keep to the rules of Rpc. *)
Lemma rpc_server_started a d hs garbage service m :
  room a 2200000 -> fresh_above a d -> hobjs hs = ∅ -> (forall x, is_cell (hcells hs) x -> x < a_next a) ->
  exists p h, handler_start a d hs garbage = Some (Some (p, h)) /\
    forall s, rtc (ruled_step service) (rpc_service_new service m p h) s -> exists rl wl, rpc_inv service s rl wl.
Proof.
  intros (Ro & Rp & Rt) Fr Ob Hc. destruct (start_ok a d hs garbage) as (p & h & fl & E & _ & B & K); try done.
  exists p, h. split; [done|]. intros s H. eapply reach_inv; [|exact H]. by eapply new_inv.
Qed.

(** The requests of a client that [rpc_client_get_service] made for a registered id go
    to the service of that id. *)
Lemma rpc_client_reaches_service {P T} R f id cap tid junk c R' (s s' : rpc_state P T) t :
  reg_rep R f -> f id = Some cap -> rpc_client_get_service id tid junk R s = Some (c, R', s') -> c <> NULL ->
  t <= RPC_CLIENT_REQ_TOTAL_TYPE_COUNT ->
  rpc_client_request_service c t s' = (inr <$> (rpc_client_start c t s' ≫= rpc_client_send_request cap c)).
Proof.
  intros G Hc E Nc Ht. pose proof (live_cap _ _ _ _ G Hc) as Hp. unfold rpc_client_get_service in E.
  destruct (service_cap_hash R) as [tb|]; [|injection E as <- <- <-; done].
  rewrite (check_rep _ _ _ G), Hc in E. change (default 0 (Some cap)) with cap in E. cbn [mbind option_bind] in E.
  rewrite (proj2 (Z.eqb_neq cap 0)) in E by lia. unfold rpc_client_init in E.
  destruct (malloc (reg_alloc R) sizeof_rpc_client) as [p a]. destruct (Z.eqb_spec p NULL) as [->|Np]; [by injection E as <- <- <-|].
  injection E as <- <- <-. unfold rpc_client_request_service, rpc_get_capobj_bycptr. rewrite (proj2 (Z.eqb_neq p NULL) Np).
  unfold client_at at 1. cbn. rewrite lookup_insert_eq. cbn. unfold NULL. zdec.
  destruct (rpc_client_start _ _ _); [|done]. cbn [mbind option_bind]. by destruct (rpc_client_send_request _ _ _).
Qed.

Definition demo_registry : registry := Registry (Alloc 4096 []) (Hstore ∅ ∅) None ∅.

Lemma rpc_registry_spec_witness :
  reg_rep demo_registry (fun _ => None) /\ rpc_client_security_check 5 demo_registry = Some 0 /\
  fst <$> rpc_service_register 77 5 9 demo_registry = Some 7216.
Proof.
  assert (G : reg_rep demo_registry (fun _ => None)).
  { split; cbn; try done.
    - split; [done|]. split; [|done]. intros x [c Hx]. by rewrite lookup_empty in Hx.
    - intros c [x Hx]. by rewrite lookup_empty in Hx. }
  split; [done|]. split; [|by vm_compute]. apply (rpc_registry_spec demo_registry (fun _ => None) 77 5 9 G).
Defined.
