(* ===== verification/Sdcs.v ===== *)
(** * The distributed cache: src/sdcs/sdcs.go and sdcs_grpc_service.go

    Three nodes serve HTTP requests.  The value of a key is in the cache of the node
    that got the POST; the others have an index, the number of that node.  The
    handlers reach every cache, also their own, through gRPC.

    A handler is a program of calls ([prog]): the same definition is run alone
    ([run]) and interleaved with other handlers ([sdcs_step]).  A method of the gRPC
    server is a program of accesses to the map of its node ([mprog]), and every access
    has a beginning and an end: the map has no lock, and accesses that overlap, one of
    them a write, are a fatal error of the Go runtime ([races]).

    gRPC is not part of the sources: a call that fails may or may not have reached the
    server, and its method may still run when the caller has given up.  [None] is a
    panic: a write to a map that is still nil, or an index outside [grpc_client]. *)
From stdpp Require Import strings.
From S2P Require Import Prelude.
Local Open Scope Z_scope.

(** ** The caches and the methods of the gRPC service *)

Definition invalid_nodeid : Z := -1.
Definition node_count : nat := 3.

Record SdcsCacheValue := CacheValue { cv_val : string; cv_nodeid : Z }.

(** [None] is the nil map that [local_cache] is until [http_server_start] makes it. *)
Abbreviation cache := (option (gmap string SdcsCacheValue)).

Inductive request :=
  | SetIndex (key : string) (node_id : Z)
  | SetData (key v : string)
  | GetData (key : string)
  | DeleteIndex (key : string).

(** The replies; only that of [GetData] has the first two fields. *)
Record reply := Reply { Val : string; NodeId : Z; Res : bool }.

Definition map_set (c : cache) (key : string) (v : SdcsCacheValue) : option cache :=
  match c with Some m => Some (Some (<[key := v]> m)) | None => None end.

Definition map_get (c : cache) (key : string) : SdcsCacheValue * bool :=
  match c ≫= lookup key with
  | Some v => (v, true)
  | None => (CacheValue "" 0, false)
  end.

(** One access to the map. *)
Inductive access := MapGet (key : string) | MapSet (key : string) (v : SdcsCacheValue) | MapDelete (key : string).

Definition writes (a : access) : bool := match a with MapGet _ => false | _ => true end.

(** What the access does and finds; [delete] of a nil map does nothing. *)
Definition map_access (c : cache) (a : access) : option (cache * (SdcsCacheValue * bool)) :=
  match a with
  | MapGet key => Some (c, map_get c key)
  | MapSet key v => c' ← map_set c key v; Some (c', (CacheValue "" 0, false))
  | MapDelete key => Some (delete key <$> c, (CacheValue "" 0, false))
  end.

(** The methods. *)
Inductive mprog :=
  | MReply (rep : reply)
  | MAccess (a : access) (k : SdcsCacheValue * bool -> mprog).

Definition grpc_SetIndex (key : string) (node_id : Z) : mprog :=
  MAccess (MapSet key (CacheValue "" node_id)) (fun _ => MReply (Reply "" 0 true)).

Definition grpc_SetData (key v : string) : mprog :=
  MAccess (MapSet key (CacheValue v invalid_nodeid)) (fun _ => MReply (Reply "" 0 true)).

Definition grpc_GetData (key : string) : mprog :=
  MAccess (MapGet key) (fun '(v, res) => MReply (Reply (cv_val v) (cv_nodeid v) res)).

Definition grpc_DeleteIndex (key : string) : mprog :=
  MAccess (MapGet key) (fun '(_, res) =>
    if res then MAccess (MapDelete key) (fun _ => MReply (Reply "" 0 res)) else MReply (Reply "" 0 res)).

Definition method_of (r : request) : mprog :=
  match r with
  | SetIndex key n => grpc_SetIndex key n
  | SetData key v => grpc_SetData key v
  | GetData key => grpc_GetData key
  | DeleteIndex key => grpc_DeleteIndex key
  end.

(** A method that runs while no other one does. *)
Fixpoint run_method (m : mprog) (c : cache) : option (cache * reply) :=
  match m with
  | MReply rep => Some (c, rep)
  | MAccess a k => '(c, v) ← map_access c a; run_method (k v) c
  end.

Definition serve (c : cache) (r : request) : option (cache * reply) := run_method (method_of r) c.

(** ** The handlers *)

(** [Call i r k] calls [r] on [grpc_client[i]] and goes on with the reply, [None] for
    an error. *)
Inductive prog (R : Type) :=
  | Ret (r : R)
  | Call (i : Z) (r : request) (k : option reply -> prog R).
Arguments Ret {R} r.
Arguments Call {R} i r k.

Fixpoint prog_bind {A B} (p : prog A) (f : A -> prog B) : prog B :=
  match p with
  | Ret a => f a
  | Call i r k => Call i r (fun rep => prog_bind (k rep) f)
  end.

Definition get_result (r : option reply) : prog (option string) :=
  match r with
  | Some rsp => Ret (if Res rsp then Some (Val rsp) else None)
  | None => Ret None
  end.

(** The value, or [None] where the code returns false. *)
Definition http_get_handler (local_nodeid : Z) (key : string) : prog (option string) :=
  Call local_nodeid (GetData key) (fun r =>
    match r with
    | Some rsp =>
        if Res rsp && negb (NodeId rsp =? invalid_nodeid)
        then Call (NodeId rsp) (GetData key) get_result
        else get_result r
    | None => get_result r
    end).

Fixpoint post_loop (n : nat) (i local_nodeid : Z) (key v : string) : prog bool :=
  match n with
  | O => Ret true
  | S n =>
      Call i (if i =? local_nodeid then SetData key v else SetIndex key local_nodeid)
        (fun r => match r with
                  | Some _ => post_loop n (i + 1) local_nodeid key v
                  | None => Ret false
                  end)
  end.

Definition http_post_handler (local_nodeid : Z) (key v : string) : prog bool :=
  post_loop node_count 0 local_nodeid key v.

Fixpoint delete_loop (n : nat) (i : Z) (key : string) : prog bool :=
  match n with
  | O => Ret true
  | S n =>
      Call i (DeleteIndex key)
        (fun r => match r with
                  | Some rsp => if Res rsp then delete_loop n (i + 1) key else Ret false
                  | None => Ret false
                  end)
  end.

Definition http_delete_func (key : string) : prog bool :=
  delete_loop node_count 0 key.

(** [strings.Split] with a separator of one character. *)
Fixpoint split (sep : Ascii.ascii) (s : string) : list string :=
  match s with
  | EmptyString => [EmptyString]
  | String a s =>
      if Ascii.eqb a sep then EmptyString :: split sep s
      else match split sep s with
           | w :: ws => String a w :: ws
           | [] => [String a EmptyString]
           end
  end.

Definition quote : Ascii.ascii := Ascii.ascii_of_nat 34.
Definition slash : Ascii.ascii := Ascii.ascii_of_nat 47.
Definition newline : string := String (Ascii.ascii_of_nat 10) EmptyString.
Definition quoted (s : string) : string := String quote (s +:+ String quote EmptyString).

(** The key and the value, or [None] where the code returns false. *)
Definition http_body_parse (body : string) : option (string * string) :=
  match split quote body with
  | _ :: key :: _ :: v :: _ => Some (key, v)
  | _ => None
  end.

Inductive method := MethodPost | MethodGet | MethodDelete | MethodOther.

(** A request: its body ([None] when it cannot be read) and [r.URL.String()]. *)
Record http_req := HttpReq { r_method : method; r_body : option string; r_url : string }.

Record response := Response { status : Z; w_body : string }.

Definition post_response (res : bool) : prog response :=
  Ret (Response (if res then 200 else 404) EmptyString).

Definition json (key v : string) : string :=
  ("{" +:+ quoted key +:+ ":" +:+ quoted v +:+ "}")%string.

Definition url_key (url : string) : string :=
  default EmptyString (last (split slash url)).

Definition http_handler (local_nodeid : Z) (r : http_req) : prog response :=
  match r_method r with
  | MethodPost =>
      match r_body r with
      | None => Ret (Response 500 ("Unable to read request body." +:+ newline))
      | Some body =>
          match http_body_parse body with
          | Some (key, v) =>
              prog_bind (http_post_handler local_nodeid key v)
                post_response
          | None => Ret (Response 404 EmptyString)
          end
      end
  | MethodGet =>
      prog_bind (http_get_handler local_nodeid (url_key (r_url r)))
        (fun res => match res with
                    | Some v => Ret (Response 200 (json (url_key (r_url r)) v +:+ newline))
                    | None => Ret (Response 404 EmptyString)
                    end)
  | MethodDelete =>
      prog_bind (http_delete_func (url_key (r_url r)))
        (fun res => Ret (Response 200 ((if res then "1" else "0") +:+ newline)))
  | MethodOther => Ret (Response 405 ("Unsupport http request." +:+ newline))
  end.

(** ** Running a handler *)

Inductive outcome := Delivered | NoRequest | NoReply.

Definition call (o : outcome) (ns : list cache) (i : Z) (r : request)
    : option (list cache * option reply) :=
  if i <? 0 then None else
  c ← ns !! Z.to_nat i;
  match o with
  | NoRequest => Some (ns, None)
  | Delivered | NoReply =>
      '(c', rep) ← serve c r;
      Some (<[Z.to_nat i := c']> ns, match o with Delivered => Some rep | _ => None end)
  end.

(** [net] has the outcomes of the calls, in order. *)
Fixpoint run {R} (net : nat -> outcome) (p : prog R) (ns : list cache)
    : option (R * list cache) :=
  match p with
  | Ret r => Some (r, ns)
  | Call i r k =>
      '(ns, rep) ← call (net O) ns i r;
      run (fun n => net (S n)) (k rep) ns
  end.

Definition reliable : nat -> outcome := fun _ => Delivered.

(** The nodes after [http_server_start] made their maps. *)
Definition started : list cache := replicate node_count (Some ∅).

(** Requests one after the other, each at some node. *)
Fixpoint sdcs_run (reqs : list (Z * http_req)) (ns : list cache)
    : option (list response * list cache) :=
  match reqs with
  | [] => Some ([], ns)
  | (n, r) :: reqs =>
      '(a, ns) ← run reliable (http_handler n r) ns;
      '(rs, ns) ← sdcs_run reqs ns;
      Some (a :: rs, ns)
  end.

(** ** Handlers that run at the same time

    [s_tasks] are the requests in progress, [s_methods] the methods of the servers,
    [s_posted] the pairs that clients have asked to store, [s_answers] the responses
    that were sent.  Calls have numbers, [s_next] is the next one. *)

(** A handler goes on, or waits for the reply of call [id]. *)
Inductive tstate :=
  | Running (p : prog response)
  | Waiting (id : nat) (q : request) (k : option reply -> prog response).

(** The method for call [mi_call] at a node; [mi_inside] says that its next access has
    begun. *)
Record method_run := MethodRun { mi_call : nat; mi_node : nat; mi_req : request; mi_prog : mprog; mi_inside : bool }.

Record sys := Sys {
  s_nodes : list cache;
  s_tasks : list (http_req * tstate);
  s_methods : list method_run;
  s_next : nat;
  s_posted : list (string * string);
  s_answers : list (http_req * response) }.

Definition posted_by (r : http_req) : list (string * string) :=
  match r_method r, r_body r with
  | MethodPost, Some body => option_list (http_body_parse body)
  | _, _ => []
  end.

(** Two accesses to the map of one node that overlap, one of them a write. *)
Definition inside (m : method_run) : option access :=
  match mi_inside m, mi_prog m with true, MAccess a _ => Some a | _, _ => None end.
Definition conflict (m m' : method_run) : bool :=
  match inside m, inside m' with
  | Some a, Some a' => bool_decide (mi_node m = mi_node m') && (writes a || writes a')
  | _, _ => false
  end.
Fixpoint races (l : list method_run) : bool :=
  match l with
  | [] => false
  | m :: l => existsb (conflict m) l || races l
  end.

(** Nothing is said of what happens after a race.  A call that is not delivered, a reply
    that is lost and a caller that gives up (a timeout, a broken connection) are steps
    that are always possible. *)
Inductive sdcs_event :=
  | Arrive (n : Z) (r : http_req)
  | Send (j : nat) (delivered : bool)
  | Begin (x : nat)
  | End (x : nat)
  | Receive (x j : nat)
  | Lose (x : nat)
  | GiveUp (j : nat)
  | Answer (j : nat).

Definition set_tasks (s : sys) t := Sys (s_nodes s) t (s_methods s) (s_next s) (s_posted s) (s_answers s).
Definition set_methods (s : sys) m := Sys (s_nodes s) (s_tasks s) m (s_next s) (s_posted s) (s_answers s).

Definition sdcs_next (e : sdcs_event) (s : sys) : option sys :=
  if races (s_methods s) then None
  else match e with
  | Arrive n r =>
      if (0 <=? n) && (n <? Z.of_nat node_count)
      then Some (Sys (s_nodes s) (s_tasks s ++ [(r, Running (http_handler n r))]) (s_methods s) (s_next s)
                     (posted_by r ++ s_posted s) (s_answers s))
      else None
  | Send j delivered =>
      match s_tasks s !! j with
      | Some (r, Running (Call i q k)) =>
          if i <? 0 then None
          else _ ← s_nodes s !! Z.to_nat i;
            Some (Sys (s_nodes s) (<[j := (r, Waiting (s_next s) q k)]> (s_tasks s))
              (s_methods s ++ if (delivered : bool) then [MethodRun (s_next s) (Z.to_nat i) q (method_of q) false] else [])
              (S (s_next s)) (s_posted s) (s_answers s))
      | _ => None
      end
  | Begin x =>
      match s_methods s !! x with
      | Some (MethodRun id n q (MAccess a k) false) =>
          Some (set_methods s (<[x := MethodRun id n q (MAccess a k) true]> (s_methods s)))
      | _ => None
      end
  | End x =>
      match s_methods s !! x with
      | Some (MethodRun id n q (MAccess a k) true) =>
          c ← s_nodes s !! n;
          '(c, v) ← map_access c a;
          Some (Sys (<[n := c]> (s_nodes s)) (s_tasks s) (<[x := MethodRun id n q (k v) false]> (s_methods s)) (s_next s)
                    (s_posted s) (s_answers s))
      | _ => None
      end
  | Receive x j =>
      match s_methods s !! x, s_tasks s !! j with
      | Some (MethodRun id n q (MReply rep) _), Some (r, Waiting id' q' k) =>
          if decide (id = id')
          then Some (set_methods (set_tasks s (<[j := (r, Running (k (Some rep)))]> (s_tasks s))) (delete x (s_methods s)))
          else None
      | _, _ => None
      end
  | Lose x =>
      match s_methods s !! x with
      | Some (MethodRun id n q (MReply rep) _) => Some (set_methods s (delete x (s_methods s)))
      | _ => None
      end
  | GiveUp j =>
      match s_tasks s !! j with
      | Some (r, Waiting id q k) => Some (set_tasks s (<[j := (r, Running (k None))]> (s_tasks s)))
      | _ => None
      end
  | Answer j =>
      match s_tasks s !! j with
      | Some (r, Running (Ret a)) =>
          Some (Sys (s_nodes s) (delete j (s_tasks s)) (s_methods s) (s_next s) (s_posted s) ((r, a) :: s_answers s))
      | _ => None
      end
  end.

Definition sdcs_step (s s' : sys) : Prop := exists e, sdcs_next e s = Some s'.

Definition sdcs_start : sys := Sys started [] [] 0 [] [].

(** ** What the cache promises: one map *)

Definition spec_handle (M : gmap string string) (r : http_req)
    : response * gmap string string :=
  match r_method r with
  | MethodPost =>
      match r_body r with
      | None => (Response 500 ("Unable to read request body." +:+ newline), M)
      | Some body =>
          match http_body_parse body with
          | Some (key, v) => (Response 200 EmptyString, <[key := v]> M)
          | None => (Response 404 EmptyString, M)
          end
      end
  | MethodGet =>
      match M !! url_key (r_url r) with
      | Some v => (Response 200 (json (url_key (r_url r)) v +:+ newline), M)
      | None => (Response 404 EmptyString, M)
      end
  | MethodDelete =>
      match M !! url_key (r_url r) with
      | Some _ => (Response 200 ("1" +:+ newline), delete (url_key (r_url r)) M)
      | None => (Response 200 ("0" +:+ newline), M)
      end
  | MethodOther => (Response 405 ("Unsupport http request." +:+ newline), M)
  end.

Fixpoint spec_all (reqs : list (Z * http_req)) (M : gmap string string) : list response :=
  match reqs with
  | [] => []
  | (_, r) :: reqs => let '(a, M) := spec_handle M r in a :: spec_all reqs M
  end.

(** The node_entry of node [i] for a key whose value is at node [o]. *)
Definition node_entry (o : Z) (v : string) (i : Z) : SdcsCacheValue :=
  if i =? o then CacheValue v invalid_nodeid else CacheValue EmptyString o.

Definition nodes3 (m0 m1 m2 : gmap string SdcsCacheValue) : list cache :=
  [Some m0; Some m1; Some m2].

Definition key_rep (ov : option string) (e0 e1 e2 : option SdcsCacheValue) : Prop :=
  match ov with
  | None => e0 = None /\ e1 = None /\ e2 = None
  | Some v => exists o, 0 <= o < 3 /\
      e0 = Some (node_entry o v 0) /\ e1 = Some (node_entry o v 1) /\ e2 = Some (node_entry o v 2)
  end.

Definition sdcs_rep (M : gmap string string) (ns : list cache) : Prop :=
  exists m0 m1 m2, ns = nodes3 m0 m1 m2 /\
    forall key, key_rep (M !! key) (m0 !! key) (m1 !! key) (m2 !! key).

(** ** Lemmas *)

Ltac node_cases :=
  match goal with
  | H : 0 <= ?n < _ |- _ =>
      let C := fresh in
      assert (n = 0 \/ n = 1 \/ n = 2) as C by (unfold node_count in *; lia);
      destruct C as [-> | [-> | ->]]; clear H
  end.

Lemma call_get (ns : list cache) i key m :
  0 <= i -> ns !! Z.to_nat i = Some (Some m) ->
  call Delivered ns i (GetData key) =
  Some (ns, Some (match m !! key with
                  | Some e => Reply (cv_val e) (cv_nodeid e) true
                  | None => Reply EmptyString 0 false
                  end)).
Proof.
  intros Hi Hm. unfold call. destruct (Z.ltb_spec i 0); [lia|]. rewrite Hm. simpl.
  unfold serve. simpl. unfold map_get. simpl.
  destruct (m !! key); simpl; by rewrite list_insert_id.
Qed.

Lemma call_delete (ns : list cache) i key m :
  0 <= i -> ns !! Z.to_nat i = Some (Some m) ->
  call Delivered ns i (DeleteIndex key) =
  Some (match m !! key with
        | Some _ => (<[Z.to_nat i := Some (delete key m)]> ns, Some (Reply EmptyString 0 true))
        | None => (ns, Some (Reply EmptyString 0 false))
        end).
Proof.
  intros Hi Hm. unfold call. destruct (Z.ltb_spec i 0); [lia|]. rewrite Hm. simpl.
  unfold serve. simpl. unfold map_get. simpl.
  destruct (m !! key); simpl; [done | by rewrite list_insert_id].
Qed.

(** Runs a handler on three nodes whose entries for the key are known. *)
Ltac run_with H0 H1 H2 :=
  unfold nodes3, reliable;
  repeat (cbn -[call lookup insert delete];
          first [erewrite call_get by (reflexivity || lia) | erewrite call_delete by (reflexivity || lia)];
          first [rewrite H0 | rewrite H1 | rewrite H2]);
  reflexivity.

Lemma run_bind {A B} (p : prog A) (f : A -> prog B) : forall ns,
  run reliable (prog_bind p f) ns = run reliable p ns ≫= fun '(a, ns) => run reliable (f a) ns.
Proof.
  induction p as [a | i q k IH]; intros ns; [done|]. cbn.
  destruct (call _ ns i q) as [[ns' rep] |]; [|done]. cbn. apply IH.
Qed.

Lemma post_run n key v m0 m1 m2 :
  0 <= n < 3 ->
  run reliable (http_post_handler n key v) (nodes3 m0 m1 m2) =
  Some (true, nodes3 (<[key := node_entry n v 0]> m0) (<[key := node_entry n v 1]> m1)
                     (<[key := node_entry n v 2]> m2)).
Proof. intros Hn. node_cases; reflexivity. Qed.

(** A POST over whatever network returns; when it succeeds, every call was executed. *)
Lemma post_net net n key v m0 m1 m2 :
  0 <= n < 3 ->
  exists res ns,
    run net (prog_bind (http_post_handler n key v) post_response) (nodes3 m0 m1 m2) =
      Some (Response (if res : bool then 200 else 404) EmptyString, ns) /\
    (res = true -> ns = nodes3 (<[key := node_entry n v 0]> m0) (<[key := node_entry n v 1]> m1)
                               (<[key := node_entry n v 2]> m2)) /\
    ((forall i, net i = Delivered) -> res = true).
Proof.
  intros Hn. unfold nodes3. node_cases; simpl;
    (destruct (net 0%nat) eqn:E0; simpl;
       [destruct (net 1%nat) eqn:E1; simpl; [destruct (net 2%nat) eqn:E2; simpl|..]|..]);
    first [ exists true; eexists; split; [reflexivity|]; done
          | exists false; eexists; split; [reflexivity|]; split; [done|]; intros H; by rewrite H in * ].
Qed.

Lemma get_run n key ov m0 m1 m2 :
  0 <= n < 3 ->
  key_rep ov (m0 !! key) (m1 !! key) (m2 !! key) ->
  run reliable (http_get_handler n key) (nodes3 m0 m1 m2) = Some (ov, nodes3 m0 m1 m2).
Proof.
  intros Hn Hk. destruct ov as [v |].
  - destruct Hk as (o & Ho & H0 & H1 & H2).
    node_cases; node_cases; run_with H0 H1 H2.
  - destruct Hk as (H0 & H1 & H2).
    node_cases; run_with H0 H1 H2.
Qed.

Lemma delete_run key ov m0 m1 m2 :
  key_rep ov (m0 !! key) (m1 !! key) (m2 !! key) ->
  run reliable (http_delete_func key) (nodes3 m0 m1 m2) =
  Some (match ov with
        | Some _ => (true, nodes3 (delete key m0) (delete key m1) (delete key m2))
        | None => (false, nodes3 m0 m1 m2)
        end).
Proof.
  intros Hk. destruct ov as [v |]; [destruct Hk as (o & _ & H0 & H1 & H2) | destruct Hk as (H0 & H1 & H2)];
    run_with H0 H1 H2.
Qed.

Lemma post_rep M n key v m0 m1 m2 :
  0 <= n < 3 ->
  (forall k, key_rep (M !! k) (m0 !! k) (m1 !! k) (m2 !! k)) ->
  sdcs_rep (<[key := v]> M) (nodes3 (<[key := node_entry n v 0]> m0) (<[key := node_entry n v 1]> m1)
                                    (<[key := node_entry n v 2]> m2)).
Proof.
  intros Hn Hk. do 3 eexists. split; [done|]. intros k.
  destruct (decide (k = key)) as [-> | Hne].
  - rewrite !lookup_insert_eq. exists n. done.
  - rewrite !lookup_insert_ne by done. apply Hk.
Qed.

Lemma delete_rep M key m0 m1 m2 :
  (forall k, key_rep (M !! k) (m0 !! k) (m1 !! k) (m2 !! k)) ->
  sdcs_rep (delete key M) (nodes3 (delete key m0) (delete key m1) (delete key m2)).
Proof.
  intros Hk. do 3 eexists. split; [done|]. intros k.
  destruct (decide (k = key)) as [-> | Hne].
  - rewrite !lookup_delete_eq. done.
  - rewrite !lookup_delete_ne by done. apply Hk.
Qed.

(** One request does to the caches what the specification does to the map. *)
Lemma handler_refines M n r ns :
  0 <= n < 3 -> sdcs_rep M ns ->
  exists ns', run reliable (http_handler n r) ns = Some ((spec_handle M r).1, ns') /\
    sdcs_rep (spec_handle M r).2 ns'.
Proof.
  intros Hn (m0 & m1 & m2 & -> & Hk). destruct r as [[] body url];
    unfold http_handler, spec_handle; cbn [r_method r_body r_url].
  - destruct body as [body |]; [|by eexists; split; [reflexivity | do 3 eexists]].
    destruct (http_body_parse body) as [[key v] |]; [|by eexists; split; [reflexivity | do 3 eexists]].
    rewrite run_bind, post_run by done. eexists; split; [reflexivity|]. by apply post_rep.
  - specialize (Hk (url_key url)) as Hu.
    rewrite run_bind, (get_run _ _ _ _ _ _ Hn Hu).
    destruct (M !! url_key url); eexists; (split; [reflexivity | by do 3 eexists]).
  - specialize (Hk (url_key url)) as Hu. rewrite run_bind, (delete_run _ _ _ _ _ Hu).
    destruct (M !! url_key url); eexists; (split; [reflexivity|]); [by apply delete_rep | by do 3 eexists].
  - eexists; split; [reflexivity | by do 3 eexists].
Qed.

Lemma started_rep : sdcs_rep ∅ started.
Proof. do 3 eexists. split; [reflexivity|]. intros k. rewrite !lookup_empty. done. Qed.

Lemma run_all_refines reqs : forall M ns,
  Forall (fun p => 0 <= p.1 < 3) reqs -> sdcs_rep M ns ->
  exists ns', sdcs_run reqs ns = Some (spec_all reqs M, ns').
Proof.
  induction reqs as [| [n r] reqs IH]; intros M ns Hn Hr; [by eexists|].
  apply Forall_cons in Hn as [Hn Hreqs].
  destruct (handler_refines M n r ns Hn Hr) as (ns1 & Hrun & Hr1).
  cbn. rewrite Hrun. cbn. destruct (spec_handle M r) as [a M1].
  destruct (IH M1 ns1 Hreqs Hr1) as (ns2 & ->). by eexists.
Qed.

(** *** The body of a request *)

Fixpoint lacks (c : Ascii.ascii) (s : string) : bool :=
  match s with
  | EmptyString => true
  | String a s => negb (Ascii.eqb a c) && lacks c s
  end.

#[local] Arguments String.append : simpl nomatch.

Lemma split_app c w rest :
  lacks c w = true -> split c (w +:+ String c rest) = w :: split c rest.
Proof.
  induction w as [| a w IH]; simpl; [by rewrite Ascii.eqb_refl|].
  intros [Ha Hw]%andb_true_iff. apply negb_true_iff in Ha. by rewrite Ha, IH.
Qed.

Lemma append_assoc (a b c : string) : ((a +:+ b) +:+ c = a +:+ (b +:+ c))%string.
Proof. induction a as [| x a IH]; simpl; congruence. Qed.

Lemma json_split key v rest :
  lacks quote key = true -> lacks quote v = true ->
  split quote (json key v +:+ rest) =
  ("{" :: key :: ":" :: v :: split quote ("}" +:+ rest))%string.
Proof.
  intros Hk Hv. unfold json, quoted. simpl.
  repeat (rewrite !append_assoc; simpl). rewrite split_app by done. simpl. by rewrite split_app.
Qed.

Lemma split_free c w : lacks c w = true -> split c w = [w].
Proof.
  induction w as [| a w IH]; simpl; [done|].
  intros [Ha Hw]%andb_true_iff. apply negb_true_iff in Ha. by rewrite Ha, IH.
Qed.

Lemma json_parse key v rest :
  lacks quote key = true -> lacks quote v = true ->
  http_body_parse (json key v +:+ rest) = Some (key, v).
Proof. intros Hk Hv. unfold http_body_parse. by rewrite json_split. Qed.

Lemma append_nil_r (a : string) : (a +:+ EmptyString = a)%string.
Proof. induction a as [| x a IH]; simpl; congruence. Qed.

Lemma url_key_slash key : lacks slash key = true -> url_key (String slash key) = key.
Proof. intros Hk. unfold url_key. cbn [split]. by rewrite Ascii.eqb_refl, split_free. Qed.

(** *** What a handler may do

    [wp P Q p]: with clients that have asked to store the pairs [P], [p] calls only
    the three nodes, stores only what was asked for, and its result satisfies [Q].
    Between the calls others may ask for more. *)

(** The pairs that clients have asked to store. *)
Abbreviation pairs := (list (string * string)).

Definition val_ok (P : pairs) (key v : string) : Prop :=
  v = EmptyString \/ (key, v) ∈ P.

Definition entry_ok (P : pairs) key (e : SdcsCacheValue) : Prop :=
  val_ok P key (cv_val e) /\ -1 <= cv_nodeid e < 3.

Definition cache_ok (P : pairs) (c : cache) : Prop :=
  exists m, c = Some m /\ map_Forall (entry_ok P) m.

Definition req_ok (P : pairs) (q : request) : Prop :=
  match q with
  | SetIndex _ n => 0 <= n < 3
  | SetData key v => (key, v) ∈ P
  | _ => True
  end.

Definition rep_ok (P : pairs) (q : request) (rep : option reply) : Prop :=
  match q, rep with
  | GetData key, Some rsp => val_ok P key (Val rsp) /\ -1 <= NodeId rsp < 3
  | _, _ => True
  end.

Fixpoint wp {R} (P : pairs) (Q : pairs -> R -> Prop)
    (p : prog R) : Prop :=
  match p with
  | Ret r => Q P r
  | Call i q k => 0 <= i < 3 /\ req_ok P q /\
      forall P' rep, P ⊆ P' -> rep_ok P' q rep -> wp P' Q (k rep)
  end.

Definition answer_ok (r : http_req) (P : pairs) (a : response) : Prop :=
  r_method r = MethodGet -> status a = 200 ->
  exists v, w_body a = (json (url_key (r_url r)) v +:+ newline)%string /\
    val_ok P (url_key (r_url r)) v.

(** At most [n] more calls, whatever the replies. *)
Fixpoint calls_le {R} (n : nat) (p : prog R) {struct p} : Prop :=
  match p, n with
  | Ret _, _ => True
  | Call _ _ _, O => False
  | Call _ _ k, S n => forall rep, calls_le n (k rep)
  end.

Lemma val_ok_mono P P' key v : P ⊆ P' -> val_ok P key v -> val_ok P' key v.
Proof. intros HP [?|?]; [by left | right; by apply HP]. Qed.

Lemma cache_ok_mono P P' c : P ⊆ P' -> cache_ok P c -> cache_ok P' c.
Proof.
  intros HP (m & -> & Hm). exists m. split; [done|]. intros key e He.
  destruct (Hm key e He). split; [by eapply val_ok_mono | done].
Qed.

Lemma req_ok_mono P P' q : P ⊆ P' -> req_ok P q -> req_ok P' q.
Proof. intros HP. destruct q; simpl; auto. Qed.

Lemma answer_ok_mono r P P' a : P ⊆ P' -> answer_ok r P a -> answer_ok r P' a.
Proof.
  intros HP Ha Hm Hs. destruct (Ha Hm Hs) as (v & Hb & Hv).
  exists v. split; [done | by eapply val_ok_mono].
Qed.

Lemma wp_mono {R} P P' (Q : pairs -> R -> Prop) p :
  (forall P P' r, P ⊆ P' -> Q P r -> Q P' r) -> P ⊆ P' -> wp P Q p -> wp P' Q p.
Proof.
  intros HQ HP. destruct p as [r | i q k]; simpl; [by apply HQ|].
  intros (Hi & Hq & Hk). split; [done|]. split; [by eapply req_ok_mono|].
  intros P2 rep HP2 Hrep. apply Hk; [by etrans | done].
Qed.

Lemma wp_bind {A B} (Q : pairs -> B -> Prop) (f : A -> prog B) p :
  forall P, wp P (fun P a => wp P Q (f a)) p -> wp P Q (prog_bind p f).
Proof.
  induction p as [a | i q k IH]; intros P; simpl; [done|].
  intros (Hi & Hq & Hk). split; [done|]. split; [done|]. intros P' rep HP Hrep. by apply IH, Hk.
Qed.

Lemma post_loop_wp n : forall P i local key v,
  0 <= i -> i + Z.of_nat n <= 3 -> 0 <= local < 3 -> (key, v) ∈ P ->
  wp P (fun _ _ => True) (post_loop n i local key v).
Proof.
  induction n as [| n IH]; intros P i local key v Hi Hn Hl HP; simpl; [done|].
  split; [lia|]. split; [by destruct (i =? local)|].
  intros P' [rep |] HP' _; [|done]. apply IH; [lia | lia | done | by apply HP'].
Qed.

Lemma delete_loop_wp n : forall P i key,
  0 <= i -> i + Z.of_nat n <= 3 -> wp P (fun _ _ => True) (delete_loop n i key).
Proof.
  induction n as [| n IH]; intros P i key Hi Hn; simpl; [done|].
  split; [lia|]. split; [done|].
  intros P' [rep |] _ _; [|done]. destruct (Res rep); [apply IH; lia | done].
Qed.

Lemma get_handler_wp P local key :
  0 <= local < 3 ->
  wp P (fun P res => forall v, res = Some v -> val_ok P key v) (http_get_handler local key).
Proof.
  intros Hl. simpl. split; [done|]. split; [done|].
  intros P1 [rsp |] _ Hrep; [|done]. destruct Hrep as [Hv Hn].
  destruct (Res rsp) eqn:Hr; simpl; [|by rewrite Hr].
  destruct (Z.eqb_spec (NodeId rsp) invalid_nodeid) as [He | Hne]; simpl.
  - rewrite Hr. by intros ? [= <-].
  - unfold invalid_nodeid in Hne. split; [lia|]. split; [done|].
    intros P2 [rsp2 |] _ Hrep2; [|done]. destruct Hrep2 as [Hv2 _]. simpl.
    destruct (Res rsp2); [by intros ? [= <-] | done].
Qed.

Lemma wp_conseq {R} (Q Q' : pairs -> R -> Prop) p :
  (forall P r, Q P r -> Q' P r) -> forall P, wp P Q p -> wp P Q' p.
Proof.
  intros HQ. induction p as [a | i q k IH]; intros P; simpl; [apply HQ|].
  intros (Hi & Hq & Hk). split; [done|]. split; [done|]. intros P' rep HP Hrep. by apply IH, Hk.
Qed.

Lemma handler_wp P n r :
  0 <= n < 3 -> posted_by r ⊆ P -> wp P (answer_ok r) (http_handler n r).
Proof.
  intros Hn HP. destruct r as [[] body url]; unfold http_handler; cbn [r_method r_body r_url].
  - destruct body as [body |]; [|by intros ?]. unfold posted_by in HP. simpl in HP.
    destruct (http_body_parse body) as [[key v] |]; [|by intros ?].
    apply wp_bind, (wp_conseq (fun _ _ => True)); [by intros P' a _ ?|].
    apply post_loop_wp; [lia | unfold node_count; lia | done | apply HP; by left].
  - eapply wp_bind, wp_conseq; [|by apply get_handler_wp].
    intros P' [v |] Hv; [|by intros ?]. intros _ _. eexists. split; [done | by apply Hv].
  - apply wp_bind, (wp_conseq (fun _ _ => True)); [by intros P' a _ ?|]. apply delete_loop_wp; [lia | unfold node_count; lia].
  - by intros ?.
Qed.

Lemma post_loop_calls n : forall i local key v, calls_le n (post_loop n i local key v).
Proof. induction n as [| n IH]; intros; simpl; [done|]. intros [rep |]; [apply IH | done]. Qed.

Lemma delete_loop_calls n : forall i key, calls_le n (delete_loop n i key).
Proof.
  induction n as [| n IH]; intros; simpl; [done|].
  intros [rep |]; [destruct (Res rep); [apply IH | done] | done].
Qed.

Lemma calls_le_bind {A B} (p : prog A) (f : A -> prog B) : forall n,
  (forall a, exists b, f a = Ret b) -> calls_le n p -> calls_le n (prog_bind p f).
Proof.
  induction p as [a | i q k IH]; intros n Hf; simpl; [destruct (Hf a) as [b ->]; by destruct n|].
  destruct n as [| n]; [done|]. intros Hk rep. by apply IH.
Qed.

Lemma handler_calls n r : calls_le 3 (http_handler n r).
Proof.
  destruct r as [[] body url]; unfold http_handler; cbn [r_method r_body r_url].
  - destruct body as [body |]; [|done]. destruct (http_body_parse body) as [[key v] |]; [|done].
    apply calls_le_bind; [eauto | apply post_loop_calls].
  - apply calls_le_bind; [intros []; eauto|]. intros [rsp |]; simpl; [|done].
    destruct (Res rsp && _); simpl; [by intros [] | done].
  - apply calls_le_bind; [eauto | apply delete_loop_calls].
  - done.
Qed.

Lemma calls_le_S {R} (p : prog R) : forall n, calls_le n p -> calls_le (S n) p.
Proof.
  induction p as [a | i q k IH]; intros n; simpl; [done|].
  destruct n as [| n]; [done|]. intros Hk rep. by apply IH.
Qed.

(** *** What a method may do *)

Definition access_ok (P : pairs) (a : access) : Prop :=
  match a with MapSet key e => entry_ok P key e | _ => True end.

(** What an access finds. *)
Definition found_ok (P : pairs) (a : access) (v : SdcsCacheValue * bool) : Prop :=
  match a with MapGet key => val_ok P key (cv_val v.1) /\ -1 <= cv_nodeid v.1 < 3 | _ => True end.

Fixpoint mwp (P : pairs) (q : request) (m : mprog) : Prop :=
  match m with
  | MReply rep => rep_ok P q (Some rep)
  | MAccess a k => access_ok P a /\ forall P' v, P ⊆ P' -> found_ok P' a v -> mwp P' q (k v)
  end.

Lemma rep_ok_mono P P' q rep : P ⊆ P' -> rep_ok P q rep -> rep_ok P' q rep.
Proof. intros HP. destruct q, rep; try done. intros [H1 H2]. split; [by eapply val_ok_mono|done]. Qed.

Lemma mwp_mono P P' q m : P ⊆ P' -> mwp P q m -> mwp P' q m.
Proof.
  intros HP. destruct m as [rep|a k]; cbn; [by apply rep_ok_mono|]. intros [Ha Hk]. split.
  - destruct a as [|key e|]; try done. destruct Ha. split; [by eapply val_ok_mono|done].
  - intros P2 v HP2. apply Hk. by etrans.
Qed.

Lemma method_ok P q : req_ok P q -> mwp P q (method_of q).
Proof.
  destruct q as [key n|key v|key|key]; cbn; intros Hq.
  - split; [split; [by left|cbn; lia]|done].
  - split; [split; [by right|cbn; unfold invalid_nodeid; lia]|done].
  - split; [done|]. intros P' [e res] _ Hf. exact Hf.
  - split; [done|]. intros P' [e res] _ _. by destruct res.
Qed.

(** An access on a good cache does not panic, and the cache stays good. *)
Lemma access_run P c a :
  cache_ok P c -> access_ok P a ->
  exists c' v, map_access c a = Some (c', v) /\ cache_ok P c' /\ found_ok P a v.
Proof.
  intros (m & -> & Hm) Ha. destruct a as [key|key e|key]; cbn.
  - do 2 eexists. split; [done|]. split; [by eexists|]. unfold map_get. cbn.
    destruct (m !! key) as [e|] eqn:E; cbn; [by apply (Hm key)|]. split; [by left|lia].
  - do 2 eexists. split; [done|]. split; [|done]. eexists. split; [done|]. by apply map_Forall_insert_2.
  - do 2 eexists. split; [done|]. split; [|done]. eexists. split; [done|]. by apply map_Forall_delete.
Qed.

Definition task_ok (P : pairs) (t : http_req * tstate) : Prop :=
  match t.2 with
  | Running p => wp P (answer_ok t.1) p /\ calls_le 3 p
  | Waiting id q k => forall rep, calls_le 3 (k rep) /\
      forall P', P ⊆ P' -> rep_ok P' q rep -> wp P' (answer_ok t.1) (k rep)
  end.

Definition run_ok (P : pairs) (m : method_run) : Prop := (mi_node m < 3)%nat /\ mwp P (mi_req m) (mi_prog m).

Record sys_ok (s : sys) : Prop := {
  ok_len : length (s_nodes s) = 3%nat;
  ok_nodes : Forall (cache_ok (s_posted s)) (s_nodes s);
  ok_tasks : Forall (task_ok (s_posted s)) (s_tasks s);
  ok_methods : Forall (run_ok (s_posted s)) (s_methods s);
  ok_ids : Forall (fun m => (mi_call m < s_next s)%nat) (s_methods s);
  ok_link : forall j r id q k m, s_tasks s !! j = Some (r, Waiting id q k) -> m ∈ s_methods s -> mi_call m = id -> mi_req m = q;
  ok_wait : forall j r id q k, s_tasks s !! j = Some (r, Waiting id q k) -> (id < s_next s)%nat;
  ok_answers : Forall (fun t => answer_ok t.1 (s_posted s) t.2) (s_answers s) }.

Lemma sys_ok_start : sys_ok sdcs_start.
Proof.
  split; simpl; try done; [|by constructor..].
  repeat constructor; (eexists; split; [done|]; apply map_Forall_empty).
Qed.

Lemma task_ok_mono P P' t : P ⊆ P' -> task_ok P t -> task_ok P' t.
Proof.
  intros HP. unfold task_ok. destruct (t.2) as [p|id q k].
  - intros [Hw Hc]. split; [|done]. eapply wp_mono; [apply answer_ok_mono|done|done].
  - intros H rep. destruct (H rep) as [Hc Hw]. split; [done|]. intros P2 HP2. apply Hw. by etrans.
Qed.

(** A task that changes, without a new wait. *)
Lemma sys_ok_task s j t :
  sys_ok s -> task_ok (s_posted s) t -> (forall r id q k, t <> (r, Waiting id q k)) -> sys_ok (set_tasks s (<[j := t]> (s_tasks s))).
Proof.
  intros [H1 H2 H3 H4 H5 H6 H7 H8] Ht Nw. split; cbn; try done.
  - by apply Forall_insert.
  - intros j' r id q k m E. apply list_lookup_insert_Some in E as [(_ & E & _)|[_ E]]; [by destruct (Nw r id q k)|by eapply H6].
  - intros j' r id q k E. apply list_lookup_insert_Some in E as [(_ & E & _)|[_ E]]; [by destruct (Nw r id q k)|by eapply H7].
Qed.

Lemma sys_ok_delete_method s x : sys_ok s -> sys_ok (set_methods s (delete x (s_methods s))).
Proof.
  intros [H1 H2 H3 H4 H5 H6 H7 H8]. split; cbn; try done; try (by apply Forall_delete).
  intros j r id q k m E Hm. eapply H6; [exact E|]. eapply elem_of_submseteq; [exact Hm|]. apply sublist_submseteq, sublist_delete.
Qed.

(** A method that goes on. *)
Lemma sys_ok_method s x id n q m m' b b' :
  sys_ok s -> s_methods s !! x = Some (MethodRun id n q m b) -> mwp (s_posted s) q m' ->
  sys_ok (set_methods s (<[x := MethodRun id n q m' b']> (s_methods s))).
Proof.
  intros [H1 H2 H3 H4 H5 H6 H7 H8] Ex Hm'. split; cbn; try done.
  - apply Forall_insert; [done|]. destruct (Forall_lookup_1 _ _ _ _ H4 Ex) as [Hn _]. by split.
  - apply Forall_insert; [done|]. by pose proof (Forall_lookup_1 _ _ _ _ H5 Ex).
  - intros j r id' q' k m2 E Hin Hid. apply list_elem_of_lookup in Hin as [y Ey].
    apply list_lookup_insert_Some in Ey as [(_ & <- & _)|[_ Ey]].
    + apply (H6 j r id' q' k (MethodRun id n q m b) E); [by eapply list_elem_of_lookup_2|done].
    + apply (H6 j r id' q' k m2 E); [by eapply list_elem_of_lookup_2|done].
Qed.

(** *** Every step keeps the invariant *)

Lemma sys_ok_arrive s n r :
  sys_ok s -> 0 <= n < 3 ->
  sys_ok (Sys (s_nodes s) (s_tasks s ++ [(r, Running (http_handler n r))]) (s_methods s) (s_next s)
              (posted_by r ++ s_posted s) (s_answers s)).
Proof.
  intros [H1 H2 H3 H4 H5 H6 H7 H8] Hn. assert (s_posted s ⊆ posted_by r ++ s_posted s) as HP by set_solver.
  split; cbn; try done.
  - eapply Forall_impl; [done|]. intros c. by apply cache_ok_mono.
  - apply Forall_app. split.
    + eapply Forall_impl; [done|]. intros t. by apply task_ok_mono.
    + constructor; [|done]. split; [apply handler_wp; [done|set_solver]|apply handler_calls].
  - eapply Forall_impl; [exact H4|]. intros m [Hm Hw]. split; [done|]. by eapply mwp_mono.
  - intros j r' id q k m E. apply lookup_app_Some in E as [E|[_ E]]; [by eapply H6|].
    by apply list_lookup_singleton_Some in E as [_ E].
  - intros j r' id q k E. apply lookup_app_Some in E as [E|[_ E]]; [by eapply H7|].
    by apply list_lookup_singleton_Some in E as [_ E].
  - eapply Forall_impl; [done|]. intros t. by apply answer_ok_mono.
Qed.

Lemma sys_ok_call s j r i q k :
  sys_ok s -> s_tasks s !! j = Some (r, Running (Call i q k)) ->
  0 <= i < 3 /\ req_ok (s_posted s) q /\ task_ok (s_posted s) (r, Waiting (s_next s) q k).
Proof.
  intros Hs Hj. destruct (Forall_lookup_1 _ _ _ _ (ok_tasks s Hs) Hj) as [(Hi & Hq & Hk) Hc].
  split; [done|]. split; [done|]. intros rep. split; [apply calls_le_S, Hc|]. intros P' HP. by apply Hk.
Qed.

Lemma sys_ok_send s j r i q k l :
  sys_ok s -> s_tasks s !! j = Some (r, Running (Call i q k)) ->
  l = [] \/ l = [MethodRun (s_next s) (Z.to_nat i) q (method_of q) false] ->
  sys_ok (Sys (s_nodes s) (<[j := (r, Waiting (s_next s) q k)]> (s_tasks s)) (s_methods s ++ l) (S (s_next s))
              (s_posted s) (s_answers s)).
Proof.
  intros Hs Hj Hl. destruct (sys_ok_call s j r i q k Hs Hj) as (Hi & Hq & Ht).
  assert (forall m, m ∈ l -> m = MethodRun (s_next s) (Z.to_nat i) q (method_of q) false) as Hin.
  { intros m Hm. destruct Hl as [-> | ->]; [by apply not_elem_of_nil in Hm|by apply list_elem_of_singleton in Hm]. }
  destruct Hs as [H1 H2 H3 H4 H5 H6 H7 H8]. split; cbn; try done.
  - by apply Forall_insert.
  - apply Forall_app. split; [done|]. apply Forall_forall. intros m ->%Hin. split; [cbn; lia|by apply method_ok].
  - apply Forall_app. split; [eapply Forall_impl; [done|]; cbn; lia|]. apply Forall_forall. intros m ->%Hin. cbn. lia.
  - intros j' r' id q' k' m E Hm Hid. apply list_lookup_insert_Some in E as [(_ & E & _)|[_ E]];
      apply elem_of_app in Hm as [Hm| ->%Hin].
    + injection E as <- <- <- <-. apply (proj1 (Forall_forall _ _) H5) in Hm. lia.
    + by injection E as <- <- <- <-.
    + by eapply H6.
    + apply H7 in E. cbn in Hid. lia.
  - intros j' r' id q' k' E. apply list_lookup_insert_Some in E as [(_ & E & _)|[_ E]]; [injection E as <- <- <- <-; lia|].
    apply H7 in E. lia.
Qed.

Lemma sys_ok_end s x id n q a k c c' v b :
  sys_ok s -> s_methods s !! x = Some (MethodRun id n q (MAccess a k) b) ->
  s_nodes s !! n = Some c -> map_access c a = Some (c', v) ->
  sys_ok (Sys (<[n := c']> (s_nodes s)) (s_tasks s) (<[x := MethodRun id n q (k v) false]> (s_methods s)) (s_next s)
              (s_posted s) (s_answers s)).
Proof.
  intros Hs Hx Hc Ha. destruct (Forall_lookup_1 _ _ _ _ (ok_methods s Hs) Hx) as [Hn [Hacc Hk]].
  pose proof (Forall_lookup_1 _ _ _ _ (ok_nodes s Hs) Hc) as Hco.
  destruct (access_run _ c a Hco Hacc) as (c2 & v2 & Ha2 & Hc2 & Hf). rewrite Ha in Ha2. injection Ha2 as <- <-.
  destruct (sys_ok_method s x id n q _ (k v) b false Hs Hx (Hk _ v ltac:(done) Hf)) as [H1 H2 H3 H4 H5 H6 H7 H8].
  split; try done; [cbn; by rewrite length_insert|by apply Forall_insert].
Qed.

Lemma sys_ok_receive s x id n q rep b j r q' k :
  sys_ok s -> s_methods s !! x = Some (MethodRun id n q (MReply rep) b) -> s_tasks s !! j = Some (r, Waiting id q' k) ->
  task_ok (s_posted s) (r, Running (k (Some rep))).
Proof.
  intros Hs Hx Hj. destruct (Forall_lookup_1 _ _ _ _ (ok_methods s Hs) Hx) as [_ Hrep].
  pose proof (ok_link s Hs _ _ _ _ _ _ Hj (list_elem_of_lookup_2 _ _ _ Hx) eq_refl) as E. cbn in E. subst q'.
  pose proof (Forall_lookup_1 _ _ _ _ (ok_tasks s Hs) Hj (Some rep)) as [Hc Hw]. split; [by apply Hw|done].
Qed.

Lemma sys_ok_answer s j r a :
  sys_ok s -> s_tasks s !! j = Some (r, Running (Ret a)) ->
  sys_ok (Sys (s_nodes s) (delete j (s_tasks s)) (s_methods s) (s_next s) (s_posted s) ((r, a) :: s_answers s)).
Proof.
  intros [H1 H2 H3 H4 H5 H6 H7 H8] Hj. split; cbn; try done.
  - by apply Forall_delete.
  - intros j' r' id q k m E. rewrite list_lookup_delete in E. case_match; by eapply H6.
  - intros j' r' id q k E. rewrite list_lookup_delete in E. case_match; by eapply H7.
  - constructor; [|done]. destruct (Forall_lookup_1 _ _ _ _ H3 Hj) as [Hw _]. apply Hw.
Qed.

Lemma sys_ok_step s s' : sdcs_step s s' -> sys_ok s -> sys_ok s'.
Proof.
  intros [e He] Hs. unfold sdcs_next in He. destruct (races (s_methods s)); [done|].
  destruct e as [n r|j d|x|x|x j|x|j|j]; repeat case_match; simplify_option_eq; try done.
  - apply sys_ok_arrive; [done|]. change (Z.of_nat node_count) with 3 in *. lia.
  - eapply sys_ok_send; [done|done|by right].
  - eapply sys_ok_send; [done|done|by left].
  - eapply sys_ok_method; [done|done|].
    by match goal with E : s_methods s !! x = _ |- _ => destruct (Forall_lookup_1 _ _ _ _ (ok_methods s Hs) E) end.
  - match goal with E : (match ?p with (_, _) => _ end) = _ |- _ => destruct p end. simplify_eq. by eapply sys_ok_end.
  - apply (sys_ok_delete_method (set_tasks s _)), sys_ok_task; [done| |done]. by eapply sys_ok_receive.
  - by apply sys_ok_delete_method.
  - apply sys_ok_task; [done| |done].
    match goal with E : s_tasks s !! j = _ |- _ => destruct (Forall_lookup_1 _ _ _ _ (ok_tasks s Hs) E None) as [Hc Hw] end.
    split; [apply Hw; [done|]|done]. by match goal with |- rep_ok _ ?q _ => destruct q end.
  - by apply sys_ok_answer.
Qed.

Lemma sys_ok_reachable s : rtc sdcs_step sdcs_start s -> sys_ok s.
Proof.
  intros H. refine (rtc_invariant _ sys_ok _ _ _ H sys_ok_start).
  intros x y Hx Hxy. by apply (sys_ok_step x).
Qed.

(** *** Schedules *)

Fixpoint sdcs_exec (es : list sdcs_event) (s : sys) : option sys :=
  match es with
  | [] => Some s
  | e :: es => s ← sdcs_next e s; sdcs_exec es s
  end.

Lemma exec_rtc es : forall s s', sdcs_exec es s = Some s' -> rtc sdcs_step s s'.
Proof.
  induction es as [| e es IH]; intros s s'; simpl; [by intros [= <-]|].
  destruct (sdcs_next e s) as [s1 |] eqn:H1; [|done]. intros H.
  eapply rtc_l; [by eexists | by apply IH].
Qed.

Definition post_req (key v : string) : http_req :=
  HttpReq MethodPost (Some (json key v)) (String slash EmptyString).
Definition get_req (key : string) : http_req :=
  HttpReq MethodGet (Some EmptyString) (String slash key).
Definition delete_req (key : string) : http_req :=
  HttpReq MethodDelete (Some EmptyString) (String slash key).

Definition answers (es : list sdcs_event) : option (list response) :=
  s ← sdcs_exec es sdcs_start;
  match s_tasks s with [] => Some (reverse (s_answers s).*2) | _ => None end.

(** A call of task [j] whose method, the only one, makes [n] accesses. *)
Definition one_call (j n : nat) : list sdcs_event :=
  Send j true :: concat (replicate n [Begin 0; End 0]) ++ [Receive 0 j].
Definition lost_call (j : nat) : list sdcs_event := [Send j false; GiveUp j].

(** A request that runs to its end alone, with the accesses of its calls. *)
Definition alone (n : Z) (r : http_req) (calls : list nat) : list sdcs_event :=
  Arrive n r :: concat (one_call 0 <$> calls) ++ [Answer 0].

(** Two clients post the key at nodes 0 and 1; the calls alternate at first. *)
Definition racing_posts : list sdcs_event :=
  [Arrive 0 (post_req "k" "a"); Arrive 1 (post_req "k" "b")] ++
  one_call 0 1 ++ one_call 1 1 ++ one_call 1 1 ++ one_call 0 1 ++ one_call 0 1 ++ [Answer 0] ++ one_call 0 1 ++ [Answer 0].

(** A DELETE that loses its second call. *)
Definition broken_delete : list sdcs_event :=
  Arrive 0 (delete_req "k") :: one_call 0 2 ++ lost_call 0 ++ [Answer 0].

(** Two POSTs at node 0 whose accesses to the map of node 0 overlap. *)
Definition overlapping_posts : list sdcs_event :=
  [Arrive 0 (post_req "k" "a"); Arrive 0 (post_req "l" "b"); Send 0 true; Send 1 true; Begin 0; Begin 1].

(** What a path of a URL holds as itself, so that r.URL.String() gives it back, and what
    http.ServeMux does not clean away. *)
Definition url_char (c : Ascii.ascii) : bool :=
  let n := Ascii.nat_of_ascii c in
  ((48 <=? n) && (n <=? 57) || (65 <=? n) && (n <=? 90) || (97 <=? n) && (n <=? 122))%nat ||
  existsb (Ascii.eqb c) (String.list_ascii_of_string "-_.~$&+,:;=@").
Definition url_plain (key : string) : bool :=
  forallb url_char (String.list_ascii_of_string key) && negb (String.eqb key ".") && negb (String.eqb key "..").

Lemma url_chars_lack c key :
  url_char c = false -> forallb url_char (String.list_ascii_of_string key) = true -> lacks c key = true.
Proof.
  intros Hc. induction key as [|d key IH]; [done|]. cbn -[url_char]. intros [Hd Hk]%andb_true_iff.
  rewrite (IH Hk), andb_true_r. destruct (Ascii.eqb_spec d c) as [->|]; [congruence|done].
Qed.

Lemma url_plain_lacks key : url_plain key = true -> lacks quote key = true /\ lacks slash key = true.
Proof. intros [[H _]%andb_true_iff _]%andb_true_iff. split; by apply url_chars_lack. Qed.

(** ** Theorems *)

(** C20: the three nodes are one map.  When gRPC delivers every call, any sequence of
    HTTP requests, each at any node, is answered and gets the responses that a single
    map from keys to values gives: POST stores the value of its body, GET finds the
    value stored last, at whichever node, and DELETE reports whether there was one. *)
Theorem sdcs_refinement reqs :
  Forall (fun p => 0 <= p.1 < 3) reqs ->
  exists ns, sdcs_run reqs started = Some (spec_all reqs ∅, ns).
Proof. intros H. exact (run_all_refines reqs ∅ started H started_rep). Qed.

Lemma sdcs_refinement_witness :
  exists ns, sdcs_run [(0, post_req "k" "a"); (2, get_req "k"); (1, post_req "k" "b");
                      (0, get_req "k"); (2, delete_req "k"); (1, get_req "k")] started =
    Some ([Response 200 ""; Response 200 (json "k" "a" +:+ newline); Response 200 "";
           Response 200 (json "k" "b" +:+ newline); Response 200 ("1" +:+ newline);
           Response 404 ""]%string, ns).
Proof.
  eapply (sdcs_refinement [(0, post_req "k" "a"); (2, get_req "k"); (1, post_req "k" "b");
                      (0, get_req "k"); (2, delete_req "k"); (1, get_req "k")]).
  repeat constructor; simpl; lia.
Defined.

(** C24: what a GET answers was posted, and the one way in which a node can fail.
    Whatever the interleaving of the handlers at the three nodes and of the accesses of
    their methods, whichever calls and replies are lost and whenever callers give up:
    up to the first race for a map, every call indexes grpc_client inside its bounds, no
    access panics, a handler makes at most three calls from any of its states, and a GET
    that is answered with 200 has a value that some client asked to store under this key,
    or the empty one.  Races are possible: the methods use the map without a lock, and
    two POSTs at one node can write it at the same time, which ends the process. *)
Theorem sdcs_answers_posted :
  (forall s, rtc sdcs_step sdcs_start s ->
    (forall j r i q k, s_tasks s !! j = Some (r, Running (Call i q k)) -> 0 <= i < Z.of_nat node_count) /\
    (forall x id n q a k b, s_methods s !! x = Some (MethodRun id n q (MAccess a k) b) ->
      exists c, s_nodes s !! n = Some c /\ is_Some (map_access c a)) /\
    Forall (fun t => match t.2 with Running p => calls_le 3 p | Waiting _ _ k => forall rep, calls_le 3 (k rep) end)
      (s_tasks s) /\
    (forall r a, (r, a) ∈ s_answers s -> r_method r = MethodGet -> status a = 200 ->
      exists v, w_body a = (json (url_key (r_url r)) v +:+ newline)%string /\
        (v = EmptyString \/ (url_key (r_url r), v) ∈ s_posted s))) /\
  exists s, rtc sdcs_step sdcs_start s /\ races (s_methods s) = true.
Proof.
  split.
  - intros s Hs%sys_ok_reachable. split; [|split; [|split]].
    + intros j r i q k Hj. by destruct (sys_ok_call s j r i q k Hs Hj).
    + intros x id n q a k b Hx. destruct (Forall_lookup_1 _ _ _ _ (ok_methods s Hs) Hx) as [Hn [Ha _]].
      destruct (lookup_lt_is_Some_2 (s_nodes s) n) as [c Hc]; [by rewrite (ok_len s Hs)|]. exists c. split; [done|].
      pose proof (Forall_lookup_1 _ _ _ _ (ok_nodes s Hs) Hc) as Hco.
      destruct (access_run _ c a Hco Ha) as (? & ? & -> & _). by eexists.
    + eapply Forall_impl; [apply (ok_tasks s Hs)|]. intros [r [p|id q k]]; [by intros [_ ?]|]. intros H rep. apply H.
    + intros r a Ha. apply (proj1 (Forall_forall _ _) (ok_answers s Hs) _ Ha).
  - destruct (sdcs_exec overlapping_posts sdcs_start) as [s|] eqn:E; [|by vm_compute in E].
    exists s. split; [by eapply exec_rtc|]. vm_compute in E. by injection E as <-.
Qed.

(** C26: a POST that is answered with 200 can be read everywhere.  Whatever the nodes
    hold, and whichever of its own calls are lost, a POST that runs alone, of a key and a
    value without quotes, is answered with 200 or 404, with 200 when no call is lost.
    After a 200 a GET at any node, sent before the next POST or DELETE and whose calls
    gRPC delivers, is answered with a body that http_body_parse reads as this key and
    value.  The key is one that a URL holds as itself ([url_plain]: letters, digits and
    -_.~$&+,:;=@, and not a dot or two dots): the handler takes the key of a GET from
    r.URL.String(), where other characters stand escaped. *)
Theorem sdcs_post_get_roundtrip net n n' key v m0 m1 m2 :
  0 <= n < 3 -> 0 <= n' < 3 ->
  url_plain key = true -> lacks quote v = true ->
  exists a ns, run net (http_handler n (post_req key v)) (nodes3 m0 m1 m2) = Some (a, ns) /\
    (status a = 200 \/ status a = 404) /\
    ((forall i, net i = Delivered) -> status a = 200) /\
    (status a = 200 -> exists body,
      run reliable (http_handler n' (get_req key)) ns = Some (Response 200 body, ns) /\
      http_body_parse body = Some (key, v)).
Proof.
  intros Hn Hn' Hu Hv. destruct (url_plain_lacks key Hu) as [Hk Hs].
  destruct (post_net net n key v m0 m1 m2 Hn) as (res & ns & Hrun & Hns & Hrel).
  exists (Response (if res then 200 else 404) EmptyString), ns.
  unfold http_handler, post_req, get_req. cbn [r_method r_body r_url].
  pose proof (json_parse key v EmptyString Hk Hv) as Hp. rewrite append_nil_r in Hp. rewrite Hp.
  split; [done|]. split; [destruct res; auto|]. split; [intros H; by rewrite (Hrel H)|].
  intros H200. destruct res; [|done]. rewrite (Hns eq_refl).
  rewrite run_bind, url_key_slash, (get_run n' key (Some v)) by
    (done || (rewrite !lookup_insert_eq; by exists n)).
  eexists. split; [reflexivity|]. by apply json_parse.
Qed.

Lemma sdcs_post_get_roundtrip_witness :
  exists body, run reliable (http_handler 2 (get_req "k"))
      (nodes3 (<["k" := node_entry 1 "a" 0]> ∅) (<["k" := node_entry 1 "a" 1]> ∅) (<["k" := node_entry 1 "a" 2]> ∅)) =
    Some (Response 200 body,
      nodes3 (<["k" := node_entry 1 "a" 0]> ∅) (<["k" := node_entry 1 "a" 1]> ∅) (<["k" := node_entry 1 "a" 2]> ∅)) /\
    http_body_parse body = Some ("k", "a")%string.
Proof.
  destruct (sdcs_post_get_roundtrip reliable 1 2 "k" "a" ∅ ∅ ∅ ltac:(lia) ltac:(lia) eq_refl eq_refl)
    as (a & ns & Hrun & _ & Hrel & H). vm_compute in Hrun. injection Hrun as <- <-.
  destruct (H eq_refl) as (body & Hget & Hbody). exists body. split; [exact Hget | exact Hbody].
Defined.

(** handlers that overlap can lose the value, also when no two accesses to a map do.  Two
    clients post a key at nodes 0 and 1 at the same time; both get 200, but each node
    then has the number of the other one, and GET answers 200 with an empty value at
    both.  A DELETE that fails after its first call leaves a key that cannot be deleted:
    node 1 still answers with the value, and every further DELETE returns 0. *)
Theorem sdcs_overlap_limits :
  answers (racing_posts ++ alone 0 (get_req "k") [1; 1]%nat ++ alone 1 (get_req "k") [1; 1]%nat) =
    Some [Response 200 ""; Response 200 "";
          Response 200 (json "k" "" +:+ newline); Response 200 (json "k" "" +:+ newline)]%string /\
  answers (alone 1 (post_req "k" "b") [1; 1; 1]%nat ++ broken_delete ++ alone 1 (get_req "k") [1]%nat ++
           alone 2 (delete_req "k") [1]%nat ++ alone 2 (get_req "k") [1; 1]%nat) =
    Some [Response 200 ""; Response 200 ("0" +:+ newline); Response 200 (json "k" "b" +:+ newline);
          Response 200 ("0" +:+ newline); Response 200 (json "k" "b" +:+ newline)]%string.
Proof. split; vm_compute; reflexivity. Qed.
