(* ===== verification/SdcsStart.v ===== *)
(** * SdcsStart: how a cluster of the cache starts (sdcs/sdcs.go, sdcs_grpc_service.go)

    [main] of a node starts the HTTP server and the gRPC server as goroutines and then
    makes the clients; each goroutine is a sequence of steps, and the three nodes start
    in any order while requests already arrive.  A call goes to the process that serves
    gRPC at the address with which the client was made.  A failed listener, a refused
    connection and a client that cannot be made are arguments of the steps.  The
    cluster refines the system of Sdcs, whose nodes are ready from the beginning; the
    theorems also say when a node is ready and when a request can still crash it. *)
From stdpp Require Import strings relations.
From S2P Require Import Prelude Sdcs.
Local Open Scope Z_scope.

Record GrpcAddress := Addr { ipaddr : string; port : Z }.
#[export] Instance GrpcAddress_eq : EqDecision GrpcAddress.
Proof. solve_decision. Defined.

Definition http_ipaddr : string := "0.0.0.0".
Definition http_start_port : Z := 9527.
Definition grpc_start_port : Z := 50000.

Definition grpc_address : list GrpcAddress :=
  [Addr "server1" grpc_start_port; Addr "server2" (grpc_start_port + 1); Addr "server3" (grpc_start_port + 2)].

(** ** [strconv.Atoi] *)

Fixpoint digits_value (v : Z) (s : string) : option Z :=
  match s with
  | EmptyString => Some v
  | String c s =>
      let d := Z.of_nat (Ascii.nat_of_ascii c) - 48 in
      if (0 <=? d) && (d <=? 9) then digits_value (10 * v + d) s else None
  end.

Definition digits (s : string) : option Z := if (s =? "")%string then None else digits_value 0 s.

Definition minus : Ascii.ascii := Ascii.ascii_of_nat 45.
Definition plus : Ascii.ascii := Ascii.ascii_of_nat 43.

(** [None] is an error: no number, or outside an [int]. *)
Definition Atoi (s : string) : option Z :=
  v ← match s with
      | String c r =>
          if Ascii.eqb c minus then Z.opp <$> digits r else if Ascii.eqb c plus then digits r else digits s
      | EmptyString => None
      end;
  if (- 2 ^ 63 <=? v) && (v <? 2 ^ 63) then Some v else None.

(** ** A node *)

(** Where the goroutines are. *)
Inductive http_at := HHandle | HMake | HListen | HServe.
Inductive grpc_at := GListen | GServe | GStopped.
Inductive main_at := MDial (i : nat) | MSelect.

(** [nd_listen] is where the gRPC server listens; [nd_cache] is [local_cache], which the gRPC server reaches through a pointer;
    [nd_client] are the entries of [grpc_client], nil or connected to an address;
    [nd_exit] is the status of the process once it has ended. *)
Record node := Node {
  nd_id : Z;
  nd_address : GrpcAddress;
  nd_listen : GrpcAddress;
  nd_cache : cache;
  nd_client : list (option GrpcAddress);
  nd_http : http_at;
  nd_grpc : grpc_at;
  nd_main : main_at;
  nd_exit : option Z }.

Definition with_http (nd : node) c h :=
  Node (nd_id nd) (nd_address nd) (nd_listen nd) c (nd_client nd) h (nd_grpc nd) (nd_main nd) (nd_exit nd).
Definition with_grpc (nd : node) g :=
  Node (nd_id nd) (nd_address nd) (nd_listen nd) (nd_cache nd) (nd_client nd) (nd_http nd) g (nd_main nd) (nd_exit nd).
Definition with_main (nd : node) l m :=
  Node (nd_id nd) (nd_address nd) (nd_listen nd) (nd_cache nd) l (nd_http nd) (nd_grpc nd) m (nd_exit nd).
Definition with_cache (nd : node) c :=
  Node (nd_id nd) (nd_address nd) (nd_listen nd) c (nd_client nd) (nd_http nd) (nd_grpc nd) (nd_main nd) (nd_exit nd).
Definition exits (nd : node) x :=
  Node (nd_id nd) (nd_address nd) (nd_listen nd) (nd_cache nd) (nd_client nd) (nd_http nd) (nd_grpc nd) (nd_main nd) (Some x).

(** [main] up to the loop: the exit status (2 for a panic), or the node with its
    goroutines started.  A negative number passes the test. *)
Definition main (args : list string) : Z + node :=
  match args with
  | _ :: arg :: _ =>
      match Atoi arg with
      | None => inl 1
      | Some current_node_id =>
          if Z.of_nat (length grpc_address) <=? current_node_id then inl 1
          else
            let http_address := Addr http_ipaddr (u16 (http_start_port + u16 current_node_id)) in
            let local_nodeid := i32 current_node_id in
            if local_nodeid <? 0 then inl 2
            else match grpc_address !! Z.to_nat local_nodeid with
                 | None => inl 2
                 | Some listen =>
                     inr (Node local_nodeid http_address listen None (replicate node_count None) HHandle GListen (MDial 0) None)
                 end
      end
  | _ => inl 1
  end.

(** The next step of the goroutines; [ok] says whether the call that can fail succeeds.
    A listener that fails, also later, ends the process. *)
Definition http_server_start (ok : bool) (nd : node) : node :=
  match nd_http nd with
  | HHandle => with_http nd (nd_cache nd) HMake
  | HMake => with_http nd (Some ∅) HListen
  | HListen => if ok then with_http nd (nd_cache nd) HServe else exits nd 1
  | HServe => if ok then nd else exits nd 1
  end.

Definition SdcsGrpcServerStart (ok : bool) (nd : node) : node :=
  match nd_grpc nd with
  | GListen => if ok then with_grpc nd GServe else exits nd 1
  | GServe => if ok then nd else with_grpc nd GStopped
  | GStopped => nd
  end.

Definition SdcsGrpcClientInit (ok : bool) (a : GrpcAddress) : option GrpcAddress := if ok then Some a else None.

(** A client that cannot be made is tried again after a pause; an index outside
    [grpc_address] cannot occur. *)
Definition main_loop (ok : bool) (nd : node) : node :=
  match nd_main nd with
  | MDial i =>
      if (i <? node_count)%nat then
        match grpc_address !! i with
        | Some a =>
            match SdcsGrpcClientInit ok a with
            | Some c => with_main nd (<[i := Some c]> (nd_client nd)) (MDial (S i))
            | None => nd
            end
        | None => exits nd 2
        end
      else with_main nd (nd_client nd) MSelect
  | MSelect => nd
  end.

(** ** The cluster *)

(** A request being handled at node [t_node]; [t_live] is false once the handler has
    panicked (the HTTP server goes on, the client gets no answer). *)
Record task := Task { t_node : nat; t_req : http_req; t_state : tstate; t_live : bool }.

Record cluster := Cluster {
  cl_nodes : list node;
  cl_tasks : list task;
  cl_methods : list method_run;
  cl_next : nat;
  cl_posted : list (string * string);
  cl_answers : list (http_req * response) }.

Definition set_nodes (c : cluster) ns := Cluster ns (cl_tasks c) (cl_methods c) (cl_next c) (cl_posted c) (cl_answers c).
Definition cl_set_tasks (c : cluster) ts := Cluster (cl_nodes c) ts (cl_methods c) (cl_next c) (cl_posted c) (cl_answers c).
Definition cl_set_methods (c : cluster) ms := Cluster (cl_nodes c) (cl_tasks c) ms (cl_next c) (cl_posted c) (cl_answers c).

Definition serving (nd : node) : bool :=
  match nd_exit nd, nd_grpc nd with None, GServe => true | _, _ => false end.

(** The process that serves gRPC at an address. *)
Definition listener (ns : list node) (a : GrpcAddress) : option nat :=
  fst <$> list_find (fun nd => serving nd && bool_decide (nd_listen nd = a)) ns.

(** Where a call of node [n] through [grpc_client[i]] goes: to the process that listens
    on the address with which the client was made.  [None] is a panic of the calling
    handler: an index outside the array, or a client that is still nil. *)
Definition cluster_call (ns : list node) (n : nat) (i : Z) : option (option nat) :=
  nd ← ns !! n;
  if i <? 0 then None else
  client ← nd_client nd !! Z.to_nat i;
  a ← client;
  Some (listener ns a).

Inductive goroutine := GoHttp | GoGrpc | GoMain.

Definition go_step (g : goroutine) (ok : bool) (nd : node) : node :=
  match g with
  | GoHttp => http_server_start ok nd
  | GoGrpc => SdcsGrpcServerStart ok nd
  | GoMain => main_loop ok nd
  end.

Inductive cluster_event :=
  | EvGo (n : nat) (g : goroutine) (ok : bool)
  | EvArrive (n : nat) (r : http_req)
  | EvCall (j : nat) (delivered : bool)
  | EvBegin (x : nat)
  | EvEnd (x : nat)
  | EvReceive (x j : nat)
  | EvLose (x : nat)
  | EvGiveUp (j : nat)
  | EvAnswer (j : nat).

(** The node a task runs on, while both go on. *)
Definition runs_on (c : cluster) (t : task) : option node :=
  nd ← cl_nodes c !! t_node t;
  if t_live t && bool_decide (nd_exit nd = None) then Some nd else None.

Definition set_task (c : cluster) (j : nat) (t : task) (st : tstate) : cluster :=
  cl_set_tasks c (<[j := Task (t_node t) (t_req t) st true]> (cl_tasks c)).

(** The steps are those of [sdcs_next], for processes that may not be ready or have
    ended.  A panic in a method ends the process that runs it. *)
Definition cluster_next (e : cluster_event) (c : cluster) : option cluster :=
  if races (cl_methods c) then None
  else match e with
  | EvGo n g ok =>
      nd ← cl_nodes c !! n;
      if bool_decide (nd_exit nd = None) then Some (set_nodes c (<[n := go_step g ok nd]> (cl_nodes c))) else None
  | EvArrive n r =>
      nd ← cl_nodes c !! n;
      match nd_exit nd, nd_http nd with
      | None, HServe =>
          Some (Cluster (cl_nodes c) (cl_tasks c ++ [Task n r (Running (http_handler (nd_id nd) r)) true])
                 (cl_methods c) (cl_next c) (posted_by r ++ cl_posted c) (cl_answers c))
      | _, _ => None
      end
  | EvCall j delivered =>
      t ← cl_tasks c !! j;
      _ ← runs_on c t;
      match t_state t with
      | Running (Call i q k) =>
          Some match cluster_call (cl_nodes c) (t_node t) i with
               | Some target =>
                   Cluster (cl_nodes c) (<[j := Task (t_node t) (t_req t) (Waiting (cl_next c) q k) true]> (cl_tasks c))
                     (cl_methods c ++ match target with
                                      | Some m => if (delivered : bool) then [MethodRun (cl_next c) m q (method_of q) false] else []
                                      | None => []
                                      end)
                     (S (cl_next c)) (cl_posted c) (cl_answers c)
               | None => cl_set_tasks c (<[j := Task (t_node t) (t_req t) (t_state t) false]> (cl_tasks c))
               end
      | _ => None
      end
  | EvBegin x =>
      match cl_methods c !! x with
      | Some (MethodRun id n q (MAccess a k) false) =>
          nd ← cl_nodes c !! n;
          if bool_decide (nd_exit nd = None)
          then Some (cl_set_methods c (<[x := MethodRun id n q (MAccess a k) true]> (cl_methods c))) else None
      | _ => None
      end
  | EvEnd x =>
      match cl_methods c !! x with
      | Some (MethodRun id n q (MAccess a k) true) =>
          nd ← cl_nodes c !! n;
          if bool_decide (nd_exit nd = None) then
            Some match map_access (nd_cache nd) a with
                 | Some (m, v) =>
                     cl_set_methods (set_nodes c (<[n := with_cache nd m]> (cl_nodes c)))
                       (<[x := MethodRun id n q (k v) false]> (cl_methods c))
                 | None => set_nodes c (<[n := exits nd 2]> (cl_nodes c))
                 end
          else None
      | _ => None
      end
  | EvReceive x j =>
      t ← cl_tasks c !! j;
      _ ← runs_on c t;
      match cl_methods c !! x, t_state t with
      | Some (MethodRun id n q (MReply rep) _), Waiting id' q' k =>
          if decide (id = id')
          then Some (cl_set_methods (set_task c j t (Running (k (Some rep)))) (delete x (cl_methods c)))
          else None
      | _, _ => None
      end
  | EvLose x =>
      match cl_methods c !! x with
      | Some (MethodRun id n q (MReply rep) _) => Some (cl_set_methods c (delete x (cl_methods c)))
      | _ => None
      end
  | EvGiveUp j =>
      t ← cl_tasks c !! j;
      _ ← runs_on c t;
      match t_state t with
      | Waiting id q k => Some (set_task c j t (Running (k None)))
      | _ => None
      end
  | EvAnswer j =>
      t ← cl_tasks c !! j;
      _ ← runs_on c t;
      match t_state t with
      | Running (Ret a) =>
          Some (Cluster (cl_nodes c) (delete j (cl_tasks c)) (cl_methods c) (cl_next c) (cl_posted c)
                 ((t_req t, a) :: cl_answers c))
      | _ => None
      end
  end.

Definition cluster_step (c c' : cluster) : Prop := exists e, cluster_next e c = Some c'.

Definition cluster_run (es : list cluster_event) (c : cluster) : option cluster :=
  foldl (fun r e => c ← r; cluster_next e c) (Some c) es.

(** The three processes, started with the numbers 0, 1 and 2. *)
Definition cluster_boot : option cluster :=
  match main ["sdcs"; "0"], main ["sdcs"; "1"], main ["sdcs"; "2"] with
  | inr a, inr b, inr c => Some (Cluster [a; b; c] [] [] 0 [] [])
  | _, _, _ => None
  end.

(** ** The invariant *)

(** The clients that [main] has made. *)
Definition dialled (m : main_at) : nat := match m with MDial i => i | MSelect => node_count end.

(** [local_cache] is nil until [http_server_start] makes it, and only until then; the
    clients made so far are connected to their nodes. *)
Record node_inv (n : nat) (nd : node) : Prop := {
  ni_id : nd_id nd = Z.of_nat n;
  ni_listen : grpc_address !! n = Some (nd_listen nd);
  ni_cache : nd_cache nd = None <-> nd_http nd = HHandle \/ nd_http nd = HMake;
  ni_clients : length (nd_client nd) = node_count;
  ni_dialled : (dialled (nd_main nd) <= node_count)%nat;
  ni_client : forall i a, nd_client nd !! i = Some (Some a) -> grpc_address !! i = Some a;
  ni_made : forall i, (i < dialled (nd_main nd))%nat -> nd_client nd !! i = Some (grpc_address !! i) }.

Definition nodes_inv (ns : list node) : Prop :=
  length ns = node_count /\ forall n nd, ns !! n = Some nd -> node_inv n nd.

Lemma nodes_inv_insert ns n nd : nodes_inv ns -> node_inv n nd -> nodes_inv (<[n := nd]> ns).
Proof.
  intros [L H] I. split; [by rewrite length_insert|]. intros m x E.
  apply list_lookup_insert_Some in E as [(-> & -> & _)|[_ E]]; [done|by apply H].
Qed.

Lemma go_inv g ok n nd : node_inv n nd -> node_inv n (go_step g ok nd).
Proof.
  intros I. destruct g; cbn.
  - unfold http_server_start. destruct I as [I1 I0 I2 I3 I4 I5 I6], (nd_http nd) eqn:Eh, ok; split; cbn; try done; rewrite ?Eh; clear -I2; intuition congruence.
  - unfold SdcsGrpcServerStart. destruct I as [I1 I0 I2 I3 I4 I5 I6], (nd_grpc nd) eqn:Eh, ok; split; cbn; done.
  - unfold main_loop. destruct (nd_main nd) as [i|] eqn:Em; [|done]. destruct (Nat.ltb_spec i node_count) as [Hi|Hi].
    + destruct (lookup_lt_is_Some_2 grpc_address i Hi) as [a Ea]. rewrite Ea.
      destruct ok; [|done]. cbn. destruct I as [I1 I0 I2 I3 I4 I5 I6]. rewrite Em in *. split; cbn; try done.
      * by rewrite length_insert.
      * intros j b E. apply list_lookup_insert_Some in E as [(-> & [= ->] & _)|[_ E]]; [done|by apply I5].
      * intros j Hj. destruct (decide (j = i)) as [->|Nj]; [rewrite list_lookup_insert_eq by lia; by rewrite Ea|].
        rewrite list_lookup_insert_ne by done. apply I6. cbn in *. lia.
    + destruct I as [I1 I0 I2 I3 I4 I5 I6]. rewrite Em in *. cbn in I4. assert (i = node_count) as -> by lia. by split.
Qed.

Lemma boot_inv c : cluster_boot = Some c -> nodes_inv (cl_nodes c) /\ cl_tasks c = [].
Proof.
  intros E. vm_compute in E. injection E as <-. split; [|done]. split; [done|]. cbn [cl_nodes].
  intros n nd En. destruct n as [|[|[|n]]]; cbn in En; [injection En as <-..|done];
    (split; cbn; [done|done|intuition congruence|done|lia| |intros i Hi; lia]);
    intros i a Ei; destruct i as [|[|[|i]]]; done.
Qed.

(** ** Refinement of the system that is ready from the beginning *)

(** A nil map reads like an empty one. *)
Definition made (c : cache) : cache := Some (default ∅ c).
Definition node_cache (nd : node) : cache := made (nd_cache nd).

Record simulates (c : cluster) (s : sys) : Prop := {
  sim_inv : nodes_inv (cl_nodes c);
  sim_at : Forall (fun t => (t_node t < node_count)%nat) (cl_tasks c);
  sim_nodes : s_nodes s = node_cache <$> cl_nodes c;
  sim_tasks : s_tasks s = (fun t => (t_req t, t_state t)) <$> cl_tasks c;
  sim_methods : s_methods s = cl_methods c;
  sim_next : s_next s = cl_next c;
  sim_posted : s_posted s = cl_posted c;
  sim_answers : s_answers s = cl_answers c }.

Lemma access_made c a c' v :
  map_access c a = Some (c', v) -> map_access (made c) a = Some (made c', v) /\ (c' = None <-> c = None).
Proof.
  unfold made. destruct a, c as [m|]; cbn; intros E; simplify_eq; cbn; (split; [done|naive_solver]).
Qed.

(** A call goes to the node whose number is the index. *)
Lemma listener_node ns i a m :
  nodes_inv ns -> grpc_address !! i = Some a -> listener ns a = Some m -> m = i /\ is_Some (ns !! i).
Proof.
  intros I Ha E. apply fmap_Some in E as ([x nd] & [Ex [Hx _]]%list_find_Some & ->). cbn.
  apply Is_true_true, andb_true_iff in Hx as [_ Hx%bool_decide_eq_true]. subst a.
  pose proof (ni_listen _ _ (proj2 I _ _ Ex)) as Hn.
  assert (x = i) as ->; [|by rewrite Ex].
  eapply NoDup_lookup; [|exact Hn|exact Ha]. by apply (bool_decide_unpack (NoDup grpc_address)).
Qed.

Lemma cluster_call_target ns n i target :
  nodes_inv ns -> cluster_call ns n i = Some target ->
  0 <= i < Z.of_nat node_count /\ (target = None \/ target = Some (Z.to_nat i)).
Proof.
  intros I E. unfold cluster_call in E. apply bind_Some in E as (nd & En & E). destruct (Z.ltb_spec i 0) as [|Hi]; [done|].
  apply bind_Some in E as (cl & Ecl & E). apply bind_Some in E as (a & -> & E). injection E as <-.
  pose proof (proj2 I _ _ En) as In. pose proof (lookup_lt_Some _ _ _ Ecl) as Hl. rewrite (ni_clients _ _ In) in Hl.
  split; [lia|]. destruct (listener ns a) as [m|] eqn:El; [right|by left].
  by destruct (listener_node ns (Z.to_nat i) a m I (ni_client _ _ In _ _ Ecl) El) as [-> _].
Qed.

Lemma go_cache g ok n nd : node_inv n nd -> node_cache (go_step g ok nd) = node_cache nd.
Proof.
  intros I. unfold node_cache. destruct g; cbn.
  - unfold http_server_start. destruct (nd_http nd) eqn:Eh; try (by destruct ok). cbn.
    by rewrite (proj2 (ni_cache _ _ I) (or_intror Eh)).
  - unfold SdcsGrpcServerStart. by repeat case_match.
  - unfold main_loop. by repeat case_match.
Qed.

Lemma simulates_tasks c s j t :
  simulates c s -> cl_tasks c !! j = Some t -> s_tasks s !! j = Some (t_req t, t_state t).
Proof. intros S E. by rewrite (sim_tasks _ _ S), list_lookup_fmap, E. Qed.

(** A node that changes and looks the same from outside. *)
Lemma simulates_node c s n nd nd' :
  simulates c s -> cl_nodes c !! n = Some nd -> node_inv n nd' -> node_cache nd' = node_cache nd ->
  simulates (set_nodes c (<[n := nd']> (cl_nodes c))) s.
Proof.
  intros [S1 S2 S3 S4 S5 S6 S7 S8] En I Ec. split; cbn; try done; [by apply nodes_inv_insert|].
  rewrite S3, list_fmap_insert, Ec. symmetry. apply list_insert_id. by rewrite list_lookup_fmap, En.
Qed.

(** A task that changes. *)
Lemma simulates_task c s j t st b :
  simulates c s -> cl_tasks c !! j = Some t ->
  simulates (cl_set_tasks c (<[j := Task (t_node t) (t_req t) st b]> (cl_tasks c)))
            (set_tasks s (<[j := (t_req t, st)]> (s_tasks s))).
Proof.
  intros [S1 S2 S3 S4 S5 S6 S7 S8] Ej. split; cbn; try done.
  - apply Forall_insert; [done|]. exact (Forall_lookup_1 _ _ _ _ S2 Ej).
  - by rewrite S4, list_fmap_insert.
Qed.

Lemma simulates_method c s l : simulates c s -> simulates (cl_set_methods c l) (set_methods s l).
Proof. by intros []. Qed.

Lemma sim_arrive c s n r nd :
  simulates c s -> races (cl_methods c) = false -> cl_nodes c !! n = Some nd ->
  exists s', sdcs_step s s' /\
    simulates (Cluster (cl_nodes c) (cl_tasks c ++ [Task n r (Running (http_handler (nd_id nd) r)) true])
                 (cl_methods c) (cl_next c) (posted_by r ++ cl_posted c) (cl_answers c)) s'.
Proof.
  intros S Hr En. pose proof (ni_id _ _ (proj2 (sim_inv _ _ S) _ _ En)) as Ei. pose proof (proj1 (sim_inv _ _ S)) as Ln.
  apply lookup_lt_Some in En. eexists. split.
  - exists (Arrive (nd_id nd) r). unfold sdcs_next. rewrite (sim_methods _ _ S), Hr, Ei. zdec. cbn [andb]. reflexivity.
  - destruct S as [S1 S2 S3 S4 S5 S6 S7 S8]. split; cbn; try done.
    + apply Forall_app. split; [done|]. constructor; [|done]. cbn. lia.
    + by rewrite S4, fmap_app, Ei.
    + by rewrite S7.
Qed.

Lemma sim_call c s j t i q k target (d : bool) :
  simulates c s -> races (cl_methods c) = false -> cl_tasks c !! j = Some t -> t_state t = Running (Call i q k) ->
  cluster_call (cl_nodes c) (t_node t) i = Some target ->
  exists s', sdcs_step s s' /\
    simulates (Cluster (cl_nodes c) (<[j := Task (t_node t) (t_req t) (Waiting (cl_next c) q k) true]> (cl_tasks c))
                 (cl_methods c ++ match target with
                                  | Some m => if d then [MethodRun (cl_next c) m q (method_of q) false] else []
                                  | None => []
                                  end)
                 (S (cl_next c)) (cl_posted c) (cl_answers c)) s'.
Proof.
  intros S Hr Ej Et Ec. destruct (cluster_call_target _ _ _ _ (sim_inv _ _ S) Ec) as [Hi Ht].
  pose proof (simulates_tasks _ _ _ _ S Ej) as Es. rewrite Et in Es. eexists. split.
  - exists (Send j (match target with Some _ => d | None => false end)). unfold sdcs_next.
    rewrite (sim_methods _ _ S), Hr, Es, (sim_nodes _ _ S), list_lookup_fmap. zdec.
    destruct (lookup_lt_is_Some_2 (cl_nodes c) (Z.to_nat i)) as [nd ->]; [rewrite (proj1 (sim_inv _ _ S)); lia|].
    cbn [fmap option_fmap option_map mbind option_bind]. reflexivity.
  - pose proof (simulates_task c s j t (Waiting (cl_next c) q k) true S Ej) as [S1 S2 S3 S4 S5 S6 S7 S8].
    split; cbn in *; try done.
    + by rewrite <- S4, S6.
    + rewrite S6. by destruct Ht as [-> | ->].
    + by rewrite S6.
Qed.

Lemma sim_end c s x id n q a k nd :
  simulates c s -> races (cl_methods c) = false -> cl_methods c !! x = Some (MethodRun id n q (MAccess a k) true) ->
  cl_nodes c !! n = Some nd ->
  exists s', rtc sdcs_step s s' /\
    simulates match map_access (nd_cache nd) a with
              | Some (m, v) =>
                  cl_set_methods (set_nodes c (<[n := with_cache nd m]> (cl_nodes c)))
                    (<[x := MethodRun id n q (k v) false]> (cl_methods c))
              | None => set_nodes c (<[n := exits nd 2]> (cl_nodes c))
              end s'.
Proof.
  intros S Hr Ex En. pose proof (proj2 (sim_inv _ _ S) _ _ En) as I.
  destruct (map_access (nd_cache nd) a) as [[m v]|] eqn:Ea.
  - destruct (access_made _ _ _ _ Ea) as [Em Hm]. eexists. split.
    + apply rtc_once. exists (End x). unfold sdcs_next. rewrite (sim_methods _ _ S), Hr, Ex, (sim_nodes _ _ S), list_lookup_fmap, En.
      cbn [fmap option_fmap option_map mbind option_bind]. change (node_cache nd) with (made (nd_cache nd)). rewrite Em.
      cbn [mbind option_bind]. reflexivity.
    + destruct S as [S1 S2 S3 S4 S5 S6 S7 S8]. split; cbn; try done.
      * apply nodes_inv_insert; [done|]. destruct I as [I1 I0 I2 I3 I4 I5 I6]. split; cbn; try done. by rewrite <- I2.
      * by rewrite list_fmap_insert.
  - exists s. split; [done|]. apply (simulates_node c s n nd); [done|done|by destruct I; split|done].
Qed.

(** Every step of the cluster is a step of the system or changes nothing there. *)
Lemma cluster_step_sim c s c' :
  simulates c s -> cluster_step c c' -> exists s', rtc sdcs_step s s' /\ simulates c' s'.
Proof.
  intros S [e E]. unfold cluster_next in E. destruct (races (cl_methods c)) eqn:Hr; [done|].
  destruct e as [n g ok|n r|j d|x|x|x j|x|j|j].
  - apply bind_Some in E as (nd & En & E). destruct (bool_decide _); [|done]. injection E as <-. exists s. split; [done|].
    pose proof (proj2 (sim_inv _ _ S) _ _ En) as I. apply (simulates_node c s n nd); [done|done|by apply go_inv|by apply (go_cache _ _ n)].
  - apply bind_Some in E as (nd & En & E). destruct (nd_exit nd); [done|]. destruct (nd_http nd); try done. injection E as <-.
    destruct (sim_arrive c s n r nd S Hr En) as (s' & R & S'). exists s'. split; [by apply rtc_once|done].
  - apply bind_Some in E as (t & Ej & E). apply bind_Some in E as (nd & _ & E).
    destruct (t_state t) as [[|i q k]|] eqn:Et; [done| |done]. injection E as <-.
    destruct (cluster_call (cl_nodes c) (t_node t) i) as [target|] eqn:Ec.
    + destruct (sim_call c s j t i q k target d S Hr Ej Et Ec) as (s' & R & S'). exists s'. split; [by apply rtc_once|done].
    + exists s. split; [done|]. pose proof (simulates_task c s j t (Running (Call i q k)) false S Ej) as S'.
      rewrite (list_insert_id (s_tasks s)) in S' by (rewrite (simulates_tasks _ _ _ _ S Ej); by rewrite Et). by destruct s.
  - destruct (cl_methods c !! x) as [[id n q [|a k] []]|] eqn:Ex; try done. apply bind_Some in E as (nd & En & E).
    destruct (bool_decide _); [|done]. injection E as <-. eexists. split; [|by apply simulates_method].
    apply rtc_once. exists (Begin x). unfold sdcs_next. by rewrite (sim_methods _ _ S), Hr, Ex.
  - destruct (cl_methods c !! x) as [[id n q [|a k] []]|] eqn:Ex; try done. apply bind_Some in E as (nd & En & E).
    destruct (bool_decide _); [|done]. injection E as <-. by eapply sim_end.
  - apply bind_Some in E as (t & Ej & E). apply bind_Some in E as (nd & _ & E).
    destruct (cl_methods c !! x) as [[id n q [rep|] b]|] eqn:Ex; try done.
    destruct (t_state t) as [|id' q' k] eqn:Et; [done|]. case_decide as Hid; [|done]. injection E as <-.
    eexists. split; [|by apply simulates_method, simulates_task].
    apply rtc_once. exists (Receive x j). unfold sdcs_next.
    rewrite (sim_methods _ _ S), Hr, Ex, (simulates_tasks _ _ _ _ S Ej), Et. by rewrite decide_True.
  - destruct (cl_methods c !! x) as [[id n q [rep|] b]|] eqn:Ex; try done. injection E as <-.
    eexists. split; [|by apply simulates_method]. apply rtc_once. exists (Lose x). unfold sdcs_next. by rewrite (sim_methods _ _ S), Hr, Ex.
  - apply bind_Some in E as (t & Ej & E). apply bind_Some in E as (nd & _ & E).
    destruct (t_state t) as [|id q k] eqn:Et; [done|]. injection E as <-. eexists. split; [|by apply simulates_task].
    apply rtc_once. exists (GiveUp j). unfold sdcs_next. by rewrite (sim_methods _ _ S), Hr, (simulates_tasks _ _ _ _ S Ej), Et.
  - apply bind_Some in E as (t & Ej & E). apply bind_Some in E as (nd & _ & E).
    destruct (t_state t) as [[a|]|] eqn:Et; try done. injection E as <-. eexists. split.
    + apply rtc_once. exists (Answer j). unfold sdcs_next. by rewrite (sim_methods _ _ S), Hr, (simulates_tasks _ _ _ _ S Ej), Et.
    + destruct S as [S1 S2 S3 S4 S5 S6 S7 S8]. split; cbn; try done; [by apply Forall_delete|by rewrite S4, list_fmap_delete|by rewrite S8].
Qed.

Lemma cluster_sim c0 c :
  cluster_boot = Some c0 -> rtc cluster_step c0 c -> exists s, rtc sdcs_step sdcs_start s /\ simulates c s.
Proof.
  intros E0 H. assert (exists s, rtc sdcs_step sdcs_start s /\ simulates c0 s) as G.
  { exists sdcs_start. split; [done|]. destruct (boot_inv _ E0) as [I _]. vm_compute in E0. injection E0 as <-. by split. }
  refine (rtc_invariant _ (fun c => exists s, rtc sdcs_step sdcs_start s /\ simulates c s) _ _ _ H G).
  intros x y (s & R & S) St. destruct (cluster_step_sim _ _ _ S St) as (s' & R' & S'). exists s'. split; [by etrans|done].
Qed.

(** ** Ready nodes *)

Definition node_ready (nd : node) : Prop :=
  nd_exit nd = None /\ nd_http nd = HServe /\ nd_grpc nd = GServe /\ nd_main nd = MSelect.

Definition can_start (nd : node) : Prop := nd_exit nd = None /\ nd_grpc nd <> GStopped.

(** The steps that are left of the start of a node. *)
Definition node_left (nd : node) : nat :=
  match nd_http nd with HHandle => 3 | HMake => 2 | HListen => 1 | HServe => 0 end +
  match nd_grpc nd with GListen => 1 | _ => 0 end +
  match nd_main nd with MDial i => 4 - i | MSelect => 0 end.
Definition remaining (c : cluster) : nat := sum_list_with node_left (cl_nodes c).

Lemma node_left_ready n nd : node_inv n nd -> can_start nd -> node_left nd = 0%nat <-> node_ready nd.
Proof.
  intros I [Ha Hg]. pose proof (ni_dialled _ _ I) as Hd. unfold node_left, node_ready, dialled, node_count in *. split.
  - intros E. destruct (nd_http nd), (nd_grpc nd), (nd_main nd); cbn in *; try lia; by split_and!.
  - by intros (_ & -> & -> & ->).
Qed.

(** A step of a goroutine that succeeds gets on with the start or changes nothing. *)
Lemma go_left g n nd :
  node_inv n nd -> can_start nd ->
  can_start (go_step g true nd) /\ (go_step g true nd = nd \/ S (node_left (go_step g true nd)) = node_left nd).
Proof.
  intros I [Ha Hg]. unfold can_start, node_left. destruct g; cbn.
  - unfold http_server_start. destruct (nd_http nd); cbn; (split; [done|]); auto.
  - unfold SdcsGrpcServerStart. destruct (nd_grpc nd) eqn:E; cbn; rewrite ?E; (split; [done|]); auto. right. lia.
  - pose proof (ni_dialled _ _ I) as Hd. unfold main_loop. destruct (nd_main nd) as [i|] eqn:Em; [|auto].
    cbn in Hd. destruct (Nat.ltb_spec i node_count) as [Hi|Hi].
    + destruct (lookup_lt_is_Some_2 grpc_address i Hi) as [a ->]. cbn. split; [done|]. right. unfold node_count in *. lia.
    + cbn. split; [done|]. right. unfold node_count in *. lia.
Qed.

(** While something is left, one of the goroutines can get on with it. *)
Lemma go_progress n nd :
  node_inv n nd -> node_left nd <> 0%nat -> exists g, go_step g true nd <> nd.
Proof.
  intros I Hl. unfold node_left in Hl. destruct nd as [id ad li ca cl h g m x]. cbn in *.
  destruct h; [exists GoHttp; cbn; unfold http_server_start, with_http; cbn; congruence..|].
  destruct g; [exists GoGrpc; cbn; unfold SdcsGrpcServerStart, with_grpc; cbn; congruence|..];
    (destruct m as [i|]; [|done]; exists GoMain; unfold go_step, main_loop; cbn [nd_main];
     destruct (Nat.ltb_spec i node_count) as [Hi|]; [|by intros [=]];
     destruct (lookup_lt_is_Some_2 grpc_address i Hi) as [a ->]; cbn; intros [= _ E]; by apply (Nat.neq_succ_diag_l i)).
Qed.

Lemma sum_list_insert {A} (f : A -> nat) l : forall n x y,
  l !! n = Some x -> (sum_list_with f (<[n := y]> l) + f x = sum_list_with f l + f y)%nat.
Proof.
  induction l as [|z l IH]; intros [|n] x y E; cbn in *; simplify_eq; [lia|]. rewrite <- !Nat.add_assoc. f_equal. exact (IH n x y E).
Qed.

Lemma remaining_node c n nd nd' :
  cl_nodes c !! n = Some nd ->
  (remaining (set_nodes c (<[n := nd']> (cl_nodes c))) + node_left nd = remaining c + node_left nd')%nat.
Proof. intros E. by apply sum_list_insert. Qed.

Lemma set_nodes_id c : set_nodes c (cl_nodes c) = c.
Proof. by destruct c. Qed.

(** A successful step of a goroutine of a cluster of which no part has failed. *)
Lemma start_step c n g c' :
  nodes_inv (cl_nodes c) -> Forall can_start (cl_nodes c) -> cluster_next (EvGo n g true) c = Some c' ->
  Forall can_start (cl_nodes c') /\ (c' = c \/ S (remaining c') = remaining c).
Proof.
  intros [_ I] F E. unfold cluster_next in E. destruct (races _); [done|]. apply bind_Some in E as (nd & En & E).
  pose proof (Forall_lookup_1 _ _ _ _ F En) as Fn. destruct (go_left g n nd (I _ _ En) Fn) as [F' Hg].
  case_bool_decide; [|done]. injection E as <-. split; [by apply Forall_insert|].
  destruct Hg as [-> | Hg]; [left; by rewrite list_insert_id, set_nodes_id|right].
  pose proof (remaining_node c n nd (go_step g true nd) En). lia.
Qed.

Lemma remaining_zero c :
  nodes_inv (cl_nodes c) -> Forall can_start (cl_nodes c) -> remaining c = 0%nat <-> Forall node_ready (cl_nodes c).
Proof.
  intros [_ I] F. rewrite Forall_lookup in F |- *. unfold remaining.
  assert (Z : forall l, sum_list_with node_left l = 0%nat <-> forall n nd, l !! n = Some nd -> node_left nd = 0%nat).
  { induction l as [|x l IH]; cbn; [split; [by intros _ []|done]|]. split.
    - intros H [|n] nd E; cbn in E; [injection E as <-; lia|]. apply (proj1 IH ltac:(lia) n nd E).
    - intros H. rewrite (H 0%nat x eq_refl), (proj2 IH); [done|]. intros n nd E. by apply (H (S n)). }
  rewrite Z. split; intros H n nd E; apply (node_left_ready n nd (I _ _ E) (F _ _ E)), (H _ _ E).
Qed.

(** A cluster that is not ready can get on with its start. *)
Lemma start_progress c :
  nodes_inv (cl_nodes c) -> Forall can_start (cl_nodes c) -> races (cl_methods c) = false -> remaining c <> 0%nat ->
  exists n g c', cluster_next (EvGo n g true) c = Some c' /\ c' <> c.
Proof.
  intros I F Hr Hz. assert (exists n nd, cl_nodes c !! n = Some nd /\ node_left nd <> 0%nat) as (n & nd & En & Hn).
  { unfold remaining in Hz. clear I F. induction (cl_nodes c) as [|x l IH]; [done|]. cbn in Hz.
    destruct (decide (node_left x = 0%nat)) as [E|E]; [|by exists 0%nat, x].
    destruct IH as (n & nd & H); [lia|]. by exists (S n), nd. }
  destruct (go_progress n nd (proj2 I _ _ En) Hn) as [g Hg]. exists n, g. eexists. split.
  - unfold cluster_next. rewrite Hr, En. cbn [mbind option_bind]. rewrite bool_decide_true by (apply (Forall_lookup_1 _ _ _ _ F En)). done.
  - intros E. apply Hg. assert (E' : <[n := go_step g true nd]> (cl_nodes c) !! n = Some nd) by (rewrite <- En; by rewrite <- E at 2).
    rewrite list_lookup_insert_eq in E' by (by eapply lookup_lt_Some). by injection E'.
Qed.

(** What a step does to one node. *)
Inductive node_change (ready_only : bool) : node -> node -> Prop :=
  | change_go g ok nd : (ready_only = true -> ok = true) -> node_change ready_only nd (go_step g ok nd)
  | change_cache nd c a v : map_access (nd_cache nd) a = Some (c, v) -> node_change ready_only nd (with_cache nd c)
  | change_panic nd a : map_access (nd_cache nd) a = None -> node_change ready_only nd (exits nd 2).

Lemma step_nodes (b : bool) e c c' :
  cluster_next e c = Some c' -> (b = true -> forall n g, e <> EvGo n g false) ->
  cl_nodes c' = cl_nodes c \/
  exists n nd nd', cl_nodes c !! n = Some nd /\ cl_nodes c' = <[n := nd']> (cl_nodes c) /\ node_change b nd nd'.
Proof.
  intros E Hb. unfold cluster_next in E. destruct (races _); [done|].
  destruct e as [n g ok|n r|j d|x|x|x j|x|j|j]; repeat case_match; simplify_option_eq; try (by left);
    try (repeat case_match; simplify_eq; by left).
  - case_bool_decide; [|done]. simplify_eq. right. do 3 eexists. split; [done|]. split; [done|]. constructor.
    intros Eb. destruct ok; [done|]. by destruct (Hb Eb n g).
  - case_bool_decide; [|done]. right. repeat case_match; simplify_eq; (do 3 eexists; split; [done|]; split; [done|]); [by eapply change_cache|by eapply change_panic].
Qed.

Lemma change_left nd nd' : node_change false nd nd' -> (node_left nd' <= node_left nd)%nat.
Proof.
  unfold node_left. intros [g ok nd0 _|nd0 c a v _|nd0 a _]; cbn; [|lia..].
  destruct g; cbn.
  - unfold http_server_start. destruct (nd_http nd0) eqn:E, ok; cbn; rewrite ?E; lia.
  - unfold SdcsGrpcServerStart. destruct (nd_grpc nd0) eqn:E, ok; cbn; rewrite ?E; lia.
  - unfold main_loop, SdcsGrpcClientInit. destruct (nd_main nd0) as [i|] eqn:E; [|by rewrite E].
    destruct (i <? node_count)%nat; [destruct (grpc_address !! i), ok|]; cbn; rewrite ?E; lia.
Qed.

Lemma ready_cache n nd : node_inv n nd -> node_ready nd -> exists m, nd_cache nd = Some m.
Proof.
  intros I (_ & Hh & _). destruct (nd_cache nd) as [m|] eqn:E; [by exists m|].
  destruct (proj1 (ni_cache _ _ I) E); congruence.
Qed.

Lemma change_ready n nd nd' : node_inv n nd -> node_ready nd -> node_change true nd nd' -> node_ready nd'.
Proof.
  intros I R H. revert I R. destruct H as [g ok nd0 Hok|nd0 c a v _|nd0 a Ha]; intros I R; [|exact R|].
  - rewrite (Hok eq_refl). pose proof R as (H1 & H2 & H3 & H4).
    destruct g; cbn; unfold http_server_start, SdcsGrpcServerStart, main_loop; by rewrite ?H2, ?H3, ?H4.
  - destruct (ready_cache _ _ I R) as [m Em]. rewrite Em in Ha. by destruct a.
Qed.

(** Between ready nodes a call goes where its index says. *)
Lemma ready_call ns n i :
  nodes_inv ns -> Forall node_ready ns -> (n < node_count)%nat -> 0 <= i < Z.of_nat node_count ->
  cluster_call ns n i = Some (Some (Z.to_nat i)).
Proof.
  intros I R Hn Hi. pose proof I as [L I']. destruct (lookup_lt_is_Some_2 ns n) as [nd En]; [lia|].
  destruct (lookup_lt_is_Some_2 ns (Z.to_nat i)) as [tg Et]; [lia|].
  pose proof (Forall_lookup_1 _ _ _ _ R En) as (_ & _ & _ & Rm). pose proof (Forall_lookup_1 _ _ _ _ R Et) as Rt.
  pose proof (ni_made _ _ (I' _ _ En) (Z.to_nat i)) as Ec. rewrite Rm in Ec.
  unfold cluster_call. rewrite En. cbn [mbind option_bind]. zdec. rewrite Ec by (cbn; lia). cbn [mbind option_bind].
  pose proof (ni_listen _ _ (I' _ _ Et)) as Hl. rewrite Hl. cbn. f_equal.
  destruct (listener ns (nd_listen tg)) as [m|] eqn:El.
  - by destruct (listener_node ns _ _ m I Hl El) as [-> _].
  - exfalso. unfold listener in El. apply fmap_None, list_find_None in El.
    apply (Forall_lookup_1 _ _ _ _ El Et). unfold serving. destruct Rt as (-> & _ & -> & _). cbn. by apply bool_decide_pack.
Qed.

(** ** The theorems *)

(** C21: Whatever the order in which the three processes start, whatever fails, and
    whichever requests arrive before all are ready: what clients are told, and what
    the caches hold, is what the system of Sdcs that is ready from the beginning can
    also tell and hold (a map that is not made yet counts as empty). *)
Theorem sdcs_boot_refinement :
  exists c0, cluster_boot = Some c0 /\
    forall c, rtc cluster_step c0 c ->
      exists s, rtc sdcs_step sdcs_start s /\ s_answers s = cl_answers c /\ s_posted s = cl_posted c /\
        s_nodes s = (fun nd => Some (default ∅ (nd_cache nd))) <$> cl_nodes c.
Proof.
  destruct cluster_boot as [c0|] eqn:E0; [|done]. exists c0. split; [done|]. intros c H.
  destruct (cluster_sim c0 c E0 H) as (s & R & S). exists s. by destruct S.
Qed.

(** C22: The cluster gets ready, and then nothing but a race for a map or a listener that
    fails takes it down.  The start of the three processes is 24 steps.  In every state
    that can be reached and in which no process has ended and no gRPC server has
    stopped: the nodes are ready when none of these steps is left; a step of a goroutine
    that succeeds either waits or is one of them, and breaks nothing; while some are
    left and no race has happened, one can be taken; and no step of any kind adds to
    them.  Between ready nodes every call of a handler goes to the node that its index
    names, no handler panics, and the nodes stay ready as long as the listeners work, up
    to a race. *)
Theorem sdcs_cluster_ready :
  exists c0, cluster_boot = Some c0 /\ remaining c0 = 24%nat /\
    forall c, rtc cluster_step c0 c ->
      (forall n nd, cl_nodes c !! n = Some nd -> nd_exit nd = None /\ nd_grpc nd <> GStopped) ->
      (remaining c = 0%nat <-> Forall node_ready (cl_nodes c)) /\
      (forall n g c', cluster_next (EvGo n g true) c = Some c' ->
        (forall m nd, cl_nodes c' !! m = Some nd -> nd_exit nd = None /\ nd_grpc nd <> GStopped) /\
        (c' = c \/ S (remaining c') = remaining c)) /\
      (remaining c <> 0%nat -> races (cl_methods c) = false ->
        exists n g c', cluster_next (EvGo n g true) c = Some c' /\ c' <> c) /\
      (forall e c', cluster_next e c = Some c' -> (remaining c' <= remaining c)%nat) /\
      (Forall node_ready (cl_nodes c) ->
        (forall j t i q k, cl_tasks c !! j = Some t -> t_state t = Running (Call i q k) ->
          cluster_call (cl_nodes c) (t_node t) i = Some (Some (Z.to_nat i))) /\
        forall e c', cluster_next e c = Some c' -> (forall n g, e <> EvGo n g false) -> Forall node_ready (cl_nodes c')).
Proof.
  destruct cluster_boot as [c0|] eqn:E0; [|done]. exists c0. split; [done|].
  split; [vm_compute in E0; by injection E0 as <-|]. intros c H F%Forall_lookup.
  destruct (cluster_sim c0 c E0 H) as (s & Rs & S). pose proof (sim_inv _ _ S) as I.
  split; [by apply remaining_zero|]. split; [|split; [|split; [|intros R; split]]].
  - intros n g c' E. rewrite <- Forall_lookup. by apply (start_step c n g).
  - intros Hz Hr. by apply start_progress.
  - intros e c' E. destruct (step_nodes false e c c' E) as [En|(n & nd & nd' & En & Ec & Hc)]; [done|unfold remaining; by rewrite En|].
    pose proof (remaining_node c n nd nd' En) as Hs. apply change_left in Hc. unfold remaining in *. rewrite Ec. cbn in Hs. lia.
  - intros j t i q k Ej Et. pose proof (simulates_tasks _ _ _ _ S Ej) as Es. rewrite Et in Es.
    destruct (sys_ok_call s j _ i q k (sys_ok_reachable s Rs) Es) as [Hi _].
    apply ready_call; [done|done| |done]. exact (Forall_lookup_1 _ _ _ _ (sim_at _ _ S) Ej).
  - intros e c' E Ne. destruct (step_nodes true e c c' E) as [En|(n & nd & nd' & En & Ec & Hc)]; [done|by rewrite En|].
    rewrite Ec. apply Forall_insert; [done|]. by apply (change_ready n nd nd'); [apply I|apply (Forall_lookup_1 _ _ _ _ R En)|].
Qed.

(** The end of an access ends its process only where that has not made its map yet, and
    only by a write. *)
Lemma sdcs_crash_window n nd a :
  node_inv n nd -> map_access (nd_cache nd) a = None ->
  (nd_http nd = HHandle \/ nd_http nd = HMake) /\ exists key v, a = MapSet key v.
Proof.
  intros I E. assert (Hc : nd_cache nd = None /\ exists key v, a = MapSet key v).
  { destruct a, (nd_cache nd); cbn in E; naive_solver. }
  split; [|apply Hc]. apply (ni_cache _ _ I), Hc.
Qed.

(** ** What can go wrong at the start *)

Definition start_up : list goroutine := [GoHttp; GoHttp; GoHttp; GoGrpc; GoMain; GoMain; GoMain; GoMain].
Definition boots (n : nat) : list cluster_event := (fun g => EvGo n g true) <$> start_up.

(** Node 1 serves gRPC before it has made its map: a POST at node 0 ends it, and the
    client is told 404 although node 0 has stored the value. *)
Lemma sdcs_post_crashes_node :
  (fun c => (nd_exit <$> cl_nodes c, cl_answers c)) <$>
    (cluster_boot ≫= cluster_run (boots 0 ++ [EvGo 1 GoGrpc true; EvArrive 0 (post_req "k" "v");
       EvCall 0 true; EvBegin 0; EvEnd 0; EvReceive 0 0;
       EvCall 0 true; EvBegin 0; EvEnd 0; EvGiveUp 0; EvAnswer 0])) =
  Some ([None; Some 2; None], [(post_req "k" "v", Response 404 "")]).
Proof. vm_compute. reflexivity. Qed.

(** Node 0 serves HTTP before [main] has made its clients: the handler panics and the
    client gets no answer, the node goes on. *)
Lemma sdcs_early_request_panics :
  (fun c => (nd_exit <$> cl_nodes c, t_live <$> cl_tasks c, cl_answers c)) <$>
    (cluster_boot ≫= cluster_run (replicate 3 (EvGo 0 GoHttp true) ++ [EvArrive 0 (get_req "k"); EvCall 0 true])) =
  Some ([None; None; None], [false], []).
Proof. vm_compute. reflexivity. Qed.

(** The command line: a number that is too large and a word are refused, a negative
    number is not and ends the process with a panic. *)
Lemma sdcs_node_numbers :
  main ["sdcs"] = inl 1 /\ main ["sdcs"; "3"] = inl 1 /\ main ["sdcs"; "x"] = inl 1 /\ main ["sdcs"; "-1"] = inl 2 /\
  (exists nd, main ["sdcs"; "2"] = inr nd /\ nd_id nd = 2 /\ port (nd_address nd) = 9529).
Proof. vm_compute. split_and!; try reflexivity. eexists. split_and!; reflexivity. Qed.

(** Which numbers [main] accepts: the test is on the [int], the index is its lower half,
    so that -4294967296 starts node 0. *)
Lemma main_accepts prog arg rest n :
  Atoi arg = Some n -> (exists nd, main (prog :: arg :: rest) = inr nd) <-> n < 3 /\ 0 <= i32 n < 3.
Proof.
  intros En. unfold main. rewrite En. cbn [length grpc_address]. split.
  - intros [nd E]. destruct (Z.leb_spec (Z.of_nat 3) n) as [|Hn]; [done|]. split; [lia|].
    destruct (Z.ltb_spec (i32 n) 0) as [|Hi]; [done|].
    destruct (grpc_address !! Z.to_nat (i32 n)) as [a|] eqn:Ea; [|done]. apply lookup_lt_Some in Ea. cbn in Ea. lia.
  - intros (Hn & Hm). zdec.
    destruct (lookup_lt_is_Some_2 grpc_address (Z.to_nat (i32 n))) as [a ->]; [cbn; lia|]. eauto.
Qed.
