(* ===== verification/Endpoint.v ===== *)
(** * Domains and endpoints: src/vdso_test/vdso_domain.c and vdso_domain.h

    A thread has a control block (tcb) with a hook for the list of a domain, a hook for
    the list of an endpoint and a semaphore.  A client calls [endpoint_send]: it stores
    its parameter in its tcb, queues the tcb at the endpoint, wakes the server and
    waits; the server takes the parameter of the first tcb with [endpoint_recv] and
    answers with [endpoint_reply].  The lists are those of KList: the operations of
    include/kernel_list.h, which the code includes, are the same text.

    [ep_step] interleaves the accesses of the clients and the server.  The code takes no
    lock around the list of an endpoint: an operation that changes the list has a
    beginning and an end, and two of them that overlap are a race, after which nothing
    is said ([race_free]).  [None] is an access to an object that does not exist. *)
From S2P Require Import Prelude KList.
Local Open Scope Z_scope.

(** ** Data *)

Record tcb := Tcb { schedule : Z; tid : Z; reg_params : Z; extra : Z }.
Record domain := Domain { owner : Z; domain_data_addr : Z }.

(** The offsets of the hooks in [tcb_t], [domain_t] and [endpoint_t]. *)
Definition domain_hook (t : Z) : Z := t.
Definition endpoint_hook (t : Z) : Z := t + 16.
Definition hook_tcb (h : Z) : Z := h - 16.
Definition domain_client (d : Z) : Z := d.
Definition ep_client (e : Z) : Z := e + 8.
Definition sizeof_tcb : Z := 88.
Definition sizeof_domain : Z := 32.
Definition sizeof_endpoint : Z := 24.

Record vstate := VState {
  v_alloc : alloc;
  v_cells : cells;
  v_tcbs : gmap Z tcb;
  v_domains : gmap Z domain;
  v_eps : gmap Z Z }.

Definition with_vcells (m : cells) (s : vstate) : vstate :=
  VState (v_alloc s) m (v_tcbs s) (v_domains s) (v_eps s).
Definition with_tcbs (ts : gmap Z tcb) (s : vstate) : vstate :=
  VState (v_alloc s) (v_cells s) ts (v_domains s) (v_eps s).

Definition upd_tcb (t : Z) (f : tcb -> tcb) (s : vstate) : option vstate :=
  c ← v_tcbs s !! t; Some (with_tcbs (<[t := f c]> (v_tcbs s)) s).

Definition set_params (p : Z) (c : tcb) : tcb := Tcb (schedule c) (tid c) p (extra c).
Definition set_extra (x : Z) (c : tcb) : tcb := Tcb (schedule c) (tid c) (reg_params c) x.
Definition add_schedule (n : Z) (c : tcb) : tcb := Tcb (schedule c + n) (tid c) (reg_params c) (extra c).

Definition sem_post (t : Z) (s : vstate) : option vstate := upd_tcb t (add_schedule 1) s.

(** [sem_wait] goes on when the semaphore is positive. *)
Definition can_pass (t : Z) (s : vstate) : bool :=
  match v_tcbs s !! t with Some c => 0 <? schedule c | None => false end.
Definition sem_pass (t : Z) (s : vstate) : option vstate := upd_tcb t (add_schedule (-1)) s.

(** ** Operations *)

(** [junk] is what malloc leaves in the two fields that are not set. *)
Definition tcb_create (gettid : Z) (junk : Z * Z) (s : vstate) : Z * vstate :=
  let '(t, a) := malloc (v_alloc s) sizeof_tcb in
  if t =? NULL then (t, VState a (v_cells s) (v_tcbs s) (v_domains s) (v_eps s))
  else
    let m := INIT_LIST_HEAD (INIT_LIST_HEAD (v_cells s) (domain_hook t)) (endpoint_hook t) in
    (t, VState a m (<[t := Tcb 0 gettid (fst junk) (snd junk)]> (v_tcbs s)) (v_domains s) (v_eps s)).

(** With an invalid argument the code returns without a value: the result is
    [None] here, as it is when there is no memory, which the code does not test. *)
Definition domain_create (vdso_data_addr creator : Z) (s : vstate) : option (Z * vstate) :=
  if (vdso_data_addr =? NULL) || (creator =? NULL) then None else
  let '(d, a) := malloc (v_alloc s) sizeof_domain in
  if d =? NULL then None else
  m ← list_add (INIT_LIST_HEAD (v_cells s) (domain_client d)) (domain_hook creator) (domain_client d);
  Some (d, VState a m (v_tcbs s) (<[d := Domain creator vdso_data_addr]> (v_domains s)) (v_eps s)).

(** The walk over the clients only prints; it returns or it does not. *)
Definition domain_refer (fuel : nat) (d referrer : Z) (s : vstate) : option (Z * vstate) :=
  if (d =? NULL) || (referrer =? NULL) then Some (NULL, s) else
  m ← list_add (v_cells s) (domain_hook referrer) (domain_client d);
  _ ← list_for_each fuel m (domain_client d);
  dom ← v_domains s !! d;
  Some (domain_data_addr dom, with_vcells m s).

Definition endpoint_create (creator : Z) (s : vstate) : Z * vstate :=
  if creator =? NULL then (NULL, s) else
  let '(e, a) := malloc (v_alloc s) sizeof_endpoint in
  if e =? NULL then (e, VState a (v_cells s) (v_tcbs s) (v_domains s) (v_eps s))
  else (e, VState a (INIT_LIST_HEAD (v_cells s) (ep_client e)) (v_tcbs s) (v_domains s)
                  (<[e := creator]> (v_eps s))).

(** [endpoint_send]: the argument test, the first parameter, the queueing, the second
    parameter, the wakeup of the server, and the result after [sem_wait]. *)
Definition send_valid (service client : Z) : bool :=
  negb ((service =? NULL) || (client =? NULL)).

Definition send_store (client param : Z) (s : vstate) : option vstate :=
  upd_tcb client (set_params param) s.

Definition send_add (service client : Z) (s : vstate) : option vstate :=
  m ← list_add_tail (v_cells s) (endpoint_hook client) (ep_client service);
  Some (with_vcells m s).

Definition send_extra (client x : Z) (s : vstate) : option vstate :=
  upd_tcb client (set_extra x) s.

Definition send_post (service : Z) (s : vstate) : option vstate :=
  server ← v_eps s !! service; sem_post server s.

Definition send_return (client : Z) (s : vstate) : option (Z * vstate) :=
  s ← sem_pass client s;
  c ← v_tcbs s !! client;
  Some (reg_params c, s).

(** [endpoint_recv]: [sem_wait], the first entry of the list, and the parameter with what
    goes to [*client_tid] and [*extra].  With an empty list [client] is computed from the
    head. *)
Definition recv_wait (service : Z) (s : vstate) : option vstate :=
  server ← v_eps s !! service; sem_pass server s.

Definition recv_next (service : Z) (s : vstate) : option Z := get_next (v_cells s) (ep_client service).

Definition recv_params (service first : Z) (s : vstate) : option (Z * option (Z * Z)) :=
  c ← v_tcbs s !! hook_tcb first;
  Some (reg_params c, if first =? ep_client service then None else Some (tid c, extra c)).

Definition endpoint_recv (service : Z) (s : vstate) : option (Z * option (Z * Z) * vstate) :=
  if service =? NULL then Some (0, None, s) else
  s ← recv_wait service s;
  first ← recv_next service s;
  r ← recv_params service first s;
  Some (r, s).

(** [endpoint_reply]: the argument test and the first entry of the list, the answer, the
    removal, and the wakeup of the client. *)
Definition reply_first (service params : Z) (s : vstate) : option (option Z) :=
  if (params =? 0) || (service =? NULL) then Some None else
  first ← get_next (v_cells s) (ep_client service);
  Some (if first =? ep_client service then None else Some (hook_tcb first)).

Definition reply_store (client params : Z) (s : vstate) : option vstate :=
  upd_tcb client (set_params params) s.

Definition reply_del (client : Z) (s : vstate) : option vstate :=
  m ← list_del_init (v_cells s) (endpoint_hook client);
  Some (with_vcells m s).

Definition endpoint_reply (service params : Z) (s : vstate) : option vstate :=
  c ← reply_first service params s;
  match c with
  | None => Some s
  | Some client =>
      s ← reply_store client params s;
      s ← reply_del client s;
      sem_post client s
  end.

(** ** Clients and a server *)

(** Where a client is in [endpoint_send], with its arguments; [Adding] is inside
    [list_add_tail]. *)
Inductive send_pc :=
  | Idle
  | Stored (param x : Z)
  | Adding (param x : Z)
  | Queued (param x : Z)
  | Posting (param : Z)
  | Waiting (param : Z).

#[export] Instance send_pc_eq_dec : EqDecision send_pc.
Proof. solve_decision. Defined.

(** Where the server is in [endpoint_recv], between the calls with a parameter of the
    thread [t], or in [endpoint_reply] with its client; [Deleting] is inside
    [list_del_init]. *)
Inductive server_pc :=
  | Receiving
  | RecvNext
  | RecvRead (first : Z)
  | Serving (t param : Z)
  | ReplyStore (client params : Z)
  | ReplyDel (client : Z)
  | Deleting (client : Z)
  | ReplyPost (client : Z).

#[export] Instance server_pc_eq_dec : EqDecision server_pc.
Proof. solve_decision. Defined.

(** [e_log]: client, parameter and result of the calls that have returned. *)
Record esys := ESys {
  e_st : vstate;
  e_clients : gmap Z send_pc;
  e_server : server_pc;
  e_log : list (Z * Z * Z) }.

Definition map_sum (w : send_pc -> Z) (m : gmap Z send_pc) : Z :=
  map_fold (fun _ pc n => w pc + n) 0 m.

(** The list operations under way that write; two of them are a race. *)
Definition adding (pc : send_pc) : Z := match pc with Adding _ _ => 1 | _ => 0 end.
Definition writers (s : esys) : Z :=
  map_sum adding (e_clients s) + match e_server s with Deleting _ => 1 | _ => 0 end.
Definition race_free (s : esys) : bool := writers s <? 2.

Inductive ep_action :=
  | AJoin (gettid : Z) (junk : Z * Z) | AStart (c p x : Z)
  | ABegin (c : Z) | AAdd (c : Z) | AExtra (c : Z) | APost (c : Z) | AReturn (c : Z)
  | ARecvWait | ARecvNext | ARecvRead
  | AReplyFirst | AReplyStore | AReplyBegin | AReplyDel | AReplyPost.

(** The steps that only go on with calls. *)
Definition quiet (a : ep_action) : bool := match a with AJoin _ _ | AStart _ _ _ => false | _ => true end.

Definition set_client (s : esys) (st : vstate) (c : Z) (pc : send_pc) : esys :=
  ESys st (<[c := pc]> (e_clients s)) (e_server s) (e_log s).
Definition set_server (s : esys) (st : vstate) (sv : server_pc) : esys :=
  ESys st (e_clients s) sv (e_log s).

Section Steps.
Context (service server : Z) (f : Z -> Z).

(** The steps of a client that is at [pc]. *)
Definition client_next (a : ep_action) (s : esys) (c : Z) (pc : send_pc) : option esys :=
  match a, pc with
  | AStart _ p x, Idle =>
      if send_valid service c then st ← send_store c p (e_st s); Some (set_client s st c (Stored p x)) else None
  | ABegin _, Stored p x => Some (set_client s (e_st s) c (Adding p x))
  | AAdd _, Adding p x => st ← send_add service c (e_st s); Some (set_client s st c (Queued p x))
  | AExtra _, Queued p x => st ← send_extra c x (e_st s); Some (set_client s st c (Posting p))
  | APost _, Posting p => st ← send_post service (e_st s); Some (set_client s st c (Waiting p))
  | AReturn _, Waiting p =>
      if can_pass c (e_st s)
      then '(r, st) ← send_return c (e_st s);
           Some (ESys st (<[c := Idle]> (e_clients s)) (e_server s) ((c, p, r) :: e_log s))
      else None
  | _, _ => None
  end.

(** The steps of the server, which answers [param] with [f param]. *)
Definition server_next (a : ep_action) (s : esys) : option esys :=
  match a, e_server s with
  | ARecvWait, Receiving =>
      if can_pass server (e_st s) then st ← recv_wait service (e_st s); Some (set_server s st RecvNext) else None
  | ARecvNext, RecvNext => first ← recv_next service (e_st s); Some (set_server s (e_st s) (RecvRead first))
  | ARecvRead, RecvRead first =>
      match recv_params service first (e_st s) with
      | Some (p, Some (t, x)) => Some (set_server s (e_st s) (Serving t p))
      | _ => None
      end
  | AReplyFirst, Serving t p =>
      c ← reply_first service (f p) (e_st s);
      Some (set_server s (e_st s) match c with Some c => ReplyStore c (f p) | None => Receiving end)
  | AReplyStore, ReplyStore c v => st ← reply_store c v (e_st s); Some (set_server s st (ReplyDel c))
  | AReplyBegin, ReplyDel c => Some (set_server s (e_st s) (Deleting c))
  | AReplyDel, Deleting c => st ← reply_del c (e_st s); Some (set_server s st (ReplyPost c))
  | AReplyPost, ReplyPost c => st ← sem_post c (e_st s); Some (set_server s st Receiving)
  | _, _ => None
  end.

(** Nothing is said of what happens after a race for the list. *)
Definition ep_next (a : ep_action) (s : esys) : option esys :=
  if negb (race_free s) then None
  else match a with
  | AJoin g j =>
      let '(t, st) := tcb_create g j (e_st s) in
      Some (ESys st (if t =? NULL then e_clients s else <[t := Idle]> (e_clients s)) (e_server s) (e_log s))
  | AStart c _ _ | ABegin c | AAdd c | AExtra c | APost c | AReturn c =>
      pc ← e_clients s !! c; client_next a s c pc
  | _ => server_next a s
  end.

Definition ep_step (s s' : esys) : Prop := exists a, ep_next a s = Some s'.
Definition ep_quiet (s s' : esys) : Prop := exists a, quiet a = true /\ ep_next a s = Some s'.

Fixpoint ep_acts (l : list ep_action) (s : esys) : option esys :=
  match l with [] => Some s | a :: l => s ← ep_next a s; ep_acts l s end.

Lemma ep_acts_steps l : forall s s', ep_acts l s = Some s' -> rtc ep_step s s'.
Proof.
  induction l as [| a l IH]; intros s s'; simpl; [by intros [= <-]|].
  destruct (ep_next a s) as [s1 |] eqn:E; [|done]. intros H. eapply rtc_l; [by eexists | by apply IH].
Qed.

End Steps.

(** ** Counting, hooks and memory *)

Definition hooks (q : list Z) : list Z := endpoint_hook <$> q.

(** The clients in the queue that have not woken the server yet, and a bound of the
    steps left. *)
Definition unposted (pc : send_pc) : Z :=
  match pc with Queued _ _ | Posting _ => 1 | _ => 0 end.
Definition pc_left (pc : send_pc) : Z :=
  match pc with Stored _ _ => 15 | Adding _ _ => 14 | Queued _ _ => 3 | Posting _ => 2 | Waiting _ => 1 | Idle => 0 end.

Lemma map_sum_insert w m c x y :
  m !! c = Some x -> map_sum w (<[c := y]> m) = map_sum w m - w x + w y.
Proof.
  intros Hx. unfold map_sum. rewrite <- insert_delete_eq.
  rewrite map_fold_insert_L; [|intros; lia|apply lookup_delete_eq].
  rewrite (map_fold_delete_L _ 0 c x m); [lia|intros; lia|done].
Qed.

Lemma map_sum_nonneg w m : (forall pc, 0 <= w pc) -> 0 <= map_sum w m.
Proof.
  intros Hw. unfold map_sum. apply (map_fold_weak_ind (fun n _ => 0 <= n)); [lia|].
  intros c pc m' n _ Hn. specialize (Hw pc). lia.
Qed.

(** A positive sum has a client that counts. *)
Lemma map_sum_pos w m : 0 < map_sum w m -> exists c pc, m !! c = Some pc /\ 0 < w pc.
Proof.
  unfold map_sum. apply (map_fold_weak_ind (fun n m => 0 < n -> exists c pc, m !! c = Some pc /\ 0 < w pc)); [lia|].
  intros c pc m' n Hc IH Hn. destruct (decide (0 < w pc)) as [Hw | Hw].
  - exists c, pc. by rewrite lookup_insert_eq.
  - destruct IH as (c' & pc' & Hm & Hw'); [lia|]. exists c', pc'. split; [|done].
    rewrite lookup_insert_ne; [done | congruence].
Qed.

Lemma hooks_in c q : endpoint_hook c ∈ hooks q <-> c ∈ q.
Proof.
  unfold hooks. rewrite list_elem_of_fmap. unfold endpoint_hook. split; [|eauto].
  intros (c' & E & H). by replace c with c' by lia.
Qed.

Lemma hook_tcb_hook c : hook_tcb (endpoint_hook c) = c.
Proof. unfold hook_tcb, endpoint_hook. lia. Qed.

(** The first client of the queue, and the head of the list of an empty one. *)
Lemma first_hook m h q : ring m h (hooks q) -> get_next m h = Some (hd h (hooks q)).
Proof. intros R. apply (ring_head _ _ _ R). Qed.

(** What exists is below the next address. *)
Definition below (st : vstate) : Prop :=
  alloc_ok (v_alloc st) /\ (forall x, is_cell (v_cells st) x -> x < a_next (v_alloc st)) /\
  (forall x, is_Some (v_tcbs st !! x) -> x < a_next (v_alloc st)).

Lemma upd_tcb_below t g st st' : upd_tcb t g st = Some st' -> below st -> below st'.
Proof.
  unfold upd_tcb. destruct (v_tcbs st !! t) as [c |] eqn:E; [|done]. intros [= <-] (A & B & C).
  split; [done|]. split; [done|]. simpl. intros x Hx. apply C.
  destruct (decide (x = t)) as [-> | N]; [rewrite E; eauto | by rewrite lookup_insert_ne in Hx].
Qed.

Lemma cells_below m st : (forall x, is_cell m x <-> is_cell (v_cells st) x) -> below st -> below (with_vcells m st).
Proof. intros E (A & B & C). split; [done|]. split; [|done]. simpl. intros x Hx. by apply B, E. Qed.

Lemma init_cells m x y : is_cell (INIT_LIST_HEAD m x) y <-> y = x \/ is_cell m y.
Proof.
  unfold is_cell, INIT_LIST_HEAD. destruct (decide (y = x)) as [-> | N].
  - rewrite lookup_insert_eq. split; [by left | eauto].
  - rewrite lookup_insert_ne by done. naive_solver.
Qed.

Lemma tcb_create_below g j st t st' : tcb_create g j st = (t, st') -> below st -> below st'.
Proof.
  unfold tcb_create. intros E (A & B & C).
  pose proof (malloc_cases (v_alloc st) sizeof_tcb A ltac:(unfold sizeof_tcb; lia)) as M.
  destruct (malloc (v_alloc st) sizeof_tcb) as [r a]. destruct M as (A' & L & M). unfold sizeof_tcb in M.
  destruct (Z.eqb_spec r NULL) as [-> | N]; injection E as <- <-; split; simpl; try done; split; simpl.
  - intros x Hx. specialize (B x Hx). lia.
  - intros x Hx. specialize (C x Hx). lia.
  - destruct M as [M | M]; [done|]. intros x. rewrite !init_cells. unfold endpoint_hook, domain_hook.
    intros [-> | [-> | Hx]]; [lia | lia |]. specialize (B x Hx). lia.
  - destruct M as [M | M]; [done|]. intros x Hx. destruct (decide (x = r)) as [-> | Nx]; [lia|].
    rewrite lookup_insert_ne in Hx by done. specialize (C x Hx). lia.
Qed.

Section Service.
Context (service server : Z) (f : Z -> Z).

(** ** The invariant *)

(** How far [endpoint_reply] is with client [c]: not begun or done, the answer is
    stored, or the client is also off the list. *)
Inductive reply_phase := NoReply | Answered | Removed.

Definition phase_of (sv : server_pc) (c : Z) : reply_phase :=
  match sv with
  | ReplyDel d | Deleting d => if d =? c then Answered else NoReply
  | ReplyPost d => if d =? c then Removed else NoReply
  | _ => NoReply
  end.

(** A request waits in the queue [q], is being answered, or was answered with
    [f param]. *)
Definition request_ok (ph : reply_phase) (q : list Z) (c : Z) (b : tcb) (p : Z) : Prop :=
  match ph with
  | NoReply => ((c ∈ q) /\ schedule b = 0 /\ reg_params b = p) \/
               ((c ∉ q) /\ schedule b = 1 /\ reg_params b = f p)
  | Answered => (c ∈ q) /\ schedule b = 0 /\ reg_params b = f p
  | Removed => (c ∉ q) /\ schedule b = 0 /\ reg_params b = f p
  end.

(** The parameter of a request that has been in the queue. *)
Definition request (pc : send_pc) : option Z :=
  match pc with Queued p _ | Posting p | Waiting p => Some p | _ => None end.

Definition client_ok (ph : reply_phase) (q : list Z) (c : Z) (b : tcb) (pc : send_pc) : Prop :=
  match pc with
  | Idle => (c ∉ q) /\ schedule b = 0
  | Stored p _ | Adding p _ => (c ∉ q) /\ schedule b = 0 /\ reg_params b = p
  | Queued p _ | Posting p | Waiting p => request_ok ph q c b p
  end.

(** The server has taken a wakeup whose client is still in the queue. *)
Definition serving (sv : server_pc) : Z := match sv with Receiving | ReplyPost _ => 0 | _ => 1 end.

Definition server_ok (s : esys) (q : list Z) : Prop :=
  match e_server s with
  | Receiving | RecvNext => True
  | RecvRead first => exists c q', q = c :: q' /\ first = endpoint_hook c
  | Serving t p => exists c q' b, q = c :: q' /\ v_tcbs (e_st s) !! c = Some b /\ tid b = t /\ reg_params b = p
  | ReplyStore c v => exists q' b, q = c :: q' /\ v_tcbs (e_st s) !! c = Some b /\ v = f (reg_params b)
  | ReplyDel c | Deleting c => exists q', q = c :: q'
  | ReplyPost c => exists pc p, e_clients s !! c = Some pc /\ request pc = Some p
  end.

Record ep_inv (s : esys) (q : list Z) : Prop := {
  iv_service : service <> NULL /\ v_eps (e_st s) !! service = Some server;
  iv_ring : ring (v_cells (e_st s)) (ep_client service) (hooks q);
  iv_queue : forall c, c ∈ q -> is_Some (e_clients s !! c);
  iv_clients : forall c pc, e_clients s !! c = Some pc ->
    c <> server /\ c <> NULL /\ endpoint_hook c <> ep_client service /\
    is_cell (v_cells (e_st s)) (endpoint_hook c) /\
    exists b, v_tcbs (e_st s) !! c = Some b /\ client_ok (phase_of (e_server s) c) q c b pc;
  iv_server : exists b, v_tcbs (e_st s) !! server = Some b /\ 0 <= schedule b /\
    Z.of_nat (length q) = schedule b + serving (e_server s) + map_sum unposted (e_clients s);
  iv_serving : server_ok s q;
  iv_log : Forall (fun '(c, p, r) => r = f p) (e_log s) }.

Definition sv_left (sv : server_pc) : Z :=
  match sv with
  | Receiving => 10 | RecvNext => 9 | RecvRead _ => 8 | Serving _ _ => 7
  | ReplyStore _ _ => 6 | ReplyDel _ => 5 | Deleting _ => 4 | ReplyPost _ => 11
  end.

Definition ep_left (s : esys) (q : list Z) : Z :=
  map_sum pc_left (e_clients s) + 10 * Z.of_nat (length q) + sv_left (e_server s).

(** What the clients other than [c] know does not depend on [c]. *)
Lemma client_ok_queue ph q q' d b pc : (d ∈ q' <-> d ∈ q) -> client_ok ph q d b pc -> client_ok ph q' d b pc.
Proof. intros E. destruct pc; simpl; unfold request_ok; try destruct ph; rewrite E; done. Qed.

(** A step that concerns the client [c] and the server. *)
Lemma inv_change s s' q q' c pc' b' bs :
  ep_inv s q -> is_Some (e_clients s !! c) ->
  v_eps (e_st s') = v_eps (e_st s) -> e_clients s' = <[c := pc']> (e_clients s) ->
  v_tcbs (e_st s') !! c = Some b' -> v_tcbs (e_st s') !! server = Some bs ->
  (forall d, d <> c -> d <> server -> v_tcbs (e_st s') !! d = v_tcbs (e_st s) !! d) ->
  (forall y, is_cell (v_cells (e_st s')) y <-> is_cell (v_cells (e_st s)) y) ->
  ring (v_cells (e_st s')) (ep_client service) (hooks q') ->
  (forall d, d <> c -> (d ∈ q' <-> d ∈ q) /\ phase_of (e_server s') d = phase_of (e_server s) d) ->
  client_ok (phase_of (e_server s') c) q' c b' pc' -> 0 <= schedule bs ->
  Z.of_nat (length q') = schedule bs + serving (e_server s') + map_sum unposted (e_clients s') ->
  server_ok s' q' -> Forall (fun '(c, p, r) => r = f p) (e_log s') -> ep_inv s' q'.
Proof.
  intros I [pc Hc] He Hcl Hb Hbs Ht Hm Hr Hd Hok H0 Hl Hsv Hlog.
  destruct (iv_clients _ _ I _ _ Hc) as (H1 & H2 & H3 & H4 & _).
  split; [rewrite He; apply (iv_service _ _ I) | done | | | eauto | done | done]; rewrite Hcl.
  - intros d Hq. destruct (decide (d = c)) as [-> | N]; [rewrite lookup_insert_eq; eauto|].
    rewrite lookup_insert_ne by done. apply (iv_queue _ _ I). by apply (Hd d N).
  - intros d pd Hpd. rewrite Hm. destruct (decide (d = c)) as [-> | N].
    + rewrite lookup_insert_eq in Hpd. injection Hpd as <-. eauto 10.
    + rewrite lookup_insert_ne in Hpd by done.
      destruct (iv_clients _ _ I _ _ Hpd) as (J1 & J2 & J3 & J4 & b & J5 & J6).
      split_and!; [done..|]. exists b. rewrite (Ht d N J1). split; [done|].
      destruct (Hd d N) as [Hq ->]. by eapply client_ok_queue.
Qed.

(** The server is where it was when a client takes a step. *)
Lemma server_ok_keep s s' q l :
  server_ok s q -> e_server s' = e_server s ->
  (forall d, d ∈ q -> exists b b', v_tcbs (e_st s) !! d = Some b /\ v_tcbs (e_st s') !! d = Some b' /\
     tid b' = tid b /\ reg_params b' = reg_params b) ->
  (forall d pc p, e_server s = ReplyPost d -> e_clients s !! d = Some pc -> request pc = Some p ->
     exists pc' p', e_clients s' !! d = Some pc' /\ request pc' = Some p') ->
  server_ok s' (q ++ l).
Proof.
  unfold server_ok. intros K -> Hb Hc.
  destruct (e_server s) as [| | first | t p | c v | c | c | c] eqn:E; [done | done | | | | | |].
  - destruct K as (c & q' & -> & ->). exists c, (q' ++ l). done.
  - destruct K as (c & q' & b & -> & Hcb & <- & <-). destruct (Hb c) as (b1 & b' & E1 & E2 & E3 & E4); [by left|].
    simplify_eq. exists c, (q' ++ l), b'. done.
  - destruct K as (q' & b & -> & Hcb & ->). destruct (Hb c) as (b1 & b' & E1 & E2 & E3 & E4); [by left|].
    simplify_eq. exists (q' ++ l), b'. split_and!; [done..|congruence].
  - destruct K as (q' & ->). by exists (q' ++ l).
  - destruct K as (q' & ->). by exists (q' ++ l).
  - destruct K as (pc & p & H1 & H2). by apply (Hc c pc p).
Qed.

Lemma queue_tcb s q d : ep_inv s q -> d ∈ q ->
  exists b pc, d <> server /\ v_tcbs (e_st s) !! d = Some b /\ e_clients s !! d = Some pc /\
    client_ok (phase_of (e_server s) d) q d b pc.
Proof.
  intros I Hd. destruct (iv_queue _ _ I d Hd) as [pc Hpc].
  destruct (iv_clients _ _ I _ _ Hpc) as (N & _ & _ & _ & b & Hb & Hok). exists b, pc. eauto.
Qed.

Lemma queue_nodup s q : ep_inv s q -> NoDup q.
Proof.
  intros I. destruct (iv_ring _ _ I) as [N _]. apply NoDup_cons in N as [_ N].
  by apply NoDup_fmap_1 in N.
Qed.

(** ** The steps of a client *)

(** A step that changes the tcb and the state of one client, not the queue. *)
Lemma inv_client s q c pc pc' b b' log :
  ep_inv s q -> e_clients s !! c = Some pc -> v_tcbs (e_st s) !! c = Some b ->
  client_ok (phase_of (e_server s) c) q c b' pc' -> unposted pc' = unposted pc ->
  (c ∈ q -> reg_params b' = reg_params b) -> tid b' = tid b ->
  (e_server s = ReplyPost c -> is_Some (request pc') \/ request pc = None) ->
  Forall (fun '(c, p, r) => r = f p) log ->
  ep_inv (ESys (with_tcbs (<[c := b']> (v_tcbs (e_st s))) (e_st s)) (<[c := pc']> (e_clients s)) (e_server s) log) q.
Proof.
  intros I Hc Hb Hok Hu Hp Ht Hrp Hlog. destruct (iv_server _ _ I) as (bs & Hs & H0 & Hl).
  destruct (iv_clients _ _ I _ _ Hc) as (N & _).
  eapply (inv_change s _ q q c pc' b' bs); simpl; eauto.
  - apply lookup_insert_eq.
  - by rewrite lookup_insert_ne.
  - intros d Nd _. by rewrite lookup_insert_ne.
  - apply (iv_ring _ _ I).
  - rewrite (map_sum_insert _ _ _ _ _ Hc). lia.
  - rewrite <- (app_nil_r q). apply (server_ok_keep s); [apply (iv_serving _ _ I) | done | |]; simpl.
    + intros d Hd. destruct (queue_tcb _ _ _ I Hd) as (bd & _ & _ & Hbd & _).
      destruct (decide (d = c)) as [-> | Nd].
      * rewrite lookup_insert_eq. exists b, b'. auto.
      * rewrite lookup_insert_ne by done. exists bd, bd. done.
    + intros d pd p Hsv Hpd Hr. destruct (decide (d = c)) as [-> | Nd].
      * rewrite lookup_insert_eq. destruct (Hrp Hsv) as [[p' Hp'] | F]; [eauto | congruence].
      * rewrite lookup_insert_ne by done. eauto.
Qed.

Lemma store_step s q c p x :
  ep_inv s q -> e_clients s !! c = Some Idle ->
  exists st, send_store c p (e_st s) = Some st /\ ep_inv (set_client s st c (Stored p x)) q.
Proof.
  intros I Hc. destruct (iv_clients _ _ I _ _ Hc) as (_ & _ & _ & _ & b & Hb & Hq & H0).
  unfold send_store, upd_tcb. rewrite Hb. eexists. split; [reflexivity|].
  eapply (inv_client s q c _ _ b (set_params p b)); eauto; [done | by intros | apply (iv_log _ _ I)].
Qed.

Lemma begin_step s q c p x :
  ep_inv s q -> e_clients s !! c = Some (Stored p x) -> ep_inv (set_client s (e_st s) c (Adding p x)) q.
Proof.
  intros I Hc. destruct (iv_clients _ _ I _ _ Hc) as (_ & _ & _ & _ & b & Hb & Hok).
  pose proof (inv_client s q c _ (Adding p x) b b (e_log s) I Hc Hb Hok) as K.
  rewrite (insert_id (v_tcbs (e_st s))) in K by done. unfold set_client. destruct (e_st s). apply K; auto.
  apply (iv_log _ _ I).
Qed.

Lemma add_step s q c p x :
  ep_inv s q -> e_clients s !! c = Some (Adding p x) ->
  exists st, send_add service c (e_st s) = Some st /\ ep_inv (set_client s st c (Queued p x)) (q ++ [c]).
Proof.
  intros I Hc. destruct (iv_clients _ _ I _ _ Hc) as (N & _ & Hch & Hcell & b & Hb & Hnq & H0 & Hp).
  destruct (list_add_tail_ring _ _ _ (endpoint_hook c) (iv_ring _ _ I) Hcell) as (m & E & R & _).
  { intros [? | Hin]%elem_of_cons; [done|]. by apply Hnq, hooks_in. }
  unfold send_add. rewrite E. eexists. split; [reflexivity|].
  destruct (iv_server _ _ I) as (bs & Hs & Hs0 & Hl).
  assert (phase_of (e_server s) c = NoReply) as Hph.
  { pose proof (iv_serving _ _ I) as K. unfold server_ok in K. destruct (e_server s) as [| | | | | d | d | d]; simpl; try done;
      destruct (Z.eqb_spec d c) as [-> | ?]; try done; [destruct K as (q' & ->); set_solver..|].
    destruct K as (pc & p' & Hpc & Hr). rewrite Hc in Hpc. by injection Hpc as <-. }
  eapply (inv_change s _ q (q ++ [c]) c (Queued p x) b bs); simpl; eauto.
  - intros y. by apply (list_add_tail_cells _ _ _ _ _ E).
  - unfold hooks in *. by rewrite fmap_app.
  - set_solver.
  - rewrite Hph. left. split; [set_solver | done].
  - rewrite length_app, (map_sum_insert _ _ _ _ _ Hc). simpl. lia.
  - apply (server_ok_keep s); [apply (iv_serving _ _ I) | done | |]; simpl.
    + intros d Hd. destruct (queue_tcb _ _ _ I Hd) as (bd & _ & _ & Hbd & _). eauto 10.
    + intros d pd p' Hsv Hpd Hr. destruct (decide (d = c)) as [-> | Nd]; [by simplify_eq|].
      rewrite lookup_insert_ne by done. eauto.
  - apply (iv_log _ _ I).
Qed.

Lemma extra_step s q c p x :
  ep_inv s q -> e_clients s !! c = Some (Queued p x) ->
  exists st, send_extra c x (e_st s) = Some st /\ ep_inv (set_client s st c (Posting p)) q.
Proof.
  intros I Hc. destruct (iv_clients _ _ I _ _ Hc) as (_ & _ & _ & _ & b & Hb & Hok).
  unfold send_extra, upd_tcb. rewrite Hb. eexists. split; [reflexivity|].
  eapply (inv_client s q c _ _ b (set_extra x b)); eauto. apply (iv_log _ _ I).
Qed.

Lemma post_step s q c p :
  ep_inv s q -> e_clients s !! c = Some (Posting p) ->
  exists st, send_post service (e_st s) = Some st /\ ep_inv (set_client s st c (Waiting p)) q.
Proof.
  intros I Hc. destruct (iv_clients _ _ I _ _ Hc) as (N & _ & _ & _ & b & Hb & Hok).
  destruct (iv_server _ _ I) as (bs & Hs & H0 & Hl).
  unfold send_post, sem_post, upd_tcb. rewrite (proj2 (iv_service _ _ I)). cbn [mbind option_bind]. rewrite Hs.
  eexists. split; [reflexivity|].
  eapply (inv_change s _ q q c (Waiting p) b (add_schedule 1 bs)); simpl; eauto.
  - by rewrite lookup_insert_ne.
  - apply lookup_insert_eq.
  - intros d _ Nd. by rewrite lookup_insert_ne.
  - apply (iv_ring _ _ I).
  - lia.
  - rewrite (map_sum_insert _ _ _ _ _ Hc). simpl. lia.
  - rewrite <- (app_nil_r q). apply (server_ok_keep s); [apply (iv_serving _ _ I) | done | |]; simpl.
    + intros d Hd. destruct (queue_tcb _ _ _ I Hd) as (bd & _ & Nd & Hbd & _).
      exists bd, bd. by rewrite lookup_insert_ne.
    + intros d pd p' Hsv Hpd Hr. destruct (decide (d = c)) as [-> | Nd]; [rewrite lookup_insert_eq; eauto|].
      rewrite lookup_insert_ne by done. eauto.
  - apply (iv_log _ _ I).
Qed.

Lemma return_step s q c p :
  ep_inv s q -> e_clients s !! c = Some (Waiting p) -> can_pass c (e_st s) = true ->
  exists st, send_return c (e_st s) = Some (f p, st) /\
    ep_inv (ESys st (<[c := Idle]> (e_clients s)) (e_server s) ((c, p, f p) :: e_log s)) q.
Proof.
  intros I Hc Hp. destruct (iv_clients _ _ I _ _ Hc) as (_ & _ & _ & _ & b & Hb & Hok).
  unfold can_pass in Hp. rewrite Hb in Hp. apply Z.ltb_lt in Hp.
  assert (phase_of (e_server s) c = NoReply /\ (c ∉ q) /\ schedule b = 1 /\ reg_params b = f p) as (Hph & Hq & H1 & Hr).
  { unfold client_ok, request_ok in Hok. destruct (phase_of _ _); [|lia..]. split; [done|]. destruct Hok as [? | ?]; [lia | done]. }
  unfold send_return, sem_pass, upd_tcb. rewrite Hb. simpl. rewrite lookup_insert_eq. simpl.
  rewrite Hr. eexists. split; [reflexivity|].
  eapply (inv_client s q c _ _ b (add_schedule (-1) b)); eauto; [split; [done | simpl; lia] | |].
  - intros E. rewrite E in Hph. simpl in Hph. by rewrite Z.eqb_refl in Hph.
  - constructor; [done | apply (iv_log _ _ I)].
Qed.

(** ** The steps of the server *)

(** A step that only moves the server on. *)
Lemma inv_server s q sv :
  ep_inv s q -> (forall d, phase_of sv d = phase_of (e_server s) d) -> serving sv = serving (e_server s) ->
  server_ok (set_server s (e_st s) sv) q -> ep_inv (set_server s (e_st s) sv) q.
Proof.
  intros I Hp Hv Hok. split; simpl; [apply (iv_service _ _ I) | apply (iv_ring _ _ I) | apply (iv_queue _ _ I) | | | done | apply (iv_log _ _ I)].
  - intros c pc. rewrite Hp. apply (iv_clients _ _ I).
  - rewrite Hv. apply (iv_server _ _ I).
Qed.

(** A woken server finds a client in the queue. *)
Lemma serving_first s q : ep_inv s q -> serving (e_server s) = 1 \/ can_pass server (e_st s) = true ->
  exists c q', q = c :: q'.
Proof.
  intros I Hp. destruct (iv_server _ _ I) as (bs & Hs & H0 & Hl). unfold can_pass in Hp. rewrite Hs, Z.ltb_lt in Hp.
  pose proof (map_sum_nonneg unposted (e_clients s) ltac:(intros []; simpl; lia)) as Hn.
  assert (0 <= serving (e_server s)) by (destruct (e_server s); simpl; lia).
  destruct q as [| c q']; [simpl in Hl; lia | eauto].
Qed.

Lemma wait_step s q :
  ep_inv s q -> e_server s = Receiving -> can_pass server (e_st s) = true ->
  exists st, recv_wait service (e_st s) = Some st /\ ep_inv (set_server s st RecvNext) q.
Proof.
  intros I Hsv Hp. destruct (serving_first s q I (or_intror Hp)) as (c & q' & ->).
  destruct (iv_server _ _ I) as (bs & Hs & H0 & Hl). unfold can_pass in Hp. rewrite Hs, Z.ltb_lt in Hp.
  destruct (queue_tcb _ _ c I) as (b & pc & N & Hb & Hc & Hok); [by left|].
  unfold recv_wait, sem_pass, upd_tcb. rewrite (proj2 (iv_service _ _ I)). cbn [mbind option_bind]. rewrite Hs.
  eexists. split; [reflexivity|]. rewrite Hsv in *.
  eapply (inv_change s _ (c :: q') (c :: q') c pc b (add_schedule (-1) bs)); simpl; eauto.
  - symmetry. by apply insert_id.
  - by rewrite lookup_insert_ne.
  - apply lookup_insert_eq.
  - intros d _ Nd. by rewrite lookup_insert_ne.
  - apply (iv_ring _ _ I).
  - intros d _. by rewrite Hsv.
  - lia.
  - simpl in Hl. lia.
  - done.
  - apply (iv_log _ _ I).
Qed.

Lemma next_step s q :
  ep_inv s q -> e_server s = RecvNext ->
  exists c q', q = c :: q' /\ recv_next service (e_st s) = Some (endpoint_hook c) /\
    ep_inv (set_server s (e_st s) (RecvRead (endpoint_hook c))) q.
Proof.
  intros I Hsv. destruct (serving_first s q I) as (c & q' & ->); [left; by rewrite Hsv|].
  exists c, q'. split; [done|]. split; [apply (first_hook _ _ _ (iv_ring _ _ I))|].
  apply inv_server; [done | intros d; by rewrite Hsv | by rewrite Hsv | exists c, q'; done].
Qed.

Lemma read_first s c q' : ep_inv s (c :: q') ->
  exists b, v_tcbs (e_st s) !! c = Some b /\
    recv_params service (endpoint_hook c) (e_st s) = Some (reg_params b, Some (tid b, extra b)).
Proof.
  intros I. destruct (iv_queue _ _ I c) as [pc Hpc]; [by left|].
  destruct (iv_clients _ _ I _ _ Hpc) as (_ & _ & Hch & _ & b & Hb & _).
  exists b. split; [done|]. unfold recv_params. rewrite hook_tcb_hook, Hb. simpl.
  by destruct (Z.eqb_spec (endpoint_hook c) (ep_client service)).
Qed.

Lemma read_step s q first :
  ep_inv s q -> e_server s = RecvRead first ->
  exists b, recv_params service first (e_st s) = Some (reg_params b, Some (tid b, extra b)) /\
    ep_inv (set_server s (e_st s) (Serving (tid b) (reg_params b))) q.
Proof.
  intros I Hsv. pose proof (iv_serving _ _ I) as K. unfold server_ok in K. rewrite Hsv in K.
  destruct K as (c & q' & -> & ->). destruct (read_first s c q' I) as (b & Hb & E). exists b. split; [done|].
  apply inv_server; [done | intros d; by rewrite Hsv | by rewrite Hsv | exists c, q', b; done].
Qed.

(** The answer goes to the first client of the queue. *)
Lemma reply_to_first s c q' v : ep_inv s (c :: q') -> v <> 0 -> reply_first service v (e_st s) = Some (Some c).
Proof.
  intros I Hv. destruct (iv_queue _ _ I c) as [pc Hpc]; [by left|].
  destruct (iv_clients _ _ I _ _ Hpc) as (_ & _ & Hch & _).
  unfold reply_first. destruct (Z.eqb_spec v 0); [done|].
  destruct (iv_service _ _ I) as [N _]. destruct (Z.eqb_spec service NULL); [done|].
  cbn [orb]. rewrite (first_hook _ _ _ (iv_ring _ _ I)). cbn [mbind option_bind hooks fmap list_fmap hd].
  destruct (Z.eqb_spec (endpoint_hook c) (ep_client service)); [done|]. by rewrite hook_tcb_hook.
Qed.

Lemma first_step s q t p :
  (forall p, f p <> 0) -> ep_inv s q -> e_server s = Serving t p ->
  exists c, reply_first service (f p) (e_st s) = Some (Some c) /\
    ep_inv (set_server s (e_st s) (ReplyStore c (f p))) q.
Proof.
  intros Hf I Hsv. pose proof (iv_serving _ _ I) as K. unfold server_ok in K. rewrite Hsv in K.
  destruct K as (c & q' & b & -> & Hb & <- & <-). exists c. split; [by eapply reply_to_first|].
  apply inv_server; [done | intros d; by rewrite Hsv | by rewrite Hsv | exists q', b; done].
Qed.

(** A client in the queue is in a call that was not answered, unless [endpoint_reply] has
    stored the answer. *)
Lemma queued_request ph q c b pc : client_ok ph q c b pc -> c ∈ q ->
  exists p, request pc = Some p /\ schedule b = 0 /\
    (ph = NoReply /\ reg_params b = p \/ ph = Answered /\ reg_params b = f p).
Proof.
  intros Hok Hq. destruct pc as [| p x | p x | p x | p | p]; simpl in Hok; [by destruct Hok.. | | |];
    exists p; (split; [done|]); destruct ph; destruct Hok; naive_solver.
Qed.

(** The request of a client whose pc is not changed. *)
Lemma request_client_ok ph q c b pc p : request pc = Some p -> request_ok ph q c b p -> client_ok ph q c b pc.
Proof. destruct pc; simpl; by intros [= ->]. Qed.

Lemma answer_step s q c v :
  ep_inv s q -> e_server s = ReplyStore c v ->
  exists st, reply_store c v (e_st s) = Some st /\ ep_inv (set_server s st (ReplyDel c)) q.
Proof.
  intros I Hsv. pose proof (iv_serving _ _ I) as K. unfold server_ok in K. rewrite Hsv in K.
  destruct K as (q' & b & -> & Hb & ->). destruct (queue_tcb _ _ c I) as (b2 & pc & N & Hb2 & Hc & Hok); [by left|].
  simplify_eq. destruct (queued_request _ _ _ _ _ Hok) as (p & Hr & H0 & [[_ Hp] | [F _]]); [by left | | by rewrite Hsv in F].
  destruct (iv_server _ _ I) as (bs & Hs & Hs0 & Hl). rewrite Hsv in Hl.
  unfold reply_store, upd_tcb. rewrite Hb. eexists. split; [reflexivity|].
  eapply (inv_change s _ (c :: q') (c :: q') c pc (set_params (f (reg_params b)) b) bs); simpl; eauto.
  - symmetry. by apply insert_id.
  - apply lookup_insert_eq.
  - by rewrite lookup_insert_ne.
  - intros d Nd _. by rewrite lookup_insert_ne.
  - apply (iv_ring _ _ I).
  - intros d Nd. rewrite Hsv. simpl. by destruct (Z.eqb_spec c d).
  - rewrite Z.eqb_refl. eapply request_client_ok; [done|]. split; [by left|]. simpl. by rewrite Hp.
  - exists q'. done.
  - apply (iv_log _ _ I).
Qed.

Lemma del_begin_step s q c :
  ep_inv s q -> e_server s = ReplyDel c -> ep_inv (set_server s (e_st s) (Deleting c)) q.
Proof.
  intros I Hsv. pose proof (iv_serving _ _ I) as K. unfold server_ok in K. rewrite Hsv in K.
  apply inv_server; [done | intros d; by rewrite Hsv | by rewrite Hsv | done].
Qed.

Lemma del_step s q c :
  ep_inv s q -> e_server s = Deleting c ->
  exists q' st, q = c :: q' /\ reply_del c (e_st s) = Some st /\ ep_inv (set_server s st (ReplyPost c)) q'.
Proof.
  intros I Hsv. pose proof (iv_serving _ _ I) as K. unfold server_ok in K. rewrite Hsv in K. destruct K as (q' & ->).
  destruct (queue_tcb _ _ c I) as (b & pc & N & Hb & Hc & Hok); [by left|].
  pose proof (queue_nodup _ _ I) as [Nc _]%NoDup_cons. rewrite Hsv in Hok. simpl in Hok. rewrite Z.eqb_refl in Hok.
  destruct (queued_request _ _ _ _ _ Hok) as (p & Hr & H0 & [[F _] | [_ Hp]]); [by left | done |].
  destruct (list_del_init_ring _ _ [] _ _ (iv_ring _ _ I)) as (m & E & R & _).
  destruct (iv_server _ _ I) as (bs & Hs & Hs0 & Hl). rewrite Hsv in Hl.
  exists q'. unfold reply_del. rewrite E. eexists. split; [done|]. split; [reflexivity|].
  eapply (inv_change s _ (c :: q') q' c pc b bs); simpl; eauto.
  - symmetry. by apply insert_id.
  - intros y. by apply (list_del_init_cells _ _ _ _ E).
  - intros d Nd. rewrite Hsv. simpl. split; [set_solver|]. by destruct (Z.eqb_spec c d).
  - rewrite Z.eqb_refl. by eapply request_client_ok.
  - simpl in Hl. lia.
  - exists pc, p. done.
  - apply (iv_log _ _ I).
Qed.

(** The client that is about to be woken has its answer. *)
Lemma removed_client s q c :
  ep_inv s q -> e_server s = ReplyPost c ->
  exists b pc p, c <> server /\ v_tcbs (e_st s) !! c = Some b /\ e_clients s !! c = Some pc /\
    request pc = Some p /\ (c ∉ q) /\ schedule b = 0 /\ reg_params b = f p.
Proof.
  intros I Hsv. pose proof (iv_serving _ _ I) as K. unfold server_ok in K. rewrite Hsv in K.
  destruct K as (pc & p & Hc & Hr). destruct (iv_clients _ _ I _ _ Hc) as (N & _ & _ & _ & b & Hb & Hok).
  exists b, pc, p. rewrite Hsv in Hok. simpl in Hok. rewrite Z.eqb_refl in Hok.
  split_and!; [done..| | |]; destruct pc; simpl in Hr; simplify_eq; by destruct Hok as (? & ? & ?).
Qed.

Lemma wake_step s q c :
  ep_inv s q -> e_server s = ReplyPost c ->
  exists st, sem_post c (e_st s) = Some st /\ ep_inv (set_server s st Receiving) q.
Proof.
  intros I Hsv. destruct (removed_client s q c I Hsv) as (b & pc & p & N & Hb & Hc & Hr & Hq & H0 & Hp).
  destruct (iv_server _ _ I) as (bs & Hs & Hs0 & Hl). rewrite Hsv in Hl.
  unfold sem_post, upd_tcb. rewrite Hb. eexists. split; [reflexivity|].
  eapply (inv_change s _ q q c pc (add_schedule 1 b) bs); simpl; eauto.
  - symmetry. by apply insert_id.
  - apply lookup_insert_eq.
  - by rewrite lookup_insert_ne.
  - intros d Nd _. by rewrite lookup_insert_ne.
  - apply (iv_ring _ _ I).
  - intros d Nd. rewrite Hsv. simpl. by destruct (Z.eqb_spec c d).
  - eapply request_client_ok; [done|]. right. split; [done|]. simpl. split; [lia | done].
  - done.
  - apply (iv_log _ _ I).
Qed.

(** A new tcb is not in any list, and no object changes. *)
Lemma join_step s q g j t st :
  ep_inv s q -> below (e_st s) -> tcb_create g j (e_st s) = (t, st) ->
  ep_inv (ESys st (if t =? NULL then e_clients s else <[t := Idle]> (e_clients s)) (e_server s) (e_log s)) q.
Proof.
  intros I (A & B & C) E. unfold tcb_create in E.
  pose proof (malloc_cases (v_alloc (e_st s)) sizeof_tcb A ltac:(unfold sizeof_tcb; lia)) as M.
  destruct (malloc (v_alloc (e_st s)) sizeof_tcb) as [r a]. destruct M as (_ & _ & M).
  destruct (Z.eqb_spec r NULL) as [-> | N]; injection E as <- <-; [by destruct I; split|].
  rewrite (proj2 (Z.eqb_neq r NULL) N). destruct M as [M | (-> & Hr & _)]; [done|].
  set (r := a_next (v_alloc (e_st s))) in *.
  assert (forall x, is_Some (v_tcbs (e_st s) !! x) -> x <> r) as Ct by (intros x Hx; specialize (C x Hx); lia).
  assert (forall x, is_cell (v_cells (e_st s)) x -> x <> domain_hook r /\ x <> endpoint_hook r) as Cc.
  { intros x Hx. specialize (B x Hx). unfold domain_hook, endpoint_hook. lia. }
  assert (is_cell (v_cells (e_st s)) (ep_client service)) as Hh by (eapply ring_cell; [apply (iv_ring _ _ I) | by left]).
  assert (e_clients s !! r = None) as Hr0.
  { destruct (e_clients s !! r) as [pc |] eqn:Ep; [|done].
    destruct (iv_clients _ _ I _ _ Ep) as (_ & _ & _ & _ & b & Hb & _). by destruct (Ct r). }
  split; simpl; [apply (iv_service _ _ I) | | | | | | apply (iv_log _ _ I)].
  - eapply ring_frame; [|apply (iv_ring _ _ I)]. intros y Hy.
    destruct (Cc y); [by eapply ring_cell; [apply (iv_ring _ _ I)|]|].
    unfold INIT_LIST_HEAD. by rewrite !lookup_insert_ne.
  - intros c Hc. destruct (iv_queue _ _ I c Hc) as [pc Hpc]. rewrite lookup_insert_ne by congruence. eauto.
  - intros c pc Hc. rewrite !init_cells. destruct (decide (c = r)) as [-> | Nc].
    + rewrite lookup_insert_eq in Hc. injection Hc as <-. rewrite lookup_insert_eq.
      destruct (iv_server _ _ I) as (bs & Hs & _). destruct (Cc _ Hh) as [_ Hep].
      split_and!; [by intros F; destruct (Ct server); [eauto|] | done | congruence | by left |].
      eexists. split; [done|]. split; [|done]. intros Hq. destruct (iv_queue _ _ I r Hq) as [? ?]. congruence.
    + rewrite lookup_insert_ne in Hc by done. rewrite lookup_insert_ne by done.
      destruct (iv_clients _ _ I _ _ Hc) as (J1 & J2 & J3 & J4 & J5). split_and!; auto.
  - destruct (iv_server _ _ I) as (bs & Hs & H0 & Hl). exists bs. rewrite lookup_insert_ne by (intros F; destruct (Ct server); eauto).
    split; [done|]. split; [done|]. unfold map_sum in *. rewrite map_fold_insert_L; [|intros; lia|done]. simpl. done.
  - rewrite <- (app_nil_r q). apply (server_ok_keep s); [apply (iv_serving _ _ I) | done | |]; simpl.
    + intros d Hd. destruct (queue_tcb _ _ _ I Hd) as (bd & _ & _ & Hbd & _).
      exists bd, bd. rewrite lookup_insert_ne; [done|]. intros F. destruct (Ct d); eauto.
    + intros d pd p _ Hpd Hp. rewrite lookup_insert_ne by congruence. eauto.
Qed.

(** The steps of a call that is under way keep the invariant and bring the end nearer. *)
Lemma client_step a s s' q c pc :
  ep_inv s q -> e_clients s !! c = Some pc -> client_next service a s c pc = Some s' ->
  exists q', ep_inv s' q' /\ (quiet a = true -> ep_left s' q' < ep_left s q).
Proof.
  intros I Hc E. unfold ep_left.
  assert (forall pc', map_sum pc_left (<[c := pc']> (e_clients s)) =
    map_sum pc_left (e_clients s) + pc_left pc' - pc_left pc) as L by (intros pc'; rewrite (map_sum_insert _ _ _ _ _ Hc); lia).
  destruct a, pc; try done; cbn [client_next] in E.
  - destruct (send_valid service c); [|done]. destruct (store_step s q c p x I Hc) as (st & E' & I').
    rewrite E' in E. injection E as <-. exists q. by split.
  - injection E as <-. exists q. split; [by apply begin_step|]. simpl. rewrite L. simpl. lia.
  - destruct (add_step s q c param x I Hc) as (st & E' & I'). rewrite E' in E. injection E as <-.
    exists (q ++ [c]). split; [done|]. simpl. rewrite L, length_app. simpl. lia.
  - destruct (extra_step s q c param x I Hc) as (st & E' & I'). rewrite E' in E. injection E as <-.
    exists q. split; [done|]. simpl. rewrite L. simpl. lia.
  - destruct (post_step s q c param I Hc) as (st & E' & I'). rewrite E' in E. injection E as <-.
    exists q. split; [done|]. simpl. rewrite L. simpl. lia.
  - destruct (can_pass c (e_st s)) eqn:Hp; [|done]. destruct (return_step s q c param I Hc Hp) as (st & E' & I').
    rewrite E' in E. injection E as <-. exists q. split; [done|]. simpl. rewrite L. simpl. lia.
Qed.

Lemma server_step a s s' q :
  (forall p, f p <> 0) -> ep_inv s q -> server_next service server f a s = Some s' ->
  exists q', ep_inv s' q' /\ ep_left s' q' < ep_left s q.
Proof.
  intros Hf I E. unfold server_next in E. unfold ep_left.
  destruct a; try done; destruct (e_server s) eqn:Hsv; try done.
  - destruct (can_pass server (e_st s)) eqn:Hp; [|done]. destruct (wait_step s q I Hsv Hp) as (st & E' & I').
    rewrite E' in E. injection E as <-. exists q. split; [done | simpl; lia].
  - destruct (next_step s q I Hsv) as (c & q' & _ & E' & I'). rewrite E' in E. injection E as <-.
    exists q. split; [done | simpl; lia].
  - destruct (read_step s q first I Hsv) as (b & E' & I'). rewrite E' in E. injection E as <-.
    exists q. split; [done | simpl; lia].
  - destruct (first_step s q t param Hf I Hsv) as (c & E' & I'). rewrite E' in E. injection E as <-.
    exists q. split; [done | simpl; lia].
  - destruct (answer_step s q client params I Hsv) as (st & E' & I'). rewrite E' in E. injection E as <-.
    exists q. split; [done | simpl; lia].
  - injection E as <-. exists q. split; [by apply del_begin_step | simpl; lia].
  - destruct (del_step s q client I Hsv) as (q' & st & -> & E' & I'). rewrite E' in E. injection E as <-.
    exists q'. split; [done | simpl length; simpl; lia].
  - destruct (wake_step s q client I Hsv) as (st & E' & I'). rewrite E' in E. injection E as <-.
    exists q. split; [done | simpl; lia].
Qed.

Lemma ep_next_inv a s s' q :
  (forall p, f p <> 0) -> ep_inv s q -> below (e_st s) -> ep_next service server f a s = Some s' ->
  exists q', ep_inv s' q' /\ (quiet a = true -> ep_left s' q' < ep_left s q).
Proof.
  intros Hf I B E. unfold ep_next in E. destruct (race_free s); [|done]. cbn [negb] in E.
  destruct a; try (destruct (e_clients s !! c) as [pc |] eqn:Hc; [|done]; by eapply client_step);
    try (destruct (server_step _ _ _ _ Hf I E) as (q' & I' & L'); by eauto).
  destruct (tcb_create _ _ _) as [t st] eqn:Et. injection E as <-. exists q. split; [by eapply join_step | done].
Qed.

(** Every operation keeps what exists below the next address. *)
Lemma send_add_below c st st' : send_add service c st = Some st' -> below st -> below st'.
Proof.
  unfold send_add. destruct (list_add_tail _ _ _) as [m |] eqn:E; [|done]. intros [= <-].
  apply cells_below. intros x. by apply (list_add_tail_cells _ _ _ _ _ E).
Qed.

Lemma reply_del_below c st st' : reply_del c st = Some st' -> below st -> below st'.
Proof.
  unfold reply_del. destruct (list_del_init _ _) as [m |] eqn:E; [|done]. intros [= <-].
  apply cells_below. intros x. by apply (list_del_init_cells _ _ _ _ E).
Qed.

Lemma send_return_below c r st st' : send_return c st = Some (r, st') -> below st -> below st'.
Proof.
  unfold send_return, sem_pass. destruct (upd_tcb _ _ _) as [s1 |] eqn:E; [|done]. cbn [mbind option_bind].
  destruct (v_tcbs s1 !! c); [|done]. intros [= _ <-]. by eapply upd_tcb_below.
Qed.

Lemma bind_below (x : option vstate) (g : vstate -> esys) st0 s' :
  x ≫= (fun st => Some (g st)) = Some s' -> (forall st, e_st (g st) = st) ->
  (forall st, x = Some st -> below st0 -> below st) -> below st0 -> below (e_st s').
Proof. destruct x as [st |]; [|done]. intros [= <-] Hg Hx. rewrite Hg. auto. Qed.

Lemma client_next_below a s c pc s' :
  client_next service a s c pc = Some s' -> below (e_st s) -> below (e_st s').
Proof.
  destruct a, pc; cbn [client_next]; try done; [destruct (send_valid _ _); [|done]| | | | |destruct (can_pass _ _); [|done]];
    try (intros E; eapply bind_below; [exact E | done |]; intros st).
  - by apply upd_tcb_below.
  - by intros [= <-].
  - apply send_add_below.
  - by apply upd_tcb_below.
  - unfold send_post. destruct (v_eps _ !! _); [apply upd_tcb_below | done].
  - destruct (send_return _ _) as [[r st] |] eqn:E; [|done]. intros [= <-]. by eapply send_return_below.
Qed.

Lemma server_next_below a s s' :
  server_next service server f a s = Some s' -> below (e_st s) -> below (e_st s').
Proof.
  unfold server_next. destruct a, (e_server s); try done; [destruct (can_pass _ _); [|done]| | | | | | |];
    try (intros E; eapply bind_below; [exact E | done |]; intros st).
  - unfold recv_wait. destruct (v_eps _ !! _); [apply upd_tcb_below | done].
  - destruct (recv_next _ _); [|done]. by intros [= <-].
  - destruct (recv_params _ _ _) as [[p [[t x] |]] |]; try done. by intros [= <-].
  - destruct (reply_first _ _ _); [|done]. by intros [= <-].
  - apply upd_tcb_below.
  - by intros [= <-].
  - apply reply_del_below.
  - apply upd_tcb_below.
Qed.

Lemma ep_next_below a s s' : ep_next service server f a s = Some s' -> below (e_st s) -> below (e_st s').
Proof.
  unfold ep_next. destruct (negb _); [done|].
  destruct a; try apply server_next_below;
    try (destruct (e_clients s !! c) as [pc |]; [apply client_next_below | done]).
  destruct (tcb_create _ _ _) as [t st] eqn:E. intros [= <-]. by eapply tcb_create_below.
Qed.

Lemma ep_step_inv s s' :
  (forall p, f p <> 0) -> (exists q, ep_inv s q) /\ below (e_st s) -> ep_step service server f s s' ->
  (exists q, ep_inv s' q) /\ below (e_st s').
Proof.
  intros Hf ((q & I) & B) [a E]. split; [|by eapply ep_next_below].
  destruct (ep_next_inv a s s' q Hf I B E) as (q' & I' & _). eauto.
Qed.

(** ** Progress *)

(** A client that is in a call can go on, unless it waits. *)
Lemma client_goes s q c pc :
  ep_inv s q -> race_free s = true -> e_clients s !! c = Some pc ->
  match pc with Idle => False | Waiting _ => can_pass c (e_st s) = true | _ => True end ->
  exists s', ep_quiet service server f s s'.
Proof.
  intros I Rf Hc Hpc. assert (forall a s', quiet a = true -> client_next service a s c pc = Some s' ->
    match a with ABegin d | AAdd d | AExtra d | APost d | AReturn d => d = c | _ => False end ->
    exists s', ep_quiet service server f s s') as K.
  { intros a s' Q E Hd. exists s', a. split; [done|]. unfold ep_next. rewrite Rf. cbn [negb].
    destruct a; try done; subst; rewrite Hc; done. }
  destruct pc as [| p x | p x | p x | p | p]; [done | | | | |].
  - by eapply (K (ABegin c)).
  - destruct (add_step s q c p x I Hc) as (st & E & _). eapply (K (AAdd c)); [done | simpl; by rewrite E | done].
  - destruct (extra_step s q c p x I Hc) as (st & E & _). eapply (K (AExtra c)); [done | simpl; by rewrite E | done].
  - destruct (post_step s q c p I Hc) as (st & E & _). eapply (K (APost c)); [done | simpl; by rewrite E | done].
  - destruct (return_step s q c p I Hc Hpc) as (st & E & _).
    eapply (K (AReturn c)); [done | simpl; by rewrite Hpc, E | done].
Qed.

(** A server that was woken can go on. *)
Lemma server_goes s q :
  (forall p, f p <> 0) -> ep_inv s q -> race_free s = true ->
  e_server s <> Receiving \/ can_pass server (e_st s) = true -> exists s', ep_quiet service server f s s'.
Proof.
  intros Hf I Rf Hp. assert (forall a s', match a with
    | ARecvWait | ARecvNext | ARecvRead | AReplyFirst | AReplyStore | AReplyBegin | AReplyDel | AReplyPost => True
    | _ => False end -> server_next service server f a s = Some s' -> exists s', ep_quiet service server f s s') as K.
  { intros a s' Q E. exists s', a. unfold ep_next. rewrite Rf. by destruct a. }
  unfold server_next in K. destruct (e_server s) as [| | first | t p | c v | c | c | c] eqn:Hsv.
  - destruct Hp as [Hp | Hp]; [done|]. destruct (wait_step s q I Hsv Hp) as (st & E & _).
    eapply (K ARecvWait); [done | by rewrite Hp, E].
  - destruct (next_step s q I Hsv) as (c & q' & _ & E & _). eapply (K ARecvNext); [done | by rewrite E].
  - destruct (read_step s q first I Hsv) as (b & E & _). eapply (K ARecvRead); [done | by rewrite E].
  - destruct (first_step s q t p Hf I Hsv) as (c & E & _). eapply (K AReplyFirst); [done | by rewrite E].
  - destruct (answer_step s q c v I Hsv) as (st & E & _). eapply (K AReplyStore); [done | by rewrite E].
  - by eapply (K AReplyBegin).
  - destruct (del_step s q c I Hsv) as (q' & st & _ & E & _). eapply (K AReplyDel); [done | by rewrite E].
  - destruct (wake_step s q c I Hsv) as (st & E & _). eapply (K AReplyPost); [done | by rewrite E].
Qed.

(** While a client is in a call, the clients and the server can go on. *)
Lemma ep_goes_on s q c pc :
  (forall p, f p <> 0) -> ep_inv s q -> race_free s = true ->
  e_clients s !! c = Some pc -> pc <> Idle -> exists s', ep_quiet service server f s s'.
Proof.
  intros Hf I Rf Hc Hpc. destruct pc as [| p x | p x | p x | p | p]; try by eapply (client_goes s q c).
  destruct (iv_clients _ _ I _ _ Hc) as (_ & _ & _ & _ & b & Hb & Hok).
  destruct (decide (e_server s = Receiving)) as [Hsv | Hsv]; [|by eapply server_goes; eauto].
  rewrite Hsv in Hok. destruct Hok as [(Hq & _) | (_ & H1 & _)].
  - destruct (iv_server _ _ I) as (bs & Hbs & H0 & Hl). rewrite Hsv in Hl. simpl in Hl.
    assert (length q <> 0%nat) by (intros ->%nil_length_inv; set_solver).
    destruct (decide (0 < map_sum unposted (e_clients s))) as [Hm | Hm].
    + destruct (map_sum_pos _ _ Hm) as (d & pd & Hd & Hw). eapply (client_goes s q d pd); [done..|]. destruct pd; simpl in Hw; done || lia.
    + eapply server_goes; [done..|]. right. unfold can_pass. rewrite Hbs. apply Z.ltb_lt. lia.
  - eapply (client_goes s q c); [done..|]. simpl. unfold can_pass. rewrite Hb. apply Z.ltb_lt. lia.
Qed.

Lemma quiet_steps_bound n s s' q :
  (forall p, f p <> 0) -> ep_inv s q -> below (e_st s) -> nsteps (ep_quiet service server f) n s s' ->
  exists q', ep_inv s' q' /\ 0 <= ep_left s' q' <= ep_left s q - Z.of_nat n.
Proof.
  intros Hf I B St. revert q I B. induction St as [s | n s1 s2 s3 (a & Q & E) _ IH]; intros q I B.
  - exists q. split; [done|]. unfold ep_left.
    pose proof (map_sum_nonneg pc_left (e_clients s) ltac:(intros []; simpl; lia)). destruct (e_server s); simpl; lia.
  - destruct (ep_next_inv _ _ _ _ Hf I B E) as (q1 & I1 & L1). specialize (L1 Q).
    destruct (IH q1 I1) as (q' & I' & L'); [by eapply ep_next_below|]. exists q'. split; [done | lia].
Qed.

End Service.

(** ** A service, as main of vdso_test/test.c sets it up *)

Definition ep_init (a : alloc) (gettid : Z) (junk : Z * Z) : option (Z * Z * vstate) :=
  let '(server, s) := tcb_create gettid junk (VState a ∅ ∅ ∅ ∅) in
  let '(service, s) := endpoint_create server s in
  if (server =? NULL) || (service =? NULL) then None else Some (service, server, s).

Lemma ep_init_inv a g j service server st f :
  alloc_ok a -> ep_init a g j = Some (service, server, st) ->
  ep_inv service server f (ESys st ∅ Receiving []) [] /\ below st.
Proof.
  intros A E. unfold ep_init in E.
  destruct (tcb_create g j _) as [sv s1] eqn:E1.
  assert (below s1) as (A1 & B1 & C1).
  { eapply tcb_create_below; [done|]. split; [done|].
    split; intros x [y Hy]; simpl in Hy; by rewrite lookup_empty in Hy. }
  unfold endpoint_create in E.
  pose proof (malloc_cases (v_alloc s1) sizeof_endpoint A1 ltac:(unfold sizeof_endpoint; lia)) as M.
  destruct (malloc (v_alloc s1) sizeof_endpoint) as [e a2]. destruct M as (A2 & L2 & M).
  destruct (Z.eqb_spec sv NULL) as [-> | Nv]; [done|].
  destruct (Z.eqb_spec e NULL) as [-> | Ne]; simpl in E; [done|].
  rewrite (proj2 (Z.eqb_neq e NULL) Ne) in E. injection E as <- <- <-.
  destruct M as [M | (-> & _ & M)]; [done|]. unfold sizeof_endpoint in M. split.
  - split; simpl; [| |intros c Hc; set_solver|by intros c pc Hc| |done|done].
    + by rewrite lookup_insert_eq.
    + split; [apply NoDup_singleton|]. unfold hooks. cbn [fmap list_fmap seg].
      unfold link, get_next, get_prev, INIT_LIST_HEAD. by rewrite lookup_insert_eq.
    + unfold tcb_create in E1. cbn [v_alloc v_tcbs] in E1. destruct (malloc a sizeof_tcb) as [r a1]. destruct (r =? NULL) eqn:Er;
        injection E1 as <- <-; [by apply Z.eqb_eq in Er|].
      simpl. rewrite lookup_insert_eq. eexists. split; [done|]. simpl.
      unfold map_sum. rewrite map_fold_empty. simpl. lia.
  - split; simpl; [done|]. split; intros x.
    + rewrite init_cells. unfold ep_client. intros [-> | Hx]; [lia|]. specialize (B1 x Hx). lia.
    + intros Hx. specialize (C1 x Hx). lia.
Qed.

Lemma ep_reach_inv a g j service server st f s :
  alloc_ok a -> ep_init a g j = Some (service, server, st) -> (forall p, f p <> 0) ->
  rtc (ep_step service server f) (ESys st ∅ Receiving []) s ->
  (exists q, ep_inv service server f s q) /\ below (e_st s).
Proof.
  intros A E Hf R. destruct (ep_init_inv a g j service server st f A E) as [I B].
  apply (rtc_invariant (ep_step service server f)
    (fun s => (exists q, ep_inv service server f s q) /\ below (e_st s))) in R; [done | |eauto].
  intros x y. by apply ep_step_inv.
Qed.

(** A server (thread 10) with its endpoint, and the clients that join it, in memory
    from address 4096 on. *)
Definition ep_demo_alloc : alloc := Alloc 4096 [].
Definition ep_demo_init : option (Z * Z * vstate) := ep_init ep_demo_alloc 10 (0, 0).
Definition ep_demo_service : Z := 4192.
Definition ep_demo_server : Z := 4096.
Definition ep_demo_run (l : list ep_action) : option esys :=
  '(_, _, st) ← ep_demo_init; ep_acts ep_demo_service ep_demo_server (fun p => 2 * p + 1) l (ESys st ∅ Receiving []).

(** The steps of a call up to the wakeup of the server, and those of the server. *)
Definition demo_send (c : Z) : list ep_action := [ABegin c; AAdd c; AExtra c; APost c].
Definition demo_recv : list ep_action := [ARecvWait; ARecvNext; ARecvRead].
Definition demo_reply : list ep_action := [AReplyFirst; AReplyStore; AReplyBegin; AReplyDel; AReplyPost].

(** Client 4224 (thread 11) and client 4320 (thread 12) call at the same time. *)
Definition demo_calls : list ep_action :=
  [AJoin 11 (0, 0); AJoin 12 (0, 0); AStart 4224 7 70; AStart 4320 8 80; ABegin 4224; AAdd 4224] ++
  demo_send 4320 ++ demo_recv ++ [AExtra 4224] ++ demo_reply ++ [APost 4224; AReturn 4224] ++
  demo_recv ++ demo_reply ++ [AReturn 4320].

(** Both clients are inside [list_add_tail]. *)
Definition demo_race : list ep_action := take 4 demo_calls ++ [ABegin 4224; ABegin 4320].

(** Client 2 of vdso_test/test.c: it makes a domain of its own and then refers to the
    domain that client 1 has made. *)
Definition demo_domains : option (Z * Z * vstate) :=
  let '(c1, s) := tcb_create 11 (0, 0) (VState ep_demo_alloc ∅ ∅ ∅ ∅) in
  let '(c2, s) := tcb_create 12 (0, 0) s in
  '(shared, s) ← domain_create 8192 c1 s;
  '(private, s) ← domain_create 12288 c2 s;
  '(_, s) ← domain_refer 4 shared c2 s;
  Some (shared, private, s).

(** A walk that stays among nodes other than the head does not end. *)
Lemma walk_trapped m head (S : list Z) fuel : forall pos,
  head ∉ S -> (forall x, x ∈ S -> exists y, get_next m x = Some y /\ y ∈ S) ->
  pos ∈ S -> list_walk fuel m head pos = None.
Proof.
  induction fuel as [| fuel IH]; intros pos Hh HS Hp; simpl; [done|].
  destruct (Z.eqb_spec pos head) as [-> | N]; [done|].
  destruct (HS pos Hp) as (y & -> & Hy). simpl. by rewrite (IH y).
Qed.

(** ** Theorems *)

(** C23: endpoint_send is a remote call.  For a server that answers every parameter
    [p] with [f p], which is not 0 (endpoint_reply drops an answer of 0), any number of
    clients and every interleaving of their accesses up to the first race for the list
    of the endpoint, which the code changes without a lock (two operations that change
    it overlap): each call that has returned returned [f] of its own parameter; the
    server that is woken finds a client at the head of the list; what it takes is that
    client's number and parameter, and the client that its answer goes to is the same;
    and the client that is about to be woken is off the list and has [f] of the
    parameter of its call. *)
Theorem endpoint_call_correct a g j service server st f s :
  alloc_ok a -> ep_init a g j = Some (service, server, st) -> (forall p, f p <> 0) ->
  rtc (ep_step service server f) (ESys st ∅ Receiving []) s ->
  Forall (fun '(c, p, r) => r = f p) (e_log s) /\
  (e_server s = RecvNext -> exists c b, recv_next service (e_st s) = Some (endpoint_hook c) /\
    v_tcbs (e_st s) !! c = Some b /\
    recv_params service (endpoint_hook c) (e_st s) = Some (reg_params b, Some (tid b, extra b))) /\
  (forall t p, e_server s = Serving t p ->
    exists c b, v_tcbs (e_st s) !! c = Some b /\ tid b = t /\ reg_params b = p /\
      reply_first service (f p) (e_st s) = Some (Some c)) /\
  (forall c, e_server s = ReplyPost c ->
    exists b pc p clients, v_tcbs (e_st s) !! c = Some b /\ reg_params b = f p /\
      e_clients s !! c = Some pc /\ request pc = Some p /\
      ring (v_cells (e_st s)) (ep_client service) (hooks clients) /\ (c ∉ clients)).
Proof.
  intros A E Hf R. destruct (ep_reach_inv a g j service server st f s A E Hf R) as ((q & I) & _). split_and!.
  - apply (iv_log _ _ _ _ _ I).
  - intros Hs. destruct (next_step _ _ _ s q I Hs) as (c & q' & -> & Er & _).
    destruct (read_first _ _ _ s c q' I) as (b & Hb & Eb). eauto.
  - intros t p Hs. pose proof (iv_serving _ _ _ _ _ I) as K. unfold server_ok in K. rewrite Hs in K.
    destruct K as (c & q' & b & -> & Hb & Ht & Hr). exists c, b. split_and!; [done..|].
    by eapply (reply_to_first _ _ _ s c q').
  - intros c Hs. destruct (removed_client _ _ _ s q c I Hs) as (b & pc & p & _ & Hb & Hc & Hr & Hq & _ & Hp).
    exists b, pc, p, q. split_and!; [done..| apply (iv_ring _ _ _ _ _ I) | done].
Qed.

Lemma endpoint_call_correct_witness :
  exists s, ep_demo_run demo_calls = Some s /\ length (e_log s) = 2%nat /\
    Forall (fun '(c, p, r) => r = 2 * p + 1) (e_log s).
Proof.
  eexists. split; [vm_compute; reflexivity|]. split; [vm_compute; reflexivity|].
  refine (proj1 (endpoint_call_correct ep_demo_alloc 10 (0, 0) ep_demo_service ep_demo_server _ (fun p => 2 * p + 1) _ _ _ _
    (ep_acts_steps ep_demo_service ep_demo_server (fun p => 2 * p + 1) demo_calls _ _ _)));
    [vm_compute; split; congruence | vm_compute; reflexivity | intros p; lia | vm_compute; reflexivity].
Defined.

(** C25: no call hangs.  For a server that answers every parameter [p] with [f p], which
    is not 0 (endpoint_reply drops an answer of 0), and from every state that is reached
    without a race for the unlocked list of the endpoint: the clients and the server
    make only a bounded number of steps without a new call, and when none of them can
    go on, no client is in a call, unless two operations that change the list overlap
    now. *)
Theorem endpoint_no_lost_wakeup a g j service server st f s :
  alloc_ok a -> ep_init a g j = Some (service, server, st) -> (forall p, f p <> 0) ->
  rtc (ep_step service server f) (ESys st ∅ Receiving []) s ->
  exists bound, forall n s', nsteps (ep_quiet service server f) n s s' -> (n <= bound)%nat /\
    ((forall s'', ~ ep_quiet service server f s' s'') -> race_free s' = true ->
     forall c pc, e_clients s' !! c = Some pc -> pc = Idle).
Proof.
  intros A E Hf R. destruct (ep_reach_inv a g j service server st f s A E Hf R) as ((q & I) & B).
  exists (Z.to_nat (ep_left s q)). intros n s' St.
  destruct (quiet_steps_bound _ _ _ n s s' q Hf I B St) as (q' & I' & L). split; [lia|].
  intros Stuck Rf c pc Hc. destruct (decide (pc = Idle)) as [|N]; [done|].
  destruct (ep_goes_on _ _ _ s' q' c pc Hf I' Rf Hc N) as [s'' St']. by destruct (Stuck s'').
Qed.

Lemma endpoint_no_lost_wakeup_witness :
  exists s, ep_demo_run (take 10 demo_calls) = Some s /\
  exists bound, forall n s', nsteps (ep_quiet ep_demo_service ep_demo_server (fun p => 2 * p + 1)) n s s' -> (n <= bound)%nat /\
    ((forall s'', ~ ep_quiet ep_demo_service ep_demo_server (fun p => 2 * p + 1) s' s'') -> race_free s' = true ->
     forall c pc, e_clients s' !! c = Some pc -> pc = Idle).
Proof.
  eexists. split; [vm_compute; reflexivity|].
  refine (endpoint_no_lost_wakeup ep_demo_alloc 10 (0, 0) ep_demo_service ep_demo_server _ (fun p => 2 * p + 1) _ _ _ _
    (ep_acts_steps ep_demo_service ep_demo_server (fun p => 2 * p + 1) (take 10 demo_calls) _ _ _));
    [vm_compute; split; congruence | vm_compute; reflexivity | intros p; lia | vm_compute; reflexivity].
Defined.

(** What the calls do not guard against.  Two clients that call at the same time can
    both be inside list_add_tail.  A client stores its second parameter
    after it is in the queue: when another client wakes the server in between,
    endpoint_recv returns the parameter 7 of the first client with an [extra] of 0
    instead of 70.  An answer of 0 is dropped and its client is not woken.  A thread
    has one hook for all domains: a client that makes a domain and then refers to
    another one is taken over by the list of the other, and a walk over the clients of
    its own domain never ends. *)
Theorem endpoint_domain_limits :
  (exists s, ep_demo_run demo_race = Some s /\ race_free s = false) /\
  (exists s st, ep_demo_run (take 10 demo_calls) = Some s /\
     e_clients s !! 4224 = Some (Queued 7 70) /\
     endpoint_recv ep_demo_service (e_st s) = Some (7, Some (11, 0), st)) /\
  (forall service st, endpoint_reply service 0 st = Some st) /\
  (exists shared private s, demo_domains = Some (shared, private, s) /\
     list_for_each 4 (v_cells s) (domain_client shared) = Some [4192; 4096] /\
     forall fuel, list_for_each fuel (v_cells s) (domain_client private) = None).
Proof.
  split_and!.
  - eexists. split; vm_compute; reflexivity.
  - eexists _, _. split; [vm_compute; reflexivity|]. split; vm_compute; reflexivity.
  - done.
  - eexists _, _, _. split; [vm_compute; reflexivity|]. split; [vm_compute; reflexivity|].
    intros fuel. unfold list_for_each.
    set (m := v_cells _). change (get_next m (domain_client 4336)) with (Some 4192). simpl.
    apply (walk_trapped _ _ [4192; 4096; 4288]); [by vm_compute; set_solver| |by left].
    intros x Hx. set_unfold in Hx. destruct Hx as [-> | [-> | [-> | []]]]; eexists; (split; [vm_compute; reflexivity|]); set_solver.
Qed.
