(* ===== verification/LibBitmap.v ===== *)
(** * LibBitmap: the bitmap of lib/bitmap/bitmap.c

    The earlier version of the block bitmap, over the atomic counters of lib
    ([Atomic.Split]).  The struct is that of userfs (the bits are [char] instead of
    [unsigned char]; both are used bit by bit), and memory is a page as in Bitmap.
    rpc_test/bitmap/bitmap.c is the same file.

    Compared with userfs, [bitmap_get_first_free] has no test for a full bitmap, and
    keeps the cached position when the search leaves the bitmap.  On a bitmap that was
    just made neither shows: the search for the position after the last one reads behind
    the memory of the bitmap before. *)
From S2P Require Import Prelude Atomic Bitmap.
Local Open Scope Z_scope.

Definition lib_atomic_add (var val : Z) : Z := atomic_set var (Split.lib_atomic_add_arg var val).
Definition lib_atomic_sub (var val : Z) : Z := atomic_set var (Split.lib_atomic_sub_arg var val).

Definition lib_bitmap_init (p : page) (b bytes : Z) : option page :=
  p ← store32 p (bm_bytes b) bytes;
  p ← memset p (bm_bitmap b) 0 bytes;
  used ← load_int p (bm_used_bits_count b);
  p ← store32 p (bm_used_bits_count b) (atomic_set used 0);
  first ← load_int p (bm_first_free_pos b);
  store32 p (bm_first_free_pos b) (atomic_set first 0).

Definition lib_bitmap_create (bytes : Z) (malloced : option content) : option (option page) :=
  if BITMAP_MAX_BYTES <? bytes then Some None
  else match malloced with
       | None => Some None
       | Some g => p ← lib_bitmap_init (Page (bytes + sizeof_bitmap) g) 0 bytes; Some (Some p)
       end.

Definition lib_bitmap_set_val (p : page) (bitmap : option Z) (pos val : Z) : option (page * Z) :=
  match bitmap with
  | None => Some (p, -1)
  | Some b =>
      bytes ← load32 p (bm_bytes b);
      if u32 (Z.shiftl bytes 3) <? pos then Some (p, -1)
      else
        '(p, _) ← or_byte p b pos (Z.shiftl val (Z.land pos 7));
        Some (p, 0)
  end.

Definition lib_bitmap_clear (p : page) (b pos : Z) : option (page * Z) :=
  '(p, x) ← or_byte p b pos (Z.shiftl 0 (Z.land pos 7));
  if x =? 0 then Some (p, -1)
  else
    used ← load_int p (bm_used_bits_count b);
    p ← store32 p (bm_used_bits_count b) (lib_atomic_sub used 1);
    first ← load_int p (bm_first_free_pos b);
    p ← (if pos <? u32 (atomic_get first)
         then store32 p (bm_first_free_pos b) (atomic_set first pos) else Some p);
    lib_bitmap_set_val p (Some b) pos 0.

Definition lib_bitmap_set (p : page) (b pos : Z) : option (page * Z) :=
  '(p, x) ← or_byte p b pos (Z.shiftl 1 (Z.land pos 7));
  if x =? 0 then Some (p, -1)
  else
    used ← load_int p (bm_used_bits_count b);
    p ← store32 p (bm_used_bits_count b) (lib_atomic_add used 1);
    lib_bitmap_set_val p (Some b) pos 1.

Definition lib_bitmap_get_first_free (p : page) (bitmap : option Z) : option (page * Z) :=
  match bitmap with
  | None => Some (p, -1)
  | Some b =>
      first ← load_int p (bm_first_free_pos b);
      let first_pos := atomic_get first in
      '(p, _) ← lib_bitmap_set p b (u32 first_pos);
      pos ← scan_free (Z.to_nat (8 * p_size p)) p b (first_pos + 1);
      bytes ← load32 p (bm_bytes b);
      if u32 pos <? u32 (Z.shiftl bytes 3)
      then p ← store32 p (bm_first_free_pos b) (atomic_set first pos); Some (p, first_pos)
      else Some (p, first_pos)
  end.

(** ** The two versions *)

(** As long as another position stays free the two do the same. *)
Lemma lib_get_agrees lim p b nb :
  packed lim p b nb -> first p b < lim -> first p b + 1 < 8 * nb ->
  lib_bitmap_get_first_free p (Some b) = bitmap_get_first_free p (Some b).
Proof.
  intros [[L SR HL SL FR BL AT US] A] Hlt Hn. pose proof L as [? ? ? EB].
  destruct (bitmap_set_spec p b nb (first p b)) as (p1 & E1 & F1 & B1 & _ & _); [done|lia|].
  pose proof (layout_frame _ _ _ _ L F1) as L1. pose proof L1 as [? ? ? EB1]. pose proof F1 as [S1 _].
  assert (Es : scan_free (Z.to_nat (8 * p_size p1)) p1 b (first p b + 1) = Some (first p b + 1)).
  { assert ((first p b + 1) / 8 < nb) by (apply Z.div_lt_upper_bound; lia).
    apply scan_free_found; [done|lia|lia|intros; lia| |bm_unfold; lia]. rewrite B1, A by lia. by zdec. }
  unfold lib_bitmap_get_first_free, bitmap_get_first_free.
  rewrite load_int_in by (bm_unfold; lia). cbn [mbind option_bind]. rewrite load_in by (bm_unfold; lia).
  cbn [mbind option_bind]. fold (first p b). unfold atomic_get. rewrite EB, bits_lt, (u32_small (first p b)) by lia. zdec.
  change (lib_bitmap_set p b (first p b)) with (bitmap_set p b (first p b)). rewrite E1. cbn [mbind option_bind]. zdec.
  rewrite (u32_small (first p b + 1)), Z.mod_small, i32_small, Es by lia. cbn [mbind option_bind]. rewrite load_in by (bm_unfold; lia).
  cbn [mbind option_bind]. rewrite EB1, bits_lt, (u32_small (first p b + 1)) by lia. by zdec.
Qed.

(** A search that meets only set bits leaves the memory of the bitmap. *)
Lemma scan_free_leaves fuel p b nb : forall pos,
  0 <= b -> 0 <= pos -> p_size p = bm_bitmap b + nb -> (forall i, pos <= i < 8 * nb -> bit p b i = true) ->
  scan_free fuel p b pos = None.
Proof.
  induction fuel as [|fuel IH]; intros pos Hb Hpos Hs Ha; [done|]. cbn [scan_free]. rewrite shiftr3, land7.
  assert (0 <= pos / 8) by (apply Z.div_pos; lia). destruct (Z.lt_ge_cases pos (8 * nb)).
  - assert (pos / 8 < nb) by (apply Z.div_lt_upper_bound; lia).
    rewrite load_in by (bm_unfold; lia). cbn [mbind option_bind].
    rewrite le_read_1, testbit_mask by (apply Z.mod_pos_bound; lia). fold (bit p b pos). rewrite Ha by lia. cbn [negb].
    apply IH; [done|lia|done|]. intros; apply Ha; lia.
  - assert (nb <= pos / 8) by (apply Z.div_le_lower_bound; lia). unfold load8, load, in_page.
    replace (bm_bitmap b + pos / 8 + Z.of_nat 1 <=? p_size p) with false by (symmetry; apply Z.leb_gt; lia).
    by rewrite andb_false_r.
Qed.

(** Both versions, when the last position is taken from a bitmap with nothing behind its
    bits. *)
Lemma last_overread p b nb :
  packed (8 * nb - 1) p b nb -> first p b = 8 * nb - 1 -> p_size p = bm_bitmap b + nb ->
  lib_bitmap_get_first_free p (Some b) = None /\ bitmap_get_first_free p (Some b) = None.
Proof.
  intros [[L SR HL SL FR BL AT US] A] Hf Hs. pose proof L as [? ? ? EB].
  destruct (bitmap_set_spec p b nb (first p b)) as (p1 & E1 & F1 & B1 & _ & _); [done|lia|]. pose proof F1 as [S1 _].
  assert (All : forall i, 0 <= i < 8 * nb -> bit p1 b i = true).
  { intros i Hi. rewrite B1 by lia. destruct (Z.eqb_spec i (first p b)); [by rewrite orb_true_r|]. by rewrite BL by lia. }
  assert (Es : forall fuel pos, 0 <= pos -> scan_free fuel p1 b pos = None).
  { intros fuel pos Hpos. apply (scan_free_leaves _ _ _ nb); [done|done|congruence|]. intros i Hi. apply All. lia. }
  unfold lib_bitmap_get_first_free, bitmap_get_first_free.
  rewrite load_int_in by (bm_unfold; lia). cbn [mbind option_bind]. rewrite load_in by (bm_unfold; lia).
  cbn [mbind option_bind]. fold (first p b). unfold atomic_get. rewrite EB, bits_lt, (u32_small (first p b)) by lia. zdec.
  change (lib_bitmap_set p b (first p b)) with (bitmap_set p b (first p b)). rewrite E1. cbn [mbind option_bind]. zdec.
  split; [by rewrite Es by lia|]. rewrite Es; [done|]. rewrite u32_small, Hf by lia.
  replace (8 * nb - 1 + 1) with (8 * nb) by lia. rewrite Z.mod_same by lia. done.
Qed.

(** [k] positions in a row. *)
Fixpoint lib_alloc_many (k : nat) (p : page) : option (page * list Z) :=
  match k with
  | O => Some (p, [])
  | S k => '(p, r) ← lib_bitmap_get_first_free p (Some 0); '(p, rs) ← lib_alloc_many k p; Some (p, r :: rs)
  end.

Lemma lib_alloc_agrees k nb : forall p,
  packed (8 * nb - 1) p 0 nb -> first p 0 + Z.of_nat k < 8 * nb -> lib_alloc_many k p = alloc_many k p 0.
Proof.
  induction k as [|k IH]; intros p P Hk; [done|]. cbn [lib_alloc_many alloc_many].
  rewrite (lib_get_agrees (8 * nb - 1) p 0 nb P) by lia.
  destruct (packed_step _ p 0 nb P) as (p1 & -> & P1 & F1 & _); [lia|]. cbn [mbind option_bind]. rewrite IH by (done || lia). done.
Qed.

Lemma alloc_many_size k nb lim : forall p p' l,
  packed lim p 0 nb -> first p 0 + Z.of_nat k <= lim -> alloc_many k p 0 = Some (p', l) -> p_size p' = p_size p.
Proof.
  induction k as [|k IH]; intros p p' l P Hk E; cbn [alloc_many] in E; [by injection E as <- _|].
  destruct (packed_step _ p 0 nb P) as (p1 & E1 & P1 & F1 & S1 & _); [lia|]. rewrite E1 in E. cbn [mbind option_bind] in E.
  destruct (alloc_many k p1 0) as [[p2 rs]|] eqn:E2; [|done]. cbn [mbind option_bind] in E. injection E as <- _.
  by rewrite (IH p1 p2 rs) by (done || lia).
Qed.

(** One call more. *)
Lemma alloc_many_fail k : forall p p' l,
  alloc_many k p 0 = Some (p', l) -> bitmap_get_first_free p' (Some 0) = None -> alloc_many (S k) p 0 = None.
Proof.
  induction k as [|k IH]; intros p p' l E H; [injection E as -> _; cbn [alloc_many]; by rewrite H|].
  cbn [alloc_many] in E. remember (S k) as m. cbn [alloc_many].
  destruct (bitmap_get_first_free p (Some 0)) as [[p1 r]|]; [|done]. cbn [mbind option_bind] in *.
  destruct (alloc_many k p1 0) as [[p2 rs]|] eqn:E2; [|done]. injection E as -> _. subst m. by rewrite (IH p1 p' rs).
Qed.

Lemma lib_alloc_fail k : forall p p' l,
  lib_alloc_many k p = Some (p', l) -> lib_bitmap_get_first_free p' (Some 0) = None -> lib_alloc_many (S k) p = None.
Proof.
  induction k as [|k IH]; intros p p' l E H; [injection E as -> _; cbn [lib_alloc_many]; by rewrite H|].
  cbn [lib_alloc_many] in E. remember (S k) as m. cbn [lib_alloc_many].
  destruct (lib_bitmap_get_first_free p (Some 0)) as [[p1 r]|]; [|done]. cbn [mbind option_bind] in *.
  destruct (lib_alloc_many k p1) as [[p2 rs]|] eqn:E2; [|done]. injection E as -> _. subst m. by rewrite (IH p1 p' rs).
Qed.

(** A bitmap of [nb] bytes made by [bitmap_create]. *)
Lemma lib_created nb g p :
  0 < nb < 268435456 -> lib_bitmap_create nb (Some g) = Some (Some p) ->
  packed (8 * nb - 1) p 0 nb /\ first p 0 = 0 /\ p_size p = bm_bitmap 0 + nb.
Proof.
  intros Hn E. unfold lib_bitmap_create in E. destruct (BITMAP_MAX_BYTES <? nb); [done|].
  change (lib_bitmap_init ?p ?b ?n) with (bitmap_init p b n) in E.
  destruct (bitmap_init _ 0 nb) as [p'|] eqn:E1; [|done]. injection E as ->.
  destruct (bitmap_init_upto (8 * nb - 1) (Page (nb + sizeof_bitmap) g) 0 nb p) as (P & F & S); try done; try lia.
  - cbn [p_size]. bm_unfold. unfold sizeof_bitmap. lia.
  - split; [done|]. split; [done|]. rewrite S. cbn [p_size]. bm_unfold. unfold sizeof_bitmap. lia.
Qed.

(** C34: a bitmap made by bitmap_create of lib, from any memory.  The calls of
    bitmap_get_first_free hand out 0, 1, 2, ... in order and mark exactly these bits, for
    all positions but the last; the bitmap of userfs, called on the same memory, gives the
    same positions and leaves the same memory.  The call that takes the last position
    reads behind the memory of the bitmap, in both. *)
Theorem lib_bitmap_equiv nb g :
  0 < nb <= BITMAP_MAX_BYTES ->
  exists p, lib_bitmap_create nb (Some g) = Some (Some p) /\
    (forall k, Z.of_nat k < 8 * nb -> exists p', lib_alloc_many k p = Some (p', seqZ 0 (Z.of_nat k)) /\
       alloc_many k p 0 = Some (p', seqZ 0 (Z.of_nat k)) /\
       forall i, 0 <= i < 8 * nb -> bit p' 0 i = (i <? Z.of_nat k)) /\
    lib_alloc_many (Z.to_nat (8 * nb)) p = None /\ alloc_many (Z.to_nat (8 * nb)) p 0 = None.
Proof.
  intros Hn. assert (Hn' : 0 < nb < 268435456) by (unfold BITMAP_MAX_BYTES in Hn; lia).
  destruct (bitmap_init_run (Page (nb + sizeof_bitmap) g) 0 nb) as (p & E & _); [done|done|cbn [p_size]; bm_unfold; unfold sizeof_bitmap; lia|].
  assert (Ec : lib_bitmap_create nb (Some g) = Some (Some p)).
  { unfold lib_bitmap_create. zdec. change (lib_bitmap_init ?p ?b ?n) with (bitmap_init p b n). by rewrite E. }
  exists p. split; [done|]. destruct (lib_created nb g p Hn' Ec) as (P & F & S).
  assert (A : forall k, Z.of_nat k < 8 * nb -> exists p', lib_alloc_many k p = Some (p', seqZ 0 (Z.of_nat k)) /\
    alloc_many k p 0 = Some (p', seqZ 0 (Z.of_nat k)) /\ packed (8 * nb - 1) p' 0 nb /\ first p' 0 = Z.of_nat k /\ p_size p' = p_size p).
  { intros k Hk. destruct (alloc_many_packed k _ p 0 nb P) as (p' & Ea & P' & F'); [lia|]. rewrite F in Ea, F'.
    exists p'. rewrite (lib_alloc_agrees k nb p P) by lia. split; [done|]. split; [done|]. split; [done|]. split; [lia|].
    apply (alloc_many_size k nb (8 * nb - 1) p p' _ P ltac:(lia) Ea). }
  split; [|].
  - intros k Hk. destruct (A k Hk) as (p' & E1 & E2 & [W B] & F' & _). exists p'. split; [done|]. split; [done|]. intros i Hi. zcase.
    + apply (wu_below _ _ _ _ W). lia.
    + apply B. lia.
  - destruct (A (Z.to_nat (8 * nb - 1)) ltac:(lia)) as (p' & E1 & E2 & P' & F' & S').
    destruct (last_overread p' 0 nb P') as [H1 H2]; [lia|congruence|].
    replace (Z.to_nat (8 * nb)) with (Datatypes.S (Z.to_nat (8 * nb - 1))) by lia.
    split; [by eapply lib_alloc_fail|by eapply alloc_many_fail].
Qed.

Lemma lib_bitmap_equiv_witness :
  exists p p', lib_bitmap_create 2 (Some (fun _ => 7)) = Some (Some p) /\
    lib_alloc_many 3 p = Some (p', [0; 1; 2]) /\ lib_alloc_many 16 p = None.
Proof.
  destruct (lib_bitmap_equiv 2 (fun _ => 7)) as (p & E & A & L & _); [vm_compute; intuition congruence|].
  destruct (A 3%nat ltac:(lia)) as (p' & E' & _). exists p, p'. split; [exact E|]. split; [exact E'|exact L].
Defined.
