(* ===== verification/VdsoSym.v ===== *)
(** * VdsoSym: the symbol lookup of src/vdso_test/vdso_init/vdso_init.c

    [vdso_sym] finds a function in an ELF image in memory: it takes the addresses of
    the tables from the program headers and the dynamic section
    ([vdso_init_from_sysinfo_ehdr]), and follows the chain of the hash bucket of the
    name.  The structures are those of elf.h for 64 bits, read from the bytes of the
    image at their offsets; a read outside the image has no result.  The walks over
    the dynamic section and over a chain are not bounded in the code: they take fuel,
    and the theorems show how much is enough.  The functions that the image of vdso_user/
    exports, and the one that sets their data, are at the end. *)
From S2P Require Import Prelude.
Local Open Scope Z_scope.

(** ** The hash of a name, a list of non-zero bytes *)

Definition elf_hash_step (h c : Z) : Z :=
  let h := u64 (Z.shiftl h 4 + c) in
  let g := Z.land h 4026531840 in
  let h := if negb (g =? 0) then Z.lxor h (Z.shiftr g 24) else h in
  Z.land h (Z.lnot g).

Definition elf_hash (name : list Z) : Z := foldl elf_hash_step 0 name.

(** ** The image and the structures of elf.h *)

Record image := Image { im_base : Z; im_page : page }.

Definition rd (img : image) (n : nat) (a : Z) : option Z := load n (im_page img) (a - im_base img).

Definition ELFCLASS64 : Z := 2.
Definition PT_LOAD : Z := 1.
Definition PT_DYNAMIC : Z := 2.
Definition DT_NULL : Z := 0.
Definition DT_HASH : Z := 4.
Definition DT_STRTAB : Z := 5.
Definition DT_SYMTAB : Z := 6.
Definition DT_VERSYM : Z := 1879048176.
Definition DT_VERDEF : Z := 1879048188.
Definition STT_FUNC : Z := 2.
Definition STB_GLOBAL : Z := 1.
Definition STB_WEAK : Z := 2.
Definition SHN_UNDEF : Z := 0.
Definition STN_UNDEF : Z := 0.

Record Phdr := { p_type : Z; p_offset : Z; p_vaddr : Z }.
Record Dyn := { d_tag : Z; d_ptr : Z }.
Record Sym := { st_name : Z; st_info : Z; st_shndx : Z; st_value : Z }.

Definition sizeof_Phdr : Z := 56.
Definition sizeof_Dyn : Z := 16.
Definition sizeof_Sym : Z := 24.

Definition Phdr_read (img : image) (a : Z) : option Phdr :=
  t ← rd img 4 a; o ← rd img 8 (a + 8); v ← rd img 8 (a + 16);
  Some {| p_type := t; p_offset := o; p_vaddr := v |}.

Definition Dyn_read (img : image) (a : Z) : option Dyn :=
  t ← rd img 8 a; p ← rd img 8 (a + 8); Some {| d_tag := t; d_ptr := p |}.

Definition Sym_read (img : image) (a : Z) : option Sym :=
  n ← rd img 4 a; i ← rd img 1 (a + 4); x ← rd img 2 (a + 6); v ← rd img 8 (a + 8);
  Some {| st_name := n; st_info := i; st_shndx := x; st_value := v |}.

Definition ELF64_ST_TYPE (info : Z) : Z := Z.land info 15.
Definition ELF64_ST_BIND (info : Z) : Z := Z.shiftr info 4.

(** ** [vdso_info_t] *)

Record vdso_info := VdsoInfo {
  valid : bool; load_addr : Z; load_offset : Z;
  symtab : Z; symstrings : Z; bucket : Z; chain : Z; nbucket : Z; nchain : Z;
  versym : Z; verdef : Z }.

Definition vdso_info_zero : vdso_info := VdsoInfo false 0 0 0 0 0 0 0 0 0 0.

(** ** Reading the headers *)

(** What the loop over the program headers has found. *)
Record ph_state := PhState { found_vaddr : bool; ph_load_offset : Z; ph_dyn : Z }.

Definition ph_step (base : Z) (p : Phdr) (s : ph_state) : ph_state :=
  if (p_type p =? PT_LOAD) && negb (found_vaddr s)
  then PhState true (u64 (base + p_offset p - p_vaddr p)) (ph_dyn s)
  else if p_type p =? PT_DYNAMIC
  then PhState (found_vaddr s) (ph_load_offset s) (u64 (base + p_offset p))
  else s.

Fixpoint ph_loop (n : nat) (img : image) (base pt : Z) (s : ph_state) : option ph_state :=
  match n with
  | O => Some s
  | S n => p ← Phdr_read img pt; ph_loop n img base (pt + sizeof_Phdr) (ph_step base p s)
  end.

(** The addresses the dynamic section gives. *)
Record dyn_state := DynState {
  dy_strtab : Z; dy_symtab : Z; dy_hash : Z; dy_versym : Z; dy_verdef : Z }.

Definition dyn_step (off : Z) (d : Dyn) (s : dyn_state) : dyn_state :=
  let a := u64 (d_ptr d + off) in
  let '(DynState str sym hash vs vd) := s in
  if d_tag d =? DT_STRTAB then DynState a sym hash vs vd
  else if d_tag d =? DT_SYMTAB then DynState str a hash vs vd
  else if d_tag d =? DT_HASH then DynState str sym a vs vd
  else if d_tag d =? DT_VERSYM then DynState str sym hash a vd
  else if d_tag d =? DT_VERDEF then DynState str sym hash vs a
  else s.

Fixpoint dyn_loop (fuel : nat) (img : image) (off dyn : Z) (s : dyn_state) : option dyn_state :=
  match fuel with
  | O => None
  | S fuel =>
      d ← Dyn_read img dyn;
      if d_tag d =? DT_NULL then Some s
      else dyn_loop fuel img off (dyn + sizeof_Dyn) (dyn_step off d s)
  end.

Definition vdso_init_from_sysinfo_ehdr (fuel : nat) (img : image) (base : Z) (i : vdso_info)
    : option vdso_info :=
  let i := VdsoInfo false base (load_offset i) (symtab i) (symstrings i) (bucket i) (chain i)
                    (nbucket i) (nchain i) (versym i) (verdef i) in
  class ← rd img 1 (base + 4);
  if negb (class =? ELFCLASS64) then Some i else
  e_phoff ← rd img 8 (base + 32);
  e_phnum ← rd img 2 (base + 56);
  s ← ph_loop (Z.to_nat e_phnum) img base (u64 (load_addr i + e_phoff)) (PhState false (load_offset i) 0);
  let i := VdsoInfo false base (ph_load_offset s) (symtab i) (symstrings i) (bucket i) (chain i)
                    (nbucket i) (nchain i) (versym i) (verdef i) in
  if negb (found_vaddr s) || (ph_dyn s =? 0) then Some i else
  d ← dyn_loop fuel img (load_offset i) (ph_dyn s) (DynState 0 0 0 0 0);
  let i := VdsoInfo false base (load_offset i) (dy_symtab d) (dy_strtab d) (bucket i) (chain i)
                    (nbucket i) (nchain i) (dy_versym d) (dy_verdef d) in
  if (symstrings i =? 0) || (symtab i =? 0) || (dy_hash d =? 0) then Some i else
  let vs := if verdef i =? 0 then 0 else versym i in
  nb ← rd img 4 (dy_hash d);
  nc ← rd img 4 (dy_hash d + 4);
  Some (VdsoInfo true base (load_offset i) (symtab i) (symstrings i)
          (dy_hash d + 8) (dy_hash d + 4 * u32 (nb + 2)) nb nc vs (verdef i)).

(** ** The lookup *)

(** [strcmp(name, a) == 0] *)
Fixpoint strcmp_eq (img : image) (name : list Z) (a : Z) : option bool :=
  b ← rd img 1 a;
  match name with
  | [] => Some (b =? 0)
  | c :: name => if b =? c then strcmp_eq img name (a + 1) else Some false
  end.

(** The tests of a symbol before its name is compared. *)
Definition sym_exported (s : Sym) : bool :=
  (ELF64_ST_TYPE (st_info s) =? STT_FUNC) &&
  ((ELF64_ST_BIND (st_info s) =? STB_GLOBAL) || (ELF64_ST_BIND (st_info s) =? STB_WEAK)) &&
  negb (st_shndx s =? SHN_UNDEF).

Fixpoint chain_loop (fuel : nat) (img : image) (i : vdso_info) (name : list Z) (c : Z) : option Z :=
  match fuel with
  | O => None
  | S fuel =>
      if c =? STN_UNDEF then Some NULL else
      s ← Sym_read img (symtab i + sizeof_Sym * c);
      m ← (if sym_exported s then strcmp_eq img name (symstrings i + st_name s) else Some false);
      if (m : bool) then Some (u64 (load_offset i + st_value s))
      else c ← rd img 4 (chain i + 4 * c); chain_loop fuel img i name c
  end.

Definition sym_lookup (fuel : nat) (img : image) (i : vdso_info) (name : list Z) : option Z :=
  if negb (valid i) then Some NULL else
  if nbucket i =? 0 then None else
  c ← rd img 4 (bucket i + 4 * (elf_hash name mod nbucket i));
  chain_loop fuel img i name c.

(** The arguments that may be NULL are options; the result has the [vdso_info] of the
    caller after the call. *)
Definition vdso_sym (fuel : nat) (img : image) (vdso_base : Z) (name : option (list Z))
    (info : option vdso_info) : option (Z * option vdso_info) :=
  match name with
  | None => Some (NULL, info)
  | Some name =>
      if (vdso_base =? NULL) && match info with None => true | Some _ => false end then Some (NULL, info) else
      let i := default vdso_info_zero info in
      i ← (if negb (vdso_base =? NULL) then vdso_init_from_sysinfo_ehdr fuel img vdso_base i else Some i);
      r ← sym_lookup fuel img i name;
      Some (r, (fun _ => i) <$> info)
  end.

(** ** The hash of the ELF specification, in 32 bits: the top four bits are folded
    into bits 4 to 7 *)

Definition fold_top (x : Z) : Z := Z.lxor (x mod 2 ^ 28) (16 * (x / 2 ^ 28)).
Definition elf_hash_ref (name : list Z) : Z :=
  foldl (fun h c => fold_top (u32 (16 * h + c))) 0 name.

Lemma mask_bits n : 0 <= n -> Z.testbit 4026531840 n = (28 <=? n) && (n <? 32).
Proof.
  intros Hn. change 4026531840 with (Z.shiftl (Z.ones 4) 28). rewrite Z.shiftl_spec by done.
  destruct (Z.leb_spec 28 n); simpl; [|by apply Z.testbit_neg_r; lia].
  rewrite Z.testbit_ones by lia. destruct (Z.ltb_spec n 32), (Z.leb_spec 0 (n - 28)), (Z.ltb_spec (n - 28) 4); simpl; lia.
Qed.

Lemma fold_top_bits x n :
  0 <= n -> Z.testbit (fold_top x) n = xorb ((n <? 28) && Z.testbit x n) ((4 <=? n) && Z.testbit x (n + 24)).
Proof.
  intros Hn. unfold fold_top. rewrite Z.lxor_spec, Z.testbit_mod_pow2 by lia. f_equal.
  change 16 with (2 ^ 4). rewrite Z.mul_comm. destruct (Z.leb_spec 4 n); simpl.
  - replace n with (4 + (n - 4)) at 1 by lia. rewrite Z.mul_pow2_bits_add, Z.div_pow2_bits by lia. f_equal. lia.
  - by apply Z.mul_pow2_bits_low.
Qed.

Lemma u32_bits x n : 0 <= n -> Z.testbit (u32 x) n = (n <? 32) && Z.testbit x n.
Proof. intros Hn. unfold u32. change 4294967296 with (2 ^ 32). by apply Z.testbit_mod_pow2. Qed.

(** A step of the code on 64 bits, seen in its low 32 bits. *)
Lemma elf_hash_step_low h c :
  u32 (elf_hash_step h c) = fold_top (u32 (16 * u32 h + c)).
Proof.
  unfold elf_hash_step. set (y := u64 (Z.shiftl h 4 + c)).
  assert (u32 (16 * u32 h + c) = u32 y) as ->.
  { unfold y. rewrite Z.shiftl_mul_pow2 by lia. change (2 ^ 4) with 16. unfold u32, u64.
    replace ((h * 16 + c) mod 18446744073709551616 mod 4294967296) with ((h * 16 + c) mod 4294967296)
      by (symmetry; apply Z.mod_mod_divide; by exists 4294967296).
    rewrite Z.add_mod, Z.mul_mod_idemp_r, <- Z.add_mod by lia. f_equal. lia. }
  set (g := Z.land y 4026531840).
  assert ((if negb (g =? 0) then Z.lxor y (Z.shiftr g 24) else y) = Z.lxor y (Z.shiftr g 24)) as ->.
  { destruct (Z.eqb_spec g 0) as [-> |]; [by rewrite Z.lxor_0_r | done]. }
  apply Z.bits_inj'. intros n Hn.
  rewrite u32_bits, fold_top_bits, !u32_bits, Z.land_spec, Z.lxor_spec, Z.lnot_spec, Z.shiftr_spec by lia.
  unfold g. rewrite !Z.land_spec, !mask_bits by lia.
  repeat match goal with |- context [?a <=? ?b] => destruct (Z.leb_spec a b)
                       | |- context [?a <? ?b] => destruct (Z.ltb_spec a b) end;
    try lia; simpl; rewrite ?andb_true_r, ?andb_false_r, ?xorb_false_r; simpl; rewrite ?andb_true_r;
    first [done | by destruct (Z.testbit y n)].
Qed.

Lemma fold_top_range x : 0 <= x < 2 ^ 32 -> 0 <= fold_top x < 2 ^ 28.
Proof.
  intros Hx. unfold fold_top. pose proof (Z.mod_pos_bound x (2 ^ 28) ltac:(lia)).
  assert (0 <= x / 2 ^ 28 < 16) by (split; [apply Z.div_pos | apply Z.div_lt_upper_bound]; lia).
  split; [apply Z.lxor_nonneg; lia|].
  destruct (Z.eq_dec (Z.lxor (x mod 2 ^ 28) (16 * (x / 2 ^ 28))) 0) as [-> | N]; [lia|].
  apply Z.log2_lt_pow2; [assert (0 <= Z.lxor (x mod 2 ^ 28) (16 * (x / 2 ^ 28))) by (apply Z.lxor_nonneg; lia); lia|].
  eapply Z.le_lt_trans; [apply Z.log2_lxor; lia|].
  apply Z.max_lub_lt; (destruct (Z.eq_dec (x mod 2 ^ 28) 0) as [E1 | N1]);
    try (rewrite E1; simpl; lia).
  all: try (apply Z.log2_lt_pow2; lia).
  all: (destruct (Z.eq_dec (x / 2 ^ 28) 0) as [E2 | N2]; [rewrite E2; simpl; lia | apply Z.log2_lt_pow2; lia]).
Qed.

Lemma elf_hash_low name : u32 (elf_hash name) = elf_hash_ref name.
Proof.
  unfold elf_hash, elf_hash_ref. change 0 with (u32 0) at 2. generalize 0 as h.
  induction name as [| c name IH]; intros h; simpl; [done|]. by rewrite IH, elf_hash_step_low.
Qed.

Lemma elf_hash_ref_range name : 0 <= elf_hash_ref name < 2 ^ 28.
Proof.
  unfold elf_hash_ref.
  cut (forall h, 0 <= h < 2 ^ 28 -> 0 <= foldl (fun h c => fold_top (u32 (16 * h + c))) h name < 2 ^ 28);
    [intros K; apply K; lia|].
  induction name as [| c name IH]; intros h Hh; simpl; [done|].
  apply IH, fold_top_range, u32_range.
Qed.

(** A table whose number of buckets is a power of two does not see the high bits. *)
Lemma elf_hash_pow2 name k : 0 <= k <= 32 -> elf_hash name mod 2 ^ k = elf_hash_ref name mod 2 ^ k.
Proof.
  intros Hk. rewrite <- elf_hash_low. unfold u32. symmetry. apply Z.mod_mod_divide.
  exists (2 ^ (32 - k)). rewrite <- Z.pow_add_r by lia. by replace (32 - k + k) with 32 by lia.
Qed.

(** ** What the headers say *)

Definition Phdrs_at (img : image) (pt : Z) (phs : list Phdr) : Prop :=
  forall k p, phs !! k = Some p -> Phdr_read img (pt + sizeof_Phdr * Z.of_nat k) = Some p.

(** The entries before the one that ends the section. *)
Definition Dyns_at (img : image) (dyn : Z) (ds : list Dyn) : Prop :=
  (forall k d, ds !! k = Some d -> Dyn_read img (dyn + sizeof_Dyn * Z.of_nat k) = Some d /\ d_tag d <> DT_NULL) /\
  exists p, Dyn_read img (dyn + sizeof_Dyn * Z.of_nat (length ds)) = Some {| d_tag := DT_NULL; d_ptr := p |}.

(** The first segment to load, the last dynamic section, and the last entry with a tag. *)
Definition first_load (phs : list Phdr) : option Phdr := head (filter (fun p => p_type p = PT_LOAD) phs).
Definition last_dynamic (phs : list Phdr) : option Phdr := last (filter (fun p => p_type p = PT_DYNAMIC) phs).
Definition dyn_addr (tag off : Z) (ds : list Dyn) : Z :=
  match last (filter (fun d => d_tag d = tag) ds) with Some d => u64 (d_ptr d + off) | None => 0 end.

Definition ph_result (base : Z) (phs : list Phdr) (s : ph_state) : ph_state :=
  PhState (found_vaddr s || bool_decide (is_Some (first_load phs)))
    (if found_vaddr s then ph_load_offset s
     else match first_load phs with Some p => u64 (base + p_offset p - p_vaddr p) | None => ph_load_offset s end)
    (match last_dynamic phs with Some p => u64 (base + p_offset p) | None => ph_dyn s end).

Lemma ph_result_cons base p phs s : ph_result base phs (ph_step base p s) = ph_result base (p :: phs) s.
Proof.
  destruct s as [[] off dyn]; unfold ph_result, ph_step, first_load, last_dynamic; simpl;
    rewrite !filter_cons; destruct (decide (p_type p = PT_LOAD)) as [E | N];
    destruct (decide (p_type p = PT_DYNAMIC)) as [E' | N']; try (unfold PT_LOAD, PT_DYNAMIC in *; congruence);
    rewrite ?(proj2 (Z.eqb_eq _ _) E), ?(proj2 (Z.eqb_neq _ _) N), ?(proj2 (Z.eqb_eq _ _) E'), ?(proj2 (Z.eqb_neq _ _) N');
    simpl; rewrite ?list.last_cons; try done; by destruct (last _).
Qed.

Lemma ph_loop_run img base phs : forall pt s,
  Phdrs_at img pt phs -> ph_loop (length phs) img base pt s = Some (ph_result base phs s).
Proof.
  induction phs as [| p phs IH]; intros pt s H; simpl.
  - unfold ph_result. simpl. by destruct s as [[] ? ?].
  - pose proof (H 0%nat p eq_refl) as H0. rewrite Z.add_0_r in H0. rewrite H0. simpl.
    rewrite IH, ph_result_cons; [done|]. intros k q Hk. rewrite <- (H (S k) q Hk). f_equal. lia.
Qed.

Definition dyn_result (off : Z) (ds : list Dyn) : dyn_state :=
  DynState (dyn_addr DT_STRTAB off ds) (dyn_addr DT_SYMTAB off ds) (dyn_addr DT_HASH off ds)
           (dyn_addr DT_VERSYM off ds) (dyn_addr DT_VERDEF off ds).

Lemma dyn_addr_snoc tag off ds d :
  dyn_addr tag off (ds ++ [d]) = if d_tag d =? tag then u64 (d_ptr d + off) else dyn_addr tag off ds.
Proof.
  unfold dyn_addr. rewrite filter_app, filter_cons, filter_nil.
  destruct (Z.eqb_spec (d_tag d) tag), (decide (d_tag d = tag)); try done; [by rewrite last_snoc | by rewrite app_nil_r].
Qed.

Lemma dyn_step_result off ds d : dyn_step off d (dyn_result off ds) = dyn_result off (ds ++ [d]).
Proof.
  unfold dyn_step, dyn_result. rewrite !dyn_addr_snoc.
  unfold DT_STRTAB, DT_SYMTAB, DT_HASH, DT_VERSYM, DT_VERDEF.
  repeat match goal with |- context [?a =? ?b] => destruct (Z.eqb_spec a b) end; try done; congruence.
Qed.

Lemma dyn_loop_run img off ds2 : forall ds1 dyn fuel,
  Dyns_at img dyn ds2 -> (length ds2 < fuel)%nat ->
  dyn_loop fuel img off dyn (dyn_result off ds1) = Some (dyn_result off (ds1 ++ ds2)).
Proof.
  induction ds2 as [| d ds2 IH]; intros ds1 dyn [| fuel] [H [p Hp]] Hf; cbn [length dyn_loop] in *; try lia.
  - rewrite Z.add_0_r in Hp. rewrite Hp, app_nil_r. done.
  - destruct (H 0%nat d eq_refl) as [Hd Hn]. rewrite Z.add_0_r in Hd. rewrite Hd. cbn [mbind option_bind].
    rewrite (proj2 (Z.eqb_neq _ _) Hn), dyn_step_result, (IH (ds1 ++ [d])); [by rewrite <- app_assoc | | lia].
    split.
    + intros k e Hk. destruct (H (S k) e Hk) as [He ?]. split; [|done]. rewrite <- He. f_equal. lia.
    + exists p. rewrite <- Hp. f_equal. lia.
Qed.

(** An image with program headers [phs] and dynamic section [ds], loaded at [base]
    with the offset [off]: what a linker writes. *)
Record elf_image (img : image) (base off : Z) (phs : list Phdr) (ds : list Dyn) : Prop := {
  ei_class : rd img 1 (base + 4) = Some ELFCLASS64;
  ei_phnum : rd img 2 (base + 56) = Some (Z.of_nat (length phs));
  ei_phdrs : exists e_phoff, rd img 8 (base + 32) = Some e_phoff /\ Phdrs_at img (u64 (base + e_phoff)) phs;
  ei_load : exists p, first_load phs = Some p /\ off = u64 (base + p_offset p - p_vaddr p);
  ei_dyn : exists p, last_dynamic phs = Some p /\ u64 (base + p_offset p) <> 0 /\
    Dyns_at img (u64 (base + p_offset p)) ds;
  ei_tables : dyn_addr DT_STRTAB off ds <> 0 /\ dyn_addr DT_SYMTAB off ds <> 0 /\ dyn_addr DT_HASH off ds <> 0;
  ei_hash : exists nb nc, rd img 4 (dyn_addr DT_HASH off ds) = Some nb /\
    rd img 4 (dyn_addr DT_HASH off ds + 4) = Some nc }.

Definition info_of (img : image) (base off : Z) (ds : list Dyn) (nb nc : Z) : vdso_info :=
  let hash := dyn_addr DT_HASH off ds in
  let vd := dyn_addr DT_VERDEF off ds in
  VdsoInfo true base off (dyn_addr DT_SYMTAB off ds) (dyn_addr DT_STRTAB off ds)
    (hash + 8) (hash + 4 * u32 (nb + 2)) nb nc (if vd =? 0 then 0 else dyn_addr DT_VERSYM off ds) vd.

Lemma init_run img base off phs ds fuel i :
  elf_image img base off phs ds -> (length ds < fuel)%nat ->
  exists nb nc, rd img 4 (dyn_addr DT_HASH off ds) = Some nb /\
    rd img 4 (dyn_addr DT_HASH off ds + 4) = Some nc /\
    vdso_init_from_sysinfo_ehdr fuel img base i = Some (info_of img base off ds nb nc).
Proof.
  intros [Hc Hn (ph & Hph & Hphs) (pl & Hpl & Hoff) (pd & Hpd & Hd0 & Hds) (T1 & T2 & T3) (nb & nc & Hb & Hk)] Hf.
  exists nb, nc. split; [done|]. split; [done|]. unfold vdso_init_from_sysinfo_ehdr. cbn [load_addr load_offset].
  rewrite Hc. simpl. rewrite Hph. simpl. rewrite Hn. simpl.
  rewrite Nat2Z.id, (ph_loop_run _ _ _ _ _ Hphs). simpl.
  rewrite Hpl, Hpd. simpl. rewrite (proj2 (Z.eqb_neq _ _) Hd0). simpl. rewrite <- Hoff.
  change (DynState 0 0 0 0 0) with (dyn_result off []). rewrite (dyn_loop_run img off ds [] _ fuel Hds Hf). simpl.
  rewrite (proj2 (Z.eqb_neq _ _) T1), (proj2 (Z.eqb_neq _ _) T2), (proj2 (Z.eqb_neq _ _) T3). simpl.
  rewrite Hb. simpl. by rewrite Hk.
Qed.

(** ** What the hash table holds *)

Definition no_nul (name : list Z) : Prop := Forall (fun c => c <> 0) name.

Definition name_at (img : image) (a : Z) (nm : list Z) : Prop :=
  no_nul nm /\ forall k c, (nm ++ [0]) !! k = Some c -> rd img 1 (a + Z.of_nat k) = Some c.

Lemma strcmp_eq_run img name : forall a nm,
  no_nul name -> name_at img a nm -> strcmp_eq img name a = Some (bool_decide (name = nm)).
Proof.
  induction name as [| c name IH]; intros a nm Hn [Hz Hnm].
  - destruct nm as [| d nm]; pose proof (Hnm 0%nat _ eq_refl) as H0; rewrite Z.add_0_r in H0; cbn [strcmp_eq]; rewrite H0; cbn [mbind option_bind].
    + done.
    + apply Forall_cons in Hz as [Hz _]. by rewrite (proj2 (Z.eqb_neq _ _) Hz).
  - apply Forall_cons in Hn as [Hc Hn].
    destruct nm as [| d nm]; pose proof (Hnm 0%nat _ eq_refl) as H0; rewrite Z.add_0_r in H0; cbn [strcmp_eq]; rewrite H0; cbn [mbind option_bind].
    + destruct (Z.eqb_spec 0 c); [congruence | by rewrite bool_decide_eq_false_2].
    + apply Forall_cons in Hz as [_ Hz]. destruct (Z.eqb_spec d c) as [-> | N].
      * rewrite (IH (a + 1) nm Hn).
        -- f_equal. apply bool_decide_ext. split; [by intros -> | by intros [= ->]].
        -- split; [done|]. intros k e Hk. rewrite <- (Hnm (S k) e Hk). f_equal. lia.
      * rewrite bool_decide_eq_false_2; [done | congruence].
Qed.

Definition sym_at (img : image) (i : vdso_info) (c : Z) (s : Sym) (nm : list Z) : Prop :=
  Sym_read img (symtab i + sizeof_Sym * c) = Some s /\ name_at img (symstrings i + st_name s) nm.

(** The chain that starts with the number [c]: the numbers of the symbols on it. *)
Fixpoint chain_path (img : image) (i : vdso_info) (c : Z) (path : list Z) : Prop :=
  match path with
  | [] => c = STN_UNDEF
  | c' :: path => c = c' /\ c <> STN_UNDEF /\
      exists n, rd img 4 (chain i + 4 * c) = Some n /\ chain_path img i n path
  end.

(** The symbols by their numbers, with their names, and the chains of the buckets. *)
Record hash_table (img : image) (i : vdso_info) (syms : gmap Z (Sym * list Z)) (paths : Z -> list Z) : Prop := {
  ht_valid : valid i = true /\ 0 < nbucket i;
  ht_bucket : forall b, 0 <= b < nbucket i ->
    exists c, rd img 4 (bucket i + 4 * b) = Some c /\ chain_path img i c (paths b);
  ht_syms : forall b c, 0 <= b < nbucket i -> c ∈ paths b ->
    exists s nm, syms !! c = Some (s, nm) /\ sym_at img i c s nm;
  ht_complete : forall c s nm, syms !! c = Some (s, nm) -> sym_exported s = true ->
    c ∈ paths (elf_hash_ref nm mod nbucket i) }.

(** The address of the exported symbol with a name, or NULL. *)
Definition symbol_address (off : Z) (syms : gmap Z (Sym * list Z)) (name : list Z) (r : Z) : Prop :=
  (exists c s, syms !! c = Some (s, name) /\ sym_exported s = true /\ r = u64 (off + st_value s)) \/
  (r = NULL /\ forall c s, syms !! c = Some (s, name) -> sym_exported s = false).

(** A chain holds the symbol that is looked for, or none of its symbols has the name. *)
Lemma chain_loop_run img i (syms : gmap Z (Sym * list Z)) name path : forall c fuel,
  no_nul name -> (length path < fuel)%nat -> chain_path img i c path ->
  (forall d, d ∈ path -> exists s nm, syms !! d = Some (s, nm) /\ sym_at img i d s nm) ->
  exists r, chain_loop fuel img i name c = Some r /\
   ((exists d s, d ∈ path /\ syms !! d = Some (s, name) /\ sym_exported s = true /\ r = u64 (load_offset i + st_value s)) \/
    (r = NULL /\ forall d s, d ∈ path -> syms !! d = Some (s, name) -> sym_exported s = false)).
Proof.
  induction path as [| d path IH]; intros c [| fuel] Hn Hf Hp Hs; simpl in Hf, Hp; try lia.
  - subst c. exists NULL. split; [done|]. right. split; [done|]. intros d s Hd. by apply not_elem_of_nil in Hd.
  - destruct Hp as (-> & H0 & n & Hrd & Hp). cbn [chain_loop]. rewrite (proj2 (Z.eqb_neq _ _) H0).
    destruct (Hs d) as (s & nm & Hd & Hsym & Hnm); [by left|]. rewrite Hsym. cbn [mbind option_bind].
    destruct (IH n fuel Hn ltac:(lia) Hp) as (r & Hr & Hres); [intros e He; apply Hs; by right|].
    assert ((if sym_exported s then strcmp_eq img name (symstrings i + st_name s) else Some false)
            = Some (sym_exported s && bool_decide (name = nm))) as ->.
    { destruct (sym_exported s); [by apply strcmp_eq_run | done]. }
    cbn [mbind option_bind]. destruct (sym_exported s && bool_decide (name = nm)) eqn:E.
    + apply andb_true_iff in E as [E1 E2%bool_decide_eq_true]. subst nm.
      eexists. split; [done|]. left. exists d, s. split; [by left | done].
    + rewrite Hrd. cbn [mbind option_bind]. exists r. split; [done|].
      destruct Hres as [(e & t & He & Hres) | (-> & Hno)]; [left; exists e, t; split; [by right | done]|].
      right. split; [done|]. intros e t [-> | He]%elem_of_cons Ht; [|by eapply Hno].
      rewrite Hd in Ht. injection Ht as <- <-. destruct (sym_exported s); [|done].
      by rewrite bool_decide_eq_true_2 in E.
Qed.

Lemma sym_lookup_run img i syms paths name fuel :
  hash_table img i syms paths -> no_nul name ->
  elf_hash name mod nbucket i = elf_hash_ref name mod nbucket i ->
  (forall b, 0 <= b < nbucket i -> (length (paths b) < fuel)%nat) ->
  exists r, sym_lookup fuel img i name = Some r /\ symbol_address (load_offset i) syms name r.
Proof.
  intros T Hn Hh Hf. destruct (ht_valid _ _ _ _ T) as [V N0]. unfold sym_lookup. rewrite V. simpl.
  rewrite (proj2 (Z.eqb_neq _ _)) by lia. rewrite Hh.
  pose proof (Z.mod_pos_bound (elf_hash_ref name) _ N0) as Hb.
  destruct (ht_bucket _ _ _ _ T _ Hb) as (c & -> & Hp). cbn [mbind option_bind].
  destruct (chain_loop_run img i syms name _ c fuel Hn (Hf _ Hb) Hp) as (r & Hr & Hres).
  { intros d Hd. by eapply (ht_syms _ _ _ _ T). }
  exists r. split; [done|]. destruct Hres as [(d & s & _ & Hd) | (-> & Hno)]; [left; eauto|].
  right. split; [done|]. intros d s Hd. destruct (sym_exported s) eqn:E; [|done].
  rewrite <- E. eapply Hno; [|done]. by eapply (ht_complete _ _ _ _ T).
Qed.

(** ** A small image

    At address 65536: the ELF header, two program headers, a dynamic section, a hash
    table of one bucket, three symbols and their names "ab", "c" and "ab"; symbol 2 is
    not exported. *)

Definition put (n : nat) (o v : Z) (f : content) : content := le_write n f o v.

Definition demo_sym (o name info shndx value : Z) (f : content) : content :=
  put 4 o name (put 1 (o + 4) info (put 2 (o + 6) shndx (put 8 (o + 8) value f))).
Definition demo_phdr (o t off vaddr : Z) (f : content) : content :=
  put 4 o t (put 8 (o + 8) off (put 8 (o + 16) vaddr f)).
Definition demo_dyn (o t p : Z) (f : content) : content := put 8 o t (put 8 (o + 8) p f).

Definition demo_bytes : content :=
  put 1 4 2 (put 8 32 64 (put 2 56 2
  (demo_phdr 64 1 0 0 (demo_phdr 120 2 176 0
  (demo_dyn 176 5 368 (demo_dyn 192 6 272 (demo_dyn 208 4 240 (demo_dyn 224 0 0
  (put 4 240 1 (put 4 244 4 (put 4 248 3 (put 4 260 1 (put 4 264 2
  (demo_sym 296 1 18 7 4096 (demo_sym 320 1 2 7 8192 (demo_sym 344 4 34 7 12288
  (put 2 369 25185 (put 1 372 99
  (fun _ => 0))))))))))))))))))).

Definition demo_image : image := Image 65536 (Page 384 demo_bytes).

Definition demo_phs : list Phdr :=
  [ {| p_type := 1; p_offset := 0; p_vaddr := 0 |}; {| p_type := 2; p_offset := 176; p_vaddr := 0 |} ].
Definition demo_ds : list Dyn :=
  [ {| d_tag := 5; d_ptr := 368 |}; {| d_tag := 6; d_ptr := 272 |}; {| d_tag := 4; d_ptr := 240 |} ].
Definition demo_syms : gmap Z (Sym * list Z) :=
  {[ 1 := ({| st_name := 1; st_info := 18; st_shndx := 7; st_value := 4096 |}, [97; 98]);
     2 := ({| st_name := 1; st_info := 2; st_shndx := 7; st_value := 8192 |}, [97; 98]);
     3 := ({| st_name := 4; st_info := 34; st_shndx := 7; st_value := 12288 |}, [99]) ]}.
Definition demo_paths (b : Z) : list Z := [3; 2; 1].

(** Decides a fact about [demo_image] by evaluation, and one about the positions of a
    short list position by position. *)
Ltac demo_eval := vm_compute; first [reflexivity | discriminate].
Ltac each_pos k H tac :=
  first [discriminate H | destruct k as [| k]; [apply Some_inj in H; subst; tac | each_pos k H tac]].

Lemma demo_elf : elf_image demo_image 65536 65536 demo_phs demo_ds.
Proof.
  split; [demo_eval | demo_eval | | | | split_and!; demo_eval | ].
  - exists 64. split; [demo_eval|]. intros k p H. each_pos k H demo_eval.
  - exists {| p_type := 1; p_offset := 0; p_vaddr := 0 |}. split; demo_eval.
  - exists {| p_type := 2; p_offset := 176; p_vaddr := 0 |}. split; [demo_eval|]. split; [demo_eval|].
    split; [|exists 0; demo_eval]. intros k d H. each_pos k H ltac:(split; demo_eval).
  - exists 1, 4. split; demo_eval.
Qed.

Definition demo_info : vdso_info := info_of demo_image 65536 65536 demo_ds 1 4.

Lemma demo_dom c t : demo_syms !! c = Some t -> c = 1 \/ c = 2 \/ c = 3.
Proof. intros Hc%elem_of_dom_2. unfold demo_syms in Hc. set_solver. Qed.

Lemma demo_hash : hash_table demo_image demo_info demo_syms demo_paths.
Proof.
  split; [split; demo_eval | | |].
  - intros b Hb. assert (b = 0) as -> by (change (nbucket demo_info) with 1 in Hb; lia).
    exists 3. split; [demo_eval|]. cbn [chain_path demo_paths].
    split; [done|]. split; [discriminate|]. exists 2. split; [demo_eval|].
    split; [done|]. split; [discriminate|]. exists 1. split; [demo_eval|].
    split; [done|]. split; [discriminate|]. exists 0. split; [demo_eval | done].
  - intros b c _ Hc. unfold demo_paths in Hc. set_unfold in Hc.
    destruct Hc as [-> | [-> | [-> | []]]]; do 2 eexists; (split; [reflexivity|]); (split; [demo_eval|]);
      (split; [repeat constructor; discriminate | intros k c H; each_pos k H demo_eval]).
  - intros c s nm Hc%demo_dom _. unfold demo_paths. set_solver.
Qed.

(** ** Theorems *)

(** C35: the hash of a name agrees with the one the ELF specification computes in 32
    bits: its low 32 bits are the specification's hash, which has 28 bits, and in a
    table with a power of two of buckets it selects the same bucket.  The code keeps a
    carry in bit 32 that the specification does not have: for the name HxxykDza the two
    differ, and select different buckets of three. *)
Theorem elf_hash_equiv :
  (forall name, u32 (elf_hash name) = elf_hash_ref name /\ 0 <= elf_hash_ref name < 2 ^ 28 /\
     (elf_hash name < 2 ^ 32 -> 0 <= elf_hash name -> elf_hash name = elf_hash_ref name) /\
     (forall k, 0 <= k <= 32 -> elf_hash name mod 2 ^ k = elf_hash_ref name mod 2 ^ k)) /\
  (let name := [72; 120; 120; 121; 107; 68; 122; 97] in
   elf_hash name = 2 ^ 32 + 1 /\ elf_hash_ref name = 1 /\ elf_hash name mod 3 <> elf_hash_ref name mod 3).
Proof.
  split; [|split_and!; demo_eval]. intros name. split_and!; [apply elf_hash_low | apply elf_hash_ref_range.. | |].
  - intros H1 H2. rewrite <- elf_hash_low. symmetry. apply u32_small. lia.
  - intros k. apply elf_hash_pow2.
Qed.

(** C28: vdso_sym on an image that a linker wrote.  With enough fuel for its dynamic
    section and its longest chain, every read is inside the image and the call
    returns: the address (load offset plus value) of the exported function with this
    name, or NULL when the image exports no function with it.  The table is filed by
    the hash of the ELF specification; the name must fall into the same bucket with
    the hash of the code.  The same holds with the [vdso_info] that an earlier call has
    filled in, and a call without image and info, or without a name, returns NULL. *)
Theorem vdso_sym_correct img base off phs ds syms paths nb nc fuel name i :
  base <> 0 -> elf_image img base off phs ds ->
  rd img 4 (dyn_addr DT_HASH off ds) = Some nb -> rd img 4 (dyn_addr DT_HASH off ds + 4) = Some nc ->
  hash_table img (info_of img base off ds nb nc) syms paths ->
  (length ds < fuel)%nat -> (forall b, 0 <= b < nb -> (length (paths b) < fuel)%nat) ->
  no_nul name -> elf_hash name mod nb = elf_hash_ref name mod nb ->
  (exists r i', vdso_sym fuel img base (Some name) i = Some (r, i') /\ symbol_address off syms name r /\
     (i <> None -> i' = Some (info_of img base off ds nb nc)) /\
     vdso_sym fuel img 0 (Some name) (Some (info_of img base off ds nb nc)) =
       Some (r, Some (info_of img base off ds nb nc))) /\
  vdso_sym fuel img 0 (Some name) None = Some (NULL, None) /\
  vdso_sym fuel img base None i = Some (NULL, i).
Proof.
  intros Hb E Hnb Hnc T Hf Hp Hn Hh. split; [|by split].
  destruct (init_run img base off phs ds fuel (default vdso_info_zero i) E Hf) as (nb' & nc' & Hnb' & Hnc' & Hi).
  rewrite Hnb in Hnb'. injection Hnb' as <-. rewrite Hnc in Hnc'. injection Hnc' as <-.
  destruct (sym_lookup_run img _ syms paths name fuel T Hn Hh Hp) as (r & Hr & Hs).
  exists r, ((fun _ => info_of img base off ds nb nc) <$> i). unfold vdso_sym.
  rewrite (proj2 (Z.eqb_neq base NULL) Hb). cbn [andb negb]. rewrite Hi. cbn [mbind option_bind]. rewrite Hr.
  split; [done|]. split; [done|]. split; [by destruct i|]. simpl. rewrite Hr. done.
Qed.

Lemma vdso_sym_correct_witness :
  exists r i', vdso_sym 5 demo_image 65536 (Some [97; 98]) None = Some (r, i') /\
    symbol_address 65536 demo_syms [97; 98] r.
Proof.
  destruct (vdso_sym_correct demo_image 65536 65536 demo_phs demo_ds demo_syms demo_paths 1 4 5 [97; 98] None)
    as [(r & i' & H & Hs & _) _]; [discriminate | exact demo_elf | demo_eval | demo_eval | exact demo_hash
      | simpl; lia | intros b _; simpl; lia | repeat constructor; discriminate | demo_eval | exists r, i'; split; assumption].
Defined.

(** ** The data page: vdso_user/vdso_user.c and vdso_update/vdso_update.c *)

Record srv_vdso_data := SrvData { srv_val : Z }.

(** [data] is the int that the pointer points to. *)
Definition _kernel_set_info (vdso_data : srv_vdso_data) (data : Z) : srv_vdso_data := SrvData data.

(** The int becomes a pointer. *)
Definition _kernel_get_info (vdso_data : srv_vdso_data) : Z := u64 (srv_val vdso_data).

Lemma kernel_info_roundtrip d v : -2147483648 <= v < 2147483648 -> i32 (_kernel_get_info (_kernel_set_info d v)) = v.
Proof.
  intros Hv. unfold _kernel_get_info, _kernel_set_info. cbn [srv_val]. unfold i32, u64.
  rewrite <- (Z.add_mod_idemp_l _ 2147483648) by lia.
  rewrite (Z.mod_mod_divide v 18446744073709551616 4294967296) by (by exists 4294967296).
  rewrite Z.add_mod_idemp_l by lia. rewrite Z.mod_small; lia.
Qed.
