(* ===== verification/DsdbNode.v ===== *)
(** * DsdbNode: the registration of nodes, src/dsdb/dump/clib/node_init.c

    A monitor keeps a list of nodes.  A new node connects, sends its address and gets
    its number and the addresses of all nodes.  [xread] and [xwrite] are the loops of
    src/include/unix_domain.h around read and write.

    The operating system is an argument: how many bytes a call of read or write
    transfers and which calls fail ([c_io]).  A call transfers at least one byte when
    it is asked for one and there is one; read returns 0 at the end of the stream, which
    has come when the peer has closed ([c_in] is all that the peer sends).  The loops
    take fuel.  [None] is an access behind the end of an array, or a loop that does not
    end. *)
From S2P Require Import Prelude.
Local Open Scope Z_scope.

(** ** Connections *)

(** A call that transfers [k + 1] bytes, or as many as possible; or -1. *)
Inductive io := IoSome (k : nat) | IoErr.

(** What comes in, what was sent, and the outcomes of the calls to come; calls after
    the last one transfer all they can. *)
Record conn := Conn { c_in : list Z; c_out : list Z; c_io : list io }.

Definition transfer (n avail : nat) (o : io) : option nat :=
  match o with IoSome k => Some (Nat.min (Nat.min n avail) (S k)) | IoErr => None end.

Definition next_io (n : nat) (c : conn) : io * list io :=
  match c_io c with o :: os => (o, os) | [] => (IoSome n, []) end.

(** [read] and [write]; [None] is -1. *)
Definition sys_read (n : nat) (c : conn) : option (list Z) * conn :=
  let '(o, os) := next_io n c in
  match transfer n (length (c_in c)) o with
  | Some k => (Some (take k (c_in c)), Conn (drop k (c_in c)) (c_out c) os)
  | None => (None, Conn (c_in c) (c_out c) os)
  end.

Definition sys_write (data : list Z) (c : conn) : option nat * conn :=
  let '(o, os) := next_io (length data) c in
  match transfer (length data) (length data) o with
  | Some k => (Some k, Conn (c_in c) (c_out c ++ take k data) os)
  | None => (None, Conn (c_in c) (c_out c) os)
  end.

(** Whether the call succeeded, and the bytes that are in the buffer. *)
Fixpoint xread_loop (fuel rest : nat) (got : list Z) (c : conn) : option (bool * list Z * conn) :=
  match fuel with
  | O => None
  | S fuel =>
      match sys_read rest c with
      | (None, c) => Some (false, got, c)
      | (Some bs, c) =>
          if (length bs =? rest)%nat then Some (true, got ++ bs, c)
          else xread_loop fuel (rest - length bs) (got ++ bs) c
      end
  end.

Definition xread (fuel size : nat) (c : conn) : option (bool * list Z * conn) := xread_loop fuel size [] c.

Fixpoint xwrite (fuel : nat) (data : list Z) (c : conn) : option (bool * conn) :=
  match fuel with
  | O => None
  | S fuel =>
      match sys_write data c with
      | (None, c) => Some (false, c)
      | (Some k, c) => if (k =? length data)%nat then Some (true, c) else xwrite fuel (drop k data) c
      end
  end.

(** ** Nodes *)

Definition DSDB_MAX_NODE_EP_PATH_LEN : nat := 64.
Definition DSDB_DEFAULT_MAX_NODE_COUNT : Z := 1024.
Definition EP_FILE : Z := 0.
Definition EP_IP : Z := 1.
Definition EP_SOCKET : Z := 2.

Record node_ep := NodeEp { ep_connector : Z; ep_type : Z; node_id : Z; epfd : Z }.

(** The arrays have [DSDB_DEFAULT_MAX_NODE_COUNT] entries; an address is 64 bytes. *)
Record node_ep_list := EpList { ep_count : Z; ep_addr_list : list (list Z); eplist : list node_ep }.

(** An assignment to an element of an array. *)
Definition set_at {A} (l : list A) (i : Z) (x : A) : option (list A) :=
  if (0 <=? i) && (i <? Z.of_nat (length l)) then Some (<[Z.to_nat i := x]> l) else None.

(** The bytes of an unsigned long. *)
Fixpoint le_bytes (n : nat) (v : Z) : list Z :=
  match n with O => [] | S n => v mod 256 :: le_bytes n (v / 256) end.
Fixpoint le_value (bs : list Z) : Z :=
  match bs with [] => 0 | b :: bs => b + 256 * le_value bs end.

Definition sizeof_node_ep : nat := 32.

(** [node_ep_t] in memory; the last four bytes are padding. *)
Definition node_ep_bytes (e : node_ep) : list Z :=
  le_bytes 8 (ep_connector e) ++ le_bytes 8 (ep_type e) ++ le_bytes 8 (node_id e) ++ le_bytes 4 (epfd e) ++ [0; 0; 0; 0].
Definition node_ep_of (bs : list Z) : node_ep :=
  NodeEp (le_value (take 8 bs)) (le_value (take 8 (drop 8 bs))) (le_value (take 8 (drop 16 bs)))
         (le_value (take 4 (drop 24 bs))).

(** What [strncpy] of [n] bytes leaves in its destination. *)
Fixpoint strncpy (n : nat) (src : list Z) : list Z :=
  match n, src with
  | O, _ => []
  | S n, b :: src => if b =? 0 then replicate (S n) 0 else b :: strncpy n src
  | S n, [] => replicate (S n) 0
  end.

Lemma strncpy_length n src : length (strncpy n src) = n.
Proof.
  revert src. induction n as [| n IH]; intros [| b src]; simpl; try done; [by rewrite length_replicate|].
  destruct (b =? 0); simpl; [by rewrite length_replicate | by rewrite IH].
Qed.

Definition set_node_id (id : Z) (e : node_ep) : node_ep := NodeEp (ep_connector e) (ep_type e) id (epfd e).

(** The result, the list and [*ep]; the pointers that may be NULL are options. *)
Definition insert_node_ep (l : option node_ep_list) (ep : node_ep) (epaddr : option (list Z))
    : option (Z * option node_ep_list * node_ep) :=
  match l, epaddr with
  | Some g, Some addr =>
      let new_ep_id := ep_count g in
      if DSDB_DEFAULT_MAX_NODE_COUNT <? new_ep_id then Some (-1, Some g, ep) else
      eps ← set_at (eplist g) new_ep_id (set_node_id new_ep_id (node_ep_of (strncpy sizeof_node_ep (node_ep_bytes ep))));
      addrs ← set_at (ep_addr_list g) new_ep_id (strncpy DSDB_MAX_NODE_EP_PATH_LEN addr);
      Some (0, Some (EpList (u64 (ep_count g + 1)) addrs eps), set_node_id new_ep_id ep)
  | _, _ => Some (-1, l, ep)
  end.

(** ** The monitor *)

(** The bytes that [xread] has put at the start of an address. *)
Definition slot_write (addrs : list (list Z)) (id : Z) (bs : list Z) : option (list (list Z)) :=
  match bs with
  | [] => Some addrs
  | _ => old ← addrs !! Z.to_nat id; set_at addrs id (bs ++ drop (length bs) old)
  end.

(** One round of the loop of [server_node_register_bysocket], after [accept]. *)
Definition register_node (fuel : nat) (g : node_ep_list) (c : conn) : option (node_ep_list * conn) :=
  let expect_ep_id := ep_count g in
  if DSDB_DEFAULT_MAX_NODE_COUNT <? ep_count g then Some (g, c) else
  '(ok, bs, c) ← xread fuel DSDB_MAX_NODE_EP_PATH_LEN c;
  addrs ← slot_write (ep_addr_list g) expect_ep_id bs;
  if negb ok then Some (EpList (ep_count g) addrs (eplist g), c) else
  e ← eplist g !! Z.to_nat expect_ep_id;
  eps ← set_at (eplist g) expect_ep_id (set_node_id expect_ep_id e);
  let g := EpList (ep_count g) addrs eps in
  '(ok, c) ← xwrite fuel (le_bytes 8 expect_ep_id) c;
  if negb ok then Some (g, c) else
  '(ok, c) ← xwrite fuel (mjoin (take (Z.to_nat (ep_count g + 1)) addrs)) c;
  if negb ok then Some (g, c) else
  Some (EpList (u64 (ep_count g + 1)) addrs eps, c).

(** The results of [accept] so far: a connection, or -1, which ends the loop.  The
    state, what was sent on each connection, and whether the loop has ended. *)
Fixpoint server_node_register_bysocket (fuel : nat) (g : node_ep_list) (accepts : list (option conn))
    : option (node_ep_list * list conn * bool) :=
  match accepts with
  | [] => Some (g, [], false)
  | None :: _ => Some (g, [], true)
  | Some c :: accepts =>
      '(g, c) ← register_node fuel g c;
      '(g, cs, e) ← server_node_register_bysocket fuel g accepts;
      Some (g, c :: cs, e)
  end.

Definition known_ep_type (t : Z) : bool := (t =? EP_FILE) || (t =? EP_IP) || (t =? EP_SOCKET).

(** The result is -1 whenever the call returns. *)
Definition server_node_register (fuel : nat) (g : node_ep_list) (monitor : option node_ep)
    (accepts : list (option conn)) : option (node_ep_list * list conn * bool) :=
  match monitor with
  | Some m => if known_ep_type (ep_type m) then server_node_register_bysocket fuel g accepts else Some (g, [], true)
  | None => Some (g, [], true)
  end.

(** ** A new node *)

(** [live] are the blocks of memory in use. *)
Record client := Client { live : list Z; g_local_nodeid : Z }.

(** The list a node gets: the addresses, and the entries whose numbers are set. *)
Record node_view := View { vw_count : Z; vw_addrs : list Z; vw_ids : list Z }.

Definition release (ptr : Z) (l : list Z) : list Z := if ptr =? NULL then l else filter (fun x => x <> ptr) l.

(** [eplist_ptr] and [cache_ptr] are what the two calls of malloc return. *)
Definition check_node_list_bysocket (fuel : nat) (newnode : list Z) (eplist_ptr cache_ptr : Z) (c : conn) (s : client)
    : option (option node_view * conn * client) :=
  '(ok, c) ← xwrite fuel newnode c;
  if negb ok then Some (None, c, s) else
  '(ok, bs, c) ← xread fuel 8 c;
  if negb ok then Some (None, c, s) else
  let ep_count := u64 (le_value bs + 1) in
  if DSDB_DEFAULT_MAX_NODE_COUNT <? ep_count then Some (None, c, s) else
  let current_ep_id := u64 (ep_count - 1) in
  let l := (if eplist_ptr =? NULL then [] else [eplist_ptr]) ++ (if cache_ptr =? NULL then [] else [cache_ptr]) ++ live s in
  let recycle := release cache_ptr (release eplist_ptr l) in
  if (cache_ptr =? NULL) || (eplist_ptr =? NULL) then Some (None, c, Client recycle (g_local_nodeid s)) else
  '(ok, bs, c) ← xread fuel (Z.to_nat (u64 (ep_count * 64))) c;
  if negb ok then Some (None, c, Client recycle (g_local_nodeid s)) else
  Some (Some (View ep_count bs (seqZ 0 ep_count)), c, Client l current_ep_id).

Definition check_nodes_list (fuel : nat) (monitor : option node_ep) (newnode : option (list Z))
    (eplist_ptr cache_ptr : Z) (c : conn) (s : client) : option (option node_view * conn * client) :=
  match monitor, newnode with
  | Some m, Some a =>
      if known_ep_type (ep_type m) then check_node_list_bysocket fuel a eplist_ptr cache_ptr c s
      else Some (None, c, s)
  | _, _ => Some (None, c, s)
  end.

Definition get_local_nodeid (s : client) : Z := g_local_nodeid s.

(** ** Transfers *)

Definition no_err (os : list io) : Prop := Forall (fun o => o <> IoErr) os.

Lemma transfer_some n avail o k :
  transfer n avail o = Some k -> (k <= n)%nat /\ (k <= avail)%nat /\ (0 < n -> 0 < avail -> 0 < k)%nat.
Proof. destruct o as [j |]; simpl; [|done]. intros [= <-]. lia. Qed.

Lemma next_io_ok n c o os : next_io n c = (o, os) -> no_err (c_io c) -> o <> IoErr /\ no_err os.
Proof.
  unfold next_io, no_err. destruct (c_io c) as [| o' os']; intros [= <- <-] H; [done|].
  by apply Forall_cons in H.
Qed.

(** [xread] of what the peer sends returns; it succeeds when no call fails, and then it
    has all of the bytes. *)
Lemma xread_loop_run fuel : forall rest got c,
  (rest < fuel)%nat -> (rest <= length (c_in c))%nat ->
  exists ok k os, xread_loop fuel rest got c =
      Some (ok, got ++ take k (c_in c), Conn (drop k (c_in c)) (c_out c) os) /\
    (k <= rest)%nat /\ (ok = true -> k = rest) /\ (no_err (c_io c) -> ok = true /\ no_err os).
Proof.
  induction fuel as [| fuel IH]; intros rest got c Hf Hl; [lia|]. cbn [xread_loop]. unfold sys_read.
  destruct (next_io rest c) as [o os] eqn:Eo.
  destruct (transfer rest (length (c_in c)) o) as [k |] eqn:Et.
  - apply transfer_some in Et as (H1 & H2 & H3). rewrite length_take, (Nat.min_l k) by lia.
    destruct (Nat.eqb_spec k rest) as [-> | N].
    + exists true, rest, os. split; [done|]. split; [done|]. split; [done|]. intros H. split; [done|].
      by apply (next_io_ok _ _ _ _ Eo).
    + destruct (IH (rest - k)%nat (got ++ take k (c_in c)) (Conn (drop k (c_in c)) (c_out c) os))
        as (ok & k' & os' & E & Hk & Hok & Hne); [lia | simpl; rewrite length_drop; lia |].
      exists ok, (k + k')%nat, os'. simpl in E, Hne. rewrite E, <- app_assoc, take_take_drop, drop_drop.
      split; [done|]. split; [lia|]. split; [intros H; specialize (Hok H); lia|].
      intros H. apply Hne. by apply (next_io_ok _ _ _ _ Eo).
  - exists false, 0%nat, os. rewrite take_0, drop_0, app_nil_r. split; [done|]. split; [lia|]. split; [done|].
    intros H. apply (next_io_ok _ _ _ _ Eo) in H as [H _]. by destruct o.
Qed.

Lemma xread_run fuel size c :
  (size < fuel)%nat -> (size <= length (c_in c))%nat ->
  exists ok k os, xread fuel size c = Some (ok, take k (c_in c), Conn (drop k (c_in c)) (c_out c) os) /\
    (k <= size)%nat /\ (ok = true -> k = size) /\ (no_err (c_io c) -> ok = true /\ no_err os).
Proof. apply xread_loop_run. Qed.

Lemma xwrite_run fuel : forall data c,
  (length data < fuel)%nat ->
  exists ok k os, xwrite fuel data c = Some (ok, Conn (c_in c) (c_out c ++ take k data) os) /\
    (ok = true -> k = length data) /\ (no_err (c_io c) -> ok = true /\ no_err os).
Proof.
  induction fuel as [| fuel IH]; intros data c Hf; [lia|]. cbn [xwrite]. unfold sys_write.
  destruct (next_io (length data) c) as [o os] eqn:Eo.
  destruct (transfer (length data) (length data) o) as [k |] eqn:Et.
  - apply transfer_some in Et as (H1 & _ & H3). destruct (Nat.eqb_spec k (length data)) as [-> | N].
    + exists true, (length data), os. split; [done|]. split; [done|]. intros H. split; [done|].
      by apply (next_io_ok _ _ _ _ Eo).
    + destruct (IH (drop k data) (Conn (c_in c) (c_out c ++ take k data) os)) as (ok & k' & os' & E & Hok & Hne);
        [rewrite length_drop; lia|].
      exists ok, (k + k')%nat, os'. simpl in E, Hne. rewrite E, <- app_assoc, take_take_drop.
      split; [done|]. split; [intros H; specialize (Hok H); rewrite length_drop in Hok; lia|].
      intros H. apply Hne. by apply (next_io_ok _ _ _ _ Eo).
  - exists false, 0%nat, os. rewrite take_0, app_nil_r. split; [done|]. split; [done|].
    intros H. apply (next_io_ok _ _ _ _ Eo) in H as [H _]. by destruct o.
Qed.

Lemma xread_all fuel bs rest out os :
  (length bs < fuel)%nat -> no_err os ->
  exists os', xread fuel (length bs) (Conn (bs ++ rest) out os) = Some (true, bs, Conn rest out os') /\ no_err os'.
Proof.
  intros Hf Ho. destruct (xread_run fuel (length bs) (Conn (bs ++ rest) out os)) as (ok & k & os' & E & _ & Hk & Hok);
    [done | simpl; rewrite length_app; lia|].
  destruct (Hok Ho) as [-> Ho']. rewrite (Hk eq_refl) in E. simpl in E. rewrite take_app_length, drop_app_length in E. eauto.
Qed.

Lemma xwrite_all fuel data i out os :
  (length data < fuel)%nat -> no_err os ->
  exists os', xwrite fuel data (Conn i out os) = Some (true, Conn i (out ++ data) os') /\ no_err os'.
Proof.
  intros Hf Ho. destruct (xwrite_run fuel data (Conn i out os) Hf) as (ok & k & os' & E & Hk & Hok).
  destruct (Hok Ho) as [-> Ho']. rewrite (Hk eq_refl) in E. simpl in E. rewrite take_ge in E by done. eauto.
Qed.

(** At the end of the stream read returns 0, and the loop goes on for ever. *)
Lemma xread_loop_eof fuel : forall rest got c,
  (length (c_in c) < rest)%nat -> no_err (c_io c) -> xread_loop fuel rest got c = None.
Proof.
  induction fuel as [| fuel IH]; intros rest got c Hl Hn; [done|]. cbn [xread_loop]. unfold sys_read.
  destruct (next_io rest c) as [o os] eqn:Eo. destruct (next_io_ok _ _ _ _ Eo Hn) as [Ho Hn'].
  destruct (transfer rest (length (c_in c)) o) as [k |] eqn:Et; [|by destruct o].
  apply transfer_some in Et as (_ & H2 & _). rewrite length_take, (Nat.min_l k) by lia.
  destruct (Nat.eqb_spec k rest); [lia|]. apply IH; simpl; [rewrite length_drop; lia | done].
Qed.

(** ** The monitor and a new node *)

Lemma le_bytes_length n v : length (le_bytes n v) = n.
Proof. revert v. induction n as [| n IH]; intros v; simpl; [done | by rewrite IH]. Qed.

Lemma le_value_bytes n v : 0 <= v < 256 ^ Z.of_nat n -> le_value (le_bytes n v) = v.
Proof.
  revert v. induction n as [| n IH]; intros v Hv; [simpl in *; lia|].
  rewrite Nat2Z.inj_succ, Z.pow_succ_r in Hv by lia. cbn [le_bytes le_value]. rewrite IH.
  - pose proof (Z.div_mod v 256). lia.
  - split; [apply Z.div_pos; lia | apply Z.div_lt_upper_bound; lia].
Qed.

(** A list of [n] nodes. *)
Record nodes_ok (g : node_ep_list) (n : nat) : Prop := {
  no_count : ep_count g = Z.of_nat n;
  no_max : (n <= 1024)%nat;
  no_addrs : length (ep_addr_list g) = 1024%nat;
  no_eps : length (eplist g) = 1024%nat;
  no_sizes : Forall (fun a => length a = 64%nat) (ep_addr_list g) }.

Lemma mjoin_length (l : list (list Z)) n k :
  Forall (fun a => length a = k) l -> length l = n -> length (mjoin l) = (k * n)%nat.
Proof.
  intros H <-. induction H as [| a l Ha _ IH]; simpl; [lia|]. rewrite length_app, IH, Ha. lia.
Qed.

Lemma addrs_length g n k : nodes_ok g n -> (k <= 1024)%nat -> length (mjoin (take k (ep_addr_list g))) = (64 * k)%nat.
Proof.
  intros H Hk. apply mjoin_length; [by apply Forall_take, (no_sizes _ _ H)|].
  rewrite length_take, (no_addrs _ _ H). lia.
Qed.

Lemma set_at_run {A} (l : list A) (n : nat) x : (n < length l)%nat -> set_at l (Z.of_nat n) x = Some (<[n := x]> l).
Proof. intros H. unfold set_at. zdec. by rewrite Nat2Z.id. Qed.

Definition greeting (g : node_ep_list) (n : nat) : list Z :=
  le_bytes 8 (Z.of_nat n) ++ mjoin (take (S n) (ep_addr_list g)).

Lemma slot_write_run g n addr :
  nodes_ok g n -> (n < 1024)%nat -> length addr = 64%nat ->
  slot_write (ep_addr_list g) (Z.of_nat n) addr = Some (<[n := addr]> (ep_addr_list g)).
Proof.
  intros G Hn Ha. unfold slot_write. destruct addr as [| b bs]; [done|]. rewrite Nat2Z.id.
  destruct (lookup_lt_is_Some_2 (ep_addr_list g) n) as [old Hold]; [rewrite (no_addrs _ _ G); lia|].
  rewrite Hold. cbn [mbind option_bind]. rewrite set_at_run by (rewrite (no_addrs _ _ G); lia).
  rewrite drop_ge, app_nil_r; [done|]. rewrite (proj1 (Forall_lookup _ _) (no_sizes _ _ G) _ _ Hold). lia.
Qed.

(** The monitor takes a node with a number of its own, and sends it the list. *)
Lemma register_run fuel g n addr os :
  nodes_ok g n -> (n < 1024)%nat -> length addr = 64%nat -> no_err os -> (64 * S n < fuel)%nat ->
  exists g' os', register_node fuel g (Conn addr [] os) = Some (g', Conn [] (greeting g' n) os') /\
    nodes_ok g' (S n) /\ ep_addr_list g' = <[n := addr]> (ep_addr_list g).
Proof.
  intros G Hn Ha Ho Hf. destruct (G) as [Gc _ Gl Ge Gs]. unfold register_node. rewrite Gc.
  unfold DSDB_DEFAULT_MAX_NODE_COUNT, DSDB_MAX_NODE_EP_PATH_LEN. zdec.
  destruct (xread_all fuel addr [] [] os) as (os1 & E1 & Ho1); [lia | done|].
  rewrite app_nil_r, Ha in E1. rewrite E1. cbn [mbind option_bind].
  rewrite (slot_write_run g n addr) by done. cbn [mbind option_bind negb]. rewrite Nat2Z.id.
  destruct (lookup_lt_is_Some_2 (eplist g) n) as [e He]; [lia|]. rewrite He. cbn [mbind option_bind].
  rewrite set_at_run by lia. cbn [mbind option_bind ep_count].
  destruct (xwrite_all fuel (le_bytes 8 (Z.of_nat n)) [] [] os1) as (os2 & E2 & Ho2); [rewrite le_bytes_length; lia | done|].
  rewrite E2. cbn [mbind option_bind negb].
  set (g' := EpList (Z.of_nat (S n)) (<[n := addr]> (ep_addr_list g)) (<[n := set_node_id (Z.of_nat n) e]> (eplist g))).
  assert (nodes_ok g' (S n)) as G'.
  { split; simpl; [done | lia | by rewrite length_insert | by rewrite length_insert | by apply Forall_insert]. }
  replace (Z.to_nat (Z.of_nat n + 1)) with (S n) by lia.
  destruct (xwrite_all fuel (mjoin (take (S n) (ep_addr_list g'))) [] (le_bytes 8 (Z.of_nat n)) os2) as (os3 & E3 & _);
    [rewrite (addrs_length g' (S n)) by (done || lia); lia | done|].
  cbn [app]. change (<[n := addr]> (ep_addr_list g)) with (ep_addr_list g'). rewrite E3. cbn [mbind option_bind negb].
  replace (u64 (Z.of_nat n + 1)) with (Z.of_nat (S n)) by (rewrite u64_small; lia). exists g', os3. done.
Qed.

(** A node that gets the greeting of the monitor. *)
Lemma client_run fuel g n addr p1 p2 os s :
  nodes_ok g (S n) -> length addr = 64%nat -> no_err os -> (64 * S n < fuel)%nat -> p1 <> NULL -> p2 <> NULL ->
  exists os', check_node_list_bysocket fuel addr p1 p2 (Conn (greeting g n) [] os) s =
    Some (Some (View (Z.of_nat (S n)) (mjoin (take (S n) (ep_addr_list g))) (seqZ 0 (Z.of_nat (S n)))),
          Conn [] addr os', Client (p1 :: p2 :: live s) (Z.of_nat n)).
Proof.
  intros G Ha Ho Hf H1 H2. pose proof (no_max _ _ G) as Hm. unfold check_node_list_bysocket, greeting.
  destruct (xwrite_all fuel addr (le_bytes 8 (Z.of_nat n) ++ mjoin (take (S n) (ep_addr_list g))) [] os)
    as (os1 & E1 & Ho1); [lia | done|]. rewrite E1. cbn [mbind option_bind negb app].
  destruct (xread_all fuel (le_bytes 8 (Z.of_nat n)) (mjoin (take (S n) (ep_addr_list g))) addr os1) as (os2 & E2 & Ho2);
    [rewrite le_bytes_length; lia | done|]. rewrite le_bytes_length in E2. rewrite E2. cbn [mbind option_bind negb].
  rewrite le_value_bytes by (simpl; lia).
  replace (u64 (Z.of_nat n + 1)) with (Z.of_nat (S n)) by (rewrite u64_small; lia).
  unfold DSDB_DEFAULT_MAX_NODE_COUNT. zdec.
  destruct (xread_all fuel (mjoin (take (S n) (ep_addr_list g))) [] addr os2) as (os3 & E3 & _);
    [rewrite (addrs_length g (S n)) by (done || lia); lia | done|].
  rewrite (addrs_length g (S n) _ G) in E3 by lia. rewrite app_nil_r in E3.
  replace (Z.to_nat (u64 (Z.of_nat (S n) * 64))) with (64 * S n)%nat by (rewrite u64_small; lia).
  rewrite E3. cbn [mbind option_bind negb app]. exists os3. do 3 f_equal. rewrite u64_small; lia.
Qed.

Lemma greeting_prefix g g' n :
  take (S n) (ep_addr_list g') = take (S n) (ep_addr_list g) -> greeting g' n = greeting g n.
Proof. intros E. unfold greeting. by rewrite E. Qed.

(** Any number of nodes, one after the other. *)
Lemma server_run fuel reqs : forall g n,
  nodes_ok g n -> (n + length reqs <= 1024)%nat -> (64 * (n + length reqs) < fuel)%nat ->
  Forall (fun r => length r.1 = 64%nat /\ no_err r.2) reqs ->
  exists g' cs, server_node_register_bysocket fuel g ((fun r => Some (Conn r.1 [] r.2)) <$> reqs) = Some (g', cs, false) /\
    nodes_ok g' (n + length reqs) /\ take n (ep_addr_list g') = take n (ep_addr_list g) /\
    forall j r, reqs !! j = Some r -> ep_addr_list g' !! (n + j)%nat = Some r.1 /\
      exists os, cs !! j = Some (Conn [] (greeting g' (n + j)) os).
Proof.
  induction reqs as [| [addr os] reqs IH]; intros g n G Hn Hf Hr; cbn [fmap list_fmap server_node_register_bysocket length] in *.
  - exists g, []. rewrite Nat.add_0_r. split; [done|]. split; [done|]. split; [done|]. by intros j r Hj.
  - apply Forall_cons in Hr as [[Ha Ho] Hr]. simpl in Ha, Ho.
    destruct (register_run fuel g n addr os G ltac:(lia) Ha Ho ltac:(lia)) as (g1 & os1 & E1 & G1 & A1).
    destruct (IH g1 (S n) G1 ltac:(lia) ltac:(lia) Hr) as (g' & cs & E & G' & T & Hj).
    exists g', (Conn [] (greeting g1 n) os1 :: cs). cbn [fst snd]. rewrite E1. cbn [mbind option_bind]. rewrite E.
    split; [done|]. split; [by replace (n + S (length reqs))%nat with (S n + length reqs)%nat by lia|]. split.
    { rewrite <- (Nat.min_l n (S n)), <- !take_take, T, A1, !take_take by lia.
      rewrite Nat.min_l by lia. by apply take_insert_ge. }
    intros [| j] r Hlk; simpl in Hlk.
    + injection Hlk as <-. rewrite Nat.add_0_r. split; [|exists os1; simpl; by rewrite (greeting_prefix g1 g')].
      rewrite <- (lookup_take_lt _ (S n)), T, lookup_take_lt, A1 by lia. apply list_lookup_insert_eq. rewrite (no_addrs _ _ G). lia.
    + replace (n + S j)%nat with (S n + j)%nat by lia. by apply Hj.
Qed.

(** ** Registrations that fail *)

(** The entries of the registered nodes carry their numbers. *)
Definition ids_ok (g : node_ep_list) (n : nat) : Prop :=
  forall i e, (i < n)%nat -> eplist g !! i = Some e -> node_id e = Z.of_nat i.

(** What the monitor may rely on after a round: [m] nodes, the first [n] of them as
    before. *)
Definition list_kept (g g' : node_ep_list) (n m : nat) : Prop :=
  nodes_ok g' m /\ ids_ok g' m /\ take n (ep_addr_list g') = take n (ep_addr_list g).

(** Any part of an address. *)
Lemma slot_write_part g n bs :
  nodes_ok g n -> (n < 1024)%nat -> (length bs <= 64)%nat ->
  exists addrs, slot_write (ep_addr_list g) (Z.of_nat n) bs = Some addrs /\ length addrs = 1024%nat /\
    Forall (fun a => length a = 64%nat) addrs /\ take n addrs = take n (ep_addr_list g).
Proof.
  intros G Hn Hb. pose proof (no_addrs _ _ G) as Gl. unfold slot_write. destruct bs as [| b bs].
  { eexists. split; [done|]. split; [done|]. split; [apply (no_sizes _ _ G) | done]. }
  rewrite Nat2Z.id. destruct (lookup_lt_is_Some_2 (ep_addr_list g) n) as [old Hold]; [lia|].
  rewrite Hold. cbn [mbind option_bind]. rewrite set_at_run by lia. eexists. split; [done|].
  split; [by rewrite length_insert|]. split; [|by apply take_insert_ge].
  apply Forall_insert; [apply (no_sizes _ _ G)|]. pose proof (proj1 (Forall_lookup _ _) (no_sizes _ _ G) _ _ Hold) as Ho.
  simpl in Ho. rewrite length_app, length_drop. lia.
Qed.

Lemma set_id_kept g n e addrs m :
  nodes_ok g n -> ids_ok g n -> (n < 1024)%nat -> length addrs = 1024%nat -> Forall (fun a => length a = 64%nat) addrs ->
  take n addrs = take n (ep_addr_list g) -> (m = n \/ m = S n) ->
  list_kept g (EpList (Z.of_nat m) addrs (<[n := set_node_id (Z.of_nat n) e]> (eplist g))) n m.
Proof.
  intros G I Hn La Sa T Hm. pose proof (no_eps _ _ G) as Ge. split; [|split; [|done]].
  - split; cbn [ep_count ep_addr_list eplist]; [done | lia | done | by rewrite length_insert | done].
  - intros i e' Hi. cbn [eplist]. destruct (decide (i = n)) as [-> | N].
    + rewrite list_lookup_insert_eq by lia. by intros [= <-].
    + rewrite list_lookup_insert_ne by done. apply I. lia.
Qed.

(** A round of the monitor, whichever calls fail. *)
Lemma register_kept fuel g n c :
  nodes_ok g n -> ids_ok g n -> (n < 1024)%nat -> (64 <= length (c_in c))%nat -> (64 * S n < fuel)%nat ->
  exists g' c' m, register_node fuel g c = Some (g', c') /\ (m = n \/ m = S n) /\ list_kept g g' n m.
Proof.
  intros G I Hn Hc Hf. pose proof (no_count _ _ G) as Gc. unfold register_node. rewrite Gc.
  unfold DSDB_DEFAULT_MAX_NODE_COUNT, DSDB_MAX_NODE_EP_PATH_LEN. zdec.
  destruct (xread_run fuel 64 c) as (ok & k & os & E & Hk & _); [lia | lia |]. rewrite E. cbn [mbind option_bind].
  destruct (slot_write_part g n (take k (c_in c)) G Hn) as (addrs & Ea & La & Sa & Ta); [rewrite length_take; lia|].
  rewrite Ea. cbn [mbind option_bind]. pose proof (no_eps _ _ G) as Ge. destruct ok; cbn [negb].
  2: { eexists _, _, n. split; [done|]. split; [by left|]. split; [split; done || simpl; lia | done]. }
  rewrite Nat2Z.id. destruct (lookup_lt_is_Some_2 (eplist g) n) as [e He]; [lia|]. rewrite He. cbn [mbind option_bind].
  rewrite set_at_run by lia. cbn [mbind option_bind ep_count ep_addr_list].
  pose proof (set_id_kept g n e addrs) as K.
  match goal with |- context [xwrite fuel ?d ?c0] =>
    destruct (xwrite_run fuel d c0) as (ok1 & k1 & os1 & E1 & _); [rewrite le_bytes_length; lia|] end.
  rewrite E1. cbn [mbind option_bind]. destruct ok1; cbn [negb].
  2: { eexists _, _, n. split; [done|]. split; [by left|]. apply K; auto. }
  match goal with |- context [xwrite fuel ?d ?c0] => destruct (xwrite_run fuel d c0) as (ok2 & k2 & os2 & E2 & _) end.
  { rewrite (mjoin_length _ (S n) 64); [lia | by apply Forall_take | rewrite length_take; lia]. }
  rewrite E2. cbn [mbind option_bind]. destruct ok2; cbn [negb].
  - eexists _, _, (S n). split; [done|]. split; [by right|].
    replace (u64 (Z.of_nat n + 1)) with (Z.of_nat (S n)) by (rewrite u64_small; lia). apply K; auto.
  - eexists _, _, n. split; [done|]. split; [by left|]. apply K; auto.
Qed.

Lemma insert_kept g n ep addr :
  nodes_ok g n -> ids_ok g n -> (n < 1024)%nat ->
  exists g', insert_node_ep (Some g) ep (Some addr) = Some (0, Some g', set_node_id (Z.of_nat n) ep) /\ list_kept g g' n (S n).
Proof.
  intros G I Hn. unfold insert_node_ep. rewrite (no_count _ _ G). unfold DSDB_DEFAULT_MAX_NODE_COUNT. zdec.
  pose proof (no_addrs _ _ G) as Gl. pose proof (no_eps _ _ G). rewrite !set_at_run by lia. cbn [mbind option_bind].
  eexists. split; [done|]. replace (u64 (Z.of_nat n + 1)) with (Z.of_nat (S n)) by (rewrite u64_small; lia).
  apply set_id_kept; auto; [by rewrite length_insert | | by apply take_insert_ge].
  apply Forall_insert; [apply (no_sizes _ _ G) | apply strncpy_length].
Qed.

Lemma server_kept fuel cs : forall g n,
  nodes_ok g n -> ids_ok g n -> (n + length cs <= 1024)%nat -> (64 * (n + length cs) < fuel)%nat ->
  Forall (fun c => match c with Some c => (64 <= length (c_in c))%nat | None => True end) cs ->
  exists g' out e m, server_node_register_bysocket fuel g cs = Some (g', out, e) /\
    (n <= m <= n + length cs)%nat /\ list_kept g g' n m.
Proof.
  induction cs as [| [c |] cs IH]; intros g n G I Hn Hf Hc; cbn [server_node_register_bysocket length] in *.
  - eexists _, _, _, n. split; [done|]. split; [lia | by split].
  - apply Forall_cons in Hc as [Hc Hcs].
    destruct (register_kept fuel g n c G I ltac:(lia) Hc ltac:(lia)) as (g1 & c1 & m1 & E1 & Hm & G1 & I1 & T1).
    destruct (IH g1 m1 G1 I1 ltac:(lia) ltac:(lia) Hcs) as (g' & out & e & m & E & Hm' & G' & I' & T').
    rewrite E1. cbn [mbind option_bind]. rewrite E. eexists _, _, _, m. split; [done|]. split; [lia|].
    split; [done|]. split; [done|]. rewrite <- T1, <- (Nat.min_l n m1), <- !take_take, T' by lia. done.
  - eexists _, _, _, n. split; [done|]. split; [lia | by split].
Qed.

Lemma filter_absent (p : Z) (l : list Z) : p ∉ l -> filter (fun x => x <> p) l = l.
Proof.
  induction l as [| x l IH]; intros H; [done|]. apply not_elem_of_cons in H as [N H].
  rewrite filter_cons_True, IH; auto.
Qed.

(** What is released is what was allocated. *)
Lemma release_all p1 p2 l :
  p1 ∉ l -> p2 ∉ l -> (p1 = p2 -> p1 = NULL) ->
  release p2 (release p1 ((if p1 =? NULL then [] else [p1]) ++ (if p2 =? NULL then [] else [p2]) ++ l)) = l.
Proof.
  intros H1 H2 N. unfold release. destruct (Z.eqb_spec p1 NULL) as [E1 | N1], (Z.eqb_spec p2 NULL) as [E2 | N2]; cbn [app].
  - done.
  - by rewrite filter_cons_False, filter_absent by (done || congruence || (intros F; by apply F)).
  - by rewrite filter_cons_False, filter_absent by (done || congruence || (intros F; by apply F)).
  - assert (p2 <> p1) by (intros ->; auto).
    rewrite filter_cons_False, filter_cons_True, (filter_absent p1) by (done || congruence || (intros F; by apply F)).
    by rewrite filter_cons_False, filter_absent by (done || congruence || (intros F; by apply F)).
Qed.

(** A full list of nodes with addresses [a]. *)
Definition full_list (a : list Z) : node_ep_list :=
  EpList 1024 (replicate 1024 a) (replicate 1024 (NodeEp 0 0 0 0)).

(** The list of the monitor of dsdbs.c: the addresses and entries are what malloc
    leaves, here zeros. *)
Definition empty_list : node_ep_list :=
  EpList 0 (replicate 1024 (replicate 64 0)) (replicate 1024 (NodeEp 0 0 0 0)).

Lemma empty_ok : nodes_ok empty_list 0.
Proof.
  split; [done | lia | reflexivity | reflexivity |]. cbn [empty_list ep_addr_list].
  apply Forall_replicate. reflexivity.
Qed.

(** ** Theorems *)

(** the monitor and the nodes agree.  Nodes that connect one after the other, over
    connections that split the data in any way but do not fail, while there is room:
    the monitor registers all of them in order and keeps the nodes it has; each node
    gets a number of its own, its position in the list, and the addresses of all nodes
    up to itself, as they stay in the list of the monitor. *)
Theorem dsdb_register_all fuel g n reqs :
  nodes_ok g n -> (n + length reqs <= 1024)%nat -> (64 * (n + length reqs) < fuel)%nat ->
  Forall (fun r => length r.1 = 64%nat /\ no_err r.2) reqs ->
  exists g' cs,
    server_node_register fuel g (Some (NodeEp 0 EP_SOCKET 0 3)) ((fun r => Some (Conn r.1 [] r.2)) <$> reqs) =
      Some (g', cs, false) /\
    ep_count g' = Z.of_nat (n + length reqs) /\ take n (ep_addr_list g') = take n (ep_addr_list g) /\
    forall j addr os, reqs !! j = Some (addr, os) ->
      ep_addr_list g' !! (n + j)%nat = Some addr /\
      exists c, cs !! j = Some c /\
      forall os' p1 p2 s, no_err os' -> p1 <> NULL -> p2 <> NULL -> exists os'',
        check_nodes_list fuel (Some (NodeEp 0 EP_SOCKET 0 3)) (Some addr) p1 p2 (Conn (c_out c) [] os') s =
        Some (Some (View (Z.of_nat (S (n + j))) (mjoin (take (S (n + j)) (ep_addr_list g'))) (seqZ 0 (Z.of_nat (S (n + j))))),
              Conn [] addr os'', Client (p1 :: p2 :: live s) (Z.of_nat (n + j))).
Proof.
  intros G Hn Hf Hr. destruct (server_run fuel reqs g n G Hn Hf Hr) as (g' & cs & E & G' & T & Hj).
  exists g', cs. split; [done|]. split; [apply (no_count _ _ G')|]. split; [done|]. intros j addr os Hlk.
  destruct (Hj j _ Hlk) as (Ha & os1 & Hc). split; [done|]. eexists. split; [done|]. intros os' p1 p2 s Ho H1 H2.
  pose proof (lookup_lt_Some _ _ _ Hlk) as Hlt.
  destruct (proj1 (Forall_lookup _ _) Hr _ _ Hlk) as [Hl _]. simpl in Hl.
  assert (greeting g' (n + j) = greeting (EpList (Z.of_nat (S (n + j))) (ep_addr_list g') (eplist g')) (n + j)) as Eg by done.
  cbn [c_out]. rewrite Eg. destruct (G') as [_ Gm Gl Ge Gs].
  apply (client_run fuel (EpList (Z.of_nat (S (n + j))) (ep_addr_list g') (eplist g')) (n + j)); auto; [split; simpl; auto; lia | lia].
Qed.

Lemma dsdb_register_all_witness :
  exists g' cs, server_node_register 200 empty_list (Some (NodeEp 0 EP_SOCKET 0 3))
      [Some (Conn (replicate 64 1) [] [IoSome 9; IoSome 0]); Some (Conn (replicate 64 2) [] [])] = Some (g', cs, false) /\
    ep_count g' = 2.
Proof.
  destruct (dsdb_register_all 200 empty_list 0 [(replicate 64 1, [IoSome 9; IoSome 0]); (replicate 64 2, [])])
    as (g' & cs & E & Hc & _); [exact empty_ok | simpl; lia | simpl; lia | repeat constructor; discriminate |].
  exists g', cs. split; [exact E | exact Hc].
Defined.

(** C30: the list of the monitor stays well formed, whichever calls fail.  Nodes connect
    while there is room, each of them sending at least its address; reads and writes may
    be split and may fail at any point, and accept may fail.  Then the loop does not leave
    the arrays, the list has the nodes it had, with their addresses and numbers, and at
    most one more per connection; all entries up to the count carry their numbers and all
    addresses are 64 bytes.  insert_node_ep keeps the list well formed too and adds one
    node. *)
Theorem dsdb_list_type fuel g n monitor cs :
  nodes_ok g n -> ids_ok g n -> (n + length cs <= 1024)%nat -> (64 * (n + length cs) < fuel)%nat ->
  Forall (fun c => match c with Some c => (64 <= length (c_in c))%nat | None => True end) cs ->
  (exists g' out e m, server_node_register fuel g monitor cs = Some (g', out, e) /\
     (n <= m <= n + length cs)%nat /\ list_kept g g' n m) /\
  (forall ep addr, (n < 1024)%nat -> exists g',
     insert_node_ep (Some g) ep (Some addr) = Some (0, Some g', set_node_id (Z.of_nat n) ep) /\ list_kept g g' n (S n)).
Proof.
  intros G I Hn Hf Hc. split; [|intros ep addr; by apply insert_kept].
  assert (exists g' out e m, Some (g, [] : list conn, true) = Some (g', out, e) /\ (n <= m <= n + length cs)%nat /\ list_kept g g' n m) as Hno.
  { eexists _, _, _, n. split; [done|]. split; [lia | by split]. }
  unfold server_node_register. destruct monitor as [ep |]; [|done].
  destruct (known_ep_type (ep_type ep)); [|done]. by apply server_kept.
Qed.

Lemma dsdb_list_type_witness :
  exists g' out e m, server_node_register 200 empty_list (Some (NodeEp 0 EP_SOCKET 0 3))
      [Some (Conn (replicate 64 1) [] [IoSome 9; IoErr]); Some (Conn (replicate 64 2) [] []); None] = Some (g', out, e) /\
    (m <= 3)%nat /\ list_kept empty_list g' 0 m.
Proof.
  destruct (dsdb_list_type 200 empty_list 0 (Some (NodeEp 0 EP_SOCKET 0 3))
              [Some (Conn (replicate 64 1) [] [IoSome 9; IoErr]); Some (Conn (replicate 64 2) [] []); None])
    as [(g' & out & e & m & E & Hm & K) _];
    [exact empty_ok | intros i e H; lia | simpl; lia | simpl; lia | repeat constructor |].
  exists g', out, e, m. split; [exact E|]. split; [simpl in Hm; lia | exact K].
Defined.

(** a registration that fails leaves no trace in the node.  Whatever the monitor
    sends and whichever calls fail, with what is needed of the stream to read:
    check_nodes_list returns; without a list it has released the memory it got and the
    number of the node is the old one; with a list it holds the two blocks, and the list
    has at most 1024 nodes. *)
Theorem dsdb_client_errors fuel monitor newnode p1 p2 c s :
  length newnode = 64%nat -> 8 + 65536 <= Z.of_nat (length (c_in c)) -> 65536 < Z.of_nat fuel ->
  p1 ∉ live s -> p2 ∉ live s -> (p1 = p2 -> p1 = NULL) ->
  exists v c' s', check_nodes_list fuel monitor (Some newnode) p1 p2 c s = Some (v, c', s') /\
    match v with
    | None => s' = s
    | Some v => vw_count v <= 1024 /\ Z.of_nat (length (vw_addrs v)) = 64 * vw_count v /\
        live s' = p1 :: p2 :: live s /\ g_local_nodeid s' = u64 (vw_count v - 1)
    end.
Proof.
  intros Hl Hin Hf F1 F2 Fn. unfold check_nodes_list.
  destruct monitor as [m |]; [|by exists None, c, s]. destruct (known_ep_type (ep_type m)); [|by exists None, c, s].
  unfold check_node_list_bysocket.
  destruct (xwrite_run fuel newnode c ltac:(lia)) as (ok & k & os & E & _). rewrite E. cbn [mbind option_bind].
  destruct ok; cbn [negb]; [|by exists None; do 2 eexists].
  destruct (xread_run fuel 8 (Conn (c_in c) (c_out c ++ take k newnode) os)) as (ok & k1 & os1 & E1 & Hk1 & _); [lia | simpl; lia |].
  rewrite E1. cbn [mbind option_bind c_in c_out]. destruct ok; cbn [negb]; [|by exists None; do 2 eexists].
  set (n := u64 (le_value (take k1 (c_in c)) + 1)). assert (0 <= n) by apply u64_range.
  unfold DSDB_DEFAULT_MAX_NODE_COUNT. destruct (Z.ltb_spec 1024 n) as [L | L]; [by exists None; do 2 eexists|].
  rewrite (release_all p1 p2 (live s) F1 F2 Fn). destruct s as [l id]. cbn [live g_local_nodeid] in *.
  destruct (Z.eqb_spec p2 NULL) as [E2 | N2]; cbn [orb]; [by exists None; do 2 eexists|].
  destruct (Z.eqb_spec p1 NULL) as [E3 | N3]; cbn [orb]; [by exists None; do 2 eexists|].
  rewrite (u64_small (n * 64)) by lia.
  destruct (xread_run fuel (Z.to_nat (n * 64)) (Conn (drop k1 (c_in c)) (c_out c ++ take k newnode) os1))
    as (ok & k2 & os2 & E4 & _ & Hk & _); [lia | simpl; rewrite length_drop; lia |].
  rewrite E4. cbn [mbind option_bind c_in]. destruct ok; cbn [negb]; [|by exists None; do 2 eexists].
  eexists (Some _), _, _. split; [done|]. cbn [vw_count vw_addrs live g_local_nodeid app].
  split; [lia|]. split; [|done]. rewrite (Hk eq_refl), length_take, length_drop. lia.
Qed.

Lemma dsdb_client_errors_witness :
  exists v c' s', check_nodes_list (Z.to_nat 65537) (Some (NodeEp 0 EP_SOCKET 0 3)) (Some (replicate 64 1)) 0 16
      (Conn (replicate (Z.to_nat 65544) 0) [] []) (Client [32] 7) = Some (v, c', s') /\
    match v with
    | None => s' = Client [32] 7
    | Some v => vw_count v <= 1024 /\ Z.of_nat (length (vw_addrs v)) = 64 * vw_count v /\
        live s' = [0; 16; 32] /\ g_local_nodeid s' = u64 (vw_count v - 1)
    end.
Proof.
  apply (dsdb_client_errors (Z.to_nat 65537) (Some (NodeEp 0 EP_SOCKET 0 3)) (replicate 64 1) 0 16 (Conn (replicate (Z.to_nat 65544) 0) [] []) (Client [32] 7));
    [reflexivity | cbn [c_in]; rewrite length_replicate; lia | lia | | | discriminate];
    (intros H; apply list_elem_of_singleton in H; discriminate H).
Defined.

(** what the registration does not guard against.  With 1024 nodes in the list one
    more is let through: the monitor writes its address behind the end of the array, and
    so does insert_node_ep.  A node that closes its connection before it has sent its
    address stops the monitor for ever.  insert_node_ep copies the entry with strncpy,
    which stops at the first zero byte: of an endpoint without connector neither the
    type nor the descriptor is stored. *)
Theorem dsdb_register_limits :
  (forall fuel a addr os g, (64 < fuel)%nat -> length addr = 64%nat -> no_err os ->
     register_node fuel (full_list a) (Conn addr [] os) = None /\
     insert_node_ep (Some (full_list a)) g (Some addr) = None) /\
  (forall fuel g n part os, nodes_ok g n -> (length part < 64)%nat -> no_err os ->
     register_node fuel g (Conn part [] os) = None) /\
  (forall g n addr t id fd, nodes_ok g n -> (n < 1024)%nat ->
     exists g', insert_node_ep (Some g) (NodeEp 0 t id fd) (Some addr) =
         Some (0, Some g', NodeEp 0 t (Z.of_nat n) fd) /\
       eplist g' !! n = Some (NodeEp 0 0 (Z.of_nat n) 0) /\
       ep_addr_list g' !! n = Some (strncpy 64 addr) /\ ep_count g' = Z.of_nat (S n)).
Proof.
  split_and!.
  - intros fuel a addr os g Hf Ha Ho. split; [|reflexivity]. unfold register_node. cbn [full_list ep_count].
    destruct (xread_all fuel addr [] [] os) as (os1 & E1 & _); [lia | done|]. rewrite app_nil_r, Ha in E1.
    unfold DSDB_DEFAULT_MAX_NODE_COUNT, DSDB_MAX_NODE_EP_PATH_LEN. zdec. rewrite E1. cbn [mbind option_bind].
    destruct addr as [| b addr]; [done|]. unfold slot_write. cbn [full_list ep_addr_list].
    assert (replicate 1024 a !! Z.to_nat 1024 = None) as -> by (apply lookup_ge_None_2; rewrite length_replicate; lia). done.
  - intros fuel g n part os G Hp Ho. unfold register_node. rewrite (no_count _ _ G).
    pose proof (no_max _ _ G). unfold DSDB_DEFAULT_MAX_NODE_COUNT, DSDB_MAX_NODE_EP_PATH_LEN. zdec.
    unfold xread. by rewrite xread_loop_eof.
  - intros g n addr t id fd G Hn. unfold insert_node_ep. rewrite (no_count _ _ G).
    unfold DSDB_DEFAULT_MAX_NODE_COUNT. zdec.
    rewrite !set_at_run by (rewrite ?(no_eps _ _ G), ?(no_addrs _ _ G); lia). cbn [mbind option_bind].
    eexists. split; [done|]. cbn [eplist ep_addr_list ep_count].
    rewrite !list_lookup_insert_eq by (rewrite ?(no_eps _ _ G), ?(no_addrs _ _ G); lia).
    split; [done|]. split; [done|]. rewrite u64_small; lia.
Qed.
