(* ===== verification/UnixSocket.v ===== *)
(** * UnixSocket: src/unix_domain/unix_domain.c

    Sockets that listen and sockets that connect.  The system calls are arguments: a
    record [calls] has what each of them returns; [res] are the descriptors that are
    open and the blocks of memory in use.  src/dsdb/dump/clib/ has a copy of the file. *)
From S2P Require Import Prelude DsdbNode.
Local Open Scope Z_scope.

Definition AF_UNIX : Z := 1.
Definition AF_INET : Z := 2.
Definition SUN_PATH_LEN : nat := 108.

Record us_type := UsType { domain : Z; type : Z; protocol : Z }.

(** The two members of the union [addr]; [sun_path] has [SUN_PATH_LEN] bytes. *)
Inductive sock_addr :=
  | AddrUn (sun_family : Z) (sun_path : list Z)
  | AddrIn (sin_family sin_addr sin_port : Z)
  | AddrNone.

Record us_connect := UsConnect { socket_fd : Z; us_type_of : us_type; addr : sock_addr }.

(** What the calls return: [k_pton] the address that the text stands for ([inet_pton]
    returns less than 1 when there is none); [k_remove] whether [remove] succeeded or
    there was no such file; [k_junk] what malloc leaves in the last byte of
    [sun_path]. *)
Record calls := Calls {
  k_malloc : Z; k_socket : Z; k_pton : option Z; k_remove : bool;
  k_bind : Z; k_listen : Z; k_connect : Z; k_junk : Z }.

Record res := Res { fds : list Z; blocks : list Z }.

Definition htons (port : Z) : Z := 256 * (u16 port mod 256) + u16 port / 256.

(** The result, and the socket when it is 0. *)
Definition unix_socket_init (k : calls) (dom typ prot : Z) (sockpath : list Z) (port : Z) (r : res)
    : option us_connect * res :=
  let open a :=
    if k_socket k =? -1 then (None, r)
    else (Some (UsConnect (k_socket k) (UsType dom typ prot) a), Res (k_socket k :: fds r) (blocks r)) in
  if dom =? AF_UNIX then
    if (SUN_PATH_LEN <? length sockpath)%nat then (None, r)
    else open (AddrUn dom (strncpy (SUN_PATH_LEN - 1) sockpath ++ [k_junk k]))
  else if dom =? AF_INET then
    match k_pton k with
    | None => (None, r)
    | Some a => open (AddrIn dom a (htons port))
    end
  else open AddrNone.

Definition UNIX_SOCKET_FREE (ptr : Z) (r : res) : res := Res (fds r) (filter (fun b => b <> ptr) (blocks r)).

(** The pointer that is returned, with the socket it points to. *)
Definition unix_socket_listen (k : calls) (dom typ prot : Z) (sockpath : list Z) (port : Z) (r : res)
    : option (Z * us_connect) * res :=
  let p := k_malloc k in
  if p =? NULL then (None, r) else
  let r := Res (fds r) (p :: blocks r) in
  match unix_socket_init k dom typ prot sockpath port r with
  | (None, r) => (None, UNIX_SOCKET_FREE p r)
  | (Some ud, r) =>
      if (dom =? AF_UNIX) && negb (k_remove k) then (None, r) else
      let res := if (dom =? AF_UNIX) || (dom =? AF_INET) then k_bind k else 0 in
      if res =? -1 then (None, UNIX_SOCKET_FREE p r) else
      if k_listen k =? -1 then (None, UNIX_SOCKET_FREE p r) else
      (Some (p, ud), r)
  end.

Definition unix_socket_connect (k : calls) (dom typ prot : Z) (sockpath : list Z) (port : Z) (r : res)
    : option (Z * us_connect) * res :=
  let p := k_malloc k in
  if p =? NULL then (None, r) else
  let r := Res (fds r) (p :: blocks r) in
  match unix_socket_init k dom typ prot sockpath port r with
  | (None, r) => (None, UNIX_SOCKET_FREE p r)
  | (Some ud, r) =>
      let res := if (dom =? AF_UNIX) || (dom =? AF_INET) then k_connect k else 0 in
      if res <? 0 then (None, UNIX_SOCKET_FREE p r) else (Some (p, ud), r)
  end.

(** ** Lemmas *)

(** The socket that [unix_socket_init] makes; [None] when it returns -1. *)
Definition init_socket (k : calls) (dom typ prot : Z) (sockpath : list Z) (port : Z) : option us_connect :=
  a ← (if dom =? AF_UNIX
       then if bool_decide (length sockpath <= 108)%nat then Some (AddrUn dom (strncpy 107 sockpath ++ [k_junk k])) else None
       else if dom =? AF_INET then (fun a => AddrIn dom a (htons port)) <$> k_pton k
       else Some AddrNone);
  if k_socket k =? -1 then None else Some (UsConnect (k_socket k) (UsType dom typ prot) a).

Lemma socket_init_run k dom typ prot path port r :
  unix_socket_init k dom typ prot path port r =
  (init_socket k dom typ prot path port,
   match init_socket k dom typ prot path port with
   | Some _ => Res (k_socket k :: fds r) (blocks r)
   | None => r
   end).
Proof.
  unfold unix_socket_init, init_socket, SUN_PATH_LEN. destruct (dom =? AF_UNIX).
  - destruct (Nat.ltb_spec 108 (length path)); [by rewrite bool_decide_eq_false_2 by lia|].
    rewrite bool_decide_eq_true_2 by lia. simpl. by destruct (k_socket k =? -1).
  - destruct (dom =? AF_INET); [destruct (k_pton k)|]; simpl; try done; by destruct (k_socket k =? -1).
Qed.

Lemma free_fresh p r : p ∉ blocks r -> UNIX_SOCKET_FREE p (Res (fds r) (p :: blocks r)) = r.
Proof.
  intros H. unfold UNIX_SOCKET_FREE. destruct r as [f b]. simpl in *.
  rewrite filter_cons_False, filter_absent; [done | done | intros F; by apply F].
Qed.

Lemma free_open p fd r :
  p ∉ blocks r -> UNIX_SOCKET_FREE p (Res (fd :: fds r) (p :: blocks r)) = Res (fd :: fds r) (blocks r).
Proof.
  intros H. unfold UNIX_SOCKET_FREE. simpl.
  rewrite filter_cons_False, filter_absent; [done | done | intros F; by apply F].
Qed.

Lemma strncpy_short n bs : (length bs <= n)%nat -> Forall (fun b => b <> 0) bs ->
  strncpy n bs = bs ++ replicate (n - length bs) 0.
Proof.
  revert bs. induction n as [| n IH]; intros [| b bs] Hl Hb; simpl in *; try done; try lia.
  apply Forall_cons in Hb as [Hb Hbs]. rewrite (proj2 (Z.eqb_neq _ _) Hb). rewrite IH by (done || lia). done.
Qed.

Lemma strncpy_long n bs : (n <= length bs)%nat -> Forall (fun b => b <> 0) bs -> strncpy n bs = take n bs.
Proof.
  revert bs. induction n as [| n IH]; intros [| b bs] Hl Hb; simpl in *; try done; try lia.
  apply Forall_cons in Hb as [Hb Hbs]. rewrite (proj2 (Z.eqb_neq _ _) Hb). by rewrite IH by (done || lia).
Qed.

(** What a call that makes a socket leaves: [bound] is the outcome of the calls after
    [unix_socket_init], [kept] whether a failure keeps the block. *)
Definition outcome_ok (k : calls) (r r' : res) (ud : option us_connect) (bound kept : bool)
    (result : option (Z * us_connect)) : Prop :=
  match ud, bound with
  | Some ud, true => result = Some (k_malloc k, ud) /\ socket_fd ud = k_socket k /\
      r' = Res (k_socket k :: fds r) (k_malloc k :: blocks r)
  | Some _, false => result = None /\
      r' = Res (k_socket k :: fds r) (if kept then k_malloc k :: blocks r else blocks r)
  | None, _ => result = None /\ r' = r
  end.

Lemma init_socket_fd k dom typ prot path port ud :
  init_socket k dom typ prot path port = Some ud -> socket_fd ud = k_socket k.
Proof. unfold init_socket. intros H. inv_bind H. destruct (k_socket k =? -1); [done|]. by injection H as <-. Qed.

(** The address that a path is stored in. *)
Definition path_of (a : sock_addr) : list Z := match a with AddrUn _ p => p | _ => [] end.

Definition no_mem (k : calls) : calls :=
  Calls NULL (k_socket k) (k_pton k) (k_remove k) (k_bind k) (k_listen k) (k_connect k) (k_junk k).

(** ** Theorems *)

(** C40: which resources the calls hold when they return.  Without memory nothing
    happens.  When unix_socket_init fails everything is as before.  A call that succeeds
    has one more descriptor, that of the socket, and one more block.  A call that fails
    later returns NULL but leaves the descriptor open, and unix_socket_listen also keeps
    the block when the old file of the address cannot be removed. *)
Theorem unix_socket_resources k dom typ prot path port r :
  k_malloc k <> NULL -> k_malloc k ∉ blocks r ->
  let ud := init_socket k dom typ prot path port in
  let net := (dom =? AF_UNIX) || (dom =? AF_INET) in
  let removed := negb (dom =? AF_UNIX) || k_remove k in
  (let '(result, r') := unix_socket_listen k dom typ prot path port r in
   outcome_ok k r r' ud (removed && negb (net && (k_bind k =? -1)) && negb (k_listen k =? -1)) (negb removed) result) /\
  (let '(result, r') := unix_socket_connect k dom typ prot path port r in
   outcome_ok k r r' ud (negb (net && (k_connect k <? 0))) false result) /\
  unix_socket_listen (no_mem k) dom typ prot path port r = (None, r) /\
  unix_socket_connect (no_mem k) dom typ prot path port r = (None, r).
Proof.
  intros Hp Hf. cbn zeta. unfold unix_socket_listen, unix_socket_connect. rewrite !socket_init_run.
  rewrite (proj2 (Z.eqb_neq _ _) Hp). cbn [fds blocks].
  destruct (init_socket k dom typ prot path port) as [ud |] eqn:E; cbn [outcome_ok];
    [|rewrite free_fresh by done; by split_and!].
  apply init_socket_fd in E. rewrite !free_open by done.
  split_and!; try done;
    destruct (dom =? AF_UNIX), (dom =? AF_INET), (k_remove k); simpl;
    destruct (k_bind k =? -1), (k_listen k =? -1), (k_connect k <? 0); simpl; repeat split; done.
Qed.

Definition demo_syscalls (bind : Z) : calls := Calls 4096 7 None true bind 0 0 85.

Lemma unix_socket_resources_witness :
  let '(result, r') := unix_socket_listen (demo_syscalls (-1)) AF_UNIX 1 0 [47; 97] 0 (Res [3] [64]) in
  result = None /\ r' = Res [7; 3] [64].
Proof.
  exact (proj1 (unix_socket_resources (demo_syscalls (-1)) AF_UNIX 1 0 [47; 97] 0 (Res [3] [64])
    ltac:(discriminate) ltac:(intros H; apply list_elem_of_singleton in H; discriminate H))).
Defined.

(** the path in the address of a socket.  A path of at most 106 bytes is stored with
    zeros behind it.  A path of 107 bytes is accepted and stored without its end: the
    byte behind it is what malloc left.  One of 108 bytes, which does not fit, is accepted
    too and loses its last byte.  Longer ones are refused. *)
Theorem unix_socket_path k typ prot path port :
  Forall (fun b => b <> 0) path -> k_socket k <> -1 ->
  match init_socket k AF_UNIX typ prot path port with
  | Some ud => (length path <= 108)%nat /\ length (path_of (addr ud)) = SUN_PATH_LEN /\
      ((length path <= 106)%nat -> path_of (addr ud) = path ++ replicate (107 - length path) 0 ++ [k_junk k]) /\
      (length path = 107%nat -> path_of (addr ud) = path ++ [k_junk k]) /\
      (length path = 108%nat -> path_of (addr ud) = take 107 path ++ [k_junk k])
  | None => (108 < length path)%nat
  end.
Proof.
  intros Hb Hs. unfold init_socket. simpl (AF_UNIX =? AF_UNIX). rewrite (proj2 (Z.eqb_neq _ _) Hs).
  destruct (decide (length path <= 108)%nat) as [L | L]; [|rewrite bool_decide_eq_false_2 by done; simpl; lia].
  rewrite bool_decide_eq_true_2 by done. cbn [mbind option_bind addr path_of].
  split; [done|]. split; [|split_and!].
  - rewrite length_app. destruct (decide (length path <= 107)%nat).
    + rewrite strncpy_short, length_app, length_replicate by done. cbn [length]. unfold SUN_PATH_LEN. lia.
    + rewrite strncpy_long, length_take by (done || lia). cbn [length]. unfold SUN_PATH_LEN. lia.
  - intros H. rewrite strncpy_short by (done || lia). by rewrite <- app_assoc.
  - intros H. rewrite strncpy_short, H by (done || lia). by rewrite app_nil_r.
  - intros H. by rewrite strncpy_long by (done || lia).
Qed.

Lemma unix_socket_path_witness :
  path_of (addr (UsConnect 7 (UsType AF_UNIX 1 0) (AddrUn AF_UNIX (strncpy 107 (replicate 107 97) ++ [85])))) =
  replicate 107 97 ++ [85].
Proof.
  pose proof (unix_socket_path (demo_syscalls 0) 1 0 (replicate 107 97) 0) as H.
  refine (proj1 (proj2 (proj2 (proj2 (H _ _)))) _); [repeat constructor; discriminate | discriminate | reflexivity].
Defined.
