(* ===== verification/DsdbMain.v ===== *)
(** * DsdbMain: the monitor and the node programs, src/dsdb/dump/dsdbs.c and dsdbc.c

    The monitor listens, makes its list of nodes with itself as the first one, and
    registers the nodes that connect.  A node program connects, registers and prints the
    list that it got.  Both run over UnixSocket and DsdbNode.  [None] is an access through
    a null pointer or outside an array, or a loop that does not end. *)
From Stdlib Require Import Ascii String.
From S2P Require Import Prelude DsdbNode UnixSocket.
Local Open Scope Z_scope.
Local Open Scope list_scope.

Fixpoint chars (s : String.string) : list Z :=
  match s with String.EmptyString => [] | String.String c s => Z.of_nat (Ascii.nat_of_ascii c) :: chars s end.

(** An array of [n] chars with a string literal as its initial value. *)
Definition char_array (n : nat) (s : String.string) : list Z := chars s ++ replicate (n - String.length s) 0.

(** What [%s] prints of an array. *)
Fixpoint cstr (bs : list Z) : list Z :=
  match bs with [] => [] | b :: bs => if b =? 0 then [] else b :: cstr bs end.

Definition monitor_addr : list Z := char_array DSDB_MAX_NODE_EP_PATH_LEN "./unix_domain_test"%string.
Definition curnode : list Z := char_array DSDB_MAX_NODE_EP_PATH_LEN "192.168.0.2"%string.
Definition sockpath : list Z := chars "127.0.0.1"%string.
Definition port : Z := 50000.
Definition SOCK_STREAM : Z := 1.

(** How the monitor ends: [exit(1)], or the state of the registration. *)
Inductive monitor_end := MExit | MServe (g : node_ep_list) (sent : list conn) (ended : bool).

(** [eps] and [addrs] are what the two calls of malloc leave, [None] when they fail. *)
Definition dsdbs_main (fuel : nat) (k : calls) (eps : option (list node_ep)) (addrs : option (list (list Z)))
    (accepts : list (option conn)) (r : res) : option monitor_end :=
  '(_, ud) ← fst (unix_socket_listen k AF_INET SOCK_STREAM 0 sockpath port r);
  let monitor_ep := NodeEp NULL EP_SOCKET 0 (socket_fd ud) in
  match eps, addrs with
  | Some eps, Some addrs =>
      '(_, l, monitor_ep) ← insert_node_ep (Some (EpList 0 addrs eps)) monitor_ep (Some monitor_addr);
      l ← l;
      '(g, cs, ended) ← server_node_register fuel l (Some monitor_ep) accepts;
      Some (MServe g cs ended)
  | _, _ => Some MExit
  end.

(** The numbers and the paths of a list, as they are printed. *)
Definition print_nodes (v : node_view) : list (Z * list Z) :=
  (fun epid => (epid, cstr (take 64 (drop (64 * Z.to_nat epid) (vw_addrs v))))) <$> vw_ids v.

Definition dsdbc_main (fuel : nat) (k : calls) (eplist_ptr cache_ptr : Z) (c : conn) (s : client) (r : res)
    : option (list (Z * list Z)) :=
  '(_, ud) ← fst (unix_socket_connect k AF_INET SOCK_STREAM 0 sockpath port r);
  let monitor := NodeEp NULL EP_SOCKET 0 (socket_fd ud) in
  '(eplist, _, _) ← check_nodes_list fuel (Some monitor) (Some curnode) eplist_ptr cache_ptr c s;
  v ← eplist;
  Some (print_nodes v).

(** ** Lemmas *)

(** The [i]-th of the addresses that lie one behind the other. *)
Lemma nth_addr (L : list (list Z)) i a :
  Forall (fun x => length x = 64%nat) L -> L !! i = Some a -> take 64 (drop (64 * i) (mjoin L)) = a.
Proof.
  revert i. induction L as [| x L IH]; intros i HL Hi; [done|]. apply Forall_cons in HL as [Hx HL].
  destruct i as [| i]; cbn [mjoin list_join].
  - injection Hi as ->. rewrite <- Hx. change (64 * 0)%nat with 0%nat. by rewrite Nat.mul_0_r, drop_0, take_app_length.
  - replace (64 * S i)%nat with (length x + 64 * i)%nat by lia.
    rewrite <- drop_drop, drop_app_length. by apply IH.
Qed.

Lemma prints_all (L : list (list Z)) n :
  Forall (fun x => length x = 64%nat) L -> length L = n ->
  print_nodes (View (Z.of_nat n) (mjoin L) (seqZ 0 (Z.of_nat n))) = zip (seqZ 0 (Z.of_nat n)) (cstr <$> L).
Proof.
  intros HL Hn. unfold print_nodes. cbn [vw_addrs vw_ids]. apply list_eq. intros i.
  rewrite list_lookup_fmap. destruct (decide (i < n)%nat) as [Hi | Hi].
  - rewrite lookup_seqZ_lt by lia. cbn [fmap option_fmap option_map].
    destruct (lookup_lt_is_Some_2 L i) as [a Ha]; [lia|]. symmetry. rewrite Z.add_0_l, Nat2Z.id, (nth_addr L i a HL Ha).
    apply lookup_zip_Some. rewrite list_lookup_fmap, Ha. split; [apply lookup_seqZ; lia | done].
  - rewrite lookup_seqZ_ge by lia. symmetry. apply lookup_ge_None_2. rewrite length_zip, length_seqZ. lia.
Qed.

(** The system calls of a program succeed. *)
Definition listens (k : calls) : Prop :=
  k_malloc k <> NULL /\ k_socket k <> -1 /\ is_Some (k_pton k) /\ k_bind k <> -1 /\ k_listen k <> -1.
Definition connects (k : calls) : Prop :=
  k_malloc k <> NULL /\ k_socket k <> -1 /\ is_Some (k_pton k) /\ 0 <= k_connect k.

Lemma listen_ok k typ prot path prt r : listens k ->
  exists ud, fst (unix_socket_listen k AF_INET typ prot path prt r) = Some (k_malloc k, ud).
Proof.
  intros (Hm & Hs & [a Ha] & Hb & Hl). unfold unix_socket_listen, unix_socket_init. simpl (AF_INET =? _). cbn [andb orb].
  rewrite (proj2 (Z.eqb_neq _ _) Hm), Ha, (proj2 (Z.eqb_neq _ _) Hs), (proj2 (Z.eqb_neq _ _) Hb), (proj2 (Z.eqb_neq _ _) Hl). simpl. eauto.
Qed.

Lemma connect_ok k typ prot path prt r : connects k ->
  exists ud, fst (unix_socket_connect k AF_INET typ prot path prt r) = Some (k_malloc k, ud).
Proof.
  intros (Hm & Hs & [a Ha] & Hc). unfold unix_socket_connect, unix_socket_init. simpl (AF_INET =? _). cbn [andb orb].
  rewrite (proj2 (Z.eqb_neq _ _) Hm), Ha, (proj2 (Z.eqb_neq _ _) Hs), (proj2 (Z.ltb_ge _ _) Hc). simpl. eauto.
Qed.

(** The list of the monitor when it starts to accept. *)
Lemma monitor_list eps addrs ep :
  length eps = 1024%nat -> length addrs = 1024%nat -> Forall (fun a => length a = 64%nat) addrs ->
  exists g, insert_node_ep (Some (EpList 0 addrs eps)) ep (Some monitor_addr) = Some (0, Some g, set_node_id 0 ep) /\
    nodes_ok g 1 /\ ep_addr_list g !! 0%nat = Some monitor_addr.
Proof.
  intros He Ha Hs. unfold insert_node_ep. cbn [ep_count eplist ep_addr_list]. unfold DSDB_DEFAULT_MAX_NODE_COUNT. zdec.
  rewrite !(set_at_run _ 0) by lia. cbn [mbind option_bind]. eexists. split; [done|]. split.
  - split; cbn [ep_count ep_addr_list eplist]; [done | lia | by rewrite length_insert | by rewrite length_insert |].
    apply Forall_insert; [done | by vm_compute].
  - cbn [ep_addr_list]. rewrite list_lookup_insert_eq by lia. by vm_compute.
Qed.

(** The addresses of the monitor and of [m] nodes. *)
Lemma addrs_after (L : list (list Z)) m :
  L !! 0%nat = Some monitor_addr -> (forall i, (i < m)%nat -> L !! S i = Some curnode) ->
  take (S m) L = monitor_addr :: replicate m curnode.
Proof.
  destruct L as [| a L]; intros H0 Hi; [done|]. injection H0 as ->. cbn [take]. f_equal.
  apply list_eq. intros i. destruct (decide (i < m)%nat) as [Hm | Hm].
  - rewrite lookup_take_lt, lookup_replicate_2 by lia. by apply (Hi i).
  - rewrite lookup_take_ge by lia. symmetry. apply lookup_ge_None_2. rewrite length_replicate. lia.
Qed.

Lemma nodes_zip m : zip (seqZ 0 (Z.of_nat (S m))) (cstr <$> monitor_addr :: replicate m curnode) =
  (0, chars "./unix_domain_test"%string) :: ((fun i => (i, chars "192.168.0.2"%string)) <$> seqZ 1 (Z.of_nat m)).
Proof.
  rewrite (seqZ_cons 0) by lia. replace (Z.pred (Z.of_nat (S m))) with (Z.of_nat m) by lia.
  rewrite fmap_cons, fmap_replicate. cbn [zip zip_with]. f_equal. change (Z.succ 0) with 1.
  apply list_eq. intros i. rewrite list_lookup_fmap. destruct (decide (i < m)%nat) as [Hm | Hm].
  - rewrite lookup_seqZ_lt by lia. cbn [fmap option_fmap option_map].
    apply lookup_zip_Some. split; [apply lookup_seqZ; lia | by apply lookup_replicate_2].
  - rewrite lookup_seqZ_ge by lia. apply lookup_ge_None_2. rewrite length_zip, length_seqZ. lia.
Qed.

(** A node that gets the list [g] up to its own number [S j]. *)
Lemma node_prints fuel g n j kc os p1 p2 s r :
  nodes_ok g n -> (S j < n)%nat -> (64 * n < fuel)%nat -> ep_addr_list g !! 0%nat = Some monitor_addr ->
  (forall i, (i <= j)%nat -> ep_addr_list g !! S i = Some curnode) ->
  connects kc -> no_err os -> p1 <> NULL -> p2 <> NULL ->
  dsdbc_main fuel kc p1 p2 (Conn (greeting g (S j)) [] os) s r =
  Some ((0, chars "./unix_domain_test"%string) ::
        ((fun i => (i, chars "192.168.0.2"%string)) <$> seqZ 1 (Z.of_nat (S j)))).
Proof.
  intros [_ Gm Gl Ge Gs] Hj Hf A0 Ai Hkc Hos H1 H2. unfold dsdbc_main.
  destruct (connect_ok kc SOCK_STREAM 0 sockpath port r Hkc) as [udc Ec]. rewrite Ec. cbn [mbind option_bind].
  pose (gj := EpList (Z.of_nat (S (S j))) (ep_addr_list g) (eplist g)).
  change (greeting g (S j)) with (greeting gj (S j)).
  destruct (client_run fuel gj (S j) curnode p1 p2 os s) as [os2 E2];
    [split; simpl; auto; lia | by vm_compute | done | lia | done | done |].
  unfold check_nodes_list. cbn [ep_type]. rewrite (eq_refl : known_ep_type EP_SOCKET = true), E2.
  cbn [mbind option_bind ep_addr_list gj].
  rewrite (addrs_after (ep_addr_list g) (S j) A0) by (intros i Hij; apply Ai; lia).
  rewrite prints_all, nodes_zip; [done | | by rewrite length_cons, length_replicate].
  apply Forall_cons. split; [by vm_compute | apply Forall_replicate; by vm_compute].
Qed.

(** ** The programs together *)

(** C27: the monitor and the node programs together.  The monitor has its sockets and its
    memory and is entered as node 0; at most 1023 nodes run one after the other, over
    connections that split the data in any way but do not fail.  Then the monitor goes on
    accepting, and the j-th node prints the monitor and the nodes up to itself, each with
    its number and its path. *)
Theorem dsdb_programs fuel k eps addrs oss r :
  listens k -> length eps = 1024%nat -> length addrs = 1024%nat -> Forall (fun a => length a = 64%nat) addrs ->
  (S (length oss) <= 1024)%nat -> (64 * S (length oss) < fuel)%nat -> Forall no_err oss ->
  exists g cs,
    dsdbs_main fuel k (Some eps) (Some addrs) ((fun os => Some (Conn curnode [] os)) <$> oss) r = Some (MServe g cs false) /\
    ep_count g = Z.of_nat (S (length oss)) /\
    forall j, (j < length oss)%nat -> exists c, cs !! j = Some c /\
      forall kc os p1 p2 s r', connects kc -> no_err os -> p1 <> NULL -> p2 <> NULL ->
        dsdbc_main fuel kc p1 p2 (Conn (c_out c) [] os) s r' =
        Some ((0, chars "./unix_domain_test"%string) ::
              ((fun i => (i, chars "192.168.0.2"%string)) <$> seqZ 1 (Z.of_nat (S j)))).
Proof.
  intros Hk He Ha Hs Hn Hf Ho. unfold dsdbs_main.
  destruct (listen_ok k SOCK_STREAM 0 sockpath port r Hk) as [ud Eu]. rewrite Eu. cbn [mbind option_bind].
  destruct (monitor_list eps addrs (NodeEp NULL EP_SOCKET 0 (socket_fd ud)) He Ha Hs) as (g1 & E1 & G1 & A1).
  rewrite E1. cbn [mbind option_bind set_node_id].
  destruct (server_run fuel ((fun os => (curnode, os)) <$> oss) g1 1 G1) as (g & cs & E & G & T & Hj);
    [rewrite length_fmap; lia | rewrite length_fmap; lia | |].
  { apply Forall_fmap. eapply Forall_impl; [exact Ho|]. intros os Hos. by split; [vm_compute|]. }
  assert ((fun os => Some (Conn curnode [] os)) <$> oss =
          (fun r : list Z * list io => Some (Conn r.1 [] r.2)) <$> ((fun os => (curnode, os)) <$> oss)) as Er
    by (by rewrite <- list_fmap_compose).
  unfold server_node_register, set_node_id. cbn [ep_type]. rewrite (eq_refl : known_ep_type EP_SOCKET = true), Er, E.
  exists g, cs. split; [done|]. rewrite length_fmap in G. split; [apply (no_count _ _ G)|].
  assert (forall i, (i < length oss)%nat -> ep_addr_list g !! S i = Some curnode /\
    exists os, cs !! i = Some (Conn [] (greeting g (S i)) os)) as Hi.
  { intros i Hi. destruct (lookup_lt_is_Some_2 oss i Hi) as [os Hos].
    apply (Hj i (curnode, os)). by rewrite list_lookup_fmap, Hos. }
  intros j Hlt. destruct (Hi j Hlt) as (_ & os1 & Hc). eexists. split; [done|]. intros kc os p1 p2 s r' Hkc Hos H1 H2.
  apply (node_prints fuel g (S (length oss))); try done; [lia | | intros i Hij; apply Hi; lia].
  rewrite <- (lookup_take_lt _ 1), T, lookup_take_lt by lia. done.
Qed.

Definition demo_net : calls := Calls 4096 7 (Some 16777343) true 0 0 0 85.

Lemma dsdb_programs_witness :
  exists g cs,
    dsdbs_main 200 demo_net (Some (replicate 1024 (NodeEp 0 0 0 0))) (Some (replicate 1024 (replicate 64 85)))
      [Some (Conn curnode [] [IoSome 3]); Some (Conn curnode [] [])] (Res [] []) = Some (MServe g cs false) /\
    exists c, cs !! 1%nat = Some c /\
      dsdbc_main 200 demo_net 4096 8192 (Conn (c_out c) [] [IoSome 0; IoSome 1]) (Client [] (-1)) (Res [] []) =
      Some [(0, chars "./unix_domain_test"%string); (1, chars "192.168.0.2"%string); (2, chars "192.168.0.2"%string)].
Proof.
  assert (K : listens demo_net /\ connects demo_net) by (repeat split; (discriminate || eauto)).
  destruct (dsdb_programs 200 demo_net (replicate 1024 (NodeEp 0 0 0 0)) (replicate 1024 (replicate 64 85))
              [[IoSome 3]; []] (Res [] [])) as (g & cs & E & _ & H);
    [apply K | reflexivity | reflexivity | apply Forall_replicate; reflexivity | simpl; lia | simpl; lia
     | repeat constructor; discriminate |].
  exists g, cs. split; [exact E|]. destruct (H 1%nat) as (c & Hc & Hp); [simpl; lia|]. exists c. split; [exact Hc|].
  apply Hp; [apply K | repeat constructor; discriminate | discriminate | discriminate].
Defined.
