(* ===== verification/DsdbMap.v ===== *)
(** * DsdbMap: the key-value map of dsdb/dump/cpplib/node_kvmap.cpp

    [dsdb_hash_map] wraps a [std::map] from strings to values; its order is not
    observable through the three methods, so the map is a [gmap].  The messages that are
    logged are left out. *)
From S2P Require Import Prelude.
From stdpp Require Import gmap strings list.
Local Open Scope Z_scope.

Record dsdb_vobj := VObj { data_type : Z; actions : Z; val : string }.
Abbreviation dsdb_kobj := string.

Definition DSDB_HASH_INSERT : Z := 0.
Definition DSDB_HASH_UPDATE : Z := 1.
Definition DSDB_HASH_ANY : Z := 2.

Abbreviation dsdb_map := (gmap dsdb_kobj dsdb_vobj).

(** [insert] of a [std::map] keeps a value that is there. *)
Definition std_insert (m : dsdb_map) (key : dsdb_kobj) (v : dsdb_vobj) : dsdb_map :=
  match m !! key with Some _ => m | None => <[key := v]> m end.

Definition dsdb_map_insert (key : dsdb_kobj) (v : dsdb_vobj) (type : Z) (m : dsdb_map) : bool * dsdb_map :=
  let iter := m !! key in
  if type =? DSDB_HASH_INSERT then
    match iter with Some _ => (false, m) | None => (true, std_insert m key v) end
  else if type =? DSDB_HASH_UPDATE then
    match iter with None => (false, m) | Some _ => (true, <[key := v]> m) end
  else if type =? DSDB_HASH_ANY then
    match iter with Some _ => (true, <[key := v]> m) | None => (true, std_insert m key v) end
  else (true, m).

(** The number of elements that [erase] removed, as a [bool]. *)
Definition dsdb_map_remove (key : dsdb_kobj) (m : dsdb_map) : bool * dsdb_map :=
  (match m !! key with Some _ => true | None => false end, delete key m).

(** The value behind the pointer that is returned. *)
Definition dsdb_map_search (key : dsdb_kobj) (m : dsdb_map) : option dsdb_vobj := m !! key.

(** ** Histories *)

Inductive map_op := MInsert (key : dsdb_kobj) (v : dsdb_vobj) (type : Z) | MRemove (key : dsdb_kobj).
Definition op_key (o : map_op) : dsdb_kobj := match o with MInsert k _ _ | MRemove k => k end.

Definition map_call (o : map_op) (m : dsdb_map) : bool * dsdb_map :=
  match o with MInsert k v t => dsdb_map_insert k v t m | MRemove k => dsdb_map_remove k m end.
(** The results of the calls, each with its key. *)
Fixpoint map_calls (os : list map_op) (m : dsdb_map) : list (dsdb_kobj * bool) * dsdb_map :=
  match os with
  | [] => ([], m)
  | o :: os => let '(r, m) := map_call o m in let '(rs, m) := map_calls os m in ((op_key o, r) :: rs, m)
  end.

(** One key alone: the calls on a cell that is empty or holds a value. *)
Definition cell_call (o : map_op) (c : option dsdb_vobj) : bool * option dsdb_vobj :=
  match o, c with
  | MRemove _, Some _ => (true, None)
  | MRemove _, None => (false, None)
  | MInsert _ v t, None => if t =? DSDB_HASH_UPDATE then (false, None)
      else if (t =? DSDB_HASH_INSERT) || (t =? DSDB_HASH_ANY) then (true, Some v) else (true, None)
  | MInsert _ v t, Some w => if t =? DSDB_HASH_INSERT then (false, Some w)
      else if (t =? DSDB_HASH_UPDATE) || (t =? DSDB_HASH_ANY) then (true, Some v) else (true, Some w)
  end.
Fixpoint cell_calls (os : list map_op) (c : option dsdb_vobj) : list bool * option dsdb_vobj :=
  match os with
  | [] => ([], c)
  | o :: os => let '(r, c) := cell_call o c in let '(rs, c) := cell_calls os c in (r :: rs, c)
  end.

Lemma map_call_same o m : cell_call o (m !! op_key o) = (fst (map_call o m), snd (map_call o m) !! op_key o).
Proof.
  destruct o as [k v t | k]; simpl; [|destruct (m !! k) eqn:E; simpl; by rewrite lookup_delete_eq].
  unfold dsdb_map_insert, std_insert, DSDB_HASH_INSERT, DSDB_HASH_UPDATE, DSDB_HASH_ANY.
  destruct (Z.eqb_spec t 0) as [-> | N0]; [|destruct (Z.eqb_spec t 1) as [-> | N1]; [|destruct (Z.eqb_spec t 2) as [-> | N2]]];
    destruct (m !! k) eqn:E; simpl; rewrite ?E, ?lookup_insert_eq; done.
Qed.

Lemma map_call_other o m k : k <> op_key o -> snd (map_call o m) !! k = m !! k.
Proof.
  destruct o as [k' v t | k']; simpl; intros N; [|by apply lookup_delete_ne].
  unfold dsdb_map_insert, std_insert.
  repeat case_match; simpl; try done; by apply lookup_insert_ne.
Qed.

(** the map of dsdb refines one independent cell per key: in any sequence of
    insertions, updates and removals, the calls on a key return what they return on a
    cell of its own (INSERT fails on a full cell, UPDATE and remove on an empty one, ANY
    never fails, an unknown type reports success and stores nothing), and a search at
    the end finds what that cell holds.  Calls on other keys have no effect on it. *)
Theorem dsdb_map_refinement (os : list map_op) (m : dsdb_map) (k : dsdb_kobj) :
  cell_calls (filter (fun o => op_key o = k) os) (dsdb_map_search k m) =
    (snd <$> filter (fun r => fst r = k) (fst (map_calls os m)), dsdb_map_search k (snd (map_calls os m))).
Proof.
  unfold dsdb_map_search. revert m. induction os as [| o os IH]; intros m; [done|].
  cbn [map_calls]. destruct (map_call o m) as [r m1] eqn:E. specialize (IH m1).
  destruct (map_calls os m1) as [rs m2] eqn:Es. cbn [fst snd] in *. rewrite !filter_cons. cbn [fst].
  destruct (decide (op_key o = k)) as [<- | N].
  - cbn [cell_calls]. rewrite map_call_same, E. cbn [fst snd]. rewrite IH. done.
  - pose proof (map_call_other o m k ltac:(congruence)) as F. rewrite E in F. cbn [snd] in F. by rewrite <- F, IH.
Qed.
