(* ===== verification/Bpf.v ===== *)
(** * Bpf: the tracing programs of src/eBPF/

    Handlers of kernel events that keep their data in BPF hash maps: the latency of the
    run queue (runqlat/), the signals that processes send (sigsnoop/), the time a
    process is not running (offcpu/) and the exits of processes (ringbuffer/).

    The maps are code of the kernel: a class states what the helpers promise
    ([BpfMap]), and a map with a bound on its size is an instance.  What the helpers
    read of the running system (tasks, time, stacks) are arguments.  [None] is an
    access outside an array or outside the value of a map, for which the kernel refuses
    the program. *)
From S2P Require Import Prelude Bits.
Local Open Scope Z_scope.

(** ** BPF hash maps *)

Inductive update_flag := BPF_ANY | BPF_NOEXIST.
Definition EEXIST : Z := 17.
Definition E2BIG : Z := 7.

(** [bpf_store] is an assignment through a pointer that [bpf_map_lookup_elem]
    returned. *)
Class BpfMap (K V M : Type) := {
  bpf_map_lookup_elem : M -> K -> option V;
  bpf_map_update_elem : M -> K -> V -> update_flag -> Z * M;
  bpf_map_delete_elem : M -> K -> M;
  bpf_store : M -> K -> V -> M;
  bpf_update_ok m k v fl m' : bpf_map_update_elem m k v fl = (0, m') ->
    (fl = BPF_NOEXIST -> bpf_map_lookup_elem m k = None) /\
    bpf_map_lookup_elem m' k = Some v /\
    forall k', k' <> k -> bpf_map_lookup_elem m' k' = bpf_map_lookup_elem m k';
  bpf_update_err m k v fl e m' : bpf_map_update_elem m k v fl = (e, m') -> e <> 0 ->
    (forall k', bpf_map_lookup_elem m' k' = bpf_map_lookup_elem m k') /\
    (e = - EEXIST -> is_Some (bpf_map_lookup_elem m k));
  bpf_delete_spec m k k' :
    (k' = k -> bpf_map_lookup_elem (bpf_map_delete_elem m k) k' = None) /\
    (k' <> k -> bpf_map_lookup_elem (bpf_map_delete_elem m k) k' = bpf_map_lookup_elem m k');
  bpf_store_spec m k v k' : is_Some (bpf_map_lookup_elem m k) ->
    (k' = k -> bpf_map_lookup_elem (bpf_store m k v) k' = Some v) /\
    (k' <> k -> bpf_map_lookup_elem (bpf_store m k v) k' = bpf_map_lookup_elem m k') }.

(** A map of at most [b_max] entries. *)
Record bmap (K V : Type) `{Countable K} := BMap { b_max : nat; b_map : gmap K V }.
Arguments BMap {K V _ _} _ _.
Arguments b_max {K V _ _} _.
Arguments b_map {K V _ _} _.

Definition bmap_update {K V} `{Countable K} (m : bmap K V) (k : K) (v : V) (fl : update_flag) : Z * bmap K V :=
  match b_map m !! k, fl with
  | Some _, BPF_NOEXIST => (- EEXIST, m)
  | Some _, BPF_ANY => (0, BMap (b_max m) (<[k := v]> (b_map m)))
  | None, _ => if (size (b_map m) <? b_max m)%nat then (0, BMap (b_max m) (<[k := v]> (b_map m))) else (- E2BIG, m)
  end.

#[export] Program Instance bmap_BpfMap {K V} `{Countable K} : BpfMap K V (bmap K V) := {
  bpf_map_lookup_elem m k := b_map m !! k;
  bpf_map_update_elem := bmap_update;
  bpf_map_delete_elem m k := BMap (b_max m) (delete k (b_map m));
  bpf_store m k v := BMap (b_max m) (<[k := v]> (b_map m)) }.
Next Obligation.
  intros K V ? ? m k v fl m'. unfold bmap_update.
  destruct (b_map m !! k) as [w |] eqn:E, fl; try (destruct (_ <? _)%nat); intros [= <-]; simpl;
    (split; [done | split; [apply lookup_insert_eq | intros; by apply lookup_insert_ne]]).
Qed.
Next Obligation.
  intros K V ? ? m k v fl e m'. unfold bmap_update.
  destruct (b_map m !! k) as [w |] eqn:E, fl; try (destruct (_ <? _)%nat); intros [= <- <-] N; simpl; try done;
    (split; [done | intros; eauto]); by unfold E2BIG, EEXIST in *.
Qed.
Next Obligation.
  intros K V ? ? m k k'. simpl. split; [intros ->; apply lookup_delete_eq | intros; by apply lookup_delete_ne].
Qed.
Next Obligation.
  intros K V ? ? m k v k' _. simpl. split; [intros ->; apply lookup_insert_eq | intros; by apply lookup_insert_ne].
Qed.

(** [bpf_map_lookup_or_try_init] of runqlat/maps.bpf.h; the element that the pointer
    points to. *)
Definition bpf_map_lookup_or_try_init {K V M} `{BpfMap K V M} (m : M) (key : K) (init : V) : option V * M :=
  match bpf_map_lookup_elem m key with
  | Some v => (Some v, m)
  | None =>
      let '(err, m) := bpf_map_update_elem m key init BPF_NOEXIST in
      if negb (err =? 0) && negb (err =? - EEXIST) then (None, m) else (bpf_map_lookup_elem m key, m)
  end.

(** ** runqlat *)

Definition TASK_RUNNING : Z := 0.
Definition MAX_TIME_POWER : Z := 16.

(** The part of [task_struct] that is read. *)
Record task := Task { t_pid : Z; t_tgid : Z; t_state : Z; t_comm : list Z; t_pidns : Z }.

(** The constants that the loader sets. *)
Record config := Config {
  filter_cg : bool; targ_per_process : bool; targ_per_thread : bool; targ_per_pidns : bool;
  targ_ms : bool; targ_pid : Z }.

(** [hist_t]: 17 slots of four bytes and a name of 16.  The values of [hists] are declared
    with the type of [sizeof(hist_t)], an unsigned long. *)
Record hist := Hist { slots : list Z; comm : list Z }.
Definition hist_zero : hist := Hist (replicate 17 0) [].
Definition TASK_COMM_LEN : Z := 16.
Definition comm_off : Z := 68.
Definition sizeof_hist : Z := 84.
Definition hists_value_size : Z := 8.

(** A switch of the scheduler: the tasks, the time at the two calls of
    [bpf_ktime_get_ns], and whether the current task is in the cgroup. *)
Record switch := Switch { sw_prev : task; sw_next : task; sw_ns1 : Z; sw_ns2 : Z; sw_cg : bool }.

Definition i64 (x : Z) : Z := (x + 9223372036854775808) mod 18446744073709551616 - 9223372036854775808.

(** The logarithms of runqlat/bits.bpf.h: [log2] has the text of [ulog2]; the results
    are u64. *)
Definition log2 (v : Z) : Z := ulog2 v.
Definition log2l (v : Z) : Z :=
  let hi := u32 (Z.shiftr v 32) in
  if negb (hi =? 0) then u64 (log2 hi + 32) else log2 (u32 v).

Lemma log2l_log2 v : 0 < v < 18446744073709551616 -> log2l v = Z.log2 v.
Proof.
  intros Hv. rewrite <- (ulog2l_log2 v) by lia. unfold log2l, ulog2l, log2.
  destruct (Z.eqb_spec (u32 (Z.shiftr v 32)) 0) as [E | N]; cbn [negb]; [done|].
  pose proof (u32_range (Z.shiftr v 32)). rewrite ulog2_log2 by lia.
  assert (0 <= Z.log2 (u32 (Z.shiftr v 32)) < 32).
  { split; [apply Z.log2_nonneg | apply Z.log2_lt_pow2; lia]. }
  by rewrite (u32_small (Z.log2 _ + 32)), u64_small by lia.
Qed.

Section Runqlat.
(** [value_size] is the size of a value of [hists]; [hist] is what a [hist_t] pointer to
    it shows. *)
Context {MS MH : Type} `{!BpfMap Z Z MS} `{!BpfMap Z hist MH} (value_size : Z).

Record runq := Runq { start : MS; hists : MH }.

Definition trace_enque (cfg : config) (pid tid ns : Z) (m : MS) : MS :=
  if (tid =? 0) || (negb (targ_pid cfg =? 0) && negb (targ_pid cfg =? pid)) then m
  else snd (bpf_map_update_elem m tid ns BPF_ANY).

Definition hist_key (cfg : config) (next : task) : Z :=
  if targ_per_process cfg then t_tgid next
  else if targ_per_thread cfg then t_pid next
  else if targ_per_pidns cfg then t_pidns next
  else u32 (-1).

(** The slot of a delay in nanoseconds. *)
Definition delay_slot (cfg : config) (delaytime : Z) : Z :=
  let delaytime := delaytime / 1000 in
  let delaytime := if targ_ms cfg then delaytime / 1000 else delaytime in
  let power := u8 (log2l delaytime) in
  if MAX_TIME_POWER <=? power then MAX_TIME_POWER else power.

(** An access to [n] bytes at [off] of the value. *)
Definition inside_value (off n : Z) : option unit := if off + n <=? value_size then Some tt else None.

(** [__sync_fetch_and_add(&slots[i], 1)] *)
Definition slot_add (h : hist) (i : Z) : option hist :=
  _ ← inside_value (4 * i) 4;
  v ← slots h !! Z.to_nat i; Some (Hist (<[Z.to_nat i := u32 (v + 1)]> (slots h)) (comm h)).

Definition handle_switch (cfg : config) (e : switch) (s : runq) : option runq :=
  let prev := sw_prev e in let next := sw_next e in
  if filter_cg cfg && negb (sw_cg e) then Some s else
  let st := if t_state prev =? TASK_RUNNING then trace_enque cfg (t_tgid prev) (t_pid prev) (sw_ns1 e) (start s) else start s in
  let tid := t_pid next in
  match bpf_map_lookup_elem st tid with
  | None => Some (Runq st (hists s))
  | Some timestamp =>
      let delaytime := i64 (sw_ns2 e - timestamp) in
      if delaytime <? 0 then Some (Runq (bpf_map_delete_elem st tid) (hists s)) else
      let hkey := hist_key cfg next in
      match bpf_map_lookup_or_try_init (hists s) hkey hist_zero with
      | (None, hs) => Some (Runq st hs)
      | (Some h, hs) =>
          _ ← inside_value comm_off 1;
          h ← (if default 0 (head (comm h)) =? 0
               then _ ← inside_value comm_off TASK_COMM_LEN; Some (Hist (slots h) (t_comm next)) else Some h);
          h ← slot_add h (delay_slot cfg delaytime);
          Some (Runq (bpf_map_delete_elem st tid) (bpf_store hs hkey h))
      end
  end.

(** The switches of a run. *)
Fixpoint run_switches (cfg : config) (es : list switch) (s : runq) : option runq :=
  match es with [] => Some s | e :: es => s ← handle_switch cfg e s; run_switches cfg es s end.

(** ** What a run measures *)

(** The key and the slot that a switch adds to: the next task waited, its waiting time is
    not negative and there is a histogram for it. *)
Definition sample_of (cfg : config) (e : switch) (s : runq) : option (Z * Z) :=
  if filter_cg cfg && negb (sw_cg e) then None else
  let st := if t_state (sw_prev e) =? TASK_RUNNING
            then trace_enque cfg (t_tgid (sw_prev e)) (t_pid (sw_prev e)) (sw_ns1 e) (start s) else start s in
  timestamp ← bpf_map_lookup_elem st (t_pid (sw_next e));
  let d := i64 (sw_ns2 e - timestamp) in
  if d <? 0 then None else
  _ ← fst (bpf_map_lookup_or_try_init (hists s) (hist_key cfg (sw_next e)) hist_zero);
  Some (hist_key cfg (sw_next e), delay_slot cfg d).

Fixpoint samples (cfg : config) (es : list switch) (s : runq) : list (Z * Z) :=
  match es with
  | [] => []
  | e :: es => option_list (sample_of cfg e s) ++
      match handle_switch cfg e s with Some s => samples cfg es s | None => [] end
  end.

Definition count (k i : Z) (L : list (Z * Z)) : Z := Z.of_nat (length (filter (fun x => x = (k, i)) L)).

Definition hist_rep (k : Z) (h : hist) (L : list (Z * Z)) : Prop :=
  length (slots h) = 17%nat /\ forall i, 0 <= i < 17 -> slots h !! Z.to_nat i = Some (u32 (count k i L)).

(** The histograms count the samples [L]. *)
Definition hists_rep (hs : MH) (L : list (Z * Z)) : Prop :=
  forall k, match bpf_map_lookup_elem hs k with
            | Some h => hist_rep k h L
            | None => forall i, count k i L = 0
            end.

Lemma count_cons k i x L : count k i (x :: L) = (if decide (x = (k, i)) then 1 else 0) + count k i L.
Proof. unfold count. rewrite filter_cons. destruct (decide _); simpl; lia. Qed.

Lemma hist_zero_rep k L : (forall i, count k i L = 0) -> hist_rep k hist_zero L.
Proof.
  intros H. split; [done|]. intros i Hi. rewrite H. change (replicate 17 0 !! Z.to_nat i = Some 0).
  apply lookup_replicate_2. lia.
Qed.

Lemma try_init_rep hs k L :
  hists_rep hs L ->
  let '(r, hs') := bpf_map_lookup_or_try_init hs k hist_zero in
  hists_rep hs' L /\ r = match r with Some h => bpf_map_lookup_elem hs' k | None => None end /\
  forall h, r = Some h -> hist_rep k h L.
Proof.
  intros H. unfold bpf_map_lookup_or_try_init. pose proof (H k) as Hk.
  destruct (bpf_map_lookup_elem hs k) as [h |] eqn:E; [split; [done|]; split; [done|]; by intros h' [= <-]|].
  destruct (bpf_map_update_elem hs k hist_zero BPF_NOEXIST) as [err hs'] eqn:Eu.
  destruct (Z.eqb_spec err 0) as [-> | N]; cbn [negb andb].
  - destruct (bpf_update_ok _ _ _ _ _ Eu) as (_ & Hk' & Ho). rewrite Hk'. split; [|split; [done|]].
    + intros k'. destruct (decide (k' = k)) as [-> | Nk]; [rewrite Hk'; by apply hist_zero_rep | rewrite Ho by done; apply H].
    + intros h [= <-]. by apply hist_zero_rep.
  - destruct (bpf_update_err _ _ _ _ _ _ Eu N) as (Ho & Hex).
    assert (hists_rep hs' L) as H' by (intros k'; rewrite Ho; apply H).
    destruct (Z.eqb_spec err (- EEXIST)) as [F | _]; cbn [negb]; [|by split_and!].
    destruct (Hex F) as [h Hh]. congruence.
Qed.

Lemma delay_slot_range cfg d : 0 <= d -> 0 <= delay_slot cfg d < 17.
Proof.
  intros Hd. unfold delay_slot, MAX_TIME_POWER. pose proof (u8_range (log2l (if targ_ms cfg then d / 1000 / 1000 else d / 1000))).
  destruct (Z.leb_spec 16 (u8 (log2l (if targ_ms cfg then d / 1000 / 1000 else d / 1000)))); lia.
Qed.

(** An increment adds one sample. *)
Lemma inside_value_hist off n : sizeof_hist <= value_size -> off + n <= sizeof_hist -> inside_value off n = Some tt.
Proof. intros. unfold inside_value. by zdec. Qed.

Lemma slot_add_rep k h i L :
  sizeof_hist <= value_size -> 0 <= i < 17 -> hist_rep k h L -> exists h', slot_add h i = Some h' /\ hist_rep k h' ((k, i) :: L).
Proof.
  intros Hv Hi [Hl Hs]. unfold slot_add. rewrite inside_value_hist by (done || unfold sizeof_hist; lia). cbn [mbind option_bind].
  rewrite (Hs i Hi). eexists. split; [reflexivity|].
  split; cbn [slots]; [by rewrite length_insert|]. intros j Hj. rewrite count_cons.
  destruct (decide ((k, i) = (k, j))) as [E | N].
  - injection E as <-. rewrite list_lookup_insert_eq by lia. f_equal. unfold u32.
    rewrite Z.add_mod_idemp_l by lia. f_equal. lia.
  - rewrite list_lookup_insert_ne, (Hs j Hj); [done|]. intros E. apply N. f_equal. lia.
Qed.

Lemma store_rep hs k h' L i :
  is_Some (bpf_map_lookup_elem hs k) -> hists_rep hs L -> hist_rep k h' ((k, i) :: L) ->
  hists_rep (bpf_store hs k h') ((k, i) :: L).
Proof.
  intros Hs H Hh k'. destruct (bpf_store_spec hs k h' k' Hs) as [S1 S2].
  destruct (decide (k' = k)) as [-> | N]; [by rewrite S1|]. rewrite S2 by done. specialize (H k').
  assert (forall j, count k' j ((k, i) :: L) = count k' j L) as C.
  { intros j. rewrite count_cons. destruct (decide _) as [E | _]; [congruence | lia]. }
  destruct (bpf_map_lookup_elem hs k') as [h |]; [|intros j; by rewrite C].
  destruct H as [Hl Hj]. split; [done|]. intros j Hj'. rewrite C. by apply Hj.
Qed.

Lemma handle_switch_rep cfg e s L :
  sizeof_hist <= value_size -> hists_rep (hists s) L ->
  exists s', handle_switch cfg e s = Some s' /\ hists_rep (hists s') (option_list (sample_of cfg e s) ++ L) /\
    (is_Some (sample_of cfg e s) -> bpf_map_lookup_elem (start s') (t_pid (sw_next e)) = None).
Proof.
  intros Hv H. unfold handle_switch, sample_of. destruct (filter_cg cfg && negb (sw_cg e)).
  { eexists. split; [done|]. split; [done|]. by intros []. }
  set (st := if t_state _ =? _ then _ else _). destruct (bpf_map_lookup_elem st (t_pid (sw_next e))) as [ts |]; cbn [mbind option_bind].
  2: { eexists. split; [done|]. split; [done|]. by intros []. }
  destruct (Z.ltb_spec (i64 (sw_ns2 e - ts)) 0) as [L0 | L0].
  { eexists. split; [done|]. split; [done|]. by intros []. }
  pose proof (try_init_rep (hists s) (hist_key cfg (sw_next e)) L H) as T.
  destruct (bpf_map_lookup_or_try_init _ _ _) as [[h |] hs]; cbn [fst mbind option_bind]; destruct T as (Hr & Hlk & Hh).
  2: { eexists. split; [done|]. split; [done|]. by intros []. }
  rewrite !inside_value_hist by (done || unfold comm_off, sizeof_hist, TASK_COMM_LEN; lia). cbn [mbind option_bind].
  set (h1 := if _ =? 0 then Some _ else Some h).
  assert (exists h2, h1 = Some h2 /\ hist_rep (hist_key cfg (sw_next e)) h2 L) as (h2 & -> & H1).
  { destruct (Hh h eq_refl) as [Hl Hs]. unfold h1. destruct (_ =? 0); by eexists. }
  cbn [mbind option_bind].
  destruct (slot_add_rep _ h2 _ L Hv (delay_slot_range cfg _ L0) H1) as (h' & E & Hh'). rewrite E. cbn [mbind option_bind].
  eexists. split; [done|]. split; [|intros _; by apply bpf_delete_spec].
  apply store_rep; [rewrite <- Hlk; eauto | done | done].
Qed.

Lemma run_switches_rep cfg es : forall s L,
  sizeof_hist <= value_size -> hists_rep (hists s) L -> exists s', run_switches cfg es s = Some s' /\
    exists L', L' ≡ₚ samples cfg es s ++ L /\ hists_rep (hists s') L'.
Proof.
  induction es as [| e es IH]; intros s L Hv H; cbn [run_switches samples]; [eauto|].
  destruct (handle_switch_rep cfg e s L Hv H) as (s1 & E & H1 & _). rewrite E. cbn [mbind option_bind].
  destruct (IH s1 _ Hv H1) as (s' & E' & L' & P & H'). exists s'. split; [done|]. exists L'. split; [|done].
  rewrite P, !app_assoc. apply Permutation_app_tail, Permutation_app_comm.
Qed.

Lemma count_perm k i L L' : L ≡ₚ L' -> count k i L = count k i L'.
Proof. intros P. unfold count. by rewrite P. Qed.

End Runqlat.
Arguments runq : clear implicits.

Lemma delay_slot_log cfg d :
  0 <= d < 9223372036854775808 -> delay_slot cfg d = Z.min 16 (Z.log2 (if targ_ms cfg then d / 1000 / 1000 else d / 1000)).
Proof.
  intros Hd. unfold delay_slot, MAX_TIME_POWER. set (u := if targ_ms cfg then _ else _).
  assert (0 <= u < 18446744073709551616) as Hu by (unfold u; destruct (targ_ms cfg); div_lia).
  assert (log2l u = Z.log2 u /\ 0 <= Z.log2 u < 64) as [-> Hl].
  { destruct (Z.eq_dec u 0) as [-> | N]; [by vm_compute|].
    split; [apply log2l_log2; lia|]. split; [apply Z.log2_nonneg | apply Z.log2_lt_pow2; lia]. }
  rewrite u8_small by lia. destruct (Z.leb_spec 16 (Z.log2 u)); lia.
Qed.

(** ** sigsnoop *)

Record sig_event := SigEvent { ev_pid : Z; ev_tpid : Z; ev_sig : Z; ev_ret : Z; ev_comm : list Z }.

Section Sigsnoop.
Context {M : Type} `{!BpfMap Z sig_event M}.

(** [pid_tgid] is what [bpf_get_current_pid_tgid] returns. *)
Definition probe_entry (pid_tgid : Z) (com : list Z) (tpid sig : Z) (values : M) : M :=
  let tgid := u32 pid_tgid in
  snd (bpf_map_update_elem values tgid (SigEvent (u32 (Z.shiftr pid_tgid 32)) (u32 tpid) sig 0 com) BPF_ANY).

(** The event that is printed. *)
Definition probe_exit (pid_tgid ret : Z) (values : M) : option sig_event * M :=
  let tgid := u32 pid_tgid in
  match bpf_map_lookup_elem values tgid with
  | None => (None, values)
  | Some e => (Some (SigEvent (ev_pid e) (ev_tpid e) (ev_sig e) ret (ev_comm e)), bpf_map_delete_elem values tgid)
  end.

(** The arguments are the registers of the system call. *)
Definition kill_entry (pid_tgid : Z) (com : list Z) (args0 args1 : Z) (values : M) : M :=
  probe_entry pid_tgid com (i32 args0) (i32 args1) values.
Definition kill_exit (pid_tgid ret : Z) (values : M) : option sig_event * M := probe_exit pid_tgid (i32 ret) values.

(** The calls of the handlers by some thread. *)
Inductive sig_call := SEntry (pid_tgid : Z) (com : list Z) (args0 args1 : Z) | SExit (pid_tgid ret : Z).
Definition sig_thread (c : sig_call) : Z := match c with SEntry p _ _ _ | SExit p _ => u32 p end.
Definition sig_run (c : sig_call) (values : M) : M :=
  match c with SEntry p com a0 a1 => kill_entry p com a0 a1 values | SExit p ret => snd (kill_exit p ret values) end.

(** A call of one thread leaves the events of the others. *)
Lemma sig_run_other c values k :
  k <> sig_thread c -> bpf_map_lookup_elem (sig_run c values) k = bpf_map_lookup_elem values k.
Proof.
  destruct c as [p com a0 a1 | p ret]; simpl; intros N.
  - unfold kill_entry, probe_entry. destruct (bpf_map_update_elem _ _ _ _) as [e m] eqn:E. simpl.
    destruct (Z.eq_dec e 0) as [-> | Ne].
    + by apply (bpf_update_ok _ _ _ _ _ E).
    + by apply (bpf_update_err _ _ _ _ _ _ E Ne).
  - unfold kill_exit, probe_exit. destruct (bpf_map_lookup_elem values (u32 p)); simpl; [|done].
    by apply bpf_delete_spec.
Qed.

Lemma sig_runs_other cs values k :
  Forall (fun c => k <> sig_thread c) cs ->
  bpf_map_lookup_elem (foldl (fun m c => sig_run c m) values cs) k = bpf_map_lookup_elem values k.
Proof.
  revert values. induction cs as [| c cs IH]; intros values H; simpl; [done|].
  apply Forall_cons in H as [Hc Hcs]. rewrite IH by done. by apply sig_run_other.
Qed.

End Sigsnoop.

(** ** offcpu *)

Record trace_val := TraceVal { start_time : Z; user_stack_id : Z; kernel_stack_id : Z; tv_comm : list Z }.

(** Keys: (tgid, pid), and (tgid, pid, user stack, kernel stack, command). *)
Abbreviation ptrace_key := (Z * Z)%type.
Abbreviation stack_key := (Z * Z * Z * Z * list Z)%type.

Section Offcpu.
Context {MT MC : Type} `{!BpfMap ptrace_key trace_val MT} `{!BpfMap stack_key Z MC}.
Context (target_tgid : Z).

Definition try_record_start (prev_pid prev_tgid ns user_stack kernel_stack : Z) (com : list Z) (m : MT) : MT :=
  if (prev_pid =? 0) || (prev_tgid =? 0) || negb (prev_tgid =? target_tgid) then m
  else snd (bpf_map_update_elem m (prev_tgid, prev_pid) (TraceVal ns user_stack kernel_stack com) BPF_ANY).

Definition trace_key (tgid pid : Z) (val : trace_val) : stack_key :=
  (tgid, pid, user_stack_id val, kernel_stack_id val, tv_comm val).

Definition increment_us (pid tgid off_time_us : Z) (val : trace_val) (m : MC) : MC :=
  let key := trace_key tgid pid val in
  let result := match bpf_map_lookup_elem m key with
                | Some total => u64 (off_time_us + total) | None => off_time_us end in
  snd (bpf_map_update_elem m key result BPF_ANY).

Definition try_record_end (next_pid next_tgid ns : Z) (t : MT) (m : MC) : MC :=
  if (next_pid =? 0) || negb (next_tgid =? target_tgid) then m else
  match bpf_map_lookup_elem t (next_tgid, next_pid) with
  | None => m
  | Some val => increment_us next_pid next_tgid (u64 (ns - start_time val) / 1000) val m
  end.

(** The time that a stack was not running. *)
Definition off_time (m : MC) (key : stack_key) : Z := default 0 (bpf_map_lookup_elem m key).

Lemma increment_spec pid tgid us val m :
  0 <= us < 18446744073709551616 ->
  fst (bpf_map_update_elem m (trace_key tgid pid val) (u64 (us + off_time m (trace_key tgid pid val))) BPF_ANY) = 0 ->
  off_time (increment_us pid tgid us val m) (trace_key tgid pid val) = u64 (us + off_time m (trace_key tgid pid val)).
Proof.
  intros Hu Hok. unfold increment_us.
  assert (match bpf_map_lookup_elem m (trace_key tgid pid val) with Some total => u64 (us + total) | None => us end
          = u64 (us + off_time m (trace_key tgid pid val))) as ->.
  { unfold off_time. destruct (bpf_map_lookup_elem m _); simpl; [done|]. rewrite u64_small; lia. }
  destruct (bpf_map_update_elem _ _ _ _) as [e m'] eqn:E. simpl in *. subst e.
  unfold off_time at 1. by rewrite (proj1 (proj2 (bpf_update_ok _ _ _ _ _ E))).
Qed.

End Offcpu.

(** ** exitsnoop *)

Record kevent := KEvent { ke_pid : Z; ke_ppid : Z; exit_code : Z; duration_ns : Z; ke_comm : list Z }.

(** The event that is sent; [reserved] says whether there is room for it. *)
Definition handle_exit (tgid_pid : Z) (reserved : bool) (ns start_time parent_tgid code : Z) (com : list Z)
    : option kevent :=
  let tid := i32 (u32 tgid_pid) in
  let pid := i32 (u32 (Z.shiftr tgid_pid 32)) in
  if negb (pid =? tid) then None else
  if negb reserved then None else
  Some (KEvent pid (i32 parent_tgid) (Z.land (Z.shiftr code 8) 255) (u64 (ns - start_time)) com).

(** ** execsnoop *)

Record exec_event := ExecEvent { xe_pid : Z; xe_ppid : Z; xe_uid : Z; xe_ret : Z; xe_is_exit : Z; xe_comm : list Z }.

(** The event that is put out when a program is started. *)
Definition tp_syscalls_sys_enter_execve (id uid_gid parent_tgid : Z) (com : list Z) : exec_event :=
  let tgid := i32 (u32 (Z.shiftr id 32)) in
  ExecEvent tgid (i32 parent_tgid) (i32 (u32 uid_gid)) 0 0 com.

(** ** Theorems *)

(** runqlat: with values of the size of [hist_t] a run of scheduler switches never writes
    outside a histogram, and afterwards slot i of the histogram of a key holds the number
    of waits measured for that key that fall into slot i (modulo 2^32, the width of a
    slot); a key without a histogram has no waits.  The slot of a wait is the logarithm of
    its length in microseconds (milliseconds with targ_ms), 16 at most.  A switch that
    measures a wait forgets the time at which the wait began. *)
Lemma runqlat_histogram {MS MH : Type} `{!BpfMap Z Z MS} `{!BpfMap Z hist MH} (value_size : Z) (cfg : config)
    (es : list switch) (s : runq MS MH) :
  sizeof_hist <= value_size -> (forall k, bpf_map_lookup_elem (hists s) k = None) ->
  (exists s', run_switches value_size cfg es s = Some s' /\
     forall k, match bpf_map_lookup_elem (hists s') k with
               | Some h => length (slots h) = 17%nat /\
                   forall i, 0 <= i < 17 -> slots h !! Z.to_nat i = Some (u32 (count k i (samples value_size cfg es s)))
               | None => forall i, count k i (samples value_size cfg es s) = 0
               end) /\
  (forall d, 0 <= d < 9223372036854775808 ->
     delay_slot cfg d = Z.min 16 (Z.log2 (if targ_ms cfg then d / 1000 / 1000 else d / 1000))) /\
  (forall e, is_Some (sample_of cfg e s) ->
     exists s', handle_switch value_size cfg e s = Some s' /\ bpf_map_lookup_elem (start s') (t_pid (sw_next e)) = None).
Proof.
  intros Hv H0. assert (hists_rep (hists s) []) as Hr by (intros k; by rewrite H0).
  split; [|split; [apply delay_slot_log|]].
  - destruct (run_switches_rep value_size cfg es s [] Hv Hr) as (s' & E & L & P & H). exists s'. split; [done|].
    rewrite app_nil_r in P. intros k. specialize (H k).
    destruct (bpf_map_lookup_elem (hists s') k) as [h |].
    + destruct H as [Hl Hs]. split; [done|]. intros i Hi. rewrite <- (count_perm k i _ _ P). by apply Hs.
    + intros i. by rewrite <- (count_perm k i _ _ P).
  - intros e He. destruct (handle_switch_rep value_size cfg e s [] Hv Hr) as (s' & E & _ & F). eauto.
Qed.

(** With the values as they are declared, the first access to a histogram is outside of
    its value: no switch that measures a wait gets through. *)
Lemma runqlat_refused {MS MH : Type} `{!BpfMap Z Z MS} `{!BpfMap Z hist MH} (cfg : config) (e : switch) (s : runq MS MH) :
  is_Some (sample_of cfg e s) -> handle_switch hists_value_size cfg e s = None.
Proof.
  unfold handle_switch, sample_of. destruct (filter_cg cfg && negb (sw_cg e)); [by intros []|].
  set (st := if t_state _ =? _ then _ else _).
  destruct (bpf_map_lookup_elem st (t_pid (sw_next e))) as [ts |]; cbn [mbind option_bind]; [|by intros []].
  destruct (_ <? 0); [by intros []|]. destruct (bpf_map_lookup_or_try_init _ _ _) as [[h |] hs]; [done|by intros []].
Qed.

(** Tasks 7 and 8 of process 7 run in turn. *)
Definition demo_config : config := Config false true false false false 0.
Definition demo_task (pid : Z) : task := Task pid 7 TASK_RUNNING [97] 1.
Definition demo_switches : list switch :=
  [Switch (demo_task 7) (demo_task 8) 1000 1000 true;
   Switch (demo_task 8) (demo_task 7) 9001000 9001000 true;
   Switch (demo_task 7) (demo_task 8) 9011000 9011000 true].
Definition demo_runq : runq (bmap Z Z) (bmap Z hist) := Runq (BMap 4 ∅) (BMap 1 ∅).

Lemma demo_samples :
  samples sizeof_hist demo_config demo_switches demo_runq = [(7, 13); (7, 3)] /\
  run_switches hists_value_size demo_config demo_switches demo_runq = None.
Proof. by vm_compute. Qed.

(** C29: sigsnoop: when a thread enters kill and its event was stored, its exit from kill
    prints the process, the target, the signal, the command of the entry and the result
    of the exit, whatever other threads do in between; the event is then gone, so that
    another exit prints nothing.  The events of other threads are untouched. *)
Theorem sigsnoop_reports {M : Type} `{!BpfMap Z sig_event M} (values : M) (p : Z) (com : list Z)
    (args0 args1 ret : Z) (cs : list sig_call) :
  fst (bpf_map_update_elem values (u32 p)
         (SigEvent (u32 (Z.shiftr p 32)) (u32 (i32 args0)) (i32 args1) 0 com) BPF_ANY) = 0 ->
  Forall (fun c => u32 p <> sig_thread c) cs ->
  let m := foldl (fun m c => sig_run c m) (kill_entry p com args0 args1 values) cs in
  fst (kill_exit p ret m) =
    Some (SigEvent (u32 (Z.shiftr p 32)) (u32 (i32 args0)) (i32 args1) (i32 ret) com) /\
  (forall ret', fst (kill_exit p ret' (snd (kill_exit p ret m))) = None) /\
  (forall k, k <> u32 p -> bpf_map_lookup_elem (snd (kill_exit p ret m)) k = bpf_map_lookup_elem m k).
Proof.
  intros Hok Hcs m.
  assert (bpf_map_lookup_elem m (u32 p) = Some (SigEvent (u32 (Z.shiftr p 32)) (u32 (i32 args0)) (i32 args1) 0 com)) as E.
  { unfold m. rewrite sig_runs_other by done. unfold kill_entry, probe_entry.
    destruct (bpf_map_update_elem _ _ _ _) as [e m'] eqn:Eu. simpl in *. subst e. by apply (bpf_update_ok _ _ _ _ _ Eu). }
  unfold kill_exit, probe_exit. rewrite E. cbn [fst snd ev_pid ev_tpid ev_sig ev_comm].
  split; [done|]. split; [|intros k N; by apply bpf_delete_spec].
  intros ret'. by rewrite (proj1 (bpf_delete_spec m (u32 p) (u32 p)) eq_refl).
Qed.

Lemma sigsnoop_reports_witness :
  fst (kill_exit (4294967296 * 7 + 9) 0
    (foldl (fun m c => sig_run c m) (kill_entry (4294967296 * 7 + 9) [97] 5 15 (BMap 2 (∅ : gmap Z sig_event)))
       [SEntry 12 [98] 3 9; SExit 12 (-1); SExit 13 0])) = Some (SigEvent 7 5 15 0 [97]).
Proof.
  apply (sigsnoop_reports (BMap 2 (∅ : gmap Z sig_event)) (4294967296 * 7 + 9) [97] 5 15 0
           [SEntry 12 [98] 3 9; SExit 12 (-1); SExit 13 0]).
  - by vm_compute.
  - by repeat constructor.
Defined.

(** offcpu: a thread of the traced process that stops at time t0 and runs again at
    time t1 has (t1 - t0) / 1000 microseconds added to the total of the stack it stopped
    with, when both maps take the entries.  The record of the stop stays: running again
    at a later time t2 without a stop in between adds (t2 - t0) / 1000 as well.  With
    target_tgid 0, its initial value, no stop of any thread is recorded. *)
Theorem offcpu_total {MT MC : Type} `{!BpfMap ptrace_key trace_val MT} `{!BpfMap stack_key Z MC}
    (target pid t0 t1 t2 us ks : Z) (com : list Z) (t : MT) (m : MC) :
  pid <> 0 -> target <> 0 -> 0 <= t0 <= t1 -> t1 <= t2 < 18446744073709551616 ->
  let key := (target, pid, us, ks, com) in
  let t' := try_record_start target pid target t0 us ks com t in
  let m1 := try_record_end target pid target t1 t' m in
  fst (bpf_map_update_elem t (target, pid) (TraceVal t0 us ks com) BPF_ANY) = 0 ->
  (forall v, fst (bpf_map_update_elem m key v BPF_ANY) = 0 /\ fst (bpf_map_update_elem m1 key v BPF_ANY) = 0) ->
  off_time m1 key = u64 ((t1 - t0) / 1000 + off_time m key) /\
  off_time (try_record_end target pid target t2 t' m1) key =
    u64 ((t2 - t0) / 1000 + ((t1 - t0) / 1000 + off_time m key)) /\
  (forall p g ns, try_record_start 0 p g ns us ks com t = t).
Proof.
  intros Np Nt H01 H12 key t' m1 Ht Hm.
  assert (bpf_map_lookup_elem t' (target, pid) = Some (TraceVal t0 us ks com)) as E.
  { unfold t', try_record_start. rewrite (proj2 (Z.eqb_neq _ _) Np), (proj2 (Z.eqb_neq _ _) Nt), Z.eqb_refl. simpl.
    destruct (bpf_map_update_elem _ _ _ _) as [e t1'] eqn:Eu. simpl in *. subst e. by apply (bpf_update_ok _ _ _ _ _ Eu). }
  assert (forall ns m0, t0 <= ns < 18446744073709551616 ->
    (forall v, fst (bpf_map_update_elem m0 key v BPF_ANY) = 0) ->
    off_time (try_record_end target pid target ns t' m0) key = u64 ((ns - t0) / 1000 + off_time m0 key)) as R.
  { intros ns m0 Hn Hu. unfold try_record_end. rewrite (proj2 (Z.eqb_neq _ _) Np), Z.eqb_refl, E. simpl.
    rewrite u64_small by lia. apply (increment_spec pid target _ (TraceVal t0 us ks com)); [div_lia | apply Hu]. }
  split; [apply R; [lia | apply Hm]|]. split.
  - rewrite R by (lia || apply Hm). unfold m1. rewrite R by (lia || apply Hm). unfold u64.
    by rewrite Z.add_mod_idemp_r by lia.
  - intros p g ns. unfold try_record_start. by destruct (p =? 0), (g =? 0).
Qed.

Lemma offcpu_total_witness :
  let t : bmap ptrace_key trace_val := BMap 1 ∅ in
  let m : bmap stack_key Z := BMap 1 ∅ in
  let t' := try_record_start 7 8 7 1000 3 4 [97] t in
  off_time (try_record_end 7 8 7 9000 t' (try_record_end 7 8 7 5000 t' m)) (7, 8, 3, 4, [97]) =
    u64 ((9000 - 1000) / 1000 + ((5000 - 1000) / 1000 + off_time m (7, 8, 3, 4, [97]))).
Proof.
  apply (offcpu_total 7 8 1000 5000 9000 3 4 [97] (BMap 1 (∅ : gmap ptrace_key trace_val)) (BMap 1 (∅ : gmap stack_key Z)));
    try lia; [by vm_compute | intros v; by vm_compute].
Defined.

(** exitsnoop: the exit of a process is reported with the status it passed to exit and
    the time since its start, the exit of a thread that does not lead its process is not. *)
Lemma exitsnoop_reports (pid tid ns start parent status sig : Z) (com : list Z) :
  0 <= pid < 2147483648 -> 0 <= tid < 4294967296 -> 0 <= start <= ns -> ns < 18446744073709551616 ->
  0 <= parent < 2147483648 -> 0 <= status < 256 -> 0 <= sig < 256 ->
  handle_exit (4294967296 * pid + tid) true ns start parent (256 * status + sig) com =
    if pid =? tid then Some (KEvent pid parent status (ns - start) com) else None.
Proof.
  intros Hp Ht Hs Hn Hpar Hst Hsig. unfold handle_exit.
  rewrite !Z.shiftr_div_pow2 by lia. change (2 ^ 32) with 4294967296. change (2 ^ 8) with 256. change 255 with (Z.ones 8).
  rewrite Z.land_ones by lia. change (2 ^ 8) with 256.
  replace ((4294967296 * pid + tid) / 4294967296) with pid by div_lia.
  replace ((256 * status + sig) / 256 mod 256) with status by div_lia.
  replace (u32 (4294967296 * pid + tid)) with tid by (unfold u32; div_lia).
  rewrite (u32_small pid), (u64_small (ns - start)), (i32_small pid), (i32_small parent) by lia.
  destruct (Z.eqb_spec pid tid) as [<- | N]; [by rewrite i32_small, Z.eqb_refl by lia|].
  assert (pid <> i32 tid) as N' by (unfold i32; div_lia). by rewrite (proj2 (Z.eqb_neq _ _) N').
Qed.

(** A process that starts a program and then exits is reported with the same number. *)
Lemma exec_exit_same_pid id uid_gid parent1 parent2 com1 com2 reserved ns start code e :
  handle_exit id reserved ns start parent2 code com2 = Some e ->
  xe_pid (tp_syscalls_sys_enter_execve id uid_gid parent1 com1) = ke_pid e.
Proof. unfold handle_exit. destruct (negb (_ =? _)), (negb reserved); try done. by intros [= <-]. Qed.
